(* ===== verification/_CoqProject ===== *)
-Q . S2P
Prelude.v
TimeArith.v
Timers.v
TimersProps.v
TimersThms.v
SysVSem.v
SysVMsg.v
RefKernel.v
Semaphore.v
SemaphoreProps.v
SemaphoreThms.v
SemNamed.v
PosixMman.v
Mqueue.v
MqueueThms.v
Lts.v
ConPro.v
Philosopher.v
ReaderWriter.v
Barber.v
MultiConPro.v
SemLock.v
TestSem.v
Scenarii.v
SemApi.v
SemTests.v
SemTestsThms.v
MqApi.v
MqTests.v
MqTestsThms.v
MqStress.v
MqFunctional.v
SigApi.v
SigProc.v
SigKernel.v
SigRules.v
SigactionTests.v
SigRace.v
SigactionFiles.v
SigactionThms.v
SigactionSuite.v
SignalApi.v
SignalTests.v
SignalThms.v
SignalSuite.v
CLang.v
Explore.v
Runs.v
PtLang.v
PtSem.v
PtMutexTests.v
PtCondTests.v
PtRwlockTests.v
PtBarrierTests.v
PtThreadTests.v
PtCancelTests.v
PtAttrTests.v
PtScenarioTests.v
EintrTests.v
EintrLoops.v
EintrThreads.v
EintrSuite.v
PtPasses.v
PtSuite.v
OsBytes.v
OsLang.v
OsState.v
OsConf.v
OsIo.v
OsSem.v
OsTimeTests.v
OsSignalTests.v
OsMqTests.v
OsSemTests.v
OsAioTests.v
OsMemoryTests.v
OsSchedTests.v
OsFunctionalTests.v
OsPasses.v
OsSuite.v
