(* ===== verification/Prelude.v ===== *)
(** * Open POSIX Test Suite: verification library

    The repository is a test suite for POSIX threads, timers, semaphores and
    message queues, with a library (src/posix1b) that implements the realtime
    interfaces on older systems. This development models the library, the
    functional and stress programs on semaphores, message queues, clocks and timers,
    and a part of the conformance tests, and proves what they guarantee.

    ** Parts and files

    The library, src/posix1b:
    - TimeArith: [compare_time], [add_time], [subtract_time] of posix_time.c on
      [struct timeval], with 64-bit wrap-around.
    - Timers: the rest of posix_time.c. The static variables, the heap of
      [timer] structs, the signal handlers and the interval timer of the
      process are the record [tstate]; every function is one definition
      ([timer_create], [timer_settime], [timer_gettime], [timer_delete],
      [timer_handler], the clock calls). Pointers are numbers, NULL is 0, a
      [timer **] is a [ploc]. The wall clock, what [setitimer] gives back and
      [malloc] are arguments; the user's signal handlers are a function on the
      state. TimersProps has the list invariant and the lemmas, TimersThms the
      theorems.
    - SysVSem, SysVMsg: the classes [FileSys], [SemKernel], [MsgKernel] of the
      system calls that the library makes, and the classes of their laws.
      RefKernel is an executable kernel that meets them. All theorems on the
      library hold for every kernel with the laws, unless they say otherwise.
    - Semaphore: semaphore.c; its state [sstate] has the hash table of
      identifiers with its linked items, the mutex, the heap and the kernel.
      SemaphoreProps, SemaphoreThms and SemNamed have its theorems.
    - Mqueue, MqueueThms: mqueue.c, with the notification request that all
      descriptors of a queue share through the file of its name.
    - PosixMman: posix_mman.c; shared memory objects have the names of semaphores
      and queues.
    - TestSem: testsem.c, two processes with two semaphores and shared counters.

    The programs of src/functional and src/stress:
    - Lts: threads that a scheduler interleaves. A step is one access to a
      semaphore or to shared data; a schedule also says which library calls
      fail.
    - ConPro (sem_conpro.c), Philosopher (sem_philosopher.c), ReaderWriter
      (sem_readerwriter.c), Barber (sem_sleepingbarber.c), MultiConPro
      (multi_con_pro.c): the program counters and variables of the threads, one
      step function for each thread function, and [main]. SemLock (sem_lock.c): a
      chain of processes, each with its copy of the semaphore.
    - MqStress (multi_send_rev_1.c, multi_send_rev_2.c), MqFunctional (send_rev_2.c):
      pairs of threads on message queues. Their calls are those of the interface MqApi,
      so that the theorems hold for every system with its laws.
    - OsFunctionalTests: the programs on clocks and timers and send_rev_1.c, as tests
      of a system with processes (below).

    The tests of src/conformance/interfaces:
    - SemApi, MqApi: the calls that the tests make as classes, the laws of the
      standard that they rely on, an instance that meets the laws, and the
      library of src/posix1b as an instance of the calls.
    - SemTests, MqTests: the [main] of 35 tests of sem_* and 32 of mq_*, over
      any instance of the calls, with the exit status as result.
    - SemTestsThms, MqTestsThms: their verdicts.
    - SigApi: signal numbers, actions and sets, the class [SigSys] of the signal
      calls, the view [sigview] of a process (actions, mask, pending signals,
      masks saved by running handlers, alternate stack) and the class [SigLaws]
      that says how each call and each delivery changes it. SigKernel is an
      executable system; its [quirks] are ways to deviate from the standard, and
      without quirks it meets the laws. SignalApi adds [sighold], [sigrelse],
      [sigignore], [sigset] and [kill].
    - SigProc: C code in a process that receives signals: variables, [errno],
      [exit], [fork] and [wait], and handlers that run when a system call
      returns ([deliver]). SigRules has a rule for each call.
    - SigactionTests: the programs of sigaction/n-1.c, one for each family of
      files that differ in the signal only; SigactionFiles names the program of
      each of the 520 files; SigRace has the two families in which a thread or a
      process is interrupted in a call, as steps of Lts. SigactionThms and
      SigactionSuite have the theorems.
    - SignalTests, SignalThms, SignalSuite: the tests of the sets of signals,
      sigprocmask, sigpending, raise, kill, signal, sighold, sigrelse, sigignore
      and sigset.
    - CLang: a small language of C programs whose threads or processes a scheduler
      interleaves: expressions on variables of the program, of a thread and elements
      of arrays, assignments, conditions, loops and calls, compiled to lists of
      instructions with jumps. The calls are a parameter of the language.
    - Explore: exploration of finite systems of steps. [explore] lists the states that
      can be reached and is proved to miss none; that a final state can be reached from
      each is checked with ranks. Runs: the class [System] and what a program can do
      under every schedule ([always_ends], [can_end], [can_block], [hangs]).
    - PtLang: the calls of pthread_* and sem_*, sleeping, alarms, signals to threads,
      handlers and cleanup functions. PtSem: what they do; a state is the memory,
      the synchronisation objects, the threads and the virtual time, and [steps]
      lists what a scheduler can choose. [conf] is the system: [ideal] as the
      standard says and prompt, others with spurious wakeups, delays, or one of
      18 faults.
    - PtMutexTests, PtCondTests, PtRwlockTests, PtBarrierTests (barriers and spin
      locks), PtThreadTests (creation, joining, detaching, keys, once),
      PtCancelTests, PtAttrTests, PtScenarioTests (threads for each row of a table of
      attributes): 240 tests of these interfaces; the program of
      pthread_mutex_lock/4-1.c is [mutex_lock_4_1]. PtPasses, PtSuite: their
      verdicts.
    - Scenarii: the table of threads_scenarii.c and its [main], with the threads of
      pthread_exit/6-2.c, as steps of Lts.
    - EintrTests: what 19 tests share that calls do not return EINTR (pthread_once/6-1.c,
      pthread_cond_wait/4-1.c and others): [main], two senders of signals and their
      handlers, interleaved with a [group] of threads that use an interface. The record
      [lawful] says what a group promises; EintrLoops: one thread with a loop of calls is
      lawful, and eleven such tests; EintrThreads: threads that create threads (join/6-3,
      create/14-1, detach/4-3, cancel/5-2) or wait for a condition (cond_wait/4-1,
      cond_signal/4-2, cond_broadcast/4-2, cond_timedwait/4-3). EintrSuite: the theorems.
    - OsLang: the calls of processes ([fork], [wait], signals with queues and values,
      clocks, sleeping, timers, message queues, semaphores, files, memory, asynchronous
      requests, scheduling parameters, a few of pthread). OsState: the state of
      a system with processes; OsBytes: the contents of files and memory, as runs of
      equal bytes; OsConf: systems and their 37 faults ([os_ideal], [os_slow] with
      delays, [os_fault]); OsIo: files, mappings and requests; OsSem: all calls,
      delivery of signals, expiration of timers, completion of requests, and [steps].
    - OsTimeTests, OsSignalTests, OsMqTests, OsSemTests, OsAioTests, OsMemoryTests,
      OsSchedTests: the programs of conformance/interfaces/{nanosleep, clock_*, timer_*,
      time}, {kill, killpg, sig*, pthread_kill, pthread_sigmask}, {mq_*}, {sem_*, fork,
      sched_yield}, {aio_*, lio_listio}, {mmap, munmap, mlock*, munlock*, shm_*},
      {sched_*}; the program of mmap/6-1.c is [mmap_6_1]. Functions of a file that it
      calls are functions of the program, tables are arrays, names of files are numbers
      or texts. OsPasses, OsSuite: their verdicts.

    ** Theorems

    - Time arithmetic is exact on normalised times; [add_time] leaves 1000000
      microseconds without a carry.
    - Timers: arming, stopping, reading and deleting a timer do what they
      should and keep the list well formed; the handler runs the handler of
      every expired timer once, moves periodic timers on and removes one-shot
      timers, unless two one-shot timers that are neighbours in the list expire
      together.
    - Semaphores: the table is a map from keys to the latest identifier, the
      calls are those of a counting semaphore, named semaphores count their
      descriptors and go away with the last one; and where this fails: private
      semaphores share a key, removal frees the wrong item, the first use of a
      semaphore of another process fails, a lost set leaves the mutex locked,
      a stale set gives a new semaphore a wrong value.
    - Message queues: first in first out for each priority, highest priority
      first; notification once; and where messages are lost or names cannot be
      unlinked.
    - Programs: for every schedule and every pattern of failing calls, mutual
      exclusion and conservation of items; when no call fails, every maximal
      schedule ends with all threads done and a bound on its steps (except the
      barber, who waits for customers for ever). Messages are neither lost nor copied
      between threads. The processes of sem_lock.c exclude nobody.
    - Tests: an implementation with the laws passes; which process ids
      overflow the name buffers; the verdicts of the library of src/posix1b.
    - Tests of signals: a system with the laws passes all files of sigaction
      that run in one process, and 56 tests of the other functions; the exit
      codes that are possible on any system; which deviations the files detect
      and which they do not; two independent tests of one assertion agree; three
      tests of sigset that no system with the laws passes. The files with
      interrupted calls are decided under every schedule.
    - Tests of threads: under every schedule 216 tests pass on a conforming, prompt
      system and can always still end; which of them finds which fault; which
      fail on systems with spurious wakeups or delays, though these conform; two
      with races; 21 with undefined behaviour. The [main] of threads_scenarii.c is
      decided for every table; it can free the stack of a running thread. The tests
      that calls do not return EINTR report only what a call returned, under every
      schedule; sixteen can wait for ever for a handler that no thread runs, the other
      three can be killed by their own signals.
    - Tests of processes, signals, time, queues, files and memory: 406 pass under
      every schedule on a conforming, prompt system and can always still end; 34 faults
      for which a test fails under every schedule, and three for which none does; 63
      tests that count on delays; tests that judge wrongly.

    ** Fuel and bounds

    The walks of linked lists take the size of the heap (plus two) as fuel: the
    theorems show that well-formed lists never use it up. The retry loop of
    [sem_open] has an explicit fuel argument; two rounds are enough for a
    semaphore that exists and one for a new one, as the theorems state. The fuel
    of [deliver] bounds the signals that one call delivers, handlers within
    handlers included: one to three rounds are enough for each family, as the
    theorems state; the runs on systems with quirks have nine. [int] is 32
    bits and [long] 64 bits, wrapped where the code can overflow. The exploration
    of the tests of threads and processes has fuel for 20000 steps, and fails when that
    is not enough, so that no theorem holds because it stopped too early. Accesses to
    memory by threads are sequentially
    consistent, and variables of these programs never come near the limits of
    [int]. On a prompt system time passes only when no thread can move.

    ** Not modelled

    testmsg.c and testimer.c of the library (a user types commands, or reads measured
    times); the adjustments of SEM_UNDO when a process exits; the families 9, 10, 11, 21 and
    29 of sigaction (stopped and zombie children, clocks); the tests of threads
    that need more than four of them (the number of schedules is too large to
    explore), that share objects between processes (the memory of PtSem belongs to one
    process), depend on priorities, or exhaust the memory;
    tests of other users and permissions (all processes are privileged), of limits of
    resources and names, with pipes, [exec], floating point or CPU-time clocks, with
    more than 16 control blocks, and with the sporadic server, which the modelled system
    does not have; the functional programs on the scheduling of threads and on robust
    mutexes, and stress programs that run until they are stopped; the scripts and tools.
    In the model of asynchronous requests those of a process complete in their order;
    that control blocks are freed too early is not seen. lio_listio/8-1.c and 9-1.c and
    some of aio_suspend are programs of OsAioTests without a theorem: they have many
    states, or judge by how fast requests complete.

    What could be added: memory that processes share in PtSem, for the tables of
    pthread_cond_init and the like; sigaltstack, the other tests of pthread_atfork and the rest of fork; the
    library of src/posix1b as an instance of the laws of SemApi on kernels with enough
    space. *)

From stdpp Require Import base tactics numbers list gmap strings.

(** ** Outcomes of C code

    A C function either returns a value, or fails with [-1] and [errno] set,
    or puts its caller to sleep (a blocking system call whose condition does
    not hold), or runs into undefined behaviour (a dangling pointer is read),
    or is still looping when the fuel of the model is used up. *)

Inductive errno : Set :=
| EINVAL | ENOENT | EEXIST | ENOMEM | ENOSPC | EAGAIN | ERANGE | EFAULT
| EBUSY | E2BIG | EFBIG | ENOMSG | EACCES | EINTR | EPERM | EBADF | EDEADLK
| ETIMEDOUT | EMSGSIZE | ESRCH | ECHILD | EIO | ENXIO | ENODEV | ESPIPE | ENAMETOOLONG
| EOVERFLOW | ENOTSUP | EINPROGRESS | ECANCELED.

#[global] Instance errno_eq_dec : EqDecision errno.
Proof. solve_decision. Defined.

Inductive out (A : Type) : Type :=
| Val (a : A)
| Fail (e : errno)
| Sleep
| UB
| AssertFail
| NoFuel.
Arguments Val {A} a.
Arguments Fail {A} e.
Arguments Sleep {A}.
Arguments UB {A}.
Arguments AssertFail {A}.
Arguments NoFuel {A}.

#[global] Instance out_eq_dec {A} `{EqDecision A} : EqDecision (out A).
Proof. solve_decision. Defined.

(** The C idiom [f(...) == -1] of a caller: did the call fail? *)
Definition failed {A} (r : out A) : bool :=
  match r with Fail _ => true | _ => false end.

(** ** State passing with outcomes

    [M S A] is C code that works on the state [S]; a failing call returns to
    its caller at once ([return -1]), [attempt] is a call whose result the C
    code inspects or ignores. *)

Definition M (S A : Type) : Type := S → out A * S.

#[global] Instance M_ret {S} : MRet (M S) := λ A a s, (Val a, s).

#[global] Instance M_bind {S} : MBind (M S) := λ A B f c s,
  match c s with
  | (Val a, s') => f a s'
  | (Fail e, s') => (Fail e, s')
  | (Sleep, s') => (Sleep, s')
  | (UB, s') => (UB, s')
  | (AssertFail, s') => (AssertFail, s')
  | (NoFuel, s') => (NoFuel, s')
  end.

Definition get {S} : M S S := λ s, (Val s, s).
Definition gets {S A} (f : S → A) : M S A := λ s, (Val (f s), s).
Definition modify {S} (f : S → S) : M S unit := λ s, (Val tt, f s).
Definition fail {S A} (e : errno) : M S A := λ s, (Fail e, s).
Definition undefined {S A} : M S A := λ s, (UB, s).
Definition sleep {S A} : M S A := λ s, (Sleep, s).
Definition no_fuel {S A} : M S A := λ s, (NoFuel, s).

(** [assert(b)] *)
Definition assert_c {S} (b : bool) : M S unit := λ s,
  if b then (Val tt, s) else (AssertFail, s).

Definition attempt {S A} (c : M S A) : M S (A + errno) := λ s,
  match c s with
  | (Val a, s') => (Val (inl a), s')
  | (Fail e, s') => (Val (inr e), s')
  | (Sleep, s') => (Sleep, s')
  | (UB, s') => (UB, s')
  | (AssertFail, s') => (AssertFail, s')
  | (NoFuel, s') => (NoFuel, s')
  end.

(** [if (guard) { errno = e; return -1; }] *)
Definition fail_if {S} (b : bool) (e : errno) : M S unit :=
  if b then fail e else mret tt.

Definition when {S} (b : bool) (c : M S unit) : M S unit :=
  if b then c else mret tt.

Lemma bind_val {S A B} (c : M S A) (f : A → M S B) s a s' :
  c s = (Val a, s') → (c ≫= f) s = f a s'.
Proof. intros H. unfold mbind, M_bind. by rewrite H. Qed.

Lemma bind_fail {S A B} (c : M S A) (f : A → M S B) s e s' :
  c s = (Fail e, s') → (c ≫= f) s = (Fail e, s').
Proof. intros H. unfold mbind, M_bind. by rewrite H. Qed.

Lemma attempt_val {S A} (c : M S A) s a s' :
  c s = (Val a, s') → attempt c s = (Val (inl a), s').
Proof. intros H. unfold attempt. by rewrite H. Qed.

Lemma attempt_fail {S A} (c : M S A) s e s' :
  c s = (Fail e, s') → attempt c s = (Val (inr e), s').
Proof. intros H. unfold attempt. by rewrite H. Qed.

(** ** Exit codes of tests

    include/posixtest.h *)

Definition PTS_PASS : Z := 0.
Definition PTS_FAIL : Z := 1.
Definition PTS_UNRESOLVED : Z := 2.
Definition PTS_UNSUPPORTED : Z := 4.
Definition PTS_UNTESTED : Z := 5.

(** ** Machine integers

    [wrap n z] is the value of a signed [n]-bit integer that is given [z];
    [i16], [i32] and [i64] are C's [short], [int] and [long] on the LP64
    platforms the sources are built for. *)

Definition wrap (n z : Z) : Z := (z + 2 ^ (n - 1)) `mod` 2 ^ n - 2 ^ (n - 1).
Definition i16 (z : Z) : Z := wrap 16 z.
Definition i32 (z : Z) : Z := wrap 32 z.
Definition i64 (z : Z) : Z := wrap 64 z.
Definition u32 (z : Z) : Z := z `mod` 2 ^ 32.

Lemma wrap_id n z : (0 < n)%Z → (- 2 ^ (n - 1) ≤ z < 2 ^ (n - 1))%Z → wrap n z = z.
Proof.
  intros Hn Hz. unfold wrap.
  assert (2 ^ n = 2 * 2 ^ (n - 1))%Z as Hp.
  { rewrite <- Z.pow_succ_r by lia. f_equal. lia. }
  rewrite Z.mod_small; lia.
Qed.

Lemma i64_id z : (- 9223372036854775808 ≤ z < 9223372036854775808)%Z → i64 z = z.
Proof. intros H. apply wrap_id; [lia|]. exact H. Qed.

Lemma i32_id z : (- 2147483648 ≤ z < 2147483648)%Z → i32 z = z.
Proof. intros H. apply wrap_id; [lia|]. exact H. Qed.

Lemma i16_id z : (- 32768 ≤ z < 32768)%Z → i16 z = z.
Proof. intros H. apply wrap_id; [lia|]. exact H. Qed.

(** A C flag word [w] has a bit of the mask [m] set: [w & m]. *)
Definition has (w m : Z) : bool := negb (Z.land w m =? 0)%Z.

(** ** Proof automation *)

Create HintDb pts.

(** Case analysis on the boolean tests of the translated code, turning each
    into the proposition it decides. *)
Ltac bool_case :=
  match goal with
  | |- context [(?a =? ?b)%Z] => destruct (Z.eqb_spec a b)
  | |- context [(?a <? ?b)%Z] => destruct (Z.ltb_spec a b)
  | |- context [(?a <=? ?b)%Z] => destruct (Z.leb_spec a b)
  | H : context [(?a =? ?b)%Z] |- _ => destruct (Z.eqb_spec a b)
  | H : context [(?a <? ?b)%Z] |- _ => destruct (Z.ltb_spec a b)
  | H : context [(?a <=? ?b)%Z] |- _ => destruct (Z.leb_spec a b)
  end.

(** Run monadic code: unfold the combinators and compute. *)
Ltac mrun :=
  unfold attempt, fail_if, when, mbind, M_bind, mret, M_ret, get, gets, modify,
    fail, undefined, sleep, no_fuel, assert_c;
  cbn beta iota zeta.

(** Decides a closed decidable goal by computation. *)
Ltac decide_now := refine (bool_decide_unpack _ _); vm_compute; exact I.
