(* ===== verification/TimeArith.v ===== *)
(** * Time arithmetic of the POSIX.1b library

    The three helpers [compare_time], [add_time] and [subtract_time] at the end
    of src/posix1b/posix_time.c, on [struct timeval] with 64-bit fields, and
    what they compute on normalised values. *)

From stdpp Require Import base tactics numbers.
From S2P Require Import Prelude.

Open Scope Z_scope.

Record timeval : Set := Timeval { tv_sec : Z; tv_usec : Z }.

#[global] Instance timeval_eq_dec : EqDecision timeval.
Proof. solve_decision. Defined.

Definition compare_time (t1 t2 : timeval) : Z :=
  if tv_sec t1 <? tv_sec t2 then -1
  else if tv_sec t2 <? tv_sec t1 then 1
  else i32 (i64 (tv_usec t1 - tv_usec t2)).

Definition add_time (t1 t2 : timeval) : timeval :=
  let sec := i64 (tv_sec t1 + tv_sec t2) in
  let usec := i64 (tv_usec t1 + tv_usec t2) in
  if 1000000 <? usec
  then Timeval (i64 (sec + 1)) (i64 (usec - 1000000))
  else Timeval sec usec.

Definition subtract_time (t1 t2 : timeval) : timeval :=
  let sec := i64 (tv_sec t1 - tv_sec t2) in
  let usec := i64 (tv_usec t1 - tv_usec t2) in
  if usec <? 0
  then Timeval (i64 (sec - 1)) (i64 (usec + 1000000))
  else Timeval sec usec.

(** A normalised value whose seconds are far from the limits of [time_t]. *)
Definition norm (t : timeval) : Prop :=
  0 ≤ tv_usec t < 1000000 ∧ - 2 ^ 62 < tv_sec t < 2 ^ 62.

(** What [add_time] guarantees of its result: the microseconds may also be
    exactly one million. *)
Definition weak_norm (t : timeval) : Prop :=
  0 ≤ tv_usec t ≤ 1000000 ∧ - 2 ^ 62 < tv_sec t < 2 ^ 62.

#[global] Instance norm_dec t : Decision (norm t).
Proof. unfold norm. solve_decision. Defined.
#[global] Instance weak_norm_dec t : Decision (weak_norm t).
Proof. unfold weak_norm. solve_decision. Defined.

(** The time in microseconds. *)
Definition us (t : timeval) : Z := tv_sec t * 1000000 + tv_usec t.

Definition zero_time : timeval := Timeval 0 0.

(** [t.tv_sec == 0 && t.tv_usec == 0] *)
Definition is_zero (t : timeval) : bool := (tv_sec t =? 0) && (tv_usec t =? 0).

Lemma is_zero_spec t : is_zero t = true ↔ t = zero_time.
Proof.
  destruct t as [s u]. unfold is_zero, zero_time; simpl. split.
  - intros [->%Z.eqb_eq ->%Z.eqb_eq]%andb_prop. done.
  - by intros [= -> ->].
Qed.

Lemma norm_weak t : norm t → weak_norm t.
Proof. unfold norm, weak_norm. lia. Qed.
#[export] Hint Resolve norm_weak : pts.

(** Removes the 64-bit wrap-arounds of a goal whose operands are bounded. *)
Ltac unwrap64 :=
  repeat match goal with
  | |- context [i64 ?z] => rewrite (i64_id z) by (simpl in *; lia)
  end.

Lemma us_inj t1 t2 : norm t1 → norm t2 → us t1 = us t2 → t1 = t2.
Proof.
  destruct t1, t2. unfold norm, us; simpl. intros [??] [??] ?. f_equal; lia.
Qed.

Lemma add_time_us t1 t2 :
  weak_norm t1 → weak_norm t2 → us (add_time t1 t2) = us t1 + us t2.
Proof.
  destruct t1, t2. unfold weak_norm, add_time, us; simpl. intros [??] [??].
  unwrap64. bool_case; unwrap64; simpl; lia.
Qed.

Lemma subtract_time_us t1 t2 :
  weak_norm t1 → weak_norm t2 → us (subtract_time t1 t2) = us t1 - us t2.
Proof.
  destruct t1, t2. unfold weak_norm, subtract_time, us; simpl. intros [??] [??].
  unwrap64. bool_case; unwrap64; simpl; lia.
Qed.

Lemma add_time_usec t1 t2 :
  weak_norm t1 → norm t2 → 0 ≤ tv_usec (add_time t1 t2) ≤ 1000000.
Proof.
  destruct t1, t2. unfold weak_norm, norm, add_time; simpl. intros [??] [??].
  unwrap64. bool_case; unwrap64; simpl; lia.
Qed.

Lemma compare_time_sgn t1 t2 :
  norm t1 → norm t2 → Z.sgn (compare_time t1 t2) = Z.sgn (us t1 - us t2).
Proof.
  destruct t1 as [s1 u1], t2 as [s2 u2].
  unfold norm, compare_time, us; simpl. intros [??] [??].
  repeat bool_case; [rewrite !Z.sgn_neg by lia; done|rewrite !Z.sgn_pos by lia; done|].
  unwrap64. rewrite i32_id by lia. f_equal. lia.
Qed.

Lemma compare_time_lt t1 t2 :
  norm t1 → norm t2 → compare_time t1 t2 < 0 ↔ us t1 < us t2.
Proof.
  intros H1 H2. pose proof (compare_time_sgn t1 t2 H1 H2) as H.
  split; intros Hlt.
  - rewrite Z.sgn_neg in H by done. symmetry in H. apply Z.sgn_neg_iff in H. lia.
  - rewrite (Z.sgn_neg (us t1 - us t2)) in H by lia. by apply Z.sgn_neg_iff in H.
Qed.

Lemma compare_time_ge t1 t2 :
  norm t1 → norm t2 → 0 ≤ compare_time t1 t2 ↔ us t2 ≤ us t1.
Proof. intros H1 H2. pose proof (compare_time_lt t1 t2 H1 H2). lia. Qed.

(** ** The properties of the three helpers *)

(** [compare_time] orders normalised times: the sign of the [int] it
    returns is the sign of the exact difference in microseconds, so it is 0
    exactly for equal times, in spite of the narrowing of a [long] difference
    to [int]. *)
Theorem compare_time_orders t1 t2 :
  norm t1 → norm t2 →
  Z.sgn (compare_time t1 t2) = Z.sgn (us t1 - us t2) ∧
  (compare_time t1 t2 = 0 ↔ t1 = t2).
Proof.
  intros H1 H2. pose proof (compare_time_sgn t1 t2 H1 H2) as H. split; [done|].
  rewrite <- Z.sgn_null_iff, H, Z.sgn_null_iff. split.
  - intros Heq. apply us_inj; [done..|lia].
  - intros ->. lia.
Qed.

Lemma compare_time_orders_witness :
  Z.sgn (compare_time (Timeval 3 999999) (Timeval 4 0)) =
    Z.sgn (us (Timeval 3 999999) - us (Timeval 4 0)) ∧
  (compare_time (Timeval 3 999999) (Timeval 4 0) = 0 ↔
     Timeval 3 999999 = Timeval 4 0).
Proof. apply compare_time_orders; unfold norm; simpl; lia. Defined.

(** [add_time] adds exactly, and its result is normalised except when the
    microseconds add up to exactly one million: the code carries on
    [> 1000000] where a normalising addition carries on [>= 1000000]. *)
Theorem add_time_exact t1 t2 :
  norm t1 → norm t2 →
  us (add_time t1 t2) = us t1 + us t2 ∧
  0 ≤ tv_usec (add_time t1 t2) ≤ 1000000 ∧
  (tv_usec (add_time t1 t2) = 1000000 ↔ tv_usec t1 + tv_usec t2 = 1000000).
Proof.
  intros H1 H2. split; [by apply add_time_us; auto with pts|].
  split; [by apply add_time_usec; auto with pts|].
  destruct t1, t2. unfold norm, add_time in *; simpl in *.
  unwrap64. bool_case; unwrap64; simpl; lia.
Qed.

Lemma add_time_exact_witness :
  us (add_time (Timeval 1 600000) (Timeval 2 400000)) =
    us (Timeval 1 600000) + us (Timeval 2 400000) ∧
  0 ≤ tv_usec (add_time (Timeval 1 600000) (Timeval 2 400000)) ≤ 1000000 ∧
  (tv_usec (add_time (Timeval 1 600000) (Timeval 2 400000)) = 1000000 ↔
     tv_usec (Timeval 1 600000) + tv_usec (Timeval 2 400000) = 1000000).
Proof. apply add_time_exact; unfold norm; simpl; lia. Defined.

(** [subtract_time] subtracts exactly, its result is normalised, and it
    undoes [add_time] even where [add_time] leaves one million microseconds. *)
Theorem subtract_time_exact t1 t2 :
  norm t1 → norm t2 →
  us (subtract_time t1 t2) = us t1 - us t2 ∧
  0 ≤ tv_usec (subtract_time t1 t2) < 1000000 ∧
  subtract_time (add_time t1 t2) t2 = t1.
Proof.
  intros H1 H2. split; [by apply subtract_time_us; auto with pts|].
  destruct t1, t2. unfold norm, add_time, subtract_time in *; simpl in *. split.
  - unwrap64. bool_case; unwrap64; simpl; lia.
  - unwrap64. destruct (Z.ltb_spec 1000000 (tv_usec0 + tv_usec1)); unwrap64; simpl;
      unwrap64; bool_case; unwrap64; f_equal; lia.
Qed.

Lemma subtract_time_exact_witness :
  us (subtract_time (Timeval 5 100) (Timeval 2 999999)) =
    us (Timeval 5 100) - us (Timeval 2 999999) ∧
  0 ≤ tv_usec (subtract_time (Timeval 5 100) (Timeval 2 999999)) < 1000000 ∧
  subtract_time (add_time (Timeval 5 100) (Timeval 2 999999)) (Timeval 2 999999)
    = Timeval 5 100.
Proof. apply subtract_time_exact; unfold norm; simpl; lia. Defined.
