(* ===== verification/Timers.v ===== *)
(** * Realtime timers and clocks of the POSIX.1b library

    src/posix1b/posix_time.c and posix_time.h: the process-wide timer state
    (the heap of [timer] structures linked through [next_active], the flags
    [single_timer] and [in_handler], the programmed interval timer), every
    timer and clock call, and the SIGALRM handler that drives the timers.
    Pointers are integers, 0 is NULL; the clock and what the kernel reports of
    the interval timer are arguments; handlers of the application are the
    parameter [user_handler]. The build with [-D_REENTRANT] is modelled:
    [lock()] and [unlock()] act on the library's mutex. *)

From stdpp Require Import base tactics numbers list gmap.
From S2P Require Import Prelude TimeArith.

Open Scope Z_scope.

Definition TIMER_RESOLUTION : Z := 10000.
Definition CLOCK_REALTIME : Z := 1.
Definition TIMER_RELTIME : Z := 0.
Definition TIMER_ABSTIME : Z := 1.
Definition SIGEV_SIGNAL : Z := 0.
Definition SIGEV_NONE : Z := 1.
Definition SIGALRM : Z := 14.

Record sigevent : Set := Sigevent {
  sigev_notify : Z; sigev_signo : Z; sigev_value : Z }.
Record timespec : Set := Timespec { ts_sec : Z; ts_nsec : Z }.
Record itimerspec : Set := Itimerspec { its_interval : timespec; its_value : timespec }.
Record itimerval : Set := Itimerval { it_interval : timeval; it_value : timeval }.

Record timer : Set := Timer {
  next_active : Z;
  next_expired : Z;
  event : sigevent;
  interval : timeval;
  corrected_interval : timeval;
  next_alarm : timeval;
  ticks : Z;
  correction_period : Z;
  running : bool }.

(** The static variables of posix_time.c, and the process's signal and
    interval-timer state in the kernel. [calls] records the handler calls
    made by [notify]: the handler, the signal and the value. *)
Record tstate : Type := TState {
  theap : gmap Z timer;
  active_timers : Z;
  single_timer : bool;
  in_handler : bool;
  timeout : itimerval;
  signal_handler : gmap Z Z;
  timer_max_error : Z;
  mutex : bool;
  alrm_blocked : bool;
  disposition : gmap Z Z;
  itimer : itimerval;
  calls : list (Z * Z * Z) }.

Definition zero_itimer : itimerval := Itimerval zero_time zero_time.

(** The state before the first call: static variables are zero. *)
Definition tinit : tstate :=
  TState ∅ 0 false false zero_itimer ∅ 1000000 false false ∅ zero_itimer [].

(** ** Field updates *)

Definition set_next_active (a : Z) (t : timer) : timer :=
  Timer a (next_expired t) (event t) (interval t) (corrected_interval t)
    (next_alarm t) (ticks t) (correction_period t) (running t).
Definition set_next_expired (a : Z) (t : timer) : timer :=
  Timer (next_active t) a (event t) (interval t) (corrected_interval t)
    (next_alarm t) (ticks t) (correction_period t) (running t).
Definition set_interval (v : timeval) (t : timer) : timer :=
  Timer (next_active t) (next_expired t) (event t) v (corrected_interval t)
    (next_alarm t) (ticks t) (correction_period t) (running t).
Definition set_corrected (v : timeval) (t : timer) : timer :=
  Timer (next_active t) (next_expired t) (event t) (interval t) v
    (next_alarm t) (ticks t) (correction_period t) (running t).
Definition set_next_alarm (v : timeval) (t : timer) : timer :=
  Timer (next_active t) (next_expired t) (event t) (interval t)
    (corrected_interval t) v (ticks t) (correction_period t) (running t).
Definition set_ticks (n : Z) (t : timer) : timer :=
  Timer (next_active t) (next_expired t) (event t) (interval t)
    (corrected_interval t) (next_alarm t) n (correction_period t) (running t).
Definition set_period (n : Z) (t : timer) : timer :=
  Timer (next_active t) (next_expired t) (event t) (interval t)
    (corrected_interval t) (next_alarm t) (ticks t) n (running t).
Definition set_running (b : bool) (t : timer) : timer :=
  Timer (next_active t) (next_expired t) (event t) (interval t)
    (corrected_interval t) (next_alarm t) (ticks t) (correction_period t) b.

Definition upd_heap (f : gmap Z timer → gmap Z timer) (s : tstate) : tstate :=
  TState (f (theap s)) (active_timers s) (single_timer s) (in_handler s)
    (timeout s) (signal_handler s) (timer_max_error s) (mutex s)
    (alrm_blocked s) (disposition s) (itimer s) (calls s).
Definition set_active (p : Z) (s : tstate) : tstate :=
  TState (theap s) p (single_timer s) (in_handler s)
    (timeout s) (signal_handler s) (timer_max_error s) (mutex s)
    (alrm_blocked s) (disposition s) (itimer s) (calls s).
Definition set_single (b : bool) (s : tstate) : tstate :=
  TState (theap s) (active_timers s) b (in_handler s)
    (timeout s) (signal_handler s) (timer_max_error s) (mutex s)
    (alrm_blocked s) (disposition s) (itimer s) (calls s).
Definition set_in_handler (b : bool) (s : tstate) : tstate :=
  TState (theap s) (active_timers s) (single_timer s) b
    (timeout s) (signal_handler s) (timer_max_error s) (mutex s)
    (alrm_blocked s) (disposition s) (itimer s) (calls s).
Definition set_timeout (v : itimerval) (s : tstate) : tstate :=
  TState (theap s) (active_timers s) (single_timer s) (in_handler s)
    v (signal_handler s) (timer_max_error s) (mutex s)
    (alrm_blocked s) (disposition s) (itimer s) (calls s).
Definition set_sighandler (sig h : Z) (s : tstate) : tstate :=
  TState (theap s) (active_timers s) (single_timer s) (in_handler s)
    (timeout s) (<[sig := h]> (signal_handler s)) (timer_max_error s) (mutex s)
    (alrm_blocked s) (disposition s) (itimer s) (calls s).
Definition set_mutex (b : bool) (s : tstate) : tstate :=
  TState (theap s) (active_timers s) (single_timer s) (in_handler s)
    (timeout s) (signal_handler s) (timer_max_error s) b
    (alrm_blocked s) (disposition s) (itimer s) (calls s).
Definition set_blocked (b : bool) (s : tstate) : tstate :=
  TState (theap s) (active_timers s) (single_timer s) (in_handler s)
    (timeout s) (signal_handler s) (timer_max_error s) (mutex s)
    b (disposition s) (itimer s) (calls s).
Definition set_disposition (sig h : Z) (s : tstate) : tstate :=
  TState (theap s) (active_timers s) (single_timer s) (in_handler s)
    (timeout s) (signal_handler s) (timer_max_error s) (mutex s)
    (alrm_blocked s) (<[sig := h]> (disposition s)) (itimer s) (calls s).
Definition set_itimer (v : itimerval) (s : tstate) : tstate :=
  TState (theap s) (active_timers s) (single_timer s) (in_handler s)
    (timeout s) (signal_handler s) (timer_max_error s) (mutex s)
    (alrm_blocked s) (disposition s) v (calls s).
Definition log_call (c : Z * Z * Z) (s : tstate) : tstate :=
  TState (theap s) (active_timers s) (single_timer s) (in_handler s)
    (timeout s) (signal_handler s) (timer_max_error s) (mutex s)
    (alrm_blocked s) (disposition s) (itimer s) (calls s ++ [c]).

(** ** Memory and mutex *)

(** [*t] and [*t = f(...)] through a pointer. *)
Definition read_t (a : Z) : M tstate timer := λ s,
  match theap s !! a with Some t => (Val t, s) | None => (UB, s) end.
Definition write_t (a : Z) (f : timer → timer) : M tstate unit := λ s,
  match theap s !! a with
  | Some _ => (Val tt, upd_heap (alter f a) s)
  | None => (UB, s)
  end.

(** A [timer **]: the head of the active list or the link of a timer. *)
Inductive ploc : Set := PHead | PNext (a : Z).

Definition deref (tp : ploc) : M tstate Z :=
  match tp with
  | PHead => gets active_timers
  | PNext a => t ← read_t a; mret (next_active t)
  end.
Definition assign (tp : ploc) (p : Z) : M tstate unit :=
  match tp with
  | PHead => modify (set_active p)
  | PNext a => write_t a (set_next_active p)
  end.

Definition lock : M tstate unit := λ s,
  if mutex s then (Sleep, s) else (Val tt, set_mutex true s).
Definition unlock : M tstate unit := modify (set_mutex false).
Definition setitimer (v : itimerval) : M tstate unit := modify (set_itimer v).

(** ** The timer calls *)

(** The address of [timer_handler] as a signal handler. *)
Definition timer_handler_ptr : Z := 4096.

Definition valid_signal (sig : Z) : bool := (1 <=? sig) && (sig <=? 64).

Definition to_timeval (v : timespec) : timeval :=
  Timeval (ts_sec v) (Z.quot (ts_nsec v) 1000).
Definition to_timespec (v : timeval) : timespec :=
  Timespec (tv_sec v) (i64 (tv_usec v * 1000)).

(** Bounds the list walks: an acyclic list in the heap is shorter. *)
Definition walk_fuel (s : tstate) : nat := S (S (size (theap s))).

(** [m] is what [malloc] returns: NULL, or a block with whatever it holds. *)
Definition timer_create (m : option (Z * timer)) (clock : Z)
    (spec : option sigevent) : M tstate Z :=
  match spec with
  | None => fail EINVAL
  | Some ev =>
      if negb (clock =? CLOCK_REALTIME)
         || (negb (sigev_notify ev =? SIGEV_SIGNAL)
             && negb (sigev_notify ev =? SIGEV_NONE))
      then fail EINVAL
      else match m with
           | None => fail ENOMEM
           | Some (a, junk) =>
               let t := Timer (next_active junk) (next_expired junk) ev
                          (interval junk) (corrected_interval junk)
                          (next_alarm junk) (ticks junk)
                          (correction_period junk) false in
               modify (upd_heap (insert a t));; mret a
           end
  end.

(** The head of the active list, or the link to [t] found by following
    [next_active]; [None] when NULL is reached first. *)
Fixpoint find_link (fuel : nat) (t : Z) (tp : ploc) : M tstate (option ploc) :=
  match fuel with
  | O => no_fuel
  | S fuel =>
      p ← deref tp;
      if p =? t then mret (Some tp)
      else if p =? 0 then mret None
      else find_link fuel t (PNext p)
  end.

(** The loop that [timer_settime] and [timer_delete] share: find the link to
    [t] and store the successor of [t] in it; [k] is what follows there. The
    result is false when [t] is not on the list. *)
Definition unlink_timer (t : Z) (k : M tstate unit) : M tstate bool :=
  fuel ← gets walk_fuel;
  link ← find_link fuel t PHead;
  match link with
  | None => mret false
  | Some tp =>
      q ← read_t t;
      assign tp (next_active q);;
      k;;
      modify (set_single false);;
      mret true
  end.

(** [if (timeout.it_value is zero || delta < timeout.it_value)
      timeout.it_value = delta] *)
Definition lower_timeout (delta : timeval) : M tstate unit :=
  tmo ← gets timeout;
  when (is_zero (it_value tmo) || (compare_time delta (it_value tmo) <? 0))
    (modify (set_timeout (Itimerval (it_interval tmo) delta))).

(** The loop of [timer_settime] over the other active timers. *)
Fixpoint lower_by_others (fuel : nat) (t : Z) (curr : timeval) (nt : Z) : M tstate unit :=
  match fuel with
  | O => no_fuel
  | S fuel =>
      if nt =? 0 then mret tt
      else
        r ← read_t nt;
        when (negb (nt =? t) && (0 <? compare_time (next_alarm r) curr))
          (lower_timeout (subtract_time (next_alarm r) curr));;
        lower_by_others fuel t curr (next_active r)
  end.

(** [signal_handler[signo] = h] *)
Definition save_handler (signo h : Z) : M tstate unit :=
  if (0 <=? signo) && (signo <? 64) then modify (set_sighandler signo h)
  else undefined.

(** Lines 203-210: [timer_handler] becomes the handler of SIGALRM, and the
    handlers it replaces or has to call are saved. *)
Definition settime_handlers (t : Z) : M tstate unit :=
  disp ← gets disposition;
  let old_sa := default 0 (disp !! SIGALRM) in
  modify (set_disposition SIGALRM timer_handler_ptr);;
  when (negb (old_sa =? timer_handler_ptr)) (save_handler SIGALRM old_sa);;
  r ← read_t t;
  let signo := sigev_signo (event r) in
  when (negb (signo =? SIGALRM))
    (save_handler signo
       (if valid_signal signo then default 0 (disp !! signo) else old_sa)).

(** Lines 227-251: [t] is, or becomes, the only active timer. *)
Definition settime_single (now : timeval) (it_old : itimerval) (t : Z)
    (iv it_new : timeval) (r : timer) : M tstate timespec :=
  single ← gets single_timer;
  setitimer (Itimerval iv it_new);;
  max_error ← gets timer_max_error;
  let n := Z.quot max_error TIMER_RESOLUTION in
  write_t t (set_period n);; write_t t (set_ticks n);;
  modify (set_single true);;
  mret (if negb (running r) then Timespec 0 0
        else if (single : bool) then to_timespec (it_value it_old)
        else if compare_time now (next_alarm r) <? 0
             then to_timespec (subtract_time (next_alarm r) now)
             else Timespec 0 0).

(** Lines 252-294: there are other active timers. *)
Definition settime_multi (now : timeval) (t head : Z) (it_new : timeval) (r : timer)
    : M tstate timespec :=
  single ← gets single_timer;
  inh ← gets in_handler;
  (if (inh : bool) then
     assert_c (negb single);;
     tmo ← gets timeout;
     when (is_zero (it_value tmo)
           || (negb (is_zero it_new)
               && (compare_time it_new (it_value tmo) <? 0)))
       (modify (set_timeout (Itimerval (it_interval tmo) it_new)))
   else
     modify (set_single false);;
     modify (set_timeout (Itimerval zero_time it_new));;
     fuel ← gets walk_fuel;
     lower_by_others fuel t now head;;
     tmo ← gets timeout;
     setitimer tmo);;
  mret (if negb (running r) || (compare_time (next_alarm r) now <=? 0)
        then Timespec 0 0
        else to_timespec (subtract_time (next_alarm r) now)).

(** Lines 295-319: the next alarm is stored, and the timer is linked into the
    active list or unlinked from it. *)
Definition settime_link (now : timeval) (t head : Z) (it_new : timeval) (r : timer)
    : M tstate bool :=
  write_t t (set_next_alarm (add_time now it_new));;
  if negb (running r) then
    when (negb (is_zero it_new))
      (write_t t (set_next_active head);;
       modify (set_active t);;
       write_t t (set_running true));;
    mret true
  else if is_zero it_new then
    unlink_timer t (write_t t (set_running false))
  else mret true.

(** [now] is what [gettimeofday] reports, [it_old] what [setitimer] reports of
    the replaced interval timer; the result is [*old] when [old] is not NULL. *)
Definition timer_settime (now : timeval) (it_old : itimerval) (t flags : Z)
    (val : option itimerspec) (old : bool) : M tstate (option itimerspec) :=
  if negb (flags =? TIMER_ABSTIME) && negb (flags =? TIMER_RELTIME) then fail EINVAL
  else match val with
  | None => fail EFAULT
  | Some v =>
    save_mask ← gets alrm_blocked;
    modify (set_blocked true);;
    lock;;
    settime_handlers t;;
    r ← read_t t;
    let old_interval := to_timespec (interval r) in
    let iv := to_timeval (its_interval v) in
    write_t t (set_interval iv);;
    write_t t (set_corrected iv);;
    let value := to_timeval (its_value v) in
    let it_new := if flags =? TIMER_ABSTIME then subtract_time value now else value in
    head ← gets active_timers;
    r ← read_t t;
    old_value ← (if (head =? 0) || ((head =? t) && (next_active r =? 0))
                 then settime_single now it_old t iv it_new r
                 else settime_multi now t head it_new r);
    ok ← settime_link now t head it_new r;
    unlock;;
    modify (set_blocked save_mask);;
    if (ok : bool)
    then mret (if old then Some (Itimerspec old_interval old_value) else None)
    else fail EINVAL
  end.

(** [it_cur] is what [getitimer] reports; the result is [*old] when [old] is
    not NULL. *)
Definition timer_gettime (now : timeval) (it_cur : itimerval) (t : Z) (old : bool)
    : M tstate (option itimerspec) :=
  if negb old then mret None
  else
    r ← read_t t;
    single ← gets single_timer;
    mret (Some (Itimerspec (to_timespec (interval r))
      (if negb (running r) then Timespec 0 0
       else if (single : bool) then to_timespec (it_value it_cur)
       else if 0 <=? compare_time now (next_alarm r)
            then to_timespec (interval r)
            else to_timespec (subtract_time (next_alarm r) now)))).

Definition timer_getoverrun (t : Z) : M tstate Z := mret 0.

Definition timer_delete (t : Z) : M tstate unit :=
  save_mask ← gets alrm_blocked;
  modify (set_blocked true);;
  lock;;
  r ← read_t t;
  ok ← (if running r then unlink_timer t (mret tt) else mret true);
  if (ok : bool) then
    modify (upd_heap (delete t));;
    unlock;;
    modify (set_blocked save_mask)
  else
    unlock;;
    modify (set_blocked save_mask);;
    fail EINVAL.

(** ** The SIGALRM handler *)

Section Handler.
(** What the application's handler at address [h] does when it is called for
signal [signo] with value [v]; it may call the library itself. *)
Variable user_handler : Z → Z → Z → M tstate unit.

Definition notify (ev : sigevent) : M tstate unit :=
  if sigev_notify ev =? SIGEV_SIGNAL then
    let signo := sigev_signo ev in
    hs ← gets signal_handler;
    if (0 <=? signo) && (signo <? 64) then
      let h := default 0 (hs !! signo) in
      (* SIG_DFL and SIG_IGN are 0 and 1: calling them is not defined *)
      if (h =? 0) || (h =? 1) then undefined
      else modify (log_call (h, signo, sigev_value ev));;
           user_handler h signo (sigev_value ev)
    else undefined
  else mret tt.

(** The first loop of [timer_handler]: [tp] is the link to the next timer and
    [expired] the list of the expired ones; the head of that list results. *)
Fixpoint scan_active (fuel : nat) (curr rounded : timeval) (tp : ploc) (expired : Z)
    : M tstate Z :=
  match fuel with
  | O => no_fuel
  | S fuel =>
      t ← deref tp;
      if t =? 0 then mret expired
      else
        r ← read_t t;
        if 0 <=? compare_time rounded (next_alarm r) then
          (if negb (is_zero (interval r)) then
             let na := add_time (next_alarm r) (interval r) in
             write_t t (set_next_alarm na);;
             lower_timeout (if 0 <? compare_time na curr then subtract_time na curr
                            else Timeval 0 TIMER_RESOLUTION)
           else
             assign tp (next_active r);;
             write_t t (set_running false));;
          write_t t (set_next_expired expired);;
          scan_active fuel curr rounded (PNext t) t
        else
          lower_timeout (subtract_time (next_alarm r) curr);;
          scan_active fuel curr rounded (PNext t) expired
  end.

(** The second loop: call the handlers of the expired timers. *)
Fixpoint notify_expired (fuel : nat) (t : Z) : M tstate unit :=
  match fuel with
  | O => no_fuel
  | S fuel =>
      if t =? 0 then mret tt
      else
        r ← read_t t;
        notify (event r);;
        notify_expired fuel (next_expired r)
  end.

(** The single-timer branch. *)
Definition handle_single (now : timeval) : M tstate unit :=
  t ← gets active_timers;
  assert_c (negb (t =? 0));;
  r ← read_t t;
  assert_c (next_active r =? 0);;
  write_t t (set_ticks (i32 (ticks r - 1)));;
  when (i32 (ticks r - 1) =? 0)
    (write_t t (set_ticks (correction_period r));;
     max_error ← gets timer_max_error;
     if compare_time (next_alarm r) now <? 0 then
       let delta := subtract_time now (next_alarm r) in
       when (max_error <? i64 (i64 (tv_sec delta * 1000000) + tv_usec delta))
         (let ci := if 0 <? compare_time (corrected_interval r) (Timeval 0 TIMER_RESOLUTION)
                    then subtract_time (corrected_interval r) (Timeval 0 TIMER_RESOLUTION)
                    else corrected_interval r in
          write_t t (set_corrected ci);;
          setitimer (Itimerval ci ci))
     else
       let delta := subtract_time (next_alarm r) now in
       when (max_error <? i64 (i64 (tv_sec delta * 1000000) + tv_usec delta))
         (let ci := add_time (corrected_interval r) (Timeval 0 TIMER_RESOLUTION) in
          write_t t (set_corrected ci);;
          setitimer (Itimerval ci ci)));;
  write_t t (set_next_alarm (add_time (next_alarm r) (interval r)));;
  notify (event r).

Definition timer_handler (now : timeval) : M tstate unit :=
  modify (set_in_handler true);;
  single ← gets single_timer;
  (if (single : bool) then handle_single now
   else
     modify (set_timeout zero_itimer);;
     fuel ← gets walk_fuel;
     expired ← scan_active fuel now
                 (add_time now (Timeval 0 (Z.quot TIMER_RESOLUTION 2))) PHead 0;
     notify_expired fuel expired;;
     single ← gets single_timer;
     tmo ← gets timeout;
     when (negb single) (setitimer tmo));;
  modify (set_in_handler false).
End Handler.

(** ** Clocks *)

(** [now] is what [gettimeofday] reports. *)
Definition clock_gettime (now : timeval) (clock : Z) (val : bool) : out timespec :=
  if negb (clock =? CLOCK_REALTIME) || negb val then Fail EINVAL
  else Val (to_timespec now).

(** [settimeofday] is the system call. *)
Definition clock_settime (settimeofday : timeval → out unit) (clock : Z)
    (val : option timespec) : out unit :=
  match val with
  | None => Fail EINVAL
  | Some v =>
      if negb (clock =? CLOCK_REALTIME) then Fail EINVAL
      else settimeofday (to_timeval v)
  end.

Definition clock_getres (clock : Z) (resolution : bool) : out timespec :=
  if negb (clock =? CLOCK_REALTIME) || negb resolution then Fail EINVAL
  else Val (Timespec 0 (TIMER_RESOLUTION * 1000)).
