(* ===== verification/TimersProps.v ===== *)
(** * What the timer calls and the SIGALRM handler do

    The link structure of the active list ([tchain]), the effect of one visit
    of the handler's scan on it, the calls of Timers.v from a well-formed state
    ([twf1]), and the handlers of the application as programs over these calls
    ([client]): what a call leaves alone ([frame]), when a program uses the
    timers properly, and that the SIGALRM handler can go on after it. *)

From stdpp Require Import base tactics numbers list gmap.
From S2P Require Import Prelude TimeArith Timers.

Open Scope Z_scope.

#[global] Instance ploc_eq_dec : EqDecision ploc.
Proof. solve_decision. Defined.

(** ** The active list *)

(** What a [timer **] holds. *)
Definition link (s : tstate) (tp : ploc) : option Z :=
  match tp with
  | PHead => Some (active_timers s)
  | PNext a => next_active <$> theap s !! a
  end.

(** The NULL-terminated list of the timers [l] starts at pointer [p]. *)
Fixpoint tchain (s : tstate) (p : Z) (l : list Z) : Prop :=
  match l with
  | [] => p = 0
  | a :: l' => p = a ∧ a ≠ 0 ∧ ∃ n, link s (PNext a) = Some n ∧ tchain s n l'
  end.

(** The list of expired timers, through [next_expired]. *)
Fixpoint echain (s : tstate) (p : Z) (l : list Z) : Prop :=
  match l with
  | [] => p = 0
  | a :: l' => p = a ∧ a ≠ 0 ∧
      ∃ n, next_expired <$> theap s !! a = Some n ∧ echain s n l'
  end.

(** The fields of a timer other than its two links. *)
Definition core (t : timer) : timer := set_next_active 0 (set_next_expired 0 t).

(** Well-formed timer state with active list [l]: the timers on the list are
    exactly the running ones. *)
Record twf (s : tstate) (l : list Z) : Prop := {
  twf_chain : tchain s (active_timers s) l;
  twf_nodup : NoDup l;
  twf_null : theap s !! 0 = None;
  twf_running : ∀ a t, theap s !! a = Some t → running t = true ↔ a ∈ l }.

#[global] Instance tchain_dec s p l : Decision (tchain s p l).
Proof.
  revert p. induction l as [|a l IH]; intros p; simpl; [solve_decision|].
  destruct (decide (p = a)) as [Hp|Hp]; [|right; by intros [? _]].
  destruct (decide (a = 0)) as [Ha|Ha]; [right; by intros (_ & ? & _)|].
  destruct (next_active <$> theap s !! a) as [n|]; [|right; by intros (_ & _ & n & [=] & _)].
  destruct (IH n) as [Hc|Hc]; [left|right].
  - split; [done|split; [done|]]. exists n. done.
  - intros (_ & _ & m & [= <-] & Hm). done.
Defined.

Lemma twf_alt s l :
  (tchain s (active_timers s) l ∧ NoDup l ∧ theap s !! 0 = None ∧
   map_Forall (λ a t, running t = true ↔ a ∈ l) (theap s)) ↔ twf s l.
Proof.
  split; [intros (? & ? & ? & H)|intros [? ? ? ?]; by auto]. by constructor.
Qed.

#[global] Instance twf_dec s l : Decision (twf s l).
Proof.
  destruct (decide (tchain s (active_timers s) l ∧ NoDup l ∧ theap s !! 0 = None ∧
    map_Forall (λ a t, running t = true ↔ a ∈ l) (theap s))) as [H|H].
  - left. by apply twf_alt.
  - right. by rewrite <- twf_alt.
Defined.

Lemma tchain_ext s s' p l :
  (∀ a, a ∈ l → link s' (PNext a) = link s (PNext a)) →
  tchain s p l → tchain s' p l.
Proof.
  revert p. induction l as [|a l IH]; intros p Hl; [done|].
  intros (-> & Hne & n & Hn & Hc). split; [done|split; [done|]].
  exists n. rewrite Hl by constructor. split; [done|].
  apply IH; [|done]. intros b Hb. apply Hl. by constructor.
Qed.

Lemma echain_ext s s' p l :
  (∀ a, a ∈ l → next_expired <$> theap s' !! a = next_expired <$> theap s !! a) →
  echain s p l → echain s' p l.
Proof.
  revert p. induction l as [|a l IH]; intros p Hl; [done|].
  intros (-> & Hne & n & Hn & Hc). split; [done|split; [done|]].
  exists n. rewrite Hl by constructor. split; [done|].
  apply IH; [|done]. intros b Hb. apply Hl. by constructor.
Qed.

Lemma link_next_is_Some s a : is_Some (link s (PNext a)) ↔ is_Some (theap s !! a).
Proof. simpl. by rewrite fmap_is_Some. Qed.

Lemma tchain_elem s p l a : tchain s p l → a ∈ l → is_Some (theap s !! a).
Proof.
  revert p. induction l as [|b l IH]; intros p; [by rewrite elem_of_nil|].
  intros (-> & _ & n & Hn & Hc) [->|Ha]%elem_of_cons.
  - apply link_next_is_Some. eauto.
  - eauto.
Qed.

Lemma tchain_nonzero s p l : tchain s p l → 0 ∉ l.
Proof.
  revert p. induction l as [|b l IH]; intros p; [intros _; apply not_elem_of_nil|].
  intros (-> & Hb & n & Hn & Hc). rewrite elem_of_cons. intros [<-|H]; [done|].
  eapply IH; eauto.
Qed.

(** A chain without repetition fits in the heap, so [walk_fuel] is enough. *)
Lemma chain_length (s : tstate) (l : list Z) :
  NoDup l → (∀ a, a ∈ l → is_Some (theap s !! a)) →
  (length l < walk_fuel s)%nat.
Proof.
  intros Hnd Hl. unfold walk_fuel.
  rewrite <- (size_list_to_set (C := gset Z) l) by done.
  rewrite <- (size_dom (D := gset Z) (theap s)).
  assert (size (list_to_set l : gset Z) ≤ size (dom (theap s)))%nat; [|lia].
  apply subseteq_size. intros a. rewrite elem_of_list_to_set, elem_of_dom. auto.
Qed.

(** ** One visit of the scan *)

Section Scan.
Variables curr rounded : timeval.

Definition expires (t : timer) : bool := 0 <=? compare_time rounded (next_alarm t).
Definition oneshot (t : timer) : bool := is_zero (interval t).
(** An expired one-shot timer: the scan means to unlink it. *)
Definition drops (t : timer) : bool := expires t && oneshot t.

(** The fields of a timer after its visit, links apart. *)
Definition after (t : timer) : timer :=
  if expires t then
    if oneshot t then set_running false t
    else set_next_alarm (add_time (next_alarm t) (interval t)) t
  else t.

(** The time until the next alarm that the visit takes into account. *)
Definition next_delta (t : timer) : option timeval :=
  if expires t then
    if oneshot t then None
    else let na := add_time (next_alarm t) (interval t) in
         Some (if 0 <? compare_time na curr then subtract_time na curr
               else Timeval 0 TIMER_RESOLUTION)
  else Some (subtract_time (next_alarm t) curr).

(** [lower_timeout] on the value of [timeout.it_value]. *)
Definition lowered (v delta : timeval) : timeval :=
  if is_zero v || (compare_time delta v <? 0) then delta else v.

Definition lower_st (delta : timeval) (s : tstate) : tstate :=
  set_timeout (Itimerval (it_interval (timeout s))
                 (lowered (it_value (timeout s)) delta)) s.

Definition assign_st (tp : ploc) (p : Z) (s : tstate) : tstate :=
  match tp with
  | PHead => set_active p s
  | PNext a => upd_heap (alter (set_next_active p) a) s
  end.

(** The state after the visit of timer [t], whose fields are [r]. *)
Definition visit (tp : ploc) (t : Z) (r : timer) (expired : Z) (s : tstate) : tstate :=
  if expires r then
    upd_heap (alter (set_next_expired expired) t)
      (if oneshot r then
         upd_heap (alter (set_running false) t) (assign_st tp (next_active r) s)
       else
         let na := add_time (next_alarm r) (interval r) in
         lower_st (if 0 <? compare_time na curr then subtract_time na curr
                   else Timeval 0 TIMER_RESOLUTION)
           (upd_heap (alter (set_next_alarm na) t) s))
  else lower_st (subtract_time (next_alarm r) curr) s.

Lemma set_timeout_same s : set_timeout (timeout s) s = s.
Proof. by destruct s. Qed.

Lemma lower_timeout_st delta s : lower_timeout delta s = (Val tt, lower_st delta s).
Proof.
  unfold lower_timeout, lower_st, lowered. mrun.
  destruct (_ || _); mrun; [done|].
  destruct (timeout s) as [ti tv] eqn:E; simpl. by rewrite <- E, set_timeout_same.
Qed.

Lemma read_t_Some s a t : theap s !! a = Some t → read_t a s = (Val t, s).
Proof. intros H. unfold read_t. by rewrite H. Qed.

Lemma write_t_Some s a f :
  is_Some (theap s !! a) → write_t a f s = (Val tt, upd_heap (alter f a) s).
Proof. intros [t H]. unfold write_t. by rewrite H. Qed.

Lemma deref_link s tp p : link s tp = Some p → deref tp s = (Val p, s).
Proof.
  destruct tp as [|a]; simpl; [by intros [= <-]|].
  intros (t & Ht & ->)%fmap_Some.
  unfold deref. by erewrite bind_val by (by apply read_t_Some).
Qed.

Lemma assign_link s tp p :
  is_Some (link s tp) → assign tp p s = (Val tt, assign_st tp p s).
Proof.
  destruct tp as [|a]; [done|]. intros H%link_next_is_Some.
  simpl. by apply write_t_Some.
Qed.

Lemma heap_alter_is_Some s f a b :
  is_Some (theap s !! b) → is_Some (theap (upd_heap (alter f a) s) !! b).
Proof.
  simpl. rewrite lookup_alter. case_decide; subst; [|done]. by rewrite fmap_is_Some.
Qed.

Lemma heap_assign_is_Some s tp p b :
  is_Some (theap s !! b) → is_Some (theap (assign_st tp p s) !! b).
Proof. destruct tp; [done|]. apply heap_alter_is_Some. Qed.

(** One round of the loop is one [visit]. *)
Lemma scan_visit fuel tp t r expired s :
  link s tp = Some t → t ≠ 0 → theap s !! t = Some r →
  scan_active (S fuel) curr rounded tp expired s =
  scan_active fuel curr rounded (PNext t) (if expires r then t else expired)
    (visit tp t r expired s).
Proof.
  intros Hl Ht Hr. simpl. erewrite bind_val by (by apply deref_link).
  rewrite (proj2 (Z.eqb_neq t 0)) by done.
  erewrite bind_val by (by apply read_t_Some).
  unfold visit. fold (expires r). destruct (expires r).
  - unfold oneshot. destruct (is_zero (interval r)); simpl.
    + erewrite bind_val.
      2:{ erewrite bind_val by (apply assign_link; eauto).
          apply write_t_Some. apply heap_assign_is_Some. eauto. }
      erewrite bind_val; [done|].
      apply write_t_Some. apply heap_alter_is_Some, heap_assign_is_Some. eauto.
    + erewrite bind_val.
      2:{ erewrite bind_val by (apply write_t_Some; eauto). apply lower_timeout_st. }
      erewrite bind_val; [done|].
      apply write_t_Some. unfold lower_st. simpl theap.
      apply (heap_alter_is_Some s). eauto.
  - by erewrite bind_val by apply lower_timeout_st.
Qed.

(** What a visit changes: the link it came through when it unlinks the timer,
    and the fields and the [next_expired] link of the timer itself. *)
Lemma visit_link tp t r e s q :
  is_Some (link s tp) → theap s !! t = Some r →
  link (visit tp t r e s) q =
    if decide (drops r = true ∧ q = tp) then Some (next_active r) else link s q.
Proof.
  intros [p Hp] Hr. unfold visit, drops.
  assert (∀ f s', (∀ x, next_active (f x) = next_active x) →
    link (upd_heap (alter f t) s') q = link s' q) as Halter.
  { intros f s' Hf. destruct q as [|b]; [done|]. simpl.
    rewrite lookup_alter. case_decide; [|done]. subst.
    by destruct (theap s' !! b); simpl; rewrite ?Hf. }
  destruct (expires r); cbn [andb];
    [|rewrite decide_False by (intros [??]; done); by destruct q].
  destruct (oneshot r); rewrite ?Halter by done.
  - destruct (decide (q = tp)) as [->|Hne].
    + rewrite decide_True by done. destruct tp as [|b]; [done|]. simpl.
      rewrite lookup_alter, decide_True by done. simpl in Hp.
      by destruct (theap s !! b).
    + rewrite decide_False by (intros [??]; done).
      destruct tp as [|b], q as [|c]; try done. simpl.
      by rewrite lookup_alter, decide_False by congruence.
  - rewrite decide_False by (intros [??]; done).
    unfold lower_st. destruct q as [|b]; [done|]. apply (Halter _ s). done.
Qed.

Lemma visit_core tp t r e s a :
  theap s !! t = Some r →
  core <$> theap (visit tp t r e s) !! a =
    if decide (a = t) then Some (core (after r)) else core <$> theap s !! a.
Proof.
  intros Hr. unfold visit, after.
  assert (∀ b, core <$> theap (assign_st tp (next_active r) s) !! b = core <$> theap s !! b)
    as Has.
  { intros b. destruct tp as [|c]; [done|]. simpl. rewrite lookup_alter.
    case_decide; [|done]. subst. by destruct (theap s !! b). }
  destruct (expires r); [destruct (oneshot r)|]; simpl; rewrite ?lookup_alter.
  - case_decide as H1; [|by rewrite !decide_False by done].
    subst. rewrite !decide_True by done. specialize (Has a). rewrite Hr in Has.
    destruct (theap (assign_st _ _ s) !! a) as [x|]; [|done].
    apply (inj Some) in Has. apply (f_equal Some).
    change (set_running false (core x) = set_running false (core r)). by rewrite Has.
  - case_decide; [|by rewrite !decide_False by done].
    subst. rewrite !decide_True by done. by rewrite Hr.
  - case_decide; [|done]. subst. by rewrite Hr.
Qed.

Lemma visit_next_expired tp t r e s a :
  theap s !! t = Some r →
  next_expired <$> theap (visit tp t r e s) !! a =
    if decide (expires r = true ∧ a = t) then Some e
    else next_expired <$> theap s !! a.
Proof.
  intros Hr. unfold visit.
  assert (∀ b, next_expired <$> theap (assign_st tp (next_active r) s) !! b =
               next_expired <$> theap s !! b) as Has.
  { intros b. destruct tp as [|c]; [done|]. simpl. rewrite lookup_alter.
    case_decide; [|done]. subst. by destruct (theap s !! b). }
  destruct (expires r); [|by rewrite !decide_False by (intros [??]; done)].
  destruct (oneshot r); simpl; rewrite !lookup_alter.
  - destruct (decide (t = a)) as [->|Hne].
    + rewrite !decide_True by done. specialize (Has a). rewrite Hr in Has.
      by destruct (theap (assign_st _ _ s) !! a).
    + rewrite !decide_False by (try intros [??]; congruence). apply Has.
  - destruct (decide (t = a)) as [->|Hne].
    + rewrite !decide_True by done. by rewrite Hr.
    + rewrite !decide_False by (try intros [??]; congruence). done.
Qed.

Lemma visit_timeout tp t r e s :
  it_value (timeout (visit tp t r e s)) =
    match next_delta r with
    | Some d => lowered (it_value (timeout s)) d
    | None => it_value (timeout s)
    end.
Proof.
  unfold visit, next_delta.
  destruct (expires r); [destruct (oneshot r)|]; simpl; [by destruct tp|done..].
Qed.

(** The static variables and kernel state that a scan leaves alone. *)
Definition others (s : tstate) :=
  (single_timer s, in_handler s, signal_handler s, timer_max_error s, mutex s,
   alrm_blocked s, disposition s, itimer s, calls s, it_interval (timeout s)).

Lemma visit_others tp t r e s : others (visit tp t r e s) = others s.
Proof.
  unfold visit. destruct (expires r); [destruct (oneshot r)|]; simpl; [by destruct tp|done..].
Qed.

(** ** The whole scan *)

(** The state and the expired list after visiting the timers [l] in order. *)
Fixpoint visits (tp : ploc) (e : Z) (l : list Z) (s : tstate) : tstate * Z :=
  match l with
  | [] => (s, e)
  | a :: l' =>
      match theap s !! a with
      | None => (s, e)
      | Some r => visits (PNext a) (if expires r then a else e) l' (visit tp a r e s)
      end
  end.

Definition drop_at (s : tstate) (a : Z) : bool :=
  match theap s !! a with Some t => drops t | None => false end.
Definition expires_at (s : tstate) (a : Z) : bool :=
  match theap s !! a with Some t => expires t | None => false end.

(** The list that is left when the scan has unlinked expired one-shot timers.
    After unlinking a timer the scan goes on from the link of the unlinked
    timer, so the next expired one-shot timer ([skip]) stays on the list. *)
Fixpoint surv (drop : Z → bool) (skip : bool) (l : list Z) : list Z :=
  match l with
  | [] => []
  | a :: l' =>
      if drop a && negb skip then surv drop true l' else a :: surv drop false l'
  end.

Lemma core_determines s s' a :
  core <$> theap s' !! a = core <$> theap s !! a →
  drop_at s' a = drop_at s a ∧ expires_at s' a = expires_at s a.
Proof.
  intros H. unfold drop_at, expires_at, drops, expires, oneshot.
  destruct (theap s' !! a) as [t'|], (theap s !! a) as [t|]; try done.
  apply (inj Some) in H.
  assert (next_alarm t' = next_alarm t) as ->
    by (change (next_alarm (core t') = next_alarm (core t)); by rewrite H).
  assert (interval t' = interval t) as ->
    by (change (interval (core t') = interval (core t)); by rewrite H).
  done.
Qed.

Lemma scan_visits fuel l tp e s :
  (length l < fuel)%nat → NoDup l →
  (∃ p, link s tp = Some p ∧ tchain s p l) → (∀ a, tp = PNext a → a ∉ l) →
  scan_active fuel curr rounded tp e s = let '(s', e') := visits tp e l s in (Val e', s').
Proof.
  revert fuel tp e s. induction l as [|a l IH]; intros fuel tp e s Hf Hnd (p & Hp & Hc) Htp.
  - simpl in Hc. subst. destruct fuel as [|fuel]; [simpl in Hf; lia|]. simpl.
    by erewrite bind_val by (by apply deref_link).
  - destruct fuel as [|fuel]; [simpl in Hf; lia|].
    destruct Hc as (-> & Ha & n & Hn & Hc). apply NoDup_cons in Hnd as [Hal Hnd].
    simpl in Hn. apply fmap_Some in Hn as (r & Hr & ->).
    rewrite (scan_visit fuel tp a r) by done. simpl. rewrite Hr.
    assert (∀ q, q ≠ tp → link (visit tp a r e s) q = link s q) as Hlk.
    { intros q Hq. rewrite visit_link by eauto. apply decide_False. by intros [_ ->]. }
    apply IH; [simpl in Hf; lia|done| |by intros b [= <-]].
    exists (next_active r). split.
    + rewrite Hlk; [simpl; by rewrite Hr|]. intros <-. by eapply Htp; constructor.
    + eapply tchain_ext; [|done]. intros b Hb. apply Hlk.
      intros <-. eapply Htp; [done|]. by constructor.
Qed.

Lemma fmap_core_after (o : option timer) :
  (core ∘ after) <$> o = after <$> (core <$> o).
Proof.
  destruct o as [t|]; [|done]. apply (f_equal Some).
  unfold compose, after, expires, oneshot, core; simpl. repeat case_match; done.
Qed.

(** Fields: each timer of [l] is updated once, no other timer is. *)
Lemma visits_core l tp e s a :
  NoDup l → (∀ b, b ∈ l → is_Some (theap s !! b)) →
  core <$> theap (visits tp e l s).1 !! a =
    (if decide (a ∈ l) then core ∘ after else core) <$> theap s !! a.
Proof.
  revert tp e s. induction l as [|b l IH]; intros tp e s Hnd Hl; simpl.
  { done. }
  apply NoDup_cons in Hnd as [Hb Hnd].
  destruct (Hl b) as [r Hr]; [by constructor|]. rewrite Hr, IH; [|done|].
  - destruct (decide (a = b)) as [->|Hne].
    + rewrite decide_False by done. rewrite decide_True by constructor.
      rewrite visit_core, decide_True, Hr by done. done.
    + pose proof (visit_core tp b r e s a Hr) as Hv. rewrite decide_False in Hv by done.
      destruct (decide (a ∈ l)) as [Hal|Hal].
      * rewrite decide_True by (by constructor). by rewrite !fmap_core_after, Hv.
      * by rewrite decide_False by (rewrite elem_of_cons; by intros [?|?]).
  - intros c Hc. apply fmap_is_Some with (f := core).
    rewrite visit_core by done. destruct (decide (c = b)); [eauto|].
    apply fmap_is_Some. apply Hl. by constructor.
Qed.

(** What holds of the rest of the list after a visit of its head. *)
Lemma visit_rest tp t r e s a :
  theap s !! t = Some r → a ≠ t →
  drop_at (visit tp t r e s) a = drop_at s a ∧
  expires_at (visit tp t r e s) a = expires_at s a ∧
  (is_Some (theap s !! a) → is_Some (theap (visit tp t r e s) !! a)).
Proof.
  intros Hr Ha. pose proof (visit_core tp t r e s a Hr) as Hv.
  rewrite decide_False in Hv by done.
  destruct (core_determines _ _ _ Hv) as [-> ->].
  split; [done|split; [done|]]. intros H.
  apply fmap_is_Some with (f := core). rewrite Hv. by apply fmap_is_Some.
Qed.

Lemma surv_ext f g skip l : (∀ a, a ∈ l → f a = g a) → surv f skip l = surv g skip l.
Proof.
  revert skip. induction l as [|a l IH]; intros skip H; [done|]. simpl.
  rewrite (H a) by constructor.
  rewrite !IH by (intros; apply H; by constructor). done.
Qed.

Lemma visits_link l tp e s q :
  NoDup l → (∀ b, b ∈ l → is_Some (theap s !! b)) → is_Some (link s tp) →
  q ≠ tp → (∀ b, b ∈ l → q ≠ PNext b) →
  link (visits tp e l s).1 q = link s q.
Proof.
  revert tp e s. induction l as [|b l IH]; intros tp e s Hnd Hl Htp Hq Hql; [done|].
  apply NoDup_cons in Hnd as [Hb Hnd].
  destruct (Hl b) as [r Hr]; [by constructor|]. simpl. rewrite Hr, IH; [|done|..].
  - rewrite visit_link by done. apply decide_False. by intros [_ ->].
  - intros c Hc. apply visit_rest; [done|by intros ->|]. apply Hl. by constructor.
  - apply link_next_is_Some, fmap_is_Some with (f := core).
    rewrite visit_core, decide_True by done. eauto.
  - intros ->. by apply (Hql b); constructor.
  - intros c Hc. apply Hql. by constructor.
Qed.

(** The list as seen from [q], the last link that is still on the list: it is
    the link the scan stands at ([skip = false]), or the one before the timer
    that was just unlinked ([skip = true]). *)
Lemma visits_chain l tp q (skip : bool) e s :
  NoDup l →
  (∃ p, link s tp = Some p ∧ link s q = Some p ∧ tchain s p l) →
  (if skip then q ≠ tp else q = tp) →
  (∀ a, tp = PNext a ∨ q = PNext a → a ∉ l) →
  ∃ p, link (visits tp e l s).1 q = Some p ∧
       tchain (visits tp e l s).1 p (surv (drop_at s) skip l).
Proof.
  revert tp q skip e s.
  induction l as [|a l IH]; intros tp q skip e s Hnd (p & Hp & Hq & Hc) Hqtp Hout.
  { exists p. done. }
  apply NoDup_cons in Hnd as [Hal Hnd].
  destruct Hc as (-> & Ha & n & Hn & Hc). simpl in Hn.
  apply fmap_Some in Hn as (r & Hr & ->). simpl. rewrite Hr.
  assert (drop_at s a = drops r) as Hdr by (unfold drop_at; by rewrite Hr).
  rewrite Hdr.
  set (s1 := visit tp a r e s).
  assert (∀ x, link s1 x = if decide (drops r = true ∧ x = tp)
                           then Some (next_active r) else link s x) as Hlk
    by (intros x; apply visit_link; eauto).
  assert (link s1 (PNext a) = Some (next_active r)) as Hna.
  { rewrite Hlk. destruct (decide (_ ∧ PNext a = tp)); [done|]. simpl. by rewrite Hr. }
  assert (∀ x b, tp = PNext x ∨ q = PNext x → b ∈ a :: l → x ≠ b) as Hne.
  { intros x b Hx Hb ->. by eapply Hout. }
  assert (tchain s1 (next_active r) l) as Hc1.
  { eapply tchain_ext; [|done]. intros b Hb. rewrite Hlk. apply decide_False.
    intros [_ <-]. eapply (Hne b b); [by left|by constructor|done]. }
  assert (surv (drop_at s1) true l = surv (drop_at s) true l ∧
          surv (drop_at s1) false l = surv (drop_at s) false l) as [Hst Hsf].
  { split; apply surv_ext; intros b Hb; apply visit_rest; try done; by intros ->. }
  assert (∀ x, PNext a = PNext x ∨ q = PNext x → x ∉ l) as Hout1.
  { intros x [[= <-]|Hx]; [done|]. intros Hin.
    eapply (Hne x x); [by right|by constructor|done]. }
  destruct (drops r && negb skip) eqn:E.
  - apply andb_prop in E as [Hd Hs]. destruct skip; [done|]. subst q.
    rewrite <- Hst. apply IH; [done| |intros ->; by eapply (Hne a a); [left|constructor|]|done].
    exists (next_active r). split; [done|]. split; [|done].
    rewrite Hlk. by apply decide_True.
  - destruct (IH (PNext a) (PNext a) false (if expires r then a else e) s1)
      as (p' & Hp' & Hcp'); [done| |done|by intros x [[= <-]|[= <-]]|].
    { exists (next_active r). done. }
    exists a. split.
    + rewrite visits_link; [|done|..].
      * rewrite Hlk. rewrite decide_False; [done|]. intros [Hd ->].
        rewrite Hd in E. by destruct skip.
      * intros b Hb. eapply tchain_elem; [exact Hc1|done].
      * rewrite Hna. eauto.
      * intros ->. by eapply (Hne a a); [right|constructor|].
      * intros b Hb ->. eapply (Hne b b); [by right|by constructor|done].
    + split; [done|split; [done|]]. exists p'. by rewrite <- Hsf.
Qed.

Lemma visits_echain l tp e s le :
  NoDup l → (∀ b, b ∈ l → is_Some (theap s !! b)) → 0 ∉ l →
  (∀ b, b ∈ le → b ∉ l) → echain s e le →
  echain (visits tp e l s).1 (visits tp e l s).2
    (rev (List.filter (expires_at s) l) ++ le).
Proof.
  revert tp e s le.
  induction l as [|a l IH]; intros tp e s le Hnd Hl H0 Hle He; [done|].
  apply NoDup_cons in Hnd as [Hal Hnd]. apply not_elem_of_cons in H0 as [Ha0 H0].
  destruct (Hl a) as [r Hr]; [by constructor|]. simpl. rewrite Hr.
  assert (expires_at s a = expires r) as -> by (unfold expires_at; by rewrite Hr).
  set (s1 := visit tp a r e s).
  assert (List.filter (expires_at s) l = List.filter (expires_at s1) l) as ->.
  { apply filter_ext_in. intros b Hb%list_elem_of_In. symmetry.
    apply visit_rest; [done|]. by intros ->. }
  assert (echain s1 e le) as He1.
  { eapply echain_ext; [|done]. intros b Hb. unfold s1. rewrite visit_next_expired by done.
    apply decide_False. intros [_ ->]. by eapply Hle; [|constructor]. }
  assert (∀ b, b ∈ l → is_Some (theap s1 !! b)) as Hl1.
  { intros b Hb. apply visit_rest; [done|by intros ->|]. apply Hl. by constructor. }
  destruct (expires r) eqn:E; simpl.
  - rewrite <- app_assoc. apply IH; [done..| |].
    + intros b [->|Hb]%elem_of_cons; [done|]. intros Hbl. by eapply Hle; [|constructor].
    + split; [done|split; [by intros ->|]]. exists e. split; [|done].
      unfold s1. rewrite visit_next_expired by done. apply decide_True. by rewrite E.
  - apply IH; [done|done|done| |done]. intros b Hb Hbl. by eapply Hle; [|constructor].
Qed.

Lemma visits_others l tp e s : others (visits tp e l s).1 = others s.
Proof.
  revert tp e s. induction l as [|a l IH]; intros tp e s; [done|]. simpl.
  destruct (theap s !! a) as [r|]; [|done]. rewrite IH. apply visit_others.
Qed.

(** The alarm times that the scan takes the minimum of. *)
Definition delta_at (s : tstate) (a : Z) : option timeval :=
  theap s !! a ≫= next_delta.

Definition lower_at (s : tstate) (v : timeval) (a : Z) : timeval :=
  match delta_at s a with Some d => lowered v d | None => v end.

Lemma lower_at_core s s' a v :
  core <$> theap s' !! a = core <$> theap s !! a → lower_at s' v a = lower_at s v a.
Proof.
  intros H. unfold lower_at, delta_at.
  destruct (theap s' !! a) as [t'|], (theap s !! a) as [t|]; try done.
  apply (inj Some) in H. simpl. change (next_delta t') with (next_delta (core t')).
  by rewrite H.
Qed.

Lemma foldl_lower_ext s s' l v :
  (∀ a, a ∈ l → core <$> theap s' !! a = core <$> theap s !! a) →
  foldl (lower_at s') v l = foldl (lower_at s) v l.
Proof.
  revert v. induction l as [|a l IH]; intros v H; [done|]. simpl.
  rewrite (lower_at_core s s') by (apply H; constructor).
  apply IH. intros b Hb. apply H. by constructor.
Qed.

Lemma visits_timeout l tp e s :
  NoDup l → (∀ b, b ∈ l → is_Some (theap s !! b)) →
  it_value (timeout (visits tp e l s).1) =
    foldl (lower_at s) (it_value (timeout s)) l.
Proof.
  revert tp e s. induction l as [|a l IH]; intros tp e s Hnd Hl; [done|].
  apply NoDup_cons in Hnd as [Hal Hnd].
  destruct (Hl a) as [r Hr]; [by constructor|]. simpl. rewrite Hr, IH; [|done|].
  - rewrite visit_timeout, (foldl_lower_ext s).
    + f_equal. unfold lower_at, delta_at. by rewrite Hr.
    + intros b Hb. rewrite visit_core by done. apply decide_False. by intros ->.
  - intros c Hc. apply visit_rest; [done|by intros ->|]. apply Hl. by constructor.
Qed.
End Scan.

(** ** The handler as a whole *)

(** A state with more recorded handler calls. *)
Definition log_calls (cs : list (Z * Z * Z)) (s : tstate) : tstate :=
  TState (theap s) (active_timers s) (single_timer s) (in_handler s)
    (timeout s) (signal_handler s) (timer_max_error s) (mutex s)
    (alrm_blocked s) (disposition s) (itimer s) (calls s ++ cs).

Lemma log_calls_nil s : log_calls [] s = s.
Proof. unfold log_calls. rewrite app_nil_r. by destruct s. Qed.

Lemma log_calls_app cs1 cs2 s : log_calls cs2 (log_calls cs1 s) = log_calls (cs1 ++ cs2) s.
Proof. unfold log_calls; simpl. by rewrite <- app_assoc. Qed.

(** The handler call that [notify] makes for an event: none for SIGEV_NONE. *)
Definition call_for (hs : gmap Z Z) (ev : sigevent) : option (Z * Z * Z) :=
  if sigev_notify ev =? SIGEV_SIGNAL
  then Some (default 0 (hs !! sigev_signo ev), sigev_signo ev, sigev_value ev)
  else None.

(** [notify] can deliver the event: the signal is an index of
    [signal_handler] and a function is stored there. *)
Definition deliverable (hs : gmap Z Z) (ev : sigevent) : bool :=
  negb (sigev_notify ev =? SIGEV_SIGNAL)
  || ((0 <=? sigev_signo ev) && (sigev_signo ev <? 64)
      && negb (default 0 (hs !! sigev_signo ev) =? 0)
      && negb (default 0 (hs !! sigev_signo ev) =? 1)).

Definition event_at (s : tstate) (a : Z) : option sigevent := event <$> theap s !! a.
Definition call_at (s : tstate) (a : Z) : option (Z * Z * Z) :=
  event_at s a ≫= call_for (signal_handler s).

(** Rounding half a timer tick up, as the handler does. *)
Definition rounded_of (now : timeval) : timeval :=
  add_time now (Timeval 0 (Z.quot TIMER_RESOLUTION 2)).

(** The state in which the handler calls the handlers of the application, and the timers whose
    handlers it calls, in this order: the expired timers of the active list [l]. *)
Definition entered (s : tstate) : tstate := set_timeout zero_itimer (set_in_handler true s).
Definition scanned (now : timeval) (s : tstate) (l : list Z) : tstate :=
  (visits now (rounded_of now) PHead 0 l (entered s)).1.
Definition due (now : timeval) (s : tstate) (l : list Z) : list Z :=
  rev (List.filter (expires_at (rounded_of now) s) l).

Section HandlerProps.
Context (user_handler : Z → Z → Z → M tstate unit).
(** The application's handlers do not call the timer library. *)
Hypothesis quiet : ∀ h sig v s, user_handler h sig v s = (Val tt, s).

Lemma notify_calls ev s :
  deliverable (signal_handler s) ev = true →
  notify user_handler ev s =
    (Val tt, log_calls (option_list (call_for (signal_handler s) ev)) s).
Proof.
  unfold deliverable, notify, call_for. intros H.
  destruct (sigev_notify ev =? SIGEV_SIGNAL); simpl in *;
    [|by rewrite log_calls_nil].
  apply andb_prop in H as [H H1]. apply andb_prop in H as [H H0].
  mrun. rewrite H.
  apply negb_true_iff in H0 as ->. apply negb_true_iff in H1 as ->. simpl.
  by rewrite quiet.
Qed.

Lemma notify_expired_calls l fuel p s :
  (length l < fuel)%nat → echain s p l →
  (∀ a ev, a ∈ l → event_at s a = Some ev → deliverable (signal_handler s) ev = true) →
  notify_expired user_handler fuel p s = (Val tt, log_calls (omap (call_at s) l) s).
Proof.
  revert fuel p s. induction l as [|a l IH]; intros fuel p s Hf Hc Hd;
    (destruct fuel as [|fuel]; [simpl in Hf; lia|]); simpl.
  - simpl in Hc. subst. simpl. by rewrite log_calls_nil.
  - destruct Hc as (-> & Ha & n & Hn & Hc). rewrite (proj2 (Z.eqb_neq a 0)) by done.
    apply fmap_Some in Hn as (r & Hr & ->).
    erewrite bind_val by (by apply read_t_Some).
    assert (event_at s a = Some (event r)) as Hev by (unfold event_at; by rewrite Hr).
    erewrite bind_val by (apply notify_calls, (Hd a); [constructor|done]).
    rewrite IH.
    + rewrite log_calls_app. do 2 f_equal. unfold call_at at 2. rewrite Hev. simpl.
      by destruct (call_for (signal_handler s) (event r)).
    + simpl in Hf. lia.
    + eapply echain_ext; [|done]. done.
    + intros b ev Hb. apply Hd. by constructor.
Qed.

Lemma event_core s s' a :
  core <$> theap s' !! a = core <$> theap s !! a ∨
  (∃ f, core <$> theap s' !! a = (core ∘ after f) <$> theap s !! a) →
  event_at s' a = event_at s a.
Proof.
  unfold event_at. intros [H|[f H]];
    destruct (theap s' !! a) as [t'|], (theap s !! a) as [t|]; try done;
    apply (inj Some) in H; apply (f_equal Some);
    change (event t') with (event (core t')); rewrite H; [done|].
  unfold compose, after. repeat case_match; done.
Qed.

(** The scan of the handler, from a state with active list [l]. *)
Lemma scan_list now s l :
  tchain s (active_timers s) l → NoDup l →
  ∃ e, scan_active (walk_fuel s) now (rounded_of now) PHead 0 (entered s) = (Val e, scanned now s l) ∧
    tchain (scanned now s l) (active_timers (scanned now s l)) (surv (drop_at (rounded_of now) s) false l) ∧
    echain (scanned now s l) e (due now s l) ∧
    (∀ a, core <$> theap (scanned now s l) !! a =
       (if decide (a ∈ l) then core ∘ after (rounded_of now) else core) <$> theap s !! a) ∧
    it_value (timeout (scanned now s l)) = foldl (lower_at now (rounded_of now) s) zero_time l ∧
    others (scanned now s l) = others (entered s).
Proof.
  intros Hc0 Hnd. unfold due, scanned. set (R := rounded_of now). set (s0 := entered s).
  assert (tchain s0 (active_timers s0) l) as Hc by (by eapply tchain_ext; [|exact Hc0]).
  assert (∀ b, b ∈ l → is_Some (theap s0 !! b)) as Hl
    by (intros b Hb; eapply (tchain_elem s0); eauto).
  change (walk_fuel s) with (walk_fuel s0).
  rewrite (scan_visits now R _ l) by (first [by apply chain_length|by eauto|done]).
  exists (visits now R PHead 0 l s0).2.
  split; [by destruct (visits now R PHead 0 l s0)|]. split.
  { destruct (visits_chain now R l PHead PHead false 0 s0) as (p & Hp & Hch);
      [done|by eauto|done|by intros a [?|?]|]. simpl in Hp. by simplify_eq. }
  split.
  { rewrite <- (app_nil_r (rev _)). apply (visits_echain now R l PHead 0 s0); try done.
    - by eapply tchain_nonzero.
    - intros b Hb. by apply not_elem_of_nil in Hb. }
  split; [intros a; exact (visits_core now R l PHead 0 s0 a Hnd Hl)|].
  split; [exact (visits_timeout now R l PHead 0 s0 Hnd Hl)|apply visits_others].
Qed.

Lemma omap_ext_eq {A B} (f g : A → option B) (l : list A) :
  (∀ a, a ∈ l → g a = f a) → omap f l = omap g l.
Proof.
  intros H. induction l as [|a l IH]; [done|]. simpl. rewrite H by constructor.
  destruct (f a); [apply (f_equal (cons _))|]; apply IH; intros; apply H; by constructor.
Qed.

Lemma filter_length_lt {A} (f : A → bool) (l : list A) n :
  (length l < n)%nat → (length (rev (List.filter f l)) < n)%nat.
Proof. rewrite length_rev. pose proof (filter_length_le f l). lia. Qed.

Lemma event_scanned now s l a : tchain s (active_timers s) l → NoDup l → event_at (scanned now s l) a = event_at s a.
Proof.
  intros Hc Hnd. destruct (scan_list now s l Hc Hnd) as (_ & _ & _ & _ & Hcore & _).
  apply event_core. rewrite Hcore. destruct (decide (a ∈ l)); eauto.
Qed.

Lemma due_elem now s l a : a ∈ due now s l → a ∈ l.
Proof. unfold due. intros H%list_elem_of_In%in_rev. apply list_elem_of_In. by apply filter_In in H as [? _]. Qed.

Lemma due_length now s l : tchain s (active_timers s) l → NoDup l → (length (due now s l) < walk_fuel s)%nat.
Proof.
  intros Hc Hnd. apply filter_length_lt, chain_length; [done|]. intros b Hb. eapply tchain_elem; eauto.
Qed.

(** The handler with several timers, from a state with active list [l]. *)
Lemma timer_handler_multi now s l :
  tchain s (active_timers s) l → NoDup l → single_timer s = false →
  (∀ a ev, a ∈ due now s l → event_at s a = Some ev → deliverable (signal_handler s) ev = true) →
  ∃ s', timer_handler user_handler now s = (Val tt, s') ∧
    tchain s' (active_timers s') (surv (drop_at (rounded_of now) s) false l) ∧
    (∀ a, core <$> theap s' !! a =
       (if decide (a ∈ l) then core ∘ after (rounded_of now) else core) <$> theap s !! a) ∧
    calls s' = calls s ++ omap (call_at s) (due now s l) ∧
    itimer s' = Itimerval zero_time
      (foldl (lower_at now (rounded_of now) s) zero_time l) ∧
    single_timer s' = false ∧ in_handler s' = false ∧ mutex s' = mutex s.
Proof.
  intros Hc Hnd Hs Hd.
  destruct (scan_list now s l Hc Hnd) as (e & Hscan & Hch & Hech & Hcore & Htmo & Hoth).
  set (s1 := scanned now s l) in *.
  unfold others in Hoth. simpl in Hoth. injection Hoth as H1 H2 H3 H4 H5 H6 H7 H8 H9 H10.
  assert (∀ a, event_at s1 a = event_at s a) as Hev by (intros; by apply event_scanned).
  assert (∀ a, call_at s1 a = call_at s a) as Hcall
    by (intros a; unfold call_at; by rewrite Hev, H3).
  set (s2 := log_calls (omap (call_at s) (due now s l)) s1).
  assert (notify_expired user_handler (walk_fuel s) e s1 = (Val tt, s2)) as Hnot.
  { unfold s2. rewrite (omap_ext_eq (call_at s) (call_at s1)) by done.
    apply notify_expired_calls; [by apply due_length|done|]. intros a ev Ha. rewrite Hev, H3. by apply Hd. }
  exists (set_in_handler false (set_itimer (timeout s1) s2)). split.
  { unfold timer_handler. erewrite bind_val by done.
    erewrite bind_val by done. cbn [set_in_handler single_timer]. rewrite Hs.
    erewrite bind_val; [done|]. rewrite bind_val with (a := tt) (s' := entered s) by done.
    erewrite bind_val by done. erewrite bind_val by exact Hscan.
    erewrite bind_val by exact Hnot. erewrite bind_val by done.
    erewrite bind_val by done. simpl. by rewrite H1, Hs. }
  split; [by eapply tchain_ext; [|exact Hch]|]. split; [exact Hcore|].
  split; [simpl; by rewrite H9|]. split; [|simpl; by rewrite H1, H5].
  simpl. destruct (timeout s1) as [ti tv]. simpl in H10, Htmo. rewrite H10, Htmo. done.
Qed.
End HandlerProps.

(** ** Unlinking a timer *)

(** The link that follows the timers [l] from the link [tp]. *)
Fixpoint last_link (tp : ploc) (l : list Z) : ploc :=
  match l with [] => tp | a :: l' => last_link (PNext a) l' end.

Lemma last_link_next a l : ∃ b, last_link (PNext a) l = PNext b ∧ b ∈ a :: l.
Proof.
  revert a. induction l as [|c l IH]; intros a; simpl.
  - exists a. split; [done|constructor].
  - destruct (IH c) as (b & Hb & Hin). exists b. split; [done|by constructor].
Qed.

Lemma find_link_at s t l1 l2 tp fuel :
  (length l1 < fuel)%nat → t ∉ l1 → 
  (∃ p, link s tp = Some p ∧ tchain s p (l1 ++ t :: l2)) →
  find_link fuel t tp s = (Val (Some (last_link tp l1)), s).
Proof.
  revert tp fuel. induction l1 as [|a l1 IH]; intros tp fuel Hf Ht (p & Hp & Hc);
    (destruct fuel as [|fuel]; [simpl in Hf; lia|]); cbn [find_link app tchain] in *.
  - destruct Hc as (-> & _). erewrite bind_val by (by apply deref_link).
    by rewrite Z.eqb_refl.
  - destruct Hc as (-> & Ha & n & Hn & Hc). apply not_elem_of_cons in Ht as [Hta Ht].
    erewrite bind_val by (by apply deref_link).
    rewrite (proj2 (Z.eqb_neq a t)), (proj2 (Z.eqb_neq a 0)) by congruence.
    apply IH; [simpl in Hf; lia|done|eauto].
Qed.

Lemma link_assign s tp q p :
  is_Some (link s tp) →
  link (assign_st tp p s) q = if decide (q = tp) then Some p else link s q.
Proof.
  intros [x Hx]. destruct tp as [|b], q as [|c]; simpl; try done;
    [by rewrite decide_False by congruence..|].
  rewrite lookup_alter. destruct (decide (b = c)) as [->|Hne].
  - rewrite decide_True by done. simpl in Hx. by destruct (theap s !! c).
  - by rewrite decide_False by congruence.
Qed.

(** Storing the successor of [t] in the link before [t] unlinks [t]. *)
Lemma unlink_chain s t n l1 l2 tp :
  NoDup (l1 ++ t :: l2) → link s (PNext t) = Some n →
  (∀ a, tp = PNext a → a ∉ l1 ++ t :: l2) →
  (∃ p, link s tp = Some p ∧ tchain s p (l1 ++ t :: l2)) →
  is_Some (link s (last_link tp l1)) ∧
  ∃ p, link (assign_st (last_link tp l1) n s) tp = Some p ∧
       tchain (assign_st (last_link tp l1) n s) p (l1 ++ l2).
Proof.
  revert tp. induction l1 as [|a l1 IH]; intros tp Hnd Hn Htp (p & Hp & Hc);
    cbn [last_link app tchain] in *.
  - destruct Hc as (-> & Ht & n' & Hn' & Hc). rewrite Hn in Hn'. simplify_eq.
    split; [eauto|]. exists n'. rewrite link_assign by eauto. split; [by apply decide_True|].
    eapply tchain_ext; [|done]. intros b Hb. rewrite link_assign by eauto.
    apply decide_False. intros <-. eapply Htp; [done|]. by constructor.
  - destruct Hc as (-> & Ha & n' & Hn' & Hc). apply NoDup_cons in Hnd as [Hal Hnd].
    destruct (IH (PNext a)) as (Hs & p' & Hp' & Hc'); [done|done|by intros b [= <-]|eauto|].
    split; [done|]. exists a. split.
    + rewrite link_assign by done. rewrite decide_False; [done|]. intros Htl.
      destruct (last_link_next a l1) as (b & Hb & Hbl). rewrite Hb in Htl.
      eapply Htp; [exact Htl|]. set_solver.
    + split; [done|split; [done|]]. eauto.
Qed.

(** The list without the timer [t]. *)
Definition without (t : Z) (l : list Z) : list Z := filter (λ a, a ≠ t) l.

Lemma without_notin t l : t ∉ l → without t l = l.
Proof.
  unfold without. induction l as [|a l IH]; intros H; [done|].
  apply not_elem_of_cons in H as [Ha H]. rewrite filter_cons_True by done. by rewrite IH.
Qed.

Lemma without_app t l1 l2 : NoDup (l1 ++ t :: l2) → without t (l1 ++ t :: l2) = l1 ++ l2.
Proof.
  intros (Hnd1 & Hdis & [Ht Hnd2]%NoDup_cons)%NoDup_app. unfold without.
  rewrite filter_app, filter_cons_False by (by intros H).
  fold (without t l1) (without t l2). rewrite !without_notin; [done..|].
  intros Hin. eapply Hdis; [done|constructor].
Qed.

Lemma elem_of_without a t l : a ∈ without t l ↔ a ∈ l ∧ a ≠ t.
Proof. unfold without. rewrite list_elem_of_filter. tauto. Qed.

Lemma core_assign s tp p a :
  core <$> theap (assign_st tp p s) !! a = core <$> theap s !! a.
Proof.
  destruct tp as [|b]; [done|]. simpl. rewrite lookup_alter.
  case_decide; subst; [|done]. by destruct (theap s !! a).
Qed.

Lemma others_assign s tp p : others (assign_st tp p s) = others s.
Proof. by destruct tp. Qed.

(** [find_link] and the store into the link it found: the timer [t] of the
    active list is unlinked, the fields of every timer stay. *)
Lemma unlink_active s l t r :
  tchain s (active_timers s) l → NoDup l → t ∈ l → theap s !! t = Some r →
  ∃ tp, find_link (walk_fuel s) t PHead s = (Val (Some tp), s) ∧
    assign tp (next_active r) s = (Val tt, assign_st tp (next_active r) s) ∧
    tchain (assign_st tp (next_active r) s)
      (active_timers (assign_st tp (next_active r) s)) (without t l).
Proof.
  intros Hc Hnd Ht Hr. apply list_elem_of_split in Ht as (l1 & l2 & ->).
  assert (t ∉ l1) as Ht1.
  { apply NoDup_app in Hnd as (_ & Hdis & _). intros H. eapply Hdis; [done|constructor]. }
  destruct (unlink_chain s t (next_active r) l1 l2 PHead) as (Hs & p & Hp & Hch);
    [done|simpl; by rewrite Hr|done|by eauto|].
  exists (last_link PHead l1).
  split; [|split; [by apply assign_link|]].
  - apply find_link_at with (l2 := l2); [|done|by eauto].
    assert (length (l1 ++ t :: l2) < walk_fuel s)%nat as Hlen.
    { apply chain_length; [done|]. intros b Hb. eapply tchain_elem; eauto. }
    rewrite length_app in Hlen. lia.
  - rewrite without_app by done. simpl in Hp. by simplify_eq.
Qed.

(** Building [twf] from a state whose timers have the same fields. *)
Lemma twf_same_fields s s' l l' (live : Z → Prop) :
  twf s l → tchain s' (active_timers s') l' → NoDup l' → theap s' !! 0 = None →
  (∀ a t, theap s' !! a = Some t →
     live a ∧ (∃ t0, theap s !! a = Some t0 ∧ running t0 = running t)) →
  (∀ a, live a → a ∈ l ↔ a ∈ l') →
  twf s' l'.
Proof.
  intros [_ _ _ Hrun] Hc Hnd H0 Hold Hl. constructor; [done..|].
  intros a t Ht. destruct (Hold a t Ht) as (Hlive & t0 & Ht0 & <-).
  rewrite (Hrun a t0 Ht0). by apply Hl.
Qed.

(** ** The properties of the timer calls *)

(** The state of [timer_delete] after the timer has left the list. *)
Lemma timer_delete_unlinked s l t r :
  twf s l → theap s !! t = Some r →
  ∃ s', (if running r then unlink_timer t (mret tt) else mret true) s = (Val true, s') ∧
    tchain s' (active_timers s') (without t l) ∧
    (∀ a, core <$> theap s' !! a = core <$> theap s !! a) ∧
    mutex s' = mutex s ∧ alrm_blocked s' = alrm_blocked s ∧
    (single_timer s' = true → single_timer s = true).
Proof.
  intros [Hc Hnd H0 Hrun] Hr. pose proof (Hrun t r Hr) as Ht.
  destruct (running r).
  - destruct (unlink_active s l t r) as (tp & Hf & Ha & Hch); [done..|by apply Ht|done|].
    exists (set_single false (assign_st tp (next_active r) s)). split.
    { unfold unlink_timer. erewrite bind_val by done. erewrite bind_val by exact Hf.
      cbn beta iota. erewrite bind_val by (by apply read_t_Some). erewrite bind_val by exact Ha. done. }
    pose proof (others_assign s tp (next_active r)) as Ho. unfold others in Ho.
    split; [by eapply tchain_ext; [|exact Hch]|].
    split; [intros a; apply core_assign|]. simpl. by simplify_eq.
  - exists s. split; [done|]. rewrite without_notin by (by rewrite <- Ht).
    done.
Qed.

(** [timer_delete] of a timer of a well-formed state succeeds: the timer
    is freed and leaves the active list, the other timers keep their fields and
    their order, the state stays well-formed, the mutex is released and the
    signal mask is restored. *)
Theorem timer_delete_ok s l t r :
  twf s l → theap s !! t = Some r → mutex s = false →
  ∃ s', timer_delete t s = (Val tt, s') ∧ twf s' (without t l) ∧
    theap s' !! t = None ∧
    (∀ a, a ≠ t → core <$> theap s' !! a = core <$> theap s !! a) ∧
    mutex s' = false ∧ alrm_blocked s' = alrm_blocked s ∧
    (single_timer s' = true → single_timer s = true).
Proof.
  intros Hwf Hr Hm.
  set (s1 := set_mutex true (set_blocked true s)).
  assert (twf s1 l) as Hwf1.
  { destruct Hwf as [Hc Hnd H0 Hrun]. constructor; [by eapply tchain_ext; [|exact Hc]|done..]. }
  destruct (timer_delete_unlinked s1 l t r) as (s2 & Hrun & Hch & Hcore & Hm2 & Hb2 & Hs2);
    [done..|].
  exists (set_blocked (alrm_blocked s) (set_mutex false (upd_heap (delete t) s2))).
  assert (∀ a, a ≠ t → core <$> delete t (theap s2) !! a = core <$> theap s !! a) as Hdel.
  { intros a Ha. rewrite lookup_delete_ne by done. apply Hcore. }
  assert (without t l = without t (without t l)) as Hww.
  { symmetry. apply without_notin. by intros [_ ?]%elem_of_without. }
  split; [|split; [|split; [by apply lookup_delete_eq|done]]].
  - unfold timer_delete. erewrite bind_val by done. erewrite bind_val by done.
    erewrite bind_val by (unfold lock; simpl; by rewrite Hm).
    erewrite bind_val by (by apply read_t_Some). by erewrite bind_val by exact Hrun.
  - eapply (twf_same_fields s1 _ l _ (λ a, a ≠ t)); [done|..].
    + eapply tchain_ext; [|exact Hch]. intros a [_ Ha]%elem_of_without. simpl.
      by rewrite lookup_delete_ne by done.
    + apply NoDup_filter, Hwf.
    + simpl. apply lookup_delete_None. right. apply (fmap_None core).
      rewrite Hcore. simpl. by rewrite (twf_null _ _ Hwf).
    + intros a t1. cbn. intros [Hne Ht1]%lookup_delete_Some. split; [by intros ->|].
      specialize (Hcore a). rewrite Ht1 in Hcore. symmetry in Hcore.
      apply fmap_Some in Hcore as (t0 & Ht0 & Heq). exists t0. split; [done|].
      change (running (core t0) = running (core t1)). by rewrite Heq.
    + intros a Ha. rewrite elem_of_without. tauto.
Qed.

(** A process with two timers: one-shot timer 1 (SIGALRM, value 1) and
    one-shot timer 2 (SIGUSR1 = 10, value 2), armed to expire together. *)
Definition demo_handlers (s : tstate) : tstate :=
  set_disposition 14 5001 (set_disposition 10 5002 s).

Definition demo_junk : timer :=
  Timer 0 0 (Sigevent 0 0 0) zero_time zero_time zero_time 0 0 false.

Definition demo_two (iv1 iv2 : timespec) : M tstate unit :=
  t1 ← timer_create (Some (1, demo_junk)) CLOCK_REALTIME (Some (Sigevent 0 14 1));
  t2 ← timer_create (Some (2, demo_junk)) CLOCK_REALTIME (Some (Sigevent 0 10 2));
  modify demo_handlers;;
  timer_settime (Timeval 100 0) zero_itimer t1 TIMER_RELTIME
    (Some (Itimerspec iv1 (Timespec 3 0))) false;;
  timer_settime (Timeval 100 0) zero_itimer t2 TIMER_RELTIME
    (Some (Itimerspec iv2 (Timespec 3 0))) false;;
  mret tt.

Definition demo_state (iv1 iv2 : timespec) : tstate := (demo_two iv1 iv2 tinit).2.

Lemma timer_delete_ok_witness :
  ∃ s', timer_delete 1 (demo_state (Timespec 0 0) (Timespec 1 0)) = (Val tt, s') ∧
    twf s' [2] ∧ theap s' !! 1 = None ∧
    (∀ a, a ≠ 1 → core <$> theap s' !! a =
       core <$> theap (demo_state (Timespec 0 0) (Timespec 1 0)) !! a) ∧
    mutex s' = false ∧ alrm_blocked s' = false ∧
    (single_timer s' = true → single_timer (demo_state (Timespec 0 0) (Timespec 1 0)) = true).
Proof.
  eapply (timer_delete_ok (demo_state (Timespec 0 0) (Timespec 1 0)) [2; 1] 1).
  - decide_now.
  - vm_compute. reflexivity.
  - vm_compute. reflexivity.
Defined.

(** ** Arming a timer *)

(** The time until the first expiry that [timer_settime] computes. *)
Definition first_value (now : timeval) (flags : Z) (v : itimerspec) : timeval :=
  let value := to_timeval (its_value v) in
  if flags =? TIMER_ABSTIME then subtract_time value now else value.

(** The state [s'] is [s] with timer [t] pushed on the active list and armed. *)
Record armed (s s' : tstate) (t : Z) (now : timeval) (flags : Z) (v : itimerspec) : Prop := {
  armed_head : active_timers s' = t;
  armed_timer : ∃ r r', theap s !! t = Some r ∧ theap s' !! t = Some r' ∧
    next_active r' = active_timers s ∧ running r' = true ∧ event r' = event r ∧
    interval r' = to_timeval (its_interval v) ∧
    next_alarm r' = add_time now (first_value now flags v);
  armed_others : ∀ a, a ≠ t → theap s' !! a = theap s !! a;
  armed_mutex : mutex s' = false;
  armed_mask : alrm_blocked s' = alrm_blocked s;
  armed_handler : in_handler s' = in_handler s }.

(** Another timer's fields after the store into [t]. *)
Lemma upd_heap_other f s t a : a ≠ t → theap (upd_heap (alter f t) s) !! a = theap s !! a.
Proof. intros H. simpl. by rewrite lookup_alter_ne by done. Qed.

Lemma save_handler_run sig h s :
  0 ≤ sig < 64 → save_handler sig h s = (Val tt, set_sighandler sig h s).
Proof.
  intros H. unfold save_handler.
  rewrite (proj2 (Z.leb_le 0 sig)), (proj2 (Z.ltb_lt sig 64)) by lia. done.
Qed.

(** The parts of the state that the handler bookkeeping leaves alone. *)
Definition tcore (s : tstate) :=
  (theap s, active_timers s, single_timer s, in_handler s, mutex s, alrm_blocked s).

Lemma settime_handlers_run s t r :
  theap s !! t = Some r → 0 ≤ sigev_signo (event r) < 64 →
  ∃ s', settime_handlers t s = (Val tt, s') ∧ tcore s' = tcore s.
Proof.
  intros Hr Hsig. unfold settime_handlers.
  set (s1 := set_disposition SIGALRM timer_handler_ptr s).
  set (old := default 0 (disposition s !! SIGALRM)).
  set (s2 := if negb (old =? timer_handler_ptr) then set_sighandler SIGALRM old s1 else s1).
  assert (tcore s2 = tcore s) as H2 by (unfold s2; by destruct (negb _)).
  exists (if negb (sigev_signo (event r) =? SIGALRM)
          then set_sighandler (sigev_signo (event r))
                 (if valid_signal (sigev_signo (event r))
                  then default 0 (disposition s !! sigev_signo (event r)) else old) s2
          else s2).
  split; [|by destruct (negb (_ =? SIGALRM))].
  erewrite bind_val by done. rewrite bind_val with (a := tt) (s' := s1) by done.
  rewrite bind_val with (a := tt) (s' := s2).
  2:{ unfold when, s2, old. destruct (negb _); [|done]. by apply save_handler_run. }
  erewrite bind_val.
  2:{ apply read_t_Some. change (theap s2) with (tcore s2).1.1.1.1.1. by rewrite H2. }
  unfold when. destruct (negb (_ =? SIGALRM)); [|done]. by apply save_handler_run.
Qed.

Lemma lower_by_others_run l fuel t now p s :
  (length l < fuel)%nat → tchain s p l →
  ∃ tmo, lower_by_others fuel t now p s = (Val tt, set_timeout tmo s).
Proof.
  revert fuel p s. induction l as [|a l IH]; intros fuel p s Hf Hc;
    (destruct fuel as [|fuel]; [simpl in Hf; lia|]); cbn [lower_by_others tchain] in *.
  - subst. simpl. exists (timeout s). by rewrite set_timeout_same.
  - destruct Hc as (-> & Ha & n & Hn & Hc). apply fmap_Some in Hn as (r & Hr & ->).
    rewrite (proj2 (Z.eqb_neq a 0)) by done. erewrite bind_val by (by apply read_t_Some).
    unfold when. destruct (negb (a =? t) && _).
    + erewrite bind_val by apply lower_timeout_st.
      destruct (IH fuel (next_active r) (lower_st (subtract_time (next_alarm r) now) s))
        as [tmo ->]; [simpl in Hf; lia|by eapply tchain_ext; [|exact Hc]|].
      by exists tmo.
    + rewrite bind_val with (a := tt) (s' := s) by done.
      apply IH; [simpl in Hf; lia|done].
Qed.

(** Programming the interval timer changes no link and no alarm of a timer. *)
Definition same_lists (s s' : tstate) : Prop :=
  active_timers s' = active_timers s ∧ in_handler s' = in_handler s ∧
  mutex s' = mutex s ∧ alrm_blocked s' = alrm_blocked s ∧
  (∀ a, (set_period 0 ∘ set_ticks 0) <$> theap s' !! a =
        (set_period 0 ∘ set_ticks 0) <$> theap s !! a).

Lemma settime_single_run s now it_old t iv it_new r :
  is_Some (theap s !! t) →
  ∃ o s', settime_single now it_old t iv it_new r s = (Val o, s') ∧
    same_lists s s' ∧ (∀ a, a ≠ t → theap s' !! a = theap s !! a) ∧
    single_timer s' = true.
Proof.
  intros Ht. unfold settime_single. eexists _, _.
  erewrite bind_val by done. erewrite bind_val by done. erewrite bind_val by done.
  cbn zeta.
  erewrite bind_val by (by apply write_t_Some).
  erewrite bind_val by (apply write_t_Some; by apply heap_alter_is_Some).
  erewrite bind_val by done. split; [done|]. split; [|split; [|done]].
  - split; [done|split; [done|split; [done|split; [done|]]]]. intros a. simpl.
    rewrite !lookup_alter. repeat case_decide; subst; try done.
    by destruct (theap s !! a).
  - intros a Ha. simpl. by rewrite !lookup_alter_ne by done.
Qed.

Lemma settime_multi_run s now t head it_new r l :
  tchain s head l → (length l < walk_fuel s)%nat →
  (in_handler s = true → single_timer s = false) →
  ∃ o s', settime_multi now t head it_new r s = (Val o, s') ∧
    same_lists s s' ∧ theap s' = theap s ∧ single_timer s' = false.
Proof.
  intros Hc Hl Hinh. unfold settime_multi.
  erewrite bind_val by done. erewrite bind_val by done.
  destruct (in_handler s) eqn:Ei.
  - rewrite Hinh by done. set (tmo := timeout s).
    set (b := is_zero (it_value tmo)
              || (negb (is_zero it_new) && (compare_time it_new (it_value tmo) <? 0))).
    set (s1 := if b then set_timeout (Itimerval (it_interval tmo) it_new) s else s).
    eexists _, s1. rewrite bind_val with (a := tt) (s' := s1).
    2:{ erewrite bind_val by done. erewrite bind_val by done. unfold when, s1.
        fold tmo. fold b. by destruct b. }
    split; [done|]. unfold s1. rewrite <- Hinh by done. by destruct b.
  - destruct (lower_by_others_run l (walk_fuel s) t now head
                (set_timeout (Itimerval zero_time it_new) (set_single false s)))
      as [tmo Hlow]; [done|by eapply tchain_ext; [|exact Hc]|].
    eexists _, _. erewrite bind_val.
    2:{ erewrite bind_val by done. erewrite bind_val by done. erewrite bind_val by done.
        erewrite bind_val by exact Hlow. done. }
    split; [done|]. done.
Qed.

(** Linking a timer that is not running. *)
Lemma settime_link_run s now t head it_new r :
  is_Some (theap s !! t) → running r = false → is_zero it_new = false →
  ∃ s', settime_link now t head it_new r s = (Val true, s') ∧
    active_timers s' = t ∧ single_timer s' = single_timer s ∧
    theap s' = alter (set_running true) t (alter (set_next_active head) t
                 (alter (set_next_alarm (add_time now it_new)) t (theap s))) ∧
    in_handler s' = in_handler s ∧ mutex s' = mutex s ∧ alrm_blocked s' = alrm_blocked s.
Proof.
  intros Ht Hr Hz. unfold settime_link. rewrite Hr, Hz.
  erewrite bind_val by (by apply write_t_Some). cbn [negb]. eexists.
  erewrite bind_val.
  2:{ unfold when. erewrite bind_val by (apply write_t_Some; by apply heap_alter_is_Some).
      erewrite bind_val by done. apply write_t_Some. 
      apply (heap_alter_is_Some (upd_heap _ s)). by apply heap_alter_is_Some. }
  split; [done|]. done.
Qed.

(** The branch of [timer_settime] for a timer that is alone. *)
Definition alone (s : tstate) (t : Z) (r : timer) : bool :=
  (active_timers s =? 0) || ((active_timers s =? t) && (next_active r =? 0)).

(** The assertion of line 254 fails: in a handler, [t] is armed beside a timer that was armed alone. *)
Definition clashes (s : tstate) (t : Z) (r : timer) : bool :=
  in_handler s && single_timer s && negb (alone s t r).

(** Programming, in either branch. *)
Lemma settime_program_run s now it_old t iv it_new r l :
  tchain s (active_timers s) l → NoDup l → is_Some (theap s !! t) →
  clashes s t r = false →
  ∃ o s', (if alone s t r then settime_single now it_old t iv it_new r
           else settime_multi now t (active_timers s) it_new r) s = (Val o, s') ∧
    same_lists s s' ∧ (∀ a, a ≠ t → theap s' !! a = theap s !! a) ∧
    single_timer s' = alone s t r.
Proof.
  unfold clashes. intros Hc Hnd Ht Hcl. destruct (alone s t r).
  - by apply settime_single_run.
  - destruct (settime_multi_run s now t (active_timers s) it_new r l)
      as (o & s' & H1 & H2 & H3 & H4); [done| |by destruct (in_handler s), (single_timer s)|].
    { apply chain_length; [done|]. intros b Hb. eapply tchain_elem; eauto. }
    exists o, s'. split; [done|]. split; [done|]. by rewrite H3.
Qed.

Lemma flags_ok flags :
  flags = TIMER_ABSTIME ∨ flags = TIMER_RELTIME →
  negb (flags =? TIMER_ABSTIME) && negb (flags =? TIMER_RELTIME) = false.
Proof. by intros [-> | ->]. Qed.

(** The timer's record once its intervals are stored. *)
Definition with_interval (iv : timeval) (r : timer) : timer :=
  set_corrected iv (set_interval iv r).

(** [r3] is [r2] apart from the fields of the drift correction. *)
Definition same_but_ticks (r3 r2 : timer) : Prop :=
  (set_period 0 ∘ set_ticks 0) r3 = (set_period 0 ∘ set_ticks 0) r2.

(** [timer_settime] up to the linking of the timer: the handlers are
    installed, the intervals stored and the interval timer programmed, with
    the active list [l] and the other timers as before. *)
Lemma settime_prefix s l t r now it_old flags v old :
  tchain s (active_timers s) l → NoDup l → theap s !! t = Some r →
  mutex s = false → 0 ≤ sigev_signo (event r) < 64 →
  flags = TIMER_ABSTIME ∨ flags = TIMER_RELTIME →
  clashes s t r = false →
  let r2 := with_interval (to_timeval (its_interval v)) r in
  ∃ ov s3 r3,
    timer_settime now it_old t flags (Some v) old s =
      (ok ← settime_link now t (active_timers s) (first_value now flags v) r2;
       unlock;;
       modify (set_blocked (alrm_blocked s));;
       if (ok : bool)
       then mret (if old then Some (Itimerspec (to_timespec (interval r)) ov) else None)
       else fail EINVAL) s3 ∧
    active_timers s3 = active_timers s ∧ single_timer s3 = alone s t r ∧
    in_handler s3 = in_handler s ∧ theap s3 !! t = Some r3 ∧ same_but_ticks r3 r2 ∧
    (∀ a, a ≠ t → theap s3 !! a = theap s !! a).
Proof.
  intros Hc Hnd Hr Hm Hsig Hfl Hinh.
  set (iv := to_timeval (its_interval v)). set (it_new := first_value now flags v).
  set (s0 := set_mutex true (set_blocked true s)).
  destruct (settime_handlers_run s0 t r) as (s1 & Hh & Htc); [done..|].
  unfold tcore in Htc. simpl in Htc. injection Htc as Hh1 Ha1 Hs1 Hi1 Hm1 Hb1.
  assert (theap s1 !! t = Some r) as Hr1 by (by rewrite Hh1).
  set (s2 := upd_heap (alter (set_corrected iv) t) (upd_heap (alter (set_interval iv) t) s1)).
  set (r2 := with_interval iv r).
  assert (theap s2 !! t = Some r2) as Hr2.
  { simpl. by rewrite !lookup_alter_eq, Hr1. }
  assert (∀ a, a ≠ t → theap s2 !! a = theap s !! a) as Hother2.
  { intros a Ha. simpl. by rewrite !lookup_alter_ne, Hh1 by done. }
  assert (tchain s2 (active_timers s2) l) as Hc2.
  { simpl. rewrite Ha1. eapply tchain_ext; [|exact Hc]. intros a Ha. unfold link.
    destruct (decide (a = t)) as [->|Hne]; [by rewrite Hr2, Hr|by rewrite Hother2]. }
  destruct (settime_program_run s2 now it_old t iv it_new r2 l)
    as (ov & s3 & Hprog & (Ha3 & Hi3 & Hm3 & Hb3 & Hsame) & Hother3 & Hs3);
    [done|done|eauto|unfold clashes, alone; simpl; by rewrite Hi1, Hs1, Ha1|].
  specialize (Hsame t). rewrite Hr2 in Hsame.
  apply fmap_Some in Hsame as (r3 & Hr3 & Heq3).
  assert (active_timers s2 = active_timers s) as Ha2 by exact Ha1.
  exists ov, s3, r3. split_and!; [|by rewrite Ha3| | |done|done|].
  - unfold timer_settime. rewrite flags_ok by done.
    erewrite bind_val by done. erewrite bind_val by done.
    erewrite bind_val by (unfold lock; simpl; by rewrite Hm).
    erewrite bind_val by exact Hh. erewrite bind_val by (by apply read_t_Some).
    cbn zeta. erewrite bind_val by (apply write_t_Some; eauto).
    erewrite bind_val by (apply write_t_Some, heap_alter_is_Some; eauto).
    erewrite bind_val by done. erewrite bind_val by (apply read_t_Some; exact Hr2).
    erewrite bind_val by exact Hprog. rewrite <- Ha2. done.
  - rewrite Hs3. unfold alone. by rewrite Ha2.
  - rewrite Hi3. exact Hi1.
  - intros a Ha. by rewrite Hother3, Hother2.
Qed.

(** Arming a timer that is not running. *)
Lemma settime_arms s l t r now it_old flags v old :
  tchain s (active_timers s) l → NoDup l → theap s !! t = Some r →
  mutex s = false → running r = false → 0 ≤ sigev_signo (event r) < 64 →
  flags = TIMER_ABSTIME ∨ flags = TIMER_RELTIME →
  is_zero (first_value now flags v) = false →
  clashes s t r = false →
  ∃ o s', timer_settime now it_old t flags (Some v) old s = (Val o, s') ∧
    armed s s' t now flags v ∧ single_timer s' = alone s t r.
Proof.
  intros Hc Hnd Hr Hm Hrun Hsig Hfl Hz Hinh.
  destruct (settime_prefix s l t r now it_old flags v old)
    as (ov & s3 & r3 & Heq & Ha3 & Hs3 & Hi3 & Hr3 & Hsame & Hoth3); [done..|].
  destruct (settime_link_run s3 now t (active_timers s) (first_value now flags v)
              (with_interval (to_timeval (its_interval v)) r))
    as (s4 & Hlink & Ha4 & Hs4 & Hheap4 & Hi4 & Hm4 & Hb4); [eauto|done|done|].
  rewrite Heq. erewrite bind_val by exact Hlink. do 2 eexists. split; [done|].
  split; [|simpl; by rewrite Hs4, Hs3]. constructor; try done; [| |simpl; by rewrite Hi4, Hi3].
  - exists r. eexists. split; [done|]. split.
    { simpl. by rewrite Hheap4, !lookup_alter_eq, Hr3. }
    unfold same_but_ticks, compose in Hsame. destruct r3. simpl in Hsame. by simplify_eq/=.
  - intros a Ha. simpl. rewrite Hheap4, !lookup_alter_ne by done. by apply Hoth3.
Qed.

(** Stopping a running timer: it is unlinked from the active list. *)
Lemma settime_stops s l t r now it_old flags v old :
  twf s l → theap s !! t = Some r →
  mutex s = false → running r = true → 0 ≤ sigev_signo (event r) < 64 →
  flags = TIMER_ABSTIME ∨ flags = TIMER_RELTIME →
  is_zero (first_value now flags v) = true →
  clashes s t r = false →
  ∃ o s', timer_settime now it_old t flags (Some v) old s = (Val o, s') ∧
    tchain s' (active_timers s') (without t l) ∧
    running <$> theap s' !! t = Some false ∧
    (∀ a, a ≠ t → core <$> theap s' !! a = core <$> theap s !! a) ∧
    mutex s' = false ∧ alrm_blocked s' = alrm_blocked s ∧ single_timer s' = false.
Proof.
  intros Hwf Hr Hm Hrun Hsig Hfl Hz Hinh. pose proof Hwf as [Hc Hnd H0 Hrunl].
  destruct (settime_prefix s l t r now it_old flags v old)
    as (ov & s3 & r3 & Heq & Ha3 & Hs3 & Hi3 & Hr3 & Hsame & Hoth3); [done..|].
  set (it_new := first_value now flags v) in *.
  set (na := add_time now it_new).
  set (s4 := upd_heap (alter (set_next_alarm na) t) s3).
  assert (theap s4 !! t = Some (set_next_alarm na r3)) as Hr4
    by (simpl; by rewrite lookup_alter_eq, Hr3).
  assert (next_active r3 = next_active r) as Hnx.
  { unfold same_but_ticks, compose in Hsame. destruct r3. simpl in Hsame. by simplify_eq/=. }
  assert (∀ a, a ≠ t → theap s4 !! a = theap s !! a) as Hoth4.
  { intros a Ha. simpl. rewrite lookup_alter_ne by done. by apply Hoth3. }
  destruct (unlink_active s4 l t (set_next_alarm na r3)) as (tp & Hf & Has & Hch); [|done|
    by apply (Hrunl t r Hr)|done|].
  { change (active_timers s4) with (active_timers s3). rewrite Ha3.
    eapply tchain_ext; [|exact Hc]. intros a Ha. unfold link.
    destruct (decide (a = t)) as [->|Hne]; [|by rewrite Hoth4].
    rewrite Hr4, Hr. by simpl; rewrite Hnx. }
  set (s5 := assign_st tp _ s4) in *.
  pose proof (core_assign s4 tp (next_active (set_next_alarm na r3))) as Hcore5.
  fold s5 in Hcore5.
  assert (is_Some (theap s5 !! t)) as [r5 Hr5].
  { specialize (Hcore5 t). rewrite Hr4 in Hcore5. by destruct (theap s5 !! t). }
  rewrite Heq. erewrite bind_val.
  2:{ unfold settime_link. fold it_new. erewrite bind_val by (apply write_t_Some; eauto).
      fold na. fold s4. change (running (with_interval _ r)) with (running r).
      rewrite Hrun, Hz. cbn [negb].
      unfold unlink_timer. erewrite bind_val by done. erewrite bind_val by exact Hf.
      cbn beta iota. erewrite bind_val by (apply read_t_Some; exact Hr4).
      erewrite bind_val by exact Has. fold s5.
      erewrite bind_val by (apply write_t_Some; eauto). done. }
  do 2 eexists. split; [done|]. split_and!; try done.
  - eapply tchain_ext; [|exact Hch]. intros a Ha. simpl. rewrite lookup_alter.
    destruct (decide (t = a)) as [<-|]; [|done]. by rewrite Hr5.
  - simpl. by rewrite lookup_alter_eq, Hr5.
  - intros a Ha. simpl. rewrite lookup_alter_ne by done. rewrite Hcore5.
    by rewrite Hoth4.
Qed.

(** In a handler: the assertion of line 254 fails. *)
Lemma settime_clashes s t r now it_old flags v old :
  theap s !! t = Some r → mutex s = false → 0 ≤ sigev_signo (event r) < 64 →
  flags = TIMER_ABSTIME ∨ flags = TIMER_RELTIME → clashes s t r = true →
  ∃ s', timer_settime now it_old t flags (Some v) old s = (AssertFail, s').
Proof.
  intros Hr Hm Hsig Hfl Hcl. unfold clashes in Hcl.
  apply andb_prop in Hcl as [[Hi Hs]%andb_prop Ha%negb_true_iff].
  set (s0 := set_mutex true (set_blocked true s)).
  destruct (settime_handlers_run s0 t r) as (s1 & Hh & Htc); [done..|].
  unfold tcore in Htc. simpl in Htc. injection Htc as Hh1 Ha1 Hs1 Hi1 Hm1 Hb1.
  set (iv := to_timeval (its_interval v)).
  set (s2 := upd_heap (alter (set_corrected iv) t) (upd_heap (alter (set_interval iv) t) s1)).
  assert (theap s1 !! t = Some r) as Hr1 by (by rewrite Hh1).
  assert (theap s2 !! t = Some (with_interval iv r)) as Hr2 by (simpl; by rewrite !lookup_alter_eq, Hr1).
  eexists. unfold timer_settime. rewrite flags_ok by done.
  erewrite bind_val by done. erewrite bind_val by done.
  erewrite bind_val by (unfold lock; simpl; by rewrite Hm).
  erewrite bind_val by exact Hh. erewrite bind_val by (by apply read_t_Some).
  cbn zeta. erewrite bind_val by (apply write_t_Some; eauto).
  erewrite bind_val by (apply write_t_Some, heap_alter_is_Some; eauto).
  fold iv s2. erewrite bind_val by done. erewrite bind_val by (apply read_t_Some; exact Hr2).
  change ((active_timers s2 =? 0) || ((active_timers s2 =? t) && (next_active (with_interval iv r) =? 0)))
    with (alone s2 t r).
  assert (alone s2 t r = false) as -> by (unfold alone in *; simpl; by rewrite Ha1).
  unfold settime_multi, mbind, M_bind. cbn [gets].
  change (single_timer s2) with (single_timer s1). change (in_handler s2) with (in_handler s1).
  rewrite Hs1, Hi1, Hi, Hs. done.
Qed.

(** ** What the calls leave alone *)

(** The fields of a timer that the SIGALRM handler reads when it calls the application's handlers. *)
Definition info (r : timer) : Z * sigevent := (next_expired r, event r).
Definition frame (P : Z → Prop) (s s' : tstate) : Prop :=
  calls s' = calls s ∧ in_handler s' = in_handler s ∧
  ∀ a, P a → info <$> theap s' !! a = info <$> theap s !! a.
Definition keeps {A} (P : Z → Prop) (m : M tstate A) : Prop := ∀ s, frame P s (m s).2.

Lemma frame_refl P s : frame P s s.
Proof. done. Qed.

Lemma frame_trans P s1 s2 s3 : frame P s1 s2 → frame P s2 s3 → frame P s1 s3.
Proof.
  intros (H1 & H2 & H3) (H4 & H5 & H6). split_and!; [congruence..|]. intros a Ha. rewrite H6, H3; auto.
Qed.

Lemma keeps_bind {A B} P (m : M tstate A) (f : A → M tstate B) : keeps P m → (∀ a, keeps P (f a)) → keeps P (m ≫= f).
Proof.
  intros Hm Hf s. unfold mbind, M_bind. specialize (Hm s).
  destruct (m s) as [[a|e| | | |] s1]; try exact Hm. eapply frame_trans; [exact Hm|apply Hf].
Qed.

Lemma keeps_modify P f : (∀ s, frame P s (f s)) → keeps P (modify f).
Proof. intros Hf s. apply Hf. Qed.

Lemma frame_alter P f a s : (∀ r, info (f r) = info r) → frame P s (upd_heap (alter f a) s).
Proof.
  intros Hf. split_and!; [done..|]. intros b _. simpl. rewrite lookup_alter. case_decide; [|done].
  subst. destruct (theap s !! b); [|done]. simpl. by rewrite Hf.
Qed.

Lemma keeps_write P a f : (∀ r, info (f r) = info r) → keeps P (write_t a f).
Proof. intros Hf s. unfold write_t. destruct (theap s !! a); [by apply frame_alter|done]. Qed.

Lemma keeps_read P a : keeps P (read_t a).
Proof. intros s. unfold read_t. by destruct (theap s !! a). Qed.

Lemma keeps_lock P : keeps P lock.
Proof. intros s. unfold lock. by destruct (mutex s). Qed.

Lemma keeps_assert P b : keeps P (assert_c b).
Proof. intros s. by destruct b. Qed.

Lemma keeps_when P b m : keeps P m → keeps P (when b m).
Proof. intros Hm. by destruct b. Qed.

Create HintDb keeps.
#[export] Hint Resolve keeps_read keeps_lock keeps_assert : keeps.
#[export] Hint Extern 1 (keeps _ (write_t _ _)) => apply keeps_write; done : keeps.
#[export] Hint Extern 1 (keeps _ (mret _)) => intros ?; apply frame_refl : keeps.
#[export] Hint Extern 1 (keeps _ (modify _)) => apply keeps_modify; done : keeps.

(** Shows that a computation keeps a frame, call by call. *)
Ltac keep :=
  repeat (try solve [auto with keeps nocore | intros ?; apply frame_refl];
    match goal with
    | |- keeps _ (_ ≫= _) => apply keeps_bind; [|intros ?]
    | |- keeps _ (when _ _) => apply keeps_when
    | |- keeps _ unlock => unfold unlock
    | |- keeps _ (setitimer _) => unfold setitimer
    | |- keeps _ (save_handler _ _) => unfold save_handler
    | |- keeps _ (assign _ _) => unfold assign
    | |- keeps _ (deref _) => unfold deref
    | |- keeps _ (match _ with _ => _ end) => case_match
    end).

Lemma keeps_lower_timeout P d : keeps P (lower_timeout d).
Proof. intros s. by rewrite lower_timeout_st. Qed.
#[export] Hint Resolve keeps_lower_timeout : keeps.

Lemma keeps_lower_by_others P fuel t now p : keeps P (lower_by_others fuel t now p).
Proof. revert p. induction fuel as [|fuel IH]; intros p; [done|]. cbn [lower_by_others]. keep. Qed.
#[export] Hint Resolve keeps_lower_by_others : keeps.

Lemma keeps_find_link P fuel t tp : keeps P (find_link fuel t tp).
Proof. revert tp. induction fuel as [|fuel IH]; intros tp; [done|]. cbn [find_link]. keep. Qed.
#[export] Hint Resolve keeps_find_link : keeps.

Lemma keeps_unlink P t m : keeps P m → keeps P (unlink_timer t m).
Proof. intros Hm. unfold unlink_timer. keep. Qed.
#[export] Hint Resolve keeps_unlink : keeps.

Lemma keeps_handlers P t : keeps P (settime_handlers t).
Proof. unfold settime_handlers. keep. Qed.

Lemma keeps_single P now it_old t iv it_new r : keeps P (settime_single now it_old t iv it_new r).
Proof. unfold settime_single. keep. Qed.

Lemma keeps_multi P now t head it_new r : keeps P (settime_multi now t head it_new r).
Proof. unfold settime_multi. keep. Qed.

Lemma keeps_link P now t head it_new r : keeps P (settime_link now t head it_new r).
Proof. unfold settime_link. keep. Qed.
#[export] Hint Resolve keeps_handlers keeps_single keeps_multi keeps_link : keeps.

Lemma keeps_settime P now it_old t flags v old : keeps P (timer_settime now it_old t flags v old).
Proof. unfold timer_settime. keep. Qed.

(** ** Any call from a well-formed state *)

(** Another state with the same list and the same running timers. *)
Definition links_of (r : timer) : Z * bool := (next_active r, running r).

Lemma twf_same_links s s' l : twf s l → active_timers s' = active_timers s →
  (∀ a, links_of <$> theap s' !! a = links_of <$> theap s !! a) → twf s' l.
Proof.
  intros [Hc Hnd H0 Hrun] Ha Hl. constructor; [|done| |].
  - rewrite Ha. eapply tchain_ext; [|exact Hc]. intros a _. specialize (Hl a). unfold link.
    unfold links_of in Hl. destruct (theap s' !! a), (theap s !! a); simpl in *; congruence.
  - specialize (Hl 0). rewrite H0 in Hl. by destruct (theap s' !! 0).
  - intros a t Ht. specialize (Hl a). rewrite Ht in Hl. destruct (theap s !! a) as [t0|] eqn:E; [|done].
    unfold links_of in Hl. simpl in Hl. injection Hl as _ ->. by apply Hrun.
Qed.

(** A stopped timer that is to stay so, or a running one that gets another alarm. *)
Lemma settime_keeps_list s l t r now it_old flags v old :
  twf s l → theap s !! t = Some r → mutex s = false → 0 ≤ sigev_signo (event r) < 64 →
  flags = TIMER_ABSTIME ∨ flags = TIMER_RELTIME → clashes s t r = false →
  running r = negb (is_zero (first_value now flags v)) →
  ∃ o s', timer_settime now it_old t flags (Some v) old s = (Val o, s') ∧
    twf s' l ∧ mutex s' = false ∧ single_timer s' = alone s t r.
Proof.
  intros Hwf Hr Hm Hsig Hfl Hcl Hz. pose proof Hwf as [Hc Hnd H0 Hrun].
  destruct (settime_prefix s l t r now it_old flags v old)
    as (ov & s3 & r3 & Heq & Ha3 & Hs3 & Hi3 & Hr3 & Hsame & Hoth3); [done..|].
  set (it_new := first_value now flags v) in *.
  set (r2 := with_interval (to_timeval (its_interval v)) r) in *.
  set (s4 := upd_heap (alter (set_next_alarm (add_time now it_new)) t) s3).
  assert (settime_link now t (active_timers s) it_new r2 s3 = (Val true, s4)) as Hlink.
  { unfold settime_link. erewrite bind_val by (apply write_t_Some; eauto).
    change (running r2) with (running r). rewrite Hz. by destruct (is_zero it_new). }
  rewrite Heq. erewrite bind_val by exact Hlink. do 2 eexists. split; [done|]. split; [|by split].
  apply (twf_same_links s); [done|by simpl|]. intros a. simpl.
  rewrite lookup_alter. case_decide; [subst a|by rewrite Hoth3].
  rewrite Hr3, Hr. unfold same_but_ticks, compose in Hsame. destruct r3. simpl in Hsame. by simplify_eq/=.
Qed.

(** The single-timer mode needs a list with at most one timer. *)
Definition twf1 (s : tstate) (l : list Z) : Prop := twf s l ∧ (single_timer s = true → (length l ≤ 1)%nat).

#[global] Instance twf1_dec s l : Decision (twf1 s l).
Proof. unfold twf1. apply _. Defined.

Lemma alone_short s l t r : tchain s (active_timers s) l → theap s !! t = Some r → alone s t r = true → l = [] ∨ l = [t].
Proof.
  unfold alone. intros Hc Hr Ha. destruct l as [|a l]; [by left|right].
  destruct Hc as (Hhd & Hne & n & Hn & Hc). rewrite Hhd, (proj2 (Z.eqb_neq a 0)) in Ha by done.
  apply andb_prop in Ha as [Hat%Z.eqb_eq Hz%Z.eqb_eq]. rewrite Hat in *.
  simpl in Hn. rewrite Hr in Hn. simpl in Hn. rewrite Hz in Hn. simplify_eq.
  destruct l as [|b l]; [done|]. destruct Hc as (<- & Hb & _). done.
Qed.

Lemma armed_twf s s' l t now flags v :
  twf s l → t ∉ l → t ≠ 0 → armed s s' t now flags v → twf s' (t :: l).
Proof.
  intros [Hc Hnd H0 Hrun] Ht Ht0 [Hhead (r & r' & Hr & Hr' & Hnext & Hr2 & _) Hoth _ _ _].
  constructor.
  - rewrite Hhead. split; [done|]. split; [done|]. exists (active_timers s).
    simpl. rewrite Hr'. simpl. rewrite Hnext. split; [done|].
    eapply tchain_ext; [|exact Hc]. intros a Ha. simpl. rewrite Hoth; [done|]. by intros ->.
  - by constructor.
  - by rewrite Hoth.
  - intros a t' Ha. rewrite elem_of_cons. destruct (decide (a = t)) as [->|Hne].
    + simplify_eq. naive_solver.
    + rewrite Hoth in Ha by done. rewrite (Hrun a t' Ha). naive_solver.
Qed.

(** Stopping a timer leaves the list without it. *)
Lemma stopped_twf s s' l t :
  twf s l → tchain s' (active_timers s') (without t l) → is_Some (theap s !! t) →
  running <$> theap s' !! t = Some false →
  (∀ a, a ≠ t → core <$> theap s' !! a = core <$> theap s !! a) → twf s' (without t l).
Proof.
  intros [_ Hnd H0 Hrunl] H2 Hex H3 H4. constructor; [done| | |].
  - unfold without. by apply NoDup_filter.
  - destruct (decide (0 = t)) as [<-|Hne]; [rewrite H0 in Hex; by destruct Hex|].
    specialize (H4 0 Hne). rewrite H0 in H4. by destruct (theap s' !! 0).
  - intros a r' Ha. rewrite elem_of_without. destruct (decide (a = t)) as [->|Hne].
    + rewrite Ha in H3. simplify_eq/=. rewrite H3. naive_solver.
    + specialize (H4 a Hne). rewrite Ha in H4.
      destruct (theap s !! a) as [r0|] eqn:Hr0; [|done]. apply (inj Some) in H4.
      change (running r') with (running (core r')). rewrite H4. change (running (core r0)) with (running r0).
      rewrite (Hrunl a r0 Hr0). naive_solver.
Qed.

(** [timer_settime] with valid arguments, whatever it is asked for. *)
Lemma settime_twf s l t r now it_old flags v old :
  twf1 s l → theap s !! t = Some r → mutex s = false → 0 ≤ sigev_signo (event r) < 64 →
  flags = TIMER_ABSTIME ∨ flags = TIMER_RELTIME →
  ∃ o s', timer_settime now it_old t flags (Some v) old s = (o, s') ∧
    (o = AssertFail ∨ (∃ x, o = Val x) ∧ mutex s' = false ∧ ∃ l', twf1 s' l').
Proof.
  intros [Hwf H1] Hr Hm Hsig Hfl. pose proof Hwf as [Hc Hnd H0 Hrun].
  destruct (clashes s t r) eqn:Hcl.
  { destruct (settime_clashes s t r now it_old flags v old) as [s' Hs]; [done..|]. eauto. }
  assert (alone s t r = true → l = [] ∨ l = [t]) as Hal by by apply alone_short.
  destruct (running r) eqn:Hr1, (is_zero (first_value now flags v)) eqn:Hz.
  - destruct (settime_stops s l t r now it_old flags v old) as (o & s' & E1 & E2 & E3 & E4 & E5 & _ & E7); [done..|].
    eexists _, s'. split; [exact E1|]. right. split; [eauto|]. split; [done|]. exists (without t l).
    split; [by eapply stopped_twf|]. by rewrite E7.
  - destruct (settime_keeps_list s l t r now it_old flags v old) as (o & s' & E1 & E2 & E3 & E4); [done..|by rewrite Hz|].
    eexists _, s'. split; [exact E1|]. right. split; [eauto|]. split; [done|]. exists l. split; [done|].
    rewrite E4. intros [-> | ->]%Hal; simpl; lia.
  - destruct (settime_keeps_list s l t r now it_old flags v old) as (o & s' & E1 & E2 & E3 & E4); [done..|by rewrite Hz|].
    eexists _, s'. split; [exact E1|]. right. split; [eauto|]. split; [done|]. exists l. split; [done|].
    rewrite E4. intros [-> | ->]%Hal; simpl; lia.
  - destruct (settime_arms s l t r now it_old flags v old) as (o & s' & E1 & E2 & E3); [done..|].
    assert (t ∉ l) as Ht by (rewrite <- (Hrun t r Hr), Hr1; done).
    eexists _, s'. split; [exact E1|]. right. split; [eauto|]. split; [apply E2|]. exists (t :: l).
    split; [eapply armed_twf; [done|done|congruence|done]|].
    rewrite E3. intros [-> | ->]%Hal; simpl; [lia|]. destruct Ht. by constructor.
Qed.

(** ** Handlers of the application that call the timers *)

(** What a handler does, as a program over the timer calls: each call with what the kernel or [malloc]
    answers to it, and what follows when it returns a value or an error. *)
Inductive client : Type :=
| Return_
| Settime (now : timeval) (it_old : itimerval) (t flags : Z) (val : option itimerspec) (old : bool)
    (k : option itimerspec + errno → client)
| Gettime (now : timeval) (it_cur : itimerval) (t : Z) (old : bool) (k : option itimerspec + errno → client)
| Create (m : option (Z * timer)) (clock : Z) (spec : option sigevent) (k : Z + errno → client)
| Delete (t : Z) (k : unit + errno → client).

Fixpoint run_client (p : client) : M tstate unit :=
  match p with
  | Return_ => mret tt
  | Settime now it_old t flags val old k => r ← attempt (timer_settime now it_old t flags val old); run_client (k r)
  | Gettime now it_cur t old k => r ← attempt (timer_gettime now it_cur t old); run_client (k r)
  | Create m clock spec k => r ← attempt (timer_create m clock spec); run_client (k r)
  | Delete t k => r ← attempt (timer_delete t); run_client (k r)
  end.

(** A timer that can be armed; arguments that [timer_settime] rejects. *)
Definition usable (s : tstate) (t : Z) : bool :=
  match theap s !! t with Some r => (0 <=? sigev_signo (event r)) && (sigev_signo (event r) <? 64) | None => false end.
Definition rejected (flags : Z) (val : option itimerspec) : bool :=
  negb (flags =? TIMER_ABSTIME) && negb (flags =? TIMER_RELTIME) || match val with None => true | _ => false end.
(** What [malloc] can answer. *)
Definition fresh_block (s : tstate) (m : option (Z * timer)) : bool :=
  match m with Some (a, _) => negb (a =? 0) && bool_decide (theap s !! a = None) | None => true end.

(** A program uses the timers properly from [s]: it calls with timers that have not been deleted, and
    does not delete those of [pend], which the SIGALRM handler is still to look at. *)
Fixpoint proper (pend : list Z) (p : client) (s : tstate) : bool :=
  match p with
  | Return_ => true
  | Settime now it_old t flags val old k =>
      (rejected flags val || usable s t) &&
      match attempt (timer_settime now it_old t flags val old) s with (Val r, s') => proper pend (k r) s' | _ => true end
  | Gettime now it_cur t old k =>
      (negb old || bool_decide (is_Some (theap s !! t))) &&
      match attempt (timer_gettime now it_cur t old) s with (Val r, s') => proper pend (k r) s' | _ => true end
  | Create m clock spec k =>
      fresh_block s m &&
      match attempt (timer_create m clock spec) s with (Val r, s') => proper pend (k r) s' | _ => true end
  | Delete t k =>
      bool_decide (is_Some (theap s !! t) ∧ t ∉ pend) &&
      match attempt (timer_delete t) s with (Val r, s') => proper pend (k r) s' | _ => true end
  end.

(** A state in which the SIGALRM handler can call a handler while timers [pend] are to be served. *)
Record serving (pend : list Z) (s : tstate) : Prop := {
  sv_twf : ∃ l, twf1 s l;
  sv_mutex : mutex s = false;
  sv_pend a : a ∈ pend → is_Some (theap s !! a) }.

Lemma frame_is_Some (P : Z → Prop) s s' a : frame P s s' → P a → is_Some (theap s !! a) → is_Some (theap s' !! a).
Proof.
  intros (_ & _ & H) Ha Hs. specialize (H a Ha). apply fmap_is_Some with (f := info). rewrite H. by apply fmap_is_Some.
Qed.

(** A call that returns, and keeps what the SIGALRM handler needs, or stops the program. *)
Definition sound_call {A} (pend : list Z) (m : M tstate A) (s : tstate) : Prop :=
  ∃ o s', m s = (o, s') ∧ frame (λ a, a ∈ pend) s s' ∧
    (o = AssertFail ∨ ((∃ x, o = Val x) ∨ ∃ e, o = Fail e) ∧ serving pend s').

Lemma serving_same pend s s' l : frame (λ a, a ∈ pend) s s' → serving pend s → mutex s' = false → twf1 s' l → serving pend s'.
Proof.
  intros Hf Hs Hm Hl. split; [by exists l|done|]. intros a Ha. eapply frame_is_Some; [exact Hf|done|by apply Hs].
Qed.

Lemma frame_of {A} P (m : M tstate A) s o s' : keeps P m → m s = (o, s') → frame P s s'.
Proof. intros Hk Hm. specialize (Hk s). by rewrite Hm in Hk. Qed.

Lemma sound_same {A} pend (m : M tstate A) s o :
  m s = (o, s) → (∃ x, o = Val x) ∨ (∃ e, o = Fail e) → serving pend s → sound_call pend m s.
Proof. intros Hm Ho Hs. exists o, s. split; [done|]. split; [done|]. by right. Qed.

Lemma settime_sound pend s now it_old t flags val old :
  serving pend s → rejected flags val || usable s t = true → sound_call pend (timer_settime now it_old t flags val old) s.
Proof.
  intros Hs Hok. unfold rejected in Hok. unfold sound_call.
  destruct (negb (flags =? TIMER_ABSTIME) && negb (flags =? TIMER_RELTIME)) eqn:Hfl.
  { apply (sound_same pend _ s (Fail EINVAL)); [unfold timer_settime; by rewrite Hfl|by eauto|done]. }
  destruct val as [v|]; [|apply (sound_same pend _ s (Fail EFAULT)); [unfold timer_settime; by rewrite Hfl|by eauto|done]].
  assert (flags = TIMER_ABSTIME ∨ flags = TIMER_RELTIME) as Hf.
  { apply andb_false_iff in Hfl as [H%negb_false_iff|H%negb_false_iff]; apply Z.eqb_eq in H; auto. }
  cbn in Hok. unfold usable in Hok. destruct (theap s !! t) as [r|] eqn:Hr; [|done].
  destruct (sv_twf _ _ Hs) as [l Hl].
  destruct (settime_twf s l t r now it_old flags v old Hl Hr (sv_mutex _ _ Hs)) as (o & s' & He & Hc); [lia|done|].
  exists o, s'. split; [done|]. assert (frame (λ a, a ∈ pend) s s') as Hfr by (eapply frame_of; [apply keeps_settime|exact He]).
  split; [done|]. destruct Hc as [->|(Hx & Hm & l' & Hl')]; [by left|right]. split; [by left|]. by eapply serving_same.
Qed.

Lemma gettime_sound pend s now it_cur t old :
  serving pend s → negb old || bool_decide (is_Some (theap s !! t)) = true → sound_call pend (timer_gettime now it_cur t old) s.
Proof.
  intros Hs Hok. unfold timer_gettime. destruct (negb old) eqn:Ho; [apply (sound_same pend _ s (Val None)); by eauto|].
  cbn in Hok. apply bool_decide_eq_true in Hok as [r Hr].
  eapply sound_same; [by erewrite bind_val by (by apply read_t_Some)|by eauto|done].
Qed.

Lemma create_sound pend s m clock spec :
  serving pend s → fresh_block s m = true → sound_call pend (timer_create m clock spec) s.
Proof.
  intros Hs Hok. unfold timer_create.
  destruct spec as [ev|]; [|apply (sound_same pend _ s (Fail EINVAL)); by eauto].
  destruct (_ || _); [apply (sound_same pend _ s (Fail EINVAL)); by eauto|].
  destruct m as [[a junk]|]; [|apply (sound_same pend _ s (Fail ENOMEM)); by eauto].
  cbn in Hok. apply andb_prop in Hok as [Ha%negb_true_iff Hn%bool_decide_eq_true]. apply Z.eqb_neq in Ha.
  set (r := Timer _ _ _ _ _ _ _ _ false). exists (Val a), (upd_heap (insert a r) s). split; [done|].
  assert (frame (λ a, a ∈ pend) s (upd_heap (insert a r) s)) as Hf.
  { split_and!; [done..|]. intros b Hb. cbn. rewrite lookup_insert_ne; [done|]. intros <-.
    destruct (sv_pend _ _ Hs a Hb) as [? ?]. congruence. }
  split; [done|]. right. split; [eauto|]. destruct (sv_twf _ _ Hs) as (l & [Hc Hnd H0 Hrun] & H1).
  assert (a ∉ l) as Hal by (intros Hin; destruct (tchain_elem _ _ _ _ Hc Hin); congruence).
  apply (serving_same pend s _ l); [done|done|apply Hs|]. split; [|done]. constructor; [|done| |].
  - eapply tchain_ext; [|exact Hc]. intros b Hb. cbn. rewrite lookup_insert_ne; [done|]. by intros ->.
  - cbn. by rewrite lookup_insert_ne.
  - intros b t. cbn. rewrite lookup_insert. case_decide; [intros [= <-]; subst b; done|apply Hrun].
Qed.

Lemma delete_sound pend s t :
  serving pend s → bool_decide (is_Some (theap s !! t) ∧ t ∉ pend) = true → sound_call pend (timer_delete t) s.
Proof.
  intros Hs Hok. apply bool_decide_eq_true in Hok as [[r Hr] Ht]. destruct (sv_twf _ _ Hs) as (l & Hl & H1).
  destruct (timer_delete_ok s l t r Hl Hr (sv_mutex _ _ Hs)) as (s' & He & Hl' & _ & _ & Hm & _ & Hs').
  exists (Val tt), s'. split; [done|]. assert (frame (λ a, a ∈ pend) s s') as Hf.
  { eapply frame_of; [|exact He]. unfold timer_delete. keep. apply keeps_modify. intros s0.
    split_and!; [done..|]. intros b Hb. cbn. rewrite lookup_delete_ne; [done|]. intros ->. by apply Ht. }
  split; [done|]. right. split; [eauto|]. apply (serving_same pend s _ (without t l)); [done..|].
  split; [done|]. intros H. specialize (H1 (Hs' H)). unfold without. pose proof (length_filter (λ a, a ≠ t) l). lia.
Qed.

(** A handler that uses the timers properly returns, or the assertion of [timer_settime] fails in it. *)
Lemma attempt_sound {A} pend (m : M tstate A) (k : A + errno → client) s :
  sound_call pend m s →
  match attempt m s with (Val r, s') => proper pend (k r) s' | _ => true end = true →
  (∀ r s', serving pend s' → proper pend (k r) s' = true →
     ∃ o s'', run_client (k r) s' = (o, s'') ∧ frame (λ a, a ∈ pend) s' s'' ∧ (o = AssertFail ∨ o = Val tt ∧ serving pend s'')) →
  ∃ o s', (r ← attempt m; run_client (k r)) s = (o, s') ∧ frame (λ a, a ∈ pend) s s' ∧ (o = AssertFail ∨ o = Val tt ∧ serving pend s').
Proof.
  intros (o & s1 & Hm & Hf & Ho) Hp IH. unfold mbind, M_bind, attempt in *. rewrite Hm in *.
  destruct Ho as [->|[[[x ->]|[e ->]] Hs1]]; [exists AssertFail, s1; by auto|..].
  all: destruct (IH _ s1 Hs1 Hp) as (o2 & s2 & H2 & Hf2 & Ho2); exists o2, s2; split; [done|]; split; [by eapply frame_trans|done].
Qed.

Lemma client_sound pend p s : serving pend s → proper pend p s = true →
  ∃ o s', run_client p s = (o, s') ∧ frame (λ a, a ∈ pend) s s' ∧ (o = AssertFail ∨ o = Val tt ∧ serving pend s').
Proof.
  revert s. induction p as [|now it_old t flags val old k IH|now it_cur t old k IH|m clock spec k IH|t k IH]; intros s Hs Hp;
    [exists (Val tt), s; split_and!; by auto|..]; cbn [proper] in Hp; apply andb_prop in Hp as [Hok Hp]; cbn [run_client]; (eapply attempt_sound; [|exact Hp|auto]).
  - by apply settime_sound.
  - by apply gettime_sound.
  - by apply create_sound.
  - by apply delete_sound.
Qed.

(** ** The handlers of the application, called one after the other *)

(** A handler's signal and the value that comes with it, of a call and of an event. *)
Definition signals_of (cs : list (Z * Z * Z)) : list (Z * Z) := (λ c, (c.1.2, c.2)) <$> cs.
Definition signal_for (ev : sigevent) : option (Z * Z) :=
  if sigev_notify ev =? SIGEV_SIGNAL then Some (sigev_signo ev, sigev_value ev) else None.
Definition signal_at (s : tstate) (a : Z) : option (Z * Z) := event_at s a ≫= signal_for.

Section Serving.
Context (prog : Z → Z → Z → client).

Definition handlers (h signo v : Z) : M tstate unit := run_client (prog h signo v).

(** The events of the timers [L] can be delivered, each when its turn comes, and the handlers use the
    timers properly. *)
Fixpoint proper_calls (L : list Z) (s : tstate) : bool :=
  match L with
  | [] => true
  | a :: L' =>
      match theap s !! a with
      | None => false
      | Some r =>
          deliverable (signal_handler s) (event r) &&
          match call_for (signal_handler s) (event r) with
          | None => proper_calls L' s
          | Some c =>
              proper L' (prog c.1.1 c.1.2 c.2) (log_call c s) &&
              match handlers c.1.1 c.1.2 c.2 (log_call c s) with (Val _, s') => proper_calls L' s' | _ => true end
          end
      end
  end.

Lemma notify_handlers ev s : deliverable (signal_handler s) ev = true →
  notify handlers ev s =
    match call_for (signal_handler s) ev with
    | Some c => handlers c.1.1 c.1.2 c.2 (log_call c s)
    | None => (Val tt, s)
    end.
Proof.
  unfold deliverable, notify, call_for. intros H.
  destruct (sigev_notify ev =? SIGEV_SIGNAL); simpl in *; [|done].
  apply andb_prop in H as [H H1]. apply andb_prop in H as [H H0].
  apply negb_true_iff in H0. apply negb_true_iff in H1.
  erewrite bind_val by done. rewrite H, H0, H1. simpl. by erewrite bind_val by done.
Qed.

Lemma serving_log pend c s : serving pend s → serving pend (log_call c s).
Proof.
  intros [(l & [[Hc Hnd H0 Hrun] H1]) H2 H3]. split; [|done..]. exists l. split; [|done].
  constructor; [by eapply tchain_ext; [|exact Hc]|done..].
Qed.

(** [notify] calls the handler of its event, and that returns, or the assertion fails in it. *)
Lemma notify_sound pend ev s : serving pend s → deliverable (signal_handler s) ev = true →
  match call_for (signal_handler s) ev with Some c => proper pend (prog c.1.1 c.1.2 c.2) (log_call c s) = true | None => True end →
  ∃ o s', notify handlers ev s = (o, s') ∧
    signals_of (calls s') = signals_of (calls s) ++ option_list (signal_for ev) ∧
    in_handler s' = in_handler s ∧ (∀ a, a ∈ pend → info <$> theap s' !! a = info <$> theap s !! a) ∧
    (o = AssertFail ∨ o = Val tt ∧ serving pend s').
Proof.
  intros Hs Hd Hp. rewrite notify_handlers by done. unfold call_for, signal_for in *.
  destruct (sigev_notify ev =? SIGEV_SIGNAL).
  - destruct (client_sound pend _ _ (serving_log pend _ s Hs) Hp) as (o & s' & Hr & (E1 & E2 & E3) & Ho).
    exists o, s'. split_and!; [done| |done|done|done]. rewrite E1. cbn. unfold signals_of. by rewrite fmap_app.
  - exists (Val tt), s. cbn. rewrite app_nil_r. by auto 8.
Qed.

Lemma serving_tail a pend s : serving (a :: pend) s → serving pend s.
Proof. intros [H1 H2 H3]. split; [done..|]. intros b Hb. apply H3. by constructor. Qed.

Lemma info_next s s' a : info <$> theap s' !! a = info <$> theap s !! a →
  next_expired <$> theap s' !! a = next_expired <$> theap s !! a ∧ signal_at s' a = signal_at s a.
Proof.
  unfold signal_at, event_at, info. destruct (theap s' !! a), (theap s !! a); simpl; try done.
  intros [= E1 E2]. by rewrite E1, E2.
Qed.

(** The loop over the expired timers [L]: the handlers are called in this order, all of them unless
    the program stops. *)
Lemma notify_expired_sound L fuel e s :
  (length L < fuel)%nat → echain s e L → serving L s → proper_calls L s = true →
  ∃ o s' got rest, notify_expired handlers fuel e s = (o, s') ∧
    signals_of (calls s') = signals_of (calls s) ++ got ∧ omap (signal_at s) L = got ++ rest ∧
    in_handler s' = in_handler s ∧ (o = AssertFail ∨ o = Val tt ∧ rest = [] ∧ serving [] s').
Proof.
  revert fuel e s. induction L as [|a L IH]; intros fuel e s Hf Hc Hs Hp;
    (destruct fuel as [|fuel]; [simpl in Hf; lia|]); cbn [notify_expired].
  { simpl in Hc. subst e. exists (Val tt), s, [], []. rewrite app_nil_r. by auto 8. }
  destruct Hc as (-> & Ha & n & Hn & Hc). rewrite (proj2 (Z.eqb_neq a 0)) by done.
  cbn [proper_calls] in Hp. apply fmap_Some in Hn as (r & Hr & ->). rewrite Hr in Hp.
  apply andb_prop in Hp as [Hd Hp]. erewrite bind_val by (by apply read_t_Some).
  destruct (notify_sound L (event r) s (serving_tail _ _ _ Hs) Hd) as (o & s1 & Hno & Hcs & Hin & Hfr & Ho).
  { destruct (call_for _ _); [|done]. by apply andb_prop in Hp as [? _]. }
  assert (option_list (signal_for (event r)) = option_list (signal_at s a)) as Hev
    by (unfold signal_at, event_at; by rewrite Hr).
  assert (omap (signal_at s) (a :: L) = option_list (signal_at s a) ++ omap (signal_at s) L) as Hom.
  { simpl. by destruct (signal_at s a). }
  rewrite Hom. destruct Ho as [->|[-> Hs1]].
  { exists AssertFail, s1, (option_list (signal_at s a)), (omap (signal_at s) L).
    split_and!; [|by rewrite Hcs, Hev|done..|by left]. unfold mbind, M_bind. by rewrite Hno. }
  erewrite bind_val by exact Hno.
  destruct (IH fuel (next_expired r) s1) as (o & s2 & got & rest & Hrun & Hg & Hom1 & Hi2 & Ho2).
  - simpl in Hf. lia.
  - eapply echain_ext; [|exact Hc]. intros b Hb. by apply info_next, Hfr.
  - done.
  - rewrite notify_handlers in Hno by done. destruct (call_for _ _) as [c|].
    + apply andb_prop in Hp as [_ Hp]. by rewrite Hno in Hp.
    + by simplify_eq.
  - exists o, s2, (option_list (signal_at s a) ++ got), rest.
    split_and!; [done|by rewrite Hg, Hcs, Hev, app_assoc| |congruence|done].
    rewrite <- app_assoc, <- Hom1. f_equal. apply omap_ext_eq. intros b Hb. by apply info_next, Hfr.
Qed.
End Serving.
