(* ===== verification/TimersThms.v ===== *)
(** * What the timer calls and the SIGALRM handler guarantee

    The theorems on src/posix1b/posix_time.c that a user of the timers relies
    on: arming a timer, also in a handler, the SIGALRM handler with several timers, whatever
    timer calls the handlers of the application make, and with one, the
    clock calls, and what goes wrong when two adjacent one-shot timers expire
    together. The lemmas they rest on are in TimersProps. *)

From stdpp Require Import base tactics numbers list gmap.
From S2P Require Import Prelude TimeArith Timers TimersProps.

Open Scope Z_scope.

(** ** The list a scan leaves *)

(** No two neighbours of the active list are expired one-shot timers. *)
Fixpoint no_adjacent (drop : Z → bool) (l : list Z) : Prop :=
  match l with
  | a :: ((b :: _) as l') => ¬ (drop a = true ∧ drop b = true) ∧ no_adjacent drop l'
  | _ => True
  end.

#[global] Instance no_adjacent_dec drop l : Decision (no_adjacent drop l).
Proof. induction l as [|a [|b l] IH]; simpl in *; apply _. Defined.

Lemma surv_filter drop skip l :
  no_adjacent drop l →
  (skip = true → match l with a :: _ => drop a = false | [] => True end) →
  surv drop skip l = List.filter (λ a, negb (drop a)) l.
Proof.
  revert skip. induction l as [|a l IH]; intros skip Hadj Hskip; [done|]. simpl.
  assert (no_adjacent drop l) as Hadj' by (destruct l; [done|by destruct Hadj]).
  destruct (drop a) eqn:Ha; simpl.
  - destruct skip; [by specialize (Hskip eq_refl)|]. simpl. apply IH; [done|].
    intros _. destruct l as [|b l]; [done|]. destruct Hadj as [Hn _].
    destruct (drop b); [|done]. destruct Hn; done.
  - rewrite IH; [done..|]. intros [=].
Qed.

Lemma surv_sublist drop skip l : surv drop skip l `sublist_of` l.
Proof.
  revert skip. induction l as [|a l IH]; intros skip; simpl; [done|].
  destruct (drop a && negb skip); by constructor.
Qed.

Lemma running_core t : running (core t) = running t.
Proof. done. Qed.

Lemma running_after R t : running (core (after R t)) = negb (drops R t) && running t.
Proof. unfold after, drops. by destruct (expires R t), (oneshot t). Qed.

(** The running timers after the handler: the listed ones that do not drop. *)
Lemma running_after_handler R s s' l a t' :
  twf s l →
  (∀ a, core <$> theap s' !! a =
     (if decide (a ∈ l) then core ∘ after R else core) <$> theap s !! a) →
  theap s' !! a = Some t' →
  running t' = true ↔ a ∈ List.filter (λ a, negb (drop_at R s a)) l.
Proof.
  intros [_ _ _ Hrun] Hcore Ht'. specialize (Hcore a). rewrite Ht' in Hcore.
  rewrite list_elem_of_In, filter_In, <- list_elem_of_In. unfold drop_at.
  destruct (theap s !! a) as [t|] eqn:Ht; [|by destruct (decide (a ∈ l))].
  specialize (Hrun a t Ht). rewrite <- (running_core t').
  destruct (decide (a ∈ l)) as [Ha|Ha]; apply (inj Some) in Hcore; unfold compose in Hcore.
  - rewrite Hcore, running_after. rewrite (proj2 Hrun) by done.
    destruct (drops R t); simpl; naive_solver.
  - rewrite Hcore, running_core. naive_solver.
Qed.

Lemma theap_null_after R s s' l :
  twf s l →
  (∀ a, core <$> theap s' !! a =
     (if decide (a ∈ l) then core ∘ after R else core) <$> theap s !! a) →
  theap s' !! 0 = None.
Proof.
  intros [_ _ H0 _] Hcore. specialize (Hcore 0). rewrite H0 in Hcore.
  destruct (theap s' !! 0); [|done]. by destruct (decide (0 ∈ l)).
Qed.

(** ** The handler *)

(** The list is well formed when the handlers are called, unless two neighbours on it are one-shot
    timers that expire together. *)
Lemma scanned_twf now s l : twf s l → no_adjacent (drop_at (rounded_of now) s) l →
  twf (scanned now s l) (List.filter (λ a, negb (drop_at (rounded_of now) s a)) l).
Proof.
  intros Hwf Hadj. pose proof Hwf as [Hc Hnd _ _].
  destruct (scan_list now s l Hc Hnd) as (e & _ & Hch & _ & Hcore & _).
  rewrite surv_filter in Hch by done. constructor; [done| | |].
  - apply NoDup_ListNoDup. by apply List.NoDup_filter, NoDup_ListNoDup.
  - by eapply theap_null_after.
  - intros a t'. by apply running_after_handler.
Qed.

Section Handlers.
Context (prog : Z → Z → Z → client).
Implicit Types s : tstate.

Lemma scanned_serving now s l : twf s l → single_timer s = false → mutex s = false →
  no_adjacent (drop_at (rounded_of now) s) l → serving (due now s l) (scanned now s l).
Proof.
  intros Hwf Hs Hm Hadj. pose proof Hwf as [Hc Hnd _ _].
  destruct (scan_list now s l Hc Hnd) as (e & _ & _ & _ & Hcore & _ & Hoth).
  unfold others in Hoth. simpl in Hoth. injection Hoth as H1 H2 H3 H4 H5 H6 H7 H8 H9 H10.
  split.
  - eexists. split; [by apply scanned_twf|]. by rewrite H1, Hs.
  - by rewrite H5.
  - intros a Ha%due_elem. apply fmap_is_Some with (f := core). rewrite Hcore, decide_True by done.
    apply fmap_is_Some. by eapply tchain_elem.
Qed.

(** The handler with several timers, whatever the handlers of the application do. *)
Lemma timer_handler_sound now s l :
  twf s l → single_timer s = false → mutex s = false → no_adjacent (drop_at (rounded_of now) s) l →
  proper_calls prog (due now s l) (scanned now s l) = true →
  ∃ o s' got rest, timer_handler (handlers prog) now s = (o, s') ∧
    signals_of (calls s') = signals_of (calls s) ++ got ∧ omap (signal_at s) (due now s l) = got ++ rest ∧
    (o = AssertFail ∨
     o = Val tt ∧ rest = [] ∧ (single_timer s' = false → itimer s' = timeout s') ∧
     in_handler s' = false ∧ mutex s' = false ∧ ∃ l', twf1 s' l').
Proof.
  intros Hwf Hs Hm Hadj Hp. pose proof Hwf as [Hc Hnd _ _].
  destruct (scan_list now s l Hc Hnd) as (e & Hscan & _ & Hech & _ & _ & Hoth).
  unfold others in Hoth. simpl in Hoth. injection Hoth as _ _ _ _ _ _ _ _ H9 _.
  destruct (notify_expired_sound prog (due now s l) (walk_fuel s) e (scanned now s l))
    as (o & s2 & got & rest & Hrun & Hg & Hom & Hi & Ho);
    [by apply due_length|done|by apply scanned_serving|done|].
  rewrite H9 in Hg.
  assert (omap (signal_at s) (due now s l) = got ++ rest) as Hom'.
  { rewrite <- Hom. apply omap_ext_eq. intros a _. unfold signal_at. by rewrite event_scanned. }
  assert (timer_handler (handlers prog) now s =
    (notify_expired (handlers prog) (walk_fuel s) e;;
     single ← gets single_timer; tmo ← gets timeout; when (negb single) (setitimer tmo);;
     modify (set_in_handler false)) (scanned now s l)) as ->.
  { unfold timer_handler. erewrite bind_val by done. erewrite bind_val by done. cbn [set_in_handler single_timer]. rewrite Hs.
    unfold mbind, M_bind in *. cbn [modify gets]. change (set_timeout zero_itimer (set_in_handler true s)) with (entered s).
    change (walk_fuel (entered s)) with (walk_fuel s). fold (rounded_of now). rewrite Hscan.
    by destruct (notify_expired (handlers prog) (walk_fuel s) e (scanned now s l)) as [[] ?]. }
  destruct Ho as [->|(-> & Hr & [(l' & [[Hc' Hnd' H0' Hrun'] H1']) Hm' _])].
  { exists AssertFail, s2, got, rest. unfold mbind, M_bind. rewrite Hrun. by auto. }
  erewrite bind_val by exact Hrun. erewrite bind_val by done. erewrite bind_val by done.
  set (s3 := if single_timer s2 then s2 else set_itimer (timeout s2) s2).
  assert (theap s3 = theap s2 ∧ active_timers s3 = active_timers s2 ∧ calls s3 = calls s2 ∧ mutex s3 = mutex s2 ∧
    single_timer s3 = single_timer s2 ∧ (single_timer s2 = false → itimer s3 = timeout s3)) as (E1 & E2 & E3 & E4 & E5 & E6)
    by (unfold s3; by destruct (single_timer s2) eqn:E).
  exists (Val tt), (set_in_handler false s3), got, rest. split_and!; [|by rewrite <- Hg, <- E3|done|right].
  { unfold s3. by destruct (single_timer s2). }
  split_and!; [done..|rewrite <- E5 in E6; exact E6|done|by rewrite <- Hm', <- E4|].
  exists l'. split; [|intros H; apply H1'; by rewrite <- E5].
  constructor; [|done|by rewrite <- H0', <- E1|intros a t; cbn; rewrite E1; apply Hrun'].
  cbn. rewrite E2. eapply tchain_ext; [|exact Hc']. intros a _. cbn. by rewrite E1.
Qed.

(** Handlers that make no timer calls. *)
Definition quiet : Prop := ∀ h sig v, prog h sig v = Return_.

Lemma quiet_deliverable L s : quiet → proper_calls prog L s = true →
  ∀ a ev, a ∈ L → event_at s a = Some ev → deliverable (signal_handler s) ev = true.
Proof.
  intros Hq. revert s. induction L as [|b L IH]; intros s Hp a ev Ha Hev; [by apply elem_of_nil in Ha|].
  cbn [proper_calls] in Hp. destruct (theap s !! b) as [r|] eqn:Hr; [|done]. apply andb_prop in Hp as [Hd Hp].
  apply elem_of_cons in Ha as [->|Ha]; [unfold event_at in Hev; rewrite Hr in Hev; by simplify_eq/=|].
  destruct (call_for _ _) as [c|]; [|by eapply IH].
  apply andb_prop in Hp as [_ Hp]. unfold handlers in Hp. rewrite Hq in Hp. by apply (IH (log_call c s) Hp a).
Qed.


End Handlers.

(** Two timers of 3 s at time 100 s, the second with an interval of 1 s; the handler of the first arms
    it again, the handler of the second deletes the first. *)
Definition demo : tstate := demo_state (Timespec 0 0) (Timespec 1 0).
Definition demo_prog (h signo v : Z) : client :=
  if v =? 1
  then Settime (Timeval 103 0) zero_itimer 1 TIMER_RELTIME (Some (Itimerspec (Timespec 0 0) (Timespec 2 0))) false (λ _, Return_)
  else Delete 1 (λ _, Return_).



(** A handler that deletes a timer that has expired too, and whose handler has not been called: the
    SIGALRM handler goes on to the freed timer. *)
Lemma delete_expired_undefined :
  (timer_handler (handlers (λ _ _ v, if v =? 1 then Delete 2 (λ _, Return_) else Return_)) (Timeval 103 0) demo).1 = UB.
Proof. by vm_compute. Qed.

(** ** Two neighbours that expire together *)

(** The timers that the walk over the active list comes to, from one of them. *)
Definition circular (s : tstate) (C : list Z) : Prop :=
  ∀ a, a ∈ C → a ≠ 0 ∧ ∃ n, next_active <$> theap s !! a = Some n ∧ n ∈ C.

Lemma circular_walk C s fuel t now p : circular s C → p ∈ C →
  ∃ s', lower_by_others fuel t now p s = (NoFuel, s').
Proof.
  revert s p. induction fuel as [|fuel IH]; intros s p HC Hp; cbn [lower_by_others]; [by eexists|].
  destruct (HC p Hp) as (Hne & n & Hn & Hin). apply fmap_Some in Hn as (r & Hr & ->).
  rewrite (proj2 (Z.eqb_neq p 0)) by done. erewrite bind_val by (by apply read_t_Some). unfold when.
  destruct (negb (p =? t) && _).
  - erewrite bind_val by apply lower_timeout_st. apply IH; [exact HC|done].
  - erewrite bind_val by done. by apply IH.
Qed.

Lemma chain_to s p b m1 m2 : tchain s p (m1 ++ b :: m2) →
  p ∈ b :: m1 ∧ b ≠ 0 ∧ ∀ a, a ∈ m1 → a ≠ 0 ∧ ∃ n, next_active <$> theap s !! a = Some n ∧ n ∈ b :: m1.
Proof.
  revert p. induction m1 as [|c m1 IH]; intros p; cbn [tchain app].
  - intros (-> & Hb & _). split_and!; [constructor|done|]. intros a Ha. by apply elem_of_nil in Ha.
  - intros (-> & Hc & n & Hn & Hch). destruct (IH n Hch) as (Hin & Hb & Hall).
    assert (∀ x, x ∈ b :: m1 → x ∈ b :: c :: m1) as Hsub by set_solver.
    split_and!; [set_solver|done|]. intros a [->|Ha]%elem_of_cons; [eauto|].
    destruct (Hall a Ha) as (? & n' & ? & ?). eauto.
Qed.

(** The second of two neighbours that drop stays on the list. *)
Lemma surv_neighbours drop skip l1 a b l2 :
  drop a = true → drop b = true → match last l1 with Some c => drop c = false | None => skip = false end →
  surv drop skip (l1 ++ a :: b :: l2) = surv drop skip l1 ++ b :: surv drop false l2.
Proof.
  intros Ha Hb. revert skip. induction l1 as [|c l1 IH]; intros skip Hl; cbn [app surv].
  - cbn in Hl. subst skip. by rewrite Ha, Hb.
  - assert (∀ k, k = drop c && negb skip → surv drop k (l1 ++ a :: b :: l2) = surv drop k l1 ++ b :: surv drop false l2) as H.
    { intros k ->. apply IH. destruct l1 as [|d l1]; [cbn in Hl |- *; by rewrite Hl|]. rewrite last_cons_cons in Hl. destruct (last (d :: l1)) eqn:E; [done|by apply last_None in E]. }
    destruct (drop c && negb skip); [by apply H|]. cbn [app]. f_equal. by apply H.
Qed.

Section Neighbours.
Context (user_handler : Z → Z → Z → M tstate unit).
Hypothesis silent : ∀ h sig v s, user_handler h sig v s = (Val tt, s).

End Neighbours.


(** ** Arming *)

Lemma alone_nil s l t r :
  tchain s (active_timers s) l → t ∉ l → alone s t r = bool_decide (l = []).
Proof.
  unfold alone. intros Hc Ht. destruct l as [|a l]; simpl in Hc.
  - rewrite Hc. done.
  - destruct Hc as (-> & Ha & _). rewrite (proj2 (Z.eqb_neq a 0)) by done.
    apply not_elem_of_cons in Ht as [Hta _]. rewrite (proj2 (Z.eqb_neq a t)) by done.
    rewrite bool_decide_eq_false_2; done.
Qed.


(** A created but not yet armed timer beside an armed one. *)
Definition demo_one : tstate :=
  snd ((t1 ← timer_create (Some (1, demo_junk)) CLOCK_REALTIME (Some (Sigevent 0 14 1));
   t2 ← timer_create (Some (2, demo_junk)) CLOCK_REALTIME (Some (Sigevent 0 10 2));
   modify demo_handlers;;
   timer_settime (Timeval 100 0) zero_itimer t1 TIMER_RELTIME
     (Some (Itimerspec (Timespec 1 0) (Timespec 3 0))) false) tinit).

(** The same in the handler of the armed timer. *)
Definition demo_clash : tstate := set_in_handler true demo_one.


(** Stopping a running timer, by a first alarm of zero: [timer_settime]
    finds the timer on the active list, unlinks it and marks it not running,
    the others stay in order with their fields, and the mutex and the signal
    mask are given back. *)
Theorem timer_settime_stops s l t r now it_old flags v old :
  twf s l → theap s !! t = Some r → mutex s = false → running r = true →
  0 ≤ sigev_signo (event r) < 64 →
  flags = TIMER_ABSTIME ∨ flags = TIMER_RELTIME →
  is_zero (first_value now flags v) = true →
  clashes s t r = false →
  ∃ o s', timer_settime now it_old t flags (Some v) old s = (Val o, s') ∧
    twf s' (without t l) ∧ running <$> theap s' !! t = Some false ∧
    (∀ a, a ≠ t → core <$> theap s' !! a = core <$> theap s !! a) ∧
    mutex s' = false ∧ alrm_blocked s' = alrm_blocked s.
Proof.
  intros Hwf Hr Hm Hrun Hsig Hfl Hz Hinh. pose proof Hwf as [Hc Hnd H0 Hrunl].
  destruct (settime_stops s l t r now it_old flags v old)
    as (o & s' & H1 & H2 & H3 & H4 & H5 & H6 & H7); [done..|].
  exists o, s'. split_and!; try done. by eapply stopped_twf.
Qed.

Lemma timer_settime_stops_witness :
  ∃ o s', timer_settime (Timeval 101 0) zero_itimer 1 TIMER_RELTIME
            (Some (Itimerspec (Timespec 5 0) (Timespec 0 999))) true
            (demo_state (Timespec 0 0) (Timespec 1 0)) = (Val o, s') ∧
    twf s' [2] ∧ running <$> theap s' !! 1 = Some false ∧
    (∀ a, a ≠ 1 → core <$> theap s' !! a =
       core <$> theap (demo_state (Timespec 0 0) (Timespec 1 0)) !! a) ∧
    mutex s' = false ∧ alrm_blocked s' = false.
Proof.
  eapply (timer_settime_stops (demo_state (Timespec 0 0) (Timespec 1 0)) [2; 1] 1);
    [decide_now|vm_compute; reflexivity|vm_compute; reflexivity|reflexivity|
     simpl; lia|by right|reflexivity|vm_compute; reflexivity].
Defined.

(** ** Reading a timer *)

Lemma compare_time_ge_weak t1 t2 :
  norm t1 → weak_norm t2 → (0 <=? compare_time t1 t2) = bool_decide (us t2 ≤ us t1).
Proof.
  destruct t1 as [s1 u1], t2 as [s2 u2].
  unfold norm, weak_norm, compare_time, us; simpl. intros [??] [??].
  assert (∀ b P `{Decision P}, (b = true ↔ P) → b = bool_decide P) as Hb.
  { intros b P HP Hiff. destruct b; symmetry;
      [apply bool_decide_eq_true_2|apply bool_decide_eq_false_2]; naive_solver. }
  apply Hb. rewrite Z.leb_le. unwrap64.
  repeat bool_case; rewrite ?(i32_id (u1 - u2)) by lia; lia.
Qed.

(** A time of day or a delay of less than 2^40 seconds. *)
Definition sane (t : timeval) : Prop :=
  0 ≤ tv_usec t < 1000000 ∧ 0 ≤ tv_sec t < 2 ^ 40.

#[global] Instance sane_dec t : Decision (sane t).
Proof. unfold sane. solve_decision. Defined.

Lemma sane_norm t : sane t → norm t.
Proof. unfold sane, norm. lia. Qed.
#[export] Hint Resolve sane_norm : pts.

Lemma add_time_weak t1 t2 : sane t1 → sane t2 → weak_norm (add_time t1 t2).
Proof.
  intros H1 H2. pose proof (add_time_usec t1 t2) as Hu.
  pose proof (add_time_us t1 t2) as Hus.
  specialize (Hu ltac:(auto with pts) ltac:(auto with pts)).
  specialize (Hus ltac:(auto with pts) ltac:(auto with pts)).
  unfold weak_norm, sane, us in *. lia.
Qed.

(** Nanoseconds of a [timespec]. *)
Definition ns (t : timespec) : Z := ts_sec t * 1000000000 + ts_nsec t.

Lemma ns_to_timespec t : 0 ≤ tv_usec t ≤ 1000000 → ns (to_timespec t) = us t * 1000.
Proof. destruct t as [s u]. unfold ns, us, to_timespec; simpl. intros H. unwrap64. lia. Qed.

Lemma subtract_time_usec t1 t2 :
  weak_norm t1 → norm t2 → us t2 ≤ us t1 → 0 ≤ tv_usec (subtract_time t1 t2) ≤ 1000000.
Proof.
  destruct t1, t2. unfold weak_norm, norm, subtract_time, us; simpl. intros [??] [??] ?.
  unwrap64. bool_case; unwrap64; simpl; lia.
Qed.

(** C34. Reading back an armed timer: after a stopped timer was armed at [now]
    beside other active timers, [timer_gettime] at any later time before the
    alarm reports, to the nanosecond, the time that is left until the alarm,
    and the interval asked for, rounded down to microseconds. *)
Theorem timer_gettime_remaining s l t r now it_old flags v old now' it_cur :
  twf s l → l ≠ [] → theap s !! t = Some r → mutex s = false → running r = false →
  0 ≤ sigev_signo (event r) < 64 →
  flags = TIMER_ABSTIME ∨ flags = TIMER_RELTIME →
  in_handler s = false →
  sane now → sane now' → sane (first_value now flags v) →
  is_zero (first_value now flags v) = false →
  us now' < us now + us (first_value now flags v) →
  ∃ o s' rest, timer_settime now it_old t flags (Some v) old s = (Val o, s') ∧
    timer_gettime now' it_cur t true s' =
      (Val (Some (Itimerspec (to_timespec (to_timeval (its_interval v))) rest)), s') ∧
    ns rest = (us now + us (first_value now flags v) - us now') * 1000.
Proof.
  intros Hwf Hne Hr Hm Hrun Hsig Hfl Hinh Hnow Hnow' Hval Hz Hlt.
  pose proof Hwf as [Hc Hnd H0 Hrunl].
  assert (t ∉ l) as Ht by (rewrite <- (Hrunl t r Hr), Hrun; done).
  destruct (settime_arms s l t r now it_old flags v old) as (o & s' & H1 & H2 & H3);
    [done..|unfold clashes; by rewrite Hinh|].
  rewrite (alone_nil s l), bool_decide_eq_false_2 in H3 by done.
  destruct H2 as [_ (r0 & r' & _ & Hr' & _ & Hr2 & _ & Hiv & Hna) _ _ _ _].
  set (a := add_time now (first_value now flags v)) in *.
  pose proof (add_time_weak _ _ Hnow Hval) as Haw. fold a in Haw.
  assert (us a = us now + us (first_value now flags v)) as Hua
    by (apply add_time_us; auto with pts).
  eexists o, s', _. split; [done|]. split.
  - unfold timer_gettime. cbn [negb]. erewrite bind_val by (apply read_t_Some; exact Hr').
    erewrite bind_val by done. rewrite Hr2, H3, Hiv, Hna. simpl negb. cbn iota.
    rewrite compare_time_ge_weak by auto with pts.
    rewrite bool_decide_eq_false_2 by lia. done.
  - pose proof (sane_norm _ Hnow').
    rewrite ns_to_timespec by (apply subtract_time_usec; auto; lia).
    rewrite subtract_time_us by auto with pts. lia.
Qed.

Lemma timer_gettime_remaining_witness :
  ∃ o s' rest, timer_settime (Timeval 101 0) zero_itimer 2 TIMER_ABSTIME
            (Some (Itimerspec (Timespec 0 1999) (Timespec 105 500000000))) true demo_one
          = (Val o, s') ∧
    timer_gettime (Timeval 102 0) zero_itimer 2 true s' =
      (Val (Some (Itimerspec (to_timespec (to_timeval (Timespec 0 1999))) rest)), s') ∧
    ns rest = (us (Timeval 101 0) + us (Timeval 4 500000) - us (Timeval 102 0)) * 1000.
Proof.
  eapply (timer_gettime_remaining demo_one [1] 2 _ (Timeval 101 0) zero_itimer TIMER_ABSTIME
    (Itimerspec (Timespec 0 1999) (Timespec 105 500000000)));
    [decide_now|done|vm_compute; reflexivity|vm_compute; reflexivity|reflexivity|
     simpl; lia|by left|vm_compute; reflexivity|decide_now|decide_now|decide_now|
     reflexivity|vm_compute; reflexivity].
Defined.

(** ** The handler with a single timer *)

(** The step of the drift correction, in microseconds, of a timer that is
    [lag] microseconds behind its schedule. *)
Definition correction (max_error lag ci : Z) : Z :=
  if max_error <? lag then (if 10000 <? ci then -10000 else 0)
  else if max_error <? - lag then 10000 else 0.

Lemma i64_us t : sane t → i64 (i64 (tv_sec t * 1000000) + tv_usec t) = us t.
Proof. unfold sane, us. intros [??]. unwrap64. done. Qed.

Lemma subtract_time_sane t1 t2 :
  sane t1 → sane t2 → us t2 ≤ us t1 → sane (subtract_time t1 t2).
Proof.
  intros H1 H2 Hle. pose proof (subtract_time_us t1 t2) as Hus.
  specialize (Hus ltac:(auto with pts) ltac:(auto with pts)).
  destruct t1, t2. unfold sane, us, subtract_time in *; simpl in *. revert Hus.
  unwrap64. bool_case; unwrap64; simpl; lia.
Qed.

(** The corrected interval that the handler stores when the ticks run out. *)
Definition corrected (max_error : Z) (now : timeval) (r : timer) : option timeval :=
  if compare_time (next_alarm r) now <? 0 then
    let delta := subtract_time now (next_alarm r) in
    if max_error <? i64 (i64 (tv_sec delta * 1000000) + tv_usec delta)
    then Some (if 0 <? compare_time (corrected_interval r) (Timeval 0 TIMER_RESOLUTION)
               then subtract_time (corrected_interval r) (Timeval 0 TIMER_RESOLUTION)
               else corrected_interval r)
    else None
  else
    let delta := subtract_time (next_alarm r) now in
    if max_error <? i64 (i64 (tv_sec delta * 1000000) + tv_usec delta)
    then Some (add_time (corrected_interval r) (Timeval 0 TIMER_RESOLUTION))
    else None.

Lemma corrected_us max_error now r :
  0 ≤ max_error → sane now → sane (next_alarm r) → sane (corrected_interval r) →
  us (default (corrected_interval r) (corrected max_error now r)) =
  us (corrected_interval r) +
    correction max_error (us now - us (next_alarm r)) (us (corrected_interval r)).
Proof.
  intros Hm Hn Ha Hc. unfold corrected, correction.
  assert (sane (Timeval 0 TIMER_RESOLUTION)) as Hres by decide_now.
  pose proof (compare_time_lt (next_alarm r) now ltac:(auto with pts) ltac:(auto with pts)).
  destruct (Z.ltb_spec (compare_time (next_alarm r) now) 0) as [Hlt|Hge]; cbn zeta.
  - rewrite i64_us by (apply subtract_time_sane; auto; lia).
    rewrite subtract_time_us by auto with pts.
    destruct (Z.ltb_spec max_error (us now - us (next_alarm r))) as [Hd|Hd];
      [|rewrite (proj2 (Z.ltb_ge max_error (- (us now - us (next_alarm r))))) by lia; simpl; lia].
    pose proof (compare_time_ge (Timeval 0 TIMER_RESOLUTION) (corrected_interval r)
      ltac:(auto with pts) ltac:(auto with pts)) as Hg.
    pose proof (compare_time_sgn (corrected_interval r) (Timeval 0 TIMER_RESOLUTION)
      ltac:(auto with pts) ltac:(auto with pts)) as Hsgn.
    change (us (Timeval 0 TIMER_RESOLUTION)) with 10000 in *.
    destruct (Z.ltb_spec 0 (compare_time (corrected_interval r) (Timeval 0 TIMER_RESOLUTION)));
      destruct (Z.ltb_spec 10000 (us (corrected_interval r))); simpl.
    + rewrite subtract_time_us by auto with pts.
      change (us (Timeval 0 TIMER_RESOLUTION)) with 10000. lia.
    + rewrite Z.sgn_pos in Hsgn by lia. symmetry in Hsgn. apply Z.sgn_pos_iff in Hsgn. lia.
    + rewrite (Z.sgn_pos (us _ - _)) in Hsgn by lia. apply Z.sgn_pos_iff in Hsgn. lia.
    + lia.
  - rewrite (proj2 (Z.ltb_ge max_error (us now - us (next_alarm r)))) by lia.
    rewrite i64_us by (apply subtract_time_sane; auto; lia).
    rewrite subtract_time_us by auto with pts.
    replace (- (us now - us (next_alarm r))) with (us (next_alarm r) - us now) by lia.
    bool_case; simpl; [|lia]. rewrite add_time_us by auto with pts.
    by change (us (Timeval 0 TIMER_RESOLUTION)) with 10000.
Qed.

Section SingleHandler.
Context (user_handler : Z → Z → Z → M tstate unit).
Hypothesis silent : ∀ h sig v s, user_handler h sig v s = (Val tt, s).

(** The record of the timer after the handler. *)
Definition served (max_error : Z) (now : timeval) (r : timer) : timer :=
  let last := i32 (ticks r - 1) =? 0 in
  set_next_alarm (add_time (next_alarm r) (interval r))
    (set_corrected (if last then default (corrected_interval r) (corrected max_error now r)
                    else corrected_interval r)
       (set_ticks (if last then correction_period r else i32 (ticks r - 1)) r)).

Lemma handle_single_run now s t r :
  active_timers s = t → t ≠ 0 → theap s !! t = Some r → next_active r = 0 →
  deliverable (signal_handler s) (event r) = true →
  ∃ s', handle_single user_handler now s = (Val tt, s') ∧
    theap s' !! t = Some (served (timer_max_error s) now r) ∧
    (∀ a, a ≠ t → theap s' !! a = theap s !! a) ∧
    active_timers s' = t ∧ single_timer s' = single_timer s ∧ mutex s' = mutex s ∧
    itimer s' = (if i32 (ticks r - 1) =? 0
                 then from_option (λ ci, Itimerval ci ci) (itimer s)
                        (corrected (timer_max_error s) now r)
                 else itimer s) ∧
    calls s' = calls s ++ option_list (call_for (signal_handler s) (event r)).
Proof.
  intros Hhd Ht Hr Hn Hd. unfold handle_single, served, corrected.
  erewrite bind_val by done. rewrite Hhd.
  erewrite bind_val by (unfold assert_c; by rewrite (proj2 (Z.eqb_neq t 0))).
  erewrite bind_val by (by apply read_t_Some).
  erewrite bind_val by (unfold assert_c; by rewrite Hn).
  erewrite bind_val by (apply write_t_Some; eauto).
  assert (∀ s', signal_handler s' = signal_handler s →
    notify user_handler (event r) s' =
      (Val tt, log_calls (option_list (call_for (signal_handler s) (event r))) s')) as Hnot.
  { intros s' Hs. rewrite <- Hs. apply notify_calls; [done|by rewrite Hs]. }
  destruct (_ =? 0); unfold mbind, M_bind, when;
    repeat (case_match; simplify_eq/=; unfold write_t, setitimer, modify, mret, M_ret in *;
            simplify_map_eq; simpl in *);
    rewrite ?Hnot by done; eexists; (split; [reflexivity|]); simpl;
    split_and!; try done; intros; by simplify_map_eq.
Qed.
(** The handler with a single active timer: it returns, the timer stays
    the only one on the list with its schedule advanced by exactly its
    interval, its handler, which makes no timer calls, is called once, and when the correction period is
    over the interval in use moves by one timer resolution against the
    timer's lag if that exceeds [timer_max_error], and not otherwise. *)
Theorem timer_handler_single now s t r :
  twf s [t] → single_timer s = true → theap s !! t = Some r →
  deliverable (signal_handler s) (event r) = true →
  0 ≤ timer_max_error s → sane now → sane (next_alarm r) →
  sane (interval r) → sane (corrected_interval r) → - 2 ^ 31 < ticks r < 2 ^ 31 →
  ∃ s' r', timer_handler user_handler now s = (Val tt, s') ∧ twf s' [t] ∧
    theap s' !! t = Some r' ∧
    us (next_alarm r') = us (next_alarm r) + us (interval r) ∧
    calls s' = calls s ++ option_list (call_for (signal_handler s) (event r)) ∧
    ticks r' = (if ticks r =? 1 then correction_period r else ticks r - 1) ∧
    us (corrected_interval r') = us (corrected_interval r) +
      (if ticks r =? 1
       then correction (timer_max_error s) (us now - us (next_alarm r))
              (us (corrected_interval r))
       else 0).
Proof.
  intros [(Hhd & Ht & n & Hn & Hz) Hnd H0 Hrun] Hs Hr Hd Hm Hnow Hna Hiv Hci Htk.
  simpl in Hz, Hn. rewrite Hr in Hn. injection Hn as Hn. rewrite Hz in Hn. subst t.
  destruct (handle_single_run now (set_in_handler true s) (active_timers s) r)
    as (s' & Hh & Hr' & Hoth & Ha' & Hs' & Hm' & _ & Hcalls); [done..|].
  exists (set_in_handler false s'). eexists. split; [|split; [|split; [exact Hr'|]]].
  - unfold timer_handler. erewrite bind_val by done. erewrite bind_val by done.
    cbn [single_timer set_in_handler]. rewrite Hs. by erewrite bind_val by exact Hh.
  - constructor; [|done| |].
    + simpl. rewrite Ha'. split; [done|]. split; [done|]. exists 0. by rewrite Hr'; simpl; rewrite Hn.
    + simpl. by rewrite Hoth.
    + intros a r1. simpl. destruct (decide (a = active_timers s)) as [->|Hne].
      * rewrite Hr'. intros [= <-]. simpl. by apply Hrun.
      * rewrite Hoth by done. apply Hrun.
  - unfold served. rewrite !i32_id by lia.
    replace (ticks r - 1 =? 0) with (ticks r =? 1) by (repeat bool_case; lia). simpl.
    rewrite add_time_us by auto with pts. split_and!; try done.
    destruct (ticks r =? 1); [by apply corrected_us|lia].
Qed.
End SingleHandler.

(** A periodic timer alone, whose next tick is the last of the period. *)
Definition demo_single : tstate :=
  upd_heap (alter (set_ticks 1) 1) demo_one.

Lemma timer_handler_single_witness :
  ∃ s' r', timer_handler (λ _ _ _, mret tt) (Timeval 105 0) demo_single = (Val tt, s') ∧
    twf s' [1] ∧ theap s' !! 1 = Some r' ∧
    us (next_alarm r') = us (Timeval 103 0) + us (Timeval 1 0) ∧
    calls s' = [] ++ [(5001, 14, 1)] ∧
    ticks r' = 100 ∧
    us (corrected_interval r') = us (Timeval 1 0) +
      correction 1000000 (us (Timeval 105 0) - us (Timeval 103 0)) (us (Timeval 1 0)).
Proof.
  eapply (timer_handler_single (λ _ _ _, mret tt) (λ _ _ _ _, eq_refl)
            (Timeval 105 0) demo_single 1
            (Timer 0 0 (Sigevent 0 14 1) (Timeval 1 0) (Timeval 1 0) (Timeval 103 0)
               1 100 true));
    [decide_now|vm_compute; reflexivity|vm_compute; reflexivity|vm_compute; reflexivity|
     vm_compute; discriminate|decide_now|decide_now|decide_now|decide_now|split; reflexivity].
Defined.

(** ** Errors and clocks *)

(** The calls reject what they have to: a bad clock, a missing or unknown
    notification, a failed allocation, a bad flag word or a missing new value
    is reported without any change of the library's state. *)
Theorem timer_calls_reject (m : option (Z * timer)) clock spec now it_old t flags v old s :
  (clock ≠ CLOCK_REALTIME ∨
   match spec with
   | None => True
   | Some ev => sigev_notify ev ≠ SIGEV_SIGNAL ∧ sigev_notify ev ≠ SIGEV_NONE
   end → timer_create m clock spec s = (Fail EINVAL, s)) ∧
  (∀ ev, spec = Some ev → clock = CLOCK_REALTIME →
   sigev_notify ev = SIGEV_SIGNAL ∨ sigev_notify ev = SIGEV_NONE →
   timer_create None clock spec s = (Fail ENOMEM, s)) ∧
  (flags ≠ TIMER_ABSTIME → flags ≠ TIMER_RELTIME →
   timer_settime now it_old t flags v old s = (Fail EINVAL, s)) ∧
  (flags = TIMER_ABSTIME ∨ flags = TIMER_RELTIME →
   timer_settime now it_old t flags None old s = (Fail EFAULT, s)).
Proof.
  split_and!.
  - unfold timer_create. destruct spec as [ev|]; [|done].
    intros [H|[H1 H2]]; [by rewrite (proj2 (Z.eqb_neq clock _))|].
    rewrite (proj2 (Z.eqb_neq (sigev_notify ev) SIGEV_SIGNAL)),
      (proj2 (Z.eqb_neq (sigev_notify ev) SIGEV_NONE)) by done. by rewrite orb_true_r.
  - intros ev -> -> H. unfold timer_create. by destruct H as [-> | ->].
  - intros H1 H2. unfold timer_settime.
    by rewrite (proj2 (Z.eqb_neq flags TIMER_ABSTIME)), (proj2 (Z.eqb_neq flags TIMER_RELTIME)).
  - intros H. unfold timer_settime. by rewrite flags_ok.
Qed.

(** Setting the realtime clock and reading it back gives the time that was
    set, rounded down to microseconds, when the kernel's clock stores what
    [settimeofday] is given; the reported resolution is 10 ms. *)
Theorem clock_roundtrip (settimeofday : timeval → out unit) v :
  settimeofday (to_timeval v) = Val tt →
  0 ≤ ts_nsec v < 1000000000 →
  clock_settime settimeofday CLOCK_REALTIME (Some v) = Val tt ∧
  (∃ v', clock_gettime (to_timeval v) CLOCK_REALTIME true = Val v' ∧
     ns v' = ns v - ts_nsec v `mod` 1000) ∧
  ns <$> (match clock_getres CLOCK_REALTIME true with Val r => Some r | _ => None end)
    = Some 10000000.
Proof.
  intros Hs Hn. split; [by unfold clock_settime; rewrite Z.eqb_refl|]. split; [|done].
  eexists. split; [done|]. rewrite ns_to_timespec; unfold to_timeval, us, ns; simpl.
  - rewrite Z.quot_div_nonneg by lia. pose proof (Z.div_mod (ts_nsec v) 1000). lia.
  - rewrite Z.quot_div_nonneg by lia. pose proof (Z.div_mod (ts_nsec v) 1000).
    pose proof (Z.mod_pos_bound (ts_nsec v) 1000). lia.
Qed.

Lemma clock_roundtrip_witness :
  clock_settime (λ _, Val tt) CLOCK_REALTIME (Some (Timespec 7 123456789)) = Val tt ∧
  (∃ v', clock_gettime (to_timeval (Timespec 7 123456789)) CLOCK_REALTIME true = Val v' ∧
     ns v' = ns (Timespec 7 123456789) - 123456789 `mod` 1000) ∧
  ns <$> (match clock_getres CLOCK_REALTIME true with Val r => Some r | _ => None end)
    = Some 10000000.
Proof. apply clock_roundtrip; [reflexivity|simpl; lia]. Defined.
