(* ===== verification/SysVSem.v ===== *)
(** * What the semaphore library expects of the operating system

    src/posix1b/semaphore.c is written against System V semaphore sets
    (semget, semop, semctl), ftok and a file system (open, close, unlink).
    These are not part of the sources, so they are an interface: the classes
    [FileSys] and [SemKernel] list the calls the sources make, and
    [FileSysLaws] and [SemKernelLaws] state their documented behaviour through
    a view of the kernel's state. An instance at the end shows that the laws
    can be met; the theorems on the library use the laws only. Permissions
    are those of a process that owns the objects; the adjustments that
    SEM_UNDO makes when a process exits are outside of the interface. *)

From stdpp Require Import base tactics numbers list gmap strings fin_maps.
From S2P Require Import Prelude.

Open Scope Z_scope.

Definition IPC_PRIVATE : Z := 0.
Definition IPC_CREAT : Z := 512.
Definition IPC_EXCL : Z := 1024.
Definition IPC_NOWAIT : Z := 2048.
Definition SEM_UNDO : Z := 4096.
Definition SEMVMX : Z := 32767.
Definition O_WRONLY : Z := 1.
Definition O_RDWR : Z := 2.
Definition O_CREAT : Z := 64.
Definition O_EXCL : Z := 128.
Definition O_NONBLOCK : Z := 2048.

(** ** Files *)

(** The names of the file system, with the inode each names. *)
Notation names := (gmap string Z).

Class FileSys (K : Type) : Type := {
  fs_names : K → names;
  open : string → Z → Z → M K Z;
  close : Z → M K unit;
  unlink : string → M K unit;
  ftok : string → Z → M K Z }.

(** [open] with the flags of the sources; a new file gets an unused inode. *)
Definition open_spec (fs : names) (name : string) (flags : Z) (r : out Z) (fs' : names) : Prop :=
  match fs !! name with
  | Some _ =>
      if has flags O_CREAT && has flags O_EXCL then r = Fail EEXIST ∧ fs' = fs
      else fs' = fs ∧ ∃ fd, r = Val fd ∧ 0 ≤ fd
  | None =>
      if has flags O_CREAT then
        (r = Fail ENOSPC ∧ fs' = fs) ∨
        ∃ fd ino, r = Val fd ∧ 0 ≤ fd ∧ fs' = <[name := ino]> fs ∧
          map_Forall (λ _ i, i ≠ ino) fs
      else r = Fail ENOENT ∧ fs' = fs
  end.

Class FileSysLaws (K : Type) `{FileSys K} : Type := {
  key_of : Z → Z → Z;
  (* keys are positive [int]s, and the project id of a file is part of them *)
  key_of_pos : ∀ ino id, 0 < key_of ino id < 2 ^ 31;
  key_of_id : ∀ ino d1 d2, 0 ≤ d1 < 64 → 64 ≤ d2 < 128 → key_of ino d1 ≠ key_of ino d2;
  open_law : ∀ k name flags mode,
    open_spec (fs_names k) name flags (open name flags mode k).1
      (fs_names (open name flags mode k).2);
  close_law : ∀ k fd, close fd k = (Val tt, k) ∨ close fd k = (Fail EBADF, k);
  unlink_law : ∀ k name,
    fs_names (unlink name k).2 = delete name (fs_names k) ∧
    (unlink name k).1 = (if fs_names k !! name then Val tt else Fail ENOENT);
  ftok_law : ∀ k name id,
    ftok name id k = (match fs_names k !! name with
                      | Some ino => Val (key_of ino id)
                      | None => Fail ENOENT
                      end, k) }.

(** ** Semaphore sets *)

Record sembuf : Set := Sembuf { sem_num : Z; sem_op : Z; sem_flg : Z }.

(** The existing sets by identifier, and the identifiers of the keys. *)
Record semview : Type := SemView { sets : gmap Z (list Z); keys : gmap Z Z }.

Class SemKernel (K : Type) : Type := {
  sem_view : K → semview;
  semget : Z → Z → Z → M K Z;
  semop : Z → list sembuf → M K unit;
  semctl_GETVAL : Z → Z → M K Z;
  semctl_RMID : Z → M K unit }.

(** One operation on the values of a set: [None] for success, or the outcome
    that ends the whole call. *)
Definition op_on (vs : list Z) (op : sembuf) : list Z * option (out unit) :=
  match (if sem_num op <? 0 then None else vs !! Z.to_nat (sem_num op)) with
  | None => (vs, Some (Fail EFBIG))
  | Some v =>
      let blocked := if has (sem_flg op) IPC_NOWAIT then Fail EAGAIN else Sleep in
      if sem_op op =? 0 then (vs, if v =? 0 then None else Some blocked)
      else if v + sem_op op <? 0 then (vs, Some blocked)
      else if SEMVMX <? v + sem_op op then (vs, Some (Fail ERANGE))
      else (<[Z.to_nat (sem_num op) := v + sem_op op]> vs, None)
  end.

(** The operations of one call are tried in order on the values, and stored
    all together or not at all. *)
Fixpoint ops_on (vs : list Z) (ops : list sembuf) : list Z * out unit :=
  match ops with
  | [] => (vs, Val tt)
  | op :: ops' =>
      match op_on vs op with
      | (vs', None) => ops_on vs' ops'
      | (_, Some r) => (vs, r)
      end
  end.

Definition with_set (id : Z) (vs : list Z) (v : semview) : semview :=
  SemView (<[id := vs]> (sets v)) (keys v).

Definition semop_spec (v : semview) (id : Z) (ops : list sembuf) : out unit * semview :=
  match sets v !! id with
  | None => (Fail EINVAL, v)
  | Some vs =>
      match ops_on vs ops with
      | (vs', Val _) => (Val tt, with_set id vs' v)
      | (_, r) => (r, v)
      end
  end.

(** [semget]: the set of the key, or a new set of zeroes. *)
Definition new_set (v : semview) (key n : Z) (r : out Z) (v' : semview) : Prop :=
  (r = Fail ENOSPC ∧ v' = v) ∨
  ∃ id, r = Val id ∧ 0 ≤ id ∧ sets v !! id = None ∧
    v' = SemView (<[id := replicate (Z.to_nat n) 0]> (sets v))
           (if key =? IPC_PRIVATE then keys v else <[key := id]> (keys v)).

Definition semget_spec (v : semview) (key n flags : Z) (r : out Z) (v' : semview) : Prop :=
  if key =? IPC_PRIVATE then new_set v key n r v'
  else match keys v !! key with
       | Some id =>
           (if has flags IPC_CREAT && has flags IPC_EXCL then r = Fail EEXIST
            else match sets v !! id with
                 | Some vs => r = (if Z.of_nat (length vs) <? n then Fail EINVAL else Val id)
                 | None => r = Fail EINVAL
                 end) ∧ v' = v
       | None => if has flags IPC_CREAT then new_set v key n r v'
                 else r = Fail ENOENT ∧ v' = v
       end.

Definition rmid_spec (v : semview) (id : Z) : out unit * semview :=
  match sets v !! id with
  | None => (Fail EINVAL, v)
  | Some _ => (Val tt, SemView (delete id (sets v)) (filter (λ kv, kv.2 ≠ id) (keys v)))
  end.

Definition getval_spec (v : semview) (id n : Z) : out Z :=
  match sets v !! id with
  | None => Fail EINVAL
  | Some vs => match vs !! Z.to_nat n with Some x => Val x | None => Fail EINVAL end
  end.

Class SemKernelLaws (K : Type) `{FileSys K} `{SemKernel K} : Type := {
  semget_law : ∀ k key n flags,
    semget_spec (sem_view k) key n flags (semget key n flags k).1
      (sem_view (semget key n flags k).2);
  semop_law : ∀ k id ops,
    ((semop id ops k).1, sem_view (semop id ops k).2) = semop_spec (sem_view k) id ops;
  getval_law : ∀ k id n,
    semctl_GETVAL id n k = (getval_spec (sem_view k) id n, k);
  rmid_law : ∀ k id,
    ((semctl_RMID id k).1, sem_view (semctl_RMID id k).2) = rmid_spec (sem_view k) id;
  (* files and semaphore sets do not interfere *)
  open_frame : ∀ k name flags mode, sem_view (open name flags mode k).2 = sem_view k;
  unlink_frame : ∀ k name, sem_view (unlink name k).2 = sem_view k;
  semget_frame : ∀ k key n flags, fs_names (semget key n flags k).2 = fs_names k;
  semop_frame : ∀ k id ops, fs_names (semop id ops k).2 = fs_names k;
  rmid_frame : ∀ k id, fs_names (semctl_RMID id k).2 = fs_names k }.
