(* ===== verification/SysVMsg.v ===== *)
(** * What the message queue library expects of the operating system

    src/posix1b/mqueue.c is written against System V message queues (msgget,
    msgsnd, msgrcv, msgctl). They are an interface like the semaphore sets of
    SysVSem: [MsgKernel] lists the calls, [MsgKernelLaws] their documented
    behaviour through a view of the kernel's queues. *)

From stdpp Require Import base tactics numbers list gmap strings fin_maps.
From S2P Require Import Prelude SysVSem.

Open Scope Z_scope.

(** A message: its type and its bytes. *)
Notation msg := (Z * list Z)%type.

(** The queues by identifier, each in order of arrival, and the keys. *)
Record msgview : Type := MsgView { queues : gmap Z (list msg); mkeys : gmap Z Z }.

Class MsgKernel (K : Type) : Type := {
  msg_view : K → msgview;
  msgmax : Z;
  msgmnb : Z;
  msgget : Z → Z → M K Z;
  msgsnd : Z → msg → Z → M K unit;
  msgrcv : Z → Z → Z → Z → M K msg;
  msgctl_STAT : Z → M K Z;
  msgctl_RMID : Z → M K unit }.

Definition msg_len (m : msg) : Z := Z.of_nat (length m.2).
Definition bytes_of (l : list msg) : Z := foldr (λ m n, msg_len m + n) 0 l.

Definition with_queue (id : Z) (l : list msg) (v : msgview) : msgview :=
  MsgView (<[id := l]> (queues v)) (mkeys v).

Definition msgsnd_spec (mx mnb : Z) (v : msgview) (id : Z) (m : msg) (flags : Z)
    : out unit * msgview :=
  match queues v !! id with
  | None => (Fail EINVAL, v)
  | Some l =>
      if (m.1 <? 1) || (mx <? msg_len m) then (Fail EINVAL, v)
      else if (mnb <? bytes_of l + msg_len m) || (mnb <? Z.of_nat (length l) + 1) then
        (if has flags IPC_NOWAIT then Fail EAGAIN else Sleep, v)
      else (Val tt, with_queue id (l ++ [m]) v)
  end.

(** The first message that satisfies [p], and the queue without it. *)
Fixpoint take_first (p : msg → bool) (l : list msg) : option (msg * list msg) :=
  match l with
  | [] => None
  | m :: l' => if p m then Some (m, l')
               else match take_first p l' with
                    | Some (x, l'') => Some (x, m :: l'')
                    | None => None
                    end
  end.

(** The lowest type on the queue that is at most [b], if there is one. *)
Definition lowest_type (b : Z) (l : list msg) : option Z :=
  foldr (λ m acc, if m.1 <=? b then
                    match acc with
                    | Some t => Some (Z.min (m.1) t)
                    | None => Some (m.1)
                    end
                  else acc) None l.

(** The message that [msgrcv] selects for the type argument [typ]. *)
Definition select (typ : Z) (l : list msg) : option (msg * list msg) :=
  if typ =? 0 then take_first (λ _, true) l
  else if 0 <? typ then take_first (λ m, m.1 =? typ) l
  else match lowest_type (- typ) l with
       | Some t => take_first (λ m, m.1 =? t) l
       | None => None
       end.

Definition msgrcv_spec (v : msgview) (id len typ flags : Z) : out msg * msgview :=
  match queues v !! id with
  | None => (Fail EINVAL, v)
  | Some l =>
      match select typ l with
      | None => (if has flags IPC_NOWAIT then Fail ENOMSG else Sleep, v)
      | Some (m, l') =>
          if len <? msg_len m then (Fail E2BIG, v) else (Val m, with_queue id l' v)
      end
  end.

Definition msgget_spec (v : msgview) (key flags : Z) (r : out Z) (v' : msgview) : Prop :=
  let new := (r = Fail ENOSPC ∧ v' = v) ∨
    ∃ id, r = Val id ∧ 0 ≤ id ∧ queues v !! id = None ∧
      v' = MsgView (<[id := []]> (queues v))
             (if key =? IPC_PRIVATE then mkeys v else <[key := id]> (mkeys v)) in
  if key =? IPC_PRIVATE then new
  else match mkeys v !! key with
       | Some id =>
           r = (if has flags IPC_CREAT && has flags IPC_EXCL then Fail EEXIST
                else Val id) ∧ v' = v
       | None => if has flags IPC_CREAT then new else r = Fail ENOENT ∧ v' = v
       end.

Definition msg_rmid_spec (v : msgview) (id : Z) : out unit * msgview :=
  match queues v !! id with
  | None => (Fail EINVAL, v)
  | Some _ => (Val tt, MsgView (delete id (queues v)) (filter (λ kv, kv.2 ≠ id) (mkeys v)))
  end.

Definition stat_spec (v : msgview) (id : Z) : out Z :=
  match queues v !! id with None => Fail EINVAL | Some l => Val (Z.of_nat (length l)) end.

Class MsgKernelLaws (K : Type) `{FileSys K} `{MsgKernel K} : Type := {
  msgget_law : ∀ k key flags,
    msgget_spec (msg_view k) key flags (msgget key flags k).1
      (msg_view (msgget key flags k).2);
  msgsnd_law : ∀ k id m flags,
    ((msgsnd id m flags k).1, msg_view (msgsnd id m flags k).2)
    = msgsnd_spec msgmax msgmnb (msg_view k) id m flags;
  msgrcv_law : ∀ k id len typ flags,
    ((msgrcv id len typ flags k).1, msg_view (msgrcv id len typ flags k).2)
    = msgrcv_spec (msg_view k) id len typ flags;
  stat_law : ∀ k id, msgctl_STAT id k = (stat_spec (msg_view k) id, k);
  msg_rmid_law : ∀ k id,
    ((msgctl_RMID id k).1, msg_view (msgctl_RMID id k).2) = msg_rmid_spec (msg_view k) id;
  (* files and message queues do not interfere *)
  msg_open_frame : ∀ k name flags mode, msg_view (open name flags mode k).2 = msg_view k;
  msg_unlink_frame : ∀ k name, msg_view (unlink name k).2 = msg_view k;
  msgget_frame : ∀ k key flags, fs_names (msgget key flags k).2 = fs_names k;
  msgsnd_frame : ∀ k id m flags, fs_names (msgsnd id m flags k).2 = fs_names k;
  msgrcv_frame : ∀ k id len typ flags, fs_names (msgrcv id len typ flags k).2 = fs_names k;
  msg_rmid_frame : ∀ k id, fs_names (msgctl_RMID id k).2 = fs_names k }.
