(* ===== verification/RefKernel.v ===== *)
(** * A kernel that meets the interfaces

    An executable instance of the classes of SysVSem and SysVMsg: it shows
    that their laws can hold together, and it lets the programs run on
    concrete states. *)

From stdpp Require Import base tactics numbers list gmap strings fin_maps.
From S2P Require Import Prelude SysVSem SysVMsg.

Open Scope Z_scope.

Record kernel : Type := Kernel {
  k_names : gmap string Z;
  k_sems : semview;
  k_msgs : msgview }.

Definition kernel0 : kernel := Kernel ∅ (SemView ∅ ∅) (MsgView ∅ ∅).

(** An identifier above all those in use. *)
Definition above {A} (m : gmap Z A) : Z := map_fold (λ i _ n, Z.max (i + 1) n) 0 m.

Definition above_values (m : gmap string Z) : Z :=
  map_fold (λ _ i n, Z.max (i + 1) n) 0 m.

Lemma above_spec {A} (m : gmap Z A) :
  0 ≤ above m ∧ ∀ i, is_Some (m !! i) → i < above m.
Proof.
  unfold above. induction m as [|i x m Hi Hfst IH] using map_first_key_ind.
  - rewrite map_fold_empty. split; [lia|]. intros i [? H]. by rewrite lookup_empty in H.
  - rewrite map_fold_insert_L; [|intros; lia|done]. destruct IH as [IH0 IH]. split; [lia|].
    intros j Hj. destruct (decide (i = j)) as [->|Hne]; [lia|].
    rewrite lookup_insert_ne in Hj by done. specialize (IH j Hj). lia.
Qed.

Lemma above_fresh {A} (m : gmap Z A) : m !! above m = None.
Proof.
  destruct (m !! above m) eqn:E; [|done].
  destruct (above_spec m) as [_ H]. specialize (H (above m)). rewrite E in H.
  specialize (H ltac:(eauto)). lia.
Qed.

Lemma above_values_spec (m : gmap string Z) : map_Forall (λ _ i, i ≠ above_values m) m.
Proof.
  assert (map_Forall (λ _ i, i < above_values m) m) as H.
  2:{ intros s i Hi. specialize (H s i Hi). simpl in H. lia. }
  unfold above_values. induction m as [|i x m Hi Hfst IH] using map_first_key_ind;
    [apply map_Forall_empty|].
  rewrite map_fold_insert_L; [|intros; lia|done]. apply map_Forall_insert; [done|].
  split; [lia|]. eapply map_Forall_impl; [exact IH|]. simpl. lia.
Qed.

Definition ref_key (ino id : Z) : Z := (id `mod` 128) * 2 ^ 24 + 1 + ino `mod` 2 ^ 23.

#[global] Instance kernel_fs : FileSys kernel := {
  fs_names := k_names;
  open name flags _ k :=
    match k_names k !! name with
    | Some _ => if has flags O_CREAT && has flags O_EXCL then (Fail EEXIST, k) else (Val 3, k)
    | None =>
        if has flags O_CREAT then
          (Val 3, Kernel (<[name := above_values (k_names k)]> (k_names k)) (k_sems k) (k_msgs k))
        else (Fail ENOENT, k)
    end;
  close _ k := (Val tt, k);
  unlink name k :=
    (if k_names k !! name then Val tt else Fail ENOENT,
     Kernel (delete name (k_names k)) (k_sems k) (k_msgs k));
  ftok name id k :=
    (match k_names k !! name with Some ino => Val (ref_key ino id) | None => Fail ENOENT end, k) }.

#[global] Instance kernel_fs_laws : FileSysLaws kernel.
Proof.
  refine {| key_of := ref_key |}.
  - intros ino id. unfold ref_key. pose proof (Z.mod_pos_bound id 128).
    pose proof (Z.mod_pos_bound ino (2 ^ 23)). lia.
  - intros ino d1 d2 H1 H2. unfold ref_key. rewrite !(Z.mod_small _ 128) by lia. lia.
  - intros k name flags mode. unfold open_spec. simpl.
    destruct (k_names k !! name) eqn:E; simpl; [destruct (has flags O_CREAT), (has flags O_EXCL); simpl|
      destruct (has flags O_CREAT); simpl].
    + done.
    + split; [done|]. exists 3. by split.
    + split; [done|]. exists 3. by split.
    + split; [done|]. exists 3. by split.
    + right. exists 3, (above_values (k_names k)). split_and!; try done.
      apply above_values_spec.
    + done.
  - intros k fd. by left.
  - done.
  - done.
Defined.

#[global] Instance kernel_sem : SemKernel kernel := {
  sem_view := k_sems;
  semget key n flags k :=
    let v := k_sems k in
    let new := (Val (above (sets v)),
      Kernel (k_names k)
        (SemView (<[above (sets v) := replicate (Z.to_nat n) 0]> (sets v))
           (if key =? IPC_PRIVATE then keys v else <[key := above (sets v)]> (keys v)))
        (k_msgs k)) in
    if key =? IPC_PRIVATE then new
    else match keys v !! key with
         | Some id =>
             (if has flags IPC_CREAT && has flags IPC_EXCL then Fail EEXIST
              else match sets v !! id with
                   | Some vs => if Z.of_nat (length vs) <? n then Fail EINVAL else Val id
                   | None => Fail EINVAL
                   end, k)
         | None => if has flags IPC_CREAT then new else (Fail ENOENT, k)
         end;
  semop id ops k :=
    ((semop_spec (k_sems k) id ops).1,
     Kernel (k_names k) (semop_spec (k_sems k) id ops).2 (k_msgs k));
  semctl_GETVAL id n k := (getval_spec (k_sems k) id n, k);
  semctl_RMID id k :=
    ((rmid_spec (k_sems k) id).1,
     Kernel (k_names k) (rmid_spec (k_sems k) id).2 (k_msgs k)) }.

Lemma new_set_ref v key n :
  new_set v key n (Val (above (sets v)))
    (SemView (<[above (sets v) := replicate (Z.to_nat n) 0]> (sets v))
       (if key =? IPC_PRIVATE then keys v else <[key := above (sets v)]> (keys v))).
Proof.
  right. exists (above (sets v)). split_and!; [done|apply above_spec|apply above_fresh|done].
Qed.

Lemma surjective_pair_eq {A B} (p : A * B) : (p.1, p.2) = p.
Proof. by destruct p. Qed.

#[global] Instance kernel_sem_laws : SemKernelLaws kernel.
Proof.
  constructor.
  - intros k key n flags. unfold semget_spec. simpl.
    destruct (key =? IPC_PRIVATE) eqn:Hk; simpl.
    { pose proof (new_set_ref (k_sems k) key n) as H. by rewrite Hk in H. }
    destruct (keys (k_sems k) !! key) as [id|]; simpl.
    { split; [|done]. by destruct (_ && _), (sets (k_sems k) !! id). }
    destruct (has flags IPC_CREAT); simpl; [|done].
    pose proof (new_set_ref (k_sems k) key n) as H. by rewrite Hk in H.
  - intros k id ops. exact (surjective_pair_eq (semop_spec (k_sems k) id ops)).
  - done.
  - intros k id. exact (surjective_pair_eq (rmid_spec (k_sems k) id)).
  - intros. simpl. by repeat case_match.
  - done.
  - intros. simpl. by repeat case_match.
  - done.
  - done.
Qed.

#[global] Instance kernel_msg : MsgKernel kernel := {
  msg_view := k_msgs;
  msgmax := 8192;
  msgmnb := 16384;
  msgget key flags k :=
    let v := k_msgs k in
    let new := (Val (above (queues v)),
      Kernel (k_names k) (k_sems k)
        (MsgView (<[above (queues v) := []]> (queues v))
           (if key =? IPC_PRIVATE then mkeys v else <[key := above (queues v)]> (mkeys v)))) in
    if key =? IPC_PRIVATE then new
    else match mkeys v !! key with
         | Some id =>
             (if has flags IPC_CREAT && has flags IPC_EXCL then Fail EEXIST else Val id, k)
         | None => if has flags IPC_CREAT then new else (Fail ENOENT, k)
         end;
  msgsnd id m flags k :=
    ((msgsnd_spec 8192 16384 (k_msgs k) id m flags).1,
     Kernel (k_names k) (k_sems k) (msgsnd_spec 8192 16384 (k_msgs k) id m flags).2);
  msgrcv id len typ flags k :=
    ((msgrcv_spec (k_msgs k) id len typ flags).1,
     Kernel (k_names k) (k_sems k) (msgrcv_spec (k_msgs k) id len typ flags).2);
  msgctl_STAT id k := (stat_spec (k_msgs k) id, k);
  msgctl_RMID id k :=
    ((msg_rmid_spec (k_msgs k) id).1,
     Kernel (k_names k) (k_sems k) (msg_rmid_spec (k_msgs k) id).2) }.

#[global] Instance kernel_msg_laws : MsgKernelLaws kernel.
Proof.
  constructor; try done.
  - intros k key flags. unfold msgget_spec. simpl.
    assert (0 ≤ above (queues (k_msgs k))) by apply above_spec.
    pose proof (above_fresh (queues (k_msgs k))).
    destruct (key =? IPC_PRIVATE) eqn:Hk; simpl; [right; by eexists|].
    destruct (mkeys (k_msgs k) !! key) as [id|]; simpl; [done|].
    destruct (has flags IPC_CREAT); simpl; [|done]. right. by eexists.
  - intros k id m flags. exact (surjective_pair_eq (msgsnd_spec 8192 16384 (k_msgs k) id m flags)).
  - intros k id len typ flags. exact (surjective_pair_eq (msgrcv_spec (k_msgs k) id len typ flags)).
  - intros k id. exact (surjective_pair_eq (msg_rmid_spec (k_msgs k) id)).
  - intros. simpl. by repeat case_match.
  - intros. simpl. by repeat case_match.
Qed.
