(* ===== verification/Semaphore.v ===== *)
(** * Semaphores of the POSIX.1b library

    src/posix1b/semaphore.c and semaphore.h: the process-wide table from keys
    to semaphore set identifiers (253 buckets of linked [hash_item]s, under a
    mutex in the build with [-D_REENTRANT]), and the nine semaphore calls on
    top of the System V interface of SysVSem. [malloc] returns unused
    addresses and does not fail. *)

From stdpp Require Import base tactics numbers list gmap strings.
From S2P Require Import Prelude SysVSem.

Open Scope Z_scope.

Definition HASH_TABLE_SIZE : Z := 253.

Record sem_t : Set := SemT { semkey : Z; semid : Z; initialized : bool }.
Record hash_item : Set := HashItem { hnext : Z; hkey : Z; hid : Z }.

(** The static variables of semaphore.c, the heap, and the kernel. *)
Record sstate (K : Type) : Type := SState {
  kern : K;
  hash_table : gmap Z Z;
  items : gmap Z hash_item;
  sems : gmap Z sem_t;
  smutex : bool;
  brk : Z }.
Arguments SState {K}.
Arguments kern {K}.
Arguments hash_table {K}.
Arguments items {K}.
Arguments sems {K}.
Arguments smutex {K}.
Arguments brk {K}.

Section Semaphore.
Context {K : Type} `{FileSys K} `{SemKernel K}.
Notation SM := (M (sstate K)).

(** ** Memory, mutex and system calls *)

Definition sys {A} (c : M K A) : SM A := λ s,
  let '(r, k) := c (kern s) in
  (r, SState k (hash_table s) (items s) (sems s) (smutex s) (brk s)).
Definition set_bucket (i p : Z) (s : sstate K) : sstate K :=
  SState (kern s) (<[i := p]> (hash_table s)) (items s) (sems s) (smutex s) (brk s).
Definition upd_items (f : gmap Z hash_item → gmap Z hash_item) (s : sstate K) : sstate K :=
  SState (kern s) (hash_table s) (f (items s)) (sems s) (smutex s) (brk s).
Definition upd_sems (f : gmap Z sem_t → gmap Z sem_t) (s : sstate K) : sstate K :=
  SState (kern s) (hash_table s) (items s) (f (sems s)) (smutex s) (brk s).
Definition set_smutex (b : bool) (s : sstate K) : sstate K :=
  SState (kern s) (hash_table s) (items s) (sems s) b (brk s).
Definition set_brk (p : Z) (s : sstate K) : sstate K :=
  SState (kern s) (hash_table s) (items s) (sems s) (smutex s) p.

Definition slock : SM unit := λ s,
  if smutex s then (Sleep, s) else (Val tt, set_smutex true s).
Definition sunlock : SM unit := modify (set_smutex false).
Definition smalloc : SM Z := p ← gets brk; modify (set_brk (p + 1));; mret p.
Definition read_item (p : Z) : SM hash_item := λ s,
  match items s !! p with Some it => (Val it, s) | None => (UB, s) end.
Definition read_sem (p : Z) : SM sem_t := λ s,
  match sems s !! p with Some m => (Val m, s) | None => (UB, s) end.

(** [key % HASH_TABLE_SIZE] as an index of the table. *)
Definition bucket (key : Z) : SM Z :=
  let i := Z.rem key HASH_TABLE_SIZE in
  if i <? 0 then undefined else mret i.

(** ** The table of identifiers *)

Definition insert_semid (key id : Z) : SM unit :=
  ip ← smalloc;
  i ← bucket key;
  t ← gets hash_table;
  modify (upd_items (insert ip (HashItem (default 0 (t !! i)) key id)));;
  modify (set_bucket i ip).

(** The walk of [get_semid] from pointer [ip]. *)
Fixpoint find_item (fuel : nat) (key ip : Z) : SM (option Z) :=
  match fuel with
  | O => no_fuel
  | S fuel =>
      if ip =? 0 then mret None
      else
        it ← read_item ip;
        if hkey it =? key then mret (Some (hid it)) else find_item fuel key (hnext it)
  end.

(** Bounds the walks: a chain without repetition is shorter. *)
Definition item_fuel (s : sstate K) : nat := S (S (size (items s))).

Definition get_semid (sem : Z) : SM Z :=
  m ← read_sem sem;
  if initialized m then mret (semid m)
  else
    let key := semkey m in
    slock;;
    i ← bucket key;
    t ← gets hash_table;
    fuel ← gets item_fuel;
    found ← find_item fuel key (default 0 (t !! i));
    match found with
    | Some id => sunlock;; mret id
    | None =>
        r ← attempt (sys (semget (i32 key) 1 0));
        match r with
        | inr _ => mret (-1)
        | inl id =>
            insert_semid key id;;
            sunlock;;
            mret (-1)
        end
    end.

(** A [hash_item **]: a slot of the table or the link of an item. *)
Inductive hloc : Set := HSlot (i : Z) | HLink (p : Z).

Definition hderef (ip : hloc) : SM Z :=
  match ip with
  | HSlot i => t ← gets hash_table; mret (default 0 (t !! i))
  | HLink p => it ← read_item p; mret (hnext it)
  end.
Definition hassign (ip : hloc) (q : Z) : SM unit :=
  match ip with
  | HSlot i => modify (set_bucket i q)
  | HLink p =>
      it ← read_item p;
      modify (upd_items (insert p (HashItem q (hkey it) (hid it))))
  end.

(** [free(p)] of an item; [free(NULL)] does nothing. *)
Definition free_item (p : Z) : SM unit :=
  if p =? 0 then mret tt
  else read_item p;; modify (upd_items (delete p)).

Fixpoint remove_from (fuel : nat) (key : Z) (ip : hloc) : SM unit :=
  match fuel with
  | O => no_fuel
  | S fuel =>
      p ← hderef ip;
      if p =? 0 then mret tt
      else
        it ← read_item p;
        if hkey it =? key then
          hassign ip (hnext it);;
          p' ← hderef ip;
          free_item p'
        else remove_from fuel key (HLink p)
  end.

Definition remove_semid (key : Z) : SM unit :=
  slock;;
  i ← bucket key;
  fuel ← gets item_fuel;
  remove_from fuel key (HSlot i);;
  sunlock.

(** ** Named semaphores *)

(** The operations of the first round of [sem_open] with [O_CREAT]. *)
Definition create_sops (init_value : Z) : list sembuf :=
  [Sembuf 1 0 IPC_NOWAIT; Sembuf 1 1 0; Sembuf 0 (i16 init_value) 0; Sembuf 2 1 SEM_UNDO].
(** The operations of the other rounds. *)
Definition attach_sops (creat : bool) : list sembuf :=
  [Sembuf 1 (-1) (if creat then IPC_NOWAIT else 0); Sembuf 1 1 0; Sembuf 2 1 SEM_UNDO].

(** The loop [do { ... } while (semop fails with EAGAIN)]: [n_sops] says
    which operations the last round tried. *)
Fixpoint open_loop (fuel : nat) (id init_value : Z) (creat : bool) (n_sops : Z) : SM unit :=
  match fuel with
  | O => no_fuel
  | S fuel =>
      let first := (n_sops =? 3) && creat in
      r ← attempt (sys (semop id (if first then create_sops init_value
                                  else attach_sops creat)));
      match r with
      | inl _ => mret tt
      | inr EAGAIN => open_loop fuel id init_value creat (if first then 4 else 3)
      | inr e => fail e
      end
  end.

(** [mode] and [value] are the optional arguments, read with [O_CREAT]. *)
Definition sem_open (fuel : nat) (name : option string) (oflag mode value : Z) : SM Z :=
  key ← (match name with
         | None => mret IPC_PRIVATE
         | Some n =>
             fd ← sys (open n (Z.lor O_WRONLY O_CREAT) 511);
             attempt (sys (close fd));;
             sys (ftok n 0)
         end);
  let creat := has oflag O_CREAT in
  let init_value := if creat then i32 value else 0 in
  if creat && (init_value <? 0) then fail EINVAL
  else
    let mode := if creat then Z.lor mode IPC_CREAT else 0 in
    let mode := if has oflag O_EXCL then Z.lor mode IPC_EXCL else mode in
    id ← sys (semget key 3 mode);
    open_loop fuel id init_value creat 3;;
    p ← smalloc;
    modify (upd_sems (insert p (SemT key id true)));;
    mret p.

Definition sem_unlink (name : string) : SM unit :=
  key ← sys (ftok name 0);
  id ← sys (semget key 1 0);
  attempt (sys (unlink name));;
  attempt (sys (semop id [Sembuf 1 (-1) 0]));;
  r ← attempt (sys (semop id [Sembuf 2 0 IPC_NOWAIT]));
  match r with
  | inl _ => attempt (sys (semctl_RMID id));; mret tt
  | inr _ => mret tt
  end.

Definition sem_close (sem : Z) : SM unit :=
  id ← get_semid sem;
  attempt (sys (semop id [Sembuf 2 (-1) SEM_UNDO]));;
  r ← attempt (sys (semop id [Sembuf 2 0 IPC_NOWAIT; Sembuf 1 0 IPC_NOWAIT]));
  (match r with
   | inl _ => attempt (sys (semctl_RMID id));; mret tt
   | inr _ => mret tt
   end);;
  modify (upd_sems (delete sem)).

(** ** Unnamed semaphores *)

(** [pshared] is not 0; [value] is an [unsigned int], so [value < 0] is false. *)
Definition sem_init (sem : Z) (pshared : bool) (value : Z) : SM unit :=
  old ← gets (λ s, default (SemT 0 0 false) (sems s !! sem));
  let key := if pshared then sem else IPC_PRIVATE in
  modify (upd_sems (insert sem (SemT key (semid old) false)));;
  id ← sys (semget (i32 key) 1 (Z.lor IPC_CREAT 511));
  when (negb (value =? 0)) (sys (semop id [Sembuf 0 (i16 value) 0]));;
  slock;;
  insert_semid key id;;
  sunlock.

Definition sem_destroy (sem : Z) : SM unit :=
  id ← get_semid sem;
  m ← read_sem sem;
  remove_semid (semkey m);;
  sys (semctl_RMID id).

(** ** Operations *)

Definition sem_post (sem : Z) : SM unit :=
  id ← get_semid sem; sys (semop id [Sembuf 0 1 0]).

(** The result is [*sval], when [sval] is not NULL. *)
Definition sem_getvalue (sem : Z) (sval : bool) : SM Z :=
  if negb sval then fail EINVAL
  else id ← get_semid sem; sys (semctl_GETVAL id 0).

Definition sem_wait (sem : Z) : SM unit :=
  id ← get_semid sem; sys (semop id [Sembuf 0 (-1) 0]).

Definition sem_trywait (sem : Z) : SM unit :=
  id ← get_semid sem; sys (semop id [Sembuf 0 (-1) IPC_NOWAIT]).
End Semaphore.
