(* ===== verification/SemaphoreThms.v ===== *)
(** * What the semaphore calls guarantee

    The theorems on src/posix1b/semaphore.c, for every kernel that meets the
    laws of SysVSem: the table of identifiers, post, wait and trywait as
    operations of a counting semaphore, initialisation, and the life of a
    named semaphore from open to unlink. *)

From stdpp Require Import base tactics numbers list gmap strings.
From S2P Require Import Prelude SysVSem RefKernel Semaphore SemaphoreProps.

Open Scope Z_scope.

(** ** The abstract counting semaphore *)

Inductive sop : Set := Post | Wait | TryWait.

Definition abs_step (op : sop) (v : Z) : out unit * Z :=
  match op with
  | Post => if v <? SEMVMX then (Val tt, v + 1) else (Fail ERANGE, v)
  | Wait => if 0 <? v then (Val tt, v - 1) else (Sleep, v)
  | TryWait => if 0 <? v then (Val tt, v - 1) else (Fail EAGAIN, v)
  end.

(** A sequence of calls by a thread: it stops where the thread goes to sleep. *)
Fixpoint abs_run (ops : list sop) (v : Z) : list (out unit) * Z :=
  match ops with
  | [] => ([], v)
  | op :: ops' =>
      match abs_step op v with
      | (Sleep, v') => ([Sleep], v')
      | (r, v') => let '(rs, v'') := abs_run ops' v' in (r :: rs, v'')
      end
  end.

Lemma abs_step_range op v :
  0 ≤ v ≤ SEMVMX → 0 ≤ (abs_step op v).2 ≤ SEMVMX.
Proof. unfold abs_step. destruct op; bool_case; simpl; lia. Qed.

Section Counting.
Context {K : Type} `{FileSys K} `{SemKernel K} `{!SemKernelLaws K}.
Implicit Types s : sstate K.

Definition run_sop (op : sop) (p : Z) : M (sstate K) unit :=
  match op with Post => sem_post p | Wait => sem_wait p | TryWait => sem_trywait p end.

Fixpoint run_sops (ops : list sop) (p : Z) (s : sstate K) : list (out unit) * sstate K :=
  match ops with
  | [] => ([], s)
  | op :: ops' =>
      match run_sop op p s with
      | (Sleep, s') => ([Sleep], s')
      | (r, s') => let '(rs, s'') := run_sops ops' p s' in (r :: rs, s'')
      end
  end.

(** The value of the set [id], with the rest of the set. *)
Definition set_is s (id v : Z) (rest : list Z) : Prop :=
  sets (sem_view (kern s)) !! id = Some (v :: rest).

(** [s'] is [s] with another kernel, in which set [id] has value [v]. *)
Record only_set s s' (id v : Z) (rest : list Z) : Prop := {
  only_table : hash_table s' = hash_table s ∧ items s' = items s ∧ sems s' = sems s ∧
               smutex s' = smutex s ∧ brk s' = brk s;
  only_sets : sets (sem_view (kern s')) = <[id := v :: rest]> (sets (sem_view (kern s)));
  only_keys : keys (sem_view (kern s')) = keys (sem_view (kern s));
  only_names : fs_names (kern s') = fs_names (kern s) }.

Lemma only_hwf s s' id v rest f : only_set s s' id v rest → hwf s f → hwf s' f.
Proof.
  intros [(H1 & H2 & H3 & H4 & H5) _ _ _] [Hc Hn Hs Hb Ha].
  constructor; [intros i; rewrite H1, H2; apply Hc|done|done|by rewrite H5|].
  intros p. rewrite H2, H5. apply Ha.
Qed.

Lemma only_resolves s s' id v rest f p i :
  only_set s s' id v rest → resolves s f p i → resolves s' f p i.
Proof.
  intros [(H1 & H2 & H3 & H4 & H5) _ _ _] (m & Hm & Hr). exists m. by rewrite H3.
Qed.

Lemma only_trans s1 s2 s3 id v1 v2 r1 r2 :
  only_set s1 s2 id v1 r1 → only_set s2 s3 id v2 r2 → only_set s1 s3 id v2 r2.
Proof.
  intros [(A1 & A2 & A3 & A4 & A5) A6 A7 A8] [(B1 & B2 & B3 & B4 & B5) B6 B7 B8].
  constructor; [|by rewrite B6, A6, insert_insert_eq|congruence..].
  split_and!; congruence.
Qed.

Lemma only_refl s id v rest : set_is s id v rest → only_set s s id v rest.
Proof. intros Hs. constructor; try done. by rewrite insert_id. Qed.

(** One [semop] with a single operation on semaphore 0. *)
Lemma semop_one s id v rest x flg :
  set_is s id v rest →
  ∃ k, sys (semop id [Sembuf 0 x flg]) s =
         (match op_on (v :: rest) (Sembuf 0 x flg) with
          | (_, None) => Val tt | (_, Some r) => r
          end, SState k (hash_table s) (items s) (sems s) (smutex s) (brk s)) ∧
    sem_view k = match op_on (v :: rest) (Sembuf 0 x flg) with
                 | (vs', None) => with_set id vs' (sem_view (kern s))
                 | _ => sem_view (kern s)
                 end ∧ fs_names k = fs_names (kern s).
Proof.
  intros Hs. unfold sys.
  pose proof (semop_law (kern s) id [Sembuf 0 x flg]) as Hl.
  pose proof (semop_frame (kern s) id [Sembuf 0 x flg]) as Hf.
  destruct (semop id [Sembuf 0 x flg] (kern s)) as [r k]; simpl in *.
  unfold semop_spec in Hl. rewrite Hs in Hl. cbn [ops_on] in Hl.
  exists k. destruct (op_on (v :: rest) (Sembuf 0 x flg)) as [vs' [r'|]] eqn:E; simpl in *.
  - assert (r = r' ∧ sem_view k = sem_view (kern s)) as [-> ->]; [|done].
    destruct r' as [[]| | | | |]; simplify_eq; try done.
    exfalso. revert E. unfold op_on. simpl. repeat case_match; intros; simplify_eq.
  - by simplify_eq.
Qed.

(** Each call is one step of the counting semaphore. *)
Lemma run_sop_step s f p id v rest op :
  hwf s f → smutex s = false → resolves s f p id → set_is s id v rest → 0 ≤ v ≤ SEMVMX →
  ∃ s', run_sop op p s = ((abs_step op v).1, s') ∧ only_set s s' id (abs_step op v).2 rest.
Proof.
  intros Hwf Hm Hres Hs Hv.
  assert (∃ x flg, run_sop op p s = sys (semop id [Sembuf 0 x flg]) s ∧
     (match op_on (v :: rest) (Sembuf 0 x flg) with
      | (vs', None) => (Val tt, vs') | (_, Some r) => (r, v :: rest)
      end) = ((abs_step op v).1, (abs_step op v).2 :: rest)) as (x & flg & Hrun & Hop).
  { pose proof (get_semid_resolves s f p id Hwf Hm Hres) as Hg.
    unfold abs_step, SEMVMX in *.
    destruct op; [exists 1, 0|exists (-1), 0|exists (-1), IPC_NOWAIT];
      (split; [simpl; unfold sem_post, sem_wait, sem_trywait; by erewrite bind_val by exact Hg|]);
      unfold op_on; simpl; unfold SEMVMX; repeat bool_case; simpl; try lia; done. }
  destruct (semop_one s id v rest x flg Hs) as (k & Hsem & Hview & Hfs).
  rewrite Hrun, Hsem.
  destruct (op_on (v :: rest) (Sembuf 0 x flg)) as [vs' [r'|]]; simplify_eq Hop;
    intros; eexists; (split; [by f_equal|]); constructor; simpl; try done; rewrite Hview; try done.
  - rewrite insert_id; [done|]. unfold set_is in Hs. congruence.
  - simpl. congruence.
Qed.

(** C14. The semaphore calls implement a counting semaphore: for every sequence
    of post, wait and trywait calls on an initialised or opened semaphore the
    results are those of the abstract counter (wait sleeps on zero, trywait
    fails with EAGAIN, post fails with ERANGE at SEMVMX), its value and no
    other set changes, and [sem_getvalue] then reports the counter. *)
Theorem sem_calls_count s f p id v rest ops :
  hwf s f → smutex s = false → resolves s f p id → set_is s id v rest → 0 ≤ v ≤ SEMVMX →
  ∃ s', run_sops ops p s = ((abs_run ops v).1, s') ∧
    only_set s s' id (abs_run ops v).2 rest ∧
    sem_getvalue p true s' = (Val (abs_run ops v).2, s').
Proof.
  intros Hwf Hm Hres Hs Hv.
  assert (∀ s' v', only_set s s' id v' rest → sem_getvalue p true s' = (Val v', s')) as Hget.
  { intros s' v' Ho. unfold sem_getvalue. cbn [negb]. pose proof Ho as [(_ & _ & _ & Hmu & _) Hsets _ _].
    erewrite bind_val.
    2:{ eapply (get_semid_resolves s' f p id);
          [by eapply only_hwf|by rewrite Hmu|by eapply only_resolves]. }
    unfold sys. rewrite getval_law. unfold getval_spec. rewrite Hsets, lookup_insert_eq. simpl.
    by destruct s'. }
  cut (∃ s', run_sops ops p s = ((abs_run ops v).1, s') ∧
         only_set s s' id (abs_run ops v).2 rest).
  { intros (s' & H1' & H2'). exists s'. auto. }
  clear Hget. revert s v Hwf Hm Hres Hs Hv. induction ops as [|op ops IH]; intros s v Hwf Hm Hres Hs Hv; simpl.
  { exists s. split; [done|]. by apply only_refl. }
  destruct (run_sop_step s f p id v rest op Hwf Hm Hres Hs Hv) as (s1 & Hr & Ho).
  pose proof (abs_step_range op v Hv) as Hv'. rewrite Hr.
  destruct (abs_step op v) as [r v1] eqn:E; simpl in *.
  pose proof Ho as [(_ & _ & _ & Hmu & _) Hsets _ _].
  destruct (IH s1 v1) as (s2 & Hr2 & Ho2);
    [by eapply only_hwf|by rewrite Hmu|by eapply only_resolves|
     unfold set_is; by rewrite Hsets, lookup_insert_eq|done|].
  rewrite Hr2. destruct (abs_run ops v1) as [rs v2]; simpl in *.
  destruct r; eexists; (split; [reflexivity|]); try done; by eapply only_trans.
Qed.
End Counting.

(** ** Initialisation *)

Section Init.
Context {K : Type} `{FileSys K} `{SemKernel K} `{!SemKernelLaws K}.
Implicit Types s : sstate K.

Definition init_key (p : Z) (pshared : bool) : Z := if pshared then p else IPC_PRIVATE.

(** The state with kernel [k] and the semaphore at [p] set to [m]. *)
Definition with_sem s (k : K) (p : Z) (m : sem_t) : sstate K :=
  SState k (hash_table s) (items s) (<[p := m]> (sems s)) (smutex s) (brk s).

(** [semget] with a key that has no set, or IPC_PRIVATE. *)
Lemma semget_new (k : K) key n :
  key = IPC_PRIVATE ∨ keys (sem_view k) !! key = None →
  (semget key n (Z.lor IPC_CREAT 511) k).1 = Fail ENOSPC ∨
  ∃ id k', semget key n (Z.lor IPC_CREAT 511) k = (Val id, k') ∧
    sets (sem_view k) !! id = None ∧
    sets (sem_view k') = <[id := replicate (Z.to_nat n) 0]> (sets (sem_view k)).
Proof.
  intros Hkey. pose proof (semget_law k key n (Z.lor IPC_CREAT 511)) as Hl.
  unfold semget_spec in Hl.
  assert (new_set (sem_view k) key n (semget key n (Z.lor IPC_CREAT 511) k).1
            (sem_view (semget key n (Z.lor IPC_CREAT 511) k).2)) as [[-> _]|Hnew].
  { destruct Hkey as [-> | Hkey]; [done|]. destruct (key =? IPC_PRIVATE); [done|].
    rewrite Hkey in Hl. exact Hl. }
  - by left.
  - right. destruct Hnew as (id & Hr & _ & Hid & Hv).
    destruct (semget key n (Z.lor IPC_CREAT 511) k) as [r k'] eqn:E; simpl in *. subst r.
    exists id, k'. split; [done|]. split; [done|]. by rewrite Hv.
Qed.

Lemma i16_range z : - 32768 ≤ i16 z ≤ 32767.
Proof. unfold i16, wrap. pose proof (Z.mod_pos_bound (z + 2 ^ (16 - 1)) (2 ^ 16)). lia. Qed.

(** [sem_init] on a semaphore whose key has no set yet. *)
Lemma sem_init_run s f p pshared value :
  hwf s f → smutex s = false → 0 ≤ p < 2 ^ 31 → 0 ≤ value →
  (pshared = true → keys (sem_view (kern s)) !! p = None) →
  (sem_init p pshared value s).1 = Fail ENOSPC ∨
  ∃ id k, sets (sem_view (kern s)) !! id = None ∧
    let s' := with_sem s k p (SemT (init_key p pshared)
                (semid (default (SemT 0 0 false) (sems s !! p))) false) in
    if 0 <=? i16 value then
      sem_init p pshared value s = (Val tt, inserted (init_key p pshared) id s') ∧
      sets (sem_view k) = <[id := [i16 value]]> (sets (sem_view (kern s)))
    else
      sem_init p pshared value s = (Sleep, s') ∧
      sets (sem_view k) = <[id := [0]]> (sets (sem_view (kern s))).
Proof.
  intros Hwf Hm Hp Hv Hkey. unfold sem_init. erewrite bind_val by done. cbn zeta.
  fold (init_key p pshared).
  erewrite bind_val by done.
  assert (0 ≤ init_key p pshared < 2 ^ 31) as Hrange
    by (unfold init_key, IPC_PRIVATE; destruct pshared; lia).
  rewrite (i32_id (init_key p pshared)) by lia.
  set (m := SemT _ _ _).
  destruct (semget_new (kern s) (init_key p pshared) 1) as [Hf|(id & k1 & Hg & Hid & Hsets)].
  { destruct pshared; [right; by apply Hkey|by left]. }
  { left. unfold mbind, M_bind, sys. simpl. destruct (semget _ _ _ _) as [r k]. simpl in *.
    by subst. }
  right. exists id.
  set (s1 := with_sem s k1 p m).
  assert (∀ B (c : Z → M (sstate K) B), (sys (semget (init_key p pshared) 1 (Z.lor IPC_CREAT 511)) ≫= c)
            (upd_sems (insert p m) s) = c id s1) as Hget.
  { intros B c. unfold mbind, M_bind, sys. simpl. by rewrite Hg. }
  rewrite Hget. clear Hget.
  assert (set_is s1 id 0 []) as Hs1 by (unfold set_is; simpl; by rewrite Hsets, lookup_insert_eq).
  assert (∀ s2, smutex s2 = false →
    (slock;; insert_semid (init_key p pshared) id;; sunlock) s2
      = (Val tt, inserted (init_key p pshared) id s2)) as Htail.
  { intros s2 H2. erewrite bind_val by (unfold slock; by rewrite H2).
    erewrite bind_val by (apply insert_semid_run; lia). destruct s2; simpl in *. by subst. }
  destruct (Z.eqb_spec value 0) as [->|Hne].
  { exists k1. split; [done|]. split; [|done]. erewrite bind_val by done. by apply Htail. }
  destruct (semop_one s1 id 0 [] (i16 value) 0 Hs1) as (k & Hsem & Hview & _).
  exists k. split; [done|]. cbn [negb when]. pose proof (i16_range value).
  unfold op_on in Hsem, Hview. simpl in Hsem, Hview. rewrite Z.add_0_l in Hsem, Hview.
  unfold SEMVMX in *.
  destruct (Z.leb_spec 0 (i16 value)).
  - destruct (Z.eqb_spec (i16 value) 0) as [Hz|Hz].
    + erewrite bind_val by exact Hsem. rewrite Htail by done. split; [done|].
      rewrite Hview. simpl. by rewrite Hsets, Hz, insert_insert_eq.
    + rewrite (proj2 (Z.ltb_ge (i16 value) 0)), (proj2 (Z.ltb_ge 32767 (i16 value)))
        in Hsem, Hview by lia.
      erewrite bind_val by exact Hsem. rewrite Htail by done. split; [done|].
      rewrite Hview. simpl. rewrite Hsets. by rewrite insert_insert_eq.
  - destruct (Z.eqb_spec (i16 value) 0) as [Hz|Hz]; [lia|].
    rewrite (proj2 (Z.ltb_lt (i16 value) 0)) in Hsem, Hview by lia.
    unfold mbind, M_bind. rewrite Hsem. split; [done|]. by rewrite Hview, Hsets.
Qed.

Lemma inserted_resolves s f key id p m :
  sems s !! p = Some m → initialized m = false → semkey m = key → 0 ≤ key →
  resolves (inserted key id s) (push (slot key) (brk s, key, id) f) p id.
Proof.
  intros Hp Hi Hk H0'. exists m. split; [done|]. rewrite Hi. subst key.
  split; [done|]. rewrite table_push. by rewrite decide_True.
Qed.

Lemma with_sem_hwf s f k p m : hwf s f → hwf (with_sem s k p m) f.
Proof. intros [Hc Hn Hs Hb Ha]. by constructor. Qed.

(** [sem_init] on a fresh semaphore either reports that the kernel has no
    more sets or creates a set of its own whose value is the given one, which
    the other calls then find; but the value passes through a [short]: from
    32768 on the caller either sleeps for ever (the narrowed value is
    negative) or gets the value modulo 2^16. *)
Theorem sem_init_sets s f p pshared value :
  hwf s f → smutex s = false → 0 ≤ p < 2 ^ 31 → 0 ≤ value →
  (pshared = true → keys (sem_view (kern s)) !! p = None) →
  (sem_init p pshared value s).1 = Fail ENOSPC ∨
  ((sem_init p pshared value s).1 = Sleep ∧ 32767 < value ∧ i16 value < 0) ∨
  ∃ s' f' id, sem_init p pshared value s = (Val tt, s') ∧ hwf s' f' ∧ smutex s' = false ∧
    resolves s' f' p id ∧ set_is s' id (i16 value) [] ∧
    sets (sem_view (kern s)) !! id = None ∧
    (value ≤ 32767 → i16 value = value).
Proof.
  intros Hwf Hm Hp Hv Hkey.
  destruct (sem_init_run s f p pshared value) as [Hf|(id & k & Hid & Hrun)]; [done..|by left|].
  right. cbn zeta in Hrun. set (m := SemT _ _ _) in Hrun.
  destruct (Z.leb_spec 0 (i16 value)) as [Hi|Hi]; destruct Hrun as [Hrun Hsets].
  - right. eexists _, _, id. split; [done|].
    split; [by apply inserted_hwf, with_sem_hwf|]. split; [done|].
    split; [apply (inserted_resolves _ _ _ _ p m); [by apply lookup_insert_eq|done..|]|].
    { unfold init_key, IPC_PRIVATE; destruct pshared; simpl; lia. }
    split; [unfold set_is; simpl; by rewrite Hsets, lookup_insert_eq|].
    split; [done|]. intros. apply i16_id. lia.
  - left. rewrite Hrun. split; [done|]. split; [|done].
    destruct (Z_lt_le_dec 32767 value); [done|]. rewrite i16_id in Hi by lia. lia.
Qed.

(** A successful [sem_init] of a private semaphore, as a change of state. *)
Lemma sem_init_private s f p v s' :
  hwf s f → smutex s = false → 0 ≤ p < 2 ^ 31 → 0 ≤ v ≤ 32767 →
  sem_init p false v s = (Val tt, s') →
  ∃ id m, sets (sem_view (kern s)) !! id = None ∧
    sets (sem_view (kern s')) = <[id := [v]]> (sets (sem_view (kern s))) ∧
    hwf s' (push (slot 0) (brk s, 0, id) f) ∧ smutex s' = false ∧
    sems s' = <[p := SemT 0 m false]> (sems s).
Proof.
  intros Hwf Hm Hp Hv Hrun'.
  destruct (sem_init_run s f p false v) as [Hf|(id & k & Hid & Hrun)];
    [done|done|done|lia|done|by rewrite Hrun' in Hf|].
  rewrite (i16_id v), (proj2 (Z.leb_le 0 v)) in Hrun by lia. cbn zeta in Hrun.
  destruct Hrun as [Hrun Hsets]. rewrite Hrun' in Hrun. injection Hrun as ->.
  eexists id, _. split_and!; [done|exact Hsets| |done|reflexivity].
  by apply (inserted_hwf 0 id (with_sem s k p _)), with_sem_hwf.
Qed.

(** Every private semaphore resolves to the newest private set. *)
Lemma private_resolves s f p m a id :
  sems s !! p = Some (SemT 0 m false) →
  resolves s (push (slot 0) (a, 0, id) f) p id.
Proof.
  intros Hp. eexists. split; [done|]. simpl. split; [done|].
  by rewrite table_push, decide_True.
Qed.

(** Semaphores that are not shared between processes are not separate: the
    key of all of them is IPC_PRIVATE, so after a second [sem_init] with
    [pshared] 0 every call on the first semaphore goes to the set of the
    second, and the set of the first is out of reach. *)
Theorem private_semaphores_alias s f p q v w s1 s2 :
  hwf s f → smutex s = false → 0 ≤ p < 2 ^ 31 → 0 ≤ q < 2 ^ 31 → p ≠ q →
  0 ≤ v ≤ 32767 → 0 ≤ w ≤ 32767 →
  sem_init p false v s = (Val tt, s1) → sem_init q false w s1 = (Val tt, s2) →
  ∃ id1 id2, id1 ≠ id2 ∧ set_is s2 id1 v [] ∧ set_is s2 id2 w [] ∧
    get_semid p s2 = (Val id2, s2) ∧ get_semid q s2 = (Val id2, s2).
Proof.
  intros Hwf Hm Hp Hq Hne Hv Hw Hrun1 Hrun2.
  destruct (sem_init_private s f p v s1) as (id1 & m1 & Hid1 & Hsets1 & Hwf1 & Hm1 & Hsem1);
    [done..|].
  destruct (sem_init_private s1 (push (slot 0) (brk s, 0, id1) f) q w s2) as (id2 & m2 & Hid2 & Hsets2 & Hwf2 & Hm2 & Hsem2);
    [done..|].
  rewrite Hsets1 in Hid2, Hsets2.
  assert (id1 ≠ id2) as Hids by (intros ->; by rewrite lookup_insert_eq in Hid2).
  exists id1, id2. split; [done|].
  split; [unfold set_is; by rewrite Hsets2, lookup_insert_ne, lookup_insert_eq|].
  split; [unfold set_is; by rewrite Hsets2, lookup_insert_eq|].
  split; (eapply get_semid_resolves; [exact Hwf2|done|]); eapply private_resolves.
  - rewrite Hsem2, lookup_insert_ne, Hsem1 by done. by apply lookup_insert_eq.
  - rewrite Hsem2. by apply lookup_insert_eq.
Qed.
End Init.

(** A semaphore at address 1000 with value 2, in a process with two others. *)
Definition demo_sems : sstate kernel :=
  snd ((sem_init 1000 true 2;; sem_init 1253 true 5;; sem_init 1506 true 0)
         (empty_state kernel0)).

Definition demo_table (i : Z) : list entry :=
  if decide (i = 241) then [(3, 1506, 2); (2, 1253, 1); (1, 1000, 0)] else [].

(** The addresses differ by the table size: the three share a bucket. *)
Lemma demo_sems_hwf : hwf demo_sems demo_table.
Proof.
  set (s0 := empty_state kernel0).
  assert (hwf (inserted 1506 2 (inserted 1253 1 (inserted 1000 0 s0)))
            (push (slot 1506) (3, 1506, 2) (push (slot 1253) (2, 1253, 1)
               (push (slot 1000) (1, 1000, 0) (λ _, []))))) as [Hc Hn Hs Hb Ha].
  { apply (inserted_hwf 1506 2 (inserted 1253 1 (inserted 1000 0 s0))).
    apply (inserted_hwf 1253 1 (inserted 1000 0 s0)). apply (inserted_hwf 1000 0 s0).
    apply hwf_empty. }
  assert (∀ i, demo_table i = push (slot 1506) (3, 1506, 2) (push (slot 1253) (2, 1253, 1)
               (push (slot 1000) (1, 1000, 0) (λ _, []))) i) as Heq.
  { intros i. unfold demo_table, push. change (slot 1506) with 241.
    change (slot 1253) with 241. change (slot 1000) with 241. by destruct (decide (i = 241)). }
  constructor; try done; intros i; rewrite Heq; [apply Hc|apply Hn|apply Hs].
Qed.

Lemma sem_calls_count_witness :
  ∃ s', run_sops [Post; Wait; Wait; Wait; TryWait; Post; Wait; Wait] 1000 demo_sems
          = ((abs_run [Post; Wait; Wait; Wait; TryWait; Post; Wait; Wait] 2).1, s') ∧
    only_set demo_sems s' 0 (abs_run [Post; Wait; Wait; Wait; TryWait; Post; Wait; Wait] 2).2 [] ∧
    sem_getvalue 1000 true s'
      = (Val (abs_run [Post; Wait; Wait; Wait; TryWait; Post; Wait; Wait] 2).2, s').
Proof.
  eapply (sem_calls_count demo_sems demo_table).
  - exact demo_sems_hwf.
  - vm_compute. reflexivity.
  - exists (SemT 1000 0 false). split; [vm_compute; reflexivity|]. split; [done|].
    vm_compute. reflexivity.
  - vm_compute. reflexivity.
  - unfold SEMVMX. lia.
Defined.

Lemma sem_init_sets_witness :
  (sem_init 77 true 65540 (empty_state kernel0)).1 = Fail ENOSPC ∨
  ((sem_init 77 true 65540 (empty_state kernel0)).1 = Sleep ∧ 32767 < 65540 ∧ i16 65540 < 0) ∨
  ∃ s' f' id, sem_init 77 true 65540 (empty_state kernel0) = (Val tt, s') ∧ hwf s' f' ∧
    smutex s' = false ∧ resolves s' f' 77 id ∧ set_is s' id (i16 65540) [] ∧
    sets (sem_view (kern (empty_state kernel0))) !! id = None ∧
    (65540 ≤ 32767 → i16 65540 = 65540).
Proof.
  eapply (sem_init_sets (empty_state kernel0)); [apply hwf_empty|reflexivity|lia|lia|].
  intros _. reflexivity.
Defined.

Lemma private_semaphores_alias_witness :
  ∃ id1 id2, id1 ≠ id2 ∧
    let s2 := snd ((sem_init 10 false 3;; sem_init 20 false 7) (empty_state kernel0)) in
    set_is s2 id1 3 [] ∧ set_is s2 id2 7 [] ∧
    get_semid 10 s2 = (Val id2, s2) ∧ get_semid 20 s2 = (Val id2, s2).
Proof.
  eapply (private_semaphores_alias (empty_state kernel0) (λ _, []) 10 20 3 7
            (snd (sem_init 10 false 3 (empty_state kernel0))));
    [apply hwf_empty|reflexivity|lia|lia|lia|lia|lia|vm_compute; reflexivity|
     vm_compute; reflexivity].
Defined.

(** ** The table *)

Section TableThms.
Context {K : Type}.
Implicit Types s : sstate K.

(** C35. [insert_semid] keeps the table well formed (acyclic NULL-terminated
    chains, each item in the bucket of its key) and makes it the map in which
    the key now has the new identifier and every other key what it had; the
    walk of [get_semid] looks that map up and ends within the number of
    allocated items. *)
Theorem table_is_map s f key id k :
  hwf s f → 0 ≤ key → 0 ≤ k →
  ∃ s' f', insert_semid key id s = (Val tt, s') ∧ hwf s' f' ∧
    table_of f' k = (if decide (k = key) then Some id else table_of f k) ∧
    find_item (item_fuel s') k (default 0 (hash_table s' !! slot k)) s'
      = (Val (table_of f' k), s').
Proof.
  intros Hwf Hkey Hk.
  pose proof (inserted_hwf key id s f Hwf) as Hwf'.
  exists (inserted key id s), (push (slot key) (brk s, key, id) f).
  split; [by apply insert_semid_run|]. split; [done|]. split; [apply table_push|].
  destruct Hwf' as [Hc Hn _ _ _].
  apply find_item_spec; [eapply item_fuel_enough; eauto|apply Hc].
Qed.

(** The slot that follows the entries [l] from the slot [ip]. *)
Fixpoint last_slot (ip : hloc) (l : list entry) : hloc :=
  match l with [] => ip | (a, _, _) :: l' => last_slot (HLink a) l' end.

Definition hlink s (ip : hloc) : option Z :=
  match ip with
  | HSlot i => Some (default 0 (hash_table s !! i))
  | HLink p => hnext <$> items s !! p
  end.

(** The state after storing [q] through [ip]. *)
Definition hassign_st (ip : hloc) (q : Z) s : sstate K :=
  match ip with
  | HSlot i => set_bucket i q s
  | HLink p => upd_items (alter (λ it, HashItem q (hkey it) (hid it)) p) s
  end.

Lemma hderef_hlink s ip p : hlink s ip = Some p → hderef ip s = (Val p, s).
Proof.
  destruct ip as [i|a]; simpl; [by intros [= <-]|]. intros (it & Hit & ->)%fmap_Some.
  by erewrite bind_val by (unfold read_item; by rewrite Hit).
Qed.

Lemma hassign_hlink s ip q :
  is_Some (hlink s ip) → hassign ip q s = (Val tt, hassign_st ip q s).
Proof.
  destruct ip as [i|a]; simpl; [done|]. intros [it Hit]%fmap_is_Some.
  erewrite bind_val by (unfold read_item; by rewrite Hit).
  unfold modify, upd_items. do 2 f_equal. apply map_eq. intros j.
  destruct (decide (a = j)) as [<-|Hne];
    [by rewrite lookup_insert_eq, lookup_alter_eq, Hit|by rewrite lookup_insert_ne, lookup_alter_ne].
Qed.

Lemma hlink_assign s ip q : is_Some (hlink s ip) → hlink (hassign_st ip q s) ip = Some q.
Proof.
  destruct ip as [i|a]; simpl; [by rewrite lookup_insert_eq|].
  intros [it Hit]%fmap_is_Some. by rewrite lookup_alter_eq, Hit.
Qed.

(** The walk of [remove_semid] to the first entry with the key. *)
Lemma remove_from_at fuel key ip l a d n l' s :
  (length l < fuel)%nat → (∀ b k e, (b, k, e) ∈ l → k ≠ key) → a ≠ 0 →
  (∃ p, hlink s ip = Some p ∧ hchain (items s) p (l ++ (a, key, d) :: l')) →
  items s !! a = Some (HashItem n key d) →
  remove_from fuel key ip s =
    (free_item n) (hassign_st (last_slot ip l) n s) ∧ is_Some (hlink s (last_slot ip l)).
Proof.
  revert fuel ip. induction l as [|[[b k] e] l IH]; intros fuel ip Hf Hk Ha (p & Hp & Hc) Hit;
    (destruct fuel as [|fuel]; [simpl in Hf; lia|]); cbn [last_slot app hchain] in *.
  - destruct Hc as (-> & _). split; [|eauto]. simpl.
    erewrite bind_val by (by apply hderef_hlink). rewrite (proj2 (Z.eqb_neq a 0)) by done.
    erewrite bind_val by (unfold read_item; by rewrite Hit). simpl. rewrite Z.eqb_refl.
    erewrite bind_val by (apply hassign_hlink; eauto).
    erewrite bind_val by (apply hderef_hlink, hlink_assign; eauto). done.
  - destruct Hc as (-> & Hb & m & Hm & Hc). simpl.
    erewrite bind_val by (by apply hderef_hlink). rewrite (proj2 (Z.eqb_neq b 0)) by done.
    erewrite bind_val by (unfold read_item; by rewrite Hm). simpl.
    rewrite (proj2 (Z.eqb_neq k key)) by (eapply Hk; constructor).
    apply IH; [simpl in Hf; lia| |done| |done].
    + intros b' k' e' Hin. eapply Hk. by constructor.
    + exists m. split; [simpl; by rewrite Hm|done].
Qed.

(** Storing NULL in the link to the last entry cuts it off. *)
Lemma cut_chain ip l a k d s :
  NoDup (addrs (l ++ [(a, k, d)])) → (∀ b, ip = HLink b → b ∉ addrs l) →
  (∃ p, hlink s ip = Some p ∧ hchain (items s) p (l ++ [(a, k, d)])) →
  ∃ p', hlink (hassign_st (last_slot ip l) 0 s) ip = Some p' ∧
        hchain (items (hassign_st (last_slot ip l) 0 s)) p' l.
Proof.
  revert ip. induction l as [|[[b k'] e] l IH]; intros ip Hnd Hip (p & Hp & Hc).
  - simpl in *. exists 0. split; [|done]. apply hlink_assign. eauto.
  - cbn [app addrs fmap list_fmap] in Hnd. apply NoDup_cons in Hnd as [Hb Hnd].
    cbn [app hchain last_slot] in *. destruct Hc as (-> & Hb0 & n & Hn & Hc).
    assert (b ∉ addrs l) as Hbl.
    { intros Hin. apply Hb. unfold addrs in *. rewrite fmap_app. apply elem_of_app. by left. }
    destruct (IH (HLink b)) as (p' & Hp' & Hc'); [done|by intros ? [= <-]| |].
    { exists n. split; [simpl; by rewrite Hn|done]. }
    exists b. split.
    + destruct (last_slot (HLink b) l) as [i|c] eqn:E.
      { clear -E. exfalso. revert b E. induction l as [|[[x y] z] l IHl]; intros b; simpl; [done|apply IHl]. }
      destruct ip as [i|c']; simpl; [done|].
      assert (c' ≠ c).
      { intros ->. assert (c ∈ b :: addrs l) as Hin.
        { clear -E. revert b E. induction l as [|[[x y] z] l IHl]; intros b; simpl;
            [intros [= ->]; constructor|]. intros E. apply IHl in E. by constructor. }
        eapply Hip; [done|]. exact Hin. }
      rewrite lookup_alter_ne by done. exact Hp.
    + split; [done|]. split; [done|]. simpl in Hp'. apply fmap_Some in Hp' as (it & Hit & ->).
      exists (hnext it). split; [|done]. rewrite Hit.
      destruct (last_slot (HLink b) l) as [i|c]; simpl in Hit; [by simplify_eq|].
      destruct (decide (c = b)) as [->|Hne].
      * rewrite lookup_alter_eq, Hn in Hit. simpl in Hit. by simplify_eq.
      * rewrite lookup_alter_ne, Hn in Hit by done. by simplify_eq.
Qed.

(** Everything else of the state. *)
Lemma hassign_st_other ip q s :
  smutex (hassign_st ip q s) = smutex s ∧ brk (hassign_st ip q s) = brk s ∧
  sems (hassign_st ip q s) = sems s ∧
  (∀ p, is_Some (items (hassign_st ip q s) !! p) ↔ is_Some (items s !! p)).
Proof.
  destruct ip as [i|a]; simpl; split_and!; try done. intros p.
  destruct (decide (a = p)) as [<-|Hne];
    [by rewrite lookup_alter_eq, fmap_is_Some|by rewrite lookup_alter_ne].
Qed.

Lemma last_slot_cases i l :
  (l = [] ∧ last_slot (HSlot i) l = HSlot i) ∨
  ∃ b, last_slot (HSlot i) l = HLink b ∧ b ∈ addrs l.
Proof.
  destruct l as [|[[b k] e] l]; [by left|right]. simpl. clear k e. revert b.
  induction l as [|[[c k'] e'] l IH]; intros b; simpl; [exists b; split; [done|constructor]|].
  destruct (IH c) as (x & Hx & Hin). exists x. split; [done|]. by constructor.
Qed.

(** The entries of one bucket replaced. *)
Definition with_bucket (i : Z) (l : list entry) (f : Z → list entry) : Z → list entry :=
  λ j, if decide (j = i) then l else f j.

Lemma hchain_item h p l b :
  hchain h p l → b ∈ addrs l → ∃ n k d, h !! b = Some (HashItem n k d) ∧ (b, k, d) ∈ l.
Proof.
  revert p. induction l as [|[[c k] d] l IH]; intros p; [intros _ H; by apply elem_of_nil in H|].
  intros (-> & _ & n & Hn & Hc) [->|Hb]%elem_of_cons.
  - exists n, k, d. split; [done|]. constructor.
  - destruct (IH n Hc Hb) as (n' & k' & d' & ? & ?). exists n', k', d'. split; [done|]. by constructor.
Qed.

(** An item is in one bucket only. *)
Lemma hwf_separate s f i j b : hwf s f → b ∈ addrs (f i) → b ∈ addrs (f j) → i = j.
Proof.
  intros [Hc _ Hs _ _] Hi Hj.
  destruct (hchain_item _ _ _ _ (Hc i) Hi) as (n & k & d & Hb & Hin).
  destruct (hchain_item _ _ _ _ (Hc j) Hj) as (n' & k' & d' & Hb' & Hin').
  rewrite Hb in Hb'. simplify_eq. apply Hs in Hin, Hin'. congruence.
Qed.

(** The last entry of a chain. *)
Lemma hchain_last h p l a k d :
  hchain h p (l ++ [(a, k, d)]) → a ≠ 0 ∧ h !! a = Some (HashItem 0 k d).
Proof.
  revert p. induction l as [|[[b k'] e] l IH]; intros p; cbn [app hchain].
  - intros (-> & Ha & n & Hn & ->). done.
  - intros (_ & _ & n & _ & Hc). by eapply IH.
Qed.

Lemma assoc_none key l : (∀ b k e, (b, k, e) ∈ l → k ≠ key) → assoc key l = None.
Proof.
  induction l as [|[[b k] e] l IH]; intros Hl; [done|]. simpl.
  rewrite (proj2 (Z.eqb_neq k key)) by (eapply Hl; constructor).
  apply IH. intros. eapply Hl. by constructor.
Qed.

Lemma assoc_cut key k l a d : k ≠ key → assoc k (l ++ [(a, key, d)]) = assoc k l.
Proof.
  intros Hk. induction l as [|[[b k'] e] l IH]; simpl; [|by rewrite IH].
  by rewrite (proj2 (Z.eqb_neq key k)).
Qed.

(** Cutting the last entry of bucket [i] off keeps the table well formed. *)
Lemma cut_hwf s f i l a k d :
  hwf s f → f i = l ++ [(a, k, d)] →
  hwf (hassign_st (last_slot (HSlot i) l) 0 s) (with_bucket i l f).
Proof.
  intros Hwf Hl. pose proof Hwf as [Hc Hnd Hs Hb Ha].
  destruct (hassign_st_other (last_slot (HSlot i) l) 0 s) as (_ & Hb2 & _ & Hit2).
  assert (NoDup (addrs (l ++ [(a, k, d)]))) as Hndl by (rewrite <- Hl; apply Hnd).
  destruct (cut_chain (HSlot i) l a k d s) as (p' & Hp' & Hc');
    [done|done|eexists; split; [done|]; rewrite <- Hl; apply Hc|].
  unfold with_bucket. constructor.
  - intros j. destruct (decide (j = i)) as [->|Hne].
    + simpl in Hp'. injection Hp' as Hp'. by rewrite Hp'.
    + destruct (last_slot_cases i l) as [[-> E]|(b & E & Hin)]; rewrite E; simpl.
      * rewrite lookup_insert_ne by done. apply Hc.
      * eapply hchain_ext; [|apply Hc]. intros x Hx. apply lookup_alter_ne. intros ->.
        apply Hne. eapply hwf_separate; eauto. rewrite Hl. unfold addrs.
        rewrite fmap_app. apply elem_of_app. by left.
  - intros j. destruct (decide (j = i)) as [->|Hne]; [|apply Hnd].
    unfold addrs in *. rewrite fmap_app in Hndl. by apply NoDup_app in Hndl as [? _].
  - intros j x k' e. destruct (decide (j = i)) as [->|Hne]; [|apply Hs].
    intros Hin. eapply Hs. rewrite Hl. apply elem_of_app. by left.
  - by rewrite Hb2.
  - intros p Hp. rewrite Hb2. apply Ha. by apply Hit2.
Qed.

Lemma hwf_smutex b s f : hwf s f → hwf (set_smutex b s) f.
Proof. intros [Hc Hn Hs Hb Ha]. by constructor. Qed.

(** [remove_semid] is the walk and the two stores, under the mutex. *)
Lemma remove_semid_run s f key l a d n l' :
  hwf s f → smutex s = false → 0 ≤ key → f (slot key) = l ++ (a, key, d) :: l' →
  (∀ b k e, (b, k, e) ∈ l → k ≠ key) → items s !! a = Some (HashItem n key d) → a ≠ 0 →
  remove_semid key s =
    (free_item n;; sunlock)
      (hassign_st (last_slot (HSlot (slot key)) l) n (set_smutex true s)).
Proof.
  intros [Hc Hnd _ _ _] Hm Hkey Hl Hfirst Hita Ha0. set (s1 := set_smutex true s).
  pose proof (Hc (slot key)) as Hck. rewrite Hl in Hck.
  destruct (remove_from_at (item_fuel s1) key (HSlot (slot key)) l a d n l' s1)
    as [Hrem _]; [|done|done|by eexists|done|].
  { pose proof (item_fuel_enough s1 _ _ Hck) as Hlen. specialize (Hnd (slot key)).
    rewrite Hl in Hnd. specialize (Hlen Hnd). rewrite length_app in Hlen. simpl in Hlen. lia. }
  unfold remove_semid. erewrite bind_val by (unfold slock; by rewrite Hm).
  erewrite bind_val by (by apply bucket_spec). erewrite bind_val by done.
  fold s1. unfold mbind, M_bind. by rewrite Hrem.
Qed.

(** [remove_semid] on a key whose item ends its chain takes exactly that
    item out: the table stays well formed, the key is gone and every other
    key keeps its identifier. The item itself is never freed. *)
Theorem remove_semid_last s f key a d l :
  hwf s f → smutex s = false → 0 ≤ key → f (slot key) = l ++ [(a, key, d)] →
  (∀ b k e, (b, k, e) ∈ l → k ≠ key) →
  ∃ s', remove_semid key s = (Val tt, s') ∧ hwf s' (with_bucket (slot key) l f) ∧
    table_of (with_bucket (slot key) l f) key = None ∧
    (∀ k, k ≠ key → table_of (with_bucket (slot key) l f) k = table_of f k) ∧
    is_Some (items s' !! a) ∧ smutex s' = false.
Proof.
  intros Hwf Hm Hkey Hl Hfirst. pose proof Hwf as [Hc _ _ _ _].
  pose proof (Hc (slot key)) as Hck. rewrite Hl in Hck.
  destruct (hchain_last _ _ _ _ _ _ Hck) as [Ha0 Hita].
  exists (set_smutex false (hassign_st (last_slot (HSlot (slot key)) l) 0 (set_smutex true s))).
  split; [by rewrite (remove_semid_run s f key l a d 0 [])|].
  split; [apply hwf_smutex; eapply cut_hwf; [by apply hwf_smutex|exact Hl]|].
  unfold table_of, with_bucket. split; [rewrite decide_True by done; by apply assoc_none|].
  split.
  - intros k Hk. destruct (decide (slot k = slot key)) as [->|]; [|done].
    by rewrite Hl, assoc_cut.
  - split; [|done]. apply hassign_st_other. simpl. rewrite Hita. eauto.
Qed.

(** Otherwise [remove_semid] frees the wrong item: it stores the successor
    in the link and then frees what the link points to. The bucket is left
    pointing to freed memory, and the next lookup in it, of any key, reads
    that memory. *)
Theorem remove_semid_dangles s f key a d b k2 d2 l' :
  hwf s f → smutex s = false → 0 ≤ key → f (slot key) = (a, key, d) :: (b, k2, d2) :: l' →
  ∃ s', remove_semid key s = (Val tt, s') ∧ hash_table s' !! slot key = Some b ∧
    items s' !! b = None ∧ is_Some (items s' !! a) ∧
    ∀ k fuel, slot k = slot key →
      (find_item (S fuel) k (default 0 (hash_table s' !! slot k)) s').1 = UB.
Proof.
  intros Hwf Hm Hkey Hl. pose proof Hwf as [Hc Hnd _ _ _].
  pose proof (Hc (slot key)) as Hck. rewrite Hl in Hck.
  destruct Hck as (_ & Ha0 & n & Hita & -> & Hb0 & n2 & Hitb & _).
  specialize (Hnd (slot key)). rewrite Hl in Hnd. simpl in Hnd.
  apply NoDup_cons in Hnd as [Hab _]. apply not_elem_of_cons in Hab as [Hab _].
  eexists. split.
  { rewrite (remove_semid_run s f key [] a d b ((b, k2, d2) :: l')); try done.
    - erewrite bind_val; [done|]. unfold free_item. rewrite (proj2 (Z.eqb_neq b 0)) by done.
      erewrite bind_val by (unfold read_item; simpl; by rewrite Hitb). done.
    - intros ? ? ? Hin. by apply elem_of_nil in Hin. }
  simpl. split; [by rewrite lookup_insert_eq|]. split; [by rewrite lookup_delete_eq|].
  split; [rewrite lookup_delete_ne by done; eauto|].
  intros k fuel ->. rewrite lookup_insert_eq. simpl. rewrite (proj2 (Z.eqb_neq b 0)) by done.
  unfold mbind, M_bind, read_item. simpl. by rewrite lookup_delete_eq.
Qed.
End TableThms.

Lemma table_is_map_witness :
  ∃ s' f', insert_semid 1759 9 demo_sems = (Val tt, s') ∧ hwf s' f' ∧
    table_of f' 1253 = (if decide (1253 = 1759) then Some 9 else table_of demo_table 1253) ∧
    find_item (item_fuel s') 1253 (default 0 (hash_table s' !! slot 1253)) s'
      = (Val (table_of f' 1253), s').
Proof. apply (table_is_map demo_sems demo_table 1759 9 1253); [apply demo_sems_hwf|lia|lia]. Defined.

Lemma remove_semid_last_witness :
  ∃ s', remove_semid 1000 demo_sems = (Val tt, s') ∧
    hwf s' (with_bucket (slot 1000) [(3, 1506, 2); (2, 1253, 1)] demo_table) ∧
    table_of (with_bucket (slot 1000) [(3, 1506, 2); (2, 1253, 1)] demo_table) 1000 = None ∧
    (∀ k, k ≠ 1000 → table_of (with_bucket (slot 1000) [(3, 1506, 2); (2, 1253, 1)] demo_table) k
                     = table_of demo_table k) ∧
    is_Some (items s' !! 1) ∧ smutex s' = false.
Proof.
  apply (remove_semid_last demo_sems demo_table 1000 1 0 [(3, 1506, 2); (2, 1253, 1)]);
    [apply demo_sems_hwf|vm_compute; reflexivity|lia|reflexivity|].
  intros b k e Hin. apply list_elem_of_In in Hin. simpl in Hin.
  destruct Hin as [[= _ <- _]|[[= _ <- _]|[]]]; lia.
Defined.

Lemma remove_semid_dangles_witness :
  ∃ s', remove_semid 1506 demo_sems = (Val tt, s') ∧ hash_table s' !! slot 1506 = Some 2 ∧
    items s' !! 2 = None ∧ is_Some (items s' !! 3) ∧
    ∀ k fuel, slot k = slot 1506 →
      (find_item (S fuel) k (default 0 (hash_table s' !! slot k)) s').1 = UB.
Proof.
  eapply (remove_semid_dangles demo_sems demo_table 1506 3 2 2 1253 1 [(1, 1000, 0)]);
    [apply demo_sems_hwf|vm_compute; reflexivity|lia|reflexivity].
Defined.
