(* ===== verification/SemNamed.v ===== *)
(** * Named semaphores and semaphores of other processes

    Theorems on [sem_open], [sem_close] and [sem_unlink] of
    src/posix1b/semaphore.c: the set of a named semaphore holds its value, the
    flag that it is initialised and linked, and the number of descriptors; and
    on what [get_semid] does for a semaphore that another process set up. *)

From stdpp Require Import base tactics numbers list gmap strings.
From S2P Require Import Prelude SysVSem RefKernel Semaphore SemaphoreProps SemaphoreThms.

Open Scope Z_scope.

Section Named.
Context {K : Type} `{FileSys K} `{!FileSysLaws K} `{SemKernel K} `{!SemKernelLaws K}.
Implicit Types s : sstate K.

Definition set_of s (id : Z) : option (list Z) := sets (sem_view (kern s)) !! id.

(** [s'] is [s] with another kernel. *)
Definition same_process s s' : Prop :=
  hash_table s' = hash_table s ∧ items s' = items s ∧ sems s' = sems s ∧
  smutex s' = smutex s ∧ brk s' = brk s.

(** A [semop] call on an existing set. *)
Lemma semop_set s id vs ops :
  set_of s id = Some vs →
  ∃ s', sys (semop id ops) s = ((ops_on vs ops).2, s') ∧ same_process s s' ∧
    fs_names (kern s') = fs_names (kern s) ∧
    sem_view (kern s') = match ops_on vs ops with
                         | (vs', Val _) => with_set id vs' (sem_view (kern s))
                         | _ => sem_view (kern s)
                         end.
Proof.
  intros Hs. unfold sys. pose proof (semop_law (kern s) id ops) as Hl.
  pose proof (semop_frame (kern s) id ops) as Hf.
  destruct (semop id ops (kern s)) as [r k]; simpl in *.
  unfold set_of in Hs. unfold semop_spec in Hl. rewrite Hs in Hl.
  exists (SState k (hash_table s) (items s) (sems s) (smutex s) (brk s)). simpl.
  destruct (ops_on vs ops) as [vs' r']. simpl.
  destruct r' as [[]| | | | |]; injection Hl as -> ->; by split_and!.
Qed.

Lemma semop_gone s id ops :
  set_of s id = None →
  ∃ s', sys (semop id ops) s = (Fail EINVAL, s') ∧ same_process s s' ∧
    fs_names (kern s') = fs_names (kern s) ∧ sem_view (kern s') = sem_view (kern s).
Proof.
  intros Hs. unfold sys. pose proof (semop_law (kern s) id ops) as Hl.
  pose proof (semop_frame (kern s) id ops) as Hf.
  destruct (semop id ops (kern s)) as [r k]; simpl in *.
  unfold set_of in Hs. unfold semop_spec in Hl. rewrite Hs in Hl. simplify_eq.
  by eexists.
Qed.

Lemma rmid_set s id vs :
  set_of s id = Some vs →
  ∃ s', sys (semctl_RMID id) s = (Val tt, s') ∧ same_process s s' ∧
    fs_names (kern s') = fs_names (kern s) ∧
    sem_view (kern s') = (rmid_spec (sem_view (kern s)) id).2.
Proof.
  intros Hs. unfold sys. pose proof (rmid_law (kern s) id) as Hl.
  pose proof (rmid_frame (kern s) id) as Hf.
  destruct (semctl_RMID id (kern s)) as [r k]; simpl in *.
  unfold set_of in Hs. unfold rmid_spec in *. rewrite Hs in *. simplify_eq.
  by eexists.
Qed.

Lemma process_hwf s s' f : same_process s s' → hwf s f → hwf s' f.
Proof.
  intros (H1' & H2' & H3' & H4' & H5') [Hc Hn Hs Hb Ha].
  constructor; [intros i; rewrite H1', H2'; apply Hc|done|done|by rewrite H5'|].
  intros p. rewrite H2', H5'. apply Ha.
Qed.

(** ** Closing *)

(** What closing leaves of the set [[v; linked; count]]. *)
Definition close_set (v linked count : Z) : option (list Z) :=
  if (count - 1 =? 0) && (linked =? 0) then None else Some [v; linked; count - 1].

(** The two [semop] calls of [sem_close] and the removal. *)
Lemma close_ops s id v linked count :
  set_of s id = Some [v; linked; count] → 0 < count ≤ SEMVMX → 0 ≤ linked →
  ∃ s', (attempt (sys (semop id [Sembuf 2 (-1) SEM_UNDO]));;
         r ← attempt (sys (semop id [Sembuf 2 0 IPC_NOWAIT; Sembuf 1 0 IPC_NOWAIT]));
         (match r with
          | inl _ => attempt (sys (semctl_RMID id));; mret tt
          | inr _ => mret tt
          end)) s = (Val tt, s') ∧
    same_process s s' ∧ fs_names (kern s') = fs_names (kern s) ∧
    set_of s' id = close_set v linked count ∧
    (∀ j, j ≠ id → set_of s' j = set_of s j).
Proof.
  intros Hs Hc Hl. unfold SEMVMX in Hc.
  destruct (semop_set s id _ [Sembuf 2 (-1) SEM_UNDO] Hs) as (s1 & Hr1 & Hp1 & Hf1 & Hv1).
  unfold ops_on, op_on in Hr1, Hv1. simpl in Hr1, Hv1.
  rewrite (proj2 (Z.ltb_ge (count + -1) 0)), (proj2 (Z.ltb_ge SEMVMX (count + -1)))
    in Hr1, Hv1 by (unfold SEMVMX; lia). simpl in Hr1, Hv1.
  erewrite bind_val by (apply attempt_val; exact Hr1).
  assert (set_of s1 id = Some [v; linked; count - 1]) as Hs1.
  { unfold set_of. rewrite Hv1. simpl. by rewrite lookup_insert_eq. }
  assert (∀ j, j ≠ id → set_of s1 j = set_of s j) as Ho1.
  { intros j Hj. unfold set_of. rewrite Hv1. simpl. by rewrite lookup_insert_ne. }
  destruct (semop_set s1 id _ [Sembuf 2 0 IPC_NOWAIT; Sembuf 1 0 IPC_NOWAIT] Hs1)
    as (s2 & Hr2 & Hp2 & Hf2 & Hv2).
  unfold ops_on, op_on in Hr2, Hv2. simpl in Hr2, Hv2.
  assert (same_process s s2) as Hp12.
  { destruct Hp1 as (A1 & A2 & A3 & A4 & A5), Hp2 as (B1 & B2 & B3 & B4 & B5).
    split_and!; congruence. }
  unfold close_set. destruct (Z.eqb_spec (count - 1) 0) as [Hz|Hz];
    [destruct (Z.eqb_spec linked 0) as [Hk|Hk]|]; simpl in Hr2, Hv2 |- *.
  - erewrite bind_val by (apply attempt_val; exact Hr2).
    assert (set_of s2 id = Some [v; linked; count - 1]) as Hs2.
    { unfold set_of. rewrite Hv2. simpl. by rewrite lookup_insert_eq. }
    destruct (rmid_set s2 id _ Hs2) as (s3 & Hr3 & Hp3 & Hf3 & Hv3).
    erewrite bind_val by (apply attempt_val; exact Hr3).
    exists s3. split; [done|]. split.
    { destruct Hp12 as (A1 & A2 & A3 & A4 & A5), Hp3 as (B1 & B2 & B3 & B4 & B5).
      split_and!; congruence. }
    split; [congruence|]. unfold rmid_spec, set_of in *. rewrite Hs2 in Hv3. rewrite Hv3. simpl.
    split; [by rewrite lookup_delete_eq|]. intros j Hj.
    rewrite lookup_delete_ne by done. rewrite Hv2. simpl. rewrite lookup_insert_ne by done.
    by apply Ho1.
  - erewrite bind_val by (apply attempt_fail; exact Hr2).
    exists s2. split; [done|]. split; [done|]. split; [congruence|].
    unfold set_of in *. rewrite Hv2. split; [done|]. by apply Ho1.
  - erewrite bind_val by (apply attempt_fail; exact Hr2).
    exists s2. split; [done|]. split; [done|]. split; [congruence|].
    unfold set_of in *. rewrite Hv2. split; [done|]. by apply Ho1.
Qed.

(** [sem_close] gives up one descriptor of a named semaphore: the count of
    the set goes down by one, the set is removed exactly when this was the
    last descriptor and the name is already unlinked, and no other set
    changes; the descriptor is freed. *)
Theorem sem_close_counts s f p id v linked count :
  hwf s f → smutex s = false → resolves s f p id →
  set_of s id = Some [v; linked; count] → 0 < count ≤ SEMVMX → 0 ≤ linked →
  ∃ s', sem_close p s = (Val tt, s') ∧ hwf s' f ∧ smutex s' = false ∧
    sems s' = delete p (sems s) ∧ fs_names (kern s') = fs_names (kern s) ∧
    set_of s' id = close_set v linked count ∧ (∀ j, j ≠ id → set_of s' j = set_of s j).
Proof.
  intros Hwf Hm Hres Hs Hc Hl.
  destruct (close_ops s id v linked count Hs Hc Hl) as (s1 & Hrun & Hp & Hf & Hid & Hoth).
  exists (upd_sems (delete p) s1).
  split.
  { unfold sem_close. erewrite bind_val by (by eapply get_semid_resolves).
    revert Hrun. unfold mbind, M_bind.
    destruct (attempt (sys (semop id [Sembuf 2 (-1) SEM_UNDO])) s) as [[] s2]; try done.
    destruct (attempt (sys (semop id _)) s2) as [[r| | | | |] s3]; try done.
    intros Hrun. destruct r; by rewrite Hrun. }
  pose proof (process_hwf _ _ _ Hp Hwf) as Hwf1. pose proof Hp as (_ & _ & Hsems & Hmu & _).
  split; [destruct Hwf1; by constructor|]. split; [simpl; by rewrite Hmu|].
  split; [simpl; by rewrite Hsems|]. done.
Qed.

Lemma process_trans s1 s2 s3 : same_process s1 s2 → same_process s2 s3 → same_process s1 s3.
Proof.
  intros (A1 & A2 & A3 & A4 & A5) (B1 & B2 & B3 & B4 & B5). split_and!; congruence.
Qed.

Lemma sys_run {A} (c : M K A) s r k :
  c (kern s) = (r, k) →
  sys c s = (r, SState k (hash_table s) (items s) (sems s) (smutex s) (brk s)).
Proof. intros Hc. unfold sys. by rewrite Hc. Qed.

(** ** Unlinking *)

(** The named set: the file of the name, its key and the set of the key. *)
Definition named s (n : string) (ino id : Z) (vs : list Z) : Prop :=
  fs_names (kern s) !! n = Some ino ∧
  keys (sem_view (kern s)) !! key_of ino 0 = Some id ∧ set_of s id = Some vs.

Lemma semget_named s n ino id vs k flags :
  named s n ino id vs → k ≤ Z.of_nat (length vs) →
  has flags IPC_CREAT && has flags IPC_EXCL = false →
  ∃ s', sys (semget (key_of ino 0) k flags) s = (Val id, s') ∧ same_process s s' ∧
    fs_names (kern s') = fs_names (kern s) ∧ sem_view (kern s') = sem_view (kern s).
Proof.
  intros (_ & Hkey & Hs) Hlen Hfl.
  pose proof (semget_law (kern s) (key_of ino 0) k flags) as Hl.
  pose proof (semget_frame (kern s) (key_of ino 0) k flags) as Hf.
  unfold semget_spec in Hl. pose proof (key_of_pos ino 0) as Hpos.
  rewrite (proj2 (Z.eqb_neq (key_of ino 0) IPC_PRIVATE)) in Hl by (unfold IPC_PRIVATE; lia).
  unfold set_of in Hs. rewrite Hkey, Hfl, Hs in Hl.
  rewrite (proj2 (Z.ltb_ge (Z.of_nat (length vs)) k)) in Hl by lia. destruct Hl as [Hr Hv].
  destruct (semget (key_of ino 0) k flags (kern s)) as [r k'] eqn:E. simpl in *. subst r.
  eexists. split; [by apply sys_run|]. by split_and!.
Qed.

(** What unlinking leaves of the set [[v; 1; count]]. *)
Definition unlink_set (v count : Z) : option (list Z) :=
  if count =? 0 then None else Some [v; 0; count].

(** The [semop] calls of [sem_unlink] and the removal. *)
Lemma unlink_ops s id v count :
  set_of s id = Some [v; 1; count] →
  ∃ s', (attempt (sys (semop id [Sembuf 1 (-1) 0]));;
         r ← attempt (sys (semop id [Sembuf 2 0 IPC_NOWAIT]));
         match r with
         | inl _ => attempt (sys (semctl_RMID id));; mret tt
         | inr _ => mret tt
         end) s = (Val tt, s') ∧
    same_process s s' ∧ fs_names (kern s') = fs_names (kern s) ∧
    set_of s' id = unlink_set v count ∧ (∀ j, j ≠ id → set_of s' j = set_of s j).
Proof.
  intros Hs.
  destruct (semop_set s id _ [Sembuf 1 (-1) 0] Hs) as (s1 & Hr1 & Hp1 & Hf1 & Hv1).
  unfold ops_on, op_on in Hr1, Hv1. simpl in Hr1, Hv1.
  erewrite bind_val by (apply attempt_val; exact Hr1).
  assert (set_of s1 id = Some [v; 0; count]) as Hs1
    by (unfold set_of; rewrite Hv1; simpl; by rewrite lookup_insert_eq).
  assert (∀ j, j ≠ id → set_of s1 j = set_of s j) as Ho1
    by (intros j Hj; unfold set_of; rewrite Hv1; simpl; by rewrite lookup_insert_ne).
  destruct (semop_set s1 id _ [Sembuf 2 0 IPC_NOWAIT] Hs1) as (s2 & Hr2 & Hp2 & Hf2 & Hv2).
  unfold ops_on, op_on in Hr2, Hv2. simpl in Hr2, Hv2.
  pose proof (process_trans _ _ _ Hp1 Hp2) as Hp12.
  unfold unlink_set. destruct (count =? 0); simpl in Hr2, Hv2.
  - erewrite bind_val by (apply attempt_val; exact Hr2).
    assert (set_of s2 id = Some [v; 0; count]) as Hs2
      by (unfold set_of; rewrite Hv2; simpl; by rewrite lookup_insert_eq).
    destruct (rmid_set s2 id _ Hs2) as (s3 & Hr3 & Hp3 & Hf3 & Hv3).
    erewrite bind_val by (apply attempt_val; exact Hr3).
    exists s3. split; [done|]. split; [by eapply process_trans|]. split; [congruence|].
    unfold rmid_spec, set_of in *. rewrite Hs2 in Hv3. rewrite Hv3. simpl.
    split; [by rewrite lookup_delete_eq|]. intros j Hj.
    rewrite lookup_delete_ne by done. rewrite Hv2. simpl. rewrite lookup_insert_ne by done.
    by apply Ho1.
  - erewrite bind_val by (apply attempt_fail; exact Hr2).
    exists s2. split; [done|]. split; [done|]. split; [congruence|].
    unfold set_of in *. rewrite Hv2. by split.
Qed.

(** [sem_unlink] of a linked semaphore removes the name and clears the
    linked flag; the set goes away at once when no descriptor is open and
    stays for the open ones, whose last [sem_close] removes it, otherwise. *)
Theorem sem_unlink_ok s n ino id v count :
  named s n ino id [v; 1; count] →
  ∃ s', sem_unlink n s = (Val tt, s') ∧ same_process s s' ∧
    fs_names (kern s') = delete n (fs_names (kern s)) ∧
    set_of s' id = unlink_set v count ∧ (∀ j, j ≠ id → set_of s' j = set_of s j).
Proof.
  intros Hn. pose proof Hn as (Hname & Hkey & Hs). unfold sem_unlink.
  pose proof (ftok_law (kern s) n 0) as Hft. rewrite Hname in Hft.
  erewrite bind_val by (by apply sys_run). set (s0 := SState _ _ _ _ _ _).
  assert (named s0 n ino id [v; 1; count]) as Hn0 by done.
  destruct (semget_named s0 n ino id _ 1 0 Hn0) as (s1 & Hr1 & Hp1 & Hf1 & Hv1); [simpl; lia|done|].
  erewrite bind_val by exact Hr1.
  destruct (unlink n (kern s1)) as [ru k2] eqn:Eu.
  pose proof (unlink_law (kern s1) n) as [Hnames Hru]. pose proof (unlink_frame (kern s1) n) as Hvu.
  rewrite Eu in Hnames, Hru, Hvu. simpl in Hnames, Hru, Hvu. rewrite Hf1 in Hru. simpl in Hru.
  rewrite Hname in Hru. subst ru.
  set (s2 := SState k2 (hash_table s1) (items s1) (sems s1) (smutex s1) (brk s1)).
  erewrite bind_val by (apply attempt_val; by apply sys_run). fold s2.
  assert (∀ j, set_of s2 j = set_of s j) as Ho2
    by (intros j; unfold set_of; simpl; by rewrite Hvu, Hv1).
  destruct (unlink_ops s2 id v count) as (s3 & Hr3 & Hp3 & Hf3 & Hs3 & Ho3);
    [by rewrite Ho2|].
  exists s3. split; [exact Hr3|]. split; [exact (process_trans _ _ _ Hp1 Hp3)|].
  split; [rewrite Hf3; simpl; rewrite Hnames, Hf1; done|].
  split; [done|]. intros j Hj. rewrite Ho3 by done. apply Ho2.
Qed.

(** ** Opening *)

(** What opening leaves of the set [[v; 1; count]]. *)
Lemma open_loop_attach s id v count creat init :
  set_of s id = Some [v; 1; count] → 0 ≤ count < SEMVMX →
  ∀ fuel, ∃ s', open_loop (S (S fuel)) id init creat 3 s = (Val tt, s') ∧
    same_process s s' ∧ fs_names (kern s') = fs_names (kern s) ∧
    sem_view (kern s') = with_set id [v; 1; count + 1] (sem_view (kern s)).
Proof.
  intros Hs Hc fuel. unfold SEMVMX in Hc.
  assert (∀ s0, set_of s0 id = Some [v; 1; count] →
    ∃ s', sys (semop id (attach_sops creat)) s0 = (Val tt, s') ∧ same_process s0 s' ∧
      fs_names (kern s') = fs_names (kern s0) ∧
      sem_view (kern s') = with_set id [v; 1; count + 1] (sem_view (kern s0))) as Hatt.
  { intros s0 Hs0.
    destruct (semop_set s0 id _ (attach_sops creat) Hs0) as (s' & Hr & Hp & Hf & Hv).
    unfold attach_sops, ops_on, op_on in Hr, Hv. simpl in Hr, Hv.
    rewrite (proj2 (Z.ltb_ge (count + 1) 0)), (proj2 (Z.ltb_ge SEMVMX (count + 1)))
      in Hr, Hv by (unfold SEMVMX; lia). simpl in Hr, Hv. eauto. }
  destruct creat; simpl.
  - destruct (semop_set s id _ (create_sops init) Hs) as (s1 & Hr & Hp & Hf & Hv).
    unfold create_sops, ops_on, op_on in Hr, Hv. simpl in Hr, Hv.
    erewrite bind_val by (apply attempt_fail; exact Hr). cbn beta iota.
    destruct (Hatt s1) as (s2 & Hr2 & Hp2 & Hf2 & Hv2).
    { unfold set_of. by rewrite Hv. }
    erewrite bind_val by (apply attempt_val; exact Hr2).
    exists s2. split; [done|]. split; [by eapply process_trans|]. split; [congruence|].
    by rewrite Hv2, Hv.
  - destruct (Hatt s Hs) as (s2 & Hr2 & Hp2 & Hf2 & Hv2).
    erewrite bind_val by (apply attempt_val; exact Hr2). by exists s2.
Qed.

Lemma open_loop_create s id v count init :
  set_of s id = Some [v; 0; count] → 0 ≤ v → 0 ≤ init → (init = 0 → v = 0) →
  v + init ≤ SEMVMX → 0 ≤ count < SEMVMX →
  ∀ fuel, ∃ s', open_loop (S fuel) id init true 3 s = (Val tt, s') ∧
    same_process s s' ∧ fs_names (kern s') = fs_names (kern s) ∧
    sem_view (kern s') = with_set id [v + init; 1; count + 1] (sem_view (kern s)).
Proof.
  intros Hs Hv0 Hi Hz0 Hvi Hc fuel. unfold SEMVMX in Hvi, Hc. simpl.
  destruct (semop_set s id _ (create_sops init) Hs) as (s1 & Hr & Hp & Hf & Hv).
  unfold create_sops, ops_on, op_on in Hr, Hv. simpl in Hr, Hv.
  unfold create_sops. rewrite (i16_id init) in * by lia.
  rewrite (proj2 (Z.ltb_ge (v + init) 0)), (proj2 (Z.ltb_ge SEMVMX (v + init))) in Hr, Hv
    by (unfold SEMVMX; lia).
  destruct (Z.eqb_spec init 0) as [->|Hz]; [rewrite (Hz0 eq_refl) in *|]; simpl in Hr, Hv;
    rewrite (proj2 (Z.ltb_ge (count + 1) 0)), (proj2 (Z.ltb_ge SEMVMX (count + 1))) in Hr, Hv
      by (unfold SEMVMX; lia); simpl in Hr, Hv;
    erewrite bind_val by (apply attempt_val; exact Hr); by exists s1.
Qed.

(** [sem_open] up to [semget]: the file is opened or created, its key found. *)
Lemma open_file s n :
  (∃ s', (fd ← sys (open n (Z.lor O_WRONLY O_CREAT) 511);
          attempt (sys (close fd));; sys (ftok n 0)) s = (Fail ENOSPC, s')) ∨
  ∃ s' ino, (fd ← sys (open n (Z.lor O_WRONLY O_CREAT) 511);
             attempt (sys (close fd));; sys (ftok n 0)) s = (Val (key_of ino 0), s') ∧
    same_process s s' ∧ sem_view (kern s') = sem_view (kern s) ∧
    fs_names (kern s') !! n = Some ino ∧
    (∀ ino0, fs_names (kern s) !! n = Some ino0 → ino0 = ino).
Proof.
  pose proof (open_law (kern s) n (Z.lor O_WRONLY O_CREAT) 511) as Hl.
  pose proof (open_frame (kern s) n (Z.lor O_WRONLY O_CREAT) 511) as Hv.
  destruct (open n (Z.lor O_WRONLY O_CREAT) 511 (kern s)) as [r k] eqn:E.
  unfold open_spec in Hl. simpl in Hl, Hv.
  assert ((r = Fail ENOSPC) ∨ ∃ fd ino, r = Val fd ∧ fs_names k !! n = Some ino ∧
    (∀ ino0, fs_names (kern s) !! n = Some ino0 → ino0 = ino)) as [-> |(fd & ino & -> & Hn & Hold)].
  { destruct (fs_names (kern s) !! n) as [ino|] eqn:En.
    - destruct Hl as (Hk & fd & -> & _). right. exists fd, ino. rewrite Hk, En.
      split_and!; [done..|]. by intros ? [= ->].
    - destruct Hl as [[-> _]|(fd & ino & -> & _ & Hk & _)]; [by left|].
      right. exists fd, ino. rewrite Hk, lookup_insert_eq. done. }
  - left. eexists. erewrite bind_fail by (by apply sys_run). done.
  - right. erewrite bind_val by (by apply sys_run).
    set (s1 := SState k (hash_table s) (items s) (sems s) (smutex s) (brk s)).
    exists s1, ino. split; [|done].
    assert (∃ x, attempt (sys (close fd)) s1 = (Val x, s1)) as [x Hx].
    { destruct (close_law (kern s1) fd) as [Hc|Hc];
        eexists; [apply attempt_val|apply attempt_fail]; by rewrite (sys_run _ _ _ _ Hc). }
    erewrite bind_val by exact Hx.
    rewrite (sys_run _ _ _ _ (ftok_law (kern s1) n 0)). simpl. rewrite Hn. done.
Qed.

(** What the caller gets: a new descriptor [p] of the set [id]. *)
Record opened s s' (p id : Z) : Prop := {
  opened_ptr : p = brk s;
  opened_sem : ∃ key, sems s' = <[p := SemT key id true]> (sems s);
  opened_rest : hash_table s' = hash_table s ∧ items s' = items s ∧
                smutex s' = smutex s ∧ brk s' = brk s + 1 }.

(** The flags that [sem_open] gives to [semget]. *)
Definition get_mode (oflag mode : Z) : Z :=
  let m := if has oflag O_CREAT then Z.lor mode IPC_CREAT else 0 in
  if has oflag O_EXCL then Z.lor m IPC_EXCL else m.

Lemma get_mode_creat oflag mode :
  has oflag O_CREAT = true → has (get_mode oflag mode) IPC_CREAT = true.
Proof.
  intros Hcr. unfold has. apply negb_true_iff, Z.eqb_neq. intros Hz.
  assert (Z.testbit (Z.land (get_mode oflag mode) IPC_CREAT) 9 = true) as Ht;
    [|by rewrite Hz in Ht].
  unfold get_mode. rewrite Hcr. rewrite Z.land_spec.
  destruct (has oflag O_EXCL); rewrite !Z.lor_spec; by rewrite orb_true_r.
Qed.

(** Opening a semaphore that is already set up, with or without O_CREAT,
    attaches to its set: the retry loop ends within two rounds, the value is
    kept (the initial value of the call is ignored), the number of
    descriptors goes up by one and the result is a descriptor of that set. *)
Theorem sem_open_attaches s n ino id v count oflag mode value fuel :
  named s n ino id [v; 1; count] → 0 ≤ count < SEMVMX →
  (has oflag O_CREAT = true → 0 ≤ i32 value) →
  has (get_mode oflag mode) IPC_CREAT && has (get_mode oflag mode) IPC_EXCL = false →
  (sem_open (S (S fuel)) (Some n) oflag mode value s).1 = Fail ENOSPC ∨
  ∃ p s', sem_open (S (S fuel)) (Some n) oflag mode value s = (Val p, s') ∧
    opened s s' p id ∧
    sem_view (kern s') = with_set id [v; 1; count + 1] (sem_view (kern s)).
Proof.
  intros (Hname & Hkey & Hs) Hc Hval Hfl. unfold sem_open.
  destruct (open_file s n) as [[s1 Hf]|(s1 & ino1 & Hr1 & Hp1 & Hv1 & Hn1 & Hold)].
  { left. by erewrite bind_fail by exact Hf. }
  right. rewrite <- (Hold ino Hname) in *.
  erewrite bind_val by exact Hr1. cbn zeta. fold (get_mode oflag mode).
  assert (has oflag O_CREAT && ((if has oflag O_CREAT then i32 value else 0) <? 0) = false) as ->.
  { destruct (has oflag O_CREAT); [|done]. simpl. apply Z.ltb_ge. by apply Hval. }
  destruct (semget_named s1 n ino id [v; 1; count] 3 (get_mode oflag mode))
    as (s2 & Hr2 & Hp2 & Hf2 & Hv2); [|simpl; lia|done|].
  { split; [done|]. unfold set_of. by rewrite Hv1. }
  erewrite bind_val by exact Hr2.
  destruct (open_loop_attach s2 id v count (has oflag O_CREAT)
              (if has oflag O_CREAT then i32 value else 0)) with (fuel := fuel)
    as (s3 & Hr3 & Hp3 & Hf3 & Hv3); [unfold set_of; by rewrite Hv2, Hv1|done|].
  erewrite bind_val by exact Hr3.
  pose proof (process_trans _ _ _ Hp1 (process_trans _ _ _ Hp2 Hp3)) as (P1 & P2 & P3 & P4 & P5).
  do 2 eexists. split; [done|]. split.
  - constructor; simpl; rewrite ?P5; [done| |done]. eexists. by rewrite P3.
  - simpl. by rewrite Hv3, Hv2, Hv1.
Qed.

(** Creating a semaphore with O_CREAT whose key has no set yet: unless the
    kernel is out of space, the first round initialises a new set with the
    given value, marks it as set up and counts one descriptor. *)
Theorem sem_open_creates s n oflag mode value fuel :
  has oflag O_CREAT = true → 0 ≤ value ≤ SEMVMX →
  (∀ ino, keys (sem_view (kern s)) !! key_of ino 0 = None) →
  (sem_open (S fuel) (Some n) oflag mode value s).1 = Fail ENOSPC ∨
  ∃ p s' id, sem_open (S fuel) (Some n) oflag mode value s = (Val p, s') ∧
    opened s s' p id ∧ set_of s id = None ∧
    ∃ ino, named s' n ino id [value; 1; 1] ∧
    sets (sem_view (kern s')) = <[id := [value; 1; 1]]> (sets (sem_view (kern s))).
Proof.
  intros Hcr Hval Hkey. unfold sem_open, SEMVMX in *.
  destruct (open_file s n) as [[s1 Hf]|(s1 & ino & Hr1 & Hp1 & Hv1 & Hn1 & _)].
  { left. by erewrite bind_fail by exact Hf. }
  erewrite bind_val by exact Hr1. cbn zeta. fold (get_mode oflag mode). rewrite Hcr.
  rewrite (i32_id value), (proj2 (Z.ltb_ge value 0)) by lia. cbn [andb].
  pose proof (semget_law (kern s1) (key_of ino 0) 3 (get_mode oflag mode)) as Hl.
  pose proof (semget_frame (kern s1) (key_of ino 0) 3 (get_mode oflag mode)) as Hfr.
  unfold semget_spec in Hl. pose proof (key_of_pos ino 0) as Hpos.
  rewrite (proj2 (Z.eqb_neq (key_of ino 0) IPC_PRIVATE)) in Hl by (unfold IPC_PRIVATE; lia).
  rewrite Hv1, Hkey in Hl.
  rewrite get_mode_creat in Hl by done.
  destruct (semget (key_of ino 0) 3 (get_mode oflag mode) (kern s1)) as [r k] eqn:E.
  simpl in Hl, Hfr.
  destruct Hl as [[-> _]|(id & -> & _ & Hid & Hview)].
  { left. by erewrite bind_fail by (apply sys_run; exact E). }
  right. erewrite bind_val by (by apply sys_run).
  rewrite (proj2 (Z.eqb_neq (key_of ino 0) IPC_PRIVATE)) in Hview by (unfold IPC_PRIVATE; lia).
  set (s2 := SState k _ _ _ _ _).
  destruct (open_loop_create s2 id 0 0 value) with (fuel := fuel) as (s3 & Hr3 & Hp3 & Hf3 & Hv3);
    [unfold set_of; simpl; rewrite Hview; simpl; by rewrite lookup_insert_eq|unfold SEMVMX; lia..|].
  erewrite bind_val by exact Hr3.
  pose proof (process_trans _ _ _ Hp1 Hp3) as (P1 & P2 & P3 & P4 & P5).
  do 3 eexists. split; [done|]. split; [constructor; simpl; rewrite ?P5; [done| |done]; eexists;
    by rewrite P3|].
  split; [done|]. exists ino. unfold named, set_of. simpl. rewrite Hv3, Hf3. simpl.
  rewrite Hfr, Hview. simpl. rewrite insert_insert_eq, !lookup_insert_eq. done.
Qed.

(** The set of a semaphore that was unlinked while descriptors were open
    stays in the kernel under its key when the process exits without closing
    them; a new semaphore whose file gets that key adds its initial value to
    the value that was left there, and counts on. *)
Theorem sem_open_adds_to_stale s n ino id v count oflag mode value fuel :
  named s n ino id [v; 0; count] → 0 ≤ v → 0 < value → v + value ≤ SEMVMX →
  0 ≤ count < SEMVMX → has oflag O_CREAT = true →
  has (get_mode oflag mode) IPC_EXCL = false →
  (sem_open (S fuel) (Some n) oflag mode value s).1 = Fail ENOSPC ∨
  ∃ p s', sem_open (S fuel) (Some n) oflag mode value s = (Val p, s') ∧
    opened s s' p id ∧ set_of s' id = Some [v + value; 1; count + 1].
Proof.
  intros (Hname & Hkey & Hs) Hv Hval Hsum Hc Hcr Hex. unfold sem_open.
  destruct (open_file s n) as [[s1 Hf]|(s1 & ino1 & Hr1 & Hp1 & Hv1 & Hn1 & Hold)].
  { left. by erewrite bind_fail by exact Hf. }
  right. rewrite <- (Hold ino Hname) in *.
  erewrite bind_val by exact Hr1. cbn zeta. fold (get_mode oflag mode). rewrite Hcr.
  rewrite (i32_id value), (proj2 (Z.ltb_ge value 0)) by (unfold SEMVMX in *; lia). cbn [andb].
  destruct (semget_named s1 n ino id [v; 0; count] 3 (get_mode oflag mode))
    as (s2 & Hr2 & Hp2 & Hf2 & Hv2);
    [split; [done|]; unfold set_of; by rewrite Hv1|simpl; lia|by rewrite Hex, andb_false_r|].
  erewrite bind_val by exact Hr2.
  destruct (open_loop_create s2 id v count value) with (fuel := fuel)
    as (s3 & Hr3 & Hp3 & Hf3 & Hv3); [unfold set_of; by rewrite Hv2, Hv1|lia..|].
  erewrite bind_val by exact Hr3.
  pose proof (process_trans _ _ _ Hp1 (process_trans _ _ _ Hp2 Hp3)) as (P1 & P2 & P3 & P4 & P5).
  do 2 eexists. split; [done|]. split.
  - constructor; simpl; rewrite ?P5; [done| |done]. eexists. by rewrite P3.
  - unfold set_of. simpl. rewrite Hv3. simpl. apply lookup_insert_eq.
Qed.
End Named.

(** ** A run with a named semaphore *)

(** The semaphore [/s] created with value 3. *)
Definition demo_named : sstate kernel :=
  snd (sem_open 1 (Some "/s") O_CREAT 420 3 (empty_state kernel0)).

Lemma demo_named_is : named demo_named "/s" 0 0 [3; 1; 1].
Proof. split_and!; vm_compute; reflexivity. Qed.

Lemma demo_named_hwf : hwf demo_named (λ _, []).
Proof.
  destruct (hwf_empty kernel0) as [Hc Hn Hs Hb Ha].
  constructor; [exact Hc|exact Hn|exact Hs|vm_compute; reflexivity|].
  intros p [it Hp]. vm_compute in Hp. by destruct p.
Qed.

Lemma sem_open_creates_witness :
  (sem_open 1 (Some "/s") O_CREAT 420 3 (empty_state kernel0)).1 = Fail ENOSPC ∨
  ∃ p s' id, sem_open 1 (Some "/s") O_CREAT 420 3 (empty_state kernel0) = (Val p, s') ∧
    opened (empty_state kernel0) s' p id ∧ set_of (empty_state kernel0) id = None ∧
    ∃ ino, named s' "/s" ino id [3; 1; 1] ∧
    sets (sem_view (kern s')) = <[id := [3; 1; 1]]> (sets (sem_view (kern (empty_state kernel0)))).
Proof.
  apply (sem_open_creates (empty_state kernel0)); [reflexivity|unfold SEMVMX; lia|].
  intros ino. reflexivity.
Defined.

Lemma sem_open_attaches_witness :
  (sem_open 2 (Some "/s") O_CREAT 420 9 demo_named).1 = Fail ENOSPC ∨
  ∃ p s', sem_open 2 (Some "/s") O_CREAT 420 9 demo_named = (Val p, s') ∧
    opened demo_named s' p 0 ∧
    sem_view (kern s') = with_set 0 [3; 1; 1 + 1] (sem_view (kern demo_named)).
Proof.
  apply (sem_open_attaches demo_named "/s" 0 0 3 1); [apply demo_named_is|unfold SEMVMX; lia| |reflexivity].
  intros _. vm_compute. discriminate.
Defined.

(** After [sem_unlink(/s)] with a descriptor open, [/t] gets the inode, and so
    the key, that [/s] had. *)
Lemma sem_open_adds_to_stale_witness :
  ∃ s, named s "/t" 0 0 [3; 0; 1] ∧
  ((sem_open 1 (Some "/t") O_CREAT 420 5 s).1 = Fail ENOSPC ∨
   ∃ p s', sem_open 1 (Some "/t") O_CREAT 420 5 s = (Val p, s') ∧
     opened s s' p 0 ∧ set_of s' 0 = Some [3 + 5; 1; 1 + 1]).
Proof.
  set (s := snd (sys (open "/t" O_CREAT 420) (snd (sem_unlink "/s" demo_named)))).
  assert (named s "/t" 0 0 [3; 0; 1]) as Hs by (split_and!; vm_compute; reflexivity).
  exists s. split; [exact Hs|].
  apply (sem_open_adds_to_stale s "/t" 0 0 3 1); [exact Hs|unfold SEMVMX; lia..|reflexivity|reflexivity].
Defined.

Lemma sem_unlink_ok_witness :
  ∃ s', sem_unlink "/s" demo_named = (Val tt, s') ∧ same_process demo_named s' ∧
    fs_names (kern s') = delete "/s"%string (fs_names (kern demo_named)) ∧
    set_of s' 0 = unlink_set 3 1 ∧ (∀ j, j ≠ 0 → set_of s' j = set_of demo_named j).
Proof. apply (sem_unlink_ok demo_named "/s" 0 0 3 1). apply demo_named_is. Defined.

(** The last descriptor of an unlinked semaphore is closed. *)
Lemma sem_close_counts_witness :
  ∃ s', sem_close 1 (snd (sem_unlink "/s" demo_named)) = (Val tt, s') ∧
    hwf s' (λ _, []) ∧ smutex s' = false ∧
    sems s' = delete 1 (sems (snd (sem_unlink "/s" demo_named))) ∧
    fs_names (kern s') = fs_names (kern (snd (sem_unlink "/s" demo_named))) ∧
    set_of s' 0 = None ∧
    (∀ j, j ≠ 0 → set_of s' j = set_of (snd (sem_unlink "/s" demo_named)) j).
Proof.
  eapply (sem_close_counts (snd (sem_unlink "/s" demo_named)) (λ _, []) 1 0 3 0 1).
  - destruct demo_named_hwf as [Hc Hn Hs Hb Ha].
    constructor; [exact Hc|exact Hn|exact Hs|vm_compute; reflexivity|].
    intros p [it Hp]. vm_compute in Hp. by destruct p.
  - vm_compute. reflexivity.
  - exists (SemT 1 0 true). split; vm_compute; reflexivity.
  - vm_compute. reflexivity.
  - unfold SEMVMX. lia.
  - lia.
Defined.

(** ** Semaphores of other processes *)

Section Foreign.
Context {K : Type} `{FileSys K} `{SemKernel K} `{!SemKernelLaws K}.
Implicit Types s : sstate K.

(** The semaphore at [p] was initialised by another process: it has the key
    [key], which is not in this process's table. *)
Definition foreign s (f : Z → list entry) (p key : Z) : Prop :=
  0 < key < 2 ^ 31 ∧ table_of f key = None ∧
  ∃ i, sems s !! p = Some (SemT key i false).

(** The first call on a semaphore that another process initialised fails
    although its set exists: [get_semid] finds the set, enters it in the table
    and returns -1. The same call works from then on. *)
Theorem foreign_first_call_fails s f p key id v rest :
  hwf s f → smutex s = false → foreign s f p key →
  keys (sem_view (kern s)) !! key = Some id → set_is s id v rest → 0 ≤ v < SEMVMX →
  sets (sem_view (kern s)) !! (-1) = None →
  ∃ s1 s2, sem_post p s = (Fail EINVAL, s1) ∧ set_is s1 id v rest ∧
    sem_post p s1 = (Val tt, s2) ∧ set_is s2 id (v + 1) rest.
Proof.
  intros Hwf Hm (Hkey & Ht & i & Hp) Hk Hs Hv Hneg.
  pose proof (semget_law (kern s) key 1 0) as Hl. unfold semget_spec in Hl.
  rewrite (proj2 (Z.eqb_neq key IPC_PRIVATE)), Hk in Hl by (unfold IPC_PRIVATE; lia).
  unfold set_is in Hs. simpl in Hl. rewrite Hs in Hl.
  rewrite (proj2 (Z.ltb_ge (Z.of_nat (length (v :: rest))) 1)) in Hl by (simpl; lia).
  destruct (semget key 1 0 (kern s)) as [r k] eqn:E. simpl in Hl. destruct Hl as [-> Hview].
  set (t := SState k (hash_table s) (items s) (sems s) true (brk s)).
  set (s0 := set_smutex false (inserted key id t)).
  assert (get_semid p s = (Val (-1), s0)) as Hg.
  { rewrite (get_semid_miss s f p (SemT key i false)) by (done || simpl; lia).
    simpl. rewrite i32_id by lia. by rewrite E. }
  assert (hwf s0 (push (slot key) (brk s, key, id) f)) as Hwf0.
  { apply hwf_smutex. apply (inserted_hwf key id t). destruct Hwf; by constructor. }
  destruct (semop_gone s0 (-1) [Sembuf 0 1 0]) as (s1 & Hr1 & Hp1 & _ & Hv1);
    [unfold set_of; simpl; by rewrite Hview|].
  destruct (run_sop_step s1 (push (slot key) (brk s, key, id) f) p id v rest Post)
    as (s2 & Hr2 & Ho2).
  - by eapply process_hwf.
  - destruct Hp1 as (_ & _ & _ & -> & _). done.
  - exists (SemT key i false). destruct Hp1 as (_ & _ & -> & _ & _). split; [done|]. simpl.
    split; [lia|]. by rewrite table_push, decide_True.
  - unfold set_is. by rewrite Hv1; simpl; rewrite Hview.
  - unfold SEMVMX in *. lia.
  - exists s1, s2. split; [unfold sem_post; by erewrite bind_val by exact Hg|].
    split; [unfold set_is; by rewrite Hv1; simpl; rewrite Hview|].
    unfold abs_step in Hr2, Ho2. rewrite (proj2 (Z.ltb_lt v SEMVMX)) in Hr2, Ho2 by lia.
    split; [exact Hr2|]. destruct Ho2 as [_ Hsets _ _]. unfold set_is.
    by rewrite Hsets, lookup_insert_eq.
Qed.

(** When the set does not exist, [get_semid] returns without releasing the
    library's mutex: every later call on an unnamed semaphore of the process
    blocks for ever. *)
Theorem missing_set_leaks_mutex s f p key :
  hwf s f → smutex s = false → foreign s f p key →
  keys (sem_view (kern s)) !! key = None → sets (sem_view (kern s)) !! (-1) = None →
  ∃ s1, sem_post p s = (Fail EINVAL, s1) ∧ smutex s1 = true ∧
    ∀ q m, sems s1 !! q = Some m → initialized m = false →
      sem_post q s1 = (Sleep, s1) ∧ sem_wait q s1 = (Sleep, s1) ∧
      sem_trywait q s1 = (Sleep, s1) ∧ sem_getvalue q true s1 = (Sleep, s1) ∧
      sem_destroy q s1 = (Sleep, s1).
Proof.
  intros Hwf Hm (Hkey & Ht & i & Hp) Hk Hneg.
  pose proof (semget_law (kern s) key 1 0) as Hl. unfold semget_spec in Hl.
  rewrite (proj2 (Z.eqb_neq key IPC_PRIVATE)), Hk in Hl by (unfold IPC_PRIVATE; lia).
  destruct (semget key 1 0 (kern s)) as [r k] eqn:E. simpl in Hl. destruct Hl as [-> Hview].
  set (s0 := SState k (hash_table s) (items s) (sems s) true (brk s)).
  assert (get_semid p s = (Val (-1), s0)) as Hg.
  { rewrite (get_semid_miss s f p (SemT key i false)) by (done || simpl; lia).
    simpl. rewrite i32_id by lia. by rewrite E. }
  destruct (semop_gone s0 (-1) [Sembuf 0 1 0]) as (s1 & Hr1 & (_ & _ & _ & Hm1 & _) & _ & _);
    [unfold set_of; simpl; by rewrite Hview|].
  exists s1. split; [unfold sem_post; by erewrite bind_val by exact Hg|].
  split; [by rewrite Hm1|]. intros q m Hq Hi.
  assert (get_semid q s1 = (Sleep, s1)) as Hgq.
  { unfold get_semid. erewrite bind_val by (unfold read_sem; by rewrite Hq). rewrite Hi.
    unfold mbind, M_bind, slock. by rewrite Hm1. }
  unfold sem_post, sem_wait, sem_trywait, sem_getvalue, sem_destroy, mbind, M_bind.
  simpl. by rewrite Hgq.
Qed.
End Foreign.

(** A process that shares the semaphore at 1000 with another one: the set
    exists (the other process initialised it), the table is empty. *)
Definition demo_foreign : sstate kernel :=
  SState (kern demo_sems) ∅ ∅ {[1000 := SemT 1000 0 false; 44 := SemT 44 0 false]} false 1.

Lemma demo_foreign_hwf : hwf demo_foreign (λ _, []).
Proof. destruct (hwf_empty (kern demo_sems)) as [Hc Hn Hs Hb Ha]. by constructor. Qed.

Lemma foreign_first_call_fails_witness :
  ∃ s1 s2, sem_post 1000 demo_foreign = (Fail EINVAL, s1) ∧ set_is s1 0 2 [] ∧
    sem_post 1000 s1 = (Val tt, s2) ∧ set_is s2 0 (2 + 1) [].
Proof.
  eapply (foreign_first_call_fails demo_foreign (λ _, []) 1000 1000);
    [apply demo_foreign_hwf|reflexivity| |vm_compute; reflexivity|vm_compute; reflexivity|
     unfold SEMVMX; lia|vm_compute; reflexivity].
  split; [lia|]. split; [reflexivity|]. exists 0. vm_compute. reflexivity.
Defined.

Lemma missing_set_leaks_mutex_witness :
  ∃ s1, sem_post 44 demo_foreign = (Fail EINVAL, s1) ∧ smutex s1 = true ∧
    ∀ q m, sems s1 !! q = Some m → initialized m = false →
      sem_post q s1 = (Sleep, s1) ∧ sem_wait q s1 = (Sleep, s1) ∧
      sem_trywait q s1 = (Sleep, s1) ∧ sem_getvalue q true s1 = (Sleep, s1) ∧
      sem_destroy q s1 = (Sleep, s1).
Proof.
  apply (missing_set_leaks_mutex demo_foreign (λ _, []) 44 44);
    [apply demo_foreign_hwf|reflexivity| |vm_compute; reflexivity|vm_compute; reflexivity].
  split; [lia|]. split; [reflexivity|]. exists 0. vm_compute. reflexivity.
Defined.
