(* ===== verification/PosixMman.v ===== *)
(** * Shared memory objects

    src/posix1b/posix_mman.c: a shared memory object is a file. The names of semaphores,
    of message queues and of shared memory are thus the same names. *)

From stdpp Require Import base tactics numbers gmap strings.
From S2P Require Import Prelude SysVSem Semaphore.

Open Scope Z_scope.

Section Mman.
Context {K : Type} `{FileSys K} `{!FileSysLaws K} `{SemKernel K}.

Definition shm_open (name : string) (oflag mode : Z) : M K Z := open name oflag mode.
Definition shm_unlink (name : string) : M K unit := unlink name.

(** O_EXCL makes at most one of two calls succeed; after [shm_unlink] the name is free, and
    all others are as before. *)
Lemma shm_open_excl k name oflag mode fd k' :
  has oflag O_CREAT = true → has oflag O_EXCL = true → shm_open name oflag mode k = (Val fd, k') →
  fs_names k !! name = None ∧ 0 ≤ fd ∧ (shm_open name oflag mode k').1 = Fail EEXIST.
Proof.
  intros Hc He Ho. unfold shm_open in *. pose proof (open_law k name oflag mode) as Hl. rewrite Ho in Hl.
  unfold open_spec in Hl. simpl in Hl. rewrite Hc, He in Hl. simpl in Hl.
  destruct (fs_names k !! name) as [i|]; [by destruct Hl|].
  destruct Hl as [[? _]|(fd' & ino & E & Hfd & Hk' & _)]; [done|]. simplify_eq. split_and!; [done..|].
  pose proof (open_law k' name oflag mode) as Hl. unfold open_spec in Hl.
  rewrite Hk', lookup_insert_eq, Hc, He in Hl. by destruct Hl.
Qed.

Lemma shm_unlink_frees k name oflag mode :
  has oflag O_CREAT = false →
  (shm_open name oflag mode (shm_unlink name k).2).1 = Fail ENOENT ∧
  ∀ n, n ≠ name → fs_names (shm_unlink name k).2 !! n = fs_names k !! n.
Proof.
  intros Hc. unfold shm_open, shm_unlink. destruct (unlink_law k name) as [Hu _]. split.
  - pose proof (open_law (unlink name k).2 name oflag mode) as Hl. unfold open_spec in Hl.
    rewrite Hu, lookup_delete_eq, Hc in Hl. by destruct Hl.
  - intros n Hn. by rewrite Hu, lookup_delete_ne.
Qed.

(** The key of a semaphore or queue that has the name is lost. *)
Lemma shm_unlink_key k name id : (ftok name id (shm_unlink name k).2).1 = Fail ENOENT.
Proof.
  unfold shm_unlink. rewrite ftok_law. destruct (unlink_law k name) as [-> _]. by rewrite lookup_delete_eq.
Qed.

(** So [sem_unlink] cannot remove the set of a semaphore whose name was a shared memory object. *)
Lemma shm_unlink_keeps_semaphore name (s : sstate K) :
  (sem_unlink name (sys (shm_unlink name) s).2).1 = Fail ENOENT.
Proof.
  set (s' := (sys (shm_unlink name) s).2). assert (kern s' = (shm_unlink name (kern s)).2) as Hk.
  { unfold s', sys. by destruct (shm_unlink name (kern s)). }
  pose proof (shm_unlink_key (kern s) name 0) as Hf. rewrite <- Hk in Hf.
  unfold sem_unlink. destruct (ftok name 0 (kern s')) as [r k] eqn:E. simpl in Hf. subst r.
  rewrite (bind_fail _ _ _ ENOENT (SState k (hash_table s') (items s') (sems s') (smutex s') (brk s'))); [done|].
  unfold sys. by rewrite E.
Qed.

End Mman.
