(* ===== verification/Mqueue.v ===== *)
(** * Message queues of the POSIX.1b library

    src/posix1b/mqueue.c and mqueue.h: message queue descriptors on top of the
    System V message queues of SysVMsg. The notification request of a queue
    lives in the file of its name, which every descriptor maps: the model keeps
    the requests by inode. [kills] records the signals that [mq_send] sends. *)

From stdpp Require Import base tactics numbers list gmap strings.
From S2P Require Import Prelude SysVSem SysVMsg Timers.

Open Scope Z_scope.

Definition MQ_MAX : Z := 64.
Definition MQ_MAXMSG : Z := 40.
Definition MQ_MSGSIZE : Z := 16384.
Definition MQ_PRIO_MAX : Z := 256.

(** [struct mq_descriptor]; [req] is the inode whose request is mapped, or
    [None] for NULL. *)
Record mq_descriptor : Set := MqDescriptor {
  msgid : Z; qfd : Z; qflags : Z; req : option Z }.
Record mq_attr : Set := MqAttr {
  mq_flags : Z; mq_maxmsg : Z; mq_msgsize : Z; mq_curmsgs : Z }.
(** [struct mq_notification_request] *)
Record mq_request : Set := MqRequest { pid : Z; signo : Z }.

Record mqstate (K : Type) : Type := MqState {
  mkern : K;
  descs : gmap Z mq_descriptor;
  reqs : gmap Z mq_request;
  mbrk : Z;
  kills : list (Z * Z) }.
Arguments MqState {K}.
Arguments mkern {K}.
Arguments descs {K}.
Arguments reqs {K}.
Arguments mbrk {K}.
Arguments kills {K}.

Section Mqueue.
Context {K : Type} `{FileSys K} `{MsgKernel K}.
Notation QM := (M (mqstate K)).

Definition msys {A} (c : M K A) : QM A := λ s,
  let '(r, k) := c (mkern s) in (r, MqState k (descs s) (reqs s) (mbrk s) (kills s)).
Definition upd_descs (f : gmap Z mq_descriptor → gmap Z mq_descriptor) (s : mqstate K) : mqstate K :=
  MqState (mkern s) (f (descs s)) (reqs s) (mbrk s) (kills s).
Definition upd_reqs (f : gmap Z mq_request → gmap Z mq_request) (s : mqstate K) : mqstate K :=
  MqState (mkern s) (descs s) (f (reqs s)) (mbrk s) (kills s).
Definition set_mbrk (p : Z) (s : mqstate K) : mqstate K :=
  MqState (mkern s) (descs s) (reqs s) p (kills s).
Definition log_kill (p sig : Z) (s : mqstate K) : mqstate K :=
  MqState (mkern s) (descs s) (reqs s) (mbrk s) (kills s ++ [(p, sig)]).

Definition read_mqd (q : Z) : QM mq_descriptor := λ s,
  match descs s !! q with Some d => (Val d, s) | None => (UB, s) end.

(** The request in the file with inode [ino]: zeroes in a new file. *)
Definition request_at (ino : Z) (s : mqstate K) : mq_request :=
  default (MqRequest 0 0) (reqs s !! ino).

(** ** Opening and closing *)

(** The checks of the attributes of a new queue. *)
Definition attr_ok (attr : option mq_attr) : bool :=
  match attr with
  | None => true
  | Some a =>
      negb ((mq_maxmsg a <=? 0) || (mq_msgsize a <=? 0)
            || (MQ_MAXMSG <? mq_maxmsg a) || (MQ_MSGSIZE <? mq_msgsize a))
  end.

(** The label [err]: the file is removed and closed if it was opened. *)
Definition mq_open_err {A} (name : string) (fd : Z) (e : errno) : QM A :=
  when (0 <=? fd)
    (attempt (msys (unlink name));; attempt (msys (close fd));; mret tt);;
  fail e.

(** A call of [mq_open] whose failure jumps to [err]. *)
Definition or_err {A} (name : string) (fd : Z) (c : QM A) : QM A :=
  r ← attempt c;
  match r with inl a => mret a | inr e => mq_open_err name fd e end.

(** Lines 54-97: the file of the queue is opened, the attributes checked. *)
Definition mq_open_file (name : string) (oflag mode : Z) (attr : option mq_attr) : QM Z :=
  if has oflag O_CREAT then
    fd ← (if negb (has oflag O_EXCL) then
            r ← attempt (msys (open name (Z.ldiff oflag O_CREAT) 0));
            match r with inl fd => mret fd | inr _ => mret (-1) end
          else mret (-1));
    if negb (attr_ok attr) then mq_open_err name fd EINVAL
    else if fd <? 0 then or_err name (-1) (msys (open name oflag mode))
    else mret fd
  else or_err name (-1) (msys (open name oflag 0)).

Definition mq_setattr (q : Z) (mqstat : option mq_attr) (omqstat : bool) : QM (option mq_attr) :=
  d ← read_mqd q;
  (match mqstat with
   | Some a =>
       modify (upd_descs (insert q (MqDescriptor (msgid d) (qfd d)
         (if has (mq_flags a) O_NONBLOCK then IPC_NOWAIT else 0) (req d))))
   | None => mret tt
   end);;
  if omqstat then
    n ← msys (msgctl_STAT (msgid d));
    mret (Some (MqAttr (if has (qflags d) IPC_NOWAIT then O_NONBLOCK else 0)
                  MQ_MAX MQ_MSGSIZE n))
  else mret None.

(** [malloc_ok] and [mmap_ok]: whether [malloc] and [mmap] succeed. *)
Definition mq_open (malloc_ok mmap_ok : bool) (name : string) (oflag mode : Z)
    (attr : option mq_attr) : QM Z :=
  fd ← mq_open_file name oflag mode attr;
  key ← or_err name fd (msys (ftok name 97));
  let msgflg := Z.land 511 mode in
  let msgflg := if has oflag (Z.lor O_CREAT O_EXCL) then Z.lor msgflg IPC_CREAT else msgflg in
  id ← or_err name fd (msys (msgget key msgflg));
  if negb malloc_ok then mq_open_err name fd ENOSPC
  else
    q ← gets mbrk;
    modify (set_mbrk (q + 1));;
    names ← gets (λ s, fs_names (mkern s));
    let mapped := if mmap_ok then names !! name else None in
    modify (upd_descs (insert q
      (MqDescriptor id fd (match attr with Some a => mq_flags a | None => 0 end) mapped)));;
    (match mapped with
     | Some ino =>
         r ← gets (request_at ino);
         modify (upd_reqs (insert ino (MqRequest 0 (signo r))))
     | None => mret tt
     end);;
    (match attr with
     | Some a => attempt (mq_setattr q (Some a) false);; mret tt
     | None => mret tt
     end);;
    mret q.

Definition mq_close (q : Z) : QM unit :=
  d ← read_mqd q;
  when (0 <=? qfd d) (attempt (msys (close (qfd d)));; mret tt);;
  modify (upd_descs (delete q)).

Definition mq_unlink (name : string) : QM unit :=
  key ← msys (ftok name 0);
  id ← msys (msgget key 0);
  attempt (msys (unlink name));;
  msys (msgctl_RMID id).

(** ** Notification *)

(** [self] is [getpid()]. *)
Definition mq_notify (self q : Z) (notification : option sigevent) : QM unit :=
  d ← read_mqd q;
  match req d with
  | None => fail ENOENT
  | Some ino =>
      r ← gets (request_at ino);
      match notification with
      | None => modify (upd_reqs (insert ino (MqRequest 0 (signo r))))
      | Some ev =>
          if sigev_notify ev =? SIGEV_NONE then
            modify (upd_reqs (insert ino (MqRequest 0 (signo r))))
          else if sigev_notify ev =? SIGEV_SIGNAL then
            if negb (pid r =? 0) then fail EBUSY
            else modify (upd_reqs (insert ino (MqRequest self (sigev_signo ev))))
          else fail EINVAL
      end
  end.

(** ** Messages *)

Definition mq_send (q : Z) (data : list Z) (msg_prio : Z) : QM unit :=
  if MQ_PRIO_MAX <? msg_prio then fail EINVAL
  else if MQ_MSGSIZE <? Z.of_nat (length data) then fail E2BIG
  else
    d ← read_mqd q;
    rc ← attempt (msys (msgsnd (msgid d) (MQ_PRIO_MAX - msg_prio, data) (qflags d)));
    match rc, req d with
    | inl _, Some ino =>
        r ← gets (request_at ino);
        when (negb (pid r =? 0))
          (modify (log_kill (pid r) (signo r));;
           modify (upd_reqs (insert ino (MqRequest 0 (signo r)))))
    | _, _ => mret tt
    end.

(** The bytes received and the priority. *)
Definition mq_receive (q : Z) (msg_len : Z) : QM (list Z * Z) :=
  d ← read_mqd q;
  m ← msys (msgrcv (msgid d) msg_len (- MQ_PRIO_MAX) (qflags d));
  mret (m.2, MQ_PRIO_MAX - m.1).

Definition mq_getattr (q : Z) (mqstat : bool) : QM mq_attr :=
  if negb mqstat then fail EINVAL
  else
    d ← read_mqd q;
    n ← msys (msgctl_STAT (msgid d));
    mret (MqAttr (if has (qflags d) IPC_NOWAIT then O_NONBLOCK else 0) MQ_MAX MQ_MSGSIZE n).
End Mqueue.
