(* ===== verification/MqueueThms.v ===== *)
(** * What the message queue calls guarantee

    Theorems on src/posix1b/mqueue.c for every kernel that meets the laws of
    SysVMsg: sending appends, receiving takes the oldest message of the
    highest priority, a registered notification is delivered once; and where
    the calls report success for a message that is not queued, or cannot
    unlink what they opened. *)

From stdpp Require Import base tactics numbers list gmap strings.
From S2P Require Import Prelude SysVSem SysVMsg RefKernel Timers Mqueue.

Open Scope Z_scope.

(** ** Selecting a message *)

Lemma lowest_type_spec b l t :
  lowest_type b l = Some t →
  t ≤ b ∧ (∃ m, m ∈ l ∧ m.1 = t) ∧ ∀ m, m ∈ l → m.1 ≤ b → t ≤ m.1.
Proof.
  revert t. induction l as [|m l IH]; intros t; simpl; [done|].
  destruct (Z.leb_spec m.1 b) as [Hm|Hm].
  - destruct (lowest_type b l) as [t'|] eqn:E; intros [= <-].
    + destruct (IH t' eq_refl) as (Ht & (x & Hx & <-) & Hmin). split; [lia|]. split.
      * destruct (Z.le_ge_cases m.1 x.1).
        -- exists m. split; [constructor|lia].
        -- exists x. split; [by constructor|lia].
      * intros y [->|Hy]%elem_of_cons Hb; [lia|]. specialize (Hmin y Hy Hb). lia.
    + split; [done|]. split; [exists m; split; [constructor|done]|].
      intros y [->|Hy]%elem_of_cons Hb; [lia|]. exfalso.
      clear IH. induction l as [|z l IH']; [by apply elem_of_nil in Hy|]. simpl in E.
      apply elem_of_cons in Hy as [->|Hy].
      * rewrite (proj2 (Z.leb_le z.1 b) Hb) in E. by destruct (lowest_type b l).
      * apply IH'; [|done]. destruct (z.1 <=? b); [by destruct (lowest_type b l)|done].
  - intros Ht. destruct (IH t Ht) as (Htb & (x & Hx & <-) & Hmin). split; [done|]. split.
    + exists x. split; [by constructor|done].
    + intros y [->|Hy]%elem_of_cons Hb; [lia|by apply Hmin].
Qed.

Lemma lowest_type_some b l m : m ∈ l → m.1 ≤ b → is_Some (lowest_type b l).
Proof.
  intros Hm Hb. induction l as [|x l IH]; [by apply elem_of_nil in Hm|]. simpl.
  apply elem_of_cons in Hm as [->|Hm].
  - rewrite (proj2 (Z.leb_le x.1 b) Hb). destruct (lowest_type b l); eauto.
  - destruct (IH Hm) as [t Ht]. fold (lowest_type b l). rewrite Ht. destruct (x.1 <=? b); eauto.
Qed.

Lemma take_first_spec p l m l' :
  take_first p l = Some (m, l') ↔
  ∃ l1 l2, l = l1 ++ m :: l2 ∧ l' = l1 ++ l2 ∧ p m = true ∧ ∀ x, x ∈ l1 → p x = false.
Proof.
  revert m l'. induction l as [|x l IH]; intros m l'; simpl.
  - split; [done|]. intros (l1 & l2 & Hl & _). by destruct l1.
  - destruct (p x) eqn:Hp.
    + split.
      * intros [= <- <-]. exists [], l. split_and!; [done..|]. intros ? H. by apply elem_of_nil in H.
      * intros (l1 & l2 & Hl & -> & Hm & Hl1). destruct l1 as [|y l1]; simplify_eq/=; [done|].
        rewrite Hl1 in Hp by constructor. done.
    + destruct (take_first p l) as [[y l'']|] eqn:E; split.
      * intros [= <- <-]. destruct (proj1 (IH y l'') eq_refl) as (l1 & l2 & -> & -> & Hm & Hl1).
        exists (x :: l1), l2. split_and!; [done..|].
        intros z [->|Hz]%elem_of_cons; [done|by apply Hl1].
      * intros (l1 & l2 & Hl & -> & Hm & Hl1). destruct l1 as [|y' l1]; simplify_eq/=; [congruence|].
        assert (Some (y, l'') = Some (m, l1 ++ l2)) as [= -> ->]; [|done].
        apply IH. exists l1, l2. split_and!; try done. intros z Hz. apply Hl1. by constructor.
      * done.
      * intros (l1 & l2 & Hl & -> & Hm & Hl1). destruct l1 as [|y' l1]; simplify_eq/=; [congruence|].
        assert (None = Some (m, l1 ++ l2)); [|done].
        apply IH. exists l1, l2. split_and!; try done. intros z Hz. apply Hl1. by constructor.
Qed.

(** The message that [mq_receive] asks for. *)
Lemma select_lowest b l m l' :
  0 < b → (∀ x, x ∈ l → x.1 ≤ b) → select (- b) l = Some (m, l') →
  ∃ l1 l2, l = l1 ++ m :: l2 ∧ l' = l1 ++ l2 ∧
    (∀ x, x ∈ l1 → m.1 < x.1) ∧ (∀ x, x ∈ l2 → m.1 ≤ x.1).
Proof.
  intros Hb Hl. unfold select.
  rewrite (proj2 (Z.eqb_neq (- b) 0)), (proj2 (Z.ltb_ge 0 (- b))), Z.opp_involutive by lia.
  destruct (lowest_type b l) as [t|] eqn:E; [|done].
  intros (l1 & l2 & -> & -> & Ht%Z.eqb_eq & Hl1)%take_first_spec.
  destruct (lowest_type_spec _ _ _ E) as (_ & _ & Hmin). subst t.
  exists l1, l2. split_and!; [done..| |].
  - intros x Hx. specialize (Hl1 x Hx). apply Z.eqb_neq in Hl1.
    assert (x ∈ l1 ++ m :: l2) as Hin by (apply elem_of_app; by left).
    specialize (Hmin x Hin (Hl x Hin)). lia.
  - intros x Hx. assert (x ∈ l1 ++ m :: l2) as Hin by (apply elem_of_app; right; by constructor).
    by apply Hmin, Hl.
Qed.

Lemma select_some b l :
  0 < b → l ≠ [] → (∀ x, x ∈ l → x.1 ≤ b) → is_Some (select (- b) l).
Proof.
  intros Hb Hne Hl. unfold select.
  rewrite (proj2 (Z.eqb_neq (- b) 0)), (proj2 (Z.ltb_ge 0 (- b))), Z.opp_involutive by lia.
  destruct l as [|m l]; [done|].
  destruct (lowest_type_some b (m :: l) m) as [t Ht]; [constructor|apply Hl; constructor|].
  rewrite Ht. destruct (lowest_type_spec _ _ _ Ht) as (_ & (x & Hx & Heq) & _).
  clear -Hx Heq. induction (m :: l) as [|y l' IH]; [by apply elem_of_nil in Hx|]. simpl.
  destruct (y.1 =? t) eqn:E; [eauto|]. apply elem_of_cons in Hx as [->|Hx].
  - by rewrite Heq, Z.eqb_refl in E.
  - destruct (IH Hx) as [[z l''] ->]. eauto.
Qed.

Section Messages.
Context {K : Type} `{FileSys K} `{!FileSysLaws K} `{MsgKernel K} `{!MsgKernelLaws K}.
Implicit Types s : mqstate K.

(** Descriptor [q] is [d], and its queue holds [l], all of valid types. *)
Record mq_is s (q : Z) (d : mq_descriptor) (l : list msg) : Prop := {
  mq_desc : descs s !! q = Some d;
  mq_queue : queues (msg_view (mkern s)) !! msgid d = Some l;
  mq_types : ∀ x, x ∈ l → 1 ≤ x.1 ≤ MQ_PRIO_MAX }.

(** There is room for a message of [n] bytes. *)
Definition room (l : list msg) (n : Z) : bool :=
  negb ((msgmnb <? bytes_of l + n) || (msgmnb <? Z.of_nat (length l) + 1)).

Lemma msgsnd_run s id m flags :
  ∃ s', msys (msgsnd id m flags) s =
          ((msgsnd_spec msgmax msgmnb (msg_view (mkern s)) id m flags).1, s') ∧
    msg_view (mkern s') = (msgsnd_spec msgmax msgmnb (msg_view (mkern s)) id m flags).2 ∧
    descs s' = descs s ∧ reqs s' = reqs s ∧ kills s' = kills s ∧
    fs_names (mkern s') = fs_names (mkern s).
Proof.
  unfold msys. pose proof (msgsnd_law (mkern s) id m flags) as Hl.
  pose proof (msgsnd_frame (mkern s) id m flags) as Hf.
  destruct (msgsnd id m flags (mkern s)) as [r k]. simpl in *. rewrite <- Hl. by eexists.
Qed.

Lemma msgrcv_run s id len typ flags :
  ∃ s', msys (msgrcv id len typ flags) s =
          ((msgrcv_spec (msg_view (mkern s)) id len typ flags).1, s') ∧
    msg_view (mkern s') = (msgrcv_spec (msg_view (mkern s)) id len typ flags).2 ∧
    descs s' = descs s ∧ reqs s' = reqs s ∧ kills s' = kills s ∧
    fs_names (mkern s') = fs_names (mkern s).
Proof.
  unfold msys. pose proof (msgrcv_law (mkern s) id len typ flags) as Hl.
  pose proof (msgrcv_frame (mkern s) id len typ flags) as Hf.
  destruct (msgrcv id len typ flags (mkern s)) as [r k]. simpl in *. rewrite <- Hl. by eexists.
Qed.

(** The notification that a successful send delivers. *)
Definition notification s (d : mq_descriptor) : option (Z * Z) :=
  match req d with
  | Some ino => let r := request_at ino s in
                if pid r =? 0 then None else Some (pid r, signo r)
  | None => None
  end.

(** The state after the notification. *)
Definition notified s (d : mq_descriptor) : mqstate K :=
  match req d with
  | Some ino =>
      let r := request_at ino s in
      if pid r =? 0 then s
      else upd_reqs (insert ino (MqRequest 0 (signo r))) (log_kill (pid r) (signo r) s)
  | None => s
  end.

(** C16. [mq_send] of a message of priority 0 to 255 for which the queue has
    room appends it, with its bytes and its priority, behind the messages of
    the queue, and signals the process that is registered for notification,
    if any, whose registration it removes. *)
Theorem mq_send_appends s q d l data prio :
  mq_is s q d l → 0 ≤ prio < MQ_PRIO_MAX →
  Z.of_nat (length data) ≤ MQ_MSGSIZE → Z.of_nat (length data) ≤ msgmax →
  room l (Z.of_nat (length data)) = true →
  ∃ s', mq_send q data prio s = (Val tt, s') ∧
    mq_is s' q d (l ++ [(MQ_PRIO_MAX - prio, data)]) ∧
    (∀ j, j ≠ msgid d → queues (msg_view (mkern s')) !! j = queues (msg_view (mkern s)) !! j) ∧
    kills s' = kills s ++ option_list (notification s d) ∧
    notification s' d = None.
Proof.
  intros [Hd Hq Ht] Hp Hlen Hmax Hroom. unfold mq_send, MQ_PRIO_MAX in *.
  rewrite (proj2 (Z.ltb_ge 256 prio)), (proj2 (Z.ltb_ge MQ_MSGSIZE (Z.of_nat (length data)))) by lia.
  erewrite bind_val by (unfold read_mqd; by rewrite Hd).
  destruct (msgsnd_run s (msgid d) (256 - prio, data) (qflags d))
    as (s1 & Hr & Hv & Hdesc & Hreq & Hk & _).
  unfold msgsnd_spec, msg_len in Hr, Hv. rewrite Hq in Hr, Hv. simpl in Hr, Hv.
  rewrite (proj2 (Z.ltb_ge (256 - prio) 1)), (proj2 (Z.ltb_ge msgmax (Z.of_nat (length data))))
    in Hr, Hv by lia. simpl in Hr, Hv.
  unfold room in Hroom. apply negb_true_iff in Hroom. rewrite Hroom in Hr, Hv. simpl in Hr, Hv.
  erewrite bind_val by (apply attempt_val; exact Hr).
  exists (notified s1 d).
  assert (∀ ino, request_at ino s1 = request_at ino s) as Hra
    by (intros ino; unfold request_at; by rewrite Hreq).
  split_and!.
  - unfold notified. destruct (req d) as [ino|]; [|done]. erewrite bind_val by done.
    destruct (pid (request_at ino s1) =? 0); done.
  - assert (descs (notified s1 d) = descs s ∧ mkern (notified s1 d) = mkern s1) as [Hd1 Hk1].
    { unfold notified. destruct (req d) as [ino|]; [|done].
      destruct (pid (request_at ino s1) =? 0); done. }
    constructor; [by rewrite Hd1|rewrite Hk1, Hv; simpl; by rewrite lookup_insert_eq|].
    intros x [Hx|Hx%list_elem_of_singleton]%elem_of_app; [by apply Ht|subst; simpl; unfold MQ_PRIO_MAX; lia].
  - intros j Hj. assert (mkern (notified s1 d) = mkern s1) as ->.
    { unfold notified. destruct (req d) as [ino|]; [|done].
      destruct (pid (request_at ino s1) =? 0); done. }
    rewrite Hv. simpl. by rewrite lookup_insert_ne.
  - unfold notified, notification. destruct (req d) as [ino|]; simpl; [|by rewrite app_nil_r].
    rewrite Hra. destruct (pid (request_at ino s) =? 0); simpl; rewrite Hk; [by rewrite app_nil_r|done].
  - unfold notified, notification. destruct (req d) as [ino|]; [|done].
    rewrite Hra. destruct (Z.eqb_spec (pid (request_at ino s)) 0) as [Hz|Hz]; simpl.
    + by rewrite Hra, Hz.
    + unfold request_at. simpl. by rewrite lookup_insert_eq.
Qed.

(** C15. [mq_receive] on a queue with messages takes the oldest of those with
    the highest priority: every message before it has a lower priority, none
    behind it a higher one. It returns that message's bytes and priority and
    leaves the others in order; a buffer that is too small is refused with
    E2BIG and the queue kept. On an empty queue the call sleeps, or fails
    with ENOMSG when the descriptor is non-blocking. *)
Theorem mq_receive_oldest_highest s q d l len :
  mq_is s q d l →
  match l with
  | [] => ∃ s', mq_receive q len s =
            (if has (qflags d) IPC_NOWAIT then Fail ENOMSG else Sleep, s') ∧
          msg_view (mkern s') = msg_view (mkern s)
  | _ :: _ =>
      ∃ l1 t data l2, l = l1 ++ (t, data) :: l2 ∧
        (∀ x, x ∈ l1 → MQ_PRIO_MAX - x.1 < MQ_PRIO_MAX - t) ∧
        (∀ x, x ∈ l2 → MQ_PRIO_MAX - x.1 ≤ MQ_PRIO_MAX - t) ∧
        ∃ s', if len <? Z.of_nat (length data)
              then mq_receive q len s = (Fail E2BIG, s') ∧ mq_is s' q d l
              else mq_receive q len s = (Val (data, MQ_PRIO_MAX - t), s') ∧
                   mq_is s' q d (l1 ++ l2)
  end.
Proof.
  intros [Hd Hq Ht].
  destruct (msgrcv_run s (msgid d) len (- MQ_PRIO_MAX) (qflags d))
    as (s1 & Hr & Hv & Hdesc & Hreq & Hk & _).
  unfold msgrcv_spec in Hr, Hv. rewrite Hq in Hr, Hv.
  assert (∀ r, msys (msgrcv (msgid d) len (- MQ_PRIO_MAX) (qflags d)) s = (r, s1) →
    mq_receive q len s = (match r with
                          | Val m => Val (m.2, MQ_PRIO_MAX - m.1) | Fail e => Fail e
                          | Sleep => Sleep | UB => UB | AssertFail => AssertFail | NoFuel => NoFuel
                          end, s1)) as Hrun.
  { intros r Hr'. unfold mq_receive. erewrite bind_val by (unfold read_mqd; by rewrite Hd).
    unfold mbind, M_bind. rewrite Hr'. by destruct r. }
  destruct l as [|m0 l0] eqn:Hl.
  - simpl in Hr, Hv. exists s1. rewrite (Hrun _ Hr), Hv. by destruct (has _ _).
  - rewrite <- Hl in *.
    destruct (select_some MQ_PRIO_MAX l) as [[[t data] l'] Hsel];
      [done|by rewrite Hl|by intros x Hx; apply Ht|].
    rewrite Hsel in Hr, Hv.
    apply select_lowest in Hsel as (l1 & l2 & Heq & -> & Hl1 & Hl2); [|done|by intros x Hx; apply Ht].
    exists l1, t, data, l2. split; [done|]. simpl in Hl1, Hl2.
    split; [intros x Hx; specialize (Hl1 x Hx); lia|].
    split; [intros x Hx; specialize (Hl2 x Hx); lia|]. exists s1.
    unfold msg_len in Hr, Hv. simpl in Hr, Hv.
    destruct (len <? Z.of_nat (length data)); simpl in Hr, Hv;
      (split; [by rewrite (Hrun _ Hr)|]); (constructor; [by rewrite Hdesc| |]).
    + by rewrite Hv.
    + done.
    + rewrite Hv. simpl. by rewrite lookup_insert_eq.
    + intros x Hx. apply Ht. rewrite Heq. apply elem_of_app in Hx as [Hx|Hx]; apply elem_of_app;
        [by left|right; by constructor].
Qed.

(** [mq_send] reports success also when nothing is sent: for priority 256
    (which passes its check but gives the message type 0), for a message
    longer than the kernel's limit, and on a full non-blocking queue, it
    returns 0 and the queue is unchanged. *)
Theorem mq_send_loses s q d l data prio :
  mq_is s q d l → 0 ≤ prio ≤ MQ_PRIO_MAX → Z.of_nat (length data) ≤ MQ_MSGSIZE →
  (prio = MQ_PRIO_MAX ∨ msgmax < Z.of_nat (length data) ∨
   (room l (Z.of_nat (length data)) = false ∧ has (qflags d) IPC_NOWAIT = true)) →
  ∃ s', mq_send q data prio s = (Val tt, s') ∧
    msg_view (mkern s') = msg_view (mkern s) ∧ kills s' = kills s ∧ reqs s' = reqs s.
Proof.
  intros [Hd Hq Ht] Hp Hlen Hcase. unfold mq_send, MQ_PRIO_MAX in *.
  rewrite (proj2 (Z.ltb_ge 256 prio)), (proj2 (Z.ltb_ge MQ_MSGSIZE (Z.of_nat (length data)))) by lia.
  erewrite bind_val by (unfold read_mqd; by rewrite Hd).
  destruct (msgsnd_run s (msgid d) (256 - prio, data) (qflags d))
    as (s1 & Hr & Hv & Hdesc & Hreq & Hk & _).
  assert (∃ e, msgsnd_spec msgmax msgmnb (msg_view (mkern s)) (msgid d) (256 - prio, data) (qflags d)
            = (Fail e, msg_view (mkern s))) as [e He].
  { unfold msgsnd_spec, msg_len. rewrite Hq. simpl.
    destruct ((256 - prio <? 1) || (msgmax <? Z.of_nat (length data))) eqn:E; [eauto|].
    apply orb_false_iff in E as [E1%Z.ltb_ge E2%Z.ltb_ge].
    destruct Hcase as [->|[?|[Hroom Hnw]]]; [lia|lia|].
    unfold room in Hroom. apply negb_false_iff in Hroom. rewrite Hroom, Hnw. eauto. }
  rewrite He in Hr, Hv. simpl in Hr, Hv.
  erewrite bind_val by (apply attempt_fail; exact Hr). by exists s1.
Qed.

(** ** Opening and unlinking *)

Lemma bind_val_inv {S A B} (c : M S A) (f : A → M S B) t b t' :
  (c ≫= f) t = (Val b, t') → ∃ a t1, c t = (Val a, t1) ∧ f a t1 = (Val b, t').
Proof. unfold mbind, M_bind. destruct (c t) as [[] t1]; try done. eauto. Qed.

Lemma mq_open_err_val {A} n fd e s (a : A) s' : mq_open_err n fd e s ≠ (Val a, s').
Proof. unfold mq_open_err. intros (x & s1 & _ & Hf)%bind_val_inv. done. Qed.

Lemma or_err_val {A} n fd (c : M (mqstate K) A) s a s' :
  or_err n fd c s = (Val a, s') → c s = (Val a, s').
Proof.
  unfold or_err, attempt, mbind, M_bind. destruct (c s) as [[] s1]; try done.
  intros Hf. exfalso. by eapply mq_open_err_val.
Qed.

Lemma msys_open_view n fl mode s r s' :
  msys (open n fl mode) s = (r, s') → msg_view (mkern s') = msg_view (mkern s).
Proof.
  unfold msys. pose proof (msg_open_frame (mkern s) n fl mode) as Hf.
  destruct (open n fl mode (mkern s)) as [r' k]. simpl in *. by intros [= _ <-].
Qed.

Lemma mq_open_file_view n oflag mode attr s fd s' :
  mq_open_file n oflag mode attr s = (Val fd, s') → msg_view (mkern s') = msg_view (mkern s).
Proof.
  unfold mq_open_file. destruct (has oflag O_CREAT).
  - intros (fd0 & s1 & H1' & H2')%bind_val_inv.
    assert (msg_view (mkern s1) = msg_view (mkern s)) as Hv1.
    { destruct (has oflag O_EXCL); simpl in H1'; [by injection H1' as _ <-|].
      apply bind_val_inv in H1' as (r & s2 & Hatt & Hret).
      assert (s1 = s2) as -> by (destruct r; by injection Hret as _ <-).
      unfold attempt in Hatt. destruct (msys (open n (Z.ldiff oflag O_CREAT) 0) s) as [r' s3] eqn:E.
      apply msys_open_view in E. destruct r'; simplify_eq; done. }
    destruct (negb (attr_ok attr)); [by apply mq_open_err_val in H2'|].
    destruct (fd0 <? 0); [|by injection H2' as _ <-].
    apply or_err_val, msys_open_view in H2'. congruence.
  - intros Hf%or_err_val. by eapply msys_open_view.
Qed.

Lemma msys_val {A} (c : M K A) s a s' :
  msys c s = (Val a, s') →
  ∃ k, c (mkern s) = (Val a, k) ∧ s' = MqState k (descs s) (reqs s) (mbrk s) (kills s).
Proof. unfold msys. destruct (c (mkern s)) as [r k]. intros [= -> <-]. eauto. Qed.

(** The key of the queue that a successful [mq_open] attaches to. *)
Lemma mq_open_val m1 m2 n oflag mode attr s q s' :
  mq_open m1 m2 n oflag mode attr s = (Val q, s') →
  ∃ ino, fs_names (mkern s') !! n = Some ino ∧
    is_Some (mkeys (msg_view (mkern s')) !! key_of ino 97) ∧
    ∀ k, k ≠ key_of ino 97 → mkeys (msg_view (mkern s')) !! k = mkeys (msg_view (mkern s)) !! k.
Proof.
  unfold mq_open. intros (fd & s1 & Hfile & Hrun)%bind_val_inv.
  apply mq_open_file_view in Hfile.
  apply bind_val_inv in Hrun as (key & s2 & (k2 & Hft & ->)%or_err_val%msys_val & Hrun).
  rewrite ftok_law in Hft. destruct (fs_names (mkern s1) !! n) as [ino|] eqn:En; [|done].
  injection Hft as <- <-. cbn zeta in Hrun.
  apply bind_val_inv in Hrun as (id & s3 & (k3 & Hget & ->)%or_err_val%msys_val & Hrun).
  simpl in Hget, Hrun. set (fl := if has oflag _ then _ else _) in *.
  pose proof (msgget_law (mkern s1) (key_of ino 97) fl) as Hl.
  pose proof (msgget_frame (mkern s1) (key_of ino 97) fl) as Hf. rewrite Hget in Hl, Hf. simpl in Hl, Hf.
  destruct m1; [|by apply mq_open_err_val in Hrun].
  assert (mkern s' = k3) as ->.
  { revert Hrun. cbn [negb]. unfold mbind, M_bind, gets, modify, mret, M_ret. simpl.
    destruct (if m2 then fs_names k3 !! n else None), attr as [a|];
      simpl; unfold attempt, mq_setattr, read_mqd, mbind, M_bind; simpl;
      rewrite ?lookup_insert_eq; simpl; intros Hr; by injection Hr as _ <-. }
  exists ino. split; [by rewrite Hf|]. rewrite <- Hfile.
  unfold msgget_spec in Hl. pose proof (key_of_pos ino 97).
  rewrite (proj2 (Z.eqb_neq (key_of ino 97) IPC_PRIVATE)) in Hl by (unfold IPC_PRIVATE; lia).
  destruct (mkeys (msg_view (mkern s1)) !! key_of ino 97) as [id0|] eqn:Ek.
  - destruct Hl as [_ ->]. rewrite Ek. split; [eauto|done].
  - destruct (has fl IPC_CREAT); [|by destruct Hl].
    destruct Hl as [[? _]|(id1 & _ & _ & _ & ->)]; [done|]. simpl.
    split; [rewrite lookup_insert_eq; eauto|]. intros k Hk. by rewrite lookup_insert_ne.
Qed.

(** A queue that was opened cannot be unlinked: [mq_open] derives the key
    of the queue with project id 'a', [mq_unlink] with project id 0. Right
    after a successful [mq_open], [mq_unlink] of the same name fails with
    ENOENT, and the file and the queue stay. *)
Theorem mq_unlink_misses m1 m2 n oflag mode attr s q s1 :
  mq_open m1 m2 n oflag mode attr s = (Val q, s1) →
  (∀ ino, mkeys (msg_view (mkern s)) !! key_of ino 0 = None) →
  ∃ s2, mq_unlink n s1 = (Fail ENOENT, s2) ∧
    fs_names (mkern s2) = fs_names (mkern s1) ∧ msg_view (mkern s2) = msg_view (mkern s1).
Proof.
  intros Hopen Hnone. destruct (mq_open_val _ _ _ _ _ _ _ _ _ Hopen) as (ino & Hn & _ & Hkeys).
  assert (mkeys (msg_view (mkern s1)) !! key_of ino 0 = None) as Hk.
  { rewrite Hkeys; [apply Hnone|]. apply key_of_id; lia. }
  unfold mq_unlink. erewrite bind_val.
  2:{ unfold msys. rewrite ftok_law, Hn. done. }
  set (s2 := MqState _ _ _ _ _).
  pose proof (msgget_law (mkern s2) (key_of ino 0) 0) as Hl.
  pose proof (msgget_frame (mkern s2) (key_of ino 0) 0) as Hf.
  unfold msgget_spec in Hl. pose proof (key_of_pos ino 0).
  rewrite (proj2 (Z.eqb_neq (key_of ino 0) IPC_PRIVATE)) in Hl by (unfold IPC_PRIVATE; lia).
  simpl in Hl, Hf. rewrite Hk in Hl. destruct Hl as [Hr Hv].
  destruct (msgget (key_of ino 0) 0 (mkern s1)) as [r k] eqn:E. simpl in Hr, Hv, Hf. subst r.
  exists (MqState k (descs s2) (reqs s2) (mbrk s2) (kills s2)).
  split; [erewrite bind_fail by (unfold msys; simpl; by rewrite E); done|]. done.
Qed.

(** An [mq_open] that fails on its attributes destroys the name of an
    existing queue: with O_CREAT but not O_EXCL the file is opened first, the
    attributes are checked then, and the error path unlinks the name. *)
Theorem mq_open_error_unlinks m1 m2 n oflag mode a s ino :
  has oflag O_CREAT = true → has oflag O_EXCL = false →
  has (Z.ldiff oflag O_CREAT) O_CREAT = false →
  fs_names (mkern s) !! n = Some ino → attr_ok (Some a) = false →
  ∃ s', mq_open m1 m2 n oflag mode (Some a) s = (Fail EINVAL, s') ∧
    fs_names (mkern s') = delete n (fs_names (mkern s)) ∧
    msg_view (mkern s') = msg_view (mkern s).
Proof.
  intros Hcr Hex Hld Hn Ha. unfold mq_open, mq_open_file. rewrite Hcr, Hex, Ha. cbn [negb].
  pose proof (open_law (mkern s) n (Z.ldiff oflag O_CREAT) 0) as Hl.
  pose proof (msg_open_frame (mkern s) n (Z.ldiff oflag O_CREAT) 0) as Hv.
  destruct (open n (Z.ldiff oflag O_CREAT) 0 (mkern s)) as [r k] eqn:E. simpl in Hl, Hv.
  unfold open_spec in Hl. rewrite Hn, Hld in Hl. destruct Hl as (Hk & fd & -> & Hfd).
  set (s1 := MqState k (descs s) (reqs s) (mbrk s) (kills s)).
  destruct (unlink_law (mkern s1) n) as [Hun Hur]. pose proof (msg_unlink_frame (mkern s1) n) as Huv.
  destruct (unlink n (mkern s1)) as [ru k2] eqn:Eu. simpl in Hun, Hur, Huv.
  rewrite Hk, Hn in Hur. subst ru.
  exists (MqState k2 (descs s) (reqs s) (mbrk s) (kills s)). split; [|simpl; rewrite Hun, Hk, Huv, Hv; done].
  erewrite bind_fail; [done|].
  erewrite bind_val.
  2:{ erewrite bind_val by (apply attempt_val; unfold msys; by rewrite E). done. }
  cbn beta. unfold mq_open_err. rewrite (proj2 (Z.leb_le 0 fd)) by done.
  erewrite bind_val; [done|]. unfold when.
  erewrite bind_val by (apply attempt_val; unfold msys; fold s1; by rewrite Eu).
  set (s2 := MqState _ _ _ _ _).
  assert (∃ x, attempt (msys (close fd)) s2 = (Val x, s2)) as [x Hx].
  { destruct (close_law (mkern s2) fd) as [Hc|Hc]; eexists;
      [apply attempt_val|apply attempt_fail]; unfold msys; by rewrite Hc. }
  by erewrite bind_val by exact Hx.
Qed.

(** ** Notification *)

(** At most one process is registered per queue, through whatever
    descriptors: a registration for a signal succeeds when there is none and
    makes the next successful send deliver that signal to the caller; while
    it stands another registration fails with EBUSY; a NULL or SIGEV_NONE
    notification of any process removes it. *)
Theorem mq_notify_registers s q d ino ev self :
  descs s !! q = Some d → req d = Some ino → pid (request_at ino s) = 0 → self ≠ 0 →
  sigev_notify ev = SIGEV_SIGNAL →
  ∃ s1, mq_notify self q (Some ev) s = (Val tt, s1) ∧
    notification s1 d = Some (self, sigev_signo ev) ∧
    (∀ other q' d', descs s !! q' = Some d' → req d' = Some ino →
       mq_notify other q' (Some ev) s1 = (Fail EBUSY, s1) ∧
       ∃ s2, mq_notify other q' None s1 = (Val tt, s2) ∧ notification s2 d = None).
Proof.
  intros Hd Hr Hp Hself Hev. eexists. split.
  { unfold mq_notify. erewrite bind_val by (unfold read_mqd; by rewrite Hd). rewrite Hr.
    erewrite bind_val by done. rewrite Hev, Hp. done. }
  split.
  { unfold notification, request_at. rewrite Hr. simpl. rewrite lookup_insert_eq. simpl.
    by rewrite (proj2 (Z.eqb_neq self 0)). }
  intros other q' d' Hd' Hr'. unfold mq_notify. split.
  - erewrite bind_val by (unfold read_mqd; simpl; by rewrite Hd'). rewrite Hr'.
    erewrite bind_val by done. rewrite Hev. unfold request_at. simpl. rewrite lookup_insert_eq.
    simpl. by rewrite (proj2 (Z.eqb_neq self 0)).
  - erewrite bind_val by (unfold read_mqd; simpl; by rewrite Hd'). rewrite Hr'.
    erewrite bind_val by done. eexists. split; [done|].
    unfold notification, request_at. rewrite Hr. simpl. by rewrite lookup_insert_eq.
Qed.
End Messages.

(** ** A run with a queue *)

Definition mq0 : mqstate kernel := MqState kernel0 ∅ ∅ 1 [].

(** The queue [/q] open in descriptor 1, with process 77 registered for
    signal 10, and three messages of priorities 1, 5, 5. *)
Definition demo_mq : mqstate kernel :=
  snd ((q ← mq_open true true "/q" (Z.lor O_RDWR O_CREAT) 420 None;
        mq_send q [97] 1;; mq_send q [98; 98] 5;; mq_send q [99] 5;;
        mq_notify 77 q (Some (Sigevent 0 10 0))) mq0).

Lemma demo_mq_is :
  mq_is demo_mq 1 (MqDescriptor 0 3 0 (Some 0)) [(255, [97]); (251, [98; 98]); (251, [99])].
Proof.
  constructor; [vm_compute; reflexivity|vm_compute; reflexivity|].
  intros x Hx. apply list_elem_of_In in Hx. simpl in Hx. unfold MQ_PRIO_MAX.
  destruct Hx as [<-|[<-|[<-|[]]]]; simpl; lia.
Qed.

Lemma mq_send_appends_witness :
  ∃ s', mq_send 1 [1; 2] 9 demo_mq = (Val tt, s') ∧
    mq_is s' 1 (MqDescriptor 0 3 0 (Some 0))
      ([(255, [97]); (251, [98; 98]); (251, [99])] ++ [(MQ_PRIO_MAX - 9, [1; 2])]) ∧
    (∀ j, j ≠ 0 → queues (msg_view (mkern s')) !! j = queues (msg_view (mkern demo_mq)) !! j) ∧
    kills s' = [] ++ [(77, 10)] ∧ notification s' (MqDescriptor 0 3 0 (Some 0)) = None.
Proof.
  eapply (mq_send_appends demo_mq 1 (MqDescriptor 0 3 0 (Some 0)));
    [apply demo_mq_is|unfold MQ_PRIO_MAX; lia|vm_compute; discriminate|vm_compute; discriminate|
     vm_compute; reflexivity].
Defined.

Lemma mq_receive_oldest_highest_witness :
  ∃ l1 t data l2, [(255, [97]); (251, [98; 98]); (251, [99])] = l1 ++ (t, data) :: l2 ∧
    (∀ x : msg, x ∈ l1 → MQ_PRIO_MAX - x.1 < MQ_PRIO_MAX - t) ∧
    (∀ x : msg, x ∈ l2 → MQ_PRIO_MAX - x.1 ≤ MQ_PRIO_MAX - t) ∧
    ∃ s', if 128 <? Z.of_nat (length data)
          then mq_receive 1 128 demo_mq = (Fail E2BIG, s') ∧
               mq_is s' 1 (MqDescriptor 0 3 0 (Some 0)) [(255, [97]); (251, [98; 98]); (251, [99])]
          else mq_receive 1 128 demo_mq = (Val (data, MQ_PRIO_MAX - t), s') ∧
               mq_is s' 1 (MqDescriptor 0 3 0 (Some 0)) (l1 ++ l2).
Proof. exact (mq_receive_oldest_highest demo_mq 1 _ _ 128 demo_mq_is). Defined.

Lemma mq_send_loses_witness :
  ∃ s', mq_send 1 [7] 256 demo_mq = (Val tt, s') ∧
    msg_view (mkern s') = msg_view (mkern demo_mq) ∧ kills s' = [] ∧ reqs s' = reqs demo_mq.
Proof.
  apply (mq_send_loses demo_mq 1 _ _ [7] 256 demo_mq_is);
    [unfold MQ_PRIO_MAX; lia|vm_compute; discriminate|by left].
Defined.

Lemma mq_unlink_misses_witness :
  ∃ s2, mq_unlink "/q" (snd (mq_open true true "/q" (Z.lor O_RDWR O_CREAT) 420 None mq0))
          = (Fail ENOENT, s2) ∧
    fs_names (mkern s2)
      = fs_names (mkern (snd (mq_open true true "/q" (Z.lor O_RDWR O_CREAT) 420 None mq0))) ∧
    msg_view (mkern s2)
      = msg_view (mkern (snd (mq_open true true "/q" (Z.lor O_RDWR O_CREAT) 420 None mq0))).
Proof.
  eapply (mq_unlink_misses true true "/q" (Z.lor O_RDWR O_CREAT) 420 None mq0 1);
    [vm_compute; reflexivity|]. intros ino. reflexivity.
Defined.

Lemma mq_open_error_unlinks_witness :
  ∃ s', mq_open true true "/q" (Z.lor O_RDWR O_CREAT) 420 (Some (MqAttr 0 0 64 0)) demo_mq
          = (Fail EINVAL, s') ∧
    fs_names (mkern s') = delete "/q"%string (fs_names (mkern demo_mq)) ∧
    msg_view (mkern s') = msg_view (mkern demo_mq).
Proof.
  eapply (mq_open_error_unlinks true true "/q" (Z.lor O_RDWR O_CREAT) 420 (MqAttr 0 0 64 0) demo_mq 0);
    vm_compute; reflexivity.
Defined.

Lemma mq_notify_registers_witness :
  ∃ s1, mq_notify 88 1 (Some (Sigevent 0 12 0)) (snd (mq_notify 77 1 None demo_mq)) = (Val tt, s1) ∧
    notification s1 (MqDescriptor 0 3 0 (Some 0)) = Some (88, 12) ∧
    (∀ other q' d', descs (snd (mq_notify 77 1 None demo_mq)) !! q' = Some d' → req d' = Some 0 →
       mq_notify other q' (Some (Sigevent 0 12 0)) s1 = (Fail EBUSY, s1) ∧
       ∃ s2, mq_notify other q' None s1 = (Val tt, s2) ∧
         notification s2 (MqDescriptor 0 3 0 (Some 0)) = None).
Proof.
  eapply (mq_notify_registers (snd (mq_notify 77 1 None demo_mq)) 1
            (MqDescriptor 0 3 0 (Some 0)) 0 (Sigevent 0 12 0) 88);
    [vm_compute; reflexivity..|lia|reflexivity].
Defined.
