(* ===== verification/Lts.v ===== *)
(** * Threads that are interleaved by a scheduler

    The multithreaded test programs are modelled as step functions: a step of
    thread [t] either happens or the thread cannot move (it is blocked in a
    semaphore, or has ended). A schedule is any sequence of threads, each with
    the outcome of the library call it makes next: [false] for success, [true]
    for a failure, on which the programs exit the thread. The lemmas here turn
    one-step facts into facts on every schedule. *)

From stdpp Require Import base tactics numbers list.
From S2P Require Import Prelude.

Open Scope Z_scope.

Section Lts.
Context {St : Type} (step : nat → bool → St → option St).

(** A schedule; the steps of threads that cannot move are skipped. *)
Fixpoint run (sched : list (nat * bool)) (s : St) : St :=
  match sched with
  | [] => s
  | (t, f) :: sched' => run sched' (default s (step t f s))
  end.

(** The number of steps of the schedule that happen. *)
Fixpoint moves (sched : list (nat * bool)) (s : St) : nat :=
  match sched with
  | [] => 0
  | (t, f) :: sched' =>
      match step t f s with
      | Some s' => S (moves sched' s')
      | None => moves sched' s
      end
  end.

Definition all_ok (sched : list (nat * bool)) : Prop := Forall (λ e, e.2 = false) sched.

(** No thread can move, when all calls succeed. *)
Definition stuck (s : St) : Prop := ∀ t, step t false s = None.

(** An invariant of the steps holds after every schedule. *)
Lemma run_inv (I : St → Prop) :
  (∀ t f s s', I s → step t f s = Some s' → I s') →
  ∀ sched s, I s → I (run sched s).
Proof.
  intros Hstep sched. induction sched as [|[t f] sched IH]; intros s Hs; simpl; [done|].
  apply IH. destruct (step t f s) eqn:E; simpl; eauto.
Qed.

Lemma run_ok_inv (I : St → Prop) :
  (∀ t s s', I s → step t false s = Some s' → I s') →
  ∀ sched s, all_ok sched → I s → I (run sched s).
Proof.
  intros Hstep sched. induction sched as [|[t f] sched IH]; intros s Hok Hs; simpl; [done|].
  apply Forall_cons in Hok as [Hf Hok]. simpl in Hf. subst f. apply IH; [done|].
  destruct (step t false s) eqn:E; simpl; eauto.
Qed.

Lemma run_app sched1 sched2 s : run (sched1 ++ sched2) s = run sched2 (run sched1 s).
Proof. revert s. induction sched1 as [|[t f] sched1 IH]; intros s; simpl; [done|apply IH]. Qed.

(** With a measure that every step lowers, a schedule has only so many moves:
    the threads cannot run for ever. *)
Lemma moves_bounded (I : St → Prop) (measure : St → Z) :
  (∀ t f s s', I s → step t f s = Some s' → I s' ∧ measure s' < measure s) →
  (∀ s, I s → 0 ≤ measure s) →
  ∀ sched s, I s → Z.of_nat (moves sched s) ≤ measure s.
Proof.
  intros Hstep Hpos sched. induction sched as [|[t f] sched IH]; intros s Hs; simpl; [by apply Hpos|].
  destruct (step t f s) as [s'|] eqn:E; [|by apply IH].
  destruct (Hstep t f s s' Hs E) as [Hs' Hm]. specialize (IH s' Hs'). lia.
Qed.

Lemma moves_bounded_ok (I : St → Prop) (measure : St → Z) :
  (∀ t s s', I s → step t false s = Some s' → I s' ∧ measure s' < measure s) →
  (∀ s, I s → 0 ≤ measure s) →
  ∀ sched s, all_ok sched → I s → Z.of_nat (moves sched s) ≤ measure s.
Proof.
  intros Hstep Hpos sched. induction sched as [|[t f] sched IH]; intros s Hok Hs; simpl; [by apply Hpos|].
  apply Forall_cons in Hok as [Hf Hok]. simpl in Hf. subst f.
  destruct (step t false s) as [s'|] eqn:E; [|by apply IH].
  destruct (Hstep t s s' Hs E) as [Hs' Hm]. specialize (IH s' Hok Hs'). lia.
Qed.
End Lts.

(** ** Sums over threads *)

Definition sumf {A} (f : A → Z) (l : list A) : Z := foldr (λ a n, f a + n) 0 l.

Lemma sumf_insert {A} (f : A → Z) l i x y :
  l !! i = Some x → sumf f (<[i := y]> l) = sumf f l - f x + f y.
Proof.
  revert i. induction l as [|a l IH]; intros [|i]; simpl; intros Hl; simplify_eq; [lia|].
  rewrite (IH i Hl). lia.
Qed.

Lemma sumf_nonneg {A} (f : A → Z) l : (∀ a, 0 ≤ f a) → 0 ≤ sumf f l.
Proof. intros Hf. induction l as [|a l IH]; simpl; [lia|]. specialize (Hf a). lia. Qed.

Lemma sumf_elem {A} (f : A → Z) l i x :
  (∀ a, 0 ≤ f a) → l !! i = Some x → f x ≤ sumf f l.
Proof.
  intros Hf. revert i. induction l as [|a l IH]; intros [|i]; simpl; intros Hl; simplify_eq.
  - pose proof (sumf_nonneg f l Hf). lia.
  - specialize (IH i Hl). specialize (Hf a). lia.
Qed.

Lemma sumf_two {A} (f : A → Z) l i j x y :
  (∀ a, 0 ≤ f a) → i ≠ j → l !! i = Some x → l !! j = Some y → f x + f y ≤ sumf f l.
Proof.
  intros Hf. revert i j. induction l as [|a l IH]; intros [|i] [|j] Hij; simpl; intros Hi Hj;
    simplify_eq.
  - pose proof (sumf_elem f l j y Hf Hj). lia.
  - pose proof (sumf_elem f l i x Hf Hi). lia.
  - specialize (IH i j ltac:(congruence) Hi Hj). specialize (Hf a). lia.
Qed.

Lemma sumf_zero {A} (f : A → Z) l i x :
  (∀ a, 0 ≤ f a) → sumf f l = 0 → l !! i = Some x → f x = 0.
Proof. intros Hf Hs Hl. pose proof (sumf_elem f l i x Hf Hl). specialize (Hf x). lia. Qed.

Lemma sumf_pos {A} (f : A → Z) l :
  0 < sumf f l → ∃ i x, l !! i = Some x ∧ 0 < f x.
Proof.
  induction l as [|a l IH]; simpl; [lia|]. intros Hs.
  destruct (Z_lt_le_dec 0 (f a)); [by exists 0%nat, a|].
  destruct IH as (i & x & Hi & Hx); [lia|]. by exists (S i), x.
Qed.

Lemma sumf_ext_le {A} (f g : A → Z) l : (∀ a, a ∈ l → f a ≤ g a) → sumf f l ≤ sumf g l.
Proof.
  induction l as [|a l IH]; intros Hle; simpl; [lia|].
  pose proof (Hle a ltac:(constructor)). assert (sumf f l ≤ sumf g l); [|lia].
  apply IH. intros b Hb. apply Hle. by constructor.
Qed.

Lemma sumf_replicate {A} (f : A → Z) n x : sumf f (replicate n x) = Z.of_nat n * f x.
Proof. induction n as [|n IH]; [done|]. cbn [replicate sumf foldr]. unfold sumf in IH. rewrite IH. lia. Qed.

Lemma sumf_all_zero {A} (f : A → Z) l :
  (∀ t x, l !! t = Some x → f x = 0) → sumf f l = 0.
Proof.
  induction l as [|a l IH]; intros Hz; [done|]. simpl. rewrite (Hz 0%nat a) by done.
  rewrite IH; [done|]. intros t x Ht. by apply (Hz (S t) x).
Qed.
