(* ===== verification/ConPro.v ===== *)
(** * The producer and consumer program

    src/functional/semaphores/sem_conpro.c: one producer and one consumer of a
    ring buffer of five slots, with the semaphores [occupied] (free slots, in
    spite of its name), [empty] (filled slots) and [lock]. A thread that is
    [exited] keeps its place in the code. *)

From stdpp Require Import base tactics numbers list.
From S2P Require Import Prelude Lts.

Open Scope Z_scope.

Definition BUF_SIZE : Z := 5.
Definition Max_Num : Z := 10.

(** The places of a loop round: the wait for a slot or an item, the wait for
    the lock, the access to the buffer, the two posts. *)
Inductive place : Set := Acquire | Lock | Work | Unlock | Release.

#[global] Instance place_eq_dec : EqDecision place.
Proof. solve_decision. Defined.

Record thread : Set := Thread { at_ : place; iter : Z; exited : option Z }.

Record cp_state : Set := CpState {
  buffer : list Z; in_ : Z; out_ : Z;
  occupied : Z; empty : Z; cp_lock : Z;
  pro : thread; con : thread;
  taken : list Z }.

Definition with_pro (th : thread) (s : cp_state) : cp_state :=
  CpState (buffer s) (in_ s) (out_ s) (occupied s) (empty s) (cp_lock s) th (con s) (taken s).
Definition with_con (th : thread) (s : cp_state) : cp_state :=
  CpState (buffer s) (in_ s) (out_ s) (occupied s) (empty s) (cp_lock s) (pro s) th (taken s).
Definition with_sems (o e l : Z) (s : cp_state) : cp_state :=
  CpState (buffer s) (in_ s) (out_ s) o e l (pro s) (con s) (taken s).

Definition goto (p : place) (th : thread) : thread := Thread p (iter th) (exited th).
Definition exit_with (code : Z) (th : thread) : thread := Thread (at_ th) (iter th) (Some code).
(** [i++] and the next round. *)
Definition next_round (th : thread) : thread := Thread Acquire (iter th + 1) (exited th).

(** [producer], one call or one access at a time; [fail] is the outcome of the
    semaphore call. *)
Definition producer (fail : bool) (s : cp_state) : option cp_state :=
  let th := pro s in
  match at_ th with
  | Acquire =>
      if iter th <? Max_Num then
        if fail then Some (with_pro (exit_with 1 th) s)
        else if 0 <? occupied s then
          Some (with_pro (goto Lock th) (with_sems (occupied s - 1) (empty s) (cp_lock s) s))
        else None
      else Some (with_pro (exit_with 0 th) s)
  | Lock =>
      if fail then Some (with_pro (exit_with 1 th) s)
      else if 0 <? cp_lock s then
        Some (with_pro (goto Work th) (with_sems (occupied s) (empty s) (cp_lock s - 1) s))
      else None
  | Work =>
      Some (with_pro (goto Unlock th)
        (CpState (<[Z.to_nat (in_ s) := 100 * iter th]> (buffer s))
           (Z.rem (in_ s + 1) BUF_SIZE) (out_ s)
           (occupied s) (empty s) (cp_lock s) (pro s) (con s) (taken s)))
  | Unlock =>
      if fail then Some (with_pro (exit_with 1 th) s)
      else Some (with_pro (goto Release th)
             (with_sems (occupied s) (empty s) (cp_lock s + 1) s))
  | Release =>
      if fail then Some (with_pro (exit_with 1 th) s)
      else Some (with_pro (next_round th)
             (with_sems (occupied s) (empty s + 1) (cp_lock s) s))
  end.

(** [consumer]; [taken] records the data it prints. *)
Definition consumer (fail : bool) (s : cp_state) : option cp_state :=
  let th := con s in
  match at_ th with
  | Acquire =>
      if iter th <? Max_Num then
        if fail then Some (with_con (exit_with 1 th) s)
        else if 0 <? empty s then
          Some (with_con (goto Lock th) (with_sems (occupied s) (empty s - 1) (cp_lock s) s))
        else None
      else Some (with_con (exit_with 0 th) s)
  | Lock =>
      if fail then Some (with_con (exit_with 1 th) s)
      else if 0 <? cp_lock s then
        Some (with_con (goto Work th) (with_sems (occupied s) (empty s) (cp_lock s - 1) s))
      else None
  | Work =>
      Some (with_con (goto Unlock th)
        (CpState (buffer s) (in_ s) (Z.rem (out_ s + 1) BUF_SIZE)
           (occupied s) (empty s) (cp_lock s) (pro s) (con s)
           (taken s ++ option_list (buffer s !! Z.to_nat (out_ s)))))
  | Unlock =>
      if fail then Some (with_con (exit_with 1 th) s)
      else Some (with_con (goto Release th)
             (with_sems (occupied s) (empty s) (cp_lock s + 1) s))
  | Release =>
      if fail then Some (with_con (exit_with 1 th) s)
      else Some (with_con (next_round th)
             (with_sems (occupied s + 1) (empty s) (cp_lock s) s))
  end.

(** Thread 0 is the consumer, thread 1 the producer. *)
Definition cp_step (t : nat) (fail : bool) (s : cp_state) : option cp_state :=
  match t with
  | 0%nat => if exited (con s) then None else consumer fail s
  | 1%nat => if exited (pro s) then None else producer fail s
  | _ => None
  end.

(** The state when [main] creates the threads; [malloc] leaves [junk]. *)
Definition cp_init (junk : list Z) : cp_state :=
  CpState junk 0 0 BUF_SIZE 0 1 (Thread Acquire 0 None) (Thread Acquire 0 None) [].

(** [main]: [init_ok] are the results of the three [sem_init] calls; [None]
    while it waits in [pthread_join]. *)
Definition conpro_main (init_ok : bool * bool * bool) (junk : list Z)
    (sched : list (nat * bool)) : option Z :=
  let '(ok1, ok2, ok3) := init_ok in
  if negb ok1 then Some PTS_UNRESOLVED
  else if negb ok2 then Some PTS_UNRESOLVED
  else if negb ok3 then Some PTS_UNRESOLVED
  else
    let s := run cp_step sched (cp_init junk) in
    match exited (con s), exited (pro s) with
    | Some _, Some _ => Some PTS_PASS
    | _, _ => None
    end.

(** ** The invariant *)

(** How many waits, buffer accesses and lock holds a place has behind it. *)
Definition waited (p : place) : Z := match p with Acquire => 0 | _ => 1 end.
Definition worked (p : place) : Z := match p with Unlock | Release => 1 | _ => 0 end.
Definition holds (p : place) : Z := match p with Work | Unlock => 1 | _ => 0 end.

Definition stored (s : cp_state) : Z := iter (pro s) + worked (at_ (pro s)).
Definition fetched (s : cp_state) : Z := iter (con s) + worked (at_ (con s)).

Record cp_inv (s : cp_state) : Prop := {
  inv_occupied : occupied s = BUF_SIZE - (iter (pro s) + waited (at_ (pro s))) + iter (con s);
  inv_empty : empty s = iter (pro s) - (iter (con s) + waited (at_ (con s)));
  inv_lock : cp_lock s = 1 - holds (at_ (pro s)) - holds (at_ (con s));
  inv_nonneg : 0 ≤ occupied s ∧ 0 ≤ empty s ∧ 0 ≤ cp_lock s;
  inv_iter : 0 ≤ iter (pro s) ∧ iter (pro s) + waited (at_ (pro s)) ≤ Max_Num ∧
             0 ≤ iter (con s) ∧ iter (con s) + waited (at_ (con s)) ≤ Max_Num;
  inv_in : in_ s = Z.rem (stored s) BUF_SIZE;
  inv_out : out_ s = Z.rem (fetched s) BUF_SIZE;
  inv_length : length (buffer s) = 5%nat;
  inv_data : ∀ j, fetched s ≤ j < stored s →
    buffer s !! Z.to_nat (Z.rem j BUF_SIZE) = Some (100 * j);
  inv_taken : taken s = (λ j, 100 * Z.of_nat j) <$> seq 0 (Z.to_nat (fetched s));
  inv_done : (exited (pro s) = Some 0 → iter (pro s) = Max_Num) ∧
             (exited (con s) = Some 0 → iter (con s) = Max_Num) }.

Lemma rem_succ a : 0 ≤ a → Z.rem (Z.rem a 5 + 1) 5 = Z.rem (a + 1) 5.
Proof.
  intros Ha. rewrite !Z.rem_mod_nonneg by (try lia; pose proof (Z.mod_pos_bound a 5); rewrite ?Z.rem_mod_nonneg; lia).
  rewrite Zplus_mod_idemp_l. done.
Qed.

(** Slots of items that are in the buffer together differ. *)
Lemma slots_differ i j : 0 ≤ i < j → j < i + 5 → Z.to_nat (Z.rem i 5) ≠ Z.to_nat (Z.rem j 5).
Proof.
  intros Hij Hlt Heq.
  rewrite !Z.rem_mod_nonneg in Heq by lia.
  pose proof (Z.div_mod i 5 ltac:(lia)). pose proof (Z.div_mod j 5 ltac:(lia)).
  pose proof (Z.mod_pos_bound i 5 ltac:(lia)). pose proof (Z.mod_pos_bound j 5 ltac:(lia)).
  apply Z2Nat.inj in Heq; lia.
Qed.

Lemma taken_snoc n :
  0 ≤ n → (λ j, 100 * Z.of_nat j) <$> seq 0 (Z.to_nat (n + 1)) =
          ((λ j, 100 * Z.of_nat j) <$> seq 0 (Z.to_nat n)) ++ [100 * n].
Proof.
  intros Hn. rewrite Z2Nat.inj_add, Nat.add_1_r, seq_S, fmap_app by lia. simpl.
  by rewrite Z2Nat.id.
Qed.

Lemma cp_init_inv junk : length junk = 5%nat → cp_inv (cp_init junk).
Proof.
  intros Hj. constructor; simpl; unfold BUF_SIZE, Max_Num, stored, fetched; simpl; try done; try lia.
Qed.

(** Steps that touch neither the buffer nor its indices: only the semaphore
    counts have to be checked. *)
Lemma inv_other s s' :
  cp_inv s → buffer s' = buffer s → in_ s' = in_ s → out_ s' = out_ s → taken s' = taken s →
  stored s' = stored s → fetched s' = fetched s →
  occupied s' = BUF_SIZE - (iter (pro s') + waited (at_ (pro s'))) + iter (con s') →
  empty s' = iter (pro s') - (iter (con s') + waited (at_ (con s'))) →
  cp_lock s' = 1 - holds (at_ (pro s')) - holds (at_ (con s')) →
  0 ≤ occupied s' ∧ 0 ≤ empty s' ∧ 0 ≤ cp_lock s' →
  (0 ≤ iter (pro s') ∧ iter (pro s') + waited (at_ (pro s')) ≤ Max_Num ∧
   0 ≤ iter (con s') ∧ iter (con s') + waited (at_ (con s')) ≤ Max_Num) →
  ((exited (pro s') = Some 0 → iter (pro s') = Max_Num) ∧
   (exited (con s') = Some 0 → iter (con s') = Max_Num)) →
  cp_inv s'.
Proof.
  intros [A B C D E F G H I J L] H1 H2 H3 H4 H5 H6. intros. constructor; try done; try congruence.
  - intros j. rewrite H1, H5, H6. apply I.
Qed.

Ltac thread_cases s :=
  destruct s as [buf i o oc em lk [pp pi pe] [cq ci ce] tk]; simpl in *;
  unfold stored, fetched, Max_Num, BUF_SIZE in *; simpl in *.

(** Closes the steps that only move a thread and change semaphores. *)
Ltac other_step Hinv :=
  eapply inv_other; [exact Hinv|..]; unfold stored, fetched, Max_Num, BUF_SIZE; simpl;
  intros; try done; try lia; split_and!; intros; try done; try lia; auto.

Lemma place_bounds p : 0 ≤ worked p ≤ waited p ∧ waited p ≤ 1 ∧ 0 ≤ holds p ≤ waited p.
Proof. destruct p; simpl; lia. Qed.

(** The store into the buffer. *)
Lemma cp_store_inv s s' :
  cp_inv s → at_ (pro s) = Work → producer false s = Some s' → cp_inv s'.
Proof.
  intros [Ho He Hl (Hn1 & Hn2 & Hn3) (Hi1 & Hi2 & Hi3 & Hi4)
    Hin Hout Hlen Hdata Htk (Hd1 & Hd2)] Hw Hstep.
  unfold producer in Hstep. rewrite Hw in Hstep. injection Hstep as <-. thread_cases s. subst pp.
  simpl in *. pose proof (place_bounds cq). rewrite Z.add_0_r in *. subst i.
  constructor; unfold stored, fetched, Max_Num, BUF_SIZE; simpl; try done; try lia.
  - by apply rem_succ.
  - by rewrite length_insert.
  - intros j Hj. destruct (decide (j = pi)) as [->|Hne].
    + apply list_lookup_insert_eq. rewrite Hlen, Z.rem_mod_nonneg by lia.
      pose proof (Z.mod_pos_bound pi 5). lia.
    + rewrite list_lookup_insert_ne; [apply Hdata; lia|].
      intros Heq. symmetry in Heq. revert Heq. apply slots_differ; lia.
Qed.

(** The fetch from the buffer. *)
Lemma cp_fetch_inv s s' :
  cp_inv s → at_ (con s) = Work → consumer false s = Some s' → cp_inv s'.
Proof.
  intros [Ho He Hl (Hn1 & Hn2 & Hn3) (Hi1 & Hi2 & Hi3 & Hi4)
    Hin Hout Hlen Hdata Htk (Hd1 & Hd2)] Hw Hstep.
  unfold consumer in Hstep. rewrite Hw in Hstep. injection Hstep as <-. thread_cases s. subst cq.
  simpl in *. pose proof (place_bounds pp). rewrite Z.add_0_r in *. subst o.
  constructor; unfold stored, fetched, Max_Num, BUF_SIZE; simpl; try done; try lia.
  - by apply rem_succ.
  - intros j Hj. apply Hdata. lia.
  - rewrite Hdata by lia. simpl. rewrite Htk, taken_snoc by lia. done.
Qed.

Lemma cp_producer_inv f s s' :
  cp_inv s → exited (pro s) = None → producer f s = Some s' → cp_inv s'.
Proof.
  intros Hinv Hrun Hstep.
  destruct (decide (at_ (pro s) = Work)) as [Hw|Hw].
  { eapply cp_store_inv; [done..|]. rewrite <- Hstep. unfold producer. by rewrite Hw. }
  pose proof Hinv as [Ho He Hl (Hn1 & Hn2 & Hn3) (Hi1 & Hi2 & Hi3 & Hi4) _ _ _ _ _ (Hd1 & Hd2)].
  unfold producer in Hstep. thread_cases s. subst pe. pose proof (place_bounds cq).
  destruct pp; simpl in *; [| |done| |]; repeat bool_case; destruct f; simplify_eq/=;
    other_step Hinv.
Qed.

Lemma cp_consumer_inv f s s' :
  cp_inv s → exited (con s) = None → consumer f s = Some s' → cp_inv s'.
Proof.
  intros Hinv Hrun Hstep.
  destruct (decide (at_ (con s) = Work)) as [Hw|Hw].
  { eapply cp_fetch_inv; [done..|]. rewrite <- Hstep. unfold consumer. by rewrite Hw. }
  pose proof Hinv as [Ho He Hl (Hn1 & Hn2 & Hn3) (Hi1 & Hi2 & Hi3 & Hi4) _ _ _ _ _ (Hd1 & Hd2)].
  unfold consumer in Hstep. thread_cases s. subst ce. pose proof (place_bounds pp).
  destruct cq; simpl in *; [| |done| |]; repeat bool_case; destruct f; simplify_eq/=;
    other_step Hinv.
Qed.

Lemma cp_step_inv t f s s' : cp_inv s → cp_step t f s = Some s' → cp_inv s'.
Proof.
  unfold cp_step. intros Hinv. destruct t as [|[|t]]; [| |done].
  - destruct (exited (con s)) eqn:E; [done|]. by apply cp_consumer_inv.
  - destruct (exited (pro s)) eqn:E; [done|]. by apply cp_producer_inv.
Qed.

(** C11. Under every interleaving, and whatever calls fail, the buffer is used
    correctly: the semaphores never go negative, the lock admits one thread,
    no item is overwritten before it is fetched, and the consumer prints the
    items 0, 100, 200, ... in the order in which they were produced. *)
Theorem conpro_safe junk sched :
  length junk = 5%nat →
  let s := run cp_step sched (cp_init junk) in
  0 ≤ occupied s ∧ 0 ≤ empty s ∧ 0 ≤ cp_lock s ∧
  holds (at_ (pro s)) + holds (at_ (con s)) ≤ 1 ∧
  fetched s ≤ stored s ≤ fetched s + BUF_SIZE ∧
  0 ≤ in_ s < BUF_SIZE ∧ 0 ≤ out_ s < BUF_SIZE ∧
  taken s = (λ j, 100 * Z.of_nat j) <$> seq 0 (Z.to_nat (fetched s)).
Proof.
  intros Hj s. assert (cp_inv s) as [Ho He Hl (Hn1 & Hn2 & Hn3) (Hi1 & Hi2 & Hi3 & Hi4)
    Hin Hout Hlen Hdata Htk _].
  { apply run_inv; [apply cp_step_inv|by apply cp_init_inv]. }
  pose proof (place_bounds (at_ (pro s))). pose proof (place_bounds (at_ (con s))).
  unfold stored, fetched, BUF_SIZE in *.
  rewrite Hin, Hout, !Z.rem_mod_nonneg by lia.
  pose proof (Z.mod_pos_bound (iter (pro s) + worked (at_ (pro s))) 5).
  pose proof (Z.mod_pos_bound (iter (con s) + worked (at_ (con s))) 5).
  split_and!; try done; lia.
Qed.

(** The steps a thread has left. *)
Definition left_steps (th : thread) : Z :=
  match exited th with
  | Some _ => 0
  | None => 5 * (Max_Num - iter th) + 1
            - match at_ th with Acquire => 0 | Lock => 1 | Work => 2 | Unlock => 3 | Release => 4 end
  end.

(** Runs without failures: no thread has exited early. *)
Definition cp_ok (s : cp_state) : Prop :=
  cp_inv s ∧ (∀ c, exited (pro s) = Some c → c = 0) ∧ (∀ c, exited (con s) = Some c → c = 0).

(** One more place visited, or the end. *)
Lemma cp_producer_progress s s' :
  cp_inv s → exited (pro s) = None → producer false s = Some s' →
  con s' = con s ∧ left_steps (pro s') < left_steps (pro s) ∧
  (∀ c, exited (pro s') = Some c → c = 0).
Proof.
  intros [_ _ _ _ (Hi1 & Hi2 & _) _ _ _ _ _ _] He Hstep. unfold producer, left_steps in *.
  thread_cases s. subst pe.
  destruct pp; simpl in *; repeat bool_case; simplify_eq/=; (split; [done|]);
    (split; [lia|]); intros; congruence.
Qed.

Lemma cp_consumer_progress s s' :
  cp_inv s → exited (con s) = None → consumer false s = Some s' →
  pro s' = pro s ∧ left_steps (con s') < left_steps (con s) ∧
  (∀ c, exited (con s') = Some c → c = 0).
Proof.
  intros [_ _ _ _ (_ & _ & Hi1 & Hi2) _ _ _ _ _ _] He Hstep. unfold consumer, left_steps in *.
  thread_cases s. subst ce.
  destruct cq; simpl in *; repeat bool_case; simplify_eq/=; (split; [done|]);
    (split; [lia|]); intros; congruence.
Qed.

Lemma cp_progress t s s' :
  cp_ok s → cp_step t false s = Some s' →
  cp_ok s' ∧ left_steps (pro s') + left_steps (con s') < left_steps (pro s) + left_steps (con s).
Proof.
  intros (Hinv & Hp & Hc) Hstep. pose proof (cp_step_inv _ _ _ _ Hinv Hstep) as Hinv'.
  unfold cp_step in Hstep. destruct t as [|[|t]]; [| |done].
  - destruct (exited (con s)) eqn:E; [done|].
    destruct (cp_consumer_progress s s') as (Heq & Hlt & Hz); [done..|].
    unfold cp_ok. rewrite Heq. split; [done|lia].
  - destruct (exited (pro s)) eqn:E; [done|].
    destruct (cp_producer_progress s s') as (Heq & Hlt & Hz); [done..|].
    unfold cp_ok. rewrite Heq. split; [done|lia].
Qed.

Lemma cp_left_steps_nonneg s : cp_ok s → 0 ≤ left_steps (pro s) + left_steps (con s).
Proof.
  intros ([_ _ _ _ (Hi1 & Hi2 & Hi3 & Hi4) _ _ _ _ _ _] & _). unfold left_steps.
  thread_cases s. destruct pe, ce, pp, cq; simpl in *; lia.
Qed.

(** A thread that is not at its end can move, or the other one can. *)
Lemma cp_stuck_done s :
  cp_ok s → stuck cp_step s → exited (pro s) = Some 0 ∧ exited (con s) = Some 0.
Proof.
  intros ([Ho He Hl Hn (Hi1 & Hi2 & Hi3 & Hi4) _ _ _ _ _ (Hd1 & Hd2)] & Hp & Hc) Hst.
  pose proof (Hst 0%nat) as H0. pose proof (Hst 1%nat) as H1. clear Hst.
  unfold cp_step, consumer, producer in H0, H1. thread_cases s.
  destruct pe as [pe|]; [rewrite (Hp pe) in * by done|];
    (destruct ce as [ce|]; [rewrite (Hc ce) in * by done|]); try done;
    repeat match goal with
    | H : Some 0 = Some 0 → _ |- _ => specialize (H eq_refl)
    end; exfalso;
    try destruct pp; try destruct cq; simpl in *; repeat bool_case; simplify_eq/=; try lia.
Qed.

Lemma cp_init_ok junk : length junk = 5%nat → cp_ok (cp_init junk).
Proof. intros Hj. split; [by apply cp_init_inv|]. by split. Qed.

(** When no call fails the program cannot deadlock and ends: every schedule
    has at most 102 steps, a state in which no thread can move has both
    threads exited with 0 and all ten items printed in order, and [main] then
    returns PTS_PASS. *)
Theorem conpro_terminates junk sched :
  length junk = 5%nat → all_ok sched →
  let s := run cp_step sched (cp_init junk) in
  Z.of_nat (moves cp_step sched (cp_init junk)) ≤ 102 ∧
  (stuck cp_step s →
     conpro_main (true, true, true) junk sched = Some PTS_PASS ∧
     exited (con s) = Some 0 ∧ exited (pro s) = Some 0 ∧
     taken s = [0; 100; 200; 300; 400; 500; 600; 700; 800; 900]).
Proof.
  intros Hj Hok s. pose proof (cp_init_ok junk Hj) as Hinit. split.
  - exact (moves_bounded_ok cp_step cp_ok (λ s, left_steps (pro s) + left_steps (con s))
             cp_progress cp_left_steps_nonneg sched _ Hok Hinit).
  - intros Hst. assert (cp_ok s) as Hs.
    { apply run_ok_inv; [intros t s1 s2 H1 H2; by eapply cp_progress|done|done]. }
    destruct (cp_stuck_done s Hs Hst) as [Hp Hc].
    destruct Hs as ([_ _ _ _ (_ & _ & Hi3 & Hi4) _ _ _ _ Htk (Hd1 & Hd2)] & _).
    unfold conpro_main. fold s. rewrite Hp, Hc. split_and!; [done..|].
    rewrite Htk. specialize (Hd2 Hc). unfold fetched, Max_Num in *. rewrite Hd2 in *.
    assert (worked (at_ (con s)) = 0) as -> by (destruct (at_ (con s)); simpl in *; lia). done.
Qed.

(** A schedule that lets the producer fill the buffer before the consumer. *)
Definition demo_sched : list (nat * bool) :=
  concat (replicate 60 [(1%nat, false); (1%nat, false); (1%nat, false); (0%nat, false); (0%nat, false)]).

Lemma conpro_safe_witness :
  let s := run cp_step ((1%nat, true) :: demo_sched) (cp_init [7; 7; 7; 7; 7]) in
  0 ≤ occupied s ∧ 0 ≤ empty s ∧ 0 ≤ cp_lock s ∧
  holds (at_ (pro s)) + holds (at_ (con s)) ≤ 1 ∧
  fetched s ≤ stored s ≤ fetched s + BUF_SIZE ∧
  0 ≤ in_ s < BUF_SIZE ∧ 0 ≤ out_ s < BUF_SIZE ∧
  taken s = (λ j, 100 * Z.of_nat j) <$> seq 0 (Z.to_nat (fetched s)).
Proof. apply conpro_safe. reflexivity. Defined.

Lemma conpro_terminates_witness :
  let s := run cp_step demo_sched (cp_init [7; 7; 7; 7; 7]) in
  Z.of_nat (moves cp_step demo_sched (cp_init [7; 7; 7; 7; 7])) ≤ 102 ∧
  (stuck cp_step s →
     conpro_main (true, true, true) [7; 7; 7; 7; 7] demo_sched = Some PTS_PASS ∧
     exited (con s) = Some 0 ∧ exited (pro s) = Some 0 ∧
     taken s = [0; 100; 200; 300; 400; 500; 600; 700; 800; 900]).
Proof.
  apply conpro_terminates; [reflexivity|].
  unfold all_ok. apply (bool_decide_unpack _). vm_compute. exact I.
Defined.

(** That schedule does reach the end. *)
Example demo_sched_ends : stuck cp_step (run cp_step demo_sched (cp_init [7; 7; 7; 7; 7])).
Proof. intros [|[|t]]; vm_compute; reflexivity. Qed.
