(* ===== verification/Philosopher.v ===== *)
(** * The dining philosophers

    src/functional/semaphores/sem_philosopher.c: five philosophers, a
    semaphore for each, the array [state] of what each is doing, and a
    semaphore [lock] around it. The arrays are functions of the index. The
    steps are the semaphore calls; an access to [state] under the lock is one
    step together with the calls of [test], whose [sem_post] is not checked by
    the code. *)

From stdpp Require Import base tactics numbers list.
From S2P Require Import Prelude Lts ConPro.

Open Scope Z_scope.

Module Ph.
Definition PH_NUM : Z := 5.
Definition LOOP_NUM : Z := 20.
Definition thinking : Z := 0.
Definition hungry : Z := 1.
Definition eating : Z := 2.

Definition upd {A} (i : Z) (x : A) (f : Z → A) : Z → A := λ j, if j =? i then x else f j.

(** The places of a round: the first wait for the lock, the state change to
    hungry, the post, the wait for the own semaphore, eating and the second
    wait for the lock, the state change to thinking, the post. *)
Inductive place : Set := Think | Hungry | Unlock1 | Fork | Eat | PutDown | Unlock2.

Record thread : Set := Thread { at_ : place; iter : Z; exited : option Z }.

Record ph_state : Type := PhState {
  ph : Z → Z;
  lock : Z;
  state : Z → Z;
  threads : Z → thread }.

Definition preID (ID : Z) : Z :=
  if ID - 1 <? 0 then PH_NUM + (ID - 1) else Z.rem (ID - 1) PH_NUM.
Definition postID (ID : Z) : Z :=
  if PH_NUM <=? ID + 1 then ID + 1 - PH_NUM else Z.rem (ID + 1) PH_NUM.

(** [fail] is whether the [sem_post] fails; the code goes on in any case. *)
Definition test (fail : bool) (ID : Z) (s : ph_state) : ph_state :=
  if (state s ID =? hungry) && negb (state s (preID ID) =? eating)
     && negb (state s (postID ID) =? eating)
  then PhState (if fail then ph s else upd ID (ph s ID + 1) (ph s)) (lock s)
         (upd ID eating (state s)) (threads s)
  else s.

Definition set_state (ID x : Z) (s : ph_state) : ph_state :=
  PhState (ph s) (lock s) (upd ID x (state s)) (threads s).
Definition set_lock (v : Z) (s : ph_state) : ph_state :=
  PhState (ph s) v (state s) (threads s).
Definition set_ph (ID v : Z) (s : ph_state) : ph_state :=
  PhState (upd ID v (ph s)) (lock s) (state s) (threads s).
Definition set_thread (ID : Z) (th : thread) (s : ph_state) : ph_state :=
  PhState (ph s) (lock s) (state s) (upd ID th (threads s)).

Definition goto (ID : Z) (p : place) (s : ph_state) : ph_state :=
  set_thread ID (Thread p (iter (threads s ID)) None) s.
Definition exit_with (ID code : Z) (s : ph_state) : ph_state :=
  set_thread ID (Thread (at_ (threads s ID)) (iter (threads s ID)) (Some code)) s.

(** [sem_wait] on the lock, with the exit on failure. *)
Definition wait_lock (ID : Z) (fail : bool) (p : place) (s : ph_state) : option ph_state :=
  if fail then Some (exit_with ID 1 s)
  else if 0 <? lock s then Some (goto ID p (set_lock (lock s - 1) s))
  else None.

Definition philosopher (ID : Z) (fail : bool) (s : ph_state) : option ph_state :=
  let th := threads s ID in
  match at_ th with
  | Think =>
      if iter th <? LOOP_NUM then wait_lock ID fail Hungry s
      else Some (exit_with ID 0 s)
  | Hungry => Some (goto ID Unlock1 (test fail ID (set_state ID hungry s)))
  | Unlock1 =>
      if fail then Some (exit_with ID 1 s)
      else Some (goto ID Fork (set_lock (lock s + 1) s))
  | Fork =>
      if fail then Some (exit_with ID 1 s)
      else if 0 <? ph s ID then Some (goto ID Eat (set_ph ID (ph s ID - 1) s))
      else None
  | Eat => wait_lock ID fail PutDown s
  | PutDown =>
      Some (goto ID Unlock2
        (test fail (postID ID) (test fail (preID ID) (set_state ID thinking s))))
  | Unlock2 =>
      if fail then Some (exit_with ID 1 s)
      else Some (set_thread ID (Thread Think (iter th + 1) None) (set_lock (lock s + 1) s))
  end.

Definition ph_step (t : nat) (fail : bool) (s : ph_state) : option ph_state :=
  let ID := Z.of_nat t in
  if PH_NUM <=? ID then None
  else if exited (threads s ID) then None
  else philosopher ID fail s.

(** The state when [main] creates the threads. *)
Definition ph_init : ph_state :=
  PhState (λ _, 0) 1 (λ _, thinking) (λ _, Thread Think 0 None).

(** [main]: [init_ok] and [destroy_ok] are whether all calls of [sem_init] and
    [sem_destroy] succeed; [None] while it waits in [pthread_join]. *)
Definition ph_main (init_ok destroy_ok : bool) (sched : list (nat * bool)) : option Z :=
  if negb init_ok then Some PTS_UNRESOLVED
  else
    let s := run ph_step sched ph_init in
    if forallb (λ i, match exited (threads s i) with Some _ => true | None => false end)
         [0; 1; 2; 3; 4]
    then Some (if negb destroy_ok then PTS_UNRESOLVED else PTS_PASS)
    else None.

(** ** The invariant *)

Definition valid (i : Z) : Prop := 0 ≤ i < PH_NUM.

Lemma neighbours i :
  valid i → valid (preID i) ∧ valid (postID i) ∧ preID (postID i) = i ∧ postID (preID i) = i ∧
  preID i ≠ i ∧ postID i ≠ i ∧ preID i ≠ postID i.
Proof.
  unfold valid, PH_NUM. intros Hi.
  assert (i = 0 ∨ i = 1 ∨ i = 2 ∨ i = 3 ∨ i = 4) as Hc by lia.
  destruct Hc as [-> | [-> | [-> | [-> | ->]]]]; vm_compute; intuition congruence.
Qed.

(** The lock is held at these places. *)
Definition holds (p : place) : bool :=
  match p with Hungry | Unlock1 | PutDown | Unlock2 => true | _ => false end.

(** What the state and the own semaphore of a philosopher are at each place;
    [ok] says that no post was lost. *)
Definition local (ok : bool) (p : place) (x v : Z) : Prop :=
  match p with
  | Think | Hungry | Unlock2 => x = thinking ∧ v = 0
  | Unlock1 | Fork =>
      (x = hungry ∧ v = 0) ∨ (x = eating ∧ v = 1) ∨ (ok = false ∧ x = eating ∧ v = 0)
  | Eat | PutDown => x = eating ∧ v = 0
  end.

(** A hungry philosopher past [test] has an eating neighbour. *)
Definition blocked (s : ph_state) (i : Z) : Prop :=
  state s i = hungry → state s (preID i) = eating ∨ state s (postID i) = eating.

Record ph_inv (ok : bool) (s : ph_state) : Prop := {
  inv_local : ∀ i, valid i → local ok (at_ (threads s i)) (state s i) (ph s i);
  inv_apart : ∀ i, valid i → state s i = eating → state s (postID i) ≠ eating;
  inv_hungry : ∀ i, valid i → blocked s i;
  inv_lock : (lock s = 1 ∧ ∀ i, valid i → holds (at_ (threads s i)) = false) ∨
             (lock s = 0 ∧ ∃ i, valid i ∧ ∀ j, valid j →
                holds (at_ (threads s j)) = bool_decide (j = i));
  inv_iter : ∀ i, valid i → 0 ≤ iter (threads s i) ≤ LOOP_NUM ∧
    (at_ (threads s i) ≠ Think → iter (threads s i) < LOOP_NUM);
  inv_exit : ok = true → ∀ i, valid i → exited (threads s i) ≠ None →
    exited (threads s i) = Some 0 ∧ at_ (threads s i) = Think ∧ iter (threads s i) = LOOP_NUM }.

Lemma ph_init_inv ok : ph_inv ok ph_init.
Proof.
  constructor; simpl; try done. by left.
Qed.

Lemma upd_eq {A} i (x : A) f : upd i x f i = x.
Proof. unfold upd. by rewrite Z.eqb_refl. Qed.
Lemma upd_ne {A} i j (x : A) f : j ≠ i → upd i x f j = f j.
Proof. intros Hne. unfold upd. by rewrite (proj2 (Z.eqb_neq j i)). Qed.

(** [test], as an update of the two arrays. *)
Lemma test_cases fail i s :
  (test fail i s = s ∧ blocked s i) ∨
  (state s i = hungry ∧ state s (preID i) ≠ eating ∧ state s (postID i) ≠ eating ∧
   test fail i s = PhState (if fail then ph s else upd i (ph s i + 1) (ph s)) (lock s)
                     (upd i eating (state s)) (threads s)).
Proof.
  unfold test, blocked. destruct (Z.eqb_spec (state s i) hungry); simpl; [|by left].
  destruct (Z.eqb_spec (state s (preID i)) eating); simpl; [left; split; [done|]; by left|].
  destruct (Z.eqb_spec (state s (postID i)) eating); simpl; [left; split; [done|]; by right|].
  by right.
Qed.

(** The part of the invariant on the two arrays, for philosophers other than
    those in [skip]. *)
Record tables (ok : bool) (s : ph_state) (skip : Z → Prop) : Prop := {
  tab_local : ∀ i, valid i → local ok (at_ (threads s i)) (state s i) (ph s i);
  tab_apart : ∀ i, valid i → state s i = eating → state s (postID i) ≠ eating;
  tab_hungry : ∀ i, valid i → ¬ skip i → blocked s i }.

(** [test] of [i] takes care of philosopher [i]. *)
Lemma test_tables ok fail i s skip :
  valid i → tables ok s skip → (fail = true → ok = false) →
  at_ (threads s i) = Unlock1 ∨ at_ (threads s i) = Fork ∨ state s i ≠ hungry →
  tables ok (test fail i s) (λ j, skip j ∧ j ≠ i) ∧
  threads (test fail i s) = threads s ∧ lock (test fail i s) = lock s.
Proof.
  intros Hi [Hl Ha Hh] Hok Hpl. destruct (neighbours i Hi) as (Hv1 & Hv2 & H1 & H2 & H3 & H4 & H5).
  destruct (test_cases fail i s) as [[-> Hb]|(Hx & Hpre & Hpost & ->)].
  - split; [|done]. constructor; [done..|]. intros j Hj Hs.
    destruct (decide (j = i)) as [->|Hne]; [done|]. apply Hh; [done|]. naive_solver.
  - split; [|done]. constructor; simpl.
    + intros j Hj. destruct (decide (j = i)) as [->|Hne].
      * rewrite upd_eq. specialize (Hl i Hi).
        destruct Hpl as [Hp|[Hp|Hp]]; [| |done]; rewrite Hp in *; simpl in *;
          (destruct fail; [right; right|right; left]);
          rewrite ?upd_eq; split_and!; try done; try (by apply Hok);
          destruct Hl as [[_ ->]|[[Hl _]|[_ [Hl _]]]]; try done; by rewrite Hx in Hl.
      * rewrite (upd_ne i j eating) by done. specialize (Hl j Hj).
        destruct fail; [done|]. by rewrite upd_ne.
    + intros j Hj Hj2. destruct (decide (j = i)) as [->|Hne].
      * by rewrite upd_ne.
      * rewrite upd_ne in Hj2 by done. destruct (decide (postID j = i)) as [<-|Hne2].
        -- destruct (neighbours j Hj) as (_ & _ & Hpp & _). by rewrite Hpp in Hpre.
        -- rewrite upd_ne by done. by apply Ha.
    + intros j Hj Hs. unfold blocked. simpl.
      destruct (decide (j = i)) as [->|Hne]; [by rewrite upd_eq|].
      rewrite (upd_ne i j) by done. intros Hjx.
      destruct (Hh j Hj) as [Hb|Hb]; [naive_solver|done| |].
      * left. destruct (decide (preID j = i)) as [->|]; [by rewrite upd_eq|by rewrite upd_ne].
      * right. destruct (decide (postID j = i)) as [->|]; [by rewrite upd_eq|by rewrite upd_ne].
Qed.

Lemma test_goto fail i j p s : test fail i (goto j p s) = goto j p (test fail i s).
Proof. unfold test, goto, set_thread. simpl. by case_match. Qed.

(** The scheduling part of the invariant. *)
Record sched_inv (ok : bool) (s : ph_state) : Prop := {
  sch_lock : (lock s = 1 ∧ ∀ i, valid i → holds (at_ (threads s i)) = false) ∨
             (lock s = 0 ∧ ∃ i, valid i ∧ ∀ j, valid j →
                holds (at_ (threads s j)) = bool_decide (j = i));
  sch_iter : ∀ i, valid i → 0 ≤ iter (threads s i) ≤ LOOP_NUM ∧
    (at_ (threads s i) ≠ Think → iter (threads s i) < LOOP_NUM);
  sch_exit : ok = true → ∀ i, valid i → exited (threads s i) ≠ None →
    exited (threads s i) = Some 0 ∧ at_ (threads s i) = Think ∧ iter (threads s i) = LOOP_NUM }.

Lemma inv_split ok s : ph_inv ok s ↔ tables ok s (λ _, False) ∧ sched_inv ok s.
Proof.
  split.
  - intros [A B C D E F]. by split; constructor; auto.
  - intros [[A B C] [D E F]]. constructor; auto.
Qed.

(** A thread moves without a change of the lock holder. *)
Lemma sched_move ok s s' i th :
  sched_inv ok s → valid i → lock s' = lock s → threads s' = upd i th (threads s) →
  holds (at_ th) = holds (at_ (threads s i)) →
  (0 ≤ iter th ≤ LOOP_NUM ∧ (at_ th ≠ Think → iter th < LOOP_NUM)) →
  (ok = true → exited th ≠ None → exited th = Some 0 ∧ at_ th = Think ∧ iter th = LOOP_NUM) →
  sched_inv ok s'.
Proof.
  intros [Hl Hi He] Hv Hlk Hth Hh Hit Hex.
  assert (∀ j, holds (at_ (threads s' j)) = holds (at_ (threads s j))) as Hsame.
  { intros j. rewrite Hth. destruct (decide (j = i)) as [->|Hne]; [by rewrite upd_eq|by rewrite upd_ne]. }
  constructor.
  - rewrite Hlk. destruct Hl as [[? Hn]|[? (k & Hk & Hn)]]; [left|right].
    + split; [done|]. intros j Hj. rewrite Hsame. auto.
    + split; [done|]. exists k. split; [done|]. intros j Hj. rewrite Hsame. auto.
  - intros j Hj. rewrite Hth. destruct (decide (j = i)) as [->|Hne]; [by rewrite upd_eq|].
    rewrite upd_ne by done. auto.
  - intros Hok j Hj. rewrite Hth. destruct (decide (j = i)) as [->|Hne]; [rewrite upd_eq; auto|].
    rewrite upd_ne by done. auto.
Qed.

(** A thread takes or gives back the lock. *)
Lemma sched_lock ok s s' i p n d :
  sched_inv ok s → valid i → 0 ≤ lock s + d ≤ 1 → d = 1 ∨ d = -1 →
  lock s' = lock s + d → threads s' = upd i (Thread p n None) (threads s) →
  holds p = negb (holds (at_ (threads s i))) → holds p = bool_decide (d = -1) →
  (0 ≤ n ≤ LOOP_NUM ∧ (p ≠ Think → n < LOOP_NUM)) →
  sched_inv ok s'.
Proof.
  intros [Hl Hi He] Hv Hr Hd Hlk Hth Hp Hp2 Hit. constructor.
  - destruct Hl as [[Hlk1 Hn]|[Hlk0 (k & Hk & Hn)]].
    + assert (d = -1) as -> by lia. right. split; [lia|]. exists i. split; [done|].
      intros j Hj. rewrite Hth. destruct (decide (j = i)) as [->|Hne].
      * rewrite upd_eq. simpl. rewrite Hp2. by rewrite !bool_decide_eq_true_2.
      * rewrite upd_ne, Hn by done. by rewrite bool_decide_eq_false_2.
    + assert (d = 1) as -> by lia. left. split; [lia|]. intros j Hj. rewrite Hth.
      assert (holds (at_ (threads s i)) = true) as Hhi.
      { rewrite bool_decide_eq_false_2 in Hp2 by lia. rewrite Hp in Hp2. by apply negb_false_iff. }
      assert (i = k) as -> by (rewrite Hn in Hhi by done; by apply bool_decide_eq_true in Hhi).
      destruct (decide (j = k)) as [->|Hne].
      * rewrite upd_eq. simpl. by rewrite Hp2, bool_decide_eq_false_2.
      * rewrite upd_ne, Hn by done. by rewrite bool_decide_eq_false_2.
  - intros j Hj. rewrite Hth. destruct (decide (j = i)) as [->|Hne]; [by rewrite upd_eq|].
    rewrite upd_ne by done. auto.
  - intros Hok j Hj. rewrite Hth. destruct (decide (j = i)) as [->|Hne]; [by rewrite upd_eq|].
    rewrite upd_ne by done. auto.
Qed.

(** A thread moves without a change of the arrays. *)
Lemma tables_move ok s s' i th skip :
  tables ok s skip → ph s' = ph s → state s' = state s →
  threads s' = upd i th (threads s) → local ok (at_ th) (state s i) (ph s i) →
  tables ok s' skip.
Proof.
  intros [Hl Ha Hh] Hp Hs Hth Hloc. constructor.
  - intros j Hj. rewrite Hp, Hs, Hth. destruct (decide (j = i)) as [->|Hne]; [by rewrite upd_eq|].
    rewrite upd_ne by done. auto.
  - intros j. rewrite Hs. apply Ha.
  - intros j Hj Hn. unfold blocked. rewrite Hs. by apply Hh.
Qed.

(** [state[ID] = hungry; test(ID)] *)
Lemma hungry_tables ok fail i s :
  valid i → tables ok s (λ _, False) → (fail = true → ok = false) →
  at_ (threads s i) = Hungry →
  tables ok (goto i Unlock1 (test fail i (set_state i hungry s))) (λ _, False).
Proof.
  intros Hi [Hl Ha Hh] Hok Hp. rewrite <- test_goto.
  destruct (neighbours i Hi) as (Hv1 & Hv2 & H1 & H2 & H3 & H4 & H5).
  pose proof (Hl i Hi) as Hli. rewrite Hp in Hli. destruct Hli as [Hx Hv].
  set (s1 := goto i Unlock1 (set_state i hungry s)).
  assert (tables ok s1 (λ j, j = i)) as Ht.
  { constructor; simpl.
    - intros j Hj. destruct (decide (j = i)) as [->|Hne].
      + rewrite !upd_eq. simpl. by left.
      + rewrite !upd_ne by done. auto.
    - intros j Hj. destruct (decide (j = i)) as [->|Hne]; [by rewrite upd_eq|].
      rewrite (upd_ne i j) by done. intros He. destruct (decide (postID j = i)) as [->|];
        [by rewrite upd_eq|]. rewrite upd_ne by done. by apply Ha.
    - intros j Hj Hne. unfold blocked. simpl. rewrite (upd_ne i j) by done. intros Hjx.
      destruct (Hh j Hj) as [Hb|Hb]; [by intros []|done|left|right];
        (rewrite upd_ne; [done|]); intros Heq; rewrite Heq in Hb; rewrite Hx in Hb; done. }
  destruct (test_tables ok fail i s1 (λ j, j = i)) as [[A B C] _]; [done..| |].
  { left. simpl. by rewrite upd_eq. }
  constructor; [done..|]. intros j Hj _. apply C; [done|]. naive_solver.
Qed.

(** [state[ID] = thinking; test(pre); test(post)] *)
Lemma putdown_tables ok fail i s :
  valid i → tables ok s (λ _, False) → (fail = true → ok = false) →
  at_ (threads s i) = PutDown →
  tables ok (goto i Unlock2 (test fail (postID i) (test fail (preID i) (set_state i thinking s))))
    (λ _, False).
Proof.
  intros Hi [Hl Ha Hh] Hok Hp. rewrite <- !test_goto.
  destruct (neighbours i Hi) as (Hv1 & Hv2 & H1 & H2 & H3 & H4 & H5).
  pose proof (Hl i Hi) as Hli. rewrite Hp in Hli. destruct Hli as [Hx Hv].
  set (s1 := goto i Unlock2 (set_state i thinking s)).
  assert (∀ ok' s' skip k, tables ok' s' skip → valid k →
    at_ (threads s' k) = Unlock1 ∨ at_ (threads s' k) = Fork ∨ state s' k ≠ hungry) as Hplace.
  { intros ok' s' skip k [Hl' _ _] Hk. specialize (Hl' k Hk).
    destruct (at_ (threads s' k)); simpl in Hl'; auto; right; right;
      destruct Hl' as [-> _]; done. }
  assert (tables ok s1 (λ j, j = preID i ∨ j = postID i)) as Ht.
  { constructor; simpl.
    - intros j Hj. destruct (decide (j = i)) as [->|Hne].
      + rewrite !upd_eq. by simpl.
      + rewrite !upd_ne by done. auto.
    - intros j Hj. destruct (decide (j = i)) as [->|Hne]; [by rewrite upd_eq|].
      rewrite (upd_ne i j) by done. intros He. destruct (decide (postID j = i)) as [->|];
        [by rewrite upd_eq|]. rewrite upd_ne by done. by apply Ha.
    - intros j Hj Hne. unfold blocked. simpl.
      destruct (decide (j = i)) as [->|Hji]; [by rewrite upd_eq|].
      destruct (neighbours j Hj) as (_ & _ & G1 & G2 & _).
      rewrite !upd_ne; [apply Hh; [done|by intros []]|..|done]; intros Heq; apply Hne; rewrite <- Heq; auto. }
  destruct (test_tables ok fail (preID i) s1 _ Hv1 Ht Hok) as [Ht2 _]; [by eapply Hplace|].
  destruct (test_tables ok fail (postID i) (test fail (preID i) s1) _ Hv2 Ht2 Hok)
    as [[A B C] _]; [by eapply Hplace|].
  constructor; [done..|]. intros j Hj _. apply C; [done|]. naive_solver.
Qed.

Lemma lock_range ok s : sched_inv ok s → lock s = 0 ∨ lock s = 1.
Proof. intros [[[? _]|[? _]] _ _]; lia. Qed.

Lemma holder_lock ok s i :
  sched_inv ok s → valid i → holds (at_ (threads s i)) = true → lock s = 0.
Proof. intros [[[_ Hn]|[? _]] _ _] Hi Hh; [|done]. rewrite Hn in Hh; done. Qed.

(** The thread exits, for the end of its loop or a failed call. *)
Lemma exit_inv ok s i code :
  ph_inv ok s → valid i →
  (ok = true → code = 0 ∧ at_ (threads s i) = Think ∧ iter (threads s i) = LOOP_NUM) →
  ph_inv ok (exit_with i code s).
Proof.
  rewrite !inv_split. intros [Ht Hs] Hi Hc. split.
  - eapply tables_move; [done..|]. simpl. by apply Ht.
  - eapply sched_move; try done; simpl; [by apply Hs|].
    intros Hok _. destruct (Hc Hok) as (-> & ? & ?). done.
Qed.

Lemma wait_lock_inv ok s s' i f p :
  ph_inv ok s → valid i → (f = true → ok = false) →
  wait_lock i f p s = Some s' → holds p = true → holds (at_ (threads s i)) = false →
  iter (threads s i) < LOOP_NUM → local ok p (state s i) (ph s i) → ph_inv ok s'.
Proof.
  intros Hinv Hi Hf Hw Hp Hh Hit Hloc. unfold wait_lock in Hw.
  destruct f; [injection Hw as <-; apply exit_inv; [done..|]; intros; naive_solver|].
  destruct (Z.ltb_spec 0 (lock s)); [|done]. injection Hw as <-.
  rewrite inv_split in *. destruct Hinv as [Ht Hs]. split.
  - eapply tables_move; [exact Ht|done|done|simpl; done|done].
  - pose proof (lock_range _ _ Hs). pose proof (sch_iter _ _ Hs i Hi).
    eapply (sched_lock ok s _ i p (iter (threads s i)) (-1)); try done; simpl; try lia.
    by rewrite Hp, Hh.
Qed.

Lemma unlock_inv ok s i p n :
  ph_inv ok s → valid i → holds (at_ (threads s i)) = true → holds p = false →
  0 ≤ n ≤ LOOP_NUM ∧ (p ≠ Think → n < LOOP_NUM) → local ok p (state s i) (ph s i) →
  ph_inv ok (set_thread i (Thread p n None) (set_lock (lock s + 1) s)).
Proof.
  intros Hinv Hi Hh Hp Hn Hloc. rewrite inv_split in *. destruct Hinv as [Ht Hs].
  pose proof (holder_lock _ _ _ Hs Hi Hh). split.
  - eapply tables_move; [exact Ht|done|done|simpl; done|done].
  - eapply (sched_lock ok s _ i p n 1); try done; simpl; try lia. by rewrite Hp, Hh.
Qed.

(** The own semaphore is taken. *)
Lemma fork_inv ok s i :
  ph_inv ok s → valid i → at_ (threads s i) = Fork → 0 < ph s i →
  ph_inv ok (goto i Eat (set_ph i (ph s i - 1) s)).
Proof.
  intros Hinv Hi Hp Hv. rewrite inv_split in *. destruct Hinv as [[Hl Ha Hh] Hs].
  pose proof (Hl i Hi) as Hli. rewrite Hp in Hli. split.
  - constructor; simpl; [|done|done]. intros j Hj. destruct (decide (j = i)) as [->|Hne].
    + rewrite !upd_eq. simpl. simpl in Hli. split; [|lia]. naive_solver lia.
    + rewrite !upd_ne by done. auto.
  - pose proof (sch_iter _ _ Hs i Hi) as [H1 H2]. rewrite Hp in H2.
    eapply sched_move; try done; simpl; [by rewrite Hp|]. split; [done|]. intros _. by apply H2.
Qed.

Lemma ph_step_inv ok t f s s' :
  ph_inv ok s → (f = true → ok = false) → ph_step t f s = Some s' → ph_inv ok s'.
Proof.
  intros Hinv Hf. unfold ph_step. destruct (Z.leb_spec PH_NUM (Z.of_nat t)); [done|].
  set (i := Z.of_nat t). assert (valid i) as Hi by (unfold valid, i; lia).
  destruct (exited (threads s i)) eqn:Hex; [done|]. unfold philosopher.
  pose proof (inv_local _ _ Hinv i Hi) as Hl. pose proof (inv_iter _ _ Hinv i Hi) as [Hit1 Hit2].
  pose proof Hinv as [Htab Hsch]%inv_split.
  destruct (at_ (threads s i)) eqn:Hp; simpl in Hl.
  - destruct (Z.ltb_spec (iter (threads s i)) LOOP_NUM).
    + intros Hw. eapply wait_lock_inv; try done. by rewrite Hp.
    + intros [= <-]. apply exit_inv; [done..|]. intros _. split_and!; [done|done|lia].
  - intros [= <-]. apply inv_split. split; [by apply hungry_tables|].
    destruct (test_tables ok f i (goto i Unlock1 (set_state i hungry s)) (λ _, True))
      as (_ & Hth & Hlk); [done| |done|left; simpl; by rewrite upd_eq|].
    { constructor; simpl; [| |done].
      - intros j Hj. destruct (decide (j = i)) as [->|Hne]; [rewrite !upd_eq; simpl; left; naive_solver|].
        rewrite !upd_ne by done. by apply Htab.
      - intros j Hj. destruct (decide (j = i)) as [->|Hne]; [by rewrite upd_eq|].
        rewrite (upd_ne i j) by done. intros He. destruct (decide (postID j = i)) as [->|];
          [by rewrite upd_eq|]. rewrite upd_ne by done. by apply Htab. }
    rewrite <- test_goto. eapply sched_move; [exact Hsch|exact Hi|by rewrite Hlk|by rewrite Hth|..];
      simpl; [by rewrite Hp|split; [done|intros _; by apply Hit2]|done].
  - destruct f; intros [= <-]; [apply exit_inv; [done..|]; naive_solver|].
    apply unlock_inv; try done; [by rewrite Hp|]. split; [done|intros _; by apply Hit2].
  - destruct f; [intros [= <-]; apply exit_inv; [done..|]; naive_solver|].
    destruct (Z.ltb_spec 0 (ph s i)); [|done]. intros [= <-]. by apply fork_inv.
  - intros Hw. eapply wait_lock_inv; try done; [by rewrite Hp|by apply Hit2].
  - intros [= <-]. apply inv_split. split; [by apply putdown_tables|].
    assert (∀ k s0, threads (test f k s0) = threads s0 ∧ lock (test f k s0) = lock s0) as Htest.
    { intros k s0. destruct (test_cases f k s0) as [[-> _]|(_ & _ & _ & ->)]; done. }
    eapply sched_move; [exact Hsch|exact Hi| | |..]; simpl;
      [by rewrite (proj2 (Htest _ _)), (proj2 (Htest _ _))|
       by rewrite (proj1 (Htest _ _)), (proj1 (Htest _ _))|by rewrite Hp| |done].
    rewrite ?(proj1 (Htest _ _)). simpl. split; [done|intros _; by apply Hit2].
  - destruct f; intros [= <-]; [apply exit_inv; [done..|]; naive_solver|].
    specialize (Hit2 ltac:(done)). apply unlock_inv; try done; [by rewrite Hp|].
    split; [lia|done].
Qed.

(** C10. Under every interleaving, and whatever calls fail, two neighbours never
    eat at the same time, and only one thread at a time is inside the lock. *)
Theorem neighbours_never_eat sched i j :
  let s := run ph_step sched ph_init in
  valid i → valid j →
  (at_ (threads s i) = Eat ∨ at_ (threads s i) = PutDown →
   at_ (threads s (postID i)) ≠ Eat ∧ at_ (threads s (postID i)) ≠ PutDown) ∧
  (holds (at_ (threads s i)) = true → holds (at_ (threads s j)) = true → i = j).
Proof.
  intros s Hi Hj. assert (ph_inv false s) as Hinv.
  { apply run_inv; [intros; by eapply ph_step_inv|apply ph_init_inv]. }
  destruct Hinv as [Hl Ha _ Hlk _ _].
  destruct (neighbours i Hi) as (_ & Hv & _). split.
  - intros Hp. assert (state s i = eating) as Hx.
    { specialize (Hl i Hi). destruct Hp as [Hp|Hp]; rewrite Hp in Hl; by destruct Hl. }
    specialize (Ha i Hi Hx). specialize (Hl (postID i) Hv).
    split; intros Hq; rewrite Hq in Hl; by destruct Hl.
  - destruct Hlk as [[_ Hn]|[_ (k & _ & Hn)]]; [by rewrite Hn by done|].
    rewrite !Hn by done. rewrite !bool_decide_eq_true. congruence.
Qed.

(** ** Progress *)

Definition left_steps (th : thread) : Z :=
  match exited th with
  | Some _ => 0
  | None => 7 * (LOOP_NUM - iter th) + 1 -
      match at_ th with
      | Think => 0 | Hungry => 1 | Unlock1 => 2 | Fork => 3 | Eat => 4 | PutDown => 5 | Unlock2 => 6
      end
  end.

Definition total_left (s : ph_state) : Z :=
  sumf (λ i, left_steps (threads s i)) [0; 1; 2; 3; 4].

Lemma valid_elem i : valid i ↔ i ∈ [0; 1; 2; 3; 4].
Proof.
  unfold valid, PH_NUM. rewrite list_elem_of_In. simpl. split; [lia|].
  intros [<-|[<-|[<-|[<-|[<-|[]]]]]]; lia.
Qed.

Lemma total_left_upd s s' i th :
  valid i → threads s' = upd i th (threads s) →
  total_left s' = total_left s - left_steps (threads s i) + left_steps th.
Proof.
  intros Hi Hth. unfold total_left. rewrite Hth.
  unfold valid, PH_NUM in Hi.
  assert (i = 0 ∨ i = 1 ∨ i = 2 ∨ i = 3 ∨ i = 4) as Hc by lia.
  destruct Hc as [-> | [-> | [-> | [-> | ->]]]]; simpl; unfold upd; simpl; lia.
Qed.

Lemma ph_progress t s s' :
  ph_inv true s → ph_step t false s = Some s' → ph_inv true s' ∧ total_left s' < total_left s.
Proof.
  intros Hinv Hstep. split; [by eapply ph_step_inv|]. revert Hstep.
  unfold ph_step. destruct (Z.leb_spec PH_NUM (Z.of_nat t)); [done|].
  set (i := Z.of_nat t). assert (valid i) as Hi by (unfold valid, i; lia).
  destruct (exited (threads s i)) eqn:Hex; [done|]. unfold philosopher, wait_lock.
  pose proof (inv_iter _ _ Hinv i Hi) as [Hit1 Hit2].
  assert (∀ k s0, threads (test false k s0) = threads s0) as Htest.
  { intros k s0. destruct (test_cases false k s0) as [[-> _]|(_ & _ & _ & ->)]; done. }
  assert (∀ th s1, threads s1 = upd i th (threads s) → left_steps th < left_steps (threads s i) →
            total_left s1 < total_left s) as Hdone.
  { intros th s1 Hth Hlt. rewrite (total_left_upd s s1 i th) by done. lia. }
  destruct (at_ (threads s i)) eqn:Hp; try specialize (Hit2 ltac:(done));
    repeat bool_case; intros; simplify_eq/=; (eapply Hdone; [simpl; rewrite ?Htest; reflexivity|]);
    simpl; rewrite ?Htest; simpl; unfold left_steps; rewrite Hex, Hp; simpl; lia.
Qed.

Lemma total_left_nonneg s : ph_inv true s → 0 ≤ total_left s.
Proof.
  intros Hinv. unfold total_left.
  assert (∀ i, valid i → 0 ≤ left_steps (threads s i)) as Hn.
  { intros i Hi. pose proof (inv_iter _ _ Hinv i Hi) as [H1 H2]. unfold left_steps.
    destruct (exited (threads s i)); [lia|]. destruct (at_ (threads s i));
      try specialize (H2 ltac:(done)); lia. }
  simpl. pose proof (Hn 0). pose proof (Hn 1). pose proof (Hn 2). pose proof (Hn 3).
  pose proof (Hn 4). unfold valid, PH_NUM in *. lia.
Qed.

(** A thread that cannot move is blocked on the lock or on its own semaphore. *)
Lemma ph_stuck_thread s i :
  stuck ph_step s → ph_inv true s → valid i → exited (threads s i) = None →
  (lock s = 0 ∧ (at_ (threads s i) = Think ∨ at_ (threads s i) = Eat)) ∨
  (ph s i = 0 ∧ at_ (threads s i) = Fork).
Proof.
  intros Hst Hinv Hi Hex. specialize (Hst (Z.to_nat i)). unfold ph_step in Hst.
  unfold valid, PH_NUM in Hi. rewrite Z2Nat.id in Hst by lia. unfold PH_NUM in Hst.
  rewrite (proj2 (Z.leb_gt 5 i)), Hex in Hst by lia.
  pose proof (inv_local _ _ Hinv i Hi) as Hl.
  apply inv_split in Hinv as [_ Hs]. pose proof (lock_range _ _ Hs).
  unfold philosopher, wait_lock in Hst.
  destruct (at_ (threads s i)); simpl in *; repeat bool_case; simplify_eq/=; try (left; split; [lia|auto]).
  right. split; [|done]. naive_solver lia.
Qed.

(** When no thread can move, all have ended. *)
Lemma ph_stuck_done s i :
  ph_inv true s → stuck ph_step s → valid i → exited (threads s i) = Some 0.
Proof.
  intros Hinv Hst Hi. pose proof Hinv as [Hl _ Hh Hlk _ Hexit].
  assert (∀ j, valid j → holds (at_ (threads s j)) = false) as Hnohold.
  { intros j Hj. destruct (exited (threads s j)) eqn:Hex.
    - destruct (Hexit eq_refl j Hj) as (_ & -> & _); [by rewrite Hex|done].
    - destruct (ph_stuck_thread s j Hst Hinv Hj Hex) as [[_ [-> | ->]]|[_ ->]]; done. }
  assert (lock s = 1) as Hone.
  { destruct Hlk as [[? _]|[_ (k & Hk & Hn)]]; [done|]. specialize (Hn k Hk).
    rewrite Hnohold, bool_decide_eq_true_2 in Hn; done. }
  destruct (exited (threads s i)) eqn:Hex.
  { destruct (Hexit eq_refl i Hi) as (Hz & _); [by rewrite Hex|]. by rewrite Hex in Hz. }
  exfalso.
  destruct (ph_stuck_thread s i Hst Hinv Hi Hex) as [[? _]|[Hv Hp]]; [lia|].
  assert (state s i = hungry) as Hhu.
  { pose proof (Hl i Hi) as Hli. rewrite Hp in Hli. simpl in Hli. naive_solver lia. }
  destruct (neighbours i Hi) as (Hv1 & Hv2 & _).
  assert (∀ j, valid j → state s j = eating → False) as Hno.
  { intros j Hj Hx. specialize (Hl j Hj). destruct (exited (threads s j)) eqn:Hexj.
    - destruct (Hexit eq_refl j Hj) as (_ & Hpj & _); [by rewrite Hexj|].
      rewrite Hpj in Hl. destruct Hl as [Hl _]. by rewrite Hx in Hl.
    - destruct (ph_stuck_thread s j Hst Hinv Hj Hexj) as [[? _]|[Hvj Hpj]]; [lia|].
      rewrite Hpj in Hl. simpl in Hl. rewrite Hx in Hl.
      destruct Hl as [[? _]|[[_ ?]|[? _]]]; [done|lia|done]. }
  destruct (Hh i Hi Hhu) as [Hb|Hb]; eauto.
Qed.

(** C27. When no call fails the philosophers cannot deadlock: every schedule has
    at most 705 steps, in a state in which no thread can move each of the five
    has eaten 20 times and exited with 0, and [main] then returns PTS_PASS. *)
Theorem philosophers_finish sched :
  all_ok sched →
  let s := run ph_step sched ph_init in
  Z.of_nat (moves ph_step sched ph_init) ≤ 705 ∧
  (stuck ph_step s →
     (∀ i, valid i → exited (threads s i) = Some 0 ∧ iter (threads s i) = LOOP_NUM) ∧
     ph_main true true sched = Some PTS_PASS).
Proof.
  intros Hok s. split.
  - exact (moves_bounded_ok ph_step (ph_inv true) total_left ph_progress total_left_nonneg
             sched _ Hok (ph_init_inv true)).
  - intros Hst. assert (ph_inv true s) as Hinv.
    { apply run_ok_inv; [intros t s1 s2 H1 H2; by eapply ph_progress|done|apply ph_init_inv]. }
    assert (∀ i, valid i → exited (threads s i) = Some 0) as Hall by (intros; by apply ph_stuck_done).
    split.
    + intros i Hi. split; [by apply Hall|].
      by apply (inv_exit _ _ Hinv eq_refl i Hi); rewrite Hall.
    + unfold ph_main. fold s. simpl. rewrite !Hall by (unfold valid, PH_NUM; lia). done.
Qed.

(** Each philosopher in turn, for as long as needed. *)
Definition demo_sched : list (nat * bool) :=
  concat (replicate 400 [(0%nat, false); (1%nat, false); (2%nat, false); (3%nat, false); (4%nat, false)]).

Lemma philosophers_finish_witness :
  let s := run ph_step demo_sched ph_init in
  Z.of_nat (moves ph_step demo_sched ph_init) ≤ 705 ∧
  (stuck ph_step s →
     (∀ i, valid i → exited (threads s i) = Some 0 ∧ iter (threads s i) = LOOP_NUM) ∧
     ph_main true true demo_sched = Some PTS_PASS).
Proof.
  apply philosophers_finish. unfold all_ok. apply (bool_decide_unpack _). vm_compute. exact I.
Defined.

Lemma neighbours_never_eat_witness :
  let s := run ph_step ((2%nat, true) :: demo_sched) ph_init in
  (at_ (threads s 0) = Eat ∨ at_ (threads s 0) = PutDown →
   at_ (threads s (postID 0)) ≠ Eat ∧ at_ (threads s (postID 0)) ≠ PutDown) ∧
  (holds (at_ (threads s 0)) = true → holds (at_ (threads s 3)) = true → 0 = 3).
Proof. apply neighbours_never_eat; unfold valid, PH_NUM; lia. Defined.
End Ph.
