(* ===== verification/ReaderWriter.v ===== *)
(** * Readers and writers

    src/functional/semaphores/sem_readerwriter.c: ten readers that count
    themselves under [r_lock], the first and the last of which take and give
    back [w_lock] for all of them, and fifteen writers under [w_lock]. Threads
    0 to 9 are the readers, 10 to 24 the writers; the steps are the semaphore
    calls and the accesses to the shared variables. *)

From stdpp Require Import base tactics numbers list.
From S2P Require Import Prelude Lts ConPro.

Open Scope Z_scope.

Module Rw.
Definition READ_NUM : nat := 10.
Definition WRITE_NUM : nat := 15.

(** The places of [reader] and [writer]. *)
Inductive place : Set :=
| RWait1 | REnter | RWaitW | RPost1 | RRead | RWait2 | RLeave | RPostW | RPost2
| WWait | WWrite | WPost.

Record thread : Set := Thread { at_ : place; exited : option Z }.

Record rw_state : Set := RwState {
  r_lock : Z; w_lock : Z; reader_count : Z; data : Z;
  threads : list thread;
  seen : list Z }.

Definition set_locks (r w : Z) (s : rw_state) : rw_state :=
  RwState r w (reader_count s) (data s) (threads s) (seen s).
Definition set_count (n : Z) (s : rw_state) : rw_state :=
  RwState (r_lock s) (w_lock s) n (data s) (threads s) (seen s).
Definition goto (t : nat) (p : place) (s : rw_state) : rw_state :=
  RwState (r_lock s) (w_lock s) (reader_count s) (data s)
    (<[t := Thread p None]> (threads s)) (seen s).
Definition exit_at (t : nat) (p : place) (code : Z) (s : rw_state) : rw_state :=
  RwState (r_lock s) (w_lock s) (reader_count s) (data s)
    (<[t := Thread p (Some code)]> (threads s)) (seen s).

Definition wait_r (t : nat) (fail : bool) (p q : place) (s : rw_state) : option rw_state :=
  if fail then Some (exit_at t p 1 s)
  else if 0 <? r_lock s then Some (goto t q (set_locks (r_lock s - 1) (w_lock s) s))
  else None.
Definition wait_w (t : nat) (fail : bool) (p q : place) (s : rw_state) : option rw_state :=
  if fail then Some (exit_at t p 1 s)
  else if 0 <? w_lock s then Some (goto t q (set_locks (r_lock s) (w_lock s - 1) s))
  else None.

(** [seen] records what [read_fun] prints. *)
Definition reader (t : nat) (fail : bool) (p : place) (s : rw_state) : option rw_state :=
  match p with
  | RWait1 => wait_r t fail RWait1 REnter s
  | REnter =>
      let n := reader_count s + 1 in
      Some (goto t (if n =? 1 then RWaitW else RPost1) (set_count n s))
  | RWaitW => wait_w t fail RWaitW RPost1 s
  | RPost1 =>
      if fail then Some (exit_at t RPost1 1 s)
      else Some (goto t RRead (set_locks (r_lock s + 1) (w_lock s) s))
  | RRead =>
      Some (goto t RWait2 (RwState (r_lock s) (w_lock s) (reader_count s) (data s)
                             (threads s) (seen s ++ [data s])))
  | RWait2 => wait_r t fail RWait2 RLeave s
  | RLeave =>
      let n := reader_count s - 1 in
      Some (goto t (if n =? 0 then RPostW else RPost2) (set_count n s))
  | RPostW =>
      if fail then Some (exit_at t RPostW 1 s)
      else Some (goto t RPost2 (set_locks (r_lock s) (w_lock s + 1) s))
  | RPost2 =>
      if fail then Some (exit_at t RPost2 1 s)
      else Some (exit_at t RWait1 0 (set_locks (r_lock s + 1) (w_lock s) s))
  | _ => None
  end.

Definition writer (t : nat) (fail : bool) (p : place) (s : rw_state) : option rw_state :=
  match p with
  | WWait => wait_w t fail WWait WWrite s
  | WWrite =>
      let ID := Z.of_nat t - Z.of_nat READ_NUM in
      Some (goto t WPost (RwState (r_lock s) (w_lock s) (reader_count s) (100 * ID + ID)
                            (threads s) (seen s)))
  | WPost =>
      if fail then Some (exit_at t WPost 1 s)
      else Some (exit_at t WWait 0 (set_locks (r_lock s) (w_lock s + 1) s))
  | _ => None
  end.

Definition rw_step (t : nat) (fail : bool) (s : rw_state) : option rw_state :=
  match threads s !! t with
  | Some (Thread p None) =>
      if (t <? READ_NUM)%nat then reader t fail p s else writer t fail p s
  | _ => None
  end.

(** The state when [main] has created the threads. *)
Definition rw_init : rw_state :=
  RwState 1 1 0 0
    (replicate READ_NUM (Thread RWait1 None) ++ replicate WRITE_NUM (Thread WWait None)) [].

(** [main]: [init_ok] and [destroy_ok] are the results of the two [sem_init]
    and the two [sem_destroy] calls. *)
Definition rw_main (init_ok destroy_ok : bool * bool) (sched : list (nat * bool)) : option Z :=
  if negb (fst init_ok) then Some PTS_UNRESOLVED
  else if negb (snd init_ok) then Some PTS_UNRESOLVED
  else
    let s := run rw_step sched rw_init in
    if forallb (λ th, match exited th with Some _ => true | None => false end) (threads s)
    then Some (if negb (fst destroy_ok) then PTS_UNRESOLVED
               else if negb (snd destroy_ok) then PTS_UNRESOLVED else PTS_PASS)
    else None.

(** ** The invariant *)

(** Holders of [r_lock], counted readers, the reader that waits for [w_lock]
    on behalf of all, the reader that gives it back, and the writer inside. *)
Definition hr (th : thread) : Z :=
  match at_ th with REnter | RWaitW | RPost1 | RLeave | RPostW | RPost2 => 1 | _ => 0 end.
Definition counted (th : thread) : Z :=
  match at_ th with RWaitW | RPost1 | RRead | RWait2 | RLeave => 1 | _ => 0 end.
Definition first (th : thread) : Z := match at_ th with RWaitW => 1 | _ => 0 end.
Definition last (th : thread) : Z := match at_ th with RPostW => 1 | _ => 0 end.
Definition hw (th : thread) : Z := match at_ th with WWrite | WPost => 1 | _ => 0 end.

(** The readers as a group hold [w_lock]. *)
Definition group (s : rw_state) : Z :=
  (if reader_count s =? 0 then 0 else 1) - sumf first (threads s) + sumf last (threads s).

Definition is_reader (p : place) : bool :=
  match p with WWait | WWrite | WPost => false | _ => true end.

Record rw_inv (s : rw_state) : Prop := {
  inv_r : r_lock s = 1 - sumf hr (threads s) ∧ 0 ≤ r_lock s;
  inv_w : w_lock s = 1 - sumf hw (threads s) - group s ∧ 0 ≤ w_lock s;
  inv_count : reader_count s = sumf counted (threads s);
  inv_first : sumf first (threads s) = 0 ∨ (sumf first (threads s) = 1 ∧ reader_count s = 1);
  inv_last : sumf last (threads s) = 0 ∨ (sumf last (threads s) = 1 ∧ reader_count s = 0);
  inv_kind : ∀ t th, threads s !! t = Some th → is_reader (at_ th) = bool_decide (t < READ_NUM)%nat;
  inv_data : Forall (λ d, ∃ k, d = 101 * k) (data s :: seen s) }.

Lemma rw_init_inv : rw_inv rw_init.
Proof.
  constructor; try (vm_compute; intuition congruence).
  - intros t th. unfold rw_init; cbn [threads]. rewrite lookup_app.
    destruct (replicate READ_NUM (Thread RWait1 None) !! t) as [x|] eqn:E.
    + intros [= <-]. apply lookup_replicate in E as [-> Ht]. by rewrite bool_decide_eq_true_2.
    + apply lookup_replicate_None in E. rewrite length_replicate.
      intros [-> _]%lookup_replicate. rewrite bool_decide_eq_false_2 by lia. done.
  - simpl. constructor; [by exists 0|constructor].
Qed.

Lemma rw_fields_nonneg th :
  0 ≤ hr th ≤ 1 ∧ 0 ≤ counted th ≤ 1 ∧ 0 ≤ first th ≤ hr th ∧ 0 ≤ last th ≤ hr th ∧ 0 ≤ hw th ≤ 1.
Proof. destruct th as [[] ?]; unfold hr, counted, first, last, hw; simpl; lia. Qed.

(** The sums after thread [t] moves from [th] to [th']. *)
Lemma rw_sums_move s t th th' l' :
  threads s !! t = Some th → l' = <[t := th']> (threads s) →
  sumf hr l' = sumf hr (threads s) - hr th + hr th' ∧
  sumf counted l' = sumf counted (threads s) - counted th + counted th' ∧
  sumf first l' = sumf first (threads s) - first th + first th' ∧
  sumf last l' = sumf last (threads s) - last th + last th' ∧
  sumf hw l' = sumf hw (threads s) - hw th + hw th'.
Proof. intros Ht ->. split_and!; by apply sumf_insert. Qed.

(** What the sums say about a thread that holds [r_lock]. *)
Lemma sums_bounds s t th :
  threads s !! t = Some th →
  hr th ≤ sumf hr (threads s) ∧ counted th ≤ sumf counted (threads s) ∧
  first th ≤ sumf first (threads s) ∧ last th ≤ sumf last (threads s) ∧
  hw th ≤ sumf hw (threads s) ∧
  0 ≤ sumf first (threads s) ∧ 0 ≤ sumf last (threads s) ∧
  sumf first (threads s) + sumf last (threads s) ≤ sumf hr (threads s) ∧
  sumf first (threads s) ≤ sumf counted (threads s) ∧
  hr th - first th ≤ sumf hr (threads s) - sumf first (threads s) ∧
  hr th - last th ≤ sumf hr (threads s) - sumf last (threads s).
Proof.
  intros Ht.
  assert (∀ f, (∀ a, 0 ≤ f a ≤ hr a) → hr th - f th ≤ sumf hr (threads s) - sumf f (threads s))
    as Hdiff.
  { intros f Hf. pose proof (sumf_elem (λ a, hr a - f a) (threads s) t th) as He.
    assert (sumf (λ a, hr a - f a) (threads s) = sumf hr (threads s) - sumf f (threads s)) as Hs.
    { clear. induction (threads s) as [|a l IH]; simpl; lia. }
    rewrite Hs in He. apply He; [|done]. intros a. specialize (Hf a). lia. }
  split_and!; try (apply sumf_elem with t; [intros a; apply rw_fields_nonneg|done]);
    try (apply sumf_nonneg; intros a; apply rw_fields_nonneg).
  - clear. induction (threads s) as [|a l IH]; simpl; [lia|].
    pose proof (rw_fields_nonneg a).
    assert (first a + last a ≤ hr a) by (destruct a as [[] ?]; unfold hr, first, last; simpl; lia). lia.
  - apply sumf_ext_le. intros a _. destruct a as [[] ?]; unfold first, counted; simpl; lia.
  - apply Hdiff. intros a. pose proof (rw_fields_nonneg a). lia.
  - apply Hdiff. intros a. pose proof (rw_fields_nonneg a). lia.
Qed.

Lemma group_move s s' t th th' :
  threads s !! t = Some th → threads s' = <[t := th']> (threads s) →
  group s' = (if reader_count s' =? 0 then 0 else 1)
             - (sumf first (threads s) - first th + first th')
             + (sumf last (threads s) - last th + last th').
Proof.
  intros Ht Hth. destruct (rw_sums_move s t th th' _ Ht Hth) as (_ & _ & Sf & Sl & _).
  unfold group. by rewrite Sf, Sl.
Qed.

(** A step as a move of one thread: the arithmetic of the invariant. *)
Lemma move_inv s s' t th th' :
  rw_inv s → threads s !! t = Some th → threads s' = <[t := th']> (threads s) →
  is_reader (at_ th') = is_reader (at_ th) →
  r_lock s' = r_lock s + hr th - hr th' → 0 ≤ r_lock s' →
  reader_count s' = reader_count s - counted th + counted th' →
  w_lock s' = w_lock s + hw th - hw th' + group s
    - ((if reader_count s' =? 0 then 0 else 1)
       - (sumf first (threads s) - first th + first th')
       + (sumf last (threads s) - last th + last th')) → 0 ≤ w_lock s' →
  (first th' = 1 → reader_count s' = 1 ∧ hr th = 1) →
  (last th' = 1 → reader_count s' = 0 ∧ hr th = 1) →
  reader_count s' = reader_count s ∨ (hr th = 1 ∧ first th = 0 ∧ last th = 0) →
  Forall (λ d, ∃ k, d = 101 * k) (data s' :: seen s') →
  rw_inv s'.
Proof.
  intros [[Hr Hr0] [Hw Hw0] Hc Hf Hl Hk Hd] Ht Hth Hkind Er Er0 Ec Ew Ew0 Ef1 El1 Hcnt Hd'.
  destruct (rw_sums_move s t th th' _ Ht Hth) as (Sr & Sc & Sf & Sl & Sw).
  destruct (sums_bounds s t th Ht) as (Br & Bc & Bf & Bl & Bw & B1 & B2 & B3 & B4 & B5 & B6).
  pose proof (rw_fields_nonneg th). pose proof (rw_fields_nonneg th').
  constructor.
  - rewrite Sr. lia.
  - rewrite Sw, (group_move s s' t th th') by done. lia.
  - rewrite Sc. lia.
  - rewrite Sf. assert (first th' = 0 ∨ first th' = 1) as [Hz|Hz] by lia; rewrite Hz in *.
    + assert (first th = 0 ∨ first th = 1) as [Hz2|Hz2] by lia; rewrite Hz2 in *.
      * destruct Hcnt as [Hcnt|(? & ? & ?)], Hf as [?|[? ?]]; lia.
      * left. destruct Hf; lia.
    + right. destruct (Ef1 eq_refl). destruct Hf as [Hf|[Hf _]]; lia.
  - rewrite Sl. assert (last th' = 0 ∨ last th' = 1) as [Hz|Hz] by lia; rewrite Hz in *.
    + assert (last th = 0 ∨ last th = 1) as [Hz2|Hz2] by lia; rewrite Hz2 in *.
      * destruct Hcnt as [Hcnt|(? & ? & ?)], Hl as [?|[? ?]]; lia.
      * left. destruct Hl; lia.
    + right. destruct (El1 eq_refl). destruct Hl as [Hl|[Hl _]]; lia.
  - intros t' th0. rewrite Hth. destruct (decide (t = t')) as [<-|Hne].
    + rewrite list_lookup_insert_eq by (by eapply lookup_lt_Some). intros [= <-].
      rewrite Hkind. by apply Hk.
    + rewrite list_lookup_insert_ne by done. apply Hk.
  - done.
Qed.

(** Evaluates the contributions of threads at a known place. *)
Ltac eval_fields :=
  repeat match goal with
  | |- context [?f (Thread ?p ?e)] =>
      lazymatch type of (f (Thread p e)) with
      | Z => let v := eval vm_compute in (f (Thread p e)) in
             progress change (f (Thread p e)) with v
      end
  | H : context [?f (Thread ?p ?e)] |- _ =>
      lazymatch type of (f (Thread p e)) with
      | Z => let v := eval vm_compute in (f (Thread p e)) in
             progress change (f (Thread p e)) with v in H
      end
  end.

(** Discharges the arithmetic of one step by [move_inv]. *)
Ltac move_step Hinv Ht :=
  eapply (move_inv _ _ _ _ _ Hinv Ht); [simpl; reflexivity|..];
  unfold group; eval_fields; simpl in *; repeat bool_case; try done; try lia;
  try (split; [lia|lia]); try (left; lia); try (right; lia).

Lemma rw_step_inv t f s s' : rw_inv s → rw_step t f s = Some s' → rw_inv s'.
Proof.
  intros Hinv. unfold rw_step. destruct (threads s !! t) as [[p [e|]]|] eqn:Ht; try done.
  pose proof Hinv as [[Hr Hr0] [Hw Hw0] Hc Hf Hl Hk Hd].
  destruct (sums_bounds s t _ Ht) as (Br & Bc & Bf & Bl & Bw & B1 & B2 & B3 & B4 & B5 & B6).
  unfold group in Hw. unfold reader, writer, wait_r, wait_w. intros Hstep.
  destruct (t <? READ_NUM)%nat.
  - destruct p; try done; destruct f; repeat bool_case; simplify_eq/=; move_step Hinv Ht;
      (apply Forall_cons in Hd as [Hd1 Hd2]; constructor; [done|];
       apply Forall_app; split; [done|]; by constructor).
  - destruct p; try done; destruct f; repeat bool_case; simplify_eq/=; move_step Hinv Ht;
      (apply Forall_cons in Hd as [Hd1 Hd2]; constructor; [|done];
       exists (Z.of_nat t - Z.of_nat READ_NUM); lia).
Qed.

(** C25. Under every interleaving, and whatever calls fail: while a reader is
    between its two critical sections no writer is writing, at most one writer
    writes at a time, at most one reader is inside [r_lock], and every value
    read is one that a writer wrote as a whole (or the initial 0). *)
Theorem readers_exclude_writers sched t u th uh :
  let s := run rw_step sched rw_init in
  threads s !! t = Some th → threads s !! u = Some uh →
  (at_ th = RRead ∨ at_ th = RWait2 → at_ uh ≠ WWrite ∧ at_ uh ≠ WPost) ∧
  (hw th = 1 → hw uh = 1 → t = u) ∧ (hr th = 1 → hr uh = 1 → t = u) ∧
  Forall (λ d, ∃ k, d = 101 * k) (seen s).
Proof.
  intros s Ht Hu. assert (rw_inv s) as [[Hr Hr0] [Hw Hw0] Hc Hf Hl Hk Hd].
  { apply run_inv; [apply rw_step_inv|apply rw_init_inv]. }
  destruct (sums_bounds s t th Ht) as (Br & Bc & Bf & Bl & Bw & B1 & B2 & B3 & B4 & B5 & B6).
  assert (0 ≤ group s) as Hg.
  { unfold group. destruct (Z.eqb_spec (reader_count s) 0); destruct Hf as [?|[? ?]]; lia. }
  split_and!.
  - intros Hp.
    assert (counted th = 1 ∧ first th = 0) as [Hc1 Hf1]
      by (destruct th as [p ?]; simpl in Hp; destruct Hp as [-> | ->]; done).
    assert (sumf first (threads s) = 0) as Hf0.
    { destruct Hf as [?|[Hone Hcnt]]; [done|].
      pose proof (sumf_elem (λ a, counted a - first a) (threads s) t th) as He.
      assert (sumf (λ a, counted a - first a) (threads s) =
              sumf counted (threads s) - sumf first (threads s)) as Hs.
      { clear. induction (threads s) as [|a l IH]; simpl; lia. }
      rewrite Hs in He.
      assert (∀ a, 0 ≤ counted a - first a) as Hcf
        by (intros [[] ?]; unfold counted, first; simpl; lia).
      specialize (He Hcf Ht). lia. }
    assert (group s = 1 + sumf last (threads s)) as Hg1.
    { unfold group. destruct (Z.eqb_spec (reader_count s) 0); lia. }
    assert (hw uh = 0) as Hz.
    { pose proof (sumf_elem hw (threads s) u uh (λ a, proj1 (proj2 (proj2 (proj2 (proj2 (rw_fields_nonneg a)))))) Hu).
      pose proof (rw_fields_nonneg uh). lia. }
    destruct uh as [[] ?]; done.
  - intros H1 H2. destruct (decide (t = u)) as [|Hne]; [done|]. exfalso.
    assert (hw th + hw uh ≤ sumf hw (threads s)); [|lia].
    eapply sumf_two; [|exact Hne|done|done]. intros a. apply rw_fields_nonneg.
  - intros H1 H2. destruct (decide (t = u)) as [|Hne]; [done|]. exfalso.
    assert (hr th + hr uh ≤ sumf hr (threads s)); [|lia].
    eapply sumf_two; [|exact Hne|done|done]. intros a. apply rw_fields_nonneg.
  - by apply Forall_cons in Hd as [_ ?].
Qed.

(** ** Progress *)

Definition left_steps (th : thread) : Z :=
  match exited th with
  | Some _ => 0
  | None =>
      match at_ th with
      | RWait1 => 9 | REnter => 8 | RWaitW => 7 | RPost1 => 6 | RRead => 5 | RWait2 => 4
      | RLeave => 3 | RPostW => 2 | RPost2 => 1 | WWait => 3 | WWrite => 2 | WPost => 1
      end
  end.

(** Runs without failures: threads exit at the end only. *)
Definition rw_ok (s : rw_state) : Prop :=
  rw_inv s ∧ ∀ t th, threads s !! t = Some th → exited th ≠ None →
    exited th = Some 0 ∧ (at_ th = RWait1 ∨ at_ th = WWait).

Lemma rw_left_steps_nonneg th : 0 ≤ left_steps th.
Proof. unfold left_steps. destruct th as [[] []]; simpl; lia. Qed.

Lemma rw_progress t s s' :
  rw_ok s → rw_step t false s = Some s' →
  rw_ok s' ∧ sumf left_steps (threads s') < sumf left_steps (threads s).
Proof.
  intros [Hinv Hex] Hstep. pose proof (rw_step_inv _ _ _ _ Hinv Hstep) as Hinv'.
  revert Hstep. unfold rw_step. destruct (threads s !! t) as [[p [e|]]|] eqn:Ht; try done.
  intros Hstep.
  assert (∃ th', threads s' = <[t := th']> (threads s) ∧ left_steps th' < left_steps (Thread p None) ∧
    (exited th' ≠ None → exited th' = Some 0 ∧ (at_ th' = RWait1 ∨ at_ th' = WWait)))
    as (th' & Hth & Hlt & Hx).
  { revert Hstep. unfold reader, writer, wait_r, wait_w.
    destruct (t <? READ_NUM)%nat; destruct p; try done; repeat bool_case; intros; simplify_eq/=;
      eexists; (split; [reflexivity|]); (split; [unfold left_steps; simpl; lia|]); simpl; auto; done. }
  split; [split; [done|]|].
  - intros u uh. rewrite Hth. destruct (decide (t = u)) as [<-|Hne].
    + rewrite list_lookup_insert_eq by (by eapply lookup_lt_Some). by intros [= <-].
    + rewrite list_lookup_insert_ne by done. apply Hex.
  - rewrite Hth, (sumf_insert _ _ _ _ _ Ht). lia.
Qed.

(** A thread that cannot move waits for a semaphore that is 0. *)
Lemma rw_stuck_thread s t p :
  rw_inv s → stuck rw_step s → threads s !! t = Some (Thread p None) →
  (r_lock s = 0 ∧ (p = RWait1 ∨ p = RWait2)) ∨ (w_lock s = 0 ∧ (p = RWaitW ∨ p = WWait)).
Proof.
  intros Hinv Hst Ht. specialize (Hst t). unfold rw_step in Hst. rewrite Ht in Hst.
  pose proof (inv_kind _ Hinv t _ Ht) as Hk. simpl in Hk.
  pose proof (inv_r _ Hinv). pose proof (inv_w _ Hinv).
  unfold reader, writer, wait_r, wait_w in Hst.
  destruct (Nat.ltb_spec t READ_NUM) as [Hlt|Hlt].
  - rewrite bool_decide_eq_true_2 in Hk by done.
    destruct p; try done; repeat bool_case; simplify_eq/=;
      [left; split; [lia|auto]|right; split; [lia|auto]|left; split; [lia|auto]].
  - rewrite bool_decide_eq_false_2 in Hk by lia.
    destruct p; try done; repeat bool_case; simplify_eq/=. right. split; [lia|auto].
Qed.

Lemma rw_stuck_done s t th :
  rw_ok s → stuck rw_step s → threads s !! t = Some th → exited th = Some 0.
Proof.
  intros [Hinv Hex] Hst Ht. pose proof Hinv as [[Hr Hr0] [Hw Hw0] Hc Hf Hl Hk Hd].
  (* what a thread can contribute when nothing moves *)
  assert (∀ u uh, threads s !! u = Some uh → hw uh = 0 ∧ last uh = 0 ∧ (hr uh = first uh)) as Hcon.
  { intros u [p e] Hu. destruct e as [e|].
    - destruct (Hex u _ Hu) as [_ [Hp|Hp]]; [done|..]; simpl in Hp; by rewrite Hp.
    - destruct (rw_stuck_thread s u p Hinv Hst Hu) as [[_ [-> | ->]]|[_ [-> | ->]]]; done. }
  assert (∀ f : thread → Z, (∀ u uh, threads s !! u = Some uh → f uh = 0) → sumf f (threads s) = 0)
    as Hzero.
  { intros f. clear. induction (threads s) as [|a l IH]; intros Hz; [done|]. simpl.
    rewrite (Hz 0%nat a) by done. rewrite IH; [done|]. intros u uh Hu. by apply (Hz (S u) uh). }
  assert (sumf hw (threads s) = 0) as Hw1 by (apply Hzero; intros; by eapply Hcon).
  assert (sumf last (threads s) = 0) as Hl1 by (apply Hzero; intros; by eapply Hcon).
  assert (w_lock s = 1 → sumf first (threads s) = 0) as Hf1.
  { intros Hone. apply Hzero. intros u [p e] Hu. destruct e as [e|].
    - destruct (Hex u _ Hu) as [_ [Hp|Hp]]; [done|..]; simpl in Hp; by rewrite Hp.
    - destruct (rw_stuck_thread s u p Hinv Hst Hu) as [[_ [-> | ->]]|[? _]]; [done..|lia]. }
  assert (sumf first (threads s) = 0) as Hf0.
  { unfold group in Hw. destruct Hf as [?|[Hone Hcnt]]; [done|]. apply Hf1. rewrite Hcnt in Hw.
    simpl in Hw. lia. }
  assert (sumf hr (threads s) = 0) as Hr1.
  { apply Hzero. intros u uh Hu. destruct (Hcon u uh Hu) as (_ & _ & ->).
    eapply sumf_zero; [|exact Hf0|exact Hu]. intros a. apply rw_fields_nonneg. }
  assert (sumf counted (threads s) = 0) as Hc0.
  { apply Hzero. intros u [p e] Hu. destruct e as [e|].
    - destruct (Hex u _ Hu) as [_ [Hp|Hp]]; [done|..]; simpl in Hp; by rewrite Hp.
    - destruct (rw_stuck_thread s u p Hinv Hst Hu) as [[? _]|[_ [-> | ->]]]; [lia| |done].
      exfalso. pose proof (sumf_elem first (threads s) u _
        (λ a, proj1 (proj1 (proj2 (proj2 (rw_fields_nonneg a))))) Hu) as He.
      change (first (Thread RWaitW None)) with 1 in He. lia. }
  destruct th as [p [e|]]; [by apply (Hex t _ Ht)|].
  exfalso. unfold group in Hw. rewrite Hc, Hc0 in Hw. simpl in Hw.
  destruct (rw_stuck_thread s t p Hinv Hst Ht) as [[? _]|[? _]]; lia.
Qed.

Lemma rw_init_ok : rw_ok rw_init.
Proof.
  split; [apply rw_init_inv|]. intros t th. unfold rw_init; cbn [threads].
  intros Ht%list_elem_of_lookup_2. apply elem_of_app in Ht as [Ht|Ht];
    apply elem_of_replicate in Ht as [-> _]; done.
Qed.

(** When no call fails the program cannot deadlock and ends: every schedule
    has at most 135 steps, a state in which no thread can move has all 25
    threads exited with 0, and [main] then returns PTS_PASS. *)
Theorem readerwriter_finishes sched :
  all_ok sched →
  let s := run rw_step sched rw_init in
  Z.of_nat (moves rw_step sched rw_init) ≤ 135 ∧
  (stuck rw_step s →
     (∀ t th, threads s !! t = Some th → exited th = Some 0) ∧
     rw_main (true, true) (true, true) sched = Some PTS_PASS).
Proof.
  intros Hok s. split.
  - exact (moves_bounded_ok rw_step rw_ok (λ s, sumf left_steps (threads s)) rw_progress
             (λ s _, sumf_nonneg left_steps (threads s) rw_left_steps_nonneg) sched _ Hok rw_init_ok).
  - intros Hst. assert (rw_ok s) as Hs.
    { apply run_ok_inv; [intros t s1 s2 H1 H2; by eapply rw_progress|done|apply rw_init_ok]. }
    assert (∀ t th, threads s !! t = Some th → exited th = Some 0) as Hall
      by (intros; by eapply rw_stuck_done).
    split; [done|]. unfold rw_main. fold s. cbn [fst snd negb].
    assert (forallb (λ th, match exited th with Some _ => true | None => false end) (threads s) = true)
      as ->; [|done].
    apply forallb_forall. intros th [t Ht]%list_elem_of_In%list_elem_of_lookup_1.
    by rewrite (Hall t th Ht).
Qed.

Definition demo_sched : list (nat * bool) :=
  concat (replicate 40 ((λ t, (t, false)) <$> seq 0 25)).

Lemma readerwriter_finishes_witness :
  let s := run rw_step demo_sched rw_init in
  Z.of_nat (moves rw_step demo_sched rw_init) ≤ 135 ∧
  (stuck rw_step s →
     (∀ t th, threads s !! t = Some th → exited th = Some 0) ∧
     rw_main (true, true) (true, true) demo_sched = Some PTS_PASS).
Proof.
  apply readerwriter_finishes. unfold all_ok. apply (bool_decide_unpack _). vm_compute. exact I.
Defined.

(** Three readers are inside. *)
Lemma readers_exclude_writers_witness :
  let sched := concat (replicate 4 [(0%nat, false)]) ++ concat (replicate 3 [(1%nat, false); (11%nat, false)]) in
  let s := run rw_step sched rw_init in
  (RRead = RRead ∨ RRead = RWait2 → WWait ≠ WWrite ∧ WWait ≠ WPost) ∧
  (hw (Thread RRead None) = 1 → hw (Thread WWait None) = 1 → 0%nat = 11%nat) ∧
  (hr (Thread RRead None) = 1 → hr (Thread WWait None) = 1 → 0%nat = 11%nat) ∧
  Forall (λ d, ∃ k, d = 101 * k) (seen s).
Proof.
  apply (readers_exclude_writers
    (concat (replicate 4 [(0%nat, false)]) ++ concat (replicate 3 [(1%nat, false); (11%nat, false)]))
    0 11 (Thread RRead None) (Thread WWait None)); vm_compute; reflexivity.
Defined.
End Rw.
