(* ===== verification/Barber.v ===== *)
(** * The sleeping barber

    src/functional/semaphores/sem_sleepingbarber.c: ten customers and a barber
    with five chairs. Threads 0 to 9 are the customers, thread 10 the barber.
    [my_printf] takes the semaphore [print], prints, and gives it back, without
    a check of the results: a thread at such a place is first not [printing]
    and then [printing]. *)

From stdpp Require Import base tactics numbers list.
From S2P Require Import Prelude Lts ConPro.

Open Scope Z_scope.

Module Barber.
Definition CHAIR_NUM : Z := 5.
Definition CUS_NUM : nat := 10.
Definition LOOP_NUM : Z := 30.

(** The places of [customers] and of [barbers], in the order of the code. *)
Inductive cplace : Set :=
| CEnter | CLock | CTest | CPost | CSit | CUnlock | CWait | CLeave | CNoChair | CUnlock2.
Inductive bplace : Set :=
| BLock1 | BCheck | BSleep | BUnlock1 | BWait | BLock2 | BDec | BCut | BUnlock2 | BPost.

Record cthread : Set := CThread { cat : cplace; cprinting : bool; cexit : option Z }.
Record bthread : Set := BThread { bat : bplace; biter : Z; bprinting : bool; bexit : option Z }.

Record sb_state : Set := SbState {
  customer : Z; barber : Z; lock : Z; print : Z;
  waiting : Z;
  cus : list cthread;
  bar : bthread }.

Definition set_sems (c b l p : Z) (s : sb_state) : sb_state :=
  SbState c b l p (waiting s) (cus s) (bar s).
Definition set_waiting (n : Z) (s : sb_state) : sb_state :=
  SbState (customer s) (barber s) (lock s) (print s) n (cus s) (bar s).
Definition set_cus (t : nat) (th : cthread) (s : sb_state) : sb_state :=
  SbState (customer s) (barber s) (lock s) (print s) (waiting s) (<[t := th]> (cus s)) (bar s).
Definition set_bar (th : bthread) (s : sb_state) : sb_state :=
  SbState (customer s) (barber s) (lock s) (print s) (waiting s) (cus s) th.

Definition cgoto (t : nat) (p : cplace) (s : sb_state) : sb_state :=
  set_cus t (CThread p false None) s.
Definition cquit (t : nat) (p : cplace) (code : Z) (s : sb_state) : sb_state :=
  set_cus t (CThread p false (Some code)) s.

(** [my_printf] of a customer at place [p]; [k] is what follows. *)
Definition cprint (t : nat) (fail printing : bool) (p : cplace)
    (k : sb_state → sb_state) (s : sb_state) : option sb_state :=
  if printing then
    Some (k (if fail then s
             else set_sems (customer s) (barber s) (lock s) (print s + 1) s))
  else if fail then Some (set_cus t (CThread p true None) s)
  else if 0 <? print s then
    Some (set_cus t (CThread p true None)
            (set_sems (customer s) (barber s) (lock s) (print s - 1) s))
  else None.

Definition customers (t : nat) (fail : bool) (th : cthread) (s : sb_state) : option sb_state :=
  match cat th with
  | CEnter => cprint t fail (cprinting th) CEnter (cgoto t CLock) s
  | CLock =>
      if fail then Some (cquit t CLock 1 s)
      else if 0 <? lock s then
        Some (cgoto t CTest (set_sems (customer s) (barber s) (lock s - 1) (print s) s))
      else None
  | CTest =>
      if waiting s <? CHAIR_NUM then Some (cgoto t CPost (set_waiting (waiting s + 1) s))
      else Some (cgoto t CNoChair s)
  | CPost =>
      if fail then Some (cquit t CPost 1 s)
      else Some (cgoto t CSit (set_sems (customer s + 1) (barber s) (lock s) (print s) s))
  | CSit => cprint t fail (cprinting th) CSit (cgoto t CUnlock) s
  | CUnlock =>
      if fail then Some (cquit t CUnlock 1 s)
      else Some (cgoto t CWait (set_sems (customer s) (barber s) (lock s + 1) (print s) s))
  | CWait =>
      if fail then Some (cquit t CWait 1 s)
      else if 0 <? barber s then
        Some (cgoto t CLeave (set_sems (customer s) (barber s - 1) (lock s) (print s) s))
      else None
  | CLeave => cprint t fail (cprinting th) CLeave (cquit t CLeave 0) s
  | CNoChair => cprint t fail (cprinting th) CNoChair (cgoto t CUnlock2) s
  | CUnlock2 =>
      if fail then Some (cquit t CUnlock2 1 s)
      else Some (cquit t CEnter 0 (set_sems (customer s) (barber s) (lock s + 1) (print s) s))
  end.

Definition bgoto (p : bplace) (s : sb_state) : sb_state :=
  set_bar (BThread p (biter (bar s)) false None) s.
Definition bquit (code : Z) (s : sb_state) : sb_state :=
  set_bar (BThread (bat (bar s)) (biter (bar s)) false (Some code)) s.

Definition bprint (fail : bool) (p : bplace) (k : sb_state → sb_state) (s : sb_state)
    : option sb_state :=
  if bprinting (bar s) then
    Some (k (if fail then s
             else set_sems (customer s) (barber s) (lock s) (print s + 1) s))
  else if fail then Some (set_bar (BThread p (biter (bar s)) true None) s)
  else if 0 <? print s then
    Some (set_bar (BThread p (biter (bar s)) true None)
            (set_sems (customer s) (barber s) (lock s) (print s - 1) s))
  else None.

Definition barbers (fail : bool) (s : sb_state) : option sb_state :=
  match bat (bar s) with
  | BLock1 =>
      if biter (bar s) <? LOOP_NUM then
        if fail then Some (bquit 1 s)
        else if 0 <? lock s then
          Some (bgoto BCheck (set_sems (customer s) (barber s) (lock s - 1) (print s) s))
        else None
      else Some (bquit 0 s)
  | BCheck => Some (bgoto (if waiting s =? 0 then BSleep else BUnlock1) s)
  | BSleep => bprint fail BSleep (bgoto BUnlock1) s
  | BUnlock1 =>
      if fail then Some (bquit 1 s)
      else Some (bgoto BWait (set_sems (customer s) (barber s) (lock s + 1) (print s) s))
  | BWait =>
      if fail then Some (bquit 1 s)
      else if 0 <? customer s then
        Some (bgoto BLock2 (set_sems (customer s - 1) (barber s) (lock s) (print s) s))
      else None
  | BLock2 =>
      if fail then Some (bquit 1 s)
      else if 0 <? lock s then
        Some (bgoto BDec (set_sems (customer s) (barber s) (lock s - 1) (print s) s))
      else None
  | BDec => Some (bgoto BCut (set_waiting (if 1 <=? waiting s then waiting s - 1 else waiting s) s))
  | BCut => bprint fail BCut (bgoto BUnlock2) s
  | BUnlock2 =>
      if fail then Some (bquit 1 s)
      else Some (bgoto BPost (set_sems (customer s) (barber s) (lock s + 1) (print s) s))
  | BPost =>
      if fail then Some (bquit 1 s)
      else Some (set_bar (BThread BLock1 (biter (bar s) + 1) false None)
             (set_sems (customer s) (barber s + 1) (lock s) (print s) s))
  end.

Definition sb_step (t : nat) (fail : bool) (s : sb_state) : option sb_state :=
  if (t =? CUS_NUM)%nat then (if bexit (bar s) then None else barbers fail s)
  else match cus s !! t with
       | Some th => if cexit th then None else customers t fail th s
       | None => None
       end.

(** The state when [main] has created the threads. *)
Definition sb_init : sb_state :=
  SbState 0 0 1 1 0 (replicate CUS_NUM (CThread CEnter false None)) (BThread BLock1 0 false None).

(** [main] joins the customers only. *)
Definition sb_main (init_ok : bool * bool * bool * bool) (sched : list (nat * bool)) : option Z :=
  let '(ok1, ok2, ok3, ok4) := init_ok in
  if negb ok1 then Some PTS_UNRESOLVED
  else if negb ok2 then Some PTS_UNRESOLVED
  else if negb ok3 then Some PTS_UNRESOLVED
  else if negb ok4 then Some PTS_UNRESOLVED
  else
    let s := run sb_step sched sb_init in
    if forallb (λ th, match cexit th with Some _ => true | None => false end) (cus s)
    then Some PTS_PASS else None.

(** ** The invariant *)

Definition holds (th : cthread) : Z :=
  match cat th with CTest | CPost | CSit | CUnlock | CNoChair | CUnlock2 => 1 | _ => 0 end.
Definition seated (th : cthread) : Z :=
  match cat th with CPost | CSit | CUnlock | CWait | CLeave => 1 | _ => 0 end.
Definition posted (th : cthread) : Z :=
  match cat th with CSit | CUnlock | CWait | CLeave => 1 | _ => 0 end.
Definition served (th : cthread) : Z := match cat th with CLeave => 1 | _ => 0 end.
Definition prints (th : cthread) : Z := if cprinting th then 1 else 0.

Definition bholds (p : bplace) : Z :=
  match p with BCheck | BSleep | BUnlock1 | BDec | BCut | BUnlock2 => 1 | _ => 0 end.
Definition bwaited (p : bplace) : Z :=
  match p with BLock2 | BDec | BCut | BUnlock2 | BPost => 1 | _ => 0 end.
Definition bdone (p : bplace) : Z := match p with BCut | BUnlock2 | BPost => 1 | _ => 0 end.

Record sb_inv (s : sb_state) : Prop := {
  inv_lock : lock s = 1 - sumf holds (cus s) - bholds (bat (bar s)) ∧ 0 ≤ lock s;
  inv_customer : customer s = sumf posted (cus s) - (biter (bar s) + bwaited (bat (bar s))) ∧
                 0 ≤ customer s;
  inv_barber : barber s = biter (bar s) - sumf served (cus s) ∧ 0 ≤ barber s;
  inv_waiting : waiting s = sumf seated (cus s) - (biter (bar s) + bdone (bat (bar s))) ∧
                0 ≤ waiting s ≤ CHAIR_NUM;
  inv_len : length (cus s) = CUS_NUM;
  inv_iter : 0 ≤ biter (bar s) }.

Lemma bb_fields_nonneg th :
  0 ≤ holds th ≤ 1 ∧ 0 ≤ served th ≤ posted th ∧ posted th ≤ seated th ≤ 1 ∧ 0 ≤ prints th ≤ 1.
Proof.
  destruct th as [[] [] ?]; unfold holds, seated, posted, served, prints; simpl; lia.
Qed.

Lemma sb_init_inv : sb_inv sb_init.
Proof. constructor; vm_compute; intuition congruence. Qed.

Lemma sum_bounds (l : list cthread) :
  0 ≤ sumf holds l ∧ 0 ≤ sumf served l ≤ sumf posted l ∧
  sumf posted l ≤ sumf seated l ≤ Z.of_nat (length l).
Proof.
  split_and!; try (apply sumf_nonneg; intros a; apply bb_fields_nonneg);
    try (apply sumf_ext_le; intros a _; apply bb_fields_nonneg).
  induction l as [|a l IH]; simpl; [lia|]. pose proof (bb_fields_nonneg a). lia.
Qed.

(** The sums after a customer moves. *)
Lemma bb_sums_move s t th th' :
  cus s !! t = Some th →
  sumf holds (<[t := th']> (cus s)) = sumf holds (cus s) - holds th + holds th' ∧
  sumf seated (<[t := th']> (cus s)) = sumf seated (cus s) - seated th + seated th' ∧
  sumf posted (<[t := th']> (cus s)) = sumf posted (cus s) - posted th + posted th' ∧
  sumf served (<[t := th']> (cus s)) = sumf served (cus s) - served th + served th' ∧
  sumf prints (<[t := th']> (cus s)) = sumf prints (cus s) - prints th + prints th'.
Proof. intros Ht. split_and!; by apply sumf_insert. Qed.

(** Evaluates the contributions of threads at a known place. *)
Ltac eval_fields :=
  repeat match goal with
  | |- context [?f (CThread ?p ?b ?e)] =>
      lazymatch type of (f (CThread p b e)) with
      | Z => let v := eval vm_compute in (f (CThread p b e)) in
             progress change (f (CThread p b e)) with v
      end
  | H : context [?f (CThread ?p ?b ?e)] |- _ =>
      lazymatch type of (f (CThread p b e)) with
      | Z => let v := eval vm_compute in (f (CThread p b e)) in
             progress change (f (CThread p b e)) with v in H
      end
  end.

Lemma customers_inv t f s th s' :
  sb_inv s → cus s !! t = Some th → customers t f th s = Some s' → sb_inv s'.
Proof.
  intros [Hl Hc Hb Hw Hn Hi] Ht Hstep. unfold CHAIR_NUM in *.
  pose proof (sumf_elem holds (cus s) t th (λ a, proj1 (proj1 (bb_fields_nonneg a))) Ht) as Bh.
  unfold customers, cprint, cgoto, cquit, set_cus, set_sems, set_waiting in Hstep.
  destruct th as [p pr e]. simpl in Hstep.
  destruct p, pr, f; simpl in Hstep; repeat bool_case; simplify_eq/=;
    match goal with |- context [<[t := ?x]> _] => destruct (bb_sums_move s t _ x Ht) as (S1 & S2 & S3 & S4 & _) end;
    constructor; simpl; rewrite ?S1, ?S2, ?S3, ?S4, ?length_insert; eval_fields;
    unfold CHAIR_NUM in *; try done; lia.
Qed.

Lemma barbers_inv f s s' : sb_inv s → barbers f s = Some s' → sb_inv s'.
Proof.
  intros [Hl Hc Hb Hw Hn Hi] Hstep. unfold CHAIR_NUM in *.
  pose proof (sum_bounds (cus s)) as (B1 & B2 & B3).
  unfold barbers, bprint in Hstep. destruct s as [c b l pr w cs [p i bp e]]; simpl in *.
  destruct p, bp, f; simpl in Hstep; repeat bool_case; simplify_eq/=;
    constructor; simpl in *; unfold CHAIR_NUM in *; try done; lia.
Qed.

Lemma sb_step_inv t f s s' : sb_inv s → sb_step t f s = Some s' → sb_inv s'.
Proof.
  intros Hinv. unfold sb_step. destruct (t =? CUS_NUM)%nat.
  - destruct (bexit (bar s)); [done|]. by apply barbers_inv.
  - destruct (cus s !! t) as [th|] eqn:Ht; [|done]. destruct (cexit th); [done|].
    by apply customers_inv.
Qed.

(** C26. Under every interleaving, and whatever calls fail: the number of
    waiting customers stays between 0 and the number of chairs and counts
    exactly those that sat down and were not yet called by the barber, the
    barber never serves more customers than have announced themselves, and
    only one thread is inside the lock. *)
Theorem barber_shop_safe sched :
  let s := run sb_step sched sb_init in
  0 ≤ waiting s ≤ CHAIR_NUM ∧
  waiting s = sumf seated (cus s) - (biter (bar s) + bdone (bat (bar s))) ∧
  biter (bar s) + bwaited (bat (bar s)) ≤ sumf posted (cus s) ∧
  sumf served (cus s) ≤ biter (bar s) ∧
  sumf holds (cus s) + bholds (bat (bar s)) ≤ 1.
Proof.
  intros s. assert (sb_inv s) as [Hl Hc Hb Hw Hn Hi].
  { apply run_inv; [apply sb_step_inv|apply sb_init_inv]. }
  split_and!; lia.
Qed.

(** ** Progress *)

Definition print_place (p : cplace) : bool :=
  match p with CEnter | CSit | CLeave | CNoChair => true | _ => false end.
Definition bprint_place (p : bplace) : bool :=
  match p with BSleep | BCut => true | _ => false end.
Definition bprints (th : bthread) : Z := if bprinting th then 1 else 0.

(** Runs without failures. *)
Record sb_ok (s : sb_state) : Prop := {
  ok_inv : sb_inv s;
  ok_print : print s = 1 - sumf prints (cus s) - bprints (bar s) ∧ 0 ≤ print s;
  ok_cus : ∀ t th, cus s !! t = Some th →
    (cprinting th = true → print_place (cat th) = true) ∧
    match cexit th with
    | None => True
    | Some c => c = 0 ∧ cprinting th = false ∧ (cat th = CEnter ∨ cat th = CLeave)
    end;
  ok_bar : (bprinting (bar s) = true → bprint_place (bat (bar s)) = true) ∧ bexit (bar s) = None }.

Lemma sb_init_ok : sb_ok sb_init.
Proof.
  constructor; [apply sb_init_inv|vm_compute; intuition congruence| |by simpl].
  intros t th. unfold sb_init; cbn [cus]. intros [-> _]%lookup_replicate. done.
Qed.

Definition left_cus (th : cthread) : Z :=
  match cexit th with
  | Some _ => 0
  | None =>
      match cat th with
      | CEnter => 15 | CLock => 13 | CTest => 12 | CPost => 11 | CSit => 10 | CUnlock => 8
      | CWait => 7 | CLeave => 6 | CNoChair => 11 | CUnlock2 => 9
      end - (if cprinting th then 1 else 0)
  end.

Definition left_bar (th : bthread) : Z :=
  13 * (LOOP_NUM - biter th) +
  match bat th with
  | BLock1 => 12 | BCheck => 11 | BSleep => 10 | BUnlock1 => 8 | BWait => 7 | BLock2 => 6
  | BDec => 5 | BCut => 4 | BUnlock2 => 2 | BPost => 1
  end - (if bprinting th then 1 else 0).

Definition left_steps (s : sb_state) : Z := sumf left_cus (cus s) + left_bar (bar s).

Lemma left_cus_nonneg th : 0 ≤ left_cus th.
Proof. unfold left_cus. destruct th as [[] [] []]; simpl; lia. Qed.

(** The barber never reaches the end of his loop. *)
Lemma biter_bound s : sb_inv s → biter (bar s) + bwaited (bat (bar s)) ≤ 10.
Proof.
  intros [_ Hc _ _ Hn _]. pose proof (sum_bounds (cus s)) as (_ & _ & B).
  rewrite Hn in B. unfold CUS_NUM in B. lia.
Qed.

Lemma bb_left_steps_nonneg s : sb_ok s → 0 ≤ left_steps s.
Proof.
  intros [Hinv _ _ _]. pose proof (biter_bound s Hinv). unfold left_steps, left_bar, LOOP_NUM.
  pose proof (sumf_nonneg left_cus (cus s) left_cus_nonneg).
  destruct (bat (bar s)), (bprinting (bar s)); simpl in *; lia.
Qed.

Lemma customers_progress t s th s' :
  sb_ok s → cus s !! t = Some th → cexit th = None → customers t false th s = Some s' →
  sb_ok s' ∧ left_steps s' < left_steps s.
Proof.
  intros [Hinv [Hp Hp0] Hcus Hbar] Ht Hex Hstep.
  pose proof (customers_inv _ _ _ _ _ Hinv Ht Hstep) as Hinv'.
  destruct (Hcus t th Ht) as [Hpl _].
  assert (∃ th', cus s' = <[t := th']> (cus s) ∧ bar s' = bar s ∧
    left_cus th' < left_cus th ∧ print s' = print s + prints th - prints th' ∧ 0 ≤ print s' ∧
    (cprinting th' = true → print_place (cat th') = true) ∧
    match cexit th' with
    | None => True
    | Some c => c = 0 ∧ cprinting th' = false ∧ (cat th' = CEnter ∨ cat th' = CLeave)
    end) as (th' & Hcs & Hbs & Hlt & Hpr & Hpr0 & Hnew).
  { clear Hinv' Hcus. unfold customers, cprint in Hstep. destruct th as [p pr e]. simpl in *. subst e.
    destruct p, pr; simpl in *; try (specialize (Hpl eq_refl); done);
      repeat bool_case; simplify_eq/=; eexists; (split; [reflexivity|]);
      unfold left_cus, prints; simpl; split_and!; auto; try lia; try done. }
  split.
  - constructor; [done| | |by rewrite Hbs].
    + rewrite Hcs, Hbs, (sumf_insert _ _ _ _ _ Ht). lia.
    + intros u uh. rewrite Hcs. destruct (decide (t = u)) as [<-|Hne].
      * rewrite list_lookup_insert_eq by (by eapply lookup_lt_Some). by intros [= <-].
      * rewrite list_lookup_insert_ne by done. apply Hcus.
  - unfold left_steps. rewrite Hcs, Hbs, (sumf_insert _ _ _ _ _ Ht). lia.
Qed.

Lemma barbers_progress s s' :
  sb_ok s → barbers false s = Some s' → sb_ok s' ∧ left_steps s' < left_steps s.
Proof.
  intros [Hinv [Hp Hp0] Hcus [Hbp Hbe]] Hstep.
  pose proof (barbers_inv _ _ _ Hinv Hstep) as Hinv'. pose proof (biter_bound s Hinv) as Hbb.
  assert (cus s' = cus s ∧ left_bar (bar s') < left_bar (bar s) ∧
    print s' = print s + bprints (bar s) - bprints (bar s') ∧ 0 ≤ print s' ∧
    (bprinting (bar s') = true → bprint_place (bat (bar s')) = true) ∧ bexit (bar s') = None)
    as (Hcs & Hlt & Hpr & Hpr0 & Hnew).
  { clear Hinv' Hcus Hinv. unfold barbers, bprint in Hstep. unfold left_bar, bprints, LOOP_NUM in *.
    destruct s as [c b l pr w cs [p i bp e]]; simpl in *. subst e.
    destruct p, bp; simpl in *; try (specialize (Hbp eq_refl); done);
      repeat bool_case; simplify_eq/=; try lia; split_and!; auto; try lia; try done. }
  split.
  - constructor; [done|rewrite Hcs; lia|by rewrite Hcs|done].
  - unfold left_steps. rewrite Hcs. lia.
Qed.

Lemma sb_progress t s s' :
  sb_ok s → sb_step t false s = Some s' → sb_ok s' ∧ left_steps s' < left_steps s.
Proof.
  intros Hok. unfold sb_step. destruct (t =? CUS_NUM)%nat.
  - destruct (bexit (bar s)); [done|]. by apply barbers_progress.
  - destruct (cus s !! t) as [th|] eqn:Ht; [|done].
    destruct (cexit th) eqn:He; [done|]. intros Hstep. by eapply customers_progress.
Qed.

(** A customer that cannot move. *)
Lemma stuck_customer s t th :
  stuck sb_step s → cus s !! t = Some th → cexit th = None → (t < CUS_NUM)%nat →
  cprinting th = false ∨ print_place (cat th) = false →
  0 ≤ print s → 0 ≤ lock s → 0 ≤ barber s →
  (print_place (cat th) = true ∧ print s = 0) ∨ (cat th = CLock ∧ lock s = 0) ∨
  (cat th = CWait ∧ barber s = 0).
Proof.
  intros Hst Ht He Hlt Hnp Hp Hl Hb. specialize (Hst t). unfold sb_step in Hst.
  rewrite (proj2 (Nat.eqb_neq t CUS_NUM)), Ht, He in Hst by lia.
  unfold customers, cprint in Hst. destruct th as [p pr e]. simpl in *.
  destruct p; simpl in *; destruct Hnp as [->|?]; try done; repeat bool_case; simplify_eq/=; try done;
    try (left; split; [done|lia]); try (right; left; split; [done|lia]);
    (right; right; split; [done|lia]).
Qed.

Lemma stuck_barber s :
  stuck sb_step s → bexit (bar s) = None → bprinting (bar s) = false ∨ bprint_place (bat (bar s)) = false →
  0 ≤ print s → 0 ≤ lock s → 0 ≤ customer s →
  (bprint_place (bat (bar s)) = true ∧ print s = 0) ∨
  ((bat (bar s) = BLock1 ∨ bat (bar s) = BLock2) ∧ lock s = 0) ∨
  (bat (bar s) = BWait ∧ customer s = 0).
Proof.
  intros Hst He Hnp Hp Hl Hc. specialize (Hst CUS_NUM). unfold sb_step in Hst.
  rewrite Nat.eqb_refl, He in Hst. unfold barbers, bprint in Hst.
  destruct (bat (bar s)); simpl in *; destruct Hnp as [Hnp|?]; try done; try rewrite Hnp in Hst;
    repeat bool_case; simplify_eq/=; try done;
    try (left; split; [done|lia]); try (right; left; split; [auto|lia]);
    (right; right; split; [done|lia]).
Qed.

(** A thread in the middle of [my_printf] can always go on. *)
Lemma stuck_no_printing s :
  sb_ok s → stuck sb_step s →
  (∀ t th, cus s !! t = Some th → cprinting th = false) ∧ bprinting (bar s) = false.
Proof.
  intros [Hinv _ Hcus [Hb Hbe]] Hst. split.
  - intros t th Ht. destruct (cprinting th) eqn:Hpr; [|done]. exfalso.
    destruct (Hcus t th Ht) as [Hpl Hx]. specialize (Hpl Hpr).
    assert (cexit th = None) as He by (destruct (cexit th); [destruct Hx as (_ & Hx & _); congruence|done]).
    specialize (Hst t). unfold sb_step in Hst.
    assert (t < CUS_NUM)%nat as Hlt by (rewrite <- (inv_len _ Hinv); by eapply lookup_lt_Some).
    rewrite (proj2 (Nat.eqb_neq t CUS_NUM)), Ht, He in Hst by lia.
    unfold customers, cprint in Hst. rewrite Hpr in Hst. by destruct (cat th).
  - destruct (bprinting (bar s)) eqn:Hpr; [|done]. exfalso. specialize (Hb eq_refl).
    specialize (Hst CUS_NUM). unfold sb_step in Hst. rewrite Nat.eqb_refl, Hbe in Hst.
    unfold barbers, bprint in Hst. rewrite Hpr in Hst. by destruct (bat (bar s)).
Qed.

(** When nothing moves, the customers are gone and the barber sleeps. *)
Lemma sb_stuck_done s :
  sb_ok s → stuck sb_step s →
  (∀ t th, cus s !! t = Some th → cexit th = Some 0) ∧
  bexit (bar s) = None ∧ bat (bar s) = BWait ∧ customer s = 0.
Proof.
  intros Hok Hst. destruct (stuck_no_printing s Hok Hst) as [Hnp Hnb].
  pose proof Hok as [Hinv [Hpr Hpr0] Hcus [_ Hbe]].
  pose proof Hinv as [[Hl Hl0] [Hc Hc0] [Hb Hb0] _ Hn Hi].
  assert (print s = 1) as Hp1.
  { rewrite Hpr, (sumf_all_zero prints); [unfold bprints; rewrite Hnb; lia|].
    intros t th Ht. unfold prints. by rewrite (Hnp t th Ht). }
  assert (∀ t th, cus s !! t = Some th → cexit th = None →
    (cat th = CLock ∧ lock s = 0) ∨ (cat th = CWait ∧ barber s = 0)) as Hpark.
  { intros t th Ht He.
    destruct (stuck_customer s t th) as [[_ ?]|Hcase]; try done; [|by left; apply (Hnp t)|lia].
    rewrite <- Hn. by eapply lookup_lt_Some. }
  destruct (stuck_barber s Hst Hbe (or_introl Hnb) Hpr0 Hl0 Hc0) as [[_ ?]|Hbar]; [lia|].
  assert (∀ t th, cus s !! t = Some th → holds th = 0) as Hh.
  { intros t th Ht. destruct (Hcus t th Ht) as [_ Hx]. unfold holds. destruct (cexit th) eqn:He.
    - destruct Hx as (_ & _ & [-> | ->]); done.
    - destruct (Hpark t th Ht He) as [[-> _]|[-> _]]; done. }
  assert (lock s = 1) as Hl1.
  { rewrite Hl, (sumf_all_zero holds) by done.
    destruct Hbar as [[[-> | ->] _]|[-> _]]; simpl; lia. }
  destruct Hbar as [[_ ?]|[Hbw Hcz]]; [lia|].
  split; [|done]. intros t th Ht.
  destruct (cexit th) as [c|] eqn:He.
  { destruct (Hcus t th Ht) as [_ Hx]. rewrite He in Hx. by destruct Hx as [-> _]. }
  exfalso. destruct (Hpark t th Ht He) as [[_ ?]|[Hw Hbz]]; [lia|].
  pose proof (sumf_elem (λ a, posted a - served a) (cus s) t th) as Hel.
  assert (sumf (λ a, posted a - served a) (cus s) = sumf posted (cus s) - sumf served (cus s)) as Hs.
  { clear. induction (cus s) as [|a l IH]; simpl; lia. }
  rewrite Hs in Hel.
  assert (posted th - served th = 1) as Hone by (unfold posted, served; by rewrite Hw).
  assert (∀ a, 0 ≤ posted a - served a) as Hnn by (intros a; pose proof (bb_fields_nonneg a); lia).
  specialize (Hel Hnn Ht). rewrite Hbw in Hc. simpl in Hc. lia.
Qed.

(** C28. When no call fails every customer leaves: every schedule has at most
    552 steps, in a state in which no thread can move all customers have
    exited with 0 and [main] returns PTS_PASS, while the barber, who was to
    serve 30 rounds, is asleep on the semaphore [customer] and never joined. *)
Theorem barber_shop_closes sched :
  all_ok sched →
  let s := run sb_step sched sb_init in
  Z.of_nat (moves sb_step sched sb_init) ≤ 552 ∧
  (stuck sb_step s →
     (∀ t th, cus s !! t = Some th → cexit th = Some 0) ∧
     sb_main (true, true, true, true) sched = Some PTS_PASS ∧
     bexit (bar s) = None ∧ bat (bar s) = BWait ∧ customer s = 0).
Proof.
  intros Hok s. split.
  - exact (moves_bounded_ok sb_step sb_ok left_steps sb_progress bb_left_steps_nonneg
             sched _ Hok sb_init_ok).
  - intros Hst. assert (sb_ok s) as Hs.
    { apply run_ok_inv; [intros t s1 s2 H1 H2; by eapply sb_progress|done|apply sb_init_ok]. }
    destruct (sb_stuck_done s Hs Hst) as (Hall & Hbar). split; [done|]. split; [|done].
    unfold sb_main. fold s.
    assert (forallb (λ th, match cexit th with Some _ => true | None => false end) (cus s) = true)
      as ->; [|done].
    apply forallb_forall. intros th [t Ht]%list_elem_of_In%list_elem_of_lookup_1.
    by rewrite (Hall t th Ht).
Qed.

Definition demo_sched : list (nat * bool) :=
  concat (replicate 120 ((λ t, (t, false)) <$> seq 0 11)).

Lemma barber_shop_closes_witness :
  let s := run sb_step demo_sched sb_init in
  Z.of_nat (moves sb_step demo_sched sb_init) ≤ 552 ∧
  (stuck sb_step s →
     (∀ t th, cus s !! t = Some th → cexit th = Some 0) ∧
     sb_main (true, true, true, true) demo_sched = Some PTS_PASS ∧
     bexit (bar s) = None ∧ bat (bar s) = BWait ∧ customer s = 0).
Proof.
  apply barber_shop_closes. unfold all_ok. apply (bool_decide_unpack _). vm_compute. exact I.
Defined.
End Barber.
