(* ===== verification/MultiConPro.v ===== *)
(** * Many producers and consumers

    src/stress/semaphores/multi_con_pro.c: [num] producers, each of which adds
    four items and then -1 to a ring buffer of five slots, and [num] consumers,
    each of which takes items until it gets a -1. Semaphores: [full] (free
    slots, in spite of its name), [empty] (filled slots), [lock]. The printed
    items are the lists [added] and [taken]. *)

From stdpp Require Import base tactics numbers list.
From S2P Require Import Prelude Lts ConPro.

Open Scope Z_scope.

Module Multi.
Definition BUF_SIZE : Z := 5.
Definition Max_Num : Z := 5.
Definition Max_Threads : Z := 127.

Inductive pplace : Set := PWait | PValue | PLock | PWork | PUnlock | PRelease.
Inductive cplace : Set := CWait | CLock | CWork | CUnlock | CRelease | CValue.

(** [pi] counts the rounds of a producer, the last one for -1 included. *)
Record pthread : Set := PThread { pat : pplace; pi : Z; pexit : option Z }.
Record cthread : Set := CThread { cat : cplace; cdata : Z; cexit : option Z }.

Record mc_state : Set := McState {
  buffer : list Z; in_ : Z; out_ : Z;
  full : Z; empty : Z; lock : Z;
  prods : list pthread; cons : list cthread;
  added : list Z; taken : list Z }.

Definition set_sems (f e l : Z) (s : mc_state) : mc_state :=
  McState (buffer s) (in_ s) (out_ s) f e l (prods s) (cons s) (added s) (taken s).
Definition set_prod (t : nat) (th : pthread) (s : mc_state) : mc_state :=
  McState (buffer s) (in_ s) (out_ s) (full s) (empty s) (lock s)
    (<[t := th]> (prods s)) (cons s) (added s) (taken s).
Definition set_cons (t : nat) (th : cthread) (s : mc_state) : mc_state :=
  McState (buffer s) (in_ s) (out_ s) (full s) (empty s) (lock s)
    (prods s) (<[t := th]> (cons s)) (added s) (taken s).

(** What producer [t] adds in round [i]. *)
Definition item (t : nat) (i : Z) : Z :=
  if i <? Max_Num - 1 then 100 * Z.of_nat t + i else -1.

Definition producer (t : nat) (fail : bool) (th : pthread) (s : mc_state) : option mc_state :=
  let go p s := set_prod t (PThread p (pi th) None) s in
  let quit s := Some (set_prod t (PThread (pat th) (pi th) (Some 1)) s) in
  match pat th with
  | PWait =>
      if pi th <? Max_Num then
        if fail then quit s
        else if 0 <? full s then Some (go PValue (set_sems (full s - 1) (empty s) (lock s) s))
        else None
      else Some (set_prod t (PThread PWait (pi th) (Some 0)) s)
  | PValue => if fail then quit s else Some (go PLock s)
  | PLock =>
      if fail then quit s
      else if 0 <? lock s then Some (go PWork (set_sems (full s) (empty s) (lock s - 1) s))
      else None
  | PWork =>
      Some (go PUnlock
        (McState (<[Z.to_nat (in_ s) := item t (pi th)]> (buffer s))
           (Z.rem (in_ s + 1) BUF_SIZE) (out_ s) (full s) (empty s) (lock s)
           (prods s) (cons s) (added s ++ [item t (pi th)]) (taken s)))
  | PUnlock =>
      if fail then quit s else Some (go PRelease (set_sems (full s) (empty s) (lock s + 1) s))
  | PRelease =>
      if fail then quit s
      else Some (set_prod t (PThread PWait (pi th + 1) None)
             (set_sems (full s) (empty s + 1) (lock s) s))
  end.

Definition consumer (t : nat) (fail : bool) (th : cthread) (s : mc_state) : option mc_state :=
  let go p s := set_cons t (CThread p (cdata th) None) s in
  let quit s := Some (set_cons t (CThread (cat th) (cdata th) (Some 1)) s) in
  match cat th with
  | CWait =>
      if fail then quit s
      else if 0 <? empty s then Some (go CLock (set_sems (full s) (empty s - 1) (lock s) s))
      else None
  | CLock =>
      if fail then quit s
      else if 0 <? lock s then Some (go CWork (set_sems (full s) (empty s) (lock s - 1) s))
      else None
  | CWork =>
      let data := default 0 (buffer s !! Z.to_nat (out_ s)) in
      Some (set_cons t (CThread CUnlock data None)
        (McState (buffer s) (in_ s) (Z.rem (out_ s + 1) BUF_SIZE) (full s) (empty s) (lock s)
           (prods s) (cons s) (added s) (taken s ++ [data])))
  | CUnlock =>
      if fail then quit s else Some (go CRelease (set_sems (full s) (empty s) (lock s + 1) s))
  | CRelease =>
      if fail then quit s else Some (go CValue (set_sems (full s + 1) (empty s) (lock s) s))
  | CValue =>
      if fail then quit s
      else if negb (cdata th =? -1) then Some (go CWait s)
      else Some (set_cons t (CThread CValue (cdata th) (Some 0)) s)
  end.

(** Threads 0 to [num] - 1 are the consumers, then come the producers. *)
Definition mc_step (num : nat) (t : nat) (fail : bool) (s : mc_state) : option mc_state :=
  if (t <? num)%nat then
    match cons s !! t with
    | Some th => match cexit th with Some _ => None | None => consumer t fail th s end
    | None => None
    end
  else
    match prods s !! (t - num)%nat with
    | Some th => match pexit th with Some _ => None | None => producer (t - num) fail th s end
    | None => None
    end.

(** The state when [main] has created the threads. *)
Definition mc_init (num : nat) (junk : list Z) : mc_state :=
  McState junk 0 0 BUF_SIZE 0 1 (replicate num (PThread PWait 0 None))
    (replicate num (CThread CWait 0 None)) [] [].

(** [main]: [argc] and the number that [atoi] gives for the argument; [init_ok]
    are the results of the first [sem_init], of [sem_getvalue] and of the
    other two [sem_init] calls. *)
Definition mc_main (argc arg : Z) (init_ok : bool * bool * bool * bool) (junk : list Z)
    (sched : list (nat * bool)) : option Z :=
  let '(ok1, ok2, ok3, ok4) := init_ok in
  if negb (argc =? 2) || (arg <=? 0) then Some PTS_FAIL
  else
    let num := Z.to_nat (if Max_Threads <? arg then Max_Threads else arg) in
    if negb ok1 then Some PTS_UNRESOLVED
    else if negb ok2 then Some PTS_UNRESOLVED
    else if negb ok3 then Some PTS_UNRESOLVED
    else if negb ok4 then Some PTS_UNRESOLVED
    else
      let s := run (mc_step num) sched (mc_init num junk) in
      if forallb (λ th, match cexit th with Some _ => true | None => false end) (cons s)
         && forallb (λ th, match pexit th with Some _ => true | None => false end) (prods s)
      then Some PTS_PASS else None.

(** ** The invariant *)

(** A slot reserved but not filled, a filled slot not yet announced, the lock,
    and the rounds that have added their item. *)
Definition reserved (th : pthread) : Z := match pat th with PValue | PLock | PWork => 1 | _ => 0 end.
Definition unposted (th : pthread) : Z := match pat th with PUnlock | PRelease => 1 | _ => 0 end.
Definition pholds (th : pthread) : Z := match pat th with PWork | PUnlock => 1 | _ => 0 end.
Definition busy (th : pthread) : Z := match pat th with PWait => 0 | _ => 1 end.
Definition adds (th : pthread) : Z := pi th + unposted th.
(** The item -1 was added. *)
Definition ended (th : pthread) : Z := if Max_Num <=? adds th then 1 else 0.

(** An item claimed but not fetched, a fetched slot not yet released, the lock,
    and whether the consumer has its -1. *)
Definition claimed (th : cthread) : Z := match cat th with CLock | CWork => 1 | _ => 0 end.
Definition unreleased (th : cthread) : Z := match cat th with CUnlock | CRelease => 1 | _ => 0 end.
Definition cholds (th : cthread) : Z := match cat th with CWork | CUnlock => 1 | _ => 0 end.
Definition got (th : cthread) : Z := if cdata th =? -1 then 1 else 0.

Definition ends (l : list Z) : Z := sumf (λ d, if d =? -1 then 1 else 0) l.

Definition stored (s : mc_state) : Z := Z.of_nat (length (added s)).
Definition fetched (s : mc_state) : Z := Z.of_nat (length (taken s)).

Record mc_inv (num : nat) (s : mc_state) : Prop := {
  inv_full : full s = BUF_SIZE - (stored s + sumf reserved (prods s))
                      + (fetched s - sumf unreleased (cons s)) ∧ 0 ≤ full s;
  inv_empty : empty s = (stored s - sumf unposted (prods s))
                        - (fetched s + sumf claimed (cons s)) ∧ 0 ≤ empty s;
  inv_lock : lock s = 1 - sumf pholds (prods s) - sumf cholds (cons s) ∧ 0 ≤ lock s;
  inv_stored : stored s = sumf adds (prods s);
  inv_in : in_ s = Z.rem (stored s) BUF_SIZE;
  inv_out : out_ s = Z.rem (fetched s) BUF_SIZE;
  inv_length : length (buffer s) = 5%nat;
  inv_data : ∀ j, fetched s ≤ j < stored s →
    buffer s !! Z.to_nat (Z.rem j BUF_SIZE) = added s !! Z.to_nat j;
  inv_taken : taken s `prefix_of` added s;
  inv_ends : ends (added s) = sumf ended (prods s);
  inv_got : ends (taken s) = sumf got (cons s);
  inv_more : ∀ t th, cons s !! t = Some th →
    match cat th with CUnlock | CRelease | CValue => True | _ => cdata th ≠ -1 end;
  inv_rounds : ∀ t th, prods s !! t = Some th →
    0 ≤ pi th ∧ pi th + busy th ≤ Max_Num;
  inv_num : length (prods s) = num ∧ length (cons s) = num }.

Lemma mc_init_inv num junk : length junk = 5%nat → mc_inv num (mc_init num junk).
Proof.
  intros Hj. constructor; unfold stored, fetched, BUF_SIZE; simpl; rewrite ?sumf_replicate;
    unfold reserved, unreleased, unposted, claimed, pholds, cholds, adds, ended, got; simpl; try lia; try done.
  - unfold BUF_SIZE. lia.
  - change (unposted (PThread PWait 0 None)) with 0. lia.
  - intros t th [-> _]%lookup_replicate. done.
  - intros t th [-> _]%lookup_replicate. done.
  - by rewrite !length_replicate.
Qed.

Lemma pfields th :
  0 ≤ reserved th ∧ 0 ≤ unposted th ∧ 0 ≤ pholds th ∧ 0 ≤ ended th ∧
  pholds th ≤ reserved th + unposted th ≤ 1.
Proof.
  destruct th as [[] i e]; unfold reserved, unposted, pholds, ended; simpl; case_match; lia.
Qed.
Lemma cfields th :
  0 ≤ claimed th ∧ 0 ≤ unreleased th ∧ 0 ≤ cholds th ∧ 0 ≤ got th ≤ 1 ∧
  cholds th ≤ claimed th + unreleased th ≤ 1.
Proof.
  destruct th as [[] i e]; unfold claimed, unreleased, cholds, got; simpl; case_match; lia.
Qed.

(** Sums of the invariant are not negative. *)
Lemma sums_nonneg s :
  0 ≤ sumf reserved (prods s) ∧ 0 ≤ sumf unposted (prods s) ∧ 0 ≤ sumf pholds (prods s) ∧
  0 ≤ sumf claimed (cons s) ∧ 0 ≤ sumf unreleased (cons s) ∧ 0 ≤ sumf cholds (cons s).
Proof.
  split_and!; apply sumf_nonneg; intros a; (apply pfields || apply cfields).
Qed.

(** A producer moves without touching the buffer. *)
Lemma prod_light num s t th th' f e l :
  mc_inv num s → prods s !! t = Some th → adds th' = adds th →
  f = full s + reserved th - reserved th' → 0 ≤ f →
  e = empty s + unposted th - unposted th' → 0 ≤ e →
  l = lock s + pholds th - pholds th' → 0 ≤ l →
  (0 ≤ pi th' ∧ pi th' + busy th' ≤ Max_Num) →
  mc_inv num (set_prod t th' (set_sems f e l s)).
Proof.
  intros [A B C D E F G H I J K L M N] Ht Had Ef Hf Ee He El Hl Hr.
  constructor; simpl; try done; unfold stored, fetched in *; simpl;
    rewrite ?(sumf_insert _ _ _ _ _ Ht); try lia.
  - unfold ended in *. rewrite Had. lia.
  - intros u uh. destruct (decide (t = u)) as [<-|Hne].
    + rewrite list_lookup_insert_eq by (by eapply lookup_lt_Some). by intros [= <-].
    + rewrite list_lookup_insert_ne by done. apply M.
  - by rewrite length_insert.
Qed.

(** A consumer moves without touching the buffer. *)
Lemma cons_light num s t th th' f e l :
  mc_inv num s → cons s !! t = Some th → got th' = got th →
  f = full s + unreleased th - unreleased th' → 0 ≤ f →
  e = empty s + claimed th - claimed th' → 0 ≤ e →
  l = lock s + cholds th - cholds th' → 0 ≤ l →
  match cat th' with CUnlock | CRelease | CValue => True | _ => cdata th' ≠ -1 end →
  mc_inv num (set_cons t th' (set_sems f e l s)).
Proof.
  intros [A B C D E F G H I J K L M N] Ht Hg Ef Hf Ee He El Hl Hr.
  constructor; simpl; try done; unfold stored, fetched in *; simpl;
    rewrite ?(sumf_insert _ _ _ _ _ Ht); try lia.
  - intros u uh. destruct (decide (t = u)) as [<-|Hne].
    + rewrite list_lookup_insert_eq by (by eapply lookup_lt_Some). by intros [= <-].
    + rewrite list_lookup_insert_ne by done. apply L.
  - by rewrite length_insert.
Qed.

Lemma ends_snoc l d : ends (l ++ [d]) = ends l + (if d =? -1 then 1 else 0).
Proof. unfold ends. induction l as [|a l IH]; simpl; lia. Qed.

(** The item is -1 in the last round only. *)
Lemma item_end t i : 0 ≤ i < Max_Num → (item t i =? -1) = (Max_Num <=? i + 1).
Proof. unfold item, Max_Num. intros Hi. repeat bool_case; try done; lia. Qed.

(** The store into the ring. *)
Lemma mc_store_inv num s t th :
  mc_inv num s → prods s !! t = Some th → pat th = PWork →
  mc_inv num (set_prod t (PThread PUnlock (pi th) None)
    (McState (<[Z.to_nat (in_ s) := item t (pi th)]> (buffer s))
       (Z.rem (in_ s + 1) BUF_SIZE) (out_ s) (full s) (empty s) (lock s)
       (prods s) (cons s) (added s ++ [item t (pi th)]) (taken s))).
Proof.
  intros [A B C D E F G H I J K L M N] Ht Hp.
  pose proof (sums_nonneg s) as (S1 & S2 & S3 & S4 & S5 & S6).
  pose proof (M t th Ht) as [Hr1 Hr2].
  assert (pi th < Max_Num) as Hlt by (unfold busy in Hr2; rewrite Hp in Hr2; lia).
  pose proof (sumf_elem reserved (prods s) t th (λ a, proj1 (pfields a)) Ht) as Hres.
  assert (reserved th = 1 ∧ unposted th = 0 ∧ pholds th = 1) as (V1 & V2 & V3)
    by (unfold reserved, unposted, pholds; rewrite Hp; done).
  assert (adds th = pi th) as V4 by (unfold adds; lia).
  set (th' := PThread PUnlock (pi th) None).
  assert (reserved th' = 0 ∧ unposted th' = 1 ∧ pholds th' = 1 ∧ adds th' = pi th + 1)
    as (W1 & W2 & W3 & W4) by done.
  unfold stored, fetched, BUF_SIZE in *.
  constructor; simpl; unfold stored, fetched, BUF_SIZE; simpl;
    rewrite ?length_app, ?(sumf_insert _ _ _ _ _ Ht); simpl; try done; try lia.
  - rewrite E. rewrite rem_succ by lia. f_equal. lia.
  - by rewrite length_insert.
  - intros j Hj. destruct (decide (j = Z.of_nat (length (added s)))) as [->|Hne].
    + rewrite E, Nat2Z.id, lookup_app_r, Nat.sub_diag by lia. apply list_lookup_insert_eq.
      rewrite G, Z.rem_mod_nonneg by lia.
      pose proof (Z.mod_pos_bound (Z.of_nat (length (added s))) 5). lia.
    + rewrite list_lookup_insert_ne; [rewrite lookup_app_l, H by lia; done|].
      rewrite E. intros Heq. symmetry in Heq. revert Heq. apply slots_differ; lia.
  - by apply prefix_app_r.
  - rewrite ends_snoc, J, item_end by lia. change (ended th') with (if Max_Num <=? pi th + 1 then 1 else 0).
    assert (ended th = 0) as ->; [|lia].
    unfold ended. by rewrite V4, (proj2 (Z.leb_gt Max_Num (pi th))).
  - intros u uh. destruct (decide (t = u)) as [<-|Hne].
    + rewrite list_lookup_insert_eq by (by eapply lookup_lt_Some). intros [= <-].
      unfold busy. simpl. lia.
    + rewrite list_lookup_insert_ne by done. apply M.
  - by rewrite length_insert.
Qed.

(** The fetch from the ring. *)
Lemma mc_fetch_inv num s t th :
  mc_inv num s → cons s !! t = Some th → cat th = CWork →
  let data := default 0 (buffer s !! Z.to_nat (out_ s)) in
  mc_inv num (set_cons t (CThread CUnlock data None)
    (McState (buffer s) (in_ s) (Z.rem (out_ s + 1) BUF_SIZE) (full s) (empty s) (lock s)
       (prods s) (cons s) (added s) (taken s ++ [data]))).
Proof.
  intros [A B C D E F G H I J K L M N] Ht Hp data.
  pose proof (sums_nonneg s) as (S1 & S2 & S3 & S4 & S5 & S6).
  pose proof (sumf_elem claimed (cons s) t th (λ a, proj1 (cfields a)) Ht) as Hcl.
  assert (claimed th = 1 ∧ unreleased th = 0 ∧ cholds th = 1) as (V1 & V2 & V3)
    by (unfold claimed, unreleased, cholds; rewrite Hp; done).
  assert (got th = 0) as V4.
  { specialize (L t th Ht). rewrite Hp in L. unfold got. by rewrite (proj2 (Z.eqb_neq _ _) L). }
  unfold stored, fetched, BUF_SIZE in *.
  assert (added s !! length (taken s) = Some data) as Hdata.
  { unfold data. rewrite F, H by lia. rewrite Nat2Z.id.
    destruct (lookup_lt_is_Some_2 (added s) (length (taken s))) as [x Hx]; [lia|]. by rewrite Hx. }
  set (th' := CThread CUnlock data None).
  assert (claimed th' = 0 ∧ unreleased th' = 1 ∧ cholds th' = 1) as (W1 & W2 & W3) by done.
  constructor; simpl; unfold stored, fetched, BUF_SIZE; simpl;
    rewrite ?length_app, ?(sumf_insert _ _ _ _ _ Ht); simpl; try done; try lia.
  - rewrite F. rewrite rem_succ by lia. f_equal. lia.
  - intros j Hj. apply H. lia.
  - destruct I as [k Hk]. rewrite Hk, lookup_app_r, Nat.sub_diag in Hdata by lia.
    destruct k as [|x k]; [done|]. simpl in Hdata. injection Hdata as ->.
    exists k. by rewrite Hk, <- app_assoc.
  - rewrite ends_snoc, K, V4. change (got th') with (if data =? -1 then 1 else 0). lia.
  - intros u uh. destruct (decide (t = u)) as [<-|Hne].
    + rewrite list_lookup_insert_eq by (by eapply lookup_lt_Some). by intros [= <-].
    + rewrite list_lookup_insert_ne by done. apply L.
  - by rewrite length_insert.
Qed.

Lemma set_sems_same s : set_sems (full s) (empty s) (lock s) s = s.
Proof. by destruct s. Qed.

(** Closes a step that leaves the buffer alone. *)
Ltac light lem Hinv Ht :=
  match goal with
  | |- mc_inv _ (?set _ _ (set_sems _ _ _ _)) => idtac
  | |- mc_inv _ (?set ?t ?th ?s) => rewrite <- (set_sems_same s)
  end;
  eapply lem; [exact Hinv|exact Ht|..];
  unfold adds, reserved, unposted, pholds, busy, claimed, unreleased, cholds, got, Max_Num in *;
  simpl in *; try done; try lia.

Lemma mc_producer_inv num t f th s s' :
  mc_inv num s → prods s !! t = Some th → producer t f th s = Some s' → mc_inv num s'.
Proof.
  intros Hinv Ht Hstep. pose proof Hinv as [[_ A0] [_ B0] [_ C0] _ _ _ _ _ _ _ _ _ M _].
  pose proof (M t th Ht) as [Hr1 Hr2].
  unfold producer in Hstep. destruct th as [p i x]; simpl in *.
  destruct p; [| | |injection Hstep as <-; by apply (mc_store_inv num s t (PThread PWork i x))| |];
    destruct f; repeat bool_case; simplify_eq/=; light prod_light Hinv Ht.
Qed.

Lemma mc_consumer_inv num t f th s s' :
  mc_inv num s → cons s !! t = Some th → consumer t f th s = Some s' → mc_inv num s'.
Proof.
  intros Hinv Ht Hstep. pose proof Hinv as [[_ A0] [_ B0] [_ C0] _ _ _ _ _ _ _ _ L _ _].
  pose proof (L t th Ht) as Hd.
  unfold consumer in Hstep. destruct th as [p d x]; simpl in *.
  destruct p; [| |injection Hstep as <-; by apply (mc_fetch_inv num s t (CThread CWork d x))| | |];
    destruct f; simpl in *; repeat bool_case; simplify_eq/=; light cons_light Hinv Ht.
Qed.

Lemma mc_step_inv num t f s s' : mc_inv num s → mc_step num t f s = Some s' → mc_inv num s'.
Proof.
  intros Hinv. unfold mc_step. destruct (t <? num)%nat.
  - destruct (cons s !! t) as [th|] eqn:Ht; [|done]. destruct (cexit th); [done|].
    by apply mc_consumer_inv.
  - destruct (prods s !! (t - num)%nat) as [th|] eqn:Ht; [|done]. destruct (pexit th); [done|].
    by apply mc_producer_inv.
Qed.

(** ** Progress *)

(** Fewer than all contribute when one does not. *)
Lemma sumf_less {A} (f : A → Z) l t x :
  (∀ a, f a ≤ 1) → l !! t = Some x → sumf f l ≤ Z.of_nat (length l) - 1 + f x.
Proof.
  intros Hf Ht. pose proof (sumf_elem (λ a, 1 - f a) l t x) as He.
  assert (sumf (λ a, 1 - f a) l = Z.of_nat (length l) - sumf f l) as Hs.
  { clear. induction l as [|a l IH]; simpl in *; lia. }
  rewrite Hs in He. assert (∀ a, 0 ≤ 1 - f a) as Hn by (intros a; specialize (Hf a); lia).
  specialize (He Hn Ht). lia.
Qed.

Lemma ended_le th : ended th ≤ 1.
Proof. unfold ended. case_match; lia. Qed.
Lemma got_le th : got th ≤ 1.
Proof. unfold got. case_match; lia. Qed.

(** Runs without failures: threads exit at their end only, and the item that
    is added last of all is a -1. *)
Record mc_ok (num : nat) (s : mc_state) : Prop := {
  ok_inv : mc_inv num s;
  ok_prods : ∀ t th, prods s !! t = Some th → pexit th ≠ None →
    pexit th = Some 0 ∧ pat th = PWait ∧ pi th = Max_Num;
  ok_cons : ∀ t th, cons s !! t = Some th → cexit th ≠ None →
    cexit th = Some 0 ∧ cat th = CValue ∧ cdata th = -1;
  ok_last : sumf ended (prods s) = Z.of_nat num → (0 < num)%nat → last (added s) = Some (-1) }.

Lemma mc_init_ok num junk : length junk = 5%nat → mc_ok num (mc_init num junk).
Proof.
  intros Hj. constructor; [by apply mc_init_inv|..]; simpl.
  - intros t th [-> _]%lookup_replicate. done.
  - intros t th [-> _]%lookup_replicate. done.
  - rewrite sumf_replicate. unfold ended, adds, unposted. simpl. lia.
Qed.

Definition left_prod (th : pthread) : Z :=
  match pexit th with
  | Some _ => 0
  | None => 6 * (Max_Num - pi th) + 1 -
      match pat th with PWait => 0 | PValue => 1 | PLock => 2 | PWork => 3 | PUnlock => 4 | PRelease => 5 end
  end.
Definition rank (th : cthread) : Z :=
  match cexit th with
  | Some _ => 0
  | None => match cat th with CWait => 3 | CLock => 2 | CWork => 1 | CUnlock => 6 | CRelease => 5 | CValue => 4 end
  end.
Definition left_steps (num : nat) (s : mc_state) : Z :=
  sumf left_prod (prods s) + 7 * (5 * Z.of_nat num - fetched s) + sumf rank (cons s).

Lemma rank_nonneg th : 0 ≤ rank th.
Proof. unfold rank. destruct th as [[] ? []]; simpl; lia. Qed.

Lemma stored_bounds num s : mc_inv num s → fetched s ≤ stored s ≤ 5 * Z.of_nat num.
Proof.
  intros [_ _ _ D _ _ _ _ I _ _ _ M [N _]]. unfold fetched, stored in *. split.
  - apply prefix_length in I. lia.
  - rewrite D, <- N. clear -M. induction (prods s) as [|a l IH]; simpl; [lia|].
    destruct (M 0%nat a eq_refl) as [H1 H2].
    assert (adds a ≤ 5) by (unfold adds, unposted, busy, Max_Num in *; destruct (pat a); lia).
    assert (sumf adds l ≤ 5 * Z.of_nat (length l)); [|lia].
    apply IH. intros t th Ht. by apply (M (S t)).
Qed.

Lemma mc_left_steps_nonneg num s : mc_ok num s → 0 ≤ left_steps num s.
Proof.
  intros [Hinv _ _ _]. pose proof (stored_bounds num s Hinv). unfold left_steps.
  pose proof (sumf_nonneg rank (cons s) rank_nonneg).
  assert (0 ≤ sumf left_prod (prods s)); [|lia].
  destruct Hinv as [_ _ _ _ _ _ _ _ _ _ _ _ M _]. clear -M.
  induction (prods s) as [|a l IH]; simpl; [lia|].
  destruct (M 0%nat a eq_refl) as [H1 H2].
  assert (0 ≤ left_prod a)
    by (unfold left_prod, busy, Max_Num in *; destruct (pexit a), (pat a); lia).
  assert (0 ≤ sumf left_prod l); [|lia]. apply IH. intros t th Ht. by apply (M (S t)).
Qed.

Lemma mc_producer_progress num t th s s' :
  mc_ok num s → prods s !! t = Some th → pexit th = None → producer t false th s = Some s' →
  mc_ok num s' ∧ left_steps num s' < left_steps num s.
Proof.
  intros [Hinv Hps Hcs Hlast] Ht Hex Hstep.
  pose proof (mc_producer_inv _ _ _ _ _ _ Hinv Ht Hstep) as Hinv'.
  pose proof (inv_rounds _ _ Hinv t th Ht) as [Hr1 Hr2].
  assert (∃ th', prods s' = <[t := th']> (prods s) ∧ cons s' = cons s ∧ taken s' = taken s ∧
    left_prod th' < left_prod th ∧
    (pexit th' ≠ None → pexit th' = Some 0 ∧ pat th' = PWait ∧ pi th' = Max_Num) ∧
    ((added s' = added s ∧ ended th' = ended th) ∨
     (last (added s') = Some (item t (pi th)) ∧ ended th = 0 ∧
      (ended th' = 1 → item t (pi th) = -1))))
    as (th' & Hp' & Hc' & Ht' & Hlt & Hx & Had).
  { clear Hinv' Hps Hcs Hlast. unfold producer in Hstep. destruct th as [p i x]; simpl in *. subst x.
    unfold busy, Max_Num in *.
    destruct p; simpl in *; repeat bool_case; simplify_eq/=; eexists; (split; [reflexivity|]);
      (split; [done|]); (split; [done|]); (split; [unfold left_prod, Max_Num; simpl; lia|]);
      (split; [simpl; first [done|intros _; split_and!; [done|done|lia]]|]);
      try (left; split; [done|]; unfold ended, adds, unposted; simpl; f_equal; lia).
    - right. rewrite last_snoc. split; [done|].
      unfold ended, adds, unposted, item, Max_Num; simpl.
      rewrite (proj2 (Z.leb_gt 5 (i + 0))) by lia. split; [done|]. repeat bool_case; lia.
    - left. split; [done|]. unfold ended, adds, unposted; simpl.
      by replace (i + 1 + 0) with (i + 1) by lia. }
  split.
  - constructor; [done| |by rewrite Hc'|].
    + intros u uh. rewrite Hp'. destruct (decide (t = u)) as [<-|Hne].
      * rewrite list_lookup_insert_eq by (by eapply lookup_lt_Some). by intros [= <-].
      * rewrite list_lookup_insert_ne by done. apply Hps.
    + rewrite Hp', (sumf_insert _ _ _ _ _ Ht). destruct Had as [[-> Hed]|(Hl & He0 & He1)].
      * rewrite Hed. intros Hs. apply Hlast. lia.
      * intros Hs _. rewrite Hl, He1; [done|]. rewrite He0 in Hs.
        pose proof (sumf_less ended (prods s) t th ended_le Ht) as Hle.
        destruct (inv_num _ _ Hinv) as [Hn _]. rewrite Hn, He0 in Hle.
        pose proof (ended_le th'). lia.
  - unfold left_steps, fetched. rewrite Hp', Hc', Ht', (sumf_insert _ _ _ _ _ Ht). lia.
Qed.

Lemma mc_consumer_progress num t th s s' :
  mc_ok num s → cons s !! t = Some th → cexit th = None → consumer t false th s = Some s' →
  mc_ok num s' ∧ left_steps num s' < left_steps num s.
Proof.
  intros [Hinv Hps Hcs Hlast] Ht Hex Hstep.
  pose proof (mc_consumer_inv _ _ _ _ _ _ Hinv Ht Hstep) as Hinv'.
  assert (∃ th', cons s' = <[t := th']> (cons s) ∧ prods s' = prods s ∧ added s' = added s ∧
    rank th' - 7 * fetched s' < rank th - 7 * fetched s ∧
    (cexit th' ≠ None → cexit th' = Some 0 ∧ cat th' = CValue ∧ cdata th' = -1))
    as (th' & Hc' & Hp' & Ha' & Hlt & Hx).
  { clear Hinv' Hps Hcs Hlast. unfold consumer in Hstep. destruct th as [p d x]; simpl in *. subst x.
    destruct p; simpl in *; repeat bool_case; simplify_eq/=; eexists; (split; [reflexivity|]);
      (split; [done|]); (split; [done|]);
      (split; [unfold rank, fetched; simpl; rewrite ?length_app; simpl; lia|]); simpl; done. }
  split.
  - constructor; [done|by rewrite Hp'| |by rewrite Hp', Ha'].
    intros u uh. rewrite Hc'. destruct (decide (t = u)) as [<-|Hne].
    + rewrite list_lookup_insert_eq by (by eapply lookup_lt_Some). by intros [= <-].
    + rewrite list_lookup_insert_ne by done. apply Hcs.
  - unfold left_steps. rewrite Hp', Hc', (sumf_insert _ _ _ _ _ Ht). lia.
Qed.

Lemma mc_progress num t s s' :
  mc_ok num s → mc_step num t false s = Some s' →
  mc_ok num s' ∧ left_steps num s' < left_steps num s.
Proof.
  intros Hok. unfold mc_step. destruct (t <? num)%nat.
  - destruct (cons s !! t) as [th|] eqn:Ht; [|done]. destruct (cexit th) eqn:He; [done|].
    intros Hstep. by eapply mc_consumer_progress.
  - destruct (prods s !! (t - num)%nat) as [th|] eqn:Ht; [|done]. destruct (pexit th) eqn:He; [done|].
    intros Hstep. by eapply mc_producer_progress.
Qed.

(** Threads that cannot move wait for a semaphore that is 0. *)
Lemma stuck_producer num s t th :
  mc_inv num s → stuck (mc_step num) s → prods s !! t = Some th → pexit th = None →
  (pat th = PWait ∧ full s = 0 ∧ pi th < Max_Num) ∨ (pat th = PLock ∧ lock s = 0).
Proof.
  intros Hinv Hst Ht He. specialize (Hst (num + t)%nat). unfold mc_step in Hst.
  rewrite (proj2 (Nat.ltb_ge (num + t) num)) in Hst by lia.
  replace (num + t - num)%nat with t in Hst by lia. rewrite Ht, He in Hst.
  destruct (inv_full _ _ Hinv), (inv_lock _ _ Hinv). unfold producer in Hst.
  destruct (pat th); simpl in Hst; repeat bool_case; simplify_eq/=;
    [left; split_and!; [done|lia|lia]|right; split; [done|lia]].
Qed.

Lemma stuck_consumer num s t th :
  mc_inv num s → stuck (mc_step num) s → cons s !! t = Some th → cexit th = None →
  (cat th = CWait ∧ empty s = 0) ∨ (cat th = CLock ∧ lock s = 0).
Proof.
  intros Hinv Hst Ht He. specialize (Hst t). unfold mc_step in Hst.
  assert (t < num)%nat as Hlt.
  { destruct (inv_num _ _ Hinv) as [_ <-]. by eapply lookup_lt_Some. }
  rewrite (proj2 (Nat.ltb_lt t num)), Ht, He in Hst by done.
  destruct (inv_empty _ _ Hinv), (inv_lock _ _ Hinv). unfold consumer in Hst.
  destruct (cat th); simpl in Hst; repeat bool_case; simplify_eq/=;
    [left; split; [done|lia]|right; split; [done|lia]].
Qed.

Lemma sumf_all_one {A} (f : A → Z) l :
  (∀ t x, l !! t = Some x → f x = 1) → sumf f l = Z.of_nat (length l).
Proof.
  induction l as [|a l IH]; intros Hz; [done|]. simpl. rewrite (Hz 0%nat a) by done.
  rewrite IH; [lia|]. intros t x Ht. by apply (Hz (S t) x).
Qed.

(** When nothing moves no thread is inside a round. *)
Lemma stuck_quiet num s :
  mc_ok num s → stuck (mc_step num) s →
  sumf reserved (prods s) = 0 ∧ sumf unposted (prods s) = 0 ∧ sumf claimed (cons s) = 0 ∧
  sumf unreleased (cons s) = 0 ∧ lock s = 1.
Proof.
  intros [Hinv Hps Hcs _] Hst.
  assert (∀ t th, prods s !! t = Some th → pat th = PWait ∨ (pat th = PLock ∧ lock s = 0)) as Hp.
  { intros t th Ht. destruct (pexit th) eqn:He.
    - destruct (Hps t th Ht) as (_ & ? & _); [by rewrite He|auto].
    - destruct (stuck_producer num s t th) as [(? & _)|?]; auto. }
  assert (∀ t th, cons s !! t = Some th →
    cat th = CWait ∨ cat th = CValue ∨ (cat th = CLock ∧ lock s = 0)) as Hc.
  { intros t th Ht. destruct (cexit th) eqn:He.
    - destruct (Hcs t th Ht) as (_ & ? & _); [by rewrite He|auto].
    - destruct (stuck_consumer num s t th) as [(? & _)|?]; auto. }
  assert (lock s = 1) as Hl.
  { destruct (inv_lock _ _ Hinv) as [-> _].
    rewrite (sumf_all_zero pholds), (sumf_all_zero cholds); [done|..].
    - intros t th Ht. unfold cholds. by destruct (Hc t th Ht) as [-> | [-> | [-> _]]].
    - intros t th Ht. unfold pholds. by destruct (Hp t th Ht) as [-> | [-> _]]. }
  split_and!; [..|done]; apply sumf_all_zero; intros t th Ht.
  - unfold reserved. destruct (Hp t th Ht) as [-> | [_ ?]]; [done|lia].
  - unfold unposted. destruct (Hp t th Ht) as [-> | [_ ?]]; [done|lia].
  - unfold claimed. destruct (Hc t th Ht) as [-> | [-> | [_ ?]]]; [done|done|lia].
  - unfold unreleased. destruct (Hc t th Ht) as [-> | [-> | [_ ?]]]; [done|done|lia].
Qed.

Lemma prefix_same_length (l1 l2 : list Z) :
  l1 `prefix_of` l2 → length l1 = length l2 → l1 = l2.
Proof.
  intros [k ->] Hlen. rewrite length_app in Hlen. destruct k; [by rewrite app_nil_r|simpl in Hlen; lia].
Qed.

(** All consumers have ended. *)
Lemma stuck_consumers_done num s t th :
  mc_ok num s → stuck (mc_step num) s → cons s !! t = Some th → cexit th = Some 0.
Proof.
  intros Hok Hst Ht. pose proof (stuck_quiet num s Hok Hst) as (Q1 & Q2 & Q3 & Q4 & Q5).
  pose proof Hok as [Hinv Hps Hcs _].
  destruct (cexit th) eqn:He; [destruct (Hcs t th Ht) as [Hz _]; [by rewrite He|congruence]|].
  exfalso. destruct (stuck_consumer num s t th Hinv Hst Ht He) as [[Hc Hem]|[_ ?]]; [|lia].
  pose proof Hinv as [[A _] [B _] _ _ _ _ _ _ I J Kg L _ [Np Nc]].
  unfold BUF_SIZE in A. assert (stored s = fetched s) as Heq by lia.
  assert (∀ u uh, prods s !! u = Some uh → ended uh = 1) as Hend.
  { intros u uh Hu. destruct (pexit uh) eqn:Hx.
    - destruct (Hps u uh Hu) as (_ & Hp & Hi); [by rewrite Hx|].
      unfold ended, adds, unposted. rewrite Hp, Hi. done.
    - destruct (stuck_producer num s u uh Hinv Hst Hu Hx) as [(_ & ? & _)|[_ ?]]; lia. }
  assert (taken s = added s) as Htk.
  { apply prefix_same_length; [done|]. unfold stored, fetched in Heq. lia. }
  assert (got th = 0) as Hg.
  { specialize (L t th Ht). rewrite Hc in L. unfold got. by rewrite (proj2 (Z.eqb_neq _ _) L). }
  pose proof (sumf_less got (cons s) t th got_le Ht) as Hle.
  rewrite (sumf_all_one ended (prods s) Hend) in J. rewrite Htk in Kg. lia.
Qed.

(** And then all producers too, and everything was taken. *)
Lemma stuck_producers_done num s :
  mc_ok num s → stuck (mc_step num) s →
  (∀ t th, prods s !! t = Some th → pexit th = Some 0) ∧ taken s = added s.
Proof.
  intros Hok Hst. pose proof (stuck_quiet num s Hok Hst) as (Q1 & Q2 & Q3 & Q4 & Q5).
  pose proof Hok as [Hinv Hps Hcs Hlast].
  pose proof Hinv as [[A _] [B _] _ D _ _ _ _ I J Kg L M [Np Nc]].
  assert (sumf got (cons s) = Z.of_nat num) as Hg.
  { rewrite <- Nc. apply sumf_all_one. intros t th Ht.
    destruct (Hcs t th Ht) as (_ & _ & Hd); [by rewrite (stuck_consumers_done num s t th)|].
    unfold got. by rewrite Hd. }
  destruct I as [k Hk].
  assert (ends (added s) = ends (taken s) + ends k ∧ 0 ≤ ends k) as [He Hk0].
  { rewrite Hk. unfold ends. split.
    - clear. induction (taken s) as [|a l IH]; simpl; lia.
    - apply sumf_nonneg. intros a. case_match; lia. }
  assert (sumf ended (prods s) ≤ Z.of_nat num) as Hle.
  { rewrite <- Np. clear. induction (prods s) as [|a l IH]; simpl; [lia|].
    pose proof (ended_le a). lia. }
  assert (∀ t th, prods s !! t = Some th → ended th = 1) as Hend.
  { intros t th Ht. pose proof (sumf_less ended (prods s) t th ended_le Ht) as Hless.
    pose proof (ended_le th). rewrite Np in Hless. lia. }
  split.
  - intros t th Ht. destruct (pexit th) eqn:Hx;
      [destruct (Hps t th Ht) as [Hz _]; [by rewrite Hx|congruence]|].
    exfalso. destruct (stuck_producer num s t th Hinv Hst Ht Hx) as [(Hp & _ & Hi)|[_ ?]]; [|lia].
    specialize (Hend t th Ht). unfold ended, adds, unposted in Hend. rewrite Hp in Hend.
    rewrite (proj2 (Z.leb_gt Max_Num (pi th + 0))) in Hend by lia. lia.
  - destruct (decide (num = 0%nat)) as [->|Hnz].
    + assert (stored s ≤ 0) as Hst0 by (pose proof (stored_bounds 0 s Hinv); lia).
      unfold stored in Hst0. destruct (added s) as [|a l] eqn:E; [|simpl in Hst0; lia].
      by destruct (taken s).
    + assert (last (added s) = Some (-1)) as Hl by (apply Hlast; lia).
      rewrite Hk in Hl. destruct (decide (k = [])) as [->|Hne]; [by rewrite Hk, app_nil_r|].
      exfalso. rewrite last_app in Hl. destruct (last k) as [x|] eqn:Elk.
      2:{ by apply last_None in Elk. }
      simplify_eq. apply last_Some in Elk as [k' ->]. rewrite ends_snoc in He. simpl in He.
      assert (0 ≤ ends k') by (apply sumf_nonneg; intros a; case_match; lia). lia.
Qed.

(** C17. For every number of threads and under every interleaving: the consumers
    take the items in the order in which they were added and none is lost or
    overwritten (whatever calls fail); and when no call fails the program
    cannot deadlock and ends: a schedule has at most 69 steps per thread pair,
    and a state in which no thread can move has every thread exited with 0 and
    every item taken. *)
Theorem multi_con_pro_correct num junk sched :
  length junk = 5%nat →
  let s := run (mc_step num) sched (mc_init num junk) in
  (taken s `prefix_of` added s ∧ fetched s ≤ stored s ≤ fetched s + BUF_SIZE ∧
   sumf pholds (prods s) + sumf cholds (cons s) ≤ 1) ∧
  (all_ok sched →
   Z.of_nat (moves (mc_step num) sched (mc_init num junk)) ≤ 69 * Z.of_nat num ∧
   (stuck (mc_step num) s →
      (∀ t th, cons s !! t = Some th → cexit th = Some 0) ∧
      (∀ t th, prods s !! t = Some th → pexit th = Some 0) ∧ taken s = added s)).
Proof.
  intros Hj s. split.
  - assert (mc_inv num s) as Hinv.
    { apply (run_inv _ (mc_inv num)); [apply mc_step_inv|by apply mc_init_inv]. }
    pose proof (stored_bounds num s Hinv). pose proof (sums_nonneg s).
    destruct Hinv as [[A A0] _ [C C0] _ _ _ _ _ I _ _ _ _ _].
    split; [done|]. unfold BUF_SIZE in *. split; lia.
  - intros Hok. pose proof (mc_init_ok num junk Hj) as Hinit. split.
    + pose proof (moves_bounded_ok (mc_step num) (mc_ok num) (left_steps num) (mc_progress num)
        (mc_left_steps_nonneg num) sched _ Hok Hinit) as Hm.
      unfold left_steps, fetched in Hm. simpl in Hm. rewrite !sumf_replicate in Hm.
      unfold left_prod, rank, Max_Num in Hm. simpl in Hm. lia.
    + intros Hst. assert (mc_ok num s) as Hs.
      { apply run_ok_inv; [intros t s1 s2 H1 H2; by eapply mc_progress|done|done]. }
      split; [intros; by eapply stuck_consumers_done|]. by apply (stuck_producers_done num).
Qed.

Lemma multi_con_pro_correct_witness :
  let sched := concat (replicate 60 ((λ t, (t, false)) <$> seq 0 4)) in
  let s := run (mc_step 2) sched (mc_init 2 [0; 0; 0; 0; 0]) in
  (taken s `prefix_of` added s ∧ fetched s ≤ stored s ≤ fetched s + BUF_SIZE ∧
   sumf pholds (prods s) + sumf cholds (cons s) ≤ 1) ∧
  (all_ok sched →
   Z.of_nat (moves (mc_step 2) sched (mc_init 2 [0; 0; 0; 0; 0])) ≤ 69 * Z.of_nat 2 ∧
   (stuck (mc_step 2) s →
      (∀ t th, cons s !! t = Some th → cexit th = Some 0) ∧
      (∀ t th, prods s !! t = Some th → pexit th = Some 0) ∧ taken s = added s)).
Proof.
  apply (multi_con_pro_correct 2 [0; 0; 0; 0; 0]
           (concat (replicate 60 ((λ t, (t, false)) <$> seq 0 4)))). reflexivity.
Defined.

(** That schedule runs to the end. *)
Example demo_two_pairs :
  mc_main 2 2 (true, true, true, true) [0; 0; 0; 0; 0]
    (concat (replicate 60 ((λ t, (t, false)) <$> seq 0 4))) = Some PTS_PASS.
Proof. vm_compute. reflexivity. Qed.
End Multi.
