(* ===== verification/SemLock.v ===== *)
(** * Processes that lock a semaphore of their own

    src/functional/semaphores/sem_lock.c: a chain of [num] processes, each of which prints
    ten lines between [sem_wait] and [sem_post]. The semaphore is in memory from
    [malloc], so that each process has the copy that [fork] made. *)

From stdpp Require Import base tactics numbers list.
From S2P Require Import Prelude Lts.

Open Scope Z_scope.

Module Lock.
Definition DEFAULT_THREADS : Z := 5.

(** Where a process is: in the loop that forks, with its [i]; at [sem_wait]; in the loop
    that prints, with its [i]; at [sem_post]; or it has ended. *)
Inductive place : Set := Forks (i : Z) | Waits | Prints (i : Z) | Posts | Ended (code : Z).

(** A process with its copy of the semaphore. *)
Record lproc : Set := LProc { at_ : place; sem_lock : Z }.

(** [out] has the process that wrote each line. *)
Record lstate : Set := LState { procs : list lproc; out : list nat }.

(** A call of process [t]; [fail] says that it fails. *)
Definition lock_proc (num : Z) (t : nat) (fail : bool) (p : lproc) (s : lstate) : option lstate :=
  let go q s := LState (<[t := q]> (procs s)) (out s) in
  match at_ p with
  | Forks i =>
      if i <? num then
        if fail then Some (go (LProc Waits (sem_lock p)) s)
        else Some (LState (<[t := LProc Waits (sem_lock p)]> (procs s) ++ [LProc (Forks (i + 1)) (sem_lock p)]) (out s))
      else Some (go (LProc Waits (sem_lock p)) s)
  | Waits =>
      if fail then Some (go (LProc (Ended PTS_UNRESOLVED) (sem_lock p)) s)
      else if 0 <? sem_lock p then Some (go (LProc (Prints 1) (sem_lock p - 1)) s)
      else None
  | Prints i =>
      if i <=? 10 then Some (LState (<[t := LProc (Prints (i + 1)) (sem_lock p)]> (procs s)) (out s ++ [t]))
      else Some (go (LProc Posts (sem_lock p)) s)
  | Posts =>
      if fail then Some (go (LProc (Ended PTS_UNRESOLVED) (sem_lock p)) s)
      else Some (go (LProc (Ended PTS_PASS) (sem_lock p + 1)) s)
  | Ended _ => None
  end.

Definition lock_step (num : Z) (t : nat) (fail : bool) (s : lstate) : option lstate :=
  p ← procs s !! t; lock_proc num t fail p s.

(** The program when [sem_init] has succeeded. *)
Definition lock_init : lstate := LState [LProc (Forks 1) 1] [].

(** The number of processes: [atoi] gives [arg] for the argument. *)
Definition processes (argc arg : Z) : Z := if negb (argc =? 2) || (arg <=? 0) then DEFAULT_THREADS else arg.

(** The codes with which the processes end, when all have; [init_ok] is what [sem_init] says. *)
Definition lock_main (argc arg : Z) (init_ok : bool) (sched : list (nat * bool)) : option (list Z) :=
  if negb init_ok then Some [PTS_UNRESOLVED]
  else
    let s := run (lock_step (processes argc arg)) sched lock_init in
    mapM (λ p, match at_ p with Ended c => Some c | _ => None end) (procs s).

(** Is the process between [sem_wait] and [sem_post]? *)
Definition inside (p : lproc) : bool := match at_ p with Prints _ | Posts => true | _ => false end.

(** ** What holds for every schedule *)

Section Num.
Context (num : Z) (Hnum : 1 ≤ num).

(** The copy of a process is 0 only while it is inside. *)
Definition copy_ok (p : lproc) : Prop :=
  match at_ p with
  | Forks i => sem_lock p = 1 ∧ 1 ≤ i ≤ num
  | Waits => sem_lock p = 1
  | Prints i => 1 ≤ i ≤ 11
  | _ => True
  end.

(** The calls and lines that a process and its descendants still have. *)
Definition left_proc (p : lproc) : Z :=
  match at_ p with
  | Forks i => 14 * (num - i) + 14
  | Waits => 13
  | Prints i => 13 - i
  | Posts => 1
  | Ended _ => 0
  end.
Definition left_steps (s : lstate) : Z := sumf left_proc (procs s).

Definition lock_inv (s : lstate) : Prop := Forall copy_ok (procs s).

Lemma lock_init_inv : lock_inv lock_init.
Proof. repeat constructor; simpl; lia. Qed.

Lemma sumf_snoc {A} (f : A → Z) l x : sumf f (l ++ [x]) = sumf f l + f x.
Proof. induction l as [|a l IH]; simpl; lia. Qed.

(** Every process that has not ended can move, and every move is progress. *)
Lemma lock_proc_step t fail p s :
  lock_inv s → procs s !! t = Some p → (∀ c, at_ p ≠ Ended c) →
  ∃ s', lock_proc num t fail p s = Some s' ∧ lock_inv s' ∧ left_steps s' < left_steps s.
Proof.
  intros Hinv Ht Hp. pose proof (proj1 (Forall_lookup _ _) Hinv t p Ht) as Hc.
  assert (∀ q o, copy_ok q → left_proc q < left_proc p →
    lock_inv (LState (<[t := q]> (procs s)) o) ∧ left_steps (LState (<[t := q]> (procs s)) o) < left_steps s) as Hgo.
  { intros q o Hq Hl. split; [by apply Forall_insert|]. unfold left_steps. simpl.
    rewrite (sumf_insert _ _ _ _ _ Ht). lia. }
  unfold copy_ok in Hc. unfold lock_proc. destruct (at_ p) as [i| |i| |c] eqn:E; try (by destruct (Hp c)).
  - destruct Hc as [Hs Hi]. destruct (Z.ltb_spec i num); [destruct fail|].
    + eexists. split; [done|]. apply Hgo; [done|]. unfold left_proc. rewrite E. simpl. lia.
    + eexists. split; [done|]. split.
      * unfold lock_inv. simpl. apply Forall_app. split; [by apply Forall_insert|].
        repeat constructor; simpl; try done; lia.
      * unfold left_steps. simpl. rewrite sumf_snoc, (sumf_insert _ _ _ _ _ Ht).
        unfold left_proc at 2 3 4. rewrite E. simpl. lia.
    + eexists. split; [done|]. apply Hgo; [done|]. unfold left_proc. rewrite E. simpl. lia.
  - destruct fail; [|rewrite Hc]; (eexists; split; [done|]); apply Hgo; try done; unfold copy_ok, left_proc;
      rewrite ?E; simpl; lia.
  - destruct (Z.leb_spec i 10); (eexists; split; [done|]); apply Hgo; try done; unfold copy_ok, left_proc;
      rewrite ?E; simpl; lia.
  - destruct fail; (eexists; split; [done|]); apply Hgo; try done; unfold left_proc; rewrite ?E; simpl; lia.
Qed.

Lemma lock_step_progress t f s s' :
  lock_inv s → lock_step num t f s = Some s' → lock_inv s' ∧ left_steps s' < left_steps s.
Proof.
  intros Hinv. unfold lock_step. destruct (procs s !! t) as [p|] eqn:Ht; [|done]. simpl. intros Hs.
  destruct (lock_proc_step t f p s Hinv Ht) as (s1 & H1 & H2); [|by simplify_eq].
  intros c E. unfold lock_proc in Hs. by rewrite E in Hs.
Qed.

(** ** All processes inside at once *)

(** The first [k] processes are inside, the next one is about to fork. *)
Definition front (k : nat) : lstate :=
  LState (replicate k (LProc (Prints 1) 0) ++ [LProc (Forks (1 + Z.of_nat k)) 1]) [].

Lemma lookup_end {A} k (a b : A) l : (replicate k a ++ b :: l) !! k = Some b.
Proof. rewrite lookup_app_r by (rewrite length_replicate; lia). by rewrite length_replicate, Nat.sub_diag. Qed.

Lemma insert_end {A} k (a b c : A) l : <[k := c]> (replicate k a ++ b :: l) = replicate k a ++ c :: l.
Proof. rewrite insert_app_r_alt by (rewrite length_replicate; lia). by rewrite length_replicate, Nat.sub_diag. Qed.

(** Process [k] has forked. *)
Definition forked (k : nat) : lstate :=
  LState (replicate k (LProc (Prints 1) 0) ++ [LProc Waits 1; LProc (Forks (1 + Z.of_nat k + 1)) 1]) [].

Lemma front_forks k : 1 + Z.of_nat k < num → lock_step num k false (front k) = Some (forked k).
Proof.
  intros Hk. unfold lock_step, front, forked. cbn [procs out]. rewrite lookup_end.
  cbn [mbind option_bind lock_proc at_ sem_lock procs out]. rewrite (proj2 (Z.ltb_lt _ _) Hk).
  by rewrite insert_end, <- app_assoc.
Qed.

Lemma forked_waits k : lock_step num k false (forked k) = Some (front (S k)).
Proof.
  unfold lock_step, front, forked. cbn [procs out]. rewrite lookup_end.
  cbn [mbind option_bind lock_proc at_ sem_lock procs out]. cbn [Z.ltb Z.compare Z.sub Z.add Z.opp Z.pos_sub].
  rewrite insert_end, replicate_S_end, <- app_assoc. by replace (1 + Z.of_nat (S k)) with (1 + Z.of_nat k + 1) by lia.
Qed.

Lemma front_step k : 1 + Z.of_nat k < num → run (lock_step num) [(k, false); (k, false)] (front k) = front (S k).
Proof. intros Hk. cbn [run]. rewrite front_forks by done. cbn [default]. by rewrite forked_waits. Qed.

Fixpoint enter (k : nat) : list (nat * bool) :=
  match k with O => [] | S k => enter k ++ [(k, false); (k, false)] end.

Lemma enter_front k : Z.of_nat k < num → run (lock_step num) (enter k) lock_init = front k.
Proof.
  induction k as [|k IH]; intros Hk; [done|]. cbn [enter]. rewrite run_app, IH by lia. apply front_step. lia.
Qed.

(** The last process has nobody to fork. *)
Lemma all_inside : let s := run (lock_step num) (enter (Z.to_nat num - 1) ++ [(Z.to_nat num - 1, false); (Z.to_nat num - 1, false)]%nat) lock_init in
  length (procs s) = Z.to_nat num ∧ Forall (λ p, inside p = true) (procs s).
Proof.
  cbv zeta. rewrite run_app, enter_front by lia. set (k := (Z.to_nat num - 1)%nat).
  assert (lock_step num k false (front k) = Some (LState (replicate k (LProc (Prints 1) 0) ++ [LProc Waits 1]) [])) as H1.
  { unfold lock_step, front. cbn [procs out]. rewrite lookup_end.
    cbn [mbind option_bind lock_proc at_ sem_lock procs out].
    rewrite (proj2 (Z.ltb_ge (1 + Z.of_nat k) num)) by lia. by rewrite insert_end. }
  assert (lock_step num k false (LState (replicate k (LProc (Prints 1) 0) ++ [LProc Waits 1]) [])
          = Some (LState (replicate k (LProc (Prints 1) 0) ++ [LProc (Prints 1) 0]) [])) as H2.
  { unfold lock_step. cbn [procs out]. rewrite lookup_end.
    cbn [mbind option_bind lock_proc at_ sem_lock procs out]. simpl. by rewrite insert_end. }
  cbn [run]. rewrite H1. cbn [from_option id]. rewrite H2. cbn [from_option id procs]. split.
  - rewrite length_app, length_replicate. simpl. lia.
  - apply Forall_app. split; [apply Forall_replicate|constructor]; done.
Qed.

Lemma enter_ok k : all_ok (enter k).
Proof. induction k; simpl; [constructor|]. apply Forall_app. split; [done|]. repeat constructor. Qed.

End Num.

Lemma processes_pos argc arg : 1 ≤ processes argc arg.
Proof. unfold processes, DEFAULT_THREADS. destruct (negb _); simpl; [lia|]. bool_case; lia. Qed.

(** Without failures nobody is left unresolved. *)
Definition fair_end (p : lproc) : Prop := match at_ p with Ended c => c = PTS_PASS | _ => True end.

Lemma lock_step_passes num t s s' :
  Forall fair_end (procs s) → lock_step num t false s = Some s' → Forall fair_end (procs s').
Proof.
  intros Hf. unfold lock_step. destruct (procs s !! t) as [p|] eqn:Ht; [|done]. simpl.
  unfold lock_proc. intros Hs. repeat (case_match; simplify_eq); simpl;
    repeat first [apply Forall_app; split|apply Forall_insert|constructor]; done.
Qed.

(** C23. For every number of processes and every pattern of failing calls, sem_lock.c ends: a
    schedule has at most 14 steps for each process, and all have ended when no step is left,
    with PTS_PASS when no call fails. But the semaphore excludes nobody: there is a
    schedule without failing calls in which all processes are between [sem_wait] and
    [sem_post] at the same time, because each decrements its own copy. *)
Theorem sem_lock_excludes_nobody argc arg :
  let num := processes argc arg in
  (∀ sched, let s := run (lock_step num) sched lock_init in
     Z.of_nat (moves (lock_step num) sched lock_init) ≤ 14 * num ∧
     (stuck (lock_step num) s → Forall (λ p, ∃ c, at_ p = Ended c) (procs s)) ∧
     (all_ok sched → Forall fair_end (procs s))) ∧
  ∃ sched, all_ok sched ∧
    let s := run (lock_step num) sched lock_init in
    length (procs s) = Z.to_nat num ∧ Forall (λ p, inside p = true) (procs s).
Proof.
  intros num. pose proof (processes_pos argc arg) as Hnum. fold num in Hnum. split.
  - intros sched s. split_and!.
    + pose proof (moves_bounded (lock_step num) (lock_inv num) (left_steps num)
        (lock_step_progress num)) as Hm.
      etransitivity; [apply Hm; [|by apply lock_init_inv]|unfold left_steps; simpl; unfold left_proc; simpl; lia].
      intros s' Hs'. unfold left_steps, lock_inv in *. induction Hs' as [|p l Hp _ IH]; simpl; [done|].
      assert (0 ≤ left_proc num p); [|lia]. unfold copy_ok, left_proc in *. destruct (at_ p); lia.
    + intros Hst. assert (lock_inv num s) as Hinv.
      { apply (run_inv _ (lock_inv num)); [|by apply lock_init_inv]. intros. by eapply lock_step_progress. }
      apply Forall_lookup. intros t p Ht. destruct (at_ p) as [| | | |c] eqn:E; [..|by exists c]; exfalso;
        destruct (lock_proc_step num t false p s Hinv Ht) as (s' & Hs' & _); try (by rewrite E);
        specialize (Hst t); unfold lock_step in Hst; rewrite Ht in Hst; simpl in Hst; congruence.
    + intros Hok. apply (run_ok_inv _ (λ s, Forall fair_end (procs s))); [|done|by repeat constructor].
      intros t s1 s2 H1 H2. by eapply lock_step_passes.
  - eexists. split; [|by apply all_inside]. apply Forall_app. split; [apply enter_ok|repeat constructor].
Qed.

(** Two processes: both write their lines at the same time. *)
Example two_mixed :
  let s := run (lock_step 2) ([(0, false); (0, false); (1, false); (1, false); (0, false); (1, false); (0, false); (1, false)]%nat) lock_init in
  out s = [0; 1; 0; 1]%nat.
Proof. reflexivity. Qed.
End Lock.
