(* ===== verification/TestSem.v ===== *)
(** * Two processes, two semaphores and shared memory

    src/posix1b/testsem.c: a parent and its child share a named semaphore [sem], and a
    section of memory with an unnamed semaphore [msem] and four counters. Each process
    goes [LOOPS] times through two halves of a loop that differ in the roles of the
    semaphores. A step is one access to a semaphore or to the shared section.

    The semaphores are those of semaphore.c in the same directory. [sem_open] stores the
    set of [sem], so that both processes find it. The set of [msem] is in a table that each
    process has of its own: [sem_init] enters it in that of the parent; the first call of the
    child misses it, and then [get_semid] enters it but returns -1, so that the call fails. *)

From stdpp Require Import base tactics numbers list.
From S2P Require Import Prelude Lts.

Open Scope Z_scope.

Module TestSem.

Definition LOOPS : Z := 10000.

(** A half of the loop locks one semaphore, [msem] in the second, and tries the other. *)
Inductive half : Set := First | Second.
Definition other (h : half) : half := match h with First => Second | Second => First end.

(** The statements of a half: [sem_wait]; [count = s->count[]]; [sem_trywait]; reading and
    writing the counter of successes; [sem_post] of the other; [s->count[] = count + 1];
    [sem_post]. *)
Inductive stmt : Set := Wait | Load | Try | Read | Write | Release | Save | Post.

(** [Init] and [Open] are [sem_init] and [sem_post] of the parent, [Await] and [Pass]
    [sem_wait] and [sem_post] of the child before the loop; [Join] is [wait]. *)
Inductive place : Set := Init | Open | Await | Pass | Loop (h : half) (c : stmt) | Join | Done.

#[global] Instance half_eq_dec : EqDecision half.
Proof. solve_decision. Defined.
#[global] Instance stmt_eq_dec : EqDecision stmt.
Proof. solve_decision. Defined.
#[global] Instance place_eq_dec : EqDecision place.
Proof. solve_decision. Defined.

(** A process: its place, [i] and [count], what it read of the counter of successes, how
    often it succeeded in each half, and whether [msem] is in its table. *)
Record proc : Set := Proc { at_ : place; i : Z; count : Z; reg : Z; hits : half → Z; known : bool }.

(** The semaphores and the counters: [count[0]] and [count[2]], [count[1]] and [count[3]]. *)
Record shared : Set := Shared { sems : half → Z; total : half → Z; extra : half → Z }.

Definition set (f : half → Z) (h : half) (z : Z) : half → Z :=
  match h with
  | First => λ x, match x with First => z | Second => f Second end
  | Second => λ x, match x with First => f First | Second => z end
  end.

Definition with_sem (h : half) (z : Z) (s : shared) : shared := Shared (set (sems s) h z) (total s) (extra s).
Definition with_total (h : half) (z : Z) (s : shared) : shared := Shared (sems s) (set (total s) h z) (extra s).
Definition with_extra (h : half) (z : Z) (s : shared) : shared := Shared (sems s) (total s) (set (extra s) h z).
Definition go (q : place) (p : proc) : proc := Proc q (i p) (count p) (reg p) (hits p) (known p).

(** [get_semid] does not find the semaphore in the table. *)
Definition misses (h : half) (p : proc) : bool :=
  match h with First => false | Second => negb (known p) end.
(** The table after a call on the semaphore, or after [sem_init]: the semaphore is entered
    unless [semget] fails. *)
Definition learns (h : half) (fail : bool) (p : proc) : proc :=
  match h with
  | First => p
  | Second => Proc (at_ p) (i p) (count p) (reg p) (hits p) (known p || negb fail)
  end.

(** A step of a process; [fail]: a call of the system fails. The program ignores it when its
    calls fail, but for [sem_trywait]. [alone] says that the other process has ended. *)
Definition act (fail alone : bool) (p : proc) (s : shared) : option (proc * shared) :=
  let bad h := fail || misses h p in
  let wait h q := if bad h then Some (learns h fail (go q p), s)
                  else if 0 <? sems s h then Some (go q p, with_sem h (sems s h - 1) s) else None in
  let post h q := Some (learns h fail (go q p), if bad h then s else with_sem h (sems s h + 1) s) in
  match at_ p with
  | Init => Some (learns Second fail (go Open p), if fail then s else with_sem Second 1 s)
  | Open => post First (Loop First Wait)
  | Await => wait First Pass
  | Pass => post First (Loop First Wait)
  | Loop h Wait =>
      match h with
      | First => if i p <? LOOPS then wait First (Loop First Load) else Some (go Join p, s)
      | Second => wait Second (Loop Second Load)
      end
  | Loop h Load => Some (Proc (Loop h Try) (i p) (total s h) (reg p) (hits p) (known p), s)
  | Loop h Try =>
      if negb (bad (other h)) && (0 <? sems s (other h))
      then Some (go (Loop h Read) p, with_sem (other h) (sems s (other h) - 1) s)
      else Some (learns (other h) fail (go (Loop h Save) p), s)
  | Loop h Read => Some (Proc (Loop h Write) (i p) (count p) (extra s h) (hits p) (known p), s)
  | Loop h Write =>
      Some (Proc (Loop h Release) (i p) (count p) (reg p) (set (hits p) h (hits p h + 1)) (known p),
            with_extra h (reg p + 1) s)
  | Loop h Release => post (other h) (Loop h Save)
  | Loop h Save => Some (go (Loop h Post) p, with_total h (count p + 1) s)
  | Loop First Post => post First (Loop Second Wait)
  | Loop Second Post =>
      Some (learns Second fail (Proc (Loop First Wait) (i p + 1) (count p) (reg p) (hits p) (known p)),
            if bad Second then s else with_sem Second (sems s Second + 1) s)
  | Join => if alone then Some (go Done p, s) else None
  | Done => None
  end.

Record tstate : Set := TState { mem : shared; parent : proc; child : proc }.

Definition ended (p : proc) : bool := match at_ p with Done => true | _ => false end.

(** Thread 0 is the parent; the child does not wait for anybody when its loop is over. *)
Definition test_step (t : nat) (fail : bool) (s : tstate) : option tstate :=
  match t with
  | 0%nat => '(p, m) ← act fail (ended (child s)) (parent s) (mem s); Some (TState m p (child s))
  | 1%nat => '(p, m) ← act fail true (child s) (mem s); Some (TState m (parent s) p)
  | _ => None
  end.

(** After [fork] and [mmap]: the section has the contents [m] of its file; [sem] has its
    initial value. *)
Definition test_init (m : shared) : tstate :=
  TState (with_sem First 0 m) (Proc Init 0 0 0 (λ _, 0) false) (Proc Await 0 0 0 (λ _, 0) false).

(** ** The invariant *)

(** What a process has of a semaphore: the parent has [sem] until it opens the loop for the
    child. *)
Definition holds (h : half) (p : proc) : Z :=
  match at_ p, h with
  | Init, First | Open, First | Pass, First => 1
  | Loop First c, First | Loop Second c, Second => match c with Wait => 0 | _ => 1 end
  | Loop _ c, _ => match c with Read | Write | Release => 1 | _ => 0 end
  | _, _ => 0
  end.

(** How often the process has saved the counter of the half. *)
Definition saved (h : half) (p : proc) : Z :=
  i p + match at_ p, h with
        | Loop First Post, First | Loop Second _, First | Loop Second Post, Second => 1
        | _, _ => 0
        end.

(** It has a value of the counter, or of the one of successes, that it will write. *)
Definition loaded (h : half) (p : proc) : bool :=
  match at_ p, h with
  | Loop First c, First | Loop Second c, Second => match c with Try | Read | Write | Release | Save => true | _ => false end
  | _, _ => false
  end.
Definition adding (h : half) (p : proc) : bool :=
  match at_ p, h with Loop First Write, First | Loop Second Write, Second => true | _, _ => false end.

Definition in_range (p : proc) : Prop :=
  match at_ p with
  | Init | Open | Await | Pass => i p = 0
  | Loop First Wait => 0 ≤ i p ≤ LOOPS
  | Loop _ _ => 0 ≤ i p < LOOPS
  | Join | Done => i p = LOOPS
  end.

(** A process without [msem] in its table has not used it yet. *)
Definition table_ok (p : proc) : Prop :=
  known p = false →
  match at_ p with
  | Init | Await | Pass => True
  | Loop First (Wait | Load | Try) => i p = 0
  | _ => False
  end.

Record proc_ok (m : shared) (p : proc) : Prop := {
  ok_table : table_ok p;
  ok_count : ∀ h, loaded h p = true → count p = total m h;
  ok_reg : ∀ h, adding h p = true → reg p = extra m h;
  ok_range : in_range p }.

Definition begun (p : proc) : Prop := at_ p ≠ Init.

(** Two processes and the memory, which had the contents [m0]. *)
Record both_ok (m0 m : shared) (p q : proc) : Prop := {
  both_sem : sems m First + holds First p + holds First q = 1 ∧ 0 ≤ sems m First;
  both_msem : begun p → begun q → sems m Second + holds Second p + holds Second q = 1 ∧ 0 ≤ sems m Second;
  both_total : ∀ h, total m h = total m0 h + saved h p + saved h q;
  both_extra : ∀ h, extra m h = extra m0 h + hits p h + hits q h;
  both_p : proc_ok m p;
  both_q : proc_ok m q;
  both_init_p : at_ p = Init → at_ q = Await;
  both_init_q : at_ q = Init → at_ p = Await }.

Lemma both_sym m0 m p q : both_ok m0 m p q → both_ok m0 m q p.
Proof.
  intros [A B C D P Q I J]. split; try done.
  - lia.
  - intros H1 H2. specialize (B H2 H1). lia.
  - intros h. specialize (C h). lia.
  - intros h. specialize (D h). lia.
Qed.

Lemma loaded_holds h p : loaded h p = true → holds h p = 1.
Proof. unfold loaded, holds. by destruct (at_ p) as [| | | |[] []| |], h. Qed.
Lemma adding_holds h p : adding h p = true → holds h p = 1.
Proof. unfold adding, holds. by destruct (at_ p) as [| | | |[] []| |], h. Qed.
Lemma holds_nonneg h p : 0 ≤ holds h p.
Proof. unfold holds. destruct (at_ p) as [| | | |[] []| |], h; lia. Qed.

(** The steps that are left. *)
Definition stmt_rank (h : half) (c : stmt) : Z :=
  match h with First => 8 | Second => 0 end +
  match c with Wait => 8 | Load => 7 | Try => 6 | Read => 5 | Write => 4 | Release => 3 | Save => 2 | Post => 1 end.
Definition left_proc (p : proc) : Z :=
  match at_ p with
  | Init | Await => 16 * LOOPS + 4
  | Open | Pass => 16 * LOOPS + 3
  | Loop h c => 16 * (LOOPS - i p) - 16 + stmt_rank h c + 2
  | Join => 1
  | Done => 0
  end.

(** What is written does not concern what the other process has loaded, if it does not
    have the semaphore. *)
Lemma proc_ok_total m q h z : proc_ok m q → holds h q = 0 → proc_ok (with_total h z m) q.
Proof.
  intros [Ht Hc Hr Hi] Hh. split; [done| |done|done]. intros h' Hl. rewrite (Hc h' Hl).
  apply loaded_holds in Hl. by destruct h, h'; simpl; try lia.
Qed.
Lemma proc_ok_extra m q h z : proc_ok m q → holds h q = 0 → proc_ok (with_extra h z m) q.
Proof.
  intros [Ht Hc Hr Hi] Hh. split; [done|done| |done]. intros h' Hl. rewrite (Hr h' Hl).
  apply adding_holds in Hl. by destruct h, h'; simpl; try lia.
Qed.
Lemma proc_ok_sem m q h z : proc_ok m q → proc_ok (with_sem h z m) q.
Proof. by intros [Ht Hc Hr Hi]. Qed.

#[local] Hint Resolve proc_ok_sem proc_ok_total proc_ok_extra : pts.

(** A step of a process that has begun keeps the books. *)
Lemma both_move m0 m p q p' m' :
  both_ok m0 m p q → begun p → begun q → begun p' →
  sems m' First + holds First p' = sems m First + holds First p → 0 ≤ sems m' First →
  sems m' Second + holds Second p' = sems m Second + holds Second p → 0 ≤ sems m' Second →
  (∀ h, total m' h - saved h p' = total m h - saved h p) →
  (∀ h, extra m' h - hits p' h = extra m h - hits p h) →
  proc_ok m' p' → proc_ok m' q → both_ok m0 m' p' q.
Proof.
  intros [A B C D P Q I J] Hp Hq Hp' H1 H1' H2 H2' Ht He Hok' Hokq. specialize (B Hp Hq).
  split; try done.
  - lia.
  - intros _ _. lia.
  - intros h. specialize (C h). specialize (Ht h). lia.
  - intros h. specialize (D h). specialize (He h). lia.
Qed.

(** The other process has opened [sem] when this one moves. *)
Lemma other_begun m0 m p q alone x :
  both_ok m0 m p q → begun p → act false alone p m = Some x → begun q.
Proof.
  intros Hb Hp Ha Hq. destruct Hb as [[A A0] _ _ _ _ _ _ J]. specialize (J Hq).
  unfold act, holds in *. rewrite J, Hq in *. by rewrite (proj2 (Z.ltb_ge 0 (sems m First))) in Ha by lia.
Qed.

Ltac place E := unfold holds, saved, in_range, stmt_rank in *; simpl in *; rewrite ?E in *; simpl in *.

Lemma act_ok m0 m p q alone p' m' :
  both_ok m0 m p q → act false alone p m = Some (p', m') → both_ok m0 m' p' q ∧ left_proc p' < left_proc p.
Proof.
  intros Hb Ha. destruct (decide (at_ p = Init)) as [Hi|Hp].
  2: change (begun p) in Hp.
  { destruct Hb as [A B C D P Q I J]. pose proof (I Hi) as Hq. destruct P as [Pt Pc Pr Pi].
    unfold act in Ha. rewrite Hi in Ha. simplify_eq. split; [|unfold left_proc; rewrite Hi; simpl; lia]. split.
    - place Hi. rewrite Hq in *. lia.
    - intros _ _. place Hi. rewrite Hq. lia.
    - intros h. specialize (C h). place Hi. destruct h; lia.
    - intros h. specialize (D h). done.
    - split; [|by intros []|by intros []|].
      + unfold table_ok. simpl. by rewrite orb_true_r.
      + place Hi. done.
    - by apply proc_ok_sem.
    - done.
    - intros E. congruence. }
  pose proof (other_begun _ _ _ _ _ _ Hb Hp Ha) as Hq. pose proof Hb as [[A A0] B C D P Q I J].
  specialize (B Hp Hq). pose proof P as [Pt Pc Pr Pi]. unfold in_range in Pi. unfold table_ok in Pt.
  pose proof (holds_nonneg First q). pose proof (holds_nonneg Second q).
  unfold act, misses, learns, go in Ha. cbv zeta in Ha.
  destruct (at_ p) as [| | | |[] []| |] eqn:E; try done; simpl in Ha;
    destruct (known p) eqn:K; simpl in Ha; try done; try specialize (Pt eq_refl);
    repeat (case_match; simplify_eq/=); simplify_eq/=; rewrite ?Z.ltb_lt, ?Z.ltb_ge in *.
  all: split; [|unfold left_proc; simpl; rewrite ?E; place E; lia].
  all: eapply both_move; [exact Hb|exact Hp|exact Hq|..].
  all: try (place E; congruence || lia || done).
  all: try (intros []; place E; lia).
  all: try (apply proc_ok_sem, Q).
  all: unfold loaded, adding in Pc, Pr; rewrite E in Pc, Pr.
  all: try (first [apply proc_ok_extra|apply proc_ok_total]; [done|place E; lia]).
  all: try (pose proof (Pc First) as X1; pose proof (Pc Second) as X2; pose proof (Pr First) as X3;
            pose proof (Pr Second) as X4; intros []; place E; lia).
  all: split; [unfold table_ok, LOOPS in *; simpl; rewrite ?K; intros; first [done|lia]
              |intros []; unfold loaded; simpl; intros; first [done|by apply Pc]
              |intros []; unfold adding; simpl; intros; first [done|by apply Pr]
              |place E; unfold LOOPS in *; lia].
Qed.

(** A process that has not ended can move, unless it waits for a semaphore or for the child. *)
Lemma act_moves p s alone :
  act false alone p s = None →
  match at_ p with
  | Await => sems s First ≤ 0
  | Loop h Wait => sems s h ≤ 0
  | Join => alone = false
  | Done => True
  | _ => False
  end.
Proof.
  unfold act. destruct (at_ p) as [| | | |[] []| |]; simpl; intros Ha;
    repeat (case_match; simplify_eq/=); try done; by apply Z.ltb_ge.
Qed.

(** ** The program *)

Record test_ok (m0 : shared) (s : tstate) : Prop := {
  test_both : both_ok m0 (mem s) (parent s) (child s);
  test_parent : at_ (parent s) ≠ Await ∧ at_ (parent s) ≠ Pass;
  test_child : at_ (child s) ≠ Init ∧ at_ (child s) ≠ Open }.

Definition left_steps (s : tstate) : Z := left_proc (parent s) + left_proc (child s).

(** The first statements are not reached again. *)
Lemma act_at p m alone p' m' :
  act false alone p m = Some (p', m') →
  at_ p' ≠ Init ∧ at_ p' ≠ Await ∧ (at_ p ≠ Init → at_ p' ≠ Open) ∧ (at_ p ≠ Await → at_ p' ≠ Pass).
Proof.
  unfold act. destruct (at_ p) as [| | | |[] []| |]; simpl; intros Ha;
    repeat (case_match; simplify_eq/=); simplify_eq/=; by split_and!.
Qed.

Lemma test_step_ok m0 t s s' :
  test_ok m0 s → test_step t false s = Some s' → test_ok m0 s' ∧ left_steps s' < left_steps s.
Proof.
  intros [Hb Hp Hc] Hs. unfold test_step in Hs. destruct t as [|[|t]]; [| |done].
  - destruct (act _ _ _ _) as [[p' m']|] eqn:Ha; [|done]. simplify_eq/=.
    destruct (act_ok _ _ _ _ _ _ _ Hb Ha) as [Hb' Hl]. apply act_at in Ha as (A1 & A2 & A3 & A4).
    split; [|unfold left_steps; simpl; lia]. split; simpl; [done| |done]. split; [done|]; by apply A4, Hp.
  - destruct (act _ _ _ _) as [[p' m']|] eqn:Ha; [|done]. simplify_eq/=.
    destruct (act_ok _ _ _ _ _ _ _ (both_sym _ _ _ _ Hb) Ha) as [Hb' Hl]. apply act_at in Ha as (A1 & A2 & A3 & A4).
    split; [|unfold left_steps; simpl; lia]. split; simpl; [by apply both_sym|done|]. split; [done|]; by apply A3, Hc.
Qed.

Lemma test_init_ok m : test_ok m (test_init m).
Proof.
  split; [|by split|by split]. split; simpl; try done; try (by split).
  - intros h. unfold saved. simpl. lia.
  - intros h. lia.
Qed.

Lemma left_proc_nonneg m p : proc_ok m p → 0 ≤ left_proc p.
Proof.
  intros [_ _ _ Hr]. unfold left_proc, in_range, stmt_rank, LOOPS in *.
  destruct (at_ p) as [| | | |[] []| |]; lia.
Qed.

(** The semaphores are free when nobody can move, and so both have ended. *)
Lemma stuck_ended m0 s : test_ok m0 s → stuck test_step s → ended (parent s) = true ∧ ended (child s) = true.
Proof.
  intros [[[A A0] B _ _ P Q _ _] [Hp1 Hp2] [Hc1 Hc2]] Hst.
  pose proof (Hst 0%nat) as H0. pose proof (Hst 1%nat) as H1. unfold test_step in H0, H1.
  destruct (act false _ (parent s) _) as [[]|] eqn:A1; [done|]. destruct (act false _ (child s) _) as [[]|] eqn:A2; [done|].
  apply act_moves in A1, A2. clear H0 H1. unfold begun, holds, ended in *.
  destruct (at_ (parent s)) as [| | | |[] []| |], (at_ (child s)) as [| | | |[] []| |]; simpl in *; try done; exfalso;
    try specialize (B ltac:(done) ltac:(done)); try lia.
Qed.

(** ** The first call of the child

    How often [sem_trywait] on [msem] was called, and whether the last call succeeded and is
    not counted yet. *)
Definition tried (p : proc) : Z :=
  i p + match at_ p with
        | Loop First (Read | Write | Release | Save | Post) | Loop Second _ => 1
        | _ => 0
        end.
Definition succeeding (p : proc) : Z :=
  match at_ p with Loop First (Read | Write) => 1 | _ => 0 end.

(** At least one of them has failed. *)
Definition child_ok (p : proc) : Prop :=
  hits p First + succeeding p + (if known p then 1 else 0) ≤ tried p ∧
  (known p = false → match at_ p with
                     | Await | Pass | Loop First (Wait | Load | Try) => i p = 0 ∧ hits p First = 0
                     | _ => False
                     end).

Lemma child_act_ok p m alone p' m' :
  child_ok p → act false alone p m = Some (p', m') → child_ok p'.
Proof.
  intros [H1 H2] Ha. unfold child_ok, tried, succeeding in *.
  unfold act, misses, learns, go in Ha. cbv zeta in Ha.
  destruct (at_ p) as [| | | |[] []| |] eqn:E; try done; simpl in Ha;
    destruct (known p) eqn:K; simpl in Ha; try (by destruct (H2 eq_refl));
    repeat (case_match; simplify_eq/=); simplify_eq/=; rewrite ?K; simpl;
    (split; [lia|]); intros; try done; destruct (H2 eq_refl); unfold LOOPS in *; first [done | lia].
Qed.

Lemma child_step_ok t s s' : child_ok (child s) → test_step t false s = Some s' → child_ok (child s').
Proof.
  intros Hc Hs. unfold test_step in Hs. destruct t as [|[|t]]; [| |done];
    destruct (act _ _ _ _) as [[p' m']|] eqn:Ha; try done; simplify_eq/=; [done|].
  by eapply child_act_ok.
Qed.



End TestSem.
