(* ===== verification/Scenarii.v ===== *)
(** * Threads with tables of attributes

    src/conformance/interfaces/pthread_create/threads_scenarii.c: the table of thread
    attributes that the tests of pthread_create, pthread_exit and pthread_detach share,
    and the [main] that creates a thread for each row, waits for it and destroys what
    was allocated. The threads share the global [sc], the row that [main] has got to. *)

From stdpp Require Import base tactics numbers list strings.
From S2P Require Import Prelude Lts.

Open Scope Z_scope.

(** A row; [ta], [bottom] and [sem] are not constants and belong to the state. *)
Record scenario : Set := CASE {
  detached : Z; explicitsched : Z; schedpolicy : Z; schedparam : Z; altscope : Z;
  altstack : Z; guard : Z; altsize : Z; descr : string; result : Z }.

Definition CASE_POS det expl scp spa sco sta gua ssi desc := CASE det expl scp spa sco sta gua ssi desc 0.
Definition CASE_NEG det expl scp spa sco sta gua ssi desc := CASE det expl scp spa sco sta gua ssi desc 1.
Definition CASE_UNK det expl scp spa sco sta gua ssi desc := CASE det expl scp spa sco sta gua ssi desc 2.

Definition scenarii : list scenario :=
  [CASE_POS 0 0 0 0 0 0 0 0 "default";
   CASE_POS 1 0 0 0 0 0 0 0 "detached";
   CASE_POS 0 1 0 0 0 0 0 0 "Explicit sched";
   CASE_UNK 0 0 1 0 0 0 0 0 "FIFO Policy";
   CASE_UNK 0 0 2 0 0 0 0 0 "RR Policy";
   CASE_UNK 0 0 0 1 0 0 0 0 "Max sched param";
   CASE_UNK 0 0 0 (-1) 0 0 0 0 "Min sched param";
   CASE_POS 0 0 0 0 1 0 0 0 "Alternative contension scope";
   CASE_POS 0 0 0 0 0 1 0 0 "Alternative stack";
   CASE_POS 0 0 0 0 0 0 1 0 "No guard size";
   CASE_UNK 0 0 0 0 0 0 2 0 "1p guard size";
   CASE_POS 0 0 0 0 0 0 0 1 "Min stack size";
   CASE_POS 0 0 0 0 0 0 1 1 "Min stack size, no guard";
   CASE_UNK 0 0 0 0 0 0 2 1 "Min stack size, 1p guard";
   CASE_POS 1 0 0 0 0 1 0 0 "Detached, Alternative stack";
   CASE_POS 1 0 0 0 0 0 1 1 "Detached, Min stack size, no guard";
   CASE_UNK 1 0 0 0 0 0 2 1 "Detached, Min stack size, 1p guard";
   CASE_UNK 0 1 1 1 0 0 0 0 "Explicit FIFO max param";
   CASE_UNK 0 1 2 1 0 0 0 0 "Explicit RR max param";
   CASE_UNK 0 1 1 (-1) 0 0 0 0 "Explicit FIFO min param";
   CASE_UNK 0 1 2 (-1) 0 0 0 0 "Explicit RR min param";
   CASE_UNK 0 1 1 1 1 0 0 0 "Explicit FIFO max param, alt scope";
   CASE_UNK 0 1 2 1 1 0 0 0 "Explicit RR max param, alt scope";
   CASE_UNK 0 1 1 (-1) 1 0 0 0 "Explicit FIFO min param, alt scope";
   CASE_UNK 0 1 2 (-1) 1 0 0 0 "Explicit RR min param, alt scope";
   CASE_UNK 1 1 1 1 0 0 0 0 "Detached, explicit FIFO max param";
   CASE_UNK 1 1 2 1 0 0 0 0 "Detached, explicit RR max param";
   CASE_UNK 1 1 1 (-1) 0 0 0 0 "Detached, explicit FIFO min param";
   CASE_UNK 1 1 2 (-1) 0 0 0 0 "Detached, explicit RR min param";
   CASE_UNK 1 1 1 1 1 0 0 0 "Detached, explicit FIFO max param, alt scope";
   CASE_UNK 1 1 2 1 1 0 0 0 "Detached, explicit RR max param, alt scope";
   CASE_UNK 1 1 1 (-1) 1 0 0 0 "Detached, explicit FIFO min param, alt scope";
   CASE_UNK 1 1 2 (-1) 1 0 0 0 "Detached, explicit RR min param, alt scope"]%string.

(** pthread_join/threads_scenarii.c has the rows without the member [detached], and only those. *)
Definition join_scenarii : list scenario :=
  let POS := CASE_POS 0 in let UNK := CASE_UNK 0 in
  [POS 0 0 0 0 0 0 0 "default";
   POS 1 0 0 0 0 0 0 "Explicit sched";
   UNK 0 1 0 0 0 0 0 "FIFO Policy";
   UNK 0 2 0 0 0 0 0 "RR Policy";
   UNK 0 0 1 0 0 0 0 "Max sched param";
   UNK 0 0 (-1) 0 0 0 0 "Min sched param";
   POS 0 0 0 1 0 0 0 "Alternative contension scope";
   POS 0 0 0 0 1 0 0 "Alternative stack";
   POS 0 0 0 0 0 1 0 "No guard size";
   UNK 0 0 0 0 0 2 0 "1p guard size";
   POS 0 0 0 0 0 0 1 "Min stack size";
   POS 0 0 0 0 0 1 1 "Min stack size, no guard";
   UNK 0 0 0 0 0 2 1 "Min stack size, 1p guard";
   UNK 1 1 1 0 0 0 0 "Explicit FIFO max param";
   UNK 1 2 1 0 0 0 0 "Explicit RR max param";
   UNK 1 1 (-1) 0 0 0 0 "Explicit FIFO min param";
   UNK 1 2 (-1) 0 0 0 0 "Explicit RR min param";
   UNK 1 1 1 1 0 0 0 "Explicit FIFO max param, alt scope";
   UNK 1 2 1 1 0 0 0 "Explicit RR max param, alt scope";
   UNK 1 1 (-1) 1 0 0 0 "Explicit FIFO min param, alt scope";
   UNK 1 2 (-1) 1 0 0 0 "Explicit RR min param, alt scope"]%string.

(** ** The program *)

Module StdMain.

(** A thread: the statements of [threaded] before [sem_post] that are left, at the end of
    [threaded], or it has ended. *)
Inductive tplace : Set := Works (n : nat) | Leaves | Gone.
(** [main]: at [pthread_create], [pthread_join], [sem_wait]; in [scenar_fini] at [free],
    [sem_destroy], [pthread_attr_destroy] of a row. *)
Inductive mplace : Set := Creates | Joins | Waits | Frees (i : nat) | Destroys (i : nat) | Attrs (i : nat).

(** A thread with the row whose attributes, and stack, it has. *)
Record sthread : Set := SThread { s_for : nat; s_at : tplace }.

(** [sems] are the semaphores of the rows; [freed] the rows whose stack has been freed;
    [dangles] the rows of the threads that have run on a stack that was freed; [code] the exit
    code. *)
Record sstate : Set := SState {
  m_at : mplace; sc : nat; threads : list sthread; sems : list Z; freed : list nat; dangles : list nat; code : option Z }.

Section Program.
(** The rows, the statements of [threaded] before [sem_post], which affect no others, and
    whether the system has the options for the address and the size of stacks: without
    them [scenar_init] leaves [bottom] null, and there are no stacks to free. *)
Context (rows : list scenario) (work : nat) (stacks : bool).

Definition goes (m : mplace) (s : sstate) : sstate := SState m (sc s) (threads s) (sems s) (freed s) (dangles s) (code s).
Definition next_row (s : sstate) : sstate := SState Creates (S (sc s)) (threads s) (sems s) (freed s) (dangles s) (code s).
Definition ends (c : Z) (s : sstate) : sstate := SState (m_at s) (sc s) (threads s) (sems s) (freed s) (dangles s) (Some c).
Definition with_threads l (s : sstate) : sstate := SState (m_at s) (sc s) l (sems s) (freed s) (dangles s) (code s).
Definition with_sems l (s : sstate) : sstate := SState (m_at s) (sc s) (threads s) l (freed s) (dangles s) (code s).
Definition with_freed l (s : sstate) : sstate := SState (m_at s) (sc s) (threads s) (sems s) l (dangles s) (code s).
Definition with_dangles b (s : sstate) : sstate := SState (m_at s) (sc s) (threads s) (sems s) (freed s) b (code s).

(** [fail]: the call fails (not with EINTR, on which [sem_wait] and [sem_post] are tried again). *)
Definition main_step (fail : bool) (s : sstate) : option sstate :=
  match m_at s with
  | Creates =>
      match rows !! sc s with
      | None => Some (goes (Frees 0) s)
      | Some c =>
          if fail then Some (if result c =? 0 then ends PTS_UNRESOLVED s else next_row s)
          else if result c =? 1 then Some (ends PTS_UNRESOLVED s)
          else Some (goes (if detached c =? 0 then Joins else Waits)
                       (with_threads (threads s ++ [SThread (sc s) (Works work)]) s))
      end
  | Joins =>
      if fail then Some (ends PTS_UNRESOLVED s)
      else match s_at <$> last (threads s) with Some Gone => Some (next_row s) | _ => None end
  | Waits =>
      if fail then Some (ends PTS_UNRESOLVED s)
      else v ← sems s !! sc s;
           if 0 <? v then Some (next_row (with_sems (<[sc s := v - 1]> (sems s)) s)) else None
  | Frees i =>
      match rows !! i with
      | None => Some (ends PTS_PASS s)
      | Some c => Some (goes (Destroys i) (if negb stacks || (altstack c =? 0) then s else with_freed (i :: freed s) s))
      end
  | Destroys i => Some (if fail then ends PTS_UNRESOLVED s else goes (Attrs i) s)
  | Attrs i => Some (if fail then ends PTS_UNRESOLVED s else goes (Frees (S i)) s)
  end.

Definition thread_step (k : nat) (fail : bool) (s : sstate) : option sstate :=
  th ← threads s !! k;
  let s := with_dangles (if bool_decide (s_for th ∈ freed s) then s_for th :: dangles s else dangles s) s in
  let go p := with_threads (<[k := SThread (s_for th) p]> (threads s)) in
  match s_at th with
  | Works (S n) => Some (go (Works n) s)
  | Works 0 =>
      if fail then Some (ends PTS_UNRESOLVED s)
      else Some (go Leaves (with_sems (alter (Z.add 1) (sc s) (sems s)) s))
  | Leaves => Some (go Gone s)
  | Gone => None
  end.

(** Thread 0 is [main]; nothing happens after [exit]. *)
Definition std_step (t : nat) (fail : bool) (s : sstate) : option sstate :=
  match code s with
  | Some _ => None
  | None => match t with O => main_step fail s | S k => thread_step k fail s end
  end.

(** After [scenar_init]. *)
Definition std_start : sstate := SState Creates 0 [] (replicate (length rows) 0) [] [] None.

Definition posted (th : sthread) : bool := match s_at th with Works _ => false | _ => true end.

(** ** What holds for every schedule *)

(** Threads of earlier rows: those of joinable ones have ended, the others have posted. *)
Definition over (th : sthread) : Prop :=
  match s_at th with
  | Works _ => False
  | Leaves => ∃ c, rows !! s_for th = Some c ∧ detached c ≠ 0
  | Gone => True
  end.

Definition fresh (from : nat) (s : sstate) : Prop :=
  length (sems s) = length rows ∧ ∀ i, (from ≤ i < length rows)%nat → sems s !! i = Some 0.

Definition place_ok (s : sstate) : Prop :=
  match m_at s with
  | Creates => (sc s ≤ length rows)%nat ∧ Forall over (threads s) ∧ fresh (sc s) s ∧ freed s = []
  | Joins => ∃ ts p c, threads s = ts ++ [SThread (sc s) p] ∧ Forall over ts ∧ rows !! sc s = Some c ∧
      detached c = 0 ∧ fresh (S (sc s)) s ∧ freed s = []
  | Waits => ∃ ts p c, threads s = ts ++ [SThread (sc s) p] ∧ Forall over ts ∧ rows !! sc s = Some c ∧
      detached c ≠ 0 ∧ fresh (S (sc s)) s ∧ freed s = [] ∧
      sems s !! sc s = Some (if posted (SThread (sc s) p) then 1 else 0)
  | Frees i => (i ≤ length rows)%nat ∧ Forall over (threads s)
  | Destroys i | Attrs i => (i < length rows)%nat ∧ Forall over (threads s)
  end.

Definition stack_of (i : nat) : Prop := stacks = true ∧ ∃ c, rows !! i = Some c ∧ altstack c ≠ 0.
(** A row that gives a detached thread a stack of its own. *)
Definition bad_row (i : nat) : Prop :=
  stacks = true ∧ ∃ c, rows !! i = Some c ∧ detached c ≠ 0 ∧ altstack c ≠ 0.

Record std_inv (s : sstate) : Prop := {
  i_place : place_ok s;
  i_freed : Forall stack_of (freed s);
  i_dangles : Forall bad_row (dangles s) }.

Lemma std_start_inv : std_inv std_start.
Proof.
  split; [|constructor|constructor]. unfold place_ok, std_start; simpl. split_and!; [lia|constructor| |done].
  split; simpl; [by rewrite length_replicate|]. intros i Hi. apply lookup_replicate. lia.
Qed.

(** The steps that are left. *)
Definition thread_left (th : sthread) : Z := match s_at th with Works n => Z.of_nat n + 2 | Leaves => 1 | Gone => 0 end.
Definition main_left (s : sstate) : Z :=
  let n := Z.of_nat (length rows) in
  match m_at s with
  | Creates => (n - Z.of_nat (sc s)) * (Z.of_nat work + 4) + 3 * n + 2
  | Joins | Waits => (n - Z.of_nat (sc s) - 1) * (Z.of_nat work + 4) + 3 * n + 3
  | Frees i => 3 * (n - Z.of_nat i) + 1
  | Destroys i => 3 * (n - Z.of_nat i)
  | Attrs i => 3 * (n - Z.of_nat i) - 1
  end.
Definition steps_left (s : sstate) : Z := match code s with Some _ => 0 | None => main_left s + sumf thread_left (threads s) end.

Lemma thread_left_nonneg th : 0 ≤ thread_left th.
Proof. unfold thread_left. destruct (s_at th); lia. Qed.

Lemma main_left_pos s : place_ok s → 0 < main_left s.
Proof.
  unfold place_ok, main_left. destruct (m_at s).
  - intros (H & _). nia.
  - intros (ts & p & c & _ & _ & H & _). apply lookup_lt_Some in H. nia.
  - intros (ts & p & c & _ & _ & H & _). apply lookup_lt_Some in H. nia.
  - intros (H & _). lia.
  - intros (H & _). lia.
  - intros (H & _). lia.
Qed.

Lemma std_left_nonneg s : std_inv s → 0 ≤ steps_left s.
Proof.
  intros [H _ _]. apply main_left_pos in H. unfold steps_left. destruct (code s); [lia|].
  pose proof (sumf_nonneg thread_left (threads s) thread_left_nonneg). lia.
Qed.

(** An exit. *)
Lemma ends_ok s c : std_inv s → code s = None → std_inv (ends c s) ∧ steps_left (ends c s) < steps_left s.
Proof.
  intros Hi Hc. pose proof Hi as [Hp Hf Hd]. split; [by split|]. apply main_left_pos in Hp.
  unfold steps_left. rewrite Hc. simpl. pose proof (sumf_nonneg thread_left (threads s) thread_left_nonneg). lia.
Qed.

Lemma sumf_app {A} (f : A → Z) l l' : sumf f (l ++ l') = sumf f l + sumf f l'.
Proof. induction l as [|a l IH]; simpl; lia. Qed.

Lemma fresh_less a b s s' : fresh a s → (a ≤ b)%nat → sems s' = sems s → fresh b s'.
Proof. intros [H1 H2] Hab He. split; rewrite He; [done|]. intros i Hi. apply H2. lia. Qed.

Lemma main_step_ok f s s' :
  std_inv s → code s = None → main_step f s = Some s' → std_inv s' ∧ steps_left s' < steps_left s.
Proof.
  intros Hi Hc. pose proof Hi as [Hp Hf Hd]. pose proof (ends_ok s PTS_UNRESOLVED Hi Hc) as Hu.
  pose proof (ends_ok s PTS_PASS Hi Hc) as Hv.
  assert (∀ s1, code s1 = None → place_ok s1 → freed s1 = freed s → dangles s1 = dangles s →
    main_left s1 + sumf thread_left (threads s1) < main_left s + sumf thread_left (threads s) →
    std_inv s1 ∧ steps_left s1 < steps_left s) as Hgo.
  { intros s1 H1 H2 H3 H4 H5. split; [split; [done|by rewrite H3|by rewrite H4]|]. unfold steps_left. by rewrite H1, Hc. }
  unfold main_step, place_ok in *. destruct (m_at s) as [| | |i|i|i] eqn:Em.
  - destruct Hp as (Hle & Ho & Hfr & Hn). destruct (rows !! sc s) as [c|] eqn:Er.
    + apply lookup_lt_Some in Er as Hlt. destruct f.
      * destruct (result c =? 0); intros [= <-]; [done|]. apply Hgo; try done; simpl.
        { unfold place_ok; simpl. split_and!; [lia|done|eapply fresh_less; [exact Hfr|lia|done]|done]. }
        unfold main_left. rewrite Em. simpl. nia.
      * destruct (result c =? 1); intros [= <-]; [done|].
        assert (fresh (S (sc s)) s) as Hfr' by (eapply fresh_less; [exact Hfr|lia|done]).
        apply Hgo; try done.
        -- unfold place_ok. destruct (Z.eqb_spec (detached c) 0); simpl; exists (threads s), (Works work), c; split_and!; try done.
           by apply Hfr.
        -- unfold main_left. rewrite Em. destruct (detached c =? 0); simpl; rewrite sumf_app; cbn [sumf foldr]; unfold thread_left at 2; simpl; nia.
    + intros [= <-]. apply lookup_ge_None in Er. apply Hgo; try done; simpl.
      { unfold place_ok; simpl. split; [lia|done]. }
      unfold main_left. rewrite Em. simpl. nia.
  - destruct Hp as (ts & p & c & Ht & Ho & Er & Hdt & Hfr & Hn). destruct f; [by intros [= <-]|].
    rewrite Ht, last_snoc. simpl. destruct p; try done. intros [= <-]. apply lookup_lt_Some in Er as Hlt.
    apply Hgo; try done; simpl.
    + unfold place_ok; simpl. split_and!; [lia| |eapply fresh_less; [exact Hfr|lia|done]|done].
      rewrite Ht. apply Forall_app. split; [done|]. by repeat constructor.
    + unfold main_left. rewrite Em. simpl. nia.
  - destruct Hp as (ts & p & c & Ht & Ho & Er & Hdt & Hfr & Hn & Hv'). destruct f; [by intros [= <-]|].
    rewrite Hv'. simpl. destruct (posted _) eqn:Ep; [|done]. simpl. intros [= <-]. apply lookup_lt_Some in Er as Hlt.
    apply Hgo; try done; simpl.
    + unfold place_ok; simpl. split_and!; [lia| | |done].
      * rewrite Ht. apply Forall_app. split; [done|]. repeat constructor. unfold over. destruct p; try done. by exists c.
      * destruct Hfr as [H1 H2]. split; simpl; [by rewrite length_insert|]. intros j Hj.
        rewrite list_lookup_insert_ne by lia. apply H2. lia.
    + unfold main_left. rewrite Em. simpl. nia.
  - destruct Hp as (Hle & Ho). destruct (rows !! i) as [c|] eqn:Er.
    + intros [= <-]. apply lookup_lt_Some in Er as Hlt. destruct (negb stacks || (altstack c =? 0)) eqn:Eb.
      * apply Hgo; try done. unfold main_left. rewrite Em. simpl. lia.
      * apply orb_false_elim in Eb as [Hst%negb_false_iff Ha%Z.eqb_neq].
        split; [split; [done|constructor; [split; [done|by exists c]|done]|done]|]. unfold steps_left. simpl. rewrite Hc.
        unfold main_left. rewrite Em. simpl. lia.
    + by intros [= <-].
  - intros [= <-]. destruct Hp as (Hle & Ho). destruct f; [done|]. apply Hgo; try done. unfold main_left. rewrite Em. simpl. lia.
  - intros [= <-]. destruct Hp as (Hle & Ho). destruct f; [done|]. apply Hgo; try done.
    unfold main_left. rewrite Em. simpl. lia.
Qed.

(** A thread that is over can only end. *)
Lemma over_step k th s f s' :
  threads s !! k = Some th → over th → thread_step k f s = Some s' →
  s' = with_threads (<[k := SThread (s_for th) Gone]> (threads s))
         (with_dangles (if bool_decide (s_for th ∈ freed s) then s_for th :: dangles s else dangles s) s) ∧
  s_at th = Leaves ∧ ∃ c, rows !! s_for th = Some c ∧ detached c ≠ 0.
Proof.
  intros Hk Ho. unfold thread_step, over in *. rewrite Hk. simpl. destruct (s_at th) eqn:E; [done| |done].
  by intros [= <-].
Qed.

Lemma gone_over i : over (SThread i Gone).
Proof. done. Qed.

Lemma left_insert l k th th' :
  l !! k = Some th → thread_left th' < thread_left th → sumf thread_left (<[k := th']> l) < sumf thread_left l.
Proof. intros Hk Hl. rewrite (sumf_insert _ _ _ _ _ Hk). lia. Qed.

(** A step of a thread that is over, whatever [main] does. *)
Lemma over_step_ok k th s f s' :
  std_inv s → code s = None → threads s !! k = Some th → over th → thread_step k f s = Some s' →
  (place_ok (with_threads (<[k := SThread (s_for th) Gone]> (threads s)) s)) →
  std_inv s' ∧ steps_left s' < steps_left s.
Proof.
  intros [Hp Hf Hd] Hc Hk Ho Hs Hp'. destruct (over_step _ _ _ _ _ Hk Ho Hs) as (-> & He & c & Hr & Hdt). split.
  - split; [exact Hp'|done|]. simpl. case_bool_decide as Hin; [|done]. constructor; [|done].
    rewrite Forall_forall in Hf. destruct (Hf _ Hin) as (Hst & c' & Hr' & Ha). assert (c' = c) as -> by congruence.
    split; [done|]. by exists c.
  - unfold steps_left. simpl. rewrite Hc. simpl. unfold main_left at 1. simpl. fold (main_left s).
    apply Z.add_lt_mono_l, (left_insert _ _ th); [done|]. unfold thread_left. by rewrite He.
Qed.

(** A step of the thread that [main] waits for. *)
Lemma last_step_ok ts p f s s' :
  threads s = ts ++ [SThread (sc s) p] → Forall over ts → freed s = [] → std_inv s → code s = None →
  thread_step (length ts) f s = Some s' →
  (∀ s1 p', threads s1 = ts ++ [SThread (sc s) p'] → m_at s1 = m_at s → sc s1 = sc s → freed s1 = [] →
     (posted (SThread (sc s) p) = true → posted (SThread (sc s) p') = true) →
     sems s1 = (if posted (SThread (sc s) p) then id else if posted (SThread (sc s) p') then alter (Z.add 1) (sc s) else id) (sems s) →
     place_ok s1) →
  std_inv s' ∧ steps_left s' < steps_left s.
Proof.
  intros Ht Ho Hn Hi Hc Hs Hp'. pose proof (ends_ok s PTS_UNRESOLVED Hi Hc) as Hu. destruct Hi as [Hp Hf Hd].
  assert (threads s !! length ts = Some (SThread (sc s) p)) as Hk by (by rewrite Ht, list_lookup_middle).
  unfold thread_step in Hs. rewrite Hk in Hs. simpl in Hs. rewrite Hn in Hs.
  rewrite bool_decide_eq_false_2 in Hs by apply not_elem_of_nil.
  assert (∀ p', <[length ts := SThread (sc s) p']> (threads s) = ts ++ [SThread (sc s) p']) as Hins.
  { intros p'. rewrite Ht, insert_app_r_alt, Nat.sub_diag by lia. done. }
  assert (∀ s1 p', threads s1 = ts ++ [SThread (sc s) p'] → code s1 = None → dangles s1 = dangles s → freed s1 = [] →
    m_at s1 = m_at s → sc s1 = sc s → place_ok s1 → thread_left (SThread (sc s) p') < thread_left (SThread (sc s) p) →
    std_inv s1 ∧ steps_left s1 < steps_left s) as Hgo.
  { intros s1 p' H1 H2 H3 H4 H5 H6 H7 H8. split; [split; [done|by rewrite H4|by rewrite H3]|].
    unfold steps_left. rewrite H2, Hc. assert (main_left s1 = main_left s) as -> by (unfold main_left; by rewrite H5, H6).
    rewrite H1, Ht, !sumf_app. simpl. lia. }
  destruct p as [[|n]| |]; [destruct f|..]; simplify_eq/=.
  - destruct Hu as [[H1 H2 H3] H4]. by split; [split|].
  - eapply (Hgo _ Leaves); [by apply Hins|done..| |unfold thread_left; simpl; lia]. by apply (Hp' _ Leaves); [apply Hins|..].
  - eapply (Hgo _ (Works n)); [by apply Hins|done..| |unfold thread_left; simpl; lia]. by apply (Hp' _ (Works n)); [apply Hins|..].
  - eapply (Hgo _ Gone); [by apply Hins|done..| |unfold thread_left; simpl; lia]. by apply (Hp' _ Gone); [apply Hins|..].
Qed.

Lemma fresh_alter s s' : fresh (S (sc s)) s → sems s' = alter (Z.add 1) (sc s) (sems s) → fresh (S (sc s)) s'.
Proof.
  intros [H1 H2] He. split; rewrite He; [by rewrite length_alter|]. intros i Hi.
  rewrite list_lookup_alter_ne by lia. by apply H2.
Qed.

Ltac fresh_next H := repeat case_match; first [by eapply fresh_alter|by eapply fresh_less; [exact H|lia|]].

Lemma thread_step_ok k f s s' :
  std_inv s → code s = None → thread_step k f s = Some s' → std_inv s' ∧ steps_left s' < steps_left s.
Proof.
  intros Hi Hc Hs. pose proof Hi as [Hp _ _]. destruct (threads s !! k) as [th|] eqn:Hk; [|unfold thread_step in Hs; by rewrite Hk in Hs].
  assert (∀ ts, Forall over ts → Forall over (<[k := SThread (s_for th) Gone]> ts)) as Hins by (intros; by apply Forall_insert).
  unfold place_ok in Hp. destruct (m_at s) as [| | |i|i|i] eqn:Em.
  - destruct Hp as (Hle & Ho & Hfr & Hn). eapply over_step_ok; [done|done|exact Hk| |exact Hs|].
    + rewrite Forall_lookup in Ho. by eapply Ho.
    + unfold place_ok; simpl. rewrite Em. split_and!; [done|by apply Hins|done|done].
  - destruct Hp as (ts & p & c & Ht & Ho & Er & Hdt & Hfr & Hn). rewrite Ht in Hk.
    destruct (decide (k = length ts)) as [->|Hne].
    + eapply last_step_ok; [done..|]. intros s1 p' H1 H2 H3 H4 Hpost H5. unfold place_ok. rewrite H2, Em.
      exists ts, p', c. rewrite H3. split_and!; try done. fresh_next Hfr.
    + apply lookup_app_Some in Hk as [Hk|[Hle Hk]]; [|apply list_lookup_singleton_Some in Hk; lia].
      eapply over_step_ok; [done|done|rewrite Ht; by apply lookup_app_l_Some|rewrite Forall_lookup in Ho; by eapply Ho|exact Hs|].
      unfold place_ok; simpl. rewrite Em. exists (<[k := SThread (s_for th) Gone]> ts), p, c. split_and!; try done; [|by apply Hins].
      rewrite Ht. by apply insert_app_l, lookup_lt_Some with th.
  - destruct Hp as (ts & p & c & Ht & Ho & Er & Hdt & Hfr & Hn & Hv). rewrite Ht in Hk.
    destruct (decide (k = length ts)) as [->|Hne].
    + eapply last_step_ok; [done..|]. intros s1 p' H1 H2 H3 H4 Hpost H5. unfold place_ok. rewrite H2, Em.
      exists ts, p', c. rewrite H3. split_and!; try done.
      * fresh_next Hfr.
      * rewrite H5. destruct (posted (SThread (sc s) p)); [by rewrite Hpost|].
        destruct (posted (SThread (sc s) p')); [|done]. by rewrite list_lookup_alter_eq, Hv.
    + apply lookup_app_Some in Hk as [Hk|[Hle Hk]]; [|apply list_lookup_singleton_Some in Hk; lia].
      eapply over_step_ok; [done|done|rewrite Ht; by apply lookup_app_l_Some|rewrite Forall_lookup in Ho; by eapply Ho|exact Hs|].
      unfold place_ok; simpl. rewrite Em. exists (<[k := SThread (s_for th) Gone]> ts), p, c. split_and!; try done; [|by apply Hins].
      rewrite Ht. by apply insert_app_l, lookup_lt_Some with th.
  - destruct Hp as (Hle & Ho). eapply over_step_ok; [done|done|exact Hk| |exact Hs|].
    + rewrite Forall_lookup in Ho. by eapply Ho.
    + unfold place_ok; simpl. rewrite Em. split; [done|by apply Hins].
  - destruct Hp as (Hle & Ho). eapply over_step_ok; [done|done|exact Hk| |exact Hs|].
    + rewrite Forall_lookup in Ho. by eapply Ho.
    + unfold place_ok; simpl. rewrite Em. split; [done|by apply Hins].
  - destruct Hp as (Hle & Ho). eapply over_step_ok; [done|done|exact Hk| |exact Hs|].
    + rewrite Forall_lookup in Ho. by eapply Ho.
    + unfold place_ok; simpl. rewrite Em. split; [done|by apply Hins].
Qed.

Lemma std_step_ok t f s s' : std_inv s → std_step t f s = Some s' → std_inv s' ∧ steps_left s' < steps_left s.
Proof.
  intros Hi. unfold std_step. destruct (code s) eqn:Hc; [done|]. destruct t; [by apply main_step_ok|by apply thread_step_ok].
Qed.

(** [main] does not wait for ever. *)
Lemma thread_moves k th s : threads s !! k = Some th → s_at th ≠ Gone → thread_step k false s ≠ None.
Proof. intros Hk Hg. unfold thread_step. rewrite Hk. simpl. by destruct (s_at th) as [[]| |]. Qed.

Lemma std_stuck s : std_inv s → stuck std_step s → is_Some (code s).
Proof.
  intros [Hp _ _] Hst. destruct (code s) as [|] eqn:Hc; [by eexists|exfalso].
  assert (∀ k, thread_step k false s = None) as Ht. { intros k. specialize (Hst (S k)). unfold std_step in Hst. by rewrite Hc in Hst. }
  specialize (Hst 0%nat). unfold std_step in Hst. rewrite Hc in Hst. unfold main_step, place_ok in *. rename Hst into Hm.
  destruct (m_at s).
  - destruct (rows !! sc s) as [c|]; [|done]. by destruct (result c =? 1).
  - destruct Hp as (ts & p & c & E & _). rewrite E, last_snoc in Hm. simpl in Hm.
    apply (thread_moves (length ts) (SThread (sc s) p) s); [by rewrite E, list_lookup_middle|by destruct p|by apply Ht].
  - destruct Hp as (ts & p & c & E & _ & _ & _ & _ & _ & Hv). rewrite Hv in Hm. simpl in Hm.
    apply (thread_moves (length ts) (SThread (sc s) p) s); [by rewrite E, list_lookup_middle|by destruct p|by apply Ht].
  - by destruct (rows !! i).
  - done.
  - done.
Qed.

(** A thread that has not posted is the last one, and [sc] is its row. *)
Lemma working_last s k th :
  std_inv s → threads s !! k = Some th → posted th = false → s_for th = sc s ∧ S k = length (threads s).
Proof.
  intros [Hp _ _] Hk Hw. assert (∀ ts, Forall over ts → ts !! k = Some th → False) as Hno.
  { intros ts Ho Hl. rewrite Forall_lookup in Ho. specialize (Ho k th Hl). unfold over, posted in *. by destruct (s_at th). }
  assert (∀ ts p, threads s = ts ++ [SThread (sc s) p] → Forall over ts → s_for th = sc s ∧ S k = length (threads s)) as Hlast.
  { intros ts p E Ho. rewrite E in Hk |- *. rewrite length_app. simpl.
    apply lookup_app_Some in Hk as [Hk|[Hle Hk]]; [by destruct (Hno ts)|].
    apply list_lookup_singleton_Some in Hk as [Hk <-]. simpl. split; [done|lia]. }
  unfold place_ok in Hp. destruct (m_at s).
  - destruct Hp as (_ & Ho & _). by destruct (Hno _ Ho Hk).
  - destruct Hp as (ts & p & c & E & Ho & _). by eapply Hlast.
  - destruct Hp as (ts & p & c & E & Ho & _). by eapply Hlast.
  - destruct Hp as [_ Ho]. by destruct (Hno _ Ho Hk).
  - destruct Hp as [_ Ho]. by destruct (Hno _ Ho Hk).
  - destruct Hp as [_ Ho]. by destruct (Hno _ Ho Hk).
Qed.

(** When no call fails: a thread for each row so far, and no exit but at the end. *)
Definition created (s : sstate) : nat :=
  match m_at s with Creates => sc s | Joins | Waits => S (sc s) | _ => length rows end.
Record ok_inv (s : sstate) : Prop := {
  k_inv : std_inv s;
  k_created : length (threads s) = created s;
  k_code : code s = None ∨ code s = Some PTS_PASS ∧ m_at s = Frees (length rows) }.

Lemma thread_step_keeps k s s' :
  thread_step k false s = Some s' → m_at s' = m_at s ∧ sc s' = sc s ∧ length (threads s') = length (threads s) ∧ code s' = code s.
Proof.
  unfold thread_step. destruct (threads s !! k) as [th|]; [|done]. simpl. destruct (s_at th) as [[|n]| |]; [..|done]; intros [= <-]; simpl;
    by rewrite length_insert.
Qed.

Lemma ok_step t s s' : Forall (λ c, result c ≠ 1) rows → ok_inv s → std_step t false s = Some s' → ok_inv s'.
Proof.
  intros Hr [Hi Hc Hk] Hs. pose proof (proj1 (std_step_ok _ _ _ _ Hi Hs)) as Hi'. unfold std_step in Hs.
  destruct (code s) eqn:Ec; [done|]. unfold created in Hc. destruct t as [|k].
  - unfold main_step in Hs. pose proof Hi as [Hp _ _]. unfold place_ok in Hp. destruct (m_at s) as [| | |i|i|i] eqn:Em.
    + destruct (rows !! sc s) as [c|] eqn:Er.
      * rewrite Forall_lookup in Hr. specialize (Hr _ _ Er). rewrite (proj2 (Z.eqb_neq _ _) Hr) in Hs. simplify_eq.
        split; [done| |by left]. unfold created. simpl. rewrite length_app, Hc. simpl. destruct (detached c =? 0); lia.
      * simplify_eq. split; [done| |by left]. unfold created. simpl. apply lookup_ge_None in Er. destruct Hp. lia.
    + destruct (s_at <$> last (threads s)) as [[]|]; simplify_eq. split; [done|done|by left].
    + destruct (sems s !! sc s); [|done]. simpl in Hs. destruct (0 <? _); simplify_eq. split; [done|done|by left].
    + destruct (rows !! i) as [c|] eqn:Er; simplify_eq.
      * split; [done|by destruct (negb stacks || _)|left; by destruct (negb stacks || _)].
      * apply lookup_ge_None in Er. destruct Hp as [Hle _]. assert (i = length rows) as -> by lia.
        split; [done|unfold created; simpl; by rewrite Em|by right].
    + simplify_eq. split; [done|done|by left].
    + simplify_eq. split; [done|done|by left].
  - destruct (thread_step_keeps _ _ _ Hs) as (H1 & H2 & H3 & H4). split; [done| |left; congruence].
    unfold created. by rewrite H1, H2, H3, Hc.
Qed.

End Program.

Lemma ok_start rows stacks : ok_inv rows stacks (std_start rows).
Proof. split; [apply std_start_inv|done|by left]. Qed.

(** ** A schedule in which a thread runs on a stack that was freed *)

(** Threads that [main] joins run to their end; detached ones only until they have posted. At
    the end the thread of the row 14 leaves. *)
Definition row_turns (i : nat) (c : scenario) : list (nat * bool) :=
  if detached c =? 0 then [(0, false); (S i, false); (S i, false); (0, false)]%nat
  else [(0, false); (S i, false); (0, false)]%nat.
Definition late_leaver : list (nat * bool) :=
  concat (imap row_turns scenarii) ++ replicate 50 (0%nat, false) ++ [(15, false)]%nat.

(** C20. The [main] of threads_scenarii.c, for every table and every schedule: at any time at
    most one thread has not posted its semaphore, and [sc], which all threads read, names its row then. A
    schedule has at most (7 + work) steps for each row and two more, and there is no deadlock: when
    nothing can move the program has ended. When no call fails and no row expects an error, it has
    ended with PTS_PASS, and a thread has run for every row. A thread runs on a stack that
    [scenar_fini] has freed only if it is detached, its row gives it a stack of its own and the
    system has the options for this; the comment above the
    table forbids such rows, but the table has one, the row 14, and on such systems there is a schedule without failing calls
    in which its thread does, and the program passes. *)
Theorem std_main_correct :
  (∀ rows work stacks sched,
     let s := run (std_step rows work stacks) sched (std_start rows) in
     (∀ k th, threads s !! k = Some th → posted th = false → s_for th = sc s ∧ S k = length (threads s)) ∧
     Z.of_nat (moves (std_step rows work stacks) sched (std_start rows)) ≤ Z.of_nat (length rows) * (7 + Z.of_nat work) + 2 ∧
     (stuck (std_step rows work stacks) s → is_Some (code s)) ∧
     (all_ok sched → Forall (λ c, result c ≠ 1) rows → stuck (std_step rows work stacks) s →
        code s = Some PTS_PASS ∧ length (threads s) = length rows ∧ Forall (λ th, posted th = true) (threads s)) ∧
     Forall (λ i, stacks = true ∧ ∃ c, rows !! i = Some c ∧ detached c ≠ 0 ∧ altstack c ≠ 0) (dangles s)) ∧
  Forall (λ c, result c ≠ 1) scenarii ∧
  ∃ sched, all_ok sched ∧ let s := run (std_step scenarii 0 true) sched (std_start scenarii) in
    dangles s = [14%nat] ∧ code (run (std_step scenarii 0 true) (sched ++ replicate 99 (0%nat, false)) (std_start scenarii)) = Some PTS_PASS.
Proof.
  split; [intros rows work stacks sched s|].
  - assert (std_inv rows stacks s) as Hi.
    { apply (run_inv _ (std_inv rows stacks)); [|by apply std_start_inv]. intros. by eapply std_step_ok. }
    split_and!.
    + intros k th. by apply (working_last rows stacks).
    + etransitivity; [eapply (moves_bounded _ (std_inv rows stacks) (steps_left rows work));
        [apply std_step_ok|by apply std_left_nonneg|by apply std_start_inv]|].
      unfold steps_left, main_left. simpl. lia.
    + by eapply std_stuck.
    + intros Hok Hr Hst. destruct (std_stuck rows work stacks s Hi Hst) as [c Hc].
      assert (ok_inv rows stacks s) as [_ Hl [Hn|[Hp Hm]]]; [| |].
      { apply (run_ok_inv _ (ok_inv rows stacks)); [|done|by apply ok_start]. intros. by eapply ok_step. }
      { congruence. }
      destruct Hi as [Hpl _ _]. unfold created, place_ok in *. rewrite Hm in Hl, Hpl. split_and!; [done..|].
      eapply Forall_impl; [apply Hpl|]. intros th Ho. unfold over, posted in *. by destruct (s_at th).
    + apply Hi.
  - split; [apply (bool_decide_unpack _); by vm_compute|]. exists late_leaver.
    split; [apply (bool_decide_unpack _); by vm_compute|vm_compute; by split].
Qed.

End StdMain.
