(* ===== verification/SemApi.v ===== *)
(** * The semaphore interface of POSIX

    What the tests of src/conformance/interfaces/sem_* call, as a class
    [SemApi] of operations on a state, and the part of the standard that the
    tests rely on, as the class [SemLaws]: a view of the state as semaphore
    objects, descriptors and names, and the effect of each call on the view
    when the system has the resources. The state [psem] at the end is an
    executable instance of both; the library of src/posix1b is another instance
    of the operations. *)

From stdpp Require Import base tactics numbers list gmap strings fin_maps.
From S2P Require Import Prelude SysVSem RefKernel Semaphore.

Open Scope Z_scope.

(** Semaphores are named by the address of the [sem_t]. *)
Class SemApi (St : Type) : Type := {
  SEM_VALUE_MAX : Z;
  api_init : Z → bool → Z → M St unit;
  api_destroy : Z → M St unit;
  api_open : string → Z → Z → Z → M St Z;
  api_close : Z → M St unit;
  api_unlink : string → M St unit;
  api_post : Z → M St unit;
  api_wait : Z → M St unit;
  api_trywait : Z → M St unit;
  api_getvalue : Z → M St Z }.

(** The value of the object at [a]. *)
Definition sem_at {St} (ptrs objs : St → gmap Z Z) (s : St) (a v : Z) : Prop :=
  ∃ o, ptrs s !! a = Some o ∧ objs s !! o = Some v.

(** The standard, for a state with the invariant [good]. *)
Class SemLaws (St : Type) `{SemApi St} : Type := {
  good : St → Prop;
  objs : St → gmap Z Z;
  ptrs : St → gmap Z Z;
  links : St → gmap string Z;
  value_max : 10 ≤ SEM_VALUE_MAX ≤ 2147483647;
  init_law : ∀ s a sh v, good s → ptrs s !! a = None → 0 ≤ v ≤ SEM_VALUE_MAX →
    ∃ s' o, api_init a sh v s = (Val tt, s') ∧ good s' ∧
      ptrs s' = <[a := o]> (ptrs s) ∧ objs s' !! o = Some v ∧ links s' = links s;
  init_range : ∀ s a sh v, good s → SEM_VALUE_MAX < v →
    ∃ s', api_init a sh v s = (Fail EINVAL, s');
  destroy_law : ∀ s a v, good s → sem_at ptrs objs s a v →
    ∃ s', api_destroy a s = (Val tt, s');
  open_new : ∀ s n fl mode v, good s → links s !! n = None → has fl O_CREAT = true →
    0 ≤ v ≤ SEM_VALUE_MAX →
    ∃ s' a o, api_open n fl mode v s = (Val a, s') ∧ a ≠ 0 ∧ good s' ∧
      ptrs s' = <[a := o]> (ptrs s) ∧ objs s' !! o = Some v ∧ links s' = <[n := o]> (links s);
  open_range : ∀ s n fl mode v, good s → has fl O_CREAT = true → SEM_VALUE_MAX < v →
    links s !! n = None →
    ∃ s', api_open n fl mode v s = (Fail EINVAL, s') ∧ good s' ∧ links s' = links s;
  open_missing : ∀ s n fl mode v, good s → links s !! n = None → has fl O_CREAT = false →
    ∃ s', api_open n fl mode v s = (Fail ENOENT, s') ∧ good s' ∧ links s' = links s;
  open_exclusive : ∀ s n o fl mode v, good s → links s !! n = Some o →
    has fl O_CREAT = true → has fl O_EXCL = true → 0 ≤ v ≤ SEM_VALUE_MAX →
    ∃ s', api_open n fl mode v s = (Fail EEXIST, s') ∧ good s' ∧ links s' = links s;
  open_again : ∀ s n o fl mode v, good s → links s !! n = Some o → has fl O_EXCL = false →
    0 ≤ v ≤ SEM_VALUE_MAX →
    ∃ s' a, api_open n fl mode v s = (Val a, s') ∧ a ≠ 0 ∧ good s' ∧
      ptrs s' = <[a := o]> (ptrs s) ∧ objs s' !! o = objs s !! o ∧ links s' = links s;
  (* a linked object stays when a descriptor goes *)
  close_law : ∀ s a o, good s → ptrs s !! a = Some o →
    ∃ s', api_close a s = (Val tt, s') ∧ good s' ∧ ptrs s' = delete a (ptrs s) ∧
      links s' = links s ∧ ∀ n o', links s !! n = Some o' → objs s' !! o' = objs s !! o';
  (* an open object stays when the name goes *)
  unlink_law : ∀ s n o, good s → links s !! n = Some o →
    ∃ s', api_unlink n s = (Val tt, s') ∧ good s' ∧ ptrs s' = ptrs s ∧
      links s' = delete n (links s) ∧
      ∀ a o', ptrs s !! a = Some o' → objs s' !! o' = objs s !! o';
  unlink_missing : ∀ s n, good s → links s !! n = None →
    ∃ s', api_unlink n s = (Fail ENOENT, s');
  post_law : ∀ s a v, good s → sem_at ptrs objs s a v → v < SEM_VALUE_MAX →
    ∃ s', api_post a s = (Val tt, s') ∧ good s' ∧ ptrs s' = ptrs s ∧ links s' = links s ∧
      sem_at ptrs objs s' a (v + 1);
  wait_law : ∀ s a v, good s → sem_at ptrs objs s a v → 0 < v →
    ∃ s', api_wait a s = (Val tt, s') ∧ good s' ∧ ptrs s' = ptrs s ∧ links s' = links s ∧
      sem_at ptrs objs s' a (v - 1);
  trywait_law : ∀ s a v, good s → sem_at ptrs objs s a v → 0 < v →
    ∃ s', api_trywait a s = (Val tt, s') ∧ good s' ∧ ptrs s' = ptrs s ∧ links s' = links s ∧
      sem_at ptrs objs s' a (v - 1);
  trywait_locked : ∀ s a, good s → sem_at ptrs objs s a 0 →
    ∃ s', api_trywait a s = (Fail EAGAIN, s') ∧ good s' ∧ ptrs s' = ptrs s ∧
      links s' = links s ∧ sem_at ptrs objs s' a 0;
  getvalue_law : ∀ s a v, good s → sem_at ptrs objs s a v →
    ∃ s', api_getvalue a s = (Val v, s') ∧ good s' ∧ ptrs s' = ptrs s ∧ links s' = links s ∧
      sem_at ptrs objs s' a v }.

(** ** The library of src/posix1b

    [SEM_VALUE_MAX] is that of the platform's limits.h; [sem_open] gets fuel
    for its retry loop. *)

#[global] Instance posix1b_sem {K} `{FileSys K} `{SemKernel K} : SemApi (sstate K) := {|
  SEM_VALUE_MAX := 2147483647;
  api_init := sem_init;
  api_destroy := sem_destroy;
  api_open n fl mode v := sem_open 5 (Some n) fl mode v;
  api_close := sem_close;
  api_unlink := sem_unlink;
  api_post := sem_post;
  api_wait := sem_wait;
  api_trywait := sem_trywait;
  api_getvalue a := sem_getvalue a true |}.

(** ** An instance that meets the laws *)

Record psem : Type := PSem {
  p_objs : gmap Z Z; p_ptrs : gmap Z Z; p_links : gmap string Z; p_next : Z }.

Definition psem0 : psem := PSem ∅ ∅ ∅ 1.

Definition p_value (a : Z) (s : psem) : option (Z * Z) :=
  match p_ptrs s !! a with
  | Some o => match p_objs s !! o with Some v => Some (o, v) | None => None end
  | None => None
  end.

Definition p_set (o v : Z) (s : psem) : psem :=
  PSem (<[o := v]> (p_objs s)) (p_ptrs s) (p_links s) (p_next s).

(** The operation [f] on the value of the semaphore at [a]. *)
Definition p_with {A} (a : Z) (f : Z → Z → M psem A) : M psem A := λ s,
  match p_value a s with Some (o, v) => f o v s | None => (Fail EINVAL, s) end.

#[global] Instance psem_api : SemApi psem := {|
  SEM_VALUE_MAX := 2147483647;
  api_init a _ v s :=
    if 2147483647 <? v then (Fail EINVAL, s)
    else (Val tt, PSem (<[p_next s := v]> (p_objs s)) (<[a := p_next s]> (p_ptrs s))
                    (p_links s) (p_next s + 1));
  api_destroy a := p_with a (λ o _ s,
    (Val tt, PSem (delete o (p_objs s)) (delete a (p_ptrs s)) (p_links s) (p_next s)));
  api_open n fl _ v s :=
    if has fl O_CREAT && (2147483647 <? v) then (Fail EINVAL, s)
    else match p_links s !! n with
         | Some o =>
             if has fl O_CREAT && has fl O_EXCL then (Fail EEXIST, s)
             else (Val (p_next s),
               PSem (p_objs s) (<[p_next s := o]> (p_ptrs s)) (p_links s) (p_next s + 1))
         | None =>
             if has fl O_CREAT then
               (Val (p_next s),
                PSem (<[p_next s := v]> (p_objs s)) (<[p_next s := p_next s]> (p_ptrs s))
                  (<[n := p_next s]> (p_links s)) (p_next s + 1))
             else (Fail ENOENT, s)
         end;
  api_close a s :=
    match p_ptrs s !! a with
    | Some _ => (Val tt, PSem (p_objs s) (delete a (p_ptrs s)) (p_links s) (p_next s))
    | None => (Fail EINVAL, s)
    end;
  api_unlink n s :=
    match p_links s !! n with
    | Some _ => (Val tt, PSem (p_objs s) (p_ptrs s) (delete n (p_links s)) (p_next s))
    | None => (Fail ENOENT, s)
    end;
  api_post a := p_with a (λ o v s,
    if v <? 2147483647 then (Val tt, p_set o (v + 1) s) else (Fail ERANGE, s));
  api_wait a := p_with a (λ o v s,
    if 0 <? v then (Val tt, p_set o (v - 1) s) else (Sleep, s));
  api_trywait a := p_with a (λ o v s,
    if 0 <? v then (Val tt, p_set o (v - 1) s) else (Fail EAGAIN, s));
  api_getvalue a := p_with a (λ _ v s, (Val v, s)) |}.

Lemma p_value_at s a v :
  sem_at p_ptrs p_objs s a v → ∃ o, p_value a s = Some (o, v) ∧ p_ptrs s !! a = Some o.
Proof. intros (o & Ha & Ho). exists o. unfold p_value. by rewrite Ha, Ho. Qed.

Lemma p_set_at s a o v :
  p_ptrs s !! a = Some o → sem_at p_ptrs p_objs (p_set o v s) a v.
Proof. intros Ha. exists o. split; [done|]. apply lookup_insert_eq. Qed.

#[global] Instance psem_laws : SemLaws psem.
Proof.
  refine {| good := λ s, 0 < p_next s; objs := p_objs; ptrs := p_ptrs; links := p_links |};
    simpl; unfold p_with.
  - lia.
  - intros s a sh v Hg Ha Hv. rewrite (proj2 (Z.ltb_ge _ _)) by lia.
    do 2 eexists. split; [done|]. simpl. rewrite lookup_insert_eq. split; [lia|done].
  - intros s a sh v Hg Hv. rewrite (proj2 (Z.ltb_lt _ _)) by lia. by eexists.
  - intros s a v Hg (o & -> & _)%p_value_at. by eexists.
  - intros s n fl mode v Hg Hn Hc Hv. rewrite (proj2 (Z.ltb_ge _ _)) by lia.
    rewrite Hn, Hc. simpl. do 3 eexists. split; [done|]. simpl. rewrite lookup_insert_eq.
    by split_and!; try lia.
  - intros s n fl mode v Hg Hc Hv Hn. rewrite (proj2 (Z.ltb_lt _ _)) by lia. rewrite Hc.
    by eexists.
  - intros s n fl mode v Hg Hn Hc. rewrite Hc, Hn. by eexists.
  - intros s n o fl mode v Hg Hn Hc He Hv. rewrite Hc, Hn, He. simpl.
    rewrite (proj2 (Z.ltb_ge _ _)) by lia. by eexists.
  - intros s n o fl mode v Hg Hn He Hv. rewrite Hn, He, andb_false_r.
    rewrite (proj2 (Z.ltb_ge _ _)), andb_false_r by lia.
    do 2 eexists. split; [done|]. simpl. by split_and!; try lia.
  - intros s a o Hg Ha. rewrite Ha. by eexists.
  - intros s n o Hg Hn. rewrite Hn. by eexists.
  - intros s n Hg Hn. rewrite Hn. by eexists.
  - intros s a v Hg (o & -> & Ha)%p_value_at Hv. rewrite (proj2 (Z.ltb_lt _ _)) by lia.
    eexists. split; [done|]. split_and!; [done..|by apply p_set_at].
  - intros s a v Hg (o & -> & Ha)%p_value_at Hv. rewrite (proj2 (Z.ltb_lt _ _)) by lia.
    eexists. split; [done|]. split_and!; [done..|by apply p_set_at].
  - intros s a v Hg (o & -> & Ha)%p_value_at Hv. rewrite (proj2 (Z.ltb_lt _ _)) by lia.
    eexists. split; [done|]. split_and!; [done..|by apply p_set_at].
  - intros s a Hg Hat. destruct (p_value_at s a 0 Hat) as (o & -> & Ha). by eexists.
  - intros s a v Hg Hat. destruct (p_value_at s a v Hat) as (o & -> & Ha). by eexists.
Defined.
