(* ===== verification/SemTests.v ===== *)
(** * The semaphore tests of the suite

    The tests of src/conformance/interfaces/sem_* that run in one process and
    wait for nothing: one definition for the [main] of each file, over any
    implementation of the interface SemApi, with the exit status as result.
    [pid] is what [getpid()] returns, [a] the address of the local variable
    [mysemp] of the tests with unnamed semaphores; messages are not modelled.
    A name that does not fit its buffer is undefined behaviour. *)

From stdpp Require Import base tactics numbers list gmap strings.
From S2P Require Import Prelude SysVSem SemApi.

Open Scope Z_scope.

Definition INT_MAX : Z := 2147483647.

(** ** [sprintf(semname, "/" FUNCTION "_" TEST "_%d", getpid())] *)

Definition digit (d : Z) : string :=
  String (Ascii.ascii_of_N (48 + Z.to_N d)) EmptyString.

(** [%d] of a number that is not negative and has at most [fuel + 1] digits. *)
Fixpoint decimal (fuel : nat) (n : Z) : string :=
  match fuel with
  | O => digit (n `mod` 10)
  | S fuel => if n <? 10 then digit n
              else (decimal fuel (n `div` 10) +:+ digit (n `mod` 10))%string
  end.

Definition test_name (function test : string) (pid : Z) : string :=
  ("/" +:+ function +:+ "_" +:+ test +:+ "_" +:+ decimal 9 pid)%string.

Section Tests.
Context {St : Type} `{SemApi St}.
Notation TM := (M St).

(** The string is written to an array of [size] bytes, with a final 0. *)
Definition sprintf_semname (size : Z) (function test : string) (pid : Z) : TM string :=
  let name := test_name function test pid in
  if size <? Z.of_nat (String.length name) + 1 then undefined else mret name.

(** A call whose failure makes the test return [bad]. *)
Definition check {A} (c : TM A) (bad : Z) (k : A → TM Z) : TM Z :=
  r ← attempt c;
  match r with inl a => k a | inr _ => mret bad end.

(** A call whose result the test does not look at. *)
Definition ignore {A} (c : TM A) : TM unit := attempt c;; mret tt.

(** [mysemp == SEM_FAILED || mysemp == NULL] for the result of [sem_open]. *)
Definition check_open (c : TM Z) (bad : Z) (k : Z → TM Z) : TM Z :=
  check c bad (λ p, if p =? 0 then mret bad else k p).

(** The end of most tests: [if (ok)] the test cleans up and passes. *)
Definition pass_if (ok : bool) (cleanup : TM unit) : TM Z :=
  if ok then cleanup;; mret PTS_PASS else mret PTS_FAIL.

Definition close_unlink (mysemp : Z) (semname : string) : TM unit :=
  ignore (api_close mysemp);; ignore (api_unlink semname).
Definition unlink_close (mysemp : Z) (semname : string) : TM unit :=
  ignore (api_unlink semname);; ignore (api_close mysemp).

(** ** sem_init *)

Definition sem_init_1_1 (a : Z) : TM Z :=
  sts ← attempt (api_init a false 1);
  check (api_getvalue a) PTS_UNRESOLVED (λ val,
  pass_if (negb (match sts with inr _ => true | inl _ => false end && negb (val =? 1)))
    (ignore (api_destroy a))).

Definition sem_init_2_1 (a : Z) : TM Z :=
  check (api_init a false 1) PTS_UNRESOLVED (λ _,
  check (api_trywait a) PTS_UNRESOLVED (λ _,
  check (api_getvalue a) PTS_UNRESOLVED (λ val,
  pass_if (val <=? 0) (ignore (api_destroy a))))).

Definition sem_init_2_2 (a : Z) : TM Z :=
  check (api_init a false 0) PTS_UNRESOLVED (λ _,
  check (api_post a) PTS_UNRESOLVED (λ _,
  check (api_getvalue a) PTS_UNRESOLVED (λ val,
  pass_if (val =? 1) (ignore (api_destroy a))))).

Definition sem_init_5_1 (a : Z) : TM Z :=
  check (api_init a false 1) PTS_FAIL (λ _,
  ignore (api_destroy a);; mret PTS_PASS).

Definition sem_init_5_2 (a : Z) : TM Z :=
  check (api_init a false 1) PTS_FAIL (λ _,
  ignore (api_destroy a);; mret PTS_PASS).

(** The value of [errno] is looked at whatever the call returns: it is 0 when
    the program starts and a call that succeeds leaves it. *)
Definition sem_init_6_1 (a : Z) : TM Z :=
  if INT_MAX <=? SEM_VALUE_MAX then mret PTS_PASS
  else
    r ← attempt (api_init a false (SEM_VALUE_MAX + 1));
    match r with
    | inr EINVAL => mret PTS_PASS
    | _ => mret PTS_FAIL
    end.

(** ** sem_destroy *)

Definition sem_destroy_4_1 (a : Z) : TM Z :=
  check (api_init a false 0) PTS_UNRESOLVED (λ _,
  check (api_destroy a) PTS_FAIL (λ _, mret PTS_PASS)).

(** ** sem_open *)

Definition sem_open_1_1 (pid : Z) : TM Z :=
  semname ← sprintf_semname 50 "sem_open" "1-1" pid;
  check_open (api_open semname O_CREAT 511 1) PTS_FAIL (λ mysemp,
  close_unlink mysemp semname;; mret PTS_PASS).

(** The condition [&mysemp != NULL] is about the variable and holds. *)
Definition sem_open_1_2 (pid : Z) : TM Z :=
  semname ← sprintf_semname 50 "sem_open" "1-2" pid;
  r ← attempt (api_open semname O_CREAT 511 1);
  (match r with
   | inl mysemp => ignore (api_close mysemp)
   | inr _ => undefined
   end);;
  ignore (api_unlink semname);;
  mret PTS_PASS.

Definition sem_open_1_3 (pid : Z) : TM Z :=
  semname ← sprintf_semname 50 "sem_open" "1-3" pid;
  check_open (api_open semname O_CREAT 511 1) PTS_UNRESOLVED (λ mysemp,
  check (api_wait mysemp) PTS_FAIL (λ _,
  close_unlink mysemp semname;; mret PTS_PASS)).

Definition sem_open_1_4 (pid : Z) : TM Z :=
  semname ← sprintf_semname 20 "sem_open" "1-4" pid;
  check_open (api_open semname O_CREAT 511 1) PTS_UNRESOLVED (λ mysemp,
  check (api_post mysemp) PTS_FAIL (λ _,
  close_unlink mysemp semname;; mret PTS_PASS)).

Definition sem_open_2_1 (pid : Z) : TM Z :=
  semname ← sprintf_semname 50 "sem_open" "2-1" pid;
  check (api_open semname O_CREAT 511 0) PTS_UNRESOLVED (λ mysemp,
  check (api_close mysemp) PTS_UNRESOLVED (λ _,
  r ← attempt (api_open semname (Z.lor O_CREAT O_EXCL) 511 1);
  match r with
  | inr EEXIST => ignore (api_unlink semname);; mret PTS_PASS
  | _ => mret PTS_FAIL
  end)).

(** A failed first [sem_open] gives its -1 to [sem_close]. *)
Definition sem_open_4_1 (pid : Z) : TM Z :=
  semname ← sprintf_semname 50 "sem_open" "4-1" pid;
  r ← attempt (api_open semname O_CREAT 292 1);
  (match r with
   | inl mysemp => ignore (api_close mysemp)
   | inr _ => undefined
   end);;
  r ← attempt (api_open semname (Z.lor O_CREAT O_EXCL) 292 1);
  match r with
  | inr EEXIST => ignore (api_unlink semname);; mret PTS_PASS
  | _ => mret PTS_FAIL
  end.

Definition sem_open_5_1 (pid : Z) : TM Z :=
  if INT_MAX <=? SEM_VALUE_MAX then mret PTS_PASS
  else
    semname ← sprintf_semname 50 "sem_open" "5-1" pid;
    r ← attempt (api_open semname O_CREAT 292 (SEM_VALUE_MAX + 1));
    match r with
    | inr EINVAL => ignore (api_unlink semname);; mret PTS_PASS
    | _ => mret PTS_FAIL
    end.

Definition sem_open_6_1 (pid : Z) : TM Z :=
  semname ← sprintf_semname 50 "sem_open" "6-1" pid;
  r ← attempt (api_open semname 0 0 0);
  match r with
  | inr ENOENT => ignore (api_unlink semname);; mret PTS_PASS
  | _ => mret PTS_FAIL
  end.

(** The first descriptor is not closed. *)
Definition sem_open_10_1 (pid : Z) : TM Z :=
  semname ← sprintf_semname 50 "sem_open" "10-1" pid;
  check (api_open semname O_CREAT 511 5) PTS_UNRESOLVED (λ mysemp,
  check (api_wait mysemp) PTS_UNRESOLVED (λ _,
  check (api_open semname O_CREAT 511 1) PTS_UNRESOLVED (λ mysemp,
  check (api_getvalue mysemp) PTS_UNRESOLVED (λ val,
  if negb (val =? 4) then ignore (api_unlink semname);; mret PTS_FAIL
  else close_unlink mysemp semname;; mret PTS_PASS)))).

(** ** sem_close *)

Definition sem_close_1_1 (pid : Z) : TM Z :=
  semname ← sprintf_semname 20 "sem_close" "1-1" pid;
  check (api_open semname O_CREAT 448 1) PTS_UNRESOLVED (λ mysemp,
  check (api_close mysemp) PTS_FAIL (λ _,
  ignore (api_unlink semname);; mret PTS_PASS)).

Definition sem_close_2_1 (pid : Z) : TM Z :=
  semname ← sprintf_semname 20 "sem_close" "2-1" pid;
  check (api_open semname O_CREAT 511 1) PTS_UNRESOLVED (λ mysemp,
  check (api_close mysemp) PTS_UNRESOLVED (λ _,
  check (api_open semname O_CREAT 511 1) PTS_UNRESOLVED (λ mysemp,
  check (api_close mysemp) PTS_FAIL (λ _,
  ignore (api_unlink semname);; mret PTS_PASS)))).

Definition sem_close_3_1 (pid : Z) : TM Z :=
  semname ← sprintf_semname 20 "sem_close" "3-1" pid;
  check (api_open semname O_CREAT 292 1) PTS_UNRESOLVED (λ mysemp,
  check (api_unlink semname) PTS_FAIL (λ _,
  check (api_close mysemp) PTS_UNRESOLVED (λ _, mret PTS_PASS))).

(** ** sem_getvalue *)

Definition sem_getvalue_1_1 (pid : Z) : TM Z :=
  semname ← sprintf_semname 20 "sem_getvalue" "1-1" pid;
  check_open (api_open semname O_CREAT 511 1) PTS_UNRESOLVED (λ mysemp,
  check (api_getvalue mysemp) PTS_UNRESOLVED (λ val,
  pass_if (val =? 1) (close_unlink mysemp semname))).

Definition sem_getvalue_2_1 (pid : Z) : TM Z :=
  semname ← sprintf_semname 20 "sem_getvalue" "2-1" pid;
  check_open (api_open semname O_CREAT 511 1) PTS_UNRESOLVED (λ mysemp,
  check (api_trywait mysemp) PTS_UNRESOLVED (λ _,
  check (api_getvalue mysemp) PTS_UNRESOLVED (λ val,
  pass_if (val <=? 0) (close_unlink mysemp semname)))).

Definition sem_getvalue_4_1 (pid : Z) : TM Z :=
  semname ← sprintf_semname 20 "sem_getvalue" "4-1" pid;
  check_open (api_open semname O_CREAT 511 1) PTS_UNRESOLVED (λ mysemp,
  check (api_getvalue mysemp) PTS_FAIL (λ _,
  close_unlink mysemp semname;; mret PTS_PASS)).

Definition sem_getvalue_5_1 (pid : Z) : TM Z :=
  semname ← sprintf_semname 20 "sem_getvalue" "5-1" pid;
  check_open (api_open semname O_CREAT 511 4) PTS_UNRESOLVED (λ mysemp,
  check (api_getvalue mysemp) PTS_UNRESOLVED (λ _,
  check (api_trywait mysemp) PTS_UNRESOLVED (λ _,
  check (api_getvalue mysemp) PTS_UNRESOLVED (λ val,
  pass_if (val =? 3) (close_unlink mysemp semname))))).

(** ** sem_post *)

Definition sem_post_1_1 (pid : Z) : TM Z :=
  semname ← sprintf_semname 20 "sem_post" "1-1" pid;
  check_open (api_open semname O_CREAT 511 0) PTS_UNRESOLVED (λ mysemp,
  check (api_post mysemp) PTS_UNRESOLVED (λ _,
  check (api_getvalue mysemp) PTS_UNRESOLVED (λ val,
  pass_if (val =? 1) (close_unlink mysemp semname)))).

Definition sem_post_1_2 (pid : Z) : TM Z :=
  semname ← sprintf_semname 20 "sem_post" "1-2" pid;
  check_open (api_open semname O_CREAT 511 2) PTS_UNRESOLVED (λ mysemp,
  check (api_post mysemp) PTS_UNRESOLVED (λ _,
  check (api_getvalue mysemp) PTS_UNRESOLVED (λ val,
  pass_if (val =? 3) (close_unlink mysemp semname)))).

Definition sem_post_2_1 (pid : Z) : TM Z :=
  semname ← sprintf_semname 20 "sem_post" "2-1" pid;
  check_open (api_open semname O_CREAT 511 1) PTS_UNRESOLVED (λ mysemp,
  check (api_wait mysemp) PTS_UNRESOLVED (λ _,
  check (api_post mysemp) PTS_FAIL (λ _,
  close_unlink mysemp semname;; mret PTS_PASS))).

Definition sem_post_4_1 (pid : Z) : TM Z :=
  semname ← sprintf_semname 20 "sem_post" "4-1" pid;
  check_open (api_open semname O_CREAT 511 0) PTS_UNRESOLVED (λ mysemp,
  check (api_post mysemp) PTS_FAIL (λ _,
  close_unlink mysemp semname;; mret PTS_PASS)).

(** ** sem_wait and sem_trywait *)

Definition sem_wait_1_1 (pid : Z) : TM Z :=
  semname ← sprintf_semname 20 "sem_wait" "1-1" pid;
  check_open (api_open semname O_CREAT 511 1) PTS_UNRESOLVED (λ mysemp,
  check (api_wait mysemp) PTS_UNRESOLVED (λ _,
  check (api_getvalue mysemp) PTS_UNRESOLVED (λ val,
  pass_if (val =? 0) (close_unlink mysemp semname)))).

(** [while (value)]: a failing [sem_wait] ends the test. *)
Fixpoint wait_loop (value : nat) (mysemp : Z) (k : TM Z) : TM Z :=
  match value with
  | O => k
  | S value => check (api_wait mysemp) PTS_UNRESOLVED (λ _, wait_loop value mysemp k)
  end.

Definition sem_wait_1_2 (pid : Z) : TM Z :=
  semname ← sprintf_semname 20 "sem_wait" "2-1" pid;
  check_open (api_open semname O_CREAT 511 10) PTS_UNRESOLVED (λ mysemp,
  wait_loop 10 mysemp (
  check (api_getvalue mysemp) PTS_UNRESOLVED (λ val,
  pass_if (val =? 0) (unlink_close mysemp semname)))).

Definition sem_wait_11_1 (pid : Z) : TM Z :=
  semname ← sprintf_semname 20 "sem_trywait" "11-1" pid;
  check_open (api_open semname O_CREAT 511 1) PTS_UNRESOLVED (λ mysemp,
  check (api_trywait mysemp) PTS_UNRESOLVED (λ _,
  check (api_getvalue mysemp) PTS_UNRESOLVED (λ val,
  pass_if (val =? 0) (unlink_close mysemp semname)))).

Definition sem_wait_12_1 (pid : Z) : TM Z :=
  semname ← sprintf_semname 20 "sem_trywait" "12-1" pid;
  check_open (api_open semname O_CREAT 511 0) PTS_UNRESOLVED (λ mysemp,
  r ← attempt (api_trywait mysemp);
  match r with
  | inr _ => unlink_close mysemp semname;; mret PTS_PASS
  | inl _ => mret PTS_FAIL
  end).

Definition sem_wait_3_1 (pid : Z) : TM Z :=
  semname ← sprintf_semname 20 "sem_wait" "3-1" pid;
  check_open (api_open semname O_CREAT 0 1) PTS_UNRESOLVED (λ mysemp,
  check (api_wait mysemp) PTS_UNRESOLVED (λ _,
  check (api_post mysemp) PTS_UNRESOLVED (λ _,
  check (api_getvalue mysemp) PTS_UNRESOLVED (λ val,
  pass_if (val =? 1) (unlink_close mysemp semname))))).

Definition sem_wait_5_1 (pid : Z) : TM Z :=
  semname ← sprintf_semname 20 "sem_trywait" "5-1" pid;
  check_open (api_open semname O_CREAT 511 0) PTS_UNRESOLVED (λ mysemp,
  r ← attempt (api_trywait mysemp);
  match r with
  | inr EAGAIN => close_unlink mysemp semname;; mret PTS_PASS
  | _ => mret PTS_FAIL
  end).

(** ** sem_unlink *)

Definition sem_unlink_1_1 (pid : Z) : TM Z :=
  semname ← sprintf_semname 20 "sem_unlink" "1-1" pid;
  check_open (api_open semname O_CREAT 0 1) PTS_UNRESOLVED (λ mysemp,
  check (api_unlink semname) PTS_FAIL (λ _,
  ignore (api_close mysemp);; mret PTS_PASS)).

Definition sem_unlink_2_1 (pid : Z) : TM Z :=
  semname ← sprintf_semname 20 "sem_unlink" "2-1" pid;
  check_open (api_open semname O_CREAT 0 1) PTS_UNRESOLVED (λ mysemp,
  check (api_unlink semname) PTS_FAIL (λ _,
  check (api_wait mysemp) PTS_FAIL (λ _,
  ignore (api_close mysemp);; mret PTS_PASS))).
End Tests.
