(* ===== verification/SemTestsThms.v ===== *)
(** * What the semaphore tests decide

    An implementation that meets the laws of SemApi passes every test of
    SemTests, as long as the name of the semaphore fits the buffer of the test;
    where it does not, the test runs into undefined behaviour. The library of
    src/posix1b passes them on the kernel of RefKernel. *)

From stdpp Require Import base tactics numbers list gmap strings.
From S2P Require Import Prelude SysVSem RefKernel Semaphore SemApi SemTests.

Open Scope Z_scope.

(** ** Names and buffers *)

Lemma string_length_app (x y : string) :
  String.length (x +:+ y) = (String.length x + String.length y)%nat.
Proof. induction x as [|c x IH]; [done|]. change (S (String.length (x +:+ y)) = S (String.length x) + String.length y)%nat. rewrite IH. lia. Qed.

Lemma decimal_length fuel n d :
  0 ≤ n → (d ≤ fuel)%nat →
  (String.length (decimal fuel n) ≤ S d)%nat ↔ n < 10 ^ Z.of_nat (S d) ∨ d = fuel.
Proof.
  revert n d. induction fuel as [|fuel IH]; intros n d Hn Hd; simpl decimal.
  { assert (d = 0%nat) as -> by lia. simpl. split; [by right|lia]. }
  destruct (Z.ltb_spec n 10) as [H10|H10].
  { change (String.length (digit n)) with 1%nat. split; [intros _; left|lia].
    assert (10 ^ 1 ≤ 10 ^ Z.of_nat (S d)) by (apply Z.pow_le_mono_r; lia). lia. }
  rewrite string_length_app. change (String.length (digit (n `mod` 10))) with 1%nat.
  destruct d as [|d].
  { split; [|intros [Hlt|[=]]; lia].
    destruct fuel; simpl; [lia|]. case_match; [simpl; lia|]. rewrite string_length_app. simpl. lia. }
  assert (String.length (decimal fuel (n `div` 10)) + 1 ≤ S (S d) ↔
          String.length (decimal fuel (n `div` 10)) ≤ S d)%nat as -> by lia.
  rewrite IH by (try apply Z.div_pos; lia).
  rewrite (Nat2Z.inj_succ (S d)), Z.pow_succ_r by lia.
  assert (n `div` 10 < 10 ^ Z.of_nat (S d) ↔ n < 10 * 10 ^ Z.of_nat (S d)) as ->.
  { split; intros Hlt.
    - pose proof (Z.div_mod n 10 ltac:(lia)). pose proof (Z.mod_pos_bound n 10 ltac:(lia)). lia.
    - apply Z.div_lt_upper_bound; lia. }
  split; intros [Hlt|Heq]; auto; right; lia.
Qed.

(** The characters of a name before the number. *)
Definition stem_length (function test : string) : Z :=
  Z.of_nat (String.length function) + Z.of_nat (String.length test) + 3.

Lemma test_name_length function test pid :
  Z.of_nat (String.length (test_name function test pid)) =
  stem_length function test + Z.of_nat (String.length (decimal 9 pid)).
Proof. unfold test_name, stem_length. rewrite !string_length_app. simpl. lia. Qed.

(** Does the name fit an array of [size] bytes? *)
Definition fits (size : Z) (function test : string) (pid : Z) : bool :=
  Z.of_nat (String.length (test_name function test pid)) + 1 <=? size.

(** A buffer with room for [d + 1] digits. *)
Lemma fits_digits size function test pid d :
  0 ≤ pid → (d < 9)%nat → size = stem_length function test + Z.of_nat d + 2 →
  fits size function test pid = (pid <? 10 ^ Z.of_nat (S d)).
Proof.
  intros Hp Hd ->. unfold fits. rewrite test_name_length.
  pose proof (decimal_length 9 pid d Hp ltac:(lia)) as Hl.
  destruct (Z.ltb_spec pid (10 ^ Z.of_nat (S d))) as [Hlt|Hge].
  - apply Z.leb_le. assert (String.length (decimal 9 pid) ≤ S d)%nat by (apply Hl; by left). lia.
  - apply Z.leb_gt. assert (¬ (String.length (decimal 9 pid) ≤ S d)%nat); [|lia].
    intros [?|?]%Hl; lia.
Qed.

Section Verdicts.
Context {St : Type} `{SemLaws St}.
Implicit Types s : St.

(** ** The calls, one rule for each

    [holds_sem s nm p v]: the semaphore at [p] has the value [v]; with
    [nm = Some (n, true)] it is the one linked as [n], with [nm = Some (n,
    false)] nothing is. *)

Definition holds_sem s (nm : option (string * bool)) (p v : Z) : Prop :=
  good s ∧ ∃ o, ptrs s !! p = Some o ∧ objs s !! o = Some v ∧
    match nm with
    | Some (n, b) => links s !! n = if b : bool then Some o else None
    | None => True
    end.

(** The semaphore [n] exists and has the value [v]. *)
Definition linked_sem s (n : string) (v : Z) : Prop :=
  good s ∧ ∃ o, links s !! n = Some o ∧ objs s !! o = Some v.

Definition fresh s (n : string) : Prop := good s ∧ links s !! n = None.

Lemma holds_at s nm p v : holds_sem s nm p v → good s ∧ sem_at ptrs objs s p v.
Proof. intros (Hg & o & Hp & Ho & _). split; [done|]. by exists o. Qed.

(** A call that only changes the value at [p]. *)
Lemma holds_frame s s' nm p v v' :
  holds_sem s nm p v → good s' → ptrs s' = ptrs s → links s' = links s →
  sem_at ptrs objs s' p v' → holds_sem s' nm p v'.
Proof.
  intros (_ & o & Hp & _ & Hnm) Hg Hps Hl (o' & Hp' & Ho'). split; [done|].
  exists o. rewrite Hps in Hp'. simplify_eq. rewrite Hps. split_and!; [done..|].
  destruct nm as [[n b]|]; [by rewrite Hl|done].
Qed.

Lemma post_rule s nm p v :
  holds_sem s nm p v → v < SEM_VALUE_MAX →
  ∃ s', api_post p s = (Val tt, s') ∧ holds_sem s' nm p (v + 1).
Proof.
  intros Hh Hv. destruct (holds_at _ _ _ _ Hh) as [Hg Hat].
  destruct (post_law s p v Hg Hat Hv) as (s' & Hr & Hg' & Hp & Hl & Hat').
  exists s'. split; [done|]. by eapply holds_frame.
Qed.

Lemma wait_rule s nm p v :
  holds_sem s nm p v → 0 < v →
  ∃ s', api_wait p s = (Val tt, s') ∧ holds_sem s' nm p (v - 1).
Proof.
  intros Hh Hv. destruct (holds_at _ _ _ _ Hh) as [Hg Hat].
  destruct (wait_law s p v Hg Hat Hv) as (s' & Hr & Hg' & Hp & Hl & Hat').
  exists s'. split; [done|]. by eapply holds_frame.
Qed.

Lemma trywait_rule s nm p v :
  holds_sem s nm p v → 0 < v →
  ∃ s', api_trywait p s = (Val tt, s') ∧ holds_sem s' nm p (v - 1).
Proof.
  intros Hh Hv. destruct (holds_at _ _ _ _ Hh) as [Hg Hat].
  destruct (trywait_law s p v Hg Hat Hv) as (s' & Hr & Hg' & Hp & Hl & Hat').
  exists s'. split; [done|]. by eapply holds_frame.
Qed.

Lemma trywait_locked_rule s nm p :
  holds_sem s nm p 0 →
  ∃ s', api_trywait p s = (Fail EAGAIN, s') ∧ holds_sem s' nm p 0.
Proof.
  intros Hh. destruct (holds_at _ _ _ _ Hh) as [Hg Hat].
  destruct (trywait_locked s p Hg Hat) as (s' & Hr & Hg' & Hp & Hl & Hat').
  exists s'. split; [done|]. by eapply holds_frame.
Qed.

Lemma getvalue_rule s nm p v :
  holds_sem s nm p v →
  ∃ s', api_getvalue p s = (Val v, s') ∧ holds_sem s' nm p v.
Proof.
  intros Hh. destruct (holds_at _ _ _ _ Hh) as [Hg Hat].
  destruct (getvalue_law s p v Hg Hat) as (s' & Hr & Hg' & Hp & Hl & Hat').
  exists s'. split; [done|]. by eapply holds_frame.
Qed.

Lemma init_rule s a v :
  good s → ptrs s !! a = None → 0 ≤ v ≤ 10 →
  ∃ s', api_init a false v s = (Val tt, s') ∧ holds_sem s' None a v.
Proof.
  intros Hg Ha Hv. pose proof value_max.
  destruct (init_law s a false v Hg Ha) as (s' & o & Hr & Hg' & Hp & Ho & _); [lia|].
  exists s'. split; [done|]. split; [done|]. exists o. by rewrite Hp, lookup_insert_eq.
Qed.

Lemma destroy_rule s nm a v :
  holds_sem s nm a v → ∃ s', api_destroy a s = (Val tt, s').
Proof. intros [Hg Hat]%holds_at. by eapply destroy_law. Qed.

Lemma open_rule s n fl mode v :
  fresh s n → has fl O_CREAT = true → 0 ≤ v ≤ 10 →
  ∃ s' p, api_open n fl mode v s = (Val p, s') ∧ p ≠ 0 ∧ holds_sem s' (Some (n, true)) p v.
Proof.
  intros [Hg Hn] Hc Hv. pose proof value_max.
  destruct (open_new s n fl mode v Hg Hn Hc) as (s' & p & o & Hr & Hnz & Hg' & Hp & Ho & Hl); [lia|].
  exists s', p. split; [done|]. split; [done|]. split; [done|]. exists o.
  rewrite Hp, Hl, !lookup_insert_eq. done.
Qed.

Lemma reopen_rule s n fl mode v w :
  linked_sem s n w → has fl O_EXCL = false → 0 ≤ v ≤ 10 →
  ∃ s' p, api_open n fl mode v s = (Val p, s') ∧ p ≠ 0 ∧ holds_sem s' (Some (n, true)) p w.
Proof.
  intros (Hg & o & Hn & Hw) He Hv. pose proof value_max.
  destruct (open_again s n o fl mode v Hg Hn He) as (s' & p & Hr & Hnz & Hg' & Hp & Ho & Hl); [lia|].
  exists s', p. split; [done|]. split; [done|]. split; [done|]. exists o.
  by rewrite Hp, Hl, lookup_insert_eq, Ho.
Qed.

Lemma exclusive_rule s n fl mode v w :
  linked_sem s n w → has fl O_CREAT = true → has fl O_EXCL = true → 0 ≤ v ≤ 10 →
  ∃ s', api_open n fl mode v s = (Fail EEXIST, s') ∧ good s' ∧ is_Some (links s' !! n).
Proof.
  intros (Hg & o & Hn & Hw) Hc He Hv. pose proof value_max.
  destruct (open_exclusive s n o fl mode v Hg Hn Hc He) as (s' & Hr & Hg' & Hl); [lia|].
  exists s'. rewrite Hl. eauto.
Qed.

Lemma holds_linked s n p v : holds_sem s (Some (n, true)) p v → linked_sem s n v.
Proof. intros (Hg & o & _ & Ho & Hn). split; [done|]. by exists o. Qed.

Lemma close_rule s n p v :
  holds_sem s (Some (n, true)) p v →
  ∃ s', api_close p s = (Val tt, s') ∧ linked_sem s' n v.
Proof.
  intros (Hg & o & Hp & Ho & Hn).
  destruct (close_law s p o Hg Hp) as (s' & Hr & Hg' & _ & Hl & Hob).
  exists s'. split; [done|]. split; [done|]. exists o. by rewrite Hl, (Hob n o Hn).
Qed.

Lemma close_any_rule s nm p v :
  holds_sem s nm p v → ∃ s', api_close p s = (Val tt, s') ∧ good s'.
Proof.
  intros (Hg & o & Hp & _). destruct (close_law s p o Hg Hp) as (s' & Hr & Hg' & _).
  by exists s'.
Qed.

Lemma unlink_open_rule s n p v :
  holds_sem s (Some (n, true)) p v →
  ∃ s', api_unlink n s = (Val tt, s') ∧ holds_sem s' (Some (n, false)) p v.
Proof.
  intros (Hg & o & Hp & Ho & Hn).
  destruct (unlink_law s n o Hg Hn) as (s' & Hr & Hg' & Hps & Hl & Hob).
  exists s'. split; [done|]. split; [done|]. exists o.
  by rewrite Hps, (Hob p o Hp), Hl, lookup_delete_eq.
Qed.

Lemma unlink_rule s n :
  good s ∧ is_Some (links s !! n) → ∃ s', api_unlink n s = (Val tt, s').
Proof. intros [Hg [o Hn]]. destruct (unlink_law s n o Hg Hn) as (s' & Hr & _). by exists s'. Qed.

Lemma unlink_linked_rule s n v : linked_sem s n v → ∃ s', api_unlink n s = (Val tt, s').
Proof. intros (Hg & o & Hn & _). apply unlink_rule. split; [done|by exists o]. Qed.

(** ** The tests *)

Lemma sprintf_run size f t pid s :
  fits size f t pid = true →
  sprintf_semname size f t pid s = (Val (test_name f t pid), s).
Proof.
  unfold fits, sprintf_semname. intros Hf%Z.leb_le.
  by rewrite (proj2 (Z.ltb_ge _ _)) by lia.
Qed.

Lemma sprintf_overflow size f t pid s :
  fits size f t pid = false → sprintf_semname size f t pid s = (UB, s).
Proof.
  unfold fits, sprintf_semname. intros Hf%Z.leb_gt.
  by rewrite (proj2 (Z.ltb_lt _ _)) by lia.
Qed.

Lemma check_val {A} (c : M St A) bad k s a s' :
  c s = (Val a, s') → check c bad k s = k a s'.
Proof. intros Hc. unfold check. by erewrite bind_val by (by apply attempt_val). Qed.

Lemma check_open_val (c : M St Z) bad k s p s' :
  c s = (Val p, s') → p ≠ 0 → check_open c bad k s = k p s'.
Proof.
  intros Hc Hp. unfold check_open. erewrite check_val by exact Hc.
  by rewrite (proj2 (Z.eqb_neq _ _)).
Qed.

Lemma ignore_val {A} (c : M St A) s a s' : c s = (Val a, s') → ignore c s = (Val tt, s').
Proof. intros Hc. unfold ignore. by erewrite bind_val by (by apply attempt_val). Qed.

Lemma ignore_fail {A} (c : M St A) s e s' : c s = (Fail e, s') → ignore c s = (Val tt, s').
Proof. intros Hc. unfold ignore. by erewrite bind_val by (by apply attempt_fail). Qed.

Lemma close_unlink_run s n p v :
  holds_sem s (Some (n, true)) p v → ∃ s', close_unlink p n s = (Val tt, s').
Proof.
  intros (s1 & Hr1 & Hl1)%close_rule. destruct (unlink_linked_rule _ _ _ Hl1) as [s2 Hr2].
  exists s2. unfold close_unlink. erewrite bind_val by (by eapply ignore_val).
  by eapply ignore_val.
Qed.

Lemma unlink_close_run s n p v :
  holds_sem s (Some (n, true)) p v → ∃ s', unlink_close p n s = (Val tt, s').
Proof.
  intros (s1 & Hr1 & Hl1)%unlink_open_rule.
  destruct (close_any_rule _ _ _ _ Hl1) as (s2 & Hr2 & _).
  exists s2. unfold unlink_close. erewrite bind_val by (by eapply ignore_val).
  by eapply ignore_val.
Qed.
End Verdicts.

(** ** Running a test on the rules *)

(** The side conditions of the rules. *)
Ltac test_side := first [eassumption | done | lia | (pose proof value_max; lia) | by eapply holds_linked].

(** The call that the test makes next. *)
Ltac next_call :=
  lazymatch goal with
  | |- (check ?c _ _ _).1 = _ => constr:(c)
  | |- (check_open ?c _ _ _).1 = _ => constr:(c)
  | |- ((attempt ?c ≫= _) _).1 = _ => constr:(c)
  | |- ((ignore ?c ≫= _) _).1 = _ => constr:(c)
  end.

Ltac state_of_test := lazymatch goal with |- (_ ?s).1 = _ => constr:(s) end.

(** The test goes on after a call with the known result [Hr]. *)
Ltac after Hr :=
  first
    [ rewrite (check_val _ _ _ _ _ _ Hr)
    | rewrite (check_open_val _ _ _ _ _ _ Hr) by assumption
    | rewrite (bind_val _ _ _ _ _ (ignore_val _ _ _ _ Hr))
    | rewrite (bind_val _ _ _ _ _ (attempt_val _ _ _ _ Hr))
    | rewrite (bind_val _ _ _ _ _ (attempt_fail _ _ _ _ Hr)) ];
  cbn beta iota; clear Hr.

Ltac on_value rule :=
  edestruct rule as (? & Hr & ?); [test_side..|after Hr].
Ltac on_open rule :=
  edestruct rule as (? & ? & Hr & ? & ?); [test_side..|after Hr].
Ltac at_end rule := edestruct rule as (? & Hr); [test_side..|after Hr].

(** One call of the test. *)
Ltac test_call :=
  let c := next_call in
  let s := state_of_test in
  lazymatch c with
  | api_init ?a _ ?v => on_value open_constr:(init_rule s a v)
  | api_destroy ?a => at_end open_constr:(destroy_rule s _ a)
  | api_post ?a => on_value open_constr:(post_rule s _ a)
  | api_wait ?a => on_value open_constr:(wait_rule s _ a)
  | api_trywait ?a =>
      first [on_value open_constr:(trywait_rule s _ a) | on_value open_constr:(trywait_locked_rule s _ a)]
  | api_getvalue ?a => on_value open_constr:(getvalue_rule s _ a)
  | api_open ?n ?fl ?mode ?v =>
      first [ on_open open_constr:(open_rule s n fl mode v)
            | on_open open_constr:(reopen_rule s n fl mode v)
            | on_value open_constr:(exclusive_rule s n fl mode v) ]
  | api_close ?a =>
      first [on_value open_constr:(close_rule s _ a) | on_value open_constr:(close_any_rule s _ a)]
  | api_unlink ?n =>
      first [ on_value open_constr:(unlink_open_rule s n)
            | at_end open_constr:(unlink_linked_rule s n)
            | at_end open_constr:(unlink_rule s n) ]
  end.

Ltac test_step :=
  match goal with
  | |- ((sprintf_semname _ _ _ _ ≫= _) _).1 = _ =>
      erewrite bind_val by (by apply sprintf_run)
  | |- (pass_if ?b _ _).1 = _ =>
      let b' := eval vm_compute in b in change b with b'; unfold pass_if
  | |- ((if ?b then _ else _) _).1 = _ =>
      let b' := eval vm_compute in b in change b with b'; cbn iota
  | |- (wait_loop _ _ _ _).1 = _ => cbn [wait_loop]
  | |- ((close_unlink _ _ ≫= _) _).1 = _ =>
      edestruct close_unlink_run as (? & Hr); [eassumption|];
      rewrite (bind_val _ _ _ _ _ Hr); clear Hr
  | |- ((unlink_close _ _ ≫= _) _).1 = _ =>
      edestruct unlink_close_run as (? & Hr); [eassumption|];
      rewrite (bind_val _ _ _ _ _ Hr); clear Hr
  | |- (mret _ _).1 = _ => reflexivity
  | _ => test_call
  end.

Ltac run_test := repeat test_step.

Section Suite.
Context {St : Type} `{SemLaws St}.
Implicit Types s : St.

(** A test with an unnamed semaphore at an unused address passes. *)
Definition passes_at (test : Z → M St Z) : Prop :=
  ∀ a s, good s → ptrs s !! a = None → (test a s).1 = Val PTS_PASS.

Tactic Notation "run_unnamed" reference(test) := intros a s Hg Ha; unfold test; run_test.

Lemma sem_init_1_1_ok : passes_at sem_init_1_1.
Proof. run_unnamed sem_init_1_1. Qed.
Lemma sem_init_2_1_ok : passes_at sem_init_2_1.
Proof. run_unnamed sem_init_2_1. Qed.
Lemma sem_init_2_2_ok : passes_at sem_init_2_2.
Proof. run_unnamed sem_init_2_2. Qed.
Lemma sem_init_5_1_ok : passes_at sem_init_5_1.
Proof. run_unnamed sem_init_5_1. Qed.
Lemma sem_init_5_2_ok : passes_at sem_init_5_2.
Proof. run_unnamed sem_init_5_2. Qed.
Lemma sem_init_6_1_ok : passes_at sem_init_6_1.
Proof.
  intros a s Hg Ha. unfold sem_init_6_1. destruct (Z.leb_spec INT_MAX SEM_VALUE_MAX); [done|].
  destruct (init_range s a false (SEM_VALUE_MAX + 1) Hg) as [s' Hr]; [lia|]. by after Hr.
Qed.
Lemma sem_destroy_4_1_ok : passes_at sem_destroy_4_1.
Proof. run_unnamed sem_destroy_4_1. Qed.

(** A test with a named semaphore that does not exist yet: it passes when the
    name fits the array, and writes behind the array otherwise. *)
Definition passes_named (size : Z) (function test : string) (main : Z → M St Z) : Prop :=
  ∀ pid s, 0 ≤ pid < 2 ^ 31 → fresh s (test_name function test pid) →
    (main pid s).1 = if fits size function test pid then Val PTS_PASS else UB.

Lemma overflow_run {B} size f t pid s (k : string → M St B) :
  fits size f t pid = false → ((sprintf_semname size f t pid ≫= k) s).1 = UB.
Proof. intros Hf. unfold mbind, M_bind. by rewrite sprintf_overflow. Qed.

(** An array of 50 bytes is large enough. *)
Lemma fits_50 f t pid :
  0 ≤ pid < 2 ^ 31 → stem_length f t ≤ 39 → fits 50 f t pid = true.
Proof.
  intros Hp Hs. unfold fits. rewrite test_name_length. apply Z.leb_le.
  pose proof (proj2 (decimal_length 9 pid 9 (proj1 Hp) (le_n _)) (or_intror eq_refl)). lia.
Qed.

Tactic Notation "run_named" reference(test) :=
  intros pid s Hpid Hs; unfold test;
  destruct (fits _ _ _ _) eqn:Hfit; [run_test|by apply overflow_run].

Lemma sem_open_1_1_ok : passes_named 50 "sem_open" "1-1" sem_open_1_1.
Proof. run_named sem_open_1_1. Qed.
Lemma sem_open_1_2_ok : passes_named 50 "sem_open" "1-2" sem_open_1_2.
Proof. run_named sem_open_1_2. Qed.
Lemma sem_open_1_3_ok : passes_named 50 "sem_open" "1-3" sem_open_1_3.
Proof. run_named sem_open_1_3. Qed.
Lemma sem_open_1_4_ok : passes_named 20 "sem_open" "1-4" sem_open_1_4.
Proof. run_named sem_open_1_4. Qed.
Lemma sem_open_2_1_ok : passes_named 50 "sem_open" "2-1" sem_open_2_1.
Proof. run_named sem_open_2_1. Qed.
Lemma sem_open_4_1_ok : passes_named 50 "sem_open" "4-1" sem_open_4_1.
Proof. run_named sem_open_4_1. Qed.
Lemma sem_open_5_1_ok : passes_named 50 "sem_open" "5-1" sem_open_5_1.
Proof.
  intros pid s Hpid Hs. rewrite fits_50 by done. unfold sem_open_5_1.
  destruct (Z.leb_spec INT_MAX SEM_VALUE_MAX); [done|].
  erewrite bind_val by (by apply sprintf_run, fits_50). destruct Hs as [Hg Hn].
  destruct (open_range s (test_name "sem_open" "5-1" pid) O_CREAT 292 (SEM_VALUE_MAX + 1) Hg eq_refl) as (s1 & Hr & Hg1 & Hl1);
    [lia|done|]. after Hr. rewrite <- Hl1 in Hn.
  destruct (unlink_missing s1 _ Hg1 Hn) as [s2 Hr2].
  by rewrite (bind_val _ _ _ _ _ (ignore_fail _ _ _ _ Hr2)).
Qed.
Lemma sem_open_6_1_ok : passes_named 50 "sem_open" "6-1" sem_open_6_1.
Proof.
  intros pid s Hpid Hs. rewrite fits_50 by done. unfold sem_open_6_1.
  erewrite bind_val by (by apply sprintf_run, fits_50). destruct Hs as [Hg Hn].
  destruct (open_missing s _ 0 0 0 Hg Hn eq_refl) as (s1 & Hr & Hg1 & Hl1). after Hr.
  rewrite <- Hl1 in Hn. destruct (unlink_missing s1 _ Hg1 Hn) as [s2 Hr2].
  by rewrite (bind_val _ _ _ _ _ (ignore_fail _ _ _ _ Hr2)).
Qed.
Lemma sem_open_10_1_ok : passes_named 50 "sem_open" "10-1" sem_open_10_1.
Proof. run_named sem_open_10_1. Qed.
Lemma sem_close_1_1_ok : passes_named 20 "sem_close" "1-1" sem_close_1_1.
Proof. run_named sem_close_1_1. Qed.
Lemma sem_close_2_1_ok : passes_named 20 "sem_close" "2-1" sem_close_2_1.
Proof. run_named sem_close_2_1. Qed.
Lemma sem_close_3_1_ok : passes_named 20 "sem_close" "3-1" sem_close_3_1.
Proof. run_named sem_close_3_1. Qed.
Lemma sem_getvalue_1_1_ok : passes_named 20 "sem_getvalue" "1-1" sem_getvalue_1_1.
Proof. run_named sem_getvalue_1_1. Qed.
Lemma sem_getvalue_2_1_ok : passes_named 20 "sem_getvalue" "2-1" sem_getvalue_2_1.
Proof. run_named sem_getvalue_2_1. Qed.
Lemma sem_getvalue_4_1_ok : passes_named 20 "sem_getvalue" "4-1" sem_getvalue_4_1.
Proof. run_named sem_getvalue_4_1. Qed.
Lemma sem_getvalue_5_1_ok : passes_named 20 "sem_getvalue" "5-1" sem_getvalue_5_1.
Proof. run_named sem_getvalue_5_1. Qed.
Lemma sem_post_1_1_ok : passes_named 20 "sem_post" "1-1" sem_post_1_1.
Proof. run_named sem_post_1_1. Qed.
Lemma sem_post_1_2_ok : passes_named 20 "sem_post" "1-2" sem_post_1_2.
Proof. run_named sem_post_1_2. Qed.
Lemma sem_post_2_1_ok : passes_named 20 "sem_post" "2-1" sem_post_2_1.
Proof. run_named sem_post_2_1. Qed.
Lemma sem_post_4_1_ok : passes_named 20 "sem_post" "4-1" sem_post_4_1.
Proof. run_named sem_post_4_1. Qed.
Lemma sem_wait_1_1_ok : passes_named 20 "sem_wait" "1-1" sem_wait_1_1.
Proof. run_named sem_wait_1_1. Qed.
Lemma sem_wait_1_2_ok : passes_named 20 "sem_wait" "2-1" sem_wait_1_2.
Proof. run_named sem_wait_1_2. Qed.
Lemma sem_wait_11_1_ok : passes_named 20 "sem_trywait" "11-1" sem_wait_11_1.
Proof. run_named sem_wait_11_1. Qed.
Lemma sem_wait_12_1_ok : passes_named 20 "sem_trywait" "12-1" sem_wait_12_1.
Proof. run_named sem_wait_12_1. Qed.
Lemma sem_wait_3_1_ok : passes_named 20 "sem_wait" "3-1" sem_wait_3_1.
Proof. run_named sem_wait_3_1. Qed.
Lemma sem_wait_5_1_ok : passes_named 20 "sem_trywait" "5-1" sem_wait_5_1.
Proof. run_named sem_wait_5_1. Qed.
Lemma sem_unlink_1_1_ok : passes_named 20 "sem_unlink" "1-1" sem_unlink_1_1.
Proof. run_named sem_unlink_1_1. Qed.
Lemma sem_unlink_2_1_ok : passes_named 20 "sem_unlink" "2-1" sem_unlink_2_1.
Proof. run_named sem_unlink_2_1. Qed.

(** ** The suite *)

Record named_test : Type := NamedTest {
  t_size : Z; t_function : string; t_test : string; t_main : Z → M St Z }.

Definition named_suite : list named_test :=
  [ NamedTest 50 "sem_open" "1-1" sem_open_1_1;
    NamedTest 50 "sem_open" "1-2" sem_open_1_2;
    NamedTest 50 "sem_open" "1-3" sem_open_1_3;
    NamedTest 20 "sem_open" "1-4" sem_open_1_4;
    NamedTest 50 "sem_open" "2-1" sem_open_2_1;
    NamedTest 50 "sem_open" "4-1" sem_open_4_1;
    NamedTest 50 "sem_open" "5-1" sem_open_5_1;
    NamedTest 50 "sem_open" "6-1" sem_open_6_1;
    NamedTest 50 "sem_open" "10-1" sem_open_10_1;
    NamedTest 20 "sem_close" "1-1" sem_close_1_1;
    NamedTest 20 "sem_close" "2-1" sem_close_2_1;
    NamedTest 20 "sem_close" "3-1" sem_close_3_1;
    NamedTest 20 "sem_getvalue" "1-1" sem_getvalue_1_1;
    NamedTest 20 "sem_getvalue" "2-1" sem_getvalue_2_1;
    NamedTest 20 "sem_getvalue" "4-1" sem_getvalue_4_1;
    NamedTest 20 "sem_getvalue" "5-1" sem_getvalue_5_1;
    NamedTest 20 "sem_post" "1-1" sem_post_1_1;
    NamedTest 20 "sem_post" "1-2" sem_post_1_2;
    NamedTest 20 "sem_post" "2-1" sem_post_2_1;
    NamedTest 20 "sem_post" "4-1" sem_post_4_1;
    NamedTest 20 "sem_wait" "1-1" sem_wait_1_1;
    NamedTest 20 "sem_wait" "2-1" sem_wait_1_2;
    NamedTest 20 "sem_trywait" "11-1" sem_wait_11_1;
    NamedTest 20 "sem_trywait" "12-1" sem_wait_12_1;
    NamedTest 20 "sem_wait" "3-1" sem_wait_3_1;
    NamedTest 20 "sem_trywait" "5-1" sem_wait_5_1;
    NamedTest 20 "sem_unlink" "1-1" sem_unlink_1_1;
    NamedTest 20 "sem_unlink" "2-1" sem_unlink_2_1 ].

Definition unnamed_suite : list (Z → M St Z) :=
  [ sem_init_1_1; sem_init_2_1; sem_init_2_2; sem_init_5_1; sem_init_5_2; sem_init_6_1;
    sem_destroy_4_1 ].

(** Every test of the suite is covered by its lemma. *)
#[local] Hint Resolve
  sem_open_1_1_ok sem_open_1_2_ok sem_open_1_3_ok sem_open_1_4_ok sem_open_2_1_ok
  sem_open_4_1_ok sem_open_5_1_ok sem_open_6_1_ok sem_open_10_1_ok sem_close_1_1_ok
  sem_close_2_1_ok sem_close_3_1_ok sem_getvalue_1_1_ok sem_getvalue_2_1_ok
  sem_getvalue_4_1_ok sem_getvalue_5_1_ok sem_post_1_1_ok sem_post_1_2_ok sem_post_2_1_ok
  sem_post_4_1_ok sem_wait_1_1_ok sem_wait_1_2_ok sem_wait_11_1_ok sem_wait_12_1_ok
  sem_wait_3_1_ok sem_wait_5_1_ok sem_unlink_1_1_ok sem_unlink_2_1_ok sem_init_1_1_ok
  sem_init_2_1_ok sem_init_2_2_ok sem_init_5_1_ok sem_init_5_2_ok sem_init_6_1_ok
  sem_destroy_4_1_ok : pts.

Lemma named_suite_ok t :
  t ∈ named_suite → passes_named (t_size t) (t_function t) (t_test t) (t_main t).
Proof. revert t. apply Forall_forall. unfold named_suite. repeat constructor; auto with pts. Qed.

Lemma unnamed_suite_ok main : main ∈ unnamed_suite → passes_at main.
Proof. revert main. apply Forall_forall. unfold unnamed_suite. repeat constructor; auto with pts. Qed.

(** Each test has an array of 50 bytes or one of 20 bytes. *)
Lemma named_suite_sizes t :
  t ∈ named_suite →
  (t_size t = 50 ∧ stem_length (t_function t) (t_test t) ≤ 39) ∨
  (t_size t = 20 ∧ 10 < stem_length (t_function t) (t_test t) ≤ 18).
Proof.
  revert t. apply Forall_forall. unfold named_suite, stem_length.
  repeat (apply Forall_cons; split; [simpl; lia|]). apply Forall_nil. exact I.
Qed.

(** C12. The tests decide for a conforming implementation: on every
    implementation that meets the standard's laws, the tests with unnamed
    semaphores pass, and each test with a named semaphore passes from every
    state without that name, as long as the name fits the array that the test
    prints it to; otherwise the test itself is undefined. *)
Theorem sem_suite_passes :
  (∀ main a s, main ∈ unnamed_suite → good s → ptrs s !! a = None →
    (main a s).1 = Val PTS_PASS) ∧
  (∀ t pid s, t ∈ named_suite → 0 ≤ pid < 2 ^ 31 →
    fresh s (test_name (t_function t) (t_test t) pid) →
    (t_main t pid s).1 =
      if fits (t_size t) (t_function t) (t_test t) pid then Val PTS_PASS else UB).
Proof.
  split; [intros main a s Hm; by apply unnamed_suite_ok|].
  intros t pid s Ht. by apply named_suite_ok.
Qed.

(** C36. Which process ids overflow the array of a test: none for the tests
    with 50 bytes; with 20 bytes, those whose decimal digits do not fit
    behind the 19 bytes less the fixed part of the name: from 10 on for
    sem_getvalue, where the fixed part has 18 characters. *)
Theorem sem_names_overflow t pid s :
  t ∈ named_suite → 0 ≤ pid < 2 ^ 31 → fresh s (test_name (t_function t) (t_test t) pid) →
  (t_main t pid s).1 = UB ↔
  t_size t = 20 ∧ 10 ^ (19 - stem_length (t_function t) (t_test t)) ≤ pid.
Proof.
  intros Ht Hp Hs. rewrite (named_suite_ok t Ht pid s Hp Hs).
  destruct (named_suite_sizes t Ht) as [[Hz Hl]|[Hz Hl]]; rewrite Hz.
  - rewrite fits_50 by done. split; [done|]. by intros [[=] _].
  - rewrite (fits_digits 20 _ _ pid (Z.to_nat (18 - stem_length (t_function t) (t_test t)))) by lia.
    replace (Z.of_nat (S _)) with (19 - stem_length (t_function t) (t_test t)) by lia.
    destruct (Z.ltb_spec pid (10 ^ (19 - stem_length (t_function t) (t_test t)))).
    + split; [done|]. intros [_ ?]. lia.
    + by split.
Qed.
End Suite.

(** ** The suite on the library of src/posix1b *)

(** A process that has just started. *)
Definition new_process : sstate kernel := SState kernel0 ∅ ∅ ∅ false 1.

(** The verdicts in the process [pid], with the local variable at [a]. *)
Definition posix1b_verdicts (pid a : Z) : list (out Z) :=
  map (λ t, (t_main t pid new_process).1) named_suite ++
  map (λ main, (main a new_process).1) unnamed_suite.

(** The library of src/posix1b passes all 35 tests, each run on its own, in
    the processes whose ids fit the names; in process 10 the four tests of
    sem_getvalue and two of sem_trywait are undefined and the others pass. *)
Theorem posix1b_passes_suite :
  (∀ pid, pid ∈ seqZ 1 9 → posix1b_verdicts pid 4096 = replicate 35 (Val PTS_PASS)) ∧
  posix1b_verdicts 10 4096 =
    replicate 12 (Val PTS_PASS) ++ replicate 4 UB ++ replicate 6 (Val PTS_PASS) ++
    [UB; UB] ++ replicate 11 (Val PTS_PASS).
Proof.
  split; [|vm_compute; reflexivity]. apply Forall_forall.
  change (seqZ 1 9) with [1; 2; 3; 4; 5; 6; 7; 8; 9].
  repeat (apply Forall_cons; split; [vm_compute; reflexivity|]). by apply Forall_nil.
Qed.

(** ** Witnesses *)

Definition getvalue_test : named_test := NamedTest 20 "sem_getvalue" "1-1" sem_getvalue_1_1.

Lemma getvalue_test_in : getvalue_test ∈ named_suite (St := psem).
Proof. do 12 (apply list_elem_of_further). apply list_elem_of_here. Defined.

Lemma sem_suite_passes_witness :
  (t_main getvalue_test 7 psem0).1 = Val PTS_PASS ∧
  (t_main getvalue_test 10 psem0).1 = UB.
Proof.
  split.
  - apply (proj2 (sem_suite_passes (St := psem)) getvalue_test 7 psem0 getvalue_test_in);
      [lia|done].
  - apply (proj2 (sem_suite_passes (St := psem)) getvalue_test 10 psem0 getvalue_test_in);
      [lia|done].
Defined.

Lemma sem_names_overflow_witness :
  (t_main getvalue_test 12345 psem0).1 = UB.
Proof.
  apply (sem_names_overflow getvalue_test 12345 psem0 getvalue_test_in); [lia|done|].
  split; [reflexivity|]. vm_compute. discriminate.
Defined.
