(* ===== verification/MqApi.v ===== *)
(** * The message queue interface of POSIX

    What the tests of src/conformance/interfaces/mq_* call, as a class [MqApi],
    and the part of the standard that they rely on, as the class [MqLaws]: a
    view of the state as queues, descriptors and names, and the effect of each
    call on the view when the system has the resources. [pmq] at the end is an
    executable instance of both; the library of src/posix1b is an instance of
    the operations. *)

From stdpp Require Import base tactics numbers list gmap strings fin_maps.
From S2P Require Import Prelude SysVSem SysVMsg RefKernel Timers Mqueue.

Open Scope Z_scope.

Class MqApi (St : Type) : Type := {
  PRIO_MAX : Z;
  qapi_open : string → Z → Z → option mq_attr → M St Z;
  qapi_close : Z → M St unit;
  qapi_unlink : string → M St unit;
  qapi_send : Z → list Z → Z → M St unit;
  qapi_receive : Z → Z → M St (list Z * Z);
  qapi_getattr : Z → M St mq_attr;
  qapi_setattr : Z → mq_attr → bool → M St (option mq_attr) }.

(** A queue: its limits, and its messages (priority and bytes) in order of
    arrival. *)
Record pqueue : Set := PQueue { q_maxmsg : Z; q_msgsize : Z; q_msgs : list (Z * list Z) }.

Definition with_msgs (q : pqueue) (l : list (Z * list Z)) : pqueue :=
  PQueue (q_maxmsg q) (q_msgsize q) l.

(** The highest priority on a queue. *)
Definition top_prio (l : list (Z * list Z)) : Z := foldr (λ m p, Z.max m.1 p) (-1) l.

(** The oldest message of the highest priority, and the rest of the queue. *)
Definition oldest_highest (l : list (Z * list Z)) : option ((Z * list Z) * list (Z * list Z)) :=
  take_first (λ m, m.1 =? top_prio l) l.

(** What [mq_getattr] reports. *)
Definition attr_of (nonblock : bool) (q : pqueue) : mq_attr :=
  MqAttr (if nonblock then O_NONBLOCK else 0) (q_maxmsg q) (q_msgsize q)
    (Z.of_nat (length (q_msgs q))).

(** A queue made with the attributes [attr]: those given, or defaults that
    leave room for a message of 10 bytes. *)
Definition attr_match (attr : option mq_attr) (q : pqueue) : Prop :=
  q_msgs q = [] ∧
  match attr with
  | Some a => q_maxmsg q = mq_maxmsg a ∧ q_msgsize q = mq_msgsize a
  | None => 2 ≤ q_maxmsg q ∧ 10 ≤ q_msgsize q
  end.

(** Attributes within the limits of every system. *)
Definition attr_in_range (attr : option mq_attr) : Prop :=
  match attr with
  | Some a => 0 < mq_maxmsg a ≤ 40 ∧ 0 < mq_msgsize a ≤ 128
  | None => True
  end.

Class MqLaws (St : Type) `{MqApi St} : Type := {
  qgood : St → Prop;
  (* the queue of a descriptor and whether it is non-blocking *)
  qdescs : St → gmap Z (Z * bool);
  qobjs : St → gmap Z pqueue;
  qlinks : St → gmap string Z;
  prio_max : 32 ≤ PRIO_MAX;
  (* a new queue is an object of its own *)
  qopen_new : ∀ s n fl mode attr, qgood s → qlinks s !! n = None → has fl O_CREAT = true →
    attr_in_range attr →
    ∃ s' d o q, qapi_open n fl mode attr s = (Val d, s') ∧ qgood s' ∧ attr_match attr q ∧
      qdescs s !! d = None ∧ qdescs s' = <[d := (o, has fl O_NONBLOCK)]> (qdescs s) ∧
      qobjs s !! o = None ∧ qobjs s' = <[o := q]> (qobjs s) ∧ qlinks s' = <[n := o]> (qlinks s);
  qopen_missing : ∀ s n fl mode attr, qgood s → qlinks s !! n = None → has fl O_CREAT = false →
    ∃ s', qapi_open n fl mode attr s = (Fail ENOENT, s') ∧ qgood s';
  qopen_exclusive : ∀ s n o fl mode, qgood s → qlinks s !! n = Some o →
    has fl O_CREAT = true → has fl O_EXCL = true →
    ∃ s', qapi_open n fl mode None s = (Fail EEXIST, s') ∧ qgood s' ∧
      qdescs s' = qdescs s ∧ qobjs s' = qobjs s ∧ qlinks s' = qlinks s;
  qopen_again : ∀ s n o fl mode, qgood s → qlinks s !! n = Some o → has fl O_EXCL = false →
    ∃ s' d, qapi_open n fl mode None s = (Val d, s') ∧ qgood s' ∧ qdescs s !! d = None ∧
      qdescs s' = <[d := (o, has fl O_NONBLOCK)]> (qdescs s) ∧ qobjs s' = qobjs s ∧
      qlinks s' = qlinks s;
  qclose_law : ∀ s d x, qgood s → qdescs s !! d = Some x →
    ∃ s', qapi_close d s = (Val tt, s') ∧ qgood s' ∧ qdescs s' = delete d (qdescs s) ∧
      qlinks s' = qlinks s;
  qclose_bad : ∀ s d, qgood s → qdescs s !! d = None →
    ∃ s', qapi_close d s = (Fail EBADF, s') ∧ qgood s' ∧ qdescs s' = qdescs s ∧
      qlinks s' = qlinks s;
  (* an open queue stays when the name goes *)
  qunlink_law : ∀ s n o, qgood s → qlinks s !! n = Some o →
    ∃ s', qapi_unlink n s = (Val tt, s') ∧ qgood s' ∧ qdescs s' = qdescs s ∧
      qlinks s' = delete n (qlinks s) ∧
      ∀ d o' b, qdescs s !! d = Some (o', b) → qobjs s' !! o' = qobjs s !! o';
  qunlink_missing : ∀ s n, qgood s → qlinks s !! n = None →
    ∃ s', qapi_unlink n s = (Fail ENOENT, s') ∧ qgood s' ∧ qdescs s' = qdescs s ∧
      qlinks s' = qlinks s;
  qsend_law : ∀ s d o b q data prio, qgood s → qdescs s !! d = Some (o, b) →
    qobjs s !! o = Some q → 0 ≤ prio < PRIO_MAX → Z.of_nat (length data) ≤ q_msgsize q →
    Z.of_nat (length (q_msgs q)) < q_maxmsg q →
    ∃ s', qapi_send d data prio s = (Val tt, s') ∧ qgood s' ∧ qdescs s' = qdescs s ∧
      qlinks s' = qlinks s ∧
      qobjs s' = <[o := with_msgs q (q_msgs q ++ [(prio, data)])]> (qobjs s);
  qsend_refused : ∀ s d o b q data prio, qgood s → qdescs s !! d = Some (o, b) →
    qobjs s !! o = Some q →
    PRIO_MAX ≤ prio ∨ q_msgsize q < Z.of_nat (length data) →
    ∃ s' e, qapi_send d data prio s = (Fail e, s') ∧ qgood s' ∧ qdescs s' = qdescs s ∧
      qlinks s' = qlinks s ∧ qobjs s' = qobjs s;
  qsend_full : ∀ s d o q data prio, qgood s → qdescs s !! d = Some (o, true) →
    qobjs s !! o = Some q → 0 ≤ prio < PRIO_MAX → Z.of_nat (length data) ≤ q_msgsize q →
    q_maxmsg q ≤ Z.of_nat (length (q_msgs q)) →
    ∃ s', qapi_send d data prio s = (Fail EAGAIN, s') ∧ qgood s' ∧ qdescs s' = qdescs s ∧
      qlinks s' = qlinks s ∧ qobjs s' = qobjs s;
  qreceive_law : ∀ s d o b q len m l, qgood s → qdescs s !! d = Some (o, b) →
    qobjs s !! o = Some q → q_msgsize q ≤ len → oldest_highest (q_msgs q) = Some (m, l) →
    ∃ s', qapi_receive d len s = (Val (m.2, m.1), s') ∧ qgood s' ∧ qdescs s' = qdescs s ∧
      qlinks s' = qlinks s ∧ qobjs s' = <[o := with_msgs q l]> (qobjs s);
  qreceive_short : ∀ s d o b q len, qgood s → qdescs s !! d = Some (o, b) →
    qobjs s !! o = Some q → len < q_msgsize q →
    ∃ s', qapi_receive d len s = (Fail EMSGSIZE, s') ∧ qgood s' ∧ qdescs s' = qdescs s ∧
      qlinks s' = qlinks s ∧ qobjs s' = qobjs s;
  qreceive_empty : ∀ s d o q len, qgood s → qdescs s !! d = Some (o, true) →
    qobjs s !! o = Some q → q_msgsize q ≤ len → q_msgs q = [] →
    ∃ s', qapi_receive d len s = (Fail EAGAIN, s') ∧ qgood s' ∧ qdescs s' = qdescs s ∧
      qlinks s' = qlinks s ∧ qobjs s' = qobjs s;
  qgetattr_law : ∀ s d o b q, qgood s → qdescs s !! d = Some (o, b) → qobjs s !! o = Some q →
    ∃ s', qapi_getattr d s = (Val (attr_of b q), s') ∧ qgood s' ∧ qdescs s' = qdescs s ∧
      qlinks s' = qlinks s ∧ qobjs s' = qobjs s;
  qsetattr_law : ∀ s d o b q a old, qgood s → qdescs s !! d = Some (o, b) →
    qobjs s !! o = Some q →
    ∃ s', qapi_setattr d a old s = (Val (if old then Some (attr_of b q) else None), s') ∧
      qgood s' ∧ qdescs s' = <[d := (o, has (mq_flags a) O_NONBLOCK)]> (qdescs s) ∧
      qlinks s' = qlinks s ∧ qobjs s' = qobjs s }.

(** ** The library of src/posix1b

    [malloc] and [mmap] succeed. *)

#[global] Instance posix1b_mq {K} `{FileSys K} `{MsgKernel K} : MqApi (mqstate K) := {|
  PRIO_MAX := MQ_PRIO_MAX;
  qapi_open := mq_open true true;
  qapi_close := mq_close;
  qapi_unlink := mq_unlink;
  qapi_send := mq_send;
  qapi_receive := mq_receive;
  qapi_getattr q := mq_getattr q true;
  qapi_setattr q a old := mq_setattr q (Some a) old |}.

(** ** An instance that meets the laws *)

Record pmq : Type := PMq {
  m_descs : gmap Z (Z * bool); m_objs : gmap Z pqueue; m_links : gmap string Z; m_next : Z }.

Definition pmq0 : pmq := PMq ∅ ∅ ∅ 1.

Record pmq_good (s : pmq) : Prop := PGood {
  good_descs : ∀ d, is_Some (m_descs s !! d) → d < m_next s;
  good_objs : ∀ o, is_Some (m_objs s !! o) → o < m_next s }.

(** [m_next] is new in a table whose numbers are below it. *)
Lemma below_fresh {A} (m : gmap Z A) n : (∀ i, is_Some (m !! i) → i < n) → m !! n = None.
Proof. intros Hm. apply eq_None_not_Some. intros H. specialize (Hm _ H). lia. Qed.

Lemma below_insert {A} (m : gmap Z A) n n' i x :
  (∀ i, is_Some (m !! i) → i < n) → n ≤ n' → i < n' → ∀ j, is_Some (<[i := x]> m !! j) → j < n'.
Proof.
  intros Hm Hn Hi j. destruct (decide (i = j)) as [<-|Hne]; [done|].
  rewrite lookup_insert_ne by done. intros Hj%Hm. lia.
Qed.

Lemma pmq_good_fresh s : pmq_good s → m_descs s !! m_next s = None.
Proof. intros [Hd _]. by apply below_fresh. Qed.

Lemma pmq_good_new s : pmq_good s → m_objs s !! m_next s = None.
Proof. intros [_ Ho]. by apply below_fresh. Qed.

Definition m_set (o : Z) (q : pqueue) (s : pmq) : pmq :=
  PMq (m_descs s) (<[o := q]> (m_objs s)) (m_links s) (m_next s).

(** The call [f] on the queue of the descriptor [d]. *)
Definition m_with {A} (d : Z) (f : Z → bool → pqueue → M pmq A) : M pmq A := λ s,
  match m_descs s !! d with
  | Some (o, b) => match m_objs s !! o with Some q => f o b q s | None => (Fail EBADF, s) end
  | None => (Fail EBADF, s)
  end.

(** A new descriptor [m_next s] of the queue [o]. *)
Definition m_desc (o : Z) (fl : Z) (s : pmq) : pmq :=
  PMq (<[m_next s := (o, has fl O_NONBLOCK)]> (m_descs s)) (m_objs s) (m_links s) (m_next s + 1).

#[global] Instance pmq_api : MqApi pmq := {|
  PRIO_MAX := 32768;
  qapi_open n fl _ attr s :=
    match m_links s !! n with
    | Some o =>
        if has fl O_CREAT && has fl O_EXCL then (Fail EEXIST, s)
        else (Val (m_next s), m_desc o fl s)
    | None =>
        if negb (has fl O_CREAT) then (Fail ENOENT, s)
        else
          let q := match attr with
                   | Some a => PQueue (mq_maxmsg a) (mq_msgsize a) []
                   | None => PQueue 10 8192 []
                   end in
          (Val (m_next s),
           m_desc (m_next s) fl
             (PMq (m_descs s) (<[m_next s := q]> (m_objs s)) (<[n := m_next s]> (m_links s))
                (m_next s)))
    end;
  qapi_close d s :=
    match m_descs s !! d with
    | Some _ => (Val tt, PMq (delete d (m_descs s)) (m_objs s) (m_links s) (m_next s))
    | None => (Fail EBADF, s)
    end;
  qapi_unlink n s :=
    match m_links s !! n with
    | Some _ => (Val tt, PMq (m_descs s) (m_objs s) (delete n (m_links s)) (m_next s))
    | None => (Fail ENOENT, s)
    end;
  qapi_send d data prio := m_with d (λ o b q s,
    if 32768 <=? prio then (Fail EINVAL, s)
    else if q_msgsize q <? Z.of_nat (length data) then (Fail EMSGSIZE, s)
    else if q_maxmsg q <=? Z.of_nat (length (q_msgs q)) then
      (if b then Fail EAGAIN else Sleep, s)
    else (Val tt, m_set o (with_msgs q (q_msgs q ++ [(prio, data)])) s));
  qapi_receive d len := m_with d (λ o b q s,
    if len <? q_msgsize q then (Fail EMSGSIZE, s)
    else match oldest_highest (q_msgs q) with
         | Some (m, l) => (Val (m.2, m.1), m_set o (with_msgs q l) s)
         | None => (if b then Fail EAGAIN else Sleep, s)
         end);
  qapi_getattr d := m_with d (λ o b q s, (Val (attr_of b q), s));
  qapi_setattr d a old := m_with d (λ o b q s,
    (Val (if old then Some (attr_of b q) else None),
     PMq (<[d := (o, has (mq_flags a) O_NONBLOCK)]> (m_descs s)) (m_objs s) (m_links s)
       (m_next s))) |}.

Lemma pmq_good_set s o q q' : pmq_good s → m_objs s !! o = Some q → pmq_good (m_set o q' s).
Proof. intros [Hd Ho] Hs. split; [done|]. eapply below_insert; [done|reflexivity|]. apply Ho. by exists q. Qed.

Lemma pmq_good_desc s o fl : pmq_good s → pmq_good (m_desc o fl s).
Proof.
  intros [Hd Ho]. split; simpl.
  - apply below_insert with (1 := Hd); lia.
  - intros o' H%Ho. lia.
Qed.

Lemma pmq_good_links s l : pmq_good s → pmq_good (PMq (m_descs s) (m_objs s) l (m_next s)).
Proof. intros [Hd Ho]. by split. Qed.

Lemma pmq0_good : pmq_good pmq0.
Proof. split; intros i [x Hx]; discriminate Hx. Qed.

#[local] Hint Resolve pmq_good_links pmq_good_desc pmq_good_set pmq_good_fresh pmq_good_new : pts.

(** Picks the branch of a limit check that the hypotheses decide. *)
Ltac limits :=
  repeat match goal with
  | |- context [?a <? ?b] => first [rewrite (proj2 (Z.ltb_lt a b)) by lia
                                   |rewrite (proj2 (Z.ltb_ge a b)) by lia]
  | |- context [?a <=? ?b] => first [rewrite (proj2 (Z.leb_le a b)) by lia
                                    |rewrite (proj2 (Z.leb_gt a b)) by lia]
  end.

#[global] Instance pmq_laws : MqLaws pmq.
Proof.
  refine {| qgood := pmq_good; qdescs := m_descs; qobjs := m_objs; qlinks := m_links |};
    simpl; unfold m_with.
  - lia.
  - intros s n fl mode attr Hg Hn Hc Ha. rewrite Hn, Hc. simpl.
    do 4 eexists. split; [done|]. split; [|split; [|split_and!; eauto with pts]].
    + destruct Hg as [Hd Ho]. split; simpl.
      * apply below_insert with (1 := Hd); lia.
      * apply below_insert with (1 := Ho); lia.
    + destruct attr; simpl; unfold attr_match; simpl; split_and!; done || lia.
  - intros s n fl mode attr Hg Hn Hc. rewrite Hn, Hc. by eexists.
  - intros s n o fl mode Hg Hn Hc He. rewrite Hn, Hc, He. by eexists.
  - intros s n o fl mode Hg Hn He. rewrite Hn, He, andb_false_r.
    do 2 eexists. split; [done|]. split_and!; eauto with pts.
  - intros s d x Hg Hd. rewrite Hd. eexists. split; [done|]. split_and!; [|done..].
    destruct Hg as [Hgd Ho]. split; simpl; [|done]. intros d' [y Hy]. apply Hgd.
    destruct (decide (d = d')) as [->|?]; [by rewrite lookup_delete_eq in Hy|].
    rewrite lookup_delete_ne in Hy by done. by exists y.
  - intros s d Hg Hd. rewrite Hd. eexists. by split_and!.
  - intros s n o Hg Hn. rewrite Hn. eexists. split_and!; eauto with pts.
  - intros s n Hg Hn. rewrite Hn. eexists. by split_and!.
  - intros s d o b q data prio Hg Hd Ho Hp Hl Hr. rewrite Hd, Ho. limits. eexists. split_and!; eauto with pts.
  - intros s d o b q data prio Hg Hd Ho Hp. rewrite Hd, Ho.
    destruct (Z.leb_spec 32768 prio); [by do 2 eexists|].
    destruct (Z.ltb_spec (q_msgsize q) (Z.of_nat (length data))); [by do 2 eexists|]. lia.
  - intros s d o q data prio Hg Hd Ho Hp Hl Hr. rewrite Hd, Ho. limits. eexists. by split_and!.
  - intros s d o b q len m l Hg Hd Ho Hl Hm. rewrite Hd, Ho. limits. rewrite Hm.
    eexists. split_and!; eauto with pts.
  - intros s d o b q len Hg Hd Ho Hl. rewrite Hd, Ho. limits. eexists. by split_and!.
  - intros s d o q len Hg Hd Ho Hl Hm. rewrite Hd, Ho, Hm. limits. eexists. by split_and!.
  - intros s d o b q Hg Hd Ho. rewrite Hd, Ho. eexists. by split_and!.
  - intros s d o b q a old Hg Hd Ho. rewrite Hd, Ho. eexists. split; [done|].
    split; [|by split_and!]. destruct Hg as [Hgd Hgo]. split; simpl; [|done].
    apply below_insert with (1 := Hgd); [lia|]. apply Hgd. by exists (o, b).
Defined.
