(* ===== verification/MqTests.v ===== *)
(** * The message queue tests of the suite

    The tests of src/conformance/interfaces/mq_* that run in one process and
    neither wait nor use signals: one definition for the [main] of each file,
    over any implementation of the interface MqApi, with the exit status as
    result. The variables [failure] and [unresolved] of the tests are booleans.
    What the tests leave uninitialised (fields of attributes, buffers) is the
    argument [junk]; a failed [mq_open] whose result is used as a descriptor is
    undefined. *)

From stdpp Require Import base tactics numbers list gmap strings.
From S2P Require Import Prelude SysVSem SysVMsg Mqueue SemTests MqApi.

Open Scope Z_scope.

Definition S_IRUSR_IWUSR : Z := 384.
Definition O_RDONLY : Z := 0.

(** The bytes of a string. *)
Fixpoint bytes (s : string) : list Z :=
  match s with
  | EmptyString => []
  | String c s' => Z.of_N (Ascii.N_of_ascii c) :: bytes s'
  end.

(** Contents of memory before the test writes it. *)
Record junk : Set := Junk { j_flags : Z; j_curmsgs : Z; j_buf : list Z; j_prio : Z }.

(** [attr.mq_maxmsg] and [attr.mq_msgsize] are set, the other fields are not. *)
Definition set_attr (g : junk) (maxmsg msgsize : Z) : mq_attr :=
  MqAttr (j_flags g) maxmsg msgsize (j_curmsgs g).
(** The same after [memset(&attr, 0, sizeof(attr))]. *)
Definition zero_attr (maxmsg msgsize : Z) : mq_attr := MqAttr 0 maxmsg msgsize 0.

(** The call returned -1. *)
Definition bad {A} (r : A + errno) : bool := match r with inr _ => true | inl _ => false end.
(** [memset] and a call that fills the attributes, if it succeeds. *)
Definition filled (r : mq_attr + errno) : mq_attr :=
  match r with inl a => a | inr _ => zero_attr 0 0 end.

(** The buffer after [mq_receive]. *)
Definition received (r : (list Z * Z) + errno) (buf : list Z) : list Z :=
  match r with inl (data, _) => data ++ drop (length data) buf | inr _ => buf end.
(** The variable [pri] after [mq_receive]. *)
Definition prio_after (r : (list Z * Z) + errno) (pri : Z) : Z :=
  match r with inl (_, p) => p | inr _ => pri end.
(** [strncmp(msg, buf, strlen(msg)) != 0] *)
Definition differs (msg buf : list Z) : bool :=
  negb (bool_decide (take (length msg) buf = msg)).

Section Tests.
Context {St : Type} `{MqApi St}.
Notation TM := (M St).

Definition finish (failure unresolved : bool) : TM Z :=
  mret (if failure then PTS_FAIL else if unresolved then PTS_UNRESOLVED else PTS_PASS).

(** The end of most tests: close, unlink, and the verdict. *)
Definition close_finish (queue : Z) (qname : string) (failure unresolved : bool) : TM Z :=
  r1 ← attempt (qapi_close queue);
  r2 ← attempt (qapi_unlink qname);
  finish failure (unresolved || bad r1 || bad r2).

Definition cleanup (queue : Z) (qname : string) : TM unit :=
  ignore (qapi_close queue);; ignore (qapi_unlink qname).

(** A test goes on with the result of a failed [mq_open]. *)
Definition must_open (c : TM Z) : TM Z :=
  r ← attempt c; match r with inl queue => mret queue | inr _ => undefined end.

Definition creat_rdwr : Z := Z.lor O_CREAT O_RDWR.

(** ** mq_send *)

Definition mq_send_1_1 (g : junk) (pid : Z) : TM Z :=
  qname ← sprintf_semname 50 "mq_send" "1-1" pid;
  check (qapi_open qname creat_rdwr S_IRUSR_IWUSR (Some (set_attr g 10 40))) PTS_UNRESOLVED (λ queue,
  let msg := bytes "0123456789" in
  r1 ← attempt (qapi_send queue msg 1);
  r2 ← attempt (qapi_receive queue 40);
  close_finish queue qname (bad r1 || bad r2 || differs msg (received r2 (j_buf g))) false).

Definition mq_send_2_1 (g : junk) (pid : Z) : TM Z :=
  qname ← sprintf_semname 50 "mq_send" "2-1" pid;
  check (qapi_open qname creat_rdwr S_IRUSR_IWUSR (Some (set_attr g 10 10))) PTS_UNRESOLVED (λ queue,
  r ← attempt (qapi_send queue (bytes "01234567890123456789") 1);
  close_finish queue qname (negb (bad r)) false).

(** [mq_send] of each message in turn: did one fail? *)
Fixpoint send_all (queue : Z) (msgs : list (string * Z)) : TM bool :=
  match msgs with
  | [] => mret false
  | (msg, pri) :: msgs' =>
      r ← attempt (qapi_send queue (bytes msg) pri);
      failure ← send_all queue msgs';
      mret (bad r || failure)
  end.

(** [mq_receive] of each message in turn: did one fail, did one differ? *)
Fixpoint receive_all (queue : Z) (buf : list Z) (msgs : list string) : TM (bool * bool) :=
  match msgs with
  | [] => mret (false, false)
  | msg :: msgs' =>
      r ← attempt (qapi_receive queue 40);
      let buf' := received r buf in
      rest ← receive_all queue buf' msgs';
      mret (bad r || rest.1, differs (bytes msg) buf' || rest.2)
  end.

Definition MSG1 : string := "1234567890".
Definition MSG2 : string := "234567890".
Definition MSG3 : string := "34567890".
Definition MSG4 : string := "4567890".
Definition MSG5 : string := "567890".

Definition mq_send_3_1 (g : junk) (pid : Z) : TM Z :=
  qname ← sprintf_semname 50 "mq_send" "3-1" pid;
  check (qapi_open qname creat_rdwr S_IRUSR_IWUSR (Some (set_attr g 10 40))) PTS_UNRESOLVED (λ queue,
  sent ← send_all queue [(MSG3, 6); (MSG1, 10); (MSG4, 2); (MSG2, 8); (MSG5, 1)];
  got ← receive_all queue (j_buf g) [MSG1; MSG2; MSG3; MSG4; MSG5];
  close_finish queue qname (sent || got.1 || got.2) false).

Definition mq_send_3_2 (g : junk) (pid : Z) : TM Z :=
  qname ← sprintf_semname 50 "mq_send" "3-2" pid;
  check (qapi_open qname creat_rdwr S_IRUSR_IWUSR (Some (set_attr g 10 40))) PTS_UNRESOLVED (λ queue,
  sent ← send_all queue [(MSG3, 6); (MSG1, 10); (MSG4, 6); (MSG2, 8); (MSG5, 1)];
  got ← receive_all queue (j_buf g) [MSG1; MSG2; MSG3; MSG4; MSG5];
  close_finish queue qname (sent || got.2) got.1).

Definition mq_send_4_1 (g : junk) (pid : Z) : TM Z :=
  qname ← sprintf_semname 50 "mq_send" "4-1" pid;
  check (qapi_open qname creat_rdwr S_IRUSR_IWUSR None) PTS_UNRESOLVED (λ queue,
  r ← attempt (qapi_send queue (bytes "0123456789") (PRIO_MAX + 1));
  close_finish queue qname (negb (bad r)) false).

Definition mq_send_4_2 (g : junk) (pid : Z) : TM Z :=
  qname ← sprintf_semname 50 "mq_send" "4-2" pid;
  check (qapi_open qname creat_rdwr S_IRUSR_IWUSR None) PTS_UNRESOLVED (λ queue,
  r ← attempt (qapi_send queue (bytes "0123456789") PRIO_MAX);
  close_finish queue qname (negb (bad r)) false).

Definition mq_send_8_1 (g : junk) (pid : Z) : TM Z :=
  qname ← sprintf_semname 50 "mq_send" "8-1" pid;
  check (qapi_open qname creat_rdwr S_IRUSR_IWUSR (Some (set_attr g 10 40))) PTS_UNRESOLVED (λ queue,
  let msg := bytes "0123456789" in
  ret ← attempt (qapi_send queue msg 1);
  r2 ← attempt (qapi_receive queue 40);
  let unresolved := bad r2 || differs msg (received r2 (j_buf g)) in
  r3 ← attempt (qapi_close queue);
  r4 ← attempt (qapi_unlink qname);
  mret (if unresolved || bad r3 || bad r4 then PTS_UNRESOLVED
        else if bad ret then PTS_FAIL else PTS_PASS)).

(** The loop of mq_send/10-1 from [i] on, for at most [n] messages: was the
    limit reached, and was the error not EAGAIN? *)
Fixpoint send_until_full (n : nat) (queue i : Z) : TM (bool * bool) :=
  match n with
  | O => mret (false, false)
  | S n =>
      r ← attempt (qapi_send queue (bytes ("message " +:+ decimal 9 i)) 1);
      match r with
      | inl _ => send_until_full n queue (i + 1)
      | inr e => mret (true, negb (bool_decide (e = EAGAIN)))
      end
  end.

Definition mq_send_10_1 (g : junk) (pid : Z) : TM Z :=
  qname ← sprintf_semname 50 "mq_send" "10-1" pid;
  check (qapi_open qname (Z.lor creat_rdwr O_NONBLOCK) S_IRUSR_IWUSR (Some (set_attr g 10 40)))
    PTS_UNRESOLVED (λ queue,
  res ← send_until_full 11 queue 0;
  r1 ← attempt (qapi_close queue);
  r2 ← attempt (qapi_unlink qname);
  if negb res.1 then mret PTS_UNRESOLVED else finish res.2 (bad r1 || bad r2)).

(** ** mq_receive *)

Definition mq_receive_1_1 (g : junk) (pid : Z) : TM Z :=
  mqname ← sprintf_semname 50 "mq_receive" "1-1" pid;
  mqdes ← must_open (qapi_open mqname creat_rdwr S_IRUSR_IWUSR (Some (set_attr g 40 40)));
  let msg1 := bytes "test message 1" in
  let msg2 := bytes "test message 2" in
  s1 ← attempt (qapi_send mqdes msg1 1);
  s2 ← attempt (qapi_send mqdes msg2 2);
  r1 ← attempt (qapi_receive mqdes 40);
  let pri1 := prio_after r1 (j_prio g) in
  r2 ← attempt (qapi_receive mqdes 40);
  let pri2 := prio_after r2 pri1 in
  close_finish mqdes mqname
    (bad r1 || differs msg2 (received r1 (j_buf g)) || negb (pri1 =? 2)
     || bad r2 || differs msg1 (received r2 (j_buf g)) || negb (pri2 =? 1))
    (bad s1 || bad s2).

Definition mq_receive_2_1 (g : junk) (pid : Z) : TM Z :=
  mqname ← sprintf_semname 50 "mq_receive" "2-1" pid;
  mqdes ← must_open (qapi_open mqname creat_rdwr S_IRUSR_IWUSR (Some (zero_attr 21 21)));
  s ← attempt (qapi_send mqdes (bytes "test message") 1);
  r ← attempt (qapi_receive mqdes 20);
  close_finish mqdes mqname
    (match r with inl (data, _) => 0 <? Z.of_nat (length data) | inr _ => false end) (bad s).

Definition mq_receive_7_1 (g : junk) (pid : Z) : TM Z :=
  mqname ← sprintf_semname 50 "mq_receive" "7-1" pid;
  mqdes ← must_open (qapi_open mqname (Z.lor creat_rdwr O_NONBLOCK) S_IRUSR_IWUSR
                       (Some (set_attr g 40 40)));
  r ← attempt (qapi_receive mqdes 40);
  close_finish mqdes mqname (negb (bad r)) false.

Definition mq_receive_10_1 (g : junk) (pid : Z) : TM Z :=
  mqname ← sprintf_semname 50 "mq_receive" "10-1" pid;
  mqdes ← must_open (qapi_open mqname (Z.lor creat_rdwr O_NONBLOCK) S_IRUSR_IWUSR
                       (Some (set_attr g 40 40)));
  r ← attempt (qapi_receive mqdes 40);
  close_finish mqdes mqname (match r with inr EAGAIN => false | _ => true end) false.

(** [errno] is not EMSGSIZE after a receive that succeeds. *)
Definition mq_receive_12_1 (g : junk) (pid : Z) : TM Z :=
  mqname ← sprintf_semname 50 "mq_receive" "12-1" pid;
  mqdes ← must_open (qapi_open mqname creat_rdwr S_IRUSR_IWUSR (Some (zero_attr 21 21)));
  s ← attempt (qapi_send mqdes (bytes "test message") 1);
  r ← attempt (qapi_receive mqdes 20);
  close_finish mqdes mqname (match r with inr EMSGSIZE => false | _ => true end) (bad s).

(** ** mq_getattr and mq_setattr *)

Definition mq_getattr_2_1 (g : junk) (pid : Z) : TM Z :=
  mqname ← sprintf_semname 50 "mq_getattr" "2-1" pid;
  check (qapi_open mqname (Z.lor creat_rdwr O_NONBLOCK) S_IRUSR_IWUSR None) PTS_UNRESOLVED (λ mqdes,
  r ← attempt (qapi_getattr mqdes);
  ignore (qapi_close mqdes);;
  check (qapi_unlink mqname) PTS_UNRESOLVED (λ _,
  finish (negb (has (mq_flags (filled r)) O_NONBLOCK)) (bad r))).

(** [mqstat.mq_flags |= O_NONBLOCK] *)
Definition or_nonblock (a : mq_attr) : mq_attr :=
  MqAttr (Z.lor (mq_flags a) O_NONBLOCK) (mq_maxmsg a) (mq_msgsize a) (mq_curmsgs a).

Definition mq_getattr_2_2 (g : junk) (pid : Z) : TM Z :=
  mqname ← sprintf_semname 50 "mq_getattr" "2-2" pid;
  check (qapi_open mqname creat_rdwr S_IRUSR_IWUSR None) PTS_UNRESOLVED (λ mqdes,
  r1 ← attempt (qapi_getattr mqdes);
  let mqstat := or_nonblock (filled r1) in
  r2 ← attempt (qapi_setattr mqdes mqstat false);
  r3 ← attempt (qapi_getattr mqdes);
  cleanup mqdes mqname;;
  finish (bad r2 || negb (mq_flags (filled r3) =? mq_flags mqstat)) (bad r1 || bad r3)).

Definition mq_getattr_3_1 (g : junk) (pid : Z) : TM Z :=
  mqname ← sprintf_semname 50 "mq_getattr" "3-1" pid;
  check (qapi_open mqname creat_rdwr S_IRUSR_IWUSR (Some (zero_attr 40 50))) PTS_UNRESOLVED (λ mqdes,
  r ← attempt (qapi_getattr mqdes);
  cleanup mqdes mqname;;
  finish (negb (40 =? mq_maxmsg (filled r)) || negb (50 =? mq_msgsize (filled r))) (bad r)).

Definition mq_getattr_4_1 (g : junk) (pid : Z) : TM Z :=
  mqname ← sprintf_semname 50 "mq_getattr" "4-1" pid;
  check (qapi_open mqname creat_rdwr S_IRUSR_IWUSR (Some (zero_attr 40 50))) PTS_UNRESOLVED (λ mqdes,
  sent ← send_all mqdes (replicate 5 ("test message"%string, 1));
  r ← attempt (qapi_getattr mqdes);
  cleanup mqdes mqname;;
  finish (match r with inl a => negb (mq_curmsgs a =? 5) | inr _ => false end) (sent || bad r)).

Definition mq_setattr_1_1 (g : junk) (pid : Z) : TM Z :=
  mqname ← sprintf_semname 50 "mq_setattr" "1-1" pid;
  check (qapi_open mqname creat_rdwr S_IRUSR_IWUSR None) PTS_UNRESOLVED (λ mqdes,
  r1 ← attempt (qapi_getattr mqdes);
  let mqstat := or_nonblock (filled r1) in
  r2 ← attempt (qapi_setattr mqdes mqstat false);
  r3 ← attempt (qapi_getattr mqdes);
  ignore (qapi_close mqdes);;
  check (qapi_unlink mqname) PTS_UNRESOLVED (λ _,
  finish (bad r2 || negb (mq_flags (filled r3) =? mq_flags mqstat)) (bad r1 || bad r3))).

Definition mq_setattr_1_2 (g : junk) (pid : Z) : TM Z :=
  mqname ← sprintf_semname 50 "mq_setattr" "1-2" pid;
  check (qapi_open mqname creat_rdwr S_IRUSR_IWUSR None) PTS_UNRESOLVED (λ mqdes,
  r1 ← attempt (qapi_getattr mqdes);
  let a := filled r1 in
  let mqstat := MqAttr (mq_flags a) (mq_maxmsg a + 1) (mq_msgsize a + 1) (mq_curmsgs a + 1) in
  r2 ← attempt (qapi_setattr mqdes mqstat false);
  r3 ← attempt (qapi_getattr mqdes);
  let nmqstat := filled r3 in
  cleanup mqdes mqname;;
  finish (bad r2 || (mq_maxmsg nmqstat =? mq_maxmsg mqstat)
          || (mq_msgsize nmqstat =? mq_msgsize mqstat)
          || (mq_curmsgs nmqstat =? mq_curmsgs mqstat)) (bad r1 || bad r3)).

(** The name is unlinked before [mq_setattr], and once more at the end. *)
Definition mq_setattr_2_1 (g : junk) (pid : Z) : TM Z :=
  mqname ← sprintf_semname 50 "mq_setattr" "2-1" pid;
  check (qapi_open mqname creat_rdwr S_IRUSR_IWUSR None) PTS_UNRESOLVED (λ mqdes,
  r1 ← attempt (qapi_getattr mqdes);
  let omqstat := filled r1 in
  check (qapi_unlink mqname) PTS_UNRESOLVED (λ _,
  r2 ← attempt (qapi_setattr mqdes (MqAttr 0 666 777 555) true);
  let mqstat := match r2 with inl (Some a) => a | _ => zero_attr 0 0 end in
  cleanup mqdes mqname;;
  finish (bad r2 || negb (mq_flags omqstat =? mq_flags mqstat)
          || negb (mq_maxmsg omqstat =? mq_maxmsg mqstat)
          || negb (mq_msgsize omqstat =? mq_msgsize mqstat)
          || negb (mq_curmsgs omqstat =? mq_curmsgs mqstat)) (bad r1))).

(** ** mq_close and mq_unlink *)

Definition mq_close_1_1 (g : junk) (pid : Z) : TM Z :=
  qname ← sprintf_semname 50 "mq_close" "1-1" pid;
  check (qapi_open qname creat_rdwr S_IRUSR_IWUSR None) PTS_UNRESOLVED (λ queue,
  check (qapi_close queue) PTS_FAIL (λ _,
  check (qapi_unlink qname) PTS_UNRESOLVED (λ _, mret PTS_PASS))).

Definition mq_unlink_1_1 (g : junk) (pid : Z) : TM Z :=
  mqname ← sprintf_semname 50 "mq_unlink" "1-1" pid;
  check (qapi_open mqname creat_rdwr S_IRUSR_IWUSR None) PTS_UNRESOLVED (λ mqdes,
  check (qapi_unlink mqname) PTS_FAIL (λ _,
  r ← attempt (qapi_open mqname O_RDWR S_IRUSR_IWUSR None);
  mret (if bad r then PTS_PASS else PTS_FAIL))).

(** ** mq_open *)

Definition mq_open_1_1 (g : junk) (pid : Z) : TM Z :=
  qname ← sprintf_semname 50 "mq_open" "1-1" pid;
  check (qapi_open qname creat_rdwr S_IRUSR_IWUSR None) PTS_FAIL (λ queue,
  r ← attempt (qapi_send queue (bytes "0123456789") 1);
  cleanup queue qname;;
  finish (bad r) false).

Definition mq_open_3_1 (g : junk) (pid : Z) : TM Z :=
  qname ← sprintf_semname 50 "mq_open" "3-1" pid;
  r ← attempt (qapi_open qname O_RDWR S_IRUSR_IWUSR None);
  match r with
  | inl queue => cleanup queue qname;; mret PTS_FAIL
  | inr _ => mret PTS_PASS
  end.

Definition mq_open_7_3 (g : junk) (pid : Z) : TM Z :=
  qname ← sprintf_semname 50 "mq_open" "7-3" pid;
  check (qapi_open qname (Z.lor O_CREAT O_RDONLY) S_IRUSR_IWUSR None) PTS_FAIL (λ roqueue,
  check (qapi_open qname O_RDONLY S_IRUSR_IWUSR None) PTS_FAIL (λ roqueue2,
  ignore (qapi_close roqueue);; ignore (qapi_close roqueue2);; ignore (qapi_unlink qname);;
  mret PTS_PASS)).

Definition mq_open_11_1 (g : junk) (pid : Z) : TM Z :=
  qname ← sprintf_semname 50 "mq_open" "11-1" pid;
  check (qapi_open qname creat_rdwr S_IRUSR_IWUSR None) PTS_FAIL (λ queue,
  let msg := bytes "0123456789" in
  r ← attempt (qapi_send queue msg 1);
  if bad r then cleanup queue qname;; mret PTS_UNRESOLVED
  else
    r ← attempt (qapi_open qname creat_rdwr S_IRUSR_IWUSR None);
    match r with
    | inr _ => cleanup queue qname;; mret PTS_FAIL
    | inl queue2 =>
        r ← attempt (qapi_send queue2 msg 1);
        ignore (qapi_close queue);; ignore (qapi_close queue2);; ignore (qapi_unlink qname);;
        mret (if bad r then PTS_FAIL else PTS_PASS)
    end).

Definition mq_open_12_1 (g : junk) (pid : Z) : TM Z :=
  qname ← sprintf_semname 50 "mq_open" "12-1" pid;
  check (qapi_open qname creat_rdwr S_IRUSR_IWUSR None) PTS_FAIL (λ queue,
  r ← attempt (qapi_getattr queue);
  cleanup queue qname;;
  finish (bad r) false).

Definition mq_open_13_1 (g : junk) (pid : Z) : TM Z :=
  qname ← sprintf_semname 50 "mq_open" "13-1" pid;
  check (qapi_open qname creat_rdwr S_IRUSR_IWUSR (Some (set_attr g 10 5))) PTS_FAIL (λ queue,
  r ← attempt (qapi_getattr queue);
  cleanup queue qname;;
  finish (match r with
          | inl a => negb (mq_maxmsg a =? 10) || negb (mq_msgsize a =? 5)
          | inr _ => true
          end) false).

(** The tests 15-1 and 23-1: [ok] tells which failures are right. *)
Definition open_twice (test : string) (ok : errno → bool) (pid : Z) : TM Z :=
  qname ← sprintf_semname 50 "mq_open" test pid;
  check (qapi_open qname creat_rdwr S_IRUSR_IWUSR None) PTS_UNRESOLVED (λ queue,
  r ← attempt (qapi_open qname (Z.lor creat_rdwr O_EXCL) S_IRUSR_IWUSR None);
  match r with
  | inl queue2 =>
      ignore (qapi_close queue);; ignore (qapi_close queue2);; ignore (qapi_unlink qname);;
      mret PTS_FAIL
  | inr e => cleanup queue qname;; mret (if ok e then PTS_PASS else PTS_FAIL)
  end).

Definition mq_open_15_1 (g : junk) (pid : Z) : TM Z := open_twice "15-1" (λ _, true) pid.
Definition mq_open_23_1 (g : junk) (pid : Z) : TM Z :=
  open_twice "23-1" (λ e, bool_decide (e = EEXIST)) pid.

Definition mq_open_18_1 (g : junk) (pid : Z) : TM Z :=
  qname ← sprintf_semname 50 "mq_open" "18-1" pid;
  check (qapi_open qname (Z.lor creat_rdwr O_NONBLOCK) S_IRUSR_IWUSR None) PTS_FAIL (λ queue,
  r ← attempt (qapi_send queue (bytes "O123456789") 1);
  cleanup queue qname;;
  finish (bad r) false).

(** With another error the test closes the descriptor -1. *)
Definition mq_open_29_1 (g : junk) (pid : Z) : TM Z :=
  qname ← sprintf_semname 50 "mq_open" "29-1" pid;
  r ← attempt (qapi_open qname O_RDWR S_IRUSR_IWUSR None);
  match r with
  | inl queue => cleanup queue qname;; mret PTS_FAIL
  | inr ENOENT => mret PTS_PASS
  | inr _ => undefined
  end.

(** ** The suite *)

Definition mq_suite : list (string * string * (junk → Z → TM Z)) :=
  [ ("mq_send", "1-1", mq_send_1_1); ("mq_send", "2-1", mq_send_2_1);
    ("mq_send", "3-1", mq_send_3_1); ("mq_send", "3-2", mq_send_3_2);
    ("mq_send", "4-1", mq_send_4_1); ("mq_send", "4-2", mq_send_4_2);
    ("mq_send", "8-1", mq_send_8_1); ("mq_send", "10-1", mq_send_10_1);
    ("mq_receive", "1-1", mq_receive_1_1); ("mq_receive", "2-1", mq_receive_2_1);
    ("mq_receive", "7-1", mq_receive_7_1); ("mq_receive", "10-1", mq_receive_10_1);
    ("mq_receive", "12-1", mq_receive_12_1);
    ("mq_getattr", "2-1", mq_getattr_2_1); ("mq_getattr", "2-2", mq_getattr_2_2);
    ("mq_getattr", "3-1", mq_getattr_3_1); ("mq_getattr", "4-1", mq_getattr_4_1);
    ("mq_setattr", "1-1", mq_setattr_1_1); ("mq_setattr", "1-2", mq_setattr_1_2);
    ("mq_setattr", "2-1", mq_setattr_2_1); ("mq_close", "1-1", mq_close_1_1);
    ("mq_unlink", "1-1", mq_unlink_1_1); ("mq_open", "1-1", mq_open_1_1);
    ("mq_open", "3-1", mq_open_3_1); ("mq_open", "7-3", mq_open_7_3);
    ("mq_open", "11-1", mq_open_11_1); ("mq_open", "12-1", mq_open_12_1);
    ("mq_open", "13-1", mq_open_13_1); ("mq_open", "15-1", mq_open_15_1);
    ("mq_open", "18-1", mq_open_18_1); ("mq_open", "23-1", mq_open_23_1);
    ("mq_open", "29-1", mq_open_29_1) ]%string.
End Tests.
