(* ===== verification/MqTestsThms.v ===== *)
(** * What the message queue tests decide

    An implementation that meets the laws of MqApi passes every test of
    MqTests, whatever memory holds before the test writes it. The library of
    src/posix1b does not: the theorem at the end has its verdicts. *)

From stdpp Require Import base tactics numbers list gmap strings.
From S2P Require Import Prelude SysVSem SysVMsg RefKernel Mqueue MqueueThms.
From S2P Require Import SemTests SemTestsThms MqApi MqTests.

Open Scope Z_scope.

Section Rules.
Context {St : Type} `{MqLaws St}.
Implicit Types s : St.

(** ** The calls, one rule for each

    [holds_q s n linked d b q]: the descriptor [d], non-blocking if [b], has
    the queue [q], which has the name [n] if [linked], and nothing has it
    otherwise. *)

Definition holds_q s (n : string) (linked : bool) (d : Z) (b : bool) (q : pqueue) : Prop :=
  qgood s ∧ ∃ o, qdescs s !! d = Some (o, b) ∧ qobjs s !! o = Some q ∧
    qlinks s !! n = if linked then Some o else None.

Definition closed_q s (n : string) (linked : bool) : Prop :=
  qgood s ∧ (if linked then is_Some (qlinks s !! n) else qlinks s !! n = None).

Definition fresh_q s (n : string) : Prop := qgood s ∧ qlinks s !! n = None.

(** A call that leaves the descriptors and names. *)
Lemma holds_q_frame s s' n lk d b q q' :
  holds_q s n lk d b q → qgood s' → qdescs s' = qdescs s → qlinks s' = qlinks s →
  (∀ o, qdescs s !! d = Some (o, b) → qobjs s !! o = Some q → qobjs s' !! o = Some q') →
  holds_q s' n lk d b q'.
Proof.
  intros (_ & o & Hd & Ho & Hn) Hg Hds Hl Hq. split; [done|]. exists o.
  rewrite Hds, Hl. split_and!; [done|by apply Hq|done].
Qed.

Lemma qopen_rule s n fl mode attr :
  fresh_q s n → has fl O_CREAT = true → attr_in_range attr →
  ∃ s' d q, qapi_open n fl mode attr s = (Val d, s') ∧ attr_match attr q ∧
    holds_q s' n true d (has fl O_NONBLOCK) q.
Proof.
  intros [Hg Hn] Hc Ha.
  destruct (qopen_new s n fl mode attr Hg Hn Hc Ha)
    as (s' & d & o & q & Hr & Hg' & Hm & _ & Hd & _ & Ho & Hl).
  exists s', d, q. split; [done|]. split; [done|]. split; [done|]. exists o.
  by rewrite Hd, Ho, Hl, !lookup_insert_eq.
Qed.

Lemma qmissing_rule s n lk d b q fl mode :
  holds_q s n lk d b q → lk = false → has fl O_CREAT = false →
  ∃ s', qapi_open n fl mode None s = (Fail ENOENT, s').
Proof.
  intros (Hg & o & _ & _ & Hn) -> Hc.
  destruct (qopen_missing s n fl mode None Hg Hn Hc) as (s' & Hr & _). by exists s'.
Qed.

Lemma qmissing_fresh_rule s n fl mode :
  fresh_q s n → has fl O_CREAT = false → ∃ s', qapi_open n fl mode None s = (Fail ENOENT, s').
Proof.
  intros [Hg Hn] Hc. destruct (qopen_missing s n fl mode None Hg Hn Hc) as (s' & Hr & _).
  by exists s'.
Qed.

(** A second descriptor of the queue. *)
Lemma qagain_rule s n d b q fl mode :
  holds_q s n true d b q → has fl O_EXCL = false →
  ∃ s' d', qapi_open n fl mode None s = (Val d', s') ∧ d' ≠ d ∧
    holds_q s' n true d b q ∧ holds_q s' n true d' (has fl O_NONBLOCK) q.
Proof.
  intros (Hg & o & Hd & Ho & Hn) He.
  destruct (qopen_again s n o fl mode Hg Hn He) as (s' & d' & Hr & Hg' & Hfr & Hds & Hos & Hl).
  assert (d' ≠ d) as Hne by (intros ->; congruence).
  exists s', d'. split; [done|]. split; [done|].
  split; (split; [done|]); exists o; rewrite Hds, Hos, Hl;
    [by rewrite lookup_insert_ne|by rewrite lookup_insert_eq].
Qed.

(** Both descriptors are closed and the name is removed. *)
Lemma close_both_rule {A} s n d d' b b' q q' (k : M St A) :
  holds_q s n true d b q → holds_q s n true d' b' q' → d' ≠ d →
  ∃ s', (ignore (qapi_close d);; ignore (qapi_close d');; ignore (qapi_unlink n);; k) s = k s'.
Proof.
  intros (Hg & o & Hd & Ho & Hn) (_ & o' & Hd' & _ & _) Hne.
  destruct (qclose_law s d _ Hg Hd) as (s1 & Hr1 & Hg1 & Hds1 & Hl1).
  destruct (qclose_law s1 d' (o', b') Hg1) as (s2 & Hr2 & Hg2 & Hds2 & Hl2);
    [by rewrite Hds1, lookup_delete_ne|].
  destruct (qunlink_law s2 n o Hg2) as (s3 & Hr3 & _); [by rewrite Hl2, Hl1|].
  exists s3. erewrite bind_val by (by eapply ignore_val).
  erewrite bind_val by (by eapply ignore_val). by erewrite bind_val by (by eapply ignore_val).
Qed.

Lemma qexclusive_rule s n d b q fl mode :
  holds_q s n true d b q → has fl O_CREAT = true → has fl O_EXCL = true →
  ∃ s', qapi_open n fl mode None s = (Fail EEXIST, s') ∧ holds_q s' n true d b q.
Proof.
  intros (Hg & o & Hd & Ho & Hn) Hc He.
  destruct (qopen_exclusive s n o fl mode Hg Hn Hc He) as (s' & Hr & Hg' & Hds & Hos & Hl).
  exists s'. split; [done|]. split; [done|]. exists o. by rewrite Hds, Hos, Hl.
Qed.

Lemma qclose_rule s n lk d b q :
  holds_q s n lk d b q → ∃ s', qapi_close d s = (Val tt, s') ∧ closed_q s' n lk.
Proof.
  intros (Hg & o & Hd & Ho & Hn).
  destruct (qclose_law s d _ Hg Hd) as (s' & Hr & Hg' & _ & Hl).
  exists s'. split; [done|]. split; [done|]. rewrite Hl. destruct lk; [by exists o|done].
Qed.

Lemma qunlink_open_rule s n d b q :
  holds_q s n true d b q →
  ∃ s', qapi_unlink n s = (Val tt, s') ∧ holds_q s' n false d b q.
Proof.
  intros (Hg & o & Hd & Ho & Hn).
  destruct (qunlink_law s n o Hg Hn) as (s' & Hr & Hg' & Hds & Hl & Hos).
  exists s'. split; [done|]. split; [done|]. exists o.
  by rewrite Hds, Hl, (Hos d o b Hd), lookup_delete_eq.
Qed.

Lemma qunlink_rule s n :
  closed_q s n true → ∃ s', qapi_unlink n s = (Val tt, s').
Proof.
  intros [Hg [o Hn]]. destruct (qunlink_law s n o Hg Hn) as (s' & Hr & _). by exists s'.
Qed.

Lemma qunlink_missing_rule s n :
  closed_q s n false → ∃ s', qapi_unlink n s = (Fail ENOENT, s').
Proof. intros [Hg Hn]. destruct (qunlink_missing s n Hg Hn) as (s' & Hr & _). by exists s'. Qed.

Lemma qsend_rule s n lk d b q data prio :
  holds_q s n lk d b q → 0 ≤ prio < PRIO_MAX → Z.of_nat (length data) ≤ q_msgsize q →
  Z.of_nat (length (q_msgs q)) < q_maxmsg q →
  ∃ s', qapi_send d data prio s = (Val tt, s') ∧
    holds_q s' n lk d b (with_msgs q (q_msgs q ++ [(prio, data)])).
Proof.
  intros Hh Hp Hl Hr. pose proof Hh as (Hg & o & Hd & Ho & _).
  destruct (qsend_law s d o b q data prio Hg Hd Ho Hp Hl Hr) as (s' & Hr' & Hg' & Hds & Hls & Hos).
  exists s'. split; [done|]. eapply holds_q_frame; [done..|]. intros o' Hd' _.
  rewrite Hos. simplify_eq. apply lookup_insert_eq.
Qed.

(** Two descriptors of one queue. *)
Lemma qsend_both_rule s n d b d' b' q data prio :
  holds_q s n true d b q → holds_q s n true d' b' q → 0 ≤ prio < PRIO_MAX →
  Z.of_nat (length data) ≤ q_msgsize q → Z.of_nat (length (q_msgs q)) < q_maxmsg q →
  let q' := with_msgs q (q_msgs q ++ [(prio, data)]) in
  ∃ s', qapi_send d' data prio s = (Val tt, s') ∧
    holds_q s' n true d b q' ∧ holds_q s' n true d' b' q'.
Proof.
  intros (Hg & o & Hd & Ho & Hn) (_ & o' & Hd' & _ & Hn') Hp Hl Hr. simplify_eq.
  destruct (qsend_law s d' o b' q data prio Hg Hd' Ho Hp Hl Hr)
    as (s' & Hr' & Hg' & Hds & Hls & Hos).
  exists s'. split; [done|].
  split; (split; [done|]); exists o; by rewrite Hds, Hls, Hos, lookup_insert_eq.
Qed.

Lemma qrefused_rule s n lk d b q data prio :
  holds_q s n lk d b q → PRIO_MAX ≤ prio ∨ q_msgsize q < Z.of_nat (length data) →
  ∃ s' e, qapi_send d data prio s = (Fail e, s') ∧ holds_q s' n lk d b q.
Proof.
  intros Hh Hp. pose proof Hh as (Hg & o & Hd & Ho & _).
  destruct (qsend_refused s d o b q data prio Hg Hd Ho Hp) as (s' & e & Hr & Hg' & Hds & Hls & Hos).
  exists s', e. split; [done|]. eapply holds_q_frame; [done..|]. intros o' _ Ho'. by rewrite Hos.
Qed.

Lemma qfull_rule s n lk d q data prio :
  holds_q s n lk d true q → 0 ≤ prio < PRIO_MAX → Z.of_nat (length data) ≤ q_msgsize q →
  q_maxmsg q ≤ Z.of_nat (length (q_msgs q)) →
  ∃ s', qapi_send d data prio s = (Fail EAGAIN, s') ∧ holds_q s' n lk d true q.
Proof.
  intros Hh Hp Hl Hr. pose proof Hh as (Hg & o & Hd & Ho & _).
  destruct (qsend_full s d o q data prio Hg Hd Ho Hp Hl Hr) as (s' & Hr' & Hg' & Hds & Hls & Hos).
  exists s'. split; [done|]. eapply holds_q_frame; [done..|]. intros o' _ Ho'. by rewrite Hos.
Qed.

Lemma qreceive_rule s n lk d b q len m l :
  holds_q s n lk d b q → q_msgsize q ≤ len → oldest_highest (q_msgs q) = Some (m, l) →
  ∃ s', qapi_receive d len s = (Val (m.2, m.1), s') ∧ holds_q s' n lk d b (with_msgs q l).
Proof.
  intros Hh Hl Hm. pose proof Hh as (Hg & o & Hd & Ho & _).
  destruct (qreceive_law s d o b q len m l Hg Hd Ho Hl Hm) as (s' & Hr & Hg' & Hds & Hls & Hos).
  exists s'. split; [done|]. eapply holds_q_frame; [done..|]. intros o' Hd' _.
  rewrite Hos. simplify_eq. apply lookup_insert_eq.
Qed.

Lemma qshort_rule s n lk d b q len :
  holds_q s n lk d b q → len < q_msgsize q →
  ∃ s', qapi_receive d len s = (Fail EMSGSIZE, s') ∧ holds_q s' n lk d b q.
Proof.
  intros Hh Hl. pose proof Hh as (Hg & o & Hd & Ho & _).
  destruct (qreceive_short s d o b q len Hg Hd Ho Hl) as (s' & Hr & Hg' & Hds & Hls & Hos).
  exists s'. split; [done|]. eapply holds_q_frame; [done..|]. intros o' _ Ho'. by rewrite Hos.
Qed.

Lemma qempty_rule s n lk d q len :
  holds_q s n lk d true q → q_msgsize q ≤ len → q_msgs q = [] →
  ∃ s', qapi_receive d len s = (Fail EAGAIN, s') ∧ holds_q s' n lk d true q.
Proof.
  intros Hh Hl Hm. pose proof Hh as (Hg & o & Hd & Ho & _).
  destruct (qreceive_empty s d o q len Hg Hd Ho Hl Hm) as (s' & Hr & Hg' & Hds & Hls & Hos).
  exists s'. split; [done|]. eapply holds_q_frame; [done..|]. intros o' _ Ho'. by rewrite Hos.
Qed.

Lemma qgetattr_rule s n lk d b q :
  holds_q s n lk d b q →
  ∃ s', qapi_getattr d s = (Val (attr_of b q), s') ∧ holds_q s' n lk d b q.
Proof.
  intros Hh. pose proof Hh as (Hg & o & Hd & Ho & _).
  destruct (qgetattr_law s d o b q Hg Hd Ho) as (s' & Hr & Hg' & Hds & Hls & Hos).
  exists s'. split; [done|]. eapply holds_q_frame; [done..|]. intros o' _ Ho'. by rewrite Hos.
Qed.

Lemma qsetattr_rule s n lk d b q a old :
  holds_q s n lk d b q →
  ∃ s', qapi_setattr d a old s = (Val (if old then Some (attr_of b q) else None), s') ∧
    holds_q s' n lk d (has (mq_flags a) O_NONBLOCK) q.
Proof.
  intros (Hg & o & Hd & Ho & Hn).
  destruct (qsetattr_law s d o b q a old Hg Hd Ho) as (s' & Hr & Hg' & Hds & Hls & Hos).
  exists s'. split; [done|]. split; [done|]. exists o.
  by rewrite Hds, Hos, Hls, lookup_insert_eq.
Qed.
End Rules.

(** ** Strings and buffers *)

Lemma bytes_length s : length (bytes s) = String.length s.
Proof. induction s; simpl; auto. Qed.

Lemma differs_received msg p buf : differs msg (received (inl (msg, p)) buf) = false.
Proof.
  unfold differs, received. rewrite take_app_length, bool_decide_true by done. done.
Qed.

Lemma message_length i : 0 ≤ i → Z.of_nat (length (bytes ("message " +:+ decimal 9 i))) ≤ 18.
Proof.
  intros Hi. rewrite bytes_length, string_length_app.
  pose proof (proj2 (decimal_length 9 i 9 Hi (le_n _)) (or_intror eq_refl)).
  change (String.length "message ") with 8%nat. lia.
Qed.

(** ** The loops of the tests *)

(** Receiving gives the messages [msgs], in this order. *)
Fixpoint drains (l : list (Z * list Z)) (msgs : list string) : bool :=
  match msgs with
  | [] => true
  | msg :: msgs' =>
      match oldest_highest l with
      | Some (m, l') => bool_decide (m.2 = bytes msg) && drains l' msgs'
      | None => false
      end
  end.

Section Loops.
Context {St : Type} `{MqLaws St}.
Implicit Types s : St.

Lemma send_all_rule s n lk d b q msgs :
  holds_q s n lk d b q →
  Forall (λ x : string * Z, 0 ≤ x.2 < PRIO_MAX ∧ Z.of_nat (length (bytes x.1)) ≤ q_msgsize q) msgs →
  Z.of_nat (length (q_msgs q)) + Z.of_nat (length msgs) ≤ q_maxmsg q →
  ∃ s', send_all d msgs s = (Val false, s') ∧
    holds_q s' n lk d b (with_msgs q (q_msgs q ++ map (λ x, (x.2, bytes x.1)) msgs)).
Proof.
  revert s q. induction msgs as [|[msg pri] msgs IH]; intros s q Hh Hok Hlen; simpl.
  { exists s. split; [done|]. rewrite app_nil_r. by destruct q. }
  apply Forall_cons in Hok as [[Hp Hl] Hok]. simpl in *.
  edestruct qsend_rule as (s1 & Hr & Hh1); [exact Hh|exact Hp|exact Hl|lia|].
  edestruct IH as (s2 & Hr2 & Hh2); [exact Hh1|exact Hok|simpl; rewrite length_app; simpl; lia|].
  exists s2. erewrite bind_val by (by apply attempt_val).
  erewrite bind_val by exact Hr2. split; [done|].
  simpl in Hh2. by rewrite <- app_assoc in Hh2.
Qed.

Lemma receive_all_rule s n lk d b q buf msgs :
  holds_q s n lk d b q → q_msgsize q ≤ 40 → drains (q_msgs q) msgs = true →
  ∃ s' l, receive_all d buf msgs s = (Val (false, false), s') ∧
    holds_q s' n lk d b (with_msgs q l).
Proof.
  revert s q buf. induction msgs as [|msg msgs IH]; intros s q buf Hh Hsz Hdr; simpl.
  { exists s, (q_msgs q). split; [done|]. by destruct q. }
  simpl in Hdr. destruct (oldest_highest (q_msgs q)) as [[[pri data] l]|] eqn:E; [|done].
  apply andb_true_iff in Hdr as [Heq%bool_decide_eq_true Hdr]. simpl in Heq. subst data.
  edestruct qreceive_rule as (s1 & Hr & Hh1); [exact Hh|exact Hsz|exact E|].
  edestruct (IH s1 (with_msgs q l) (received (inl (bytes msg, pri)) buf))
    as (s2 & l2 & Hr2 & Hh2); [exact Hh1|exact Hsz|exact Hdr|].
  exists s2, l2. erewrite bind_val by (apply attempt_val; exact Hr).
  erewrite bind_val by exact Hr2. split; [|done].
  cbn [fst snd bad orb]. by rewrite differs_received.
Qed.

Lemma send_until_full_rule s name lk d q n i :
  holds_q s name lk d true q → 18 ≤ q_msgsize q → 0 ≤ i →
  Z.of_nat (length (q_msgs q)) ≤ q_maxmsg q < Z.of_nat (length (q_msgs q)) + Z.of_nat n →
  ∃ s' q', send_until_full n d i s = (Val (true, false), s') ∧ holds_q s' name lk d true q'.
Proof.
  pose proof prio_max. revert s q i. induction n as [|n IH]; intros s q i Hh Hsz Hi Hn; [lia|].
  pose proof (message_length i Hi) as Hm. cbn [send_until_full].
  set (msg := bytes _) in *. clearbody msg.
  destruct (Z.eq_dec (Z.of_nat (length (q_msgs q))) (q_maxmsg q)) as [Hfull|Hroom].
  - edestruct (qfull_rule s name lk d q msg 1) as (s1 & Hr & Hh1); [exact Hh|lia..|].
    exists s1, q. erewrite bind_val by (apply attempt_fail; exact Hr). done.
  - edestruct (qsend_rule s name lk d true q msg 1) as (s1 & Hr & Hh1); [exact Hh|lia..|].
    erewrite bind_val by (apply attempt_val; exact Hr).
    apply (IH s1 _ (i + 1) Hh1); [done|lia|]. simpl. rewrite length_app. simpl. lia.
Qed.

Lemma close_finish_run s n d b q :
  holds_q s n true d b q → (close_finish d n false false s).1 = Val PTS_PASS.
Proof.
  intros (s1 & Hr1 & Hc)%qclose_rule. destruct (qunlink_rule _ _ Hc) as [s2 Hr2].
  unfold close_finish. erewrite bind_val by (apply attempt_val; exact Hr1).
  by erewrite bind_val by (apply attempt_val; exact Hr2).
Qed.

Lemma cleanup_run s n lk d b q :
  holds_q s n lk d b q → ∃ s', cleanup d n s = (Val tt, s').
Proof.
  intros (s1 & Hr1 & Hc)%qclose_rule. unfold cleanup.
  erewrite bind_val by (by eapply ignore_val). destruct lk.
  - destruct (qunlink_rule _ _ Hc) as [s2 Hr2]. exists s2. by eapply ignore_val.
  - destruct (qunlink_missing_rule _ _ Hc) as [s2 Hr2]. exists s2. by eapply ignore_fail.
Qed.

Lemma must_open_val (c : M St Z) s a s' : c s = (Val a, s') → must_open c s = (Val a, s').
Proof. intros Hc. unfold must_open. by erewrite bind_val by (by apply attempt_val). Qed.
End Loops.

(** ** Running a test on the rules *)

Ltac q_side :=
  first [ eassumption | done
        | (pose proof prio_max; simpl in *; lia)
        | (pose proof prio_max; repeat constructor; simpl; lia)
        | (vm_compute; reflexivity) ].

Ltac q_after Hr :=
  first
    [ rewrite (check_val _ _ _ _ _ _ Hr)
    | rewrite (bind_val _ _ _ _ _ (must_open_val _ _ _ _ Hr))
    | rewrite (bind_val _ _ _ _ _ (ignore_val _ _ _ _ Hr))
    | rewrite (bind_val _ _ _ _ _ (attempt_val _ _ _ _ Hr))
    | rewrite (bind_val _ _ _ _ _ (attempt_fail _ _ _ _ Hr))
    | rewrite (bind_val _ _ _ _ _ Hr) ];
  cbn beta iota zeta; clear Hr.

Ltac q_value rule := edestruct rule as (? & Hr & ?Hh); [q_side..|q_after Hr].
Ltac q_error rule := edestruct rule as (? & ? & Hr & ?Hh); [q_side..|q_after Hr].
Ltac q_last rule := edestruct rule as (? & Hr); [q_side..|q_after Hr].

(** A queue that has just been made. *)
Ltac new_queue rule :=
  let q := fresh "q" in
  let Hm := fresh "Hm" in
  edestruct rule as (? & ? & q & Hr & Hm & ?Hh); [q_side..|];
  q_after Hr; destruct q as [?mx ?sz ?l]; unfold attr_match in Hm; cbn in Hm;
  let Hl := fresh "Hl" in
  destruct Hm as [Hl Hm]; subst; (destruct Hm as [-> ->] || destruct Hm as [? ?]).

Ltac q_call :=
  lazymatch goal with
  | |- ((sprintf_semname _ _ _ _ ≫= _) _).1 = _ =>
      erewrite bind_val by (apply sprintf_run, fits_50; [done|vm_compute; discriminate])
  | |- (check (qapi_open ?n ?fl ?m ?a) _ _ ?s).1 = _ =>
      new_queue open_constr:(qopen_rule s n fl m a)
  | |- ((must_open (qapi_open ?n ?fl ?m ?a) ≫= _) ?s).1 = _ =>
      new_queue open_constr:(qopen_rule s n fl m a)
  | |- ((attempt (qapi_open ?n ?fl ?m _) ≫= _) ?s).1 = _ =>
      first [ q_value open_constr:(qexclusive_rule s n _ _ _ fl m)
            | q_last open_constr:(qmissing_rule s n _ _ _ _ fl m)
            | q_last open_constr:(qmissing_fresh_rule s n fl m) ]
  | |- ((attempt (qapi_send ?d ?data ?p) ≫= _) ?s).1 = _ =>
      first [ q_value open_constr:(qsend_rule s _ _ d _ _ data p)
            | q_error open_constr:(qrefused_rule s _ _ d _ _ data p) ]
  | |- ((attempt (qapi_receive ?d ?len) ≫= _) ?s).1 = _ =>
      first [ q_value open_constr:(qempty_rule s _ _ d _ len)
            | q_value open_constr:(qshort_rule s _ _ d _ _ len)
            | q_value open_constr:(qreceive_rule s _ _ d _ _ len) ]
  | |- ((attempt (qapi_getattr ?d) ≫= _) ?s).1 = _ =>
      q_value open_constr:(qgetattr_rule s _ _ d)
  | |- ((attempt (qapi_setattr ?d ?a ?old) ≫= _) ?s).1 = _ =>
      q_value open_constr:(qsetattr_rule s _ _ d _ _ a old)
  | |- ((attempt (qapi_close ?d) ≫= _) ?s).1 = _ => q_value open_constr:(qclose_rule s _ _ d)
  | |- ((ignore (qapi_close ?d) ≫= _) ?s).1 = _ => q_value open_constr:(qclose_rule s _ _ d)
  | |- (check (qapi_close ?d) _ _ ?s).1 = _ => q_value open_constr:(qclose_rule s _ _ d)
  | |- ((attempt (qapi_unlink ?n) ≫= _) ?s).1 = _ => q_last open_constr:(qunlink_rule s n)
  | |- (check (qapi_unlink ?n) _ _ ?s).1 = _ =>
      first [ q_value open_constr:(qunlink_open_rule s n)
            | q_last open_constr:(qunlink_rule s n) ]
  | |- ((send_all ?d ?msgs ≫= _) ?s).1 = _ =>
      q_value open_constr:(send_all_rule s _ _ d _ _ msgs)
  | |- ((receive_all ?d ?buf ?msgs ≫= _) ?s).1 = _ =>
      q_error open_constr:(receive_all_rule s _ _ d _ _ buf msgs)
  | |- ((send_until_full ?n ?d ?i ≫= _) ?s).1 = _ =>
      q_error open_constr:(send_until_full_rule s _ _ d _ n i)
  | |- ((cleanup ?d ?n ≫= _) ?s).1 = _ => q_last open_constr:(cleanup_run s n _ d)
  end.

(** The verdict, once the results of all calls are known. *)
Ltac q_verdict :=
  rewrite ?differs_received;
  first
    [ eapply close_finish_run; eassumption
    | (unfold finish, mret, M_ret; cbn; rewrite ?Z.eqb_refl; reflexivity)
    | (unfold finish, mret, M_ret; cbn; repeat (bool_case; [lia|]); reflexivity) ].

(** The test opens its queue once more. *)
Ltac open_again s2 d2 Hne Hh1 Hh2 :=
  lazymatch goal with
  | |- context [qapi_open ?n ?fl ?m None] =>
      edestruct (λ s d b q, qagain_rule s n d b q fl m) as (s2 & d2 & Hr & Hne & Hh1 & Hh2);
      [q_side..|q_after Hr]
  end.

Ltac run_mq := repeat q_call; try q_verdict.

Section Suite.
Context {St : Type} `{MqLaws St}.
Implicit Types s : St.

(** The test passes from every state without the queue that it makes. *)
Definition passes_mq (x : string * string * (junk → Z → M St Z)) : Prop :=
  ∀ g pid s, 0 ≤ pid < 2 ^ 31 → fresh_q s (test_name x.1.1 x.1.2 pid) →
    (x.2 g pid s).1 = Val PTS_PASS.

Tactic Notation "run_mq_test" reference(test) :=
  intros g pid s Hpid Hs; cbn [fst snd] in *; unfold test; run_mq.

Lemma mq_send_1_1_ok : passes_mq ("mq_send"%string, "1-1"%string, mq_send_1_1).
Proof. run_mq_test mq_send_1_1. Qed.
Lemma mq_send_2_1_ok : passes_mq ("mq_send"%string, "2-1"%string, mq_send_2_1).
Proof. run_mq_test mq_send_2_1. Qed.
Lemma mq_send_3_1_ok : passes_mq ("mq_send"%string, "3-1"%string, mq_send_3_1).
Proof. run_mq_test mq_send_3_1. Qed.
Lemma mq_send_3_2_ok : passes_mq ("mq_send"%string, "3-2"%string, mq_send_3_2).
Proof. run_mq_test mq_send_3_2. Qed.
Lemma mq_send_4_1_ok : passes_mq ("mq_send"%string, "4-1"%string, mq_send_4_1).
Proof. run_mq_test mq_send_4_1. Qed.
Lemma mq_send_4_2_ok : passes_mq ("mq_send"%string, "4-2"%string, mq_send_4_2).
Proof. run_mq_test mq_send_4_2. Qed.
Lemma mq_send_8_1_ok : passes_mq ("mq_send"%string, "8-1"%string, mq_send_8_1).
Proof. run_mq_test mq_send_8_1. Qed.
Lemma mq_send_10_1_ok : passes_mq ("mq_send"%string, "10-1"%string, mq_send_10_1).
Proof. run_mq_test mq_send_10_1. Qed.
Lemma mq_receive_1_1_ok : passes_mq ("mq_receive"%string, "1-1"%string, mq_receive_1_1).
Proof. run_mq_test mq_receive_1_1. Qed.
Lemma mq_receive_2_1_ok : passes_mq ("mq_receive"%string, "2-1"%string, mq_receive_2_1).
Proof. run_mq_test mq_receive_2_1. Qed.
Lemma mq_receive_7_1_ok : passes_mq ("mq_receive"%string, "7-1"%string, mq_receive_7_1).
Proof. run_mq_test mq_receive_7_1. Qed.
Lemma mq_receive_10_1_ok : passes_mq ("mq_receive"%string, "10-1"%string, mq_receive_10_1).
Proof. run_mq_test mq_receive_10_1. Qed.
Lemma mq_receive_12_1_ok : passes_mq ("mq_receive"%string, "12-1"%string, mq_receive_12_1).
Proof. run_mq_test mq_receive_12_1. Qed.
Lemma mq_getattr_2_1_ok : passes_mq ("mq_getattr"%string, "2-1"%string, mq_getattr_2_1).
Proof. run_mq_test mq_getattr_2_1. Qed.
Lemma mq_getattr_2_2_ok : passes_mq ("mq_getattr"%string, "2-2"%string, mq_getattr_2_2).
Proof. run_mq_test mq_getattr_2_2. Qed.
Lemma mq_getattr_3_1_ok : passes_mq ("mq_getattr"%string, "3-1"%string, mq_getattr_3_1).
Proof. run_mq_test mq_getattr_3_1. Qed.
Lemma mq_getattr_4_1_ok : passes_mq ("mq_getattr"%string, "4-1"%string, mq_getattr_4_1).
Proof. run_mq_test mq_getattr_4_1. Qed.
Lemma mq_setattr_1_1_ok : passes_mq ("mq_setattr"%string, "1-1"%string, mq_setattr_1_1).
Proof. run_mq_test mq_setattr_1_1. Qed.
Lemma mq_setattr_1_2_ok : passes_mq ("mq_setattr"%string, "1-2"%string, mq_setattr_1_2).
Proof. run_mq_test mq_setattr_1_2. Qed.
Lemma mq_setattr_2_1_ok : passes_mq ("mq_setattr"%string, "2-1"%string, mq_setattr_2_1).
Proof. run_mq_test mq_setattr_2_1. Qed.
Lemma mq_close_1_1_ok : passes_mq ("mq_close"%string, "1-1"%string, mq_close_1_1).
Proof. run_mq_test mq_close_1_1. Qed.
Lemma mq_unlink_1_1_ok : passes_mq ("mq_unlink"%string, "1-1"%string, mq_unlink_1_1).
Proof. run_mq_test mq_unlink_1_1. Qed.
Lemma mq_open_1_1_ok : passes_mq ("mq_open"%string, "1-1"%string, mq_open_1_1).
Proof. run_mq_test mq_open_1_1. Qed.
Lemma mq_open_3_1_ok : passes_mq ("mq_open"%string, "3-1"%string, mq_open_3_1).
Proof. run_mq_test mq_open_3_1. Qed.
Lemma mq_open_7_3_ok : passes_mq ("mq_open"%string, "7-3"%string, mq_open_7_3).
Proof.
  run_mq_test mq_open_7_3. open_again s2 d2 Hne Hh1 Hh2. edestruct @close_both_rule as (s3 & ->); done.
Qed.
Lemma mq_open_11_1_ok : passes_mq ("mq_open"%string, "11-1"%string, mq_open_11_1).
Proof.
  run_mq_test mq_open_11_1. cbn [bad].
  open_again s2 d2 Hne Hh1 Hh2.
  destruct (qsend_both_rule s2 _ _ _ d2 _ _ (bytes "0123456789") 1 Hh1 Hh2)
    as (s3 & Hr & Hh3 & Hh4); [q_side..|].
  q_after Hr. edestruct @close_both_rule as (s4 & ->); done.
Qed.
Lemma mq_open_12_1_ok : passes_mq ("mq_open"%string, "12-1"%string, mq_open_12_1).
Proof. run_mq_test mq_open_12_1. Qed.
Lemma mq_open_13_1_ok : passes_mq ("mq_open"%string, "13-1"%string, mq_open_13_1).
Proof. run_mq_test mq_open_13_1. Qed.
Lemma mq_open_15_1_ok : passes_mq ("mq_open"%string, "15-1"%string, mq_open_15_1).
Proof. run_mq_test mq_open_15_1. unfold open_twice. run_mq. Qed.
Lemma mq_open_18_1_ok : passes_mq ("mq_open"%string, "18-1"%string, mq_open_18_1).
Proof. run_mq_test mq_open_18_1. Qed.
Lemma mq_open_23_1_ok : passes_mq ("mq_open"%string, "23-1"%string, mq_open_23_1).
Proof. run_mq_test mq_open_23_1. unfold open_twice. run_mq. Qed.
Lemma mq_open_29_1_ok : passes_mq ("mq_open"%string, "29-1"%string, mq_open_29_1).
Proof. run_mq_test mq_open_29_1. Qed.

#[local] Hint Resolve
  mq_send_1_1_ok mq_send_2_1_ok mq_send_3_1_ok mq_send_3_2_ok mq_send_4_1_ok mq_send_4_2_ok
  mq_send_8_1_ok mq_send_10_1_ok mq_receive_1_1_ok mq_receive_2_1_ok mq_receive_7_1_ok
  mq_receive_10_1_ok mq_receive_12_1_ok mq_getattr_2_1_ok mq_getattr_2_2_ok
  mq_getattr_3_1_ok mq_getattr_4_1_ok mq_setattr_1_1_ok mq_setattr_1_2_ok mq_setattr_2_1_ok
  mq_close_1_1_ok mq_unlink_1_1_ok mq_open_1_1_ok mq_open_3_1_ok mq_open_7_3_ok
  mq_open_11_1_ok mq_open_12_1_ok mq_open_13_1_ok mq_open_15_1_ok mq_open_18_1_ok
  mq_open_23_1_ok mq_open_29_1_ok : pts.

Lemma mq_suite_ok : Forall passes_mq mq_suite.
Proof. unfold mq_suite. repeat constructor; auto with pts. Qed.

(** C13. On every implementation that meets the laws of the standard, each of
    the 32 tests passes from every state without the queue that the test
    makes, for every process id and whatever the uninitialised variables of
    the test hold. *)
Theorem mq_suite_passes x g pid s :
  x ∈ mq_suite → 0 ≤ pid < 2 ^ 31 → fresh_q s (test_name x.1.1 x.1.2 pid) →
  (x.2 g pid s).1 = Val PTS_PASS.
Proof.
  intros Hx. by apply (proj1 (Forall_forall _ _) mq_suite_ok x Hx).
Qed.
End Suite.

(** ** The suite on the library of src/posix1b *)

Definition posix1b_mq_verdicts (g : junk) (pid : Z) : list (out Z) :=
  map (λ x, (x.2 g pid mq0).1) mq_suite.

(** The verdicts of the suite on the library of src/posix1b, each test on
    its own kernel. The library passes 12 of the 32 tests. [mq_unlink] looks
    for another key than [mq_open] used, so the tests that check it end
    unresolved; the limits of the attributes are not kept, priority 256 is
    accepted, and O_NONBLOCK of [mq_open] is ignored in favour of the flags of
    the attributes: with these flags 0, two tests wait for ever. *)
Theorem posix1b_mq_suite cur buf pri :
  let P := Val PTS_PASS in let F := Val PTS_FAIL in let U := Val PTS_UNRESOLVED in
  posix1b_mq_verdicts (Junk 0 cur buf pri) 7 =
    [U; F; U; U; U; F; U; U;  U; F; Sleep; Sleep; F;  U; P; F; P;  U; P; U;  U;  F;
     P; P; P; P; P; F; P; P; P; P] ∧
  posix1b_mq_verdicts (Junk O_NONBLOCK cur buf pri) 7 =
    [U; F; U; U; U; F; U; U;  U; F; U; F; F;  U; P; F; P;  U; P; U;  U;  F;
     P; P; P; P; P; F; P; P; P; P].
Proof. split; vm_compute; reflexivity. Qed.

(** ** Witnesses *)

Lemma mq_suite_passes_witness :
  (mq_send_3_2 (Junk 5 6 [] 7) 4321 pmq0).1 = Val PTS_PASS.
Proof.
  apply (mq_suite_passes (St := pmq) ("mq_send"%string, "3-2"%string, mq_send_3_2)).
  - do 3 (apply list_elem_of_further). apply list_elem_of_here.
  - lia.
  - split; [exact pmq0_good|reflexivity].
Defined.
