(* ===== verification/MqStress.v ===== *)
(** * Many threads on message queues

    src/stress/mqueues/multi_send_rev_1.c: [num] pairs of threads, each with a queue
    of its own; multi_send_rev_2.c: [num] pairs on one queue. The queues are opened with
    O_NONBLOCK. Threads are interleaved as in Lts; their calls are those of any system
    with the interface MqApi. *)

From stdpp Require Import base tactics numbers list gmap strings.
From S2P Require Import Prelude SysVSem SysVMsg Mqueue MqueueThms Lts SemTests MqApi MqTests.

Open Scope Z_scope.

Definition MSG_SIZE : Z := 128.

(** ** The functions of the threads *)

(** A thread that sends: its queue, the number of messages that were sent, how it has ended.
    One that receives has the messages that it got. *)
Record sender : Set := Sender { s_mq : Z; s_i : Z; s_exit : option Z }.
Record receiver : Set := Receiver { r_mq : Z; r_got : list (list Z * Z); r_exit : option Z }.

(** What [mq_send] reads at [text]: the string and what follows it in memory. *)
Definition sent_bytes (after : list Z) (text : string) : list Z :=
  take (Z.to_nat MSG_SIZE) (bytes text ++ 0 :: after).

Section Threads.
Context {St : Type} `{MqApi St}.

(** One round of [send], which sends the message [msg i] with the priority [i], or its end. *)
Definition send_round (max : Z) (msg : Z → list Z) (fail : bool) (th : sender) (s : St) : option (sender * St) :=
  match s_exit th with
  | Some _ => None
  | None =>
      if s_i th <? max then
        if fail then Some (Sender (s_mq th) (s_i th) (Some 1), s)
        else match qapi_send (s_mq th) (msg (s_i th)) (s_i th) s with
             | (Val _, s') => Some (Sender (s_mq th) (s_i th + 1) None, s')
             | (Fail _, s') => Some (Sender (s_mq th) (s_i th) (Some 1), s')
             | _ => None
             end
      else Some (Sender (s_mq th) (s_i th) (Some 0), s)
  end.

(** One round of [receive]; [quits] is its code when [mq_receive] fails. *)
Definition receive_round (max quits : Z) (fail : bool) (th : receiver) (s : St) : option (receiver * St) :=
  match r_exit th with
  | Some _ => None
  | None =>
      if Z.of_nat (length (r_got th)) <? max then
        if fail then Some (Receiver (r_mq th) (r_got th) (Some quits), s)
        else match qapi_receive (r_mq th) MSG_SIZE s with
             | (Val m, s') => Some (Receiver (r_mq th) (r_got th ++ [m]) None, s')
             | (Fail _, s') => Some (Receiver (r_mq th) (r_got th) (Some quits), s')
             | _ => None
             end
      else Some (Receiver (r_mq th) (r_got th) (Some 0), s)
  end.

Record mq_state : Type := MqState { sys : St; sends : list sender; recvs : list receiver }.

(** Threads 0 to [num] - 1 send, then come those that receive. *)
Definition pair_step (send : bool → sender → St → option (sender * St))
    (receive : bool → receiver → St → option (receiver * St))
    (num t : nat) (fail : bool) (s : mq_state) : option mq_state :=
  if (t <? num)%nat then
    th ← sends s !! t; '(th', k) ← send fail th (sys s);
    Some (MqState k (<[t := th']> (sends s)) (recvs s))
  else
    th ← recvs s !! (t - num)%nat; '(th', k) ← receive fail th (sys s);
    Some (MqState k (sends s) (<[(t - num)%nat := th']> (recvs s))).

(** [pthread_create] of a pair for each of the descriptors. *)
Definition create_pairs (ds : list Z) (s : St) : mq_state :=
  MqState s ((λ d, Sender d 0 None) <$> ds) ((λ d, Receiver d [] None) <$> ds).

Definition done_sending (th : sender) : bool := if s_exit th is Some _ then true else false.
Definition done_receiving (th : receiver) : bool := if r_exit th is Some _ then true else false.
Definition all_joined (s : mq_state) : bool := forallb done_sending (sends s) && forallb done_receiving (recvs s).

End Threads.
Arguments mq_state St : clear implicits.

Definition creat_nonblock : Z := Z.lor (Z.lor O_CREAT O_NONBLOCK) O_RDWR.

(** ** multi_send_rev_1.c *)

Module Rev1.
Definition MAX_MSG : Z := 3.
Definition Max_Threads : Z := 10.
Definition s_msg_ptr : list string := ["msg test 1"; "msg test 2"; "msg test 3"]%string.
Definition MQ_NAME : list string :=
  ["/msg1"; "/msg2"; "/msg3"; "/msg4"; "/msg5"; "/msg6"; "/msg7"; "/msg8"; "/msg9"; "/msg10"]%string.

Section Program.
Context {St : Type} `{MqApi St} (after : list Z).

Definition message (i : Z) : list Z := sent_bytes after (nth (Z.to_nat i) s_msg_ptr ""%string).
Definition send (fail : bool) (info : sender) (s : St) : option (sender * St) := send_round MAX_MSG message fail info s.
Definition receive (fail : bool) (info : receiver) (s : St) : option (receiver * St) := receive_round MAX_MSG 0 fail info s.
Definition rev_step : nat → nat → bool → mq_state St → option (mq_state St) := pair_step send receive.

(** The queues of the names; [None] when one cannot be opened. *)
Fixpoint open_all (names : list string) : M St (option (list Z)) :=
  match names with
  | [] => mret (Some [])
  | n :: names =>
      r ← attempt (qapi_open n creat_nonblock 511 (Some (zero_attr MAX_MSG MSG_SIZE)));
      match r with
      | inr _ => mret None
      | inl d => ds ← open_all names; mret (cons d <$> ds)
      end
  end.

(** The last loop closes and unlinks every queue twice. *)
Fixpoint close_all (ds : list Z) (names : list string) : M St unit :=
  match ds, names with
  | d :: ds, n :: names =>
      ignore (qapi_close d);; ignore (qapi_close d);; ignore (qapi_unlink n);; ignore (qapi_unlink n);;
      close_all ds names
  | _, _ => mret tt
  end.

(** [main] with the number that [atoi] gives; [None] while a thread has not ended. *)
Definition main (argc arg : Z) (sched : list (nat * bool)) : M St (option Z) :=
  if negb (argc =? 2) || (arg <=? 0) then mret (Some PTS_FAIL)
  else
    let num := Z.to_nat (if Max_Threads <? arg then Max_Threads else arg) in
    r ← open_all (take num MQ_NAME);
    match r with
    | None => mret (Some PTS_UNRESOLVED)
    | Some ds =>
        s ← gets (λ s, run (rev_step num) sched (create_pairs ds s));
        modify (λ _, sys s);;
        if all_joined s then close_all ds MQ_NAME;; mret (Some PTS_PASS) else mret None
    end.
End Program.
End Rev1.

(** ** multi_send_rev_2.c *)

Module Rev2.
Definition MQ_NAME : string := "/testmsg1".
Definition MAX_MSG : Z := 5.
Definition Max_Threads : Z := 100.
Definition s_msg_ptr : list string := ["send_1 1"; "send_1 2"; "send_1 3"; "send_1 4"; "send_1 5"]%string.

Section Program.
Context {St : Type} `{MqApi St} (after : list Z).

Definition message (i : Z) : list Z := sent_bytes after (nth (Z.to_nat i) s_msg_ptr ""%string).
Definition send (fail : bool) (th : sender) (s : St) : option (sender * St) := send_round MAX_MSG message fail th s.
Definition receive (fail : bool) (th : receiver) (s : St) : option (receiver * St) := receive_round MAX_MSG 1 fail th s.
Definition rev_step : nat → nat → bool → mq_state St → option (mq_state St) := pair_step send receive.

Definition main (argc arg : Z) (sched : list (nat * bool)) : M St (option Z) :=
  if negb (argc =? 2) || (arg <=? 0) then mret (Some PTS_FAIL)
  else
    let num := Z.to_nat (if Max_Threads <? arg then Max_Threads else arg) in
    r ← attempt (qapi_open MQ_NAME creat_nonblock 511 (Some (zero_attr MAX_MSG MSG_SIZE)));
    match r with
    | inr _ => mret (Some PTS_UNRESOLVED)
    | inl mq =>
        s ← gets (λ s, run (rev_step num) sched (create_pairs (replicate num mq) s));
        modify (λ _, sys s);;
        if all_joined s then
          ignore (qapi_close mq);; ignore (qapi_unlink MQ_NAME);; mret (Some PTS_PASS)
        else mret None
    end.
End Program.
End Rev2.

(** ** What the threads keep *)

Lemma concat_insert {A B} (f : A → list B) l i x y more :
  l !! i = Some x → f y ≡ₚ f x ++ more → concat (f <$> <[i := y]> l) ≡ₚ concat (f <$> l) ++ more.
Proof.
  revert i. induction l as [|a l IH]; intros [|i] Hx Hf; simpl in *; simplify_eq.
  - rewrite Hf. solve_Permutation.
  - rewrite (IH i Hx Hf). by rewrite app_assoc.
Qed.

Lemma oldest_highest_perm l m l' : oldest_highest l = Some (m, l') → l ≡ₚ m :: l'.
Proof.
  intros (l1 & l2 & -> & -> & _ & _)%take_first_spec. symmetry. apply Permutation_middle.
Qed.

Lemma take_first_none p l x : take_first p l = None → x ∈ l → p x = false.
Proof.
  induction l as [|y l IH]; simpl; intros Hn Hx; [by apply elem_of_nil in Hx|].
  destruct (p y) eqn:E; [done|]. destruct (take_first p l) as [[]|] eqn:E'; [done|].
  apply elem_of_cons in Hx as [->|Hx]; [done|by apply IH].
Qed.

(** A message with the highest priority. *)
Lemma top_prio_elem l : (∀ m, m ∈ l → 0 ≤ m.1) → l ≠ [] → ∃ m, m ∈ l ∧ m.1 = top_prio l.
Proof.
  induction l as [|m l IH]; intros Hp Hne; [done|]. simpl.
  destruct (decide (l = [])) as [->|Hl].
  - exists m. split; [by left|]. simpl. pose proof (Hp m (list_elem_of_here _ _)). lia.
  - destruct IH as (m' & Hm' & Htop); [intros; apply Hp; by right|done|].
    destruct (Z_le_gt_dec (top_prio l) m.1); [exists m; split; [by left|lia]|].
    exists m'. split; [by right|lia].
Qed.

Lemma oldest_highest_none l : (∀ m, m ∈ l → 0 ≤ m.1) → oldest_highest l = None → l = [].
Proof.
  intros Hp Hn. destruct (decide (l = [])) as [|Hne]; [done|exfalso].
  destruct (top_prio_elem l Hp Hne) as (m & Hm & Htop).
  apply (take_first_none _ _ m) in Hn; [|done]. simpl in Hn. by rewrite Htop, Z.eqb_refl in Hn.
Qed.

Section Invariant.
Context {St : Type} `{MqLaws St}.
Context (max : Z) (msg : Z → list Z) (quits : Z).
Context (Hmax : 0 ≤ max ≤ 32) (Hmsg : ∀ i, 0 ≤ i < max → Z.of_nat (length (msg i)) = MSG_SIZE).

(** The queues of the threads: the object of each descriptor, no two the same. *)
Context (object : gmap Z Z).
Context (Hinj : ∀ d1 d2 o, object !! d1 = Some o → object !! d2 = Some o → d1 = d2).

(** The names of queues, which the threads do not change. *)
Context (links : gmap string Z).

(** The messages on the queue [d] that were sent, and those that were received. *)
Definition sent_by (d : Z) (th : sender) : list (Z * list Z) :=
  if s_mq th =? d then (λ i, (Z.of_nat i, msg (Z.of_nat i))) <$> seq 0 (Z.to_nat (s_i th)) else [].
Definition got_by (d : Z) (th : receiver) : list (Z * list Z) :=
  if r_mq th =? d then (λ m, (m.2, m.1)) <$> r_got th else [].
Definition sent_on (d : Z) (s : mq_state St) : list (Z * list Z) := concat (sent_by d <$> sends s).
Definition got_on (d : Z) (s : mq_state St) : list (Z * list Z) := concat (got_by d <$> recvs s).

Definition queue_ok (s : mq_state St) (d o : Z) : Prop :=
  ∃ q, qdescs (sys s) !! d = Some (o, true) ∧ qobjs (sys s) !! o = Some q ∧
    q_maxmsg q = max ∧ q_msgsize q = MSG_SIZE ∧ Z.of_nat (length (q_msgs q)) ≤ max ∧
    q_msgs q ++ got_on d s ≡ₚ sent_on d s.

Record mq_inv (s : mq_state St) : Prop := {
  mq_good : qgood (sys s);
  mq_links : qlinks (sys s) = links;
  mq_queues : ∀ d o, object !! d = Some o → queue_ok s d o;
  mq_senders : ∀ t th, sends s !! t = Some th → is_Some (object !! s_mq th) ∧ 0 ≤ s_i th ≤ max;
  mq_receivers : ∀ t th, recvs s !! t = Some th →
    is_Some (object !! r_mq th) ∧ Z.of_nat (length (r_got th)) ≤ max }.

(** The steps that a thread can still make. *)
Definition send_left (th : sender) : Z := if s_exit th is Some _ then 0 else max - s_i th + 1.
Definition receive_left (th : receiver) : Z := if r_exit th is Some _ then 0 else max - Z.of_nat (length (r_got th)) + 1.
Definition steps_left (s : mq_state St) : Z := sumf send_left (sends s) + sumf receive_left (recvs s).

Notation step := (pair_step (send_round max msg) (receive_round max quits)).

(** *** Changes of a thread *)

Lemma sent_on_insert d k s t th th' more :
  sends s !! t = Some th → sent_by d th' ≡ₚ sent_by d th ++ more →
  sent_on d (MqState k (<[t := th']> (sends s)) (recvs s)) ≡ₚ sent_on d s ++ more.
Proof. apply concat_insert. Qed.

Lemma got_on_insert d k s t th th' more :
  recvs s !! t = Some th → got_by d th' ≡ₚ got_by d th ++ more →
  got_on d (MqState k (sends s) (<[t := th']> (recvs s))) ≡ₚ got_on d s ++ more.
Proof. apply concat_insert. Qed.

Lemma sent_on_same d k s t th th' :
  sends s !! t = Some th → sent_by d th' = sent_by d th →
  sent_on d (MqState k (<[t := th']> (sends s)) (recvs s)) ≡ₚ sent_on d s.
Proof.
  intros Ht Hs. rewrite (sent_on_insert d k s t th th' []); [by rewrite app_nil_r|done|].
  by rewrite Hs, app_nil_r.
Qed.

Lemma got_on_same d k s t th th' :
  recvs s !! t = Some th → got_by d th' = got_by d th →
  got_on d (MqState k (sends s) (<[t := th']> (recvs s))) ≡ₚ got_on d s.
Proof.
  intros Ht Hs. rewrite (got_on_insert d k s t th th' []); [by rewrite app_nil_r|done|].
  by rewrite Hs, app_nil_r.
Qed.

(** A thread ends; the system may have tried a call. *)
Lemma ends_send s t th k c :
  mq_inv s → sends s !! t = Some th →
  qgood k → qlinks k = links → qdescs k = qdescs (sys s) → qobjs k = qobjs (sys s) →
  mq_inv (MqState k (<[t := Sender (s_mq th) (s_i th) (Some c)]> (sends s)) (recvs s)).
Proof.
  intros [Hg Hlk Hq Hs Hr] Ht Hk Hlk' Hd Ho. split; simpl; [done|done| | |done].
  - intros d o Hdo. destruct (Hq d o Hdo) as (q & H1 & H2 & H3 & H4 & H5 & H6).
    exists q. simpl. rewrite Hd, Ho. split_and!; [done..|].
    rewrite (sent_on_same d k s t th); done.
  - intros u uh Hu. destruct (decide (t = u)) as [<-|Hne].
    + rewrite list_lookup_insert_eq in Hu by (by eapply lookup_lt_Some). simplify_eq. exact (Hs t th Ht).
    + rewrite list_lookup_insert_ne in Hu by done. by apply (Hs u).
Qed.

Lemma ends_receive s t th k c :
  mq_inv s → recvs s !! t = Some th →
  qgood k → qlinks k = links → qdescs k = qdescs (sys s) → qobjs k = qobjs (sys s) →
  mq_inv (MqState k (sends s) (<[t := Receiver (r_mq th) (r_got th) (Some c)]> (recvs s))).
Proof.
  intros [Hg Hlk Hq Hs Hr] Ht Hk Hlk' Hd Ho. split; simpl; [done|done| |done|].
  - intros d o Hdo. destruct (Hq d o Hdo) as (q & H1 & H2 & H3 & H4 & H5 & H6).
    exists q. simpl. rewrite Hd, Ho. split_and!; [done..|].
    rewrite (got_on_same d k s t th); done.
  - intros u uh Hu. destruct (decide (t = u)) as [<-|Hne].
    + rewrite list_lookup_insert_eq in Hu by (by eapply lookup_lt_Some). simplify_eq. exact (Hr t th Ht).
    + rewrite list_lookup_insert_ne in Hu by done. by apply (Hr u).
Qed.

(** The objects of other queues are not changed. *)
Lemma other_object d d' o o' : object !! d = Some o → object !! d' = Some o' → d ≠ d' → o ≠ o'.
Proof. intros Hd Hd' Hne ->. by apply Hne, (Hinj d d' o'). Qed.

Lemma sends_one s t th k o q :
  mq_inv s → sends s !! t = Some th → s_i th < max →
  object !! s_mq th = Some o → qobjs (sys s) !! o = Some q → Z.of_nat (length (q_msgs q)) < max →
  qgood k → qlinks k = links → qdescs k = qdescs (sys s) →
  qobjs k = <[o := with_msgs q (q_msgs q ++ [(s_i th, msg (s_i th))])]> (qobjs (sys s)) →
  mq_inv (MqState k (<[t := Sender (s_mq th) (s_i th + 1) None]> (sends s)) (recvs s)).
Proof.
  intros [Hg Hlk Hq Hs Hr] Ht Hi Hob Hoq Hroom Hk Hlk' Hd Ho. split; simpl; [done|done| | |done].
  - intros d' o' Hdo. destruct (Hq d' o' Hdo) as (q' & H1 & H2 & H3 & H4 & H5 & H6). unfold queue_ok. simpl.
    rewrite Hd, Ho. destruct (decide (s_mq th = d')) as [Hd'|Hne].
    + subst d'. assert (o' = o) as -> by congruence. assert (q' = q) as -> by congruence.
      eexists. rewrite lookup_insert_eq. split_and!; [done..|simpl; rewrite length_app; simpl; lia|]. simpl.
      rewrite (sent_on_insert _ k s t th _ [(s_i th, msg (s_i th))]); [|done|].
      * rewrite <- H6. unfold got_on. simpl. solve_Permutation.
      * unfold sent_by. simpl. rewrite Z.eqb_refl. destruct (Hs t th Ht) as [_ Hb].
        replace (Z.to_nat (s_i th + 1)) with (S (Z.to_nat (s_i th))) by lia.
        rewrite seq_S, fmap_app. simpl. by rewrite Z2Nat.id by lia.
    + rewrite lookup_insert_ne by (eapply other_object; [exact Hob|exact Hdo|done]).
      exists q'. split_and!; [done..|].
      rewrite (sent_on_same d' k s t th); [done|done|].
      unfold sent_by. simpl. by rewrite (proj2 (Z.eqb_neq _ _) Hne).
  - intros u uh Hu. destruct (Hs t th Ht) as [Hob' Hb]. destruct (decide (t = u)) as [<-|Hne].
    + rewrite list_lookup_insert_eq in Hu by (by eapply lookup_lt_Some). simplify_eq. simpl. split; [done|lia].
    + rewrite list_lookup_insert_ne in Hu by done. by apply (Hs u).
Qed.

Lemma receives_one s t th k o q m l :
  mq_inv s → recvs s !! t = Some th → Z.of_nat (length (r_got th)) < max →
  object !! r_mq th = Some o → qobjs (sys s) !! o = Some q → oldest_highest (q_msgs q) = Some (m, l) →
  qgood k → qlinks k = links → qdescs k = qdescs (sys s) → qobjs k = <[o := with_msgs q l]> (qobjs (sys s)) →
  mq_inv (MqState k (sends s) (<[t := Receiver (r_mq th) (r_got th ++ [(m.2, m.1)]) None]> (recvs s))).
Proof.
  intros [Hg Hlk Hq Hs Hr] Ht Hi Hob Hoq Hm Hk Hlk' Hd Ho. apply oldest_highest_perm in Hm as Hp.
  split; simpl; [done|done| |done|].
  - intros d' o' Hdo. destruct (Hq d' o' Hdo) as (q' & H1 & H2 & H3 & H4 & H5 & H6). unfold queue_ok. simpl.
    rewrite Hd, Ho. destruct (decide (r_mq th = d')) as [Hd'|Hne].
    + subst d'. assert (o' = o) as -> by congruence. assert (q' = q) as -> by congruence.
      apply Permutation_length in Hp as Hlen. simpl in Hlen.
      eexists. rewrite lookup_insert_eq. split_and!; [done..|simpl; lia|]. simpl.
      rewrite (got_on_insert _ k s t th _ [m]); [|done|].
      * unfold sent_on. simpl. fold (sent_on (r_mq th) s). rewrite <- H6, Hp. solve_Permutation.
      * unfold got_by. simpl. rewrite Z.eqb_refl, fmap_app. simpl. by destruct m.
    + rewrite lookup_insert_ne by (eapply other_object; [exact Hob|exact Hdo|done]).
      exists q'. split_and!; [done..|].
      rewrite (got_on_same d' k s t th); [done|done|].
      unfold got_by. simpl. by rewrite (proj2 (Z.eqb_neq _ _) Hne).
  - intros u uh Hu. destruct (Hr t th Ht) as [Hob' Hb]. destruct (decide (t = u)) as [<-|Hne].
    + rewrite list_lookup_insert_eq in Hu by (by eapply lookup_lt_Some). simplify_eq. simpl.
      split; [done|]. rewrite length_app. simpl. lia.
    + rewrite list_lookup_insert_ne in Hu by done. by apply (Hr u).
Qed.

(** *** Steps *)

Lemma send_left_insert s t th th' k :
  sends s !! t = Some th → steps_left (MqState k (<[t := th']> (sends s)) (recvs s)) = steps_left s - send_left th + send_left th'.
Proof. intros Ht. unfold steps_left. simpl. rewrite (sumf_insert _ _ _ _ _ Ht). lia. Qed.

Lemma receive_left_insert s t th th' k :
  recvs s !! t = Some th → steps_left (MqState k (sends s) (<[t := th']> (recvs s))) = steps_left s - receive_left th + receive_left th'.
Proof. intros Ht. unfold steps_left. simpl. rewrite (sumf_insert _ _ _ _ _ Ht). lia. Qed.

Lemma send_step s t th fail :
  mq_inv s → sends s !! t = Some th → s_exit th = None →
  ∃ th' k, send_round max msg fail th (sys s) = Some (th', k) ∧
    mq_inv (MqState k (<[t := th']> (sends s)) (recvs s)) ∧ send_left th' < send_left th.
Proof.
  intros Hinv Ht He. pose proof Hinv as [Hg Hlk Hq Hs Hr]. destruct (Hs t th Ht) as [[o Ho] Hi].
  destruct (Hq _ _ Ho) as (q & Hd & Hoq & Hm & Hz & Hl & Hp).
  unfold send_round, send_left. rewrite He. destruct (Z.ltb_spec (s_i th) max) as [Hlt|Hge].
  - destruct fail.
    { do 2 eexists. split; [done|]. split; [apply ends_send; congruence|simpl; lia]. }
    pose proof prio_max. destruct (Z_lt_le_dec (Z.of_nat (length (q_msgs q))) max) as [Hroom|Hfull].
    + destruct (qsend_law (sys s) (s_mq th) o true q (msg (s_i th)) (s_i th)) as (k & Hk & Hgk & Hdk & Hlk' & Hok);
        [done|done|done|lia|rewrite Hmsg; lia|lia|].
      rewrite Hk. do 2 eexists. split; [done|]. split; [|simpl; lia].
      eapply sends_one; [done|done|done|exact Ho|done|lia|congruence..].
    + destruct (qsend_full (sys s) (s_mq th) o q (msg (s_i th)) (s_i th)) as (k & Hk & Hgk & Hdk & Hlk' & Hok);
        [done|done|done|lia|rewrite Hmsg; lia|lia|].
      rewrite Hk. do 2 eexists. split; [done|]. split; [apply ends_send; congruence|simpl; lia].
  - do 2 eexists. split; [done|]. split; [apply ends_send; congruence|simpl; lia].
Qed.

(** Only messages that were sent are on a queue. *)
Lemma queue_prios s d o q m :
  queue_ok s d o → qobjs (sys s) !! o = Some q → m ∈ q_msgs q → 0 ≤ m.1.
Proof.
  intros (q' & _ & Hq & _ & _ & _ & Hp) Hq' Hm. assert (q' = q) as -> by congruence.
  assert (m ∈ sent_on d s) as Hs by (rewrite <- Hp; apply elem_of_app; by left).
  unfold sent_on in Hs. apply list_elem_of_In, in_concat in Hs as (l & Hl & Hin).
  apply list_elem_of_In, list_elem_of_fmap in Hl as (th & -> & _). apply list_elem_of_In in Hin.
  unfold sent_by in Hin. destruct (_ =? _); [|by apply elem_of_nil in Hin].
  apply list_elem_of_fmap in Hin as (i & -> & _). simpl. lia.
Qed.

Lemma receive_step s t th fail :
  mq_inv s → recvs s !! t = Some th → r_exit th = None →
  ∃ th' k, receive_round max quits fail th (sys s) = Some (th', k) ∧
    mq_inv (MqState k (sends s) (<[t := th']> (recvs s))) ∧ receive_left th' < receive_left th.
Proof.
  intros Hinv Ht He. pose proof Hinv as [Hg Hlk Hq Hs Hr]. destruct (Hr t th Ht) as [[o Ho] Hi].
  pose proof (Hq _ _ Ho) as Hok. destruct Hok as (q & Hd & Hoq & Hm & Hz & Hl & Hp).
  unfold receive_round, receive_left. rewrite He.
  destruct (Z.ltb_spec (Z.of_nat (length (r_got th))) max) as [Hlt|Hge].
  - destruct fail.
    { do 2 eexists. split; [done|]. split; [apply ends_receive; congruence|simpl; lia]. }
    destruct (oldest_highest (q_msgs q)) as [[m l]|] eqn:E.
    + destruct (qreceive_law (sys s) (r_mq th) o true q MSG_SIZE m l) as (k & Hk & Hgk & Hdk & Hlk' & Hok);
        [done|done|done|lia|done|].
      rewrite Hk. do 2 eexists. split; [done|]. split; [|simpl; rewrite length_app; simpl; lia].
      eapply receives_one; [done|done|done|exact Ho|done|exact E|congruence..].
    + apply oldest_highest_none in E; [|intros m Hin; by eapply queue_prios; [apply Hq, Ho|exact Hoq|]].
      destruct (qreceive_empty (sys s) (r_mq th) o q MSG_SIZE) as (k & Hk & Hgk & Hdk & Hlk' & Hok);
        [done|done|done|lia|done|].
      rewrite Hk. do 2 eexists. split; [done|]. split; [apply ends_receive; congruence|simpl; lia].
  - do 2 eexists. split; [done|]. split; [apply ends_receive; congruence|simpl; lia].
Qed.

Context (num : nat).

(** A thread that has not ended can always move; every step is progress. *)
Lemma pair_step_progress t f s s' :
  mq_inv s → step num t f s = Some s' → mq_inv s' ∧ steps_left s' < steps_left s.
Proof.
  intros Hinv. unfold pair_step. destruct (_ <? _)%nat.
  - destruct (sends s !! t) as [th|] eqn:Ht; [|done]. simpl. destruct (s_exit th) eqn:He.
    { unfold send_round. by rewrite He. }
    destruct (send_step s t th f Hinv Ht He) as (th' & k & -> & Hi & Hl). simpl. intros [= <-].
    split; [done|]. rewrite (send_left_insert s t th) by done. lia.
  - destruct (recvs s !! (t - num)%nat) as [th|] eqn:Ht; [|done]. simpl. destruct (r_exit th) eqn:He.
    { unfold receive_round. by rewrite He. }
    destruct (receive_step s _ th f Hinv Ht He) as (th' & k & -> & Hi & Hl). simpl. intros [= <-].
    split; [done|]. rewrite (receive_left_insert s _ th) by done. lia.
Qed.

Lemma steps_left_nonneg s : mq_inv s → 0 ≤ steps_left s.
Proof.
  intros [_ _ _ Hs Hr]. unfold steps_left.
  assert (∀ {A} (f : A → Z) l, (∀ t a, l !! t = Some a → 0 ≤ f a) → 0 ≤ sumf f l) as Hsum.
  { intros A f l. induction l as [|a l IH]; intros Hf; [done|]. simpl.
    pose proof (Hf 0%nat a eq_refl). specialize (IH (λ t, Hf (S t))). lia. }
  assert (0 ≤ sumf send_left (sends s)).
  { apply Hsum. intros t th [_ Hi]%Hs. unfold send_left. destruct (s_exit th); lia. }
  assert (0 ≤ sumf receive_left (recvs s)); [|lia].
  apply Hsum. intros t th [_ Hi]%Hr. unfold receive_left. destruct (r_exit th); lia.
Qed.

Lemma stuck_all_joined s :
  mq_inv s → length (sends s) = num → stuck (step num) s → all_joined s = true.
Proof.
  intros Hinv Hn Hst. unfold all_joined. apply andb_true_intro. split; apply forallb_forall.
  - intros th [t Ht]%list_elem_of_In%list_elem_of_lookup. unfold done_sending.
    destruct (s_exit th) eqn:He; [done|]. exfalso. specialize (Hst t). unfold pair_step in Hst.
    rewrite (proj2 (Nat.ltb_lt t num)) in Hst by (subst num; by eapply lookup_lt_Some).
    rewrite Ht in Hst. simpl in Hst.
    destruct (send_step s t th false Hinv Ht He) as (th' & k & Hx & _). by rewrite Hx in Hst.
  - intros th [t Ht]%list_elem_of_In%list_elem_of_lookup. unfold done_receiving.
    destruct (r_exit th) eqn:He; [done|]. exfalso. specialize (Hst (num + t)%nat). unfold pair_step in Hst.
    rewrite (proj2 (Nat.ltb_ge _ num)), Nat.add_comm, Nat.add_sub in Hst by lia.
    rewrite Ht in Hst. simpl in Hst.
    destruct (receive_step s t th false Hinv Ht He) as (th' & k & Hx & _). by rewrite Hx in Hst.
Qed.

Lemma step_length t f s s' : step num t f s = Some s' → length (sends s') = length (sends s).
Proof.
  unfold pair_step. destruct (_ <? _)%nat; intros Hx.
  - destruct (sends s !! t); [|done]. simpl in Hx. destruct (send_round _ _ _ _ _) as [[]|]; [|done].
    simpl in Hx. simplify_eq. simpl. by rewrite length_insert.
  - destruct (recvs s !! _); [|done]. simpl in Hx. destruct (receive_round _ _ _ _ _) as [[]|]; [|done].
    by simplify_eq/=.
Qed.

End Invariant.

(** ** The programs *)

Section Runs.
Context {St : Type} `{MqLaws St}.

(** Queues that were just opened. *)
Record opened (max : Z) (s : St) (object : gmap Z Z) : Prop := {
  op_good : qgood s;
  op_inj : ∀ d1 d2 o, object !! d1 = Some o → object !! d2 = Some o → d1 = d2;
  op_queue : ∀ d o, object !! d = Some o → qdescs s !! d = Some (o, true) ∧
    ∃ q, qobjs s !! o = Some q ∧ q_maxmsg q = max ∧ q_msgsize q = MSG_SIZE ∧ q_msgs q = [] }.

Lemma nothing_yet {A B} (f : A → list B) (l : list A) : (∀ a, a ∈ l → f a = []) → concat (f <$> l) = [].
Proof.
  induction l as [|a l IH]; intros Hf; [done|]. simpl. rewrite (Hf a) by (by left).
  apply IH. intros b Hb. apply Hf. by right.
Qed.

Lemma created_inv max msg s object ds :
  0 ≤ max → opened max s object → (∀ d, d ∈ ds → is_Some (object !! d)) →
  mq_inv max msg object (qlinks s) (create_pairs ds s).
Proof.
  intros Hmax [Hg Hi Hq] Hds. split; simpl; [done|done| | |].
  - intros d o Ho. destruct (Hq d o Ho) as (Hd & q & Hoq & Hm & Hz & Hn).
    exists q. simpl. rewrite Hn. split_and!; [done..|simpl; lia|]. simpl.
    unfold got_on, sent_on. simpl. rewrite !nothing_yet; [done|..].
    + intros th (d' & -> & _)%list_elem_of_fmap. unfold sent_by. simpl. by case_match.
    + intros th (d' & -> & _)%list_elem_of_fmap. unfold got_by. simpl. by case_match.
  - intros t th (d & -> & Hd)%list_lookup_fmap_Some. simpl. split; [|done].
    apply Hds. by eapply list_elem_of_lookup_2.
  - intros t th (d & -> & Hd)%list_lookup_fmap_Some. simpl. split; [|done].
    apply Hds. by eapply list_elem_of_lookup_2.
Qed.

Lemma sumf_const {A B} (f : B → Z) (g : A → B) c l :
  (∀ a, f (g a) = c) → sumf f (g <$> l) = Z.of_nat (length l) * c.
Proof.
  intros Hf. induction l as [|a l IH]; [done|].
  cbn [fmap list_fmap sumf foldr length]. unfold sumf in IH. rewrite IH, Hf. lia.
Qed.

Lemma created_steps max ds s :
  steps_left max (create_pairs (St := St) ds s) = 2 * Z.of_nat (length ds) * (max + 1).
Proof.
  unfold steps_left, create_pairs. cbn [sends recvs].
  rewrite !(sumf_const _ _ (max + 1)); [lia|..]; intros d; unfold send_left, receive_left; simpl; lia.
Qed.

(** What every schedule of the threads leads to. *)
Record pairs_run (max : Z) (msg : Z → list Z) (step : nat → bool → mq_state St → option (mq_state St))
    (ds : list Z) (s0 : St) (sched : list (nat * bool)) : Prop := {
  run_conserves : ∀ d, d ∈ ds → ∃ o, queue_ok max msg (run step sched (create_pairs ds s0)) d o;
  run_bounded : Z.of_nat (moves step sched (create_pairs ds s0)) ≤ 2 * Z.of_nat (length ds) * (max + 1);
  run_ends : stuck step (run step sched (create_pairs ds s0)) →
    all_joined (run step sched (create_pairs ds s0)) = true }.

Lemma pairs_run_ok max msg quits ds s0 sched object :
  0 ≤ max ≤ 32 → (∀ i, 0 ≤ i < max → Z.of_nat (length (msg i)) = MSG_SIZE) →
  opened max s0 object → (∀ d, d ∈ ds → is_Some (object !! d)) →
  let step := pair_step (send_round max msg) (receive_round max quits) (length ds) in
  let s := run step sched (create_pairs ds s0) in
  mq_inv max msg object (qlinks s0) s ∧ pairs_run max msg step ds s0 sched.
Proof.
  intros Hmax Hmsg Hop Hds step s.
  pose proof (created_inv max msg s0 object ds (proj1 Hmax) Hop Hds) as Hinit.
  assert (∀ t f s1 s2, mq_inv max msg object (qlinks s0) s1 → step t f s1 = Some s2 →
    mq_inv max msg object (qlinks s0) s2 ∧ steps_left max s2 < steps_left max s1) as Hstep.
  { intros t f s1 s2 H1 H2. by eapply pair_step_progress; [exact Hmax|exact Hmsg|exact (op_inj _ _ _ Hop)|..]. }
  assert (mq_inv max msg object (qlinks s0) s) as Hinv.
  { apply (run_inv step (mq_inv max msg object (qlinks s0))); [|done]. intros t f s1 s2 H1 H2. by eapply Hstep. }
  split; [done|]. split.
  - intros d Hd. destruct (Hds d Hd) as [o Ho]. exists o. by apply (mq_queues _ _ _ _ _ Hinv).
  - rewrite <- created_steps with (s := s0).
    apply (moves_bounded step (mq_inv max msg object (qlinks s0))); [done| |done].
    intros s1 H1. by eapply steps_left_nonneg.
  - intros Hst. apply (stuck_all_joined max msg quits Hmax Hmsg object (op_inj _ _ _ Hop) (qlinks s0) (length ds) s); [done| |done].
    apply (run_inv step (λ s, length (sends s) = length ds)).
    + intros t f s1 s2 <- H2. by eapply step_length.
    + simpl. by rewrite length_fmap.
Qed.

(** [mq_open] of a new queue. *)
Lemma opens_one max s object n :
  0 < max ≤ 32 → opened max s object → qlinks s !! n = None →
  ∃ d o s', qapi_open n creat_nonblock 511 (Some (zero_attr max MSG_SIZE)) s = (Val d, s') ∧
    object !! d = None ∧ opened max s' (<[d := o]> object) ∧ qlinks s' = <[n := o]> (qlinks s).
Proof.
  intros Hmax [Hg Hi Hq] Hn.
  destruct (qopen_new s n creat_nonblock 511 (Some (zero_attr max MSG_SIZE)) Hg Hn)
    as (s' & d & o & q & Hr & Hg' & [Hm [Hmm Hms]] & Hd & Hds & Ho & Hos & Hl); [done|simpl; unfold MSG_SIZE; lia|].
  exists d, o, s'. split; [done|].
  assert (object !! d = None) as Hnew.
  { destruct (object !! d) as [o'|] eqn:E; [|done]. destruct (Hq d o' E) as [Hx _]. congruence. }
  assert (∀ d' o', object !! d' = Some o' → d ≠ d' ∧ o ≠ o') as Hne.
  { intros d' o' Hd'. destruct (Hq d' o' Hd') as (_ & q' & Hq' & _). split; congruence. }
  split; [done|]. split; [|done]. split; [done| |].
  - intros d1 d2 o'. destruct (decide (d = d1)) as [<-|H1], (decide (d = d2)) as [<-|H2];
      rewrite ?lookup_insert_eq, ?lookup_insert_ne by done; intros E1 E2; simplify_eq; [done| | |by eapply Hi].
    + by destruct (Hne _ _ E2).
    + by destruct (Hne _ _ E1).
  - intros d' o'. rewrite Hds, Hos. destruct (decide (d = d')) as [<-|Hx].
    + rewrite lookup_insert_eq. intros [= <-]. rewrite !lookup_insert_eq. split; [done|]. by exists q.
    + rewrite lookup_insert_ne by done. intros Hd'. destruct (Hne _ _ Hd') as [_ Hoo].
      rewrite !lookup_insert_ne by done. by apply Hq.
Qed.

(** [mq_close] of an open descriptor, and then of a closed one. *)
Lemma closes s d x : qgood s → qdescs s !! d = Some x →
  ∃ s', ignore (qapi_close d) s = (Val tt, s') ∧ qgood s' ∧ qdescs s' = delete d (qdescs s) ∧ qlinks s' = qlinks s.
Proof.
  intros Hg Hd. destruct (qclose_law s d x Hg Hd) as (s' & Hr & Hx). exists s'. split; [|done].
  unfold ignore. mrun. by rewrite Hr.
Qed.

Lemma closes_again s d : qgood s → qdescs s !! d = None →
  ∃ s', ignore (qapi_close d) s = (Val tt, s') ∧ qgood s' ∧ qdescs s' = qdescs s ∧ qlinks s' = qlinks s.
Proof.
  intros Hg Hd. destruct (qclose_bad s d Hg Hd) as (s' & Hr & Hx). exists s'. split; [|done].
  unfold ignore. mrun. by rewrite Hr.
Qed.

Lemma unlinks s n o : qgood s → qlinks s !! n = Some o →
  ∃ s', ignore (qapi_unlink n) s = (Val tt, s') ∧ qgood s' ∧ qdescs s' = qdescs s ∧ qlinks s' = delete n (qlinks s).
Proof.
  intros Hg Hn. destruct (qunlink_law s n o Hg Hn) as (s' & Hr & Hg' & Hd & Hl & _). exists s'. split; [|done].
  unfold ignore. mrun. by rewrite Hr.
Qed.

Lemma unlinks_again s n : qgood s → qlinks s !! n = None →
  ∃ s', ignore (qapi_unlink n) s = (Val tt, s') ∧ qgood s' ∧ qdescs s' = qdescs s ∧ qlinks s' = qlinks s.
Proof.
  intros Hg Hn. destruct (qunlink_missing s n Hg Hn) as (s' & Hr & Hx). exists s'. split; [|done].
  unfold ignore. mrun. by rewrite Hr.
Qed.

Lemma close_all_rule ds names s :
  qgood s → NoDup ds → NoDup names → (length ds ≤ length names)%nat →
  (∀ d, d ∈ ds → is_Some (qdescs s !! d)) → (∀ n, n ∈ take (length ds) names → is_Some (qlinks s !! n)) →
  ∃ s', Rev1.close_all ds names s = (Val tt, s') ∧
    (∀ n, n ∈ take (length ds) names → qlinks s' !! n = None) ∧
    ∀ n, n ∉ take (length ds) names → qlinks s' !! n = qlinks s !! n.
Proof.
  revert names s. induction ds as [|d ds IH]; intros names s Hg Hnd Hnn Hlen Hd Hl.
  { exists s. split; [by destruct names|]. simpl. split; [set_solver|done]. }
  destruct names as [|n names]; [simpl in Hlen; lia|].
  apply NoDup_cons in Hnd as [Hnd1 Hnd], Hnn as [Hnn1 Hnn].
  destruct (Hd d) as [x Hx]; [by left|]. destruct (Hl n) as [o Hn]; [by left|]. cbn [Rev1.close_all].
  destruct (closes s d x Hg Hx) as (s1 & R1 & G1 & D1 & L1).
  rewrite (bind_val _ _ _ _ _ R1).
  destruct (closes_again s1 d G1) as (s2 & R2 & G2 & D2 & L2); [by rewrite D1, lookup_delete_eq|].
  rewrite (bind_val _ _ _ _ _ R2).
  destruct (unlinks s2 n o G2) as (s3 & R3 & G3 & D3 & L3); [by rewrite L2, L1|].
  rewrite (bind_val _ _ _ _ _ R3).
  destruct (unlinks_again s3 n G3) as (s4 & R4 & G4 & D4 & L4); [by rewrite L3, lookup_delete_eq|].
  rewrite (bind_val _ _ _ _ _ R4).
  assert (qlinks s4 = delete n (qlinks s)) as Hlinks by congruence.
  assert (∀ m, m ∈ take (length ds) names → n ≠ m) as Hne.
  { intros m Hm ->. apply Hnn1. by apply (subseteq_take (length ds)). }
  destruct (IH names s4 G4 Hnd Hnn) as (s5 & R5 & N5 & K5).
  - simpl in Hlen. lia.
  - intros d' Hd'. rewrite D4, D3, D2, D1, lookup_delete_ne by (by intros ->). apply Hd. by right.
  - intros m Hm. rewrite Hlinks, lookup_delete_ne by (by apply Hne). apply Hl. by right.
  - exists s5. split; [done|]. cbn [length take]. split.
    + intros m [->|Hm]%elem_of_cons; [|by apply N5].
      destruct (decide (n ∈ take (length ds) names)) as [Hin|Hni]; [by apply N5|].
      by rewrite K5, Hlinks, lookup_delete_eq.
    + intros m [Hm1 Hm]%not_elem_of_cons. by rewrite K5, Hlinks, lookup_delete_ne.
Qed.

Lemma open_all_rule object s names :
  opened 3 s object → NoDup names → (∀ n, n ∈ names → qlinks s !! n = None) →
  ∃ ds s' object', Rev1.open_all names s = (Val (Some ds), s') ∧ length ds = length names ∧ NoDup ds ∧
    opened 3 s' object' ∧ (∀ d, d ∈ ds → is_Some (object' !! d) ∧ object !! d = None) ∧ object ⊆ object' ∧
    (∀ n, n ∈ names → is_Some (qlinks s' !! n)) ∧ (∀ n, n ∉ names → qlinks s' !! n = qlinks s !! n).
Proof.
  revert object s. induction names as [|n names IH]; intros object s Hop Hnd Hl.
  { exists [], s, object. split_and!; try done; [apply NoDup_nil_2|set_solver..]. }
  apply NoDup_cons in Hnd as [Hn Hnd].
  destruct (opens_one 3 s object n) as (d & o & s1 & Hr & Hnew & Hop1 & Hl1); [lia|done|apply Hl; by left|].
  destruct (IH _ s1 Hop1 Hnd) as (ds & s2 & object' & Hr2 & Hlen & Hnds & Hop2 & Hds & Hsub & Hl2 & Hk2).
  { intros m Hm. rewrite Hl1, lookup_insert_ne by (by intros ->). apply Hl. by right. }
  exists (d :: ds), s2, object'. cbn [Rev1.open_all].
  rewrite (bind_val _ _ _ _ _ (attempt_val _ _ _ _ Hr)). cbn iota. rewrite (bind_val _ _ _ _ _ Hr2).
  split; [done|]. split; [simpl; by rewrite Hlen|].
  assert (d ∉ ds) as Hd. { intros Hin. destruct (Hds d Hin) as [_ Hx]. by rewrite lookup_insert_eq in Hx. }
  split; [by apply NoDup_cons|]. split; [done|]. split_and!.
  - intros d' [->|Hd']%elem_of_cons.
    + split; [|done]. exists o. eapply lookup_weaken; [|exact Hsub]. by rewrite lookup_insert_eq.
    + destruct (Hds d' Hd') as [Hs Hx]. split; [done|]. by rewrite lookup_insert_ne in Hx by (by intros ->).
  - etransitivity; [|exact Hsub]. by apply insert_subseteq.
  - intros m [->|Hm]%elem_of_cons; [|by apply Hl2]. rewrite Hk2, Hl1, lookup_insert_eq by done. by eexists.
  - intros m [Hm1 Hm]%not_elem_of_cons. by rewrite Hk2, Hl1, lookup_insert_ne.
Qed.

End Runs.

Lemma sent_bytes_length after text :
  MSG_SIZE ≤ Z.of_nat (length after) → Z.of_nat (length (sent_bytes after text)) = MSG_SIZE.
Proof.
  intros Ha. unfold sent_bytes, MSG_SIZE in *. rewrite length_take, length_app. cbn [length]. lia.
Qed.

Section Theorems.
Context {St : Type} `{MqLaws St}.

Lemma opened_none max s : qgood s → opened max s ∅.
Proof. split; [done|..]; intros; by rewrite lookup_empty in *. Qed.

Lemma names_differ : NoDup Rev1.MQ_NAME.
Proof. apply (bool_decide_unpack _). vm_compute. done. Qed.

Lemma clamp_length {A} (names : list A) arg max :
  0 < arg → length names = Z.to_nat max →
  length (take (Z.to_nat (if max <? arg then max else arg)) names) = Z.to_nat (if max <? arg then max else arg).
Proof. intros Ha Hl. apply length_take_le. rewrite Hl. bool_case; lia. Qed.

(** C18. multi_send_rev_1.c, on every system with the laws of message queues, for every number
    of pairs (at most ten), every interleaving and every pattern of failing calls: the
    queues are different, and each holds at most three messages, which together with
    those that its receiver got are the ones that its sender sent: none is lost, copied
    or moved to another queue. No thread ever waits: a schedule has at most eight steps for each
    pair, and all threads have ended when no step is left. Whatever the calls returned,
    [main] then reports PTS_PASS and leaves no queue. *)
Theorem multi_send_rev_1_correct after s arg sched :
  MSG_SIZE ≤ Z.of_nat (length after) → qgood s → (∀ n, n ∈ Rev1.MQ_NAME → qlinks s !! n = None) → 0 < arg →
  let num := Z.to_nat (if Rev1.Max_Threads <? arg then Rev1.Max_Threads else arg) in
  ∃ ds s0, Rev1.open_all (take num Rev1.MQ_NAME) s = (Val (Some ds), s0) ∧ length ds = num ∧ NoDup ds ∧
    pairs_run Rev1.MAX_MSG (Rev1.message after) (Rev1.rev_step after num) ds s0 sched ∧
    if all_joined (run (Rev1.rev_step after num) sched (create_pairs ds s0)) then
      ∃ s', Rev1.main after 2 arg sched s = (Val (Some PTS_PASS), s') ∧
        ∀ n, n ∈ take num Rev1.MQ_NAME → qlinks s' !! n = None
    else (Rev1.main after 2 arg sched s).1 = Val None.
Proof.
  intros Haf Hg Hn Ha num.
  assert (NoDup (take num Rev1.MQ_NAME)) as Hnd.
  { eapply sublist_NoDup; [exact names_differ|apply sublist_take]. }
  destruct (open_all_rule ∅ s (take num Rev1.MQ_NAME)) as (ds & s0 & object & Hr & Hlen & Hds & Hop & Hin & _ & Hl & _);
    [by apply opened_none|done|intros n Hx; by apply Hn, (subseteq_take num)|].
  assert (length (take num Rev1.MQ_NAME) = num) as Hnum by exact (clamp_length Rev1.MQ_NAME arg Rev1.Max_Threads Ha eq_refl).
  rewrite Hnum in Hlen.
  destruct (pairs_run_ok Rev1.MAX_MSG (Rev1.message after) 0 ds s0 sched object) as [Hinv Hrun];
    [by unfold Rev1.MAX_MSG|intros; by apply sent_bytes_length|done|by intros d [? _]%Hin|].
  rewrite Hlen in Hinv, Hrun. exists ds, s0. split_and!; [done..|].
  assert (Rev1.main after 2 arg sched s =
    (if all_joined (run (Rev1.rev_step after num) sched (create_pairs ds s0))
     then Rev1.close_all ds Rev1.MQ_NAME;; mret (Some PTS_PASS) else mret None)
    (sys (run (Rev1.rev_step after num) sched (create_pairs ds s0)))) as ->.
  { unfold Rev1.main. rewrite (proj2 (Z.leb_gt arg 0)) by done. cbn [negb orb Z.eqb Pos.eqb]. fold num.
    by rewrite (bind_val _ _ _ _ _ Hr). }
  set (st := run (Rev1.rev_step after num) sched (create_pairs ds s0)) in *.
  destruct (all_joined st); [|done].
  assert (mq_inv Rev1.MAX_MSG (Rev1.message after) object (qlinks s0) st) as [Hgs Hls Hqs _ _] by exact Hinv.
  destruct (close_all_rule ds Rev1.MQ_NAME (sys st)) as (s' & Hc & Hgone & _).
  - done.
  - done.
  - exact names_differ.
  - rewrite Hlen, <- Hnum, length_take. lia.
  - intros d Hd. destruct (Hin d Hd) as [[o Ho] _]. destruct (Hqs d o Ho) as (q & Hdq & _). by eexists.
  - rewrite Hlen, Hls. exact Hl.
  - exists s'. rewrite Hlen in Hgone. split; [|done]. by rewrite (bind_val _ _ _ _ _ Hc).
Qed.

(** multi_send_rev_2.c in the same way, with up to a hundred pairs on one queue: its at most
    five messages and those that all receivers got are the ones that were sent, each once;
    a schedule has at most twelve steps for each pair. *)
Theorem multi_send_rev_2_correct after s arg sched :
  MSG_SIZE ≤ Z.of_nat (length after) → qgood s → qlinks s !! Rev2.MQ_NAME = None → 0 < arg →
  let num := Z.to_nat (if Rev2.Max_Threads <? arg then Rev2.Max_Threads else arg) in
  ∃ mq s0, qapi_open Rev2.MQ_NAME creat_nonblock 511 (Some (zero_attr Rev2.MAX_MSG MSG_SIZE)) s = (Val mq, s0) ∧
    pairs_run Rev2.MAX_MSG (Rev2.message after) (Rev2.rev_step after num) (replicate num mq) s0 sched ∧
    if all_joined (run (Rev2.rev_step after num) sched (create_pairs (replicate num mq) s0)) then
      ∃ s', Rev2.main after 2 arg sched s = (Val (Some PTS_PASS), s') ∧ qlinks s' !! Rev2.MQ_NAME = None
    else (Rev2.main after 2 arg sched s).1 = Val None.
Proof.
  intros Haf Hg Hn Ha num.
  destruct (opens_one Rev2.MAX_MSG s ∅ Rev2.MQ_NAME) as (mq & o & s0 & Hr & _ & Hop & Hl);
    [by unfold Rev2.MAX_MSG|by apply opened_none|done|].
  destruct (pairs_run_ok Rev2.MAX_MSG (Rev2.message after) 1 (replicate num mq) s0 sched (<[mq := o]> ∅)) as [Hinv Hrun];
    [by unfold Rev2.MAX_MSG|intros; by apply sent_bytes_length|done| |].
  { intros d [-> _]%elem_of_replicate. exists o. by rewrite lookup_insert_eq. }
  rewrite length_replicate in Hinv, Hrun. exists mq, s0. split_and!; [done..|].
  assert (Rev2.main after 2 arg sched s =
    (if all_joined (run (Rev2.rev_step after num) sched (create_pairs (replicate num mq) s0))
     then ignore (qapi_close mq);; ignore (qapi_unlink Rev2.MQ_NAME);; mret (Some PTS_PASS) else mret None)
    (sys (run (Rev2.rev_step after num) sched (create_pairs (replicate num mq) s0)))) as ->.
  { unfold Rev2.main. rewrite (proj2 (Z.leb_gt arg 0)) by done. cbn [negb orb Z.eqb Pos.eqb]. fold num.
    by rewrite (bind_val _ _ _ _ _ (attempt_val _ _ _ _ Hr)). }
  set (st := run (Rev2.rev_step after num) sched _) in *.
  destruct (all_joined st); [|done].
  assert (mq_inv Rev2.MAX_MSG (Rev2.message after) (<[mq := o]> ∅) (qlinks s0) st) as [Hgs Hls Hqs _ _] by exact Hinv.
  destruct (Hqs mq o) as (q & Hdq & _); [by rewrite lookup_insert_eq|].
  destruct (closes (sys st) mq _ Hgs Hdq) as (s1 & R1 & G1 & D1 & L1).
  destruct (unlinks s1 Rev2.MQ_NAME o G1) as (s2 & R2 & G2 & D2 & L2); [by rewrite L1, Hls, Hl, lookup_insert_eq|].
  exists s2. rewrite (bind_val _ _ _ _ _ R1), (bind_val _ _ _ _ _ R2). split; [done|].
  by rewrite L2, lookup_delete_eq.
Qed.

End Theorems.

(** ** Witnesses *)

(** Every thread six times in turn. *)
Definition round_robin (num : nat) : list (nat * bool) := concat (replicate 6 ((λ t, (t, false)) <$> seq 0 (2 * num))).

Lemma multi_send_rev_1_correct_witness :
  let after := replicate 128 0 in let num := 2%nat in let sched := round_robin 2 in
  ∃ ds s0, Rev1.open_all (take num Rev1.MQ_NAME) pmq0 = (Val (Some ds), s0) ∧ length ds = num ∧ NoDup ds ∧
    pairs_run Rev1.MAX_MSG (Rev1.message after) (Rev1.rev_step after num) ds s0 sched ∧
    if all_joined (run (Rev1.rev_step after num) sched (create_pairs ds s0)) then
      ∃ s', Rev1.main after 2 2 sched pmq0 = (Val (Some PTS_PASS), s') ∧
        ∀ n, n ∈ take num Rev1.MQ_NAME → qlinks s' !! n = None
    else (Rev1.main after 2 2 sched pmq0).1 = Val None.
Proof.
  apply (multi_send_rev_1_correct (replicate 128 0) pmq0 2 (round_robin 2));
    [done|exact pmq0_good|intros n _; apply lookup_empty|done].
Defined.

Lemma multi_send_rev_2_correct_witness :
  let after := replicate 128 0 in let num := 3%nat in let sched := round_robin 3 in
  ∃ mq s0, qapi_open Rev2.MQ_NAME creat_nonblock 511 (Some (zero_attr Rev2.MAX_MSG MSG_SIZE)) pmq0 = (Val mq, s0) ∧
    pairs_run Rev2.MAX_MSG (Rev2.message after) (Rev2.rev_step after num) (replicate num mq) s0 sched ∧
    if all_joined (run (Rev2.rev_step after num) sched (create_pairs (replicate num mq) s0)) then
      ∃ s', Rev2.main after 2 3 sched pmq0 = (Val (Some PTS_PASS), s') ∧ qlinks s' !! Rev2.MQ_NAME = None
    else (Rev2.main after 2 3 sched pmq0).1 = Val None.
Proof.
  apply (multi_send_rev_2_correct (replicate 128 0) pmq0 3 (round_robin 3));
    [done|exact pmq0_good|apply lookup_empty|done].
Defined.

(** In turn, the pairs exchange all their messages. *)
Example rev_1_exchanges :
  let s := run (Rev1.rev_step (replicate 128 0) 2) (round_robin 2) in
  (λ '(r, s0), match r with
               | Val (Some ds) => (λ th, length (r_got th)) <$> recvs (s (create_pairs ds s0))
               | _ => []
               end) (Rev1.open_all (take 2 Rev1.MQ_NAME) pmq0) = [3%nat; 3%nat].
Proof. vm_compute. reflexivity. Qed.

(** When the receivers run first nobody receives anything, and the program passes. *)
Example rev_2_blind :
  let sched := ((λ t, (t, false)) <$> [2%nat; 3%nat]) ++ round_robin 2 in
  (Rev2.main (replicate 128 0) 2 2 sched pmq0).1 = Val (Some PTS_PASS) ∧
  match qapi_open Rev2.MQ_NAME creat_nonblock 511 (Some (zero_attr Rev2.MAX_MSG MSG_SIZE)) pmq0 with
  | (Val mq, s0) => r_got <$> recvs (run (Rev2.rev_step (replicate 128 0) 2) sched (create_pairs [mq; mq] s0)) = [[]; []]
  | _ => False
  end.
Proof. split; vm_compute; reflexivity. Qed.
