(* ===== verification/MqFunctional.v ===== *)
(** * Four threads on two message queues

    src/functional/mqueues/send_rev_2.c: two pairs of threads, each with a queue. The
    threads are those of MqStress, over any system with the interface MqApi. *)

From stdpp Require Import base tactics numbers list gmap strings.
From S2P Require Import Prelude SysVSem SysVMsg Mqueue MqueueThms Lts SemTests MqApi MqTests MqStress.

Open Scope Z_scope.

Module SendRev2.

Definition MQ_NAME_1 : string := "/testmsg1".
Definition MQ_NAME_2 : string := "/testmsg2".
Definition MSG_SIZE : Z := 128.
Definition MAX_MSG : Z := 3.
Definition s_msg_ptr : list string := ["msg test 1"; "msg test 2"; "msg test 3"]%string.

Section Program.
Context {St : Type} `{MqApi St} (after : list Z).

Definition message (i : Z) : list Z := sent_bytes after (nth (Z.to_nat i) s_msg_ptr ""%string).

(** [send_2] and [receive_2] are the same functions for the other queue. *)
Definition send_1 (fail : bool) (th : sender) (s : St) : option (sender * St) := send_round MAX_MSG message fail th s.
Definition receive_1 (fail : bool) (th : receiver) (s : St) : option (receiver * St) := receive_round MAX_MSG 1 fail th s.
Definition send_rev_step : nat → bool → mq_state St → option (mq_state St) := pair_step send_1 receive_1 2.

Definition main (sched : list (nat * bool)) : M St (option Z) :=
  let attr := Some (zero_attr MAX_MSG MSG_SIZE) in
  r1 ← attempt (qapi_open MQ_NAME_1 creat_nonblock 511 attr);
  match r1 with
  | inr _ => mret (Some PTS_UNRESOLVED)
  | inl mq1 =>
      r2 ← attempt (qapi_open MQ_NAME_2 creat_nonblock 511 attr);
      match r2 with
      | inr _ => mret (Some PTS_UNRESOLVED)
      | inl mq2 =>
          s ← gets (λ s, run send_rev_step sched (create_pairs [mq1; mq2] s));
          modify (λ _, sys s);;
          if all_joined s then
            ignore (qapi_close mq1);; ignore (qapi_close mq2);;
            ignore (qapi_unlink MQ_NAME_1);; ignore (qapi_unlink MQ_NAME_2);; mret (Some PTS_PASS)
          else mret None
      end
  end.

End Program.

Section Correct.
Context {St : Type} `{MqLaws St}.

(** send_rev_2.c, on every system with the laws of message queues, for every interleaving and
    every pattern of failing calls: the messages on a queue and those that its receiver
    got are the ones that its sender sent. No thread ever waits, a schedule has at most 16 steps,
    and when no step is left [main] reports PTS_PASS and leaves no queue, whatever the
    calls of the threads returned. *)
Theorem send_rev_2_correct after s sched :
  MSG_SIZE ≤ Z.of_nat (length after) → qgood s → qlinks s !! MQ_NAME_1 = None → qlinks s !! MQ_NAME_2 = None →
  ∃ mq1 mq2 s0, mq1 ≠ mq2 ∧
    pairs_run MAX_MSG (message after) (send_rev_step after) [mq1; mq2] s0 sched ∧
    if all_joined (run (send_rev_step after) sched (create_pairs [mq1; mq2] s0)) then
      ∃ s', main after sched s = (Val (Some PTS_PASS), s') ∧
        qlinks s' !! MQ_NAME_1 = None ∧ qlinks s' !! MQ_NAME_2 = None
    else (main after sched s).1 = Val None.
Proof.
  intros Haf Hg Hn1 Hn2.
  destruct (opens_one MAX_MSG s ∅ MQ_NAME_1) as (mq1 & o1 & s1 & R1 & _ & Op1 & L1);
    [by unfold MAX_MSG|by apply opened_none|done|].
  destruct (opens_one MAX_MSG s1 (<[mq1 := o1]> ∅) MQ_NAME_2) as (mq2 & o2 & s0 & R2 & New & Op2 & L2);
    [by unfold MAX_MSG|done|by rewrite L1, lookup_insert_ne|].
  assert (mq1 ≠ mq2) as Hne. { intros ->. by rewrite lookup_insert_eq in New. }
  destruct (pairs_run_ok MAX_MSG (message after) 1 [mq1; mq2] s0 sched (<[mq2 := o2]> (<[mq1 := o1]> ∅))) as [Hinv Hrun];
    [by unfold MAX_MSG|intros; by apply sent_bytes_length|done| |].
  { intros d [->|[->|[]%elem_of_nil]%elem_of_cons]%elem_of_cons; eexists;
      [by rewrite lookup_insert_ne, lookup_insert_eq by done|by rewrite lookup_insert_eq]. }
  exists mq1, mq2, s0. split_and!; [done..|].
  assert (main after sched s =
    (if all_joined (run (send_rev_step after) sched (create_pairs [mq1; mq2] s0))
     then ignore (qapi_close mq1);; ignore (qapi_close mq2);;
       ignore (qapi_unlink MQ_NAME_1);; ignore (qapi_unlink MQ_NAME_2);; mret (Some PTS_PASS) else mret None)
    (sys (run (send_rev_step after) sched (create_pairs [mq1; mq2] s0)))) as ->.
  { unfold main. rewrite (bind_val _ _ _ _ _ (attempt_val _ _ _ _ R1)). cbn iota.
    by rewrite (bind_val _ _ _ _ _ (attempt_val _ _ _ _ R2)). }
  set (st := run (send_rev_step after) sched _) in *. destruct (all_joined st); [|done].
  destruct Hinv as [Hgs Hls Hqs _ _]. change (run _ sched _) with st in Hgs, Hls, Hqs.
  destruct (Hqs mq1 o1) as (q1 & D1 & _); [by rewrite lookup_insert_ne, lookup_insert_eq by done|].
  destruct (Hqs mq2 o2) as (q2 & D2 & _); [by rewrite lookup_insert_eq|].
  destruct (closes (sys st) mq1 _ Hgs D1) as (t1 & C1 & G1 & E1 & K1).
  destruct (closes t1 mq2 (o2, true) G1) as (t2 & C2 & G2 & E2 & K2); [by rewrite E1, lookup_delete_ne|].
  assert (qlinks t2 = <[MQ_NAME_2 := o2]> (<[MQ_NAME_1 := o1]> (qlinks s))) as Hl by congruence.
  destruct (unlinks t2 MQ_NAME_1 o1 G2) as (t3 & C3 & G3 & E3 & K3); [by rewrite Hl, lookup_insert_ne, lookup_insert_eq|].
  destruct (unlinks t3 MQ_NAME_2 o2 G3) as (t4 & C4 & G4 & E4 & K4);
    [by rewrite K3, Hl, lookup_delete_ne, lookup_insert_eq|].
  exists t4. rewrite (bind_val _ _ _ _ _ C1), (bind_val _ _ _ _ _ C2), (bind_val _ _ _ _ _ C3), (bind_val _ _ _ _ _ C4).
  split; [done|]. rewrite K4, K3. split; [by rewrite lookup_delete_ne, lookup_delete_eq|by rewrite lookup_delete_eq].
Qed.

End Correct.

Lemma send_rev_2_correct_witness :
  let after := replicate 128 0 in let sched := round_robin 2 in
  ∃ mq1 mq2 s0, mq1 ≠ mq2 ∧
    pairs_run MAX_MSG (message after) (send_rev_step after) [mq1; mq2] s0 sched ∧
    if all_joined (run (send_rev_step after) sched (create_pairs [mq1; mq2] s0)) then
      ∃ s', main after sched pmq0 = (Val (Some PTS_PASS), s') ∧
        qlinks s' !! MQ_NAME_1 = None ∧ qlinks s' !! MQ_NAME_2 = None
    else (main after sched pmq0).1 = Val None.
Proof.
  apply (send_rev_2_correct (replicate 128 0) pmq0 (round_robin 2)); [done|exact pmq0_good|apply lookup_empty..].
Defined.

End SendRev2.
