(* ===== verification/SigApi.v ===== *)
(** * The signal interface of POSIX

    What the tests of src/conformance/interfaces/sigaction and of the other
    signal functions call: a class [SigSys] of operations on the state of the
    operating system for one process, and the part of the standard that the
    tests rely on as the class [SigLaws]. The laws are stated on a view of the
    state: the actions of the signals, the mask, the pending signals, the masks
    saved by the handlers that are running and the alternate stack. *)

From stdpp Require Import base tactics numbers list gmap strings fin_maps fin_sets.
From S2P Require Import Prelude.

Open Scope Z_scope.

(** ** Numbers of the platform

    The values of Linux's signal.h. *)

Definition SIGHUP : Z := 1.
Definition SIGINT : Z := 2.
Definition SIGQUIT : Z := 3.
Definition SIGILL : Z := 4.
Definition SIGTRAP : Z := 5.
Definition SIGABRT : Z := 6.
Definition SIGBUS : Z := 7.
Definition SIGFPE : Z := 8.
Definition SIGKILL : Z := 9.
Definition SIGUSR1 : Z := 10.
Definition SIGSEGV : Z := 11.
Definition SIGUSR2 : Z := 12.
Definition SIGPIPE : Z := 13.
Definition SIGALRM : Z := 14.
Definition SIGTERM : Z := 15.
Definition SIGCHLD : Z := 17.
Definition SIGCONT : Z := 18.
Definition SIGSTOP : Z := 19.
Definition SIGTSTP : Z := 20.
Definition SIGTTIN : Z := 21.
Definition SIGTTOU : Z := 22.
Definition SIGURG : Z := 23.
Definition SIGXCPU : Z := 24.
Definition SIGXFSZ : Z := 25.
Definition SIGVTALRM : Z := 26.
Definition SIGPROF : Z := 27.
Definition SIGPOLL : Z := 29.
Definition SIGSYS : Z := 31.
Definition SIGRTMAX : Z := 64.

Definition SA_NOCLDSTOP : Z := 1.
Definition SA_NOCLDWAIT : Z := 2.
Definition SA_SIGINFO : Z := 4.
Definition SA_ONSTACK : Z := 134217728.
Definition SA_RESTART : Z := 268435456.
Definition SA_NODEFER : Z := 1073741824.
Definition SA_RESETHAND : Z := 2147483648.

Definition SS_ONSTACK : Z := 1.
Definition SS_DISABLE : Z := 2.
Definition SIGSTKSZ : Z := 8192.

Inductive how : Set := SIG_BLOCK | SIG_UNBLOCK | SIG_SETMASK | BadHow.

(** ** Data *)

(** A function pointer is the name of the function. *)
Inductive disposition : Set :=
| SIG_DFL | SIG_IGN | SIG_ERR | SIG_HOLD | Fun (f : string).

#[global] Instance disposition_eq_dec : EqDecision disposition.
Proof. solve_decision. Defined.

Notation sigset := (gset Z).

(** [struct sigaction]; [sa_handler] and [sa_sigaction] share their place. *)
Record sigact : Type := SigAct {
  sa_handler : disposition; sa_mask : sigset; sa_flags : Z }.

#[global] Instance sigact_eq_dec : EqDecision sigact.
Proof. solve_decision. Defined.

Record siginfo : Type := SigInfo { si_signo : Z; si_value : Z }.

Record stack_t : Type := Stack { ss_sp : Z; ss_size : Z; ss_flags : Z }.

(** What a call leaves: the [int] it returns, [errno] when it sets it, and the
    contents of the variable that it was given the address of. *)
Record sysret (A : Type) : Type := SysRet { sr_ret : Z; sr_errno : option errno; sr_val : A }.
Arguments SysRet {A} sr_ret sr_errno sr_val.
Arguments sr_ret {A} _.
Arguments sr_errno {A} _.
Arguments sr_val {A} _.

Notation sys_ok v := (SysRet 0 None v).

(** What the system does to the process at the next point of delivery. *)
Inductive event : Type :=
| Nothing
| Discard (sig : Z)
| Run (f : string) (sig : Z) (info : siginfo)
| Terminate (sig : Z)
| Halt (sig : Z).

(** ** Operations *)

Class SigSys (St : Type) : Type := {
  (* the library: sets of signals, memory *)
  lib_sigemptyset : sigset → sysret sigset;
  lib_sigfillset : sigset → sysret sigset;
  lib_sigaddset : Z → sigset → sysret sigset;
  lib_sigdelset : Z → sigset → sysret sigset;
  lib_sigismember : Z → sigset → sysret unit;
  lib_malloc : Z → St → Z * St;
  lib_sysconf_rts : Z;
  (* the contents of a variable without initialiser *)
  junk_set : sigset;
  junk_act : sigact;
  (* the system: a null pointer is [None] *)
  sys_sigaction : Z → option sigact → St → sysret sigact * St;
  sys_signal : Z → disposition → St → sysret disposition * St;
  sys_sigprocmask : how → option sigset → St → sysret sigset * St;
  sys_sigpending : St → sysret sigset * St;
  sys_raise : Z → St → sysret unit * St;
  sys_sigaltstack : option stack_t → St → sysret stack_t * St;
  sys_fork : St → option St;
  sys_wait : Z → St → sysret Z * St;
  (* delivery, and the return from a handler *)
  sys_take : St → event * St;
  sys_sigreturn : St → St }.

(** ** The view of a state *)

Record sigview : Type := SigView {
  sv_acts : gmap Z sigact;
  sv_mask : sigset;
  sv_pend : sigset;
  sv_saved : list sigset;
  sv_alt : Z * Z }.

Definition unblockable : sigset := {[ SIGKILL; SIGSTOP ]}.
Definition stop_signals : sigset := {[ SIGSTOP; SIGTSTP; SIGTTIN; SIGTTOU ]}.

Definition valid_sig (sig : Z) : bool := (1 <=? sig) && (sig <=? SIGRTMAX).
Definition catchable (sig : Z) : bool := valid_sig sig && bool_decide (sig ∉ unblockable).

Definition default_act : sigact := SigAct SIG_DFL ∅ 0.

Definition act_of (v : sigview) (sig : Z) : sigact := default default_act (sv_acts v !! sig).

Inductive default_kind : Set := DTerm | DStop | DIgnore | DCont.

#[global] Instance default_kind_eq_dec : EqDecision default_kind.
Proof. solve_decision. Defined.

(** The default actions. *)
Definition default_kind_of (sig : Z) : default_kind :=
  if bool_decide (sig ∈ stop_signals) then DStop
  else if bool_decide (sig ∈ ({[ SIGCHLD; SIGURG ]} : sigset)) then DIgnore
  else if bool_decide (sig = SIGCONT) then DCont
  else DTerm.

(** A signal that is generated becomes pending, or is ignored. *)
Definition pends (a : sigact) (sig : Z) : bool :=
  match sa_handler a with
  | Fun _ => true
  | SIG_DFL => negb (bool_decide (default_kind_of sig = DIgnore))
  | _ => false
  end.
Definition ignores (a : sigact) (sig : Z) : bool :=
  match sa_handler a with
  | SIG_IGN => true
  | SIG_DFL => bool_decide (default_kind_of sig = DIgnore)
  | _ => false
  end.

(** The action in effect: a mask never has SIGKILL or SIGSTOP. *)
Definition norm_act (a : sigact) : sigact :=
  SigAct (sa_handler a) (sa_mask a ∖ unblockable) (sa_flags a).

(** An ignored signal is no longer pending. *)
Definition sv_install (sig : Z) (a : sigact) (v : sigview) : sigview :=
  SigView (<[sig := norm_act a]> (sv_acts v)) (sv_mask v)
    (if bool_decide (sa_handler a = SIG_IGN) then sv_pend v ∖ {[sig]} else sv_pend v)
    (sv_saved v) (sv_alt v).

(** SIGCONT and the signals that stop a process undo each other. *)
Definition undone_by (sig : Z) : sigset :=
  if bool_decide (sig = SIGCONT) then stop_signals
  else if bool_decide (sig ∈ stop_signals) then {[ SIGCONT ]} else ∅.

Definition sv_generate (sig : Z) (v : sigview) : sigview :=
  SigView (sv_acts v) (sv_mask v) ({[sig]} ∪ sv_pend v ∖ undone_by sig) (sv_saved v) (sv_alt v).

Definition sv_set_mask (m : sigset) (v : sigview) : sigview :=
  SigView (sv_acts v) (m ∖ unblockable) (sv_pend v) (sv_saved v) (sv_alt v).

Definition sv_set_pend (p : sigset) (v : sigview) : sigview :=
  SigView (sv_acts v) (sv_mask v) p (sv_saved v) (sv_alt v).

Definition new_mask (h : how) (m old : sigset) : option sigset :=
  match h with
  | SIG_BLOCK => Some (old ∪ m)
  | SIG_UNBLOCK => Some (old ∖ m)
  | SIG_SETMASK => Some m
  | BadHow => None
  end.

(** The mask while the handler of [sig] with the action [a] runs. *)
Definition handler_mask (sig : Z) (a : sigact) (m : sigset) : sigset :=
  (m ∪ sa_mask a ∪ (if has (sa_flags a) SA_NODEFER then ∅ else {[sig]})) ∖ unblockable.

(** Is the action reset when its handler is called? *)
Definition resets (sig : Z) (a : sigact) : bool :=
  has (sa_flags a) SA_RESETHAND && negb (sig =? SIGILL) && negb (sig =? SIGTRAP).

Definition sv_enter (sig : Z) (v : sigview) : sigview :=
  let a := act_of v sig in
  SigView (if resets sig a then <[sig := default_act]> (sv_acts v) else sv_acts v)
    (handler_mask sig a (sv_mask v)) (sv_pend v ∖ {[sig]})
    (sv_mask v :: sv_saved v) (sv_alt v).

Definition sv_leave (v : sigview) : sigview :=
  match sv_saved v with
  | m :: l => SigView (sv_acts v) m (sv_pend v) l (sv_alt v)
  | [] => v
  end.

Definition sv_set_alt (st : stack_t) (v : sigview) : sigview :=
  SigView (sv_acts v) (sv_mask v) (sv_pend v) (sv_saved v) (ss_sp st, ss_size st).

Definition sv_child (v : sigview) : sigview :=
  SigView (sv_acts v) (sv_mask v) ∅ (sv_saved v) (sv_alt v).

(** The signals that can be delivered. *)
Definition deliverable (v : sigview) : sigset := sv_pend v ∖ sv_mask v.

(** No mask has SIGKILL or SIGSTOP, and these two have the default action. *)
Definition sv_wf (v : sigview) : Prop :=
  sv_mask v ## unblockable ∧ Forall (λ m, m ## unblockable) (sv_saved v) ∧
  ∀ sig, sa_mask (act_of v sig) ## unblockable ∧
         (sig ∈ unblockable → act_of v sig = default_act).

(** ** The standard *)

(** A set is initialised by [sigemptyset] or [sigfillset]; only then may the other functions
    be applied to it. *)
Inductive initialised {St : Type} `{SigSys St} : sigset → Prop :=
| init_emptyset x : initialised (sr_val (lib_sigemptyset x))
| init_fillset x : initialised (sr_val (lib_sigfillset x))
| init_addset sig x : initialised x → initialised (sr_val (lib_sigaddset sig x))
| init_delset sig x : initialised x → initialised (sr_val (lib_sigdelset sig x)).

Class SigLaws (St : Type) `{SigSys St} : Type := {
  sig_good : St → Prop;
  view : St → sigview;
  emptyset_law : ∀ x, lib_sigemptyset x = sys_ok ∅;
  fillset_law : ∀ x, ∃ y, lib_sigfillset x = sys_ok y ∧ ∀ sig, valid_sig sig = true → sig ∈ y;
  addset_law : ∀ sig x, initialised x → valid_sig sig = true → lib_sigaddset sig x = sys_ok ({[sig]} ∪ x);
  delset_law : ∀ sig x, initialised x → valid_sig sig = true → lib_sigdelset sig x = sys_ok (x ∖ {[sig]});
  ismember_law : ∀ sig x, valid_sig sig = true →
    lib_sigismember sig x = SysRet (if bool_decide (sig ∈ x) then 1 else 0) None tt;
  rts_law : 0 ≤ lib_sysconf_rts;
  malloc_law : ∀ n s, sig_good s → 0 < n →
    ∃ p s', lib_malloc n s = (p, s') ∧ p ≠ 0 ∧ sig_good s' ∧ view s' = view s;
  good_wf : ∀ s, sig_good s → sv_wf (view s);
  (* a call of sigaction gives the old action and installs the new one *)
  sigaction_law : ∀ s sig a, sig_good s → catchable sig = true →
    ∃ old s', sys_sigaction sig (Some a) s = (sys_ok old, s') ∧ sig_good s' ∧
      norm_act old = act_of (view s) sig ∧ view s' = sv_install sig a (view s);
  sigaction_query : ∀ s sig, sig_good s → catchable sig = true →
    ∃ old s', sys_sigaction sig None s = (sys_ok old, s') ∧ sig_good s' ∧
      norm_act old = act_of (view s) sig ∧ view s' = view s;
  sigaction_invalid : ∀ s sig a, sig_good s → catchable sig = false →
    ∃ old s', sys_sigaction sig (Some a) s = (SysRet (-1) (Some EINVAL) old, s') ∧
      sig_good s' ∧ view s' = view s;
  (* signal may reset the action or not, block the signal or not *)
  signal_law : ∀ s sig d, sig_good s → catchable sig = true → d ≠ SIG_ERR → d ≠ SIG_HOLD →
    ∃ old m fl s', sys_signal sig d s = (sys_ok old, s') ∧ sig_good s' ∧
      old = sa_handler (act_of (view s) sig) ∧
      view s' = sv_install sig (SigAct d m fl) (view s);
  procmask_law : ∀ s h m m', sig_good s → new_mask h m (sv_mask (view s)) = Some m' →
    ∃ s', sys_sigprocmask h (Some m) s = (sys_ok (sv_mask (view s)), s') ∧ sig_good s' ∧
      view s' = sv_set_mask m' (view s);
  procmask_query : ∀ s h, sig_good s →
    ∃ s', sys_sigprocmask h None s = (sys_ok (sv_mask (view s)), s') ∧ sig_good s' ∧
      view s' = view s;
  procmask_bad : ∀ s m, sig_good s →
    ∃ old s', sys_sigprocmask BadHow (Some m) s = (SysRet (-1) (Some EINVAL) old, s') ∧
      sig_good s' ∧ view s' = view s;
  sigpending_law : ∀ s, sig_good s →
    ∃ s', sys_sigpending s = (sys_ok (sv_pend (view s) ∩ sv_mask (view s)), s') ∧
      sig_good s' ∧ view s' = view s;
  (* a signal that is not ignored is pending; an ignored one that is blocked
     may be pending or not *)
  raise_law : ∀ s sig, sig_good s → valid_sig sig = true →
    pends (act_of (view s) sig) sig = true →
    ∃ s', sys_raise sig s = (sys_ok tt, s') ∧ sig_good s' ∧ view s' = sv_generate sig (view s);
  raise_ignored : ∀ s sig, sig_good s → valid_sig sig = true →
    ignores (act_of (view s) sig) sig = true → sig ∉ sv_mask (view s) →
    ∃ s', sys_raise sig s = (sys_ok tt, s') ∧ sig_good s' ∧
      view s' = sv_set_pend (sv_pend (view s) ∖ undone_by sig) (view s);
  raise_invalid : ∀ s sig, sig_good s → valid_sig sig = false → sig ≠ 0 →
    ∃ s', sys_raise sig s = (SysRet (-1) (Some EINVAL) tt, s') ∧ sig_good s' ∧
      view s' = view s;
  (* outside of handlers a new alternate stack can be set *)
  altstack_law : ∀ s st, sig_good s → sv_saved (view s) = [] → ss_flags st = 0 →
    SIGSTKSZ ≤ ss_size st →
    ∃ old s', sys_sigaltstack (Some st) s = (sys_ok old, s') ∧ sig_good s' ∧
      view s' = sv_set_alt st (view s);
  altstack_query : ∀ s, sig_good s →
    ∃ old s', sys_sigaltstack None s = (sys_ok old, s') ∧ sig_good s' ∧
      (ss_sp old, ss_size old) = sv_alt (view s) ∧ view s' = view s;
  (* the child has the view of its parent, without pending signals *)
  fork_law : ∀ s, sig_good s →
    ∃ c, sys_fork s = Some c ∧ sig_good c ∧ view c = sv_child (view s);
  wait_child_law : ∀ s st, sig_good s →
    ∃ pid s', sys_wait st s = (SysRet pid None st, s') ∧ 0 < pid ∧ sig_good s' ∧
      view s' = view s;
  take_none : ∀ s, sig_good s → deliverable (view s) = ∅ →
    ∃ s', sys_take s = (Nothing, s') ∧ sig_good s' ∧ view s' = view s;
  (* one of the signals that can be delivered is *)
  take_some : ∀ s, sig_good s → deliverable (view s) ≠ ∅ →
    ∃ sig s', sig ∈ deliverable (view s) ∧ sig_good s' ∧
      match sa_handler (act_of (view s) sig) with
      | Fun f => ∃ info, sys_take s = (Run f sig info, s') ∧
          (has (sa_flags (act_of (view s) sig)) SA_SIGINFO = true → si_signo info = sig) ∧
          view s' = sv_enter sig (view s)
      | SIG_DFL =>
          match default_kind_of sig with
          | DTerm => sys_take s = (Terminate sig, s')
          | DStop => sys_take s = (Halt sig, s')
          (* a process that runs is not continued *)
          | DIgnore | DCont => sys_take s = (Discard sig, s') ∧
              view s' = sv_set_pend (sv_pend (view s) ∖ {[sig]}) (view s)
          end
      | _ => sys_take s = (Discard sig, s') ∧
              view s' = sv_set_pend (sv_pend (view s) ∖ {[sig]}) (view s)
      end;
  sigreturn_law : ∀ s, sig_good s → sv_saved (view s) ≠ [] →
    sig_good (sys_sigreturn s) ∧ view (sys_sigreturn s) = sv_leave (view s) }.
