(* ===== verification/SigProc.v ===== *)
(** * Processes that receive signals

    The C code of a test, as a process over any system of SigApi. A process
    has its part of the system, its global variables, [errno] and the status of
    the child it waits for; code in it returns, exits, is killed or stopped by
    a signal, or runs for ever. Signals are delivered when a system call
    returns: [deliver] runs the handlers of the signals that the system lets
    through, and a handler may make system calls itself. No other process sends
    signals. *)

From stdpp Require Import base tactics numbers list gmap strings.
From S2P Require Import Prelude SigApi.

Open Scope Z_scope.

Inductive outcome (A : Type) : Type :=
| Ret (a : A)
| Exit (code : Z)
| Killed (sig : Z)
| Stopped (sig : Z)
| Hang.
Arguments Ret {A} a.
Arguments Exit {A} code.
Arguments Killed {A} sig.
Arguments Stopped {A} sig.
Arguments Hang {A}.

#[global] Instance outcome_eq_dec {A} `{EqDecision A} : EqDecision (outcome A).
Proof. solve_decision. Defined.


(** ** Wait statuses

    The encoding of sys/wait.h on Linux. *)

Definition status_exited (code : Z) : Z := Z.shiftl (Z.land code 255) 8.
Definition status_killed (sig : Z) : Z := sig.
Definition status_stopped (sig : Z) : Z := Z.lor (Z.shiftl sig 8) 127.

Definition WTERMSIG (s : Z) : Z := Z.land s 127.
Definition WEXITSTATUS (s : Z) : Z := Z.shiftr (Z.land s 65280) 8.
Definition WIFEXITED (s : Z) : bool := WTERMSIG s =? 0.
Definition WIFSTOPPED (s : Z) : bool := Z.land s 255 =? 127.
Definition WIFSIGNALED (s : Z) : bool := negb (WIFEXITED s) && negb (WIFSTOPPED s).

(** The status of a process, once it has one. *)
Definition status_of (o : outcome Z) : option Z :=
  match o with
  | Ret code | Exit code => Some (status_exited code)
  | Killed sig => Some (status_killed sig)
  | Stopped sig => Some (status_stopped sig)
  | Hang => None
  end.

(** The exit code that the script running the tests sees. *)
Definition verdict (o : outcome Z) : option Z :=
  match o with Ret code | Exit code => Some (Z.land code 255) | _ => None end.

(** ** The process monad *)

Record proc (St V : Type) : Type := Proc {
  p_sys : St; p_vars : V; p_errno : option errno; p_child : option Z }.
Arguments Proc {St V} p_sys p_vars p_errno p_child.
Arguments p_sys {St V} _.
Arguments p_vars {St V} _.
Arguments p_errno {St V} _.
Arguments p_child {St V} _.

(** Code gets the way to deliver signals as its first argument. *)
Definition D (St V : Type) : Type := proc St V → outcome unit * proc St V.
Definition P (St V A : Type) : Type := D St V → proc St V → outcome A * proc St V.

(** What follows a piece of code, if it returns. *)
Definition and_then {S A B} (r : outcome A * S) (k : A → S → outcome B * S) : outcome B * S :=
  match r with
  | (Ret a, p) => k a p
  | (Exit code, p) => (Exit code, p)
  | (Killed sig, p) => (Killed sig, p)
  | (Stopped sig, p) => (Stopped sig, p)
  | (Hang, p) => (Hang, p)
  end.

#[global] Instance P_ret {St V} : MRet (P St V) := λ A a d p, (Ret a, p).
#[global] Instance P_bind {St V} : MBind (P St V) := λ A B f c d p,
  and_then (c d p) (λ a, f a d).

(** Handlers by their names. *)
Definition handlers (St V : Type) : Type := string → Z → siginfo → P St V unit.

Definition no_handlers {St V} : handlers St V := λ _ _ _, mret tt.

Section Process.
Context {St V : Type} `{SigSys St}.
Notation PM := (P St V).

Definition with_sys (s : St) (p : proc St V) : proc St V :=
  Proc s (p_vars p) (p_errno p) (p_child p).

(** [exit(code)]. *)
Definition exit {A} (code : Z) : PM A := λ _ p, (Exit code, p).

(** Global variables. *)
Definition var {A} (f : V → A) : PM A := λ _ p, (Ret (f (p_vars p)), p).
Definition set (f : V → V) : PM unit := λ _ p,
  (Ret tt, Proc (p_sys p) (f (p_vars p)) (p_errno p) (p_child p)).
Definition get_errno : PM (option errno) := λ _ p, (Ret (p_errno p), p).

(** Signals are delivered until the system has no more for the process. *)
Fixpoint deliver (fuel : nat) (h : handlers St V) : D St V := λ p,
  match fuel with
  | O => (Hang, p)
  | S fuel =>
      let '(e, s) := sys_take (p_sys p) in
      let p := with_sys s p in
      match e with
      | Nothing => (Ret tt, p)
      | Discard _ => deliver fuel h p
      | Terminate sig => (Killed sig, p)
      | Halt sig => (Stopped sig, p)
      | Run f sig info =>
          and_then (h f sig info (deliver fuel h) p)
            (λ _ p, deliver fuel h (with_sys (sys_sigreturn (p_sys p)) p))
      end
  end.

(** A call leaves [errno] unless it sets it. *)
Definition ret_of {A} (r : sysret A) (p : proc St V) : proc St V :=
  match sr_errno r with
  | None => p
  | Some e => Proc (p_sys p) (p_vars p) (Some e) (p_child p)
  end.

(** A library function without a system call. *)
Definition libcall {A} (r : sysret A) : PM (sysret A) := λ _ p, (Ret r, ret_of r p).

(** A system call, with the signals that are delivered when it returns. *)
Definition syscall {A} (f : St → sysret A * St) : PM (sysret A) := λ d p,
  let '(r, s) := f (p_sys p) in
  and_then (d (ret_of r (with_sys s p))) (λ _ p, (Ret r, p)).

Definition sigemptyset (x : sigset) : PM (sysret sigset) := libcall (lib_sigemptyset x).
Definition sigaddset (x : sigset) (sig : Z) : PM (sysret sigset) := libcall (lib_sigaddset sig x).
Definition sigismember (x : sigset) (sig : Z) : PM (sysret unit) :=
  libcall (lib_sigismember sig x).
Definition malloc (n : Z) : PM Z := λ _ p,
  let '(a, s) := lib_malloc n (p_sys p) in (Ret a, with_sys s p).

Definition sigaction (sig : Z) (act : option sigact) : PM (sysret sigact) :=
  syscall (sys_sigaction sig act).
Definition signal (sig : Z) (d : disposition) : PM (sysret disposition) :=
  syscall (sys_signal sig d).
Definition sigpending : PM (sysret sigset) := syscall sys_sigpending.
Definition sigaltstack (st : option stack_t) : PM (sysret stack_t) := syscall (sys_sigaltstack st).
Definition raise (sig : Z) : PM Z := r ← syscall (sys_raise sig); mret (sr_ret r).
Definition sched_yield : PM unit := syscall (λ s, (sys_ok tt, s));; mret tt.

(** [while (cond) body] *)
Fixpoint while (fuel : nat) (cond : PM bool) (body : PM unit) : PM unit :=
  match fuel with
  | O => λ _ p, (Hang, p)
  | S fuel => b ← cond; if b : bool then body;; while fuel cond body else mret tt
  end.

(** [if (fork() == 0) child else parent]: the parent only waits for the child,
    so that the child can run first. The child has a copy of the variables;
    [return] in it ends it. *)
Definition fork_else (child parent : PM Z) : PM Z := λ d p,
  match sys_fork (p_sys p) with
  | None => parent d p
  | Some c =>
      match status_of (fst (child d (with_sys c p))) with
      | None => (Hang, p)
      | Some st => parent d (Proc (p_sys p) (p_vars p) (p_errno p) (Some st))
      end
  end.

(** [wait(&s)], and [waitpid(pid, &s, WUNTRACED)] for [untraced], which is told
    of a stopped child and leaves it. *)
Definition wait (untraced : bool) : PM (sysret Z) := λ d p,
  match p_child p with
  | None => (Ret (SysRet (-1) (Some ECHILD) 0), ret_of (SysRet (-1) (Some ECHILD) 0) p)
  | Some st =>
      if WIFSTOPPED st then
        if untraced then syscall (sys_wait st) d p else (Hang, p)
      else syscall (sys_wait st) d (Proc (p_sys p) (p_vars p) (p_errno p) None)
  end.

(** [kill(pid, SIGKILL)] for the child. *)
Definition kill_child : PM unit := λ _ p,
  (Ret tt, Proc (p_sys p) (p_vars p) (p_errno p)
     (match p_child p with Some _ => Some (status_killed SIGKILL) | None => None end)).

(** The process starts in [main] with the variables [v]. *)
Definition run_main (fuel : nat) (h : handlers St V) (v : V) (main : PM Z) (s : St) : outcome Z :=
  fst (main (deliver fuel h) (Proc s v None None)).

End Process.

#[global] Arguments deliver : simpl never.
