(* ===== verification/SigKernel.v ===== *)
(** * A system with signals

    An executable system of SigApi. [quirks] are the ways in which it can
    differ from the standard; without quirks it meets the laws. The tests of
    the suite are run on the systems with quirks to see which of them they
    detect. *)

From stdpp Require Import base tactics numbers list gmap strings fin_maps fin_sets.
From S2P Require Import Prelude SigApi.

Open Scope Z_scope.

Record quirks : Set := Quirks {
  (* the signal is not blocked while its handler runs *)
  q_no_block : bool;
  (* SA_NODEFER has no effect *)
  q_no_nodefer : bool;
  (* the handler never runs on the alternate stack *)
  q_no_onstack : bool;
  (* a mask can have SIGKILL and SIGSTOP *)
  q_block_kill : bool;
  (* [sa_mask] has no effect *)
  q_no_sa_mask : bool;
  (* [sigaction] returns 0 and does nothing *)
  q_no_action : bool;
  (* [sigaction] without a new action restores the default *)
  q_null_resets : bool;
  (* the old action is not given back *)
  q_no_oact : bool;
  (* a signal that is generated while it is blocked is lost *)
  q_lose_blocked : bool;
  (* [raise] returns 0 and does nothing *)
  q_no_raise : bool }.

Definition no_quirks : quirks :=
  Quirks false false false false false false false false false false.

Definition no_block : quirks := Quirks true false false false false false false false false false.
Definition no_nodefer : quirks := Quirks false true false false false false false false false false.
Definition no_onstack : quirks := Quirks false false true false false false false false false false.
Definition block_kill : quirks := Quirks false false false true false false false false false false.
Definition no_sa_mask : quirks := Quirks false false false false true false false false false false.
Definition no_action : quirks := Quirks false false false false false true false false false false.
Definition null_resets : quirks := Quirks false false false false false false true false false false.
Definition no_oact : quirks := Quirks false false false false false false false true false false.
Definition lose_blocked : quirks := Quirks false false false false false false false false true false.
Definition no_raise : quirks := Quirks false false false false false false false false false true.

(** The system of one process: the view, for each running handler whether it
    is on the alternate stack, and the next free address. *)
Record kern (q : quirks) : Type := Kern {
  k_view : sigview; k_onstack : list bool; k_brk : Z }.
Arguments Kern {q} k_view k_onstack k_brk.
Arguments k_view {q} _.
Arguments k_onstack {q} _.
Arguments k_brk {q} _.

Definition view0 : sigview := SigView ∅ ∅ ∅ [] (0, 0).
Definition kern0 (q : quirks) : kern q := Kern view0 [] 4096.

Section Kernel.
Context (q : quirks).
Implicit Types k : kern q.

Definition k_set (v : sigview) k : kern q := Kern v (k_onstack k) (k_brk k).

Definition k_install (sig : Z) (a : sigact) k : kern q :=
  if q_no_action q then k
  else if q_block_kill q then
    let v := k_view k in
    k_set (SigView (<[sig := a]> (sv_acts v)) (sv_mask v) (sv_pend v) (sv_saved v) (sv_alt v)) k
  else k_set (sv_install sig a (k_view k)) k.

Definition k_old (sig : Z) k : sigact :=
  if q_no_oact q then default_act else act_of (k_view k) sig.

Definition k_sigaction (sig : Z) (act : option sigact) k : sysret sigact * kern q :=
  if negb (catchable sig) then (SysRet (-1) (Some EINVAL) default_act, k)
  else (sys_ok (k_old sig k),
        match act with
        | Some a => k_install sig a k
        | None => if q_null_resets q then k_install sig default_act k else k
        end).

Definition k_signal (sig : Z) (d : disposition) k : sysret disposition * kern q :=
  if negb (catchable sig) then (SysRet (-1) (Some EINVAL) SIG_ERR, k)
  else (sys_ok (sa_handler (act_of (k_view k) sig)), k_install sig (SigAct d ∅ SA_RESTART) k).

Definition k_sigprocmask (h : how) (m : option sigset) k : sysret sigset * kern q :=
  let old := sv_mask (k_view k) in
  match m with
  | None => (sys_ok old, k)
  | Some m =>
      match new_mask h m old with
      | Some m' => (sys_ok old, k_set (sv_set_mask m' (k_view k)) k)
      | None => (SysRet (-1) (Some EINVAL) old, k)
      end
  end.

Definition k_sigpending k : sysret sigset * kern q :=
  (sys_ok (sv_pend (k_view k) ∩ sv_mask (k_view k)), k).

Definition k_raise (sig : Z) k : sysret unit * kern q :=
  let v := k_view k in
  if negb (valid_sig sig) then (SysRet (-1) (Some EINVAL) tt, k)
  else if q_no_raise q || (q_lose_blocked q && bool_decide (sig ∈ sv_mask v)) then (sys_ok tt, k)
  else if ignores (act_of v sig) sig && bool_decide (sig ∉ sv_mask v) then
    (sys_ok tt, k_set (sv_set_pend (sv_pend v ∖ undone_by sig) v) k)
  else (sys_ok tt, k_set (sv_generate sig v) k).

Definition on_altstack k : bool := existsb id (k_onstack k).

Definition k_sigaltstack (st : option stack_t) k : sysret stack_t * kern q :=
  let '(sp, size) := sv_alt (k_view k) in
  let old := Stack sp size (if on_altstack k then SS_ONSTACK
                            else if sp =? 0 then SS_DISABLE else 0) in
  match st with
  | None => (sys_ok old, k)
  | Some st =>
      if on_altstack k then (SysRet (-1) (Some EPERM) old, k)
      else if ss_size st <? 2048 then (SysRet (-1) (Some ENOMEM) old, k)
      else (sys_ok old, k_set (sv_set_alt st (k_view k)) k)
  end.

Definition k_handler_mask (sig : Z) (a : sigact) (m : sigset) : sigset :=
  let more := if q_no_sa_mask q then ∅ else sa_mask a in
  let own := if q_no_block q then ∅
             else if has (sa_flags a) SA_NODEFER then (if q_no_nodefer q then {[sig]} else ∅)
             else {[sig]} in
  (m ∪ more ∪ own) ∖ (if q_block_kill q then ∅ else unblockable).

Definition k_enter (sig : Z) k : kern q :=
  let v := k_view k in
  let a := act_of v sig in
  let v' := sv_enter sig v in
  Kern (SigView (sv_acts v') (k_handler_mask sig a (sv_mask v)) (sv_pend v') (sv_saved v')
          (sv_alt v'))
    ((has (sa_flags a) SA_ONSTACK && negb ((sv_alt v).1 =? 0) && negb (q_no_onstack q))
       :: k_onstack k) (k_brk k).

Definition k_discard (sig : Z) k : kern q :=
  k_set (sv_set_pend (sv_pend (k_view k) ∖ {[sig]}) (k_view k)) k.

(** The deliverable signal that comes first. *)
Definition k_take k : event * kern q :=
  match elements (deliverable (k_view k)) with
  | [] => (Nothing, k)
  | sig :: _ =>
      match sa_handler (act_of (k_view k) sig) with
      | Fun f => (Run f sig (SigInfo sig 0), k_enter sig k)
      | SIG_DFL =>
          match default_kind_of sig with
          | DTerm => (Terminate sig, k)
          | DStop => (Halt sig, k)
          | DIgnore | DCont => (Discard sig, k_discard sig k)
          end
      | _ => (Discard sig, k_discard sig k)
      end
  end.

Definition k_sigreturn k : kern q := Kern (sv_leave (k_view k)) (tail (k_onstack k)) (k_brk k).

End Kernel.

Definition all_signals : sigset := list_to_set (seqZ 1 64).

Definition set_op (sig : Z) (f : sigset → sigset) (x : sigset) : sysret sigset :=
  if valid_sig sig then sys_ok (f x) else SysRet (-1) (Some EINVAL) x.

#[global] Instance kern_sys (q : quirks) : SigSys (kern q) := {|
  lib_sigemptyset _ := sys_ok ∅;
  lib_sigfillset _ := sys_ok all_signals;
  lib_sigaddset sig := set_op sig (λ x, {[sig]} ∪ x);
  lib_sigdelset sig := set_op sig (λ x, x ∖ {[sig]});
  lib_sigismember sig x :=
    if valid_sig sig then SysRet (if bool_decide (sig ∈ x) then 1 else 0) None tt
    else SysRet (-1) (Some EINVAL) tt;
  lib_malloc n k := (k_brk k, Kern (k_view k) (k_onstack k) (k_brk k + Z.max n 1));
  lib_sysconf_rts := 200112;
  junk_set := {[ 3; SIGUSR1 ]};
  junk_act := SigAct SIG_IGN {[ 5 ]} 7;
  sys_sigaction := k_sigaction q;
  sys_signal := k_signal q;
  sys_sigprocmask := k_sigprocmask q;
  sys_sigpending := k_sigpending q;
  sys_raise := k_raise q;
  sys_sigaltstack := k_sigaltstack q;
  sys_fork k := Some (Kern (sv_child (k_view k)) (k_onstack k) (k_brk k));
  sys_wait st k := (SysRet 1000 None st, k);
  sys_take := k_take q;
  sys_sigreturn := k_sigreturn q |}.

(** ** The system without quirks meets the laws *)

Lemma catchable_valid sig : catchable sig = true → valid_sig sig = true ∧ sig ∉ unblockable.
Proof. unfold catchable. intros [? ?%bool_decide_eq_true]%andb_prop. done. Qed.

Lemma act_of_insert v sig sig' a f :
  sv_acts f = <[sig := a]> (sv_acts v) →
  act_of f sig' = if decide (sig = sig') then a else act_of v sig'.
Proof.
  intros Hf. unfold act_of. rewrite Hf. case_decide as Hs.
  - subst. by rewrite lookup_insert_eq.
  - by rewrite lookup_insert_ne.
Qed.

Lemma wf_install v sig a : sig ∉ unblockable → sv_wf v → sv_wf (sv_install sig a v).
Proof.
  intros Hs (Hm & Hl & Ha). split_and!; [done..|]. intros sig'.
  erewrite act_of_insert by reflexivity. case_decide; [|apply Ha]. subst.
  split; [simpl; set_solver|done].
Qed.

Lemma wf_set_mask v m : sv_wf v → sv_wf (sv_set_mask m v).
Proof. intros (Hm & Hl & Ha). split_and!; [simpl; set_solver|done|done]. Qed.

Lemma wf_enter v sig : sv_wf v → sv_wf (sv_enter sig v).
Proof.
  intros (Hm & Hl & Ha). split_and!; [simpl; unfold handler_mask; set_solver|..].
  { by constructor. }
  intros sig'. unfold sv_enter. destruct (resets _ _) eqn:E; [|apply Ha].
  erewrite act_of_insert by reflexivity. case_decide; [|apply Ha]. simpl. split; [set_solver|done].
Qed.

Lemma wf_leave v : sv_wf v → sv_wf (sv_leave v).
Proof.
  intros (Hm & Hl & Ha). unfold sv_leave. destruct (sv_saved v) as [|m l] eqn:E.
  - split_and!; [done|by rewrite E|done].
  - inversion Hl; subst. by split_and!.
Qed.

Lemma wf_view0 : sv_wf view0.
Proof. split_and!; [set_solver|constructor|intros sig; cbn; split; [set_solver|done]]. Qed.

#[export] Hint Resolve wf_install wf_set_mask wf_enter wf_leave wf_view0 : pts.

Lemma norm_act_of v sig : sv_wf v → norm_act (act_of v sig) = act_of v sig.
Proof.
  intros (_ & _ & Ha). destruct (Ha sig) as [Hm _]. revert Hm.
  destruct (act_of v sig) as [h m fl]. unfold norm_act; simpl. intros Hm. f_equal. set_solver.
Qed.

Lemma pends_ignores a sig : pends a sig = true → ignores a sig = false.
Proof. unfold pends, ignores. destruct (sa_handler a); try done. by case_bool_decide. Qed.

(** Every running handler has its stack recorded. *)
Definition k_good (k : kern no_quirks) : Prop :=
  sv_wf (k_view k) ∧ length (k_onstack k) = length (sv_saved (k_view k)) ∧ 0 < k_brk k.

(** A call that only changes the view and keeps the handlers that run. *)
Lemma good_set (k : kern no_quirks) v :
  k_good k → sv_wf v → length (sv_saved v) = length (sv_saved (k_view k)) →
  k_good (k_set no_quirks v k).
Proof. intros (_ & Hl & Hb) Hv Hs. split_and!; simpl; [done|by rewrite Hs|done]. Qed.

Lemma good0 : k_good (kern0 no_quirks).
Proof. split_and!; [apply wf_view0|done|simpl; lia]. Qed.

Lemma k_take_some (k : kern no_quirks) sig l :
  elements (deliverable (k_view k)) = sig :: l → sig ∈ deliverable (k_view k).
Proof. intros E. apply elem_of_elements. rewrite E. by left. Qed.

#[global] Instance kern_laws : SigLaws (kern no_quirks).
Proof.
  refine {| sig_good := k_good; view := k_view |}; simpl.
  - done.
  - intros _. exists all_signals. split; [done|]. unfold valid_sig, SIGRTMAX. intros sig Hs.
    apply elem_of_list_to_set, elem_of_seqZ. apply andb_prop in Hs. lia.
  - intros sig x _ Hs. unfold set_op. by rewrite Hs.
  - intros sig x _ Hs. unfold set_op. by rewrite Hs.
  - intros sig x Hs. by rewrite Hs.
  - lia.
  - intros n k (Hw & Hl & Hb) Hn. do 2 eexists. split; [done|].
    split; [lia|]. split; [|done]. split; [done|]. split; [done|]. cbn [k_brk]. lia.
  - by intros k (? & _).
  - intros k sig a Hg Hs. unfold k_sigaction. rewrite Hs. do 2 eexists. split; [done|].
    apply catchable_valid in Hs as [_ Hs].
    split_and!; [apply good_set; [done|apply wf_install; [done|apply Hg]|done]|
                 apply norm_act_of, Hg|done].
  - intros k sig Hg Hs. unfold k_sigaction. rewrite Hs. do 2 eexists. split; [done|].
    split_and!; [done|apply norm_act_of, Hg|done].
  - intros k sig a Hg Hs. unfold k_sigaction. rewrite Hs. by do 2 eexists.
  - intros k sig d Hg Hs _ _. unfold k_signal. rewrite Hs. exists (sa_handler (act_of (k_view k) sig)), ∅, SA_RESTART.
    eexists. split; [done|]. apply catchable_valid in Hs as [_ Hs].
    split_and!; [apply good_set; [done|apply wf_install; [done|apply Hg]|done]|done..].
  - intros k h m m' Hg Hm. unfold k_sigprocmask. rewrite Hm. eexists. split; [done|].
    split; [|done]. apply good_set; [done|apply wf_set_mask, Hg|done].
  - intros k h Hg. by eexists.
  - intros k m Hg. by do 2 eexists.
  - intros k Hg. by eexists.
  - intros k sig Hg Hv Hi. unfold k_raise. rewrite Hv. simpl. rewrite (pends_ignores _ _ Hi). simpl.
    eexists. split; [done|]. split; [|done]. by apply good_set; [|apply Hg|].
  - intros k sig Hg Hv Hi Hm. unfold k_raise. rewrite Hv. simpl.
    rewrite Hi, bool_decide_true by done.
    eexists. split; [done|]. split; [|done]. by apply good_set; [|apply Hg|].
  - intros k sig Hg Hv _. unfold k_raise. rewrite Hv. by eexists.
  - intros k st (Hw & Hl & Hb) Hs Hf Hz. unfold k_sigaltstack, on_altstack.
    destruct (sv_alt (k_view k)) as [sp size]. rewrite Hs in Hl. destruct (k_onstack k) eqn:E; [|done].
    simpl. unfold SIGSTKSZ in Hz. rewrite (proj2 (Z.ltb_ge _ _)) by lia. do 2 eexists. split; [done|].
    split; [|done]. by apply good_set; [split_and!; rewrite ?E, ?Hs| |].
  - intros k Hg. unfold k_sigaltstack. destruct (sv_alt (k_view k)) as [sp size].
    by do 2 eexists.
  - intros k (Hw & Hl & Hb). eexists. split; [done|]. by split_and!.
  - intros k st Hg. do 2 eexists. split; [done|]. done.
  - intros k Hg Hd. unfold k_take. rewrite Hd, elements_empty. by eexists.
  - intros k Hg Hd. unfold k_take. destruct (elements (deliverable (k_view k))) as [|sig l] eqn:E.
    { apply elements_empty_inv in E. by apply leibniz_equiv in E. }
    pose proof (k_take_some k sig l E) as Hin. exists sig.
    assert (k_good (k_discard no_quirks sig k)) as Hdis by (by apply good_set; [|apply Hg|]).
    destruct (sa_handler (act_of (k_view k) sig)) as [| | | |f] eqn:Eh.
    + destruct (default_kind_of sig); eexists; split; [done| |done| |done| |done|].
      all: split; [|done]; done.
    + eexists. split; [done|]. by split.
    + eexists. split; [done|]. by split.
    + eexists. split; [done|]. by split.
    + exists (k_enter no_quirks sig k). split; [done|]. split; [|by exists (SigInfo sig 0)].
      destruct Hg as (Hw & Hl & Hb). split; [exact (wf_enter _ sig Hw)|].
      split; [simpl; by rewrite Hl|done].
  - intros k (Hw & Hl & Hb) Hs. split; [|done]. split_and!; [by apply wf_leave| |done].
    simpl. unfold sv_leave. destruct (sv_saved (k_view k)) as [|m ms]; [done|].
    destruct (k_onstack k); [done|]. simpl in *. lia.
Defined.
