(* ===== verification/SigRules.v ===== *)
(** * Rules for processes on a system with the laws

    [runs r o Q]: the code with the result [r] ends with the outcome [o] in a
    process with [Q]. [at_view v x c] are the processes whose system has the
    view [v], with the variables [x] and the child [c]. One rule for each call
    says how the view changes; [deliver_quiet] and [deliver_one] say which
    handlers run. *)

From stdpp Require Import base tactics numbers list gmap strings fin_maps fin_sets.
From S2P Require Import Prelude SigApi SigProc SigKernel.

Open Scope Z_scope.

(** ** Views *)

(** No signal can be delivered. *)
Notation quiet v := (deliverable v = ∅).

(** The view when the handler of a signal [sig] that was generated in [v] has
    returned. *)
Definition sv_done (sig : Z) (v : sigview) : sigview := sv_leave (sv_enter sig (sv_generate sig v)).

Lemma generate_one v sig :
  quiet v → sig ∉ sv_mask v → deliverable (sv_generate sig v) = {[sig]}.
Proof. unfold deliverable, sv_generate. simpl. intros. apply leibniz_equiv. set_solver. Qed.

Lemma generate_blocked v sig :
  quiet v → sig ∈ sv_mask v → quiet (sv_generate sig v).
Proof. unfold deliverable, sv_generate. simpl. intros. apply leibniz_equiv. set_solver. Qed.

Lemma done_quiet v sig : quiet v → quiet (sv_done sig v).
Proof.
  unfold deliverable, sv_done, sv_leave, sv_enter, sv_generate. simpl.
  intros. apply leibniz_equiv. set_solver.
Qed.

Lemma install_quiet v sig a : quiet v → quiet (sv_install sig a v).
Proof.
  unfold deliverable, sv_install. simpl. intros Hq. apply leibniz_equiv.
  case_bool_decide; set_solver.
Qed.

(** In the handler nothing is deliverable that was not before. *)
Lemma enter_quiet v sig : deliverable v = {[sig]} → sv_wf v → SIGKILL ∉ sv_pend v →
  SIGSTOP ∉ sv_pend v → quiet (sv_enter sig v).
Proof.
  unfold deliverable, sv_enter, handler_mask. simpl. intros Hd Hw Hk Hs. apply leibniz_equiv.
  intros x. split; [|set_solver]. intros (Hx & Hm)%elem_of_difference.
  assert (x ∉ unblockable) by (unfold unblockable; set_solver). set_solver.
Qed.

Lemma act_install v sig a : act_of (sv_install sig a v) sig = norm_act a.
Proof. erewrite act_of_insert by reflexivity. by rewrite decide_True. Qed.

Lemma act_install_ne v sig sig' a : sig ≠ sig' →
  act_of (sv_install sig a v) sig' = act_of v sig'.
Proof. intros. erewrite act_of_insert by reflexivity. by rewrite decide_False. Qed.

(** A blocked signal other than SIGKILL and SIGSTOP is not in [unblockable]. *)
Lemma quiet_pend v : sv_wf v → quiet v → SIGKILL ∉ sv_pend v ∧ SIGSTOP ∉ sv_pend v.
Proof.
  intros (Hm & _) Hq. unfold deliverable in Hq.
  assert (SIGKILL ∉ sv_mask v ∧ SIGSTOP ∉ sv_mask v) by (unfold unblockable in Hm; set_solver).
  split; intros ?; set_solver.
Qed.

Lemma pends_fun a sig f : sa_handler a = Fun f → pends a sig = true.
Proof. unfold pends. by intros ->. Qed.

Lemma unblockable_pends sig : sig ∈ unblockable → pends default_act sig = true.
Proof.
  unfold unblockable. by intros [->%elem_of_singleton| ->%elem_of_singleton]%elem_of_union.
Qed.

Lemma set_alt_install v st sig a :
  sv_set_alt st (sv_install sig a v) = sv_install sig a (sv_set_alt st v).
Proof. done. Qed.

Lemma act_generate v sig sig' : act_of (sv_generate sig v) sig' = act_of v sig'.
Proof. done. Qed.

Lemma act_enter v sig sig' : resets sig (act_of v sig) = false →
  act_of (sv_enter sig v) sig' = act_of v sig'.
Proof. intros Hr. unfold act_of at 1, sv_enter. simpl. by rewrite Hr. Qed.

(** While the handler of [sig] runs, [sig] and the signals of its mask are
    blocked, the others as before. *)
Lemma enter_blocks v sig sig' :
  sig' ∉ unblockable → sig' ∈ sa_mask (act_of v sig) ∨
    sig' = sig ∧ has (sa_flags (act_of v sig)) SA_NODEFER = false →
  sig' ∈ sv_mask (sv_enter sig v).
Proof.
  intros Hu Hs. simpl. unfold handler_mask. apply elem_of_difference. split; [|done].
  destruct Hs as [?|[-> ->]]; set_solver.
Qed.

Lemma enter_unblocked v sig sig' :
  sig' ∉ sv_mask v → sig' ∉ sa_mask (act_of v sig) →
  has (sa_flags (act_of v sig)) SA_NODEFER = true →
  sig' ∉ sv_mask (sv_enter sig v).
Proof. intros Hm Ha Hf. simpl. unfold handler_mask. rewrite Hf. set_solver. Qed.

(** The view when the handler of [sig] has returned that raised [sig2]. *)
Lemma leave_one v sig sig2 :
  quiet v → sig ∉ sv_mask v → sig2 ∉ sv_mask v →
  deliverable (sv_leave (sv_generate sig2 (sv_enter sig (sv_generate sig v)))) = {[sig2]}.
Proof. unfold deliverable. simpl. intros. apply leibniz_equiv. set_solver. Qed.

Lemma leave_quiet v sig : deliverable v = {[sig]} →
  quiet (sv_leave (sv_enter sig v)).
Proof. unfold deliverable. simpl. intros Hd. apply leibniz_equiv. set_solver. Qed.

(** ** Outcomes *)

Definition runs {A S} (r : outcome A * S) (o : outcome A) (Q : S → Prop) : Prop :=
  ∃ p, r = (o, p) ∧ Q p.

Lemma runs_then {A B S} (r : outcome A * S) (k : A → S → outcome B * S) a o I Q :
  runs r (Ret a) I → (∀ p, I p → runs (k a p) o Q) → runs (and_then r k) o Q.
Proof. intros (p & -> & Hi) Hk. by apply Hk. Qed.

Lemma runs_bind {St V A B} (c : P St V A) (f : A → P St V B) d p a o I Q :
  runs (c d p) (Ret a) I → (∀ p', I p' → runs (f a d p') o Q) → runs ((c ≫= f) d p) o Q.
Proof. exact (runs_then (c d p) (λ a, f a d) a o I Q). Qed.

(** The same for a result [g b] of which [R b] is known. *)
Lemma runs_bind_some {St V A B C} (c : P St V A) (f : A → P St V B) (g : C → A) (R : C → Prop)
    d p o I Q :
  (∃ b, R b ∧ runs (c d p) (Ret (g b)) I) →
  (∀ b p', R b → I p' → runs (f (g b) d p') o Q) → runs ((c ≫= f) d p) o Q.
Proof. intros (b & Hb & Hr) Hk. eapply runs_bind; [exact Hr|]. eauto. Qed.

Lemma runs_ret {St V A} (a : A) (d : D St V) p (Q : proc St V → Prop) :
  Q p → runs ((mret a : P St V A) d p) (Ret a) Q.
Proof. intros. by exists p. Qed.

Lemma runs_exit {St V A} `{SigSys St} code (d : D St V) p (Q : proc St V → Prop) :
  Q p → runs (exit (A := A) code d p) (Exit code) Q.
Proof. intros. by exists p. Qed.

Lemma runs_weaken {A S} (r : outcome A * S) o (Q Q' : S → Prop) :
  runs r o Q → (∀ p, Q p → Q' p) → runs r o Q'.
Proof. intros (p & -> & Hq) HQ. exists p. auto. Qed.

(** A piece of code that does not return ends what it is part of. *)
Definition lift {A B} (o : outcome A) : outcome B :=
  match o with
  | Ret _ | Hang => Hang
  | Exit code => Exit code
  | Killed sig => Killed sig
  | Stopped sig => Stopped sig
  end.

Definition returns {A} (o : outcome A) : bool := match o with Ret _ => true | _ => false end.

Lemma runs_ends {A B S} (r : outcome A * S) (k : A → S → outcome B * S) o Q :
  returns o = false → runs r o Q → runs (and_then r k) (lift o) Q.
Proof. intros Ho (p & -> & Hq). exists p. by destruct o. Qed.

Lemma runs_bind_ends {St V A B} (c : P St V A) (f : A → P St V B) d p o Q :
  returns o = false → runs (c d p) o Q → runs ((c ≫= f) d p) (lift o) Q.
Proof. exact (runs_ends (c d p) (λ a, f a d) o Q). Qed.

(** ** Initialised sets *)

Create HintDb sets.

Section Sets.
Context {St : Type} `{SigLaws St}.

Lemma init_empty : initialised (∅ : sigset).
Proof. pose proof (init_emptyset ∅) as Hi. by rewrite emptyset_law in Hi. Qed.
Lemma init_add sig (x : sigset) : initialised x → valid_sig sig = true → initialised ({[sig]} ∪ x).
Proof. intros Hx Hs. pose proof (init_addset sig x Hx) as Hi. by rewrite addset_law in Hi. Qed.
Lemma init_del sig (x : sigset) : initialised x → valid_sig sig = true → initialised (x ∖ {[sig]}).
Proof. intros Hx Hs. pose proof (init_delset sig x Hx) as Hi. by rewrite delset_law in Hi. Qed.
Lemma init_filled x y : lib_sigfillset x = sys_ok y → initialised y.
Proof. intros Hx. pose proof (init_fillset x) as Hi. by rewrite Hx in Hi. Qed.

End Sets.

#[export] Hint Resolve init_empty init_add init_del : sets.

Section Rules.
Context {St V : Type} `{SigLaws St}.
Implicit Types (p : proc St V) (v : sigview) (x : V) (h : handlers St V).

Definition at_view v x (c : option Z) p : Prop :=
  sig_good (p_sys p) ∧ view (p_sys p) = v ∧ p_vars p = x ∧ p_child p = c.

Lemma at_view_sys v v' x c p s :
  at_view v x c p → sig_good s → view s = v' → at_view v' x c (with_sys s p).
Proof. by intros (Hg & Hv & Hx & Hc) Hg' Hv'. Qed.

Lemma at_view_ret {A} v x c p (r : sysret A) :
  at_view v x c p → at_view v x c (ret_of r p).
Proof. intros Hp. unfold ret_of. by destruct (sr_errno r). Qed.

Lemma at_view_wf v x c p : at_view v x c p → sv_wf v.
Proof. intros (Hg & <- & _). by apply good_wf. Qed.

(** ** Variables *)

Lemma runs_var {A} (f : V → A) d p v x c :
  at_view v x c p → runs (var f d p) (Ret (f x)) (at_view v x c).
Proof. intros Hp. exists p. split; [|done]. destruct Hp as (_ & _ & <- & _). done. Qed.

Lemma runs_set (f : V → V) d p v x c :
  at_view v x c p → runs (set f d p) (Ret tt) (at_view v (f x) c).
Proof.
  intros (Hg & Hv & Hx & Hc). eexists. split; [done|]. by split_and!; simpl; rewrite ?Hx.
Qed.

Lemma runs_libcall {A} (r : sysret A) d p v x c :
  at_view v x c p → runs (libcall r d p) (Ret r) (at_view v x c).
Proof. intros Hp. eexists. split; [done|]. by apply at_view_ret. Qed.

Lemma runs_malloc n d p v x c :
  0 < n → at_view v x c p →
  ∃ a, a ≠ 0 ∧ runs (malloc n d p) (Ret a) (at_view v x c).
Proof.
  intros Hn Hp. destruct (malloc_law n (p_sys p)) as (a & s & Hm & Ha & Hg & Hv); [apply Hp|done|].
  exists a. split; [done|]. unfold malloc. rewrite Hm. eexists. split; [done|].
  eapply at_view_sys; [done|done|]. by rewrite Hv; apply Hp.
Qed.

(** ** Delivery *)

Lemma deliver_quiet n h p v x c :
  at_view v x c p → quiet v → runs (deliver (S n) h p) (Ret tt) (at_view v x c).
Proof.
  intros Hp Hq. destruct (take_none (p_sys p)) as (s & Ht & Hg & Hv).
  { apply Hp. }
  { destruct Hp as (_ & -> & _). done. }
  unfold deliver. rewrite Ht. eexists. split; [done|]. eapply at_view_sys; [done|done|].
  by rewrite Hv; apply Hp.
Qed.

(** The only signal that can be delivered runs its handler; what follows the
    handler's return is [deliver_return]. *)
Lemma deliver_one n h p v x c sig f :
  at_view v x c p → deliverable v = {[sig]} → sa_handler (act_of v sig) = Fun f →
  ∃ info p', (has (sa_flags (act_of v sig)) SA_SIGINFO = true → si_signo info = sig) ∧
    at_view (sv_enter sig v) x c p' ∧
    deliver (S n) h p =
      and_then (h f sig info (deliver n h) p')
        (λ _ p, deliver n h (with_sys (sys_sigreturn (p_sys p)) p)).
Proof.
  intros Hp Hd Hf. pose proof Hp as (Hg & Hv & Hx & Hc).
  destruct (take_some (p_sys p)) as (sig' & s & Hin & Hg' & Hrun).
  { done. }
  { rewrite Hv, Hd. set_solver. }
  rewrite Hv, Hd in Hin. apply elem_of_singleton in Hin as ->. rewrite Hv in Hrun.
  rewrite Hf in Hrun. destruct Hrun as (info & Ht & Hi & Hv').
  exists info, (with_sys s p). split; [done|]. split; [by eapply at_view_sys|].
  unfold deliver. by rewrite Ht.
Qed.

Lemma deliver_return n h p v x c o Q :
  at_view v x c p → sv_saved v ≠ [] →
  (∀ p', at_view (sv_leave v) x c p' → runs (deliver n h p') o Q) →
  runs (deliver n h (with_sys (sys_sigreturn (p_sys p)) p)) o Q.
Proof.
  intros Hp Hs Hd. apply Hd. pose proof Hp as (Hg & Hv & _).
  destruct (sigreturn_law (p_sys p)) as [Hg' Hv']; [done|by rewrite Hv|].
  eapply at_view_sys; [done|done|]. by rewrite Hv', Hv.
Qed.

(** The handler [f] of the one signal that can be delivered returns in the view
    [v'], and the signals that it leaves are delivered next. *)
Lemma deliver_handler n h p v v' x x' c sig f o Q :
  at_view v x c p → deliverable v = {[sig]} → sa_handler (act_of v sig) = Fun f →
  sv_saved v' ≠ [] →
  (∀ info p', (has (sa_flags (act_of v sig)) SA_SIGINFO = true → si_signo info = sig) →
     at_view (sv_enter sig v) x c p' →
     runs (h f sig info (deliver n h) p') (Ret tt) (at_view v' x' c)) →
  (∀ p', at_view (sv_leave v') x' c p' → runs (deliver n h p') o Q) →
  runs (deliver (S n) h p) o Q.
Proof.
  intros Hp Hd Hf Hs Hh Hk. destruct (deliver_one n h p v x c sig f Hp Hd Hf) as (info & p' & Hi & Hp' & ->).
  eapply runs_then; [by apply Hh|]. intros p2 Hp2. by eapply deliver_return.
Qed.

(** A handler that ends the process. *)
Lemma deliver_ends n h p v x c sig f o :
  at_view v x c p → deliverable v = {[sig]} → sa_handler (act_of v sig) = Fun f →
  returns o = false →
  (∀ info p', at_view (sv_enter sig v) x c p' →
     runs (h f sig info (deliver n h) p') o (λ _, True)) →
  runs (deliver (S n) h p) (lift o) (λ _, True).
Proof.
  intros Hp Hd Hf Ho Hh. destruct (deliver_one n h p v x c sig f Hp Hd Hf) as (info & p' & Hi & Hp' & ->).
  apply runs_ends; [done|]. by apply Hh.
Qed.

(** A signal that stops or ends the process. *)
Lemma deliver_default n h p v x c sig :
  at_view v x c p → deliverable v = {[sig]} → act_of v sig = default_act →
  match default_kind_of sig with
  | DTerm => runs (deliver (S n) h p) (Killed sig) (λ _, True)
  | DStop => runs (deliver (S n) h p) (Stopped sig) (λ _, True)
  | _ => True
  end.
Proof.
  intros Hp Hd Hf. pose proof Hp as (Hg & Hv & Hx & Hc).
  destruct (take_some (p_sys p)) as (sig' & s & Hin & Hg' & Hrun).
  { done. }
  { rewrite Hv, Hd. set_solver. }
  rewrite Hv, Hd in Hin. apply elem_of_singleton in Hin as ->. rewrite Hv, Hf in Hrun. simpl in Hrun.
  unfold deliver. destruct (default_kind_of sig); [| |done..]; rewrite Hrun; by eexists.
Qed.

(** ** System calls in a quiet process *)

Lemma runs_syscall {A} (f : St → sysret A * St) r s n h p v v' x c :
  at_view v x c p → f (p_sys p) = (r, s) → sig_good s → view s = v' → quiet v' →
  runs (syscall f (deliver (S n) h) p) (Ret r) (at_view v' x c).
Proof.
  intros Hp Hf Hg Hv Hq. unfold syscall. rewrite Hf. eapply runs_then.
  { apply deliver_quiet; [|exact Hq]. eapply at_view_ret, at_view_sys; done. }
  intros p' Hp'. by exists p'.
Qed.

(** A call that fails sets [errno]. *)
Lemma runs_syscall_fails {A} (f : St → sysret A * St) r e a s n h p v x c :
  at_view v x c p → f (p_sys p) = (SysRet r (Some e) a, s) → sig_good s → view s = v → quiet v →
  runs (syscall f (deliver (S n) h) p) (Ret (SysRet r (Some e) a))
    (λ p', at_view v x c p' ∧ p_errno p' = Some e).
Proof.
  intros Hp Hf Hg Hv Hq. unfold syscall. rewrite Hf.
  destruct (take_none s Hg) as (s2 & Ht & Hg2 & Hv2); [by rewrite Hv|].
  unfold deliver. cbn [p_sys with_sys ret_of sr_errno]. rewrite Ht. eexists. split; [done|].
  split; [|done]. split_and!; [done|by cbn; rewrite Hv2, Hv|apply Hp|apply Hp].
Qed.

Lemma runs_errno d p v x c e :
  at_view v x c p ∧ p_errno p = e → runs (get_errno d p) (Ret e) (at_view v x c).
Proof. intros [Hp <-]. by exists p. Qed.

(** A call after which one signal can be delivered, whose handler returns. *)
Lemma runs_syscall_handled {A} (f : St → sysret A * St) a s n h p v v' x x' c sig fn :
  at_view v x c p → f (p_sys p) = (sys_ok a, s) → sig_good s → view s = v' →
  deliverable v' = {[sig]} → sa_handler (act_of v' sig) = Fun fn →
  (∀ info p', at_view (sv_enter sig v') x c p' →
     runs (h fn sig info (deliver (S n) h) p') (Ret tt) (at_view (sv_enter sig v') x' c)) →
  runs (syscall f (deliver (S (S n)) h) p) (Ret (sys_ok a))
    (at_view (sv_leave (sv_enter sig v')) x' c).
Proof.
  intros Hp Hf Hg Hv Hd Hh Hrun. unfold syscall. rewrite Hf. cbv zeta.
  eapply runs_then; [|intros p2 Hp2; by exists p2].
  eapply deliver_handler; [by eapply at_view_ret, at_view_sys|done|done| |intros info p' _; apply Hrun|].
  { done. }
  intros p2 Hp2. apply deliver_quiet; [done|by apply leave_quiet].
Qed.

(** The same where the handler does not return. *)
Lemma runs_syscall_ends {A} (f : St → sysret A * St) a s n h p v v' x c sig fn o :
  at_view v x c p → f (p_sys p) = (sys_ok a, s) → sig_good s → view s = v' →
  deliverable v' = {[sig]} → sa_handler (act_of v' sig) = Fun fn → returns o = false →
  (∀ info p', at_view (sv_enter sig v') x c p' →
     runs (h fn sig info (deliver n h) p') o (λ _, True)) →
  runs (syscall f (deliver (S n) h) p) (lift o) (λ _, True).
Proof.
  intros Hp Hf Hg Hv Hd Hh Ho Hrun. unfold syscall. rewrite Hf. cbv zeta.
  destruct (deliver_ends n h (ret_of (sys_ok a) (with_sys s p)) v' x c sig fn o) as (p2 & -> & _);
    [by eapply at_view_ret, at_view_sys|done..|].
  exists p2. by destruct o.
Qed.

Lemma runs_sigaction n h p v x c sig a :
  at_view v x c p → catchable sig = true → quiet v →
  ∃ old, norm_act old = act_of v sig ∧
    runs (sigaction sig (Some a) (deliver (S n) h) p) (Ret (sys_ok old))
      (at_view (sv_install sig a v) x c).
Proof.
  intros Hp Hs Hq. pose proof Hp as (Hg & Hv & _).
  destruct (sigaction_law (p_sys p) sig a Hg Hs) as (old & s & Hr & Hg' & Ho & Hv').
  rewrite Hv in *. exists old. split; [done|]. eapply runs_syscall; try done.
  by apply install_quiet.
Qed.

Lemma runs_sigaction_query n h p v x c sig :
  at_view v x c p → catchable sig = true → quiet v →
  ∃ old, norm_act old = act_of v sig ∧
    runs (sigaction sig None (deliver (S n) h) p) (Ret (sys_ok old)) (at_view v x c).
Proof.
  intros Hp Hs Hq. pose proof Hp as (Hg & Hv & _).
  destruct (sigaction_query (p_sys p) sig Hg Hs) as (old & s & Hr & Hg' & Ho & Hv').
  rewrite Hv in *. exists old. split; [done|]. by eapply runs_syscall.
Qed.

Lemma runs_signal n h p v x c sig d :
  at_view v x c p → catchable sig = true → quiet v → d ≠ SIG_ERR → d ≠ SIG_HOLD →
  ∃ m fl, runs (signal sig d (deliver (S n) h) p) (Ret (sys_ok (sa_handler (act_of v sig))))
      (at_view (sv_install sig (SigAct d m fl) v) x c).
Proof.
  intros Hp Hs Hq Hd Hd'. pose proof Hp as (Hg & Hv & _).
  destruct (signal_law (p_sys p) sig d Hg Hs Hd Hd') as (old & m & fl & s & Hr & Hg' & -> & Hv').
  rewrite Hv in *. exists m, fl. eapply runs_syscall; try done. by apply install_quiet.
Qed.

Lemma runs_sigpending n h p v x c :
  at_view v x c p → quiet v →
  runs (sigpending (deliver (S n) h) p) (Ret (sys_ok (sv_pend v ∩ sv_mask v))) (at_view v x c).
Proof.
  intros Hp Hq. pose proof Hp as (Hg & Hv & _).
  destruct (sigpending_law (p_sys p) Hg) as (s & Hr & Hg' & Hv').
  rewrite Hv in *. by eapply runs_syscall.
Qed.

Lemma runs_altstack_query n h p v x c :
  at_view v x c p → quiet v →
  ∃ old, (ss_sp old, ss_size old) = sv_alt v ∧
    runs (sigaltstack None (deliver (S n) h) p) (Ret (sys_ok old)) (at_view v x c).
Proof.
  intros Hp Hq. pose proof Hp as (Hg & Hv & _).
  destruct (altstack_query (p_sys p) Hg) as (old & s & Hr & Hg' & Ho & Hv').
  rewrite Hv in *. exists old. split; [done|]. by eapply runs_syscall.
Qed.

Lemma runs_altstack n h p v x c st :
  at_view v x c p → quiet v → sv_saved v = [] → ss_flags st = 0 → SIGSTKSZ ≤ ss_size st →
  ∃ old, True ∧ runs (sigaltstack (Some st) (deliver (S n) h) p) (Ret (sys_ok old))
      (at_view (sv_set_alt st v) x c).
Proof.
  intros Hp Hq Hs Hf Hz. pose proof Hp as (Hg & Hv & _).
  destruct (altstack_law (p_sys p) st Hg) as (old & s & Hr & Hg' & Hv'); rewrite ?Hv; try done.
  rewrite Hv in *. exists old. split; [done|]. by eapply runs_syscall.
Qed.

Lemma runs_wait untraced n h p v x st :
  at_view v x (Some st) p → quiet v → WIFSTOPPED st = false ∨ untraced = true →
  ∃ pid c, 0 < pid ∧
    runs (wait untraced (deliver (S n) h) p) (Ret (SysRet pid None st)) (at_view v x c).
Proof.
  intros Hp Hq Hst. pose proof Hp as (Hg & Hv & Hx & Hc).
  destruct (wait_child_law (p_sys p) st Hg) as (pid & s & Hr & Hpid & Hg' & Hv').
  rewrite Hv in *. unfold wait. rewrite Hc. destruct (WIFSTOPPED st).
  - destruct Hst as [?|Hst]; [done|]. rewrite Hst. exists pid, (Some st). split; [done|].
    by eapply runs_syscall.
  - exists pid, None. split; [done|]. by eapply (runs_syscall _ _ s).
Qed.

(** ** Signals that the process sends to itself *)

(** Generating a signal, then the deliveries. *)
Lemma runs_raise_then sig d p v x c o Q :
  at_view v x c p → valid_sig sig = true → pends (act_of v sig) sig = true →
  (∀ p', at_view (sv_generate sig v) x c p' →
     runs (and_then (d p') (λ _ p, (Ret 0, p))) o Q) →
  runs (raise sig d p) o Q.
Proof.
  intros Hp Hs Hi Hd. pose proof Hp as (Hg & Hv & Hx & Hc).
  destruct (raise_law (p_sys p) sig Hg Hs) as (s & Hr & Hg' & Hv'); [by rewrite Hv|].
  unfold raise, mbind, P_bind, syscall, mret, P_ret. rewrite Hr. simpl.
  destruct (Hd (with_sys s p)) as (p' & Hp' & HQ).
  { eapply at_view_sys; [done|done|]. by rewrite Hv', Hv. }
  exists p'. split; [|done]. unfold ret_of. simpl.
  destruct (d (with_sys s p)) as [[]]; simpl in *; congruence.
Qed.

Lemma runs_raise_blocked n h sig p v x c :
  at_view v x c p → quiet v → valid_sig sig = true → pends (act_of v sig) sig = true →
  sig ∈ sv_mask v →
  runs (raise sig (deliver (S n) h) p) (Ret 0) (at_view (sv_generate sig v) x c).
Proof.
  intros Hp Hq Hs Hi Hm. eapply runs_raise_then; [done..|]. intros p' Hp'.
  eapply runs_then; [apply deliver_quiet; [done|by apply generate_blocked]|].
  intros p2 Hp2. by exists p2.
Qed.

(** A raised signal whose handler returns and leaves the system as it was. *)
Lemma runs_raise_handled n h sig p v x x' c f :
  at_view v x c p → quiet v → valid_sig sig = true → sig ∉ sv_mask v →
  sa_handler (act_of v sig) = Fun f →
  (∀ info p', (has (sa_flags (act_of v sig)) SA_SIGINFO = true → si_signo info = sig) →
     at_view (sv_enter sig (sv_generate sig v)) x c p' →
     runs (h f sig info (deliver (S n) h) p') (Ret tt)
       (at_view (sv_enter sig (sv_generate sig v)) x' c)) →
  runs (raise sig (deliver (S (S n)) h) p) (Ret 0) (at_view (sv_done sig v) x' c).
Proof.
  intros Hp Hq Hs Hm Hf Hh. eapply runs_raise_then; [done|done|by eapply pends_fun|].
  intros p1 Hp1. eapply runs_then.
  - eapply deliver_handler; [done|by apply generate_one|exact Hf| |exact Hh|]; [done|].
    intros p2 Hp2. apply deliver_quiet; [exact Hp2|]. by apply done_quiet.
  - intros p2 Hp2. by exists p2.
Qed.

(** SIGKILL and SIGSTOP act at once. *)
Lemma runs_raise_fatal n h sig p v x c :
  at_view v x c p → quiet v → sig ∈ unblockable →
  runs (raise sig (deliver (S n) h) p)
    (if bool_decide (sig = SIGKILL) then Killed sig else Stopped sig) (λ _, True).
Proof.
  intros Hp Hq Hs. pose proof (at_view_wf _ _ _ _ Hp) as (Hm & _ & Ha).
  destruct (Ha sig) as [_ Hact]. specialize (Hact Hs).
  assert (valid_sig sig = true ∧ sig ∉ sv_mask v) as [Hv Hn].
  { split; [|set_solver]. unfold unblockable in Hs.
    apply elem_of_union in Hs as [->%elem_of_singleton| ->%elem_of_singleton]; done. }
  eapply runs_raise_then; [done|done|by rewrite Hact; apply unblockable_pends|]. intros p' Hp'.
  pose proof (deliver_default n h p' _ x c sig Hp' (generate_one v sig Hq Hn) Hact) as Hd.
  unfold unblockable in Hs.
  apply elem_of_union in Hs as [->%elem_of_singleton| ->%elem_of_singleton].
  - exact (runs_ends _ _ (Killed SIGKILL) _ eq_refl Hd).
  - exact (runs_ends _ _ (Stopped SIGSTOP) _ eq_refl Hd).
Qed.

(** A raised signal whose handler does not return. *)
Lemma runs_raise_ends n h sig p v x c f o :
  at_view v x c p → quiet v → valid_sig sig = true → sig ∉ sv_mask v →
  sa_handler (act_of v sig) = Fun f → returns o = false →
  (∀ info p', at_view (sv_enter sig (sv_generate sig v)) x c p' →
     runs (h f sig info (deliver n h) p') o (λ _, True)) →
  runs (raise sig (deliver (S n) h) p) (lift o) (λ _, True).
Proof.
  intros Hp Hq Hs Hm Hf Ho Hh. eapply runs_raise_then; [done|done|by eapply pends_fun|].
  intros p' Hp'.
  pose proof (deliver_ends n h p' _ x c sig f o Hp' (generate_one v sig Hq Hm) Hf Ho Hh) as Hd.
  destruct Hd as (p2 & -> & _). exists p2. by destruct o.
Qed.

(** A handler that raises a signal [sig2] which is blocked until it returns;
    the handler of [sig2] runs next. *)
Lemma runs_raise_nested n h sig sig2 p v x x1 x2 c f f2 :
  at_view v x c p → quiet v → valid_sig sig = true → sig ∉ sv_mask v → sig2 ∉ sv_mask v →
  sa_handler (act_of v sig) = Fun f → resets sig (act_of v sig) = false →
  sa_handler (act_of v sig2) = Fun f2 →
  (∀ info p', at_view (sv_enter sig (sv_generate sig v)) x c p' →
     runs (h f sig info (deliver (S (S n)) h) p') (Ret tt)
       (at_view (sv_generate sig2 (sv_enter sig (sv_generate sig v))) x1 c)) →
  (∀ info p' v', at_view v' x1 c p' →
     runs (h f2 sig2 info (deliver (S n) h) p') (Ret tt) (at_view v' x2 c)) →
  ∃ v', quiet v' ∧ runs (raise sig (deliver (S (S (S n))) h) p) (Ret 0) (at_view v' x2 c).
Proof.
  intros Hp Hq Hs Hm Hm2 Hf Hr Hf2 Hh Hh2.
  set (v1 := sv_generate sig2 (sv_enter sig (sv_generate sig v))).
  assert (deliverable (sv_leave v1) = {[sig2]}) as Hd by by apply leave_one.
  exists (sv_leave (sv_enter sig2 (sv_leave v1))). split; [by apply leave_quiet|].
  eapply runs_raise_then; [done|done|by eapply pends_fun|]. intros p1 Hp1.
  eapply runs_then; [|intros p2 Hp2; by exists p2].
  eapply deliver_handler; [done|by apply generate_one|exact Hf| |intros info p' _; apply Hh|].
  { done. }
  intros p2 Hp2. eapply deliver_handler; [exact Hp2|done| | |intros info p' _; apply Hh2|].
  { transitivity (sa_handler (act_of (sv_enter sig (sv_generate sig v)) sig2)); [done|].
    by rewrite act_enter. }
  { done. }
  intros p3 Hp3. apply deliver_quiet; [done|by apply leave_quiet].
Qed.

Lemma runs_raise_ignored n h sig p v x c :
  at_view v x c p → quiet v → valid_sig sig = true → sig ∉ sv_mask v →
  ignores (act_of v sig) sig = true →
  runs (raise sig (deliver (S n) h) p) (Ret 0)
    (at_view (sv_set_pend (sv_pend v ∖ undone_by sig) v) x c).
Proof.
  intros Hp Hq Hs Hm Hi. pose proof Hp as (Hg & Hv & _).
  destruct (raise_ignored (p_sys p) sig Hg Hs) as (s & Hr & Hg' & Hv'); [by rewrite Hv..|].
  rewrite Hv in *. eapply runs_bind; [eapply runs_syscall; try done|].
  { unfold deliverable in *. simpl. apply leibniz_equiv. set_solver. }
  intros p' Hp'. by apply runs_ret.
Qed.

Lemma runs_raise_invalid n h sig p v x c :
  at_view v x c p → quiet v → valid_sig sig = false → sig ≠ 0 →
  runs (raise sig (deliver (S n) h) p) (Ret (-1))
    (λ p', at_view v x c p' ∧ p_errno p' = Some EINVAL).
Proof.
  intros Hp Hq Hs H0'. pose proof Hp as (Hg & Hv & _).
  destruct (raise_invalid (p_sys p) sig Hg Hs H0') as (s & Hr & Hg' & Hv').
  rewrite Hv in *. eapply runs_bind; [by eapply runs_syscall_fails|]. intros p' Hp'. by apply runs_ret.
Qed.

(** ** Child processes *)

Lemma runs_fork (child parent : P St V Z) n h p v x c o Q :
  at_view v x c p → quiet v →
  (∀ p', at_view (sv_child v) x c p' → runs (child (deliver n h) p') o (λ _, True)) →
  o ≠ Hang →
  (∀ st p', status_of o = Some st → at_view v x (Some st) p' →
     runs (parent (deliver n h) p') (Ret PTS_PASS) Q) →
  runs (fork_else child parent (deliver n h) p) (Ret PTS_PASS) Q.
Proof.
  intros Hp Hq Hc Ho Hpar. pose proof Hp as (Hg & Hv & Hx & Hch).
  destruct (fork_law (p_sys p) Hg) as (s & Hf & Hg' & Hv').
  destruct (Hc (with_sys s p)) as (p' & Hrun & _).
  { eapply at_view_sys; [done|done|]. by rewrite Hv', Hv. }
  unfold fork_else. rewrite Hf, Hrun. simpl.
  destruct (status_of o) as [st|] eqn:Est; [|by destruct o]. by apply (Hpar st).
Qed.

End Rules.
