(* ===== verification/SigactionTests.v ===== *)
(** * The tests of sigaction

    The tests of src/conformance/interfaces/sigaction come in families of 26
    files that differ in the signal only. Here is one definition for each
    family, over any system of SigApi: [handler_n] and [main_n] are the
    functions of its files, the global and static variables are the state of
    the process, and [sigaction_n sig] is the run of the program for the signal
    [sig]. Messages are not modelled. The files themselves are in
    SigactionFiles. *)

From stdpp Require Import base tactics numbers list gmap strings.
From S2P Require Import Prelude SigApi SigProc.

Open Scope Z_scope.

Section Tests.
Context {St : Type} `{SigSys St}.

(** [act.sa_handler = h; act.sa_flags = flags; sigemptyset(&act.sa_mask)] *)
Definition fill_act {V} (h : disposition) (flags : Z) : P St V sigact :=
  r ← sigemptyset junk_set; mret (SigAct h (sr_val r) flags).

(** The same, and [sigaddset(&act.sa_mask, sig)]. *)
Definition fill_act_with {V} (h : disposition) (flags : Z) (sig : Z) : P St V sigact :=
  act ← fill_act h flags;
  r ← sigaddset (sa_mask act) sig;
  mret (SigAct (sa_handler act) (sr_val r) (sa_flags act)).

(** [if (sigaction(sig, act, 0) == -1) return bad;] *)
Definition install_or {V} (sig : Z) (act : sigact) (bad : Z) (k : P St V Z) : P St V Z :=
  r ← sigaction sig (Some act);
  if sr_ret r =? -1 then mret bad else k.

(** [if (raise(sig) == -1) return bad;] *)
Definition raise_or {V} (sig bad : Z) (k : P St V Z) : P St V Z :=
  r ← raise sig; if r =? -1 then mret bad else k.

(** [if (ok) return PTS_PASS; return PTS_FAIL;] *)
Definition pass_or_fail {V} (ok : bool) : P St V Z :=
  mret (if ok then PTS_PASS else PTS_FAIL).

(** The framework's way: [ret = f(); if (ret != 0) UNRESOLVED(...)]. *)
Definition resolve {V A} (r : sysret A) (k : P St V Z) : P St V Z :=
  if negb (sr_ret r =? 0) then exit PTS_UNRESOLVED else k.

(** [sa.sa_flags = ...; sa.sa_handler = ...; ret = sigemptyset(&sa.sa_mask);
    ret = sigaction(SIGNAL, &sa, &old)], each checked. *)
Definition frmw_install {V} (sig : Z) (h : disposition) (flags : Z) (k : sigact → P St V Z) :
    P St V Z :=
  m ← sigemptyset junk_set;
  resolve m (
  r ← sigaction sig (Some (SigAct h (sr_val m) flags));
  resolve r (k (sr_val r))).

(** [ret = raise(SIGNAL); if (ret != 0) UNRESOLVED(...)] *)
Definition frmw_raise {V} (sig : Z) (k : P St V Z) : P St V Z :=
  r ← raise sig; if negb (r =? 0) then exit PTS_UNRESOLVED else k.

(** ** 1: sigaction changes the action *)

Definition handler_1 (f : string) (signo : Z) (info : siginfo) : P St Z unit :=
  set (λ _, 1).

Definition main_1 (sig : Z) : P St Z Z :=
  act ← fill_act (Fun "handler") 0;
  install_or sig act PTS_UNRESOLVED (
  raise_or sig PTS_UNRESOLVED (
  handler_called ← var id;
  pass_or_fail (negb (handler_called =? 0)))).

Definition sigaction_1 (sig : Z) (fuel : nat) (s : St) : outcome Z :=
  run_main fuel handler_1 0 (main_1 sig) s.

(** ** 2: the old action is stored *)

Definition main_2 (sig : Z) : P St unit Z :=
  act ← fill_act (Fun "handler1") 0;
  install_or sig act PTS_UNRESOLVED (
  r ← sigemptyset (sa_mask act);
  oact ← sigaction sig (Some (SigAct (Fun "handler2") (sr_val r) (sa_flags act)));
  if sr_ret oact =? -1 then mret PTS_UNRESOLVED else
  pass_or_fail (bool_decide (sa_handler (sr_val oact) = Fun "handler1"))).

Definition sigaction_2 (sig : Z) (fuel : nat) (s : St) : outcome Z :=
  run_main fuel no_handlers tt (main_2 sig) s.

(** ** 3: a null action leaves the handler *)

Definition main_3 (sig : Z) : P St Z Z :=
  act ← fill_act (Fun "handler") 0;
  install_or sig act PTS_UNRESOLVED (
  oact ← sigaction sig None;
  if sr_ret oact =? -1 then mret PTS_UNRESOLVED else
  raise_or sig PTS_UNRESOLVED (
  handler_called ← var id;
  pass_or_fail (negb (handler_called =? 0)))).

Definition sigaction_3 (sig : Z) (fuel : nat) (s : St) : outcome Z :=
  run_main fuel handler_1 0 (main_3 sig) s.

(** ** 4: SIGKILL and SIGSTOP cannot be added to the mask *)

Definition handler_4_kill (f : string) (signo : Z) (info : siginfo) : P St unit unit :=
  raise SIGKILL;; exit 0.

(** Files 4-1 to 4-26. *)
Definition main_4_kill (sig : Z) : P St unit Z :=
  fork_else
    (act ← fill_act_with (Fun "handler") 0 SIGKILL;
     install_or sig act PTS_PASS (raise sig;; mret PTS_PASS))
    (s ← wait false;
     if sr_ret s =? -1 then mret PTS_UNRESOLVED else
     pass_or_fail (negb (WIFEXITED (sr_val s)))).

Definition sigaction_4_kill (sig : Z) (fuel : nat) (s : St) : outcome Z :=
  run_main fuel handler_4_kill tt (main_4_kill sig) s.

Definition handler_4_stop (f : string) (signo : Z) (info : siginfo) : P St unit unit :=
  raise SIGSTOP;; exit 0.

(** Files 4-27 to 4-52. *)
Definition main_4_stop (sig : Z) : P St unit Z :=
  fork_else
    (act ← fill_act_with (Fun "handler") 0 SIGSTOP;
     install_or sig act PTS_UNRESOLVED (raise sig;; mret PTS_UNRESOLVED))
    (s ← wait true;
     if sr_ret s =? -1 then mret PTS_UNRESOLVED else
     if WIFSTOPPED (sr_val s) then kill_child;; mret PTS_PASS else mret PTS_FAIL).

Definition sigaction_4_stop (sig : Z) (fuel : nat) (s : St) : outcome Z :=
  run_main fuel handler_4_stop tt (main_4_stop sig) s.

(** Files 4-53 to 4-78 with [extra] = SIGKILL, 4-79 to 4-104 with SIGSTOP. *)
Definition main_4_silent (extra sig : Z) : P St unit Z :=
  act ← fill_act_with (Fun "handler") 0 extra;
  install_or sig act PTS_FAIL (mret PTS_PASS).

Definition sigaction_4_silent (extra sig : Z) (fuel : nat) (s : St) : outcome Z :=
  run_main fuel no_handlers tt (main_4_silent extra sig) s.

(** ** 6: a handler with SA_SIGINFO *)

Definition main_6 (sig : Z) : P St Z Z :=
  act ← fill_act_with (Fun "handler") SA_SIGINFO SIGSTOP;
  install_or sig act PTS_UNRESOLVED (
  raise_or sig PTS_UNRESOLVED (
  handler_called ← var id;
  pass_or_fail (negb (handler_called =? 0)))).

Definition sigaction_6 (sig : Z) (fuel : nat) (s : St) : outcome Z :=
  run_main fuel handler_1 0 (main_6 sig) s.

(** ** 8: the signals of [sa_mask] are blocked in the handler

    [inner] is the signal in the mask, [count] the number of its deliveries. *)

Definition handler_8 (inner : Z) (f : string) (signo : Z) (info : siginfo) : P St Z unit :=
  if bool_decide (f = "inner_handler") then set (λ count, count + 1)
  else
    raise inner;;
    count ← var id;
    if negb (count =? 0) then exit (-1) else mret tt.

Definition main_8 (sig inner : Z) : P St Z Z :=
  act ← fill_act_with (Fun "handler") 0 inner;
  install_or sig act PTS_UNRESOLVED (
  r ← sigemptyset (sa_mask act);
  install_or inner (SigAct (Fun "inner_handler") (sr_val r) 0) PTS_UNRESOLVED (
  raise_or sig PTS_UNRESOLVED (
  mret PTS_PASS))).

Definition sigaction_8 (sig inner : Z) (fuel : nat) (s : St) : outcome Z :=
  run_main fuel (handler_8 inner) 0 (main_8 sig inner) s.

(** ** 12 and 13: the alternate stack

    The variable is [alt_ss] or [current]. *)

Definition handler_12 (f : string) (signo : Z) (info : siginfo) : P St stack_t unit :=
  ss ← sigaltstack None;
  if sr_ret ss =? -1 then exit (-1) else
  alt_ss ← var id;
  if negb (ss_sp (sr_val ss) =? ss_sp alt_ss) || negb (ss_size (sr_val ss) =? ss_size alt_ss)
  then exit (-1) else mret tt.

(** Files 12-1 to 12-26. *)
Definition main_12 (sig : Z) : P St stack_t Z :=
  act ← fill_act (Fun "handler") SA_ONSTACK;
  install_or sig act PTS_UNRESOLVED (
  p ← malloc SIGSTKSZ;
  set (λ alt_ss, Stack p (ss_size alt_ss) (ss_flags alt_ss));;
  if p =? 0 then mret PTS_UNRESOLVED else
  set (λ alt_ss, Stack (ss_sp alt_ss) SIGSTKSZ 0);;
  alt_ss ← var id;
  r ← sigaltstack (Some alt_ss);
  if sr_ret r =? -1 then mret PTS_UNRESOLVED else
  raise_or sig PTS_UNRESOLVED (
  mret PTS_PASS)).

Definition sigaction_12 (sig : Z) (fuel : nat) (s : St) : outcome Z :=
  run_main fuel handler_12 (Stack 0 0 0) (main_12 sig) s.

(** Files 12-27 to 12-52 with [flags] = SA_ONSTACK, 13-1 to 13-26 with 0. *)
Definition main_13 (flags sig : Z) : P St stack_t Z :=
  act ← fill_act (Fun "handler") flags;
  install_or sig act PTS_UNRESOLVED (
  r ← sigaltstack None;
  set (λ _, sr_val r);;
  if sr_ret r =? -1 then mret PTS_UNRESOLVED else
  raise_or sig PTS_UNRESOLVED (
  mret PTS_PASS)).

Definition sigaction_13 (flags sig : Z) (fuel : nat) (s : St) : outcome Z :=
  run_main fuel handler_12 (Stack 0 0 0) (main_13 flags sig) s.

(** ** 18: [sa_handler] is called when SA_SIGINFO is not set *)

Definition main_18 (sig : Z) : P St Z Z :=
  frmw_install sig (Fun "handler") 0 (λ _,
  called ← var id;
  if negb (called =? 0) then exit PTS_FAIL else
  frmw_raise sig (
  called ← var id;
  if called =? 0 then exit PTS_FAIL else exit PTS_PASS)).

Definition sigaction_18 (sig : Z) (fuel : nat) (s : St) : outcome Z :=
  run_main fuel handler_1 0 (main_18 sig) s.

(** ** 19: [sa_sigaction] is called when SA_SIGINFO is set *)

Definition handler_19 (sig : Z) (f : string) (signo : Z) (info : siginfo) : P St Z unit :=
  if negb (si_signo info =? sig) then exit PTS_FAIL else set (λ _, 1).

Definition main_19 (sig : Z) : P St Z Z :=
  if lib_sysconf_rts <? 0 then exit PTS_UNTESTED else
  frmw_install sig (Fun "handler") SA_SIGINFO (λ _,
  called ← var id;
  if negb (called =? 0) then exit PTS_FAIL else
  frmw_raise sig (
  called ← var id;
  if called =? 0 then exit PTS_FAIL else exit PTS_PASS)).

Definition sigaction_19 (sig : Z) (fuel : nat) (s : St) : outcome Z :=
  run_main fuel (handler_19 sig) 0 (main_19 sig) s.

(** ** 22 and 25: a signal inside of its handler

    [handler_error] is a variable of 25 only. *)

Record counts : Type := Counts {
  handler_count : Z; handler_error : Z; inside_handler : Z }.

Definition add_count (n : Z) (v : counts) : counts :=
  Counts (handler_count v + n) (handler_error v) (inside_handler v).
Definition add_error (v : counts) : counts :=
  Counts (handler_count v) (handler_error v + 1) (inside_handler v).
Definition add_inside (n : Z) (v : counts) : counts :=
  Counts (handler_count v) (handler_error v) (inside_handler v + n).

(** The part of the two handlers after the test of [inside_handler]. *)
Definition handler_body (sig : Z) : P St counts unit :=
  set (add_inside 1);;
  set (add_count 1);;
  n ← var handler_count;
  (if n =? 1 then raise sig;; mret tt else mret tt);;
  set (add_inside (-1)).

Definition handler_22 (sig : Z) (f : string) (signo : Z) (info : siginfo) : P St counts unit :=
  inside ← var inside_handler;
  if negb (inside =? 0) then exit 0 else handler_body sig.

Definition main_22 (sig : Z) : P St counts Z :=
  fork_else
    (act ← fill_act (Fun "handler") SA_NODEFER;
     install_or sig act PTS_UNRESOLVED (
     raise_or sig PTS_UNRESOLVED (
     mret PTS_FAIL)))
    (s ← wait false;
     if sr_ret s =? -1 then mret PTS_UNRESOLVED else
     pass_or_fail (WEXITSTATUS (sr_val s) =? 0)).

Definition sigaction_22 (sig : Z) (fuel : nat) (s : St) : outcome Z :=
  run_main fuel (handler_22 sig) (Counts 0 0 0) (main_22 sig) s.

Definition handler_25 (sig : Z) (f : string) (signo : Z) (info : siginfo) : P St counts unit :=
  inside ← var inside_handler;
  if negb (inside =? 0) then set add_error;; exit (-1) else handler_body sig.

Definition main_25 (sig : Z) : P St counts Z :=
  fork_else
    (act ← fill_act (Fun "handler") 0;
     install_or sig act PTS_UNRESOLVED (
     raise_or sig PTS_UNRESOLVED (
     error ← var handler_error;
     if negb (error =? 0) then mret PTS_UNRESOLVED else mret PTS_PASS)))
    (s ← wait false;
     if sr_ret s =? -1 then mret PTS_UNRESOLVED else
     pass_or_fail (WEXITSTATUS (sr_val s) =? 0)).

Definition sigaction_25 (sig : Z) (fuel : nat) (s : St) : outcome Z :=
  run_main fuel (handler_25 sig) (Counts 0 0 0) (main_25 sig) s.

(** ** 23: the signal is pending while its handler runs *)

Definition handler_23 (sig : Z) (f : string) (signo : Z) (info : siginfo) : P St Z unit :=
  set (λ called, called + 1);;
  called ← var id;
  (if called =? 2 then exit PTS_FAIL else mret tt);;
  (if called =? 1 then
     r ← raise sig;
     (if negb (r =? 0) then exit PTS_UNRESOLVED else
      pending ← sigpending;
      if negb (sr_ret pending =? 0) then exit PTS_UNRESOLVED else
      m ← sigismember (sr_val pending) sig;
      if negb (sr_ret m =? 1) then exit PTS_FAIL else mret tt)
   else mret tt);;
  set (λ called, called + 1).

(** The loop that waits for the second delivery has [fuel] rounds. *)
Definition main_23 (fuel : nat) (sig : Z) : P St Z Z :=
  frmw_install sig (Fun "handler") 0 (λ _,
  frmw_raise sig (
  while fuel (called ← var id; mret (negb (called =? 4))) sched_yield;;
  exit PTS_PASS)).

Definition sigaction_23 (sig : Z) (fuel : nat) (s : St) : outcome Z :=
  run_main fuel (handler_23 sig) 0 (main_23 fuel sig) s.

(** ** 28: the action of signal() can be saved and restored *)

Definition handler_28 (f : string) (signo : Z) (info : siginfo) : P St Z unit :=
  if bool_decide (f = "handler_1") then set (λ called, called + 1)
  else set (λ called, called - 1).

Definition main_28 (sig : Z) : P St Z Z :=
  d ← signal sig (Fun "handler_1");
  if bool_decide (sr_val d = SIG_ERR) then exit PTS_UNRESOLVED else
  frmw_install sig (Fun "handler_2") 0 (λ save,
  frmw_raise sig (
  called ← var id;
  if negb (called =? 0) then exit PTS_FAIL else
  r ← sigaction sig (Some save);
  resolve r (
  frmw_raise sig (
  called ← var id;
  if negb (called =? 1) then exit PTS_FAIL else exit PTS_PASS)))).

Definition sigaction_28 (sig : Z) (fuel : nat) (s : St) : outcome Z :=
  run_main fuel handler_28 1 (main_28 sig) s.

(** ** 30: sigaction fails for invalid signals, SIGKILL and SIGSTOP *)

(** [ret = sigaction(sig, &sa, 0)] has to fail with EINVAL. *)
Definition must_fail {V} (sig : Z) (sa : sigact) (k : P St V Z) : P St V Z :=
  r ← sigaction sig (Some sa);
  if sr_ret r =? 0 then exit PTS_FAIL else
  e ← get_errno;
  if negb (bool_decide (e = Some EINVAL)) then exit PTS_FAIL else k.

Definition SIG_INVALID : Z := SIGRTMAX + 10.

Definition main_30 : P St unit Z :=
  m ← sigemptyset junk_set;
  resolve m (
  let sa := SigAct (Fun "handler") (sr_val m) 0 in
  must_fail SIG_INVALID sa (
  must_fail SIGKILL sa (
  must_fail SIGSTOP sa (
  let sa := SigAct SIG_IGN (sa_mask sa) (sa_flags sa) in
  must_fail SIGKILL sa (
  must_fail SIGSTOP sa (
  exit PTS_PASS)))))).

Definition sigaction_30_1 (fuel : nat) (s : St) : outcome Z :=
  run_main fuel no_handlers tt main_30 s.

End Tests.
