(* ===== verification/SigRace.v ===== *)
(** * Interrupted calls: families 16 and 17 of the tests of sigaction

    The files 16-1.c to 16-26.c and 17-1.c to 17-26.c of
    src/conformance/interfaces/sigaction interrupt a blocking call of a thread
    (16, [sem_wait] with SA_RESTART) or of a child process (17, [select]
    without it) by a signal. They depend on the order in which the two parties
    run, and are modelled as in Lts: party 0 is the main thread or the parent,
    party 1 the thread or child; the boolean of a step says that the library
    call it makes fails. *)

From stdpp Require Import base tactics numbers list gmap strings.
From S2P Require Import Prelude Lts SigApi SigProc.

Open Scope Z_scope.

(** ** Family 16: sem_wait is restarted *)

Module Restart.

Inductive main_pc : Set :=
| MEmpty | MAction | MSemInit | MCreate | MKill | MSpin | MPost | MJoin | MDestroy.

(** The thread: not created, before [sem_wait], in it, ended. *)
Inductive thread_pc : Set := TNone | TStart | TWait | TEnd.

(** [pend]: the signal waits for the thread; [code]: [exit] was called. *)
Record state : Type := State {
  main : main_pc; thread : thread_pc; caught : Z; sem : Z; pend : bool; code : option Z }.

Definition start : state := State MEmpty TNone 0 0 false None.

Definition at_main (m : main_pc) (s : state) : state :=
  State m (thread s) (caught s) (sem s) (pend s) (code s).
Definition at_thread (t : thread_pc) (s : state) : state :=
  State (main s) t (caught s) (sem s) (pend s) (code s).
Definition exits (c : Z) (s : state) : state :=
  State (main s) (thread s) (caught s) (sem s) (pend s) (Some c).

(** [handler]: [caught++], in the thread. *)
Definition handler (s : state) : state :=
  State (main s) (thread s) (caught s + 1) (sem s) false (code s).

(** A round of [while (!caught) sched_yield()] that finds 0 is no step, and the
    three calls of [sched_yield] before [pthread_kill] only let the thread run. *)
Definition step_main (failing : bool) (s : state) : option state :=
  match main s with
  | MSpin => if caught s =? 0 then None else Some (at_main MPost s)
  | m =>
      if failing then Some (exits PTS_UNRESOLVED s)
      else match m with
           | MEmpty => Some (at_main MAction s)
           | MAction => Some (at_main MSemInit s)
           | MSemInit => Some (at_main MCreate s)
           | MCreate => Some (at_main MKill (at_thread TStart s))
           | MKill => Some (State MSpin (thread s) (caught s) (sem s) true (code s))
           | MPost => Some (State MJoin (thread s) (caught s) (sem s + 1) (pend s) (code s))
           | MJoin => match thread s with TEnd => Some (at_main MDestroy s) | _ => None end
           | _ => Some (exits PTS_PASS s)
           end
  end.

(** [restart]: a handler with SA_RESTART does not interrupt [sem_wait]. The
    thread takes the signal before it goes on. *)
Definition step_thread (restart failing : bool) (s : state) : option state :=
  match thread s with
  | TNone | TEnd => None
  | TStart =>
      if pend s then Some (handler s)
      else if failing then Some (exits PTS_UNRESOLVED s) else Some (at_thread TWait s)
  | TWait =>
      if pend s then
        if restart then Some (handler s) else Some (exits PTS_FAIL (handler s))
      else if 0 <? sem s then
        Some (State (main s) TEnd (caught s) (sem s - 1) (pend s) (code s))
      else None
  end.

Definition step (restart : bool) (t : nat) (failing : bool) (s : state) : option state :=
  match code s with
  | Some _ => None
  | None => match t with
            | O => step_main failing s
            | S O => step_thread restart failing s
            | _ => None
            end
  end.

(** The program for the signal [sig] under a schedule, with its exit code. *)
Definition sigaction_16 (sig : Z) (restart : bool) (sched : list (nat * bool)) : option Z :=
  if catchable sig then code (run (step restart) sched start) else Some PTS_UNRESOLVED.

(** ** What can happen *)

Definition waiting (t : thread_pc) : Prop := t = TStart ∨ t = TWait.

(** Where the two threads can be together. *)
Definition consistent (s : state) : Prop :=
  match main s with
  | MEmpty | MAction | MSemInit | MCreate =>
      thread s = TNone ∧ caught s = 0 ∧ sem s = 0 ∧ pend s = false
  | MKill => waiting (thread s) ∧ caught s = 0 ∧ sem s = 0 ∧ pend s = false
  | MSpin => waiting (thread s) ∧ caught s = (if pend s then 0 else 1) ∧ sem s = 0
  | MPost => waiting (thread s) ∧ caught s = 1 ∧ sem s = 0 ∧ pend s = false
  | MJoin => caught s = 1 ∧ pend s = false ∧
      (waiting (thread s) ∧ sem s = 1 ∨ thread s = TEnd ∧ sem s = 0)
  | MDestroy => thread s = TEnd ∧ caught s = 1 ∧ sem s = 0 ∧ pend s = false
  end.

Definition main_rank (m : main_pc) : Z :=
  match m with
  | MEmpty => 9 | MAction => 8 | MSemInit => 7 | MCreate => 6 | MKill => 5
  | MSpin => 4 | MPost => 3 | MJoin => 2 | MDestroy => 1
  end.
Definition thread_rank (t : thread_pc) : Z :=
  match t with TNone => 3 | TStart => 2 | TWait => 1 | TEnd => 0 end.
Definition measure (s : state) : Z :=
  3 * main_rank (main s) + thread_rank (thread s) + (if pend s then 1 else 0) +
  match code s with None => 1 | Some _ => 0 end.

(** A step of the program: who moves, and the case of the step function. *)
Lemma step_inv restart t f s s' : step restart t f s = Some s' → code s = None ∧
  (t = 0%nat ∧ step_main f s = Some s' ∨ t = 1%nat ∧ step_thread restart f s = Some s').
Proof.
  unfold step. intros H. destruct (code s); [done|]. split; [done|].
  destruct t as [|[|t]]; [by left|by right|done].
Qed.

(** The states that [consistent] allows, one by one. *)
Ltac enumerate m th pe Hc :=
  unfold consistent, waiting in Hc; destruct m; simpl in Hc; destruct_and?; destruct_or?; destruct_and?;
  destruct_or?; subst; try destruct pe; simplify_eq.

Lemma consistent_step restart t f s s' :
  consistent s → step restart t f s = Some s' → consistent s' ∧ measure s' < measure s.
Proof.
  intros Hc (Hn & Hs)%step_inv. destruct s as [m th ca se pe co]; simpl in Hn; subst co.
  revert Hs. enumerate m th pe Hc; intros [[-> Hs]|[-> Hs]]; destruct f, restart; unfold step_main, step_thread in Hs;
    simpl in Hs;
    simplify_eq; unfold measure, consistent, waiting; simpl; split; try lia; try tauto.
Qed.

Lemma consistent_start : consistent start.
Proof. done. Qed.

Lemma consistent_run restart sched : consistent (run (step restart) sched start).
Proof. apply run_inv; [|done]. intros t f s s' Hc Hs. by eapply consistent_step. Qed.

(** Why the program exits. *)
Lemma code_step restart t f s s' : step restart t f s = Some s' →
  match code s' with
  | None => True
  | Some c => c = PTS_PASS ∨ c = PTS_UNRESOLVED ∧ f = true ∨ c = PTS_FAIL ∧ restart = false
  end.
Proof.
  intros (Hn & [[-> Hs]|[-> Hs]])%step_inv; destruct s as [m th ca se pe co]; simpl in Hn; subst co.
  - unfold step_main in Hs; simpl in Hs. destruct m, f, th; simpl in Hs; repeat case_match;
      simpl in *; naive_solver.
  - unfold step_thread in Hs; simpl in Hs. destruct th, f, pe; simpl in Hs; repeat case_match;
      simpl in *; naive_solver.
Qed.

(** The program stops only when it has called [exit]. *)
Lemma stuck_exits restart s : consistent s → stuck (step restart) s → ∃ c, code s = Some c.
Proof.
  intros Hc Hs. pose proof (Hs 0%nat) as H0. pose proof (Hs 1%nat) as H1.
  destruct s as [m th ca se pe [c|]]; [by exists c|]. exfalso. revert H0 H1.
  enumerate m th pe Hc; unfold step, step_main, step_thread; simpl; intros H0 H1; try done.
  all: by destruct restart.
Qed.

Lemma code_run restart sched c : code (run (step restart) sched start) = Some c →
  c = PTS_PASS ∨ c = PTS_UNRESOLVED ∨ c = PTS_FAIL ∧ restart = false.
Proof.
  revert c. apply (run_inv _ (λ s, ∀ c, code s = Some c →
    c = PTS_PASS ∨ c = PTS_UNRESOLVED ∨ c = PTS_FAIL ∧ restart = false)); [|done].
  intros t f s s' _ Hs c Hc. apply code_step in Hs. rewrite Hc in Hs. naive_solver.
Qed.

Lemma code_run_ok restart sched c : all_ok sched →
  code (run (step restart) sched start) = Some c →
  c = PTS_PASS ∨ c = PTS_FAIL ∧ restart = false.
Proof.
  intros Hok. revert c. apply (run_ok_inv (step restart) (λ s, ∀ c, code s = Some c →
    c = PTS_PASS ∨ c = PTS_FAIL ∧ restart = false)); [|done|done].
  intros t s s' _ Hs c Hc. apply code_step in Hs. rewrite Hc in Hs. naive_solver.
Qed.

(** No schedule has more than 31 moves. *)
Lemma moves_few restart sched : Z.of_nat (moves (step restart) sched start) ≤ 31.
Proof.
  apply (moves_bounded _ consistent measure); [apply consistent_step| |done].
  intros s Hs. unfold measure. destruct (main s), (thread s), (pend s), (code s); simpl; lia.
Qed.

(** When no call fails the program stops with PASS, or with FAIL on a system that
    does not restart the call. *)
Lemma stops_ok restart sched : all_ok sched → stuck (step restart) (run (step restart) sched start) →
  code (run (step restart) sched start) = Some PTS_PASS ∨
  code (run (step restart) sched start) = Some PTS_FAIL ∧ restart = false.
Proof.
  intros Hok Hs. destruct (stuck_exits restart _ (consistent_run restart sched) Hs) as [c Hc].
  destruct (code_run_ok restart sched c Hok Hc) as [->|[-> ->]]; auto.
Qed.

(** The thread takes the signal while it is in [sem_wait]. *)
Definition interrupts (restart : bool) (sched : list (nat * bool)) : Prop :=
  ∃ before f after, sched = before ++ (1%nat, f) :: after ∧
    let s := run (step restart) before start in code s = None ∧ thread s = TWait ∧ pend s = true.

Lemma ended_step restart t f s c : code s = Some c → step restart t f s = None.
Proof. unfold step. by intros ->. Qed.
Lemma ended_run restart sched s c : code s = Some c → run (step restart) sched s = s.
Proof.
  intros Hc. induction sched as [|[t f] sched IH]; [done|]. simpl. by rewrite (ended_step _ _ _ _ _ Hc).
Qed.

(** Only an interrupted [sem_wait] makes the test fail. *)
Lemma fails_step t f s s' : code s = None → step false t f s = Some s' →
  (code s' = Some PTS_FAIL ↔ t = 1%nat ∧ thread s = TWait ∧ pend s = true).
Proof.
  intros Hn (_ & [[-> Hs]|[-> Hs]])%step_inv; destruct s as [m th ca se pe co]; simpl in Hn; subst co;
    [unfold step_main in Hs|unfold step_thread in Hs]; simpl in Hs;
    [destruct m, f, th|destruct th, f, pe]; simpl in Hs; repeat case_match; simplify_eq; simpl; naive_solver.
Qed.

Lemma fails_iff sched :
  code (run (step false) sched start) = Some PTS_FAIL ↔ interrupts false sched.
Proof.
  split.
  - induction sched as [|[t f] sched IH] using rev_ind; [done|]. rewrite run_app. simpl.
    destruct (code (run (step false) sched start)) as [c|] eqn:Hc.
    + rewrite (ended_step _ _ _ _ _ Hc). simpl. rewrite Hc. intros [= ->].
      destruct (IH eq_refl) as (before & f' & after & -> & Hi).
      exists before, f', (after ++ [(t, f)]). by rewrite <- app_assoc.
    + destruct (step false t f _) as [s'|] eqn:E; simpl; [|by rewrite Hc].
      intros Hf. destruct (proj1 (fails_step _ _ _ _ Hc E) Hf) as (-> & ? & ?).
      by exists sched, f, [].
  - intros (before & f & after & -> & Hc & Ht & Hp). rewrite run_app. cbn [run].
    set (s := run _ before start) in *.
    assert (step false 1 f s = Some (exits PTS_FAIL (handler s))) as ->
      by (unfold step, step_thread; by rewrite Hc, Ht, Hp).
    simpl. by erewrite ended_run.
Qed.

(** The signal can come while the thread is in [sem_wait], and before. *)
Definition late_signal : list (nat * bool) :=
  (λ t, (t, false)) <$> [0; 0; 0; 0; 1; 0; 1]%nat.
Definition early_signal : list (nat * bool) :=
  (λ t, (t, false)) <$> [0; 0; 0; 0; 0; 1; 1; 0; 0; 1; 0; 0]%nat.

End Restart.

(** ** Family 17: select is interrupted *)

Module Interrupt.

Inductive parent_pc : Set := QFork | QSelect | QKill | QWait | QDone.

(** The child: not there, before [sigaction], before the test of the loop, in
    [select], ended or stopped. *)
Inductive child_pc : Set := KNone | KAction | KTest | KSelect | KEnd | KStopped.

#[export] Instance parent_pc_eq : EqDecision parent_pc.
Proof. solve_decision. Defined.
#[export] Instance child_pc_eq : EqDecision child_pc.
Proof. solve_decision. Defined.

Record state : Type := State {
  parent : parent_pc; child : child_pc; wakeup : Z; installed : bool; pend : bool;
  status : option Z; result : option Z; broadcast : bool }.

Definition start : state := State QFork KNone 1 false false None None false.

Definition at_parent (q : parent_pc) (s : state) : state :=
  State q (child s) (wakeup s) (installed s) (pend s) (status s) (result s) (broadcast s).
Definition at_child (k : child_pc) (s : state) : state :=
  State (parent s) k (wakeup s) (installed s) (pend s) (status s) (result s) (broadcast s).
Definition child_ends (st : Z) (s : state) : state :=
  State (parent s) KEnd (wakeup s) (installed s) (pend s) (Some st) (result s) (broadcast s).
Definition taken (s : state) : state :=
  State (parent s) (child s) (wakeup s) (installed s) false (status s) (result s) (broadcast s).
Definition handler (s : state) : state :=
  State (parent s) (child s) (wakeup s + 1) (installed s) false (status s) (result s) (broadcast s).

(** [if (WEXITSTATUS(s) == PTS_PASS)] *)
Definition judge (st : Z) : Z := if WEXITSTATUS st =? PTS_PASS then PTS_PASS else PTS_FAIL.

(** [junk]: the contents of the variable [s] when [waitpid] fails. A parent
    whose [fork] failed has -1 in [pid], and [kill] signals all processes. *)
Definition step_parent (junk : Z) (failing : bool) (s : state) : option state :=
  match parent s with
  | QFork => Some (at_parent QSelect (if failing then s else at_child KAction s))
  | QSelect => Some (at_parent QKill s)
  | QKill =>
      match child s with
      | KNone => Some (State QWait KNone (wakeup s) (installed s) (pend s) (status s) (result s) true)
      | k => Some (State QWait k (wakeup s) (installed s) (negb failing) (status s) (result s)
                     (broadcast s))
      end
  | QWait =>
      match child s, status s with
      | KNone, _ => Some (State QDone KNone (wakeup s) (installed s) (pend s) (status s)
                            (Some (judge junk)) (broadcast s))
      | k, Some st => Some (State QDone k (wakeup s) (installed s) (pend s) (status s)
                              (Some (judge st)) (broadcast s))
      | _, None => None
      end
  | QDone => None
  end.

(** The delivery of the signal in the child. [eintr]: a handler without
    SA_RESTART makes [select] return -1 with EINTR. *)
Definition step_signal (sig : Z) (eintr : bool) (s : state) : state :=
  if installed s then
    match child s with
    | KSelect => if eintr then child_ends (status_exited PTS_PASS) (handler s) else handler s
    | _ => handler s
    end
  else
    match default_kind_of sig with
    | DTerm => child_ends (status_killed sig) (taken s)
    | DStop => at_child KStopped (taken s)
    | DIgnore | DCont => taken s
    end.

Definition step_child (sig : Z) (eintr failing : bool) (s : state) : option state :=
  match child s with
  | KNone | KEnd | KStopped => None
  | k =>
      if pend s then Some (step_signal sig eintr s)
      else match k with
           | KAction => Some (State (parent s) KTest (wakeup s) (negb failing && catchable sig) (pend s)
                                (status s) (result s) (broadcast s))
           | KTest => if wakeup s =? 1 then Some (at_child KSelect s)
                      else Some (child_ends (status_exited PTS_FAIL) s)
           (* the time is over, or the call fails for another reason *)
           | _ => Some (at_child KTest s)
           end
  end.

Definition step (sig junk : Z) (eintr : bool) (t : nat) (failing : bool) (s : state) :
    option state :=
  match t with
  | O => step_parent junk failing s
  | S O => step_child sig eintr failing s
  | _ => None
  end.

(** The exit code of the parent under a schedule. *)
Definition sigaction_17 (sig : Z) (junk : Z) (eintr : bool) (sched : list (nat * bool)) :
    option Z :=
  result (run (step sig junk eintr) sched start).

(** ** The verdict is decided when the signal is sent

    [fate s] is the exit code that the parent will give once it waits: [None]
    if the child never ends. *)
Definition fate (sig : Z) (eintr : bool) (s : state) : option Z :=
  match result s with
  | Some v => Some v
  | None =>
      match status s with
      | Some st => Some (judge st)
      | None =>
          match child s with
          | KNone | KEnd | KStopped => None
          | k =>
              if pend s then
                if installed s then
                  match k with KSelect => Some (if eintr then PTS_PASS else PTS_FAIL)
                             | _ => Some PTS_FAIL end
                else match default_kind_of sig with DTerm => Some PTS_PASS | _ => None end
              else if wakeup s =? 1 then None else Some PTS_FAIL
          end
      end
  end.

(** The parent waits for its child, which has caught at most one signal; no
    handler is there before the call of sigaction. *)
Definition waits (s : state) : Prop :=
  match parent s with
  | QWait => result s = None ∧
      match child s with
      | KNone => False
      | KEnd => is_Some (status s)
      | KStopped => status s = None
      | KAction => status s = None ∧ installed s = false ∧ wakeup s = 1
      | KTest | KSelect => status s = None ∧
          (wakeup s = 1 ∨ wakeup s = 2 ∧ installed s = true ∧ pend s = false)
      end
  | QDone => is_Some (result s)
  | _ => False
  end.

Lemma judge_killed sig : 0 ≤ sig < 128 → judge (status_killed sig) = PTS_PASS.
Proof.
  intros Hs. unfold judge, WEXITSTATUS, status_killed.
  assert (Z.land sig 65280 = 0) as ->; [|done].
  apply Z.bits_inj'. intros n Hn. rewrite Z.land_spec, Z.bits_0.
  destruct (Z.lt_ge_cases n 7).
  - assert (Z.testbit 65280 n = false) as ->; [|by rewrite andb_false_r].
    assert (n = 0 ∨ n = 1 ∨ n = 2 ∨ n = 3 ∨ n = 4 ∨ n = 5 ∨ n = 6) by lia. by destruct_or?; subst.
  - rewrite (Z.bits_above_log2 sig n); [done|lia|].
    destruct (Z.eq_dec sig 0) as [->|]; [simpl; lia|]. apply Z.log2_lt_pow2; [lia|].
    assert (2 ^ 7 ≤ 2 ^ n) by (apply Z.pow_le_mono_r; lia). change (2 ^ 7) with 128 in *. lia.
Qed.

Lemma default_term_small sig : valid_sig sig = true → judge (status_killed sig) = PTS_PASS.
Proof.
  unfold valid_sig, SIGRTMAX. intros [? ?]%andb_prop. apply judge_killed. lia.
Qed.

(** Once the parent has its result, the child changes nothing. *)
Lemma fate_done sig junk eintr t f s s' :
  parent s = QDone → is_Some (result s) → step sig junk eintr t f s = Some s' →
  parent s' = QDone ∧ result s' = result s.
Proof.
  intros Hq Hr Hs. destruct t as [|[|t]]; simpl in Hs; [|..|done].
  - unfold step_parent in Hs. by rewrite Hq in Hs.
  - unfold step_child, step_signal in Hs. repeat (case_match || bool_case); by simplify_eq.
Qed.

Lemma fate_child sig eintr f s s' :
  valid_sig sig = true → waits s → parent s = QWait → step_child sig eintr f s = Some s' →
  waits s' ∧ fate sig eintr s' = fate sig eintr s.
Proof.
  intros Hv Hw Hq Hs. pose proof (default_term_small sig Hv) as Hj.
  destruct s as [q k w i pe st r b]. unfold waits in Hw; simpl in *. subst q.
  destruct Hw as [-> Hk]. destruct k; try done; first [destruct Hk as (-> & -> & ->)|destruct Hk as [-> Hw]].
  - destruct pe; unfold step_child, step_signal in Hs; simpl in Hs;
      [destruct (default_kind_of sig) eqn:E|]; simplify_eq; unfold waits, fate; simpl;
      rewrite ?E, ?Hj; try done.
    split; [|done]. by auto.
  - destruct Hw as [->|(-> & -> & ->)].
    + destruct pe, i; unfold step_child, step_signal in Hs; simpl in Hs;
        [|destruct (default_kind_of sig) eqn:E|..]; simplify_eq; unfold waits, fate; simpl;
        rewrite ?E, ?Hj; auto 8.
    + unfold step_child in Hs; simpl in Hs. simplify_eq. unfold waits, fate; simpl. split; [|done].
      split; [done|by eexists].
  - destruct Hw as [->|(-> & -> & ->)].
    + destruct pe, i; unfold step_child, step_signal in Hs; simpl in Hs;
        [destruct eintr|destruct (default_kind_of sig) eqn:E|..]; simplify_eq; unfold waits, fate; simpl;
        rewrite ?E, ?Hj; eauto 8.
    + unfold step_child in Hs; simpl in Hs. simplify_eq. unfold waits, fate; simpl. auto 8.
Qed.

Lemma fate_step sig junk eintr t f s s' :
  valid_sig sig = true → waits s → step sig junk eintr t f s = Some s' →
  waits s' ∧ fate sig eintr s' = fate sig eintr s.
Proof.
  intros Hv Hw Hs. pose proof Hw as Hw0. unfold waits in Hw. destruct (parent s) eqn:Hq; try done.
  - destruct t as [|[|t]]; [| |done]; [|by eapply fate_child].
    destruct Hw as [Hr Hk]. destruct s as [q k w i pe st r b]. simpl in *. unfold step_parent in Hs. simpl in Hs.
    subst. destruct k, st; try done; simplify_eq; unfold waits, fate; simpl; eauto.
  - destruct (fate_done _ _ _ _ _ _ _ Hq Hw Hs) as [Hq' Hr']. unfold waits, fate.
    rewrite Hq', Hr'. destruct Hw as [v ->]. by split; [eexists|].
Qed.

Lemma fate_run sig junk eintr sched s :
  valid_sig sig = true → waits s →
  waits (run (step sig junk eintr) sched s) ∧
  fate sig eintr (run (step sig junk eintr) sched s) = fate sig eintr s.
Proof.
  intros Hv Hw. apply (run_inv _ (λ s', waits s' ∧ fate sig eintr s' = fate sig eintr s)); [|done].
  intros t f s1 s2 [Hw1 <-] Hs. by eapply fate_step.
Qed.

(** The default action ends a child without handler. *)
Ltac killed sig Hj :=
  destruct (default_kind_of sig) eqn:E; simplify_eq;
  cbn [run step step_child step_parent child parent pend]; unfold step_signal; simpl;
  rewrite E; simpl; rewrite Hj.

(** Three steps of the child and one of the parent are enough for a verdict. *)
Lemma fate_reached sig junk eintr s v :
  valid_sig sig = true → waits s → fate sig eintr s = Some v →
  result (run (step sig junk eintr) [(1, false); (1, false); (1, false); (0, false)]%nat s) = Some v.
Proof.
  intros Hv Hw Hf. pose proof (default_term_small sig Hv) as Hj.
  destruct s as [q k w i pe st r b]. unfold waits in Hw; simpl in Hw.
  destruct q; try done.
  - destruct Hw as [-> Hk]. unfold fate in Hf; simpl in Hf.
    destruct k; try done; simpl in Hk.
    + destruct Hk as (-> & -> & ->). destruct pe; simpl in Hf; [|done].
      by killed sig Hj.
    + destruct Hk as [-> [->|(-> & -> & ->)]]; [|by simplify_eq/=].
      destruct pe; simpl in Hf; [|done]. destruct i; [by simplify_eq/=|].
      by killed sig Hj.
    + destruct Hk as [-> [->|(-> & -> & ->)]]; [|by simplify_eq/=].
      destruct pe; simpl in Hf; [|done]. destruct i; [by destruct eintr; simplify_eq/=|].
      by killed sig Hj.
    + destruct Hk as [x ->]. by simplify_eq/=.
    + by subst.
  - destruct Hw as [x ->]. unfold fate in Hf. simpl in Hf. simplify_eq.
    assert (∀ sched s', parent s' = QDone → result s' = Some v →
              result (run (step sig junk eintr) sched s') = Some v) as Hdone.
    { intros sched. induction sched as [|[t f] sched IH]; intros s' Hq Hr; [done|]. simpl.
      destruct (step sig junk eintr t f s') as [s2|] eqn:E; simpl; [|by apply IH].
      destruct (fate_done _ _ _ _ _ _ _ Hq ltac:(by eexists) E) as [Hq2 Hr2]. apply IH; congruence. }
    by apply Hdone.
Qed.

(** ** Runs of the program

    Until the parent sends the signal the child has caught none, and it has a handler
    only after its call of sigaction. *)
Definition unsent (s : state) : Prop :=
  wakeup s = 1 ∧ pend s = false ∧ status s = None ∧ result s = None ∧
  match child s with
  | KNone | KAction => installed s = false
  | KTest | KSelect => True
  | KEnd | KStopped => False
  end.

Definition before_kill (s : state) : Prop :=
  match parent s with
  | QFork => child s = KNone ∧ unsent s
  | QSelect | QKill => unsent s
  | _ => True
  end.

Lemma before_kill_step sig junk eintr t f s s' :
  before_kill s → step sig junk eintr t f s = Some s' → before_kill s'.
Proof.
  intros Hb Hs. destruct s as [q k w i pe st r b]. unfold before_kill, unsent in *. simpl in *.
  destruct t as [|[|t]]; [| |done]; simpl in Hs.
  - unfold step_parent in Hs. simpl in Hs.
    destruct q; simpl in Hs; repeat case_match; simplify_eq/=; destruct_and?; try done; naive_solver.
  - unfold step_child, step_signal in Hs. simpl in Hs.
    destruct q; repeat (case_match || bool_case); simplify_eq/=; destruct_and?; simplify_eq; try done; naive_solver.
Qed.

Lemma before_kill_run sig junk eintr sched : before_kill (run (step sig junk eintr) sched start).
Proof. apply run_inv; [|done]. intros t f s s' Hi Hs. by eapply before_kill_step. Qed.

(** Where the child is when the signal is sent decides. *)
Definition verdict_at (sig : Z) (eintr : bool) (k : child_pc) : option Z :=
  match k with
  | KAction => match default_kind_of sig with DTerm => Some PTS_PASS | _ => None end
  | KSelect => Some (if eintr then PTS_PASS else PTS_FAIL)
  | _ => Some PTS_FAIL
  end.

(** The verdict from the state in which the parent calls [kill], which fails or not;
    a child whose sigaction failed takes the signal as if it had not called it yet. *)
Definition outcome (sig junk : Z) (eintr failing : bool) (s : state) : option Z :=
  match child s with
  | KNone => Some (judge junk)
  | k => if failing then None else verdict_at sig eintr (if installed s then k else KAction)
  end.

Lemma sent sig junk eintr f s s' :
  before_kill s → parent s = QKill → child s ≠ KNone → step sig junk eintr 0 f s = Some s' →
  waits s' ∧ fate sig eintr s' = outcome sig junk eintr f s.
Proof.
  intros Hu Hq Hk Hs. destruct s as [q k w i pe st r b]. unfold before_kill, unsent in Hu. simpl in *. subst q.
  destruct Hu as (-> & -> & -> & -> & Hi). unfold step_parent in Hs. simpl in Hs.
  destruct k; try done; simplify_eq; unfold waits, fate, outcome; simpl; subst; destruct f; try destruct i; simpl; auto 8.
Qed.

(** The parent without a child judges what its variable contains. *)
Lemma childless_run sig junk eintr sched s :
  parent s = QDone ∧ result s = Some (judge junk) ∨ parent s = QWait ∧ child s = KNone ∧ result s = None →
  ∀ v, result (run (step sig junk eintr) sched s) = Some v → v = judge junk.
Proof.
  intros Hs. assert (let s' := run (step sig junk eintr) sched s in
    parent s' = QDone ∧ result s' = Some (judge junk) ∨ parent s' = QWait ∧ child s' = KNone ∧ result s' = None) as Hi.
  { apply (run_inv (step sig junk eintr) (λ s', parent s' = QDone ∧ result s' = Some (judge junk) ∨
      parent s' = QWait ∧ child s' = KNone ∧ result s' = None)); [|done].
    intros t f s1 s2 [[Hq Hr]|(Hq & Hk & Hr)] Hst.
    - left. destruct (fate_done _ _ _ _ _ _ _ Hq ltac:(by eexists) Hst) as [? ->]. done.
    - destruct t as [|[|t]]; [| |done]; simpl in Hst.
      + unfold step_parent in Hst. rewrite Hq, Hk in Hst. simplify_eq. by left.
      + unfold step_child in Hst. by rewrite Hk in Hst. }
  intros v Hv. destruct Hi as [[_ Hr]|(_ & _ & Hr)]; rewrite Hr in Hv; by simplify_eq.
Qed.

Definition finishing : list (nat * bool) := [(1, false); (1, false); (1, false); (0, false)]%nat.

Lemma kill_moves sig junk eintr f s : parent s = QKill → ∃ s', step sig junk eintr 0 f s = Some s'.
Proof. intros Hq. unfold step, step_parent. rewrite Hq. destruct (child s); by eexists. Qed.

Lemma kill_childless sig junk eintr f s s' : before_kill s → parent s = QKill → child s = KNone →
  step sig junk eintr 0 f s = Some s' → parent s' = QWait ∧ child s' = KNone ∧ result s' = None.
Proof.
  intros Hb Hq Hk Hs. unfold before_kill in Hb. rewrite Hq in Hb. destruct Hb as (_ & _ & _ & Hr & _).
  unfold step, step_parent in Hs. rewrite Hq, Hk in Hs. by simplify_eq/=.
Qed.

Lemma kill_decides sig junk eintr f s :
  valid_sig sig = true → before_kill s → parent s = QKill →
  (∀ after v, result (run (step sig junk eintr) ((0%nat, f) :: after) s) = Some v →
     outcome sig junk eintr f s = Some v) ∧
  (∀ v, outcome sig junk eintr f s = Some v →
     result (run (step sig junk eintr) ((0%nat, f) :: finishing) s) = Some v).
Proof.
  intros Hv Hb Hq. destruct (kill_moves sig junk eintr f s Hq) as [s' Hs].
  assert (∀ l, run (step sig junk eintr) ((0%nat, f) :: l) s = run (step sig junk eintr) l s') as Hrun.
  { intros l. cbn [run]. by rewrite Hs. }
  rewrite Hrun. setoid_rewrite Hrun. destruct (decide (child s = KNone)) as [Hn|Hn].
  - destruct (kill_childless _ _ _ _ _ _ Hb Hq Hn Hs) as (Hq' & Hk' & Hr').
    unfold outcome. rewrite Hn. split.
    + intros after v Hres. f_equal. symmetry. eapply childless_run; [|exact Hres]. by right.
    + intros v [= <-]. destruct s'. simpl in *. by subst.
  - destruct (sent sig junk eintr f s s' Hb Hq Hn Hs) as [Hw <-]. split.
    + intros after v. destruct (fate_run sig junk eintr after s' Hv Hw) as [_ <-]. unfold fate. by intros ->.
    + intros v Hf. by apply fate_reached.
Qed.

(** Every schedule: what happens before the call of [kill] decides the verdict, and four
    more steps are enough for it. *)
Lemma interrupt_race sig junk eintr f before :
  valid_sig sig = true → parent (run (step sig junk eintr) before start) = QKill →
  (∀ after v, sigaction_17 sig junk eintr (before ++ (0%nat, f) :: after) = Some v →
     outcome sig junk eintr f (run (step sig junk eintr) before start) = Some v) ∧
  (∀ v, outcome sig junk eintr f (run (step sig junk eintr) before start) = Some v →
     sigaction_17 sig junk eintr (before ++ (0%nat, f) :: finishing) = Some v).
Proof.
  intros Hv Hq. unfold sigaction_17.
  destruct (kill_decides sig junk eintr f _ Hv (before_kill_run sig junk eintr before) Hq) as [H1 H2].
  split; [intros after v|intros v]; rewrite run_app; [apply H1|apply H2].
Qed.

(** A verdict needs the call of [kill]. *)
Lemma result_killed sig junk eintr sched v :
  sigaction_17 sig junk eintr sched = Some v →
  ∃ before f after, sched = before ++ (0%nat, f) :: after ∧
    parent (run (step sig junk eintr) before start) = QKill.
Proof.
  intros Hr. assert (parent (run (step sig junk eintr) sched start) = QDone) as Hd.
  { revert v Hr. unfold sigaction_17.
    apply (run_inv (step sig junk eintr) (λ s, ∀ v, result s = Some v → parent s = QDone)); [|done].
    intros t f s s' IH Hs v. destruct s as [q k w i pe st r b]. simpl in IH.
    destruct t as [|[|t]]; [| |done]; simpl in Hs.
    - unfold step_parent in Hs. simpl in Hs. destruct q, k, st, f; simplify_eq/=; intros Hv;
        first [done | by specialize (IH _ Hv)].
    - unfold step_child, step_signal in Hs. simpl in Hs. repeat (case_match || bool_case); simplify_eq/=; intros Hv;
        first [done | by specialize (IH _ Hv)]. }
  clear Hr. assert (parent (run (step sig junk eintr) sched start) = QDone ∨
    parent (run (step sig junk eintr) sched start) = QWait) as Hp by auto. clear Hd.
  induction sched as [|[t f] sched IH] using rev_ind; [by destruct Hp|].
  rewrite run_app in Hp. cbn [run] in Hp. set (s := run _ sched start) in *.
  destruct (decide (t = 0%nat ∧ parent s = QKill)) as [[-> Hq]|Hn]; [by exists sched, f, []|].
  destruct IH as (before & f' & after & -> & Hq); [|exists before, f', (after ++ [(t, f)]); by rewrite <- app_assoc].
  destruct (step sig junk eintr t f s) as [s'|] eqn:E; [|done]. simpl in Hp.
  destruct s as [q k w i pe st r b]. simpl in *. destruct t as [|[|t]]; [| |done]; simpl in E.
  - unfold step_parent in E. simpl in E. destruct q, k, st, f; simplify_eq/=; naive_solver.
  - unfold step_child, step_signal in E. simpl in E. repeat (case_match || bool_case); simplify_eq/=; naive_solver.
Qed.

(** Whether the system interrupts [select] matters only for a child that is in it. *)
Lemma tells_eintr sig junk f s :
  outcome sig junk true f s ≠ outcome sig junk false f s ↔ child s = KSelect ∧ installed s = true ∧ f = false.
Proof.
  unfold outcome, verdict_at. destruct (child s), f, (installed s); simpl; naive_solver.
Qed.

(** When [fork] fails the parent sends the signal to all processes. *)
Lemma fork_failure_broadcasts sig junk eintr :
  broadcast (run (step sig junk eintr) [(0, true); (0, false); (0, false)]%nat start) = true ∧
  sigaction_17 sig junk eintr [(0, true); (0, false); (0, false); (0, false)]%nat = Some (judge junk).
Proof. done. Qed.

End Interrupt.
