(* ===== verification/SigactionFiles.v ===== *)
(** * The files of the tests of sigaction

    One definition for each file of src/conformance/interfaces/sigaction that
    belongs to a family of SigactionTests or SigRace: the program of the family
    for the signal of the file. [files_n] are the files of a family, in the
    order of [suite_signals]. *)

From stdpp Require Import base numbers list gmap strings.
From S2P Require Import Prelude SigApi SigProc SigactionTests SigRace.

Open Scope Z_scope.

(** The 26 signals of the suite. *)
Definition suite_signals : list Z :=
  [
   SIGABRT; SIGALRM; SIGBUS; SIGCHLD; SIGCONT; SIGFPE; SIGHUP; SIGILL; SIGINT; SIGPIPE;
   SIGQUIT; SIGSEGV; SIGTERM; SIGTSTP; SIGTTIN; SIGTTOU; SIGUSR1; SIGUSR2; SIGPOLL; SIGPROF;
   SIGSYS; SIGTRAP; SIGURG; SIGVTALRM; SIGXCPU; SIGXFSZ].

(** The signal of a handler and the one in its mask, for the files 8-n.c. *)
Definition suite_pairs : list (Z * Z) :=
  [
   (SIGABRT, SIGXFSZ); (SIGALRM, SIGABRT); (SIGBUS, SIGALRM); (SIGCHLD, SIGBUS);
   (SIGCONT, SIGCHLD); (SIGFPE, SIGCONT); (SIGHUP, SIGFPE); (SIGILL, SIGHUP); (SIGINT, SIGILL);
   (SIGPIPE, SIGINT); (SIGQUIT, SIGPIPE); (SIGSEGV, SIGQUIT); (SIGTERM, SIGSEGV);
   (SIGTSTP, SIGTERM); (SIGTTIN, SIGTSTP); (SIGTTOU, SIGTTIN); (SIGUSR1, SIGTTOU);
   (SIGUSR2, SIGUSR1); (SIGPOLL, SIGUSR2); (SIGPROF, SIGPOLL); (SIGSYS, SIGPROF);
   (SIGTRAP, SIGSYS); (SIGURG, SIGTRAP); (SIGVTALRM, SIGURG); (SIGXCPU, SIGVTALRM);
   (SIGXFSZ, SIGXCPU)].

Section Files.
Context {St : Type} `{SigSys St}.
Notation test := (nat → St → outcome Z).

(** Files 1-1.c to 1-26.c. *)

Definition sigaction_1_1 : test := sigaction_1 SIGABRT.
Definition sigaction_1_2 : test := sigaction_1 SIGALRM.
Definition sigaction_1_3 : test := sigaction_1 SIGBUS.
Definition sigaction_1_4 : test := sigaction_1 SIGCHLD.
Definition sigaction_1_5 : test := sigaction_1 SIGCONT.
Definition sigaction_1_6 : test := sigaction_1 SIGFPE.
Definition sigaction_1_7 : test := sigaction_1 SIGHUP.
Definition sigaction_1_8 : test := sigaction_1 SIGILL.
Definition sigaction_1_9 : test := sigaction_1 SIGINT.
Definition sigaction_1_10 : test := sigaction_1 SIGPIPE.
Definition sigaction_1_11 : test := sigaction_1 SIGQUIT.
Definition sigaction_1_12 : test := sigaction_1 SIGSEGV.
Definition sigaction_1_13 : test := sigaction_1 SIGTERM.
Definition sigaction_1_14 : test := sigaction_1 SIGTSTP.
Definition sigaction_1_15 : test := sigaction_1 SIGTTIN.
Definition sigaction_1_16 : test := sigaction_1 SIGTTOU.
Definition sigaction_1_17 : test := sigaction_1 SIGUSR1.
Definition sigaction_1_18 : test := sigaction_1 SIGUSR2.
Definition sigaction_1_19 : test := sigaction_1 SIGPOLL.
Definition sigaction_1_20 : test := sigaction_1 SIGPROF.
Definition sigaction_1_21 : test := sigaction_1 SIGSYS.
Definition sigaction_1_22 : test := sigaction_1 SIGTRAP.
Definition sigaction_1_23 : test := sigaction_1 SIGURG.
Definition sigaction_1_24 : test := sigaction_1 SIGVTALRM.
Definition sigaction_1_25 : test := sigaction_1 SIGXCPU.
Definition sigaction_1_26 : test := sigaction_1 SIGXFSZ.

Definition files_1 : list test :=
  [
   sigaction_1_1; sigaction_1_2; sigaction_1_3; sigaction_1_4; sigaction_1_5; sigaction_1_6;
   sigaction_1_7; sigaction_1_8; sigaction_1_9; sigaction_1_10; sigaction_1_11; sigaction_1_12;
   sigaction_1_13; sigaction_1_14; sigaction_1_15; sigaction_1_16; sigaction_1_17;
   sigaction_1_18; sigaction_1_19; sigaction_1_20; sigaction_1_21; sigaction_1_22;
   sigaction_1_23; sigaction_1_24; sigaction_1_25; sigaction_1_26].

(** Files 2-1.c to 2-26.c. *)

Definition sigaction_2_1 : test := sigaction_2 SIGABRT.
Definition sigaction_2_2 : test := sigaction_2 SIGALRM.
Definition sigaction_2_3 : test := sigaction_2 SIGBUS.
Definition sigaction_2_4 : test := sigaction_2 SIGCHLD.
Definition sigaction_2_5 : test := sigaction_2 SIGCONT.
Definition sigaction_2_6 : test := sigaction_2 SIGFPE.
Definition sigaction_2_7 : test := sigaction_2 SIGHUP.
Definition sigaction_2_8 : test := sigaction_2 SIGILL.
Definition sigaction_2_9 : test := sigaction_2 SIGINT.
Definition sigaction_2_10 : test := sigaction_2 SIGPIPE.
Definition sigaction_2_11 : test := sigaction_2 SIGQUIT.
Definition sigaction_2_12 : test := sigaction_2 SIGSEGV.
Definition sigaction_2_13 : test := sigaction_2 SIGTERM.
Definition sigaction_2_14 : test := sigaction_2 SIGTSTP.
Definition sigaction_2_15 : test := sigaction_2 SIGTTIN.
Definition sigaction_2_16 : test := sigaction_2 SIGTTOU.
Definition sigaction_2_17 : test := sigaction_2 SIGUSR1.
Definition sigaction_2_18 : test := sigaction_2 SIGUSR2.
Definition sigaction_2_19 : test := sigaction_2 SIGPOLL.
Definition sigaction_2_20 : test := sigaction_2 SIGPROF.
Definition sigaction_2_21 : test := sigaction_2 SIGSYS.
Definition sigaction_2_22 : test := sigaction_2 SIGTRAP.
Definition sigaction_2_23 : test := sigaction_2 SIGURG.
Definition sigaction_2_24 : test := sigaction_2 SIGVTALRM.
Definition sigaction_2_25 : test := sigaction_2 SIGXCPU.
Definition sigaction_2_26 : test := sigaction_2 SIGXFSZ.

Definition files_2 : list test :=
  [
   sigaction_2_1; sigaction_2_2; sigaction_2_3; sigaction_2_4; sigaction_2_5; sigaction_2_6;
   sigaction_2_7; sigaction_2_8; sigaction_2_9; sigaction_2_10; sigaction_2_11; sigaction_2_12;
   sigaction_2_13; sigaction_2_14; sigaction_2_15; sigaction_2_16; sigaction_2_17;
   sigaction_2_18; sigaction_2_19; sigaction_2_20; sigaction_2_21; sigaction_2_22;
   sigaction_2_23; sigaction_2_24; sigaction_2_25; sigaction_2_26].

(** Files 3-1.c to 3-26.c. *)

Definition sigaction_3_1 : test := sigaction_3 SIGABRT.
Definition sigaction_3_2 : test := sigaction_3 SIGALRM.
Definition sigaction_3_3 : test := sigaction_3 SIGBUS.
Definition sigaction_3_4 : test := sigaction_3 SIGCHLD.
Definition sigaction_3_5 : test := sigaction_3 SIGCONT.
Definition sigaction_3_6 : test := sigaction_3 SIGFPE.
Definition sigaction_3_7 : test := sigaction_3 SIGHUP.
Definition sigaction_3_8 : test := sigaction_3 SIGILL.
Definition sigaction_3_9 : test := sigaction_3 SIGINT.
Definition sigaction_3_10 : test := sigaction_3 SIGPIPE.
Definition sigaction_3_11 : test := sigaction_3 SIGQUIT.
Definition sigaction_3_12 : test := sigaction_3 SIGSEGV.
Definition sigaction_3_13 : test := sigaction_3 SIGTERM.
Definition sigaction_3_14 : test := sigaction_3 SIGTSTP.
Definition sigaction_3_15 : test := sigaction_3 SIGTTIN.
Definition sigaction_3_16 : test := sigaction_3 SIGTTOU.
Definition sigaction_3_17 : test := sigaction_3 SIGUSR1.
Definition sigaction_3_18 : test := sigaction_3 SIGUSR2.
Definition sigaction_3_19 : test := sigaction_3 SIGPOLL.
Definition sigaction_3_20 : test := sigaction_3 SIGPROF.
Definition sigaction_3_21 : test := sigaction_3 SIGSYS.
Definition sigaction_3_22 : test := sigaction_3 SIGTRAP.
Definition sigaction_3_23 : test := sigaction_3 SIGURG.
Definition sigaction_3_24 : test := sigaction_3 SIGVTALRM.
Definition sigaction_3_25 : test := sigaction_3 SIGXCPU.
Definition sigaction_3_26 : test := sigaction_3 SIGXFSZ.

Definition files_3 : list test :=
  [
   sigaction_3_1; sigaction_3_2; sigaction_3_3; sigaction_3_4; sigaction_3_5; sigaction_3_6;
   sigaction_3_7; sigaction_3_8; sigaction_3_9; sigaction_3_10; sigaction_3_11; sigaction_3_12;
   sigaction_3_13; sigaction_3_14; sigaction_3_15; sigaction_3_16; sigaction_3_17;
   sigaction_3_18; sigaction_3_19; sigaction_3_20; sigaction_3_21; sigaction_3_22;
   sigaction_3_23; sigaction_3_24; sigaction_3_25; sigaction_3_26].

(** Files 4-1.c to 4-26.c. *)

Definition sigaction_4_1 : test := sigaction_4_kill SIGABRT.
Definition sigaction_4_2 : test := sigaction_4_kill SIGALRM.
Definition sigaction_4_3 : test := sigaction_4_kill SIGBUS.
Definition sigaction_4_4 : test := sigaction_4_kill SIGCHLD.
Definition sigaction_4_5 : test := sigaction_4_kill SIGCONT.
Definition sigaction_4_6 : test := sigaction_4_kill SIGFPE.
Definition sigaction_4_7 : test := sigaction_4_kill SIGHUP.
Definition sigaction_4_8 : test := sigaction_4_kill SIGILL.
Definition sigaction_4_9 : test := sigaction_4_kill SIGINT.
Definition sigaction_4_10 : test := sigaction_4_kill SIGPIPE.
Definition sigaction_4_11 : test := sigaction_4_kill SIGQUIT.
Definition sigaction_4_12 : test := sigaction_4_kill SIGSEGV.
Definition sigaction_4_13 : test := sigaction_4_kill SIGTERM.
Definition sigaction_4_14 : test := sigaction_4_kill SIGTSTP.
Definition sigaction_4_15 : test := sigaction_4_kill SIGTTIN.
Definition sigaction_4_16 : test := sigaction_4_kill SIGTTOU.
Definition sigaction_4_17 : test := sigaction_4_kill SIGUSR1.
Definition sigaction_4_18 : test := sigaction_4_kill SIGUSR2.
Definition sigaction_4_19 : test := sigaction_4_kill SIGPOLL.
Definition sigaction_4_20 : test := sigaction_4_kill SIGPROF.
Definition sigaction_4_21 : test := sigaction_4_kill SIGSYS.
Definition sigaction_4_22 : test := sigaction_4_kill SIGTRAP.
Definition sigaction_4_23 : test := sigaction_4_kill SIGURG.
Definition sigaction_4_24 : test := sigaction_4_kill SIGVTALRM.
Definition sigaction_4_25 : test := sigaction_4_kill SIGXCPU.
Definition sigaction_4_26 : test := sigaction_4_kill SIGXFSZ.

Definition files_4_kill : list test :=
  [
   sigaction_4_1; sigaction_4_2; sigaction_4_3; sigaction_4_4; sigaction_4_5; sigaction_4_6;
   sigaction_4_7; sigaction_4_8; sigaction_4_9; sigaction_4_10; sigaction_4_11; sigaction_4_12;
   sigaction_4_13; sigaction_4_14; sigaction_4_15; sigaction_4_16; sigaction_4_17;
   sigaction_4_18; sigaction_4_19; sigaction_4_20; sigaction_4_21; sigaction_4_22;
   sigaction_4_23; sigaction_4_24; sigaction_4_25; sigaction_4_26].

(** Files 4-27.c to 4-52.c. *)

Definition sigaction_4_27 : test := sigaction_4_stop SIGABRT.
Definition sigaction_4_28 : test := sigaction_4_stop SIGALRM.
Definition sigaction_4_29 : test := sigaction_4_stop SIGBUS.
Definition sigaction_4_30 : test := sigaction_4_stop SIGCHLD.
Definition sigaction_4_31 : test := sigaction_4_stop SIGCONT.
Definition sigaction_4_32 : test := sigaction_4_stop SIGFPE.
Definition sigaction_4_33 : test := sigaction_4_stop SIGHUP.
Definition sigaction_4_34 : test := sigaction_4_stop SIGILL.
Definition sigaction_4_35 : test := sigaction_4_stop SIGINT.
Definition sigaction_4_36 : test := sigaction_4_stop SIGPIPE.
Definition sigaction_4_37 : test := sigaction_4_stop SIGQUIT.
Definition sigaction_4_38 : test := sigaction_4_stop SIGSEGV.
Definition sigaction_4_39 : test := sigaction_4_stop SIGTERM.
Definition sigaction_4_40 : test := sigaction_4_stop SIGTSTP.
Definition sigaction_4_41 : test := sigaction_4_stop SIGTTIN.
Definition sigaction_4_42 : test := sigaction_4_stop SIGTTOU.
Definition sigaction_4_43 : test := sigaction_4_stop SIGUSR1.
Definition sigaction_4_44 : test := sigaction_4_stop SIGUSR2.
Definition sigaction_4_45 : test := sigaction_4_stop SIGPOLL.
Definition sigaction_4_46 : test := sigaction_4_stop SIGPROF.
Definition sigaction_4_47 : test := sigaction_4_stop SIGSYS.
Definition sigaction_4_48 : test := sigaction_4_stop SIGTRAP.
Definition sigaction_4_49 : test := sigaction_4_stop SIGURG.
Definition sigaction_4_50 : test := sigaction_4_stop SIGVTALRM.
Definition sigaction_4_51 : test := sigaction_4_stop SIGXCPU.
Definition sigaction_4_52 : test := sigaction_4_stop SIGXFSZ.

Definition files_4_stop : list test :=
  [
   sigaction_4_27; sigaction_4_28; sigaction_4_29; sigaction_4_30; sigaction_4_31;
   sigaction_4_32; sigaction_4_33; sigaction_4_34; sigaction_4_35; sigaction_4_36;
   sigaction_4_37; sigaction_4_38; sigaction_4_39; sigaction_4_40; sigaction_4_41;
   sigaction_4_42; sigaction_4_43; sigaction_4_44; sigaction_4_45; sigaction_4_46;
   sigaction_4_47; sigaction_4_48; sigaction_4_49; sigaction_4_50; sigaction_4_51;
   sigaction_4_52].

(** Files 4-53.c to 4-78.c. *)

Definition sigaction_4_53 : test := sigaction_4_silent SIGKILL SIGABRT.
Definition sigaction_4_54 : test := sigaction_4_silent SIGKILL SIGALRM.
Definition sigaction_4_55 : test := sigaction_4_silent SIGKILL SIGBUS.
Definition sigaction_4_56 : test := sigaction_4_silent SIGKILL SIGCHLD.
Definition sigaction_4_57 : test := sigaction_4_silent SIGKILL SIGCONT.
Definition sigaction_4_58 : test := sigaction_4_silent SIGKILL SIGFPE.
Definition sigaction_4_59 : test := sigaction_4_silent SIGKILL SIGHUP.
Definition sigaction_4_60 : test := sigaction_4_silent SIGKILL SIGILL.
Definition sigaction_4_61 : test := sigaction_4_silent SIGKILL SIGINT.
Definition sigaction_4_62 : test := sigaction_4_silent SIGKILL SIGPIPE.
Definition sigaction_4_63 : test := sigaction_4_silent SIGKILL SIGQUIT.
Definition sigaction_4_64 : test := sigaction_4_silent SIGKILL SIGSEGV.
Definition sigaction_4_65 : test := sigaction_4_silent SIGKILL SIGTERM.
Definition sigaction_4_66 : test := sigaction_4_silent SIGKILL SIGTSTP.
Definition sigaction_4_67 : test := sigaction_4_silent SIGKILL SIGTTIN.
Definition sigaction_4_68 : test := sigaction_4_silent SIGKILL SIGTTOU.
Definition sigaction_4_69 : test := sigaction_4_silent SIGKILL SIGUSR1.
Definition sigaction_4_70 : test := sigaction_4_silent SIGKILL SIGUSR2.
Definition sigaction_4_71 : test := sigaction_4_silent SIGKILL SIGPOLL.
Definition sigaction_4_72 : test := sigaction_4_silent SIGKILL SIGPROF.
Definition sigaction_4_73 : test := sigaction_4_silent SIGKILL SIGSYS.
Definition sigaction_4_74 : test := sigaction_4_silent SIGKILL SIGTRAP.
Definition sigaction_4_75 : test := sigaction_4_silent SIGKILL SIGURG.
Definition sigaction_4_76 : test := sigaction_4_silent SIGKILL SIGVTALRM.
Definition sigaction_4_77 : test := sigaction_4_silent SIGKILL SIGXCPU.
Definition sigaction_4_78 : test := sigaction_4_silent SIGKILL SIGXFSZ.

Definition files_4_silent_kill : list test :=
  [
   sigaction_4_53; sigaction_4_54; sigaction_4_55; sigaction_4_56; sigaction_4_57;
   sigaction_4_58; sigaction_4_59; sigaction_4_60; sigaction_4_61; sigaction_4_62;
   sigaction_4_63; sigaction_4_64; sigaction_4_65; sigaction_4_66; sigaction_4_67;
   sigaction_4_68; sigaction_4_69; sigaction_4_70; sigaction_4_71; sigaction_4_72;
   sigaction_4_73; sigaction_4_74; sigaction_4_75; sigaction_4_76; sigaction_4_77;
   sigaction_4_78].

(** Files 4-79.c to 4-104.c. *)

Definition sigaction_4_79 : test := sigaction_4_silent SIGSTOP SIGABRT.
Definition sigaction_4_80 : test := sigaction_4_silent SIGSTOP SIGALRM.
Definition sigaction_4_81 : test := sigaction_4_silent SIGSTOP SIGBUS.
Definition sigaction_4_82 : test := sigaction_4_silent SIGSTOP SIGCHLD.
Definition sigaction_4_83 : test := sigaction_4_silent SIGSTOP SIGCONT.
Definition sigaction_4_84 : test := sigaction_4_silent SIGSTOP SIGFPE.
Definition sigaction_4_85 : test := sigaction_4_silent SIGSTOP SIGHUP.
Definition sigaction_4_86 : test := sigaction_4_silent SIGSTOP SIGILL.
Definition sigaction_4_87 : test := sigaction_4_silent SIGSTOP SIGINT.
Definition sigaction_4_88 : test := sigaction_4_silent SIGSTOP SIGPIPE.
Definition sigaction_4_89 : test := sigaction_4_silent SIGSTOP SIGQUIT.
Definition sigaction_4_90 : test := sigaction_4_silent SIGSTOP SIGSEGV.
Definition sigaction_4_91 : test := sigaction_4_silent SIGSTOP SIGTERM.
Definition sigaction_4_92 : test := sigaction_4_silent SIGSTOP SIGTSTP.
Definition sigaction_4_93 : test := sigaction_4_silent SIGSTOP SIGTTIN.
Definition sigaction_4_94 : test := sigaction_4_silent SIGSTOP SIGTTOU.
Definition sigaction_4_95 : test := sigaction_4_silent SIGSTOP SIGUSR1.
Definition sigaction_4_96 : test := sigaction_4_silent SIGSTOP SIGUSR2.
Definition sigaction_4_97 : test := sigaction_4_silent SIGSTOP SIGPOLL.
Definition sigaction_4_98 : test := sigaction_4_silent SIGSTOP SIGPROF.
Definition sigaction_4_99 : test := sigaction_4_silent SIGSTOP SIGSYS.
Definition sigaction_4_100 : test := sigaction_4_silent SIGSTOP SIGTRAP.
Definition sigaction_4_101 : test := sigaction_4_silent SIGSTOP SIGURG.
Definition sigaction_4_102 : test := sigaction_4_silent SIGSTOP SIGVTALRM.
Definition sigaction_4_103 : test := sigaction_4_silent SIGSTOP SIGXCPU.
Definition sigaction_4_104 : test := sigaction_4_silent SIGSTOP SIGXFSZ.

Definition files_4_silent_stop : list test :=
  [
   sigaction_4_79; sigaction_4_80; sigaction_4_81; sigaction_4_82; sigaction_4_83;
   sigaction_4_84; sigaction_4_85; sigaction_4_86; sigaction_4_87; sigaction_4_88;
   sigaction_4_89; sigaction_4_90; sigaction_4_91; sigaction_4_92; sigaction_4_93;
   sigaction_4_94; sigaction_4_95; sigaction_4_96; sigaction_4_97; sigaction_4_98;
   sigaction_4_99; sigaction_4_100; sigaction_4_101; sigaction_4_102; sigaction_4_103;
   sigaction_4_104].

(** Files 6-1.c to 6-26.c. *)

Definition sigaction_6_1 : test := sigaction_6 SIGABRT.
Definition sigaction_6_2 : test := sigaction_6 SIGALRM.
Definition sigaction_6_3 : test := sigaction_6 SIGBUS.
Definition sigaction_6_4 : test := sigaction_6 SIGCHLD.
Definition sigaction_6_5 : test := sigaction_6 SIGCONT.
Definition sigaction_6_6 : test := sigaction_6 SIGFPE.
Definition sigaction_6_7 : test := sigaction_6 SIGHUP.
Definition sigaction_6_8 : test := sigaction_6 SIGILL.
Definition sigaction_6_9 : test := sigaction_6 SIGINT.
Definition sigaction_6_10 : test := sigaction_6 SIGPIPE.
Definition sigaction_6_11 : test := sigaction_6 SIGQUIT.
Definition sigaction_6_12 : test := sigaction_6 SIGSEGV.
Definition sigaction_6_13 : test := sigaction_6 SIGTERM.
Definition sigaction_6_14 : test := sigaction_6 SIGTSTP.
Definition sigaction_6_15 : test := sigaction_6 SIGTTIN.
Definition sigaction_6_16 : test := sigaction_6 SIGTTOU.
Definition sigaction_6_17 : test := sigaction_6 SIGUSR1.
Definition sigaction_6_18 : test := sigaction_6 SIGUSR2.
Definition sigaction_6_19 : test := sigaction_6 SIGPOLL.
Definition sigaction_6_20 : test := sigaction_6 SIGPROF.
Definition sigaction_6_21 : test := sigaction_6 SIGSYS.
Definition sigaction_6_22 : test := sigaction_6 SIGTRAP.
Definition sigaction_6_23 : test := sigaction_6 SIGURG.
Definition sigaction_6_24 : test := sigaction_6 SIGVTALRM.
Definition sigaction_6_25 : test := sigaction_6 SIGXCPU.
Definition sigaction_6_26 : test := sigaction_6 SIGXFSZ.

Definition files_6 : list test :=
  [
   sigaction_6_1; sigaction_6_2; sigaction_6_3; sigaction_6_4; sigaction_6_5; sigaction_6_6;
   sigaction_6_7; sigaction_6_8; sigaction_6_9; sigaction_6_10; sigaction_6_11; sigaction_6_12;
   sigaction_6_13; sigaction_6_14; sigaction_6_15; sigaction_6_16; sigaction_6_17;
   sigaction_6_18; sigaction_6_19; sigaction_6_20; sigaction_6_21; sigaction_6_22;
   sigaction_6_23; sigaction_6_24; sigaction_6_25; sigaction_6_26].

(** Files 8-1.c to 8-26.c. *)

Definition sigaction_8_1 : test := sigaction_8 SIGABRT SIGXFSZ.
Definition sigaction_8_2 : test := sigaction_8 SIGALRM SIGABRT.
Definition sigaction_8_3 : test := sigaction_8 SIGBUS SIGALRM.
Definition sigaction_8_4 : test := sigaction_8 SIGCHLD SIGBUS.
Definition sigaction_8_5 : test := sigaction_8 SIGCONT SIGCHLD.
Definition sigaction_8_6 : test := sigaction_8 SIGFPE SIGCONT.
Definition sigaction_8_7 : test := sigaction_8 SIGHUP SIGFPE.
Definition sigaction_8_8 : test := sigaction_8 SIGILL SIGHUP.
Definition sigaction_8_9 : test := sigaction_8 SIGINT SIGILL.
Definition sigaction_8_10 : test := sigaction_8 SIGPIPE SIGINT.
Definition sigaction_8_11 : test := sigaction_8 SIGQUIT SIGPIPE.
Definition sigaction_8_12 : test := sigaction_8 SIGSEGV SIGQUIT.
Definition sigaction_8_13 : test := sigaction_8 SIGTERM SIGSEGV.
Definition sigaction_8_14 : test := sigaction_8 SIGTSTP SIGTERM.
Definition sigaction_8_15 : test := sigaction_8 SIGTTIN SIGTSTP.
Definition sigaction_8_16 : test := sigaction_8 SIGTTOU SIGTTIN.
Definition sigaction_8_17 : test := sigaction_8 SIGUSR1 SIGTTOU.
Definition sigaction_8_18 : test := sigaction_8 SIGUSR2 SIGUSR1.
Definition sigaction_8_19 : test := sigaction_8 SIGPOLL SIGUSR2.
Definition sigaction_8_20 : test := sigaction_8 SIGPROF SIGPOLL.
Definition sigaction_8_21 : test := sigaction_8 SIGSYS SIGPROF.
Definition sigaction_8_22 : test := sigaction_8 SIGTRAP SIGSYS.
Definition sigaction_8_23 : test := sigaction_8 SIGURG SIGTRAP.
Definition sigaction_8_24 : test := sigaction_8 SIGVTALRM SIGURG.
Definition sigaction_8_25 : test := sigaction_8 SIGXCPU SIGVTALRM.
Definition sigaction_8_26 : test := sigaction_8 SIGXFSZ SIGXCPU.

Definition files_8 : list test :=
  [
   sigaction_8_1; sigaction_8_2; sigaction_8_3; sigaction_8_4; sigaction_8_5; sigaction_8_6;
   sigaction_8_7; sigaction_8_8; sigaction_8_9; sigaction_8_10; sigaction_8_11; sigaction_8_12;
   sigaction_8_13; sigaction_8_14; sigaction_8_15; sigaction_8_16; sigaction_8_17;
   sigaction_8_18; sigaction_8_19; sigaction_8_20; sigaction_8_21; sigaction_8_22;
   sigaction_8_23; sigaction_8_24; sigaction_8_25; sigaction_8_26].

(** Files 12-1.c to 12-26.c. *)

Definition sigaction_12_1 : test := sigaction_12 SIGABRT.
Definition sigaction_12_2 : test := sigaction_12 SIGALRM.
Definition sigaction_12_3 : test := sigaction_12 SIGBUS.
Definition sigaction_12_4 : test := sigaction_12 SIGCHLD.
Definition sigaction_12_5 : test := sigaction_12 SIGCONT.
Definition sigaction_12_6 : test := sigaction_12 SIGFPE.
Definition sigaction_12_7 : test := sigaction_12 SIGHUP.
Definition sigaction_12_8 : test := sigaction_12 SIGILL.
Definition sigaction_12_9 : test := sigaction_12 SIGINT.
Definition sigaction_12_10 : test := sigaction_12 SIGPIPE.
Definition sigaction_12_11 : test := sigaction_12 SIGQUIT.
Definition sigaction_12_12 : test := sigaction_12 SIGSEGV.
Definition sigaction_12_13 : test := sigaction_12 SIGTERM.
Definition sigaction_12_14 : test := sigaction_12 SIGTSTP.
Definition sigaction_12_15 : test := sigaction_12 SIGTTIN.
Definition sigaction_12_16 : test := sigaction_12 SIGTTOU.
Definition sigaction_12_17 : test := sigaction_12 SIGUSR1.
Definition sigaction_12_18 : test := sigaction_12 SIGUSR2.
Definition sigaction_12_19 : test := sigaction_12 SIGPOLL.
Definition sigaction_12_20 : test := sigaction_12 SIGPROF.
Definition sigaction_12_21 : test := sigaction_12 SIGSYS.
Definition sigaction_12_22 : test := sigaction_12 SIGTRAP.
Definition sigaction_12_23 : test := sigaction_12 SIGURG.
Definition sigaction_12_24 : test := sigaction_12 SIGVTALRM.
Definition sigaction_12_25 : test := sigaction_12 SIGXCPU.
Definition sigaction_12_26 : test := sigaction_12 SIGXFSZ.

Definition files_12 : list test :=
  [
   sigaction_12_1; sigaction_12_2; sigaction_12_3; sigaction_12_4; sigaction_12_5;
   sigaction_12_6; sigaction_12_7; sigaction_12_8; sigaction_12_9; sigaction_12_10;
   sigaction_12_11; sigaction_12_12; sigaction_12_13; sigaction_12_14; sigaction_12_15;
   sigaction_12_16; sigaction_12_17; sigaction_12_18; sigaction_12_19; sigaction_12_20;
   sigaction_12_21; sigaction_12_22; sigaction_12_23; sigaction_12_24; sigaction_12_25;
   sigaction_12_26].

(** Files 12-27.c to 12-52.c. *)

Definition sigaction_12_27 : test := sigaction_13 SA_ONSTACK SIGABRT.
Definition sigaction_12_28 : test := sigaction_13 SA_ONSTACK SIGALRM.
Definition sigaction_12_29 : test := sigaction_13 SA_ONSTACK SIGBUS.
Definition sigaction_12_30 : test := sigaction_13 SA_ONSTACK SIGCHLD.
Definition sigaction_12_31 : test := sigaction_13 SA_ONSTACK SIGCONT.
Definition sigaction_12_32 : test := sigaction_13 SA_ONSTACK SIGFPE.
Definition sigaction_12_33 : test := sigaction_13 SA_ONSTACK SIGHUP.
Definition sigaction_12_34 : test := sigaction_13 SA_ONSTACK SIGILL.
Definition sigaction_12_35 : test := sigaction_13 SA_ONSTACK SIGINT.
Definition sigaction_12_36 : test := sigaction_13 SA_ONSTACK SIGPIPE.
Definition sigaction_12_37 : test := sigaction_13 SA_ONSTACK SIGQUIT.
Definition sigaction_12_38 : test := sigaction_13 SA_ONSTACK SIGSEGV.
Definition sigaction_12_39 : test := sigaction_13 SA_ONSTACK SIGTERM.
Definition sigaction_12_40 : test := sigaction_13 SA_ONSTACK SIGTSTP.
Definition sigaction_12_41 : test := sigaction_13 SA_ONSTACK SIGTTIN.
Definition sigaction_12_42 : test := sigaction_13 SA_ONSTACK SIGTTOU.
Definition sigaction_12_43 : test := sigaction_13 SA_ONSTACK SIGUSR1.
Definition sigaction_12_44 : test := sigaction_13 SA_ONSTACK SIGUSR2.
Definition sigaction_12_45 : test := sigaction_13 SA_ONSTACK SIGPOLL.
Definition sigaction_12_46 : test := sigaction_13 SA_ONSTACK SIGPROF.
Definition sigaction_12_47 : test := sigaction_13 SA_ONSTACK SIGSYS.
Definition sigaction_12_48 : test := sigaction_13 SA_ONSTACK SIGTRAP.
Definition sigaction_12_49 : test := sigaction_13 SA_ONSTACK SIGURG.
Definition sigaction_12_50 : test := sigaction_13 SA_ONSTACK SIGVTALRM.
Definition sigaction_12_51 : test := sigaction_13 SA_ONSTACK SIGXCPU.
Definition sigaction_12_52 : test := sigaction_13 SA_ONSTACK SIGXFSZ.

Definition files_12_no_stack : list test :=
  [
   sigaction_12_27; sigaction_12_28; sigaction_12_29; sigaction_12_30; sigaction_12_31;
   sigaction_12_32; sigaction_12_33; sigaction_12_34; sigaction_12_35; sigaction_12_36;
   sigaction_12_37; sigaction_12_38; sigaction_12_39; sigaction_12_40; sigaction_12_41;
   sigaction_12_42; sigaction_12_43; sigaction_12_44; sigaction_12_45; sigaction_12_46;
   sigaction_12_47; sigaction_12_48; sigaction_12_49; sigaction_12_50; sigaction_12_51;
   sigaction_12_52].

(** Files 13-1.c to 13-26.c. *)

Definition sigaction_13_1 : test := sigaction_13 0 SIGABRT.
Definition sigaction_13_2 : test := sigaction_13 0 SIGALRM.
Definition sigaction_13_3 : test := sigaction_13 0 SIGBUS.
Definition sigaction_13_4 : test := sigaction_13 0 SIGCHLD.
Definition sigaction_13_5 : test := sigaction_13 0 SIGCONT.
Definition sigaction_13_6 : test := sigaction_13 0 SIGFPE.
Definition sigaction_13_7 : test := sigaction_13 0 SIGHUP.
Definition sigaction_13_8 : test := sigaction_13 0 SIGILL.
Definition sigaction_13_9 : test := sigaction_13 0 SIGINT.
Definition sigaction_13_10 : test := sigaction_13 0 SIGPIPE.
Definition sigaction_13_11 : test := sigaction_13 0 SIGQUIT.
Definition sigaction_13_12 : test := sigaction_13 0 SIGSEGV.
Definition sigaction_13_13 : test := sigaction_13 0 SIGTERM.
Definition sigaction_13_14 : test := sigaction_13 0 SIGTSTP.
Definition sigaction_13_15 : test := sigaction_13 0 SIGTTIN.
Definition sigaction_13_16 : test := sigaction_13 0 SIGTTOU.
Definition sigaction_13_17 : test := sigaction_13 0 SIGUSR1.
Definition sigaction_13_18 : test := sigaction_13 0 SIGUSR2.
Definition sigaction_13_19 : test := sigaction_13 0 SIGPOLL.
Definition sigaction_13_20 : test := sigaction_13 0 SIGPROF.
Definition sigaction_13_21 : test := sigaction_13 0 SIGSYS.
Definition sigaction_13_22 : test := sigaction_13 0 SIGTRAP.
Definition sigaction_13_23 : test := sigaction_13 0 SIGURG.
Definition sigaction_13_24 : test := sigaction_13 0 SIGVTALRM.
Definition sigaction_13_25 : test := sigaction_13 0 SIGXCPU.
Definition sigaction_13_26 : test := sigaction_13 0 SIGXFSZ.

Definition files_13 : list test :=
  [
   sigaction_13_1; sigaction_13_2; sigaction_13_3; sigaction_13_4; sigaction_13_5;
   sigaction_13_6; sigaction_13_7; sigaction_13_8; sigaction_13_9; sigaction_13_10;
   sigaction_13_11; sigaction_13_12; sigaction_13_13; sigaction_13_14; sigaction_13_15;
   sigaction_13_16; sigaction_13_17; sigaction_13_18; sigaction_13_19; sigaction_13_20;
   sigaction_13_21; sigaction_13_22; sigaction_13_23; sigaction_13_24; sigaction_13_25;
   sigaction_13_26].

(** Files 18-1.c to 18-26.c. *)

Definition sigaction_18_1 : test := sigaction_18 SIGABRT.
Definition sigaction_18_2 : test := sigaction_18 SIGALRM.
Definition sigaction_18_3 : test := sigaction_18 SIGBUS.
Definition sigaction_18_4 : test := sigaction_18 SIGCHLD.
Definition sigaction_18_5 : test := sigaction_18 SIGCONT.
Definition sigaction_18_6 : test := sigaction_18 SIGFPE.
Definition sigaction_18_7 : test := sigaction_18 SIGHUP.
Definition sigaction_18_8 : test := sigaction_18 SIGILL.
Definition sigaction_18_9 : test := sigaction_18 SIGINT.
Definition sigaction_18_10 : test := sigaction_18 SIGPIPE.
Definition sigaction_18_11 : test := sigaction_18 SIGQUIT.
Definition sigaction_18_12 : test := sigaction_18 SIGSEGV.
Definition sigaction_18_13 : test := sigaction_18 SIGTERM.
Definition sigaction_18_14 : test := sigaction_18 SIGTSTP.
Definition sigaction_18_15 : test := sigaction_18 SIGTTIN.
Definition sigaction_18_16 : test := sigaction_18 SIGTTOU.
Definition sigaction_18_17 : test := sigaction_18 SIGUSR1.
Definition sigaction_18_18 : test := sigaction_18 SIGUSR2.
Definition sigaction_18_19 : test := sigaction_18 SIGPOLL.
Definition sigaction_18_20 : test := sigaction_18 SIGPROF.
Definition sigaction_18_21 : test := sigaction_18 SIGSYS.
Definition sigaction_18_22 : test := sigaction_18 SIGTRAP.
Definition sigaction_18_23 : test := sigaction_18 SIGURG.
Definition sigaction_18_24 : test := sigaction_18 SIGVTALRM.
Definition sigaction_18_25 : test := sigaction_18 SIGXCPU.
Definition sigaction_18_26 : test := sigaction_18 SIGXFSZ.

Definition files_18 : list test :=
  [
   sigaction_18_1; sigaction_18_2; sigaction_18_3; sigaction_18_4; sigaction_18_5;
   sigaction_18_6; sigaction_18_7; sigaction_18_8; sigaction_18_9; sigaction_18_10;
   sigaction_18_11; sigaction_18_12; sigaction_18_13; sigaction_18_14; sigaction_18_15;
   sigaction_18_16; sigaction_18_17; sigaction_18_18; sigaction_18_19; sigaction_18_20;
   sigaction_18_21; sigaction_18_22; sigaction_18_23; sigaction_18_24; sigaction_18_25;
   sigaction_18_26].

(** Files 19-1.c to 19-26.c. *)

Definition sigaction_19_1 : test := sigaction_19 SIGABRT.
Definition sigaction_19_2 : test := sigaction_19 SIGALRM.
Definition sigaction_19_3 : test := sigaction_19 SIGBUS.
Definition sigaction_19_4 : test := sigaction_19 SIGCHLD.
Definition sigaction_19_5 : test := sigaction_19 SIGCONT.
Definition sigaction_19_6 : test := sigaction_19 SIGFPE.
Definition sigaction_19_7 : test := sigaction_19 SIGHUP.
Definition sigaction_19_8 : test := sigaction_19 SIGILL.
Definition sigaction_19_9 : test := sigaction_19 SIGINT.
Definition sigaction_19_10 : test := sigaction_19 SIGPIPE.
Definition sigaction_19_11 : test := sigaction_19 SIGQUIT.
Definition sigaction_19_12 : test := sigaction_19 SIGSEGV.
Definition sigaction_19_13 : test := sigaction_19 SIGTERM.
Definition sigaction_19_14 : test := sigaction_19 SIGTSTP.
Definition sigaction_19_15 : test := sigaction_19 SIGTTIN.
Definition sigaction_19_16 : test := sigaction_19 SIGTTOU.
Definition sigaction_19_17 : test := sigaction_19 SIGUSR1.
Definition sigaction_19_18 : test := sigaction_19 SIGUSR2.
Definition sigaction_19_19 : test := sigaction_19 SIGPOLL.
Definition sigaction_19_20 : test := sigaction_19 SIGPROF.
Definition sigaction_19_21 : test := sigaction_19 SIGSYS.
Definition sigaction_19_22 : test := sigaction_19 SIGTRAP.
Definition sigaction_19_23 : test := sigaction_19 SIGURG.
Definition sigaction_19_24 : test := sigaction_19 SIGVTALRM.
Definition sigaction_19_25 : test := sigaction_19 SIGXCPU.
Definition sigaction_19_26 : test := sigaction_19 SIGXFSZ.

Definition files_19 : list test :=
  [
   sigaction_19_1; sigaction_19_2; sigaction_19_3; sigaction_19_4; sigaction_19_5;
   sigaction_19_6; sigaction_19_7; sigaction_19_8; sigaction_19_9; sigaction_19_10;
   sigaction_19_11; sigaction_19_12; sigaction_19_13; sigaction_19_14; sigaction_19_15;
   sigaction_19_16; sigaction_19_17; sigaction_19_18; sigaction_19_19; sigaction_19_20;
   sigaction_19_21; sigaction_19_22; sigaction_19_23; sigaction_19_24; sigaction_19_25;
   sigaction_19_26].

(** Files 22-1.c to 22-26.c. *)

Definition sigaction_22_1 : test := sigaction_22 SIGABRT.
Definition sigaction_22_2 : test := sigaction_22 SIGALRM.
Definition sigaction_22_3 : test := sigaction_22 SIGBUS.
Definition sigaction_22_4 : test := sigaction_22 SIGCHLD.
Definition sigaction_22_5 : test := sigaction_22 SIGCONT.
Definition sigaction_22_6 : test := sigaction_22 SIGFPE.
Definition sigaction_22_7 : test := sigaction_22 SIGHUP.
Definition sigaction_22_8 : test := sigaction_22 SIGILL.
Definition sigaction_22_9 : test := sigaction_22 SIGINT.
Definition sigaction_22_10 : test := sigaction_22 SIGPIPE.
Definition sigaction_22_11 : test := sigaction_22 SIGQUIT.
Definition sigaction_22_12 : test := sigaction_22 SIGSEGV.
Definition sigaction_22_13 : test := sigaction_22 SIGTERM.
Definition sigaction_22_14 : test := sigaction_22 SIGTSTP.
Definition sigaction_22_15 : test := sigaction_22 SIGTTIN.
Definition sigaction_22_16 : test := sigaction_22 SIGTTOU.
Definition sigaction_22_17 : test := sigaction_22 SIGUSR1.
Definition sigaction_22_18 : test := sigaction_22 SIGUSR2.
Definition sigaction_22_19 : test := sigaction_22 SIGPOLL.
Definition sigaction_22_20 : test := sigaction_22 SIGPROF.
Definition sigaction_22_21 : test := sigaction_22 SIGSYS.
Definition sigaction_22_22 : test := sigaction_22 SIGTRAP.
Definition sigaction_22_23 : test := sigaction_22 SIGURG.
Definition sigaction_22_24 : test := sigaction_22 SIGVTALRM.
Definition sigaction_22_25 : test := sigaction_22 SIGXCPU.
Definition sigaction_22_26 : test := sigaction_22 SIGXFSZ.

Definition files_22 : list test :=
  [
   sigaction_22_1; sigaction_22_2; sigaction_22_3; sigaction_22_4; sigaction_22_5;
   sigaction_22_6; sigaction_22_7; sigaction_22_8; sigaction_22_9; sigaction_22_10;
   sigaction_22_11; sigaction_22_12; sigaction_22_13; sigaction_22_14; sigaction_22_15;
   sigaction_22_16; sigaction_22_17; sigaction_22_18; sigaction_22_19; sigaction_22_20;
   sigaction_22_21; sigaction_22_22; sigaction_22_23; sigaction_22_24; sigaction_22_25;
   sigaction_22_26].

(** Files 23-1.c to 23-26.c. *)

Definition sigaction_23_1 : test := sigaction_23 SIGABRT.
Definition sigaction_23_2 : test := sigaction_23 SIGALRM.
Definition sigaction_23_3 : test := sigaction_23 SIGBUS.
Definition sigaction_23_4 : test := sigaction_23 SIGCHLD.
Definition sigaction_23_5 : test := sigaction_23 SIGCONT.
Definition sigaction_23_6 : test := sigaction_23 SIGFPE.
Definition sigaction_23_7 : test := sigaction_23 SIGHUP.
Definition sigaction_23_8 : test := sigaction_23 SIGILL.
Definition sigaction_23_9 : test := sigaction_23 SIGINT.
Definition sigaction_23_10 : test := sigaction_23 SIGPIPE.
Definition sigaction_23_11 : test := sigaction_23 SIGQUIT.
Definition sigaction_23_12 : test := sigaction_23 SIGSEGV.
Definition sigaction_23_13 : test := sigaction_23 SIGTERM.
Definition sigaction_23_14 : test := sigaction_23 SIGTSTP.
Definition sigaction_23_15 : test := sigaction_23 SIGTTIN.
Definition sigaction_23_16 : test := sigaction_23 SIGTTOU.
Definition sigaction_23_17 : test := sigaction_23 SIGUSR1.
Definition sigaction_23_18 : test := sigaction_23 SIGUSR2.
Definition sigaction_23_19 : test := sigaction_23 SIGPOLL.
Definition sigaction_23_20 : test := sigaction_23 SIGPROF.
Definition sigaction_23_21 : test := sigaction_23 SIGSYS.
Definition sigaction_23_22 : test := sigaction_23 SIGTRAP.
Definition sigaction_23_23 : test := sigaction_23 SIGURG.
Definition sigaction_23_24 : test := sigaction_23 SIGVTALRM.
Definition sigaction_23_25 : test := sigaction_23 SIGXCPU.
Definition sigaction_23_26 : test := sigaction_23 SIGXFSZ.

Definition files_23 : list test :=
  [
   sigaction_23_1; sigaction_23_2; sigaction_23_3; sigaction_23_4; sigaction_23_5;
   sigaction_23_6; sigaction_23_7; sigaction_23_8; sigaction_23_9; sigaction_23_10;
   sigaction_23_11; sigaction_23_12; sigaction_23_13; sigaction_23_14; sigaction_23_15;
   sigaction_23_16; sigaction_23_17; sigaction_23_18; sigaction_23_19; sigaction_23_20;
   sigaction_23_21; sigaction_23_22; sigaction_23_23; sigaction_23_24; sigaction_23_25;
   sigaction_23_26].

(** Files 25-1.c to 25-26.c. *)

Definition sigaction_25_1 : test := sigaction_25 SIGABRT.
Definition sigaction_25_2 : test := sigaction_25 SIGALRM.
Definition sigaction_25_3 : test := sigaction_25 SIGBUS.
Definition sigaction_25_4 : test := sigaction_25 SIGCHLD.
Definition sigaction_25_5 : test := sigaction_25 SIGCONT.
Definition sigaction_25_6 : test := sigaction_25 SIGFPE.
Definition sigaction_25_7 : test := sigaction_25 SIGHUP.
Definition sigaction_25_8 : test := sigaction_25 SIGILL.
Definition sigaction_25_9 : test := sigaction_25 SIGINT.
Definition sigaction_25_10 : test := sigaction_25 SIGPIPE.
Definition sigaction_25_11 : test := sigaction_25 SIGQUIT.
Definition sigaction_25_12 : test := sigaction_25 SIGSEGV.
Definition sigaction_25_13 : test := sigaction_25 SIGTERM.
Definition sigaction_25_14 : test := sigaction_25 SIGTSTP.
Definition sigaction_25_15 : test := sigaction_25 SIGTTIN.
Definition sigaction_25_16 : test := sigaction_25 SIGTTOU.
Definition sigaction_25_17 : test := sigaction_25 SIGUSR1.
Definition sigaction_25_18 : test := sigaction_25 SIGUSR2.
Definition sigaction_25_19 : test := sigaction_25 SIGPOLL.
Definition sigaction_25_20 : test := sigaction_25 SIGPROF.
Definition sigaction_25_21 : test := sigaction_25 SIGSYS.
Definition sigaction_25_22 : test := sigaction_25 SIGTRAP.
Definition sigaction_25_23 : test := sigaction_25 SIGURG.
Definition sigaction_25_24 : test := sigaction_25 SIGVTALRM.
Definition sigaction_25_25 : test := sigaction_25 SIGXCPU.
Definition sigaction_25_26 : test := sigaction_25 SIGXFSZ.

Definition files_25 : list test :=
  [
   sigaction_25_1; sigaction_25_2; sigaction_25_3; sigaction_25_4; sigaction_25_5;
   sigaction_25_6; sigaction_25_7; sigaction_25_8; sigaction_25_9; sigaction_25_10;
   sigaction_25_11; sigaction_25_12; sigaction_25_13; sigaction_25_14; sigaction_25_15;
   sigaction_25_16; sigaction_25_17; sigaction_25_18; sigaction_25_19; sigaction_25_20;
   sigaction_25_21; sigaction_25_22; sigaction_25_23; sigaction_25_24; sigaction_25_25;
   sigaction_25_26].

(** Files 28-1.c to 28-26.c. *)

Definition sigaction_28_1 : test := sigaction_28 SIGABRT.
Definition sigaction_28_2 : test := sigaction_28 SIGALRM.
Definition sigaction_28_3 : test := sigaction_28 SIGBUS.
Definition sigaction_28_4 : test := sigaction_28 SIGCHLD.
Definition sigaction_28_5 : test := sigaction_28 SIGCONT.
Definition sigaction_28_6 : test := sigaction_28 SIGFPE.
Definition sigaction_28_7 : test := sigaction_28 SIGHUP.
Definition sigaction_28_8 : test := sigaction_28 SIGILL.
Definition sigaction_28_9 : test := sigaction_28 SIGINT.
Definition sigaction_28_10 : test := sigaction_28 SIGPIPE.
Definition sigaction_28_11 : test := sigaction_28 SIGQUIT.
Definition sigaction_28_12 : test := sigaction_28 SIGSEGV.
Definition sigaction_28_13 : test := sigaction_28 SIGTERM.
Definition sigaction_28_14 : test := sigaction_28 SIGTSTP.
Definition sigaction_28_15 : test := sigaction_28 SIGTTIN.
Definition sigaction_28_16 : test := sigaction_28 SIGTTOU.
Definition sigaction_28_17 : test := sigaction_28 SIGUSR1.
Definition sigaction_28_18 : test := sigaction_28 SIGUSR2.
Definition sigaction_28_19 : test := sigaction_28 SIGPOLL.
Definition sigaction_28_20 : test := sigaction_28 SIGPROF.
Definition sigaction_28_21 : test := sigaction_28 SIGSYS.
Definition sigaction_28_22 : test := sigaction_28 SIGTRAP.
Definition sigaction_28_23 : test := sigaction_28 SIGURG.
Definition sigaction_28_24 : test := sigaction_28 SIGVTALRM.
Definition sigaction_28_25 : test := sigaction_28 SIGXCPU.
Definition sigaction_28_26 : test := sigaction_28 SIGXFSZ.

Definition files_28 : list test :=
  [
   sigaction_28_1; sigaction_28_2; sigaction_28_3; sigaction_28_4; sigaction_28_5;
   sigaction_28_6; sigaction_28_7; sigaction_28_8; sigaction_28_9; sigaction_28_10;
   sigaction_28_11; sigaction_28_12; sigaction_28_13; sigaction_28_14; sigaction_28_15;
   sigaction_28_16; sigaction_28_17; sigaction_28_18; sigaction_28_19; sigaction_28_20;
   sigaction_28_21; sigaction_28_22; sigaction_28_23; sigaction_28_24; sigaction_28_25;
   sigaction_28_26].

(** All of them, with 30-1.c. *)
Definition sigaction_suite : list test :=
  files_1 ++
  files_2 ++
  files_3 ++
  files_4_kill ++
  files_4_stop ++
  files_4_silent_kill ++
  files_4_silent_stop ++
  files_6 ++
  files_8 ++
  files_12 ++
  files_12_no_stack ++
  files_13 ++
  files_18 ++
  files_19 ++
  files_22 ++
  files_23 ++
  files_25 ++
  files_28 ++ [sigaction_30_1].

End Files.

(** Files 16-1.c to 16-26.c: runs for a schedule. *)

Definition sigaction_16_1 : bool → list (nat * bool) → option Z :=
  Restart.sigaction_16 SIGABRT.
Definition sigaction_16_2 : bool → list (nat * bool) → option Z :=
  Restart.sigaction_16 SIGALRM.
Definition sigaction_16_3 : bool → list (nat * bool) → option Z :=
  Restart.sigaction_16 SIGBUS.
Definition sigaction_16_4 : bool → list (nat * bool) → option Z :=
  Restart.sigaction_16 SIGCHLD.
Definition sigaction_16_5 : bool → list (nat * bool) → option Z :=
  Restart.sigaction_16 SIGCONT.
Definition sigaction_16_6 : bool → list (nat * bool) → option Z :=
  Restart.sigaction_16 SIGFPE.
Definition sigaction_16_7 : bool → list (nat * bool) → option Z :=
  Restart.sigaction_16 SIGHUP.
Definition sigaction_16_8 : bool → list (nat * bool) → option Z :=
  Restart.sigaction_16 SIGILL.
Definition sigaction_16_9 : bool → list (nat * bool) → option Z :=
  Restart.sigaction_16 SIGINT.
Definition sigaction_16_10 : bool → list (nat * bool) → option Z :=
  Restart.sigaction_16 SIGPIPE.
Definition sigaction_16_11 : bool → list (nat * bool) → option Z :=
  Restart.sigaction_16 SIGQUIT.
Definition sigaction_16_12 : bool → list (nat * bool) → option Z :=
  Restart.sigaction_16 SIGSEGV.
Definition sigaction_16_13 : bool → list (nat * bool) → option Z :=
  Restart.sigaction_16 SIGTERM.
Definition sigaction_16_14 : bool → list (nat * bool) → option Z :=
  Restart.sigaction_16 SIGTSTP.
Definition sigaction_16_15 : bool → list (nat * bool) → option Z :=
  Restart.sigaction_16 SIGTTIN.
Definition sigaction_16_16 : bool → list (nat * bool) → option Z :=
  Restart.sigaction_16 SIGTTOU.
Definition sigaction_16_17 : bool → list (nat * bool) → option Z :=
  Restart.sigaction_16 SIGUSR1.
Definition sigaction_16_18 : bool → list (nat * bool) → option Z :=
  Restart.sigaction_16 SIGUSR2.
Definition sigaction_16_19 : bool → list (nat * bool) → option Z :=
  Restart.sigaction_16 SIGPOLL.
Definition sigaction_16_20 : bool → list (nat * bool) → option Z :=
  Restart.sigaction_16 SIGPROF.
Definition sigaction_16_21 : bool → list (nat * bool) → option Z :=
  Restart.sigaction_16 SIGSYS.
Definition sigaction_16_22 : bool → list (nat * bool) → option Z :=
  Restart.sigaction_16 SIGTRAP.
Definition sigaction_16_23 : bool → list (nat * bool) → option Z :=
  Restart.sigaction_16 SIGURG.
Definition sigaction_16_24 : bool → list (nat * bool) → option Z :=
  Restart.sigaction_16 SIGVTALRM.
Definition sigaction_16_25 : bool → list (nat * bool) → option Z :=
  Restart.sigaction_16 SIGXCPU.
Definition sigaction_16_26 : bool → list (nat * bool) → option Z :=
  Restart.sigaction_16 SIGXFSZ.

Definition files_16 : list (bool → list (nat * bool) → option Z) :=
  [
   sigaction_16_1; sigaction_16_2; sigaction_16_3; sigaction_16_4; sigaction_16_5;
   sigaction_16_6; sigaction_16_7; sigaction_16_8; sigaction_16_9; sigaction_16_10;
   sigaction_16_11; sigaction_16_12; sigaction_16_13; sigaction_16_14; sigaction_16_15;
   sigaction_16_16; sigaction_16_17; sigaction_16_18; sigaction_16_19; sigaction_16_20;
   sigaction_16_21; sigaction_16_22; sigaction_16_23; sigaction_16_24; sigaction_16_25;
   sigaction_16_26].

(** Files 17-1.c to 17-26.c: runs for a schedule. *)

Definition sigaction_17_1 : Z → bool → list (nat * bool) → option Z :=
  Interrupt.sigaction_17 SIGABRT.
Definition sigaction_17_2 : Z → bool → list (nat * bool) → option Z :=
  Interrupt.sigaction_17 SIGALRM.
Definition sigaction_17_3 : Z → bool → list (nat * bool) → option Z :=
  Interrupt.sigaction_17 SIGBUS.
Definition sigaction_17_4 : Z → bool → list (nat * bool) → option Z :=
  Interrupt.sigaction_17 SIGCHLD.
Definition sigaction_17_5 : Z → bool → list (nat * bool) → option Z :=
  Interrupt.sigaction_17 SIGCONT.
Definition sigaction_17_6 : Z → bool → list (nat * bool) → option Z :=
  Interrupt.sigaction_17 SIGFPE.
Definition sigaction_17_7 : Z → bool → list (nat * bool) → option Z :=
  Interrupt.sigaction_17 SIGHUP.
Definition sigaction_17_8 : Z → bool → list (nat * bool) → option Z :=
  Interrupt.sigaction_17 SIGILL.
Definition sigaction_17_9 : Z → bool → list (nat * bool) → option Z :=
  Interrupt.sigaction_17 SIGINT.
Definition sigaction_17_10 : Z → bool → list (nat * bool) → option Z :=
  Interrupt.sigaction_17 SIGPIPE.
Definition sigaction_17_11 : Z → bool → list (nat * bool) → option Z :=
  Interrupt.sigaction_17 SIGQUIT.
Definition sigaction_17_12 : Z → bool → list (nat * bool) → option Z :=
  Interrupt.sigaction_17 SIGSEGV.
Definition sigaction_17_13 : Z → bool → list (nat * bool) → option Z :=
  Interrupt.sigaction_17 SIGTERM.
Definition sigaction_17_14 : Z → bool → list (nat * bool) → option Z :=
  Interrupt.sigaction_17 SIGTSTP.
Definition sigaction_17_15 : Z → bool → list (nat * bool) → option Z :=
  Interrupt.sigaction_17 SIGTTIN.
Definition sigaction_17_16 : Z → bool → list (nat * bool) → option Z :=
  Interrupt.sigaction_17 SIGTTOU.
Definition sigaction_17_17 : Z → bool → list (nat * bool) → option Z :=
  Interrupt.sigaction_17 SIGUSR1.
Definition sigaction_17_18 : Z → bool → list (nat * bool) → option Z :=
  Interrupt.sigaction_17 SIGUSR2.
Definition sigaction_17_19 : Z → bool → list (nat * bool) → option Z :=
  Interrupt.sigaction_17 SIGPOLL.
Definition sigaction_17_20 : Z → bool → list (nat * bool) → option Z :=
  Interrupt.sigaction_17 SIGPROF.
Definition sigaction_17_21 : Z → bool → list (nat * bool) → option Z :=
  Interrupt.sigaction_17 SIGSYS.
Definition sigaction_17_22 : Z → bool → list (nat * bool) → option Z :=
  Interrupt.sigaction_17 SIGTRAP.
Definition sigaction_17_23 : Z → bool → list (nat * bool) → option Z :=
  Interrupt.sigaction_17 SIGURG.
Definition sigaction_17_24 : Z → bool → list (nat * bool) → option Z :=
  Interrupt.sigaction_17 SIGVTALRM.
Definition sigaction_17_25 : Z → bool → list (nat * bool) → option Z :=
  Interrupt.sigaction_17 SIGXCPU.
Definition sigaction_17_26 : Z → bool → list (nat * bool) → option Z :=
  Interrupt.sigaction_17 SIGXFSZ.

Definition files_17 : list (Z → bool → list (nat * bool) → option Z) :=
  [
   sigaction_17_1; sigaction_17_2; sigaction_17_3; sigaction_17_4; sigaction_17_5;
   sigaction_17_6; sigaction_17_7; sigaction_17_8; sigaction_17_9; sigaction_17_10;
   sigaction_17_11; sigaction_17_12; sigaction_17_13; sigaction_17_14; sigaction_17_15;
   sigaction_17_16; sigaction_17_17; sigaction_17_18; sigaction_17_19; sigaction_17_20;
   sigaction_17_21; sigaction_17_22; sigaction_17_23; sigaction_17_24; sigaction_17_25;
   sigaction_17_26].
