(* ===== verification/SigactionThms.v ===== *)
(** * What the tests of sigaction decide *)

From stdpp Require Import base tactics numbers list gmap strings fin_maps fin_sets.
From S2P Require Import Prelude SigApi SigProc SigKernel SigRules SigactionTests.

Open Scope Z_scope.

#[local] Hint Resolve install_quiet : pts.

Section Pass.
Context {St : Type} `{SigLaws St}.
Implicit Types s : St.

(** The process may catch [sig]: it is not blocked, nothing can be delivered,
    and no handler is running. *)
Definition ready (s : St) (sig : Z) : Prop :=
  sig_good s ∧ catchable sig = true ∧ sig ∉ sv_mask (view s) ∧ quiet (view s) ∧
  sv_saved (view s) = [].

Definition passes (t : nat → St → outcome Z) (n : nat) (s : St) : Prop :=
  ∀ fuel, (n ≤ fuel)%nat → verdict (t fuel s) = Some PTS_PASS.

Lemma runs_verdict {V} fuel h (x : V) (main : P St V Z) s o Q :
  runs (main (deliver fuel h) (Proc s x None None)) o Q →
  verdict (run_main fuel h x main s) = verdict o.
Proof. intros (p & Hr & _). unfold run_main. by rewrite Hr. Qed.

Lemma start_view {V} s (x : V) : sig_good s → at_view (view s) x None (Proc s x None None).
Proof. by intros. Qed.

End Pass.

Section Families.
Context {St : Type} `{SigLaws St}.
Implicit Types s : St.

Lemma runs_fill_act {V} hd fl d p v (x : V) c :
  at_view v x c p →
  runs (fill_act hd fl d p) (Ret (SigAct hd ∅ fl)) (at_view v x c).
Proof.
  intros Hp. unfold fill_act, sigemptyset. rewrite emptyset_law.
  eapply runs_bind; [by apply runs_libcall|]. intros p' Hp'. by apply runs_ret.
Qed.

Lemma runs_fill_act_with {V} hd fl sig d p v (x : V) c :
  valid_sig sig = true → at_view v x c p →
  runs (fill_act_with hd fl sig d p) (Ret (SigAct hd {[sig]} fl)) (at_view v x c).
Proof.
  intros Hs Hp. unfold fill_act_with, sigaddset. eapply runs_bind; [by apply runs_fill_act|].
  intros p' Hp'. simpl. rewrite addset_law by auto with sets.
  eapply runs_bind; [by apply runs_libcall|]. intros p2 Hp2. simpl.
  rewrite (right_id_L ∅ (∪)). by apply runs_ret.
Qed.

Lemma runs_install {V} sig a bad (k : P St V Z) n h p v (x : V) c o Q :
  at_view v x c p → catchable sig = true → quiet v →
  (∀ p', at_view (sv_install sig a v) x c p' → runs (k (deliver (S n) h) p') o Q) →
  runs (install_or sig a bad k (deliver (S n) h) p) o Q.
Proof.
  intros Hp Hs Hq Hk. destruct (runs_sigaction n h p v x c sig a Hp Hs Hq) as (old & _ & Hr).
  eapply runs_bind; [exact Hr|exact Hk].
Qed.

Lemma runs_raise_or {V} sig bad (k : P St V Z) d p v' (x' : V) c o Q :
  runs (raise sig d p) (Ret 0) (at_view v' x' c) →
  (∀ p', at_view v' x' c p' → runs (k d p') o Q) →
  runs (raise_or sig bad k d p) o Q.
Proof. intros Hr Hk. eapply runs_bind; [exact Hr|exact Hk]. Qed.

(** The start of every proof: enough fuel, and the process in its first view. *)
Ltac begin :=
  match goal with
  | Hg : sig_good ?s |- runs (_ (Proc ?s ?x None None)) _ _ =>
      generalize (start_view s x Hg); generalize (Proc s x None (None : option Z))
  end; intros p Hp.
Tactic Notation "start" integer(n) uconstr(o) :=
  let Hf := fresh in
  intros (Hg & Hc & Hm & Hq & Hs) fuel Hf; pose proof (catchable_valid _ Hc) as [Hv Hu];
  do n (destruct fuel as [|fuel]; [lia|]); clear Hf;
  refine (eq_trans (runs_verdict _ _ _ _ _ (o PTS_PASS) (λ _, True) _) eq_refl); begin.

(** One call: the rule for it gives its result and the view that follows. *)
Ltac after := let p := fresh "p" in let Hp := fresh "Hp" in intros p Hp.
Tactic Notation "call" uconstr(rule) := eapply runs_bind; [by eapply rule|after].
Ltac fill := first [call runs_fill_act_with | call runs_fill_act].
Ltac install := eapply runs_install; [eassumption|assumption|auto with pts|after].
Ltac ends := eapply runs_weaken; [by eapply runs_ret + by eapply runs_exit|done].

(** ** Families 1, 3, 6, 18, 19: the handler is called *)

Lemma handler_1_runs f sig info d p v x c :
  at_view v x c p → runs (handler_1 (St := St) f sig info d p) (Ret tt) (at_view v 1 c).
Proof. exact (runs_set (λ _, 1) d p v x c). Qed.

(** In the handler of a signal that was raised in a quiet process. *)
Lemma raised_quiet {V} sig v (x : V) c (p : proc St V) :
  at_view v x c p → quiet v → sig ∉ sv_mask v → sig ∉ unblockable →
  quiet (sv_enter sig (sv_generate sig v)).
Proof.
  intros Hp Hq Hm Hu. pose proof (at_view_wf _ _ _ _ Hp) as Hw.
  destruct (quiet_pend v Hw Hq) as [Hk Hst].
  apply enter_quiet; [by apply generate_one|done|..]; unfold unblockable in Hu; simpl; set_solver.
Qed.

(** The raise of a test whose handler leaves the system alone. *)
Lemma raise_installed {V} h sig a n p v (x x' : V) c f :
  at_view (sv_install sig a v) x c p → quiet v → valid_sig sig = true → sig ∉ sv_mask v →
  sig ∉ unblockable → sa_handler a = Fun f →
  (∀ info p' v', (has (sa_flags a) SA_SIGINFO = true → si_signo info = sig) →
     at_view v' x c p' → quiet v' → sv_alt v' = sv_alt v →
     runs (h f sig info (deliver (S n) h) p') (Ret tt) (at_view v' x' c)) →
  runs (raise sig (deliver (S (S n)) h) p) (Ret 0)
    (at_view (sv_done sig (sv_install sig a v)) x' c).
Proof.
  intros Hp Hq Hs Hm Hu Hf Hh.
  eapply runs_raise_handled; [done|by apply install_quiet|done|done|by rewrite act_install|].
  intros info p' Hi Hp'. rewrite act_install in Hi. apply Hh; [done|done| |done].
  eapply raised_quiet; [exact Hp|by apply install_quiet|done|done].
Qed.

Lemma family_1 s sig : ready s sig → passes (sigaction_1 sig) 2 s.
Proof.
  start 2 Ret. fill. install.
  eapply runs_raise_or.
  { eapply raise_installed; try done. intros. by eapply handler_1_runs. }
  after. call runs_var. ends.
Qed.

Lemma family_3 s sig : ready s sig → passes (sigaction_3 sig) 2 s.
Proof.
  start 2 Ret. fill. install.
  eapply runs_bind_some; [by eapply runs_sigaction_query; auto with pts|]. intros old p2 _ Hp2.
  eapply runs_raise_or.
  { eapply raise_installed; try done. intros. by eapply handler_1_runs. }
  after. call runs_var. ends.
Qed.

Lemma family_6 s sig : ready s sig → passes (sigaction_6 sig) 2 s.
Proof.
  start 2 Ret. fill. install.
  eapply runs_raise_or.
  { eapply raise_installed; try done. intros. by eapply handler_1_runs. }
  after. call runs_var. ends.
Qed.

Lemma runs_frmw_install {V} sig hd fl (k : sigact → P St V Z) n h p v (x : V) c o Q :
  at_view v x c p → catchable sig = true → quiet v →
  (∀ old p', norm_act old = act_of v sig → at_view (sv_install sig (SigAct hd ∅ fl) v) x c p' →
     runs (k old (deliver (S n) h) p') o Q) →
  runs (frmw_install sig hd fl k (deliver (S n) h) p) o Q.
Proof.
  intros Hp Hs Hq Hk. unfold frmw_install, sigemptyset. rewrite emptyset_law.
  eapply runs_bind; [by apply runs_libcall|]. intros p1 Hp1. simpl.
  destruct (runs_sigaction n h p1 v x c sig (SigAct hd ∅ fl) Hp1 Hs Hq) as (old & Ho & Hr).
  eapply runs_bind; [exact Hr|]. intros p2 Hp2. by apply Hk.
Qed.

Lemma runs_frmw_raise {V} sig (k : P St V Z) d p v' (x' : V) c o Q :
  runs (raise sig d p) (Ret 0) (at_view v' x' c) →
  (∀ p', at_view v' x' c p' → runs (k d p') o Q) →
  runs (frmw_raise sig k d p) o Q.
Proof. intros Hr Hk. eapply runs_bind; [exact Hr|exact Hk]. Qed.

Lemma family_18 s sig : ready s sig → passes (sigaction_18 sig) 2 s.
Proof.
  start 2 Exit. eapply runs_frmw_install; [done..|]. intros _ p1 _ Hp1. call runs_var.
  eapply runs_frmw_raise.
  { eapply raise_installed; try done. intros. by eapply handler_1_runs. }
  after. call runs_var. ends.
Qed.

Lemma family_19 s sig : ready s sig → passes (sigaction_19 sig) 2 s.
Proof.
  start 2 Exit. unfold main_19. rewrite (proj2 (Z.ltb_ge _ _) (rts_law (St := St))).
  eapply runs_frmw_install; [done..|]. intros _ p1 _ Hp1. call runs_var.
  eapply runs_frmw_raise.
  { eapply raise_installed; try done. intros info p2 v' Hi Hp2 _ _. unfold handler_19.
    rewrite (Hi eq_refl), Z.eqb_refl. by eapply (handler_1_runs "" 0 info). }
  after. call runs_var. ends.
Qed.

(** ** Families 2 and 28: the old action *)

Lemma norm_handler a b : norm_act a = norm_act b → sa_handler a = sa_handler b.
Proof. destruct a, b. unfold norm_act. simpl. by intros [= ->]. Qed.

Lemma family_2 s sig : ready s sig → passes (sigaction_2 sig) 1 s.
Proof.
  start 1 Ret. fill. install. unfold sigemptyset. rewrite emptyset_law. call runs_libcall.
  eapply runs_bind_some; [by eapply runs_sigaction; auto with pts|]. intros old p3 Ho Hp3.
  rewrite act_install in Ho. simpl. rewrite (norm_handler _ _ Ho). ends.
Qed.

(** ** Family 4: SIGKILL and SIGSTOP are not blocked *)

(** The child of a quiet process. *)
Lemma child_quiet v : quiet (sv_child v).
Proof. unfold deliverable. simpl. apply leibniz_equiv. set_solver. Qed.

(** A handler that raises SIGKILL or SIGSTOP, whatever its mask. *)
Lemma fatal_handler {V} (k : P St V unit) extra n h sig p v (x : V) c f a :
  extra ∈ unblockable → at_view (sv_install sig a v) x c p → quiet v →
  catchable sig = true → sig ∉ sv_mask v → sa_handler a = Fun f →
  (∀ info, h f sig info = (raise extra;; k)) →
  runs (raise sig (deliver (S (S n)) h) p)
    (if bool_decide (extra = SIGKILL) then Killed extra else Stopped extra) (λ _, True).
Proof.
  intros He Hp Hq Hc Hm Hf Hh. destruct (catchable_valid _ Hc) as [Hv Hu].
  set (o := if bool_decide (extra = SIGKILL) then Killed extra else Stopped extra : outcome Z).
  assert (returns o = false ∧ lift o = o) as [Ho <-] by (unfold o; by case_bool_decide).
  assert (lift o = lift (lift o : outcome unit)) as -> by by destruct o.
  eapply runs_raise_ends; [exact Hp|by apply install_quiet|done|done|by rewrite act_install|
    by destruct o|].
  intros info p' Hp'. rewrite Hh. eapply runs_bind_ends; [done|].
  eapply runs_raise_fatal; [done| |done].
  eapply raised_quiet; [exact Hp|by apply install_quiet|done|done].
Qed.

(** A test that forks: the child ends with [o], the parent waits and judges by
    the status. *)
Lemma runs_fork_wait {V} (child : P St V Z) untraced k n h p v (x : V) c o st Q :
  at_view v x c p → quiet v → status_of o = Some st → WIFSTOPPED st = false ∨ untraced = true →
  (∀ p', at_view (sv_child v) x c p' → quiet (sv_child v) →
     runs (child (deliver (S n) h) p') o (λ _, True)) →
  (∀ pid p' c', at_view v x c' p' →
     runs (k (SysRet pid None st) (deliver (S n) h) p') (Ret PTS_PASS) Q) →
  runs (fork_else child
          (s ← wait untraced; if sr_ret s =? -1 then mret PTS_UNRESOLVED else k s)
          (deliver (S n) h) p) (Ret PTS_PASS) Q.
Proof.
  intros Hp Hq Ho Hst Hc Hk. eapply (runs_fork _ _ _ _ _ _ _ _ o); [done|done| |by intros ->|].
  { intros p' Hp'. apply Hc; [done|]. apply child_quiet. }
  intros st' p1 Hst' Hp1. simplify_eq.
  destruct (runs_wait untraced n h p1 v x st) as (pid & c' & Hpid & Hr); [done..|].
  eapply runs_bind; [exact Hr|]. intros p2 Hp2. simpl.
  rewrite (proj2 (Z.eqb_neq pid (-1))) by lia. by eapply Hk.
Qed.

Lemma family_4_kill s sig : ready s sig → passes (sigaction_4_kill sig) 2 s.
Proof.
  start 2 Ret. eapply (runs_fork_wait _ _ _ _ _ _ _ _ _ (Killed SIGKILL)); try done; [by left| |].
  - intros p1 Hp1 Hq1. fill. install. eapply (runs_bind_ends _ _ _ _ (Killed SIGKILL)); [done|].
    by eapply (fatal_handler (exit 0) SIGKILL).
  - intros pid p1 c Hp1. ends.
Qed.

Lemma family_4_stop s sig : ready s sig → passes (sigaction_4_stop sig) 2 s.
Proof.
  start 2 Ret. eapply (runs_fork_wait _ _ _ _ _ _ _ _ _ (Stopped SIGSTOP)); try done; [by right| |].
  - intros p1 Hp1 Hq1. fill. install. eapply (runs_bind_ends _ _ _ _ (Stopped SIGSTOP)); [done|].
    by eapply (fatal_handler (exit 0) SIGSTOP).
  - intros pid p1 c Hp1. by eexists.
Qed.

Lemma family_4_silent s extra sig :
  valid_sig extra = true → ready s sig → passes (sigaction_4_silent extra sig) 1 s.
Proof. intros He. start 1 Ret. fill. install. ends. Qed.

(** ** Family 8: the mask of the action *)

(** The handler raises the blocked signal and sees no delivery. *)
Lemma handler_8_runs inner sig info n h p v :
  at_view v 0 None p → quiet v → valid_sig inner = true →
  pends (act_of v inner) inner = true → inner ∈ sv_mask v →
  runs (handler_8 (St := St) inner "handler" sig info (deliver (S n) h) p) (Ret tt)
    (at_view (sv_generate inner v) 0 None).
Proof.
  intros Hp Hq Hv Hi Hm. unfold handler_8. rewrite bool_decide_false by done.
  call runs_raise_blocked. call runs_var. by apply runs_ret.
Qed.

Lemma family_8 s sig inner :
  sig ≠ inner → ready s inner → ready s sig → passes (sigaction_8 sig inner) 3 s.
Proof.
  intros Hne (_ & Hci & Hmi & _). destruct (catchable_valid _ Hci) as [Hvi Hui].
  start 3 Ret. fill. install. unfold sigemptyset. rewrite emptyset_law. call runs_libcall.
  install. set (v := sv_install inner _ _) in *.
  assert (act_of v sig = norm_act (SigAct (Fun "handler") {[inner]} 0)) as Ha.
  { unfold v. rewrite act_install_ne by done. by rewrite act_install. }
  assert (act_of v inner = norm_act (SigAct (Fun "inner_handler") ∅ 0)) as Hai.
  { unfold v. by rewrite act_install. }
  assert (quiet v) as Hqv by auto with pts.
  edestruct (runs_raise_nested fuel (handler_8 inner) sig inner p3 v 0 0 1 None) as (v' & Hq' & Hr);
    try done; try (by rewrite ?Ha, ?Hai).
  - intros info p4 Hp4. eapply handler_8_runs; [done|by eapply raised_quiet|done|..].
    + rewrite act_enter by (by rewrite act_generate, Ha). by rewrite act_generate, Hai.
    + apply enter_blocks; [done|]. left. rewrite act_generate, Ha. simpl. set_solver.
  - intros info p4 v' Hp4. exact (runs_set (λ count, count + 1) _ p4 v' 0 None Hp4).
  - eapply runs_raise_or; [exact Hr|]. after. ends.
Qed.

(** ** Families 12 and 13: the alternate stack *)

Lemma handler_12_runs f sig info n h p v x c :
  at_view v x c p → quiet v → sv_alt v = (ss_sp x, ss_size x) →
  runs (handler_12 (St := St) f sig info (deliver (S n) h) p) (Ret tt) (at_view v x c).
Proof.
  intros Hp Hq Ha. eapply runs_bind_some; [by eapply runs_altstack_query|].
  intros old p1 Ho Hp1. rewrite Ha in Ho. injection Ho as Hsp Hsz. call runs_var. simpl.
  rewrite Hsp, Hsz, !Z.eqb_refl. by apply runs_ret.
Qed.

Lemma family_12 s sig : ready s sig → passes (sigaction_12 sig) 2 s.
Proof.
  start 2 Ret. fill. install.
  eapply runs_bind_some; [by eapply runs_malloc|]. intros a p2 Ha Hp2.
  call runs_set. rewrite (proj2 (Z.eqb_neq a 0)) by done. call runs_set. call runs_var.
  eapply runs_bind_some; [eapply runs_altstack; [done|auto with pts|exact Hs|done|done]|].
  intros old p6 _ Hp6. rewrite set_alt_install in Hp6. eapply runs_raise_or.
  { eapply raise_installed; try done. intros info p7 v' _ Hp7 Hq7 Ha7.
    eapply handler_12_runs; [done|done|]. by rewrite Ha7. }
  after. ends.
Qed.

Lemma family_13 s flags sig : ready s sig → passes (sigaction_13 flags sig) 2 s.
Proof.
  start 2 Ret. fill. install.
  eapply runs_bind_some; [eapply runs_altstack_query; [done|auto with pts]|].
  intros old p2 Ho Hp2. call runs_set. eapply runs_raise_or.
  { eapply raise_installed; try done. intros info p4 v' _ Hp4 Hq4 Ha4.
    eapply handler_12_runs; [done|done|]. by rewrite Ha4. }
  after. ends.
Qed.

(** ** Families 22 and 25: a signal inside of its handler *)

(** The second signal interrupts the handler of the first. *)
Lemma handler_22_inside sig f info d p v x c :
  at_view v x c p → inside_handler x ≠ 0 →
  runs (handler_22 (St := St) sig f sig info d p) (Exit 0) (λ _, True).
Proof.
  intros Hp Hx. call runs_var. rewrite (proj2 (Z.eqb_neq _ _) Hx). ends.
Qed.

Lemma handler_22_first sig f info n p v c :
  at_view v (Counts 0 0 0) c p → quiet v → valid_sig sig = true → sig ∉ sv_mask v →
  sa_handler (act_of v sig) = Fun f →
  runs (handler_22 (St := St) sig f sig info (deliver (S n) (handler_22 sig)) p) (Exit 0)
    (λ _, True).
Proof.
  intros Hp Hq Hv Hm Hf. call runs_var. call runs_set. call runs_set. call runs_var.
  eapply (runs_bind_ends _ _ _ _ (Exit 0)); [done|].
  eapply (runs_bind_ends _ _ _ _ (Exit 0)); [done|].
  eapply (runs_raise_ends _ _ _ _ _ _ _ f (Exit 0)); try done.
  intros info' p4 Hp4. by eapply handler_22_inside.
Qed.

Lemma family_22 s sig : ready s sig → passes (sigaction_22 sig) 3 s.
Proof.
  start 3 Ret. eapply (runs_fork_wait _ _ _ _ _ _ _ _ _ (Exit 0)); try done; [by left| |].
  - intros p1 Hp1 Hq1. fill. install. set (v := sv_install _ _ _) in *.
    assert (act_of v sig = norm_act (SigAct (Fun "handler") ∅ SA_NODEFER)) as Ha by apply act_install.
    assert (quiet v) as Hqv by auto with pts.
    eapply (runs_bind_ends _ _ _ _ (Exit 0)); [done|].
    eapply (runs_raise_ends _ _ _ _ _ _ _ "handler" (Exit 0)); try done; [by rewrite Ha|].
    intros info p4 Hp4. eapply handler_22_first; try done.
    + by eapply raised_quiet.
    + apply enter_unblocked; [done|rewrite act_generate, Ha; simpl; set_solver|by rewrite act_generate, Ha].
    + by rewrite act_enter; rewrite act_generate, Ha.
  - intros pid p1 c Hp1. ends.
Qed.

(** Without SA_NODEFER the handler of the first returns first. *)
Lemma handler_25_first sig f info n h p v c :
  at_view v (Counts 0 0 0) c p → quiet v → valid_sig sig = true → sig ∈ sv_mask v →
  pends (act_of v sig) sig = true →
  runs (handler_25 (St := St) sig f sig info (deliver (S n) h) p) (Ret tt)
    (at_view (sv_generate sig v) (Counts 1 0 0) c).
Proof.
  intros Hp Hq Hv Hm Hf. call runs_var. call runs_set. call runs_set. call runs_var.
  eapply runs_bind.
  { eapply runs_bind; [by eapply runs_raise_blocked|]. after. by eapply runs_ret. }
  after. by eapply (runs_set (add_inside (-1)) _ _ _ (Counts 1 0 1)).
Qed.

Lemma handler_25_second sig f info d p v c :
  at_view v (Counts 1 0 0) c p →
  runs (handler_25 (St := St) sig f sig info d p) (Ret tt) (at_view v (Counts 2 0 0) c).
Proof.
  intros Hp. call runs_var. call runs_set. call runs_set. call runs_var. call runs_ret.
  by eapply (runs_set (add_inside (-1)) _ _ _ (Counts 2 0 1)).
Qed.

(** A test without SA_NODEFER whose handler raises its own signal once. *)
Lemma raise_again {V} h sig n p v (x x1 x2 : V) c f :
  at_view (sv_install sig (SigAct (Fun f) ∅ 0) v) x c p →
  quiet v → valid_sig sig = true → sig ∉ sv_mask v → sig ∉ unblockable →
  (∀ info p' v', at_view v' x c p' → quiet v' → sig ∈ sv_mask v' →
     pends (act_of v' sig) sig = true →
     runs (h f sig info (deliver (S (S n)) h) p') (Ret tt) (at_view (sv_generate sig v') x1 c)) →
  (∀ info p' v', at_view v' x1 c p' →
     runs (h f sig info (deliver (S n) h) p') (Ret tt) (at_view v' x2 c)) →
  ∃ v', quiet v' ∧ runs (raise sig (deliver (S (S (S n))) h) p) (Ret 0) (at_view v' x2 c).
Proof.
  intros Hp Hq Hv Hm Hu Hh Hh2. set (w := sv_install _ _ _) in *.
  assert (act_of w sig = norm_act (SigAct (Fun f) ∅ 0)) as Ha by apply act_install.
  assert (quiet w) as Hqw by auto with pts.
  eapply runs_raise_nested; try done; try (by rewrite ?Ha).
  intros info p' Hp'. apply Hh; [done|by eapply raised_quiet| |].
  - apply enter_blocks; [done|]. right. by rewrite act_generate, Ha.
  - by rewrite act_enter; rewrite act_generate, Ha.
Qed.

Lemma family_25 s sig : ready s sig → passes (sigaction_25 sig) 3 s.
Proof.
  start 3 Ret. eapply (runs_fork_wait _ _ _ _ _ _ _ _ _ (Ret 0)); try done; [by left| |].
  - intros p1 Hp1 Hq1. fill. install.
    edestruct (raise_again (handler_25 sig)) as (v' & _ & Hr); [done..| | |].
    { intros. by eapply handler_25_first. }
    { intros. by eapply handler_25_second. }
    eapply runs_raise_or; [exact Hr|]. after. call runs_var. ends.
  - intros pid p1 c Hp1. ends.
Qed.

(** ** Family 23: the signal is pending in its handler *)

Lemma handler_23_first sig f info n h p v c :
  at_view v 0 c p → quiet v → valid_sig sig = true → sig ∈ sv_mask v →
  pends (act_of v sig) sig = true →
  runs (handler_23 (St := St) sig f sig info (deliver (S n) h) p) (Ret tt)
    (at_view (sv_generate sig v) 2 c).
Proof.
  intros Hp Hq Hv Hm Hf. call runs_set. call runs_var. call runs_ret.
  eapply runs_bind; [|after; by eapply (runs_set (λ called, called + 1) _ _ _ 1)].
  call runs_raise_blocked. eapply runs_bind.
  { eapply runs_sigpending; [done|]. by apply generate_blocked. }
  after. unfold sigismember. rewrite ismember_law by done.
  rewrite bool_decide_true by (simpl; set_solver). call runs_libcall. by eapply runs_ret.
Qed.

Lemma handler_23_second sig f info d p v c :
  at_view v 2 c p →
  runs (handler_23 (St := St) sig f sig info d p) (Ret tt) (at_view v 4 c).
Proof.
  intros Hp. call runs_set. call runs_var. call runs_ret. call runs_ret.
  by eapply (runs_set (λ called, called + 1) _ _ _ 3).
Qed.

Lemma family_23 s sig : ready s sig → passes (sigaction_23 sig) 3 s.
Proof.
  start 3 Exit. eapply runs_frmw_install; [done..|]. intros _ p1 _ Hp1.
  edestruct (raise_again (handler_23 sig)) as (v' & _ & Hr); [done..| | |].
  { intros. by eapply handler_23_first. }
  { intros. by eapply handler_23_second. }
  eapply runs_frmw_raise; [exact Hr|]. after. eapply runs_bind.
  { eapply runs_bind; [eapply runs_bind; [by eapply runs_var|]|].
    - after. by eapply runs_ret.
    - after. by eapply runs_ret. }
  after. ends.
Qed.

(** ** Family 28 *)

Lemma family_28 s sig :
  sa_handler (act_of (view s) sig) ≠ SIG_ERR → ready s sig → passes (sigaction_28 sig) 2 s.
Proof.
  intros He. start 2 Exit.
  edestruct (runs_signal (S fuel) handler_28 p (view s) 1 None sig (Fun "handler_1")) as (m & fl & Hr); [done..|].
  eapply runs_bind; [exact Hr|]. intros p1 Hp1. rewrite bool_decide_false by done.
  eapply runs_frmw_install; [done|done|auto with pts|]. intros save p2 Ho Hp2.
  rewrite act_install in Ho. eapply runs_frmw_raise.
  { eapply (raise_installed _ _ _ _ _ _ 1 0); try done; auto with pts.
    intros. by eapply (runs_set (λ called, called - 1) _ _ _ 1). }
  intros p3 Hp3. call runs_var.
  eapply runs_bind_some; [eapply runs_sigaction; [done|done|apply done_quiet; auto with pts]|].
  intros old p5 _ Hp5. eapply runs_frmw_raise.
  { eapply (raise_installed _ _ _ _ _ _ 0 1 _ "handler_1"); try done.
    - apply done_quiet; auto with pts.
    - by apply (norm_handler save (SigAct (Fun "handler_1") m fl)).
    - intros. by eapply (runs_set (λ called, called + 1) _ _ _ 0). }
  after. call runs_var. ends.
Qed.

(** ** Test 30-1 *)

Lemma runs_must_fail {V} sig a (k : P St V Z) n h p v (x : V) c o Q :
  at_view v x c p → quiet v → catchable sig = false →
  (∀ p', at_view v x c p' → runs (k (deliver (S n) h) p') o Q) →
  runs (must_fail sig a k (deliver (S n) h) p) o Q.
Proof.
  intros Hp Hq Hs Hk. pose proof Hp as (Hg & Hv & _).
  destruct (sigaction_invalid (p_sys p) sig a Hg Hs) as (old & s & Hr & Hg' & Hv').
  destruct (take_none s Hg') as (s2 & Ht & Hg2 & Hv2); [by rewrite Hv', Hv|].
  unfold must_fail, sigaction, syscall, get_errno, mbind, P_bind. rewrite Hr.
  unfold deliver at 1. cbn [p_sys with_sys ret_of sr_errno]. rewrite Ht. cbn.
  apply Hk. split_and!; [done|by cbn; rewrite Hv2, Hv', Hv|apply Hp|apply Hp].
Qed.

Lemma test_30_1 s : sig_good s → quiet (view s) → passes sigaction_30_1 1 s.
Proof.
  intros Hg Hq fuel Hf. destruct fuel as [|fuel]; [lia|].
  refine (eq_trans (runs_verdict _ _ _ _ _ (Exit PTS_PASS) (λ _, True) _) eq_refl). begin.
  unfold main_30, sigemptyset. rewrite emptyset_law. call runs_libcall.
  repeat (eapply runs_must_fail; [eassumption|done|done|after]). ends.
Qed.

End Families.
