(* ===== verification/SigactionSuite.v ===== *)
(** * The verdicts of the tests of sigaction

    Every system with the laws of SigApi passes all files; which quirks of a
    system the files detect, and which they do not; the exit codes that a test
    can give on any system. *)

From stdpp Require Import base tactics numbers list gmap strings fin_maps fin_sets.
From S2P Require Import Prelude Lts SigApi SigProc SigKernel SigRules SigactionTests SigRace SigactionFiles SigactionThms.

Open Scope Z_scope.

(** ** Systems with the laws *)

Section Suite.
Context {St : Type} `{SigLaws St}.

(** A process as a shell starts it: no signal of the suite is blocked, nothing
    can be delivered, no handler runs. *)
Definition fresh_process (s : St) : Prop :=
  sig_good s ∧ quiet (view s) ∧ sv_saved (view s) = [] ∧
  ∀ sig, sig ∈ suite_signals →
    sig ∉ sv_mask (view s) ∧ sa_handler (act_of (view s) sig) ≠ SIG_ERR.

Lemma suite_catchable sig : sig ∈ suite_signals → catchable sig = true.
Proof.
  assert (Forall (λ sig, catchable sig = true) suite_signals) as Hf
    by (refine (bool_decide_unpack _ _); vm_compute; exact I).
  by apply (proj1 (Forall_forall _ _) Hf).
Qed.

Lemma fresh_ready s sig : fresh_process s → sig ∈ suite_signals → ready s sig.
Proof.
  intros (Hg & Hq & Hs & Hm) Hin. destruct (Hm sig Hin) as [Hn _].
  split_and!; [done|by apply suite_catchable|done|done|done].
Qed.

Lemma passes_mono t n m (s : St) : (n ≤ m)%nat → passes t n s → passes t m s.
Proof. intros Hle Hp fuel Hf. apply Hp. lia. Qed.

(** The files of a family, from the lemma on the family. *)
Lemma family_files (family : Z → nat → St → outcome Z) files n s :
  files = family <$> suite_signals → (n ≤ 3)%nat →
  (∀ sig, sig ∈ suite_signals → passes (family sig) n s) →
  Forall (λ t, passes t 3 s) files.
Proof.
  intros -> Hn Hp. apply Forall_fmap, Forall_forall. intros sig Hin.
  eapply passes_mono; [exact Hn|]. by apply Hp.
Qed.

Lemma pairs_signals : Forall (λ p, p.1 ∈ suite_signals ∧ p.2 ∈ suite_signals ∧ p.1 ≠ p.2) suite_pairs.
Proof. refine (bool_decide_unpack _ _). vm_compute. exact I. Qed.

Lemma files_8_pass s : fresh_process s → Forall (λ t, passes t 3 s) files_8.
Proof.
  intros Hf. change files_8 with ((λ p, sigaction_8 (St := St) p.1 p.2) <$> suite_pairs).
  apply Forall_fmap. eapply Forall_impl; [exact pairs_signals|].
  intros [sig inner] (H1 & H2 & Hne). apply family_8; [done|by apply fresh_ready..].
Qed.

(** C2. Every system that has the laws of the standard passes all 469 files of
    the families 1 to 13, 18 to 28 and 30 of sigaction, whatever the signal: each
    of them ends with PTS_PASS in a process as the shell starts it, and three
    rounds of delivery are enough. *)
Theorem sigaction_suite_passes s :
  fresh_process s → Forall (λ t, passes t 3 s) sigaction_suite.
Proof.
  intros Hf. pose proof (λ sig, fresh_ready s sig Hf) as Hr.
  unfold sigaction_suite. rewrite !Forall_app. split_and!.
  all: try (by apply files_8_pass).
  all: try (eapply family_files; [reflexivity| |intros sig Hin; first
    [ by eapply family_1, Hr | by eapply family_2, Hr | by eapply family_3, Hr
    | by eapply family_4_kill, Hr | by eapply family_4_stop, Hr
    | by eapply family_4_silent, Hr | by eapply family_6, Hr | by eapply family_12, Hr
    | by eapply family_13, Hr | by eapply family_18, Hr | by eapply family_19, Hr
    | by eapply family_22, Hr | by eapply family_23, Hr | by eapply family_25, Hr
    | eapply family_28; [apply Hf|apply Hr]; done ]]; lia).
  apply Forall_singleton. eapply (passes_mono _ 1); [lia|]. apply test_30_1; apply Hf.
Qed.

End Suite.

Lemma fresh_kern0 : fresh_process (kern0 no_quirks).
Proof.
  split_and!; [exact good0|by apply leibniz_equiv; vm_compute|done|].
  intros sig Hin. split; [vm_compute; done|done].
Qed.

(** The system without quirks. *)
Lemma sigaction_suite_passes_witness :
  fresh_process (kern0 no_quirks) ∧
  Forall (λ t, passes t 3 (kern0 no_quirks)) sigaction_suite.
Proof. split; [exact fresh_kern0|]. apply sigaction_suite_passes. exact fresh_kern0. Defined.

Create HintDb codes.

(** ** Exit codes

    [ends_in C ok r]: the code with the result [r] exits with a code in [C], or
    returns a value in [ok], or does neither. *)

Section Codes.
Context {St V : Type} `{SigSys St} (C : Z → Prop).
Notation PM := (P St V).

Definition ends_in {A} (ok : A → Prop) (r : outcome A * proc St V) : Prop :=
  match fst r with Ret a => ok a | Exit c => C c | _ => True end.

Definition safe {A} (ok : A → Prop) (c : PM A) : Prop :=
  ∀ d, (∀ p, ends_in (λ _, True) (d p)) → ∀ p, ends_in ok (c d p).

Lemma safe_ret {A} (ok : A → Prop) a : ok a → safe ok (mret a).
Proof. by intros Ha d Hd p. Qed.

Lemma ends_then {A B} (ok : B → Prop) r (k : A → proc St V → outcome B * proc St V) :
  ends_in (λ _, True) r → (∀ a p, ends_in ok (k a p)) → ends_in ok (and_then r k).
Proof. intros Hr Hk. destruct r as [[] p]; simpl; [apply Hk|done..]. Qed.

Lemma safe_bind {A B} (ok : B → Prop) (c : PM A) (f : A → PM B) :
  safe (λ _, True) c → (∀ a, safe ok (f a)) → safe ok (c ≫= f).
Proof.
  intros Hc Hf d Hd p. apply (ends_then ok (c d p) (λ a, f a d)); [by apply Hc|].
  intros a p'. by apply Hf.
Qed.

Lemma safe_exit {A} (ok : A → Prop) c : C c → safe ok (exit c).
Proof. by intros Hc d Hd p. Qed.

Lemma safe_var {A} (f : V → A) : safe (λ _, True) (var f).
Proof. by intros d Hd p. Qed.

Lemma safe_set f : safe (λ _, True) (set f).
Proof. by intros d Hd p. Qed.

Lemma safe_errno : safe (λ _, True) get_errno.
Proof. by intros d Hd p. Qed.

Lemma safe_libcall {A} (r : sysret A) : safe (λ _, True) (libcall r).
Proof. by intros d Hd p. Qed.

Lemma safe_malloc n : safe (λ _, True) (malloc n).
Proof. intros d Hd p. unfold malloc. by destruct (lib_malloc n (p_sys p)). Qed.

Lemma safe_syscall {A} (f : St → sysret A * St) : safe (λ _, True) (syscall f).
Proof.
  intros d Hd p. unfold syscall. destruct (f (p_sys p)) as [r s]. by apply ends_then.
Qed.

Lemma safe_raise sig : safe (λ _, True) (raise sig).
Proof. apply safe_bind; [apply safe_syscall|]. intros r. by apply safe_ret. Qed.

Lemma safe_yield : safe (λ _, True) sched_yield.
Proof. apply safe_bind; [apply safe_syscall|]. intros r. by apply safe_ret. Qed.

Lemma safe_wait b : safe (λ _, True) (wait b).
Proof.
  intros d Hd p. unfold wait. destruct (p_child p); [|done].
  repeat case_match; try done; by apply safe_syscall.
Qed.

Lemma safe_kill : safe (λ _, True) kill_child.
Proof. by intros d Hd p. Qed.

Lemma safe_while n c b : safe (λ _, True) c → safe (λ _, True) b → safe (λ _, True) (while n c b).
Proof.
  intros Hc Hb. induction n as [|n IH]; simpl; [by intros d Hd p|].
  apply safe_bind; [done|]. intros []; [by apply safe_bind|by apply safe_ret].
Qed.

Lemma safe_fork ok child parent : safe ok parent → safe ok (fork_else child parent).
Proof.
  intros Hp d Hd p. unfold fork_else. destruct (sys_fork (p_sys p)); [|by apply Hp].
  case_match; [by apply Hp|done].
Qed.

Lemma deliver_safe h : (∀ f sig info, safe (λ _, True) (h f sig info)) →
  ∀ fuel p, ends_in (λ _, True) (deliver fuel h p).
Proof.
  intros Hh fuel. induction fuel as [|fuel IH]; intros p; [done|]. unfold deliver; fold (deliver fuel h).
  destruct (sys_take (p_sys p)) as [[] s]; try done; try apply IH.
  apply ends_then; [by apply Hh|]. intros _ p'. apply IH.
Qed.

Lemma safe_main h main x fuel s :
  (∀ f sig info, safe (λ _, True) (h f sig info)) → safe C main →
  ∀ code, run_main fuel h x main s = Ret code ∨ run_main fuel h x main s = Exit code → C code.
Proof.
  intros Hh Hm code. unfold run_main.
  pose proof (Hm (deliver fuel h) (deliver_safe h Hh fuel) (Proc s x None None)) as He.
  unfold ends_in in He. destruct (fst _); naive_solver.
Qed.

End Codes.

#[export] Hint Resolve safe_var safe_set safe_errno safe_libcall safe_malloc safe_syscall
  safe_raise safe_yield safe_wait safe_kill : codes.

(** Goes through the code of a test. *)
Ltac code_cases :=
  repeat first
    [ progress intros
    | progress unfold fill_act, fill_act_with, install_or, raise_or, pass_or_fail, resolve,
        frmw_install, frmw_raise, must_fail, sigemptyset, sigaddset, sigismember, sigaction,
        signal, sigpending, sigaltstack
    | solve [eauto with codes]
    | apply safe_bind
    | apply safe_fork
    | apply safe_while
    | apply safe_ret; first [done | set_solver]
    | apply safe_exit; set_solver
    | case_match ].

(** The codes of posixtest.h; -1, which the shell sees as 255. *)
Definition pts_codes : list Z := [PTS_PASS; PTS_FAIL; PTS_UNRESOLVED; PTS_UNTESTED].
Definition bad_codes : list Z := [PTS_PASS; PTS_UNRESOLVED; -1].

Section AnySystem.
Context {St : Type} `{SigSys St}.

Definition gives (codes : list Z) (t : nat → St → outcome Z) : Prop :=
  ∀ fuel s code, t fuel s = Ret code ∨ t fuel s = Exit code → code ∈ codes.

Lemma gives_main {V} codes h (x : V) (main : nat → P St V Z) t :
  (∀ fuel s, t fuel s = run_main fuel h x (main fuel) s) →
  (∀ f sig info, safe (λ c, c ∈ codes) (λ _, True) (h f sig info)) →
  (∀ fuel, safe (λ c, c ∈ codes) (λ c, c ∈ codes) (main fuel)) → gives codes t.
Proof. intros Ht Hh Hm fuel s code. rewrite Ht. by apply (safe_main (λ c, c ∈ codes)). Qed.

(** The rule for a program with the function [m] as its [main] and the
    handlers [h]. *)
Tactic Notation "gives_codes" uconstr(m) reference(u) reference(h) :=
  eapply (gives_main _ _ _ m); [done|..];
  unfold u, h, handler_body, pts_codes, bad_codes; code_cases.

Lemma gives_1 sig : gives pts_codes (sigaction_1 sig).
Proof. gives_codes (λ _, main_1 sig) main_1 handler_1. Qed.

Lemma gives_2 sig : gives pts_codes (sigaction_2 sig).
Proof. gives_codes (λ _, main_2 sig) main_2 no_handlers. Qed.

Lemma gives_3 sig : gives pts_codes (sigaction_3 sig).
Proof. gives_codes (λ _, main_3 sig) main_3 handler_1. Qed.

Lemma gives_4_kill sig : gives pts_codes (sigaction_4_kill sig).
Proof. gives_codes (λ _, main_4_kill sig) main_4_kill handler_4_kill. Qed.

Lemma gives_4_stop sig : gives pts_codes (sigaction_4_stop sig).
Proof. gives_codes (λ _, main_4_stop sig) main_4_stop handler_4_stop. Qed.

Lemma gives_4_silent extra sig : gives pts_codes (sigaction_4_silent extra sig).
Proof. gives_codes (λ _, main_4_silent extra sig) main_4_silent no_handlers. Qed.

Lemma gives_6 sig : gives pts_codes (sigaction_6 sig).
Proof. gives_codes (λ _, main_6 sig) main_6 handler_1. Qed.

Lemma gives_8 sig inner : gives bad_codes (sigaction_8 sig inner).
Proof. gives_codes (λ _, main_8 sig inner) main_8 handler_8. Qed.

Lemma gives_12 sig : gives bad_codes (sigaction_12 sig).
Proof. gives_codes (λ _, main_12 sig) main_12 handler_12. Qed.

Lemma gives_13 flags sig : gives bad_codes (sigaction_13 flags sig).
Proof. gives_codes (λ _, main_13 flags sig) main_13 handler_12. Qed.

Lemma gives_18 sig : gives pts_codes (sigaction_18 sig).
Proof. gives_codes (λ _, main_18 sig) main_18 handler_1. Qed.

Lemma gives_19 sig : gives pts_codes (sigaction_19 sig).
Proof. gives_codes (λ _, main_19 sig) main_19 handler_19. Qed.

Lemma gives_22 sig : gives pts_codes (sigaction_22 sig).
Proof. gives_codes (λ _, main_22 sig) main_22 handler_22. Qed.

Lemma gives_25 sig : gives (-1 :: pts_codes) (sigaction_25 sig).
Proof. gives_codes (λ _, main_25 sig) main_25 handler_25. Qed.

Lemma gives_28 sig : gives pts_codes (sigaction_28 sig).
Proof. gives_codes (λ _, main_28 sig) main_28 handler_28. Qed.

Lemma gives_23 sig : gives pts_codes (sigaction_23 sig).
Proof. gives_codes (λ fuel, main_23 fuel sig) main_23 handler_23. Qed.

Lemma gives_30 : gives pts_codes sigaction_30_1.
Proof. gives_codes (λ _, main_30) main_30 no_handlers. Qed.

Lemma gives_files codes (family : Z → nat → St → outcome Z) files :
  files = family <$> suite_signals → (∀ sig, gives codes (family sig)) →
  Forall (gives codes) files.
Proof. intros -> Hf. apply Forall_fmap, Forall_forall. intros sig _. apply Hf. Qed.

(** The files whose handlers exit with -1. *)
Definition files_minus_one : list (nat → St → outcome Z) :=
  files_8 ++ files_12 ++ files_12_no_stack ++ files_13.

Definition files_pts : list (nat → St → outcome Z) :=
  files_1 ++ files_2 ++ files_3 ++ files_4_kill ++ files_4_stop ++ files_4_silent_kill ++
  files_4_silent_stop ++ files_6 ++ files_18 ++ files_19 ++ files_22 ++ files_23 ++ files_28 ++ [sigaction_30_1].

(** The exit codes of the tests on any system, with or without the laws: the
    339 files of the families 1 to 6, 18 to 23, 28 and 30 exit with a code of
    posixtest.h, the 26 of family 25 with one of these or with -1, and the 104
    files of the families 8, 12 and 13 with PTS_PASS, PTS_UNRESOLVED or -1, but
    never with PTS_FAIL. *)
Theorem sigaction_exit_codes :
  Forall (gives pts_codes) files_pts ∧ Forall (gives (-1 :: pts_codes)) files_25 ∧
  Forall (gives bad_codes) files_minus_one.
Proof.
  unfold files_pts, files_minus_one. rewrite !Forall_app. split_and!.
  all: try (apply Forall_singleton, gives_30).
  all: try (change files_8 with ((λ p, sigaction_8 (St := St) p.1 p.2) <$> suite_pairs);
            apply Forall_fmap, Forall_forall; intros p _; apply gives_8).
  all: eapply gives_files; [reflexivity|]; intros sig; first
    [ apply gives_1 | apply gives_2 | apply gives_3 | apply gives_4_kill | apply gives_4_stop
    | apply gives_4_silent | apply gives_6 | apply gives_12 | apply gives_13 | apply gives_18
    | apply gives_19 | apply gives_22 | apply gives_23 | apply gives_25 | apply gives_28 ].
Qed.

End AnySystem.

(** ** Families 1 and 18 *)

Section SameTest.
Context {St : Type} `{SigSys St} (sig : Z).

(** The calls return 0 or -1, as the standard says, and no signal of the kind is
    pending when the handler is installed. *)
Definition plain_calls (s : St) : Prop :=
  sr_ret (lib_sigemptyset junk_set) = 0 ∧
  (∀ a, let r := sys_sigaction sig (Some a) s in
     (sr_ret (fst r) = 0 ∨ sr_ret (fst r) = -1) ∧ fst (sys_take (snd r)) = Nothing) ∧
  (∀ s', sr_ret (fst (sys_raise sig s')) = 0 ∨ sr_ret (fst (sys_raise sig s')) = -1).

(** [raise] returns what the system call returns, if it returns. *)
Lemma raise_cases {V} d s0 (p : proc St V) :
  plain_calls s0 →
  (∃ r p', raise sig d p = (Ret r, p') ∧ (r = 0 ∨ r = -1)) ∨
  (∃ o p', raise sig d p = (o, p') ∧ returns o = false).
Proof.
  intros (_ & _ & Hr). specialize (Hr (p_sys p)). unfold raise, syscall, mbind, P_bind, mret, P_ret.
  destruct (sys_raise sig (p_sys p)) as [r s]. simpl in Hr.
  destruct (d (ret_of r (with_sys s p))) as [[] p']; simpl; [left|right..]; eauto.
Qed.

(** Installing the handler delivers nothing. *)
Lemma install_cases {V} fuel h a (p : proc St V) :
  plain_calls (p_sys p) → ∃ r p', sigaction sig (Some a) (deliver (S fuel) h) p = (Ret r, p') ∧
    p_vars p' = p_vars p ∧ (sr_ret r = 0 ∨ sr_ret r = -1).
Proof.
  intros (_ & Ha & _). specialize (Ha a). unfold sigaction, syscall.
  destruct (sys_sigaction sig (Some a) (p_sys p)) as [r s]. destruct Ha as [Hr Ht]. simpl in Hr, Ht.
  assert (∀ q : proc St V, p_sys (ret_of r q) = p_sys q ∧ p_vars (ret_of r q) = p_vars q) as Hq.
  { intros q. unfold ret_of. by case_match. }
  destruct (Hq (with_sys s p)) as [Hs Hv].
  unfold deliver. rewrite Hs. simpl p_sys. destruct (sys_take s) as [e s2]. simpl in Ht. subst e.
  simpl. do 2 eexists. split; [done|]. split; [done|done].
Qed.

(** C24. Two authors wrote the same test: on every system whose calls return 0 or
    -1, where [sigemptyset] returns 0 and that has no signal to deliver when the handler is
    installed, the files
    of family 1 and those of family 18 end with the same verdict, even if the
    system breaks the standard otherwise. *)
Theorem families_1_18_agree fuel s :
  plain_calls s → verdict (sigaction_1 sig fuel s) = verdict (sigaction_18 sig fuel s).
Proof.
  intros Hc. pose proof Hc as (He & _ & _). unfold sigaction_1, sigaction_18, run_main.
  unfold main_1, main_18, frmw_install, frmw_raise, resolve, fill_act, install_or, raise_or, pass_or_fail,
    sigemptyset, libcall, mbind, P_bind, mret, P_ret, var, exit. cbn -[deliver]. rewrite He.
  cbn -[deliver]. set (p0 := ret_of _ _). set (a := SigAct _ _ _).
  assert (p_vars p0 = 0 ∧ p_sys p0 = s) as [Hv0 Hs0] by (unfold p0, ret_of; by case_match).
  destruct fuel as [|fuel]; [by unfold sigaction, syscall; destruct (sys_sigaction _ _ _)|].
  destruct (install_cases fuel handler_1 a p0 ltac:(by rewrite Hs0)) as (r & p1 & -> & Hv1 & [Hr|Hr]);
    cbn -[deliver]; rewrite Hr; [|done]. cbn -[deliver]. rewrite Hv1, Hv0. cbn -[deliver].
  destruct (raise_cases (deliver (S fuel) handler_1) s p1 Hc) as [(r2 & p2 & -> & [->| ->])|(o & p2 & -> & Ho)];
    cbn; [|done|by destruct o].
  by destruct (p_vars p2 =? 0).
Qed.

End SameTest.


Lemma families_1_18_agree_witness :
  plain_calls (St := kern no_raise) SIGABRT (kern0 no_raise) ∧
  verdict (sigaction_1 SIGABRT 5 (kern0 no_raise)) = Some PTS_FAIL ∧
  verdict (sigaction_1 SIGABRT 5 (kern0 no_raise)) = verdict (sigaction_18 SIGABRT 5 (kern0 no_raise)).
Proof.
  assert (plain_calls (St := kern no_raise) SIGABRT (kern0 no_raise)) as Hp.
  { split_and!; [done| |by left]. intros a. split; [by left|].
    destruct a as [[] m fl]; vm_compute; reflexivity. }
  split; [exact Hp|]. split; [by vm_compute|]. exact (families_1_18_agree SIGABRT 5 _ Hp).
Defined.

(** ** Quirks

    Runs on the systems of SigKernel, from the state of a new process and with
    fuel for nine rounds of delivery. *)

Notation on q files v := (Forall (λ t, verdict (t 9%nat (kern0 q)) = v) files).

(** What the files detect, for each of the 26 signals: a system that does not
    block a signal while its handler runs (23, 25), ignores SA_NODEFER (22),
    lets SIGKILL or SIGSTOP be blocked (4), ignores [sa_mask] (8, with the exit
    code 255), does not give back the old action (2), does not install the new
    one (2), restores the default action when the new action is a null pointer
    (3: the process does not pass), loses a signal that is blocked (23), or does
    not send the signal (1, 3, 4, 6, 18, 19, 22, 28). *)
Theorem sigaction_detects :
  on no_block (files_23 ++ files_25) (Some PTS_FAIL) ∧
  on no_nodefer files_22 (Some PTS_FAIL) ∧
  on block_kill (files_4_kill ++ files_4_stop) (Some PTS_FAIL) ∧
  on no_sa_mask files_8 (Some 255) ∧
  on no_oact files_2 (Some PTS_FAIL) ∧
  on no_action files_2 (Some PTS_FAIL) ∧
  Forall (λ t, verdict (t 9%nat (kern0 null_resets)) ≠ Some PTS_PASS) files_3 ∧
  on lose_blocked files_23 (Some PTS_FAIL) ∧
  on no_raise (files_1 ++ files_3 ++ files_4_kill ++ files_4_stop ++ files_6 ++ files_18 ++
               files_19 ++ files_22 ++ files_28) (Some PTS_FAIL).
Proof. split_and!; refine (bool_decide_unpack _ _); vm_compute; exact I. Qed.

(** The programs of a family for the signals that end a process. *)
Definition fatal {A} (files : list A) : list A :=
  snd <$> filter (λ p, default_kind_of p.1 = DTerm) (zip suite_signals files).

(** What the files do not detect, for each of the signals: a system that
    never uses the alternate stack passes all files of family 12; a system on
    which no handler is ever called, because [raise] does nothing, passes the
    families 8, 12, 13 and 25; and a system that installs no handler passes the
    families 4 (SIGKILL), 22 and 25 for the 20 signals that end the process, since the
    parent does not ask whether the child exited or which signal killed it. *)
Theorem sigaction_blind_spots :
  on no_onstack (files_12 ++ files_12_no_stack) (Some PTS_PASS) ∧
  on no_raise (files_8 ++ files_12 ++ files_12_no_stack ++ files_13 ++ files_25) (Some PTS_PASS) ∧
  on no_action (fatal files_4_kill ++ fatal files_22 ++ fatal files_25) (Some PTS_PASS) ∧
  length (fatal suite_signals) = 20%nat.
Proof. split_and!; refine (bool_decide_unpack _ _); vm_compute; exact I. Qed.

(** ** Interrupted calls *)

(** C7. The files 16-1.c to 16-26.c under every schedule and every pattern of
    failing calls make at most 31 steps. On a system that restarts [sem_wait] after a
    handler with SA_RESTART none of them says FAIL (the comment in the files claims this);
    on one that does not they say FAIL exactly when the thread takes the signal while
    it is in [sem_wait], which some schedules do and others do not; and when no call fails they
    stop with PASS or with this FAIL. The files 17-1.c to 17-26.c under every schedule and
    every pattern of failing calls: the exit code is decided, by [outcome], in the state in
    which the parent calls [kill], and four more steps are enough for it. If the child is in
    [select] with its handler the test passes exactly if the call is interrupted; if it is
    between two calls of [select] it fails on every system; if it has not called sigaction, or
    the call failed, it passes on every system if the default action of the signal ends the
    child; if [kill] fails the parent waits for ever, and if [fork] failed it judges an
    uninitialised variable. So only a signal that comes during [select] tells a system that
    interrupts it from one that does not. *)
Theorem sigaction_16_17_files :
  Forall (λ t, ∀ sched,
    t true sched ≠ Some PTS_FAIL ∧
    (t false sched = Some PTS_FAIL ↔ Restart.interrupts false sched) ∧
    ∀ restart, Z.of_nat (moves (Restart.step restart) sched Restart.start) ≤ 31 ∧
      (all_ok sched → stuck (Restart.step restart) (run (Restart.step restart) sched Restart.start) →
       t restart sched = Some PTS_PASS ∨ t restart sched = Some PTS_FAIL ∧ restart = false)) files_16 ∧
  Forall (λ t, t false Restart.late_signal = Some PTS_FAIL ∧
               t false Restart.early_signal = Some PTS_PASS) files_16 ∧
  Forall (λ p, ∀ junk eintr,
    (∀ sched code, p.2 junk eintr sched = Some code → ∃ before f after, sched = before ++ (0%nat, f) :: after ∧
       Interrupt.parent (run (Interrupt.step p.1 junk eintr) before Interrupt.start) = Interrupt.QKill) ∧
    ∀ before f, let s := run (Interrupt.step p.1 junk eintr) before Interrupt.start in
      Interrupt.parent s = Interrupt.QKill →
      (∀ after code, p.2 junk eintr (before ++ (0%nat, f) :: after) = Some code →
         Interrupt.outcome p.1 junk eintr f s = Some code) ∧
      (∀ code, Interrupt.outcome p.1 junk eintr f s = Some code →
         p.2 junk eintr (before ++ (0%nat, f) :: Interrupt.finishing) = Some code) ∧
      (Interrupt.outcome p.1 junk true f s ≠ Interrupt.outcome p.1 junk false f s ↔
         Interrupt.child s = Interrupt.KSelect ∧ Interrupt.installed s = true ∧ f = false))
    (zip suite_signals files_17).
Proof.
  change files_16 with (Restart.sigaction_16 <$> suite_signals).
  change files_17 with (Interrupt.sigaction_17 <$> suite_signals).
  rewrite zip_with_fmap_r, zip_with_diag, !Forall_fmap, !Forall_forall.
  split_and!; intros sig Hin%suite_catchable; simpl.
  - intros sched. unfold Restart.sigaction_16. rewrite Hin. split_and!.
    + intros Hc. destruct (Restart.code_run true sched _ Hc) as [|[|[_ ?]]]; done.
    + apply Restart.fails_iff.
    + intros restart. split; [apply Restart.moves_few|apply Restart.stops_ok].
  - unfold Restart.sigaction_16. by rewrite Hin.
  - assert (valid_sig sig = true) as Hv by (by apply andb_prop in Hin as [? _]).
    intros junk eintr. split; [apply Interrupt.result_killed|]. intros before f Hq.
    destruct (Interrupt.interrupt_race sig junk eintr f before Hv Hq) as [H1 H2].
    split_and!; [apply H1|apply H2|apply Interrupt.tells_eintr].
Qed.
