(* ===== verification/SignalApi.v ===== *)
(** * More signal functions

    The functions that the tests of sighold, sigrelse, sigignore, sigset and kill
    call beside those of SigApi, with their laws, on the same view of the
    state. [kill] is called for the process itself only. *)

From stdpp Require Import base tactics numbers list gmap strings fin_maps fin_sets.
From S2P Require Import Prelude SigApi SigProc SigKernel.

Open Scope Z_scope.

Class SignalSys (St : Type) `{SigSys St} : Type := {
  sys_sighold : Z → St → sysret unit * St;
  sys_sigrelse : Z → St → sysret unit * St;
  sys_sigignore : Z → St → sysret unit * St;
  sys_sigset : Z → disposition → St → sysret disposition * St;
  sys_kill_self : Z → St → sysret unit * St }.

Definition sv_hold (sig : Z) (v : sigview) : sigview := sv_set_mask (sv_mask v ∪ {[sig]}) v.
Definition sv_release (sig : Z) (v : sigview) : sigview := sv_set_mask (sv_mask v ∖ {[sig]}) v.

(** What [sigset] returns. *)
Definition old_disposition (sig : Z) (v : sigview) : disposition :=
  if bool_decide (sig ∈ sv_mask v) then SIG_HOLD else sa_handler (act_of v sig).

(** The signal is blocked while the handler runs, and the handler stays. *)
Definition reliable (fl : Z) : Prop := has fl SA_NODEFER = false ∧ has fl SA_RESETHAND = false.

Class SignalLaws (St : Type) `{SigLaws St} `{!SignalSys St} : Type := {
  sighold_law : ∀ s sig, sig_good s → catchable sig = true →
    ∃ s', sys_sighold sig s = (sys_ok tt, s') ∧ sig_good s' ∧ view s' = sv_hold sig (view s);
  sigrelse_law : ∀ s sig, sig_good s → catchable sig = true →
    ∃ s', sys_sigrelse sig s = (sys_ok tt, s') ∧ sig_good s' ∧ view s' = sv_release sig (view s);
  sigignore_law : ∀ s sig, sig_good s → catchable sig = true →
    ∃ m fl s', sys_sigignore sig s = (sys_ok tt, s') ∧ sig_good s' ∧
      view s' = sv_install sig (SigAct SIG_IGN m fl) (view s);
  sigignore_invalid : ∀ s sig, sig_good s → catchable sig = false →
    ∃ s', sys_sigignore sig s = (SysRet (-1) (Some EINVAL) tt, s') ∧ sig_good s' ∧
      view s' = view s;
  sigset_law : ∀ s sig d, sig_good s → catchable sig = true → d ≠ SIG_ERR → d ≠ SIG_HOLD →
    ∃ m fl s', sys_sigset sig d s = (sys_ok (old_disposition sig (view s)), s') ∧ sig_good s' ∧
      reliable fl ∧ view s' = sv_release sig (sv_install sig (SigAct d m fl) (view s));
  (* the disposition stays, the signal is blocked *)
  sigset_hold : ∀ s sig, sig_good s → catchable sig = true →
    ∃ s', sys_sigset sig SIG_HOLD s = (sys_ok (old_disposition sig (view s)), s') ∧ sig_good s' ∧
      view s' = sv_hold sig (view s);
  sigset_invalid : ∀ s sig d, sig_good s → catchable sig = false →
    ∃ s', sys_sigset sig d s = (SysRet (-1) (Some EINVAL) SIG_ERR, s') ∧ sig_good s' ∧
      view s' = view s;
  signal_invalid : ∀ s sig d, sig_good s → catchable sig = false →
    ∃ s', sys_signal sig d s = (SysRet (-1) (Some EINVAL) SIG_ERR, s') ∧ sig_good s' ∧
      view s' = view s;
  kill_law : ∀ s sig, sig_good s → valid_sig sig = true →
    pends (act_of (view s) sig) sig = true →
    ∃ s', sys_kill_self sig s = (sys_ok tt, s') ∧ sig_good s' ∧
      view s' = sv_generate sig (view s);
  kill_zero : ∀ s, sig_good s →
    ∃ s', sys_kill_self 0 s = (sys_ok tt, s') ∧ sig_good s' ∧ view s' = view s }.

(** ** The system of SigKernel *)

Section Kernel.
Context (q : quirks).
Implicit Types k : kern q.

(** [f] for a signal that can be caught. *)
Definition k_checked {A} (sig : Z) (bad : A) (f : kern q → sysret A * kern q) k :
    sysret A * kern q :=
  if catchable sig then f k else (SysRet (-1) (Some EINVAL) bad, k).

Definition k_sigset (sig : Z) (d : disposition) : kern q → sysret disposition * kern q :=
  k_checked sig SIG_ERR (λ k,
    let v := k_view k in
    (sys_ok (old_disposition sig v),
     match d with
     | SIG_HOLD => k_set q (sv_hold sig v) k
     | _ => let k' := k_install q sig (SigAct d ∅ 0) k in
            k_set q (sv_release sig (k_view k')) k'
     end)).

End Kernel.

#[global] Instance kern_signal (q : quirks) : SignalSys (kern q) := {|
  sys_sighold sig := k_checked q sig tt (λ k, (sys_ok tt, k_set q (sv_hold sig (k_view k)) k));
  sys_sigrelse sig := k_checked q sig tt (λ k, (sys_ok tt, k_set q (sv_release sig (k_view k)) k));
  sys_sigignore sig := k_checked q sig tt (λ k, (sys_ok tt, k_install q sig (SigAct SIG_IGN ∅ 0) k));
  sys_sigset := k_sigset q;
  sys_kill_self sig k := if sig =? 0 then (sys_ok tt, k) else k_raise q sig k |}.

#[global] Instance kern_signal_laws : SignalLaws (kern no_quirks).
Proof.
  split; simpl; unfold k_sigset, k_checked.
  - intros k sig Hg ->. eexists. split; [done|]. split; [|done].
    apply good_set; [done|apply wf_set_mask, Hg|done].
  - intros k sig Hg ->. eexists. split; [done|]. split; [|done].
    apply good_set; [done|apply wf_set_mask, Hg|done].
  - intros k sig Hg Hs. rewrite Hs. apply catchable_valid in Hs as [_ Hs].
    do 3 eexists. split; [done|]. split; [|done].
    apply good_set; [done|apply wf_install; [done|apply Hg]|done].
  - intros k sig Hg ->. by eexists.
  - intros k sig d Hg Hs He Hh. rewrite Hs. apply catchable_valid in Hs as [_ Hs].
    exists ∅, 0. eexists. split; [done|].
    assert (k_good (k_set no_quirks (sv_release sig (sv_install sig (SigAct d ∅ 0) (k_view k))) k)).
    { apply good_set; [done|apply wf_set_mask, wf_install; [done|apply Hg]|done]. }
    destruct d; done.
  - intros k sig Hg ->. eexists. split; [done|]. split; [|done].
    apply good_set; [done|apply wf_set_mask, Hg|done].
  - intros k sig d Hg ->. by eexists.
  - intros k sig d Hg Hs. unfold k_signal. rewrite Hs. by eexists.
  - intros k sig Hg Hv Hp. assert (sig =? 0 = false) as ->.
    { apply Z.eqb_neq. intros ->. done. }
    exact (raise_law (St := kern no_quirks) k sig Hg Hv Hp).
  - intros k Hg. by eexists.
Defined.

(** ** The calls of a process *)

Section Calls.
Context {St V : Type} `{SignalSys St}.
Notation PM := (P St V).

Definition sigfillset (x : sigset) : PM (sysret sigset) := libcall (lib_sigfillset x).
Definition sigdelset (x : sigset) (sig : Z) : PM (sysret sigset) := libcall (lib_sigdelset sig x).
Definition sigprocmask (h : how) (m : option sigset) : PM (sysret sigset) :=
  syscall (sys_sigprocmask h m).
Definition sighold (sig : Z) : PM (sysret unit) := syscall (sys_sighold sig).
Definition sigrelse (sig : Z) : PM (sysret unit) := syscall (sys_sigrelse sig).
Definition sigignore (sig : Z) : PM (sysret unit) := syscall (sys_sigignore sig).
Definition sigset_ (sig : Z) (d : disposition) : PM (sysret disposition) :=
  syscall (sys_sigset sig d).
Definition kill_self (sig : Z) : PM (sysret unit) := syscall (sys_kill_self sig).
Definition sleep : PM unit := sched_yield.
End Calls.
