(* ===== verification/SignalTests.v ===== *)
(** * Tests of the signal functions

    The tests of sigemptyset, sigfillset, sigaddset, sigdelset, sigismember,
    sigprocmask, sigpending, raise, kill, signal, sighold, sigrelse, sigignore
    and sigset under src/conformance/interfaces that run in one process (or
    with a child that they wait for): the [main] of each file and its handlers,
    over any system of SigApi and SignalApi. *)

From stdpp Require Import base tactics numbers list gmap strings.
From S2P Require Import Prelude SigApi SigProc SignalApi SigactionTests.

Open Scope Z_scope.

Section Tests.
Context {St : Type} `{SignalSys St}.

(** [if (c) return bad;] for the result of a call. *)
Definition unless {V A} (c : P St V A) (failed : A → bool) (bad : Z) (k : A → P St V Z) : P St V Z :=
  r ← c; if failed r then mret bad else k r.

Definition minus_one {A} (r : sysret A) : bool := sr_ret r =? -1.
Definition non_zero {A} (r : sysret A) : bool := negb (sr_ret r =? 0).

(** [sigismember(set, sig) == n] *)
Definition member {V} (x : sigset) (sig : Z) (n : Z) : P St V bool :=
  r ← sigismember x sig; mret (sr_ret r =? n).

(** The signals of sigset_t variables that are emptied and filled, with the
    results ignored. *)
Definition set_with {V} (sigs : list Z) : P St V sigset :=
  e ← sigemptyset junk_set;
  (fix go (l : list Z) (x : sigset) : P St V sigset :=
     match l with
     | [] => mret x
     | sig :: l => r ← sigaddset x sig; go l (sr_val r)
     end) sigs (sr_val e).

(** The same where a failing call makes the test return [bad]. *)
Fixpoint add_or {V} (sigs : list Z) (x : sigset) (bad : Z) (k : sigset → P St V Z) : P St V Z :=
  match sigs with
  | [] => k x
  | sig :: l => unless (sigaddset x sig) minus_one bad (λ r, add_or l (sr_val r) bad k)
  end.
Definition set_or {V} (sigs : list Z) (bad : Z) (k : sigset → P St V Z) : P St V Z :=
  unless (sigemptyset junk_set) minus_one bad (λ r, add_or sigs (sr_val r) bad k).

Definition run_plain (main : P St unit Z) (fuel : nat) (s : St) : outcome Z :=
  run_main fuel no_handlers tt main s.

(** ** Sets *)

Definition signallist : list Z :=
  [SIGABRT; SIGALRM; SIGBUS; SIGCHLD; SIGCONT; SIGFPE; SIGHUP; SIGILL; SIGINT; SIGKILL; SIGPIPE;
   SIGQUIT; SIGSEGV; SIGSTOP; SIGTERM; SIGTSTP; SIGTTIN; SIGTTOU; SIGUSR1; SIGUSR2; SIGURG].

(** The loop of sigaddset/1-3.c with its variable [f]. *)
Fixpoint add_each (l : list Z) (x : sigset) (f : Z) : P St unit Z :=
  match l with
  | [] => mret f
  | sig :: l =>
      r ← sigaddset x sig;
      if sr_ret r =? 0 then
        b ← member (sr_val r) sig 1;
        add_each l (sr_val r) (if b : bool then f else -1)
      else add_each l (sr_val r) (-1)
  end.

Definition sigaddset_1_3 : nat → St → outcome Z := run_plain (
  unless (sigemptyset junk_set) minus_one (-1) (λ e,
  f ← add_each signallist (sr_val e) 0;
  if f =? 0 then mret 0 else mret (-1))).

Definition sigaddset_2_1 : nat → St → outcome Z := run_plain (
  r ← sigaddset junk_set SIGALRM;
  if sr_ret r =? 0 then
    b ← member (sr_val r) SIGALRM 1;
    if b : bool then mret PTS_PASS else mret PTS_FAIL
  else mret PTS_FAIL).

Definition sigdelset_1_3 : nat → St → outcome Z := run_plain (
  unless (sigemptyset junk_set) minus_one PTS_UNRESOLVED (λ e,
  unless (member (sr_val e) SIGCHLD 1) id PTS_UNRESOLVED (λ _,
  d ← sigdelset (sr_val e) SIGCHLD;
  b ← member (sr_val d) SIGCHLD 0;
  pass_or_fail b))).

Definition sigdelset_1_4 : nat → St → outcome Z := run_plain (
  unless (sigemptyset junk_set) minus_one PTS_UNRESOLVED (λ e,
  unless (sigaddset (sr_val e) SIGALRM) non_zero PTS_UNRESOLVED (λ a,
  unless (member (sr_val a) SIGALRM 0) id PTS_UNRESOLVED (λ _,
  unless (sigdelset (sr_val a) SIGALRM) non_zero PTS_FAIL (λ d,
  unless (member (sr_val d) SIGALRM 1) id PTS_FAIL (λ _,
  d ← sigdelset (sr_val d) SIGALRM;
  b ← member (sr_val d) SIGALRM 0;
  pass_or_fail b)))))).

Definition sigdelset_2_1 : nat → St → outcome Z := run_plain (
  sigdelset junk_set SIGALRM;; mret PTS_PASS).

Definition siglist : list Z :=
  [SIGABRT; SIGALRM; SIGBUS; SIGCHLD; SIGCONT; SIGFPE; SIGHUP; SIGILL; SIGINT; SIGKILL; SIGPIPE;
   SIGQUIT; SIGSEGV; SIGSTOP; SIGTERM; SIGTSTP; SIGTTIN; SIGTTOU; SIGUSR1; SIGUSR2; SIGPOLL;
   SIGPROF; SIGSYS; SIGTRAP; SIGURG; SIGVTALRM; SIGXCPU; SIGXFSZ].

(** Is [sigismember(set, sig) == n] for one of the signals? All are looked at. *)
Fixpoint any_member {V} (l : list Z) (x : sigset) (n : Z) (acc : bool) : P St V bool :=
  match l with
  | [] => mret acc
  | sig :: l => b ← member x sig n; any_member l x n (acc || b)
  end.

Definition sigemptyset_1_1 : nat → St → outcome Z := run_plain (
  unless (sigemptyset junk_set) minus_one (-1) (λ e,
  test_failed ← any_member (rev siglist) (sr_val e) 1 false;
  pass_or_fail (negb test_failed))).

Definition sigemptyset_2_1 : nat → St → outcome Z := run_plain (
  unless (sigemptyset junk_set) non_zero PTS_FAIL (λ _, mret PTS_PASS)).

Definition sigfillset_1_1 : nat → St → outcome Z := run_plain (
  unless (sigfillset junk_set) minus_one PTS_FAIL (λ e,
  test_failed ← any_member (rev siglist) (sr_val e) 0 false;
  pass_or_fail (negb test_failed))).

Definition sigfillset_2_1 : nat → St → outcome Z := run_plain (
  unless (sigfillset junk_set) non_zero PTS_FAIL (λ _, mret PTS_PASS)).

Definition sigismember_3_1 : nat → St → outcome Z := run_plain (
  unless (sigfillset junk_set) minus_one PTS_UNRESOLVED (λ e,
  b ← member (sr_val e) SIGABRT 1;
  pass_or_fail b)).

Definition sigismember_4_1 : nat → St → outcome Z := run_plain (
  unless (sigemptyset junk_set) minus_one PTS_UNRESOLVED (λ e,
  b ← member (sr_val e) SIGABRT 0;
  pass_or_fail b)).

(** ** sigpending *)

(** Emptying [prevset] and [pendingset] has no effect but a possible failure. *)
Definition empty_or {V} (bad : Z) (k : P St V Z) : P St V Z :=
  unless (sigemptyset junk_set) minus_one bad (λ _, k).

Definition sigpending_1_1 : nat → St → outcome Z := run_plain (
  unless (sigemptyset junk_set) minus_one PTS_UNRESOLVED (λ e,
  empty_or PTS_UNRESOLVED (
  empty_or PTS_UNRESOLVED (
  add_or [SIGALRM; SIGHUP; SIGQUIT] (sr_val e) PTS_UNRESOLVED (λ blockset,
  unless (sigprocmask SIG_SETMASK (Some blockset)) minus_one PTS_UNRESOLVED (λ _,
  unless (raise SIGALRM) (λ r, negb (r =? 0)) PTS_UNRESOLVED (λ _,
  unless (raise SIGQUIT) (λ r, negb (r =? 0)) PTS_UNRESOLVED (λ _,
  unless sigpending minus_one PTS_UNRESOLVED (λ pendingset,
  unless (member (sr_val pendingset) SIGALRM 1) negb PTS_FAIL (λ _,
  unless (member (sr_val pendingset) SIGQUIT 1) negb PTS_FAIL (λ _,
  b ← member (sr_val pendingset) SIGHUP 0;
  pass_or_fail b))))))))))).

(** [if (c) exit(-1);] in a handler. *)
Definition leave_if {V A} (c : P St V A) (bad : A → bool) (k : A → P St V unit) : P St V unit :=
  r ← c; if bad r then exit (-1) else k r.

Definition handler_sigpending_1_2 (f : string) (signo : Z) (info : siginfo) : P St unit unit :=
  leave_if (sigemptyset junk_set) minus_one (λ _,
  leave_if (raise SIGCONT) (λ r, negb (r =? 0)) (λ _,
  leave_if (raise SIGUSR1) (λ r, negb (r =? 0)) (λ _,
  leave_if sigpending minus_one (λ pendingset,
  leave_if (member (sr_val pendingset) SIGCONT 1) negb (λ _,
  leave_if (member (sr_val pendingset) SIGUSR1 1) negb (λ _,
  leave_if (member (sr_val pendingset) SIGHUP 0) negb (λ _,
  exit 0))))))).

Definition sigpending_1_2 (fuel : nat) (s : St) : outcome Z :=
  run_main fuel handler_sigpending_1_2 tt
    (set_or [SIGCONT; SIGHUP; SIGUSR1] PTS_UNRESOLVED (λ m,
     unless (sigaction SIGTTOU (Some (SigAct (Fun "handler") m 0))) minus_one PTS_UNRESOLVED (λ _,
     raise_or SIGTTOU PTS_UNRESOLVED (
     mret PTS_UNRESOLVED)))) s.

Definition handler_sigpending_1_3 (f : string) (signo : Z) (info : siginfo) : P St unit unit :=
  leave_if (sigemptyset junk_set) minus_one (λ _,
  leave_if (raise SIGALRM) (λ r, negb (r =? 0)) (λ _,
  leave_if (raise SIGCONT) (λ r, negb (r =? 0)) (λ _,
  leave_if sigpending minus_one (λ pendingset,
  leave_if (member (sr_val pendingset) SIGALRM 1) negb (λ _,
  leave_if (member (sr_val pendingset) SIGCONT 1) negb (λ _,
  leave_if (member (sr_val pendingset) SIGHUP 0) negb (λ _,
  leave_if (member (sr_val pendingset) SIGABRT 0) negb (λ _,
  leave_if (member (sr_val pendingset) SIGUSR1 0) negb (λ _,
  exit 0))))))))).

Definition sigpending_1_3 (fuel : nat) (s : St) : outcome Z :=
  run_main fuel handler_sigpending_1_3 tt
    (unless (sigemptyset junk_set) minus_one PTS_UNRESOLVED (λ e,
     empty_or PTS_UNRESOLVED (
     unless (sigemptyset junk_set) minus_one PTS_UNRESOLVED (λ m,
     add_or [SIGALRM; SIGHUP] (sr_val e) PTS_UNRESOLVED (λ blockset,
     unless (sigprocmask SIG_SETMASK (Some blockset)) minus_one PTS_UNRESOLVED (λ _,
     add_or [SIGCONT; SIGABRT; SIGUSR1] (sr_val m) PTS_UNRESOLVED (λ m,
     unless (sigaction SIGTTOU (Some (SigAct (Fun "handler") m 0))) minus_one PTS_UNRESOLVED (λ _,
     raise_or SIGTTOU PTS_UNRESOLVED (
     mret PTS_UNRESOLVED))))))))) s.

Definition sigpending_2_1 : nat → St → outcome Z := run_plain (
  unless (sigemptyset junk_set) minus_one PTS_UNRESOLVED (λ e,
  empty_or PTS_UNRESOLVED (
  empty_or PTS_UNRESOLVED (
  add_or [SIGALRM] (sr_val e) PTS_UNRESOLVED (λ blockset,
  unless (sigprocmask SIG_SETMASK (Some blockset)) minus_one PTS_UNRESOLVED (λ _,
  unless (raise SIGALRM) (λ r, negb (r =? 0)) PTS_UNRESOLVED (λ _,
  unless sigpending non_zero PTS_FAIL (λ pendingset,
  b ← member (sr_val pendingset) SIGALRM 1;
  pass_or_fail b)))))))).

(** ** raise and kill *)

(** The checked installation of [handler] with an empty mask. *)
Definition install_checked {V} (sig : Z) (h : disposition) (k : P St V Z) : P St V Z :=
  unless (sigemptyset junk_set) minus_one PTS_UNRESOLVED (λ m,
  unless (sigaction sig (Some (SigAct h (sr_val m) 0))) minus_one PTS_UNRESOLVED (λ _, k)).

Definition handler_exit_0 (f : string) (signo : Z) (info : siginfo) : P St unit unit := exit 0.

Definition raise_1_1 (fuel : nat) (s : St) : outcome Z :=
  run_main fuel handler_exit_0 tt
    (install_checked SIGABRT (Fun "handler") (
     unless (raise SIGABRT) (λ r, negb (r =? 0)) PTS_FAIL (λ _,
     mret PTS_FAIL))) s.

Definition handler_raise_1_2 (f : string) (signo : Z) (info : siginfo) : P St unit unit :=
  if bool_decide (f = "parenthandler") then exit (-1) else exit 0.

Definition raise_1_2 (fuel : nat) (s : St) : outcome Z :=
  run_main fuel handler_raise_1_2 tt
    (install_checked SIGABRT (Fun "parenthandler") (
     fork_else
       (install_checked SIGABRT (Fun "childhandler") (
        unless (raise SIGABRT) (λ r, negb (r =? 0)) PTS_FAIL (λ _,
        mret PTS_FAIL)))
       (s ← wait false;
        if sr_ret s =? -1 then mret PTS_UNRESOLVED else
        pass_or_fail (WEXITSTATUS (sr_val s) =? 0)))) s.

Definition valid_tests : list Z := [SIGABRT; SIGXFSZ; SIGALRM; SIGCHLD; SIGTSTP; SIGCONT].
Definition invalid_tests : list Z :=
  [-2147483648; 2147483647; 2147483647; -2147483647; -1073743192; 1073743192].

Fixpoint install_each (l : list Z) (act : sigact) (k : P St unit Z) : P St unit Z :=
  match l with
  | [] => k
  | sig :: l => unless (sigaction sig (Some act)) minus_one PTS_UNRESOLVED (λ _, install_each l act k)
  end.

Fixpoint raise_valid (l : list Z) (failure : bool) : P St unit bool :=
  match l with
  | [] => mret failure
  | sig :: l => r ← raise sig; raise_valid l (if negb (r =? 0) then true else failure)
  end.

Fixpoint raise_invalid_ones (l : list Z) (failure : bool) : P St unit bool :=
  match l with
  | [] => mret failure
  | sig :: l =>
      r ← raise sig;
      if r =? 0 then raise_invalid_ones l true
      else e ← get_errno;
           raise_invalid_ones l (if bool_decide (e = Some EINVAL) then failure else true)
  end.

Definition raise_10000_1 : nat → St → outcome Z := run_plain (
  unless (sigemptyset junk_set) minus_one PTS_UNRESOLVED (λ m,
  install_each valid_tests (SigAct (Fun "handler") (sr_val m) 0) (
  failure ← raise_valid valid_tests false;
  failure ← raise_invalid_ones invalid_tests failure;
  pass_or_fail (negb failure)))).

(** [globalStatus]: 1 before, 2 in and 3 after the handler. *)
Definition handler_raise_2_1 (f : string) (signo : Z) (info : siginfo) : P St Z unit :=
  set (λ _, 2);; sleep;; set (λ _, 3).

Definition raise_2_1 (fuel : nat) (s : St) : outcome Z :=
  run_main fuel handler_raise_2_1 1
    (install_checked SIGABRT (Fun "handler") (
     unless (raise SIGABRT) (λ r, negb (r =? 0)) PTS_FAIL (λ _,
     globalStatus ← var id;
     if (globalStatus =? 2) || (globalStatus =? 1) then mret PTS_FAIL else
     if globalStatus =? 3 then mret PTS_PASS else mret PTS_UNRESOLVED))) s.

Definition raise_4_1 (fuel : nat) (s : St) : outcome Z :=
  run_main fuel handler_exit_0 tt
    (install_checked SIGABRT (Fun "handler") (
     unless (kill_self SIGABRT) non_zero PTS_UNRESOLVED (λ _,
     mret PTS_FAIL))) s.

Definition raise_6_1 : nat → St → outcome Z := run_plain (
  unless (raise 10000) (λ r, r =? 0) PTS_FAIL (λ _, mret PTS_PASS)).

Definition raise_7_1 : nat → St → outcome Z := run_plain (
  unless (raise 10000) (λ r, r =? 0) PTS_FAIL (λ _,
  e ← get_errno;
  pass_or_fail (bool_decide (e = Some EINVAL)))).

Definition kill_1_1 (fuel : nat) (s : St) : outcome Z :=
  run_main fuel handler_exit_0 tt
    (install_checked SIGABRT (Fun "handler") (
     unless (kill_self SIGABRT) non_zero PTS_UNRESOLVED (λ _,
     mret PTS_FAIL))) s.

Definition kill_2_1 : nat → St → outcome Z := run_plain (
  unless (kill_self 0) non_zero PTS_FAIL (λ _, mret PTS_PASS)).

(** ** sigprocmask *)

Definition set_handler_called (f : string) (signo : Z) (info : siginfo) : P St Z unit :=
  set (λ _, 1).

Definition sigprocmask_4_1 (fuel : nat) (s : St) : outcome Z :=
  run_main fuel set_handler_called 0
    (blocked_set1 ← set_with [SIGABRT];
     blocked_set2 ← set_with [SIGALRM];
     act ← fill_act (Fun "handler") 0;
     install_or SIGABRT act PTS_UNRESOLVED (
     install_or SIGALRM act PTS_UNRESOLVED (
     unless (sigprocmask SIG_SETMASK (Some blocked_set1)) minus_one PTS_UNRESOLVED (λ _,
     unless (sigprocmask SIG_BLOCK (Some blocked_set2)) minus_one PTS_UNRESOLVED (λ _,
     r1 ← raise SIGABRT;
     r2 ← raise SIGALRM;
     if (r1 =? -1) || (r2 =? -1) then mret PTS_UNRESOLVED else
     handler_called ← var id;
     if negb (handler_called =? 0) then mret PTS_FAIL else
     unless sigpending minus_one PTS_UNRESOLVED (λ pending_set,
     b1 ← member (sr_val pending_set) SIGABRT 1;
     b2 ← member (sr_val pending_set) SIGALRM 1;
     if negb b1 || negb b2 then mret PTS_UNRESOLVED else mret PTS_PASS)))))) s.

Definition sigprocmask_5_1 (fuel : nat) (s : St) : outcome Z :=
  run_main fuel set_handler_called 0
    (blocked_set ← set_with [SIGABRT];
     act ← fill_act (Fun "handler") 0;
     install_or SIGABRT act PTS_UNRESOLVED (
     unless (sigprocmask SIG_SETMASK (Some blocked_set)) minus_one PTS_UNRESOLVED (λ _,
     raise_or SIGABRT PTS_UNRESOLVED (
     handler_called ← var id;
     if negb (handler_called =? 0) then mret PTS_FAIL else
     unless sigpending minus_one PTS_UNRESOLVED (λ pending_set,
     unless (member (sr_val pending_set) SIGABRT (-1)) id PTS_UNRESOLVED (λ _,
     b ← member (sr_val pending_set) SIGABRT 1;
     if negb b then mret PTS_UNRESOLVED else mret PTS_PASS)))))) s.

Definition sigprocmask_6_1 (fuel : nat) (s : St) : outcome Z :=
  run_main fuel set_handler_called 0
    (set1 ← set_with [SIGABRT; SIGALRM];
     set2 ← set_with [SIGALRM];
     act ← fill_act (Fun "handler") 0;
     install_or SIGABRT act PTS_UNRESOLVED (
     install_or SIGALRM act PTS_UNRESOLVED (
     unless (sigprocmask SIG_SETMASK (Some set1)) minus_one PTS_UNRESOLVED (λ _,
     unless (sigprocmask SIG_UNBLOCK (Some set2)) minus_one PTS_UNRESOLVED (λ _,
     raise_or SIGALRM PTS_UNRESOLVED (
     handler_called ← var id;
     if handler_called =? 0 then mret PTS_UNRESOLVED else
     set (λ _, 0);;
     raise_or SIGABRT PTS_UNRESOLVED (
     handler_called ← var id;
     if negb (handler_called =? 0) then mret PTS_FAIL else
     unless sigpending minus_one PTS_UNRESOLVED (λ pending_set,
     unless (member (sr_val pending_set) SIGABRT 1) negb PTS_FAIL (λ _,
     unless (member (sr_val pending_set) SIGALRM 0) negb PTS_FAIL (λ _,
     mret 0)))))))))) s.

Definition siglist26 : list Z :=
  [SIGABRT; SIGALRM; SIGBUS; SIGCHLD; SIGCONT; SIGFPE; SIGHUP; SIGILL; SIGINT; SIGPIPE; SIGQUIT;
   SIGSEGV; SIGTERM; SIGTSTP; SIGTTIN; SIGTTOU; SIGUSR1; SIGUSR2; SIGPOLL; SIGPROF; SIGSYS;
   SIGTRAP; SIGURG; SIGVTALRM; SIGXCPU; SIGXFSZ].

(** Does [sigismember] give something else than [n] for one of the signals? *)
Fixpoint any_other {V} (l : list Z) (x : sigset) (n : Z) (acc : bool) : P St V bool :=
  match l with
  | [] => mret acc
  | sig :: l => b ← member x sig n; any_other l x n (acc || negb b)
  end.

(** The signals are blocked one by one, [before] is blocked already. *)
Fixpoint block_each (l before : list Z) (test_failed : bool) : P St unit bool :=
  match l with
  | [] => mret test_failed
  | sig :: l =>
      sigemptyset junk_set;;
      tempset ← set_with [sig];
      oactl ← sigprocmask SIG_BLOCK (Some tempset);
      b ← any_other before (sr_val oactl) 1 false;
      block_each l (before ++ [sig]) (test_failed || b)
  end.

Definition sigprocmask_7_1 : nat → St → outcome Z := run_plain (
  test_failed ← block_each siglist26 [] false;
  pass_or_fail (negb test_failed)).

(** [sigismember(set, sig) != 0] for one of the signals; the loop stops there. *)
Fixpoint some_set {V} (l : list Z) (x : sigset) : P St V bool :=
  match l with
  | [] => mret false
  | sig :: l => b ← member x sig 0; if negb b then mret true else some_set l x
  end.

Definition is_changed {V} (x : sigset) (sig : Z) : P St V bool :=
  b ← member x sig 1;
  if negb b then mret true else some_set (filter (λ sig', sig' ≠ sig) siglist26) x.

(** The files 8-1.c, 8-2.c and 8-3.c; [oactl] is emptied before the call. *)
Definition query_mask (h : how) : nat → St → outcome Z := run_plain (
  actl ← sigemptyset junk_set;
  sigemptyset junk_set;;
  actl ← sigaddset (sr_val actl) SIGABRT;
  sigprocmask SIG_SETMASK (Some (sr_val actl));;
  oactl ← sigprocmask h None;
  b ← is_changed (sr_val oactl) SIGABRT;
  pass_or_fail (negb b)).

Definition sigprocmask_8_1 : nat → St → outcome Z := query_mask SIG_BLOCK.
Definition sigprocmask_8_2 : nat → St → outcome Z := query_mask SIG_SETMASK.
Definition sigprocmask_8_3 : nat → St → outcome Z := query_mask SIG_UNBLOCK.

(** The variables [handler_called] and [sigprocmask_return_val]. *)
Definition handler_sigprocmask_9_1 (f : string) (signo : Z) (info : siginfo) :
    P St (Z * Z) unit :=
  set (λ v, (1, v.2));;
  r ← var snd;
  if negb (r =? 1) then exit PTS_FAIL else mret tt.

Definition sigprocmask_9_1 (fuel : nat) (s : St) : outcome Z :=
  run_main fuel handler_sigprocmask_9_1 (0, 1)
    (blocked_set1 ← set_with [SIGABRT];
     act ← fill_act (Fun "handler") 0;
     install_or SIGABRT act PTS_UNRESOLVED (
     unless (sigprocmask SIG_SETMASK (Some blocked_set1)) minus_one PTS_UNRESOLVED (λ _,
     raise_or SIGABRT PTS_UNRESOLVED (
     r ← sigprocmask SIG_UNBLOCK (Some blocked_set1);
     set (λ v, (v.1, sr_ret r));;
     if negb (sr_ret r =? 0) then mret PTS_UNRESOLVED else
     handler_called ← var fst;
     if negb (handler_called =? 1) then mret PTS_UNRESOLVED else mret PTS_PASS)))) s.

Definition sigprocmask_10_1 : nat → St → outcome Z := run_plain (
  set1 ← sigemptyset junk_set;
  sigemptyset junk_set;;
  set1 ← sigaddset (sr_val set1) SIGKILL;
  set1 ← sigaddset (sr_val set1) SIGSTOP;
  r ← sigprocmask SIG_SETMASK (Some (sr_val set1));
  set2 ← sigprocmask SIG_SETMASK None;
  unless (member (sr_val set2) SIGKILL 0) negb PTS_FAIL (λ _,
  unless (member (sr_val set2) SIGSTOP 0) negb PTS_FAIL (λ _,
  if minus_one r then mret PTS_FAIL else mret PTS_PASS))).

(** [get_rand] gives a number that is none of the three values of [how]. *)
Definition sigprocmask_12_1 : nat → St → outcome Z := run_plain (
  actl ← sigemptyset junk_set;
  sigemptyset junk_set;;
  actl ← sigaddset (sr_val actl) SIGABRT;
  sigprocmask SIG_SETMASK (Some (sr_val actl));;
  actl ← sigaddset (sr_val actl) SIGALRM;
  unless (sigprocmask BadHow (Some (sr_val actl))) (λ r, negb (minus_one r)) PTS_UNRESOLVED (λ _,
  oactl ← sigprocmask SIG_SETMASK None;
  unless (member (sr_val oactl) SIGABRT 1) negb PTS_FAIL (λ _,
  b ← some_set (tail siglist26) (sr_val oactl);
  pass_or_fail (negb b)))).

Definition sigprocmask_15_1 : nat → St → outcome Z := run_plain (
  x ← sigaddset junk_set SIGABRT;
  unless (sigprocmask SIG_SETMASK (Some (sr_val x))) non_zero PTS_FAIL (λ _, mret PTS_PASS)).

(** ** signal *)

Definition is_err (r : sysret disposition) : bool := bool_decide (sr_val r = SIG_ERR).
Definition is_not (d : disposition) (r : sysret disposition) : bool :=
  negb (bool_decide (sr_val r = d)).

(** The end of the tests with [handler_called]. *)
Definition not_called : P St Z Z :=
  handler_called ← var id;
  if handler_called =? 1 then mret PTS_FAIL else mret PTS_PASS.
Definition was_called : P St Z Z :=
  handler_called ← var id;
  if negb (handler_called =? 1) then mret PTS_FAIL else mret PTS_PASS.

(** The files 1-1.c (SIG_DFL) and 2-1.c (SIG_IGN). *)
Definition signal_back (d : disposition) (fuel : nat) (s : St) : outcome Z :=
  run_main fuel set_handler_called 0
    (unless (signal SIGCHLD (Fun "myhandler")) is_err PTS_UNRESOLVED (λ _,
     unless (signal SIGCHLD d) (is_not (Fun "myhandler")) PTS_UNRESOLVED (λ _,
     raise SIGCHLD;;
     not_called))) s.

Definition signal_1_1 : nat → St → outcome Z := signal_back SIG_DFL.
Definition signal_2_1 : nat → St → outcome Z := signal_back SIG_IGN.

Definition signal_3_1 (fuel : nat) (s : St) : outcome Z :=
  run_main fuel set_handler_called 0
    (unless (signal SIGCHLD (Fun "myhandler")) is_err PTS_UNRESOLVED (λ _,
     raise SIGCHLD;;
     was_called)) s.

Definition signal_5_1 : nat → St → outcome Z := run_plain (
  unless (signal SIGUSR1 (Fun "SIGUSR1_handler")) is_err PTS_UNRESOLVED (λ _,
  unless (signal SIGUSR2 (Fun "SIGUSR2_handler")) is_err PTS_UNRESOLVED (λ _,
  unless (signal SIGUSR1 SIG_IGN) (is_not (Fun "SIGUSR1_handler")) PTS_FAIL (λ _,
  mret PTS_PASS)))).

(** [errno = -1]: an error number is positive, so that only a call that sets
    [errno] makes it so. *)
Definition clear_errno {V} : P St V unit := λ _ p,
  (Ret tt, Proc (p_sys p) (p_vars p) None (p_child p)).

(** The files 6-1.c (the signal -1) and 7-1.c (SIGKILL). *)
Definition signal_bad (sig : Z) : nat → St → outcome Z := run_plain (
  clear_errno;;
  unless (signal sig (Fun "myhandler")) (is_not SIG_ERR) PTS_FAIL (λ _,
  e ← get_errno;
  if bool_decide (e = None) then mret PTS_FAIL else mret PTS_PASS)).

Definition signal_6_1 : nat → St → outcome Z := signal_bad (-1).
Definition signal_7_1 : nat → St → outcome Z := signal_bad SIGKILL.

(** ** sighold, sigrelse and sigignore *)

Definition sighold_1_1 (fuel : nat) (s : St) : outcome Z :=
  run_main fuel set_handler_called 0
    (act ← fill_act (Fun "handler") 0;
     install_or SIGABRT act PTS_UNRESOLVED (
     unless (sighold SIGABRT) minus_one PTS_UNRESOLVED (λ _,
     raise_or SIGABRT PTS_UNRESOLVED (
     sleep;;
     handler_called ← var id;
     if negb (handler_called =? 0) then mret PTS_FAIL else mret PTS_PASS)))) s.

Definition sighold_2_1 : nat → St → outcome Z := run_plain (
  unless (sighold SIGABRT) non_zero PTS_UNRESOLVED (λ _, mret PTS_PASS)).

Definition sigrelse_1_1 (fuel : nat) (s : St) : outcome Z :=
  run_main fuel set_handler_called 0
    (act ← fill_act (Fun "handler") 0;
     install_or SIGABRT act PTS_UNRESOLVED (
     sighold SIGABRT;;
     raise_or SIGABRT PTS_UNRESOLVED (
     handler_called ← var id;
     if negb (handler_called =? 0) then mret PTS_UNRESOLVED else
     unless (sigrelse SIGABRT) minus_one PTS_UNRESOLVED (λ _,
     sleep;;
     handler_called ← var id;
     if negb (handler_called =? 0) then mret PTS_PASS else mret PTS_FAIL)))) s.

Definition sigrelse_2_1 : nat → St → outcome Z := run_plain (
  unless (sigrelse SIGABRT) non_zero PTS_UNRESOLVED (λ _, mret PTS_PASS)).

Definition sigignore_1_1 (fuel : nat) (s : St) : outcome Z :=
  run_main fuel set_handler_called 0
    (act ← fill_act (Fun "handler") 0;
     install_or SIGABRT act PTS_UNRESOLVED (
     sigignore SIGABRT;;
     raise_or SIGABRT PTS_UNRESOLVED (
     handler_called ← var id;
     if negb (handler_called =? 0) then mret PTS_FAIL else mret PTS_PASS))) s.

Definition sigignore_4_1 : nat → St → outcome Z := run_plain (
  unless (sigignore SIGABRT) non_zero PTS_UNRESOLVED (λ _, mret PTS_PASS)).

(** The files 6-1.c (SIGKILL) and 6-2.c (SIGSTOP). *)
Definition ignore_bad (sig : Z) : nat → St → outcome Z := run_plain (
  unless (sigignore sig) (λ r, negb (minus_one r)) PTS_FAIL (λ _,
  e ← get_errno;
  pass_or_fail (bool_decide (e = Some EINVAL)))).

Definition sigignore_6_1 : nat → St → outcome Z := ignore_bad SIGKILL.
Definition sigignore_6_2 : nat → St → outcome Z := ignore_bad SIGSTOP.

(** ** sigset *)

(** [if (sigaction(sig, &act, 0) != 0) return PTS_UNRESOLVED;] *)
Definition install_zero {V} (sig : Z) (k : P St V Z) : P St V Z :=
  act ← fill_act (Fun "myhandler") 0;
  unless (sigaction sig (Some act)) non_zero PTS_UNRESOLVED (λ _, k).

(** The files 1-1.c (SIGCHLD, SIG_DFL) and 2-1.c (SIGUSR1, SIG_IGN). *)
Definition sigset_back (sig : Z) (d : disposition) (fuel : nat) (s : St) : outcome Z :=
  run_main fuel set_handler_called 0
    (install_zero sig (
     unless (sigset_ sig d) (is_not (Fun "myhandler")) PTS_UNRESOLVED (λ _,
     raise sig;;
     not_called))) s.

Definition sigset_1_1 : nat → St → outcome Z := sigset_back SIGCHLD SIG_DFL.
Definition sigset_2_1 : nat → St → outcome Z := sigset_back SIGUSR1 SIG_IGN.

Definition sigset_3_1 (fuel : nat) (s : St) : outcome Z :=
  run_main fuel set_handler_called 0
    (unless (sigset_ SIGCHLD (Fun "myhandler")) is_err PTS_UNRESOLVED (λ _,
     raise SIGCHLD;;
     was_called)) s.

Definition handler_sigset_4_1 (f : string) (signo : Z) (info : siginfo) : P St Z unit :=
  mask ← sigprocmask SIG_SETMASK None;
  b ← member (sr_val mask) SIGCHLD 0;
  if negb b then set (λ _, 1) else mret tt.

Definition sigset_4_1 (fuel : nat) (s : St) : outcome Z :=
  run_main fuel handler_sigset_4_1 0
    (unless (sigset_ SIGCHLD (Fun "myhandler")) is_err PTS_UNRESOLVED (λ _,
     raise SIGCHLD;;
     was_called)) s.

(** [is_empty] is the negation of [some_set]. *)
Definition sigset_5_1 : nat → St → outcome Z := run_plain (
  mask ← sigemptyset junk_set;
  sigprocmask SIG_SETMASK (Some (sr_val mask));;
  unless (sigset_ SIGCHLD (Fun "myhandler")) is_err PTS_UNRESOLVED (λ _,
  raise SIGCHLD;;
  mask ← sigprocmask SIG_SETMASK None;
  b ← some_set siglist26 (sr_val mask);
  if b : bool then mret PTS_FAIL else mret PTS_PASS)).

Definition sigset_6_1 : nat → St → outcome Z := run_plain (
  install_zero SIGCHLD (
  unless (sigset_ SIGCHLD SIG_HOLD) (is_not SIG_HOLD) PTS_UNRESOLVED (λ _,
  raise SIGCHLD;;
  unless sigpending minus_one PTS_UNRESOLVED (λ pendingset,
  b ← member (sr_val pendingset) SIGCHLD 1;
  pass_or_fail b)))).

Definition sigset_7_1 (fuel : nat) (s : St) : outcome Z :=
  run_main fuel set_handler_called 0
    (install_zero SIGCHLD (
     unless (sigset_ SIGCHLD SIG_HOLD) (is_not SIG_HOLD) PTS_UNRESOLVED (λ _,
     raise SIGCHLD;;
     unless sigpending minus_one PTS_UNRESOLVED (λ pendingset,
     unless (member (sr_val pendingset) SIGCHLD 1) negb PTS_UNRESOLVED (λ _,
     sigrelse SIGCHLD;;
     was_called))))) s.

Definition sigset_8_1 : nat → St → outcome Z := run_plain (
  unless (sigset_ SIGCHLD SIG_HOLD) (is_not SIG_HOLD) PTS_FAIL (λ _, mret PTS_PASS)).

Definition sigset_9_1 : nat → St → outcome Z := run_plain (
  install_zero SIGUSR1 (
  unless (sigset_ SIGUSR1 SIG_DFL) (is_not (Fun "myhandler")) PTS_FAIL (λ _,
  mret PTS_PASS))).

Definition sigset_10_1 : nat → St → outcome Z := run_plain (
  unless (sigset_ SIGKILL SIG_IGN) (is_not SIG_ERR) PTS_FAIL (λ _,
  e ← get_errno;
  if negb (bool_decide (e = Some EINVAL)) then mret PTS_FAIL else mret PTS_PASS)).

(** The tests that a system with the laws passes. sigaddset/2-1, sigdelset/2-1 and
    sigprocmask/15-1 are not among them: they use a set that was never initialised, and
    what the functions do to it is undefined. *)
Definition signal_suite : list (nat → St → outcome Z) :=
  [sigaddset_1_3; sigdelset_1_3; sigdelset_1_4; sigemptyset_1_1;
   sigemptyset_2_1; sigfillset_1_1; sigfillset_2_1; sigismember_3_1; sigismember_4_1;
   sigpending_1_1; sigpending_1_2; sigpending_1_3; sigpending_2_1;
   raise_1_1; raise_1_2; raise_10000_1; raise_2_1; raise_4_1; raise_6_1; raise_7_1; kill_1_1;
   kill_2_1;
   sigprocmask_4_1; sigprocmask_5_1; sigprocmask_6_1; sigprocmask_7_1; sigprocmask_8_1;
   sigprocmask_8_2; sigprocmask_8_3; sigprocmask_9_1; sigprocmask_10_1; sigprocmask_12_1;
   signal_1_1; signal_2_1; signal_3_1; signal_5_1; signal_6_1; signal_7_1;
   sighold_1_1; sighold_2_1; sigrelse_1_1; sigrelse_2_1; sigignore_1_1; sigignore_4_1;
   sigignore_6_1; sigignore_6_2;
   sigset_1_1; sigset_2_1; sigset_3_1; sigset_4_1; sigset_5_1; sigset_9_1; sigset_10_1].

End Tests.
