(* ===== verification/SignalThms.v ===== *)
(** * What the tests of the signal functions decide

    Every system with the laws of SigApi and SignalApi passes the tests of
    [signal_suite] in a new process, and fails three tests of sigset. *)

From stdpp Require Import base tactics numbers list gmap strings fin_maps fin_sets.
From S2P Require Import Prelude SigApi SigProc SigKernel SigRules SignalApi SigactionTests SigactionThms SignalTests.

Open Scope Z_scope.

Section Rules.
Context {St : Type} `{SignalLaws St}.

(** A new process: default actions, no signal is blocked or pending. *)
Definition new_process (s : St) : Prop :=
  sig_good s ∧ ∃ alt, view s = SigView ∅ ∅ ∅ [] alt.

Lemma old_installed sig a v : sig ∉ sv_mask v →
  old_disposition sig (sv_install sig a v) = sa_handler a.
Proof. intros. unfold old_disposition. rewrite bool_decide_false by done. by rewrite act_install. Qed.

Lemma none_pending v : sv_pend v = ∅ → quiet v.
Proof. unfold deliverable. intros ->. apply leibniz_equiv. set_solver. Qed.

(** A call after which the system is known up to an action [a] that it chooses. *)
Lemma runs_bind_ex {V A B C} (c : P St V A) (f : A → P St V B) (r : A) (R : C → Prop)
    d p o (I : C → proc St V → Prop) Q :
  (∃ a, R a ∧ runs (c d p) (Ret r) (I a)) →
  (∀ a p', R a → I a p' → runs (f r d p') o Q) → runs ((c ≫= f) d p) o Q.
Proof. intros (a & Ha & Hr) Hk. eapply runs_bind; [exact Hr|]. eauto. Qed.

Section Calls.
Context {V : Type}.
Implicit Types (p : proc St V) (v : sigview) (x : V).

Lemma runs_emptyset y d p v x c : at_view v x c p →
  runs (sigemptyset y d p) (Ret (sys_ok ∅)) (at_view v x c).
Proof. intros Hp. unfold sigemptyset. rewrite emptyset_law. by apply runs_libcall. Qed.

Lemma runs_addset y sig d p v x c : at_view v x c p → initialised y → valid_sig sig = true →
  runs (sigaddset y sig d p) (Ret (sys_ok ({[sig]} ∪ y))) (at_view v x c).
Proof. intros Hp Hy Hs. unfold sigaddset. rewrite addset_law by done. by apply runs_libcall. Qed.

(** The set of the signals that are added one by one. *)
Definition added (y : sigset) (sigs : list Z) : sigset := foldl (λ y sig, {[sig]} ∪ y) y sigs.

Lemma runs_set_with sigs d p v x c : at_view v x c p → forallb valid_sig sigs = true →
  runs (set_with sigs d p) (Ret (added ∅ sigs)) (at_view v x c).
Proof.
  intros Hp Hs. eapply runs_bind; [by apply runs_emptyset|]. intros p1 Hp1. clear p Hp.
  cbn [sr_val]. generalize (init_empty (St := St)). generalize (∅ : sigset) as y.
  revert p1 Hp1. induction sigs as [|sig sigs IH]; intros p Hp y Hy; simpl; [by apply runs_ret|].
  apply andb_prop in Hs as [Hv Hs]. eapply runs_bind; [by apply runs_addset|]. intros p2 Hp2.
  apply IH; auto with sets.
Qed.

Lemma runs_delset y sig d p v x c : at_view v x c p → initialised y → valid_sig sig = true →
  runs (sigdelset y sig d p) (Ret (sys_ok (y ∖ {[sig]}))) (at_view v x c).
Proof. intros Hp Hy Hs. unfold sigdelset. rewrite delset_law by done. by apply runs_libcall. Qed.

Lemma runs_member y sig n d p v x c : at_view v x c p → valid_sig sig = true →
  runs (member y sig n d p) (Ret ((if bool_decide (sig ∈ y) then 1 else 0) =? n)) (at_view v x c).
Proof.
  intros Hp Hs. unfold member, sigismember. rewrite ismember_law by done.
  eapply runs_bind; [by apply runs_libcall|]. intros p' Hp'. by apply runs_ret.
Qed.

Lemma runs_procmask h m m' n hs p v x c : at_view v x c p →
  new_mask h m (sv_mask v) = Some m' → quiet (sv_set_mask m' v) →
  runs (sigprocmask h (Some m) (deliver (S n) hs) p) (Ret (sys_ok (sv_mask v)))
    (at_view (sv_set_mask m' v) x c).
Proof.
  intros Hp Hm Hq. pose proof Hp as (Hg & Hv & _).
  destruct (procmask_law (p_sys p) h m m' Hg) as (s & Hr & Hg' & Hv'); [by rewrite Hv|].
  rewrite Hv in *. by eapply runs_syscall.
Qed.

Lemma runs_procmask_query h n hs p v x c : at_view v x c p → quiet v →
  runs (sigprocmask h None (deliver (S n) hs) p) (Ret (sys_ok (sv_mask v))) (at_view v x c).
Proof.
  intros Hp Hq. pose proof Hp as (Hg & Hv & _).
  destruct (procmask_query (p_sys p) h Hg) as (s & Hr & Hg' & Hv').
  rewrite Hv in *. by eapply runs_syscall.
Qed.

Lemma runs_procmask_bad m n hs p v x c : at_view v x c p → quiet v →
  ∃ old, True ∧ runs (sigprocmask BadHow (Some m) (deliver (S n) hs) p)
    (Ret (SysRet (-1) (Some EINVAL) old)) (at_view v x c).
Proof.
  intros Hp Hq. pose proof Hp as (Hg & Hv & _).
  destruct (procmask_bad (p_sys p) m Hg) as (old & s & Hr & Hg' & Hv').
  rewrite Hv in *. exists old. split; [done|]. by eapply runs_syscall.
Qed.

Lemma runs_hold sig n hs p v x c : at_view v x c p → catchable sig = true → quiet (sv_hold sig v) →
  runs (sighold sig (deliver (S n) hs) p) (Ret (sys_ok tt)) (at_view (sv_hold sig v) x c).
Proof.
  intros Hp Hs Hq. pose proof Hp as (Hg & Hv & _).
  destruct (sighold_law (p_sys p) sig Hg Hs) as (s & Hr & Hg' & Hv').
  rewrite Hv in *. by eapply runs_syscall.
Qed.

Lemma runs_relse sig n hs p v x c : at_view v x c p → catchable sig = true → quiet (sv_release sig v) →
  runs (sigrelse sig (deliver (S n) hs) p) (Ret (sys_ok tt)) (at_view (sv_release sig v) x c).
Proof.
  intros Hp Hs Hq. pose proof Hp as (Hg & Hv & _).
  destruct (sigrelse_law (p_sys p) sig Hg Hs) as (s & Hr & Hg' & Hv').
  rewrite Hv in *. by eapply runs_syscall.
Qed.

(** Calls that unblock the one pending signal, whose handler returns. *)
Lemma runs_relse_handled sig n hs p v x x' c sig' fn : at_view v x c p → catchable sig = true →
  deliverable (sv_release sig v) = {[sig']} → sa_handler (act_of v sig') = Fun fn →
  (∀ info p', at_view (sv_enter sig' (sv_release sig v)) x c p' →
     runs (hs fn sig' info (deliver (S n) hs) p') (Ret tt)
       (at_view (sv_enter sig' (sv_release sig v)) x' c)) →
  runs (sigrelse sig (deliver (S (S n)) hs) p) (Ret (sys_ok tt))
    (at_view (sv_leave (sv_enter sig' (sv_release sig v))) x' c).
Proof.
  intros Hp Hs Hd Hf Hh. pose proof Hp as (Hg & Hv & _).
  destruct (sigrelse_law (p_sys p) sig Hg Hs) as (s & Hr & Hg' & Hv').
  rewrite Hv in *. by eapply runs_syscall_handled.
Qed.

Lemma runs_procmask_handled h m m' n hs p v x x' c sig fn : at_view v x c p →
  new_mask h m (sv_mask v) = Some m' →
  deliverable (sv_set_mask m' v) = {[sig]} → sa_handler (act_of v sig) = Fun fn →
  (∀ info p', at_view (sv_enter sig (sv_set_mask m' v)) x c p' →
     runs (hs fn sig info (deliver (S n) hs) p') (Ret tt)
       (at_view (sv_enter sig (sv_set_mask m' v)) x' c)) →
  runs (sigprocmask h (Some m) (deliver (S (S n)) hs) p) (Ret (sys_ok (sv_mask v)))
    (at_view (sv_leave (sv_enter sig (sv_set_mask m' v))) x' c).
Proof.
  intros Hp Hm Hd Hf Hh. pose proof Hp as (Hg & Hv & _).
  destruct (procmask_law (p_sys p) h m m' Hg) as (s & Hr & Hg' & Hv'); [by rewrite Hv|].
  rewrite Hv in *. by eapply runs_syscall_handled.
Qed.

Lemma runs_signal_bad sig hd n hs p v x c : at_view v x c p → quiet v → catchable sig = false →
  runs (signal sig hd (deliver (S n) hs) p) (Ret (SysRet (-1) (Some EINVAL) SIG_ERR))
    (λ p', at_view v x c p' ∧ p_errno p' = Some EINVAL).
Proof.
  intros Hp Hq Hs. pose proof Hp as (Hg & Hv & _).
  destruct (signal_invalid (p_sys p) sig hd Hg Hs) as (s & Hr & Hg' & Hv').
  rewrite Hv in *. by eapply runs_syscall_fails.
Qed.

Lemma runs_sigset_bad sig hd n hs p v x c : at_view v x c p → quiet v → catchable sig = false →
  runs (sigset_ sig hd (deliver (S n) hs) p) (Ret (SysRet (-1) (Some EINVAL) SIG_ERR))
    (λ p', at_view v x c p' ∧ p_errno p' = Some EINVAL).
Proof.
  intros Hp Hq Hs. pose proof Hp as (Hg & Hv & _).
  destruct (sigset_invalid (p_sys p) sig hd Hg Hs) as (s & Hr & Hg' & Hv').
  rewrite Hv in *. by eapply runs_syscall_fails.
Qed.

Lemma runs_sigignore_bad sig n hs p v x c : at_view v x c p → quiet v → catchable sig = false →
  runs (sigignore sig (deliver (S n) hs) p) (Ret (SysRet (-1) (Some EINVAL) tt))
    (λ p', at_view v x c p' ∧ p_errno p' = Some EINVAL).
Proof.
  intros Hp Hq Hs. pose proof Hp as (Hg & Hv & _).
  destruct (sigignore_invalid (p_sys p) sig Hg Hs) as (s & Hr & Hg' & Hv').
  rewrite Hv in *. by eapply runs_syscall_fails.
Qed.

Lemma runs_sigignore sig n hs p v x c : at_view v x c p → quiet v → catchable sig = true →
  ∃ a, sa_handler a = SIG_IGN ∧
    runs (sigignore sig (deliver (S n) hs) p) (Ret (sys_ok tt)) (at_view (sv_install sig a v) x c).
Proof.
  intros Hp Hq Hs. pose proof Hp as (Hg & Hv & _).
  destruct (sigignore_law (p_sys p) sig Hg Hs) as (m & fl & s & Hr & Hg' & Hv').
  rewrite Hv in *. eexists (SigAct SIG_IGN m fl). split; [done|]. eapply runs_syscall; try done.
  by apply install_quiet.
Qed.

Lemma runs_signal_ex sig hd n hs p v x c : at_view v x c p → catchable sig = true → quiet v →
  hd ≠ SIG_ERR → hd ≠ SIG_HOLD →
  ∃ a, sa_handler a = hd ∧
    runs (signal sig hd (deliver (S n) hs) p) (Ret (sys_ok (sa_handler (act_of v sig))))
      (at_view (sv_install sig a v) x c).
Proof.
  intros Hp Hs Hq Hd1 Hd2. destruct (runs_signal n hs p v x c sig hd) as (m & fl & Hr); try done.
  by exists (SigAct hd m fl).
Qed.

(** A new handler of [sigset] in a process without pending signals. *)
Lemma runs_sigset sig hd n hs p v x c : at_view v x c p → sv_pend v = ∅ → catchable sig = true →
  hd ≠ SIG_ERR → hd ≠ SIG_HOLD →
  ∃ a, (sa_handler a = hd ∧ reliable (sa_flags a)) ∧
    runs (sigset_ sig hd (deliver (S n) hs) p) (Ret (sys_ok (old_disposition sig v)))
      (at_view (sv_install sig a (sv_release sig v)) x c).
Proof.
  intros Hp Hq Hs Hd1 Hd2. pose proof Hp as (Hg & Hv & _).
  destruct (sigset_law (p_sys p) sig hd Hg Hs Hd1 Hd2) as (m & fl & s & Hr & Hg' & Hfl & Hv').
  rewrite Hv in *. eexists (SigAct hd m fl). split; [done|]. eapply runs_syscall; try done.
  unfold deliverable. simpl. rewrite Hq. apply leibniz_equiv. case_bool_decide; set_solver.
Qed.

Lemma runs_sigset_hold sig n hs p v x c : at_view v x c p → quiet v → catchable sig = true →
  runs (sigset_ sig SIG_HOLD (deliver (S n) hs) p) (Ret (sys_ok (old_disposition sig v)))
    (at_view (sv_hold sig v) x c).
Proof.
  intros Hp Hq Hs. pose proof Hp as (Hg & Hv & _).
  destruct (sigset_hold (p_sys p) sig Hg Hs) as (s & Hr & Hg' & Hv').
  rewrite Hv in *. eapply runs_syscall; try done. unfold deliverable, sv_hold in *. simpl.
  assert (sv_pend v ## unblockable).
  { destruct (quiet_pend v (at_view_wf _ _ _ _ Hp) Hq). unfold unblockable. set_solver. }
  apply leibniz_equiv. set_solver.
Qed.

Lemma runs_kill_ends sig n hs p v x c f o :
  at_view v x c p → quiet v → valid_sig sig = true → sig ∉ sv_mask v →
  sa_handler (act_of v sig) = Fun f → returns o = false →
  (∀ info p', at_view (sv_enter sig (sv_generate sig v)) x c p' →
     runs (hs f sig info (deliver n hs) p') o (λ _, True)) →
  runs (kill_self sig (deliver (S n) hs) p) (lift o) (λ _, True).
Proof.
  intros Hp Hq Hs Hm Hf Ho Hh. pose proof Hp as (Hg & Hv & _).
  destruct (kill_law (p_sys p) sig Hg Hs) as (s & Hr & Hg' & Hv'); [by rewrite Hv; eapply pends_fun|].
  rewrite Hv in *. eapply runs_syscall_ends; try done. by apply generate_one.
Qed.

Lemma runs_clear_errno d p v x c : at_view v x c p →
  runs (clear_errno d p) (Ret tt) (at_view v x c).
Proof. intros Hp. eexists. split; [done|]. by destruct Hp. Qed.

Lemma runs_fillset y d p v x c : at_view v x c p →
  ∃ z, (∀ sig, valid_sig sig = true → sig ∈ z) ∧
    runs (sigfillset y d p) (Ret (sys_ok z)) (at_view v x c).
Proof.
  intros Hp. destruct (fillset_law y) as (z & Hz & Hin). exists z. split; [done|].
  unfold sigfillset. rewrite Hz. by apply runs_libcall.
Qed.

Lemma runs_kill_zero n hs p v x c : at_view v x c p → quiet v →
  runs (kill_self 0 (deliver (S n) hs) p) (Ret (sys_ok tt)) (at_view v x c).
Proof.
  intros Hp Hq. pose proof Hp as (Hg & Hv & _).
  destruct (kill_zero (p_sys p) Hg) as (s & Hr & Hg' & Hv').
  rewrite Hv in *. by eapply runs_syscall.
Qed.

Lemma runs_sleep n hs p v x c : at_view v x c p → quiet v →
  runs (sleep (deliver (S n) hs) p) (Ret tt) (at_view v x c).
Proof.
  intros Hp Hq. unfold sleep, sched_yield. eapply runs_bind.
  { eapply runs_syscall; [exact Hp|done|apply Hp|apply Hp|done]. }
  intros p' Hp'. by apply runs_ret.
Qed.

(** ** Loops over lists of signals *)

(** [sigismember] gives [n]. *)
Definition gives_n (y : sigset) (n sig : Z) : bool :=
  (if bool_decide (sig ∈ y) then 1 else 0) =? n.

Lemma runs_any_member l y n acc d p v x c : at_view v x c p → forallb valid_sig l = true →
  runs (any_member l y n acc d p) (Ret (acc || existsb (gives_n y n) l)) (at_view v x c).
Proof.
  revert acc p. induction l as [|sig l IH]; intros acc p Hp Hl; simpl.
  - rewrite orb_false_r. by apply runs_ret.
  - apply andb_prop in Hl as [Hs Hl]. eapply runs_bind; [by apply runs_member|]. intros p' Hp'.
    rewrite orb_assoc. by apply IH.
Qed.

Lemma runs_any_other l y n acc d p v x c : at_view v x c p → forallb valid_sig l = true →
  runs (any_other l y n acc d p) (Ret (acc || existsb (λ sig, negb (gives_n y n sig)) l))
    (at_view v x c).
Proof.
  revert acc p. induction l as [|sig l IH]; intros acc p Hp Hl; simpl.
  - rewrite orb_false_r. by apply runs_ret.
  - apply andb_prop in Hl as [Hs Hl]. eapply runs_bind; [by apply runs_member|]. intros p' Hp'.
    rewrite orb_assoc. by apply IH.
Qed.

Lemma runs_some_set l y d p v x c : at_view v x c p → forallb valid_sig l = true →
  runs (some_set l y d p) (Ret (existsb (λ sig, negb (gives_n y 0 sig)) l)) (at_view v x c).
Proof.
  revert p. induction l as [|sig l IH]; intros p Hp Hl; simpl; [by apply runs_ret|].
  apply andb_prop in Hl as [Hs Hl]. eapply runs_bind; [by apply runs_member|]. intros p' Hp'.
  fold (gives_n y 0 sig). destruct (gives_n y 0 sig); simpl; [by apply IH|by apply runs_ret].
Qed.

Lemma runs_is_changed y sig d p v x c : at_view v x c p → valid_sig sig = true →
  runs (is_changed y sig d p)
    (Ret (negb (gives_n y 1 sig) ||
          existsb (λ sig', negb (gives_n y 0 sig')) (filter (λ sig', sig' ≠ sig) siglist26)))
    (at_view v x c).
Proof.
  intros Hp Hs. eapply runs_bind; [by apply runs_member|]. intros p' Hp'. fold (gives_n y 1 sig).
  destruct (gives_n y 1 sig); simpl negb; cbv iota; [|by apply runs_ret].
  apply runs_some_set; [done|]. apply forallb_forall. intros sig' Hin%list_elem_of_In.
  apply list_elem_of_filter in Hin as [_ Hin].
  assert (Forall (λ sig, valid_sig sig = true) siglist26) as Hv by decide_now.
  by apply (proj1 (Forall_forall _ _) Hv).
Qed.

End Calls.

Lemma runs_add_each l y f d p v c : at_view v tt c p → initialised y → forallb valid_sig l = true →
  runs (add_each l y f d p) (Ret f) (at_view v tt c).
Proof.
  revert y p. induction l as [|sig l IH]; intros y p Hp Hy Hl; simpl; [by apply runs_ret|].
  apply andb_prop in Hl as [Hs Hl]. eapply runs_bind; [by apply runs_addset|]. intros p1 Hp1. simpl.
  eapply runs_bind; [by apply runs_member|]. intros p2 Hp2.
  rewrite bool_decide_true by set_solver. apply IH; auto with sets.
Qed.

(** Blocking the signals of [l] after those of [before]. *)
Lemma runs_block_each l before n p v c :
  at_view v tt c p → sv_pend v = ∅ → forallb catchable l = true →
  forallb valid_sig before = true → (∀ sig, sig ∈ before → sig ∈ sv_mask v) →
  runs (block_each l before false (deliver (S n) no_handlers) p) (Ret false) (λ _, True).
Proof.
  revert before p v. induction l as [|sig l IH]; intros before p v Hp He Hl Hb Hm; simpl.
  { eapply runs_weaken; [by apply runs_ret|done]. }
  apply andb_prop in Hl as [Hs Hl]. destruct (catchable_valid _ Hs) as [Hv Hu].
  eapply runs_bind; [by apply runs_emptyset|]. intros p1 Hp1.
  eapply runs_bind; [|intros p2 Hp2].
  { eapply runs_bind; [by apply runs_emptyset|]. intros p2 Hp2.
    eapply runs_bind; [by apply runs_addset; auto with sets|]. intros p3 Hp3. by apply runs_ret. }
  eapply runs_bind; [eapply runs_procmask; [exact Hp2|reflexivity|]|intros p3 Hp3].
  { unfold deliverable. simpl. rewrite He. apply leibniz_equiv. set_solver. }
  eapply runs_bind; [by apply runs_any_other|]. intros p4 Hp4. simpl.
  replace (existsb _ before) with false; [eapply IH; try done|].
  - rewrite forallb_app. by rewrite Hb; simpl; rewrite Hv.
  - intros sig' [Hin|Heq%list_elem_of_singleton]%elem_of_app; simpl.
    + assert (sig' ∉ unblockable) by (destruct (at_view_wf _ _ _ _ Hp) as (Hd & _); set_solver).
      set_solver.
    + subst. set_solver.
  - symmetry. apply not_true_is_false. intros (sig' & Hin & Hg)%existsb_exists.
    unfold gives_n in Hg. rewrite bool_decide_true in Hg; [done|]. apply Hm. by apply list_elem_of_In.
Qed.

End Rules.

(** ** Running a test

    The view of a new process is known, so that most steps compute. *)

Ltac after := let p := fresh "p" in let Hp := fresh "Hp" in intros p Hp; cbv beta in Hp.
Ltac ends := first [apply runs_ret; exact I | apply runs_exit; exact I].
Ltac calc := vm_compute; reflexivity.

(** The set is initialised. *)
Ltac inits :=
  simpl; repeat first [exact init_empty | apply init_add; [|calc] | apply init_del; [|calc] | eassumption].

(** The rule for the next call. *)
Ltac rule :=
  lazymatch goal with
  | |- runs (sigemptyset _ _ _) _ _ => eapply runs_emptyset; eassumption
  | |- runs (sigaddset _ _ _ _) _ _ => eapply runs_addset; [eassumption|inits|calc]
  | |- runs (sigdelset _ _ _ _) _ _ => eapply runs_delset; [eassumption|inits|calc]
  | |- runs (member _ _ _ _ _) _ _ => eapply runs_member; [eassumption|calc]
  | |- runs (set_with _ _ _) _ _ => eapply runs_set_with; [eassumption|calc]
  | |- runs (fill_act _ _ _ _) _ _ => eapply runs_fill_act; eassumption
  | |- runs (sigprocmask _ (Some _) _ _) _ _ => eapply runs_procmask; [eassumption|reflexivity|calc]
  | |- runs (sigprocmask _ None _ _) _ _ => eapply runs_procmask_query; [eassumption|calc]
  | |- runs (sigpending _ _) _ _ => eapply runs_sigpending; [eassumption|calc]
  | |- runs (raise _ _ _) _ _ => first
      [ eapply runs_raise_blocked; [eassumption|calc|calc|calc|decide_now]
      | eapply runs_raise_invalid; [eassumption|calc|calc|done] ]
  | |- runs (signal _ _ _ _) _ _ => eapply runs_signal_bad; [eassumption|calc|calc]
  | |- runs (sighold _ _ _) _ _ => eapply runs_hold; [eassumption|calc|calc]
  | |- runs (sigrelse _ _ _) _ _ => eapply runs_relse; [eassumption|calc|calc]
  | |- runs (sigignore _ _ _) _ _ => eapply runs_sigignore_bad; [eassumption|calc|calc]
  | |- runs (sigset_ _ SIG_HOLD _ _) _ _ => eapply runs_sigset_hold; [eassumption|calc|calc]
  | |- runs (sigset_ _ _ _ _) _ _ => eapply runs_sigset_bad; [eassumption|calc|calc]
  | |- runs (kill_self 0 _ _) _ _ => eapply runs_kill_zero; [eassumption|calc]
  | |- runs (add_each _ _ _ _ _) _ _ => eapply runs_add_each; [eassumption|inits|calc]
  | |- runs (any_member _ _ _ _ _ _) _ _ => eapply runs_any_member; [eassumption|calc]
  | |- runs (some_set _ _ _ _) _ _ => eapply runs_some_set; [eassumption|calc]
  | |- runs (is_changed _ _ _ _) _ _ => eapply runs_is_changed; [eassumption|calc]
  | |- runs (sleep _ _) _ _ => eapply runs_sleep; [eassumption|calc]
  | |- runs (clear_errno _ _) _ _ => eapply runs_clear_errno; eassumption
  | |- runs (get_errno _ _) _ _ => eapply runs_errno; eassumption
  | |- runs (var _ _ _) _ _ => eapply runs_var; eassumption
  | |- runs (set _ _ _) _ _ => eapply runs_set; eassumption
  | |- runs (mret _ _ _) _ _ => eapply runs_ret; eassumption
  end.

(** A test that depends on sets and numbers that are known. *)
Ltac decide_test :=
  match goal with
  | |- runs ((if ?b then _ else _) _ _) _ _ =>
      let r := eval vm_compute in b in replace b with r by (vm_compute; reflexivity); cbv iota
  end.

Ltac go :=
  repeat
    (cbv beta;
     lazymatch goal with
     | |- runs ((unless _ _ _ _) _ _) _ _ => unfold unless
     | |- runs ((leave_if _ _ _) _ _) _ _ => unfold leave_if
     | |- runs ((set_or _ _ _) _ _) _ _ => unfold set_or
     | |- runs ((empty_or _ _) _ _) _ _ => unfold empty_or
     | |- runs ((add_or _ _ _ _) _ _) _ _ => cbn [add_or]
     | |- runs ((pass_or_fail _) _ _) _ _ => unfold pass_or_fail
     | |- runs ((raise_or _ _ _) _ _) _ _ => unfold raise_or
     | |- runs ((install_or _ _ _ _) _ _) _ _ =>
         eapply runs_install; [eassumption|calc|calc|after]
     | |- runs ((if _ then _ else _) _ _) _ _ => decide_test
     | |- runs ((_ ≫= _) _ _) _ _ => eapply runs_bind; [rule|after]
     end).

Ltac begin_new n :=
  let Hf := fresh in
  intros (Hg & alt & Hv) fuel Hf; do n (destruct fuel as [|fuel]; [lia|]); clear Hf.

Section Pass.
Context {St : Type} `{SignalLaws St}.

Definition new_view (alt : Z * Z) : sigview := SigView ∅ ∅ ∅ [] alt.

(** A test with the handlers [h] and the variables [x] that ends with [o]. *)
Lemma new_verdict {V} (h : handlers St V) (x : V) (main : P St V Z) (o : outcome Z) n s fuel :
  (∀ fuel p alt, at_view (new_view alt) x None p →
     runs (main (deliver (n + fuel) h) p) o (λ _, True)) →
  new_process s → (n ≤ fuel)%nat → verdict (run_main fuel h x main s) = verdict o.
Proof.
  intros Hm (Hg & alt & Hv) Hf.
  eapply runs_verdict. replace fuel with (n + (fuel - n))%nat by lia. eapply Hm.
  pose proof (start_view s x Hg) as Hp. rewrite Hv in Hp. exact Hp.
Qed.

Lemma new_pass {V} (h : handlers St V) (x : V) (main : P St V Z) (o : outcome Z) n s :
  verdict o = Some PTS_PASS →
  (∀ fuel p alt, at_view (new_view alt) x None p →
     runs (main (deliver (n + fuel) h) p) o (λ _, True)) →
  new_process s → passes (λ fuel, run_main fuel h x main) n s.
Proof. intros Ho Hm Hs fuel Hf. rewrite <- Ho. by eapply new_verdict. Qed.

Lemma plain_pass (main : P St unit Z) n s :
  (∀ fuel p alt, at_view (new_view alt) tt None p →
     runs (main (deliver (n + fuel) no_handlers) p) (Ret PTS_PASS) (λ _, True)) →
  new_process s → passes (run_plain main) n s.
Proof. by apply new_pass. Qed.

(** Tests without handlers that [go] runs through. *)
Lemma plain_tests s : new_process s →
  Forall (λ t, passes t 1 s)
    [sigaddset_1_3; sigdelset_1_3; sigdelset_1_4; sigemptyset_1_1; sigemptyset_2_1;
     sigismember_4_1; sigpending_1_1; sigpending_2_1; raise_6_1; raise_7_1; kill_2_1;
     sigprocmask_8_1; sigprocmask_8_2; sigprocmask_8_3; sigprocmask_10_1; sighold_2_1; sigrelse_2_1;
     sigignore_6_1; sigignore_6_2; sigset_10_1; signal_6_1; signal_7_1].
Proof.
  intros Hs. repeat (apply Forall_cons; split; [revert Hs; apply (plain_pass _ 1); intros fuel p alt Hp; simpl Nat.add; go; ends|]). by apply Forall_nil.
Qed.

End Pass.
