(* ===== verification/SignalSuite.v ===== *)
(** * The tests of the signal functions on every system

    The tests of [signal_suite] that need more than SignalThms gives: sets that
    are not known, actions that the system chooses, and handlers; then the
    theorem on the whole suite and the one on three tests of sigset. *)

From stdpp Require Import base tactics numbers list gmap strings fin_maps fin_sets.
From S2P Require Import Prelude SigApi SigProc SigKernel SigRules SignalApi SigactionTests SigactionThms SignalTests SignalThms.

Open Scope Z_scope.

Section Pass.
Context {St : Type} `{SignalLaws St}.
Implicit Types s : St.

Ltac step := eapply runs_bind; [rule|after].
(** What is known of an action or a view that the system chose. *)
Tactic Notation "chosen" ident(a) ident(p) ident(Ha) ident(Hp) :=
  intros a p Ha Hp; cbv beta in Ha, Hp.

(** Tests on sets that are not known. *)

Lemma any_member_full l y : forallb valid_sig l = true → (∀ sig, valid_sig sig = true → sig ∈ y) →
  existsb (gives_n y 0) l = false.
Proof.
  intros Hl Hy. apply not_true_is_false. intros (sig & Hin & Hg)%existsb_exists.
  unfold gives_n in Hg. rewrite bool_decide_true in Hg; [done|].
  by apply Hy, (proj1 (forallb_forall _ _) Hl).
Qed.

Lemma sigfillset_tests s : new_process s →
  Forall (λ t, passes t 1 s) [sigfillset_1_1; sigfillset_2_1; sigismember_3_1].
Proof.
  intros Hs. repeat (apply Forall_cons; split); [..|by apply Forall_nil]; revert Hs;
    apply (plain_pass _ 1); intros fuel p alt Hp; unfold unless;
    (eapply runs_bind_some; [by eapply runs_fillset|]; intros z p1 Hz Hp1;
     change (minus_one _) with false + change (non_zero _) with false; cbv iota beta).
  - step. cbn [orb sr_val]. rewrite any_member_full by first [exact Hz|calc]. ends.
  - ends.
  - step. cbn [sr_val]. rewrite bool_decide_true by by apply Hz. ends.
Qed.

Lemma sigprocmask_7_1_passes s : new_process s → passes sigprocmask_7_1 1 s.
Proof.
  apply (plain_pass _ 1). intros fuel p alt Hp. eapply runs_bind.
  { eapply runs_block_each; [done|done|calc|done|]. intros sig. by rewrite elem_of_nil. }
  after. ends.
Qed.

Lemma sigprocmask_12_1_passes s : new_process s → passes sigprocmask_12_1 1 s.
Proof.
  apply (plain_pass _ 1). intros fuel p alt Hp. simpl Nat.add. do 5 step. unfold unless.
  eapply runs_bind_some; [eapply runs_procmask_bad; [eassumption|calc]|].
  intros old p' _ Hp'. simpl minus_one. go. ends.
Qed.

(** ** Tests with actions that signal and sigset choose *)

Lemma sigignore_4_1_passes s : new_process s → passes sigignore_4_1 1 s.
Proof.
  apply (plain_pass _ 1). intros fuel p alt Hp. unfold unless. simpl Nat.add.
  eapply runs_bind_ex; [eapply runs_sigignore; [eassumption|calc|calc]|]. intros a p' _ Hp'. ends.
Qed.

Lemma signal_5_1_passes s : new_process s → passes signal_5_1 1 s.
Proof.
  apply (plain_pass _ 1). intros fuel p alt Hp. unfold unless. simpl Nat.add.
  eapply runs_bind_ex; [eapply runs_signal_ex; [exact Hp|calc|calc|done|done]|]. chosen a p1 Ha Hp1. simpl.
  eapply runs_bind_ex; [eapply runs_signal_ex; [exact Hp1|calc|by apply install_quiet|done|done]|].
  chosen b p2 Hb Hp2. rewrite act_install_ne by done. simpl.
  eapply runs_bind_ex; [eapply runs_signal_ex; [exact Hp2|calc|by do 2 apply install_quiet|done|done]|].
  chosen e p3 He Hp3. unfold is_not. simpl.
  rewrite act_install_ne, act_install by done. simpl. rewrite Ha. ends.
Qed.

Lemma sigset_9_1_passes s : new_process s → passes sigset_9_1 1 s.
Proof.
  apply (plain_pass _ 1). intros fuel p alt Hp. unfold install_zero, unless. simpl Nat.add. go.
  eapply runs_bind_some; [eapply runs_sigaction; [eassumption|calc|calc]|]. intros old p1 _ Hp1.
  simpl. eapply runs_bind_ex; [eapply runs_sigset; [exact Hp1|done|calc|done|done]|].
  intros a p2 _ Hp2. unfold is_not. cbn [sr_val]. rewrite old_installed by done. ends.
Qed.

(** ** Handlers *)

(** The handlers of a test run once and return. *)
Lemma set_called_runs f sig info d p v x c :
  at_view v x c p → runs (set_handler_called (St := St) f sig info d p) (Ret tt) (at_view v 1 c).
Proof. exact (runs_set (λ _, 1) d p v x c). Qed.

Lemma sigprocmask_handlers s : new_process s →
  Forall (λ t, passes t 1 s) [sigprocmask_4_1; sigprocmask_5_1; sighold_1_1].
Proof.
  intros Hs. repeat (apply Forall_cons; split); [..|by apply Forall_nil]; revert Hs;
    apply (new_pass _ _ _ (Ret PTS_PASS) 1 _ eq_refl); intros fuel p alt Hp; simpl Nat.add; go; ends.
Qed.

(** A raise whose handler ends as [tac] shows. *)
Ltac handled tac := eapply runs_raise_handled;
  [eassumption|calc|calc|decide_now|calc|
   let info := fresh "info" in let p := fresh "p" in let Hi := fresh "Hi" in let Hp := fresh "Hp" in
   intros info p Hi Hp; tac].

Lemma sigprocmask_6_1_passes s : new_process s → passes sigprocmask_6_1 2 s.
Proof.
  apply (new_pass _ _ _ (Ret PTS_PASS) 2 _ eq_refl). intros fuel p alt Hp. simpl Nat.add.
  go. eapply runs_raise_or; [handled ltac:(by eapply set_called_runs)|after]. go. ends.
Qed.

Lemma raise_2_1_passes s : new_process s → passes raise_2_1 2 s.
Proof.
  apply (new_pass _ _ _ (Ret PTS_PASS) 2 _ eq_refl). intros fuel p alt Hp. simpl Nat.add.
  unfold install_checked. go.
  eapply runs_bind_some; [eapply runs_sigaction; [eassumption|calc|calc]|]. intros old p1 _ Hp1.
  go. eapply runs_bind; [handled ltac:(do 2 step)|after].
  { rule. } go. ends.
Qed.

(** A raise, or a kill, whose handler exits with [code]. *)
Ltac exits tac := refine (runs_bind_ends _ _ _ _ (Exit 0) _ eq_refl _);
  first [eapply (runs_raise_ends _ _ _ _ _ _ _ _ (Exit 0)) | eapply (runs_kill_ends _ _ _ _ _ _ _ _ (Exit 0))];
  [eassumption|calc|calc|decide_now|calc|done|
   let info := fresh "info" in let p := fresh "p" in let Hp := fresh "Hp" in intros info p Hp; tac].
Ltac acts := eapply runs_bind_some; [eapply runs_sigaction; [eassumption|calc|calc]|];
  let old := fresh "old" in let p := fresh "p" in let Hp := fresh "Hp" in
  intros old p _ Hp; cbv beta in Hp; go.

Lemma exit_tests s : new_process s →
  Forall (λ t, passes t 1 s) [raise_1_1; raise_4_1; kill_1_1].
Proof.
  intros Hs. repeat (apply Forall_cons; split); [..|by apply Forall_nil]; revert Hs;
    apply (new_pass _ _ _ (Exit 0) 1 _ eq_refl); intros fuel p alt Hp; simpl Nat.add;
    unfold install_checked, unless; go; acts; exits ends.
Qed.

Lemma sigpending_handlers s : new_process s →
  Forall (λ t, passes t 2 s) [sigpending_1_2; sigpending_1_3].
Proof.
  intros Hs. repeat (apply Forall_cons; split); [..|by apply Forall_nil]; revert Hs;
    apply (new_pass _ _ _ (Exit 0) 2 _ eq_refl); intros fuel p alt Hp; simpl Nat.add;
    go; acts; exits ltac:(idtac).
  all: unfold handler_sigpending_1_2, handler_sigpending_1_3; go; ends.
Qed.

Lemma raise_1_2_passes s : new_process s → passes raise_1_2 1 s.
Proof.
  apply (new_pass _ _ _ (Ret PTS_PASS) 1 _ eq_refl). intros fuel p alt Hp. simpl Nat.add.
  unfold install_checked, unless. go. acts.
  eapply (runs_fork_wait _ _ _ _ _ _ _ _ _ (Exit 0)); [eassumption|calc|done|by left| |].
  - intros p' Hp' _. go. acts. exits ltac:(by apply runs_exit).
  - intros pid p' c Hp'. ends.
Qed.

(** ** Signals that become deliverable *)

Lemma sigrelse_1_1_passes s : new_process s → passes sigrelse_1_1 2 s.
Proof.
  apply (new_pass _ _ _ (Ret PTS_PASS) 2 _ eq_refl). intros fuel p alt Hp. simpl Nat.add. go.
  eapply runs_bind.
  { eapply (runs_relse_handled _ _ _ _ _ _ _ _ SIGABRT); [eassumption|calc|calc|calc|].
    intros info p' Hp'. by eapply set_called_runs. }
  after. go. ends.
Qed.

Lemma sigprocmask_9_1_passes s : new_process s → passes sigprocmask_9_1 2 s.
Proof.
  apply (new_pass _ _ _ (Ret PTS_PASS) 2 _ eq_refl). intros fuel p alt Hp. simpl Nat.add. go.
  eapply runs_bind.
  { eapply (runs_procmask_handled _ _ _ _ _ _ _ _ _ _ SIGABRT); [eassumption|reflexivity|calc|calc|].
    intros info p' Hp'. unfold handler_sigprocmask_9_1. go. rule. }
  after. go. ends.
Qed.

(** ** Actions that are ignored or caught *)

(** The action [a] of [sig] ignores it, with the handler [hd]. *)
Lemma raise_ignored_act {V} (h : handlers St V) sig a n p v (x : V) c :
  at_view (sv_install sig a v) x c p → quiet v → valid_sig sig = true → sig ∉ sv_mask v →
  ignores a sig = true →
  ∃ v', True ∧ runs (raise sig (deliver (S n) h) p) (Ret 0) (at_view v' x c).
Proof.
  intros Hp Hq Hs Hm Ha. eexists. split; [done|].
  eapply runs_raise_ignored; [exact Hp|by apply install_quiet|done|done|]. by rewrite act_install.
Qed.

Lemma signal_back_passes d s : ignores (SigAct d ∅ 0) SIGCHLD = true → d ≠ SIG_ERR → d ≠ SIG_HOLD →
  new_process s → passes (signal_back d) 1 s.
Proof.
  intros Hd He Hh. apply (new_pass _ _ _ (Ret PTS_PASS) 1 _ eq_refl). intros fuel p alt Hp.
  unfold unless. simpl Nat.add.
  eapply runs_bind_ex; [eapply runs_signal_ex; [exact Hp|calc|calc|done|done]|]. chosen a p1 Ha Hp1.
  change (is_err _) with false. cbv iota beta.
  eapply runs_bind_ex; [eapply runs_signal_ex; [exact Hp1|calc|by apply install_quiet|done|done]|].
  chosen b p2 Hb Hp2. rewrite act_install. unfold is_not. simpl. rewrite Ha. simpl.
  eapply runs_bind_ex.
  { eapply raise_ignored_act; [exact Hp2|by apply install_quiet|done|done|].
    unfold ignores in *. simpl in Hd. by rewrite Hb. }
  chosen v p3 Hv Hp3. unfold not_called. go. ends.
Qed.

Lemma signal_3_1_passes s : new_process s → passes signal_3_1 2 s.
Proof.
  apply (new_pass _ _ _ (Ret PTS_PASS) 2 _ eq_refl). intros fuel p alt Hp. unfold unless. simpl Nat.add.
  eapply runs_bind_ex; [eapply runs_signal_ex; [exact Hp|calc|calc|done|done]|]. chosen a p1 Ha Hp1.
  change (is_err _) with false. cbv iota beta. eapply runs_bind.
  { eapply raise_installed; [exact Hp1|calc|calc|decide_now|decide_now|exact Ha|].
    intros. by eapply set_called_runs. }
  after. unfold was_called. go. ends.
Qed.

Lemma sigignore_1_1_passes s : new_process s → passes sigignore_1_1 1 s.
Proof.
  apply (new_pass _ _ _ (Ret PTS_PASS) 1 _ eq_refl). intros fuel p alt Hp. simpl Nat.add. go.
  eapply runs_bind_ex; [eapply runs_sigignore; [eassumption|calc|calc]|]. chosen a p' Ha Hp'.
  unfold raise_or. eapply runs_bind_ex.
  { eapply raise_ignored_act; [exact Hp'|calc|calc|decide_now|]. unfold ignores. by rewrite Ha. }
  chosen v p'' Hv Hp''. go. ends.
Qed.

Lemma sigset_back_passes sig d s : catchable sig = true → ignores (SigAct d ∅ 0) sig = true →
  d ≠ SIG_ERR → d ≠ SIG_HOLD → new_process s → passes (sigset_back sig d) 1 s.
Proof.
  intros Hs Hd He Hh. apply (new_pass _ _ _ (Ret PTS_PASS) 1 _ eq_refl). intros fuel p alt Hp.
  unfold install_zero, unless. simpl Nat.add. go.
  eapply runs_bind_some; [eapply runs_sigaction; [eassumption|done|calc]|]. intros old p1 _ Hp1. simpl.
  eapply runs_bind_ex; [eapply runs_sigset; [exact Hp1|done|done|done|done]|]. chosen a p2 Ha Hp2.
  unfold is_not. cbn [sr_val]. rewrite old_installed by done. simpl.
  destruct (catchable_valid _ Hs) as [Hv _]. eapply runs_bind_ex.
  { eapply raise_ignored_act; [exact Hp2|by apply none_pending|done|simpl; set_solver|].
    unfold ignores in *. simpl in Hd. by rewrite (proj1 Ha). }
  chosen v p3 Hw Hp3. unfold not_called. go. ends.
Qed.

(** The handler that sigset installs runs when the signal is raised. *)
Lemma sigset_caught_passes (h : handlers St Z) s :
  (∀ info n p v, at_view v 0 None p → quiet v → SIGCHLD ∈ sv_mask v →
     runs (h "myhandler" SIGCHLD info (deliver (S n) h) p) (Ret tt) (at_view v 1 None)) →
  new_process s →
  passes (λ fuel, run_main fuel h 0
    (unless (sigset_ SIGCHLD (Fun "myhandler")) is_err PTS_UNRESOLVED (λ _,
     raise SIGCHLD;; was_called))) 2 s.
Proof.
  intros Hh. apply (new_pass _ _ _ (Ret PTS_PASS) 2 _ eq_refl). intros fuel p alt Hp.
  unfold unless. simpl Nat.add.
  eapply runs_bind_ex; [eapply runs_sigset; [exact Hp|done|calc|done|done]|].
  chosen a p1 Ha Hp1. destruct Ha as [Ha [Hd Hr]]. change (is_err _) with false. cbv iota beta.
  eapply runs_bind.
  { eapply runs_raise_handled; [exact Hp1|by apply install_quiet; calc|calc|simpl; set_solver|by rewrite act_install|].
    intros info p' _ Hp'. apply Hh; [done| |].
    - eapply raised_quiet; [exact Hp1|by apply install_quiet; calc|simpl; set_solver|decide_now].
    - apply enter_blocks; [decide_now|]. right. by rewrite act_generate, act_install. }
  after. unfold was_called. go. ends.
Qed.

Lemma sigset_3_1_passes s : new_process s → passes sigset_3_1 2 s.
Proof. apply sigset_caught_passes. intros. by eapply set_called_runs. Qed.

Lemma sigset_4_1_passes s : new_process s → passes sigset_4_1 2 s.
Proof.
  apply sigset_caught_passes. intros info n p v Hp Hq Hm.
  eapply runs_bind; [by eapply runs_procmask_query|after]. cbn [sr_val].
  step. rewrite bool_decide_true by done. exact (runs_set (λ _, 1) _ _ _ _ _ Hp1).
Qed.

Lemma sigset_5_1_passes s : new_process s → passes sigset_5_1 2 s.
Proof.
  apply (plain_pass _ 2). intros fuel p alt Hp. simpl Nat.add. do 2 step. unfold unless.
  eapply runs_bind_ex; [eapply runs_sigset; [eassumption|calc|calc|done|done]|]. chosen a p' Ha Hp'.
  change (is_err _) with false. cbv iota beta. eapply runs_bind.
  { eapply raise_installed; [exact Hp'|calc|calc|decide_now|decide_now|apply Ha|].
    intros. by apply runs_ret. }
  after. eapply runs_bind; [eapply runs_procmask_query; [eassumption|]|after].
  { by apply done_quiet, install_quiet; calc. }
  cbn [sr_val]. step. match goal with |- context [existsb ?f ?l] => replace (existsb f l) with false end.
  { ends. }
  symmetry. calc.
Qed.

(** ** Many signals *)

Lemma raise_10000_1_passes s : new_process s → passes raise_10000_1 2 s.
Proof.
  apply (plain_pass _ 2). intros fuel p alt Hp. simpl Nat.add. unfold unless. go.
  unfold valid_tests. cbn [install_each]. unfold unless. do 6 acts.
  eapply runs_bind; [cbn [raise_valid]|after].
  { do 6 (eapply runs_bind; [handled ltac:(by apply runs_ret)|after]). by apply runs_ret. }
  eapply runs_bind; [unfold invalid_tests; cbn [raise_invalid_ones]|after].
  { do 6 (go; cbn [raise_invalid_ones]). rule. }
  go. ends.
Qed.

(** ** SIG_HOLD *)

(** On a signal that is not blocked, [sigset] gives back its disposition. *)
Lemma hold_installed_verdict {V} (h : handlers St V) (x : V) k s fuel : new_process s → (1 ≤ fuel)%nat →
  verdict (run_main fuel h x
    (install_zero SIGCHLD (unless (sigset_ SIGCHLD SIG_HOLD) (is_not SIG_HOLD) PTS_UNRESOLVED k)) s) =
  Some PTS_UNRESOLVED.
Proof.
  intros Hs Hf. refine (new_verdict _ _ _ (Ret PTS_UNRESOLVED) 1 _ _ _ Hs Hf).
  intros fuel' p alt Hp. simpl Nat.add. unfold install_zero, unless. go. acts. ends.
Qed.

End Pass.

Section Suite.
Context {St : Type} `{SignalLaws St}.
Implicit Types s : St.

Lemma passes_more (t : nat → St → outcome Z) m n s : (m ≤ n)%nat → passes t m s → passes t n s.
Proof. intros Hmn Ht fuel Hf. apply Ht. lia. Qed.

(** C8. Every system whose signal functions behave as the standard says passes
    these 53 tests of the signal functions in a new process: the sets, the mask,
    the pending signals, [raise] and [kill], [signal] and the functions of the
    obsolescent interface. Of the functions on sets only what they do to initialised sets
    is assumed: three tests that use an uninitialised set are not among the 53. *)
Theorem signal_suite_passes s : new_process s → Forall (λ t, passes t 2 s) signal_suite.
Proof.
  intros Hs. pose proof (plain_tests s Hs) as H1'. pose proof (sigfillset_tests s Hs) as H2'.
  pose proof (sigprocmask_handlers s Hs) as H3'. pose proof (exit_tests s Hs) as H4'.
  pose proof (sigpending_handlers s Hs) as H5'.
  pose proof (sigprocmask_7_1_passes s Hs). pose proof (sigprocmask_12_1_passes s Hs).
  pose proof (sigignore_4_1_passes s Hs). pose proof (signal_5_1_passes s Hs).
  pose proof (sigset_9_1_passes s Hs). pose proof (sigprocmask_6_1_passes s Hs).
  pose proof (raise_2_1_passes s Hs). pose proof (raise_1_2_passes s Hs).
  pose proof (sigrelse_1_1_passes s Hs). pose proof (sigprocmask_9_1_passes s Hs).
  assert (passes signal_1_1 1 s) by (by apply signal_back_passes).
  assert (passes signal_2_1 1 s) by (by apply signal_back_passes).
  pose proof (signal_3_1_passes s Hs). pose proof (sigignore_1_1_passes s Hs).
  assert (passes sigset_1_1 1 s) by (by apply sigset_back_passes).
  assert (passes sigset_2_1 1 s) by (by apply sigset_back_passes).
  pose proof (sigset_3_1_passes s Hs). pose proof (sigset_4_1_passes s Hs).
  pose proof (sigset_5_1_passes s Hs). pose proof (raise_10000_1_passes s Hs).
  clear Hs. unfold signal_suite.
  repeat match goal with Hl : Forall _ (_ :: _) |- _ => apply Forall_cons in Hl as [? Hl] end.
  repeat (apply Forall_cons; split); [..|by apply Forall_nil];
    match goal with Ht : passes ?t ?n _ |- passes ?t 2 _ => apply (passes_more t n); [lia|exact Ht] end.
Qed.

(** assertions.xml of sigset says that the call returns SIG_HOLD when the
    signal had been blocked; three tests expect it for a signal that is not
    blocked: on every system 8-1.c fails, 6-1.c and 7-1.c are unresolved. *)
Theorem sigset_hold_rejected s : new_process s → ∀ fuel, (1 ≤ fuel)%nat →
  verdict (sigset_8_1 fuel s) = Some PTS_FAIL ∧
  verdict (sigset_6_1 fuel s) = Some PTS_UNRESOLVED ∧
  verdict (sigset_7_1 fuel s) = Some PTS_UNRESOLVED.
Proof.
  intros Hs fuel Hf. split_and!; [|by apply hold_installed_verdict..].
  refine (new_verdict _ _ _ (Ret PTS_FAIL) 1 _ _ _ Hs Hf).
  intros fuel' p alt Hp. simpl Nat.add. unfold unless. go. ends.
Qed.

End Suite.

Lemma kern0_new : new_process (kern0 no_quirks).
Proof. split; [exact good0|by eexists]. Qed.


Lemma signal_suite_passes_witness :
  new_process (kern0 no_quirks) ∧ Forall (λ t, passes t 2 (kern0 no_quirks)) signal_suite.
Proof. split; [exact kern0_new|]. exact (signal_suite_passes (kern0 no_quirks) kern0_new). Defined.


Lemma sigset_hold_rejected_witness :
  verdict (sigset_8_1 3 (kern0 no_quirks)) = Some PTS_FAIL ∧
  verdict (sigset_6_1 3 (kern0 no_quirks)) = Some PTS_UNRESOLVED ∧
  verdict (sigset_7_1 3 (kern0 no_quirks)) = Some PTS_UNRESOLVED.
Proof. exact (sigset_hold_rejected (kern0 no_quirks) kern0_new 3 ltac:(lia)). Defined.

(** ** Quirks *)

Definition signal_verdicts (q : quirks) (tests : list (nat → kern q → outcome Z)) : list (option Z) :=
  (λ t, verdict (t 9%nat (kern0 q))) <$> tests.

(** What these tests detect: a system that loses a blocked signal, one on
    which [raise] and [kill] do nothing, one that does not block a signal while
    its handler runs, and one that installs no action. Against the second, the
    tests that ask whether a handler was not called pass; a lost signal leaves
    the tests of blocking in sigprocmask unresolved. *)
Theorem signal_suite_detects :
  signal_verdicts lose_blocked [sigpending_1_1; sigpending_2_1; sigprocmask_6_1; sigrelse_1_1] =
    replicate 4 (Some PTS_FAIL) ∧
  signal_verdicts no_raise [sigpending_1_1; sigpending_2_1; raise_1_1; raise_1_2; raise_2_1;
    raise_4_1; kill_1_1; signal_3_1; sigrelse_1_1; sigset_3_1; sigset_4_1] =
    replicate 11 (Some PTS_FAIL) ∧
  signal_verdicts no_block [sigset_4_1] = [Some PTS_FAIL] ∧
  signal_verdicts no_action [signal_3_1; signal_5_1; sigset_3_1; sigset_4_1; sigset_9_1] =
    replicate 5 (Some PTS_FAIL) ∧
  signal_verdicts no_raise [raise_10000_1; signal_1_1; signal_2_1; sighold_1_1; sigignore_1_1;
    sigset_1_1; sigset_2_1; sigset_5_1] = replicate 8 (Some PTS_PASS) ∧
  signal_verdicts lose_blocked [sigprocmask_4_1; sigprocmask_5_1; sigprocmask_9_1] =
    replicate 3 (Some PTS_UNRESOLVED).
Proof. split_and!; vm_compute; reflexivity. Qed.
