(* ===== verification/CLang.v ===== *)
(** * C programs as statements

    The C code of the tests whose threads or processes a scheduler interleaves:
    expressions and assignments on named variables, conditions, loops, and calls,
    compiled to lists of instructions with jumps. The calls are a parameter: PtLang
    has those of threads, OsLang those of processes. [N] are the names: strings in
    the programs, numbers in their code. *)

From stdpp Require Import base tactics numbers list gmap strings.
From S2P Require Import Prelude.

Open Scope Z_scope.

(** ** Statements *)

(** A variable of the program, one of the current thread, an element of an
    array; [Op] is an operator of C on [int]. *)
Inductive exp (N : Type) : Type :=
| Num (z : Z)
| Var (x : N)
| Loc (x : N)
| Elem (x : N) (i : exp N)
| Op (f : Z → Z → Z) (a b : exp N).
Arguments Num {N} z.
Arguments Var {N} x.
Arguments Loc {N} x.
Arguments Elem {N} x i.
Arguments Op {N} f a b.

Inductive lval (N : Type) : Type := LVar (x : N) | LLoc (x : N) | LElem (x : N) (i : exp N).
Arguments LVar {N} x.
Arguments LLoc {N} x.
Arguments LElem {N} x i.

(** What a call's result is good for: nothing; it is stored; or it decides
    whether the program goes on, ends ([exit]), or the function returns. *)
Inductive ending : Type := Exits (code : Z) | Returns (value : Z).

Inductive use (N : Type) : Type :=
| Ignore
| Store (x : lval N)
| Judge (f : Z → option ending).
Arguments Ignore {N}.
Arguments Store {N} x.
Arguments Judge {N} f.

(** [C] are the calls. *)
Inductive cstmt (C : Type → Type) : Type :=
| Do (c : C string) (u : use string)
| Assign (x : lval string) (e : exp string)
| If (e : exp string) (yes no : list (cstmt C))
| While (e : exp string) (body : list (cstmt C))
| Break
| Exit (code : exp string)
| Return (value : exp string)
| Thread_exit (value : exp string).
Arguments Do {C} c u.
Arguments Assign {C} x e.
Arguments If {C} e yes no.
Arguments While {C} e body.
Arguments Break {C}.
Arguments Exit {C} code.
Arguments Return {C} value.
Arguments Thread_exit {C} value.

(** ** Notations *)

Definition of_bool (b : bool) : Z := if b then 1 else 0.

Definition num_ (z : Z) : exp string := Num z.
Definition var_ (x : string) : exp string := Var x.
Definition lvar_ (x : string) : lval string := LVar x.
Coercion num_ : Z >-> exp.
Coercion var_ : string >-> exp.
Coercion lvar_ : string >-> lval.

Declare Scope pt_scope.
Delimit Scope pt_scope with pt.
Bind Scope pt_scope with exp.
Notation "a == b" := (Op (λ x y, of_bool (x =? y)) a b) (at level 70) : pt_scope.
Notation "a != b" := (Op (λ x y, of_bool (negb (x =? y))) a b) (at level 70) : pt_scope.
Notation "a < b" := (Op (λ x y, of_bool (x <? y)) a b) : pt_scope.
Notation "a <= b" := (Op (λ x y, of_bool (x <=? y)) a b) : pt_scope.
Notation "a + b" := (Op Z.add a b) : pt_scope.
Notation "a - b" := (Op Z.sub a b) : pt_scope.
Notation "a * b" := (Op Z.mul a b) : pt_scope.
Notation "a && b" := (Op (λ x y, of_bool (negb (x =? 0) && negb (y =? 0))) a b) : pt_scope.
Notation "a || b" := (Op (λ x y, of_bool (negb (x =? 0) || negb (y =? 0))) a b) : pt_scope.

Notation "x ::= e" := (Assign x e%pt) (at level 75).

Section Idioms.
Context {C : Type → Type}.

(** [if (call != 0) end;] and the like. *)
Definition check (c : C string) (bad : ending) : cstmt C :=
  Do c (Judge (λ r, if r =? 0 then None else Some bad)).
(** [if (call != code) end;] *)
Definition expect (c : C string) (code : Z) (bad : ending) : cstmt C :=
  Do c (Judge (λ r, if r =? code then None else Some bad)).
(** [if (call == code) end;] *)
Definition reject (c : C string) (code : Z) (bad : ending) : cstmt C :=
  Do c (Judge (λ r, if r =? code then Some bad else None)).
(** [if (call != 0) return PTS_UNRESOLVED;], with FAIL, and the macros UNRESOLVED
    and FAILED of the test framework, which call [exit]. *)
Definition U (c : C string) : cstmt C := check c (Returns PTS_UNRESOLVED).
Definition F (c : C string) : cstmt C := check c (Returns PTS_FAIL).
Definition XU (c : C string) : cstmt C := check c (Exits PTS_UNRESOLVED).
Definition XF (c : C string) : cstmt C := check c (Exits PTS_FAIL).
(** [x = call;] *)
Definition set_ (x : lval string) (c : C string) : cstmt C := Do c (Store x).
(** [if (e) return code;] *)
Definition ret_if (e : exp string) (code : Z) : cstmt C := If e [Return (Num code)] [].
Definition exit_if (e : exp string) (code : Z) : cstmt C := If e [Exit (Num code)] [].
(** The whole seconds of a time. *)
Definition seconds (e : exp string) : exp string := Op (λ x y, x / y) e (Num 1000000).
Definition ignore (c : C string) : cstmt C := Do c Ignore.

(** A loop with a constant number of rounds over an array of objects. *)
Definition rounds {A} (l : list A) (body : A → list (cstmt C)) : list (cstmt C) := concat (body <$> l).

(** [for (x = 0; x < n; x++) body] with a variable of the thread. *)
Definition for_ (x : string) (n : Z) (body : list (cstmt C)) : list (cstmt C) :=
  [LLoc x ::= 0; While (Loc x < n)%pt (body ++ [LLoc x ::= Loc x + 1])].

End Idioms.

(** ** Code with jumps *)

Inductive cinstr (C : Type → Type) : Type :=
| IDo (c : C nat) (u : use nat)
| IAssign (x : lval nat) (e : exp nat)
| IJz (e : exp nat) (target : nat)
| IJmp (target : nat)
| IExit (e : exp nat)
| IReturn (e : exp nat)
| IThread_exit (e : exp nat).
Arguments IDo {C} c u.
Arguments IAssign {C} x e.
Arguments IJz {C} e target.
Arguments IJmp {C} target.
Arguments IExit {C} e.
Arguments IReturn {C} e.
Arguments IThread_exit {C} e.

(** Names become numbers. *)
Section Names.
Context (var : string → nat).

Fixpoint exp_names (e : exp string) : exp nat :=
  match e with
  | Num z => Num z
  | Var x => Var (var x)
  | Loc x => Loc (var x)
  | Elem x i => Elem (var x) (exp_names i)
  | Op f a b => Op f (exp_names a) (exp_names b)
  end.

Definition lval_names (x : lval string) : lval nat :=
  match x with
  | LVar x => LVar (var x)
  | LLoc x => LLoc (var x)
  | LElem x i => LElem (var x) (exp_names i)
  end.

Definition use_names (u : use string) : use nat :=
  match u with
  | Ignore => Ignore
  | Store x => Store (lval_names x)
  | Judge f => Judge f
  end.

Context {C : Type → Type} (call_names : C string → C nat).

(** The code of statements that starts at [pc]; [break] goes to [brk]. *)
Fixpoint compile (brk pc : nat) (s : cstmt C) : list (cinstr C) :=
  let compile_list :=
    fix go (brk pc : nat) (l : list (cstmt C)) : list (cinstr C) :=
      match l with
      | [] => []
      | s :: l => let c := compile brk pc s in c ++ go brk (pc + length c)%nat l
      end in
  match s with
  | Do c u => [IDo (call_names c) (use_names u)]
  | Assign x e => [IAssign (lval_names x) (exp_names e)]
  | If e yes no =>
      let c1 := compile_list brk (S pc) yes in
      match no with
      | [] => IJz (exp_names e) (S pc + length c1)%nat :: c1
      | _ =>
          let start := (S pc + S (length c1))%nat in
          let c2 := compile_list brk start no in
          IJz (exp_names e) start :: c1 ++ IJmp (start + length c2)%nat :: c2
      end
  | While e body =>
      let brk := (S pc + S (length (compile_list 0 (S pc) body)))%nat in
      IJz (exp_names e) brk :: compile_list brk (S pc) body ++ [IJmp pc]
  | Break => [IJmp brk]
  | Exit e => [IExit (exp_names e)]
  | Return e => [IReturn (exp_names e)]
  | Thread_exit e => [IThread_exit (exp_names e)]
  end.

Fixpoint compile_list (pc : nat) (l : list (cstmt C)) : list (cinstr C) :=
  match l with
  | [] => []
  | s :: l => let c := compile 0 pc s in c ++ compile_list (pc + length c) l
  end.

(** A function that reaches its end returns 0. *)
Definition compile_fun (l : list (cstmt C)) : list (cinstr C) := compile_list 0 (l ++ [Return (Num 0)]).

End Names.

(** ** The names of a program *)

Fixpoint exp_vars (e : exp string) : list string :=
  match e with
  | Num _ => []
  | Var x | Loc x => [x]
  | Elem x i => x :: exp_vars i
  | Op _ a b => exp_vars a ++ exp_vars b
  end.

Definition lval_vars (x : lval string) : list string :=
  match x with LVar x | LLoc x => [x] | LElem x i => x :: exp_vars i end.

Definition use_vars (u : use string) : list string :=
  match u with Store x => lval_vars x | _ => [] end.

Section Vars.
Context {C : Type → Type} (call_vars : C string → list string).

Fixpoint stmt_vars (s : cstmt C) : list string :=
  let all := fix go (l : list (cstmt C)) : list string :=
    match l with [] => [] | s :: l => stmt_vars s ++ go l end in
  match s with
  | Do c u => call_vars c ++ use_vars u
  | Assign x e => lval_vars x ++ exp_vars e
  | If e yes no => exp_vars e ++ all yes ++ all no
  | While e body => exp_vars e ++ all body
  | Break => []
  | Exit e | Return e | Thread_exit e => exp_vars e
  end.

End Vars.

(** The position of a name. *)
Fixpoint position (x : string) (l : list string) : nat :=
  match l with
  | [] => 0
  | y :: l => if String.eqb x y then 0 else S (position x l)
  end.

(** Each name once. *)
Definition distinct (l : list string) : list string :=
  foldl (λ l x, if existsb (String.eqb x) l then l else l ++ [x]) [] l.

(** ** Memory *)

(** The cells of each variable: one, those of an array, or one for each thread; a
    cell that was never written is 0. *)
Definition memory : Set := list (list Z).

Definition cell (m : memory) (x i : nat) : Z := nth i (nth x m []) 0.

Fixpoint put {A} (d : A) (i : nat) (f : A → A) (l : list A) : list A :=
  match i, l with
  | O, [] => [f d]
  | O, a :: l => f a :: l
  | S i, [] => d :: put d i f []
  | S i, a :: l => a :: put d i f l
  end.

(** The value of an expression for the thread [t]. *)
Fixpoint value (m : memory) (t : nat) (e : exp nat) : Z :=
  match e with
  | Num z => z
  | Var x => cell m x 0
  | Loc x => cell m x t
  | Elem x i => cell m x (Z.to_nat (value m t i))
  | Op f a b => f (value m t a) (value m t b)
  end.

Definition assign (t : nat) (x : lval nat) (z : Z) (m : memory) : memory :=
  let '(x, i) := match x with
                 | LVar x => (x, 0%nat)
                 | LLoc x => (x, t)
                 | LElem x i => (x, Z.to_nat (value m t i))
                 end in
  put [] x (put 0 i (λ _, z)) m.

(** The instruction that follows the jumps at [pc]. *)
Fixpoint skip {C} (fuel : nat) (l : list (cinstr C)) (pc : nat) : nat :=
  match fuel with
  | O => pc
  | S fuel => match l !! pc with Some (IJmp pc') => skip fuel l pc' | _ => pc end
  end.
