(* ===== verification/Explore.v ===== *)
(** * Exploring all schedules

    [explore] lists the states that can be reached, with a number for each and its
    steps. [closed] says that all are good, and that the numbers of the steps lead from
    each to a final one: they are ranked by the distance to it. The ranks are
    checked, not how they are found. *)

From stdpp Require Import base tactics numbers list gmap strings.
From S2P Require Import Prelude.

(** Runs of any length. *)
Inductive reach {St : Type} (succs : St → list St) : St → St → Prop :=
| reach_refl s : reach succs s s
| reach_step s s' s'' : s' ∈ succs s → reach succs s' s'' → reach succs s s''.

(** ** Ranks

    A graph is a list of nodes, each with whether it is final and its successors. *)

Definition graph : Type := list (N * bool * list N).

(** For each node, those with a step to it. *)
Definition sources (g : graph) : gmap N (list N) :=
  foldl (λ m '(i, _, js), foldl (λ m j, <[j := i :: default [] (m !! j)]> m) m js) ∅ g.

(** The distance of each node to a final one, level by level. *)
Fixpoint distances (fuel : nat) (back : gmap N (list N)) (r : N) (dist : gmap N N) (level : list N) : gmap N N :=
  match fuel, level with
  | S fuel, _ :: _ =>
      let '(dist, level) :=
        foldl (λ '(dist, level) j,
          foldl (λ '(dist, level) i,
            match dist !! i with
            | Some _ => (dist, level)
            | None => (<[i := r]> dist, i :: level)
            end) (dist, level) (default [] (back !! j))) (dist, []) level in
      distances fuel back (N.succ r) dist level
  | _, _ => dist
  end.

Definition ranks (g : graph) : gmap N N :=
  let ends := omap (λ '(i, final, _), if final : bool then Some i else None) g in
  distances (length g) (sources g) 1 (list_to_map ((λ i, (i, 0%N)) <$> ends)) ends.

(** A node is final, or a step leads to a smaller rank. *)
Definition descends (dist : gmap N N) (e : N * bool * list N) : bool :=
  let '(i, final, js) := e in
  match dist !! i with
  | Some r => final || existsb (λ j, match dist !! j with Some r' => N.ltb r' r | None => false end) js
  | None => false
  end.

Definition ranked (g : graph) : bool := let dist := ranks g in forallb (descends dist) g.

(** ** Exploration *)

Section Explore.
Context {St : Type} (eqb : St → St → bool) (succs : St → list St) (key : St → positive).
Context (eqb_sound : ∀ x y, eqb x y = true → x = y).

(** A state with its key. *)
Definition node : Type := positive * St.
Definition node_of (s : St) : node := (key s, s).

(** States that were reached, with their numbers; those with the same key are in one
    list. *)
Definition table : Type := gmap positive (list (St * N)).

Fixpoint assoc (s : St) (l : list (St * N)) : option N :=
  match l with
  | [] => None
  | (s', i) :: l => if eqb s' s then Some i else assoc s l
  end.
Definition number (tb : table) (x : node) : option N := assoc x.2 (default [] (tb !! x.1)).

Record entry : Type := Entry { e_num : N; e_state : St; e_next : list node }.

(** [todo] are to be visited, [n] is the next number. *)
Fixpoint explore (fuel : nat) (n : N) (tb : table) (todo : list node) (found : list entry) : option (table * list entry) :=
  match todo with
  | [] => Some (tb, found)
  | (k, s) :: todo =>
      match fuel with
      | O => None
      | S fuel =>
          let l := default [] (tb !! k) in
          match assoc s l with
          | Some _ => explore fuel n tb todo found
          | None =>
              let next := node_of <$> succs s in
              explore fuel (N.succ n) (<[k := (s, n) :: l]> tb) (next ++ todo) (Entry n s next :: found)
          end
      end
  end.

(** What holds all the time: an entry has all steps of its state, every state of the
    table has an entry, and the steps lead to entries or to what is to be visited. *)
Definition listed (found : list entry) (s : St) : Prop := ∃ e, e ∈ found ∧ e_state e = s.
Definition complete (e : entry) : Prop := e_next e = node_of <$> succs (e_state e).
Definition tabled (tb : table) (found : list entry) : Prop :=
  ∀ x i, number tb x = Some i → ∃ e, e ∈ found ∧ e_num e = i ∧ e_state e = x.2.
Definition inside (todo : list node) (found : list entry) (s : St) : Prop := listed found s ∨ s ∈ todo.*2.

Record explored (init : St) (tb : table) (todo : list node) (found : list entry) : Prop := {
  ex_tabled : tabled tb found;
  ex_complete : ∀ e, e ∈ found → complete e;
  ex_init : inside todo found init;
  ex_next : ∀ e s, e ∈ found → s ∈ succs (e_state e) → inside todo found s }.

Lemma assoc_elem s l i : assoc s l = Some i → (s, i) ∈ l.
Proof.
  induction l as [|[s' i'] l IH]; simpl; [done|].
  destruct (eqb s' s) eqn:E; [apply eqb_sound in E; subst|]; intros; simplify_eq; set_solver.
Qed.

Lemma number_insert tb k s n x i :
  number (<[k := (s, n) :: default [] (tb !! k)]> tb) x = Some i →
  (x.2 = s ∧ i = n) ∨ number tb x = Some i.
Proof.
  unfold number, table in *. destruct (decide (x.1 = k)) as [->|Hk].
  - rewrite lookup_insert_eq. simpl. destruct (eqb s x.2) eqn:E; [|by right].
    apply eqb_sound in E. intros [= <-]. by left.
  - rewrite lookup_insert_ne by done. by right.
Qed.

Lemma inside_visit k s todo found s' :
  listed found s → inside ((k, s) :: todo) found s' → inside todo found s'.
Proof. intros Hs [Hl|Hin]; [by left|]. apply elem_of_cons in Hin as [->|Hin]; [by left|by right]. Qed.

Lemma inside_new k s n next todo found s' :
  inside ((k, s) :: todo) found s' → inside (next ++ todo) (Entry n s next :: found) s'.
Proof.
  intros [(e & He & Hs)|Hin].
  - left. exists e. split; [by right|done].
  - apply elem_of_cons in Hin as [->|Hin]; [left; eexists; split; [by left|done]|].
    right. rewrite fmap_app. set_solver.
Qed.

Lemma explored_known init tb k s todo found i :
  explored init tb ((k, s) :: todo) found → assoc s (default [] (tb !! k)) = Some i → explored init tb todo found.
Proof.
  intros [Ht Hc Hi Hn] Ha.
  assert (listed found s) as Hs by (destruct (Ht (k, s) i Ha) as (e & He & _ & Hs); by exists e).
  split; eauto using inside_visit.
Qed.

Lemma explored_new init tb k s todo found n :
  explored init tb ((k, s) :: todo) found →
  explored init (<[k := (s, n) :: default [] (tb !! k)]> tb) ((node_of <$> succs s) ++ todo)
    (Entry n s (node_of <$> succs s) :: found).
Proof.
  intros [Ht Hc Hi Hn]. split.
  - intros x i [[Hx ->]|Hx]%number_insert.
    + eexists. split; [by left|]. done.
    + destruct (Ht x i Hx) as (e & He & Hs). exists e. split; [by right|done].
  - intros e [->|He]%elem_of_cons; [done|by apply Hc].
  - by apply inside_new with (1 := Hi).
  - intros e s' [->|He]%elem_of_cons Hs'; simpl in *.
    + right. rewrite fmap_app. apply elem_of_app. left.
      apply list_elem_of_fmap. exists (node_of s'). split; [done|]. apply list_elem_of_fmap. by exists s'.
    + eapply inside_new, Hn; eauto.
Qed.

Lemma explore_explored init fuel n tb todo found tb' found' :
  explored init tb todo found → explore fuel n tb todo found = Some (tb', found') →
  explored init tb' [] found'.
Proof.
  revert n tb todo found. induction fuel as [|fuel IH]; intros n tb [|[k s] todo] found He Hx; simpl in Hx; simplify_eq; try done.
  destruct (assoc s _) eqn:Ha.
  - apply IH in Hx; [done|]. by eapply explored_known.
  - apply IH in Hx; [done|]. by apply explored_new.
Qed.

(** ** The check *)

Definition graph_of (final : St → bool) (tb : table) (found : list entry) : graph :=
  (λ e, (e_num e, final (e_state e), omap (number tb) (e_next e))) <$> found.

(** All states that can be reached are good, and a final one can be reached from each. *)
Definition closed (fuel : nat) (good final : St → bool) (init : St) : bool :=
  match explore fuel 0 ∅ [node_of init] [] with
  | Some (tb, found) => forallb (λ e, good (e_state e)) found && ranked (graph_of final tb found)
  | None => false
  end.

Lemma explored_init init : explored init ∅ [node_of init] [].
Proof.
  split; [|set_solver| |set_solver].
  - intros x i Hx. unfold number, table in *. by rewrite lookup_empty in Hx.
  - right. by apply list_elem_of_singleton.
Qed.

Lemma explored_reach init tb found s : explored init tb [] found → reach succs init s → listed found s.
Proof.
  intros [_ _ Hi Hn] Hr.
  assert (listed found init) as Hl by (destruct Hi as [|Hi]; [done|by apply elem_of_nil in Hi]).
  clear Hi. induction Hr as [|s s' s'' Hin _ IH]; [done|]. apply IH.
  destruct Hl as (e & He & <-). destruct (Hn e s' He Hin) as [|Hx]; [done|by apply elem_of_nil in Hx].
Qed.

Lemma ranked_final init final tb found dist r :
  explored init tb [] found → forallb (descends dist) (graph_of final tb found) = true →
  ∀ e, e ∈ found → dist !! e_num e = Some r → ∃ s', reach succs (e_state e) s' ∧ final s' = true.
Proof.
  intros [Ht Hc _ _] Hall. rewrite forallb_forall in Hall.
  induction (N.lt_wf_0 r) as [r _ IH]. intros e He Hd.
  assert (descends dist (e_num e, final (e_state e), omap (number tb) (e_next e)) = true) as Hx.
  { apply Hall, list_elem_of_In, list_elem_of_fmap. by exists e. }
  simpl in Hx. rewrite Hd in Hx. apply orb_prop in Hx as [Hf|Hx].
  { exists (e_state e). split; [constructor|done]. }
  apply existsb_exists in Hx as (j & Hj%list_elem_of_In & Hlt).
  apply list_elem_of_omap in Hj as (x & Hx & Hn). apply Ht in Hn as (e' & He' & <- & Hs).
  rewrite (Hc e He) in Hx. apply list_elem_of_fmap in Hx as (s & -> & Hin). simpl in Hs. subst.
  destruct (dist !! e_num e') as [r'|] eqn:Hr; [|done]. apply N.ltb_lt in Hlt.
  destruct (IH r' Hlt e' He' Hr) as (s' & Hrun & Hf). exists s'. split; [by econstructor|done].
Qed.

Section Closed.
Context (fuel : nat) (good final : St → bool) (init : St).
Hypothesis Hclosed : closed fuel good final init = true.

(** Every state that can be reached is good. *)
Lemma closed_good s : reach succs init s → good s = true.
Proof.
  intros Hr. revert Hclosed. unfold closed. destruct (explore _ _ _ _ _) as [[tb found]|] eqn:E; [|done].
  intros [Hg _]%andb_prop. apply explore_explored with (init := init) in E; [|apply explored_init].
  destruct (explored_reach _ _ _ _ E Hr) as (e & He & <-).
  rewrite forallb_forall in Hg. by apply Hg, list_elem_of_In.
Qed.

(** From every state that can be reached a final state can be reached. *)
Lemma closed_final s : reach succs init s → ∃ s', reach succs s s' ∧ final s' = true.
Proof.
  intros Hr. revert Hclosed. unfold closed. destruct (explore _ _ _ _ _) as [[tb found]|] eqn:E; [|done].
  intros [_ Hg]%andb_prop. apply explore_explored with (init := init) in E; [|apply explored_init].
  destruct (explored_reach _ _ _ _ E Hr) as (e & He & <-). unfold ranked in Hg.
  assert (∃ r, ranks (graph_of final tb found) !! e_num e = Some r) as [r Hd].
  { rewrite forallb_forall in Hg. specialize (Hg (e_num e, final (e_state e), omap (number tb) (e_next e))).
    unfold descends in Hg at 1. destruct (ranks _ !! e_num e) as [r|]; [by exists r|].
    discriminate Hg. apply list_elem_of_In, list_elem_of_fmap. by exists e. }
  exact (ranked_final _ _ _ _ _ r E Hg e He Hd).
Qed.

End Closed.

(** ** Looking for a state *)

Lemma reach_trans s s' s'' : reach succs s s' → reach succs s' s'' → reach succs s s''.
Proof. induction 1; [done|]. intros. eapply reach_step; eauto. Qed.

Lemma succs_reach init s : reach succs init s → Forall (reach succs init) (succs s).
Proof.
  intros Hs. apply Forall_forall. intros s' Hin.
  eapply reach_trans; [exact Hs|]. eapply reach_step; [exact Hin|constructor].
Qed.

(** Is there a run to a state with [f]? *)
Fixpoint seek (f : St → bool) (fuel : nat) (seen : gmap positive (list St)) (todo : list St) : bool :=
  match fuel, todo with
  | S fuel, s :: todo =>
      if f s then true else
      let k := key s in
      let l := default [] (seen !! k) in
      if existsb (eqb s) l then seek f fuel seen todo
      else seek f fuel (<[k := s :: l]> seen) (succs s ++ todo)
  | _, _ => false
  end.

Definition finds (fuel : nat) (init : St) (f : St → bool) : bool := seek f fuel ∅ [init].

Lemma seek_reach init f fuel seen todo :
  Forall (reach succs init) todo → seek f fuel seen todo = true → ∃ s, reach succs init s ∧ f s = true.
Proof.
  revert seen todo. induction fuel as [|fuel IH]; intros seen todo Ht Hs; simpl in Hs; [done|].
  destruct todo as [|s todo]; [done|]. apply Forall_cons in Ht as [Hr Ht].
  destruct (f s) eqn:Ef; [by exists s|]. destruct (existsb _ _); [by apply IH in Hs|].
  apply IH in Hs; [done|]. by apply Forall_app, conj; [apply succs_reach|].
Qed.

Lemma finds_reach fuel init f : finds fuel init f = true → ∃ s, reach succs init s ∧ f s = true.
Proof. apply seek_reach. by repeat constructor. Qed.

End Explore.
