(* ===== verification/Runs.v ===== *)
(** * What a program with threads can do

    [always_ends]: whatever the scheduler does, the program never ends in another
    way, and it can always still end in this one (it is in no deadlock and in no
    loop that it cannot leave). [can_end]: some schedule ends the program in this
    way. [hangs]: no schedule ends it. A way to end is an exit code, or [None] for
    undefined behaviour. All are decided by exploring all schedules. *)

From stdpp Require Import base tactics numbers list gmap strings.
From S2P Require Import Prelude Explore.

Open Scope Z_scope.

(** Programs [P] that run on systems [C] with states [St]; [succs] are the steps
    that the scheduler can choose, [ended] how a state has ended. *)
Class System (C P St : Type) : Type := {
  start : C → P → St;
  succs : C → P → St → list St;
  ended : St → option (option Z);
  same : St → St → bool;
  same_sound : ∀ x y, same x y = true → x = y;
  hash : St → positive }.

Definition option_eqb {A} (eqb : A → A → bool) (x y : option A) : bool :=
  match x, y with Some a, Some b => eqb a b | None, None => true | _, _ => false end.

Definition is_none {A} (x : option A) : bool := match x with None => true | Some _ => false end.

Section Run.
Context {C P St : Type} `{System C P St} (cf : C) (p : P).

Definition can_reach (s : St) : Prop := reach (succs cf p) (start cf p) s.

Definition always_ends (r : option Z) : Prop := ∀ s, can_reach s →
  (ended s = None ∨ ended s = Some r) ∧
  ∃ s', reach (succs cf p) s s' ∧ ended s' = Some r.

Definition can_end (r : option Z) : Prop := ∃ s, can_reach s ∧ ended s = Some r.

Definition hangs : Prop := ∀ s, can_reach s → ended s = None.

(** Some schedule leads to a deadlock. *)
Definition can_block : Prop := ∃ s, can_reach s ∧ ended s = None ∧ succs cf p s = [].

Definition ends_with (r : option Z) (s : St) : bool :=
  option_eqb (option_eqb Z.eqb) (ended s) (Some r).
Definition fine (r : option Z) (s : St) : bool := is_none (ended s) || ends_with r s.

Definition fuel : nat := 20 * 1000.

Definition check_always (r : option Z) : bool :=
  closed same (succs cf p) hash fuel (fine r) (ends_with r) (start cf p).

Definition check_ends (r : option Z) : bool :=
  finds same (succs cf p) hash fuel (start cf p) (ends_with r).

Definition check_hangs : bool :=
  closed same (succs cf p) hash fuel (λ s, is_none (ended s)) (λ _, true) (start cf p).

Definition check_block : bool :=
  finds same (succs cf p) hash fuel (start cf p)
    (λ s, is_none (ended s) && match succs cf p s with [] => true | _ => false end).

(** Conversion unfolds the checks before what they evaluate. *)
#[local] Strategy expand [check_always check_ends check_hangs check_block].

Lemma ends_with_eq r s : ends_with r s = true → ended s = Some r.
Proof.
  unfold ends_with. destruct (ended s) as [[z|]|], r as [z'|]; simpl; try done.
  by intros ->%Z.eqb_eq.
Qed.

Lemma always_checked r : check_always r = true → always_ends r.
Proof.
  intros Hc s Hs. split.
  - assert (fine r s = true) as Hf by exact (closed_good _ _ _ same_sound _ _ _ _ Hc s Hs).
    apply orb_prop in Hf as [Hn|Hp]; [|by right; apply ends_with_eq].
    left. by destruct (ended s).
  - destruct (closed_final _ _ _ same_sound _ _ _ _ Hc s Hs) as (s' & Hr & Hp).
    exists s'. split; [done|]. by apply ends_with_eq.
Qed.

Lemma ends_checked r : check_ends r = true → can_end r.
Proof.
  intros (s & Hs & He)%finds_reach. exists s. split; [done|]. by apply ends_with_eq.
Qed.

Lemma hangs_checked : check_hangs = true → hangs.
Proof.
  intros Hc s Hs.
  assert (is_none (ended s) = true) as Hg by exact (closed_good _ _ _ same_sound _ _ _ _ Hc s Hs).
  by destruct (ended s).
Qed.

Lemma block_checked : check_block = true → can_block.
Proof.
  intros (s & Hs & Hf)%finds_reach. exists s. apply andb_prop in Hf as [Hn Hl].
  split_and!; [done|by destruct (ended s)|by destruct (succs _ _ s)].
Qed.

End Run.

Definition PASS : option Z := Some PTS_PASS.
Definition FAIL : option Z := Some PTS_FAIL.
Definition UNRESOLVED : option Z := Some PTS_UNRESOLVED.
Definition UNDEFINED : option Z := None.

(** Lists of programs. *)
Section Lists.
Context {C P St : Type} `{System C P St}.

Lemma all_always cf r (l : list P) : forallb (λ p, check_always cf p r) l = true → Forall (λ p, always_ends cf p r) l.
Proof. intros Hl. apply Forall_forall. intros p Hp. apply always_checked. rewrite forallb_forall in Hl. by apply Hl, list_elem_of_In. Qed.

Lemma all_end cf r (l : list P) : forallb (λ p, check_ends cf p r) l = true → Forall (λ p, can_end cf p r) l.
Proof. intros Hl. apply Forall_forall. intros p Hp. apply ends_checked. rewrite forallb_forall in Hl. by apply Hl, list_elem_of_In. Qed.

End Lists.

(** Decided by evaluation. *)
Ltac by_search :=
  match goal with
  | |- Forall (λ p, always_ends _ p _) _ => apply all_always
  | |- Forall (λ p, can_end _ p _) _ => apply all_end
  | |- always_ends _ _ _ => apply always_checked
  | |- can_end _ _ _ => apply ends_checked
  | |- can_block _ _ => apply block_checked
  | |- hangs _ _ => apply hangs_checked
  end;
  vm_cast_no_check (eq_refl true).
