(* ===== verification/PtLang.v ===== *)
(** * Programs with threads

    The calls of the thread tests on named objects (mutexes, condition variables,
    read-write locks, barriers, spin locks), for programs in the language of CLang.
    PtSem says what they do when a scheduler interleaves the threads. A step of a
    thread is a call, an assignment or the evaluation of a condition; accesses to
    memory are sequentially consistent. The steps of a state are a list, so that
    all schedules can be explored (PtCheck).

    [conf] says how the system behaves where the standard leaves it open, and
    which [fault] it has. Time is virtual: on a [prompt] system it passes only
    when no thread can move, so that a delay is longer than any computation;
    on the others it may pass at any moment, threads may be delayed for any time. *)

From stdpp Require Import base tactics numbers list gmap strings.
From S2P Require Import Prelude CLang.

Open Scope Z_scope.

Inductive kind : Set := Normal | Errorcheck | Recursive.

(** The fields of the attribute objects. *)
Inductive field : Set :=
| Type_ | Pshared | Protocol | Detachstate | Scope | Inheritsched | Schedpolicy | Clock
| Schedparam | Stack | Guardsize | Stacksize.

(** The calls, without the prefix [pthread_]. An absolute time is given in
    microseconds, [abs] by an expression, where [bad_nsec] stands for a [timespec]
    with an invalid [tv_nsec]; [create], [join], [self], [attr_get],
    [getspecific] and [gettime] store a value. [attr_*] are the functions of all attribute objects;
    a null pointer for an attribute is [None]; [Stack] is the address of a stack. [atexit]
    registers a function, which runs when the process has ended and nothing reads what
    it changes. [kill] is the signal whose
    handler is [h], [alarm] SIGALRM; [call_fn] is a call of a function of the program. *)
Inductive call (N : Type) : Type :=
| attr_init (a : N)
| attr_destroy (a : N)
| attr_set (a : N) (fd : field) (v : exp N)
| attr_get (a : N) (fd : field) (x : lval N)
| mutex_init (m : N) (attr : option N)
| mutex_destroy (m : N)
| mutex_lock (m : N)
| mutex_trylock (m : N)
| mutex_timedlock (m : N) (abs : exp N)
| mutex_unlock (m : N)
| cond_init (c : N)
| cond_destroy (c : N)
| cond_wait (c m : N)
| cond_timedwait (c m : N) (abs : exp N)
| cond_signal (c : N)
| cond_broadcast (c : N)
| rwlock_init (r : N)
| rwlock_destroy (r : N)
| rwlock_rdlock (r : N)
| rwlock_wrlock (r : N)
| rwlock_tryrdlock (r : N)
| rwlock_trywrlock (r : N)
| rwlock_timedrdlock (r : N) (abs : exp N)
| rwlock_timedwrlock (r : N) (abs : exp N)
| rwlock_unlock (r : N)
| barrier_init (b : N) (n : exp N)
| barrier_destroy (b : N)
| barrier_wait (b : N)
| spin_init (l : N)
| spin_destroy (l : N)
| spin_lock (l : N)
| spin_trylock (l : N)
| spin_unlock (l : N)
| sem_init (l : N) (n : exp N)
| sem_destroy (l : N)
| sem_wait (l : N)
| sem_post (l : N)
| once (o f : N)
| create (t : option (lval N)) (attr : option N) (f : N)
| join (t : exp N) (value : option (lval N))
| detach (t : exp N)
| usleep (us : exp N)
| gettime (now : lval N)
| alarm (us : exp N) (h : N)
| kill (t : exp N) (h : N)
| self (x : lval N)
| cancel (t : exp N)
| setcancelstate (enable : bool)
| setcanceltype (async : bool)
| testcancel
| cleanup_push (h : N)
| cleanup_pop (run : bool)
| key_create (k : N) (dtor : option N)
| key_delete (k : N)
| setspecific (k : N) (v : exp N)
| getspecific (k : N) (x : lval N)
| call_fn (f : N)
| atexit (f : N).
Arguments attr_init {N} a.
Arguments attr_destroy {N} a.
Arguments attr_set {N} a fd v.
Arguments attr_get {N} a fd x.
Arguments mutex_init {N} m attr.
Arguments mutex_destroy {N} m.
Arguments mutex_lock {N} m.
Arguments mutex_trylock {N} m.
Arguments mutex_timedlock {N} m abs.
Arguments mutex_unlock {N} m.
Arguments cond_init {N} c.
Arguments cond_destroy {N} c.
Arguments cond_wait {N} c m.
Arguments cond_timedwait {N} c m abs.
Arguments cond_signal {N} c.
Arguments cond_broadcast {N} c.
Arguments rwlock_init {N} r.
Arguments rwlock_destroy {N} r.
Arguments rwlock_rdlock {N} r.
Arguments rwlock_wrlock {N} r.
Arguments rwlock_tryrdlock {N} r.
Arguments rwlock_trywrlock {N} r.
Arguments rwlock_timedrdlock {N} r abs.
Arguments rwlock_timedwrlock {N} r abs.
Arguments rwlock_unlock {N} r.
Arguments barrier_init {N} b n.
Arguments barrier_destroy {N} b.
Arguments barrier_wait {N} b.
Arguments spin_init {N} l.
Arguments spin_destroy {N} l.
Arguments spin_lock {N} l.
Arguments spin_trylock {N} l.
Arguments spin_unlock {N} l.
Arguments sem_init {N} l n.
Arguments sem_destroy {N} l.
Arguments sem_wait {N} l.
Arguments sem_post {N} l.
Arguments once {N} o f.
Arguments create {N} t attr f.
Arguments join {N} t value.
Arguments detach {N} t.
Arguments usleep {N} us.
Arguments gettime {N} now.
Arguments alarm {N} us h.
Arguments kill {N} t h.
Arguments self {N} x.
Arguments cancel {N} t.
Arguments setcancelstate {N} enable.
Arguments setcanceltype {N} async.
Arguments testcancel {N}.
Arguments cleanup_push {N} h.
Arguments cleanup_pop {N} run.
Arguments key_create {N} k dtor.
Arguments key_delete {N} k.
Arguments setspecific {N} k v.
Arguments getspecific {N} k x.
Arguments call_fn {N} f.
Arguments atexit {N} f.

Definition bad_nsec : Z := -1000000000000.

Notation stmt := (cstmt call).
Notation instr := (cinstr call).

Definition sleep (s : Z) : stmt := Do (usleep (Num (s * 1000000))) Ignore.

(** [do sleep(1); while (e && cnt++ < n);] where [cnt] is [k] before. *)
Definition poll (k n : Z) (e : exp string) : list stmt :=
  [LLoc "cnt" ::= k; sleep 1;
   While (e && (Loc "cnt" < n))%pt [LLoc "cnt" ::= Loc "cnt" + 1; sleep 1]].

(** A program: its functions, [main] and the handlers among them, and the
    objects with static initialisers. *)
Record prog : Type := Prog {
  funs : list (string * list stmt);
  static_mutexes : list string;
  static_conds : list string }.

(** Names become numbers. *)
Section Names.
Context (var : string → nat) (fn : string → nat).

Notation exp_names := (exp_names var).
Notation lval_names := (lval_names var).

Definition call_names (c : call string) : call nat :=
  match c with
  | attr_init a => attr_init (var a)
  | attr_destroy a => attr_destroy (var a)
  | attr_set a fd v => attr_set (var a) fd (exp_names v)
  | attr_get a fd x => attr_get (var a) fd (lval_names x)
  | mutex_init m attr => mutex_init (var m) (var <$> attr)
  | mutex_destroy m => mutex_destroy (var m)
  | mutex_lock m => mutex_lock (var m)
  | mutex_trylock m => mutex_trylock (var m)
  | mutex_timedlock m abs => mutex_timedlock (var m) (exp_names abs)
  | mutex_unlock m => mutex_unlock (var m)
  | cond_init c => cond_init (var c)
  | cond_destroy c => cond_destroy (var c)
  | cond_wait c m => cond_wait (var c) (var m)
  | cond_timedwait c m abs => cond_timedwait (var c) (var m) (exp_names abs)
  | cond_signal c => cond_signal (var c)
  | cond_broadcast c => cond_broadcast (var c)
  | rwlock_init r => rwlock_init (var r)
  | rwlock_destroy r => rwlock_destroy (var r)
  | rwlock_rdlock r => rwlock_rdlock (var r)
  | rwlock_wrlock r => rwlock_wrlock (var r)
  | rwlock_tryrdlock r => rwlock_tryrdlock (var r)
  | rwlock_trywrlock r => rwlock_trywrlock (var r)
  | rwlock_timedrdlock r abs => rwlock_timedrdlock (var r) (exp_names abs)
  | rwlock_timedwrlock r abs => rwlock_timedwrlock (var r) (exp_names abs)
  | rwlock_unlock r => rwlock_unlock (var r)
  | barrier_init b n => barrier_init (var b) (exp_names n)
  | barrier_destroy b => barrier_destroy (var b)
  | barrier_wait b => barrier_wait (var b)
  | spin_init l => spin_init (var l)
  | spin_destroy l => spin_destroy (var l)
  | spin_lock l => spin_lock (var l)
  | spin_trylock l => spin_trylock (var l)
  | spin_unlock l => spin_unlock (var l)
  | sem_init l n => sem_init (var l) (exp_names n)
  | sem_destroy l => sem_destroy (var l)
  | sem_wait l => sem_wait (var l)
  | sem_post l => sem_post (var l)
  | once o f => once (var o) (fn f)
  | create t attr f => create (lval_names <$> t) (var <$> attr) (fn f)
  | join t value => join (exp_names t) (lval_names <$> value)
  | detach t => detach (exp_names t)
  | usleep us => usleep (exp_names us)
  | gettime now => gettime (lval_names now)
  | alarm us h => alarm (exp_names us) (fn h)
  | kill t h => kill (exp_names t) (fn h)
  | self x => self (lval_names x)
  | cancel t => cancel (exp_names t)
  | setcancelstate enable => setcancelstate enable
  | setcanceltype async => setcanceltype async
  | testcancel => testcancel
  | cleanup_push h => cleanup_push (fn h)
  | cleanup_pop run => cleanup_pop run
  | key_create k dtor => key_create (var k) (fn <$> dtor)
  | key_delete k => key_delete (var k)
  | setspecific k v => setspecific (var k) (exp_names v)
  | getspecific k x => getspecific (var k) (lval_names x)
  | call_fn f => call_fn (fn f)
  | atexit f => atexit (fn f)
  end.

End Names.

(** ** The names of a program *)

Definition option_vars (x : option (lval string)) : list string :=
  match x with Some x => lval_vars x | None => [] end.

Definition option_list (x : option string) : list string :=
  match x with Some x => [x] | None => [] end.

Definition call_vars (c : call string) : list string :=
  match c with
  | attr_init a => [a]
  | attr_destroy a => [a]
  | attr_set a _ v => [a] ++ exp_vars v
  | attr_get a _ x => [a] ++ lval_vars x
  | mutex_init m attr => [m] ++ option_list attr
  | mutex_destroy m => [m]
  | mutex_lock m => [m]
  | mutex_trylock m => [m]
  | mutex_timedlock m abs => [m] ++ exp_vars abs
  | mutex_unlock m => [m]
  | cond_init c => [c]
  | cond_destroy c => [c]
  | cond_wait c m => [c] ++ [m]
  | cond_timedwait c m abs => [c] ++ [m] ++ exp_vars abs
  | cond_signal c => [c]
  | cond_broadcast c => [c]
  | rwlock_init r => [r]
  | rwlock_destroy r => [r]
  | rwlock_rdlock r => [r]
  | rwlock_wrlock r => [r]
  | rwlock_tryrdlock r => [r]
  | rwlock_trywrlock r => [r]
  | rwlock_timedrdlock r abs => [r] ++ exp_vars abs
  | rwlock_timedwrlock r abs => [r] ++ exp_vars abs
  | rwlock_unlock r => [r]
  | barrier_init b n => [b] ++ exp_vars n
  | barrier_destroy b => [b]
  | barrier_wait b => [b]
  | spin_init l => [l]
  | spin_destroy l => [l]
  | spin_lock l => [l]
  | spin_trylock l => [l]
  | spin_unlock l => [l]
  | sem_init l n => [l] ++ exp_vars n
  | sem_destroy l => [l]
  | sem_wait l => [l]
  | sem_post l => [l]
  | once o _ => [o]
  | create t attr _ => option_vars t ++ option_list attr
  | join t value => exp_vars t ++ option_vars value
  | detach t => exp_vars t
  | usleep us => exp_vars us
  | gettime now => lval_vars now
  | alarm us _ => exp_vars us
  | kill t _ => exp_vars t
  | self x => lval_vars x
  | cancel t => exp_vars t
  | setcancelstate _ => []
  | setcanceltype _ => []
  | testcancel => []
  | cleanup_push _ => []
  | cleanup_pop _ => []
  | key_create k _ => [k]
  | key_delete k => [k]
  | setspecific k v => [k] ++ exp_vars v
  | getspecific k x => [k] ++ lval_vars x
  | call_fn _ => []
  | atexit _ => []
  end.

(** Each name once, those of the static objects first. *)
Definition names (p : prog) : list string :=
  distinct (static_mutexes p ++ static_conds p ++
    concat ((λ f, concat (stmt_vars call_vars <$> f.2)) <$> funs p)).

Definition code : Type := list (list instr).
Definition compile_prog (p : prog) : code :=
  let vars := names p in
  let fns := fst <$> funs p in
  let var x := position x vars in
  (λ f, compile_fun var (call_names var (λ g, position g fns)) f.2) <$> funs p.
