(* ===== verification/PtSem.v ===== *)
(** * The steps of programs with threads *)

From stdpp Require Import base tactics numbers list gmap strings.
From S2P Require Import Prelude CLang PtLang Runs.

Open Scope Z_scope.

(** The numbers of the errors that the calls return. *)
Definition num (e : errno) : Z :=
  match e with
  | EPERM => 1 | ENOENT => 2 | ESRCH => 3 | EINTR => 4 | E2BIG => 7 | EBADF => 9 | ECHILD => 10
  | EAGAIN => 11 | ENOMEM => 12 | EACCES => 13 | EFAULT => 14 | EBUSY => 16 | EEXIST => 17
  | EINVAL => 22 | EFBIG => 27 | ENOSPC => 28 | ERANGE => 34 | EDEADLK => 35 | ENOMSG => 42
  | EMSGSIZE => 90 | ETIMEDOUT => 110 | EIO => 5 | ENXIO => 6 | ENODEV => 19 | ESPIPE => 29
  | ENAMETOOLONG => 36 | EOVERFLOW => 75 | ENOTSUP => 95 | EINPROGRESS => 115 | ECANCELED => 125
  end.

Definition PTHREAD_BARRIER_SERIAL_THREAD : Z := -1.

(** ** Systems *)

(** A fault of the system. *)
Inductive fault : Set :=
| No_fault
| Lock_always          (* a locked mutex can be locked again *)
| Trylock_always       (* [trylock] of a locked mutex returns 0 *)
| Unlock_nothing       (* [unlock] does not release the mutex *)
| Wait_keeps           (* a condition wait does not release the mutex *)
| Wait_without         (* a condition wait returns without the mutex *)
| Wait_returns         (* a condition wait returns at once *)
| Signal_nothing       (* [signal] wakes no thread *)
| Broadcast_one        (* [broadcast] wakes one thread only *)
| Rdlock_exclusive     (* a reader excludes readers *)
| Wrlock_shared        (* a writer does not exclude others *)
| Rwlock_stays         (* [unlock] does not release a read-write lock *)
| Barrier_open         (* a barrier lets every thread pass *)
| Spin_always          (* a locked spin lock can be locked *)
| Join_early           (* [join] does not wait *)
| Timeout_never        (* calls with a timeout wait for ever *)
| Timeout_at_once      (* calls with a timeout do not wait *)
| Cancel_nothing       (* [cancel] has no effect *)
| Cancel_late          (* only a call that is made later is cancelled *).

Definition fault_eqb (f g : fault) : bool :=
  match f, g with
  | No_fault, No_fault
  | Lock_always, Lock_always
  | Trylock_always, Trylock_always
  | Unlock_nothing, Unlock_nothing
  | Wait_keeps, Wait_keeps
  | Wait_without, Wait_without
  | Wait_returns, Wait_returns
  | Signal_nothing, Signal_nothing
  | Broadcast_one, Broadcast_one
  | Rdlock_exclusive, Rdlock_exclusive
  | Wrlock_shared, Wrlock_shared
  | Rwlock_stays, Rwlock_stays
  | Barrier_open, Barrier_open
  | Spin_always, Spin_always
  | Join_early, Join_early
  | Timeout_never, Timeout_never
  | Timeout_at_once, Timeout_at_once
  | Cancel_nothing, Cancel_nothing
  | Cancel_late, Cancel_late => true
  | _, _ => false
  end.

Record conf : Set := Conf {
  prompt : bool;        (* delays are longer than computations *)
  spurious : bool;      (* condition waits may return without a signal *)
  wakes_more : bool;    (* [signal] may wake several threads *)
  reports : bool;       (* calls report misuse where the standard says that they may *)
  faulty : fault }.

Definition ideal : conf := Conf true false false false No_fault.
Definition with_fault (f : fault) : conf := Conf true false false false f.
(** What the standard allows too: threads may be delayed for any time; condition waits
    may end without a signal; a signal may wake more than one thread; calls may fail
    with EINVAL, EBUSY or EPERM where an object is misused. *)
Definition slow : conf := Conf false false false false No_fault.
Definition wakes_spuriously : conf := Conf true true false false No_fault.
Definition wakes_several : conf := Conf true false true false No_fault.
Definition reporting : conf := Conf true false false true No_fault.

(** ** States *)

Inductive status : Type :=
| Ready
| Sleeping (until : Z)
| Waiting (c m : nat) (until : option Z)   (* in a condition wait *)
| Relock (m : nat) (rc : Z)                (* woken, needs the mutex *)
| In_barrier (b : nat)
| Finish (rc : Z)                          (* the call returns [rc] *)
| Cancelled (m : nat)                      (* cancelled in a wait, needs the mutex *)
| Done (v : Z)
| Joined.

(** [frames] are the functions to return to, with what they were doing when a
    handler was called; [cleanup] the cleanup handlers, the last one first;
    [leaving] the value of a thread that exits and runs them. *)
Record thread : Type := Thread {
  th_fn : nat; th_pc : nat; th_st : status; th_detached : bool;
  frames : list (nat * nat * status); cleanup : list nat; leaving : option Z;
  cancel_on : bool; cancel_async : bool; cancelling : bool }.

(** An object that has been initialised. *)
Inductive object : Type :=
| Mutex (k : kind) (owner : option nat) (count : nat)
| Cond
| Rwlock (readers : list nat) (writer : option nat)
| Barrier (n : Z)
| Spin (owner : option nat)
| Semaphore (n : Z)
| Once (runs : option nat)                 (* [None] when it is over *)
| Key (dtor : option nat) (vals : list Z)   (* a value for each thread *)
| Attr (fields : list Z).

(** [verdict] is the exit code,
    or [Some None] when the behaviour is undefined. *)
Record state : Type := State {
  now : Z;
  threads : list thread;
  mem : memory;
  objs : list (option object);
  alarm_at : option (Z * nat * nat);
  verdict : option (option Z) }.

Definition new_thread (f : nat) (detached : bool) : thread :=
  Thread f 0 Ready detached [] [] None true false false.

(** The programs start at 1000.3 s, which is not a whole second. *)
Definition first_time : Z := 1000300000.

Definition first_state (p : prog) : state :=
  State first_time [new_thread (position "main" (fst <$> funs p)) false] []
    (((λ _, Some (Mutex Normal None 0)) <$> static_mutexes p) ++
     ((λ _, Some Cond) <$> static_conds p)) None None.

Definition upd_now z s := State z (threads s) (mem s) (objs s) (alarm_at s) (verdict s).
Definition upd_threads l s := State (now s) l (mem s) (objs s) (alarm_at s) (verdict s).
Definition upd_mem m s := State (now s) (threads s) m (objs s) (alarm_at s) (verdict s).
Definition upd_objs x s := State (now s) (threads s) (mem s) x (alarm_at s) (verdict s).
Definition upd_alarm x s := State (now s) (threads s) (mem s) (objs s) x (verdict s).
(** The process ends; nothing else of the state matters. *)
Definition upd_ended x (s : state) := State 0 [] [] [] None (Some x).

Definition undefined (s : state) : state := upd_ended None s.
Definition exits (c : Z) (s : state) : state := upd_ended (Some (Z.land c 255)) s.

(** ** Equality of states *)

Definition kind_eqb (k k' : kind) : bool :=
  match k, k' with
  | Normal, Normal | Errorcheck, Errorcheck | Recursive, Recursive => true
  | _, _ => false
  end.

Fixpoint list_eqb {A} (eqb : A → A → bool) (l l' : list A) : bool :=
  match l, l' with
  | [], [] => true
  | a :: l, b :: l' => eqb a b && list_eqb eqb l l'
  | _, _ => false
  end.

Definition status_eqb (x y : status) : bool :=
  match x, y with
  | Ready, Ready | Joined, Joined => true
  | Sleeping d, Sleeping d' => d =? d'
  | Waiting c m u, Waiting c' m' u' => Nat.eqb c c' && Nat.eqb m m' && option_eqb Z.eqb u u'
  | Relock m r, Relock m' r' => Nat.eqb m m' && (r =? r')
  | In_barrier b, In_barrier b' => Nat.eqb b b'
  | Finish r, Finish r' => r =? r'
  | Done v, Done v' => v =? v'
  | Cancelled m, Cancelled m' => Nat.eqb m m'
  | _, _ => false
  end.

Definition frame_eqb (x y : nat * nat * status) : bool :=
  Nat.eqb x.1.1 y.1.1 && Nat.eqb x.1.2 y.1.2 && status_eqb x.2 y.2.

Definition thread_eqb (x y : thread) : bool :=
  Nat.eqb (th_pc x) (th_pc y) && Nat.eqb (th_fn x) (th_fn y) && status_eqb (th_st x) (th_st y) &&
  Bool.eqb (th_detached x) (th_detached y) && list_eqb frame_eqb (frames x) (frames y) &&
  list_eqb Nat.eqb (cleanup x) (cleanup y) && option_eqb Z.eqb (leaving x) (leaving y) &&
  Bool.eqb (cancel_on x) (cancel_on y) && Bool.eqb (cancel_async x) (cancel_async y) &&
  Bool.eqb (cancelling x) (cancelling y).

Definition object_eqb (x y : object) : bool :=
  match x, y with
  | Mutex k o n, Mutex k' o' n' => kind_eqb k k' && option_eqb Nat.eqb o o' && Nat.eqb n n'
  | Cond, Cond => true
  | Rwlock r w, Rwlock r' w' => list_eqb Nat.eqb r r' && option_eqb Nat.eqb w w'
  | Barrier n, Barrier n' => n =? n'
  | Spin o, Spin o' | Once o, Once o' => option_eqb Nat.eqb o o'
  | Semaphore n, Semaphore n' => n =? n'
  | Key d l, Key d' l' => option_eqb Nat.eqb d d' && list_eqb Z.eqb l l'
  | Attr l, Attr l' => list_eqb Z.eqb l l'
  | _, _ => false
  end.

Definition alarm_eqb (x y : Z * nat * nat) : bool :=
  (x.1.1 =? y.1.1) && Nat.eqb x.1.2 y.1.2 && Nat.eqb x.2 y.2.

Definition state_eqb (x y : state) : bool :=
  (now x =? now y) && list_eqb thread_eqb (threads x) (threads y) &&
  list_eqb (list_eqb Z.eqb) (mem x) (mem y) &&
  list_eqb (option_eqb object_eqb) (objs x) (objs y) &&
  option_eqb alarm_eqb (alarm_at x) (alarm_at y) &&
  option_eqb (option_eqb Z.eqb) (verdict x) (verdict y).

Definition sound {A} (eqb : A → A → bool) : Prop := ∀ x y, eqb x y = true → x = y.

Lemma option_sound {A} (eqb : A → A → bool) : sound eqb → sound (option_eqb eqb).
Proof. intros He [] [] H; simpl in H; try done. by rewrite (He _ _ H). Qed.

Lemma list_sound {A} (eqb : A → A → bool) : sound eqb → sound (list_eqb eqb).
Proof.
  intros He l. induction l as [|a l IH]; intros [|b l'] H; simpl in H; try done.
  apply andb_prop in H as [Ha Hl]. by rewrite (He _ _ Ha), (IH _ Hl).
Qed.

Lemma Z_sound : sound Z.eqb.
Proof. intros x y H. by apply Z.eqb_eq. Qed.
Lemma nat_sound : sound Nat.eqb.
Proof. intros x y H. by apply Nat.eqb_eq. Qed.

#[local] Hint Resolve option_sound list_sound Z_sound nat_sound : core.

(** Equalities of the parts. *)
Ltac parts :=
  repeat match goal with
  | H : _ && _ = true |- _ => apply andb_prop in H as [? H]
  | H : (?a =? ?b) = true |- _ => apply Z.eqb_eq in H; subst
  | H : Nat.eqb ?a ?b = true |- _ => apply Nat.eqb_eq in H; subst
  | H : Bool.eqb ?a ?b = true |- _ => apply Bool.eqb_prop in H; subst
  end.

Lemma status_sound : sound status_eqb.
Proof.
  intros [] [] H; simpl in H; try done; parts; try done.
  by rewrite (option_sound _ Z_sound _ _ H).
Qed.

Lemma frame_sound : sound frame_eqb.
Proof. intros [[] ?] [[] ?] H. unfold frame_eqb in H. simpl in H. parts. by erewrite status_sound. Qed.

Lemma thread_sound : sound thread_eqb.
Proof.
  intros [] [] H. unfold thread_eqb in H. simpl in H. parts.
  by erewrite status_sound, (list_sound _ frame_sound), (list_sound _ nat_sound),
    (option_sound _ Z_sound) by done.
Qed.

Lemma object_sound : sound object_eqb.
Proof.
  intros [] [] H; simpl in H; try done; parts; try done.
  - destruct k, k0; try done; by erewrite (option_sound _ nat_sound).
  - by erewrite (option_sound _ nat_sound), (list_sound _ nat_sound).
  - by erewrite (option_sound _ nat_sound).
  - by erewrite (option_sound _ nat_sound).
  - by erewrite (option_sound _ nat_sound), (list_sound _ Z_sound).
  - by erewrite (list_sound _ Z_sound).
Qed.

Lemma alarm_sound : sound alarm_eqb.
Proof. intros [[] ?] [[] ?] H. unfold alarm_eqb in H. simpl in H. by parts. Qed.

Lemma state_sound : sound state_eqb.
Proof.
  intros [] [] H. unfold state_eqb in H. simpl in H. parts.
  f_equal; [eapply list_sound; [exact thread_sound|done]|eapply list_sound; [by apply list_sound|done]|
    eapply list_sound; [by apply option_sound, object_sound|done]|
    eapply option_sound; [exact alarm_sound|done]|eapply option_sound; [by apply option_sound|done]].
Qed.

(** ** Memory and threads *)

Definition eval (s : state) (t : nat) (e : exp nat) : Z := value (mem s) t e.
Definition store (t : nat) (x : lval nat) (z : Z) (s : state) : state := upd_mem (assign t x z (mem s)) s.

(** Objects by their numbers. *)
Definition obj (s : state) (x : nat) : option object := nth x (objs s) None.
Definition set_obj (x : nat) (o : option object) (s : state) : state :=
  upd_objs (put None x (λ _, o) (objs s)) s.

Definition set_thread (t : nat) (f : thread → thread) (s : state) : state :=
  upd_threads (alter f t (threads s)) s.
Definition goes (f pc : nat) (st : status) (th : thread) : thread :=
  Thread f pc st (th_detached th) (frames th) (cleanup th) (leaving th)
    (cancel_on th) (cancel_async th) (cancelling th).
Definition with_frames l (th : thread) : thread :=
  Thread (th_fn th) (th_pc th) (th_st th) (th_detached th) l (cleanup th) (leaving th)
    (cancel_on th) (cancel_async th) (cancelling th).
Definition with_cleanup l (th : thread) : thread :=
  Thread (th_fn th) (th_pc th) (th_st th) (th_detached th) (frames th) l (leaving th)
    (cancel_on th) (cancel_async th) (cancelling th).
Definition with_leaving v (th : thread) : thread :=
  Thread (th_fn th) (th_pc th) (th_st th) (th_detached th) (frames th) (cleanup th) v
    (cancel_on th) (cancel_async th) (cancelling th).
Definition with_cancel on async pending (th : thread) : thread :=
  Thread (th_fn th) (th_pc th) (th_st th) (th_detached th) (frames th) (cleanup th) (leaving th)
    on async pending.
Definition with_detached d (th : thread) : thread :=
  Thread (th_fn th) (th_pc th) (th_st th) d (frames th) (cleanup th) (leaving th)
    (cancel_on th) (cancel_async th) (cancelling th).

Definition set_status (st : status) : nat → state → state := λ t,
  set_thread t (λ th, goes (th_fn th) (th_pc th) st th).

(** The threads with [f]. *)
Definition having (f : thread → bool) (s : state) : list nat :=
  (fix go (i : nat) (l : list thread) : list nat :=
     match l with [] => [] | th :: l => if f th then i :: go (S i) l else go (S i) l end) 0%nat (threads s).

Definition is_owner (t : nat) (x : option nat) : bool := option_eqb Nat.eqb x (Some t).

Section Steps.
Context (cf : conf) (p : code).

Definition fun_code (f : nat) : list instr := nth f p [].

Definition go_to (pc : nat) : nat → state → state := λ t,
  set_thread t (λ th, goes (th_fn th) (skip 9 (fun_code (th_fn th)) pc) Ready th).
Definition next (t : nat) (s : state) : state :=
  match threads s !! t with Some th => go_to (S (th_pc th)) t s | None => s end.

(** The function [f] is called; it returns to what the thread does now. *)
Definition enter (f : nat) (th : thread) : thread :=
  goes f 0 Ready (with_frames ((th_fn th, th_pc th, th_st th) :: frames th) th).

(** A call of [once] that is left is forgotten. *)
Definition forget_once (t : nat) (s : state) : state :=
  upd_objs ((λ o, match o with Some (Once (Some t')) => if Nat.eqb t t' then None else o | _ => o end) <$> objs s) s.

(** The first key of [l] with a destructor and a value of the thread [t], and the
    objects when the value has been taken. *)
Fixpoint take_value (t : nat) (l : list (option object)) : option (nat * list (option object)) :=
  match l with
  | [] => None
  | Some (Key (Some d) vs) as o :: l =>
      if nth t vs 0 =? 0 then prod_map id (cons o) <$> take_value t l
      else Some (d, Some (Key (Some d) (put 0 t (λ _, 0) vs)) :: l)
  | o :: l => prod_map id (cons o) <$> take_value t l
  end.

(** The thread runs [h] and then goes on to exit. *)
Definition leave_by (h : nat) (hs : list nat) (v : Z) (th : thread) : thread :=
  goes h 0 Ready (with_cancel false false false (with_leaving (Some v) (with_cleanup hs (with_frames [] th)))).

(** [pthread_exit]: the cleanup handlers and the destructors of the keys, then the
    end of the thread; the process ends with its last thread. *)
Definition thread_exit (t : nat) (v : Z) (s : state) : state :=
  let s := forget_once t s in
  match cleanup <$> threads s !! t, take_value t (objs s) with
  | Some (h :: hs), _ => set_thread t (leave_by h hs v) s
  | Some [], Some (d, os) => set_thread t (leave_by d [] v) (upd_objs os s)
  | _, _ =>
      let s := set_thread t (λ th, goes 0 0 (Done v) (with_cancel false false false
                 (with_leaving None (with_frames [] th)))) s in
      if forallb (λ th, match th_st th with Done _ | Joined => true | _ => false end) (threads s)
      then exits 0 s else s
  end.

(** A return from a function: to the caller, or the end of a handler of a thread
    that exits, or of the first function of a thread; that of [main] ends the
    process. *)
Definition thread_return (t : nat) (v : Z) (s : state) : state :=
  match threads s !! t with
  | None => s
  | Some th =>
      match frames th, leaving th with
      | (f, pc, st) :: l, _ => set_thread t (λ th, goes f pc st (with_frames l th)) s
      | [], Some v => thread_exit t v s
      | [], None => if Nat.eqb t 0 then exits v s else thread_exit t v s
      end
  end.

Definition returns (t : nat) (u : use nat) (rc : Z) (s : state) : state :=
  match u with
  | Ignore => next t s
  | Store x => next t (store t x rc s)
  | Judge f =>
      match f rc with
      | None => next t s
      | Some (Exits c) => exits c s
      | Some (Returns v) => thread_return t v s
      end
  end.

(** The call misuses an object: [e] is the error that it may fail with. *)
Definition misuse (t : nat) (u : use nat) (e : errno) (s : state) : list state :=
  if reports cf then [returns t u (num e) s] else [undefined s].

(** ** Mutexes and conditions *)

Definition fault_is (f : fault) : bool := fault_eqb (faulty cf) f.

Definition acquire (t m : nat) (k : kind) (n : nat) : state → state :=
  set_obj m (Some (Mutex k (Some t) (S n))).
Definition release (m : nat) (k : kind) (o : option nat) (n : nat) : state → state :=
  set_obj m (Some (match n with S (S n) => Mutex k o (S n) | _ => Mutex k None 0 end)).

(** The mutex [m] must have been initialised; [bad] are the steps when it is not. *)
Definition with_mutex (m : nat) (s : state) (bad : list state) (f : kind → option nat → nat → list state) :
    list state :=
  match obj s m with Some (Mutex k o n) => f k o n | _ => bad end.
Definition with_cond (c : nat) (s : state) (bad l : list state) : list state :=
  match obj s c with Some Cond => l | _ => bad end.

(** Has the time come? *)
Definition expired (d : Z) (s : state) : bool :=
  negb (fault_is Timeout_never) && ((d <=? now s) || fault_is Timeout_at_once).

Definition waits (c : nat) (th : thread) : bool :=
  match th_st th with Waiting c' _ _ => Nat.eqb c c' | _ => false end.
Definition wake (rc : Z) (t : nat) (s : state) : state :=
  match threads s !! t with
  | Some th =>
      match th_st th with
      | Waiting _ m _ => set_status (if fault_is Wait_without then Finish rc else Relock m rc) t s
      | _ => s
      end
  | None => s
  end.
Definition wake_all (ts : list nat) (s : state) : state := foldr (wake 0) s ts.

Definition start_wait (t c m : nat) (u : use nat) (until : option Z) (s : state) : list state :=
  let bad := misuse t u EINVAL s in
  with_cond c s bad (with_mutex m s bad (λ k o n,
    if negb (is_owner t o) then misuse t u EPERM s
    else if fault_is Wait_returns then [set_status (Finish 0) t s]
    else [set_status (Waiting c m until) t (if fault_is Wait_keeps then s else release m k o n s)])).

(** ** Calls

    No successor: the call blocks. The first thread that calls [once] calls the
    function, and is at the call of [once] again when it returns. It is undefined
    to initialise an object again before it is destroyed (attributes apart), to use
    one that is not initialised, to destroy one that is in use, and to unlock what the thread has not locked (but for mutexes of the types
    that detect it). Of these (but for [getspecific], [once] and
    semaphores) the standard says that the call may fail with EINVAL, EBUSY or EPERM;
    [reports cf] is a system where it does. *)

Definition readable (r : list nat) (w : option nat) : bool :=
  is_none w && negb (fault_is Rdlock_exclusive && negb (Nat.eqb (length r) 0)).
Definition writable (r : list nat) (w : option nat) : bool :=
  fault_is Wrlock_shared || is_none w && Nat.eqb (length r) 0.

(** The fields of attribute objects: their places, first values and values. *)
Definition place (fd : field) : nat :=
  match fd with
  | Type_ => 0 | Pshared => 1 | Protocol => 2 | Detachstate => 3 | Scope => 4 | Inheritsched => 5
  | Schedpolicy => 6 | Clock => 7 | Schedparam => 8 | Stack => 9 | Guardsize => 10 | Stacksize => 11
  end.
Definition allowed (fd : field) (v : Z) : bool :=
  (0 <=? v) && match fd with
               | Type_ | Protocol | Schedpolicy => v <=? 2
               | Schedparam => v <=? 99
               | Stack | Guardsize | Stacksize => true
               | _ => v <=? 1
               end.
Definition attr_field (s : state) (a : nat) (fd : field) : Z :=
  match obj s a with Some (Attr l) => nth (place fd) l 0 | _ => 0 end.
Definition kind_of (v : Z) : kind :=
  if v =? 1 then Recursive else if v =? 2 then Errorcheck else Normal.

(** The first occurrence. *)
Fixpoint remove_one (t : nat) (l : list nat) : list nat :=
  match l with
  | [] => []
  | t' :: l => if Nat.eqb t t' then l else t' :: remove_one t l
  end.

Definition in_barrier (b : nat) (th : thread) : bool :=
  match th_st th with In_barrier b' => Nat.eqb b b' | _ => false end.

Definition call_steps (t : nat) (c : call nat) (u : use nat) (s : state) : list state :=
  let ret rc s := [returns t u rc s] in
  let misuse e := misuse t u e s in
  let with_mutex m f := with_mutex m s (misuse EINVAL) f in
  let with_cond c l := with_cond c s (misuse EINVAL) l in
  let init x o := if is_none (obj s x) then ret 0 (set_obj x (Some o) s) else misuse EBUSY in
  let with_rwlock r f := match obj s r with Some (Rwlock l w) => f l w | _ => misuse EINVAL end in
  let read r l w := ret 0 (set_obj r (Some (Rwlock (t :: l) w)) s) in
  let write r l := ret 0 (set_obj r (Some (Rwlock l (Some t))) s) in
  let late abs := if eval s t abs =? bad_nsec then ret (num EINVAL) s
                  else if expired (eval s t abs) s then ret (num ETIMEDOUT) s else [] in
  let attr_bad a := match a with
                    | Some a => match obj s a with Some (Attr _) => false | _ => true end
                    | None => false
                    end in
  let with_attr a f := match obj s a with Some (Attr l) => f l | _ => misuse EINVAL end in
  let with_sem l f := match obj s l with Some (Semaphore n) => f n | _ => [undefined s] end in
  let with_key k f := match obj s k with Some (Key d l) => f d l | _ => misuse EINVAL end in
  let with_spin l f := match obj s l with Some (Spin o) => f o | _ => misuse EINVAL end in
  match c with
  | attr_init a => ret 0 (set_obj a (Some (Attr [])) s)
  | attr_destroy a => with_attr a (λ _, ret 0 (set_obj a None s))
  | attr_set a fd e => with_attr a (λ l,
      let v := eval s t e in
      if allowed fd v then ret 0 (set_obj a (Some (Attr (put 0 (place fd) (λ _, v) l))) s)
      else ret (num EINVAL) s)
  | attr_get a fd x => with_attr a (λ l, ret 0 (store t x (nth (place fd) l 0) s))
  | mutex_init m a =>
      let k := match a with Some a => kind_of (attr_field s a Type_) | None => Normal end in
      if attr_bad a then misuse EINVAL else init m (Mutex k None 0)
  | mutex_destroy m => with_mutex m (λ k o n,
      if is_none o then ret 0 (set_obj m None s) else misuse EBUSY)
  | mutex_lock m => with_mutex m (λ k o n,
      if is_none o || fault_is Lock_always then ret 0 (acquire t m k n s)
      else if is_owner t o then
        match k with
        | Normal => []
        | Errorcheck => ret (num EDEADLK) s
        | Recursive => ret 0 (acquire t m k n s)
        end
      else [])
  | mutex_trylock m => with_mutex m (λ k o n,
      if is_none o || fault_is Trylock_always || is_owner t o && kind_eqb k Recursive
      then ret 0 (acquire t m k n s) else ret (num EBUSY) s)
  | mutex_timedlock m abs => with_mutex m (λ k o n,
      if is_none o || is_owner t o && kind_eqb k Recursive then ret 0 (acquire t m k n s)
      else late abs)
  | mutex_unlock m => with_mutex m (λ k o n,
      if is_owner t o then ret 0 (if fault_is Unlock_nothing then s else release m k o n s)
      else match k with Normal => misuse EPERM | _ => ret (num EPERM) s end)
  | cond_init c => init c Cond
  | cond_destroy c => with_cond c
      (match having (waits c) s with
       | [] => ret 0 (set_obj c None s)
       | _ => misuse EBUSY
       end)
  | cond_wait c m => start_wait t c m u None s
  | cond_timedwait c m abs =>
      if eval s t abs =? bad_nsec then ret (num EINVAL) s else start_wait t c m u (Some (eval s t abs)) s
  | cond_signal c => with_cond c
      (match having (waits c) s with
       | [] => ret 0 s
       | ts =>
           if fault_is Signal_nothing then ret 0 s else
           ((λ w, returns t u 0 (wake 0 w s)) <$> ts) ++
           (if wakes_more cf then ret 0 (wake_all ts s) else [])
       end)
  | cond_broadcast c => with_cond c
      (let ts := having (waits c) s in
       ret 0 (wake_all (if fault_is Broadcast_one then take 1 ts else ts) s))
  | rwlock_init r => init r (Rwlock [] None)
  | rwlock_destroy r => with_rwlock r (λ l w,
      if is_none w && Nat.eqb (length l) 0 || fault_is Rwlock_stays then ret 0 (set_obj r None s)
      else misuse EBUSY)
  | rwlock_rdlock r => with_rwlock r (λ l w, if readable l w then read r l w else [])
  | rwlock_wrlock r => with_rwlock r (λ l w, if writable l w then write r l else [])
  | rwlock_tryrdlock r => with_rwlock r (λ l w, if readable l w then read r l w else ret (num EBUSY) s)
  | rwlock_trywrlock r => with_rwlock r (λ l w, if writable l w then write r l else ret (num EBUSY) s)
  | rwlock_timedrdlock r abs => with_rwlock r (λ l w, if readable l w then read r l w else late abs)
  | rwlock_timedwrlock r abs => with_rwlock r (λ l w, if writable l w then write r l else late abs)
  | rwlock_unlock r => with_rwlock r (λ l w,
      if fault_is Rwlock_stays then ret 0 s
      else if is_owner t w then ret 0 (set_obj r (Some (Rwlock l None)) s)
      else if existsb (Nat.eqb t) l then ret 0 (set_obj r (Some (Rwlock (remove_one t l) w)) s)
      else misuse EPERM)
  | barrier_init b n =>
      let n := eval s t n in
      if n <=? 0 then ret (num EINVAL) s else init b (Barrier n)
  | barrier_destroy b =>
      match obj s b with
      | Some (Barrier _) =>
          match having (in_barrier b) s with
          | [] => ret 0 (set_obj b None s)
          | _ => misuse EBUSY
          end
      | _ => misuse EINVAL
      end
  | barrier_wait b =>
      match obj s b with
      | Some (Barrier n) =>
          let ts := having (in_barrier b) s in
          if fault_is Barrier_open then ret 0 s
          else if Z.of_nat (length ts) + 1 <? n then [set_status (In_barrier b) t s]
          else (λ w, foldr (λ t', set_status (Finish (if Nat.eqb t' w
                       then PTHREAD_BARRIER_SERIAL_THREAD else 0)) t') s (t :: ts)) <$> (t :: ts)
      | _ => misuse EINVAL
      end
  | spin_init l => init l (Spin None)
  | spin_destroy l => with_spin l (λ o,
      if is_none o then ret 0 (set_obj l None s) else misuse EBUSY)
  | spin_lock l => with_spin l (λ o,
      if is_none o || fault_is Spin_always then ret 0 (set_obj l (Some (Spin (Some t))) s) else [])
  | spin_trylock l => with_spin l (λ o,
      if is_none o || fault_is Spin_always then ret 0 (set_obj l (Some (Spin (Some t))) s)
      else ret (num EBUSY) s)
  | spin_unlock l => with_spin l (λ o,
      if is_owner t o || fault_is Spin_always then ret 0 (set_obj l (Some (Spin None)) s)
      else misuse EPERM)
  | sem_init l n => init l (Semaphore (eval s t n))
  | sem_destroy l => with_sem l (λ _, ret 0 (set_obj l None s))
  | sem_wait l => with_sem l (λ n, if 0 <? n then ret 0 (set_obj l (Some (Semaphore (n - 1))) s) else [])
  | sem_post l => with_sem l (λ n, ret 0 (set_obj l (Some (Semaphore (n + 1))) s))
  | once o f =>
      match obj s o with
      | None => [set_thread t (enter f) (set_obj o (Some (Once (Some t))) s)]
      | Some (Once (Some t')) => if Nat.eqb t t' then ret 0 (set_obj o (Some (Once None)) s) else []
      | Some (Once None) => ret 0 s
      | _ => [undefined s]
      end
  | create x a f =>
      let t' := length (threads s) in
      let d := match a with Some a => attr_field s a Detachstate =? 1 | None => false end in
      let s' := upd_threads (threads s ++ [new_thread f d]) s in
      if attr_bad a then misuse EINVAL
      else ret 0 (match x with Some x => store t x (Z.of_nat t') s' | None => s' end)
  | join e x =>
      let t' := Z.to_nat (eval s t e) in
      let val v s := match x with Some x => store t x v s | None => s end in
      match threads s !! t' with
      | None => ret (num ESRCH) s
      | Some th =>
          match th_st th with
          | Joined => ret (num ESRCH) s
          | st =>
              if th_detached th then
                ret (num (match st with Done _ => ESRCH | _ => EINVAL end)) s
              else
              match st with
              | Done v => ret 0 (val v (set_status Joined t' s))
              | _ => if Nat.eqb t t' then ret (num EDEADLK) s
                     else if fault_is Join_early then ret 0 (val 0 s) else []
              end
          end
      end
  | detach e =>
      let t' := Z.to_nat (eval s t e) in
      match threads s !! t' with
      | None => ret (num ESRCH) s
      | Some th =>
          match th_st th, th_detached th with
          | Joined, _ | Done _, true => ret (num ESRCH) s
          | _, true => ret (num EINVAL) s
          | _, false => ret 0 (set_thread t' (with_detached true) s)
          end
      end
  | usleep us => set_status (Sleeping (now s + eval s t us)) t <$> ret 0 s
  | gettime x => ret 0 (store t x (now s) s)
  | alarm us h =>
      let us := eval s t us in
      ret 0 (upd_alarm (if us =? 0 then None else Some (now s + us, t, h)) s)
  | kill e h =>
      let t' := Z.to_nat (eval s t e) in
      match th_st <$> threads s !! t' with
      | None | Some (Done _ | Joined) => ret (num ESRCH) s
      | Some _ => set_thread t' (enter h) <$> ret 0 s
      end
  | self x => ret 0 (store t x (Z.of_nat t) s)
  | cancel e =>
      let t' := Z.to_nat (eval s t e) in
      match th_st <$> threads s !! t' with
      | None | Some Joined => ret (num ESRCH) s
      | Some (Done _) => ret (if default false (th_detached <$> threads s !! t') then num ESRCH else 0) s
      | Some _ => ret 0 (set_thread t' (λ th, with_cancel (cancel_on th) (cancel_async th)
                           (negb (fault_is Cancel_nothing)) th) s)
      end
  | setcancelstate b => ret 0 (set_thread t (λ th, with_cancel b (cancel_async th) (cancelling th) th) s)
  | setcanceltype b => ret 0 (set_thread t (λ th, with_cancel (cancel_on th) b (cancelling th) th) s)
  | testcancel => ret 0 s
  | cleanup_push h => ret 0 (set_thread t (λ th, with_cleanup (h :: cleanup th) th) s)
  | cleanup_pop run =>
      let popped := ret 0 (set_thread t (λ th, with_cleanup (tail (cleanup th)) th) s) in
      match head (default [] (cleanup <$> threads s !! t)) with
      | Some h => if run then set_thread t (enter h) <$> popped else popped
      | None => [undefined s]
      end
  | key_create k d => ret 0 (set_obj k (Some (Key d [])) s)
  | key_delete k => with_key k (λ _ _, ret 0 (set_obj k None s))
  | setspecific k e => with_key k (λ d l, ret 0 (set_obj k (Some (Key d (put 0 t (λ _, eval s t e) l))) s))
  | getspecific k x =>
      match obj s k with
      | Some (Key d l) => ret 0 (store t x (nth t l 0) s)
      | _ => [undefined s]
      end
  | call_fn f => set_thread t (enter f) <$> ret 0 s
  | atexit _ => ret 0 s
  end.

Definition instr_steps (t : nat) (i : instr) (s : state) : list state :=
  match i with
  | IDo c u => call_steps t c u s
  | IAssign x e => [next t (store t x (eval s t e) s)]
  | IJz e target => [if eval s t e =? 0 then go_to target t s else next t s]
  | IJmp target => [go_to target t s]
  | IExit e => [exits (eval s t e) s]
  | IReturn e => [thread_return t (eval s t e) s]
  | IThread_exit e => [thread_exit t (eval s t e) s]
  end.

Definition code_of (th : thread) : option instr := fun_code (th_fn th) !! th_pc th.

(** The end of a call that had blocked. *)
Definition finish (t : nat) (th : thread) (rc : Z) (s : state) : list state :=
  match code_of th with
  | Some (IDo _ u) => [returns t u rc (set_status Ready t s)]
  | _ => []
  end.

(** ** Cancellation *)

(** Calls at which a thread can be cancelled. *)
Definition cancel_point (c : call nat) : bool :=
  match c with
  | cond_wait _ _ | cond_timedwait _ _ _ | join _ _ | usleep _ | sem_wait _ | testcancel => true
  | _ => false
  end.

Definition at_cancel_point (th : thread) : bool :=
  match th_st th with
  | Sleeping _ | Waiting _ _ _ => true
  | _ => match code_of th with Some (IDo c _) => cancel_point c | _ => false end
  end.

(** Is the thread to be cancelled now? *)
Definition is_cancelled (th : thread) : bool :=
  cancelling th && cancel_on th &&
  match th_st th with
  | Cancelled _ | Done _ | Joined => false
  | Sleeping _ | Waiting _ _ _ => negb (fault_is Cancel_late)
  | Ready => cancel_async th || at_cancel_point th
  | _ => cancel_async th
  end.

Definition PTHREAD_CANCELED : Z := -1.

Definition cancel_steps (t : nat) (th : thread) (s : state) : list state :=
  match th_st th with
  | Waiting _ m _ => [set_status (Cancelled m) t s]
  | _ => [thread_exit t PTHREAD_CANCELED s]
  end.

Definition thread_steps (s : state) (t : nat) : list state :=
  match threads s !! t with
  | None => []
  | Some th =>
      let run := match code_of th with Some i => instr_steps t i s | None => [] end in
      let normal :=
        match th_st th with
        | Ready => run
        | Sleeping d => if d <=? now s then run else []
        | Waiting _ _ (Some d) => if expired d s then [wake (num ETIMEDOUT) t s] else []
        | Relock m rc => with_mutex m s [undefined s] (λ k o n, if is_none o then finish t th rc (acquire t m k n s) else [])
        | Cancelled m => with_mutex m s [undefined s] (λ k o n,
            if is_none o then [thread_exit t PTHREAD_CANCELED (acquire t m k n s)] else [])
        | Finish rc => finish t th rc s
        | Waiting _ _ None | In_barrier _ | Done _ | Joined => []
        end in
      if is_cancelled th then
        if prompt cf || at_cancel_point th then cancel_steps t th s else cancel_steps t th s ++ normal
      else normal
  end.

(** SIGALRM: the thread that asked for it calls the handler. *)
Definition alarm_steps (s : state) : list state :=
  match alarm_at s with
  | Some (d, t, h) =>
      if (d <=? now s) &&
         match th_st <$> threads s !! t with None | Some (Done _ | Joined) => false | _ => true end then
        [upd_alarm None (set_thread t (enter h) s)]
      else []
  | None => []
  end.

Definition spurious_steps (s : state) : list state :=
  if spurious cf then
    (λ t, wake 0 t s) <$> having (λ th, match th_st th with Waiting _ _ _ => true | _ => false end) s
  else [].

(** The times for which threads wait. *)
Definition deadline (s : state) (t : nat) : option Z :=
  match threads s !! t with
  | None => None
  | Some th =>
      let call := match code_of th with
                  | Some (IDo (mutex_timedlock _ e | rwlock_timedrdlock _ e | rwlock_timedwrlock _ e) _) =>
                      Some (eval s t e)
                  | _ => None
                  end in
      match th_st th with
      | Waiting _ _ (Some d) => Some d
      | Sleeping d => if now s <? d then Some d else call
      | Ready => call
      | _ => None
      end
  end.

Definition time_steps (s : state) : list state :=
  let ds := omap (deadline s) (seq 0 (length (threads s))) ++
            match alarm_at s with Some (d, _, _) => [d] | None => [] end in
  match filter (λ d, now s < d) ds with
  | [] => []
  | d :: ds => [upd_now (foldr Z.min d ds) s]
  end.

(** All that can happen next. *)
Definition steps (s : state) : list state :=
  match verdict s with
  | Some _ => []
  | None =>
      let run := concat (thread_steps s <$> seq 0 (length (threads s))) ++ alarm_steps s in
      spurious_steps s ++ run ++
      match run with
      | _ :: _ => if prompt cf then [] else time_steps s
      | [] => time_steps s
      end
  end.

End Steps.

(** ** What a program can do *)

Definition status_key (st : status) : Z :=
  match st with
  | Ready => 1 | Sleeping _ => 2 | Waiting _ _ _ => 3 | Relock _ _ => 4 | In_barrier _ => 5
  | Finish rc => 6 + rc | Cancelled _ => 7 | Done _ => 8 | Joined => 9
  end.

Definition object_key (o : option object) : Z :=
  match o with
  | Some (Mutex _ o n) => 2 + default 7 (Z.of_nat <$> o) + Z.of_nat n
  | Some (Rwlock r w) => 3 + Z.of_nat (length r) + default 7 (Z.of_nat <$> w)
  | Some (Semaphore n) => 4 + n
  | Some (Spin (Some _)) | Some (Once (Some _)) => 6
  | Some _ => 1
  | None => 0
  end.

Definition state_hash (s : state) : positive :=
  Z.to_pos (foldl (λ h th, 256 * h + 8 * Z.of_nat (th_pc th) + status_key (th_st th))
    (foldl (λ h o, 4 * h + object_key o) (foldl (foldl (λ h z, 4 * h + z)) 1 (mem s)) (objs s)) (threads s)).

#[global] Instance pt_system : System conf prog state := {|
  start _ := first_state;
  succs cf p := steps cf (compile_prog p);
  ended := verdict;
  same := state_eqb;
  same_sound := state_sound;
  hash := state_hash |}.
