(* ===== verification/PtMutexTests.v ===== *)
(** * The tests of mutexes

    conformance/interfaces/pthread_mutex_{destroy,init,lock,trylock,timedlock,unlock}
    and pthread_mutexattr_settype. The initialisers of variables are the first
    statements of [main]. *)

From stdpp Require Import base tactics numbers list gmap strings.
From S2P Require Import Prelude CLang PtLang PtSem.

Open Scope Z_scope.

Definition PTHREAD_MUTEX_NORMAL : Z := 0.
Definition PTHREAD_MUTEX_RECURSIVE : Z := 1.
Definition PTHREAD_MUTEX_ERRORCHECK : Z := 2.
Definition PTHREAD_MUTEX_DEFAULT : Z := 0.
Definition TIMEOUT : Z := 3.

(** ** pthread_mutex_destroy *)

Definition mutex_destroy_1_1 : prog := Prog
  [("main",
    [U (attr_init "mta"); U (mutex_init "mutex1" (Some "mta")); U (mutex_init "mutex2" None);
     U (attr_destroy "mta"); F (mutex_destroy "mutex1"); F (mutex_destroy "mutex2");
     F (mutex_destroy "mutex3"); Return PTS_PASS])] ["mutex3"] [].

Definition mutex_destroy_2_1 : prog := Prog
  [("main",
    [U (mutex_init "mutex" None); U (mutex_destroy "mutex"); F (mutex_init "mutex" None);
     Return PTS_PASS])] [] [].

Definition mutex_destroy_3_1 : prog := Prog
  [("main",
    [U (mutex_init "mutex" None); set_ (LLoc "rc") (mutex_destroy "mutex");
     If (Loc "rc" == 0)%pt [Return PTS_PASS] []; Return PTS_FAIL])] [] [].

Definition mutex_destroy_5_1 : prog := Prog
  [("main",
    [U (mutex_init "mutex" None); U (mutex_lock "mutex"); sleep 1; U (mutex_unlock "mutex");
     F (mutex_destroy "mutex"); Return PTS_PASS])] [] [].

(** The table [scenarii] of destroy/2-2 and 5-2: the types with and without
    process sharing, which is supported; then the default attribute and none. *)
Definition scenarii : list (string * Z * bool) :=
  [("ma0", PTHREAD_MUTEX_DEFAULT, false); ("ma1", PTHREAD_MUTEX_NORMAL, false);
   ("ma2", PTHREAD_MUTEX_ERRORCHECK, false); ("ma3", PTHREAD_MUTEX_RECURSIVE, false);
   ("ma4", PTHREAD_MUTEX_DEFAULT, true); ("ma5", PTHREAD_MUTEX_NORMAL, true);
   ("ma6", PTHREAD_MUTEX_ERRORCHECK, true); ("ma7", PTHREAD_MUTEX_RECURSIVE, true)].

Definition init_scenarii : list stmt :=
  rounds scenarii (λ '(ma, m_type, m_pshared),
    [XU (attr_init ma); XU (attr_set ma Type_ m_type)] ++
    (if m_pshared then [XU (attr_set ma Pshared 1)] else [])) ++
  [XU (attr_init "ma8")].

Definition pma : list (option string) := (Some <$> (scenarii.*1.*1 ++ ["ma8"])) ++ [None].

Definition destroy_scenarii : list stmt :=
  rounds (scenarii.*1.*1 ++ ["ma8"]) (λ ma, [XU (attr_destroy ma)]).

Definition mutex_destroy_2_2 : prog := Prog
  [("main",
    init_scenarii ++
    rounds pma (λ i, rounds pma (λ j,
      [XU (mutex_init "mtx" i); XF (mutex_destroy "mtx"); XF (mutex_init "mtx" j);
       XF (mutex_destroy "mtx")])) ++
    destroy_scenarii ++ [Exit PTS_PASS])] [] [].

Definition mutex_destroy_5_2 : prog := Prog
  [("main",
    init_scenarii ++
    rounds pma (λ i,
      [XU (mutex_init "mtx" i); XU (mutex_lock "mtx"); XU (mutex_unlock "mtx");
       XF (mutex_destroy "mtx")]) ++
    destroy_scenarii ++ [Exit PTS_PASS])] [] [].

(** ** pthread_mutex_init *)

Definition mutex_init_1_1 : prog := Prog
  [("main",
    [U (attr_init "mta"); F (mutex_init "mutex1" (Some "mta")); F (mutex_init "mutex2" None);
     Return PTS_PASS])] [] [].

Definition mutex_init_2_1 : prog := Prog
  [("main",
    [F (mutex_init "mutex" None); F (mutex_lock "mutex"); sleep 1; U (mutex_unlock "mutex");
     U (mutex_destroy "mutex"); Return PTS_PASS])] [] [].

Definition mutex_init_4_1 : prog := Prog
  [("main",
    [U (attr_init "mta"); set_ (LLoc "rc") (mutex_init "mutex" (Some "mta"));
     If (Loc "rc" == 0)%pt [Return PTS_PASS] [];
     If ((Loc "rc" == num ENOMEM) || (Loc "rc" == num EAGAIN) || (Loc "rc" == num EPERM) ||
         (Loc "rc" == num EBUSY))%pt [Return PTS_UNRESOLVED] [];
     Return PTS_FAIL])] [] [].

(** init/3-2: a mutex with a null attribute and one with the initialiser behave
    alike; the program unlocks them first. The part that follows the first calls
    is the same as in init/1-2 and cannot be reached without undefined behaviour. *)
Definition mutex_init_3_2_start : prog := Prog
  [("main",
    [XU (mutex_init "mtx_null" None); XU (sem_init "semA" 0); XU (sem_init "semB" 0);
     set_ "retval" (mutex_unlock "mtx_null"); set_ (LLoc "ret") (mutex_unlock "mtx_macro");
     exit_if (Loc "ret" != "retval")%pt PTS_FAIL])] ["mtx_macro"] [].

(** ** pthread_mutex_lock *)

Definition mutex_lock_2_1 : prog := Prog
  [("main",
    [U (mutex_init "mutex" None); set_ (LLoc "rc") (mutex_lock "mutex");
     If (Loc "rc" == 0)%pt [ignore (mutex_unlock "mutex"); Return PTS_PASS] [];
     If ((Loc "rc" == num EINVAL) || (Loc "rc" == num EAGAIN) || (Loc "rc" == num EDEADLK))%pt
       [Return PTS_UNRESOLVED] [];
     Return PTS_FAIL])] [] [].

Definition mutex_lock_4_1 : prog := Prog
  [("threaded",
    [reject (mutex_trylock "mtx") 0 (Exits PTS_FAIL); XU (sem_post "sem"); XU (mutex_lock "mtx");
     XU (sem_post "sem"); XU (mutex_unlock "mtx"); Return 0]);
   ("main",
    [XU (sem_init "sem" 0); XU (attr_init "ma"); XU (attr_set "ma" Type_ PTHREAD_MUTEX_RECURSIVE);
     XU (mutex_init "mtx" (Some "ma")); XU (attr_destroy "ma");
     XU (mutex_lock "mtx"); XF (mutex_lock "mtx"); XF (mutex_unlock "mtx");
     XU (create (Some (LVar "child")) None "threaded"); XU (sem_wait "sem");
     XF (mutex_unlock "mtx"); XU (sem_wait "sem");
     reject (mutex_unlock "mtx") 0 (Exits PTS_FAIL); XU (join "child" None)] ++
    for_ "i" 50 [XF (mutex_lock "mtx")] ++
    for_ "i" 50 [XF (mutex_unlock "mtx")] ++
    [reject (mutex_unlock "mtx") 0 (Exits PTS_FAIL); XU (mutex_destroy "mtx"); Exit PTS_PASS])] [] [].

(** lock/5-1: the mutexes of the four types and one without attribute. The
    thread's handler is installed by the thread; the calls of [sched_yield] do
    nothing here. *)
Definition mutexes_5 : list (string * option string) :=
  [("mtx0", Some "ma0"); ("mtx1", Some "ma1"); ("mtx2", Some "ma2"); ("mtx3", Some "ma3"); ("mtx4", None)].

Definition mutex_lock_5_1 : prog := Prog
  [("sighdl", [XU (sem_post "semsig")]);
   ("threaded",
    rounds mutexes_5 (λ '(m, _),
      [XU (sem_post "semstart"); XU (mutex_lock m); "ctrl" ::= "ctrl" + 1; XU (mutex_unlock m)]) ++
    [Return 0]);
   ("main",
    rounds ["ma0"; "ma1"; "ma2"; "ma3"] (λ ma, [XU (attr_init ma)]) ++
    [XU (attr_set "ma0" Type_ PTHREAD_MUTEX_NORMAL); XU (attr_set "ma1" Type_ PTHREAD_MUTEX_ERRORCHECK);
     XU (attr_set "ma2" Type_ PTHREAD_MUTEX_RECURSIVE); XU (attr_set "ma3" Type_ PTHREAD_MUTEX_DEFAULT)] ++
    rounds mutexes_5 (λ '(m, a), [XU (mutex_init m a); XU (mutex_lock m)]) ++
    rounds ["ma0"; "ma1"; "ma2"; "ma3"] (λ ma, [XU (attr_destroy ma)]) ++
    [XU (sem_init "semsig" 1); XU (sem_init "semstart" 0);
     XU (create (Some (LVar "th")) None "threaded")] ++
    rounds mutexes_5 (λ '(m, _),
      [XU (sem_wait "semstart"); "ctrl" ::= 0] ++
      for_ "j" 10 [XU (sem_wait "semsig"); XU (kill "th" "sighdl")] ++
      [exit_if ("ctrl" != 0)%pt PTS_FAIL; XU (mutex_unlock m)]) ++
    [XU (join "th" None)] ++
    rounds mutexes_5 (λ '(m, _), [XU (mutex_destroy m)]) ++
    [XU (sem_destroy "semstart"); XU (sem_destroy "semsig"); Exit PTS_PASS])] [] [].

(** ** pthread_mutex_trylock *)

(** The loop of [main] in trylock/1-1 with its counter [i]: [continue] goes on
    with the next round. *)
Definition mutex_trylock_1_1 : prog := Prog
  [("func",
    [Do (mutex_lock "mutex") (Store (LLoc "rc"));
     If (Loc "rc" != 0)%pt [Thread_exit PTS_UNRESOLVED] [];
     "t1_start" ::= 1;
     While "t1_pause" [sleep 1];
     set_ (LLoc "rc") (mutex_unlock "mutex");
     If (Loc "rc" != 0)%pt [Thread_exit PTS_UNRESOLVED] [];
     Thread_exit 0]);
   ("main",
    ["t1_pause" ::= 1; ignore (create (Some (LVar "t1")) None "func");
     While ("t1_start" == 0)%pt [sleep 1];
     expect (mutex_trylock "mutex") (num EBUSY) (Returns PTS_FAIL);
     "t1_pause" ::= 0;
     LLoc "i" ::= 0;
     While (Loc "i" < 5)%pt
       [set_ (LLoc "rc") (mutex_trylock "mutex");
        If (Loc "rc" == 0)%pt [ignore (mutex_unlock "mutex"); Break]
          [If (Loc "rc" == num EBUSY)%pt [sleep 1] [Return PTS_UNRESOLVED]];
        LLoc "i" ::= Loc "i" + 1];
     ignore (join "t1" None); ignore (mutex_destroy "mutex");
     ret_if (5 <= Loc "i")%pt PTS_UNRESOLVED;
     Return PTS_PASS])] ["mutex"] [].

Definition mutex_trylock_3_1 : prog := Prog
  [("main",
    [U (mutex_init "mutex" None); set_ (LLoc "rc") (mutex_trylock "mutex");
     If (Loc "rc" == 0)%pt [ignore (mutex_unlock "mutex"); Return PTS_PASS] []; Return PTS_FAIL])] [] [].

Definition mutex_trylock_4_1 : prog := Prog
  [("main",
    [U (mutex_lock "mutex"); expect (mutex_trylock "mutex") (num EBUSY) (Returns PTS_FAIL);
     ignore (mutex_unlock "mutex"); ignore (mutex_destroy "mutex"); Return PTS_PASS])] ["mutex"] [].

(** ** pthread_mutex_timedlock

    [gettimeofday] and [clock_gettime] read the same clock. *)

Definition expect_exit (c : call string) (code v : Z) : list stmt :=
  [set_ (LLoc "rc") c; If (Loc "rc" != code)%pt [Thread_exit (Num v)] []].

Definition timedlock_main : list stmt :=
  [U (mutex_lock "mutex"); U (create (Some (LVar "new_th")) None "f1"); U (join "new_th" None);
   U (mutex_unlock "mutex"); U (mutex_destroy "mutex");
   ret_if (seconds ("currsec2" - "currsec1") < TIMEOUT)%pt PTS_FAIL;
   Return PTS_PASS].

Definition mutex_timedlock_1_1 : prog := Prog
  [("f1",
    [ignore (gettime "currsec1")] ++
    expect_exit (mutex_timedlock "mutex" ("currsec1" + TIMEOUT * 1000000)%pt)
      (num ETIMEDOUT) PTS_UNRESOLVED ++
    [ignore (gettime "currsec2"); Thread_exit 0]);
   ("main", timedlock_main)] ["mutex"] [].

Definition mutex_timedlock_2_1 : prog := Prog
  [("f1",
    [XU (gettime "currsec1")] ++
    expect_exit (mutex_timedlock "mutex" ("currsec1" + TIMEOUT * 1000000)%pt)
      (num ETIMEDOUT) PTS_UNRESOLVED ++
    [XU (gettime "currsec2"); Thread_exit 0]);
   ("main", timedlock_main)] ["mutex"] [].

Definition mutex_timedlock_4_1 : prog := Prog
  [("f1",
    [ignore (gettime (LLoc "time"));
     set_ "ret" (mutex_timedlock "mutex" (seconds (Loc "time") * 1000000 + TIMEOUT * 1000000)%pt)] ++
    expect_exit (mutex_unlock "mutex") 0 PTS_UNRESOLVED ++
    expect_exit (mutex_destroy "mutex") 0 PTS_UNRESOLVED ++
    [Thread_exit 0]);
   ("main",
    [U (create (Some (LVar "new_th")) None "f1"); U (join "new_th" None);
     ret_if ("ret" != 0)%pt PTS_FAIL; Return PTS_PASS])] ["mutex"] [].

(** timedlock/5-1 has -1 in [tv_nsec], timedlock/5-2 has 1000000000. *)
Definition mutex_timedlock_5 : prog := Prog
  [("f1",
    expect_exit (mutex_lock "mutex") 0 PTS_UNRESOLVED ++
    [set_ "ret" (mutex_timedlock "mutex" bad_nsec)] ++
    expect_exit (mutex_unlock "mutex") 0 PTS_UNRESOLVED ++
    expect_exit (mutex_destroy "mutex") 0 PTS_UNRESOLVED ++
    [Thread_exit 0]);
   ("main",
    [U (create (Some (LVar "new_th")) None "f1"); U (join "new_th" None);
     ret_if ("ret" != num EINVAL)%pt PTS_FAIL; Return PTS_PASS])] ["mutex"] [].
Definition mutex_timedlock_5_1 : prog := mutex_timedlock_5.
Definition mutex_timedlock_5_2 : prog := mutex_timedlock_5.

Definition mutex_timedlock_5_3 : prog := Prog
  [("f1",
    [ignore (gettime (LLoc "time"));
     set_ "ret" (mutex_timedlock "mutex" (seconds (Loc "time") * 1000000)%pt); Thread_exit 0]);
   ("main",
    [U (mutex_lock "mutex"); U (create (Some (LVar "new_th")) None "f1"); U (join "new_th" None);
     U (mutex_unlock "mutex"); U (mutex_destroy "mutex");
     ret_if ("ret" != num ETIMEDOUT)%pt PTS_FAIL; Return PTS_PASS])] ["mutex"] [].

(** ** pthread_mutex_unlock *)

Definition mutex_unlock_1_1 : prog := Prog
  [("main",
    [U (mutex_lock "mutex"); F (mutex_unlock "mutex"); F (mutex_trylock "mutex");
     F (mutex_unlock "mutex"); Return PTS_PASS])] ["mutex"] [].

Definition mutex_unlock_3_1 : prog := Prog
  [("main",
    [U (mutex_init "mutex" None); U (mutex_lock "mutex");
     set_ (LLoc "rc") (mutex_unlock "mutex");
     If (Loc "rc" == 0)%pt [Return PTS_PASS] [];
     If ((Loc "rc" == num EPERM) || (Loc "rc" == num EINVAL) || (Loc "rc" == num EAGAIN))%pt
       [Return PTS_UNRESOLVED] [];
     Return PTS_FAIL])] [] [].

Definition mutex_unlock_5_1 : prog := Prog
  [("threaded", [reject (mutex_unlock "m") 0 (Exits PTS_UNRESOLVED); Return 0]);
   ("main",
    [XU (attr_init "ma"); XU (attr_set "ma" Type_ PTHREAD_MUTEX_RECURSIVE);
     XU (mutex_init "m" (Some "ma")); XU (mutex_lock "m"); XU (attr_destroy "ma");
     XU (create (Some (LVar "th")) None "threaded"); XU (join "th" None);
     XU (mutex_unlock "m"); Exit PTS_PASS])] [] [].

Definition mutex_unlock_5_2 : prog := Prog
  [("main",
    [XU (attr_init "ma"); XU (attr_set "ma" Type_ PTHREAD_MUTEX_RECURSIVE);
     XU (mutex_init "m" (Some "ma")); reject (mutex_unlock "m") 0 (Exits PTS_FAIL);
     XU (mutex_lock "m"); XU (mutex_lock "m"); XU (mutex_unlock "m"); XU (mutex_unlock "m");
     XU (attr_destroy "ma"); reject (mutex_unlock "m") 0 (Exits PTS_FAIL); Exit PTS_PASS])] [] [].

(** ** pthread_mutexattr_settype *)

Definition get_type (ty code : Z) : list stmt :=
  [U (attr_get "mta" Type_ (LLoc "type")); ret_if (Loc "type" != ty)%pt code].

Definition settype_1_1 : prog := Prog
  [("main",
    [U (attr_init "mta")] ++ get_type PTHREAD_MUTEX_DEFAULT PTS_FAIL ++
    [F (attr_set "mta" Type_ PTHREAD_MUTEX_NORMAL)] ++ get_type PTHREAD_MUTEX_NORMAL PTS_FAIL ++
    [F (attr_set "mta" Type_ PTHREAD_MUTEX_ERRORCHECK)] ++ get_type PTHREAD_MUTEX_ERRORCHECK PTS_FAIL ++
    [F (attr_set "mta" Type_ PTHREAD_MUTEX_RECURSIVE)] ++ get_type PTHREAD_MUTEX_RECURSIVE PTS_FAIL ++
    [U (attr_destroy "mta"); Return PTS_PASS])] [] [].

Definition settype_2_1 : prog := Prog
  [("alarm_handler", [Exit PTS_PASS]);
   ("main",
    [U (attr_init "mta"); F (attr_set "mta" Type_ PTHREAD_MUTEX_NORMAL);
     U (mutex_init "mutex" (Some "mta")); U (mutex_lock "mutex");
     ignore (alarm 1000000 "alarm_handler"); ignore (mutex_lock "mutex"); Return PTS_FAIL])] [] [].

Definition settype_start : list stmt :=
  [U (attr_init "mta"); F (attr_set "mta" Type_ PTHREAD_MUTEX_ERRORCHECK); U (mutex_init "mutex" (Some "mta"))].

Definition settype_3_1 : prog := Prog
  [("main",
    settype_start ++
    [U (mutex_lock "mutex"); reject (mutex_lock "mutex") 0 (Returns PTS_FAIL);
     ignore (mutex_unlock "mutex"); ignore (mutex_destroy "mutex"); U (attr_destroy "mta");
     Return PTS_PASS])] [] [].

Definition settype_3_2 : prog := Prog
  [("a_thread_func", [set_ "ret" (mutex_unlock "mutex"); Thread_exit 0]);
   ("main",
    settype_start ++
    [U (mutex_lock "mutex"); U (create (Some (LVar "thread1")) None "a_thread_func");
     ignore (join "thread1" None); ret_if ("ret" == 0)%pt PTS_FAIL;
     ignore (mutex_unlock "mutex"); ignore (mutex_destroy "mutex"); U (attr_destroy "mta");
     Return PTS_PASS])] [] [].

Definition settype_3_3 : prog := Prog
  [("main",
    settype_start ++ [reject (mutex_unlock "mutex") 0 (Returns PTS_FAIL); Return PTS_PASS])] [] [].

Definition settype_3_4 : prog := Prog
  [("main",
    settype_start ++
    [U (mutex_lock "mutex"); U (mutex_unlock "mutex"); reject (mutex_unlock "mutex") 0 (Returns PTS_FAIL);
     U (mutex_destroy "mutex"); U (attr_destroy "mta"); Return PTS_PASS])] [] [].

(** settype/7-1: [invalid_type] is -1, which is none of the types. *)
Definition settype_7_1 : prog := Prog
  [("main",
    [LLoc "invalid_type" ::= (-1)%Z; U (attr_init "mta");
     While ((Loc "invalid_type" == PTHREAD_MUTEX_NORMAL) || (Loc "invalid_type" == PTHREAD_MUTEX_ERRORCHECK) ||
            (Loc "invalid_type" == PTHREAD_MUTEX_RECURSIVE) || (Loc "invalid_type" == PTHREAD_MUTEX_DEFAULT))%pt
       [LLoc "invalid_type" ::= Loc "invalid_type" - 1];
     expect (attr_set "mta" Type_ (Loc "invalid_type")) (num EINVAL) (Returns PTS_FAIL);
     Return PTS_PASS])] [] [].

(** ** All of them *)

Definition mutex_tests : list prog :=
  [mutex_destroy_1_1; mutex_destroy_2_1; mutex_destroy_2_2; mutex_destroy_3_1; mutex_destroy_5_1;
   mutex_destroy_5_2; mutex_init_1_1; mutex_init_2_1; mutex_init_4_1; mutex_lock_2_1; mutex_lock_4_1;
   mutex_lock_5_1; mutex_trylock_1_1; mutex_trylock_3_1; mutex_trylock_4_1; mutex_timedlock_1_1;
   mutex_timedlock_2_1; mutex_timedlock_4_1; mutex_timedlock_5_1; mutex_timedlock_5_2;
   mutex_timedlock_5_3; mutex_unlock_1_1; mutex_unlock_3_1; mutex_unlock_5_1; mutex_unlock_5_2;
   settype_1_1; settype_2_1; settype_3_1; settype_3_2; settype_3_3; settype_3_4; settype_7_1].
