(* ===== verification/PtCondTests.v ===== *)
(** * The tests of condition variables

    conformance/interfaces/pthread_cond_{broadcast,destroy,init,signal,wait,timedwait}.
    The handler of SIGALRM is installed by [sigaction] just before the call of
    [alarm]; a program without one is killed by the signal, which is the handler
    [SIG_DFL] here. cond_timedwait/2-2, 2-3 and 4-1 let [pthread_join] store a pointer
    in a variable of type [int]: the model is that of systems where the two have the
    same size, the others write behind the variable. *)

From stdpp Require Import base tactics numbers list gmap strings.
From S2P Require Import Prelude CLang PtLang PtSem.

Open Scope Z_scope.

Definition SIG_DFL : string * list stmt := ("SIG_DFL", [Exit 142]).

(** [struct testdata td]: a mutex and a condition variable. *)
Definition td_init : list stmt := [U (mutex_init "td.mutex" None); U (cond_init "td.cond")].

(** The lock and unlock that make sure that the threads wait. *)
Definition sync : list stmt := [U (mutex_lock "td.mutex"); U (mutex_unlock "td.mutex")].

(** [for (i = 0; i < n; i++) if (pthread_create(&thread[i], NULL, f, NULL) != 0) end] *)
Definition create_all (n : Z) (f : string) (bad : ending) : list stmt :=
  for_ "i" n [check (create (Some (LElem "thread" (Loc "i"))) None f) bad].
Definition join_all (n : Z) (bad : ending) : list stmt :=
  for_ "i" n [check (join (Elem "thread" (Loc "i")) None) bad].
Definition cancel_all (n : Z) : list stmt := for_ "i" n [ignore (cancel (Elem "thread" (Loc "i")))].

Definition add_one (x : string) : stmt := LVar x ::= x + 1.

(** ** pthread_cond_broadcast *)

(** The threads of broadcast/1-1 and 2-1, signal/1-1 and 2-1. *)
Definition thr_func (checks unlocks : list stmt) : list stmt :=
  [XU (mutex_lock "td.mutex"); add_one "start_num"; XU (cond_wait "td.cond" "td.mutex")] ++ checks ++
  [add_one "waken_num"] ++ unlocks ++ [Return 0].

Definition cond_broadcast_1_1 : prog := Prog
  [("thr_func", thr_func [] [XU (mutex_unlock "td.mutex")]);
   ("main",
    td_init ++ create_all 3 "thr_func" (Returns PTS_UNRESOLVED) ++
    [While ("start_num" < 3)%pt [ignore (usleep 100)]] ++ sync ++
    [U (cond_broadcast "td.cond"); sleep 1;
     If ("waken_num" < 3)%pt (cancel_all 3 ++ [Exit PTS_FAIL]) []] ++
    join_all 3 (Returns PTS_UNRESOLVED) ++ [Return PTS_PASS])] [] [].

Definition cond_broadcast_2_1 : prog := Prog
  [("thr_func", thr_func [reject (mutex_trylock "td.mutex") 0 (Exits PTS_FAIL)] [XF (mutex_unlock "td.mutex")]);
   ("main",
    td_init ++ create_all 3 "thr_func" (Returns PTS_UNRESOLVED) ++
    [While ("start_num" < 3)%pt [ignore (usleep 100)]] ++ sync ++
    [U (cond_broadcast "td.cond"); sleep 1;
     If ("waken_num" < 3)%pt (cancel_all 3 ++ [Return PTS_UNRESOLVED]) []] ++
    join_all 3 (Returns PTS_UNRESOLVED) ++ [Return PTS_PASS])] [] [].

(** The threads of broadcast/2-2 and signal/2-2 wait for 6 seconds at most. *)
Definition timed_func (checks : list stmt) (unlocks : list stmt) : list stmt :=
  [XU (mutex_lock "td.mutex"); add_one "start_num"; XU (gettime (LLoc "curtime"));
   XU (cond_timedwait "td.cond" "td.mutex" (Loc "curtime" + 6000000)%pt)] ++ checks ++
  [add_one "waken_num"] ++ unlocks ++ [Return 0].

Definition cond_broadcast_2_2 : prog := Prog
  [("thr_func", timed_func [reject (mutex_trylock "td.mutex") 0 (Exits PTS_FAIL)] [XF (mutex_unlock "td.mutex")]);
   ("main",
    td_init ++ create_all 3 "thr_func" (Returns PTS_UNRESOLVED) ++
    [While ("start_num" < 3)%pt [ignore (usleep 100)]] ++ sync ++
    [U (cond_broadcast "td.cond"); sleep 1;
     If ("waken_num" < 3)%pt (cancel_all 3 ++ [Return PTS_UNRESOLVED]) []] ++
    join_all 3 (Returns PTS_UNRESOLVED) ++ [Return PTS_PASS])] [] [].

(** ** pthread_cond_destroy and pthread_cond_init *)

(** The attribute of a condition variable has no effect here. *)
Definition cond_destroy_1_1 : prog := Prog
  [("main",
    [U (attr_init "condattr"); U (cond_init "cond1"); U (cond_init "cond2"); U (attr_destroy "condattr");
     F (cond_destroy "cond1"); F (cond_destroy "cond2"); F (cond_destroy "cond3"); Return PTS_PASS])]
  [] ["cond3"].

Definition cond_destroy_3_1 : prog := Prog
  [("main", [U (cond_init "cond"); set_ (LLoc "rc") (cond_destroy "cond");
     If (Loc "rc" == 0)%pt [Return PTS_PASS] [Return PTS_FAIL]])] [] [].

Definition cond_init_1_1 : prog := Prog
  [("main", [U (attr_init "condattr"); F (cond_init "cond1"); F (cond_init "cond2"); Return PTS_PASS])] [] [].

Definition cond_init_3_1 : prog := Prog
  [("main", [U (attr_init "condattr"); set_ (LLoc "rc") (cond_init "cond");
     If (Loc "rc" == 0)%pt [Return PTS_PASS] [];
     If ((Loc "rc" == num ENOMEM) || (Loc "rc" == num EAGAIN) || (Loc "rc" == num EBUSY))%pt
       [Return PTS_UNRESOLVED] [];
     Return PTS_FAIL])] [] [].

(** ** pthread_cond_signal *)

(** The handler of SIGALRM in the signal tests. *)
Definition alarm_cancels : string * list stmt := ("alarm_handler", cancel_all 3 ++ [Exit PTS_UNRESOLVED]).

Definition cond_signal_1_1 : prog := Prog
  [alarm_cancels;
   ("thr_func", thr_func [] [XU (mutex_unlock "td.mutex")]);
   ("main",
    td_init ++ create_all 3 "thr_func" (Exits PTS_UNRESOLVED) ++
    [While ("start_num" < 3)%pt [ignore (usleep 100)]; XU (mutex_lock "td.mutex"); XU (mutex_unlock "td.mutex");
     XU (cond_signal "td.cond"); sleep 1;
     If ("waken_num" <= 0)%pt (cancel_all 3 ++ [Exit PTS_FAIL]) [];
     ignore (alarm 5000000 "alarm_handler");
     LLoc "i" ::= 0;
     While ("waken_num" < 3)%pt
       [LLoc "i" ::= Loc "i" + 1; XU (cond_signal "td.cond"); ignore (usleep 100)];
     exit_if (3 <= Loc "i")%pt PTS_FAIL] ++
    join_all 3 (Exits PTS_UNRESOLVED) ++ [Return PTS_PASS])] [] [].

Definition recursive_init : list stmt :=
  [U (attr_init "ma"); U (attr_set "ma" Type_ 1); U (mutex_init "td.mutex" (Some "ma")); U (cond_init "td.cond")].

Definition cond_signal_2_1 : prog := Prog
  [alarm_cancels;
   ("thr_func", thr_func [XF (mutex_trylock "td.mutex")]
      [XF (mutex_unlock "td.mutex"); XF (mutex_unlock "td.mutex")]);
   ("main",
    recursive_init ++ create_all 3 "thr_func" (Returns PTS_UNRESOLVED) ++
    [While ("start_num" < 3)%pt [ignore (usleep 100)]; sleep 1; ignore (alarm 5000000 "alarm_handler");
     While ("waken_num" < 3)%pt [U (cond_signal "td.cond"); ignore (usleep 100)]] ++
    join_all 3 (Returns PTS_UNRESOLVED) ++ [Return PTS_PASS])] [] [].

Definition cond_signal_2_2 : prog := Prog
  [("thr_func", timed_func [XF (mutex_trylock "td.mutex")]
      [XF (mutex_unlock "td.mutex"); XF (mutex_unlock "td.mutex")]);
   ("main",
    recursive_init ++ create_all 3 "thr_func" (Returns PTS_UNRESOLVED) ++
    [While ("start_num" < 3)%pt [ignore (usleep 100)]; sleep 1;
     While ("waken_num" < 3)%pt [U (cond_signal "td.cond"); sleep 1]] ++
    join_all 3 (Returns PTS_UNRESOLVED) ++ [Return PTS_PASS])] [] [].

(** ** pthread_cond_wait *)

(** The handler of SIGALRM in the wait tests. *)
Definition alarm_cancels1 : string * list stmt :=
  ("alarm_handler", [ignore (cancel "thread1"); Exit PTS_UNRESOLVED]).

Definition wait_main (secs : Z) : list stmt :=
  td_init ++
  [U (create (Some (LVar "thread1")) None "t1_func");
   While ("t1_start" == 0)%pt [ignore (usleep 100)]] ++ sync ++
  [sleep secs; ignore (alarm 5000000 "alarm_handler"); "signaled" ::= 1; U (cond_signal "td.cond");
   ignore (join "thread1" None); Return PTS_PASS].

Definition cond_wait_1_1 : prog := Prog
  [alarm_cancels1;
   ("t1_func",
    [XU (mutex_lock "td.mutex"); "t1_start" ::= 1; XU (cond_wait "td.cond" "td.mutex");
     exit_if ("signaled" == 0)%pt PTS_FAIL; ignore (mutex_unlock "td.mutex"); Return 0]);
   ("main", wait_main 2)] [] [].

Definition cond_wait_2_1 : prog := Prog
  [alarm_cancels1;
   ("t1_func",
    [XU (mutex_lock "td.mutex"); "t1_start" ::= 1; XU (cond_wait "td.cond" "td.mutex");
     exit_if ("signaled" == 0)%pt PTS_UNRESOLVED; reject (mutex_trylock "td.mutex") 0 (Exits PTS_FAIL);
     XF (mutex_unlock "td.mutex"); Return 0]);
   ("main", wait_main 1)] [] [].

Definition cond_wait_3_1 : prog := Prog
  [alarm_cancels1;
   ("t1_func",
    [XU (mutex_lock "td.mutex"); "t1_start" ::= 1; XU (cond_wait "td.cond" "td.mutex");
     exit_if ("signaled" == 0)%pt PTS_UNRESOLVED; XU (mutex_unlock "td.mutex"); Return 0]);
   ("main",
    td_init ++
    [U (create (Some (LVar "thread1")) None "t1_func"); sleep 2;
     ignore (alarm 5000000 "alarm_handler"); "signaled" ::= 1; U (cond_broadcast "td.cond");
     ignore (join "thread1" None); Return PTS_PASS])] [] [].

(** ** pthread_cond_timedwait *)

Definition timedwait_main : list stmt :=
  td_init ++
  [U (create (Some (LVar "thread1")) None "t1_func");
   While ("t1_start" == 0)%pt [ignore (usleep 100)]] ++ sync ++
  [sleep 1; "signaled" ::= 1; U (cond_signal "td.cond"); ignore (join "thread1" None); Return PTS_PASS].

Definition wait_for (secs : Z) : list stmt :=
  [XU (mutex_lock "td.mutex"); "t1_start" ::= 1; XU (gettime (LLoc "curtime"));
   set_ (LLoc "rc") (cond_timedwait "td.cond" "td.mutex" (Loc "curtime" + secs * 1000000)%pt)].

Definition cond_timedwait_1_1 : prog := Prog
  [("t1_func",
    wait_for 5 ++
    [exit_if (Loc "rc" != 0)%pt PTS_UNRESOLVED; exit_if ("signaled" == 0)%pt PTS_FAIL;
     ignore (mutex_unlock "td.mutex"); Return 0]);
   ("main", timedwait_main)] [] [].

Definition cond_timedwait_2_1 : prog := Prog
  [("t1_func",
    wait_for 5 ++
    [exit_if (Loc "rc" != 0)%pt PTS_UNRESOLVED; exit_if ("signaled" == 0)%pt PTS_UNRESOLVED;
     reject (mutex_trylock "td.mutex") 0 (Exits PTS_FAIL); XF (mutex_unlock "td.mutex"); Return 0]);
   ("main", timedwait_main)] [] [].

Definition cond_timedwait_2_2 : prog := Prog
  [SIG_DFL;
   ("t1_func",
    wait_for 1 ++
    [If (Loc "rc" == num ETIMEDOUT)%pt [Thread_exit PTS_PASS] [Thread_exit PTS_FAIL]]);
   ("main",
    td_init ++
    [U (create (Some (LVar "thread1")) None "t1_func");
     While ("t1_start" == 0)%pt [ignore (usleep 100)]] ++ sync ++
    [ignore (alarm 5000000 "SIG_DFL"); U (join "thread1" (Some (LVar "th_ret")));
     If ("th_ret" == PTS_PASS)%pt [Return PTS_PASS] [Return PTS_FAIL]])] [] [].

Definition cond_timedwait_2_3 : prog := Prog
  [SIG_DFL;
   ("t1_func",
    [XU (mutex_lock "td.mutex"); "t1_start" ::= 1; XU (gettime (LLoc "curtime"));
     set_ (LLoc "rc") (cond_timedwait "td.cond" "td.mutex" (seconds (Loc "curtime") * 1000000)%pt);
     If (Loc "rc" == num ETIMEDOUT)%pt [Thread_exit PTS_PASS] [Exit PTS_FAIL]]);
   ("main",
    td_init ++
    [U (create (Some (LVar "thread1")) None "t1_func"); ignore (alarm 5000000 "SIG_DFL");
     U (join "thread1" (Some (LVar "th_ret")));
     set_ (LLoc "rc") (mutex_trylock "td.mutex"); ret_if (Loc "rc" == 0)%pt PTS_FAIL;
     U (mutex_unlock "td.mutex");
     If ("th_ret" == PTS_PASS)%pt [Return PTS_PASS]
       [If ("th_ret" == PTS_FAIL)%pt [Return PTS_FAIL] [Return PTS_UNRESOLVED]]])] [] [].

Definition cond_timedwait_3_1 : prog := Prog
  [("t1_func",
    wait_for 5 ++
    [If (Loc "rc" != 0)%pt
       [If (Loc "rc" == num ETIMEDOUT)%pt [Exit PTS_UNRESOLVED] [Exit PTS_FAIL]] [];
     exit_if ("signaled" == 0)%pt PTS_UNRESOLVED; XU (mutex_unlock "td.mutex"); Return 0]);
   ("main", timedwait_main)] [] [].

Definition cond_timedwait_4_1 : prog := Prog
  [("t1_func",
    [XU (mutex_lock "td.mutex"); XU (gettime (LLoc "curtime"));
     set_ (LLoc "rc") (cond_timedwait "td.cond" "td.mutex" (Loc "curtime" + 3000000)%pt);
     If (Loc "rc" == num ETIMEDOUT)%pt [Exit PTS_PASS] [Exit PTS_FAIL]]);
   ("main",
    td_init ++
    [U (create (Some (LVar "thread1")) None "t1_func"); ignore (join "thread1" (Some (LVar "th_ret")));
     Return "th_ret"])] [] [].

(** ** All of them *)

Definition cond_tests : list prog :=
  [cond_broadcast_1_1; cond_broadcast_2_1; cond_broadcast_2_2; cond_destroy_1_1; cond_destroy_3_1;
   cond_init_1_1; cond_init_3_1; cond_signal_1_1; cond_signal_2_1; cond_signal_2_2; cond_wait_1_1;
   cond_wait_2_1; cond_wait_3_1; cond_timedwait_1_1; cond_timedwait_2_1; cond_timedwait_2_2;
   cond_timedwait_3_1; cond_timedwait_4_1].
