(* ===== verification/PtRwlockTests.v ===== *)
(** * The tests of read-write locks

    conformance/interfaces/pthread_rwlock_{destroy,init,rdlock,tryrdlock,trywrlock,
    timedrdlock,timedwrlock,wrlock,unlock}. The attribute of a read-write lock has no
    effect here; handlers are installed by [sigaction] in the thread that is
    signalled, before it waits. *)

From stdpp Require Import base tactics numbers list gmap strings.
From S2P Require Import Prelude CLang PtLang PtSem.

Open Scope Z_scope.

Definition NOT_CREATED_THREAD : Z := 1.
Definition ENTERED_THREAD : Z := 2.
Definition EXITING_THREAD : Z := 3.

Definition state_is (v : Z) : stmt := "thread_state" ::= v.

(** [do sleep(1); while (thread_state != EXITING_THREAD && cnt++ < n);] *)
Definition wait_exiting (k n : Z) : list stmt := poll k n ("thread_state" != EXITING_THREAD)%pt.

(** [if (thread_state == a) end; else if (thread_state != b) end';] *)
Definition judge_state (a : Z) (at_a : stmt) (b : Z) (not_b : stmt) : stmt :=
  If ("thread_state" == a)%pt [at_a] [If ("thread_state" != b)%pt [not_b] []].

Definition create_ (t f : string) : call string := create (Some (LVar t)) None f.

(** ** destroy and init *)

Definition rwlock_destroy_1_1 : prog := Prog
  [("main",
    [LLoc "cnt" ::= 0;
     While (Loc "cnt" < 1000)%pt
       [LLoc "cnt" ::= Loc "cnt" + 1; U (rwlock_init "rwlock"); F (rwlock_destroy "rwlock")];
     Return PTS_PASS])] [] [].

Definition rwlock_destroy_3_1 : prog := Prog
  [("main",
    [U (rwlock_init "rwlock"); U (rwlock_rdlock "rwlock"); set_ (LLoc "rc") (rwlock_destroy "rwlock");
     If ((Loc "rc" == num EBUSY) || (Loc "rc" == 0))%pt [Return PTS_PASS] [Return PTS_FAIL]])] [] [].

Definition fn_rd_init : list stmt :=
  [state_is 2; set_ (LLoc "rc") (rwlock_rdlock "rwlock");
   If (Loc "rc" == 0)%pt [XU (rwlock_unlock "rwlock")] [Exit PTS_FAIL]; state_is 3; Thread_exit 0].

Definition rwlock_init_1_1 : prog := Prog
  [("fn_rd", fn_rd_init);
   ("main",
    [state_is 0; U (attr_init "rwlockattr"); F (rwlock_init "rwlock"); state_is 1; U (create_ "thread" "fn_rd")] ++
    wait_exiting 0 3 ++
    [judge_state 2 (Exit PTS_FAIL) 3 (Exit PTS_UNRESOLVED); XU (join "thread" None);
     U (rwlock_destroy "rwlock"); U (attr_destroy "rwlockattr"); Return PTS_PASS])] [] [].

Definition rwlock_init_2_1 : prog := Prog
  [("fn_rd", fn_rd_init);
   ("main",
    [F (rwlock_init "rwlock"); state_is 1; U (create_ "thread" "fn_rd")] ++
    wait_exiting 0 3 ++
    [judge_state 2 (Exit PTS_FAIL) 3 (Exit PTS_UNRESOLVED); XU (join "thread" None);
     U (rwlock_destroy "rwlock"); Return PTS_PASS])] [] [].

Definition rwlock_init_3_1 : prog := Prog
  [("main",
    [U (attr_init "rwlockattr"); F (rwlock_init "rwlock"); LLoc "cnt" ::= 0;
     While (Loc "cnt" < 1000)%pt
       [LLoc "cnt" ::= Loc "cnt" + 1; F (rwlock_rdlock "rwlock"); F (rwlock_unlock "rwlock");
        F (rwlock_wrlock "rwlock"); F (rwlock_unlock "rwlock")];
     U (rwlock_destroy "rwlock"); U (attr_destroy "rwlockattr"); Return PTS_PASS])] [] [].

Definition rwlock_init_6_1 : prog := Prog
  [("main",
    [F (rwlock_init "rwlock"); set_ (LLoc "rc") (rwlock_init "rwlock"); U (rwlock_destroy "rwlock");
     If ((Loc "rc" == num EBUSY) || (Loc "rc" == 0))%pt [Return PTS_PASS] [Return PTS_FAIL]])] [] [].

(** ** rdlock *)

Definition rwlock_rdlock_1_1 : prog := Prog
  [("fn_rd",
    [state_is ENTERED_THREAD; XF (rwlock_rdlock "rwlock"); sleep 1; XU (rwlock_unlock "rwlock");
     state_is EXITING_THREAD; Thread_exit 0]);
   ("main",
    [U (rwlock_init "rwlock"); F (rwlock_rdlock "rwlock"); state_is NOT_CREATED_THREAD;
     U (create_ "rd_thread1" "fn_rd")] ++
    wait_exiting 0 3 ++
    [judge_state ENTERED_THREAD (Exit PTS_FAIL) EXITING_THREAD (Exit PTS_UNRESOLVED);
     XU (rwlock_unlock "rwlock"); XU (join "rd_thread1" None);
     U (rwlock_wrlock "rwlock"); state_is NOT_CREATED_THREAD; U (create_ "rd_thread2" "fn_rd")] ++
    wait_exiting 0 3 ++
    [judge_state EXITING_THREAD (Return PTS_FAIL) ENTERED_THREAD (Return PTS_UNRESOLVED);
     U (rwlock_unlock "rwlock")] ++
    wait_exiting 1 3 ++
    [judge_state ENTERED_THREAD (Return PTS_FAIL) EXITING_THREAD (Return PTS_UNRESOLVED);
     U (rwlock_destroy "rwlock"); Return PTS_PASS])] [] [].

(** The handler of rdlock/4-1, wrlock/2-1 and the timed tests. *)
Definition sig_handler (handled : list stmt) : list stmt :=
  [ignore (self (LLoc "self")); If (Loc "self" == "sig_thread")%pt handled [Exit PTS_UNRESOLVED]].

(** The main program of rdlock/4-1 and wrlock/2-1. *)
Definition signalled_main (after_unlock : list stmt) : list stmt :=
  ["handler_called" ::= 0; U (rwlock_init "rwlock"); U (rwlock_wrlock "rwlock");
   state_is NOT_CREATED_THREAD; U (create_ "sig_thread" "th_fn")] ++
  wait_exiting 0 3 ++
  [judge_state EXITING_THREAD (Exit PTS_FAIL) ENTERED_THREAD (Exit PTS_UNRESOLVED);
   XU (kill "sig_thread" "sig_handler")] ++
  poll 0 3 ("handler_called" == 0)%pt ++
  [exit_if ("handler_called" != 1)%pt PTS_UNRESOLVED] ++
  wait_exiting 0 3 ++
  after_unlock ++
  [XU (join "sig_thread" None); XU (rwlock_destroy "rwlock"); Return PTS_PASS].

Definition rwlock_rdlock_4_1 : prog := Prog
  [("sig_handler", sig_handler ["handler_called" ::= 1]);
   ("th_fn",
    [state_is ENTERED_THREAD; XF (rwlock_rdlock "rwlock"); XU (rwlock_unlock "rwlock");
     state_is EXITING_THREAD; Thread_exit 0]);
   ("main",
    signalled_main
      ([judge_state EXITING_THREAD (Exit PTS_FAIL) ENTERED_THREAD (Exit PTS_UNRESOLVED);
        XU (rwlock_unlock "rwlock")] ++
       wait_exiting 0 3 ++
       [judge_state ENTERED_THREAD (Exit PTS_FAIL) EXITING_THREAD (Exit PTS_UNRESOLVED)]))] [] [].

Definition rwlock_rdlock_5_1 : prog := Prog
  [("main",
    [U (rwlock_init "rwlock")] ++
    for_ "i" 10 [F (rwlock_rdlock "rwlock")] ++
    for_ "i" 10 [F (rwlock_unlock "rwlock")] ++
    [U (rwlock_destroy "rwlock"); Return PTS_PASS])] [] [].

(** ** tryrdlock and trywrlock *)

Definition rwlock_tryrdlock_1_1 : prog := Prog
  [("fn_rd_1",
    [state_is ENTERED_THREAD; XF (rwlock_tryrdlock "rwlock"); XU (rwlock_unlock "rwlock");
     state_is EXITING_THREAD; Return 0]);
   ("fn_rd_2",
    [state_is ENTERED_THREAD; expect (rwlock_tryrdlock "rwlock") (num EBUSY) (Exits PTS_FAIL);
     state_is EXITING_THREAD; Return 0]);
   ("main",
    [U (rwlock_init "rwlock"); F (rwlock_tryrdlock "rwlock"); state_is NOT_CREATED_THREAD;
     U (create_ "rd_thread1" "fn_rd_1")] ++
    wait_exiting 0 3 ++
    [judge_state ENTERED_THREAD (Return PTS_FAIL) EXITING_THREAD (Return PTS_UNRESOLVED);
     U (rwlock_unlock "rwlock"); U (join "rd_thread1" None); U (rwlock_wrlock "rwlock");
     state_is NOT_CREATED_THREAD; U (create_ "rd_thread2" "fn_rd_2")] ++
    wait_exiting 0 3 ++
    [judge_state ENTERED_THREAD (Return PTS_FAIL) EXITING_THREAD (Return PTS_UNRESOLVED);
     state_is NOT_CREATED_THREAD; U (rwlock_unlock "rwlock"); U (rwlock_destroy "rwlock");
     Return PTS_PASS])] [] [].

Definition trywrlock_round (t : string) : list stmt :=
  [state_is NOT_CREATED_THREAD; U (create_ t "fn_wr")] ++
  wait_exiting 0 3 ++
  [judge_state ENTERED_THREAD (Exit PTS_FAIL) EXITING_THREAD (Exit PTS_UNRESOLVED);
   exit_if ("get_ebusy" != 1)%pt PTS_FAIL].

Definition rwlock_trywrlock_1_1 : prog := Prog
  [("fn_wr",
    [state_is ENTERED_THREAD; expect (rwlock_trywrlock "rwlock") (num EBUSY) (Exits PTS_FAIL);
     "get_ebusy" ::= 1; state_is EXITING_THREAD; Thread_exit 0]);
   ("main",
    ["get_ebusy" ::= 0; U (rwlock_init "rwlock"); U (rwlock_rdlock "rwlock")] ++
    trywrlock_round "thread1" ++
    [XU (rwlock_unlock "rwlock"); XU (join "thread1" None); F (rwlock_trywrlock "rwlock");
     "get_ebusy" ::= 0] ++
    trywrlock_round "thread2" ++
    [state_is 1; XU (rwlock_unlock "rwlock"); XU (join "thread2" None); U (rwlock_destroy "rwlock");
     Return PTS_PASS])] [] [].

(** ** wrlock *)

Definition rwlock_wrlock_1_1 : prog := Prog
  [("fn_wr",
    [state_is ENTERED_THREAD; set_ (LLoc "rc") (rwlock_wrlock "rwlock");
     If (Loc "rc" == 0)%pt [XU (rwlock_unlock "rwlock")] [Exit PTS_FAIL];
     state_is EXITING_THREAD; Thread_exit 0]);
   ("main",
    [U (rwlock_init "rwlock"); U (rwlock_rdlock "rwlock"); state_is NOT_CREATED_THREAD;
     U (create_ "thread1" "fn_wr")] ++
    wait_exiting 0 3 ++
    [judge_state EXITING_THREAD (Exit PTS_FAIL) ENTERED_THREAD (Exit PTS_UNRESOLVED);
     XU (rwlock_unlock "rwlock")] ++
    wait_exiting 0 3 ++
    [judge_state ENTERED_THREAD (Exit PTS_FAIL) EXITING_THREAD (Exit PTS_UNRESOLVED);
     XU (join "thread1" None); F (rwlock_wrlock "rwlock"); state_is NOT_CREATED_THREAD;
     U (create_ "thread2" "fn_wr")] ++
    wait_exiting 0 3 ++
    [judge_state EXITING_THREAD (Exit PTS_FAIL) ENTERED_THREAD (Exit PTS_UNRESOLVED);
     XU (rwlock_unlock "rwlock"); XU (join "thread2" None); U (rwlock_destroy "rwlock");
     Return PTS_PASS])] [] [].

Definition rwlock_wrlock_2_1 : prog := Prog
  [("sig_handler", sig_handler ["handler_called" ::= 1]);
   ("th_fn",
    [state_is ENTERED_THREAD; XF (rwlock_wrlock "rwlock"); XU (rwlock_unlock "rwlock");
     state_is EXITING_THREAD; Thread_exit 0]);
   ("main",
    signalled_main
      ([exit_if ("thread_state" == 3)%pt PTS_FAIL; XU (rwlock_unlock "rwlock")] ++
       wait_exiting 0 3 ++
       [exit_if ("thread_state" != EXITING_THREAD)%pt PTS_FAIL]))] [] [].

(** wrlock/3-1: the second lock of the same thread may deadlock, as it does here. *)
Definition rwlock_wrlock_3_1 : prog := Prog
  [("main",
    [U (rwlock_init "rwlock"); U (rwlock_wrlock "rwlock"); set_ (LLoc "rc") (rwlock_wrlock "rwlock");
     XU (rwlock_unlock "rwlock"); U (rwlock_destroy "rwlock");
     If (Loc "rc" != 0)%pt
       [If (Loc "rc" == num EDEADLK)%pt [Return PTS_PASS] [Return PTS_FAIL]] [];
     Return PTS_PASS])] [] [].

(** ** unlock *)

Definition PASSED_RLOCK1 : Z := 3.
Definition PASSED_RLOCK2 : Z := 4.

Definition rwlock_unlock_1_1 : prog := Prog
  [("fn_rd",
    [state_is ENTERED_THREAD; XU (rwlock_rdlock "rwlock"); XF (rwlock_unlock "rwlock");
     state_is PASSED_RLOCK1; XU (rwlock_rdlock "rwlock"); XF (rwlock_unlock "rwlock");
     state_is PASSED_RLOCK2; XU (rwlock_wrlock "rwlock"); XF (rwlock_unlock "rwlock");
     state_is 5; Return 0]);
   ("main",
    [U (rwlock_init "rwlock"); U (rwlock_rdlock "rwlock"); state_is NOT_CREATED_THREAD;
     U (create_ "rd_thread" "fn_rd")] ++
    poll 0 3 ("thread_state" != PASSED_RLOCK2)%pt ++
    [exit_if (("thread_state" == ENTERED_THREAD) || ("thread_state" == PASSED_RLOCK1) ||
              ("thread_state" != PASSED_RLOCK2))%pt PTS_UNRESOLVED;
     XF (rwlock_unlock "rwlock")] ++
    poll 0 3 ("thread_state" != 5)%pt ++
    [exit_if ("thread_state" != 5)%pt PTS_FAIL; XU (join "rd_thread" None); U (rwlock_destroy "rwlock");
     Return PTS_PASS])] [] [].

Definition rwlock_unlock_2_1 : prog := Prog
  [("fn_wr",
    [state_is ENTERED_THREAD; XU (rwlock_wrlock "rwlock"); XF (rwlock_unlock "rwlock");
     state_is EXITING_THREAD; Return 0]);
   ("main",
    [U (rwlock_init "rwlock"); U (rwlock_wrlock "rwlock"); state_is NOT_CREATED_THREAD;
     U (create_ "wr_thread" "fn_wr")] ++
    wait_exiting 0 3 ++
    [judge_state EXITING_THREAD (Exit PTS_UNRESOLVED) ENTERED_THREAD (Exit PTS_UNRESOLVED);
     XF (rwlock_unlock "rwlock")] ++
    wait_exiting 0 3 ++
    [exit_if ("thread_state" != EXITING_THREAD)%pt PTS_FAIL; XU (join "wr_thread" None);
     U (rwlock_destroy "rwlock"); Return PTS_PASS])] [] [].

(** unlock/4-1: the lock is static and never initialised. *)
Definition rwlock_unlock_4_1 : prog := Prog
  [("main",
    [set_ (LLoc "rc") (rwlock_unlock "rwlock");
     If (Loc "rc" != 0)%pt [If (Loc "rc" == num EINVAL)%pt [Return PTS_PASS] []; Return PTS_FAIL] [];
     Return PTS_PASS])] [] [].

(** unlock/4-2: the thread stores the result in the static [rc], [main] tests its
    own variable of that name. *)
Definition rwlock_unlock_4_2 : prog := Prog
  [("fn_unlk", [state_is ENTERED_THREAD; set_ "rc" (rwlock_unlock "rwlock"); state_is EXITING_THREAD; Return 0]);
   ("main",
    [LLoc "main.rc" ::= 0; U (rwlock_init "rwlock"); U (rwlock_rdlock "rwlock"); state_is NOT_CREATED_THREAD;
     U (create_ "un_thread" "fn_unlk")] ++
    wait_exiting 0 3 ++
    [exit_if ("thread_state" != EXITING_THREAD)%pt PTS_UNRESOLVED; XU (join "un_thread" None);
     ignore (rwlock_unlock "rwlock"); U (rwlock_destroy "rwlock");
     If (Loc "main.rc" != 0)%pt
       [If (Loc "main.rc" == num EPERM)%pt [Return PTS_PASS] []; Return PTS_FAIL] [];
     Return PTS_PASS])] [] [].

(** ** timedrdlock and timedwrlock

    [lock] is the timed call, [secs] the time in seconds. *)

Definition timed_thread (lock : exp string → call string) (clock_bad : stmt) (secs : Z) : list stmt :=
  [state_is ENTERED_THREAD; clock_bad; set_ (LLoc "rc") (lock ("currsec1" + secs * 1000000)%pt);
   If (Loc "rc" == num ETIMEDOUT)%pt ["expired" ::= 1]
     [If (Loc "rc" == 0)%pt ["expired" ::= 0; XU (rwlock_unlock "rwlock")] [Exit PTS_UNRESOLVED]];
   ignore (gettime "currsec2"); state_is EXITING_THREAD; Thread_exit 0].

(** The thread must have waited for 3 seconds. *)
Definition judge_time (other : stmt) : stmt :=
  If ("thread_state" == EXITING_THREAD)%pt
    [exit_if (seconds ("currsec2" - "currsec1") < 3)%pt PTS_FAIL]
    [If ("thread_state" == ENTERED_THREAD)%pt [Exit PTS_FAIL] [other]].

(** timedrdlock/1-1 and 3-1, which differ in the call that reads the clock; the
    thread does not keep [expired]. *)
Definition timedrdlock_main : list stmt :=
  [U (rwlock_init "rwlock"); U (rwlock_rdlock "rwlock"); state_is NOT_CREATED_THREAD;
   U (create_ "rd_thread1" "fn_rd")] ++
  wait_exiting 0 5 ++
  [judge_state ENTERED_THREAD (Exit PTS_FAIL) EXITING_THREAD (Exit PTS_UNRESOLVED);
   XU (join "rd_thread1" None); U (rwlock_unlock "rwlock"); U (rwlock_wrlock "rwlock");
   state_is NOT_CREATED_THREAD; U (create_ "rd_thread2" "fn_rd")] ++
  wait_exiting 0 5 ++
  [judge_time (Return PTS_UNRESOLVED); XU (rwlock_unlock "rwlock"); XU (rwlock_destroy "rwlock");
   Return PTS_PASS].

Definition rd_thread : list stmt :=
  [state_is ENTERED_THREAD; ignore (gettime "currsec1");
   set_ (LLoc "rc") (rwlock_timedrdlock "rwlock" ("currsec1" + 3 * 1000000)%pt);
   If (Loc "rc" == num ETIMEDOUT)%pt []
     [If (Loc "rc" == 0)%pt [XU (rwlock_unlock "rwlock")] [Exit PTS_UNRESOLVED]];
   ignore (gettime "currsec2"); state_is EXITING_THREAD; Thread_exit 0].

Definition rwlock_timedrdlock_1_1 : prog := Prog [("fn_rd", rd_thread); ("main", timedrdlock_main)] [] [].
Definition rwlock_timedrdlock_3_1 : prog := Prog [("fn_rd", rd_thread); ("main", timedrdlock_main)] [] [].

(** timedwrlock/1-1 and 3-1. The last judgement of 1-1 and 3-1 ends with [exit]. *)
Definition timedwrlock_main : list stmt :=
  [U (rwlock_init "rwlock"); state_is NOT_CREATED_THREAD; U (create_ "thread0" "fn_wr"); "expired" ::= 0] ++
  wait_exiting 0 6 ++
  [If ("thread_state" == EXITING_THREAD)%pt [exit_if ("expired" == 1)%pt PTS_FAIL]
     [If ("thread_state" == ENTERED_THREAD)%pt [Exit PTS_FAIL] [Exit PTS_UNRESOLVED]];
   U (join "thread0" None); U (rwlock_rdlock "rwlock"); state_is NOT_CREATED_THREAD;
   U (create_ "thread1" "fn_wr")] ++
  wait_exiting 0 6 ++
  [judge_time (Exit PTS_UNRESOLVED); XU (rwlock_unlock "rwlock"); U (join "thread1" None);
   U (rwlock_wrlock "rwlock"); state_is NOT_CREATED_THREAD; U (create_ "thread2" "fn_wr")] ++
  wait_exiting 0 6 ++
  [judge_time (Exit PTS_UNRESOLVED); state_is NOT_CREATED_THREAD; XU (rwlock_unlock "rwlock");
   U (rwlock_destroy "rwlock"); Return PTS_PASS].

Definition rwlock_timedwrlock_1_1 : prog := Prog
  [("fn_wr", timed_thread (rwlock_timedwrlock "rwlock") (ignore (gettime "currsec1")) 3);
   ("main", timedwrlock_main)] [] [].
Definition rwlock_timedwrlock_3_1 : prog := Prog
  [("fn_wr", timed_thread (rwlock_timedwrlock "rwlock") (XU (gettime "currsec1")) 3);
   ("main", timedwrlock_main)] [] [].

(** timedrdlock/2-1 and timedwrlock/2-1: the time has passed already. The thread of
    timedwrlock/2-1 does not set [currsec1] before, so that the time is -1 s, long
    past as well. *)
Definition past_thread (lock : exp string → call string) (before : list stmt) : list stmt :=
  [state_is ENTERED_THREAD] ++ before ++
  [set_ (LLoc "rc") (lock (("currsec1" - 1) * 1000000)%pt);
   If (Loc "rc" == num ETIMEDOUT)%pt ["expired" ::= 1]
     [If (Loc "rc" == 0)%pt ["expired" ::= 0; XU (rwlock_unlock "rwlock")] [Exit PTS_UNRESOLVED]];
   ignore (gettime (LLoc "time")); "currsec2" ::= seconds (Loc "time"); state_is EXITING_THREAD; Thread_exit 0].

Definition past_main (before : list stmt) (f : string) (n : Z) : list stmt :=
  before ++
  [U (rwlock_init "rwlock"); U (rwlock_wrlock "rwlock"); state_is NOT_CREATED_THREAD; U (create_ "thread1" f)] ++
  wait_exiting 0 n ++
  [If ("thread_state" == EXITING_THREAD)%pt [exit_if ("expired" != 1)%pt PTS_FAIL]
     [If ("thread_state" == ENTERED_THREAD)%pt [Exit PTS_FAIL] [Exit PTS_UNRESOLVED]];
   U (rwlock_unlock "rwlock"); U (join "thread1" None); U (rwlock_destroy "rwlock"); Return PTS_PASS].

Definition rwlock_timedrdlock_2_1 : prog := Prog
  [("fn_rd", past_thread (rwlock_timedrdlock "rwlock")
      [ignore (gettime (LLoc "time")); "currsec1" ::= seconds (Loc "time")]);
   ("main", past_main ["expired" ::= 0] "fn_rd" 5)] [] [].

Definition rwlock_timedwrlock_2_1 : prog := Prog
  [("fn", past_thread (rwlock_timedwrlock "rwlock") []); ("main", past_main [] "fn" 3)] [] [].

(** timedrdlock/5-1 and timedwrlock/5-1: a lock that is free, with a time in the
    future and with one in the past. *)
Definition free_thread (lock : exp string → call string) (d : Z) : list stmt :=
  [state_is ENTERED_THREAD; XU (rwlock_init "rwlock"); ignore (gettime (LLoc "time"));
   "currsec1" ::= seconds (Loc "time");
   set_ (LLoc "rc") (lock (("currsec1" + d) * 1000000)%pt);
   If (Loc "rc" == num ETIMEDOUT)%pt ["expired" ::= 1]
     [If (Loc "rc" == 0)%pt ["expired" ::= 0; XU (rwlock_unlock "rwlock")] [Exit PTS_UNRESOLVED]];
   XU (rwlock_destroy "rwlock"); state_is EXITING_THREAD; Thread_exit 0].

Definition free_round (st : Z) (t f : string) (n : Z) : list stmt :=
  [state_is st; U (create_ t f)] ++
  wait_exiting 0 n ++
  [If ("thread_state" == EXITING_THREAD)%pt [ret_if ("expired" == 1)%pt PTS_FAIL]
     [If ("thread_state" == ENTERED_THREAD)%pt [Return PTS_FAIL] [Return PTS_UNRESOLVED]];
   U (join (Var t) None)].

Definition rwlock_timedrdlock_5_1 : prog := Prog
  [("fn_rd_1", free_thread (rwlock_timedrdlock "rwlock") 1);
   ("fn_rd_2", free_thread (rwlock_timedrdlock "rwlock") (-1));
   ("main",
    free_round NOT_CREATED_THREAD "thread1" "fn_rd_1" 5 ++
    free_round NOT_CREATED_THREAD "thread2" "fn_rd_2" 5 ++ [Return PTS_PASS])] [] [].

Definition rwlock_timedwrlock_5_1 : prog := Prog
  [("fn_wr_1", free_thread (rwlock_timedwrlock "rwlock") 1);
   ("fn_wr_2", free_thread (rwlock_timedwrlock "rwlock") (-1));
   ("main",
    free_round NOT_CREATED_THREAD "thread1" "fn_wr_1" 5 ++
    free_round ENTERED_THREAD "thread2" "fn_wr_2" 3 ++ [Return PTS_PASS])] [] [].

(** timedrdlock/6-1 and timedwrlock/6-1: a signal during the wait. *)
Definition interrupted (lock : exp string → call string) : prog := Prog
  [("sig_handler", sig_handler ["handler_called" ::= 1]);
   ("th_fn",
    ["handler_called" ::= 0; ignore (gettime "before_wait"); state_is ENTERED_THREAD;
     expect (lock ("before_wait" + 5 * 1000000)%pt) (num ETIMEDOUT) (Exits PTS_FAIL);
     ignore (gettime "after_wait"); state_is EXITING_THREAD; Thread_exit 0]);
   ("main",
    [U (rwlock_init "rwlock"); U (rwlock_wrlock "rwlock"); state_is NOT_CREATED_THREAD;
     U (create_ "sig_thread" "th_fn")] ++
    poll 0 5 ("thread_state" != ENTERED_THREAD)%pt ++
    [exit_if ("thread_state" != ENTERED_THREAD)%pt PTS_UNRESOLVED; XU (kill "sig_thread" "sig_handler")] ++
    wait_exiting 0 10 ++
    [exit_if (10 <= Loc "cnt")%pt PTS_FAIL; exit_if ("handler_called" != 1)%pt PTS_UNRESOLVED;
     exit_if (seconds ("after_wait" - "before_wait") < 5)%pt PTS_FAIL;
     U (rwlock_unlock "rwlock"); U (join "sig_thread" None); U (rwlock_destroy "rwlock");
     Return PTS_PASS])] [] [].
Definition rwlock_timedrdlock_6_1 : prog := interrupted (rwlock_timedrdlock "rwlock").
Definition rwlock_timedwrlock_6_1 : prog := interrupted (rwlock_timedwrlock "rwlock").

(** timedrdlock/6-2 and timedwrlock/6-2: the lock is released during a handler that
    runs for longer than the time. The thread never unlocks it. *)
Definition long_handler (lock : exp string → call string) : prog := Prog
  [("sig_handler", sig_handler ["handler_state" ::= 2; sleep 4] ++ ["handler_state" ::= 3]);
   ("th_fn",
    ["handler_state" ::= 2; "expired" ::= 0; ignore (gettime "before_wait"); state_is ENTERED_THREAD;
     set_ (LLoc "rc") (lock ("before_wait" + 2 * 1000000)%pt);
     If (Loc "rc" == 0)%pt ["expired" ::= 0]
       [If (Loc "rc" == num ETIMEDOUT)%pt ["expired" ::= 1] [Exit PTS_UNRESOLVED]];
     ignore (gettime "after_wait"); state_is EXITING_THREAD; Thread_exit 0]);
   ("main",
    [U (rwlock_init "rwlock"); U (rwlock_wrlock "rwlock"); state_is NOT_CREATED_THREAD;
     U (create_ "sig_thread" "th_fn")] ++
    poll 0 2 ("thread_state" != ENTERED_THREAD)%pt ++
    [exit_if ("thread_state" != ENTERED_THREAD)%pt PTS_UNRESOLVED; XU (kill "sig_thread" "sig_handler");
     LLoc "cnt" ::= 0; sleep 2;
     While (("handler_state" != 2) && (Loc "cnt" < 2))%pt [LLoc "cnt" ::= Loc "cnt" + 1; sleep 2];
     exit_if (("handler_state" == 1) || ("handler_state" == 3))%pt PTS_UNRESOLVED;
     exit_if ("expired" == 1)%pt PTS_UNRESOLVED; XU (rwlock_unlock "rwlock")] ++
    wait_exiting 0 8 ++
    [exit_if (8 <= Loc "cnt")%pt PTS_FAIL; exit_if ("expired" == 1)%pt PTS_FAIL;
     U (join "sig_thread" None); XU (rwlock_destroy "rwlock"); Return PTS_PASS])] [] [].
Definition rwlock_timedrdlock_6_2 : prog := long_handler (rwlock_timedrdlock "rwlock").
Definition rwlock_timedwrlock_6_2 : prog := long_handler (rwlock_timedwrlock "rwlock").

(** ** All of them *)

Definition rwlock_tests : list prog :=
  [rwlock_destroy_1_1; rwlock_init_1_1; rwlock_init_2_1; rwlock_init_3_1; rwlock_rdlock_1_1;
   rwlock_rdlock_4_1; rwlock_rdlock_5_1; rwlock_tryrdlock_1_1; rwlock_trywrlock_1_1; rwlock_wrlock_1_1;
   rwlock_wrlock_2_1; rwlock_unlock_1_1; rwlock_unlock_2_1; rwlock_timedrdlock_1_1;
   rwlock_timedrdlock_2_1; rwlock_timedrdlock_3_1; rwlock_timedrdlock_5_1; rwlock_timedrdlock_6_1;
   rwlock_timedwrlock_1_1; rwlock_timedwrlock_2_1; rwlock_timedwrlock_3_1; rwlock_timedwrlock_5_1;
   rwlock_timedwrlock_6_1].
