(* ===== verification/PtBarrierTests.v ===== *)
(** * The tests of barriers and spin locks

    conformance/interfaces/pthread_barrier_{destroy,init,wait} and
    pthread_spin_{destroy,init,lock,trylock,unlock}. Handlers of SIGALRM are
    installed by [sigaction] before the call of [alarm]. *)

From stdpp Require Import base tactics numbers list gmap strings.
From S2P Require Import Prelude CLang PtLang PtSem PtRwlockTests.

Open Scope Z_scope.

(** ** Barriers *)

Definition barrier_destroy_1_1 : prog := Prog
  [("main",
    for_ "cnt" 5 [F (barrier_init "barrier" 2); F (barrier_destroy "barrier")] ++ [Return PTS_PASS])] [] [].

(** [rc = pthread_barrier_wait(...); if (rc != 0 && rc != PTHREAD_BARRIER_SERIAL_THREAD) exit] *)
Definition at_barrier (bad : Z) : list stmt :=
  [set_ (LLoc "rc") (barrier_wait "barrier");
   exit_if ((Loc "rc" != 0) && (Loc "rc" != PTHREAD_BARRIER_SERIAL_THREAD))%pt bad].

Definition barrier_child (before : list stmt) (bad : Z) : list stmt :=
  before ++ [state_is ENTERED_THREAD] ++ at_barrier bad ++ [state_is EXITING_THREAD; Thread_exit 0].

(** The thread must wait while it is alone. *)
Definition barrier_start : list stmt :=
  [U (barrier_init "barrier" 2); state_is NOT_CREATED_THREAD; U (create_ "child_thread" "fn_chld")] ++
  wait_exiting 0 2 ++
  [judge_state EXITING_THREAD (Exit PTS_FAIL) ENTERED_THREAD (Exit PTS_UNRESOLVED)].

(** The thread must have passed. *)
Definition barrier_end (k : Z) : list stmt :=
  wait_exiting k 3 ++
  [judge_state ENTERED_THREAD (Return PTS_FAIL) EXITING_THREAD (Return PTS_UNRESOLVED);
   XU (join "child_thread" None); U (barrier_destroy "barrier"); Return PTS_PASS].

(** destroy/2-1 and init/4-1 destroy or initialise a barrier in use; no result of
    the call makes them fail. *)
Definition barrier_destroy_2_1 : prog := Prog
  [("fn_chld", barrier_child [ignore (setcanceltype true)] PTS_UNRESOLVED);
   ("main",
    barrier_start ++
    [set_ (LLoc "rc") (barrier_destroy "barrier"); ignore (cancel "child_thread"); Return PTS_PASS])] [] [].

Definition barrier_init_1_1 : prog := Prog
  [("main",
    [F (barrier_init "barrier" 1); U (barrier_destroy "barrier"); U (attr_init "ba");
     F (barrier_init "barrier" 1); U (attr_destroy "ba"); U (barrier_destroy "barrier");
     Return PTS_PASS])] [] [].

Definition barrier_init_3_1 : prog := Prog
  [("main", [expect (barrier_init "barrier" 0) (num EINVAL) (Returns PTS_FAIL); Return PTS_PASS])] [] [].

Definition barrier_init_4_1 : prog := Prog
  [("sig_handler", [Exit PTS_PASS]);
   ("fn_chld", barrier_child [ignore (setcanceltype true)] PTS_UNRESOLVED);
   ("main",
    barrier_start ++
    [ignore (alarm 2000000 "sig_handler"); set_ (LLoc "rc") (barrier_init "barrier" 2);
     ignore (cancel "child_thread"); Return PTS_PASS])] [] [].

Definition barrier_wait_1_1 : prog := Prog
  [("sig_handler", [Exit PTS_FAIL]);
   ("fn_chld", barrier_child [] PTS_FAIL);
   ("main",
    barrier_start ++ [ignore (alarm 2000000 "sig_handler")] ++ at_barrier PTS_FAIL ++ barrier_end 1)] [] [].

(** wait/2-1: [x++] of a variable that threads share is a read and a write. *)
Definition increment (x : string) : list stmt := [LLoc "old" ::= x; LVar x ::= Loc "old" + 1].

Definition barrier_wait_2_1 : prog := Prog
  [("fn_chld",
    [set_ (LLoc "rc") (barrier_wait "barrier");
     If ((Loc "rc" != 0) && (Loc "rc" != PTHREAD_BARRIER_SERIAL_THREAD))%pt [Exit PTS_FAIL]
       [If (Loc "rc" == PTHREAD_BARRIER_SERIAL_THREAD)%pt (increment "serial") (increment "normal_rt")];
     Thread_exit 0]);
   ("main",
    [U (barrier_init "barrier" 5)] ++
    for_ "loop" 3
      (["serial" ::= 0; "normal_rt" ::= 0] ++
       for_ "cnt" 5 [U (create (Some (LElem "child_threads" (Loc "cnt"))) None "fn_chld")] ++
       for_ "cnt" 5 [XU (join (Elem "child_threads" (Loc "cnt")) None)] ++
       [ret_if (("serial" != 1) || ("serial" + "normal_rt" != 5))%pt PTS_FAIL]) ++
    [U (barrier_destroy "barrier"); Return PTS_PASS])] [] [].

Definition barrier_wait_3_1 : prog := Prog
  [("sig_handler", ["sig_rcvd" ::= 1]);
   ("fn_chld", barrier_child [] PTS_FAIL);
   ("main",
    ["sig_rcvd" ::= 0] ++ barrier_start ++
    [XU (kill "child_thread" "sig_handler")] ++
    wait_exiting 0 2 ++
    [exit_if ("sig_rcvd" != 1)%pt PTS_UNRESOLVED;
     judge_state EXITING_THREAD (Exit PTS_FAIL) ENTERED_THREAD (Exit PTS_UNRESOLVED)] ++
    at_barrier PTS_FAIL ++ barrier_end 0)] [] [].

(** wait/6-1: a barrier that was never initialised. *)
Definition barrier_wait_6_1 : prog := Prog
  [("sig_handler", [Exit PTS_PASS]);
   ("main",
    ["rc" ::= 1; ignore (alarm 2000000 "sig_handler"); set_ "rc" (barrier_wait "barrier"); Return PTS_PASS])] [] [].

(** ** Spin locks *)

Definition spin_destroy_1_1 : prog := Prog
  [("main",
    [U (spin_init "spinlock"); U (spin_lock "spinlock"); U (spin_unlock "spinlock");
     F (spin_destroy "spinlock"); Return PTS_PASS])] [] [].

(** destroy/3-1 and init/4-1 destroy or initialise a lock in use; no result of the
    call makes them fail. *)
Definition spin_destroy_3_1 : prog := Prog
  [("fn_chld", [set_ (LLoc "rc") (spin_destroy "spinlock"); Exit PTS_PASS]);
   ("main",
    [U (spin_init "spinlock"); U (spin_lock "spinlock"); U (create_ "child_thread" "fn_chld");
     ignore (join "child_thread" None); Return PTS_PASS])] [] [].

Definition spin_init_1_1 : prog := Prog
  [("main",
    [F (spin_init "spinlock"); U (spin_lock "spinlock"); U (spin_unlock "spinlock");
     U (spin_destroy "spinlock"); Return PTS_PASS])] [] [].

Definition spin_init_4_1 : prog := Prog
  [("fn_chld", [set_ (LLoc "rc") (spin_init "spinlock"); Exit PTS_PASS]);
   ("main",
    [F (spin_init "spinlock"); U (spin_lock "spinlock"); U (create_ "child_thread" "fn_chld");
     ignore (join "child_thread" None); Return PTS_PASS])] [] [].

(** lock/1-1: [main] blocks SIGALRM, so the thread that asked for it handles it. *)
Definition GET_SPIN_LOCK : Z := 4.
Definition spin_lock_1_1 : prog := Prog
  [("sig_handler", [Thread_exit 0]);
   ("fn_chld",
    [state_is ENTERED_THREAD; ignore (alarm 2000000 "sig_handler");
     set_ (LLoc "rc") (spin_lock "spinlock"); If (Loc "rc" != 0)%pt [Thread_exit PTS_FAIL] [];
     state_is GET_SPIN_LOCK; LLoc "cnt" ::= 0;
     While (Loc "cnt" < 10)%pt [LLoc "cnt" ::= Loc "cnt" + 1; sleep 1];
     Thread_exit PTS_UNRESOLVED]);
   ("main",
    [U (spin_init "spinlock"); F (spin_lock "spinlock"); state_is NOT_CREATED_THREAD;
     U (create_ "child_thread" "fn_chld"); U (join "child_thread" (Some (LVar "value_ptr")));
     If ("thread_state" == GET_SPIN_LOCK)%pt [Exit PTS_FAIL]
       [If ("thread_state" == ENTERED_THREAD)%pt [Exit PTS_PASS] [Exit PTS_UNRESOLVED]]])] [] [].

(** lock/1-2 and unlock/1-2. *)
Definition spin_child (unlock_bad : Z) : list stmt :=
  [state_is ENTERED_THREAD; XF (spin_lock "spinlock"); sleep 1; check (spin_unlock "spinlock") (Exits unlock_bad);
   state_is EXITING_THREAD; Thread_exit 0].
Definition spin_main (lock_bad unlock_bad : Z) : list stmt :=
  [U (spin_init "spinlock"); check (spin_lock "spinlock") (Returns lock_bad); state_is NOT_CREATED_THREAD;
   U (create_ "child_thread" "fn_chld")] ++
  wait_exiting 0 3 ++
  [judge_state EXITING_THREAD (Return PTS_FAIL) ENTERED_THREAD (Return PTS_UNRESOLVED);
   check (spin_unlock "spinlock") (Returns unlock_bad)] ++
  wait_exiting 0 3 ++
  [judge_state ENTERED_THREAD (Return PTS_FAIL) EXITING_THREAD (Return PTS_UNRESOLVED);
   U (join "child_thread" None); U (spin_destroy "spinlock"); Return PTS_PASS].

Definition spin_lock_1_2 : prog := Prog
  [("fn_chld", spin_child PTS_UNRESOLVED); ("main", spin_main PTS_FAIL PTS_UNRESOLVED)] [] [].

(** lock/3-1: the second lock of the same thread may deadlock, as it does here; then
    the handler ends the thread, and with it the process. *)
Definition spin_lock_3_1 : prog := Prog
  [("sig_handler", [Thread_exit PTS_PASS]);
   ("main",
    [U (spin_init "spinlock"); F (spin_lock "spinlock"); ignore (alarm 2000000 "sig_handler");
     set_ (LLoc "rc") (spin_lock "spinlock"); ignore (spin_unlock "spinlock");
     ignore (spin_destroy "spinlock"); Return PTS_PASS])] [] [].

(** lock/3-2 and trylock/4-1: a lock that was never initialised. *)
Definition spin_lock_3_2 : prog := Prog
  [("sig_handler", [Exit PTS_PASS]);
   ("main",
    [ignore (alarm 5000000 "sig_handler"); set_ "rc" (spin_lock "spinlock"); ignore (call_fn "sig_handler");
     ignore (spin_unlock "spinlock"); ignore (spin_destroy "spinlock"); Return PTS_PASS])] [] [].

Definition spin_trylock_1_1 : prog := Prog
  [("sig_handler", [If ("thread_state" == ENTERED_THREAD)%pt [Exit PTS_FAIL] [Exit PTS_UNRESOLVED]]);
   ("fn_chld",
    ["rc" ::= 0; state_is ENTERED_THREAD; ignore (alarm 2000000 "sig_handler");
     set_ "rc" (spin_trylock "spinlock"); Thread_exit 0]);
   ("main",
    [U (spin_init "spinlock"); F (spin_trylock "spinlock"); state_is NOT_CREATED_THREAD;
     U (create_ "child_thread" "fn_chld"); ignore (join "child_thread" None);
     ret_if ("rc" != num EBUSY)%pt PTS_FAIL; Return PTS_PASS])] [] [].

Definition spin_trylock_4_1 : prog := Prog
  [("main", [set_ (LLoc "rc") (spin_trylock "spinlock"); Return PTS_PASS])] [] [].

Definition spin_unlock_1_1 : prog := Prog
  [("fn_chld",
    [state_is ENTERED_THREAD; XF (spin_trylock "spinlock"); XF (spin_unlock "spinlock");
     state_is EXITING_THREAD; Thread_exit 0]);
   ("main",
    [U (spin_init "spinlock"); U (spin_lock "spinlock"); F (spin_unlock "spinlock");
     state_is NOT_CREATED_THREAD; U (create_ "child_thread" "fn_chld"); U (join "child_thread" None);
     F (spin_trylock "spinlock"); F (spin_unlock "spinlock"); U (spin_destroy "spinlock");
     Return PTS_PASS])] [] [].

Definition spin_unlock_1_2 : prog := Prog
  [("fn_chld", spin_child PTS_FAIL); ("main", spin_main PTS_UNRESOLVED PTS_FAIL)] [] [].

(** unlock/3-1: [main] unlocks a lock of the other thread. *)
Definition spin_unlock_3_1 : prog := Prog
  [("fn_chld",
    [XU (spin_init "spinlock"); XU (spin_lock "spinlock"); "sem" ::= 1;
     While ("sem" == 1)%pt [sleep 1]; ignore (spin_unlock "spinlock"); XU (spin_destroy "spinlock");
     Thread_exit 0]);
   ("main",
    ["sem" ::= 0; U (create_ "child_thread" "fn_chld"); While ("sem" == 0)%pt [sleep 1];
     F (spin_unlock "spinlock"); "sem" ::= 0; U (join "child_thread" None); Return PTS_PASS])] [] [].

(** ** All of them *)

Definition barrier_tests : list prog :=
  [barrier_destroy_1_1; barrier_init_1_1; barrier_init_3_1; barrier_wait_1_1; barrier_wait_3_1;
   spin_destroy_1_1; spin_init_1_1; spin_lock_1_1; spin_lock_1_2; spin_lock_3_1;
   spin_trylock_1_1; spin_unlock_1_1; spin_unlock_1_2].
