(* ===== verification/PtThreadTests.v ===== *)
(** * The tests of threads and of thread-specific data

    conformance/interfaces/pthread_{create,join,detach,exit,self,equal,once},
    pthread_key_{create,delete} and pthread_{get,set}specific. *)

From stdpp Require Import base tactics numbers list gmap strings.
From S2P Require Import Prelude CLang PtLang PtSem PtRwlockTests.

Open Scope Z_scope.

Definition INTHREAD : Z := 0.
Definition INMAIN : Z := 1.

(** The thread that exits at once. *)
Definition exits_at_once : string * list stmt := ("a_thread_func", [Thread_exit 0]).

(** ** pthread_create *)

Definition create_1_1 : prog := Prog
  [exits_at_once;
   ("main",
    [U (create_ "new_th" "a_thread_func"); ignore (self "main_th");
     ret_if ("new_th" == "main_th")%pt PTS_FAIL; Return PTS_PASS])] [] [].

(** create/1-2: the result of [pthread_create] is compared with [< 0]. *)
Definition create_1_2 : prog := Prog
  [("a_thread_func", [sleep 10; Thread_exit 0]);
   ("main",
    [set_ (LLoc "ret") (create_ "new_th" "a_thread_func"); ret_if (Loc "ret" < 0)%pt PTS_UNRESOLVED;
     F (cancel "new_th"); Return PTS_PASS])] [] [].

Definition create_1_3 : prog := Prog
  [("alarm_handler", [Exit PTS_FAIL]);
   ("a_thread_function", [ignore (setcancelstate true); While 1 [sleep 1]; Thread_exit 0]);
   ("main",
    [ignore (alarm 5000000 "alarm_handler"); U (create_ "a" "a_thread_function"); ignore (cancel "a");
     Return PTS_PASS])] [] [].

Definition create_2_1 : prog := Prog
  [exits_at_once;
   ("main",
    [U (create_ "new_th" "a_thread_func"); reject (join "new_th" None) (num EINVAL) (Returns PTS_FAIL);
     reject (detach "new_th") (num EINVAL) (Returns PTS_FAIL); Return PTS_PASS])] [] [].

Definition create_3_1 : prog := Prog
  [("a_thread_func", ["sem1" ::= INTHREAD; sleep 10; Thread_exit PTS_FAIL]);
   ("main",
    ["sem1" ::= INMAIN; U (attr_init "new_attr"); U (attr_set "new_attr" Detachstate 0);
     U (create (Some (LVar "new_th")) (Some "new_attr") "a_thread_func");
     While ("sem1" == INMAIN)%pt [sleep 1];
     U (attr_set "new_attr" Detachstate 1); reject (detach "new_th") (num EINVAL) (Returns PTS_FAIL);
     Return PTS_PASS])] [] [].

Definition create_4_1 : prog := Prog
  [("a_thread_func", [ignore (self "self_th"); Thread_exit 0]);
   ("main",
    [U (create_ "new_th" "a_thread_func"); U (join "new_th" None);
     ret_if ("new_th" != "self_th")%pt PTS_FAIL; Return PTS_PASS])] [] [].

Definition create_5_1 : prog := Prog
  [exits_at_once;
   ("main",
    [LLoc "i" ::= 1;
     While (Loc "i" < 6)%pt
       [F (create_ "new_th" "a_thread_func"); ignore (join "new_th" None); LLoc "i" ::= Loc "i" + 1];
     Return PTS_PASS])] [] [].

(** create/12-1: the inner [if] of the file has no braces, so that it guards
    the message only and every error is PTS_FAIL. *)
Definition create_12_1 : prog := Prog
  [exits_at_once;
   ("main",
    [set_ (LLoc "ret") (create_ "new_th" "a_thread_func");
     If (Loc "ret" != 0)%pt [Return PTS_FAIL] [];
     Return PTS_PASS])] [] [].

(** ** pthread_join *)

Definition join_1_1 : prog := Prog
  [("a_thread_func", for_ "i" 3 [sleep 1] ++ ["end_exec" ::= 1; Thread_exit 0]);
   ("main",
    ["end_exec" ::= 0; U (create_ "new_th" "a_thread_func"); U (join "new_th" None);
     ret_if ("end_exec" == 0)%pt PTS_FAIL; Return PTS_PASS])] [] [].

(** join/2-1 and exit/1-1. *)
Definition return_code : prog := Prog
  [("a_thread_func", ["sem" ::= INMAIN; Thread_exit 100]);
   ("main",
    ["value_ptr" ::= 0; "sem" ::= INTHREAD; U (create_ "new_th" "a_thread_func");
     While ("sem" == INTHREAD)%pt [sleep 1]; U (join "new_th" (Some (LVar "value_ptr")));
     ret_if ("value_ptr" != 100)%pt PTS_FAIL; Return PTS_PASS])] [] [].
Definition join_2_1 : prog := return_code.

Definition join_3_1 : prog := Prog
  [("a_cleanup_func", ["cleanup_flag" ::= 1]);
   ("a_thread_func",
    [ignore (setcancelstate true); ignore (setcanceltype false); ignore (cleanup_push "a_cleanup_func");
     sleep 10; ignore (cleanup_pop false); "cleanup_flag" ::= (-1)%Z; Thread_exit 0]);
   ("main",
    ["cleanup_flag" ::= 0; U (create_ "new_th" "a_thread_func"); U (cancel "new_th"); U (join "new_th" None);
     ret_if ("cleanup_flag" == 0)%pt PTS_FAIL; ret_if ("cleanup_flag" == (-1)%Z)%pt PTS_UNRESOLVED;
     Return PTS_PASS])] [] [].

Definition join_5_1 : prog := Prog
  [exits_at_once;
   ("main",
    [U (create_ "new_th" "a_thread_func"); set_ (LLoc "ret") (join "new_th" None);
     If (Loc "ret" != 0)%pt
       [ret_if ((Loc "ret" != num EINVAL) && (Loc "ret" != num ESRCH) && (Loc "ret" != num EDEADLK))%pt PTS_FAIL] [];
     Return PTS_PASS])] [] [].

(** ** pthread_detach *)

Definition sleeps_async : string * list stmt :=
  ("a_thread_func", [ignore (setcanceltype true); sleep 10; Thread_exit 0]).

Definition detach_start (state : Z) : list stmt :=
  [U (attr_init "new_attr"); U (attr_set "new_attr" Detachstate state);
   U (create (Some (LVar "new_th")) (Some "new_attr") "a_thread_func")].

Definition detach_1_1 : prog := Prog
  [sleeps_async;
   ("main",
    detach_start 0 ++
    [F (detach "new_th"); set_ (LLoc "ret") (join "new_th" None); ignore (cancel "new_th");
     If (Loc "ret" == 0)%pt [Return PTS_FAIL]
       [If (Loc "ret" == num EINVAL)%pt [Return PTS_PASS] [Return PTS_UNRESOLVED]]])] [] [].

Definition detach_2_1 : prog := Prog
  [sleeps_async;
   ("main",
    detach_start 0 ++
    [F (detach "new_th"); set_ (LLoc "ret") (cancel "new_th");
     If (Loc "ret" != 0)%pt [ret_if (Loc "ret" == num ESRCH)%pt PTS_FAIL; Return PTS_UNRESOLVED] [];
     Return PTS_PASS])] [] [].

(** detach/3-1: [ret != ESRCH || ret != EINVAL] is always true. *)
Definition detach_3_1 : prog := Prog
  [sleeps_async;
   ("main",
    detach_start 0 ++
    [set_ (LLoc "ret") (detach "new_th"); ignore (cancel "new_th");
     If (Loc "ret" != 0)%pt
       [ret_if ((Loc "ret" != num ESRCH) || (Loc "ret" != num EINVAL))%pt PTS_FAIL; Return PTS_UNRESOLVED] [];
     Return PTS_PASS])] [] [].

Definition detach_4_1 : prog := Prog
  [sleeps_async;
   ("main",
    detach_start 1 ++
    [set_ (LLoc "ret") (detach "new_th"); ignore (cancel "new_th");
     If (Loc "ret" != num EINVAL)%pt [ret_if (Loc "ret" == num ESRCH)%pt PTS_UNRESOLVED; Return PTS_FAIL] [];
     Return PTS_PASS])] [] [].

(** ** pthread_exit *)

Definition exit_1_1 : prog := return_code.

Definition logs (f : string) (v : Z) : string * list stmt :=
  (f, [LElem "i" "j" ::= v; "j" ::= "j" + 1]).

Definition exit_2_1 : prog := Prog
  [logs "a_cleanup_func1" 1; logs "a_cleanup_func2" 2; logs "a_cleanup_func3" 3;
   ("a_thread_func",
    [ignore (cleanup_push "a_cleanup_func1"); ignore (cleanup_push "a_cleanup_func2");
     ignore (cleanup_push "a_cleanup_func3"); Thread_exit 0;
     ignore (cleanup_pop false); ignore (cleanup_pop false); ignore (cleanup_pop false); Return 0]);
   ("main",
    ["j" ::= 0; While ("j" < 3)%pt [LElem "i" "j" ::= 0; "j" ::= "j" + 1]; "j" ::= 0;
     U (create_ "new_th" "a_thread_func"); U (join "new_th" None);
     If (Elem "i" 0 == 3)%pt
       [If (Elem "i" 1 == 2)%pt [If (Elem "i" 2 == 1)%pt [Return PTS_PASS] []; Return PTS_FAIL] [];
        Return PTS_FAIL]
       [If (Elem "i" 0 == 0)%pt [Return PTS_FAIL] []];
     Return PTS_FAIL])] [] [].

Definition exit_3_1 : prog := Prog
  [("destructor", ["cleanup_flag" ::= 1]);
   ("a_thread_func", [XU (key_create "key" (Some "destructor")); XU (setspecific "key" 1); Thread_exit 0]);
   ("main",
    [U (create_ "new_th" "a_thread_func"); U (join "new_th" None);
     ret_if ("cleanup_flag" != 1)%pt PTS_FAIL; Return PTS_PASS])] [] [].

(** ** pthread_self and pthread_equal *)

Definition self_1_1 : prog := Prog
  [("a_thread_func", [ignore (self "new_th2"); Thread_exit 0]);
   ("main",
    [U (create_ "new_th1" "a_thread_func"); U (join "new_th1" None);
     ret_if ("new_th1" != "new_th2")%pt PTS_FAIL; ignore (self (LLoc "self"));
     ret_if ("new_th1" == Loc "self")%pt PTS_FAIL; Return PTS_PASS])] [] [].

Definition equal_1_1 : prog := Prog
  [exits_at_once;
   ("main",
    [U (create_ "new_th" "a_thread_func");
     If ("new_th" != "new_th")%pt [Return PTS_FAIL] [Return PTS_PASS]])] [] [].

(** ** Thread-specific data: the array [keys] is unrolled *)

Definition keys : list (string * Z) :=
  [("key0", 0); ("key1", 1); ("key2", 2); ("key3", 3); ("key4", 4); ("key5", 5); ("key6", 6); ("key7", 7);
   ("key8", 8); ("key9", 9)].

(** key_create/1-1, getspecific/1-1 and setspecific/1-1, where a failure to set is
    FAIL. *)
Definition specific (set_bad : Z) : prog := Prog
  [("main",
    rounds keys (λ '(k, i), [U (key_create k None); check (setspecific k i) (Returns set_bad)]) ++
    rounds keys (λ '(k, i),
      [ignore (getspecific k (LLoc "rc")); ret_if (Loc "rc" != i)%pt PTS_FAIL; U (key_delete k)]) ++
    [Return PTS_PASS])] [] [].
Definition key_create_1_1 : prog := specific PTS_UNRESOLVED.
Definition getspecific_1_1 : prog := specific PTS_UNRESOLVED.
Definition setspecific_1_1 : prog := specific PTS_FAIL.

(** key_create/2-1 reads the value of a key that was not created. *)
Definition key_create_2_1 : prog := Prog
  [("main",
    [ignore (getspecific "key" (LLoc "rc")); ret_if (Loc "rc" != 0)%pt PTS_FAIL; U (key_create "key" None);
     ignore (getspecific "key" (LLoc "rc")); ret_if (Loc "rc" != 0)%pt PTS_FAIL; Return PTS_PASS])] [] [].

Definition key_user : string * list stmt :=
  ("a_thread_func",
   [set_ (LLoc "rc") (setspecific "key" 1000); If (Loc "rc" != 0)%pt [Thread_exit PTS_UNRESOLVED] [];
    Thread_exit 0]).

Definition key_start : list stmt :=
  ["dest_cnt" ::= 0; set_ (LLoc "rc") (key_create "key" (Some "dest_func"));
   If (Loc "rc" != 0)%pt [Thread_exit PTS_UNRESOLVED] []; U (create_ "new_th" "a_thread_func");
   U (join "new_th" None)].

Definition key_create_3_1 : prog := Prog
  [("dest_func", ["dest_cnt" ::= "dest_cnt" + 1]); key_user;
   ("main", key_start ++ [ret_if ("dest_cnt" == 0)%pt PTS_FAIL; Return PTS_PASS])] [] [].

Definition key_delete_1_1 : prog := Prog
  [("main",
    rounds keys (λ '(k, _), [U (key_create k None); F (key_delete k)]) ++ [Return PTS_PASS])] [] [].

Definition key_delete_1_2 : prog := Prog
  [("main",
    rounds keys (λ '(k, i), [U (key_create k None); U (setspecific k (100 + i)%Z); F (key_delete k)]) ++
    [Return PTS_PASS])] [] [].

Definition key_delete_2_1 : prog := Prog
  [("dest_func",
    ["dest_cnt" ::= "dest_cnt" + 1; set_ (LLoc "rc") (key_delete "key");
     If (Loc "rc" != 0)%pt ["dest_cnt" ::= "dest_cnt" + 1] []]); key_user;
   ("main",
    key_start ++
    [If ("dest_cnt" != 1)%pt [If ("dest_cnt" == 0)%pt [Return PTS_UNRESOLVED] [Return PTS_FAIL]] [];
     Return PTS_PASS])] [] [].

Definition getspecific_3_1 : prog := Prog
  [("main",
    [U (key_create "key" None); ignore (getspecific "key" (LLoc "rc")); ret_if (Loc "rc" != 0)%pt PTS_FAIL;
     U (key_delete "key"); Return PTS_PASS])] [] [].

Definition setspecific_1_2 : prog := Prog
  [("a_thread_func",
    [set_ (LLoc "rc") (setspecific "key" 200); If (Loc "rc" != 0)%pt [Thread_exit PTS_FAIL] [];
     ignore (getspecific "key" "rc2"); Thread_exit 0]);
   ("main",
    [U (key_create "key" None); F (setspecific "key" 100); U (create_ "new_th" "a_thread_func");
     ignore (join "new_th" None); ignore (getspecific "key" "rc1");
     ret_if ("rc1" != 100)%pt PTS_FAIL; ret_if ("rc2" != 200)%pt PTS_FAIL; Return PTS_PASS])] [] [].

(** ** pthread_once *)

Definition once_1_1 : prog := Prog
  [("an_init_func", ["init_flag" ::= "init_flag" + 1]);
   ("main",
    ["init_flag" ::= 0; ignore (once "once_control" "an_init_func"); ignore (once "once_control" "an_init_func");
     ret_if ("init_flag" != 1)%pt PTS_FAIL; Return PTS_PASS])] [] [].

Definition once_main : list stmt :=
  ["control" ::= 0; XU (once "myctl" "my_init"); exit_if ("control" != 1)%pt PTS_FAIL; Exit PTS_PASS].
Definition once_1_2 : prog := Prog [("my_init", ["control" ::= 1]); ("main", once_main)] [] [].
Definition once_2_1 : prog := Prog [("my_init", [sleep 1; "control" ::= 1]); ("main", once_main)] [] [].

Definition once_3_1 : prog := Prog
  [("an_init_func", ["init_flag" ::= 1; sleep 10; "init_flag" ::= (-1)%Z]);
   ("a_thread_func", [ignore (setcanceltype true); ignore (once "once_control" "an_init_func"); Return 0]);
   ("an_init_func2", ["init_flag" ::= 1]);
   ("main",
    ["init_flag" ::= 0; U (create_ "new_th" "a_thread_func"); While ("init_flag" == 0)%pt [sleep 1];
     U (cancel "new_th"); ignore (join "new_th" None); ret_if ("init_flag" == (-1)%Z)%pt PTS_UNRESOLVED;
     "init_flag" ::= 0; ignore (once "once_control" "an_init_func2");
     ret_if ("init_flag" != 1)%pt PTS_FAIL; Return PTS_PASS])] [] [].

(** ** All of them *)

Definition thread_tests : list prog :=
  [create_1_1; create_1_2; create_1_3; create_2_1; create_3_1; create_4_1; create_5_1; create_12_1;
   join_1_1; join_2_1; join_3_1; join_5_1; detach_1_1; detach_2_1; detach_3_1; detach_4_1; exit_1_1;
   exit_2_1; exit_3_1; self_1_1; equal_1_1; key_create_1_1; getspecific_1_1; setspecific_1_1;
   key_create_3_1; key_delete_1_1; key_delete_1_2; key_delete_2_1; getspecific_3_1; setspecific_1_2;
   once_1_1; once_1_2; once_2_1; once_3_1].
