(* ===== verification/PtCancelTests.v ===== *)
(** * The tests of cancellation

    conformance/interfaces/pthread_{cancel,setcancelstate,setcanceltype,testcancel} and
    pthread_cleanup_{pop,push}. *)

From stdpp Require Import base tactics numbers list gmap strings.
From S2P Require Import Prelude CLang PtLang PtSem PtRwlockTests PtThreadTests.

Open Scope Z_scope.

(** [while (x == v) sleep(1);] *)
Definition wait_while (x : string) (v : Z) : stmt := While (x == v)%pt [sleep 1].

(** ** pthread_cancel *)

Definition cancel_1_1 : prog := Prog
  [("a_cleanup_func", ["cleanup_flag" ::= 1]);
   ("a_thread_func",
    [ignore (setcancelstate true); ignore (setcanceltype true); ignore (cleanup_push "a_cleanup_func");
     "sem1" ::= INMAIN; wait_while "sem1" 1; sleep 10; "cleanup_flag" ::= (-1)%Z;
     ignore (cleanup_pop false); Thread_exit 0]);
   ("main",
    ["sem1" ::= INTHREAD; "cleanup_flag" ::= 0; U (create_ "new_th" "a_thread_func");
     wait_while "sem1" INTHREAD; F (cancel "new_th"); "sem1" ::= INTHREAD;
     wait_while "cleanup_flag" INTHREAD;
     ret_if ("cleanup_flag" < 0)%pt PTS_FAIL; Return PTS_PASS])] [] [].

Definition cancel_1_2 : prog := Prog
  [("a_cleanup_func", ["cleanup_flag" ::= (-1)%Z]);
   ("a_thread_func",
    [ignore (setcancelstate false); ignore (cleanup_push "a_cleanup_func"); "sem1" ::= INMAIN;
     wait_while "sem1" INMAIN; ignore (cleanup_pop false); "cleanup_flag" ::= 1; Thread_exit 0]);
   ("main",
    ["sem1" ::= INTHREAD; "cleanup_flag" ::= 0; U (create_ "new_th" "a_thread_func");
     wait_while "sem1" INTHREAD; U (cancel "new_th"); "sem1" ::= INTHREAD; wait_while "cleanup_flag" 0;
     ret_if ("cleanup_flag" <= 0)%pt PTS_FAIL; Return PTS_PASS])] [] [].

(** cancel/1-3, setcanceltype/1-2 and 2-1, and testcancel/1-1: the thread waits for
    a mutex, which is no cancellation point, and is cancelled in [testcancel]. They
    differ in the code of a failed cancellation and of a handler that was called,
    and setcanceltype/2-1 does not set the type. *)
Definition deferred (set_type : list stmt) (cancel_bad cleanup_bad : Z) : prog := Prog
  [("a_cleanup_func", ["cleanup_flag" ::= (-1)%Z]);
   ("a_thread_func",
    [ignore (setcancelstate true)] ++ set_type ++
    [ignore (cleanup_push "a_cleanup_func"); "sem1" ::= INMAIN; set_ (LLoc "rc") (mutex_lock "mutex");
     If (Loc "rc" != 0)%pt [Thread_exit PTS_UNRESOLVED] [];
     ignore (cleanup_pop false); "cleanup_flag" ::= 1; ignore testcancel; "cleanup_flag" ::= (-2)%Z;
     Thread_exit 0]);
   ("main",
    ["sem1" ::= INTHREAD; "cleanup_flag" ::= 0; U (mutex_lock "mutex"); U (create_ "new_th" "a_thread_func");
     wait_while "sem1" INTHREAD; check (cancel "new_th") (Returns cancel_bad); U (mutex_unlock "mutex");
     U (join "new_th" None);
     ret_if ("cleanup_flag" == (-1)%Z)%pt cleanup_bad; ret_if ("cleanup_flag" == (-2)%Z)%pt PTS_FAIL;
     Return PTS_PASS])] ["mutex"] [].
Definition cancel_1_3 : prog := deferred [ignore (setcanceltype false)] PTS_FAIL PTS_FAIL.
Definition setcanceltype_1_2 : prog := deferred [ignore (setcanceltype false)] PTS_FAIL PTS_FAIL.
Definition setcanceltype_2_1 : prog := deferred [] PTS_UNRESOLVED PTS_FAIL.
Definition testcancel_1_1 : prog := deferred [ignore (setcanceltype false)] PTS_FAIL PTS_UNRESOLVED.

Definition cancel_2_1 : prog := Prog
  [("a_cleanup_func", ["cleanup_flag" ::= 1; "sem" ::= 0]);
   ("a_thread_func",
    [ignore (setcanceltype true); ignore (cleanup_push "a_cleanup_func"); "sem" ::= 1; wait_while "sem" 1;
     sleep 5; "sem" ::= 0; ignore (cleanup_pop false); Thread_exit 0]);
   ("main",
    ["cleanup_flag" ::= 0; "sem" ::= 0; U (create_ "new_th" "a_thread_func"); wait_while "sem" 0;
     F (cancel "new_th"); LLoc "i" ::= 0;
     While ("sem" == 1)%pt [sleep 1; ret_if (Loc "i" == 10)%pt PTS_FAIL; LLoc "i" ::= Loc "i" + 1];
     ret_if ("cleanup_flag" != 1)%pt PTS_FAIL; Return PTS_PASS])] [] [].

Definition cancel_2_2 : prog := Prog
  [("destructor", ["cleanup_flag" ::= 1]);
   ("a_thread_func",
    [XU (setcanceltype true); XU (key_create "key" (Some "destructor")); XU (setspecific "key" 1);
     "sem" ::= 1; While 1 [sleep 5]; Return 0]);
   ("main",
    ["sem" ::= 0; XU (create_ "new_th" "a_thread_func"); wait_while "sem" 0; XU (cancel "new_th"); sleep 5;
     exit_if ("cleanup_flag" != 1)%pt PTS_FAIL; Exit PTS_PASS])] [] [].

Definition cancel_2_3 : prog := Prog
  [("destructor", [ignore (gettime "destructor_time"); "destructor_flag" ::= 1]);
   ("cleanup_function", [ignore (gettime "cleanup_time"); "cleanup_flag" ::= 1]);
   ("a_thread_func",
    [XU (setcanceltype true); XU (key_create "key" (Some "destructor")); XU (setspecific "key" 1);
     ignore (cleanup_push "cleanup_function"); "sem" ::= 1; While 1 [sleep 5];
     ignore (cleanup_pop false); Return 0]);
   ("main",
    ["sem" ::= 0; XU (create_ "new_th" "a_thread_func"); wait_while "sem" 0; XU (cancel "new_th"); sleep 5;
     exit_if ("cleanup_flag" != 1)%pt PTS_FAIL; exit_if ("destructor_flag" != 1)%pt PTS_FAIL;
     exit_if ("destructor_time" - "cleanup_time" < 0)%pt PTS_FAIL; Exit PTS_PASS])] [] [].

Definition cancel_4_1 : prog := Prog
  [("a_thread_func", [ignore (setcanceltype true); "sem" ::= 1; While 1 [sleep 1]; Thread_exit 0]);
   ("main",
    ["sem" ::= 0; U (create_ "new_th" "a_thread_func"); wait_while "sem" 0;
     set_ (LLoc "ret") (cancel "new_th");
     If (Loc "ret" != 0)%pt
       [If (Loc "ret" == num ESRCH)%pt [Return PTS_UNRESOLVED] [Return PTS_FAIL]] [];
     Return PTS_PASS])] [] [].

Definition cancel_5_1 : prog := Prog
  [exits_at_once;
   ("main",
    [U (create_ "new_th" "a_thread_func"); ignore (join "new_th" None); set_ (LLoc "ret") (cancel "new_th");
     If (Loc "ret" != 0)%pt [ret_if (Loc "ret" == num ESRCH)%pt PTS_PASS; Return PTS_FAIL] [];
     Return PTS_PASS])] [] [].

(** ** pthread_setcancelstate, pthread_setcanceltype and pthread_testcancel *)

(** setcancelstate/1-1, 1-2 and 2-1, and testcancel/2-1. *)
Definition state_test (setup : list stmt) (before after : Z) (bad : exp string) : prog := Prog
  [("a_thread_func",
    setup ++
    ["cancel_flag" ::= before; "sem1" ::= INMAIN; wait_while "sem1" INMAIN; ignore testcancel;
     "cancel_flag" ::= after; Thread_exit 0]);
   ("main",
    ["sem1" ::= INTHREAD; "cancel_flag" ::= 0; U (create_ "new_th" "a_thread_func");
     wait_while "sem1" INTHREAD; U (cancel "new_th"); "sem1" ::= INTHREAD; U (join "new_th" None);
     ret_if bad PTS_FAIL; Return PTS_PASS])] [] [].
Definition setcancelstate_1_1 : prog :=
  state_test [ignore (setcancelstate true); ignore (setcanceltype true)] 1 (-1) ("cancel_flag" < 0)%pt.
Definition setcancelstate_1_2 : prog :=
  state_test [ignore (setcancelstate false)] (-1) 1 ("cancel_flag" <= 0)%pt.
Definition setcancelstate_2_1 : prog :=
  state_test [ignore (setcanceltype true)] 1 (-1) ("cancel_flag" < 0)%pt.
Definition testcancel_2_1 : prog :=
  state_test [ignore (setcancelstate false)] (-1) 1 ("cancel_flag" <= 0)%pt.

Definition setcanceltype_1_1 : prog := Prog
  [("a_cleanup_func", ["cleanup_flag" ::= 1]);
   ("a_thread_func",
    [ignore (setcancelstate true); ignore (setcanceltype true); ignore (cleanup_push "a_cleanup_func");
     "sem1" ::= INMAIN; set_ (LLoc "rc") (mutex_lock "mutex");
     If (Loc "rc" != 0)%pt [Thread_exit PTS_UNRESOLVED] [];
     "cleanup_flag" ::= (-1)%Z; ignore (cleanup_pop false); Thread_exit 0]);
   ("main",
    [LLoc "i" ::= 0; "sem1" ::= INTHREAD; "cleanup_flag" ::= 0; U (mutex_lock "mutex");
     U (create_ "new_th" "a_thread_func"); wait_while "sem1" INTHREAD; U (cancel "new_th");
     While (("cleanup_flag" == 0) && (Loc "i" != 10))%pt [sleep 1; LLoc "i" ::= Loc "i" + 1];
     ignore (mutex_unlock "mutex"); ret_if ("cleanup_flag" <= 0)%pt PTS_FAIL; Return PTS_PASS])] ["mutex"] [].

(** ** pthread_cleanup_pop and pthread_cleanup_push

    The argument of the handler is CLEANUP_CALLED, 1. *)

Definition flag_func : string * list stmt := ("a_cleanup_func", ["cleanup_flag" ::= 1]).

(** cleanup_pop/1-1 and 1-2. *)
Definition pop_test (run : bool) (bad : exp string) : prog := Prog
  [flag_func;
   ("a_thread_func",
    [ignore (cleanup_push "a_cleanup_func"); ignore (cleanup_pop run); "sem1" ::= INMAIN;
     wait_while "sem1" INMAIN; Thread_exit 0]);
   ("main",
    ["sem1" ::= INTHREAD; "cleanup_flag" ::= 0; U (create_ "new_th" "a_thread_func");
     wait_while "sem1" INTHREAD; ret_if bad PTS_FAIL; "sem1" ::= INTHREAD; U (join "new_th" None);
     Return PTS_PASS])] [] [].
Definition cleanup_pop_1_1 : prog := pop_test true ("cleanup_flag" != 1)%pt.
Definition cleanup_pop_1_2 : prog := pop_test false ("cleanup_flag" == 1)%pt.

Definition logs_flag (f : string) (v : Z) : string * list stmt :=
  (f, [LElem "cleanup_flag" "i" ::= v; "i" ::= "i" + 1]).

Definition cleanup_pop_1_3 : prog := Prog
  [logs_flag "a_cleanup_func1" 1; logs_flag "a_cleanup_func2" 2; logs_flag "a_cleanup_func3" 3;
   ("a_thread_func",
    [ignore (cleanup_push "a_cleanup_func1"); ignore (cleanup_push "a_cleanup_func2");
     ignore (cleanup_push "a_cleanup_func3"); ignore (cleanup_pop true); ignore (cleanup_pop true);
     ignore (cleanup_pop true); Thread_exit 0]);
   ("main",
    ["i" ::= 0; While ("i" < 3)%pt [LElem "cleanup_flag" "i" ::= 0; "i" ::= "i" + 1]; "i" ::= 0;
     U (create_ "new_th" "a_thread_func"); U (join "new_th" None);
     ret_if ((Elem "cleanup_flag" 0 != 3) || (Elem "cleanup_flag" 1 != 2) || (Elem "cleanup_flag" 2 != 1))%pt
       PTS_FAIL;
     Return PTS_PASS])] [] [].

(** cleanup_push/1-1 and 1-3. *)
Definition push_test (body : list stmt) : prog := Prog
  [flag_func;
   ("a_thread_func", ignore (cleanup_push "a_cleanup_func") :: body);
   ("main",
    ["cleanup_flag" ::= 0; U (create_ "new_th" "a_thread_func"); U (join "new_th" None);
     ret_if ("cleanup_flag" != 1)%pt PTS_FAIL; Return PTS_PASS])] [] [].
Definition cleanup_push_1_1 : prog := push_test [Thread_exit 0; ignore (cleanup_pop false); Return 0].
Definition cleanup_push_1_3 : prog := push_test [ignore (cleanup_pop true); Thread_exit 0].

Definition cleanup_push_1_2 : prog := Prog
  [("a_cleanup_func", ["cleanup_flag" ::= 1; "sem1" ::= INMAIN]);
   ("a_thread_func",
    [ignore (setcancelstate true); ignore (setcanceltype true); ignore (cleanup_push "a_cleanup_func");
     "sem1" ::= INMAIN; wait_while "sem1" INMAIN; sleep 10; ignore (cleanup_pop false);
     Thread_exit PTS_UNRESOLVED]);
   ("main",
    ["sem1" ::= INTHREAD; "cleanup_flag" ::= 0; U (create_ "new_th" "a_thread_func");
     wait_while "sem1" INTHREAD; U (cancel "new_th"); "sem1" ::= INTHREAD;
     U (join "new_th" (Some (LVar "value_ptr"))); ret_if ("value_ptr" == PTS_UNRESOLVED)%pt PTS_UNRESOLVED;
     ret_if ("cleanup_flag" != 1)%pt PTS_FAIL; Return PTS_PASS])] [] [].

(** ** All of them *)

Definition cancel_tests : list prog :=
  [cancel_1_1; cancel_1_2; cancel_1_3; cancel_2_1; cancel_2_2; cancel_2_3; cancel_4_1; cancel_5_1;
   setcancelstate_1_1; setcancelstate_1_2; setcancelstate_2_1; setcanceltype_1_1; setcanceltype_1_2;
   setcanceltype_2_1; testcancel_1_1; testcancel_2_1; cleanup_pop_1_1; cleanup_pop_1_2;
   cleanup_pop_1_3; cleanup_push_1_1; cleanup_push_1_2; cleanup_push_1_3].
