(* ===== verification/PtAttrTests.v ===== *)
(** * The tests of attribute objects

    conformance/interfaces/pthread_attr_*, pthread_mutexattr_*, pthread_condattr_*,
    pthread_barrierattr_* and pthread_rwlockattr_*: the functions of all attribute
    objects are [attr_init], [attr_destroy], [attr_set] and [attr_get] here. *)

From stdpp Require Import base tactics numbers list gmap strings.
From S2P Require Import Prelude CLang PtLang PtSem PtRwlockTests PtThreadTests.

Open Scope Z_scope.

Definition PTHREAD_CREATE_JOINABLE : Z := 0.
Definition PTHREAD_CREATE_DETACHED : Z := 1.
Definition PTHREAD_PROCESS_PRIVATE : Z := 0.
Definition PTHREAD_PROCESS_SHARED : Z := 1.

Definition main_only (l : list stmt) : prog := Prog [("main", l)] [] [].

(** ** Programs that several tests share *)

(** attr_destroy/2-1, mutexattr_destroy/2-1, condattr_destroy/2-1 and
    rwlockattr_destroy/2-1; barrierattr_destroy/1-1 with FAIL for [destroy]. *)
Definition reinit (destroy_bad : Z) : prog := main_only
  [U (attr_init "attr"); check (attr_destroy "attr") (Returns destroy_bad); F (attr_init "attr"); Return PTS_PASS].
Definition attr_destroy_2_1 : prog := reinit PTS_UNRESOLVED.
Definition mutexattr_destroy_2_1 : prog := reinit PTS_UNRESOLVED.
Definition condattr_destroy_2_1 : prog := reinit PTS_UNRESOLVED.
Definition rwlockattr_destroy_2_1 : prog := reinit PTS_UNRESOLVED.
Definition barrierattr_destroy_1_1 : prog := reinit PTS_FAIL.

(** attr_destroy/3-1, mutexattr_destroy/1-1 and 3-1, condattr_destroy/1-1 and 3-1,
    rwlockattr_destroy/1-1. *)
Definition destroys : prog := main_only [U (attr_init "attr"); F (attr_destroy "attr"); Return PTS_PASS].
Definition attr_destroy_3_1 : prog := destroys.
Definition mutexattr_destroy_1_1 : prog := destroys.
Definition mutexattr_destroy_3_1 : prog := destroys.
Definition condattr_destroy_1_1 : prog := destroys.
Definition condattr_destroy_3_1 : prog := destroys.
Definition rwlockattr_destroy_1_1 : prog := destroys.

(** attr_init/4-1, mutexattr_init/3-1 and condattr_init/3-1. *)
Definition inits : prog := main_only
  [set_ (LLoc "rc") (attr_init "attr");
   If (Loc "rc" == 0)%pt [Return PTS_PASS]
     [If (Loc "rc" == num ENOMEM)%pt [Return PTS_UNRESOLVED] [Return PTS_FAIL]]].
Definition attr_init_4_1 : prog := inits.
Definition mutexattr_init_3_1 : prog := inits.
Definition condattr_init_3_1 : prog := inits.

(** The first value of a field: [init_bad] and [get_bad] are the codes when a call
    fails, [bad] that of another value. *)
Definition first_value (init_bad get_bad bad : Z) (fd : field) (v : Z) : prog := main_only
  [check (attr_init "attr") (Returns init_bad); check (attr_get "attr" fd (LLoc "x")) (Returns get_bad);
   If (Loc "x" == v)%pt [Return PTS_PASS] [Return bad]].
Definition attr_getdetachstate_1_1 : prog :=
  first_value PTS_UNRESOLVED PTS_FAIL PTS_FAIL Detachstate PTHREAD_CREATE_JOINABLE.
Definition attr_init_1_1 : prog :=
  first_value PTS_UNRESOLVED PTS_UNRESOLVED PTS_FAIL Detachstate PTHREAD_CREATE_JOINABLE.
Definition mutexattr_getpshared_1_1 : prog :=
  first_value PTS_UNRESOLVED PTS_UNRESOLVED PTS_FAIL Pshared PTHREAD_PROCESS_PRIVATE.
Definition mutexattr_setpshared_1_2 : prog :=
  first_value PTS_UNRESOLVED PTS_UNRESOLVED PTS_FAIL Pshared PTHREAD_PROCESS_PRIVATE.
Definition mutexattr_gettype_1_1 : prog := first_value PTS_UNRESOLVED PTS_UNRESOLVED PTS_FAIL Type_ 0.
Definition mutexattr_init_1_1 : prog :=
  first_value PTS_FAIL PTS_UNRESOLVED PTS_FAIL Pshared PTHREAD_PROCESS_PRIVATE.
Definition condattr_getpshared_2_1 : prog :=
  first_value PTS_UNRESOLVED PTS_UNRESOLVED PTS_FAIL Pshared PTHREAD_PROCESS_PRIVATE.
Definition condattr_init_1_1 : prog :=
  first_value PTS_FAIL PTS_UNRESOLVED PTS_FAIL Pshared PTHREAD_PROCESS_PRIVATE.
Definition rwlockattr_init_1_1 : prog :=
  first_value PTS_FAIL PTS_UNRESOLVED PTS_FAIL Pshared PTHREAD_PROCESS_PRIVATE.
Definition rwlockattr_getpshared_1_1 : prog :=
  first_value PTS_UNRESOLVED PTS_FAIL PTS_FAIL Pshared PTHREAD_PROCESS_PRIVATE.

(** barrierattr_init/1-1 and barrierattr_getpshared/1-1 destroy the object too. *)
Definition first_and_destroy (init_bad get_bad bad : Z) : prog := main_only
  [check (attr_init "ba") (Returns init_bad); check (attr_get "ba" Pshared (LLoc "pshared")) (Returns get_bad);
   ret_if (Loc "pshared" != PTHREAD_PROCESS_PRIVATE)%pt bad; U (attr_destroy "ba"); Return PTS_PASS].
Definition barrierattr_init_1_1 : prog := first_and_destroy PTS_FAIL PTS_UNRESOLVED PTS_FAIL.
Definition barrierattr_getpshared_1_1 : prog := first_and_destroy PTS_UNRESOLVED PTS_FAIL PTS_UNRESOLVED.

(** A value that is set is got. *)
Definition set_get (set_bad get_bad : Z) (fd : field) (v : Z) : list stmt :=
  [check (attr_set "attr" fd v) (Returns set_bad); check (attr_get "attr" fd (LLoc "x")) (Returns get_bad);
   ret_if (Loc "x" != v)%pt PTS_FAIL].
Definition set_gets (set_bad get_bad : Z) (fd : field) (vs : list Z) : prog := main_only
  ([U (attr_init "attr")] ++ rounds vs (set_get set_bad get_bad fd) ++ [Return PTS_PASS]).

Definition attr_getdetachstate_1_2 : prog :=
  set_gets PTS_UNRESOLVED PTS_FAIL Detachstate [PTHREAD_CREATE_DETACHED].
Definition attr_setdetachstate_1_1 : prog :=
  set_gets PTS_UNRESOLVED PTS_UNRESOLVED Detachstate [PTHREAD_CREATE_JOINABLE].
Definition attr_setdetachstate_1_2 : prog :=
  set_gets PTS_UNRESOLVED PTS_UNRESOLVED Detachstate [PTHREAD_CREATE_DETACHED].
(** PTHREAD_PRIO_NONE, PTHREAD_PRIO_INHERIT and PTHREAD_PRIO_PROTECT *)
Definition mutexattr_getprotocol_1_2 : prog := set_gets PTS_UNRESOLVED PTS_UNRESOLVED Protocol [0; 1; 2].
Definition mutexattr_setprotocol_1_1 : prog := set_gets PTS_UNRESOLVED PTS_UNRESOLVED Protocol [0; 1; 2].
Definition mutexattr_getpshared_1_2 : prog :=
  set_gets PTS_UNRESOLVED PTS_UNRESOLVED Pshared [PTHREAD_PROCESS_SHARED].
Definition mutexattr_getpshared_1_3 : prog :=
  set_gets PTS_UNRESOLVED PTS_UNRESOLVED Pshared [PTHREAD_PROCESS_PRIVATE].
Definition mutexattr_gettype_1_2 : prog := set_gets PTS_UNRESOLVED PTS_UNRESOLVED Type_ [0].
Definition mutexattr_gettype_1_3 : prog := set_gets PTS_UNRESOLVED PTS_UNRESOLVED Type_ [0].
Definition mutexattr_gettype_1_4 : prog := set_gets PTS_UNRESOLVED PTS_UNRESOLVED Type_ [2].
Definition mutexattr_gettype_1_5 : prog := set_gets PTS_UNRESOLVED PTS_UNRESOLVED Type_ [1].
Definition barrierattr_setpshared_1_1 : prog :=
  set_gets PTS_FAIL PTS_FAIL Pshared [PTHREAD_PROCESS_SHARED; PTHREAD_PROCESS_PRIVATE].

Definition rwlockattr_setpshared_1_1 : prog := main_only
  ([U (attr_init "attr")] ++
   rounds [PTHREAD_PROCESS_PRIVATE; PTHREAD_PROCESS_SHARED] (set_get PTS_FAIL PTS_UNRESOLVED Pshared) ++
   [U (attr_destroy "attr"); Return PTS_PASS]).

(** The 10 objects of the array are used one after the other. *)
Definition condattr_pshared (set_bad get_bad v : Z) : prog := main_only
  (for_ "i" 10 ([U (attr_init "attr")] ++ set_get set_bad get_bad Pshared v ++ [U (attr_destroy "attr")]) ++
   [Return PTS_PASS]).
Definition condattr_getpshared_1_1 : prog := condattr_pshared PTS_UNRESOLVED PTS_UNRESOLVED PTHREAD_PROCESS_PRIVATE.
Definition condattr_getpshared_1_2 : prog := condattr_pshared PTS_UNRESOLVED PTS_UNRESOLVED PTHREAD_PROCESS_SHARED.
Definition condattr_setpshared_1_1 : prog := condattr_pshared PTS_FAIL PTS_FAIL PTHREAD_PROCESS_PRIVATE.
Definition condattr_setpshared_1_2 : prog := condattr_pshared PTS_FAIL PTS_FAIL PTHREAD_PROCESS_SHARED.

(** An invalid value: attr_setdetachstate/4-1, and with the framework of the
    scheduling tests attr_setscope/4-1, attr_setinheritsched/4-1 and
    attr_setschedpolicy/4-1. *)
Definition attr_setdetachstate_4_1 : prog := main_only
  [U (attr_init "attr"); expect (attr_set "attr" Detachstate 1000000) (num EINVAL) (Returns PTS_FAIL); Return PTS_PASS].
Definition invalid_value (fd : field) : prog := main_only
  [XU (attr_init "attr"); expect (attr_set "attr" fd 999) (num EINVAL) (Exits PTS_FAIL); XU (attr_destroy "attr");
   Return PTS_PASS].
Definition attr_setscope_4_1 : prog := invalid_value Scope.
Definition attr_setinheritsched_4_1 : prog := invalid_value Inheritsched.
Definition attr_setschedpolicy_4_1 : prog := invalid_value Schedpolicy.

(** ** pthread_attr_* *)

Definition attr_destroy_1_1 : prog := Prog
  [exits_at_once;
   ("main",
    [U (attr_init "new_attr"); U (attr_destroy "new_attr");
     set_ (LLoc "ret") (create (Some (LVar "new_th")) (Some "new_attr") "a_thread_func");
     If (Loc "ret" == num EINVAL)%pt [Return PTS_PASS]
       [If ((Loc "ret" == num EPERM) || (Loc "ret" == num EAGAIN))%pt [Return PTS_UNRESOLVED]
          [If (Loc "ret" == 0)%pt [Return PTS_PASS] [Return PTS_FAIL]]]])] [] [].

Definition attr_init_2_1 : prog := Prog
  [("a_thread_func", ["sem1" ::= INTHREAD; sleep 5; Thread_exit PTS_FAIL]);
   ("main",
    ["sem1" ::= INMAIN; U (attr_init "new_attr");
     U (create (Some (LVar "new_th")) (Some "new_attr") "a_thread_func");
     While ("sem1" == INMAIN)%pt [sleep 1]; set_ (LLoc "ret_val") (detach "new_th");
     If (Loc "ret_val" != 0)%pt
       [If (Loc "ret_val" == num EINVAL)%pt [Return PTS_FAIL] [Return PTS_UNRESOLVED]] [];
     Return PTS_PASS])] [] [].

Definition attr_init_3_1 : prog := Prog
  [("a_thread_func", [Thread_exit 0]);
   ("main",
    [U (attr_init "new_attr")] ++
    for_ "i" 5
      [set_ (LLoc "ret") (create (Some (LElem "new_threads" (Loc "i"))) (Some "new_attr") "a_thread_func");
       If (Loc "ret" == num EINVAL)%pt [Return PTS_FAIL] [ret_if (Loc "ret" != 0)%pt PTS_UNRESOLVED]] ++
    [Return PTS_PASS])] [] [].

(** attr_setdetachstate/2-1 joins a detached thread that may have ended. *)
Definition attr_setdetachstate_2_1 : prog := Prog
  [exits_at_once;
   ("main",
    [U (attr_init "new_attr"); U (attr_set "new_attr" Detachstate PTHREAD_CREATE_DETACHED);
     U (create (Some (LVar "new_th")) (Some "new_attr") "a_thread_func");
     expect (join "new_th" None) (num EINVAL) (Returns PTS_FAIL);
     expect (detach "new_th") (num EINVAL) (Returns PTS_FAIL); Return PTS_PASS])] [] [].

(** getscope/1-1, getinheritsched/1-1 and setinheritsched/1-1: [verify] is the
    function of the program. *)
Definition verify (fd : field) (v : Z) : list stmt :=
  [XU (attr_get "attr" fd (LLoc "x")); exit_if (Loc "x" != v)%pt PTS_FAIL].
Definition attr_getscope_1_1 : prog := main_only
  ([XU (attr_init "attr")] ++
   rounds [0; 1] (λ v, [set_ (LLoc "rc") (attr_set "attr" Scope v); If (Loc "rc" == 0)%pt (verify Scope v) []]) ++
   [XU (attr_destroy "attr"); Return PTS_PASS]).
Definition inheritsched : prog := main_only
  ([XU (attr_init "attr")] ++
   rounds [0; 1] (λ v, XU (attr_set "attr" Inheritsched v) :: verify Inheritsched v) ++
   [XU (attr_destroy "attr"); Return PTS_PASS]).
Definition attr_getinheritsched_1_1 : prog := inheritsched.
Definition attr_setinheritsched_1_1 : prog := inheritsched.

Definition attr_setscope_1_1 : prog := Prog
  [("thread_func", [Thread_exit 0]);
   ("main",
    [XU (attr_init "attr"); XU (attr_set "attr" Scope 0);
     XU (create (Some (LVar "new_th")) (Some "attr") "thread_func");
     XU (attr_get "attr" Scope (LLoc "cscope")); exit_if (Loc "cscope" != 0)%pt PTS_FAIL;
     XU (join "new_th" None); XU (attr_destroy "attr"); Return PTS_PASS])] [] [].

Definition attr_setschedpolicy_1_1 : prog := Prog
  [("thread_func", [Thread_exit 0]);
   ("main",
    [U (attr_init "attr"); F (attr_set "attr" Schedpolicy 1);
     set_ (LLoc "rc") (create (Some (LVar "thread")) (Some "attr") "thread_func");
     If (Loc "rc" != 0)%pt [If (Loc "rc" == num EPERM)%pt [Return PTS_UNRESOLVED] [Return PTS_FAIL]] [];
     ignore (join "thread" (Some (LVar "status"))); ignore (attr_destroy "attr"); Return PTS_PASS])] [] [].

(** ** pthread_mutexattr_*, pthread_condattr_*, pthread_barrierattr_* and
    pthread_rwlockattr_* *)

Definition mutexattr_getprotocol_1_1 : prog := main_only
  [U (attr_init "mta"); F (attr_get "mta" Protocol (LLoc "protocol")); Return PTS_PASS].

(** setprotocol/3-1: the first value of [protocol] is -1, no protocol. ENOTSUP is 95. *)
Definition mutexattr_setprotocol_3_1 : prog := main_only
  [LLoc "protocol" ::= (-1)%Z; U (attr_init "mta");
   While ((Loc "protocol" == 0) || (Loc "protocol" == 1) || (Loc "protocol" == 2))%pt
     [LLoc "protocol" ::= Loc "protocol" - 1];
   set_ (LLoc "ret") (attr_set "mta" Protocol (Loc "protocol"));
   If ((Loc "ret" == 95) || (Loc "ret" == num EINVAL))%pt [Return PTS_PASS] [Return PTS_FAIL]].

(** Objects that were never initialised: mutexattr_setprotocol/3-2,
    mutexattr_setpshared/3-1 and 3-2. *)
Definition uninitialised (fd : field) (v : Z) : prog := main_only
  [set_ (LLoc "ret") (attr_set "mta" fd v);
   If ((Loc "ret" == num EINVAL) || (Loc "ret" == 0))%pt [Return PTS_PASS] [Return PTS_FAIL]].
Definition mutexattr_setprotocol_3_2 : prog := uninitialised Protocol 0.
Definition mutexattr_setpshared_3_1 : prog := uninitialised Pshared PTHREAD_PROCESS_PRIVATE.
Definition mutexattr_setpshared_3_2 : prog := uninitialised Pshared (-1).

Definition mutexattr_setpshared_1_1 : prog := main_only
  [U (attr_init "mta"); F (attr_set "mta" Pshared PTHREAD_PROCESS_PRIVATE);
   F (attr_set "mta" Pshared PTHREAD_PROCESS_SHARED); Return PTS_PASS].
Definition mutexattr_setpshared_2_1 : prog := main_only
  [U (attr_init "mta"); F (attr_set "mta" Pshared PTHREAD_PROCESS_PRIVATE); Return PTS_PASS].
Definition mutexattr_setpshared_2_2 : prog := main_only
  [U (attr_init "mta"); F (attr_set "mta" Pshared PTHREAD_PROCESS_SHARED); Return PTS_PASS].

(** CLOCK_REALTIME is 0, CLOCK_MONOTONIC 1. *)
Definition condattr_getclock_1_1 : prog := main_only
  [F (attr_init "condattr"); F (attr_get "condattr" Clock (LLoc "clockid")); Return PTS_PASS].
Definition condattr_getclock_1_2 : prog := main_only
  [F (attr_init "condattr"); U (attr_set "condattr" Clock 0); F (attr_get "condattr" Clock (LLoc "clockid"));
   Return PTS_PASS].
Definition condattr_setclock_1_1 : prog := main_only
  [F (attr_init "condattr"); F (attr_set "condattr" Clock 0); Return PTS_PASS].
(** setclock/1-2: [clock_getres] says that there is a monotonic clock. *)
Definition condattr_setclock_1_2 : prog := main_only
  [F (attr_init "condattr"); F (attr_set "condattr" Clock 1); Return PTS_PASS].
Definition condattr_setclock_2_1 : prog := main_only
  [F (attr_init "condattr"); set_ (LLoc "rc") (attr_set "condattr" Clock (-100));
   If (Loc "rc" != num EINVAL)%pt [Return PTS_PASS] []; Return PTS_PASS].
Definition condattr_setpshared_2_1 : prog := main_only
  [U (attr_init "attr"); set_ (LLoc "ret") (attr_set "attr" Pshared (-100));
   If (Loc "ret" != 0)%pt [If (Loc "ret" == num EINVAL)%pt [Return PTS_PASS] []; Return PTS_FAIL] [];
   U (attr_destroy "attr"); Return PTS_PASS].

Definition barrierattr_setpshared_2_1 : prog := main_only
  [LLoc "pshared" ::= PTHREAD_PROCESS_PRIVATE + 1;
   If (Loc "pshared" == PTHREAD_PROCESS_SHARED)%pt [LLoc "pshared" ::= Loc "pshared" + 1] [];
   U (attr_init "ba"); set_ (LLoc "rc") (attr_set "ba" Pshared (Loc "pshared")); Return PTS_PASS].

Definition rwlockattr_init_2_1 : prog := main_only
  [U (attr_init "rwa"); U (rwlock_init "rwl1"); U (rwlock_init "rwl2"); U (rwlock_rdlock "rwl1");
   U (attr_destroy "rwa"); F (rwlock_unlock "rwl1"); F (rwlock_rdlock "rwl2"); F (rwlock_unlock "rwl2");
   Return PTS_PASS].

(** ** All of them *)

Definition attr_tests : list prog :=
  [attr_destroy_2_1; attr_destroy_3_1; attr_getdetachstate_1_1; attr_getdetachstate_1_2; attr_init_1_1;
   attr_init_2_1; attr_init_3_1; attr_init_4_1; attr_setdetachstate_1_1; attr_setdetachstate_1_2;
   attr_setdetachstate_4_1; attr_getscope_1_1; attr_setscope_1_1; attr_setscope_4_1;
   attr_getinheritsched_1_1; attr_setinheritsched_1_1; attr_setinheritsched_4_1; attr_setschedpolicy_1_1;
   attr_setschedpolicy_4_1; mutexattr_destroy_1_1; mutexattr_destroy_2_1; mutexattr_destroy_3_1;
   mutexattr_getprotocol_1_1; mutexattr_getprotocol_1_2; mutexattr_setprotocol_1_1;
   mutexattr_setprotocol_3_1; mutexattr_getpshared_1_1; mutexattr_getpshared_1_2;
   mutexattr_getpshared_1_3; mutexattr_setpshared_1_1; mutexattr_setpshared_1_2;
   mutexattr_setpshared_2_1; mutexattr_setpshared_2_2; mutexattr_gettype_1_1; mutexattr_gettype_1_2;
   mutexattr_gettype_1_3; mutexattr_gettype_1_4; mutexattr_gettype_1_5; mutexattr_init_1_1;
   mutexattr_init_3_1; condattr_destroy_1_1; condattr_destroy_2_1; condattr_destroy_3_1;
   condattr_getclock_1_1; condattr_getclock_1_2; condattr_getpshared_1_1; condattr_getpshared_1_2;
   condattr_getpshared_2_1; condattr_init_1_1; condattr_init_3_1; condattr_setclock_1_1;
   condattr_setclock_1_2; condattr_setclock_2_1; condattr_setpshared_1_1; condattr_setpshared_1_2;
   condattr_setpshared_2_1; barrierattr_destroy_1_1; barrierattr_init_1_1; barrierattr_getpshared_1_1;
   barrierattr_setpshared_1_1; barrierattr_setpshared_2_1; rwlockattr_destroy_1_1;
   rwlockattr_destroy_2_1; rwlockattr_init_1_1; rwlockattr_init_2_1; rwlockattr_setpshared_1_1;
   rwlockattr_getpshared_1_1].
