(* ===== verification/PtScenarioTests.v ===== *)
(** * The tests of pthread_exit and pthread_join with tables of attributes

    conformance/interfaces/pthread_exit/{1,2,3}-2.c, 4-1.c, 5-1.c and pthread_join/1-2.c, 4-1.c:
    a thread for each row of the table of threads_scenarii.c that is not detached. The
    loops over the rows are unrolled; [ta i] and [sem i] are the objects of row [i]. *)

From stdpp Require Import base tactics numbers list pretty gmap strings.
From S2P Require Import Prelude CLang PtLang PtSem Scenarii.

Open Scope Z_scope.

Definition ta (i : nat) : string := "ta" +:+ pretty i.
Definition sem (i : nat) : string := "sem" +:+ pretty i.

Definition SCHED_FIFO : Z := 1.
Definition SCHED_RR : Z := 2.
Definition pagesize : Z := 4096.
Definition minstacksize : Z := 16384.
Definition sched_get_priority_max (policy : exp string) : exp string := Op (λ p _, if p =? 0 then 0 else 99) policy (Num 0).
Definition sched_get_priority_min (policy : exp string) : exp string := Op (λ p _, if p =? 0 then 0 else 1) policy (Num 0).

(** ** scenar_init and scenar_fini

    On a system with the options for stacks and priorities. *)

Definition init_detachstate (i : nat) (c : scenario) : list stmt :=
  if detached c =? 1 then [XU (attr_set (ta i) Detachstate 1)]
  else [XU (attr_get (ta i) Detachstate "old"); exit_if ("old" != 0)%pt PTS_FAIL].

Definition init_sched (i : nat) (c : scenario) : list stmt :=
  [XU (attr_set (ta i) Inheritsched (if explicitsched c =? 1 then 1 else 0))] ++
  (if schedpolicy c =? 1 then [XU (attr_set (ta i) Schedpolicy SCHED_FIFO)] else []) ++
  (if schedpolicy c =? 2 then [XU (attr_set (ta i) Schedpolicy SCHED_RR)] else []) ++
  if schedparam c =? 0 then []
  else [XU (attr_get (ta i) Schedpolicy "old")] ++
    (if schedparam c =? 1 then ["sp.sched_priority" ::= sched_get_priority_max "old"] else []) ++
    (if schedparam c =? -1 then ["sp.sched_priority" ::= sched_get_priority_min "old"] else []) ++
    [XU (attr_set (ta i) Schedparam "sp.sched_priority")].

(** PTHREAD_SCOPE_SYSTEM is 0, PTHREAD_SCOPE_PROCESS is 1. *)
Definition init_scope (i : nat) (c : scenario) : list stmt :=
  [XU (attr_get (ta i) Scope "old")] ++
  if altscope c =? 0 then []
  else [If ("old" == 1)%pt ["old" ::= 0] ["old" ::= 1]; ignore (attr_set (ta i) Scope "old")].

(** [malloc] gives each row another address. *)
Definition init_stack (i : nat) (c : scenario) : list stmt :=
  (if altstack c =? 0 then []
   else [XU (attr_set (ta i) Stack (Z.of_nat i + 1)); XU (attr_set (ta i) Stacksize minstacksize)]) ++
  (if guard c =? 1 then [XU (attr_set (ta i) Guardsize 0)] else []) ++
  (if guard c =? 2 then [XU (attr_set (ta i) Guardsize pagesize)] else []) ++
  if altsize c =? 0 then [] else [XU (attr_set (ta i) Stacksize minstacksize)].

Definition scenar_init (l : list scenario) : list stmt :=
  concat (imap (λ i c, [XU (attr_init (ta i))] ++ init_detachstate i c ++ init_sched i c ++ init_scope i c ++
                       init_stack i c ++ [XU (sem_init (sem i) 0)]) l).

Definition scenar_fini (l : list scenario) : list stmt :=
  concat (imap (λ i _, [XU (sem_destroy (sem i)); XU (attr_destroy (ta i))]) l).

(** [pthread_create] for a row, and [body] if it was successful. *)
Definition create_row (i : nat) (c : scenario) (f : string) (body : list stmt) : list stmt :=
  [set_ "ret" (create (Some (LVar "child")) (Some (ta i)) f)] ++
  (if result c =? 0 then [exit_if ("ret" != 0)%pt PTS_UNRESOLVED]
   else if result c =? 1 then [exit_if ("ret" == 0)%pt PTS_UNRESOLVED] else []) ++
  [If ("ret" == 0)%pt body []].

(** The rows that are not detached, with [reset] before each. *)
Definition joinable_rows (reset : list stmt) (f : string) (body : list stmt) : list stmt :=
  concat (imap (λ i c, if detached c =? 0 then reset ++ create_row i c f body else []) scenarii).

(** [pthread_join] must give back what the thread returned. *)
Definition joins_value : list stmt :=
  [XU (join "child" (Some (LVar "rval"))); exit_if ("rval" != 1)%pt PTS_FAIL].

(** ** pthread_exit *)

Definition exit_1_2 : prog := Prog
  [("threaded", [Thread_exit 1; Exit PTS_FAIL]);
   ("main", scenar_init scenarii ++ joinable_rows [] "threaded" joins_value ++ scenar_fini scenarii ++ [Exit PTS_PASS])] [] [].

(** The handler [clnpn]. *)
Definition CLEANUP (n : Z) : string * list stmt :=
  ("clnp" +:+ pretty n, [LElem "tab" "global" ::= n; "global" ::= "global" + 1]).
Definition reset_tab (n : nat) : list stmt := rounds (seq 0 n) (λ j, [LElem "tab" (Z.of_nat j) ::= 0]) ++ ["global" ::= 0].

Definition exit_2_2 : prog := Prog
  [CLEANUP 1; CLEANUP 2; CLEANUP 3;
   ("threaded",
    [ignore (cleanup_push "clnp3"); ignore (cleanup_push "clnp2"); ignore (cleanup_push "clnp1"); Thread_exit 1;
     ignore (cleanup_pop false); ignore (cleanup_pop false); ignore (cleanup_pop false); Exit PTS_FAIL]);
   ("main",
    scenar_init scenarii ++
    joinable_rows (reset_tab 3) "threaded"
      (joins_value ++ rounds [0; 1; 2] (λ j, [exit_if (Elem "tab" j != j + 1)%pt PTS_FAIL])) ++
    scenar_fini scenarii ++ [Exit PTS_PASS])] [] [].

(** The value of all keys is the address of [tab[3]]. *)
Definition exit_3_2 : prog := Prog
  [CLEANUP 1; CLEANUP 2; CLEANUP 3;
   ("destructor", [LElem "tab" 3 ::= Elem "tab" 3 + "global"]);
   ("threaded",
    [XU (setspecific "tld0" 1); ignore (cleanup_push "clnp3"); ignore (cleanup_push "clnp2");
     XU (setspecific "tld1" 1); ignore (cleanup_push "clnp1"); XU (setspecific "tld2" 1); Thread_exit 1;
     ignore (cleanup_pop false); ignore (cleanup_pop false); ignore (cleanup_pop false); Exit PTS_FAIL]);
   ("main",
    scenar_init scenarii ++ rounds ["tld0"; "tld1"; "tld2"]%string (λ k, [XU (key_create k (Some "destructor"))]) ++
    joinable_rows (reset_tab 4) "threaded"
      (joins_value ++ rounds [0; 1; 2] (λ j, [exit_if ((Elem "tab" j != j + 1) || (Elem "tab" 3 != 9))%pt PTS_FAIL])) ++
    rounds ["tld0"; "tld1"; "tld2"]%string (λ k, [XU (key_delete k)]) ++ scenar_fini scenarii ++ [Exit PTS_PASS])] [] [].

Definition exit_4_1 : prog := Prog
  [("at2", ["global" ::= "global" + 2]);
   ("threaded", [XU (atexit "at2"); Thread_exit 1; Exit PTS_FAIL]);
   ("main",
    ["global" ::= 0] ++ scenar_init scenarii ++
    joinable_rows [] "threaded" (joins_value ++ [exit_if ("global" != 0)%pt PTS_FAIL]) ++
    scenar_fini scenarii ++ [Exit PTS_PASS])] [] [].

(** The value of all keys is the address of [ctl]. *)
Definition exit_5_1 : prog := Prog
  [("at2", ["atctl" ::= "atctl" + 2]);
   ("destructor", ["ctl" ::= "ctl" + 1]);
   ("threaded",
    [XU (atexit "at2"); XU (setspecific "tld0" 1); XU (setspecific "tld1" 1); XU (setspecific "tld2" 1); Return 1]);
   ("main",
    ["atctl" ::= 0] ++ scenar_init scenarii ++
    rounds ["tld0"; "tld1"; "tld2"]%string (λ k, [XU (key_create k (Some "destructor"))]) ++
    joinable_rows ["ctl" ::= 0] "threaded"
      (joins_value ++ [exit_if ("atctl" != 0)%pt PTS_FAIL; exit_if ("ctl" != 3)%pt PTS_FAIL]) ++
    rounds ["tld0"; "tld1"; "tld2"]%string (λ k, [XU (key_delete k)]) ++ scenar_fini scenarii ++ [Exit PTS_PASS])] [] [].

(** ** pthread_join *)

(** Neither the detach state nor semaphores. *)
Definition join_scenar_init : list stmt :=
  concat (imap (λ i c, [XU (attr_init (ta i))] ++ init_sched i c ++ init_scope i c ++ init_stack i c) join_scenarii).
Definition join_scenar_fini : list stmt := concat (imap (λ i _, [XU (attr_destroy (ta i))]) join_scenarii).

(** The times are in microseconds; [sched_yield] does nothing that a scheduler could not do. *)
Definition join_1_2 : prog := Prog
  [("threaded", for_ "i" 10 [] ++ [XU (gettime "ts_th")]);
   ("main",
    join_scenar_init ++
    concat (imap (λ i c, [XU (gettime "ts_pre")] ++ create_row i c "threaded"
      [XU (join "child" None); XU (gettime "ts_post"); exit_if ("ts_th" < "ts_pre")%pt PTS_FAIL;
       exit_if ("ts_post" < "ts_th")%pt PTS_FAIL]) join_scenarii) ++
    join_scenar_fini ++ [Exit PTS_PASS])] [] [].

Definition join_4_1 : prog := Prog
  [("threaded", [XU (mutex_lock "mtx"); XU (mutex_unlock "mtx")]);
   ("joiner_func", [ignore (join "child" None); Exit PTS_FAIL]);
   ("main",
    join_scenar_init ++
    concat (imap (λ i c, [XU (mutex_lock "mtx"); set_ "ret" (create (Some (LVar "child")) (Some (ta i)) "threaded")] ++
      (if result c =? 0 then [exit_if ("ret" != 0)%pt PTS_UNRESOLVED]
       else if result c =? 1 then [exit_if ("ret" == 0)%pt PTS_UNRESOLVED] else []) ++
      [If ("ret" == 0)%pt
         [XU (create (Some (LVar "joiner")) None "joiner_func"); XU (cancel "joiner"); XU (join "joiner" None);
          XU (mutex_unlock "mtx"); XF (join "child" None)]
         [XU (mutex_unlock "mtx")]]) join_scenarii) ++
    join_scenar_fini ++ [Exit PTS_PASS])] ["mtx"%string] [].

(** ** All of them *)

Definition scenario_tests : list prog := [exit_1_2; exit_2_2; exit_3_2; exit_4_1; exit_5_1; join_1_2; join_4_1].
