(* ===== verification/EintrTests.v ===== *)
(** * Tests that no call returns EINTR

    Nineteen files of conformance/interfaces (pthread_equal/2-1.c, pthread_mutex_lock/3-1.c,
    pthread_cond_wait/4-1.c and others) have the same form: two threads [sendsig] send SIGUSR1
    and SIGUSR2 as fast as the handlers [sighdl1] and [sighdl2] post semaphores for the next
    signal, other threads use an interface again and again as long as [do_it] is set, and
    [main] sleeps, resets [do_it] and joins all of them. Here is what they share: [main], the
    senders and the handlers, over any group of threads that use an interface. What the group
    promises is the record [lawful]; the theorem at the end holds for every lawful group.

    A signal that is pending for the process is handled at any later time in a thread that does
    not block it; but when [pthread_sigmask] has unblocked signals that are pending, it does not
    return before one of them has been handled (pthread_sigmask/assertions.xml, 9). *)

From stdpp Require Import base tactics numbers list strings relations.
From S2P Require Import Prelude.

Open Scope Z_scope.

(** ** Groups of threads *)

(** What a call returns: [Ok] that it did what it has to do; [Late] that it timed out; [Early]
    that it woke up without reason; [Err e] that it failed. *)
Inductive res : Set := Ok | Late | Early | Err (e : errno).

(** What the group sees of the rest: [do_it]; whether [main] has posted [semsync]; how many of
    its threads [main] has created. *)
Record env : Set := Env { do_it : bool; synced : bool; created : nat }.

(** A step of the group; [Posts]: the handler of SIGUSR1 has run in it; [Exits]: the process exits. *)
Inductive outcome (W : Type) : Type := Goes (w : W) | Posts (w : W) | Exits (c : Z).
Arguments Goes {W}. Arguments Posts {W}. Arguments Exits {W}.

(** [g_masks]: a thread calls [pthread_sigmask]; [g_open]: a thread does not block the two signals;
    [g_handles]: the handler of a signal is installed; [g_gone]: a thread that [main] has created
    has ended. *)
Record group := Group {
  W : Type;
  g_size : nat;
  g_start : W;
  g_step : env → nat → res → W → option (outcome W);
  g_masks : nat → W → bool;
  g_open : W → bool;
  g_handles : nat → W → bool;
  g_gone : nat → W → bool }.

(** ** The program *)

(** A statement of [main]; [Prepare] is a call that initialises or destroys something, by its name. *)
Inductive mcall : Set :=
| Prepare (name : string) | Create (k : nat) | Create_sender (i : nat) | Sleep | Stop
| Join_sender (i : nat) | Post_sync | Join (k : nat).

#[export] Instance mcall_eq_dec : EqDecision mcall.
Proof. solve_decision. Defined.

(** A test: its group; whether the senders block the signals and send them to the process, or send
    them to the first thread of the group; the calls of [main] before it creates threads; whether it
    posts [semsync]; the order in which it joins the group; what it calls then. *)
Record test := Test {
  t_group : group; t_masks : bool; t_prepare : list string; t_sync : bool; t_joins : list nat; t_fini : list string }.

Definition front (t : test) : list mcall :=
  (Prepare <$> t_prepare t) ++ (Create <$> seq 0 (g_size (t_group t))) ++ [Create_sender 0; Create_sender 1; Sleep].
Definition joins_senders (t : test) : list mcall :=
  [Join_sender 0; Join_sender 1] ++ (if t_sync t then [Post_sync] else []).
Definition back (t : test) : list mcall := (Join <$> t_joins t) ++ (Prepare <$> t_fini t).
Definition main (t : test) : list mcall := front t ++ [Stop] ++ joins_senders t ++ back t.

(** Where a sender is; [Waits]: in [sem_wait]. *)
Inductive splace : Set := Absent | Masks | Tests | Waits | Kills | Gone.

Inductive ending : Set := Exit (c : Z) | Killed (i : nat).

#[export] Instance splace_eq_dec : EqDecision splace.
Proof. solve_decision. Defined.

(** [todo] is what [main] has still to do; [sems] are [semsig1] and [semsig2], [pend] the pending
    signals. [count_ope] and [count_sig] are only printed. *)
Record state (t : test) := State {
  todo : list mcall; view : env; senders : list splace; sems : list Z; pend : list bool;
  grp : W (t_group t); code : option ending }.
Arguments State {t}. Arguments todo {t}. Arguments view {t}. Arguments senders {t}. Arguments sems {t}.
Arguments pend {t}. Arguments grp {t}. Arguments code {t}.

(** [Unblocks k i r]: thread [k] calls [pthread_sigmask], and handles signal [i] before the call
    returns, with [r] from [sem_post]. *)
Inductive event : Set :=
| Main (r : res) | Sender (i : nat) (r : res) | Worker (k : nat) (r : res) | Handler (i : nat) (r : res)
| Unblocks (k i : nat) (r : res).

Section Steps.
Context {t : test}.
Implicit Types s : state t.

Definition with_todo l s := State l (view s) (senders s) (sems s) (pend s) (grp s) (code s).
Definition with_view e s := State (todo s) e (senders s) (sems s) (pend s) (grp s) (code s).
Definition with_sender i p s := State (todo s) (view s) (<[i := p]> (senders s)) (sems s) (pend s) (grp s) (code s).
Definition with_sem i v s := State (todo s) (view s) (senders s) (<[i := v]> (sems s)) (pend s) (grp s) (code s).
Definition with_pend i b s := State (todo s) (view s) (senders s) (sems s) (<[i := b]> (pend s)) (grp s) (code s).
Definition with_grp (w : W (t_group t)) s : state t := State (todo s) (view s) (senders s) (sems s) (pend s) w (code s).
Definition ends c s := State (todo s) (view s) (senders s) (sems s) (pend s) (grp s) (Some c).

(** A call with [UNRESOLVED] when it fails. *)
Definition call (r : res) s (s' : option (state t)) : option (state t) :=
  match r with Ok => s' | Err _ => Some (ends (Exit PTS_UNRESOLVED) s) | _ => None end.

Definition main_step (r : res) s : option (state t) :=
  match todo s with
  | [] => Some (ends (Exit PTS_PASS) s)
  | c :: l =>
      let s' := with_todo l s in let e := view s in
      match c with
      | Prepare _ => call r s (Some s')
      | Create _ => call r s (Some (with_view (Env (do_it e) (synced e) (S (created e))) s'))
      | Create_sender i => call r s (Some (with_sender i (if t_masks t then Masks else Tests) s'))
      | Sleep => Some s'
      | Stop => Some (with_view (Env false (synced e) (created e)) s')
      | Join_sender i => call r s (match senders s !! i with Some Gone => Some s' | _ => None end)
      | Post_sync => call r s (Some (with_view (Env (do_it e) true (created e)) s'))
      | Join k => call r s (if g_gone _ k (grp s) then Some s' else None)
      end
  end.

(** [sendsig]. *)
Definition sender_step (i : nat) (r : res) s : option (state t) :=
  p ← senders s !! i;
  match p with
  | Absent | Gone => None
  | Masks => call r s (Some (with_sender i Tests s))
  | Tests => Some (with_sender i (if do_it (view s) then Waits else Gone) s)
  | Waits => v ← sems s !! i; call r s (if 0 <? v then Some (with_sem i (v - 1) (with_sender i Kills s)) else None)
  | Kills => call r s (Some (with_pend i true (with_sender i Tests s)))
  end.

(** [sighdl1] and [sighdl2] run in any thread that takes the signal; without a handler the signal
    ends the process. *)
Definition handler_step (i : nat) (r : res) s : option (state t) :=
  b ← pend s !! i; v ← sems s !! i;
  if b && g_open _ (grp s)
  then if g_handles _ i (grp s) then call r s (Some (with_sem i (v + 1) (with_pend i false s)))
       else Some (ends (Killed i) s)
  else None.

Definition worker_step (k : nat) (r : res) s : option (state t) :=
  o ← g_step (t_group t) (view s) k r (grp s);
  match o with
  | Goes w => Some (with_grp w s)
  | Posts w => Some (with_sem 0 (default 0 (sems s !! 0%nat) + 1) (with_grp w s))
  | Exits c => Some (ends (Exit c) s)
  end.

(** A call of [pthread_sigmask] returns at once when no signal is pending that is not blocked then. *)
Definition waiting s : bool := existsb id (pend s).
Definition unblocking (k : nat) (r : res) s : bool := match r with Ok => g_masks _ k (grp s) | _ => false end.
Definition thread_step (k : nat) (r : res) s : option (state t) :=
  s' ← worker_step k r s;
  if unblocking k r s && g_open _ (grp s') && waiting s' then None else Some s'.
Definition unblock_step (k i : nat) (r : res) s : option (state t) :=
  if unblocking k Ok s then s' ← worker_step k Ok s; handler_step i r s' else None.

Definition next (e : event) s : option (state t) :=
  match code s with
  | Some _ => None
  | None =>
      match e with
      | Main r => main_step r s
      | Sender i r => sender_step i r s
      | Worker k r => thread_step k r s
      | Handler i r => handler_step i r s
      | Unblocks k i r => unblock_step k i r s
      end
  end.

Fixpoint runs (es : list event) s : option (state t) :=
  match es with [] => Some s | e :: es => s' ← next e s; runs es s' end.

(** [sem_init] gives both semaphores the value 1. *)
Definition start : state t :=
  State (main t) (Env true false 0) [Absent; Absent] [1; 1] [false; false] (g_start _) None.
End Steps.

Definition res_of (e : event) : res := match e with Main r | Sender _ r | Worker _ r | Handler _ r | Unblocks _ _ r => r end.
(** No call fails; wakeups without reason are allowed, or not. *)
Definition conforms (r : res) : Prop := match r with Err _ => False | _ => True end.
Definition good (r : res) : Prop := r = Ok ∨ r = Late.

(** ** What a group promises *)

Inductive gstep (g : group) (e : env) (w w' : W g) : Prop :=
| gstep_intro k r : good r → g_step g e k r w = Some (Goes w') ∨ g_step g e k r w = Some (Posts w') → gstep g e w w'.

(** [l_alive d w]: the group can still take a signal, [do_it] being [d]. *)
Record lawful (sync : bool) (g : group) := Lawful {
  l_inv : env → W g → Prop;
  l_alive : bool → W g → bool;
  l_start : l_inv (Env true false 0) (g_start g);
  l_create d y n w : l_inv (Env d y n) w → (n < g_size g)%nat → l_inv (Env d y (S n)) w;
  l_stop d y n w : l_inv (Env d y n) w → l_inv (Env false y n) w;
  l_post d y n w : l_inv (Env d y n) w → l_inv (Env d true n) w;
  (** Its steps keep the invariant, and what has ended stays so. *)
  l_step e k r w w' : l_inv e w → g_step g e k r w = Some (Goes w') ∨ g_step g e k r w = Some (Posts w') →
    l_inv e w' ∧ ∀ j, g_gone g j w = true → g_gone g j w' = true;
  (** It exits only when a call fails, and with PTS_FAIL only when one returned EINTR. *)
  l_exits e k r w c : l_inv e w → g_step g e k r w = Some (Exits c) →
    ¬ conforms r ∧ (c = PTS_UNRESOLVED ∨ c = PTS_FAIL ∧ r = Err EINTR);
  (** It can take signals while [do_it] is set, or until [semsync] is posted. *)
  l_alive_on e w : l_inv e w → do_it e = true → l_alive true w = true;
  l_alive_sync e w : l_inv e w → sync = true → synced e = false → l_alive (do_it e) w = true;
  l_opens e w : l_inv e w → created e = g_size g → l_alive (do_it e) w = true →
    ∃ w', rtc (gstep g e) w w' ∧ g_open g w' = true ∧ ∀ i, (i < 2)%nat → g_handles g i w' = true;
  (** The handlers are installed when [pthread_sigmask] unblocks the signals. *)
  l_masks e k w w' : l_inv e w → g_masks g k w = true → g_step g e k Ok w = Some (Goes w') ∨ g_step g e k Ok w = Some (Posts w') →
    ∀ i, (i < 2)%nat → g_handles g i w' = true;
  (** After that it takes none. *)
  l_dead e w : l_inv e w → do_it e = false → l_alive false w = false →
    g_open g w = false ∧
    ∀ k r o, g_step g e k r w = Some o → conforms r → ∃ w', o = Goes w' ∧ l_alive false w' = false;
  (** Its threads can end when [main] wants them to. *)
  l_finishes e w : l_inv e w → do_it e = false → synced e = sync → created e = g_size g →
    ∃ w', rtc (gstep g e) w w' ∧ ∀ k, (k < g_size g)%nat → g_gone g k w' = true }.
Arguments l_inv {sync g}. Arguments l_alive {sync g}.

(** ** Every schedule *)

Section Schedules.
Context {t : test} (L : lawful (t_sync t) (t_group t)).
Context (Hjoins : Forall (λ k, k < g_size (t_group t))%nat (t_joins t)).
Implicit Types s : state t.

(** Where [main] is, with what it has done. *)
Fixpoint creates (l : list mcall) : nat :=
  match l with [] => 0 | Create _ :: l => S (creates l) | _ :: l => creates l end.
Inductive mplace (s : state t) : Prop :=
| Before l l' : front t = l ++ l' → todo s = l' ++ Stop :: joins_senders t ++ back t →
    view s = Env true false (creates l) →
    (∀ i, (i < 2)%nat → (senders s !! i = Some Absent ↔ Create_sender i ∉ l)) → mplace s
| After l l' : joins_senders t ++ back t = l ++ l' → todo s = l' →
    view s = Env false (bool_decide (Post_sync ∈ l)) (g_size (t_group t)) →
    (∀ i, (i < 2)%nat → senders s !! i ≠ Some Absent) →
    (∀ i, (i < 2)%nat → Join_sender i ∈ l → senders s !! i = Some Gone) →
    (∀ k, Join k ∈ l → g_gone _ k (grp s) = true) → mplace s.

(** A signal that a sender has taken from its semaphore is on its way, or waits to be handled. *)
Definition token s : Prop := ∀ i p v b,
  senders s !! i = Some p → sems s !! i = Some v → pend s !! i = Some b → 0 ≤ v ∧ (1 ≤ v ∨ b = true ∨ p = Kills).

Record inv s : Prop := {
  i_senders : length (senders s) = 2%nat;
  i_sems : length (sems s) = 2%nat;
  i_pend : length (pend s) = 2%nat;
  i_grp : l_inv L (view s) (grp s);
  i_token : token s;
  i_place : mplace s;
  i_code : code s = Some (Exit PTS_PASS) → todo s = [] }.

Lemma creates_app l l' : creates (l ++ l') = (creates l + creates l')%nat.
Proof. induction l as [|[] l IH]; simpl; lia. Qed.

Lemma creates_prepare (l : list string) : creates (Prepare <$> l) = 0%nat.
Proof. by induction l. Qed.

Lemma creates_create l : creates (Create <$> l) = length l.
Proof. induction l as [|k l IH]; [done|]. cbn. by rewrite IH. Qed.

Lemma front_creates : creates (front t) = g_size (t_group t).
Proof. unfold front. rewrite !creates_app, creates_prepare, creates_create, length_seq. cbn. lia. Qed.

Lemma front_sender i : (i < 2)%nat → Create_sender i ∈ front t.
Proof. intros Hi. unfold front. rewrite !elem_of_app. right. right. destruct i as [|[|]]; [set_solver..|lia]. Qed.

Lemma front_elem c : c ∈ front t →
  match c with Prepare _ | Create _ | Sleep => True | Create_sender i => (i < 2)%nat | _ => False end.
Proof.
  unfold front. rewrite !elem_of_app, !list_elem_of_fmap, !elem_of_cons, elem_of_nil.
  intros [(n & -> & _)|[(k & -> & _)|[->|[->|[->|[]]]]]]; simpl; lia || done.
Qed.

(** [main] creates each sender once. *)
Lemma sender_once i l l' : (i < 2)%nat → front t = l ++ Create_sender i :: l' → Create_sender i ∉ l.
Proof.
  intros Hi Hf (l1 & l2 & ->)%list_elem_of_split.
  assert (length (filter (eq (Create_sender i)) (front t)) = 1%nat) as Hone.
  { unfold front. rewrite !filter_app, !length_app.
    assert (∀ l : list string, filter (eq (Create_sender i)) (Prepare <$> l) = []) as ->; [by intros l0; induction l0|].
    assert (∀ l : list nat, filter (eq (Create_sender i)) (Create <$> l) = []) as ->; [by intros l0; induction l0|].
    destruct i as [|[|]]; [done..|lia]. }
  rewrite Hf, !filter_app, !filter_cons_True, !length_app in Hone by done. simpl in Hone. lia.
Qed.

Lemma rest_elem c : c ∈ joins_senders t ++ back t →
  match c with
  | Prepare _ => True | Join_sender i => (i < 2)%nat | Post_sync => t_sync t = true
  | Join k => (k < g_size (t_group t))%nat | _ => False
  end.
Proof.
  unfold joins_senders, back. rewrite !elem_of_app, !list_elem_of_fmap, !elem_of_cons, elem_of_nil.
  intros [[[->|[->|[]]]|H]|[(k & -> & Hk)|(n & -> & _)]]; simpl; [lia|lia| | |done].
  - destruct (t_sync t); [|by apply elem_of_nil in H]. by apply list_elem_of_singleton in H as ->.
  - by eapply Forall_forall in Hjoins.
Qed.

Lemma start_inv : inv start.
Proof.
  split; cbn; try done.
  - apply (l_start _ _ L).
  - intros i p v b Hp Hv Hb. destruct i as [|[|]]; simplify_eq/=; lia.
  - apply (Before _ [] (front t)); [done..|]. intros [|[|]] Hi; cbn; [set_solver..|lia].
Qed.

Lemma ends_inv s c : inv s → c ≠ Exit PTS_PASS → inv (ends c s).
Proof.
  intros [Hs Hv Hp Hg Ht Hm Hc] Hne. split; cbn; try done; [|congruence].
  destruct Hm as [l l' H1 H2 H3 H4|l l' H1 H2 H3 H4 H5 H6]; [by apply (Before _ l l')|by apply (After _ l l')].
Qed.

Lemma call_inv r s (s1 : option (state t)) s' : inv s → (∀ s2, s1 = Some s2 → inv s2) → call r s s1 = Some s' → inv s'.
Proof. intros Hi H1 H. destruct r; simplify_eq/=; [by apply H1|by apply ends_inv]. Qed.

(** In the first part of [main]. *)
Lemma before_inv c rest l l' s s' :
  inv s → front t = l ++ c :: l' → todo s = (c :: l') ++ rest → rest = Stop :: joins_senders t ++ back t →
  todo s' = l' ++ rest → view s' = Env true false (creates (l ++ [c])) →
  (∀ i, (i < 2)%nat → (senders s' !! i = Some Absent ↔ Create_sender i ∉ l ++ [c])) →
  length (senders s') = 2%nat → l_inv L (view s') (grp s') →
  (∀ i p, senders s' !! i = Some p → senders s !! i = Some p ∨ p ≠ Kills ∧ senders s !! i = Some Absent) →
  sems s' = sems s → pend s' = pend s → code s' = code s → code s = None → inv s'.
Proof.
  intros [Hs Hv Hp Hg Ht Hm Hc] Hf Htd -> Htd' Hvw Hsn Hln Hg' Hsub E1 E2 E3 E4.
  split; [done|by rewrite E1|by rewrite E2|done| | |by rewrite E3, E4].
  - intros i p v b Hi. rewrite E1, E2. intros Hvi Hb. destruct (Hsub i p Hi) as [Hi'|[Hk Hi']].
    + by eapply Ht.
    + destruct (Ht i Absent v b Hi' Hvi Hb) as [? [?|[?|?]]]; try done; auto.
  - apply (Before _ (l ++ [c]) l'); [by rewrite <- app_assoc|done..].
Qed.

Lemma before_step r s s' l c l' :
  inv s → code s = None → front t = l ++ c :: l' → todo s = (c :: l') ++ Stop :: joins_senders t ++ back t →
  view s = Env true false (creates l) →
  (∀ i, (i < 2)%nat → (senders s !! i = Some Absent ↔ Create_sender i ∉ l)) →
  main_step r s = Some s' → inv s'.
Proof.
  intros Hi Hn Hf Htd Hvw Hsn. unfold main_step. rewrite Htd. cbn [app].
  pose proof (front_elem c) as Hc. rewrite Hf in Hc. specialize (Hc ltac:(apply elem_of_app; right; constructor)).
  pose proof (i_senders _ Hi) as Hs. pose proof (i_grp _ Hi) as Hg.
  destruct c as [n|k|i| | |i| |k]; try done; cbn.
  - apply call_inv; [done|]. intros s2 [= <-]. eapply (before_inv (Prepare n)); try done; cbn; auto.
    + rewrite creates_app. cbn. by rewrite Nat.add_0_r.
    + intros i Hi2. rewrite Hsn, not_elem_of_app, list_elem_of_singleton by done. intuition congruence.
  - apply call_inv; [done|]. intros s2 [= <-]. eapply (before_inv (Create k)); try done; cbn; auto.
    + rewrite Hvw, creates_app. cbn. f_equal. lia.
    + intros i Hi2. rewrite Hsn, not_elem_of_app, list_elem_of_singleton by done. intuition congruence.
    + rewrite Hvw in *. cbn. apply (l_create _ _ L); [done|]. rewrite <- front_creates, Hf, creates_app. cbn. lia.
  - apply call_inv; [done|]. intros s2 [= <-].
    assert (senders s !! i ≠ None) as Hex by (rewrite lookup_ge_None; lia).
    eapply (before_inv (Create_sender i)); try done; cbn; auto.
    + rewrite creates_app. cbn. by rewrite Nat.add_0_r.
    + intros j Hj. destruct (decide (i = j)) as [->|Hne].
      * rewrite list_lookup_insert_eq by lia. split; [destruct (t_masks t); congruence|].
        rewrite not_elem_of_app, list_elem_of_singleton. intuition congruence.
      * rewrite list_lookup_insert_ne by done. rewrite Hsn, not_elem_of_app, list_elem_of_singleton by done. intuition congruence.
    + by rewrite length_insert.
    + intros j p. destruct (decide (i = j)) as [->|Hne]; [|rewrite list_lookup_insert_ne by done; auto].
      rewrite list_lookup_insert_eq by lia. intros [= <-].
      right. split; [by destruct (t_masks t)|]. apply Hsn; [done|]. by eapply sender_once.
  - intros [= <-]. eapply (before_inv Sleep); try done; cbn; auto.
    + rewrite creates_app. cbn. by rewrite Nat.add_0_r.
    + intros i Hi2. rewrite Hsn, not_elem_of_app, list_elem_of_singleton by done. intuition congruence.
Qed.

Lemma stop_step r s s' :
  inv s → code s = None → todo s = Stop :: joins_senders t ++ back t → view s = Env true false (g_size (t_group t)) →
  (∀ i, (i < 2)%nat → senders s !! i ≠ Some Absent) → main_step r s = Some s' → inv s'.
Proof.
  intros [Hs Hv Hp Hg Ht _ _] Hn Htd Hvw Hsn. unfold main_step. rewrite Htd. intros [= <-].
  split; cbn; try done; [| |congruence].
  - rewrite Hvw in *. by eapply (l_stop _ _ L).
  - apply (After _ [] (joins_senders t ++ back t)); cbn; rewrite ?Hvw; try done.
    + intros i _ Hin. by apply elem_of_nil in Hin.
    + intros k Hin. by apply elem_of_nil in Hin.
Qed.

(** In the second part of [main]. *)
Lemma after_inv c l l' vw s :
  inv s → code s = None → joins_senders t ++ back t = l ++ c :: l' →
  vw = Env false (bool_decide (Post_sync ∈ l ++ [c])) (g_size (t_group t)) → l_inv L vw (grp s) →
  (∀ i, (i < 2)%nat → senders s !! i ≠ Some Absent) →
  (∀ i, (i < 2)%nat → Join_sender i ∈ l ++ [c] → senders s !! i = Some Gone) →
  (∀ k, Join k ∈ l ++ [c] → g_gone _ k (grp s) = true) →
  inv (State l' vw (senders s) (sems s) (pend s) (grp s) None).
Proof.
  intros [Hs Hv Hp Hg Ht Hm Hc] Hn Hf Hvw Hg' H1 H2 H3.
  split; cbn; try done. apply (After _ (l ++ [c]) l'); [by rewrite <- app_assoc|done..].
Qed.

Lemma after_step r s s' l c l' :
  inv s → code s = None → joins_senders t ++ back t = l ++ c :: l' → todo s = c :: l' →
  view s = Env false (bool_decide (Post_sync ∈ l)) (g_size (t_group t)) →
  (∀ i, (i < 2)%nat → senders s !! i ≠ Some Absent) →
  (∀ i, (i < 2)%nat → Join_sender i ∈ l → senders s !! i = Some Gone) →
  (∀ k, Join k ∈ l → g_gone _ k (grp s) = true) →
  main_step r s = Some s' → inv s'.
Proof.
  intros Hi Hn Hf Htd Hvw H1 H2 H3. unfold main_step. rewrite Htd.
  pose proof (rest_elem c) as Hc. rewrite Hf in Hc. specialize (Hc ltac:(apply elem_of_app; right; constructor)).
  pose proof (i_grp _ Hi) as Hg.
  assert (∀ c', c' ≠ c → c' ∈ l ++ [c] → c' ∈ l) as Hin.
  { intros c' Hne. rewrite elem_of_app, list_elem_of_singleton. intuition congruence. }
  assert (c ≠ Post_sync → bool_decide (Post_sync ∈ l ++ [c]) = bool_decide (Post_sync ∈ l)) as Hsy.
  { intros Hne. apply bool_decide_ext. rewrite elem_of_app, list_elem_of_singleton. intuition congruence. }
  destruct c as [n|k|i| | |i| |k]; try done; apply call_inv; try done; intros s2.
  - intros [= <-]. unfold with_todo. rewrite Hn. apply (after_inv (Prepare n) l l'); try done; [by rewrite Hsy|auto..].
  - destruct (senders s !! i) as [[]|] eqn:Ei; try done. intros [= <-]. unfold with_todo. rewrite Hn.
    apply (after_inv (Join_sender i) l l'); try done; [by rewrite Hsy| |auto].
    intros j Hj Hjn. destruct (decide (i = j)) as [->|]; [done|]. apply H2; [done|]. apply Hin; [congruence|done].
  - intros [= <-]. unfold with_view, with_todo. cbn. rewrite Hn. apply (after_inv Post_sync l l'); try done; [| |auto..].
    + rewrite Hvw. cbn. f_equal. symmetry. apply bool_decide_eq_true. apply elem_of_app. right. constructor.
    + rewrite Hvw in *. by eapply (l_post _ _ L).
  - destruct (g_gone _ k (grp s)) eqn:Ek; [|done]. intros [= <-]. unfold with_todo. rewrite Hn.
    apply (after_inv (Join k) l l'); try done; [by rewrite Hsy|auto|].
    intros j Hjn. destruct (decide (k = j)) as [->|]; [done|]. apply H3. apply Hin; [congruence|done].
Qed.

Lemma mplace_same s s' :
  todo s' = todo s → view s' = view s → (∀ i, senders s' !! i = Some Absent ↔ senders s !! i = Some Absent) →
  (∀ i, senders s !! i = Some Gone → senders s' !! i = Some Gone) →
  (∀ k, g_gone _ k (grp s) = true → g_gone _ k (grp s') = true) → mplace s → mplace s'.
Proof.
  intros E1 E2 E3 E4 E5 [l l' H1 H2 H3 H4|l l' H1 H2 H3 H4 H5 H6].
  - apply (Before _ l l'); rewrite ?E1, ?E2; try done. intros i Hi. rewrite E3. by apply H4.
  - apply (After _ l l'); rewrite ?E1, ?E2; try done; [intros i Hi; rewrite E3|..]; auto.
Qed.

Lemma sender_moves_inv s i p q b v v' b' :
  inv s → code s = None → senders s !! i = Some p → sems s !! i = Some v → pend s !! i = Some b → p ≠ Absent → p ≠ Gone → q ≠ Absent →
  (0 ≤ v → 0 ≤ v') → (1 ≤ v ∨ b = true ∨ p = Kills → 1 ≤ v' ∨ b' = true ∨ q = Kills) →
  inv (State (todo s) (view s) (<[i := q]> (senders s)) (<[i := v']> (sems s)) (<[i := b']> (pend s)) (grp s) (code s)).
Proof.
  intros [Hs Hv Hp Hg Ht Hm Hc] Hn Hi Hvi Hbi Hpa Hpg Hqa Hpos Htok.
  assert (i < 2)%nat as Hi2 by by rewrite <- Hs; eapply lookup_lt_Some.
  split; cbn; rewrite ?length_insert; try done; [|].
  - intros j p' w c H1 H2 H3. cbn in *.
    destruct (decide (i = j)) as [<-|Hne].
    + rewrite list_lookup_insert_eq in H1 by lia. rewrite list_lookup_insert_eq in H2 by lia.
      rewrite list_lookup_insert_eq in H3 by lia. simplify_eq.
      destruct (Ht i p v b Hi Hvi Hbi). auto.
    + rewrite list_lookup_insert_ne in H1 by done. rewrite list_lookup_insert_ne in H2 by done.
      rewrite list_lookup_insert_ne in H3 by done. by eapply Ht.
  - eapply mplace_same; [..|exact Hm]; try done; cbn.
    + intros j. destruct (decide (i = j)) as [<-|Hne]; [|by rewrite list_lookup_insert_ne].
      rewrite list_lookup_insert_eq, Hi by lia. split; congruence.
    + intros j. destruct (decide (i = j)) as [<-|Hne]; [congruence|by rewrite list_lookup_insert_ne].
Qed.

Lemma lookup_two {A} (l : list A) i : length l = 2%nat → (i < 2)%nat → ∃ x, l !! i = Some x.
Proof. intros Hl Hi. destruct (l !! i) eqn:E; [eauto|]. apply lookup_ge_None in E. lia. Qed.

Lemma sender_inv i r s s' : inv s → code s = None → sender_step i r s = Some s' → inv s'.
Proof.
  intros Hi Hn. unfold sender_step. destruct (senders s !! i) as [p|] eqn:Ep; [|done]. cbn [mbind option_bind].
  assert (i < 2)%nat as Hi2 by by rewrite <- (i_senders _ Hi); eapply lookup_lt_Some.
  destruct (lookup_two _ i (i_sems _ Hi) Hi2) as [v Ev], (lookup_two _ i (i_pend _ Hi) Hi2) as [b Eb].
  assert (∀ q v' b', p ≠ Absent → p ≠ Gone → q ≠ Absent → (0 ≤ v → 0 ≤ v') →
            (1 ≤ v ∨ b = true ∨ p = Kills → 1 ≤ v' ∨ b' = true ∨ q = Kills) →
            inv (State (todo s) (view s) (<[i := q]> (senders s)) (<[i := v']> (sems s)) (<[i := b']> (pend s)) (grp s) (code s)))
    as Hmv by (intros; by eapply sender_moves_inv).
  destruct p; try done.
  - apply call_inv; [done|]. intros s2 [= <-]. specialize (Hmv Tests v b).
    rewrite (list_insert_id (sems s) i v Ev), (list_insert_id (pend s) i b Eb) in Hmv. apply Hmv; try done. intros [|[|]]; auto; done.
  - intros [= <-]. specialize (Hmv (if do_it (view s) then Waits else Gone) v b).
    rewrite (list_insert_id (sems s) i v Ev), (list_insert_id (pend s) i b Eb) in Hmv. unfold with_sender.
    apply Hmv; try done; [by destruct (do_it _)|]. intros [|[|]]; auto; done.
  - rewrite Ev. cbn [mbind option_bind]. apply call_inv; [done|]. intros s2.
    destruct (0 <? v) eqn:E0; [|done]. apply Z.ltb_lt in E0. intros [= <-]. specialize (Hmv Kills (v - 1) b).
    rewrite (list_insert_id (pend s) i b Eb) in Hmv. apply Hmv; try done; [lia|auto].
  - apply call_inv; [done|]. intros s2 [= <-]. specialize (Hmv Tests v true).
    rewrite (list_insert_id (sems s) i v Ev) in Hmv. apply Hmv; try done. auto.
Qed.

Lemma handler_inv i r s s' : inv s → code s = None → handler_step i r s = Some s' → inv s'.
Proof.
  intros Hi Hn. unfold handler_step. destruct (pend s !! i) as [b|] eqn:Eb; [|done].
  destruct (sems s !! i) as [v|] eqn:Ev; [|done]. cbn [mbind option_bind].
  destruct (b && g_open _ (grp s)); [|done]. destruct (g_handles _ i (grp s)); [|intros [= <-]; by apply ends_inv].
  apply call_inv; [done|]. intros s2 [= <-]. destruct Hi as [Hs Hv Hp Hg Ht Hm Hc].
  split; cbn; rewrite ?length_insert; try done. 2: { eapply mplace_same; [..|exact Hm]; done. }
  assert (i < 2)%nat as Hi2 by by rewrite <- Hv; eapply lookup_lt_Some.
  intros j p w c H1 H2 H3. cbn in *. destruct (decide (i = j)) as [<-|Hne].
  - rewrite list_lookup_insert_eq in H2 by lia. destruct (Ht i p v b H1 Ev Eb) as [? _]. simplify_eq. lia.
  - rewrite list_lookup_insert_ne in H2 by done. rewrite list_lookup_insert_ne in H3 by done. by eapply Ht.
Qed.

Lemma worker_inv k r s s' : inv s → code s = None → worker_step k r s = Some s' → inv s'.
Proof.
  intros Hi Hn. unfold worker_step. destruct (g_step _ (view s) k r (grp s)) as [o|] eqn:Es; [|done]. cbn [mbind option_bind].
  destruct Hi as [Hs Hv Hp Hg Ht Hm Hc] eqn:Ei. clear Ei.
  destruct o as [w|w|c]; intros [= <-].
  - destruct (l_step _ _ L _ k r _ w Hg (or_introl Es)) as [Hw Hgone].
    split; cbn; try done. eapply mplace_same; [..|exact Hm]; done.
  - destruct (l_step _ _ L _ k r _ w Hg (or_intror Es)) as [Hw Hgone].
    split; cbn; rewrite ?length_insert; try done; [|eapply mplace_same; [..|exact Hm]; done].
    intros j p v b H1 H2 H3. cbn in *. destruct (decide (0%nat = j)) as [<-|Hne].
    + rewrite list_lookup_insert_eq in H2 by lia. simplify_eq. destruct (lookup_two _ 0 Hv) as [v Ev]; [lia|].
      rewrite Ev. cbn. destruct (Ht _ _ _ _ H1 Ev H3) as [? _]. lia.
    + rewrite list_lookup_insert_ne in H2 by done. by eapply Ht.
  - apply ends_inv; [by split|]. by destruct (l_exits _ _ L _ _ _ _ _ Hg Es) as [_ [->|[-> _]]].
Qed.

(** A thread goes on in [pthread_sigmask] only when no call fails. *)
Lemma worker_code k s s' : inv s → code s = None → worker_step k Ok s = Some s' → code s' = None.
Proof.
  intros Hi Hn. unfold worker_step. destruct (g_step _ (view s) k Ok (grp s)) as [o|] eqn:Es; [|done]. cbn [mbind option_bind].
  destruct o as [w|w|c]; intros [= <-]; [done..|].
  destruct (l_exits _ _ L _ _ _ _ _ (i_grp _ Hi) Es) as [Hr _]. by destruct Hr.
Qed.

Lemma thread_worker k r s s' : thread_step k r s = Some s' → worker_step k r s = Some s'.
Proof. unfold thread_step. destruct (worker_step k r s) as [s1|]; [|done]. cbn [mbind option_bind]. by case_match. Qed.

Lemma unblock_cases k i r s s' : inv s → code s = None → unblock_step k i r s = Some s' →
  ∃ s1, worker_step k Ok s = Some s1 ∧ inv s1 ∧ code s1 = None ∧ handler_step i r s1 = Some s'.
Proof.
  intros Hi Hn. unfold unblock_step. destruct (unblocking k Ok s); [|done].
  destruct (worker_step k Ok s) as [s1|] eqn:E; [|done]. cbn [mbind option_bind]. intros H.
  exists s1. split_and!; [done|by eapply worker_inv|by eapply worker_code|done].
Qed.

Lemma next_inv e s s' : inv s → next e s = Some s' → inv s'.
Proof.
  intros Hi. unfold next. destruct (code s) eqn:Hn; [done|].
  destruct e as [r|i r|k r|i r|k i r]; [|by apply sender_inv|by intros ?%thread_worker; eapply worker_inv|by apply handler_inv|].
  2: { intros H. destruct (unblock_cases _ _ _ _ _ Hi Hn H) as (s1 & _ & ? & ? & ?). by eapply handler_inv. }
  destruct (i_place _ Hi) as [l l' H1 H2 H3 H4|l l' H1 H2 H3 H4 H5 H6].
  - destruct l' as [|c l'].
    + rewrite app_nil_r in H1. subst l. rewrite front_creates in H3. apply stop_step; try done.
      intros i Hi2 H. apply H4 in H; [|done]. apply H. by apply front_sender.
    + by eapply before_step.
  - destruct l' as [|c l']; [|by eapply after_step].
    unfold main_step. rewrite H2. intros [= <-]. destruct Hi. split; cbn; try done; [].
    by apply (After _ l []).
Qed.

Lemma runs_inv es s s' : inv s → runs es s = Some s' → inv s'.
Proof.
  revert s. induction es as [|e es IH]; intros s Hi; simpl; [by intros [= <-]|].
  destruct (next e s) as [s1|] eqn:E; [|done]. cbn [mbind option_bind]. apply IH. by eapply next_inv.
Qed.

Lemma runs_app es es' s : runs (es ++ es') s = (runs es s ≫= runs es').
Proof.
  revert s. induction es as [|e es IH]; intros s; simpl; [done|].
  destruct (next e s); cbn [mbind option_bind]; [apply IH|done].
Qed.

(** ** What can still happen *)

(** A schedule in which all calls do what they have to. *)
Definition reaches s s' : Prop := ∃ es, Forall (λ e, good (res_of e)) es ∧ runs es s = Some s'.

Lemma reaches_refl s : reaches s s.
Proof. by exists []. Qed.

Lemma reaches_trans s s1 s2 : reaches s s1 → reaches s1 s2 → reaches s s2.
Proof.
  intros (es & H1 & H2) (es' & H3 & H4). exists (es ++ es'). split; [by apply Forall_app|]. by rewrite runs_app, H2.
Qed.

Lemma reaches_one e s s' : good (res_of e) → next e s = Some s' → reaches s s'.
Proof. intros Hg He. exists [e]. split; [by constructor|]. simpl. by rewrite He. Qed.

Lemma reaches_inv s s' : inv s → reaches s s' → inv s'.
Proof. intros Hi (es & _ & H). by eapply runs_inv. Qed.

Lemma reaches_step e s s1 s2 : good (res_of e) → next e s = Some s1 → reaches s1 s2 → reaches s s2.
Proof. intros. eapply reaches_trans; [by eapply reaches_one|done]. Qed.

(** [main] gets to where it resets [do_it]. *)
Lemma front_reaches l' s rest :
  code s = None → todo s = l' ++ Stop :: rest → (∀ c, c ∈ l' → c ∈ front t) →
  ∃ s1, reaches s s1 ∧ code s1 = None ∧ todo s1 = Stop :: rest ∧ sems s1 = sems s ∧ pend s1 = pend s ∧ grp s1 = grp s ∧
    ∀ i, senders s1 !! i = Some Waits → senders s !! i = Some Waits.
Proof.
  revert s. induction l' as [|c l' IH]; intros s Hn Htd Hl'.
  { exists s. split; [apply reaches_refl|done]. }
  pose proof (front_elem c (Hl' c ltac:(constructor))) as Hc.
  assert (∃ s2, main_step Ok s = Some s2 ∧ code s2 = None ∧ todo s2 = l' ++ Stop :: rest ∧ sems s2 = sems s ∧ pend s2 = pend s ∧
    grp s2 = grp s ∧ ∀ i, senders s2 !! i = Some Waits → senders s !! i = Some Waits) as (s2 & H2 & Hn2 & Htd2 & E1 & E2 & E3 & E4).
  { unfold main_step. rewrite Htd. cbn [app].
    destruct c; try done; eexists; (split; [reflexivity|]); try done.
    split_and!; try done. cbn. intros j Hj. destruct (decide (i = j)) as [<-|Hne]; [|by rewrite list_lookup_insert_ne in Hj].
    assert (i < length (senders s))%nat by (apply lookup_lt_Some in Hj; by rewrite length_insert in Hj).
    rewrite list_lookup_insert_eq in Hj by done. by destruct (t_masks t). }
  destruct (IH s2 Hn2 Htd2) as (s1 & Hr & Hn1 & Htd1 & F1 & F2 & F3 & F4); [intros; apply Hl'; by constructor|].
  exists s1. split; [|rewrite <- E1, <- E2, <- E3; split_and!; auto].
  apply (reaches_step (Main Ok) _ s2); [by left| |done]. unfold next. by rewrite Hn.
Qed.

(** A step of the group can happen, with a signal handled in [pthread_sigmask] when there has to be. *)
Lemma gstep_reach e w w' s : gstep _ e w w' → inv s → code s = None → view s = e → grp s = w →
  ∃ s1, reaches s s1 ∧ code s1 = None ∧ todo s1 = todo s ∧ view s1 = e ∧ senders s1 = senders s ∧ grp s1 = w'.
Proof.
  intros [k r Hg Hst] Hi Hn Hv Hw.
  assert (∃ s1, worker_step k r s = Some s1 ∧ code s1 = None ∧ todo s1 = todo s ∧ view s1 = e ∧ senders s1 = senders s ∧ grp s1 = w')
    as (s1 & H1 & Hn1 & Ht1 & Hv1 & Hs1 & Hg1).
  { unfold worker_step. rewrite Hv, Hw. destruct Hst as [-> | ->]; cbn; eexists; (split; [reflexivity|done]). }
  pose proof (worker_inv _ _ _ _ Hi Hn H1) as Hi1.
  destruct (unblocking k r s && g_open _ (grp s1) && waiting s1) eqn:Em.
  2: { exists s1. split; [|done]. apply (reaches_one (Worker k r)); [done|]. unfold next, thread_step. rewrite Hn, H1. cbn. by rewrite Em. }
  apply andb_prop in Em as [[Em Ho]%andb_prop Hwt]. destruct r; try done.
  apply existsb_exists in Hwt as (b & Hb & Hbt). apply list_elem_of_In, list_elem_of_lookup in Hb as [i Hb]. destruct b; [|done].
  assert (i < 2)%nat as Hi2 by (rewrite <- (i_pend _ Hi1); by eapply lookup_lt_Some).
  destruct (lookup_two _ i (i_sems _ Hi1) Hi2) as [v Ev].
  assert (g_handles _ i (grp s1) = true) as Hh.
  { rewrite Hg1. eapply (l_masks _ _ L e k w); [by rewrite <- Hv, <- Hw; apply Hi|by rewrite <- Hw|done..]. }
  exists (with_sem i (v + 1) (with_pend i false s1)). split; [|done].
  apply (reaches_one (Unblocks k i Ok)); [by left|]. unfold next, unblock_step. rewrite Hn, Em, H1.
  cbn [mbind option_bind]. unfold handler_step. rewrite Hb, Ev. cbn. by rewrite Ho, Hh.
Qed.

Lemma gsteps_reach e w w' : rtc (gstep _ e) w w' → ∀ s, inv s → code s = None → view s = e → grp s = w →
  ∃ s1, reaches s s1 ∧ code s1 = None ∧ todo s1 = todo s ∧ view s1 = e ∧ senders s1 = senders s ∧ grp s1 = w'.
Proof.
  induction 1 as [w|w w1 w' Hg _ IH]; intros s Hi Hn Hv Hw.
  { exists s. split; [apply reaches_refl|done]. }
  destruct (gstep_reach _ _ _ s Hg Hi Hn Hv Hw) as (s2 & Hr2 & Hn2 & Ht2 & Hv2 & Hs2 & Hg2).
  destruct (IH s2 (reaches_inv _ _ Hi Hr2) Hn2 Hv2 Hg2) as (s1 & Hr & ? & ? & ? & ? & ?).
  exists s1. split; [by eapply reaches_trans|split_and!; congruence].
Qed.

(** A pending signal is handled. *)
Lemma handles_one s i : inv s → code s = None → (i < 2)%nat → g_open _ (grp s) = true → g_handles _ i (grp s) = true →
  ∃ s1, reaches s s1 ∧ code s1 = None ∧ todo s1 = todo s ∧ view s1 = view s ∧ senders s1 = senders s ∧ grp s1 = grp s ∧
    pend s1 = <[i := false]> (pend s).
Proof.
  intros Hi Hn Hi2 Ho Hh. destruct (lookup_two _ i (i_pend _ Hi) Hi2) as [[] Eb].
  2: { exists s. split; [apply reaches_refl|]. by rewrite (list_insert_id (pend s) i false Eb). }
  destruct (lookup_two _ i (i_sems _ Hi) Hi2) as [v Ev].
  exists (with_sem i (v + 1) (with_pend i false s)). split; [|done].
  apply (reaches_one (Handler i Ok)); [by left|]. unfold next, handler_step. rewrite Hn, Eb, Ev. cbn. by rewrite Ho, Hh.
Qed.

Lemma signals_handled s : inv s → code s = None → created (view s) = g_size (t_group t) →
  l_alive L (do_it (view s)) (grp s) = true →
  ∃ s1, reaches s s1 ∧ code s1 = None ∧ todo s1 = todo s ∧ view s1 = view s ∧
    ∀ i v, senders s1 !! i = Some Waits → sems s1 !! i = Some v → 1 ≤ v.
Proof.
  intros Hi Hn Hc Ha. destruct (l_opens _ _ L _ _ (i_grp _ Hi) Hc Ha) as (w & Hw & Ho & Hh).
  destruct (gsteps_reach _ _ _ Hw s Hi Hn eq_refl eq_refl) as (s1 & Hr1 & Hn1 & Ht1 & Hv1 & Hs1 & <-).
  pose proof (reaches_inv _ _ Hi Hr1) as Hi1.
  destruct (handles_one s1 0 Hi1 Hn1) as (s2 & Hr2 & Hn2 & Ht2 & Hv2 & Hs2 & Hg2 & Hp2); [lia|done|apply Hh; lia|].
  pose proof (reaches_inv _ _ Hi1 Hr2) as Hi2. rewrite <- Hg2 in *.
  destruct (handles_one s2 1 Hi2 Hn2) as (s3 & Hr3 & Hn3 & Ht3 & Hv3 & Hs3 & Hg3 & Hp3); [lia|done|apply Hh; lia|].
  pose proof (reaches_inv _ _ Hi2 Hr3) as Hi3.
  exists s3. split; [by eauto using reaches_trans|]. split_and!; [done|congruence..|].
  intros i v Hp Hv. destruct (lookup_two (pend s3) i (i_pend _ Hi3)) as [b Hb].
  { rewrite <- (i_senders _ Hi3). by eapply lookup_lt_Some. }
  destruct (i_token _ Hi3 i Waits v b Hp Hv Hb) as [_ [?|[->|?]]]; [done| |done]. exfalso.
  rewrite Hp3, Hp2 in Hb. pose proof (i_pend _ Hi1) as Hl.
  destruct i as [|[|i]]; [|by rewrite list_lookup_insert_eq in Hb by (rewrite length_insert; lia)|].
  - rewrite list_lookup_insert_ne, list_lookup_insert_eq in Hb by lia. done.
  - apply lookup_lt_Some in Hb. rewrite !length_insert in Hb. lia.
Qed.

(** A step of a sender changes nothing of the others. *)
Definition only (i : nat) s s1 : Prop :=
  code s1 = None ∧ todo s1 = todo s ∧ view s1 = view s ∧ grp s1 = grp s ∧
  ∀ j, j ≠ i → senders s1 !! j = senders s !! j ∧ sems s1 !! j = sems s !! j.

Definition sender_left (p : splace) : nat :=
  match p with Waits => 3 | Masks | Kills => 2 | Tests => 1 | Absent | Gone => 0 end.

Lemma sender_goes s i p : inv s → code s = None → do_it (view s) = false → senders s !! i = Some p → (0 < sender_left p)%nat →
  (∀ v, p = Waits → sems s !! i = Some v → 1 ≤ v) →
  ∃ s1 q, sender_step i Ok s = Some s1 ∧ only i s s1 ∧ senders s1 !! i = Some q ∧ q ≠ Absent ∧ q ≠ Waits ∧
    (sender_left q < sender_left p)%nat.
Proof.
  intros Hi Hn Hd Hp Hl Hw. assert (i < length (senders s))%nat as Hlt by by eapply lookup_lt_Some.
  pose proof Hlt as Hi2. rewrite (i_senders _ Hi) in Hi2.
  destruct (lookup_two _ i (i_sems _ Hi) Hi2) as [v Hv]. unfold sender_step. rewrite Hp. cbn [mbind option_bind].
  assert (∀ q v' b', only i s (State (todo s) (view s) (<[i := q]> (senders s)) (<[i := v']> (sems s)) (<[i := b']> (pend s)) (grp s) (code s)))
    as Hany by (intros q v' b'; split_and!; try done; cbn; intros j Hj; by rewrite !list_lookup_insert_ne by done).
  assert (∀ q s1, only i s s1 → senders s1 = <[i := q]> (senders s) → q ≠ Absent → q ≠ Waits → (sender_left q < sender_left p)%nat →
    only i s s1 ∧ senders s1 !! i = Some q ∧ q ≠ Absent ∧ q ≠ Waits ∧ (sender_left q < sender_left p)%nat) as Hq.
  { intros q s1 Ho E. rewrite E, list_lookup_insert_eq by done. auto. }
  destruct (lookup_two _ i (i_pend _ Hi) Hi2) as [b Hb].
  destruct p; cbn in Hl; try lia; cbn [call].
  - exists (with_sender i Tests s), Tests. split; [done|]. apply Hq; [|done..|simpl; lia].
    specialize (Hany Tests v b). by rewrite (list_insert_id (sems s) i v Hv), (list_insert_id (pend s) i b Hb) in Hany.
  - rewrite Hd. exists (with_sender i Gone s), Gone. split; [done|]. apply Hq; [|done..|simpl; lia].
    specialize (Hany Gone v b). by rewrite (list_insert_id (sems s) i v Hv), (list_insert_id (pend s) i b Hb) in Hany.
  - rewrite Hv. cbn [mbind option_bind]. specialize (Hw v eq_refl Hv). rewrite (proj2 (Z.ltb_lt 0 v)) by lia.
    eexists _, Kills. split; [done|]. apply Hq; [|done..|simpl; lia].
    specialize (Hany Kills (v - 1) b). by rewrite (list_insert_id (pend s) i b Hb) in Hany.
  - eexists _, Tests. split; [done|]. apply Hq; [|done..|simpl; lia].
    specialize (Hany Tests v true). by rewrite (list_insert_id (sems s) i v Hv) in Hany.
Qed.

(** A sender ends after [do_it] has been reset, unless it waits. *)
Lemma sender_ends n s i p : inv s → code s = None → do_it (view s) = false → senders s !! i = Some p → p ≠ Absent →
  (sender_left p ≤ n)%nat → (∀ v, p = Waits → sems s !! i = Some v → 1 ≤ v) →
  ∃ s1, reaches s s1 ∧ only i s s1 ∧ senders s1 !! i = Some Gone.
Proof.
  revert s p. induction n as [|n IH]; intros s p Hi Hn Hd Hp Hab Hl Hw.
  { exists s. split; [apply reaches_refl|]. split; [done|]. by destruct p; simpl in Hl; try lia. }
  destruct (decide (sender_left p = 0%nat)) as [H0|H0].
  { exists s. split; [apply reaches_refl|]. split; [done|]. by destruct p. }
  destruct (sender_goes s i p Hi Hn Hd Hp) as (s1 & q & Hst & (E1 & E2 & E3 & E4 & E5) & Hq & Hqa & Hqw & Hlq); [lia|done|].
  assert (next (Sender i Ok) s = Some s1) as Hnx by (unfold next; by rewrite Hn).
  destruct (IH s1 q) as (s2 & Hr & (F1 & F2 & F3 & F4 & F5) & Hg); try done; [by eapply next_inv|congruence|lia|].
  exists s2. split; [by apply (reaches_step (Sender i Ok) s s1); [left|..]|]. split; [|done].
  split_and!; try congruence. intros j Hj. destruct (E5 j Hj), (F5 j Hj). split; congruence.
Qed.

(** [main] goes on while what it joins has ended. *)
Lemma rest_reaches l' s rest :
  code s = None → todo s = l' ++ rest →
  (∀ c, c ∈ l' → match c with Prepare _ | Post_sync => True | Join_sender i => senders s !! i = Some Gone
                 | Join k => g_gone _ k (grp s) = true | _ => False end) →
  ∃ s1, reaches s s1 ∧ code s1 = None ∧ todo s1 = rest ∧ grp s1 = grp s.
Proof.
  revert s. induction l' as [|c l' IH]; intros s Hn Htd Hl'.
  { exists s. split; [apply reaches_refl|done]. }
  assert (∃ s2, main_step Ok s = Some s2 ∧ code s2 = None ∧ todo s2 = l' ++ rest ∧ senders s2 = senders s ∧ grp s2 = grp s)
    as (s2 & H2 & Hn2 & Htd2 & Hs2 & Hg2).
  { unfold main_step. rewrite Htd. cbn [app]. specialize (Hl' c ltac:(constructor)).
    destruct c; try done; cbn [call]; rewrite ?Hl'; eexists; (split; [reflexivity|done]). }
  destruct (IH s2 Hn2 Htd2) as (s1 & Hr & Hn1 & Htd1 & Hg1).
  { intros c' Hc'. rewrite Hs2, Hg2. apply Hl'. by constructor. }
  exists s1. split; [|split_and!; congruence]. apply (reaches_step (Main Ok) _ s2); [by left| |done]. unfold next. by rewrite Hn.
Qed.

Lemma back_elem c : c ∈ back t → match c with Prepare _ | Join _ => True | _ => False end.
Proof.
  unfold back. rewrite elem_of_app, !list_elem_of_fmap. by intros [(k & -> & _)|(n & -> & _)].
Qed.

Lemma joins_elem c : c ∈ joins_senders t → match c with Join_sender _ | Post_sync => True | _ => False end.
Proof using.
  clear L Hjoins. unfold joins_senders. rewrite !elem_of_app, !elem_of_cons, elem_of_nil.
  destruct (t_sync t); [rewrite list_elem_of_singleton|rewrite elem_of_nil]; by intros [[->|[->|[]]]|H]; [..|subst].
Qed.

Lemma sync_posted m m' : back t = m ++ m' → bool_decide (Post_sync ∈ joins_senders t ++ m) = t_sync t.
Proof.
  intros Hb. unfold joins_senders. destruct (t_sync t) eqn:E.
  - apply bool_decide_eq_true. rewrite !elem_of_app. left. right. by constructor.
  - apply bool_decide_eq_false. rewrite !elem_of_app, !elem_of_cons, elem_of_nil.
    intros [[[?|[?|?]]|?]|H]; try done. apply (back_elem Post_sync). rewrite Hb, elem_of_app. auto.
Qed.

(** Where [main] is when [do_it] has been reset. *)
Lemma after_place s : inv s → do_it (view s) = false →
  ∃ l, joins_senders t ++ back t = l ++ todo s ∧ view s = Env false (bool_decide (Post_sync ∈ l)) (g_size (t_group t)) ∧
    (∀ i, (i < 2)%nat → senders s !! i ≠ Some Absent) ∧ (∀ i, (i < 2)%nat → Join_sender i ∈ l → senders s !! i = Some Gone).
Proof.
  intros Hi Hd. destruct (i_place _ Hi) as [l l' H1 H2 H3 H4|l l' H1 H2 H3 H4 H5 H6]; [by rewrite H3 in Hd|].
  subst l'. by exists l.
Qed.

Lemma back_passes s m m' : inv s → code s = None → back t = m ++ m' → todo s = m' → view s = Env false (t_sync t) (g_size (t_group t)) →
  ∃ s1, reaches s s1 ∧ code s1 = Some (Exit PTS_PASS).
Proof.
  intros Hi Hn Hb Htd Hvw.
  destruct (l_finishes _ _ L _ _ (i_grp _ Hi)) as (w & Hw & Hgone); [by rewrite Hvw..|].
  destruct (gsteps_reach _ _ _ Hw s Hi Hn eq_refl eq_refl) as (s1 & Hr1 & Hn1 & Ht1 & Hv1 & Hs1 & Hg1).
  destruct (rest_reaches m' s1 []) as (s2 & Hr2 & Hn2 & Ht2 & _); [done|by rewrite app_nil_r; congruence| |].
  { intros c Hc. assert (c ∈ back t) as Hcb by (rewrite Hb; apply elem_of_app; auto).
    pose proof (back_elem c Hcb) as Hk. pose proof (rest_elem c ltac:(apply elem_of_app; auto)) as Hk'.
    destruct c; try done. rewrite Hg1. by apply Hgone. }
  exists (ends (Exit PTS_PASS) s2). split; [|done].
  eapply reaches_trans; [done|]. eapply reaches_trans; [done|]. apply (reaches_one (Main Ok)); [by left|].
  unfold next, main_step. by rewrite Hn2, Ht2.
Qed.

Lemma joined_passes s : inv s → code s = None → do_it (view s) = false → (∀ i, (i < 2)%nat → senders s !! i = Some Gone) →
  ∃ s1, reaches s s1 ∧ code s1 = Some (Exit PTS_PASS).
Proof.
  intros Hi Hn Hd Hg. destruct (after_place s Hi Hd) as (l & Hl & Hvw & _).
  destruct (app_eq_app _ _ _ _ Hl) as [m [[H1 H2]|[H1 H2]]].
  - destruct (rest_reaches m s (back t) Hn H2) as (s1 & Hr1 & Hn1 & Ht1 & _).
    { intros c Hc. pose proof (rest_elem c ltac:(rewrite H1, !elem_of_app; auto)) as Hk.
      assert (c ∈ joins_senders t) as Hj by (rewrite H1, elem_of_app; auto).
      pose proof (joins_elem c Hj) as Hk'. destruct c; try done. by apply Hg. }
    pose proof (reaches_inv _ _ Hi Hr1) as Hi1.
    destruct (i_place _ Hi1) as [x x' X1 X2 X3 X4|x x' X1 X2 X3 X4 X5 X6].
    { exfalso. rewrite Ht1 in X2. apply (back_elem Stop). rewrite X2. apply elem_of_app. right. constructor. }
    rewrite Ht1 in X2. subst x'. apply app_inv_tail in X1. subst x.
    destruct (back_passes s1 [] (back t)) as (s2 & Hr2 & Hc2); [done..| |].
    { rewrite X3. f_equal. rewrite <- (app_nil_r (joins_senders t)). by eapply sync_posted. }
    exists s2. split; [by eapply reaches_trans|done].
  - apply (back_passes s m (todo s)); [done..|]. rewrite Hvw, H1. f_equal. by eapply sync_posted.
Qed.

Lemma released_passes s : inv s → code s = None → do_it (view s) = false →
  (∀ i v, senders s !! i = Some Waits → sems s !! i = Some v → 1 ≤ v) → ∃ s1, reaches s s1 ∧ code s1 = Some (Exit PTS_PASS).
Proof.
  intros Hi Hn Hd Hw. destruct (after_place s Hi Hd) as (l & _ & _ & Hab & _).
  destruct (lookup_two _ 0 (i_senders _ Hi)) as [p Hp]; [lia|]. destruct (lookup_two _ 1 (i_senders _ Hi)) as [q Hq]; [lia|].
  destruct (sender_ends 3 s 0 p) as (s1 & Hr1 & (E1 & E2 & E3 & E4 & E5) & Hg1); try done.
  { intros ->. by apply (Hab 0%nat); [lia|]. } { destruct p; simpl; lia. } { intros v ->. by apply Hw. }
  pose proof (reaches_inv _ _ Hi Hr1) as Hi1. destruct (E5 1%nat) as [Es Ev]; [done|].
  destruct (sender_ends 3 s1 1 q) as (s2 & Hr2 & (F1 & F2 & F3 & F4 & F5) & Hg2); try congruence.
  { intros ->. by apply (Hab 1%nat); [lia|]. } { destruct q; simpl; lia. } { intros v ->. rewrite Ev. by apply Hw. }
  destruct (joined_passes s2) as (s3 & Hr3 & Hc); [by eapply reaches_inv|done|congruence| |].
  { intros [|[|i]] Hi'; [|done|lia]. by rewrite (proj1 (F5 0%nat ltac:(lia))). }
  exists s3. split; [|done]. eapply reaches_trans; [done|by eapply reaches_trans].
Qed.

(** The test hangs: a sender waits for a handler that no thread will run. *)
Definition hung s : Prop :=
  do_it (view s) = false ∧ l_alive L false (grp s) = false ∧ ∃ i, senders s !! i = Some Waits ∧ sems s !! i = Some 0.

Lemma before_passes s : inv s → code s = None → do_it (view s) = true → ∃ s1, reaches s s1 ∧ code s1 = Some (Exit PTS_PASS).
Proof.
  intros Hi Hn Hd. destruct (i_place _ Hi) as [l l' H1 H2 H3 H4|l l' H1 H2 H3 H4 H5 H6]; [|by rewrite H3 in Hd].
  destruct (front_reaches l' s _ Hn H2) as (s1 & Hr1 & Hn1 & Ht1 & _ & _ & Hg1 & _); [intros c; rewrite H1, elem_of_app; auto|].
  pose proof (reaches_inv _ _ Hi Hr1) as Hi1.
  destruct (i_place _ Hi1) as [x x' X1 X2 X3 X4|x x' X1 X2 X3 X4 X5 X6].
  2: { exfalso. rewrite Ht1 in X2. subst x'. apply (rest_elem Stop). rewrite X1, elem_of_app. right. constructor. }
  assert (x' = []) as ->.
  { rewrite Ht1 in X2. apply (f_equal length) in X2. rewrite length_app in X2. simpl in X2. apply length_zero_iff_nil. lia. }
  rewrite app_nil_r in X1. subst x. rewrite front_creates in X3.
  destruct (signals_handled s1 Hi1 Hn1) as (s2 & Hr2 & Hn2 & Ht2 & Hv2 & Hw2); [by rewrite X3| |].
  { rewrite X3. eapply (l_alive_on _ _ L); [apply Hi1|by rewrite X3]. }
  pose proof (reaches_inv _ _ Hi1 Hr2) as Hi2.
  assert (∃ s3, next (Main Ok) s2 = Some s3 ∧ code s3 = None ∧ do_it (view s3) = false ∧ senders s3 = senders s2 ∧ sems s3 = sems s2)
    as (s3 & Hx3 & Hn3 & Hd3 & Es3 & Ev3).
  { unfold next, main_step. rewrite Hn2, Ht2, Ht1. eexists. split; [reflexivity|done]. }
  destruct (released_passes s3) as (s4 & Hr4 & Hc4); [by eapply next_inv|done..|by rewrite Es3, Ev3|].
  exists s4. split; [|done]. eapply reaches_trans; [done|]. eapply reaches_trans; [done|].
  by apply (reaches_step (Main Ok) _ s3); [left|..].
Qed.

(** A sender that waits has not been joined, and [semsync] has not been posted. *)
Lemma waits_unsynced l l' i : (i < 2)%nat → joins_senders t ++ back t = l ++ l' → Join_sender i ∉ l → Post_sync ∉ l.
Proof.
  intros Hi Hl Hni Hin. unfold joins_senders in Hl. simpl in Hl.
  destruct l as [|c [|c' l]]; simplify_eq/=; [by apply elem_of_nil in Hin|by apply list_elem_of_singleton in Hin|].
  apply Hni. destruct i as [|[|]]; [left|right; left|lia].
Qed.

Lemma can_pass s : inv s → code s = None →
  (∃ s1, reaches s s1 ∧ code s1 = Some (Exit PTS_PASS)) ∨ t_sync t = false ∧ hung s.
Proof.
  intros Hi Hn. destruct (do_it (view s)) eqn:Hd; [left; by apply before_passes|].
  destruct (after_place s Hi Hd) as (l & Hl & Hvw & Hab & Hjo).
  destruct (l_alive L false (grp s)) eqn:Ha.
  { left. destruct (signals_handled s Hi Hn) as (s1 & Hr1 & Hn1 & Ht1 & Hv1 & Hw1); [by rewrite Hvw|by rewrite Hd|].
    destruct (released_passes s1) as (s2 & Hr2 & Hc2); [by eapply reaches_inv|done|congruence|done|].
    exists s2. split; [by eapply reaches_trans|done]. }
  destruct (decide (Exists (λ i, senders s !! i = Some Waits ∧ sems s !! i = Some 0) (seq 0 2))) as [Hex|Hno].
  - right. apply Exists_exists in Hex as (i & Hi2%elem_of_seq & Hw & Hv). split; [|split_and!; eauto].
    apply not_true_is_false. intros Esy.
    assert (Post_sync ∉ l) as Hps.
    { eapply (waits_unsynced l _ i); [lia|done|]. intros Hin. apply Hjo in Hin; [congruence|lia]. }
    pose proof (l_alive_sync _ _ L (view s) (grp s) (i_grp _ Hi) Esy) as Hal.
    rewrite Hvw in Hal. cbn in Hal. rewrite bool_decide_eq_false_2 in Hal by done. by rewrite Hal in Ha.
  - left. apply released_passes; try done. intros i v Hw Hv.
    assert (i < 2)%nat as Hi2 by (rewrite <- (i_senders _ Hi); by eapply lookup_lt_Some).
    destruct (lookup_two _ i (i_pend _ Hi) Hi2) as [b Hb]. destruct (i_token _ Hi i Waits v b Hw Hv Hb) as [Hpos _].
    destruct (decide (v = 0)) as [->|]; [|lia]. exfalso. apply Hno, Exists_exists. exists i. split; [|done]. apply elem_of_seq. lia.
Qed.

(** It hangs for ever, unless a call fails. *)
Lemma hung_next e s s' : inv s → hung s → conforms (res_of e) → next e s = Some s' → hung s' ∧ code s' = None.
Proof.
  intros Hi (Hd & Ha & i & Hw & Hv) Hr. unfold next. destruct (code s) eqn:Hn; [done|].
  destruct (l_dead _ _ L _ _ (i_grp _ Hi) Hd Ha) as [Ho Hst].
  assert (∀ k r s1, conforms r → worker_step k r s = Some s1 → hung s1 ∧ code s1 = None) as Hwk.
  { intros k r s1 Hr1. unfold worker_step. destruct (g_step _ (view s) k r (grp s)) as [o|] eqn:Es; [|done]. cbn [mbind option_bind].
    destruct (Hst k r o Es Hr1) as (w & -> & Hw'). intros [= <-]. split; [|done]. split_and!; [done..|]. by exists i. }
  destruct e as [r|j r|k r|j r|k j r]; simpl in Hr.
  - destruct (after_place s Hi Hd) as (l & Hl & _ & _ & Hjo). unfold main_step.
    assert (i < 2)%nat as Hi2 by (rewrite <- (i_senders _ Hi); by eapply lookup_lt_Some).
    assert (Join_sender i ∈ todo s) as Hjt.
    { assert (Join_sender i ∈ l ++ todo s) as Hin.
      { rewrite <- Hl, elem_of_app. left. unfold joins_senders. destruct i as [|[|]]; [left|right; left|lia]. }
      apply elem_of_app in Hin as [Hin|]; [|done]. apply Hjo in Hin; [congruence|done]. }
    destruct (todo s) as [|c l'] eqn:Et; [by apply elem_of_nil in Hjt|].
    pose proof (rest_elem c ltac:(rewrite Hl, elem_of_app; right; constructor)) as Hc.
    destruct c as [n|k|j| | |j| |k]; try done; destruct r; try done; cbn [call].
    + intros [= <-]. split; [|done]. split_and!; [done..|by exists i].
    + destruct (senders s !! j) as [[]|]; try done. intros [= <-]. split; [|done]. split_and!; [done..|by exists i].
    + intros [= <-]. split; [|done]. split_and!; [done..|by exists i].
    + destruct (g_gone _ k (grp s)); [|done]. intros [= <-]. split; [|done]. split_and!; [done..|by exists i].
  - unfold sender_step. destruct (senders s !! j) as [p|] eqn:Ep; [|done]. cbn [mbind option_bind].
    destruct (decide (j = i)) as [->|Hne].
    + rewrite Hw in Ep. injection Ep as <-. rewrite Hv. cbn. by destruct r.
    + assert (∀ q s2, senders s2 = <[j := q]> (senders s) → (sems s2 = sems s ∨ ∃ x, sems s2 = <[j := x]> (sems s)) →
        view s2 = view s → grp s2 = grp s → code s2 = None → hung s2 ∧ code s2 = None) as Hh.
      { intros q s2 E1 E2 E3 E4 E5. split; [|done]. unfold hung. rewrite E3, E4. split_and!; [done..|]. exists i. rewrite E1.
        rewrite list_lookup_insert_ne by done. split; [done|].
        destruct E2 as [->|[x ->]]; [done|]. by rewrite list_lookup_insert_ne. }
      destruct p; try done.
      * destruct r; try done. intros [= <-]. by eapply Hh; [|left|..].
      * intros [= <-]. by eapply Hh; [|left|..].
      * destruct (sems s !! j) as [v|]; [|done]. cbn [mbind option_bind]. destruct r; try done. cbn.
        destruct (0 <? v); [|done]. intros [= <-]. eapply Hh; [|right; eexists|..]; done.
      * destruct r; try done. intros [= <-]. by eapply Hh; [|left|..].
  - intros ?%thread_worker. by apply (Hwk k r).
  - unfold handler_step. rewrite Ho. destruct (pend s !! j), (sems s !! j); cbn [mbind option_bind]; try done.
    by rewrite andb_false_r.
  - intros H. destruct (unblock_cases _ _ _ _ _ Hi Hn H) as (s1 & H1 & Hi1 & Hn1 & Hx). destruct (Hwk k Ok s1 I H1) as [(Hd1 & Ha1 & _) _].
    destruct (l_dead _ _ L _ _ (i_grp _ Hi1) Hd1 Ha1) as [Ho1 _]. unfold handler_step in Hx. rewrite Ho1 in Hx.
    destruct (pend s1 !! j), (sems s1 !! j); cbn [mbind option_bind] in Hx; try done. by rewrite andb_false_r in Hx.
Qed.

Lemma hung_for_ever es s s' : inv s → hung s → code s = None → Forall (λ e, conforms (res_of e)) es → runs es s = Some s' → code s' = None.
Proof.
  revert s. induction es as [|e es IH]; intros s Hi Hh Hn Hr; simpl; [by intros [= <-]|].
  apply Forall_cons in Hr as [Hr1 Hr]. destruct (next e s) as [s1|] eqn:E; [|done]. cbn [mbind option_bind].
  destruct (hung_next e s s1 Hi Hh Hr1 E). apply IH; [by eapply next_inv|done..].
Qed.

(** How a test ends. *)
Lemma next_code e s s' c : inv s → next e s = Some s' → code s' = Some c →
  (c = Exit PTS_PASS ∧ ∀ i, (i < 2)%nat → senders s' !! i = Some Gone) ∨
  ¬ conforms (res_of e) ∧ (c = Exit PTS_UNRESOLVED ∨ c = Exit PTS_FAIL ∧ ∃ k, e = Worker k (Err EINTR)) ∨
  ∃ i, c = Killed i ∧ g_handles _ i (grp s') = false.
Proof.
  intros Hi. unfold next. destruct (code s) eqn:Hn; [done|].
  assert (∀ r s0 (s1 : option (state t)) s2, call r s0 s1 = Some s2 → (∀ x, s1 = Some x → code x = None) → code s2 = Some c →
    ¬ conforms r ∧ (c = Exit PTS_UNRESOLVED ∨ c = Exit PTS_FAIL ∧ ∃ k, e = Worker k (Err EINTR))) as Hcall.
  { intros r s0 s1 s2 H H1 H2. destruct r; simplify_eq/=; [by rewrite (H1 s2) in H2|]. split; [by intros []|by left]. }
  assert (∀ i r s1, handler_step i r s1 = Some s' → code s1 = None → code s' = Some c →
    ¬ conforms r ∧ (c = Exit PTS_UNRESOLVED ∨ c = Exit PTS_FAIL ∧ ∃ k, e = Worker k (Err EINTR)) ∨ ∃ i, c = Killed i ∧ g_handles _ i (grp s') = false)
    as Hhandler.
  { intros i r s1 H Hn1 Hc. unfold handler_step in H. destruct (pend s1 !! i) as [b|], (sems s1 !! i) as [v|]; try done.
    cbn [mbind option_bind] in H. destruct (b && g_open _ (grp s1)); [|done]. destruct (g_handles _ i (grp s1)) eqn:Eh.
    - left. eapply Hcall; [exact H| |done]. by intros x [= <-].
    - right. simplify_eq/=. eauto. }
  destruct e as [r|i r|k r|i r|k i r]; simpl.
  - unfold main_step. destruct (todo s) as [|d l] eqn:Et.
    + intros [= <-] [= <-]. left. split; [done|]. cbn. intros i Hi2.
      destruct (i_place _ Hi) as [l l' H1 H2 H3 H4|l l' H1 H2 H3 H4 H5 H6]; rewrite Et in H2; [by destruct l'|].
      subst l'. apply H5; [done|]. rewrite app_nil_r in H1. rewrite <- H1, elem_of_app. left.
      unfold joins_senders. destruct i as [|[|]]; [left|right; left|lia].
    + intros H Hc. right. left. destruct d; [..|by simplify_eq/=; congruence|by simplify_eq/=; congruence| | |];
        (eapply Hcall; [exact H| |done]); intros x; repeat case_match; intros [= <-]; done.
  - unfold sender_step. destruct (senders s !! i) as [p|]; [|done]. cbn [mbind option_bind]. intros H Hc. right. left.
    destruct p; try done; [| |destruct (sems s !! i); [|done]; cbn [mbind option_bind] in H|];
      [|by simplify_eq/=; congruence|..]; (eapply Hcall; [exact H| |done]); intros x; repeat case_match; intros [= <-]; done.
  - intros H%thread_worker. revert H. unfold worker_step.
    destruct (g_step _ (view s) k r (grp s)) as [o|] eqn:Es; [|done]. cbn [mbind option_bind].
    destruct o as [w|w|d]; intros [= <-]; cbn; [congruence..|]. intros [= <-]. right. left.
    destruct (l_exits _ _ L _ _ _ _ _ (i_grp _ Hi) Es) as [Hr [->|[-> ->]]]; eauto.
  - intros H Hc. right. by eapply Hhandler.
  - intros H Hc. destruct (unblock_cases _ _ _ _ _ Hi Hn H) as (s1 & _ & _ & Hn1 & Hx). right. by eapply Hhandler.
Qed.

(** ** What holds for every lawful group *)

Definition verdicts : Prop := ∀ es s, runs es start = Some s →
  (code s = Some (Exit PTS_FAIL) → ∃ k, last es = Some (Worker k (Err EINTR))) ∧
  (code s = Some (Exit PTS_PASS) → ∀ i, (i < 2)%nat → senders s !! i = Some Gone) ∧
  (Forall (λ e, conforms (res_of e)) es → ∀ c, code s = Some (Exit c) → c = PTS_PASS) ∧
  (∀ i, code s = Some (Killed i) → g_handles _ i (grp s) = false) ∧
  (code s = None →
     (∃ s', reaches s s' ∧ code s' = Some (Exit PTS_PASS)) ∨
     t_sync t = false ∧ ∀ es' s', Forall (λ e, conforms (res_of e)) es' → runs es' s = Some s' → code s' = None).

Theorem lawful_verdicts : verdicts.
Proof.
  intros es s Hr. assert (inv s) as Hi by (eapply runs_inv; [apply start_inv|done]).
  assert (∀ c, code s = Some c → ∃ es' e s0, es = es' ++ [e] ∧ inv s0 ∧ next e s0 = Some s) as Hlast.
  { intros c Hc. destruct es as [|e es' _] using rev_ind; [by simplify_eq/=|].
    rewrite runs_app in Hr. destruct (runs es' start) as [s0|] eqn:E0; [|done]. cbn in Hr.
    destruct (next e s0) as [s1|] eqn:E1; simplify_eq/=. exists es', e, s0. split_and!; [done| |done].
    eapply runs_inv; [apply start_inv|done]. }
  split_and!.
  - intros Hc. destruct (Hlast _ Hc) as (es' & e & s0 & -> & Hi0 & He). rewrite last_snoc.
    destruct (next_code _ _ _ _ Hi0 He Hc) as [[? _]|[[_ [?|[_ [k ->]]]]|(i & ? & _)]]; try done. by exists k.
  - intros Hc. destruct (Hlast _ Hc) as (es' & e & s0 & -> & Hi0 & He).
    by destruct (next_code _ _ _ _ Hi0 He Hc) as [[_ ?]|[[_ [?|[? _]]]|(i & ? & _)]].
  - intros Hcf c Hc. destruct (Hlast _ Hc) as (es' & e & s0 & -> & Hi0 & He).
    apply Forall_app in Hcf as [_ Hcf]. apply Forall_cons in Hcf as [Hcf _].
    destruct (next_code _ _ _ _ Hi0 He Hc) as [[[= ->] _]|[[? _]|(i & ? & _)]]; done.
  - intros i Hc. destruct (Hlast _ Hc) as (es' & e & s0 & -> & Hi0 & He).
    by destruct (next_code _ _ _ _ Hi0 He Hc) as [[? _]|[[_ [?|[? _]]]|(j & [= <-] & ?)]].
  - intros Hn. destruct (can_pass s Hi Hn) as [?|[Hs Hh]]; [by left|]. right. split; [done|].
    intros es' s'. by apply hung_for_ever.
Qed.
End Schedules.
