(* ===== verification/EintrLoops.v ===== *)
(** * One thread that uses an interface in a loop

    The tests of EintrTests whose group is a single thread: it unblocks the signals (or installs
    their handlers), uses an interface while [do_it] is set, and cleans up. Such a thread is a
    [text]; it is lawful when it is [well_formed]. Then the threads [test] and [threaded] of
    pthread_equal/2-1.c, pthread_once/6-1.c, pthread_kill/8-1.c, pthread_sigmask/18-1.c,
    pthread_setschedparam/5-1.c, pthread_getschedparam/4-1.c, pthread_atfork/3-3.c,
    pthread_mutex_trylock/4-3.c, pthread_mutex_init/5-3.c, pthread_mutex_lock/3-1.c and
    pthread_cond_init/4-2.c as texts. *)

From stdpp Require Import base tactics numbers list strings relations.
From S2P Require Import Prelude SigApi EintrTests.

Open Scope Z_scope.

(** What a thread does with the value that a call returns: [None] to go on, or the exit code. *)
Definition tested (r : res) : option Z := match r with Err EINTR => Some PTS_FAIL | Err _ => Some PTS_UNRESOLVED | _ => None end.
Definition needed (r : res) : option Z := match r with Err _ => Some PTS_UNRESOLVED | _ => None end.
Definition eintr_only (r : res) : option Z := match r with Err EINTR => Some PTS_FAIL | _ => None end.
Definition ignored (r : res) : option Z := None.

(** A statement of the thread, with variables of type [V]: a call that is checked; one that changes
    variables; [pthread_sigmask], and whether the signals are not blocked after it; [sigaction] for a
    signal; [pthread_kill] of the thread itself with SIGUSR1; the loop around [sem_wait(&semsync)]. *)
Inductive instr (V : Type) : Type :=
| Call (name : string) (check : res → option Z)
| Do (f : res → V → V + Z)
| Mask (check : res → option Z) (opens : V → bool → bool)
| Sigaction (i : nat)
| Raise
| Sync.
Arguments Call {V}. Arguments Do {V}. Arguments Mask {V}. Arguments Sigaction {V}. Arguments Raise {V}. Arguments Sync {V}.

(** The statements before the loop, in it and after it; [late]: the thread installs the handlers. *)
Record text (V : Type) := Text { before : list (instr V); body : list (instr V); after : list (instr V); v_start : V; late : bool }.
Arguments Text {V}. Arguments before {V}. Arguments body {V}. Arguments after {V}. Arguments v_start {V}. Arguments late {V}.

(** [Looks]: at the condition of the loop; [Handles n]: in the handler, after statement [n] of the body. *)
Inductive place : Set := Before (n : nat) | Looks | Body (n : nat) | Handles (n : nat) | After (n : nat) | Over.

#[export] Instance place_eq_dec : EqDecision place.
Proof. solve_decision. Defined.

Record thread (V : Type) := Thread { at_ : place; vars : V; opened : bool; installed : list bool }.
Arguments Thread {V}. Arguments at_ {V}. Arguments vars {V}. Arguments opened {V}. Arguments installed {V}.

Section Loop.
Context {V : Type} (T : text V).

Definition norm (p : place) : place :=
  match p with
  | Before n => if (n <? length (before T))%nat then p else Looks
  | Body n => if (n <? length (body T))%nat then p else Looks
  | After n => if (n <? length (after T))%nat then p else Over
  | _ => p
  end.

Definition here (p : place) : option (instr V) :=
  match p with Before n => before T !! n | Body n => body T !! n | After n => after T !! n | _ => None end.

Definition succ (p : place) : place :=
  norm match p with Before n => Before (S n) | Body n | Handles n => Body (S n) | After n => After (S n) | _ => p end.

Definition moves (w : thread V) (p : place) : thread V := Thread p (vars w) (opened w) (installed w).

Definition exec (e : env) (r : res) (i : instr V) (w : thread V) : option (outcome (thread V)) :=
  let w' := moves w (succ (at_ w)) in
  let checked (c : res → option Z) (o : outcome (thread V)) := Some match c r with Some z => Exits z | None => o end in
  match i with
  | Call _ c => checked c (Goes w')
  | Do f => Some match f r (vars w) with inl v => Goes (Thread (succ (at_ w)) v (opened w) (installed w)) | inr z => Exits z end
  | Mask c f => checked c (Goes (match r with Err _ => w' | _ => Thread (succ (at_ w)) (vars w) (f (vars w) (opened w)) (installed w) end))
  | Sigaction i => checked needed (Goes (Thread (succ (at_ w)) (vars w) (opened w) (<[i := true]> (installed w))))
  | Raise => checked tested (Goes (match at_ w with Body n => moves w (Handles n) | _ => w' end))
  | Sync => match r with
            | Err EINTR => Some (Goes w)
            | Err _ => Some (Exits PTS_UNRESOLVED)
            | _ => if synced e then Some (Goes w') else None
            end
  end.

Definition loop_step (e : env) (k : nat) (r : res) (w : thread V) : option (outcome (thread V)) :=
  if (created e <=? k)%nat || negb (k =? 0)%nat then None
  else match r with
       | Late | Early => None
       | _ =>
           match at_ w with
           | Looks => Some (Goes (moves w (norm (if do_it e then Body 0 else After 0))))
           | Handles _ => Some match needed r with Some z => Exits z | None => Posts (moves w (succ (at_ w))) end
           | p => i ← here p; exec e r i w
           end
       end.

Definition masks (k : nat) (w : thread V) : bool := match here (at_ w) with Some (Mask _ _) => true | _ => false end.
Definition over (w : thread V) : bool := match at_ w with Over => true | _ => false end.

Definition loop : group := Group (thread V) 1
  (Thread (norm (Before 0)) (v_start T) (late T) [negb (late T); negb (late T)]) loop_step
  masks (λ w, opened w && negb (over w)) (λ i w, default false (installed w !! i)) (λ _, over).

(** ** A loop is lawful *)

Definition checks (c : res → option Z) : Prop :=
  ∀ r, match c r with None => True | Some z => ¬ conforms r ∧ (z = PTS_UNRESOLVED ∨ z = PTS_FAIL ∧ r = Err EINTR) end.

(** [P] holds of the variables at each place; statements do not exit unless a call fails. *)
Definition keeps (P : place → V → Prop) (p : place) (i : instr V) : Prop := ∀ v, P p v →
  match i with
  | Call _ c => checks c ∧ P (succ p) v
  | Do f => (∃ v', f Ok v = inl v') ∧ (∀ r v', f r v = inl v' → P (succ p) v') ∧
            ∀ r z, f r v = inr z → ¬ conforms r ∧ (z = PTS_UNRESOLVED ∨ z = PTS_FAIL ∧ r = Err EINTR)
  | Mask c f => checks c ∧ f v true = true ∧ P (succ p) v
  | Sigaction _ | Sync => P (succ p) v
  | Raise => (match p with Body n => P (Handles n) v | _ => False end) ∧ P (succ p) v
  end.

Record well_formed (P : place → V → Prop) : Prop := {
  wf_start : P (norm (Before 0)) (v_start T);
  wf_loop v : P Looks v → P (norm (Body 0)) v ∧ P (norm (After 0)) v;
  wf_here p i : here p = Some i → keeps P p i;
  wf_handles n v : P (Handles n) v → P (succ (Handles n)) v;
  (** The signals are unblocked, or the handlers installed, before the loop; [sem_wait] ends the
      threads that install the handlers. *)
  wf_opens : if late T then ∃ l, before T = Sigaction 0 :: Sigaction 1 :: l
             else ∃ n, before T !! n = Some (Mask needed (λ _ _, true));
  wf_mask p c f : here p = Some (Mask c f) → late T = false;
  wf_sync p : here p = Some Sync → late T = true ∧ ∃ n, p = After n;
  wf_last : late T = true → after T !! (length (after T) - 1)%nat = Some Sync }.

Context (P : place → V → Prop) (WF : well_formed P).

(** The number of statements that are left when [do_it] is not set. *)
Definition left_ (p : place) : nat :=
  let a := length (after T) in let b := length (body T) in
  match p with
  | Before n => length (before T) - n + a + 1
  | Looks => a + 1
  | Body n => 2 * (b - n) + a + 1
  | Handles n => 2 * (b - n) + a
  | After n => a - n
  | Over => 0
  end.

(** A place that the thread can be at. *)
Definition proper (p : place) : Prop :=
  match p with
  | Handles n => (n < length (body T))%nat
  | _ => norm p = p
  end.

(** The statement that unblocks the signals. *)
Definition Unblock : instr V := Mask needed (λ _ _, true).
Definition past (i : instr V) (p : place) : Prop :=
  match p with Before m => ∃ n, before T !! n = Some i ∧ (n < m)%nat | _ => True end.

Record loop_inv (e : env) (w : thread V) : Prop := {
  li_vars : P (at_ w) (vars w);
  li_proper : proper (at_ w);
  li_after : do_it e = true → match at_ w with After _ | Over => False | _ => True end;
  li_over : late T = true → synced e = false → at_ w ≠ Over;
  li_opened : late T = true ∨ past Unblock (at_ w) → opened w = true;
  li_length : length (installed w) = 2%nat;
  li_installed i : (i < 2)%nat → late T = false ∨ past (Sigaction i) (at_ w) → installed w !! i = Some true }.

Lemma norm_norm p : norm (norm p) = norm p.
Proof. destruct p; simpl; repeat (case_match; simpl); done. Qed.

Lemma succ_proper p : proper (succ p).
Proof. unfold succ, proper. destruct p; simpl; repeat (case_match; simplify_eq/=); congruence. Qed.

Lemma here_some p : proper p → p ≠ Looks → p ≠ Over → (∀ n, p ≠ Handles n) → ∃ i, here p = Some i.
Proof.
  intros Hp H1 H2 H3. destruct p as [n| |n|n|n|]; simpl in *; try done; [| |by destruct (H3 n)|];
    case_match eqn:E; try done; apply lookup_lt_is_Some_2; by apply Nat.ltb_lt.
Qed.

Lemma succ_left p i : here p = Some i → (left_ (succ p) < left_ p)%nat.
Proof.
  intros Hh. destruct p as [n| |n|n|n|]; simpl in *; try done; apply lookup_lt_Some in Hh;
    unfold succ; simpl; case_match eqn:E; simpl; try apply Nat.ltb_lt in E; lia.
Qed.

Lemma past_succ p i j : here p = Some i → (∃ n, before T !! n = Some j) → past j (succ p) → past j p ∨ (∃ m, p = Before m) ∧ i = j.
Proof.
  intros Hh [n Hn] Hp. destruct p as [m| |m|m|m|]; [|left; done..]. simpl in *.
  assert (∃ n, before T !! n = Some j ∧ (n < S m)%nat) as (n' & Hn' & Hlt).
  { unfold succ in Hp. simpl in Hp. case_match eqn:E; simpl in Hp; [done|]. exists n. split; [done|].
    apply Nat.ltb_ge in E. apply lookup_lt_Some in Hn. lia. }
  destruct (decide (n' = m)) as [->|]; [right; split; [by eexists|congruence]|left; exists n'; split; [done|lia]].
Qed.

Lemma unblocks : late T = false → ∃ n, before T !! n = Some Unblock.
Proof. intros H. pose proof (wf_opens _ WF) as Ho. by rewrite H in Ho. Qed.

Lemma installs i : late T = true → (i < 2)%nat → before T !! i = Some (Sigaction i).
Proof.
  intros H Hi. pose proof (wf_opens _ WF) as Ho. rewrite H in Ho. destruct Ho as [l ->]. by destruct i as [|[|]]; [..|lia].
Qed.

Lemma succ_over p i : here p = Some i → succ p = Over → late T = true → i = Sync.
Proof.
  intros Hh Hs Hl. pose proof (wf_last _ WF Hl) as Hlast.
  destruct p as [n| |n|n|n|]; unfold succ in Hs; simpl in *; try done; [by case_match..|].
  case_match eqn:E; [done|]. apply Nat.ltb_ge in E. pose proof (lookup_lt_Some _ _ _ Hh).
  replace (length (after T) - 1)%nat with n in Hlast by lia. congruence.
Qed.

(** A step to the next place. *)
Lemma goes_inv e w i v o l :
  loop_inv e w → here (at_ w) = Some i → P (succ (at_ w)) v →
  (opened w = true → o = true) → (i = Unblock → o = true) → length l = 2%nat →
  (∀ j, installed w !! j = Some true → l !! j = Some true) → (∀ j, (j < 2)%nat → i = Sigaction j → l !! j = Some true) →
  (i = Sync → synced e = true) → loop_inv e (Thread (succ (at_ w)) v o l).
Proof.
  intros [Hv Hp Ha Ho Hop Hlen Hin] Hh Hv' Hoo Hou Hl Hll Hls Hsy.
  split; cbn; try done; [apply succ_proper| | | |].
  - intros Hd. specialize (Ha Hd). destruct (at_ w); unfold succ; simpl; repeat case_match; done.
  - intros Hlt Hns Heq. rewrite Hsy in Hns; [done|]. by eapply succ_over.
  - intros Hor. destruct (late T) eqn:El; [auto|]. destruct Hor as [|Hpast]; [done|].
    destruct (past_succ _ _ _ Hh (unblocks El) Hpast) as [?|[_ ?]]; auto.
  - intros j Hj Hor. destruct (late T) eqn:El; [|by apply Hll, Hin; auto]. destruct Hor as [|Hpast]; [done|].
    destruct (past_succ _ _ (Sigaction j) Hh) as [?|[_ ?]]; [by exists j; apply installs|done|by apply Hll, Hin; auto|auto].
Qed.

Lemma exec_inv e r i w w' : loop_inv e w → here (at_ w) = Some i →
  exec e r i w = Some (Goes w') ∨ exec e r i w = Some (Posts w') → loop_inv e w'.
Proof.
  intros Hi Hh Hx. pose proof (wf_here _ WF _ _ Hh _ (li_vars _ _ Hi)) as Hk. pose proof (li_length _ _ Hi) as Hlen.
  assert (∀ v o l, P (succ (at_ w)) v → (opened w = true → o = true) → (i = Unblock → o = true) → length l = 2%nat →
            (∀ j, installed w !! j = Some true → l !! j = Some true) → (∀ j, (j < 2)%nat → i = Sigaction j → l !! j = Some true) →
            (i = Sync → synced e = true) → loop_inv e (Thread (succ (at_ w)) v o l)) as Hgo by (intros; by eapply goes_inv).
  unfold exec in Hx. destruct i as [n c|f|c f|j| |]; simpl in Hk.
  - destruct Hk as [_ Hk]. destruct (c r); destruct Hx as [Hx|Hx]; simplify_eq. apply Hgo; done || (intros; by simplify_eq/=).
  - destruct Hk as (_ & Hk & _). destruct (f r (vars w)) as [v|] eqn:Ef; destruct Hx as [Hx|Hx]; simplify_eq.
    apply Hgo; [by eapply Hk|done..].
  - destruct Hk as (_ & Hf & Hk). destruct (c r) eqn:Ec; destruct Hx as [Hx|Hx]; simplify_eq.
    destruct r; apply Hgo; try done; first [by intros ->|unfold Unblock; intros Hu; by simplify_eq/=].
  - destruct (needed r); destruct Hx as [Hx|Hx]; simplify_eq/=.
    assert (∀ x : nat, x = j → (j < 2)%nat → <[j := true]> (installed w) !! x = Some true) as Hset.
    { intros x -> Hx. rewrite list_lookup_insert_eq; [done|lia]. }
    apply Hgo; try done; [by rewrite length_insert| |].
    + intros x Hx. destruct (decide (x = j)) as [->|]; [|by rewrite list_lookup_insert_ne].
      apply Hset; [done|]. apply lookup_lt_Some in Hx. lia.
    + intros x Hx [= ->]. by apply Hset.
  - destruct Hk as [Hk1 Hk2].
    destruct (at_ w) as [m| |m|m|m|] eqn:Ea; try done.
    destruct (tested r); destruct Hx as [Hx|Hx]; simplify_eq.
    destruct Hi as [Hv Hp Ha Ho Hop Hlen' Hin]. rewrite Ea in *. split; cbn; try done. by eapply lookup_lt_Some.
  - destruct r as [| | |[]]; try (destruct Hx as [Hx|Hx]; simplify_eq; done);
      destruct (synced e) eqn:Es; destruct Hx as [Hx|Hx]; simplify_eq; apply Hgo; try done; intros; by simplify_eq.
Qed.

Lemma norm_proper p : proper (norm p) ∨ ∃ n, p = Handles n.
Proof.
  destruct p; [left..|right; by eexists|left|left]; unfold proper; simpl; repeat (case_match; simplify_eq/=); congruence.
Qed.

Lemma loop_step_cases e k r w o : loop_step e k r w = Some o →
  (0 < created e)%nat ∧
  (at_ w = Looks ∧ o = Goes (moves w (norm (if do_it e then Body 0 else After 0))) ∨
   (∃ n, at_ w = Handles n ∧ match needed r with Some z => o = Exits z | None => o = Posts (moves w (succ (Handles n))) end) ∨
   ∃ i, here (at_ w) = Some i ∧ exec e r i w = Some o).
Proof.
  unfold loop_step. destruct (created e <=? k)%nat eqn:Ec; [done|]. apply Nat.leb_gt in Ec.
  destruct (k =? 0)%nat; [|done]. simpl. intros H. split; [lia|].
  assert (r ≠ Late ∧ r ≠ Early) as [Hr1 Hr2] by (by destruct r).
  assert (match at_ w with
          | Looks => Some (Goes (moves w (norm (if do_it e then Body 0 else After 0))))
          | Handles _ => Some match needed r with Some z => Exits z | None => Posts (moves w (succ (at_ w))) end
          | p => i ← here p; exec e r i w
          end = Some o) as H' by (by destruct r). clear H.
  destruct (at_ w) as [m| |m|m|m|] eqn:Ea; simpl in *.
  - right. right. destruct (before T !! m) as [i|] eqn:Ei; [|done]. by exists i.
  - left. by simplify_eq.
  - right. right. destruct (body T !! m) as [i|] eqn:Ei; [|done]. by exists i.
  - right. left. exists m. split; [done|]. destruct (needed r); by simplify_eq.
  - right. right. destruct (after T !! m) as [i|] eqn:Ei; [|done]. by exists i.
  - done.
Qed.

Lemma loop_step_inv e k r w w' : loop_inv e w → loop_step e k r w = Some (Goes w') ∨ loop_step e k r w = Some (Posts w') →
  loop_inv e w' ∧ (over w = true → over w' = true).
Proof.
  intros Hi Hx. assert (∃ o, loop_step e k r w = Some o ∧ (o = Goes w' ∨ o = Posts w')) as (o & Ho & Hw') by (destruct Hx; eauto).
  destruct (loop_step_cases _ _ _ _ _ Ho) as [_ [[Ea ->]|[(n & Ea & Hn)|(i & Hh & He)]]].
  - split; [|unfold over; by rewrite Ea]. destruct Hw' as [Hw'|Hw']; [|done]. injection Hw' as <-.
    destruct Hi as [Hv Hp Ha Hov Hop Hlen Hin]. rewrite Ea in *. destruct (wf_loop _ WF _ Hv) as [H1 H2].
    split; cbn [at_ vars opened installed moves]; try done.
    + by destruct (do_it e).
    + destruct (do_it e); [destruct (norm_proper (Body 0)) as [|[]]|destruct (norm_proper (After 0)) as [|[]]]; done.
    + intros ->. unfold norm. by destruct (_ <? _)%nat.
    + intros Hl _. pose proof (wf_last _ WF Hl) as Hla. apply lookup_lt_Some in Hla. unfold norm.
      destruct (do_it e); [by destruct (_ <? _)%nat|]. by rewrite (proj2 (Nat.ltb_lt 0 (length (after T)))) by lia.
    + intros _. apply Hop. by right.
    + intros j Hj _. apply Hin; [done|by right].
  - split; [|unfold over; by rewrite Ea]. destruct (needed r); [by destruct Hw'; simplify_eq|].
    subst o. destruct Hw' as [Hw'|Hw']; [done|]. injection Hw' as <-.
    destruct Hi as [Hv Hp Ha Hov Hop Hlen Hin]. rewrite Ea in *.
    split; cbn [at_ vars opened installed moves]; try done.
    + by apply (wf_handles _ WF).
    + apply succ_proper.
    + intros _. unfold succ, norm. by destruct (_ <? _)%nat.
    + intros _ _. unfold succ, norm. by destruct (_ <? _)%nat.
    + intros _. apply Hop. by right.
    + intros j Hj _. apply Hin; [done|by right].
  - split; [apply (exec_inv e r i w w' Hi Hh); destruct Hw'; subst o; auto|]. unfold over. by destruct (at_ w).
Qed.

Lemma loop_step_exits e k r w c : loop_inv e w → loop_step e k r w = Some (Exits c) →
  ¬ conforms r ∧ (c = PTS_UNRESOLVED ∨ c = PTS_FAIL ∧ r = Err EINTR).
Proof.
  intros Hi Ho. destruct (loop_step_cases _ _ _ _ _ Ho) as [_ [[_ Hx]|[(n & Ea & Hn)|(i & Hh & He)]]]; [done| |].
  { unfold needed in Hn. destruct r; simplify_eq. split; [by intros []|by left]. }
  pose proof (wf_here _ WF _ _ Hh _ (li_vars _ _ Hi)) as Hk. unfold exec in He.
  assert (∀ (ch : res → option Z) (o : outcome (thread V)), checks ch → Some match ch r with Some z => Exits z | None => o end = Some (Exits c) →
            (∀ z, o ≠ Exits z) → ¬ conforms r ∧ (c = PTS_UNRESOLVED ∨ c = PTS_FAIL ∧ r = Err EINTR)) as Hch.
  { intros ch o' Hc Heq Hne. specialize (Hc r). destruct (ch r); simplify_eq; [done|]. by destruct (Hne c). }
  assert (checks needed ∧ checks tested) as [Hn Ht].
  { split; intros [| | |x]; simpl; try done; [split; [by intros []|by left]|].
    destruct x; (split; [by intros []|]); auto. }
  destruct i as [n ch|f|ch f|j| |]; simpl in Hk.
  - destruct Hk as [Hk _]. eapply Hch; [exact Hk|exact He|done].
  - destruct (f r (vars w)) eqn:Ef; simplify_eq. destruct Hk as (_ & _ & Hk). by apply Hk.
  - destruct Hk as [Hk _]. eapply Hch; [exact Hk|exact He|by destruct r].
  - eapply Hch; [exact Hn|exact He|done].
  - eapply Hch; [exact Ht|exact He|]. by destruct (at_ w).
  - destruct r as [| | |[]]; simplify_eq; try (split; [by intros []|by left]); by case_match.
Qed.

(** While a thread has not ended it can move when calls succeed. *)
Lemma exec_progress e w i : loop_inv e w → here (at_ w) = Some i → i ≠ Sync ∨ synced e = true →
  ∃ w', exec e Ok i w = Some (Goes w') ∧ (left_ (at_ w') < left_ (at_ w))%nat.
Proof.
  intros Hi Hh Hs. pose proof (wf_here _ WF _ _ Hh _ (li_vars _ _ Hi)) as Hk.
  assert (∀ v o l, (left_ (at_ (Thread (V := V) (succ (at_ w)) v o l)) < left_ (at_ w))%nat) as Hl by (intros; by eapply succ_left).
  assert (∀ c : res → option Z, checks c → c Ok = None) as Hc.
  { intros c Hc. specialize (Hc Ok). destruct (c Ok); [|done]. destruct Hc as [Hc _]. by destruct Hc. }
  unfold exec. destruct i as [n c|f|c f|j| |]; simpl in Hk.
  - destruct Hk as [Hk _]. rewrite (Hc _ Hk). eexists. split; [done|apply Hl].
  - destruct Hk as [[v ->] _]. eexists. split; [done|apply Hl].
  - destruct Hk as [Hk _]. rewrite (Hc _ Hk). eexists. split; [done|apply Hl].
  - simpl. eexists. split; [done|apply Hl].
  - simpl. destruct (at_ w) as [m| |m|m|m|] eqn:Ea; try (by destruct Hk). eexists. split; [done|]. simpl in *.
    apply lookup_lt_Some in Hh. lia.
  - destruct Hs as [|Hs]; [done|]. simpl. rewrite Hs. eexists. split; [done|apply Hl].
Qed.

Lemma loop_progress e w : loop_inv e w → (0 < created e)%nat → at_ w ≠ Over →
  here (at_ w) ≠ Some Sync ∨ synced e = true →
  ∃ w', gstep loop e w w' ∧ (do_it e = false ∨ at_ w ≠ Looks → (left_ (at_ w') < left_ (at_ w))%nat).
Proof.
  intros Hi Hc Ho Hs.
  assert (∀ o, match at_ w with
               | Looks => Some (Goes (moves w (norm (if do_it e then Body 0 else After 0))))
               | Handles _ => Some (Posts (moves w (succ (at_ w))))
               | p => i ← here p; exec e Ok i w
               end = Some o → loop_step e 0 Ok w = Some o) as Hstep.
  { intros o Ho'. unfold loop_step. rewrite (proj2 (Nat.leb_gt _ 0)) by lia. done. }
  assert (∀ w', loop_step e 0 Ok w = Some (Goes w') ∨ loop_step e 0 Ok w = Some (Posts w') → gstep loop e w w') as Hg.
  { intros w' Hw'. exists 0%nat Ok; [by left|done]. }
  destruct (here (at_ w)) as [i|] eqn:Eh.
  - destruct (exec_progress e w i Hi Eh) as (w' & Hx & Hl); [destruct Hs; [left; congruence|by right]|].
    exists w'. split; [|auto]. apply Hg. left. apply Hstep. rewrite <- Hx. destruct (at_ w); simpl in *; try done; by rewrite Eh.
  - destruct (at_ w) as [m| |m|m|m|] eqn:Ea; try done.
    + pose proof (here_some _ ltac:(pose proof (li_proper _ _ Hi) as H; by rewrite Ea in H)) as Hex.
      destruct Hex as [i Hx]; [done..|]. congruence.
    + eexists. split; [apply Hg; left; by apply Hstep|]. simpl. intros [->|?]; [|done]. unfold norm. destruct (_ <? _)%nat; simpl; lia.
    + pose proof (here_some _ ltac:(pose proof (li_proper _ _ Hi) as H; by rewrite Ea in H)) as Hex.
      destruct Hex as [i Hx]; [done..|]. congruence.
    + eexists. split; [apply Hg; right; by apply Hstep|]. intros _. simpl. pose proof (li_proper _ _ Hi) as Hp. rewrite Ea in Hp. simpl in Hp.
      unfold succ, norm. destruct (_ <? _)%nat; simpl; lia.
    + pose proof (here_some _ ltac:(pose proof (li_proper _ _ Hi) as H; by rewrite Ea in H)) as Hex.
      destruct Hex as [i Hx]; [done..|]. congruence.
Qed.

Lemma gstep_inv e w w' : loop_inv e w → gstep loop e w w' → loop_inv e w'.
Proof. intros Hi [k r _ Hst]. by eapply loop_step_inv. Qed.

Lemma exec_before e r i w w' m : at_ w = Before m → exec e r i w = Some (Goes w') ∨ exec e r i w = Some (Posts w') → at_ w' ≠ Over.
Proof.
  intros Ha. assert (succ (Before m) ≠ Over) as Hs by (unfold succ, norm; by destruct (_ <? _)%nat).
  unfold exec. rewrite Ha. intros [H|H]; destruct i; simpl in H; repeat case_match; simplify_eq/=; congruence.
Qed.

(** The thread gets to its loop, where it takes signals. *)
Lemma loop_opens n e w : loop_inv e w → (0 < created e)%nat → (left_ (at_ w) ≤ n)%nat → at_ w ≠ Over →
  ∃ w', rtc (gstep loop e) w w' ∧ loop_inv e w' ∧ at_ w' ≠ Over ∧ ∀ m, at_ w' ≠ Before m.
Proof.
  revert w. induction n as [|n IH]; intros w Hi Hc Hl Ho.
  all: destruct (at_ w) as [m| |m|m|m|] eqn:Ea; try (exists w; rewrite Ea; split_and!; done).
  { exfalso. simpl in Hl. lia. }
  destruct (loop_progress e w Hi Hc) as (w1 & Hg & Hlt); [by rewrite Ea|left; intros H; by destruct (wf_sync _ WF _ H) as [_ [? ?]]; congruence|].
  destruct (IH w1) as (w2 & Hr & ? & ? & ?); [by eapply gstep_inv|done| | |].
  - rewrite Ea in Hlt. specialize (Hlt ltac:(by right)). lia.
  - destruct Hg as [k r _ Hst]. intros Hov.
    assert (∃ o, loop_step e k r w = Some o ∧ (o = Goes w1 ∨ o = Posts w1)) as (o & Hst' & Hw') by (destruct Hst; eauto).
    destruct (loop_step_cases _ _ _ _ _ Hst') as [_ [[? _]|[(? & ? & _)|(i & Hh & He)]]]; [congruence..|].
    by apply (exec_before e r i w w1 m Ea); [destruct Hw'; subst o; auto|].
  - exists w2. split; [by eapply rtc_l|done].
Qed.

(** It ends when [do_it] is not set. *)
Lemma loop_finishes n e w : loop_inv e w → (0 < created e)%nat → (left_ (at_ w) ≤ n)%nat → do_it e = false → synced e = late T →
  ∃ w', rtc (gstep loop e) w w' ∧ over w' = true.
Proof.
  intros Hi Hc. revert w Hi. induction n as [|n IH]; intros w Hi Hl Hd Hs.
  all: destruct (decide (at_ w = Over)) as [Ho|Ho]; [exists w; split; [done|by unfold over; rewrite Ho]|].
  all: destruct (loop_progress e w Hi Hc Ho) as (w1 & Hg & Hlt);
    [rewrite Hs; destruct (late T) eqn:El; [by right|left; intros H; by destruct (wf_sync _ WF _ H); congruence]|].
  all: specialize (Hlt (or_introl Hd)).
  { lia. }
  destruct (IH w1) as (w2 & Hr & ?); [by eapply gstep_inv|lia|done..|]. exists w2. split; [by eapply rtc_l|done].
Qed.

Lemma loop_start : loop_inv (Env true false 0) (g_start loop).
Proof.
  assert (∀ i n, before T !! n = Some i → ¬ past i (norm (Before 0))) as Hp.
  { intros i n Hn. apply lookup_lt_Some in Hn as Hl. unfold norm. rewrite (proj2 (Nat.ltb_lt 0 (length (before T)))) by lia.
    simpl. intros (? & _ & ?). lia. }
  split; cbn [at_ vars opened installed g_start loop]; try done.
  - apply (wf_start _ WF).
  - by destruct (norm_proper (Before 0)) as [|[]].
  - intros _. unfold norm. by destruct (_ <? _)%nat.
  - intros _ _. unfold norm. by destruct (_ <? _)%nat.
  - intros [->|H]; [done|]. destruct (late T) eqn:El; [done|]. destruct (unblocks El) as [n Hn]. by destruct (Hp _ n Hn).
  - intros i Hi [->|H]; [by destruct i as [|[|]]; [..|lia]|].
    destruct (late T) eqn:El; [by destruct (Hp _ i (installs i El Hi))|by destruct i as [|[|]]; [..|lia]].
Qed.

Theorem loop_lawful : lawful (late T) loop.
Proof.
  refine (Lawful (late T) loop loop_inv (λ _ w, negb (over w)) loop_start _ _ _ _ _ _ _ _ _ _ _).
  - by intros d y n w [] _.
  - intros d y n w []. by split.
  - intros d y n w []. by split.
  - intros e k r w w' Hi Hst. destruct (loop_step_inv e k r w w' Hi Hst). split; [done|]. by intros j.
  - intros e k r w c. apply loop_step_exits.
  - intros e w Hi Hd. pose proof (li_after _ _ Hi Hd) as H. unfold over. by destruct (at_ w).
  - intros e w Hi Hs Hy. pose proof (li_over _ _ Hi Hs Hy) as H. unfold over. by destruct (at_ w).
  - intros e w Hi Hc Ha. cbn in Hc. destruct (loop_opens (left_ (at_ w)) e w Hi) as (w' & Hr & Hi' & Ho & Hb); [lia|done| |].
    { unfold over in Ha. by destruct (at_ w). }
    exists w'. split; [done|]. assert (∀ i, past i (at_ w')) as Hp by (intros i; destruct (at_ w') eqn:E; try done; by destruct (Hb n)).
    cbn. rewrite (li_opened _ _ Hi') by auto. split; [unfold over; by destruct (at_ w')|].
    intros i Hi2. by rewrite (li_installed _ _ Hi' i Hi2) by auto.
  - intros e k w w' Hi Hm Hst i Hi2. cbn in *. unfold masks in Hm. destruct (here (at_ w)) as [[]|] eqn:Eh; try done.
    destruct (loop_step_inv e k Ok w w' Hi Hst) as [Hi' _].
    by rewrite (li_installed _ _ Hi' i Hi2) by (left; by eapply (wf_mask _ WF)).
  - intros e w Hi Hd Ha. unfold over in Ha. split; [cbn; unfold over; destruct (at_ w); try done; apply andb_false_r|].
    intros k r o Ho. destruct (loop_step_cases _ _ _ _ _ Ho) as [_ [[E _]|[(n & E & _)|(i & E & _)]]]; [by rewrite E in Ha..|].
    by destruct (at_ w).
  - intros e w Hi Hd Hs Hc. cbn in Hc. destruct (loop_finishes (left_ (at_ w)) e w Hi) as (w' & Hr & Ho); [lia|done..|].
    exists w'. split; [done|]. by intros k _.
Qed.
End Loop.

(** ** Loops of plain calls *)

Lemma checks_tested : checks tested.
Proof. intros [| | |x]; simpl; try done. destruct x; (split; [by intros []|]); auto. Qed.
Lemma checks_needed : checks needed.
Proof. intros [| | |x]; simpl; try done. split; [by intros []|auto]. Qed.
Lemma checks_eintr_only : checks eintr_only.
Proof. intros [| | |x]; simpl; try done. destruct x; try done. split; [by intros []|auto]. Qed.
Lemma checks_ignored : checks ignored.
Proof. by intros []. Qed.
#[export] Hint Resolve checks_tested checks_needed checks_eintr_only checks_ignored : core.

(** Calls of which only the result counts. *)
Definition plain {V} (late : bool) (i : instr V) : Prop :=
  match i with
  | Call _ c => c = tested ∨ c = needed ∨ c = eintr_only ∨ c = ignored
  | Mask c f => late = false ∧ c = needed ∧ f = λ _ _, true
  | Sigaction _ => True
  | _ => False
  end.

Lemma plain_keeps {V} (T : text V) b p i : plain b i → keeps T (λ _ _, True) p i.
Proof. intros Hp v _. destruct i as [n c|f|c f|j| |]; try done; [by destruct Hp as [->|[->|[->| ->]]]; auto|by destruct Hp as (_ & -> & ->); auto]. Qed.

Lemma plain_wf {V} (T : text V) :
  Forall (plain (late T)) (before T) → Forall (plain (late T)) (body T) →
  (if late T then ∃ l, after T = l ++ [Sync] ∧ Forall (plain (late T)) l else Forall (plain (late T)) (after T)) →
  (if late T then ∃ l, before T = Sigaction 0 :: Sigaction 1 :: l else ∃ n, before T !! n = Some Unblock) →
  well_formed T (λ _ _, True).
Proof.
  intros Hb Hbo Ha Ho.
  assert (∀ p i, here T p = Some i → plain (late T) i ∨ i = Sync ∧ late T = true ∧ (∃ n, p = After n)) as Hh.
  { intros p i Hi. destruct p as [n| |n|n|n|]; simpl in Hi; try done.
    - left. exact (Forall_lookup_1 _ _ _ _ Hb Hi).
    - left. exact (Forall_lookup_1 _ _ _ _ Hbo Hi).
    - destruct (late T); [|left; exact (Forall_lookup_1 _ _ _ _ Ha Hi)]. destruct Ha as (l & El & Hl). rewrite El in Hi.
      apply lookup_app_Some in Hi as [Hi|[_ Hi]]; [left; exact (Forall_lookup_1 _ _ _ _ Hl Hi)|].
      apply list_lookup_singleton_Some in Hi as [_ <-]. right. eauto. }
  split; try done.
  - intros p i Hi. destruct (Hh p i Hi) as [Hp|[-> _]]; [by eapply plain_keeps|done].
  - intros p c f Hi. by destruct (Hh p _ Hi) as [[? _]|[? _]].
  - intros p Hi. by destruct (Hh p _ Hi) as [[]|[_ ?]].
  - intros Hl. rewrite Hl in Ha. destruct Ha as (l & El & _). rewrite El, length_app. simpl.
    replace (length l + 1 - 1)%nat with (length l) by lia. by rewrite lookup_app_r, Nat.sub_diag by lia.
Qed.

(** ** Tests that send signals to the process *)

(** Before it creates threads [main] installs the handlers, blocks the signals and initialises
    the semaphores. *)
Definition kill_prepare : list string := ["sigaction"; "sigaction"; "sigaddset"; "pthread_sigmask"; "sem_init"; "sem_init"]%string.
Definition kill_test {V} (T : text V) : test := Test (loop T) true kill_prepare false [0%nat] [].

(** [Err EINTR] of the second call is the value EINTR, another error the value 0. *)
Definition equal_2_1 : test := kill_test
  (Text [Unblock] [Call "pthread_equal(me, main)" needed; Call "pthread_equal(me, me)" tested] [] () false).

(** The variables are whether the system knows that [once_ctl] has been used, and [init_ctl].
    [once_ctl] has automatic storage and is assigned PTHREAD_ONCE_INIT in each round, which need not
    make it [fresh] (pthread_once/assertions.xml, 4). *)
Definition assign_once (fresh : bool) (v : bool * Z) : bool * Z := (if fresh then false else v.1, 0).
Definition pthread_once (v : bool * Z) : bool * Z := if v.1 then v else (true, v.2 + 1).
Definition once_text (fresh : bool) : text (bool * Z) :=
  Text [Unblock]
    [Do (λ r v, match tested r with Some z => inr z | None => inl (pthread_once (assign_once fresh v)) end);
     Do (λ r v, match tested r with
                | Some z => inr z
                | None => let v := pthread_once v in if v.2 =? 1 then inl v else inr PTS_FAIL
                end)]
    [] (false, 0) false.
Definition once_6_1 (fresh : bool) : test := kill_test (once_text fresh).

Definition kill_text : text () := Text [Unblock] [Call "pthread_kill(pthread_self(), 0)" tested; Raise] [] () false.
Definition kill_8_1 : test := kill_test kill_text.

(** The variables are [j] and [set]; [opens how set b]: whether SIGUSR1 and SIGUSR2 are not blocked
    after the call when they were not ([b]) before. *)
Definition signals : list Z := [SIGBUS; SIGKILL; SIGABRT; SIGCHLD; SIGHUP].
Definition NSIG : nat := length signals.
Definition operation : list how := [SIG_SETMASK; SIG_BLOCK; SIG_UNBLOCK].
Definition next_set (v : nat * list Z) : nat * list Z :=
  let j := ((v.1 + 1) mod (2 * NSIG))%nat in
  (j, if (NSIG <=? j)%nat then filter (λ s, s ≠ default 0 (signals !! (j - NSIG)%nat)) v.2
      else default 0 (signals !! j) :: v.2).
Definition opens (h : how) (v : nat * list Z) (b : bool) : bool :=
  let has s := bool_decide (s ∈ v.2) in
  match h with
  | SIG_SETMASK => negb (has SIGUSR1 || has SIGUSR2)
  | SIG_BLOCK => b && negb (has SIGUSR1 || has SIGUSR2)
  | SIG_UNBLOCK => b || has SIGUSR1 && has SIGUSR2
  | BadHow => b
  end.
Definition sigmask_text : text (nat * list Z) :=
  Text [Call "sigemptyset" needed; Unblock]
    (operation ≫= λ h, [Do (λ r v, match needed r with Some z => inr z | None => inl (next_set v) end); Mask tested (opens h)])
    [] (0%nat, []) false.
Definition sigmask_18_1 : test := kill_test sigmask_text.

(** Any error but EINTR is accepted. *)
Definition setschedparam_5_1 : test := kill_test
  (Text [Call "sched_get_priority_min" ignored; Call "sched_get_priority_min" ignored; Unblock]
     [Call "pthread_setschedparam(main, SCHED_FIFO)" eintr_only; Call "pthread_setschedparam(main, SCHED_RR)" eintr_only] [] () false).
Definition getschedparam_4_1 : test := kill_test (Text [Unblock] [Call "pthread_getschedparam(pthread_self())" tested] [] () false).
Definition atfork_3_3 : test := kill_test (Text [Unblock] [Call "pthread_atfork(prepare, parent, child)" eintr_only] [] () false).

(** ** pthread_mutex_trylock/4-3.c *)

Module Trylock.

(** The types of the mutexes; whether they are shared. The last two of [mtx] have the default type. *)
Inductive mtype : Set := DEFAULT | NORMAL | ERRORCHECK | RECURSIVE.
Definition scenarii : list (mtype * bool) :=
  [(DEFAULT, false); (NORMAL, false); (ERRORCHECK, false); (RECURSIVE, false);
   (DEFAULT, true); (NORMAL, true); (ERRORCHECK, true); (RECURSIVE, true)].
Definition NSCENAR : Z := Z.of_nat (length scenarii).
Definition type_of (i : Z) : mtype := from_option fst DEFAULT (scenarii !! Z.to_nat i).

(** [count_ope], an unsigned long; how often the mutex is locked that it selects; [ret] is 0 or EBUSY. *)
Record tvars : Set := TVars { count_ope : Z; locked : Z; busy : bool }.
Definition selected (v : tvars) : Z := count_ope v mod (NSCENAR + 2).

(** [pthread_mutex_trylock]: locks the mutex when it is free or recursive, and returns EBUSY otherwise. *)
Definition trylock (v : tvars) : tvars :=
  if (locked v =? 0) || (match type_of (selected v) with RECURSIVE => true | _ => false end)
  then TVars (count_ope v) (locked v + 1) false else TVars (count_ope v) (locked v) true.
Definition unlock (v : tvars) : tvars := TVars (count_ope v) (locked v - 1) false.

Definition first_trylock (r : res) (v : tvars) : tvars + Z :=
  match tested r with
  | Some z => inr z
  | None => let v := trylock (TVars ((count_ope v + 1) mod 2 ^ 64) (locked v) (busy v)) in
            if busy v then inr PTS_UNRESOLVED else inl v
  end.
(** EBUSY is accepted for every type. *)
Definition second_trylock (r : res) (v : tvars) : tvars + Z :=
  match r with
  | Err EBUSY => inl (TVars (count_ope v) (locked v) true)
  | _ => match tested r with Some z => inr z | None => inl (trylock v) end
  end.
Definition unlock_again (r : res) (v : tvars) : tvars + Z :=
  if busy v then inl v else match needed r with Some z => inr z | None => inl (unlock v) end.
Definition unlock_once (r : res) (v : tvars) : tvars + Z := match needed r with Some z => inr z | None => inl (unlock v) end.

(** [pshared]: mutexes can be shared. *)
Definition trylock_text (pshared : bool) : text tvars :=
  Text ([Unblock; Call "sysconf" ignored] ++
        (scenarii ≫= λ c, [Call "pthread_mutexattr_init" needed; Call "pthread_mutexattr_settype" needed] ++
                          (if pshared && c.2 then [Call "pthread_mutexattr_setpshared" needed] else []) ++
                          [Call "pthread_mutex_init" needed]) ++
        [Call "pthread_mutexattr_init" needed; Call "pthread_mutex_init" needed; Call "pthread_mutex_init" needed])
    [Do first_trylock; Do second_trylock; Do unlock_again; Do unlock_once]
    ((seq 0 9 ≫= λ _, [Call "pthread_mutex_destroy" needed; Call "pthread_mutexattr_destroy" needed]) ++
     [Call "pthread_mutex_destroy" needed])
    (TVars 0 0 false) false.
End Trylock.

Definition mutex_trylock_4_3 (pshared : bool) : test := kill_test (Trylock.trylock_text pshared).

(** ** Tests that send signals to a thread, which installs the handlers *)

Definition sync_test (T : text ()) : test := Test (loop T) false ["sem_init"; "sem_init"; "sem_init"]%string true [0%nat] [].

Definition times {A} (n : nat) (l : list A) : list A := seq 0 n ≫= λ _, l.
Definition handlers : list (instr ()) := [Sigaction 0; Sigaction 1].

(** No other thread uses the mutexes; the results of the calls on [count_protect] are not looked at. *)
Definition mutexattrs : list (instr ()) :=
  times 4 [Call "pthread_mutexattr_init" needed] ++ times 4 [Call "pthread_mutexattr_settype" needed].
Definition mutex_init_5_3 : test := sync_test
  (Text (handlers ++ mutexattrs)
     (times 5 [Call "pthread_mutex_init" tested; Call "pthread_mutex_destroy" tested;
               Call "pthread_mutex_lock(&count_protect)" ignored; Call "pthread_mutex_unlock(&count_protect)" ignored])
     (times 4 [Call "pthread_mutexattr_destroy" needed] ++ [Sync]) () true).

(** After the last unlock the code looks at the result of the lock again. *)
Definition mutex_lock_3_1 : test := sync_test
  (Text (handlers ++ mutexattrs ++ times 5 [Call "pthread_mutex_init" tested])
     (times 5 [Call "pthread_mutex_lock" tested; Call "pthread_mutex_unlock" tested] ++
      [Call "pthread_mutex_lock(&count_protect)" tested; Call "pthread_mutex_unlock(&count_protect)" ignored])
     (times 4 [Call "pthread_mutexattr_destroy" needed] ++ times 5 [Call "pthread_mutex_destroy" tested] ++ [Sync]) () true).

(** [monotonic]: there is CLOCK_MONOTONIC. *)
Definition cond_init_4_2 (monotonic : bool) : test := sync_test
  (Text (handlers ++ times 4 [Call "pthread_condattr_init" needed] ++ times 2 [Call "pthread_condattr_setpshared" needed] ++
         (if monotonic then times 2 [Call "pthread_condattr_setclock" needed] else []))
     (times 5 [Call "pthread_cond_init" tested; Call "pthread_cond_destroy" tested;
               Call "pthread_mutex_lock(&count_protect)" ignored; Call "pthread_mutex_unlock(&count_protect)" ignored])
     (times 4 [Call "pthread_condattr_destroy" needed] ++ [Sync]) () true).
