(* ===== verification/EintrThreads.v ===== *)
(** * Tests with several threads that use an interface

    The groups of pthread_join/6-3.c, pthread_create/14-1.c, pthread_detach/4-3.c and
    pthread_cancel/5-2.c: the thread [test] and those that it creates; and of pthread_cond_wait/4-1.c,
    pthread_cond_signal/4-2.c, pthread_cond_broadcast/4-2.c and pthread_cond_timedwait/4-3.c: the
    threads [waiter] and [worker]. *)

From stdpp Require Import base tactics numbers list strings relations.
From S2P Require Import Prelude Lts Scenarii EintrTests EintrLoops.

Open Scope Z_scope.

(** A call that is checked, and what happens when it does not exit. *)
Definition checked {W} (c : res → option Z) (r : res) (o : option (outcome W)) : option (outcome W) :=
  match c r with Some z => Some (Exits z) | None => o end.
(** A call that does what it has to, or fails. *)
Definition plain_call {W} (c : res → option Z) (r : res) (o : option (outcome W)) : option (outcome W) :=
  match r with Late | Early => None | _ => checked c r o end.

(** A step in which all calls do what they have to. *)
Lemma gstep_ok (g : group) e w k w' : g_step g e k Ok w = Some (Goes w') → gstep g e w w'.
Proof. intros H. exists k Ok; [by left|by left]. Qed.

(** ** pthread_join/6-3.c *)

Module Join63.
Inductive place : Set := Unblocks | Looks | Creates (sc : nat) | Joins (sc : nat) | Over.
(** [child]: the thread [threaded] that has not been joined, and whether it has ended. *)
Record st : Set := St { at_ : place; child : option bool }.

Definition test (e : env) (r : res) (w : st) : option (outcome st) :=
  match at_ w with
  | Unblocks => plain_call needed r (Some (Goes (St Looks (child w))))
  | Looks => Some (Goes (St (if do_it e then Creates 0 else Over) (child w)))
  | Creates sc =>
      match join_scenarii !! sc with
      | None => Some (Goes (St Looks (child w)))
      | Some c =>
          match r with
          | Ok => Some (if result c =? 1 then Exits PTS_UNRESOLVED else Goes (St (Joins sc) (Some false)))
          | Err _ => Some (if result c =? 0 then Exits PTS_UNRESOLVED else Goes (St (Creates (S sc)) (child w)))
          | _ => None
          end
      end
  | Joins sc => plain_call tested r (match child w with Some true => Some (Goes (St (Creates (S sc)) None)) | _ => None end)
  | Over => None
  end.

(** [sched_yield], and the end. *)
Definition threaded (w : st) : option (outcome st) :=
  match child w with Some false => Some (Goes (St (at_ w) (Some true))) | _ => None end.

Definition step (e : env) (k : nat) (r : res) (w : st) : option (outcome st) :=
  if (created e =? 0)%nat then None
  else match k with 0%nat => test e r w | 1%nat => threaded w | _ => None end.

Definition over (w : st) : bool := match at_ w with Over => true | _ => false end.
Definition masks (k : nat) (w : st) : bool := match k, at_ w with 0%nat, Unblocks => true | _, _ => false end.
Definition open (w : st) : bool := match at_ w with Unblocks | Over => false | _ => true end.

Definition threads : group := Group st 1 (St Unblocks None) step masks open (λ _ _, true) (λ _, over).

Record inv (e : env) (w : st) : Prop := {
  i_over : do_it e = true → at_ w ≠ Over;
  i_child : match at_ w with Joins _ => is_Some (child w) | _ => child w = None end }.

Lemma rows_created c : c ∈ join_scenarii → result c ≠ 1.
Proof. intros Hc. eapply (Forall_forall (λ c, result c ≠ 1)); [|exact Hc]. apply (bool_decide_unpack _). by vm_compute. Qed.

Lemma join63_step_inv e k r w w' : inv e w → step e k r w = Some (Goes w') ∨ step e k r w = Some (Posts w') →
  inv e w' ∧ (over w = true → over w' = true).
Proof.
  intros [Ho Hc] Hst. unfold step, test, threaded, plain_call, checked, over in *. destruct w as [p c]; cbn in *.
  destruct Hst as [Hst|Hst]; repeat (case_match; simplify_eq/=); split; try split; cbn; try done; intros; congruence.
Qed.

Lemma join63_step_exits e k r w c : step e k r w = Some (Exits c) → ¬ conforms r ∧ (c = PTS_UNRESOLVED ∨ c = PTS_FAIL ∧ r = Err EINTR).
Proof.
  unfold step, test, threaded, plain_call, checked. intros Hst.
  assert (∀ i d, join_scenarii !! i = Some d → (result d =? 1) = false) as Hrow.
  { intros i d Hd. apply Z.eqb_neq, rows_created. by eapply list_elem_of_lookup_2. }
  pose proof (checks_needed r) as Hn. pose proof (checks_tested r) as Ht.
  repeat (case_match; simplify_eq/=); try done; auto.
  - rewrite (Hrow _ _ ltac:(done)) in *. done.
Qed.

Lemma creates_finishes n sc e c : (length join_scenarii - sc ≤ n)%nat → created e = 1%nat → do_it e = false →
  ∃ w', rtc (gstep threads e) (St (Creates sc) c) w' ∧ over w' = true.
Proof.
  revert sc c. induction n as [|n IH]; intros sc c Hn Hc Hd; destruct (join_scenarii !! sc) as [d|] eqn:Ed.
  all: try (apply lookup_ge_None in Ed as Hge; exists (St Over c); split; [|done];
    apply rtc_l with (St Looks c); [apply (gstep_ok threads e _ 0); cbn; unfold step, test; cbn [at_]; by rewrite Hc, Ed|];
    apply rtc_once, (gstep_ok threads e _ 0); cbn; unfold step, test; cbn; by rewrite Hc, Hd).
  { apply lookup_lt_Some in Ed. lia. }
  apply lookup_lt_Some in Ed as Hlt.
  destruct (IH (S sc) None) as (w' & Hr & Ho); [lia|done..|]. exists w'. split; [|done].
  apply rtc_l with (St (Joins sc) (Some false)).
  { apply (gstep_ok threads e _ 0). cbn. unfold step, test. cbn [at_]. rewrite Hc, Ed.
    rewrite (proj2 (Z.eqb_neq (result d) 1)); [done|]. apply rows_created. by eapply list_elem_of_lookup_2. }
  apply rtc_l with (St (Joins sc) (Some true)); [apply (gstep_ok threads e _ 1); cbn; unfold step; by rewrite Hc|].
  apply rtc_l with (St (Creates (S sc)) None); [|done]. apply (gstep_ok threads e _ 0). cbn. unfold step, test. by rewrite Hc.
Qed.

Theorem join63_lawful : lawful false threads.
Proof.
  refine (Lawful false threads inv (λ _ w, negb (over w)) _ _ _ _ _ _ _ _ _ _ _ _).
  - by split.
  - by intros d y n w [].
  - by intros d y n w []; split.
  - by intros d y n w []; split.
  - intros e k r w w' Hi Hst. destruct (join63_step_inv e k r w w' Hi Hst). split; [done|]. by intros j.
  - intros e k r w c _. apply join63_step_exits.
  - intros e w [Ho _] Hd. specialize (Ho Hd). unfold over. by destruct (at_ w).
  - done.
  - intros e w Hi Hc Ha. unfold over in Ha. destruct w as [[| |sc|sc|] c]; try done.
    1: { exists (St Looks c). split; [|done]. apply rtc_once, (gstep_ok threads e _ 0). cbn in *. unfold step. by rewrite Hc. }
    all: eexists; split; [apply rtc_refl|done].
  - done.
  - intros e w [_ Hc] Hd Ha. unfold over in Ha. destruct w as [[| |sc|sc|] c]; try done. cbn in Hc. subst c. split; [done|].
    intros k r o. cbn. unfold step, test, threaded. cbn. by repeat case_match.
  - intros e w [_ Hi] Hd _ Hc. cbn in Hc.
    assert (∀ c, ∃ w', rtc (gstep threads e) (St Looks c) w' ∧ over w' = true) as Hlk.
    { intros c. exists (St Over c). split; [|done]. apply rtc_once, (gstep_ok threads e _ 0). cbn. unfold step, test. cbn. by rewrite Hc, Hd. }
    assert (∃ w', rtc (gstep threads e) w w' ∧ over w' = true) as (w' & Hr & Ho); [|exists w'; split; [done|by intros]].
    destruct w as [[| |sc|sc|] c]; cbn in Hi.
    + destruct (Hlk c) as (w' & Hr & Ho). exists w'. split; [|done]. eapply rtc_l; [|done].
      apply (gstep_ok threads e _ 0). cbn. unfold step. by rewrite Hc.
    + apply Hlk.
    + by eapply creates_finishes.
    + destruct (creates_finishes _ (S sc) e None (reflexivity _) Hc Hd) as (w' & Hr & Ho). exists w'. split; [|done].
      assert (gstep threads e (St (Joins sc) (Some true)) (St (Creates (S sc)) None)) as Hj.
      { apply (gstep_ok threads e _ 0). cbn. unfold step, test. by rewrite Hc. }
      destruct Hi as [[] ->]; [by eapply rtc_l|]. eapply rtc_l; [|by eapply rtc_l].
      apply (gstep_ok threads e _ 1). cbn. unfold step. by rewrite Hc.
    + eexists. split; [apply rtc_refl|done].
Qed.
End Join63.

(** ** pthread_create/14-1.c and pthread_detach/4-3.c

    In pthread_detach/4-3.c ([detach]) the signals are blocked in [test] and not in its children, which
    detach themselves; in pthread_create/14-1.c they are blocked in none. *)

Module Creator.
Inductive place : Set := Masks | Looks | Creates | Joins | Waits | Over.
(** A child; it reads [sc] when it posts the semaphore of the row. *)
Inductive kid : Set := Unblocks | Detaches | Posts_ | Leaves | Gone.
(** [sems] are the semaphores of the rows; the last of [kids] is the newest. *)
Record st : Set := St { at_ : place; sc : nat; sems : list Z; kids : list kid }.

#[export] Instance kid_eq_dec : EqDecision kid.
Proof. solve_decision. Defined.
#[export] Instance place_eq_dec : EqDecision place.
Proof. solve_decision. Defined.

Section Program.
Context (detach : bool).

Definition goes (p : place) (w : st) : st := St p (sc w) (sems w) (kids w).
Definition next_row (w : st) : st := St Looks ((sc w + 1) mod length scenarii) (sems w) (kids w).
Definition with_sem (v : Z) (w : st) : st := St (at_ w) (sc w) (<[sc w := v]> (sems w)) (kids w).
Definition with_kid (i : nat) (k : kid) (w : st) : st := St (at_ w) (sc w) (sems w) (<[i := k]> (kids w)).

Definition test (e : env) (r : res) (w : st) : option (outcome st) :=
  match at_ w with
  | Masks => plain_call needed r (Some (Goes (goes Looks w)))
  | Looks => Some (Goes (goes (if do_it e then Creates else Over) w))
  | Creates =>
      c ← scenarii !! sc w;
      match r with
      | Ok => Some (if result c =? 1 then Exits PTS_UNRESOLVED
                    else Goes (St (if negb detach && (detached c =? 0) then Joins else Waits) (sc w) (sems w)
                                  (kids w ++ [if detach then Unblocks else Posts_])))
      | Err _ => checked (if detach then ignored else eintr_only) r
                   (Some (if result c =? 0 then Exits PTS_UNRESOLVED else Goes (next_row w)))
      | _ => None
      end
  | Joins => plain_call needed r (match last (kids w) with Some Gone => Some (Goes (next_row w)) | _ => None end)
  | Waits =>
      match r with
      | Err EINTR => Some (Goes w)
      | _ => plain_call needed r (v ← sems w !! sc w; if 0 <? v then Some (Goes (next_row (with_sem (v - 1) w))) else None)
      end
  | Over => None
  end.

(** [threaded] of child [i]. *)
Definition threaded (i : nat) (r : res) (w : st) : option (outcome st) :=
  k ← kids w !! i;
  match k with
  | Unblocks => plain_call needed r (Some (Goes (with_kid i Detaches w)))
  | Detaches => plain_call eintr_only r (Some (Goes (with_kid i Posts_ w)))
  | Posts_ =>
      match r with
      | Err EINTR => Some (Goes w)
      | _ => plain_call needed r (v ← sems w !! sc w; Some (Goes (with_kid i Leaves (with_sem (v + 1) w))))
      end
  | Leaves => Some (Goes (with_kid i Gone w))
  | Gone => None
  end.

Definition step (e : env) (k : nat) (r : res) (w : st) : option (outcome st) :=
  if (created e =? 0)%nat then None else match k with 0%nat => test e r w | S i => threaded i r w end.

Definition over (w : st) : bool := match at_ w with Over => true | _ => false end.
(** In pthread_detach/4-3.c the thread [test] blocks the signals. *)
Definition masks (k : nat) (w : st) : bool :=
  match k with
  | 0%nat => match at_ w with Masks => negb detach | _ => false end
  | S i => match kids w !! i with Some Unblocks => true | _ => false end
  end.
Definition takes (k : kid) : bool := match k with Detaches | Posts_ | Leaves => true | _ => false end.
Definition open (w : st) : bool :=
  negb detach && (match at_ w with Masks | Over => false | _ => true end) || existsb takes (kids w).
Definition threads : group := Group st 1 (St Masks 0 (replicate (length scenarii) 0) []) step masks open (λ _ _, true) (λ _, over).

(** ** It is lawful *)

Definition lives (w : st) : bool := existsb (λ k, negb (bool_decide (k = Gone))) (kids w).
Definition alive (d : bool) (w : st) : bool :=
  d || negb detach && negb (over w) || lives w || bool_decide (at_ w = Creates).

Definition posted (k : kid) : bool := match k with Leaves | Gone => true | _ => false end.
(** The rows whose semaphore [test] waits for. *)
Definition waited (i : nat) : Prop := ∃ c, scenarii !! i = Some c ∧ (detach = true ∨ detached c ≠ 0).

Record inv (e : env) (w : st) : Prop := {
  i_over : do_it e = true → at_ w ≠ Over;
  i_row : (sc w < length scenarii)%nat;
  i_sems : length (sems w) = length scenarii;
  i_zero i : waited i → i ≠ sc w ∨ at_ w ≠ Waits → sems w !! i = Some 0;
  (** Only the newest child may not have posted, and [test] waits for it then. *)
  i_old : match at_ w with
          | Joins => ¬ waited (sc w) ∧ ∃ ks k, kids w = ks ++ [k] ∧ Forall posted ks
          | Waits => waited (sc w) ∧ ∃ ks k, kids w = ks ++ [k] ∧ Forall posted ks ∧ sems w !! sc w = Some (if posted k then 1 else 0)
          | _ => Forall posted (kids w)
          end }.

Lemma table : (0 < length scenarii)%nat ∧ ∀ i c, scenarii !! i = Some c → result c ≠ 1.
Proof.
  split; [apply (bool_decide_unpack _); by vm_compute|]. intros i c Hc.
  eapply (Forall_lookup_1 (λ c, result c ≠ 1)); [|exact Hc]. apply (bool_decide_unpack _). by vm_compute.
Qed.

Lemma next_row_lt n : ((n + 1) mod length scenarii < length scenarii)%nat.
Proof. apply Nat.mod_upper_bound. pose proof (proj1 table). lia. Qed.

Lemma quiet_inv e p w : inv e w → (do_it e = true → p ≠ Over) → p ≠ Joins → p ≠ Waits → at_ w ≠ Joins → at_ w ≠ Waits → inv e (goes p w).
Proof.
  intros [Ho Hr Hl Hz Hk] H1 H2 H3 H4 H5. split; cbn; try done; [by auto|].
  assert (Forall posted (kids w)) by by destruct (at_ w). by destruct p.
Qed.

(** [test] goes on to the next row when all children have posted. *)
Lemma next_row_inv e w : length (sems w) = length scenarii → (∀ i, waited i → sems w !! i = Some 0) → Forall posted (kids w) →
  inv e (next_row w).
Proof. intros Hl Hz Hk. split; cbn; try done; [apply next_row_lt|auto]. Qed.

Lemma test_inv e r w w' : inv e w → test e r w = Some (Goes w') ∨ test e r w = Some (Posts w') →
  inv e w' ∧ (over w = true → over w' = true).
Proof.
  intros Hi. unfold test, plain_call, over. destruct (at_ w) eqn:Ea; [| | | | |by intros []]; intros Hst; (split; [|done]).
  - unfold checked in Hst. destruct (needed r), r; destruct Hst as [Hst|Hst]; simplify_eq/=; apply quiet_inv; congruence.
  - destruct Hst as [Hst|Hst]; simplify_eq. apply quiet_inv; try congruence; destruct (do_it e); congruence.
  - destruct Hi as [Ho Hr Hl Hz Hk]. rewrite Ea in *. destruct (scenarii !! sc w) as [c|] eqn:Ec; [|by destruct Hst].
    assert (inv e (next_row w)) as Hnx by (apply next_row_inv; auto).
    cbn [mbind option_bind] in Hst. unfold checked in Hst.
    destruct r; [|by destruct Hst..|destruct (_ (Err e0)); destruct (result c =? 0); destruct Hst; by simplify_eq].
    destruct (result c =? 1); [by destruct Hst; simplify_eq|]. destruct Hst as [Hst|Hst]; simplify_eq.
    assert (waited (sc w) ↔ negb detach && (detached c =? 0) = false) as Hw.
    { unfold waited. rewrite Ec. split.
      - intros (c' & [= <-] & Hc'). destruct detach; [done|]. destruct Hc' as [|Hc']; [done|]. by apply Z.eqb_neq in Hc' as ->.
      - intros Hc. exists c. split; [done|]. destruct detach; [by left|right]. by apply Z.eqb_neq in Hc. }
    assert (∃ ks k, kids w ++ [if detach then Unblocks else Posts_] = ks ++ [k] ∧ Forall posted ks ∧ posted k = false) as (ks & k & Hks & Hp & Hnp).
    { exists (kids w), (if detach then Unblocks else Posts_). split_and!; [done..|by destruct detach]. }
    split; cbn; try done; [by destruct (negb _ && _)|intros; apply Hz; auto|].
    destruct (negb detach && (detached c =? 0)) eqn:E; cbn.
    + split; [by rewrite Hw|]. eauto.
    + split; [by rewrite Hw|]. exists ks, k. rewrite Hnp. split_and!; try done. apply Hz; [by rewrite Hw|by right].
  - destruct Hi as [Ho Hr Hl Hz Hk]. rewrite Ea in *. destruct Hk as (Hw & ks & k & Hks & Hp).
    assert (k = Gone → inv e (next_row w)) as Hnx.
    { intros ->. apply next_row_inv; auto. rewrite Hks. apply Forall_app. by repeat constructor. }
    rewrite Hks, last_snoc in Hst. unfold checked in Hst.
    destruct r, k; destruct Hst as [Hst|Hst]; simplify_eq/=; by apply Hnx.
  - assert (inv e w) as Hi' by done. destruct Hi as [Ho Hr Hl Hz Hk]. rewrite Ea in *. destruct Hk as (Hw & ks & k & Hks & Hp & Hs).
    rewrite Hs in Hst. cbn [mbind option_bind] in Hst.
    assert (posted k = true → inv e (next_row (with_sem 0 w))) as Hnx.
    { intros Hpk. apply next_row_inv; cbn; [by rewrite length_insert| |].
      - intros i Hi. destruct (decide (i = sc w)) as [->|Hne]; [apply list_lookup_insert_eq; by rewrite Hl|].
        rewrite list_lookup_insert_ne by done. apply Hz; auto.
      - rewrite Hks. apply Forall_app. split; [done|]. repeat constructor. by rewrite Hpk. }
    unfold checked in Hst. destruct (posted k) eqn:Ek; cbn in Hst.
    + destruct r as [| | |[]]; destruct Hst as [Hst|Hst]; simplify_eq/=; try done; by apply Hnx.
    + destruct r as [| | |[]]; destruct Hst as [Hst|Hst]; simplify_eq/=; done.
Qed.

Lemma insert_newest {A} (l : list A) x y : <[length l := y]> (l ++ [x]) = l ++ [y].
Proof. rewrite insert_app_r_alt, Nat.sub_diag by done. done. Qed.

(** The newest child is the only one that may not have posted. *)
Lemma unposted_newest e w i k : inv e w → kids w !! i = Some k → posted k = false →
  (at_ w = Joins ∨ at_ w = Waits) ∧ ∃ ks, kids w = ks ++ [k] ∧ i = length ks ∧ Forall posted ks.
Proof.
  intros Hi Hk Hp.
  assert (∀ ks, Forall posted ks → ks !! i ≠ Some k) as Hno.
  { intros ks Hks Hik. apply (Forall_lookup_1 _ _ _ _ Hks) in Hik. by rewrite Hp in Hik. }
  pose proof (i_old _ _ Hi) as Ho.
  assert ((at_ w = Joins ∨ at_ w = Waits) ∧ ∃ ks k', kids w = ks ++ [k'] ∧ Forall posted ks) as (Hat & ks & k' & Hks & Hf).
  { destruct (at_ w); try (by destruct (Hno _ Ho)); (split; [auto|]); destruct Ho as (_ & ks & k' & ? & Hf); exists ks, k'; [auto|by destruct Hf]. }
  split; [done|]. rewrite Hks in Hk. apply lookup_app_Some in Hk as [Hk|[Hlt Hk]]; [by destruct (Hno _ Hf)|].
  apply list_lookup_singleton_Some in Hk as [Hz <-]. exists ks. split_and!; [done|lia|done].
Qed.

(** A child goes on. *)
Lemma kid_inv e w i k : inv e w → kids w !! i = Some k → posted k = false →
  (∀ k', posted k' = false → inv e (with_kid i k' w)) ∧
  ∀ v k', posted k' = true → sems w !! sc w = Some v → inv e (with_kid i k' (with_sem (v + 1) w)).
Proof.
  intros Hi Hk Hp. destruct (unposted_newest e w i k Hi Hk Hp) as (Hat & ks & Hks & -> & Hf).
  destruct Hi as [Ho Hr Hl Hz Hold]. unfold with_kid, with_sem. split.
  - intros k' Hp'. split; cbn; try done. rewrite Hks, insert_newest. destruct (at_ w); try (by destruct Hat as [|]).
    + destruct Hold as [Hw _]. split; [done|]. by eexists _, _.
    + destruct Hold as (Hw & ks' & k1 & Hks' & Hf' & Hs). split; [done|]. exists ks, k'.
      rewrite Hks' in Hks. apply app_inj_tail in Hks as [-> ->]. rewrite Hp in Hs. rewrite Hp'. auto.
  - intros v k' Hp' Hv. split; cbn; try done; [by rewrite length_insert| |].
    + intros i Hi Hne. destruct (decide (i = sc w)) as [->|Hd]; [|by rewrite list_lookup_insert_ne by done; auto].
      destruct Hne as [|Hne]; [done|]. destruct Hat as [Hat|Hat]; [|done]. rewrite Hat in Hold. by destruct Hold.
    + rewrite Hks, insert_newest. destruct (at_ w); try (by destruct Hat as [|]).
      * destruct Hold as [Hw _]. split; [done|]. by eexists _, _.
      * destruct Hold as (Hw & ks' & k1 & Hks' & Hf' & Hs). split; [done|]. exists ks, k'.
        rewrite Hks' in Hks. apply app_inj_tail in Hks as [-> ->]. rewrite Hp, Hv in Hs. injection Hs as ->. rewrite Hp'.
        split_and!; [done..|]. apply list_lookup_insert_eq. lia.
Qed.

Lemma gone_inv e w i : inv e w → kids w !! i = Some Leaves → inv e (with_kid i Gone w).
Proof.
  intros [Ho Hr Hl Hz Hold] Hk. split; cbn; try done.
  assert (∀ ks, Forall posted ks → Forall posted (<[i := Gone]> ks)) as Hf by (intros; by apply Forall_insert).
  assert (∀ ks k, kids w = ks ++ [k] → ∃ ks' k', <[i := Gone]> (kids w) = ks' ++ [k'] ∧ posted k' = posted k ∧ (Forall posted ks → Forall posted ks')) as Hlast.
  { intros ks k Hks. rewrite Hks in Hk |- *. apply lookup_app_Some in Hk as [Hk|[Hge Hk]].
    - exists (<[i := Gone]> ks), k. rewrite insert_app_l by by eapply lookup_lt_Some. auto.
    - apply list_lookup_singleton_Some in Hk as [Hi ->]. replace i with (length ks) by lia. rewrite insert_newest. by exists ks, Gone. }
  destruct (at_ w); auto.
  - destruct Hold as (Hw & ks & k & Hks & Hp). split; [done|]. destruct (Hlast _ _ Hks) as (ks' & k' & -> & _ & Hp'). eauto.
  - destruct Hold as (Hw & ks & k & Hks & Hp & Hs). split; [done|]. destruct (Hlast _ _ Hks) as (ks' & k' & -> & Hpk & Hp').
    exists ks', k'. rewrite Hpk. auto.
Qed.

Lemma sem_exists e w : inv e w → ∃ v, sems w !! sc w = Some v.
Proof. intros [_ Hr Hl _ _]. apply lookup_lt_is_Some_2. lia. Qed.

Lemma threaded_inv e i r w w' : inv e w → threaded i r w = Some (Goes w') ∨ threaded i r w = Some (Posts w') →
  inv e w' ∧ at_ w' = at_ w.
Proof.
  intros Hi. unfold threaded, plain_call, checked. destruct (kids w !! i) as [k|] eqn:Hk; [|by intros []]. cbn [mbind option_bind].
  pose proof (kid_inv e w i k Hi Hk) as Hkid. destruct (sem_exists e w Hi) as [v Hv]. rewrite Hv. cbn [mbind option_bind].
  intros Hst. destruct k; cbn in Hkid.
  - destruct (needed r), r; destruct Hst as [Hst|Hst]; simplify_eq/=; (split; [|done]); by apply Hkid.
  - destruct (eintr_only r), r; destruct Hst as [Hst|Hst]; simplify_eq/=; (split; [|done]); by apply Hkid.
  - destruct r as [| | |[]]; destruct Hst as [Hst|Hst]; simplify_eq/=; (split; [|done]); try done; by apply Hkid.
  - destruct Hst as [Hst|Hst]; simplify_eq. split; [by apply gone_inv|done].
  - by destruct Hst.
Qed.

Lemma creator_step_inv e k r w w' : inv e w → step e k r w = Some (Goes w') ∨ step e k r w = Some (Posts w') →
  inv e w' ∧ (over w = true → over w' = true).
Proof.
  intros Hi. unfold step. destruct (created e =? 0)%nat; [by intros []|]. destruct k as [|i]; [by apply test_inv|].
  intros Hst. destruct (threaded_inv e i r w w' Hi Hst) as [? E]. split; [done|]. unfold over. by rewrite E.
Qed.

Lemma creator_step_exits e k r w c : step e k r w = Some (Exits c) → ¬ conforms r ∧ (c = PTS_UNRESOLVED ∨ c = PTS_FAIL ∧ r = Err EINTR).
Proof.
  unfold step, test, threaded, plain_call, checked. intros Hst.
  pose proof (checks_needed r) as Hn. pose proof (checks_eintr_only r) as Ht.
  destruct (created e =? 0)%nat; [done|]. destruct k as [|i].
  - destruct (at_ w).
    + destruct r; simplify_eq/=; auto.
    + done.
    + destruct (scenarii !! sc w) as [d|] eqn:Ed; [|done]. cbn [mbind option_bind] in Hst.
      rewrite (proj2 (Z.eqb_neq _ _) (proj2 table _ _ Ed)) in Hst.
      destruct r as [| | |x]; try done. split; [by intros []|]. destruct detach; [|destruct x]; simplify_eq/=; repeat case_match; simplify_eq; auto.
    + destruct r, (last (kids w)) as [[]|]; simplify_eq/=; auto.
    + destruct r as [| | |[]]; simplify_eq/=; auto; destruct (sems w !! sc w); simplify_eq/=; by case_match.
    + done.
  - destruct (kids w !! i) as [[]|]; try done; cbn [mbind option_bind] in Hst.
    + destruct r; simplify_eq/=; auto.
    + destruct r as [| | |[]]; simplify_eq/=; auto.
    + destruct r as [| | |[]]; simplify_eq/=; auto; by destruct (sems w !! sc w).
Qed.

Lemma test_goes e w w' : created e = 1%nat → test e Ok w = Some (Goes w') → gstep threads e w w'.
Proof. intros Hc Ht. apply (gstep_ok threads e w 0). cbn. unfold step. by rewrite Hc. Qed.

Lemma kid_goes e i w w' : created e = 1%nat → threaded i Ok w = Some (Goes w') → gstep threads e w w'.
Proof. intros Hc Ht. apply (gstep_ok threads e w (S i)). cbn. unfold step. by rewrite Hc. Qed.

Lemma gsteps_inv e w w' : inv e w → rtc (gstep threads e) w w' → inv e w'.
Proof. induction 2 as [|w w1 w2 [k r _ Hst] _ IH]; [done|]. apply IH. by eapply creator_step_inv. Qed.

Definition kid_left (k : kid) : nat := match k with Unblocks => 4 | Detaches => 3 | Posts_ => 2 | Leaves => 1 | Gone => 0 end.

(** A child can end. *)
Lemma kid_finishes n e i w k : inv e w → created e = 1%nat → kids w !! i = Some k → (kid_left k ≤ n)%nat →
  ∃ w', rtc (gstep threads e) w w' ∧ at_ w' = at_ w ∧ length (kids w') = length (kids w) ∧ kids w' !! i = Some Gone.
Proof.
  revert w k. induction n as [|n IH]; intros w k Hi Hc Hk Hn.
  { exists w. split; [done|]. split_and!; try done. destruct k; simpl in Hn; lia || done. }
  destruct (decide (k = Gone)) as [->|Hng]; [by exists w|]. destruct (sem_exists e w Hi) as [v Hv].
  assert (i < length (kids w))%nat as Hlt by by eapply lookup_lt_Some.
  assert (∃ k' w1, threaded i Ok w = Some (Goes w1) ∧ at_ w1 = at_ w ∧ kids w1 = <[i := k']> (kids w) ∧ (kid_left k' < kid_left k)%nat)
    as (k' & w1 & Hst & Hat & Hks & Hlt').
  { unfold threaded. rewrite Hk. cbn [mbind option_bind]. rewrite Hv.
    destruct k; try done; eexists _, _; (split; [reflexivity|]); (split; [reflexivity|]); (split; [reflexivity|]); simpl; lia. }
  assert (gstep threads e w w1) as Hg by by eapply kid_goes.
  destruct (IH w1 k') as (w2 & Hr & Hat2 & Hl2 & Hk2).
  - eapply gsteps_inv; [done|by apply rtc_once].
  - done.
  - rewrite Hks. by apply list_lookup_insert_eq.
  - lia.
  - exists w2. split; [by eapply rtc_l|]. split_and!; [congruence|rewrite Hl2, Hks; by rewrite length_insert|done].
Qed.

(** [test] gets over the call with which it waits for a child. *)
Lemma waiting_finishes e w : inv e w → created e = 1%nat → at_ w = Joins ∨ at_ w = Waits →
  ∃ w', rtc (gstep threads e) w w' ∧ at_ w' = Looks.
Proof.
  intros Hi Hc Hat.
  assert (∃ ks k, kids w = ks ++ [k]) as (ks & k & Hks).
  { pose proof (i_old _ _ Hi) as Ho. destruct Hat as [Hat|Hat]; rewrite Hat in Ho; destruct Ho as (_ & ks & k & ? & _); eauto. }
  destruct (kid_finishes 4 e (length ks) w k Hi Hc) as (w1 & Hr1 & Hat1 & Hl1 & Hk1).
  { by rewrite Hks, lookup_app_r, Nat.sub_diag by done. } { destruct k; simpl; lia. }
  pose proof (gsteps_inv e w w1 Hi Hr1) as Hi1. pose proof (i_old _ _ Hi1) as Ho1.
  assert (last (kids w1) = Some Gone) as Hlast.
  { rewrite last_lookup, Hl1, Hks, length_app. simpl. replace (pred (length ks + 1)) with (length ks) by lia. done. }
  rewrite Hat1 in Ho1. destruct Hat as [Hat|Hat]; rewrite Hat in Ho1.
  - exists (next_row w1). split; [|done]. eapply rtc_r; [done|]. apply test_goes; [done|]. unfold test. by rewrite Hat1, Hat, Hlast.
  - destruct Ho1 as (_ & ks1 & k1 & Hks1 & _ & Hs1). rewrite Hks1, last_snoc in Hlast. injection Hlast as ->.
    exists (next_row (with_sem 0 w1)). split; [|done]. eapply rtc_r; [done|]. apply test_goes; [done|]. unfold test. by rewrite Hat1, Hat, Hs1.
Qed.

Lemma creates_goes e w : inv e w → created e = 1%nat → at_ w = Creates →
  ∃ w', gstep threads e w w' ∧ (at_ w' = Joins ∨ at_ w' = Waits) ∧ kids w' = kids w ++ [if detach then Unblocks else Posts_].
Proof.
  intros Hi Hc Hat. destruct (lookup_lt_is_Some_2 scenarii (sc w) (i_row _ _ Hi)) as [c Ec].
  eexists. split; [apply test_goes; [done|]; unfold test; rewrite Hat, Ec; cbn [mbind option_bind];
    rewrite (proj2 (Z.eqb_neq _ _) (proj2 table _ _ Ec)); reflexivity|]. split; [cbn; destruct (negb _ && _); auto|done].
Qed.

Lemma creator_finishes e w : inv e w → created e = 1%nat → do_it e = false → ∃ w', rtc (gstep threads e) w w' ∧ over w' = true.
Proof.
  intros Hi Hc Hd.
  assert (∀ w, at_ w = Looks → ∃ w', rtc (gstep threads e) w w' ∧ over w' = true) as Hlk.
  { intros w0 Hat. exists (goes Over w0). split; [|done]. apply rtc_once, test_goes; [done|]. unfold test. by rewrite Hat, Hd. }
  assert (∀ w, inv e w → at_ w = Joins ∨ at_ w = Waits → ∃ w', rtc (gstep threads e) w w' ∧ over w' = true) as Hwt.
  { intros w0 Hi0 Hat0. destruct (waiting_finishes e w0 Hi0 Hc Hat0) as (w1 & Hr & Hat1). destruct (Hlk w1 Hat1) as (w2 & Hr2 & Ho).
    exists w2. split; [by etrans|done]. }
  destruct (at_ w) eqn:Hat; [| | |by apply Hwt; auto..|].
  - destruct (Hlk (goes Looks w)) as (w' & Hr & Ho); [done|]. exists w'. split; [|done]. eapply rtc_l; [|done].
    apply test_goes; [done|]. unfold test. by rewrite Hat.
  - by apply Hlk.
  - destruct (creates_goes e w Hi Hc Hat) as (w1 & Hg & Hat1 & _).
    destruct (Hwt w1) as (w2 & Hr & Ho); [eapply gsteps_inv; [done|by apply rtc_once]|done|]. exists w2. split; [by eapply rtc_l|done].
  - exists w. split; [done|]. unfold over. by rewrite Hat.
Qed.

(** A child that has not ended takes signals. *)
Lemma kid_opens e i k w : created e = 1%nat → kids w !! i = Some k → k ≠ Gone → ∃ w', rtc (gstep threads e) w w' ∧ open w' = true.
Proof.
  intros Hc Hk Hng.
  assert (∀ w i k, kids w !! i = Some k → takes k = true → open w = true) as Ho.
  { intros w0 j k0 Hj Ht. unfold open. apply orb_true_iff. right. apply existsb_exists. exists k0. split; [|done].
    apply list_elem_of_In. by eapply list_elem_of_lookup_2. }
  destruct (takes k) eqn:Et; [exists w; split; [done|by eapply Ho]|]. destruct k; try done.
  exists (with_kid i Detaches w). split; [apply rtc_once, (kid_goes e i); [done|]; unfold threaded; by rewrite Hk|].
  apply (Ho _ i Detaches); [|done]. cbn. apply list_lookup_insert_eq. by eapply lookup_lt_Some.
Qed.

Lemma creator_opens e w : inv e w → created e = 1%nat → alive (do_it e) w = true → ∃ w', rtc (gstep threads e) w w' ∧ open w' = true.
Proof.
  intros Hi Hc Ha. destruct (lives w) eqn:El.
  { apply existsb_exists in El as (k & Hin & Hk). apply list_elem_of_In, list_elem_of_lookup in Hin as [i Hik].
    apply (kid_opens e i k); [done..|]. intros ->. by rewrite bool_decide_eq_true_2 in Hk. }
  assert (∀ w, inv e w → at_ w = Creates → ∃ w', rtc (gstep threads e) w w' ∧ open w' = true) as Hcr.
  { intros w0 Hi0 Hat0. destruct (creates_goes e w0 Hi0 Hc Hat0) as (w1 & Hg & _ & Hks).
    destruct (kid_opens e (length (kids w0)) (if detach then Unblocks else Posts_) w1) as (w2 & Hr & Ho); [done| |by destruct detach|].
    { by rewrite Hks, lookup_app_r, Nat.sub_diag by done. } exists w2. split; [by eapply rtc_l|done]. }
  assert (do_it e = true → ∀ w, inv e w → at_ w = Looks → ∃ w', rtc (gstep threads e) w w' ∧ open w' = true) as Hlk.
  { intros Hd w0 Hi0 Hat0. assert (gstep threads e w0 (goes Creates w0)) as Hg by (apply test_goes; [done|]; unfold test; by rewrite Hat0, Hd).
    destruct (Hcr (goes Creates w0)) as (w2 & Hr & Ho); [eapply gsteps_inv; [done|by apply rtc_once]|done|].
    exists w2. split; [by eapply rtc_l|done]. }
  assert (at_ w = Masks → gstep threads e w (goes Looks w)) as Hmk.
  { intros Hat. apply test_goes; [done|]. unfold test. by rewrite Hat. }
  unfold alive in Ha. rewrite El in Ha. destruct (decide (at_ w = Creates)) as [Hat|Hnc]; [by apply Hcr|].
  assert (detach = true ∨ detach = false) as [Edt|Edt] by (destruct detach; auto); rewrite Edt in Ha; cbn in Ha.
  - rewrite (bool_decide_eq_false_2 (at_ w = Creates)), !orb_false_r in Ha by done.
    destruct (at_ w) eqn:Hat; [|by apply Hlk|done| | |by destruct (i_over _ _ Hi Ha)].
    + destruct (Hlk Ha (goes Looks w)) as (w2 & Hr & Ho); [eapply gsteps_inv; [done|by apply rtc_once, Hmk]|done|].
      exists w2. split; [by eapply rtc_l; [apply Hmk|]|done].
    + destruct (waiting_finishes e w Hi Hc) as (w1 & Hr1 & Hat1); [auto|].
      destruct (Hlk Ha w1) as (w2 & Hr & Ho); [by eapply gsteps_inv|done|]. exists w2. split; [by etrans|done].
    + destruct (waiting_finishes e w Hi Hc) as (w1 & Hr1 & Hat1); [auto|].
      destruct (Hlk Ha w1) as (w2 & Hr & Ho); [by eapply gsteps_inv|done|]. exists w2. split; [by etrans|done].
  - assert (at_ w ≠ Over) as Hno.
    { intros Hat. unfold over in Ha. rewrite Hat in Ha. destruct (do_it e) eqn:Hd; [by apply (i_over _ _ Hi Hd)|done]. }
    destruct (at_ w) eqn:Hat; try done; try (exists w; split; [done|]; unfold open; by rewrite Hat, Edt).
    exists (goes Looks w). split; [by apply rtc_once, Hmk|]. unfold open. by rewrite Edt.
Qed.

(** Nothing takes signals when no child is left and none will be created. *)
Lemma creator_dead e w : inv e w → do_it e = false → alive false w = false →
  open w = false ∧ ∀ k r o, step e k r w = Some o → conforms r → ∃ w', o = Goes w' ∧ alive false w' = false.
Proof.
  intros Hi Hd Ha. unfold alive in Ha. cbn in Ha.
  apply orb_false_iff in Ha as [Ha Hnc]. apply orb_false_iff in Ha as [Hov Hl]. apply bool_decide_eq_false in Hnc.
  assert (∀ i k, kids w !! i = Some k → k = Gone) as Hgone.
  { intros i k Hk. destruct (decide (k = Gone)) as [|Hne]; [done|]. exfalso.
    assert (lives w = true) as Hlt; [|congruence]. apply existsb_exists. exists k.
    split; [apply list_elem_of_In; by eapply list_elem_of_lookup_2|]. by rewrite bool_decide_eq_false_2. }
  split.
  - unfold open. apply orb_false_iff. split.
    + destruct detach; [done|]. cbn in *. unfold over in Hov. by destruct (at_ w).
    + apply not_true_is_false. intros (k & Hk & Ht)%existsb_exists. apply list_elem_of_In, list_elem_of_lookup in Hk as [i Hk].
      apply Hgone in Hk as ->. done.
  - intros k r o Hst Hr. unfold step in Hst. destruct (created e =? 0)%nat; [done|]. destruct k as [|i].
    2: { unfold threaded in Hst. destruct (kids w !! i) as [k|] eqn:Hk; [|done]. by rewrite (Hgone i k Hk) in Hst. }
    assert (∀ w', at_ w' ≠ Creates → (detach = true ∨ at_ w' = Over) → kids w' = kids w → alive false w' = false) as Hdead.
    { intros w' H1 H2 H3. unfold alive, lives. rewrite H3. fold (lives w). rewrite Hl, bool_decide_eq_false_2 by done.
      destruct H2 as [-> | H2]; [done|]. unfold over. rewrite H2. by rewrite andb_false_r. }
    assert (at_ w ≠ Over → detach = true) as Hdt.
    { intros Hno. unfold over in Hov. destruct detach; [done|]. by destruct (at_ w). }
    unfold test, plain_call, checked in Hst. rewrite Hd in Hst.
    destruct (at_ w) eqn:Hat; try done.
    + destruct r; try done; simplify_eq/=; eexists; (split; [done|]); apply Hdead; cbn; auto.
    + simplify_eq. eexists. split; [done|]. apply Hdead; cbn; auto.
    + destruct r; try done. cbn in Hst. destruct (last (kids w)) as [[]|]; simplify_eq. eexists. split; [done|]. apply Hdead; cbn; auto.
    + destruct r; try done. cbn in Hst. destruct (sems w !! sc w) as [v|]; [|done]. cbn in Hst. destruct (0 <? v); simplify_eq.
      eexists. split; [done|]. apply Hdead; cbn; auto.
Qed.

Theorem creator_lawful : lawful false threads.
Proof.
  refine (Lawful false threads inv alive _ _ _ _ _ _ _ _ _ _ _ _).
  - split; cbn [at_ sc sems kids g_start threads]; try done; [apply table|].
    intros i (c & Hc & _) _. apply lookup_replicate_2. by eapply lookup_lt_Some.
  - by intros d y n w [].
  - intros d y n w []. by split.
  - intros d y n w []. by split.
  - intros e k r w w' Hi Hst. destruct (creator_step_inv e k r w w' Hi Hst). split; [done|]. by intros j.
  - intros e k r w c _. apply creator_step_exits.
  - done.
  - done.
  - intros e w Hi Hc Ha. destruct (creator_opens e w Hi Hc Ha) as (w' & Hr & Ho). by exists w'.
  - done.
  - apply creator_dead.
  - intros e w Hi Hd _ Hc. destruct (creator_finishes e w Hi Hc Hd) as (w' & Hr & Ho). exists w'. split; [done|]. by intros.
Qed.
End Program.
End Creator.

(** ** pthread_cancel/5-2.c *)

Module Cancel52.
Inductive place : Set := Creates | Unblocks | Looks | Cancels | Joins | Over.
(** [child]: whether [testth] has ended. *)
Record st : Set := St { at_ : place; child : option bool }.
Definition goes (p : place) (w : st) : st := St p (child w).

Definition test (e : env) (r : res) (w : st) : option (outcome st) :=
  match at_ w with
  | Creates => plain_call needed r (Some (Goes (St Unblocks (Some false))))
  | Unblocks => plain_call needed r (Some (Goes (goes Looks w)))
  | Looks => Some (Goes (goes (if do_it e then Cancels else Joins) w))
  | Cancels => plain_call tested r (Some (Goes (goes Looks w)))
  | Joins => plain_call needed r (match child w with Some true => Some (Goes (goes Over w)) | _ => None end)
  | Over => None
  end.

(** Cancellation is deferred, and [sched_yield] is no cancellation point. *)
Definition testth (e : env) (w : st) : option (outcome st) :=
  match child w with Some false => Some (Goes (St (at_ w) (Some (negb (do_it e))))) | _ => None end.

Definition step (e : env) (k : nat) (r : res) (w : st) : option (outcome st) :=
  if (created e =? 0)%nat then None
  else match k with 0%nat => test e r w | 1%nat => testth e w | _ => None end.

Definition over (w : st) : bool := match at_ w with Over => true | _ => false end.
Definition masks (k : nat) (w : st) : bool := match k, at_ w with 0%nat, Unblocks => true | _, _ => false end.
Definition open (w : st) : bool := match at_ w with Creates | Unblocks | Over => false | _ => true end.
Definition threads : group := Group st 1 (St Creates None) step masks open (λ _ _, true) (λ _, over).

Record inv (e : env) (w : st) : Prop := {
  i_over : do_it e = true → at_ w ≠ Over ∧ at_ w ≠ Joins;
  i_child : match at_ w with Creates => child w = None | Over => child w = Some true | _ => is_Some (child w) end }.

Lemma cancel52_step_inv e k r w w' : inv e w → step e k r w = Some (Goes w') ∨ step e k r w = Some (Posts w') →
  inv e w' ∧ (over w = true → over w' = true).
Proof.
  intros [Ho Hc] Hst. unfold step, test, testth, plain_call, checked, over in *. destruct w as [p c]; cbn in *.
  destruct Hst as [Hst|Hst]; repeat (case_match; simplify_eq/=); split; try split; cbn; try done; intros;
    try (by destruct Ho); try (split; congruence); congruence.
Qed.

Lemma cancel52_step_exits e k r w c : step e k r w = Some (Exits c) → ¬ conforms r ∧ (c = PTS_UNRESOLVED ∨ c = PTS_FAIL ∧ r = Err EINTR).
Proof.
  unfold step, test, testth, plain_call, checked. intros Hst.
  pose proof (checks_needed r) as Hn. pose proof (checks_tested r) as Ht.
  repeat (case_match; simplify_eq/=); try done; auto.
Qed.

(** [test] gets to its loop, and to its end. *)
Lemma cancel52_unblocks e w : inv e w → created e = 1%nat → over w = false → ∃ w', rtc (gstep threads e) w w' ∧ open w' = true ∧ inv e w'.
Proof.
  intros Hi Hc Ho.
  assert (∀ p c, gstep threads e (St Unblocks c) (St Looks c) ∧ gstep threads e (St Creates p) (St Unblocks (Some false))) as Hg.
  { intros p c. split; apply (gstep_ok threads e _ 0); cbn; unfold step; by rewrite Hc. }
  assert (∀ w1, gstep threads e w w1 → inv e w1) as Hi1 by (intros w1 [k r _ Hst]; by eapply cancel52_step_inv).
  destruct w as [[] c]; try done; try (by exists (St Looks c)); try (eexists; split; [apply rtc_refl|done]).
  - exists (St Looks (Some false)). split; [|split; [done|]].
    + eapply rtc_l; [by apply Hg|]. apply rtc_once. by apply Hg.
    + split; cbn; [done|eauto].
  - exists (St Looks c). split; [apply rtc_once; by apply Hg|]. split; [done|]. apply Hi1. by apply Hg.
Qed.

Lemma cancel52_finishes e w : inv e w → created e = 1%nat → do_it e = false → open w = true → ∃ w', rtc (gstep threads e) w w' ∧ over w' = true.
Proof.
  intros [_ Hi] Hc Hd Hop.
  assert (∀ p c, gstep threads e (St Looks c) (St Joins c) ∧ gstep threads e (St Cancels c) (St Looks c) ∧
            gstep threads e (St p (Some false)) (St p (Some true)) ∧ gstep threads e (St Joins (Some true)) (St Over (Some true))) as Hg.
  { intros p c. split_and!; [apply (gstep_ok threads e _ 0)|apply (gstep_ok threads e _ 0)|apply (gstep_ok threads e _ 1)|apply (gstep_ok threads e _ 0)];
      cbn; unfold step, test, testth; cbn; by rewrite Hc, ?Hd. }
  assert (∀ c, is_Some c → rtc (gstep threads e) (St Joins c) (St Over (Some true))) as Hj.
  { intros c [b ->]. assert (rtc (gstep threads e) (St Joins (Some true)) (St Over (Some true))) as Ht by (apply rtc_once; by apply (Hg Joins None)).
    destruct b; [done|]. eapply rtc_l; [by apply (Hg Joins None)|done]. }
  exists (St Over (Some true)). split; [|done]. destruct w as [[] c]; try done; cbn in Hi; destruct (Hg Over c) as (H1 & H2 & _).
  - eapply rtc_l; [exact H1|]. by apply Hj.
  - eapply rtc_l; [exact H2|]. eapply rtc_l; [exact H1|]. by apply Hj.
  - by apply Hj.
Qed.

Theorem cancel52_lawful : lawful false threads.
Proof.
  refine (Lawful false threads inv (λ _ w, negb (over w)) _ _ _ _ _ _ _ _ _ _ _ _).
  - by split.
  - by intros d y n w [].
  - by intros d y n w []; split.
  - by intros d y n w []; split.
  - intros e k r w w' Hi Hst. destruct (cancel52_step_inv e k r w w' Hi Hst). split; [done|]. by intros j.
  - intros e k r w c _. apply cancel52_step_exits.
  - intros e w [Ho _] Hd. destruct (Ho Hd). unfold over. by destruct (at_ w).
  - done.
  - intros e w Hi Hc Ha. destruct (cancel52_unblocks e w Hi Hc) as (w' & Hr & Ho & _); [by apply negb_true_iff|]. by exists w'.
  - done.
  - intros e w [_ Hc] Hd Ha. unfold over in Ha. destruct w as [[] c]; try done. cbn in Hc. subst c. split; [done|].
    intros k r o. cbn. unfold step, test, testth. cbn. by repeat case_match.
  - intros e w Hi Hd _ Hc. destruct (over w) eqn:Eo; [by exists w; split; [|intros]|].
    destruct (cancel52_unblocks e w Hi Hc Eo) as (w1 & Hr1 & Ho1 & Hi1). destruct (cancel52_finishes e w1 Hi1 Hc Hd Ho1) as (w2 & Hr2 & Ho2).
    exists w2. split; [by etrans|by intros].
Qed.
End Cancel52.

(** ** The tests with threads that create threads *)

Definition join_6_3 : test := Test Join63.threads true (kill_prepare ++ ["scenar_init"%string]) false [0%nat] ["scenar_fini"%string].
Definition create_14_1 : test := Test (Creator.threads false) true ("scenar_init"%string :: kill_prepare) false [0%nat] ["scenar_fini"%string].
Definition detach_4_3 : test := Test (Creator.threads true) true ("scenar_init"%string :: kill_prepare) false [0%nat] ["scenar_fini"%string].
Definition cancel_5_2 : test := Test Cancel52.threads true kill_prepare false [0%nat] [].

(** ** Waiters until [do_it] is reset, and a worker until all of them are awake *)

Module Cond.
(** A waiter: in [pthread_cond_wait] ([Blocks]); woken up, it needs the mutex; at the condition of its
    loop ([Looks]); at [woken++]. *)
Inductive wplace : Set := Masks | Locks | Calls | Blocks | Wakes | Looks | Counts | Unlocks | Gone.
Inductive kplace : Set := KMasks | KLooks | KSleeps | KSignals | KGone.

#[export] Instance wplace_eq_dec : EqDecision wplace.
Proof. solve_decision. Defined.
#[export] Instance kplace_eq_dec : EqDecision kplace.
Proof. solve_decision. Defined.

(** [waiters] wait; the signals are unblocked in the waiters or in the worker ([waits]); the worker
    sleeps before it signals, and wakes all waiters or one. *)
Record version : Set := Version { number : nat; waits : bool; sleeps : bool; broadcasts : bool }.

Definition cond_wait_version : version := Version 1 true true false.
Definition cond_signal_version : version := Version 1 false false false.
Definition cond_broadcast_version : version := Version 5 false false true.

(** [owner] has locked the mutex. *)
Record st : Set := St { owner : option nat; woken : Z; waiters : list wplace; worker_at : kplace }.

Section Program.
Context (v : version).

Definition with_waiter (i : nat) (p : wplace) (w : st) : st := St (owner w) (woken w) (<[i := p]> (waiters w)) (worker_at w).
Definition with_owner (o : option nat) (w : st) : st := St o (woken w) (waiters w) (worker_at w).
Definition with_woken (n : Z) (w : st) : st := St (owner w) n (waiters w) (worker_at w).
Definition with_worker (p : kplace) (w : st) : st := St (owner w) (woken w) (waiters w) p.

(** What the thread under test looks at. *)
Definition wait_check : res → option Z := if waits v then tested else needed.
Definition signal_check : res → option Z := if waits v then needed else tested.

Definition waiter (e : env) (i : nat) (r : res) (w : st) : option (outcome st) :=
  p ← waiters w !! i;
  match p with
  | Masks => plain_call needed r (Some (Goes (with_waiter i Locks w)))
  | Locks => plain_call needed r (match owner w with None => Some (Goes (with_owner (Some i) (with_waiter i Calls w))) | Some _ => None end)
  | Calls => plain_call wait_check r (Some (Goes (with_owner None (with_waiter i Blocks w))))
  | Blocks =>
      match r with
      | Early => Some (Goes (with_waiter i Wakes w))
      | Err _ => checked wait_check r None
      | _ => None
      end
  | Wakes => match owner w with None => Some (Goes (with_owner (Some i) (with_waiter i Looks w))) | Some _ => None end
  | Looks => Some (Goes (with_waiter i (if do_it e then Calls else Counts) w))
  | Counts => Some (Goes (with_woken (woken w + 1) (with_waiter i Unlocks w)))
  | Unlocks => plain_call needed r (Some (Goes (with_owner None (with_waiter i Gone w))))
  | Gone => None
  end.

(** [pthread_cond_broadcast] and [pthread_cond_signal]. *)
Definition wake (p : wplace) : wplace := match p with Blocks => Wakes | _ => p end.
Fixpoint wake_first (l : list wplace) : list wplace :=
  match l with [] => [] | Blocks :: l => Wakes :: l | p :: l => p :: wake_first l end.
Definition wakes (l : list wplace) : list wplace := if broadcasts v then wake <$> l else wake_first l.

Definition worker (r : res) (w : st) : option (outcome st) :=
  match worker_at w with
  | KMasks => plain_call needed r (Some (Goes (with_worker KLooks w)))
  | KLooks => Some (Goes (with_worker (if woken w <? Z.of_nat (number v) then if sleeps v then KSleeps else KSignals else KGone) w))
  | KSleeps => match r with Err EINTR => Some (Goes w) | Ok | Err _ => Some (Goes (with_worker KSignals w)) | _ => None end
  | KSignals => plain_call signal_check r (Some (Goes (St (owner w) (woken w) (wakes (waiters w)) KLooks)))
  | KGone => None
  end.

(** The waiters are created first. *)
Definition step (e : env) (k : nat) (r : res) (w : st) : option (outcome st) :=
  if (created e <=? k)%nat then None else if (k <? number v)%nat then waiter e k r w else if (k =? number v)%nat then worker r w else None.

(** Those that do not take the signals block them. *)
Definition masks (k : nat) (w : st) : bool :=
  if waits v then bool_decide (waiters w !! k = Some Masks) else bool_decide (k = number v ∧ worker_at w = KMasks).
Definition taking (p : wplace) : bool := match p with Masks | Gone => false | _ => true end.
Definition open (w : st) : bool :=
  if waits v then existsb taking (waiters w) else match worker_at w with KMasks | KGone => false | _ => true end.
Definition gone (k : nat) (w : st) : bool :=
  if (k <? number v)%nat then bool_decide (waiters w !! k = Some Gone) else bool_decide (worker_at w = KGone).

Definition threads : group := Group st (S (number v)) (St None 0 (replicate (number v) Masks) KMasks) step masks open (λ _ _, true) gone.

(** ** They are lawful *)

Definition alive (w : st) : bool :=
  if waits v then negb (forallb (λ p, bool_decide (p = Gone)) (waiters w)) else negb (bool_decide (worker_at w = KGone)).

Definition holds (p : wplace) : bool := match p with Calls | Looks | Counts | Unlocks => true | _ => false end.
Definition counted (p : wplace) : bool := match p with Unlocks | Gone => true | _ => false end.
Definition leaving (p : wplace) : bool := match p with Counts | Unlocks | Gone => true | _ => false end.

Record inv (e : env) (w : st) : Prop := {
  i_length : length (waiters w) = number v;
  i_owner i p : waiters w !! i = Some p → (holds p = true ↔ owner w = Some i);
  i_free i : owner w = Some i → ∃ p, waiters w !! i = Some p;
  i_woken : woken w = sumf (λ p, if counted p then 1 else 0) (waiters w);
  i_gone : worker_at w = KGone → Z.of_nat (number v) ≤ woken w;
  i_on : do_it e = true → Forall (λ p, leaving p = false) (waiters w) }.

(** A waiter moves. *)
Lemma waiter_moves e w i p q o n : inv e w → waiters w !! i = Some p →
  (if holds p then o = if holds q then owner w else None else if holds q then owner w = None ∧ o = Some i else o = owner w) →
  n = woken w - (if counted p then 1 else 0) + (if counted q then 1 else 0) →
  (counted p = true → counted q = true) → (do_it e = true → leaving q = false) →
  inv e (St o n (<[i := q]> (waiters w)) (worker_at w)).
Proof.
  intros [Hl Ho Hf Hw Hg Hon] Hp Hown -> Hc Hlv. assert (i < length (waiters w))%nat as Hi by by eapply lookup_lt_Some.
  pose proof (Ho i p Hp) as Hpo.
  split; cbn [owner woken waiters worker_at].
  - by rewrite length_insert.
  - intros j p' Hj. destruct (decide (i = j)) as [<-|Hne].
    + rewrite list_lookup_insert_eq in Hj by done. injection Hj as <-.
      destruct (holds p), (holds q); subst; try tauto; try (destruct Hown as [_ ->]); intuition congruence.
    + rewrite list_lookup_insert_ne in Hj by done. rewrite (Ho j p' Hj).
      destruct (holds p), (holds q); [by subst| | |by subst].
      * assert (owner w = Some i) as -> by tauto. subst o. intuition congruence.
      * destruct Hown as [-> ->]. intuition congruence.
  - intros j Hj. destruct (decide (i = j)) as [<-|Hne]; [exists q; by apply list_lookup_insert_eq|].
    rewrite list_lookup_insert_ne by done. apply Hf.
    destruct (holds p), (holds q); [congruence|congruence|destruct Hown; congruence|congruence].
  - rewrite (sumf_insert _ _ _ _ _ Hp). cbn beta. lia.
  - intros H. specialize (Hg H). destruct (counted p), (counted q); try lia; by specialize (Hc eq_refl).
  - intros H. apply Forall_insert; auto.
Qed.

Definition woken_up (p p' : wplace) : Prop := p' = p ∨ p = Blocks ∧ p' = Wakes.

Lemma wakes_some l : Forall2 woken_up l (wakes l).
Proof.
  unfold wakes. destruct (broadcasts v).
  - induction l as [|p l IH]; simpl; constructor; [|done]. destruct p; unfold woken_up; auto.
  - induction l as [|p l IH]; simpl; [constructor|].
    assert (Forall2 woken_up l l) as Hl by (clear; induction l; constructor; unfold woken_up; auto).
    destruct p; constructor; unfold woken_up; auto.
Qed.

Lemma woken_up_sumf (f : wplace → Z) l l' : f Wakes = f Blocks → Forall2 woken_up l l' → sumf f l' = sumf f l.
Proof. intros Hf. induction 1 as [|p p' l l' Hp _ IH]; [done|]. simpl. rewrite IH. destruct Hp as [->|[-> ->]]; lia. Qed.

Lemma woken_inv e w l k : inv e w → Forall2 woken_up (waiters w) l → (k = KGone → Z.of_nat (number v) ≤ woken w) →
  inv e (St (owner w) (woken w) l k).
Proof.
  intros [Hl Ho Hf Hw Hg Hon] Hu Hk. split; cbn [owner woken waiters worker_at].
  - by rewrite <- (Forall2_length _ _ _ Hu).
  - intros i p Hi. destruct (Forall2_lookup_r _ _ _ _ _ Hu Hi) as (p0 & Hp0 & Hp). rewrite <- (Ho i p0 Hp0).
    destruct Hp as [->|[-> ->]]; done.
  - intros i Hi. destruct (Hf i Hi) as [p Hp]. destruct (Forall2_lookup_l _ _ _ _ _ Hu Hp) as (p' & ? & _). eauto.
  - by rewrite (woken_up_sumf _ (waiters w)).
  - done.
  - intros Hd. specialize (Hon Hd). apply Forall_lookup. intros i p Hi.
    destruct (Forall2_lookup_r _ _ _ _ _ Hu Hi) as (p0 & Hp0 & Hp).
    pose proof (Forall_lookup_1 _ _ _ _ Hon Hp0). destruct Hp as [->|[-> ->]]; done.
Qed.

Lemma woken_up_refl l : Forall2 woken_up l l.
Proof. induction l; constructor; [by left|done]. Qed.

Lemma waiter_inv e i r w w' : inv e w → waiter e i r w = Some (Goes w') ∨ waiter e i r w = Some (Posts w') →
  inv e w' ∧ (waiters w !! i ≠ Some Gone) ∧ ∃ q, waiters w' = <[i := q]> (waiters w) ∧ worker_at w' = worker_at w.
Proof.
  intros Hi. unfold waiter. destruct (waiters w !! i) as [p|] eqn:Hp; [|by intros []]. cbn [mbind option_bind].
  pose proof (waiter_moves e w i p) as Hm. pose proof (i_owner _ _ Hi i p Hp) as Ho. unfold plain_call, checked.
  assert (wait_check Early = None ∧ wait_check Late = None ∧ wait_check Ok = None) as (W1 & W2 & W3) by (unfold wait_check; by destruct (waits v)).
  intros Hst.
  assert (∃ q o n, w' = St o n (<[i := q]> (waiters w)) (worker_at w) ∧ p ≠ Gone ∧
    (if holds p then o = if holds q then owner w else None else if holds q then owner w = None ∧ o = Some i else o = owner w) ∧
    n = woken w - (if counted p then 1 else 0) + (if counted q then 1 else 0) ∧
    (counted p = true → counted q = true) ∧ (do_it e = true → leaving q = false)) as (q & o & n & -> & H0 & H1 & H2 & H3 & H4).
  2: { split; [by apply (Hm q)|]. split; [congruence|by exists q]. }
  assert (do_it e = true → leaving p = false) as Hlv by (intros Hd; exact (Forall_lookup_1 _ _ _ _ (i_on _ _ Hi Hd) Hp)).
  destruct p; cbn in Hlv.
  all: unfold plain_call, checked in Hst.
  - destruct r; destruct Hst as [Hst|Hst]; simplify_eq/=. eexists Locks, _, _. split; [reflexivity|]. split_and!; done || (simpl; lia).
  - destruct r, (owner w) eqn:Eo; destruct Hst as [Hst|Hst]; simplify_eq/=. eexists Calls, _, _. split; [reflexivity|]. split_and!; done || (simpl; lia).
  - destruct (wait_check r), r; destruct Hst as [Hst|Hst]; simplify_eq/=; eexists Blocks, _, _; (split; [reflexivity|]); split_and!; done || (simpl; lia).
  - destruct r as [| | |x]; [by destruct Hst..| |].
    + destruct Hst as [Hst|Hst]; simplify_eq/=. eexists Wakes, _, _. split; [reflexivity|]. split_and!; done || (simpl; lia).
    + destruct (wait_check (Err x)); by destruct Hst.
  - destruct (owner w) eqn:Eo; destruct Hst as [Hst|Hst]; simplify_eq/=. eexists Looks, _, _. split; [reflexivity|]. split_and!; done || (simpl; lia).
  - destruct Hst as [Hst|Hst]; simplify_eq/=. eexists (if do_it e then Calls else Counts), _, _. split; [reflexivity|].
    destruct (do_it e); split_and!; done || (simpl; lia).
  - destruct Hst as [Hst|Hst]; simplify_eq/=. eexists Unlocks, _, _. split; [reflexivity|]. split_and!; done || (simpl; lia).
  - destruct r; destruct Hst as [Hst|Hst]; simplify_eq/=. eexists Gone, _, _. split; [reflexivity|]. split_and!; done || (simpl; lia).
  - by destruct Hst.
Qed.

Lemma worker_step_inv e r w w' : inv e w → worker r w = Some (Goes w') ∨ worker r w = Some (Posts w') →
  inv e w' ∧ Forall2 woken_up (waiters w) (waiters w') ∧ worker_at w ≠ KGone.
Proof.
  intros Hi Hst.
  assert (∀ k, (k = KGone → Z.of_nat (number v) ≤ woken w) →
            inv e (with_worker k w) ∧ Forall2 woken_up (waiters w) (waiters (with_worker k w)) ∧ worker_at w ≠ KGone ↔ worker_at w ≠ KGone) as Hk.
  { intros k Hk. split; [tauto|]. intros Hng. split_and!; [|apply woken_up_refl|done]. apply woken_inv; [done|apply woken_up_refl|done]. }
  unfold worker, plain_call, checked in Hst. destruct (worker_at w) eqn:Ea.
  - destruct r; destruct Hst as [Hst|Hst]; simplify_eq/=. by apply Hk.
  - destruct Hst as [Hst|Hst]; simplify_eq. apply Hk; [|done].
    destruct (woken w <? Z.of_nat (number v)) eqn:El; [by destruct (sleeps v)|]. by apply Z.ltb_ge in El.
  - assert (inv e w ∧ Forall2 woken_up (waiters w) (waiters w) ∧ KSleeps ≠ KGone) by (split_and!; [done|apply woken_up_refl|done]).
    destruct r as [| | |[]]; destruct Hst as [Hst|Hst]; simplify_eq; first [done|by apply Hk].
  - destruct (signal_check r), r; destruct Hst as [Hst|Hst]; simplify_eq; (split_and!; [|apply wakes_some|done]);
      (apply woken_inv; [done|apply wakes_some|done]).
  - by destruct Hst.
Qed.

Lemma none_left l : negb (forallb (λ p, bool_decide (p = Gone)) l) = false ↔ Forall (λ p, p = Gone) l.
Proof.
  rewrite negb_false_iff, forallb_forall, Forall_forall. setoid_rewrite bool_decide_eq_true. setoid_rewrite list_elem_of_In. done.
Qed.

Lemma cond_step_inv e k r w w' : inv e w → step e k r w = Some (Goes w') ∨ step e k r w = Some (Posts w') →
  inv e w' ∧ (∀ j, gone j w = true → gone j w' = true) ∧ (alive w = false → alive w' = false).
Proof.
  intros Hi. unfold step. destruct (created e <=? k)%nat; [by intros []|]. destruct (k <? number v)%nat eqn:Ek.
  - intros Hst. destruct (waiter_inv e k r w w' Hi Hst) as (Hi' & Hng & q & Hws & Hwk). split; [done|]. split.
    + intros j. unfold gone. rewrite Hws, Hwk. destruct (j <? number v)%nat; [|done]. rewrite !bool_decide_eq_true. intros Hj.
      rewrite list_lookup_insert_ne; [done|]. congruence.
    + unfold alive. rewrite Hws, Hwk. destruct (waits v); [|done]. rewrite !none_left. intros Hf. exfalso.
      apply Nat.ltb_lt in Ek. rewrite <- (i_length _ _ Hi) in Ek. apply lookup_lt_is_Some_2 in Ek as [p Hp].
      pose proof (Forall_lookup_1 _ _ _ _ Hf Hp) as ->. done.
  - destruct (k =? number v)%nat; [|by intros []]. intros Hst. destruct (worker_step_inv e r w w' Hi Hst) as (Hi' & Hws & Hwk).
    split; [done|]. split.
    + intros j. unfold gone. destruct (j <? number v)%nat; rewrite !bool_decide_eq_true; [|done]. intros Hj.
      destruct (Forall2_lookup_l _ _ _ _ _ Hws Hj) as (p' & Hp' & [->|[? _]]); done.
    + unfold alive. destruct (waits v); [|by rewrite (bool_decide_eq_false_2 (worker_at w = KGone))].
      rewrite !none_left. intros Hf. apply Forall_lookup. intros i p Hp.
      destruct (Forall2_lookup_r _ _ _ _ _ Hws Hp) as (p0 & Hp0 & Hu). pose proof (Forall_lookup_1 _ _ _ _ Hf Hp0) as ->.
      by destruct Hu as [->|[? _]].
Qed.

Lemma cond_step_exits e k r w c : step e k r w = Some (Exits c) → ¬ conforms r ∧ (c = PTS_UNRESOLVED ∨ c = PTS_FAIL ∧ r = Err EINTR).
Proof.
  unfold step, waiter, worker, plain_call, checked. intros Hst.
  pose proof (checks_needed r) as Hn. pose proof (checks_tested r) as Ht.
  assert (checks wait_check) as Hw by (unfold wait_check; destruct (waits v); auto).
  assert (checks signal_check) as Hs by (unfold signal_check; destruct (waits v); auto).
  specialize (Hw r). specialize (Hs r).
  destruct (created e <=? k)%nat; [done|]. destruct (k <? number v)%nat; [|destruct (k =? number v)%nat; [|done]].
  - destruct (waiters w !! k) as [p|]; [|done]. cbn [mbind option_bind] in Hst.
    destruct p; repeat (case_match; simplify_eq/=); try done; auto.
  - repeat (case_match; simplify_eq/=); try done; auto.
Qed.

(** ** The threads end when [do_it] is reset *)

Definition waiter_left (p : wplace) : Z :=
  match p with Masks => 8 | Locks => 7 | Calls => 6 | Blocks => 5 | Wakes => 4 | Looks => 3 | Counts => 2 | Unlocks => 1 | Gone => 0 end.
Definition left_ (w : st) : Z :=
  let n := sumf waiter_left (waiters w) in
  10 * n + if n =? 0 then match worker_at w with KMasks => 4 | KSleeps => 3 | KSignals => 2 | KLooks => 1 | KGone => 0 end
           else match worker_at w with KMasks => 4 | KLooks => 3 | KSleeps => 2 | KSignals => 1 | KGone => 0 end.

Lemma waiter_left_nonneg p : 0 ≤ waiter_left p.
Proof. by destruct p. Qed.

Lemma left_nonneg w : 0 ≤ left_ w.
Proof.
  unfold left_. pose proof (sumf_nonneg waiter_left (waiters w) waiter_left_nonneg). destruct (_ =? _), (worker_at w); lia.
Qed.

Lemma waiter_goes e w i p : inv e w → created e = S (number v) → do_it e = false → waiters w !! i = Some p → p ≠ Gone → p ≠ Blocks →
  (holds p = false → owner w = None) → ∃ w', gstep threads e w w' ∧ left_ w' < left_ w.
Proof.
  intros Hi Hc Hd Hp Hng Hnb Ho. assert (i < number v)%nat as Hlt by (rewrite <- (i_length _ _ Hi); by eapply lookup_lt_Some).
  assert (∃ w' q, waiter e i Ok w = Some (Goes w') ∧ waiters w' = <[i := q]> (waiters w) ∧ worker_at w' = worker_at w ∧ waiter_left q < waiter_left p)
    as (w' & q & Hst & Hws & Hwk & Hlq).
  { unfold waiter. rewrite Hp. cbn [mbind option_bind]. destruct p; cbn in Ho; try done; rewrite ?Ho, ?Hd by done; cbn.
    all: unfold wait_check; try destruct (waits v).
    all: eexists _, _; (split; [reflexivity|]); (split; [reflexivity|]); split; done. }
  exists w'. split.
  - apply (gstep_ok threads e w i). cbn. unfold step. rewrite Hc.
    by rewrite (proj2 (Nat.leb_gt (S (number v)) i)), (proj2 (Nat.ltb_lt i (number v))) by lia.
  - unfold left_. rewrite Hws, Hwk, (sumf_insert _ _ _ _ _ Hp).
    pose proof (sumf_elem waiter_left _ _ _ waiter_left_nonneg Hp). pose proof (waiter_left_nonneg q).
    destruct (_ =? 0) eqn:E1, (sumf _ _ =? 0) eqn:E2, (worker_at w); lia.
Qed.

Lemma all_gone w : sumf waiter_left (waiters w) = 0 ↔ Forall (λ p, p = Gone) (waiters w).
Proof.
  split.
  - intros Hz. apply Forall_lookup. intros i p Hp. pose proof (sumf_zero _ _ _ _ waiter_left_nonneg Hz Hp). by destruct p.
  - intros Hf. apply sumf_all_zero. intros i p Hp. by rewrite (Forall_lookup_1 _ _ _ _ Hf Hp).
Qed.

Lemma counted_less l i p : l !! i = Some p → counted p = false → sumf (λ p, if counted p then 1 else 0) l < Z.of_nat (length l).
Proof.
  assert (∀ l, sumf (λ p, if counted p then 1 else 0) l ≤ Z.of_nat (length l)) as Hle.
  { induction l0 as [|q l0 IH]; simpl; [lia|]. destruct (counted q); lia. }
  revert i. induction l as [|q l IH]; intros [|i] Hp Hc; simplify_eq/=.
  - rewrite Hc. specialize (Hle l). lia.
  - specialize (IH i Hp Hc). destruct (counted q); lia.
Qed.

Lemma counted_all l : Forall (λ p, p = Gone) l → sumf (λ p, if counted p then 1 else 0) l = Z.of_nat (length l).
Proof. induction 1 as [|p l -> _ IH]; simpl; lia. Qed.

Lemma wakes_left l : Blocks ∈ l → sumf waiter_left (wakes l) < sumf waiter_left l.
Proof.
  intros Hb. assert (∀ l, sumf waiter_left (wake <$> l) ≤ sumf waiter_left l) as Hle.
  { induction l0 as [|p l0 IH]; [done|]. rewrite fmap_cons. cbn [sumf foldr]. unfold sumf in IH. destruct p; simpl; lia. }
  unfold wakes. destruct (broadcasts v).
  - induction l as [|p l IH]; [by apply elem_of_nil in Hb|]. specialize (Hle l). rewrite fmap_cons.
    cbn [sumf foldr]. unfold sumf in *. apply elem_of_cons in Hb as [<-|Hb]; [simpl; lia|]. specialize (IH Hb). destruct p; simpl; lia.
  - induction l as [|p l IH]; [by apply elem_of_nil in Hb|]. apply elem_of_cons in Hb as [<-|Hb]; [simpl; lia|].
    specialize (IH Hb). destruct p; simpl; lia.
Qed.

Lemma wakes_gone l : Forall (λ p, p = Gone) l → wakes l = l.
Proof.
  intros Hf. unfold wakes. destruct (broadcasts v); induction Hf as [|p l -> _ IH]; [done| |done|].
  - rewrite fmap_cons. by rewrite IH.
  - simpl. by rewrite IH.
Qed.

Lemma worker_goes e w w' : created e = S (number v) → worker Ok w = Some (Goes w') → gstep threads e w w'.
Proof.
  intros Hc Hst. apply (gstep_ok threads e w (number v)). cbn. unfold step. rewrite Hc.
  by rewrite (proj2 (Nat.leb_gt (S (number v)) (number v))), Nat.ltb_irrefl, Nat.eqb_refl by lia.
Qed.

Lemma checks_ok : wait_check Ok = None ∧ signal_check Ok = None.
Proof. unfold wait_check, signal_check. by destruct (waits v). Qed.

(** The worker goes on while waiters are blocked. *)
Lemma worker_wakes e w : inv e w → created e = S (number v) → Blocks ∈ waiters w → ∃ w', gstep threads e w w' ∧ left_ w' < left_ w.
Proof.
  intros Hi Hc Hb. pose proof Hb as [i Hp]%list_elem_of_lookup. pose proof (i_woken _ _ Hi) as Hw.
  pose proof (counted_less _ i _ Hp eq_refl) as Hless. rewrite (i_length _ _ Hi) in Hless.
  pose proof (sumf_elem waiter_left _ _ _ waiter_left_nonneg Hp) as Hpos. cbn in Hpos.
  pose proof (wakes_left _ Hb) as Hwk. pose proof (sumf_nonneg waiter_left (wakes (waiters w)) waiter_left_nonneg) as Hnn.
  assert (∃ w', worker Ok w = Some (Goes w') ∧ left_ w' < left_ w) as (w' & Hst & Hl).
  2: { exists w'. split; [by apply worker_goes|done]. }
  assert ((sumf waiter_left (waiters w) =? 0) = false) as Hz by (apply Z.eqb_neq; lia).
  unfold worker, left_. rewrite Hz. destruct (worker_at w) eqn:Ek.
  - eexists. split; [reflexivity|]. cbn [waiters worker_at with_worker]. rewrite Hz. lia.
  - rewrite (proj2 (Z.ltb_lt (woken w) _)) by lia. eexists. split; [reflexivity|].
    cbn [waiters worker_at with_worker]. rewrite Hz. destruct (sleeps v); lia.
  - eexists. split; [reflexivity|]. cbn [waiters worker_at with_worker]. rewrite Hz. lia.
  - unfold plain_call, checked. rewrite (proj2 checks_ok). eexists. split; [reflexivity|]. cbn [waiters worker_at].
    clear Hz. destruct (_ =? 0); lia.
  - pose proof (i_gone _ _ Hi Ek). lia.
Qed.

(** It ends when all waiters have ended. *)
Lemma worker_ends e w : inv e w → created e = S (number v) → Forall (λ p, p = Gone) (waiters w) → worker_at w ≠ KGone →
  ∃ w', gstep threads e w w' ∧ left_ w' < left_ w.
Proof.
  intros Hi Hc Hg Hng. pose proof (i_woken _ _ Hi) as Hw. rewrite (counted_all _ Hg), (i_length _ _ Hi) in Hw.
  assert (∃ w', worker Ok w = Some (Goes w') ∧ left_ w' < left_ w) as (w' & Hst & Hl).
  2: { exists w'. split; [by apply worker_goes|done]. }
  unfold worker, left_. rewrite (proj2 (all_gone w) Hg). destruct (worker_at w) eqn:Ek; try done.
  - eexists. split; [reflexivity|]. cbn [waiters worker_at with_worker]. by rewrite (proj2 (all_gone w) Hg).
  - rewrite (proj2 (Z.ltb_ge (woken w) _)) by lia. eexists. split; [reflexivity|]. cbn [waiters worker_at with_worker].
    by rewrite (proj2 (all_gone w) Hg).
  - eexists. split; [reflexivity|]. cbn [waiters worker_at with_worker]. by rewrite (proj2 (all_gone w) Hg).
  - unfold plain_call, checked. rewrite (proj2 checks_ok). eexists. split; [reflexivity|]. cbn [waiters worker_at].
    by rewrite (wakes_gone _ Hg), (proj2 (all_gone w) Hg).
Qed.

Lemma cond_progress e w : inv e w → created e = S (number v) → do_it e = false →
  (Forall (λ p, p = Gone) (waiters w) ∧ worker_at w = KGone) ∨ ∃ w', gstep threads e w w' ∧ left_ w' < left_ w.
Proof.
  intros Hi Hc Hd. destruct (decide (Exists (λ p, p ≠ Gone ∧ p ≠ Blocks) (waiters w))) as [Hex|Hno].
  - right. destruct (owner w) as [j|] eqn:Eo.
    + destruct (i_free _ _ Hi j Eo) as [p Hp]. pose proof (proj2 (i_owner _ _ Hi j p Hp) Eo) as Hh.
      apply (waiter_goes e w j p); try done; destruct p; done.
    + apply Exists_exists in Hex as (p & [i Hp]%list_elem_of_lookup & Hng & Hnb). by apply (waiter_goes e w i p).
  - destruct (decide (Blocks ∈ waiters w)) as [Hb|Hnb]; [right; by apply worker_wakes|].
    assert (Forall (λ p, p = Gone) (waiters w)) as Hg.
    { apply Forall_forall. intros p Hp. destruct (decide (p = Gone)) as [|Hng]; [done|]. exfalso. apply Hno, Exists_exists.
      exists p. split_and!; [done..|]. by intros ->. }
    destruct (decide (worker_at w = KGone)); [by left|]. right. by apply worker_ends.
Qed.

Lemma cond_finishes n e w : inv e w → created e = S (number v) → do_it e = false → left_ w ≤ Z.of_nat n →
  ∃ w', rtc (gstep threads e) w w' ∧ ∀ k, (k < S (number v))%nat → gone k w' = true.
Proof.
  revert w. induction n as [|n IH]; intros w Hi Hc Hd Hn; (destruct (cond_progress e w Hi Hc Hd) as [[Hg Hk]|(w1 & Hst & Hl)];
    [exists w; split; [done|]; intros k Hlt; unfold gone; destruct (k <? number v)%nat eqn:E; apply bool_decide_eq_true;
     [apply Nat.ltb_lt in E; rewrite <- (i_length _ _ Hi) in E; apply lookup_lt_is_Some_2 in E as [p Hp];
      by rewrite Hp, (Forall_lookup_1 _ _ _ _ Hg Hp)|done]|]).
  - pose proof (left_nonneg w1). lia.
  - destruct (IH w1) as (w2 & Hr & Ho); [by destruct Hst as [k r _ Hst]; eapply cond_step_inv|done..|lia|].
    exists w2. split; [by eapply rtc_l|done].
Qed.

(** ** They take signals *)

Lemma existsb_some (f : wplace → bool) l i p : l !! i = Some p → f p = true → existsb f l = true.
Proof. intros Hi Hf. apply existsb_exists. exists p. split; [apply list_elem_of_In; by eapply list_elem_of_lookup_2|done]. Qed.

Lemma cond_opens e w : inv e w → created e = S (number v) → alive w = true → ∃ w', rtc (gstep threads e) w w' ∧ open w' = true.
Proof.
  intros Hi Hc Ha. unfold alive, open in *. destruct (waits v) eqn:Ew.
  - destruct (decide (Exists (λ p, p ≠ Gone) (waiters w))) as [(p & [i Hp]%list_elem_of_lookup & Hng)%Exists_exists|Hno].
    2: { exfalso. apply negb_true_iff, not_true_iff_false in Ha. apply Ha. apply negb_false_iff, none_left.
         apply Forall_forall. intros p Hp. destruct (decide (p = Gone)) as [|Hng]; [done|]. exfalso. apply Hno, Exists_exists. eauto. }
    destruct (decide (p = Masks)) as [->|Hnm].
    2: { exists w. split; [done|]. apply (existsb_some _ _ i p); [done|]. by destruct p. }
    assert (i < number v)%nat as Hlt by (rewrite <- (i_length _ _ Hi); by eapply lookup_lt_Some).
    exists (with_waiter i Locks w). split.
    + apply rtc_once, (gstep_ok threads e w i). cbn. unfold step. rewrite Hc.
      rewrite (proj2 (Nat.leb_gt (S (number v)) i)), (proj2 (Nat.ltb_lt i (number v))) by lia. unfold waiter. by rewrite Hp.
    + apply (existsb_some _ _ i Locks); [|done]. cbn. apply list_lookup_insert_eq. by eapply lookup_lt_Some.
  - destruct (worker_at w) eqn:Ek; try done; try (exists w; by rewrite Ek).
    exists (with_worker KLooks w). split; [|done]. apply rtc_once, worker_goes; [done|]. unfold worker. by rewrite Ek.
Qed.

Lemma cond_dead e w : inv e w → alive w = false →
  open w = false ∧ ∀ k r o, step e k r w = Some o → conforms r → ∃ w', o = Goes w' ∧ alive w' = false.
Proof.
  intros Hi Ha. split.
  - unfold alive, open in *. destruct (waits v).
    + apply none_left in Ha. apply not_true_is_false. intros (p & Hp & Ht)%existsb_exists. apply list_elem_of_In in Hp.
      rewrite Forall_forall in Ha. by rewrite (Ha p Hp) in Ht.
    + apply negb_false_iff, bool_decide_eq_true in Ha. by rewrite Ha.
  - intros k r [w'|w'|c] Hst Hr.
    + exists w'. split; [done|]. by eapply cond_step_inv; [|left|].
    + exfalso. clear -Hst. unfold step, waiter, worker, plain_call, checked in Hst.
      destruct (waiters w !! k); cbn [mbind option_bind] in Hst; repeat (case_match; simplify_eq/=).
    + destruct (cond_step_exits _ _ _ _ _ Hst) as [Hr' _]. done.
Qed.

Theorem cond_lawful : (0 < number v)%nat → lawful false threads.
Proof.
  intros Hpos. refine (Lawful false threads inv (λ _, alive) _ _ _ _ _ _ _ _ _ _ _ _).
  - split; cbn [owner woken waiters worker_at g_start threads]; try done.
    + by rewrite length_replicate.
    + intros i p Hp. by apply lookup_replicate in Hp as [-> _].
    + rewrite sumf_replicate. simpl. lia.
    + intros _. by apply Forall_replicate.
  - intros d y n w [] _. by split.
  - intros d y n w []. by split.
  - intros d y n w []. by split.
  - intros e k r w w' Hi Hst. by destruct (cond_step_inv e k r w w' Hi Hst) as (? & ? & _).
  - intros e k r w c _. apply cond_step_exits.
  - intros e w Hi Hd. pose proof (i_on _ _ Hi Hd) as Hon. apply not_false_is_true. unfold alive. destruct (waits v).
    + rewrite none_left. intros Hg. destruct (lookup_lt_is_Some_2 (waiters w) 0) as [p Hp]; [by rewrite (i_length _ _ Hi)|].
      pose proof (Forall_lookup_1 _ _ _ _ Hon Hp) as Hl. by rewrite (Forall_lookup_1 _ _ _ _ Hg Hp) in Hl.
    + rewrite negb_false_iff, bool_decide_eq_true. intros Hk. pose proof (i_gone _ _ Hi Hk) as Hw. rewrite (i_woken _ _ Hi) in Hw.
      rewrite sumf_all_zero in Hw; [lia|]. intros i p Hp. pose proof (Forall_lookup_1 _ _ _ _ Hon Hp). by destruct p.
  - done.
  - intros e w Hi Hc Ha. destruct (cond_opens e w Hi Hc Ha) as (w' & Hr & Ho). by exists w'.
  - done.
  - intros e w Hi _. by apply cond_dead.
  - intros e w Hi Hd _ Hc. eapply (cond_finishes (Z.to_nat (left_ w))); try done. pose proof (left_nonneg w). lia.
Qed.
End Program.
End Cond.

(** ** pthread_cond_timedwait/4-3.c *)

Module Timed.
(** [Gets]: at [clock_gettime]; nobody else uses the mutex. *)
Inductive wplace : Set := Unblocks | Locks | Looks | Gets | Waits | Unlocks | Gone.
Inductive kplace : Set := KMasks | KLooks | KSleeps | KSignals | KGone.
Record st : Set := St { waiter_at : wplace; worker_at : kplace }.

Definition waiter (e : env) (r : res) (w : st) : option (outcome st) :=
  let goes p := Some (Goes (St p (worker_at w))) in
  match waiter_at w with
  | Unblocks => plain_call needed r (goes Locks)
  | Locks => plain_call needed r (goes Looks)
  | Looks => goes (if do_it e then Gets else Unlocks)
  | Gets => plain_call needed r (goes Waits)
  | Waits => match r with Ok | Early => Some (Goes w) | Late | Err ETIMEDOUT => goes Looks | Err _ => checked tested r None end
  | Unlocks => plain_call needed r (goes Gone)
  | Gone => None
  end.

(** A signal wakes the waiter, which calls [pthread_cond_timedwait] again. *)
Definition worker (e : env) (r : res) (w : st) : option (outcome st) :=
  let goes p := Some (Goes (St (waiter_at w) p)) in
  match worker_at w with
  | KMasks => plain_call needed r (goes KLooks)
  | KLooks => goes (if do_it e then KSleeps else KGone)
  | KSleeps => match r with Err EINTR => Some (Goes w) | Ok | Err _ => goes KSignals | _ => None end
  | KSignals => plain_call needed r (goes KLooks)
  | KGone => None
  end.

Definition step (e : env) (k : nat) (r : res) (w : st) : option (outcome st) :=
  if (created e <=? k)%nat then None else match k with 0%nat => waiter e r w | 1%nat => worker e r w | _ => None end.

Definition masks (k : nat) (w : st) : bool := match k, waiter_at w with 0%nat, Unblocks => true | _, _ => false end.
Definition open (w : st) : bool := match waiter_at w with Unblocks | Gone => false | _ => true end.
Definition gone (k : nat) (w : st) : bool :=
  match k with 0%nat => match waiter_at w with Gone => true | _ => false end | _ => match worker_at w with KGone => true | _ => false end end.

Definition threads : group := Group st 2 (St Unblocks KMasks) step masks open (λ _ _, true) gone.

Definition inv (e : env) (w : st) : Prop := do_it e = true → waiter_at w ≠ Unlocks ∧ waiter_at w ≠ Gone.

Lemma timed_step_inv e k r w w' : inv e w → step e k r w = Some (Goes w') ∨ step e k r w = Some (Posts w') →
  inv e w' ∧ ∀ j, gone j w = true → gone j w' = true.
Proof.
  intros Hi Hst. unfold inv, step, waiter, worker, plain_call, checked, gone in *. destruct w as [p q]; cbn in *.
  destruct Hst as [Hst|Hst]; repeat (case_match; simplify_eq/=); (split; [intros Hd; try specialize (Hi Hd); split; intuition congruence|]);
    intros [|j]; done.
Qed.

Lemma timed_step_exits e k r w c : step e k r w = Some (Exits c) → ¬ conforms r ∧ (c = PTS_UNRESOLVED ∨ c = PTS_FAIL ∧ r = Err EINTR).
Proof.
  unfold step, waiter, worker, plain_call, checked. intros Hst.
  pose proof (checks_needed r) as Hn. pose proof (checks_tested r) as Ht.
  repeat (case_match; simplify_eq/=); try done; auto.
Qed.

Lemma waiter_ends e w : created e = 2%nat → do_it e = false →
  ∃ w', rtc (gstep threads e) w w' ∧ gone 0 w' = true ∧ worker_at w' = worker_at w.
Proof.
  intros Hc Hd. destruct w as [p q].
  assert (∀ p p' r, good r → waiter e r (St p q) = Some (Goes (St p' q)) → gstep threads e (St p q) (St p' q)) as Hg.
  { intros p1 p2 r Hr Hst. exists 0%nat r; [done|]. left. cbn. unfold step. rewrite Hc. exact Hst. }
  exists (St Gone q). split; [|done].
  assert (gstep threads e (St Unlocks q) (St Gone q)) as H1 by (apply (Hg _ _ Ok); [by left|done]).
  assert (rtc (gstep threads e) (St Looks q) (St Gone q)) as H2.
  { eapply rtc_l; [|by apply rtc_once]. apply (Hg _ _ Ok); [by left|]. unfold waiter. cbn. by rewrite Hd. }
  assert (rtc (gstep threads e) (St Waits q) (St Gone q)) as H3 by (eapply rtc_l; [|exact H2]; apply (Hg _ Looks Late); [by right|done]).
  assert (rtc (gstep threads e) (St Gets q) (St Gone q)) as H4 by (eapply rtc_l; [|exact H3]; apply (Hg _ Waits Ok); [by left|done]).
  assert (rtc (gstep threads e) (St Locks q) (St Gone q)) as H5 by (eapply rtc_l; [|exact H2]; apply (Hg _ Looks Ok); [by left|done]).
  destruct p; try done; [|by apply rtc_once]. eapply rtc_l; [|exact H5]. apply (Hg _ Locks Ok); [by left|done].
Qed.

Lemma worker_leaves e w : created e = 2%nat → do_it e = false →
  ∃ w', rtc (gstep threads e) w w' ∧ gone 1 w' = true ∧ waiter_at w' = waiter_at w.
Proof.
  intros Hc Hd. destruct w as [p q].
  assert (∀ q q', worker e Ok (St p q) = Some (Goes (St p q')) → gstep threads e (St p q) (St p q')) as Hg.
  { intros q1 q2 Hst. apply (gstep_ok threads e _ 1). cbn. unfold step. rewrite Hc. exact Hst. }
  exists (St p KGone). split; [|done].
  assert (rtc (gstep threads e) (St p KLooks) (St p KGone)) as H2 by (apply rtc_once, Hg; unfold worker; cbn; by rewrite Hd).
  assert (rtc (gstep threads e) (St p KSignals) (St p KGone)) as H3 by (eapply rtc_l; [apply (Hg _ KLooks); done|done]).
  destruct q; try done; [by eapply rtc_l; [apply (Hg _ KLooks); done|]|by eapply rtc_l; [apply (Hg _ KSignals); done|]].
Qed.

Theorem timed_lawful : lawful false threads.
Proof.
  refine (Lawful false threads inv (λ _ w, negb (gone 0 w)) _ _ _ _ _ _ _ _ _ _ _ _).
  - done.
  - by intros d y n w Hi _.
  - by intros d y n w _ ?.
  - by intros d y n w.
  - intros e k r w w'. apply timed_step_inv.
  - intros e k r w c _. apply timed_step_exits.
  - intros e w Hi Hd. destruct (Hi Hd). unfold gone. by destruct (waiter_at w).
  - done.
  - intros e [p q] Hi Hc Ha. cbn in Ha. cbn in Hc. destruct p; try done; try (by eexists; split; [apply rtc_refl|]).
    exists (St Locks q). split; [|done]. apply rtc_once, (gstep_ok threads e _ 0). cbn. unfold step. by rewrite Hc.
  - done.
  - intros e [p q] Hi Hd Ha. cbn in Ha. destruct p; try done. split; [done|]. intros k r o. cbn. unfold step, waiter, worker, plain_call, checked. cbn.
    intros Hst Hr. repeat (case_match; simplify_eq/=); try done; by eexists.
  - intros e w Hi Hd _ Hc. destruct (waiter_ends e w Hc Hd) as (w1 & Hr1 & Hg1 & _).
    destruct (worker_leaves e w1 Hc Hd) as (w2 & Hr2 & Hg2 & E2). exists w2. split; [by etrans|].
    intros [|[|k]] Hk; [|done|cbn in Hk; lia]. cbn in *. by rewrite E2.
Qed.
End Timed.

(** ** The tests with threads that wait *)

(** The waiters are created and joined before the worker. *)
Definition cond_test (v : Cond.version) : test :=
  Test (Cond.threads v) true kill_prepare false (seq 0 (S (Cond.number v))) [].
Definition cond_wait_4_1 : test := cond_test Cond.cond_wait_version.
Definition cond_signal_4_2 : test := cond_test Cond.cond_signal_version.
Definition cond_broadcast_4_2 : test := cond_test Cond.cond_broadcast_version.
(** The worker is joined first. *)
Definition cond_timedwait_4_3 : test := Test Timed.threads true kill_prepare false [1%nat; 0%nat] [].
