(* ===== verification/EintrSuite.v ===== *)
(** * The tests that calls do not return EINTR, together

    Eighteen of the nineteen tests of EintrLoops and EintrThreads are lawful on every system, so
    that what EintrTests proves of every schedule holds for them; pthread_once/6-1.c is on a system
    where its use of an automatic [once_control] works. Which of them can hang, and which can be
    killed by the signals they send, although no call fails. *)

From stdpp Require Import base tactics numbers list strings relations.
From S2P Require Import Prelude SigApi EintrTests EintrLoops EintrThreads.

Open Scope Z_scope.

(** The tests that send signals to the process, but for pthread_once/6-1.c, and those that send
    them to a thread. *)
Definition kill_tests (pshared : bool) : list test :=
  [equal_2_1; kill_8_1; sigmask_18_1; setschedparam_5_1; getschedparam_4_1; atfork_3_3; mutex_trylock_4_3 pshared;
   join_6_3; create_14_1; detach_4_3; cancel_5_2; cond_wait_4_1; cond_signal_4_2; cond_broadcast_4_2; cond_timedwait_4_3].
Definition thread_tests (monotonic : bool) : list test := [mutex_init_5_3; mutex_lock_3_1; cond_init_4_2 monotonic].

(** It may never end, though no call fails. *)
Definition hangs (t : test) : Prop :=
  ∃ es s, Forall (λ e, conforms (res_of e)) es ∧ runs es (@start t) = Some s ∧
          ∀ es' s', Forall (λ e, conforms (res_of e)) es' → runs es' s = Some s' → code s' = None.
(** A signal may end the process, though no call fails. *)
Definition killed (t : test) : Prop :=
  ∃ es s i, Forall (λ e, conforms (res_of e)) es ∧ runs es (@start t) = Some s ∧ code s = Some (Killed i).

(** ** The loops are well formed *)

Lemma once_wf : well_formed (once_text true) (λ p v, match p with Body 1 => v = (true, 1) | Handles _ => False | _ => True end).
Proof.
  split; try done.
  - intros [[|]| |[|[|]]| |[|]|] i; cbn; try done; intros [= <-] v Hv.
    + by split; [auto|].
    + split; [by eexists|]. split.
      * intros r v'. destruct (tested r); [done|]. by intros [= <-].
      * intros r z. pose proof (checks_tested r) as Ht. destruct (tested r); [|done]. by intros [= <-].
    + subst v. split; [by eexists|]. split; [done|].
      intros r z. pose proof (checks_tested r) as Ht. destruct (tested r); [|done]. by intros [= <-].
  - by exists 0%nat.
  - by intros [[|]| |[|[|]]| |[|]|].
Qed.

Lemma kill_wf : well_formed kill_text (λ _ _, True).
Proof.
  split; try done.
  - intros [[|]| |[|[|]]| |[|]|] i; cbn; try done; intros [= <-] v Hv; by split; [auto|].
  - by exists 0%nat.
  - by intros [[|]| |[|[|]]| |[|]|].
Qed.

Lemma usual_signals v : Forall (λ s, s ∈ signals) v → ¬ (SIGUSR1 ∈ v) ∧ ¬ (SIGUSR2 ∈ v).
Proof. rewrite Forall_forall. intros Hv. split; intros Hin%Hv; revert Hin; apply (bool_decide_unpack _); by vm_compute. Qed.

Lemma next_set_signals v : Forall (λ s, s ∈ signals) v.2 → Forall (λ s, s ∈ signals) (next_set v).2.
Proof.
  intros Hv. unfold next_set. set (j := ((v.1 + 1) mod (2 * NSIG))%nat). cbn [snd].
  destruct (NSIG <=? j)%nat eqn:Ej.
  - apply Forall_forall. intros s [_ Hs]%list_elem_of_filter. by eapply Forall_forall in Hv.
  - constructor; [|done]. apply Nat.leb_gt in Ej. destruct (lookup_lt_is_Some_2 signals j Ej) as [s Hs]. rewrite Hs.
    by eapply list_elem_of_lookup_2.
Qed.

Lemma sigmask_wf : well_formed sigmask_text (λ _ v, Forall (λ s, s ∈ signals) v.2).
Proof.
  assert (∀ p, keeps sigmask_text (λ _ v, Forall (λ s, s ∈ signals) v.2) p
            (Do (λ r v, match needed r with Some z => inr z | None => inl (next_set v) end))) as Hdo.
  { intros p v Hv. split; [by eexists|]. split.
    - intros r v'. destruct (needed r); [done|]. intros [= <-]. by apply next_set_signals.
    - intros r z. pose proof (checks_needed r) as Ht. destruct (needed r); [|done]. by intros [= <-]. }
  assert (∀ p h, h ∈ operation → keeps sigmask_text (λ _ v, Forall (λ s, s ∈ signals) v.2) p (Mask tested (opens h))) as Hmask.
  { intros p h Hh v Hv. split; [auto|]. split; [|done]. destruct (usual_signals _ Hv) as [H1 H2]. unfold opens.
    rewrite !bool_decide_eq_false_2 by done. by destruct h. }
  assert (∀ n i, body sigmask_text !! n = Some i →
            i = Do (λ r v, match needed r with Some z => inr z | None => inl (next_set v) end) ∨ ∃ h, h ∈ operation ∧ i = Mask tested (opens h)) as Hb.
  { intros n i Hi%list_elem_of_lookup_2. apply list_elem_of_bind in Hi as (h & Hi & Hh).
    apply elem_of_cons in Hi as [->|Hi]; [by left|]. apply list_elem_of_singleton in Hi as ->. right. by exists h. }
  split; try done.
  - intros [[|[|]]| |n|n|[|]|] i; cbn [here]; try done; [intros [= <-] v Hv; by split; [auto|]..|].
    intros [->|(h & Hh & ->)]%Hb; auto.
  - by exists 1%nat.
  - intros [[|[|]]| |n|n|[|]|]; cbn [here]; try done. by intros [?|(? & _ & ?)]%Hb.
Qed.

Lemma plain_moves {V} (T : text V) (P : place → V → Prop) b p i :
  plain b i → (∀ v, P p v → P (succ T p) v) → keeps T P p i.
Proof.
  intros Hp HP v Hv. specialize (HP v Hv).
  destruct i as [n c|f|c f|j| |]; try done; [by destruct Hp as [->|[->|[->| ->]]]; auto|by destruct Hp as (_ & -> & ->); auto].
Qed.

(** All calls of a list are plain. *)
Ltac plain_list := repeat (apply Forall_cons; split; [by unfold Unblock, plain; auto 6|]); try apply Forall_nil_2.

Definition lock_count (p : place) (v : Trylock.tvars) : Prop :=
  match p with
  | Body 1 => Trylock.locked v = 1 ∧ Trylock.busy v = false
  | Body 2 => Trylock.locked v = if Trylock.busy v then 1 else 2
  | Body 3 => Trylock.locked v = 1
  | Handles _ => False
  | _ => Trylock.locked v = 0
  end.

Lemma trylock_wf pshared : well_formed (Trylock.trylock_text pshared) lock_count.
Proof.
  assert (Forall (plain false) (before (Trylock.trylock_text pshared))) as Hb by (destruct pshared; cbn; plain_list).
  assert (Forall (plain false) (after (Trylock.trylock_text pshared))) as Ha by (cbn; plain_list).
  assert (∀ r : res, match tested r with Some z => ¬ conforms r ∧ (z = PTS_UNRESOLVED ∨ z = PTS_FAIL ∧ r = Err EINTR) | None => True end) as Ht
    by exact checks_tested.
  assert (∀ r : res, match needed r with Some z => ¬ conforms r ∧ (z = PTS_UNRESOLVED ∨ z = PTS_FAIL ∧ r = Err EINTR) | None => True end) as Hn
    by exact checks_needed.
  split; try done.
  - intros [n| |n|n|n|] i; cbn [here]; try done.
    + intros Hi. eapply plain_moves; [exact (Forall_lookup_1 _ _ _ _ Hb Hi)|]. intros v Hv. unfold succ, norm. by destruct (_ <? _)%nat.
    + destruct n as [|[|[|[|n]]]]; cbn; try done; intros [= <-] v Hv.
      * unfold Trylock.first_trylock, Trylock.trylock. cbn in *. rewrite Hv. cbn. split; [by eexists|].
        split; [intros r v'|intros r z]; specialize (Ht r); destruct (tested r); [done| |by intros [= <-]|done].
        intros [= <-]. by split.
      * destruct Hv as [H1 H2]. unfold Trylock.second_trylock, Trylock.trylock. cbn in *. rewrite H1. cbn. split; [by eexists|].
        split; [intros r v'|intros r z]; specialize (Ht r).
        -- destruct r as [| | |[]]; intros H; simplify_eq/=; try done; by destruct (match _ with Trylock.RECURSIVE => true | _ => false end).
        -- destruct r as [| | |[]]; intros H; simplify_eq/=; done.
      * unfold Trylock.unlock_again, Trylock.unlock. cbn in *. destruct (Trylock.busy v) eqn:Eb; (split; [by eexists|]).
        -- split; [by intros r v' [= <-]|done].
        -- split; [intros r v'|intros r z]; specialize (Hn r); destruct (needed r); [done| |by intros [= <-]|done]. intros [= <-]. cbn. lia.
      * unfold Trylock.unlock_once, Trylock.unlock. cbn in *. split; [by eexists|].
        split; [intros r v'|intros r z]; specialize (Hn r); destruct (needed r); [done| |by intros [= <-]|done]. intros [= <-]. cbn. lia.
    + intros Hi. eapply plain_moves; [exact (Forall_lookup_1 _ _ _ _ Ha Hi)|]. intros v Hv. unfold succ, norm. by destruct (_ <? _)%nat.
  - by exists 0%nat.
  - intros [n| |n|n|n|]; cbn [here]; try done; intros Hi.
    + by pose proof (Forall_lookup_1 _ _ _ _ Hb Hi).
    + by destruct n as [|[|[|[|n]]]].
    + by pose proof (Forall_lookup_1 _ _ _ _ Ha Hi).
Qed.

(** ** All tests are lawful *)

Definition sound (t : test) : Prop := inhabited (lawful (t_sync t) (t_group t)) ∧ Forall (λ k, k < g_size (t_group t))%nat (t_joins t).

Lemma loop_sound {V} (T : text V) (P : place → V → Prop) : late T = false → well_formed T P → sound (kill_test T).
Proof.
  intros Hl Hwf. split; [constructor|by repeat constructor]. pose proof (loop_lawful T P Hwf) as HL. by rewrite Hl in HL.
Qed.

Lemma plain_sound {V} (T : text V) : late T = false → Forall (plain false) (before T) → Forall (plain false) (body T) → Forall (plain false) (after T) →
  (∃ n, before T !! n = Some Unblock) → sound (kill_test T).
Proof. intros Hl Hb Hbo Ha Ho. apply (loop_sound _ (λ _ _, True)); [done|]. apply plain_wf; by rewrite ?Hl. Qed.

Lemma sync_sound (T : text ()) : late T = true → Forall (plain true) (before T) → Forall (plain true) (body T) →
  (∃ l, after T = l ++ [Sync] ∧ Forall (plain true) l) → (∃ l, before T = Sigaction 0 :: Sigaction 1 :: l) → sound (sync_test T).
Proof.
  intros Hl Hb Hbo Ha Ho. split; [constructor|by repeat constructor].
  pose proof (loop_lawful T (λ _ _, True)) as HL. rewrite Hl in HL. apply HL, plain_wf; by rewrite ?Hl.
Qed.

Lemma kill_tests_sound pshared : Forall sound (kill_tests pshared).
Proof.
  unfold kill_tests. repeat (apply Forall_cons; split); try apply Forall_nil_2.
  - apply plain_sound; [done|plain_list..|by exists 0%nat].
  - by eapply loop_sound, kill_wf.
  - by eapply loop_sound, sigmask_wf.
  - apply plain_sound; [done|plain_list..|by exists 2%nat].
  - apply plain_sound; [done|plain_list..|by exists 0%nat].
  - apply plain_sound; [done|plain_list..|by exists 0%nat].
  - by eapply loop_sound, trylock_wf.
  - split; [constructor; exact Join63.join63_lawful|by repeat constructor].
  - split; [constructor; exact (Creator.creator_lawful false)|by repeat constructor].
  - split; [constructor; exact (Creator.creator_lawful true)|by repeat constructor].
  - split; [constructor; exact Cancel52.cancel52_lawful|by repeat constructor].
  - split; [constructor; apply Cond.cond_lawful; cbn; lia|by repeat constructor].
  - split; [constructor; apply Cond.cond_lawful; cbn; lia|by repeat constructor].
  - split; [constructor; apply Cond.cond_lawful; cbn; lia|]. cbn. repeat constructor; lia.
  - split; [constructor; exact Timed.timed_lawful|by repeat constructor].
Qed.

Lemma thread_tests_sound monotonic : Forall sound (thread_tests monotonic).
Proof.
  unfold thread_tests. repeat (apply Forall_cons; split); try apply Forall_nil_2.
  - apply sync_sound; [done|cbn; plain_list..| |by eexists].
    exists (times 4 [Call "pthread_mutexattr_destroy" needed]). split; [done|cbn; plain_list].
  - apply sync_sound; [done|cbn; plain_list..| |by eexists].
    exists (times 4 [Call "pthread_mutexattr_destroy" needed] ++ times 5 [Call "pthread_mutex_destroy" tested]). split; [done|cbn; plain_list].
  - apply sync_sound; [done|destruct monotonic; cbn; plain_list|cbn; plain_list| |by eexists].
    exists (times 4 [Call "pthread_condattr_destroy" needed]). split; [done|cbn; plain_list].
Qed.

Lemma sound_verdicts t : sound t → @verdicts t.
Proof. intros [[HL] Hj]. by apply lawful_verdicts. Qed.

Lemma once_sound : sound (once_6_1 true).
Proof. by eapply loop_sound, once_wf. Qed.

(** Two rounds of the loop. *)
Lemma once_fails :
  ∃ es s, Forall (λ e, conforms (res_of e)) es ∧ runs es (@start (once_6_1 false)) = Some s ∧ code s = Some (Exit PTS_FAIL).
Proof.
  pose (es := replicate 9 (Main Ok) ++ replicate 7 (Worker 0 Ok)).
  destruct (runs es (@start (once_6_1 false))) as [s|] eqn:Hr.
  2: { exfalso. revert Hr. by vm_compute. }
  exists es, s. split_and!; [apply Forall_app; split; by apply Forall_replicate|done|].
  assert ((runs es (@start (once_6_1 false)) ≫= code) = Some (Exit PTS_FAIL)) as H by by vm_compute. by rewrite Hr in H.
Qed.

(** C21. Every one of eighteen tests that calls do not return EINTR: under every interleaving of
    [main], the senders, the handlers and the threads that use the interface, and whatever the
    calls return, it exits with PTS_FAIL only when a call that it tests returned EINTR, and with
    PTS_PASS only after both senders have ended; when no call fails it exits with nothing but
    PTS_PASS; only a signal whose handler is not installed kills it; and as long as it has not
    ended it can still pass, or else it waits for ever, which the tests that send signals
    to a thread and wait for [semsync] never do. The nineteenth, pthread_once/6-1.c, assigns
    PTHREAD_ONCE_INIT to an automatic variable in each round: the same holds of it where that makes
    the variable fresh, and where it does not the test fails though no call does. *)
Theorem eintr_tests_verdicts pshared monotonic :
  Forall (@verdicts) (once_6_1 true :: kill_tests pshared ++ thread_tests monotonic) ∧
  (∃ es s, Forall (λ e, conforms (res_of e)) es ∧ runs es (@start (once_6_1 false)) = Some s ∧ code s = Some (Exit PTS_FAIL)) ∧
  Forall (λ t, ∀ es s, runs es (@start t) = Some s → code s = None →
                 ∃ s', reaches s s' ∧ code s' = Some (Exit PTS_PASS)) (thread_tests monotonic).
Proof.
  split_and!; [|exact once_fails|].
  - apply Forall_cons. split; [apply sound_verdicts, once_sound|]. apply Forall_app.
    split; (eapply Forall_impl; [|exact sound_verdicts]); [apply kill_tests_sound|apply thread_tests_sound].
  - assert (Forall (λ t, t_sync t = true) (thread_tests monotonic)) as Hs by (by repeat constructor).
    apply Forall_forall. intros t Ht es s Hr Hn. eapply Forall_forall in Hs; [|exact Ht].
    destruct (proj1 (Forall_forall _ _) (thread_tests_sound monotonic) t Ht) as [[HL] Hj].
    destruct (lawful_verdicts HL Hj es s Hr) as (_ & _ & _ & _ & H). destruct (H Hn) as [?|[? _]]; congruence.
Qed.

(** ** Tests that hang, and tests that are killed *)

(** No thread of the group does anything any more. *)
Definition finished {t} (s : state t) : Prop :=
  g_open (t_group t) (grp s) = false ∧ ∀ e k r, g_step (t_group t) e k r (grp s) = None.

(** [main] joins a sender that waits for a handler. *)
Definition stuck {t} (s : state t) : Prop :=
  code s = None ∧ (∃ l, todo s = Join_sender 0 :: l) ∧ senders s !! 0%nat = Some Waits ∧ sems s !! 0%nat = Some 0 ∧ finished s.

Lemma stuck_next {t} e (s s' : state t) : stuck s → conforms (res_of e) → next e s = Some s' → stuck s'.
Proof.
  intros (Hn & [l Hl] & Hw & Hv & Ho & Hf) Hr. unfold next. rewrite Hn.
  assert (∀ k r, worker_step k r s = None) as Hwk by (intros; unfold worker_step; by rewrite Hf).
  destruct e as [r|i r|k r|i r|k i r]; cbn in Hr.
  - unfold main_step. rewrite Hl, Hw. by destruct r.
  - unfold sender_step. destruct (decide (i = 0%nat)) as [->|Hne].
    { rewrite Hw. cbn [mbind option_bind]. rewrite Hv. by destruct r. }
    assert (∀ p s1, senders s1 = <[i := p]> (senders s) → sems s1 !! 0%nat = sems s !! 0%nat → todo s1 = todo s → grp s1 = grp s →
      code s1 = None → stuck s1) as Hst.
    { intros p s1 E1 E2 E3 E4 E5. unfold stuck, finished. rewrite E1, E2, E3, E4, list_lookup_insert_ne by done. by eauto 10. }
    destruct (senders s !! i) as [[]|]; try done; cbn [mbind option_bind].
    + destruct r; try done; intros [= <-]; by eapply Hst.
    + intros [= <-]. by eapply Hst.
    + destruct (sems s !! i) as [v|]; [|done]. cbn [mbind option_bind]. destruct r; try done. cbn. destruct (0 <? v); [|done].
      intros [= <-]. eapply Hst; try done. cbn. by rewrite list_lookup_insert_ne.
    + destruct r; try done; intros [= <-]; by eapply Hst.
  - unfold thread_step. by rewrite Hwk.
  - unfold handler_step. rewrite Ho. destruct (pend s !! i), (sems s !! i); cbn [mbind option_bind]; try done. by rewrite andb_false_r.
  - unfold unblock_step. destruct (unblocking _ _ _); [|done]. by rewrite Hwk.
Qed.

Lemma stuck_hangs {t} es (s : state t) : Forall (λ e, conforms (res_of e)) es → runs es start = Some s → stuck s → hangs t.
Proof.
  intros Hc Hr Hs. exists es, s. split_and!; [done..|]. intros es'. clear Hr. revert s Hs.
  induction es' as [|e es' IH]; intros s Hs s' Hes; simpl.
  { intros [= <-]. by destruct Hs. }
  apply Forall_cons in Hes as [He Hes]. destruct (next e s) as [s1|] eqn:E; [|done]. cbn [mbind option_bind].
  apply IH; [|done]. by eapply stuck_next.
Qed.

(** [main] creates all threads; the group does [es], and has unblocked the signals; the first sender
    sends its signal and waits; [main] resets [do_it]; the group does [es'] and ends before the
    signal is handled. *)
Definition late_group (t : test) (es es' : list event) : list event :=
  replicate (length (front t) - 1) (Main Ok) ++ es ++ replicate 5 (Sender 0 Ok) ++ [Main Ok; Main Ok] ++ es'.
(** The first thread of the group goes on alone. *)
Definition alone (n : nat) : list event := replicate n (Worker 0 Ok).

(** The waiters get to [pthread_cond_wait], the worker wakes them, and the first has the mutex; they
    test [do_it], and end. *)
Definition waits_woken (v : Cond.version) : list event :=
  let n := Cond.number v in
  (seq 0 n ≫= λ i, replicate 3 (Worker i Ok)) ++ replicate (if Cond.sleeps v then 4 else 3) (Worker n Ok) ++ alone 1.
Definition waits_end (v : Cond.version) : list event :=
  let n := Cond.number v in
  alone 3 ++ (seq 1 (n - 1) ≫= λ i, replicate 4 (Worker i Ok)) ++ [Worker n Ok].

(** A schedule of the group ends with [main] and a sender stuck, and a state of the group that [f] accepts. *)
Definition sticks (t : test) (es es' : list event) (f : W (t_group t) → bool) : bool :=
  match runs (late_group t es es') start with
  | Some s =>
      match code s, todo s, senders s !! 0%nat, sems s !! 0%nat with
      | None, Join_sender 0 :: _, Some Waits, Some 0 => f (grp s)
      | _, _, _, _ => false
      end
  | None => false
  end.

Definition quiet (t : test) (f : W (t_group t) → bool) : Prop :=
  ∀ w, f w = true → g_open (t_group t) w = false ∧ ∀ e k r, g_step (t_group t) e k r w = None.

Lemma sticks_hangs t es es' f : Forall (λ e, conforms (res_of e)) (es ++ es') → quiet t f → sticks t es es' f = true → hangs t.
Proof.
  unfold sticks. intros [Hes Hes']%Forall_app Hf Hs. destruct (runs (late_group t es es') start) as [s|] eqn:Hr; [|done].
  eapply stuck_hangs; [|exact Hr|].
  - unfold late_group. rewrite !Forall_app. split_and!; [by apply Forall_replicate|done|by apply Forall_replicate|by repeat constructor|done].
  - unfold stuck, finished. destruct (code s), (todo s) as [|[| | [|] | | |[|]| |] l], (senders s !! 0%nat) as [[]|], (sems s !! 0%nat) as [[]|];
      try done. split_and!; [done|by eexists|done..|by apply Hf|by apply Hf].
Qed.

Lemma loop_quiet {V} (T : text V) : quiet (kill_test T) over.
Proof.
  intros [p x o l] Ho. unfold over in Ho. destruct p; try done. split; [cbn; apply andb_false_r|].
  intros e k r. cbn. unfold loop_step. cbn. destruct (_ || _); [done|]. by destruct r.
Qed.

Definition join63_over (w : Join63.st) : bool :=
  match Join63.at_ w, Join63.child w with Join63.Over, None => true | _, _ => false end.
Lemma join63_quiet : quiet join_6_3 join63_over.
Proof.
  intros [[] [|]] Ho; try done. split; [done|]. intros e [|[|k]] r; cbn; unfold Join63.step; by destruct (_ =? _)%nat.
Qed.

Definition creator_over (w : Creator.st) : bool :=
  match Creator.at_ w, Creator.kids w with Creator.Over, [] => true | _, _ => false end.
Lemma creator_quiet d : quiet (Test (Creator.threads d) true [] false [] []) creator_over.
Proof.
  intros [[] ? ? []] Ho; try done. split; [cbn; by destruct d|]. intros e [|k] r; cbn; unfold Creator.step; by destruct (_ =? _)%nat.
Qed.

Definition cancel52_over (w : Cancel52.st) : bool :=
  match Cancel52.at_ w, Cancel52.child w with Cancel52.Over, Some true => true | _, _ => false end.
Lemma cancel52_quiet : quiet cancel_5_2 cancel52_over.
Proof.
  intros [[] [[]|]] Ho; try done. split; [done|]. intros e [|[|k]] r; cbn; unfold Cancel52.step; by destruct (_ =? _)%nat.
Qed.

Definition cond_over (w : Cond.st) : bool :=
  forallb (λ p, match p with Cond.Gone => true | _ => false end) (Cond.waiters w) &&
  match Cond.worker_at w with Cond.KGone => true | _ => false end.
Lemma cond_quiet v : quiet (cond_test v) cond_over.
Proof.
  intros w [Hg Hk]%andb_prop. assert (Cond.worker_at w = Cond.KGone) as Hk' by by destruct (Cond.worker_at w). clear Hk. rename Hk' into Hk.
  assert (∀ i p, Cond.waiters w !! i = Some p → p = Cond.Gone) as Hw.
  { intros i p Hp. assert (match p with Cond.Gone => true | _ => false end = true) as Hgp; [|by destruct p].
    apply (proj1 (forallb_forall _ _) Hg p), list_elem_of_In. by eapply list_elem_of_lookup_2. }
  split.
  - cbn. unfold Cond.open. rewrite Hk. destruct (Cond.waits v); [|done]. apply not_true_is_false.
    intros (p & Hp & Ht)%existsb_exists. apply list_elem_of_In, list_elem_of_lookup in Hp as [i Hp]. by rewrite (Hw i p Hp) in Ht.
  - intros e k r. cbn. unfold Cond.step, Cond.waiter, Cond.worker. rewrite Hk.
    destruct (created e <=? k)%nat, (k <? Cond.number v)%nat, (k =? Cond.number v)%nat, (Cond.waiters w !! k) as [p|] eqn:Hp; try done; by rewrite (Hw k p Hp).
Qed.

Definition timed_over (w : Timed.st) : bool :=
  match Timed.waiter_at w, Timed.worker_at w with Timed.Gone, Timed.KGone => true | _, _ => false end.
Lemma timed_quiet : quiet cond_timedwait_4_3 timed_over.
Proof.
  intros [[] []] Ho; try done. split; [done|]. intros e [|[|k]] r; cbn; unfold Timed.step; by destruct (_ <=? _)%nat.
Qed.

Lemma alone_conforms n m : Forall (λ e, conforms (res_of e)) (alone n ++ alone m).
Proof. apply Forall_app. split; by apply Forall_replicate. Qed.

Lemma loop_hangs {V} (T : text V) n m : sticks (kill_test T) (alone n) (alone m) over = true → hangs (kill_test T).
Proof. apply sticks_hangs; [apply alone_conforms|apply loop_quiet]. Qed.

(** [once_ctl] may be fresh or not. *)
Lemma once_hangs fresh : hangs (once_6_1 fresh).
Proof. apply (loop_hangs _ 1 1). destruct fresh; by vm_compute. Qed.

Lemma kill_tests_hang pshared : Forall hangs (kill_tests pshared).
Proof.
  unfold kill_tests. repeat (apply Forall_cons; split); try apply Forall_nil_2.
  - apply (loop_hangs _ 1 1). by vm_compute.
  - apply (loop_hangs _ 1 1). by vm_compute.
  - apply (loop_hangs _ 2 1). by vm_compute.
  - apply (loop_hangs _ 3 1). by vm_compute.
  - apply (loop_hangs _ 1 1). by vm_compute.
  - apply (loop_hangs _ 1 1). by vm_compute.
  - destruct pshared; [apply (loop_hangs _ (2 + 28 + 3) (1 + 19))|apply (loop_hangs _ (2 + 24 + 3) (1 + 19))]; by vm_compute.
  - apply (sticks_hangs join_6_3 (alone 1) (alone 1) join63_over); [by repeat constructor|exact join63_quiet|by vm_compute].
  - apply (sticks_hangs create_14_1 (alone 1) (alone 1) creator_over); [by repeat constructor|exact (creator_quiet false)|by vm_compute].
  - apply (sticks_hangs detach_4_3 (alone 1) (alone 1) creator_over); [by repeat constructor|exact (creator_quiet true)|by vm_compute].
  - apply (sticks_hangs cancel_5_2 (alone 2) (alone 1 ++ [Worker 1 Ok] ++ alone 1) cancel52_over);
      [by repeat constructor|exact cancel52_quiet|by vm_compute].
  - apply (sticks_hangs cond_wait_4_1 (waits_woken Cond.cond_wait_version) (waits_end Cond.cond_wait_version) cond_over);
      [by repeat constructor|exact (cond_quiet _)|by vm_compute].
  - apply (sticks_hangs cond_signal_4_2 (waits_woken Cond.cond_signal_version) (waits_end Cond.cond_signal_version) cond_over);
      [by repeat constructor|exact (cond_quiet _)|by vm_compute].
  - apply (sticks_hangs cond_broadcast_4_2 (waits_woken Cond.cond_broadcast_version) (waits_end Cond.cond_broadcast_version) cond_over);
      [by repeat constructor|exact (cond_quiet _)|by vm_compute].
  - apply (sticks_hangs cond_timedwait_4_3 (alone 2 ++ [Worker 1 Ok]) (alone 2 ++ [Worker 1 Ok]) timed_over);
      [by repeat constructor|exact timed_quiet|by vm_compute].
Qed.

(** A signal is sent before the thread has installed its handler. *)
Lemma thread_tests_killed monotonic : Forall killed (thread_tests monotonic).
Proof.
  assert (∀ T, (match runs (replicate 6 (Main Ok) ++ replicate 3 (Sender 0 Ok) ++ [Handler 0 Ok]) (@start (sync_test T)) with
                | Some s => match code s with Some (Killed 0) => true | _ => false end | None => false end) = true → killed (sync_test T)) as Hk.
  { intros T H. destruct (runs _ start) as [s|] eqn:Hr; [|done]. destruct (code s) as [[|[|]]|] eqn:Hc; try done.
    eexists _, s, 0%nat. split; [|by split; [exact Hr|]]. by repeat constructor. }
  unfold thread_tests. repeat (apply Forall_cons; split); try apply Forall_nil_2.
  - apply Hk. by vm_compute.
  - apply Hk. by vm_compute.
  - apply Hk. destruct monotonic; by vm_compute.
Qed.

(** C22. What can happen in these tests though no call fails, and though [pthread_sigmask] does not
    return before a pending signal that it unblocks has been handled: each of the sixteen that send
    signals to the process can wait for ever, a sender in [sem_wait] for a handler that no thread is
    left to run; each of the three that send signals to a thread can be killed by a signal that it
    gets before it has installed the handlers. *)
Theorem eintr_tests_hang pshared monotonic :
  (∀ fresh, hangs (once_6_1 fresh)) ∧ Forall hangs (kill_tests pshared) ∧ Forall killed (thread_tests monotonic).
Proof. split_and!; [exact once_hangs|apply kill_tests_hang|apply thread_tests_killed]. Qed.
