(* ===== verification/PtPasses.v ===== *)
(** * The thread tests on an ideal system

    All schedules of each test, on a prompt system without spurious wakeups. *)

From stdpp Require Import base tactics numbers list gmap strings.
From S2P Require Import Prelude CLang PtLang PtSem Explore Runs PtMutexTests PtCondTests PtRwlockTests PtBarrierTests PtThreadTests PtCancelTests PtAttrTests PtScenarioTests.

Lemma mutex_tests_pass : Forall (λ p, always_ends ideal p PASS) mutex_tests.
Proof. by_search. Qed.

Lemma cond_tests_pass : Forall (λ p, always_ends ideal p PASS) cond_tests.
Proof. by_search. Qed.

Lemma rwlock_tests_pass : Forall (λ p, always_ends ideal p PASS) rwlock_tests.
Proof. by_search. Qed.

Lemma barrier_tests_pass : Forall (λ p, always_ends ideal p PASS) barrier_tests.
Proof. by_search. Qed.

Lemma thread_tests_pass : Forall (λ p, always_ends ideal p PASS) thread_tests.
Proof. by_search. Qed.

Lemma cancel_tests_pass : Forall (λ p, always_ends ideal p PASS) cancel_tests.
Proof. by_search. Qed.

Lemma attr_tests_pass : Forall (λ p, always_ends ideal p PASS) attr_tests.
Proof. by_search. Qed.

Lemma scenario_tests_pass : Forall (λ p, always_ends ideal p PASS) scenario_tests.
Proof. by_search. Qed.
