(* ===== verification/PtSuite.v ===== *)
(** * What the thread tests show

    All 216 tests that do not depend on undefined behaviour pass on an ideal
    system, and they find its faults; what systems may do besides makes some of
    them fail. *)

From stdpp Require Import base tactics numbers list gmap strings.
From S2P Require Import Prelude CLang PtLang PtSem Explore Runs PtMutexTests PtCondTests PtRwlockTests PtBarrierTests PtThreadTests PtCancelTests PtAttrTests PtScenarioTests PtPasses.

Open Scope Z_scope.

Definition pt_suite : list prog :=
  mutex_tests ++ cond_tests ++ rwlock_tests ++ barrier_tests ++ thread_tests ++ cancel_tests ++ attr_tests ++ scenario_tests.

(** The test that finds a fault. *)
Definition detector (f : fault) : prog :=
  match f with
  | No_fault => mutex_lock_2_1
  | Lock_always => settype_2_1
  | Trylock_always => mutex_trylock_1_1
  | Unlock_nothing => mutex_unlock_1_1
  | Wait_keeps => cond_wait_3_1
  | Wait_without => cond_wait_2_1
  | Wait_returns => cond_wait_1_1
  | Signal_nothing => cond_signal_1_1
  | Broadcast_one => cond_broadcast_1_1
  | Rdlock_exclusive => rwlock_rdlock_1_1
  | Wrlock_shared => rwlock_wrlock_1_1
  | Rwlock_stays => rwlock_unlock_2_1
  | Barrier_open => barrier_wait_1_1
  | Spin_always => spin_lock_1_1
  | Join_early => join_1_1
  | Timeout_never => rwlock_timedrdlock_2_1
  | Timeout_at_once => mutex_timedlock_1_1
  | Cancel_nothing => cancel_1_1
  | Cancel_late => cancel_2_2
  end.

(** The faults that the detectors find on every schedule. *)
Definition found_always (f : fault) : bool :=
  match f with No_fault | Wait_keeps | Cancel_late => false | _ => true end.

(** Tests that initialise objects twice, use them without or destroy them in use, unlock
    what they have not locked. *)
Definition undefined_tests : list prog :=
  [mutex_init_3_2_start; cond_timedwait_2_3; rwlock_destroy_3_1; rwlock_init_6_1; rwlock_unlock_4_1;
   rwlock_unlock_4_2; rwlock_timedrdlock_6_2; rwlock_timedwrlock_6_2; barrier_destroy_2_1;
   barrier_init_4_1; barrier_wait_6_1; spin_destroy_3_1; spin_init_4_1; spin_lock_3_2; spin_trylock_4_1;
   spin_unlock_3_1; key_create_2_1; attr_destroy_1_1; mutexattr_setprotocol_3_2;
   mutexattr_setpshared_3_1; mutexattr_setpshared_3_2].

(** Those that pass when the calls report the misuse. *)
Definition reported_tests : list prog :=
  [rwlock_destroy_3_1; rwlock_init_6_1; rwlock_unlock_4_1; rwlock_unlock_4_2; barrier_destroy_2_1;
   barrier_init_4_1; barrier_wait_6_1; spin_destroy_3_1; spin_init_4_1; spin_lock_3_2; spin_trylock_4_1;
   attr_destroy_1_1; mutexattr_setprotocol_3_2; mutexattr_setpshared_3_1; mutexattr_setpshared_3_2].

(** Tests that count on delays. *)
Definition late_tests : list prog :=
  [cond_broadcast_1_1; cond_signal_1_1; rwlock_init_1_1; rwlock_init_2_1; rwlock_rdlock_1_1;
   rwlock_rdlock_4_1; rwlock_tryrdlock_1_1; rwlock_trywrlock_1_1; rwlock_wrlock_1_1; rwlock_wrlock_2_1;
   rwlock_unlock_1_1; rwlock_unlock_2_1; rwlock_timedrdlock_1_1; rwlock_timedrdlock_2_1;
   rwlock_timedrdlock_3_1; rwlock_timedrdlock_5_1; rwlock_timedrdlock_6_1; rwlock_timedwrlock_1_1;
   rwlock_timedwrlock_2_1; rwlock_timedwrlock_3_1; rwlock_timedwrlock_5_1; rwlock_timedwrlock_6_1;
   barrier_wait_1_1; barrier_wait_3_1; spin_lock_1_2; spin_trylock_1_1; spin_unlock_1_2; create_1_3;
   detach_2_1; cancel_2_1; cancel_2_2; cancel_2_3; setcanceltype_1_1].

(** Tests that do not. *)
Definition timeless_tests : list prog :=
  [mutex_destroy_1_1; mutex_destroy_2_1; mutex_destroy_3_1; mutex_destroy_5_1; mutex_destroy_5_2;
   mutex_init_1_1; mutex_init_2_1; mutex_init_4_1; mutex_lock_2_1; mutex_lock_4_1; mutex_lock_5_1;
   mutex_trylock_3_1; mutex_trylock_4_1; mutex_timedlock_1_1; mutex_timedlock_2_1; mutex_timedlock_4_1;
   mutex_timedlock_5_1; mutex_timedlock_5_2; mutex_timedlock_5_3; mutex_unlock_1_1; mutex_unlock_3_1;
   mutex_unlock_5_1; mutex_unlock_5_2; settype_1_1; settype_2_1; settype_3_1; settype_3_2; settype_3_3;
   settype_3_4; settype_7_1; cond_destroy_1_1; cond_destroy_3_1; cond_init_1_1; cond_init_3_1;
   cond_timedwait_4_1; rwlock_rdlock_5_1; barrier_destroy_1_1; barrier_init_1_1; barrier_init_3_1;
   spin_destroy_1_1; spin_init_1_1; spin_lock_1_1; spin_lock_3_1; spin_unlock_1_1; create_1_1;
   create_1_2; create_2_1; create_4_1; create_5_1; create_12_1; join_1_1; join_5_1; detach_3_1;
   exit_2_1; exit_3_1; self_1_1; equal_1_1; key_create_1_1; getspecific_1_1; setspecific_1_1;
   key_create_3_1; key_delete_1_1; key_delete_1_2; key_delete_2_1; getspecific_3_1; setspecific_1_2;
   once_1_1; once_1_2; once_2_1; cancel_5_1; cleanup_pop_1_3; cleanup_push_1_1; cleanup_push_1_3].


(** C4. For each of 18 faults of an implementation (locks that do not exclude, unlocks,
    signals and cancellations without effect, timeouts that never or always happen, joins
    that do not wait, and so on) there is a test that finds it: the test ends with PTS_FAIL
    under every schedule, except that a condition wait that keeps the mutex leaves
    cond_wait/3-1 unresolved and late cancellation is found on some schedules only. *)
Theorem pt_suite_detects :
  (∀ f, found_always f = true → always_ends (with_fault f) (detector f) FAIL) ∧
  always_ends (with_fault Wait_keeps) (detector Wait_keeps) UNRESOLVED ∧
  can_end (with_fault Cancel_late) (detector Cancel_late) FAIL ∧
  can_end (with_fault Cancel_late) (detector Cancel_late) PASS.
Proof. split_and!; [intros [] Hf; try discriminate Hf| | |]; unfold detector; by_search. Qed.


(** C31. What makes 24 tests of threads unreliable on conforming, prompt systems: two fail
    under some schedules and pass under others (barrier_wait/2-1 increments shared
    counters without synchronisation, and attr_setdetachstate/2-1 joins a detached thread
    that may have ended). 21 misuse objects (they use objects that
    are not initialised, initialise them twice, destroy them in use, or unlock what they
    have not locked): on a system that does not report it they always run into undefined
    behaviour; on one that returns EINVAL, EBUSY or EPERM, as the standard permits, 15 pass, three
    end unresolved, and spin_unlock/3-1 always fails, which its comments exclude. And
    rwlock_wrlock/3-1 never ends on a system where a second lock by the owner deadlocks,
    which the standard allows. *)
Theorem pt_unreliable :
  Forall (λ p, can_end ideal p FAIL ∧ can_end ideal p PASS) [barrier_wait_2_1; attr_setdetachstate_2_1] ∧
  Forall (λ p, always_ends ideal p UNDEFINED) undefined_tests ∧
  Forall (λ p, always_ends reporting p PASS) reported_tests ∧
  Forall (λ p, always_ends reporting p UNRESOLVED) [cond_timedwait_2_3; rwlock_timedrdlock_6_2; rwlock_timedwrlock_6_2] ∧
  always_ends reporting spin_unlock_3_1 FAIL ∧
  hangs ideal rwlock_wrlock_3_1.
Proof. split_and!; [repeat constructor|..]; by_search. Qed.
