(* ===== verification/OsBytes.v ===== *)
(** * Bytes of files and memory

    A sequence of bytes as a list of runs: how often a byte is repeated, and the byte.
    Runs are not empty and neighbours differ, so that equal sequences are equal lists.
    A byte that was never written has the value [indeterminate]. [unrun] is the
    sequence itself; it specifies each operation. *)

From stdpp Require Import base tactics numbers list.
From S2P Require Import Prelude.

Open Scope Z_scope.

Definition bytes : Set := list (Z * Z).
Definition indeterminate : Z := -1.

Definition unrun (b : bytes) : list Z := concat ((λ r, replicate (Z.to_nat r.1) r.2) <$> b).

Definition blen (b : bytes) : Z := foldr (λ r n, r.1 + n) 0 b.

(** A run in front of others. *)
Definition bcons (n v : Z) (b : bytes) : bytes :=
  if n <=? 0 then b else
  match b with
  | (m, w) :: b' => if v =? w then (n + m, v) :: b' else (n, v) :: b
  | [] => [(n, v)]
  end.

Definition run (n v : Z) : bytes := bcons n v [].
Definition bapp (a b : bytes) : bytes := foldr (λ r, bcons r.1 r.2) b a.

Fixpoint btake (n : Z) (b : bytes) : bytes :=
  match b with
  | [] => []
  | (m, v) :: b => if n <=? m then run n v else (m, v) :: btake (n - m) b
  end.

Fixpoint bdrop (n : Z) (b : bytes) : bytes :=
  match b with
  | [] => []
  | (m, v) :: b' => if n <? m then bcons (Z.min m (m - n)) v b' else bdrop (n - m) b'
  end.

(** Exactly [n] bytes: more are cut off, missing ones are 0. *)
Definition fit (n : Z) (b : bytes) : bytes := bapp (btake n b) (run (n - blen b) 0).

(** [n] bytes from the offset [off], or as many as there are. *)
Definition slice (off n : Z) (b : bytes) : bytes := btake n (bdrop off b).

(** [new] replaces what is at [off]; a gap before it is filled with 0. *)
Definition write_at (off : Z) (new b : bytes) : bytes :=
  match new with
  | [] => b
  | _ => bapp (fit off b) (bapp new (bdrop (off + blen new) b))
  end.

(** The number with these bytes, the first one the lowest. *)
Fixpoint bvalue (b : bytes) : Z :=
  match b with
  | [] => 0
  | (n, v) :: b => v * ((256 ^ n - 1) / 255) + 256 ^ n * bvalue b
  end.

(** The [n] lowest bytes of a number. *)
Fixpoint num_bytes (n : nat) (z : Z) : bytes :=
  match n with
  | O => []
  | S n => bcons 1 (z mod 256) (num_bytes n (z / 256))
  end.

(** The bytes of a string that is given as a number, without the 0 at its end. *)
Definition string_bytes (z : Z) : bytes := if z =? 0 then [] else num_bytes (Z.to_nat (Z.log2 z / 8 + 1)) z.

Definition known (b : bytes) : bool := forallb (λ r, negb (r.2 =? indeterminate)) b.

(** ** Well-formed runs *)

Definition wf (b : bytes) : Prop := Forall (λ r, 0 < r.1) b.

#[local] Hint Unfold wf : core.

Lemma wf_bcons n v b : wf b → wf (bcons n v b).
Proof.
  unfold bcons, wf. intros Hb. destruct (Z.leb_spec n 0); [done|].
  destruct b as [|[m w] b]; [by constructor|].
  destruct (v =? w); [|by constructor].
  inversion Hb; subst. constructor; simpl in *; [lia|done].
Qed.

Lemma wf_run n v : wf (run n v).
Proof. apply wf_bcons. constructor. Qed.

Lemma wf_bapp a b : wf b → wf (bapp a b).
Proof. intros Hb. induction a as [|r a IH]; simpl; auto using wf_bcons. Qed.

Lemma wf_btake n b : wf b → wf (btake n b).
Proof.
  revert n. induction b as [|[m v] b IH]; intros n Hb; [done|].
  inversion Hb; subst. simpl. destruct (n <=? m); [apply wf_run|]. constructor; [done|]. by apply IH.
Qed.

Lemma wf_bdrop n b : wf b → wf (bdrop n b).
Proof.
  revert n. induction b as [|[m v] b IH]; intros n Hb; [done|].
  inversion Hb; subst. simpl. destruct (n <? m); [by apply wf_bcons|by apply IH].
Qed.

#[export] Hint Resolve wf_bcons wf_run wf_bapp wf_btake wf_bdrop : bytes.

(** ** What the operations do *)

Lemma unrun_cons r b : unrun (r :: b) = replicate (Z.to_nat r.1) r.2 ++ unrun b.
Proof. done. Qed.

Lemma unrun_bcons n v b : wf b → unrun (bcons n v b) = replicate (Z.to_nat n) v ++ unrun b.
Proof.
  unfold bcons. intros Hb. destruct (Z.leb_spec n 0).
  { by rewrite (Z2Nat.nonpos n). }
  destruct b as [|[m w] b]; [done|]. inversion Hb; subst; simpl in *.
  destruct (Z.eqb_spec v w) as [->|]; [|done].
  rewrite !unrun_cons; simpl. by rewrite Z2Nat.inj_add, replicate_add, <-app_assoc by lia.
Qed.

Lemma unrun_run n v : unrun (run n v) = replicate (Z.to_nat n) v.
Proof. unfold run. rewrite unrun_bcons by constructor. apply app_nil_r. Qed.

Lemma unrun_bapp a b : wf b → unrun (bapp a b) = unrun a ++ unrun b.
Proof.
  intros Hb. induction a as [|[n v] a IH]; [done|].
  simpl. rewrite unrun_bcons, IH, unrun_cons by auto with bytes. simpl. by rewrite app_assoc.
Qed.

Lemma blen_unrun b : wf b → blen b = Z.of_nat (length (unrun b)).
Proof.
  induction 1 as [|[n v] b Hn Hb IH]; [done|].
  rewrite unrun_cons, length_app, length_replicate. simpl in *. lia.
Qed.

Lemma unrun_btake n b : wf b → unrun (btake n b) = take (Z.to_nat n) (unrun b).
Proof.
  intros Hb. revert n. induction Hb as [|[m v] b Hm Hb IH]; intros n; [by destruct (Z.to_nat n)|].
  simpl in *. rewrite unrun_cons; simpl. destruct (Z.leb_spec n m).
  - rewrite unrun_run, take_app_le, take_replicate by (rewrite ?length_replicate; lia). f_equal. lia.
  - rewrite unrun_cons, IH; simpl.
    rewrite take_app_ge; rewrite length_replicate; [|lia]. do 2 f_equal. lia.
Qed.

Lemma unrun_bdrop n b : wf b → unrun (bdrop n b) = drop (Z.to_nat n) (unrun b).
Proof.
  intros Hb. revert n. induction Hb as [|[m v] b Hm Hb IH]; intros n; [by destruct (Z.to_nat n)|].
  simpl in *. rewrite unrun_cons; simpl. destruct (Z.ltb_spec n m).
  - rewrite unrun_bcons, drop_app_le, drop_replicate by (rewrite ?length_replicate; auto; lia).
    do 2 f_equal. lia.
  - rewrite IH, drop_app_ge; rewrite length_replicate; [|lia]. f_equal. lia.
Qed.

#[export] Hint Rewrite unrun_bcons unrun_run unrun_bapp unrun_btake unrun_bdrop using (auto with bytes) : bytes.

(** The bytes that are read. *)
Lemma unrun_slice off n b :
  wf b → unrun (slice off n b) = take (Z.to_nat n) (drop (Z.to_nat off) (unrun b)).
Proof. intros Hb. unfold slice. by autorewrite with bytes. Qed.

Lemma unrun_fit n b :
  wf b → unrun (fit n b) = take (Z.to_nat n) (unrun b) ++ replicate (Z.to_nat n - length (unrun b)) 0.
Proof.
  intros Hb. unfold fit. autorewrite with bytes. do 2 f_equal. rewrite blen_unrun by done. lia.
Qed.

Lemma length_fit n b : wf b → length (unrun (fit n b)) = Z.to_nat n.
Proof. intros Hb. rewrite unrun_fit, length_app, length_take, length_replicate by done. lia. Qed.

Lemma wf_fit n b : wf b → wf (fit n b).
Proof. unfold fit. auto with bytes. Qed.
#[export] Hint Resolve wf_fit : bytes.

Lemma wf_write_at off new b : wf new → wf b → wf (write_at off new b).
Proof. intros Hn Hb. unfold write_at. destruct new; auto 10 with bytes. Qed.
#[export] Hint Resolve wf_write_at : bytes.

Lemma unrun_write_at off new b : wf new → wf b → new ≠ [] → 0 ≤ off →
  unrun (write_at off new b) =
    unrun (fit off b) ++ unrun new ++ drop (Z.to_nat off + length (unrun new)) (unrun b).
Proof.
  intros Hn Hb Hne Ho. unfold write_at. destruct new as [|r new]; [done|].
  autorewrite with bytes. do 3 f_equal. rewrite blen_unrun by done. lia.
Qed.

(** What was written is read back, at its place and nothing else. *)
Lemma slice_write_at off new b : wf new → wf b → 0 ≤ off →
  unrun (slice off (blen new) (write_at off new b)) = unrun new.
Proof.
  intros Hn Hb Ho. destruct (decide (new = [])) as [->|Hne].
  { rewrite unrun_slice by done. simpl. apply take_0. }
  rewrite unrun_slice, unrun_write_at, blen_unrun by auto with bytes.
  rewrite drop_app_length' by by rewrite length_fit. apply take_app_length'. lia.
Qed.

Lemma write_at_before off new b i : wf new → wf b → (i < Z.to_nat off)%nat → (i < length (unrun b))%nat →
  unrun (write_at off new b) !! i = unrun b !! i.
Proof.
  intros Hn Hb Hi Hl. destruct (decide (new = [])) as [->|Hne]; [done|].
  rewrite unrun_write_at, lookup_app_l, unrun_fit, lookup_app_l, lookup_take_lt
    by (rewrite ?length_fit, ?length_take by done; auto; lia). done.
Qed.

Lemma write_at_after off new b i : wf new → wf b → 0 ≤ off →
  (Z.to_nat off + length (unrun new) ≤ i)%nat →
  unrun (write_at off new b) !! i = unrun b !! i.
Proof.
  intros Hn Hb Ho Hi. destruct (decide (new = [])) as [->|Hne]; [done|].
  rewrite unrun_write_at, !lookup_app_r, length_fit, lookup_drop by (rewrite ?length_fit by done; auto; lia).
  f_equal. lia.
Qed.

Lemma wf_num_bytes n z : wf (num_bytes n z).
Proof. revert z. induction n; intros z; simpl; [by constructor|auto with bytes]. Qed.
