(* ===== verification/OsLang.v ===== *)
(** * Programs with processes

    The calls of the tests of processes, signals, clocks, timers, message queues and
    semaphores, for programs in the language of CLang. OsSem says what they do.

    A call has the values of its arguments, the variables that it fills, and the
    functions whose addresses it gets. A [struct timespec] is two values, seconds
    and nanoseconds; a signal set is the number with the bits of its signals, so that
    [sigaddset] and the like are assignments; an array of bytes is the number with
    these digits to the base 256, the first byte the lowest, unless it is memory with an
    address. A control block is the index of its
    fields in arrays (aio_fildes and so on). *)

From stdpp Require Import base tactics numbers list gmap strings pretty.
From S2P Require Import Prelude CLang.

Open Scope Z_scope.

(** In the comments: the arguments, and [->] what is filled. *)
Inductive sysop : Set :=
(* processes *)
| Getpid | Getppid | Getuid | Fork
| Wait                  (* -> status *)
| Waitpid               (* pid, options -> status *)
| Kill                  (* pid, signal *)
| Raise                 (* signal *)
| Killpg                (* group, signal *)
| Getpgrp | Setpgrp | Yield
| Sigqueue              (* pid, signal, value *)
(* signals *)
| Sigaction             (* signal, flags, mask; handler -> handler, flags, mask *)
| Sigaction_to          (* signal, handler, flags, mask -> handler, flags, mask *)
| Sigaction_get         (* signal -> handler, flags, mask *)
| Sigprocmask           (* how, set -> old set *)
| Sigmask_get           (* -> set *)
| Sigpending            (* -> set *)
| Sigsuspend            (* mask *)
| Sigpause              (* signal *)
| Pause
| Sigwait               (* set -> signal *)
| Sigwaitinfo           (* set -> signo, code, value *)
| Sigtimedwait          (* set, seconds, nanoseconds -> signo, code, value *)
(* clocks and timers *)
| Sleep                 (* seconds *)
| Nanosleep             (* seconds, nanoseconds -> remaining seconds, nanoseconds *)
| Clock_nanosleep       (* clock, flags, seconds, nanoseconds -> remaining *)
| Clock_gettime         (* clock -> seconds, nanoseconds *)
| Clock_settime         (* clock, seconds, nanoseconds *)
| Clock_getres          (* clock -> seconds, nanoseconds *)
| Gettimeofday          (* -> seconds, microseconds *)
| Time
| Alarm                 (* seconds *)
| Timer_create          (* clock, notify, signal, value -> timer *)
| Timer_delete          (* timer *)
| Timer_settime         (* timer, flags, interval (2), value (2) -> interval (2), value (2) *)
| Timer_gettime         (* timer -> interval (2), value (2) *)
| Timer_getoverrun      (* timer *)
(* message queues *)
| Mq_open               (* name, flags *)
| Mq_create             (* name, flags, maxmsg, msgsize *)
| Mq_close              (* queue *)
| Mq_unlink             (* name *)
| Mq_send               (* queue, bytes, length, priority *)
| Mq_timedsend          (* queue, bytes, length, priority, seconds, nanoseconds *)
| Mq_receive            (* queue, length of the buffer, the buffer -> the buffer, priority *)
| Mq_timedreceive       (* queue, length, the buffer, seconds, nanoseconds -> the buffer, priority *)
| Mq_getattr            (* queue -> flags, maxmsg, msgsize, curmsgs *)
| Mq_setattr            (* queue, flags -> flags, maxmsg, msgsize, curmsgs *)
| Mq_notify             (* queue, notify, signal, value *)
| Mq_unnotify           (* queue *)
(* semaphores *)
| Sem_init              (* value -> semaphore *)
| Sem_destroy           (* semaphore *)
| Sem_open              (* name, flags, value *)
| Sem_close             (* semaphore *)
| Sem_unlink            (* name *)
| Sem_wait | Sem_trywait | Sem_post   (* semaphore *)
| Sem_timedwait         (* semaphore, seconds, nanoseconds *)
| Sem_getvalue          (* semaphore -> value *)
(* files; those of shm_open have names of their own *)
| Open                  (* shared memory?, name, flags, mode *)
| Unlink                (* shared memory?, name *)
| Mkstemp               (* -> name *)
| Close                 (* descriptor *)
| Read | Write          (* descriptor, address, length *)
| Lseek                 (* descriptor, offset, whence *)
| Ftruncate             (* descriptor, length *)
| Fstat                 (* descriptor -> mode, owner, group, size, times of access, modification, change *)
| Stat                  (* name -> the same *)
| Fsync                 (* descriptor *)
| Getfd                 (* descriptor *)
| Umask                 (* mask *)
(* memory *)
| Malloc                (* length *)
| Free                  (* address *)
| Peek                  (* address, number of bytes *)
| Poke                  (* address, number of bytes, value *)
| Memset                (* address, byte, length *)
| Memcmp                (* address, address, length *)
| Strcpy                (* address, string *)
| Strcmp                (* address, string *)
| Mmap                  (* address, length, protection, flags, descriptor, offset *)
| Munmap                (* address, length *)
| Msync                 (* address, length, flags *)
| Mlock | Munlock       (* address, length *)
| Mlockall              (* flags *)
| Munlockall
(* asynchronous input and output *)
| Zero                  (* number -> so many fields of an object, set to 0 *)
| Aio_read | Aio_write  (* the control block: its address and fields *)
| Aio_fsync             (* operation, the control block *)
| Aio_error | Aio_return   (* control block *)
| Aio_cancel            (* descriptor, control block or 0 *)
| Aio_suspend           (* seconds or -1, nanoseconds, control blocks *)
| Lio_listio            (* mode, notify, signal, value, control blocks with their fields *)
(* scheduling *)
| Sched_get             (* pid -> priority *)
| Sched_policy          (* pid *)
| Sched_set             (* pid, policy or -1, priority *)
| Sched_max | Sched_min (* policy *)
| Sched_interval        (* pid -> seconds, nanoseconds *)
(* threads *)
| Create                (* argument; function -> thread *)
| Join                  (* thread -> value *)
| Self
| Pthread_kill          (* thread, signal *)
| Pthread_sigmask       (* how, set -> old set *)
(* a function of the program *)
| Call_fn
(* what has no defined behaviour *)
| Undefined.

(** A call with the function [f] has it as handler or first function of a thread. *)
Record syscall (N : Type) : Type := Sys {
  sys_op : sysop; sys_args : list (exp N); sys_outs : list (lval N); sys_fns : list N }.
Arguments Sys {N} sys_op sys_args sys_outs sys_fns.
Arguments sys_op {N} s.
Arguments sys_args {N} s.
Arguments sys_outs {N} s.
Arguments sys_fns {N} s.

Definition syscall_names (var fn : string → nat) (c : syscall string) : syscall nat :=
  Sys (sys_op c) (exp_names var <$> sys_args c) (lval_names var <$> sys_outs c) (fn <$> sys_fns c).

Definition syscall_vars (c : syscall string) : list string :=
  concat (exp_vars <$> sys_args c) ++ concat (lval_vars <$> sys_outs c).

Notation sstmt := (cstmt syscall).
Notation sinstr := (cinstr syscall).

(** ** Programs *)

(** The functions of a program, [main] first. A handler finds its arguments in the
    variables [signo], [si_code] and [si_value] of the thread; [errno] is a variable
    of the thread too. [result] is what the last function returned, [arg] the argument of
    the thread's first function. *)
Record sprog : Type := SProg { sfuns : list (string * list sstmt) }.

Definition first_names : list string := ["errno"; "signo"; "si_code"; "si_value"; "result"; "arg"].
Definition var_errno : nat := 0.
Definition var_result : nat := 4.
Definition var_arg : nat := 5.

Definition snames (p : sprog) : list string :=
  distinct (first_names ++ concat ((λ f, concat (stmt_vars syscall_vars <$> f.2)) <$> sfuns p)).

Definition scode : Type := list (list sinstr).
Definition compile_sprog (p : sprog) : scode :=
  let vars := snames p in
  let fns := fst <$> sfuns p in
  let var x := position x vars in
  (λ f, compile_fun var (syscall_names var (λ g, position g fns)) f.2) <$> sfuns p.

(** ** Calls *)

Definition errno_ : exp string := Loc "errno".

Definition getpid : syscall string := Sys Getpid [] [] [].
Definition getppid : syscall string := Sys Getppid [] [] [].
Definition getuid : syscall string := Sys Getuid [] [] [].
Definition sched_yield : syscall string := Sys Yield [] [] [].
Definition pause : syscall string := Sys Pause [] [] [].
Definition fork : syscall string := Sys Fork [] [] [].
Definition wait (x : list (lval string)) : syscall string := Sys Wait [] x [].
Definition waitpid (pid : exp string) (x : list (lval string)) (options : exp string) : syscall string :=
  Sys Waitpid [pid; options] x [].
Definition kill (pid sig : exp string) : syscall string := Sys Kill [pid; sig] [] [].
Definition raise (sig : exp string) : syscall string := Sys Raise [sig] [] [].
Definition killpg (g sig : exp string) : syscall string := Sys Killpg [g; sig] [] [].
Definition getpgrp : syscall string := Sys Getpgrp [] [] [].
Definition setpgrp : syscall string := Sys Setpgrp [] [] [].
Definition sigqueue (pid sig v : exp string) : syscall string := Sys Sigqueue [pid; sig; v] [] [].

(** [act.sa_handler = h; act.sa_flags = flags; act.sa_mask = mask;] and the call. *)
Definition sigaction (sig : exp string) (h : string) (flags mask : exp string) : syscall string :=
  Sys Sigaction [sig; flags; mask] [] [h].
(** SIG_DFL is 0, SIG_IGN 1. *)
Definition sigaction_to (sig h flags mask : exp string) : syscall string :=
  Sys Sigaction_to [sig; h; flags; mask] [] [].
Definition sigaction_get (sig : exp string) (h flags mask : lval string) : syscall string :=
  Sys Sigaction_get [sig] [h; flags; mask] [].
Definition sigprocmask (how set : exp string) (old : list (lval string)) : syscall string :=
  Sys Sigprocmask [how; set] old [].
Definition sigmask_get (old : lval string) : syscall string := Sys Sigmask_get [] [old] [].
Definition sigpending (x : lval string) : syscall string := Sys Sigpending [] [x] [].
Definition sigsuspend (mask : exp string) : syscall string := Sys Sigsuspend [mask] [] [].
Definition sigpause (sig : exp string) : syscall string := Sys Sigpause [sig] [] [].
Definition sigwait (set : exp string) (sig : lval string) : syscall string := Sys Sigwait [set] [sig] [].
Definition sigwaitinfo (set : exp string) (info : list (lval string)) : syscall string :=
  Sys Sigwaitinfo [set] info [].
Definition sigtimedwait (set : exp string) (info : list (lval string)) (s ns : exp string) : syscall string :=
  Sys Sigtimedwait [set; s; ns] info [].

Definition sleep (s : exp string) : syscall string := Sys Sleep [s] [] [].
Definition nanosleep (s ns : exp string) (rem : list (lval string)) : syscall string := Sys Nanosleep [s; ns] rem [].
Definition clock_nanosleep (c flags s ns : exp string) (rem : list (lval string)) : syscall string :=
  Sys Clock_nanosleep [c; flags; s; ns] rem [].
Definition clock_gettime (c : exp string) (ts : list (lval string)) : syscall string := Sys Clock_gettime [c] ts [].
Definition clock_settime (c s ns : exp string) : syscall string := Sys Clock_settime [c; s; ns] [] [].
Definition clock_getres (c : exp string) (ts : list (lval string)) : syscall string := Sys Clock_getres [c] ts [].
Definition gettimeofday (tv : list (lval string)) : syscall string := Sys Gettimeofday [] tv [].
Definition time : syscall string := Sys Time [] [] [].
Definition alarm (s : exp string) : syscall string := Sys Alarm [s] [] [].
Definition timer_create (c notify sig v : exp string) (t : lval string) : syscall string :=
  Sys Timer_create [c; notify; sig; v] [t] [].
Definition timer_delete (t : exp string) : syscall string := Sys Timer_delete [t] [] [].
Definition timer_settime (t flags : exp string) (its : list (exp string)) (old : list (lval string)) : syscall string :=
  Sys Timer_settime (t :: flags :: its) old [].
Definition timer_gettime (t : exp string) (its : list (lval string)) : syscall string := Sys Timer_gettime [t] its [].
Definition timer_getoverrun (t : exp string) : syscall string := Sys Timer_getoverrun [t] [] [].

Definition mq_open (name flags : exp string) : syscall string := Sys Mq_open [name; flags] [] [].
Definition mq_create (name flags maxmsg msgsize : exp string) : syscall string :=
  Sys Mq_create [name; flags; maxmsg; msgsize] [] [].
Definition mq_close (q : exp string) : syscall string := Sys Mq_close [q] [] [].
Definition mq_unlink (name : exp string) : syscall string := Sys Mq_unlink [name] [] [].
Definition mq_send (q msg len prio : exp string) : syscall string := Sys Mq_send [q; msg; len; prio] [] [].
Definition mq_timedsend (q msg len prio s ns : exp string) : syscall string :=
  Sys Mq_timedsend [q; msg; len; prio; s; ns] [] [].
Definition mq_receive (q : exp string) (buf : string) (len : exp string) (prio : list (lval string)) : syscall string :=
  Sys Mq_receive [q; len; Var buf] (LVar buf :: prio) [].
Definition mq_timedreceive (q : exp string) (buf : string) (len : exp string) (prio : list (lval string))
    (s ns : exp string) : syscall string :=
  Sys Mq_timedreceive [q; len; Var buf; s; ns] (LVar buf :: prio) [].
Definition mq_getattr (q : exp string) (a : list (lval string)) : syscall string := Sys Mq_getattr [q] a [].
Definition mq_setattr (q flags : exp string) (a : list (lval string)) : syscall string := Sys Mq_setattr [q; flags] a [].
Definition mq_notify (q notify sig v : exp string) : syscall string := Sys Mq_notify [q; notify; sig; v] [] [].
Definition mq_unnotify (q : exp string) : syscall string := Sys Mq_unnotify [q] [] [].

Definition sem_init (x : lval string) (v : exp string) : syscall string := Sys Sem_init [v] [x] [].
Definition sem_destroy (x : exp string) : syscall string := Sys Sem_destroy [x] [] [].
Definition sem_open (name flags v : exp string) : syscall string := Sys Sem_open [name; flags; v] [] [].
Definition SEM_FAILED : Z := -1.
Definition SEM_VALUE_MAX : Z := 2147483647.
Definition sem_close (x : exp string) : syscall string := Sys Sem_close [x] [] [].
Definition sem_unlink (name : exp string) : syscall string := Sys Sem_unlink [name] [] [].
Definition sem_wait (x : exp string) : syscall string := Sys Sem_wait [x] [] [].
Definition sem_trywait (x : exp string) : syscall string := Sys Sem_trywait [x] [] [].
Definition sem_timedwait (x s ns : exp string) : syscall string := Sys Sem_timedwait [x; s; ns] [] [].
Definition sem_post (x : exp string) : syscall string := Sys Sem_post [x] [] [].
Definition sem_getvalue (x : exp string) (v : lval string) : syscall string := Sys Sem_getvalue [x] [v] [].

Definition pthread_create (t : lval string) (f : string) (arg : list (exp string)) : syscall string :=
  Sys Create arg [t] [f].
Definition pthread_join (t : exp string) (v : list (lval string)) : syscall string := Sys Join [t] v [].
Definition pthread_self : syscall string := Sys Self [] [] [].
Definition pthread_kill (t sig : exp string) : syscall string := Sys Pthread_kill [t; sig] [] [].
Definition pthread_sigmask (how set : exp string) (old : list (lval string)) : syscall string :=
  Sys Pthread_sigmask [how; set] old [].

(** They change the mask as [sigprocmask] does. *)
Definition sighold (sig : exp string) : syscall string :=
  Sys Sigprocmask [num_ 0; Op (λ x _, Z.shiftl 1 x) sig (Num 0)] [] [].
Definition sigrelse (sig : exp string) : syscall string :=
  Sys Sigprocmask [num_ 1; Op (λ x _, Z.shiftl 1 x) sig (Num 0)] [] [].

Definition call_fn (f : string) : syscall string := Sys Call_fn [] [] [f].

(** Undefined behaviour. *)
Definition undefined : syscall string := Sys Undefined [] [] [].

(** Objects in shared memory are files whose names are apart. *)
Definition open (name flags mode : exp string) : syscall string := Sys Open [num_ 0; name; flags; mode] [] [].
Definition shm_open (name flags mode : exp string) : syscall string := Sys Open [num_ 1; name; flags; mode] [] [].
Definition unlink (name : exp string) : syscall string := Sys Unlink [num_ 0; name] [] [].
Definition shm_unlink (name : exp string) : syscall string := Sys Unlink [num_ 1; name] [] [].
Definition mkstemp (path : lval string) : syscall string := Sys Mkstemp [] [path] [].
Definition close (fd : exp string) : syscall string := Sys Close [fd] [] [].
Definition read (fd a n : exp string) : syscall string := Sys Read [fd; a; n] [] [].
Definition write (fd a n : exp string) : syscall string := Sys Write [fd; a; n] [] [].
Definition lseek (fd off whence : exp string) : syscall string := Sys Lseek [fd; off; whence] [] [].
Definition ftruncate (fd len : exp string) : syscall string := Sys Ftruncate [fd; len] [] [].
Definition fstat (fd : exp string) (x : list (lval string)) : syscall string := Sys Fstat [fd] x [].
Definition stat (name : exp string) (x : list (lval string)) : syscall string := Sys Stat [name] x [].
Definition fsync (fd : exp string) : syscall string := Sys Fsync [fd] [] [].
Definition fcntl_getfd (fd : exp string) : syscall string := Sys Getfd [fd] [] [].
Definition umask (m : exp string) : syscall string := Sys Umask [m] [] [].

(** A variable with an array of bytes holds its address; [array] makes the array. *)
Definition malloc (n : exp string) : syscall string := Sys Malloc [n] [] [].
Definition array (n : exp string) : syscall string := malloc n.
Definition free (a : exp string) : syscall string := Sys Free [a] [] [].
(** [*a] and [*a = v] for objects of [n] bytes. *)
Definition load (n : Z) (a : exp string) : syscall string := Sys Peek [a; num_ n] [] [].
Definition store (n : Z) (a v : exp string) : syscall string := Sys Poke [a; num_ n; v] [] [].
Definition memset (a v n : exp string) : syscall string := Sys Memset [a; v; n] [] [].
Definition memcmp (a b n : exp string) : syscall string := Sys Memcmp [a; b; n] [] [].
Definition strcpy (a str : exp string) : syscall string := Sys Strcpy [a; str] [] [].
Definition strcmp (a str : exp string) : syscall string := Sys Strcmp [a; str] [] [].
Definition mmap (a len prot flags fd off : exp string) : syscall string := Sys Mmap [a; len; prot; flags; fd; off] [] [].
Definition munmap (a len : exp string) : syscall string := Sys Munmap [a; len] [] [].
Definition msync (a len flags : exp string) : syscall string := Sys Msync [a; len; flags] [] [].
Definition mlock (a len : exp string) : syscall string := Sys Mlock [a; len] [] [].
Definition munlock (a len : exp string) : syscall string := Sys Munlock [a; len] [] [].
Definition mlockall (flags : exp string) : syscall string := Sys Mlockall [flags] [] [].
Definition munlockall : syscall string := Sys Munlockall [] [] [].

(** A [struct aiocb] is known by a number, its address; each field is an array with an
    element for each of these numbers. *)
Definition aiocb_fields : list string :=
  ["aio_fildes"; "aio_offset"; "aio_buf"; "aio_nbytes"; "aio_reqprio"; "aio_lio_opcode";
   "sigev_notify"; "sigev_signo"; "sigev_value"].
Definition aiocb (cb : exp string) : list (exp string) := cb :: ((λ f, Elem f cb) <$> aiocb_fields).
(** [memset(cb, 0, sizeof(struct aiocb))] *)
Definition clear_aiocb (cb : exp string) : syscall string :=
  Sys Zero [num_ (Z.of_nat (length aiocb_fields))] ((λ f, LElem f cb) <$> aiocb_fields) [].
Definition aio_read (cb : exp string) : syscall string := Sys Aio_read (aiocb cb) [] [].
Definition aio_write (cb : exp string) : syscall string := Sys Aio_write (aiocb cb) [] [].
Definition aio_fsync (op cb : exp string) : syscall string := Sys Aio_fsync (op :: aiocb cb) [] [].
Definition aio_error (cb : exp string) : syscall string := Sys Aio_error [cb] [] [].
Definition aio_return (cb : exp string) : syscall string := Sys Aio_return [cb] [] [].
Definition aio_cancel (fd cb : exp string) : syscall string := Sys Aio_cancel [fd; cb] [] [].
(** The control blocks are the first [n] elements of an array of pointers. *)
Definition pointers (l : string) (n : nat) : list (exp string) := (λ i, Elem l (Num (Z.of_nat i))) <$> seq 0 n.
Definition timeout (s ns : exp string) : list (exp string) := [s; ns].
Definition event (notify sig v : exp string) : list (exp string) := [notify; sig; v].
Definition aio_suspend (l : string) (n : nat) (timeout : list (exp string)) : syscall string :=
  Sys Aio_suspend (match timeout with [] => [num_ (-1); num_ 0] | _ => timeout end ++ pointers l n) [] [].
Definition lio_listio (mode : exp string) (l : string) (n : nat) (event : list (exp string)) : syscall string :=
  Sys Lio_listio (mode :: match event with [] => [num_ 1; num_ 0; num_ 0] | _ => event end ++
                  concat (aiocb <$> pointers l n)) [] [].

Definition sched_getparam (pid : exp string) (prio : list (lval string)) : syscall string := Sys Sched_get [pid] prio [].
Definition sched_getscheduler (pid : exp string) : syscall string := Sys Sched_policy [pid] [] [].
Definition sched_setscheduler (pid policy prio : exp string) : syscall string := Sys Sched_set [pid; policy; prio] [] [].
Definition sched_setparam (pid prio : exp string) : syscall string := Sys Sched_set [pid; num_ (-1); prio] [] [].
Definition sched_get_priority_max (policy : exp string) : syscall string := Sys Sched_max [policy] [] [].
Definition sched_get_priority_min (policy : exp string) : syscall string := Sys Sched_min [policy] [] [].
Definition sched_rr_get_interval (pid : exp string) (ts : list (lval string)) : syscall string := Sys Sched_interval [pid] ts [].

(** ** Constants *)

Definition SIGHUP : Z := 1.
Definition SIGINT : Z := 2.
Definition SIGQUIT : Z := 3.
Definition SIGILL : Z := 4.
Definition SIGTRAP : Z := 5.
Definition SIGABRT : Z := 6.
Definition SIGBUS : Z := 7.
Definition SIGFPE : Z := 8.
Definition SIGKILL : Z := 9.
Definition SIGUSR1 : Z := 10.
Definition SIGSEGV : Z := 11.
Definition SIGUSR2 : Z := 12.
Definition SIGPIPE : Z := 13.
Definition SIGALRM : Z := 14.
Definition SIGTERM : Z := 15.
Definition SIGCHLD : Z := 17.
Definition SIGCONT : Z := 18.
Definition SIGSTOP : Z := 19.
Definition SIGTSTP : Z := 20.
Definition SIGTTIN : Z := 21.
Definition SIGTTOU : Z := 22.
Definition SIGURG : Z := 23.
Definition SIGXCPU : Z := 24.
Definition SIGXFSZ : Z := 25.
Definition SIGVTALRM : Z := 26.
Definition SIGPROF : Z := 27.
Definition SIGPOLL : Z := 29.
Definition SIGSYS : Z := 31.
Definition SIGRTMIN : Z := 34.
Definition SIGRTMAX : Z := 64.

Definition SA_NOCLDSTOP : Z := 1.
Definition SA_NOCLDWAIT : Z := 2.
Definition SA_SIGINFO : Z := 4.
Definition SA_RESTART : Z := 268435456.
Definition SA_NODEFER : Z := 1073741824.
Definition SA_RESETHAND : Z := 2147483648.
Definition SIG_DFL : Z := 0.
Definition SIG_IGN : Z := 1.
Definition SIG_BLOCK : Z := 0.
Definition SIG_UNBLOCK : Z := 1.
Definition SIG_SETMASK : Z := 2.
Definition SI_USER : Z := 0.
Definition SI_QUEUE : Z := -1.
Definition SI_TIMER : Z := -2.
Definition SI_MESGQ : Z := -3.
Definition SI_ASYNCIO : Z := -4.

Definition WNOHANG : Z := 1.
Definition WUNTRACED : Z := 2.

Definition CLOCK_REALTIME : Z := 0.
Definition CLOCK_MONOTONIC : Z := 1.
Definition TIMER_ABSTIME : Z := 1.
Definition SIGEV_SIGNAL : Z := 0.
Definition SIGEV_NONE : Z := 1.

Definition O_RDONLY : Z := 0.
Definition O_WRONLY : Z := 1.
Definition O_RDWR : Z := 2.
Definition O_CREAT : Z := 64.
Definition O_EXCL : Z := 128.
Definition O_NONBLOCK : Z := 2048.

Definition O_TRUNC : Z := 512.
Definition O_APPEND : Z := 1024.
Definition O_DSYNC : Z := 4096.
Definition O_SYNC : Z := 1052672.
Definition SEEK_SET : Z := 0.
Definition SEEK_CUR : Z := 1.
Definition SEEK_END : Z := 2.
Definition FD_CLOEXEC : Z := 1.
Definition S_IRWXU : Z := 448.
Definition S_IRUSR : Z := 256.
Definition S_IWUSR : Z := 128.
Definition S_IXUSR : Z := 64.
Definition S_IRGRP : Z := 32.
Definition S_IWGRP : Z := 16.
Definition S_IROTH : Z := 4.
Definition S_IWOTH : Z := 2.

Definition page_size : Z := 4096.
Definition PROT_NONE : Z := 0.
Definition PROT_READ : Z := 1.
Definition PROT_WRITE : Z := 2.
Definition PROT_EXEC : Z := 4.
Definition MAP_SHARED : Z := 1.
Definition MAP_PRIVATE : Z := 2.
Definition MAP_FIXED : Z := 16.
Definition MAP_FAILED : Z := -1.
Definition MS_ASYNC : Z := 1.
Definition MS_INVALIDATE : Z := 2.
Definition MS_SYNC : Z := 4.
Definition MCL_CURRENT : Z := 1.
Definition MCL_FUTURE : Z := 2.

Definition LIO_READ : Z := 0.
Definition LIO_WRITE : Z := 1.
Definition LIO_NOP : Z := 2.
Definition LIO_WAIT : Z := 0.
Definition LIO_NOWAIT : Z := 1.
Definition AIO_CANCELED : Z := 0.
Definition AIO_NOTCANCELED : Z := 1.
Definition AIO_ALLDONE : Z := 2.

Definition SCHED_OTHER : Z := 0.
Definition SCHED_FIFO : Z := 1.
Definition SCHED_RR : Z := 2.

Definition MQ_PRIO_MAX : Z := 32768.
Definition INT32_MAX : Z := 2147483647.
Definition INT32_MIN : Z := -2147483648.

(** ** Expressions *)

Definition bit (sig : Z) : Z := Z.shiftl 1 sig.
Definition bits (sigs : list Z) : Z := foldr (λ s m, Z.lor (bit s) m) 0 sigs.
(** [sigaddset(&set, sig)], [sigdelset], [sigismember] *)
Definition add_sig (set sig : exp string) : exp string := Op (λ m s, Z.lor m (bit s)) set sig.
Definition del_sig (set sig : exp string) : exp string := Op (λ m s, Z.ldiff m (bit s)) set sig.
Definition is_member (set sig : exp string) : exp string := Op (λ m s, of_bool (Z.testbit m s)) set sig.
(** [sigfillset]: all signals that there are. *)
Definition full_set : Z := Eval vm_compute in bits (seqZ 1 31 ++ seqZ 34 31).

Definition eor (a b : exp string) : exp string := Op Z.lor a b.
Definition not_ (a : exp string) : exp string := Op (λ x _, Z.lnot x) a (Num 0).
Definition eand (a b : exp string) : exp string := Op Z.land a b.
(** An element of an array that is constant. *)
Definition at_ (l : list Z) (i : exp string) : exp string := Op (λ k _, nth (Z.to_nat k) l 0) i (Num 0).
Definition abs_ (e : exp string) : exp string := Op (λ x _, Z.abs x) e (Num 0).

(** The status that [wait] gives. *)
Definition WIFEXITED (e : exp string) : exp string := Op (λ x _, of_bool (Z.land x 127 =? 0)) e (Num 0).
Definition WEXITSTATUS (e : exp string) : exp string := Op (λ x _, Z.land (Z.shiftr x 8) 255) e (Num 0).
Definition WIFSIGNALED (e : exp string) : exp string :=
  Op (λ x _, of_bool (negb (Z.land x 127 =? 0) && negb (Z.land x 127 =? 127))) e (Num 0).
Definition WTERMSIG (e : exp string) : exp string := Op (λ x _, Z.land x 127) e (Num 0).
Definition WIFSTOPPED (e : exp string) : exp string := Op (λ x _, of_bool (Z.land x 255 =? 127)) e (Num 0).
Definition WSTOPSIG (e : exp string) : exp string := WEXITSTATUS e.

(** The bytes of a string, with or without the 0 at its end: the same number. *)
Fixpoint text (s : string) : Z :=
  match s with
  | EmptyString => 0
  | String c s => Z.of_N (Ascii.N_of_ascii c) + 256 * text s
  end.
(** With a newline at its end. *)
Definition line (s : string) : Z := text (s +:+ String (Ascii.ascii_of_nat 10) EmptyString).
Definition strlen (s : string) : Z := Z.of_nat (String.length s).

Definition head_bytes (n x : Z) : Z := x `mod` 2 ^ (8 * n).
(** The buffer [buf] after [n] bytes were written to it. *)
Definition overwrite (n x buf : Z) : Z := head_bytes n x + Z.shiftl (Z.shiftr buf (8 * n)) (8 * n).

(** The place of the first byte 0. *)
Fixpoint zero_byte (fuel : nat) (x : Z) : Z :=
  match fuel with
  | O => 0
  | S fuel => if x `mod` 256 =? 0 then 0 else 1 + zero_byte fuel (x / 256)
  end.
Definition strlen_ (e : exp string) : exp string := Op (λ x _, zero_byte 1000 x) e (Num 0).
(** [strncmp(a, b, n)], 0 or not. *)
Definition strncmp_ (a b n : exp string) : exp string :=
  Op (λ d n, of_bool (negb (head_bytes n d =? 0))) (Op Z.lxor a b) n.
(** [sprintf(buf, "prefix%d", e)] *)
Definition with_num (prefix : string) (e : exp string) : exp string :=
  Op (λ n _, text (prefix +:+ pretty n)) e (Num 0).

(** [char x[size]; sprintf(x, "prefix%d", getpid())]: undefined when the array is too small for
    the bytes and the final 0. *)
Definition sprintf_pid (x : string) (size : Z) (prefix : string) : list sstmt :=
  [Do getpid (Store (LLoc "rc")); x ::= with_num prefix (Loc "rc");
   If (Num size <= strlen_ x)%pt [Do undefined Ignore] []].

(** The fields of variables that are structs: [struct timespec], of the program or the
    thread, and [struct itimerspec]. *)
Definition ts (x : string) : list (lval string) := [LVar (x +:+ ".tv_sec"); LVar (x +:+ ".tv_nsec")].
Definition lts (x : string) : list (lval string) := [LLoc (x +:+ ".tv_sec"); LLoc (x +:+ ".tv_nsec")].
Definition its_fields (x : string) : list string :=
  [x +:+ ".it_interval.tv_sec"; x +:+ ".it_interval.tv_nsec"; x +:+ ".it_value.tv_sec"; x +:+ ".it_value.tv_nsec"].
Definition its (x : string) : list (exp string) := Var <$> its_fields x.
Definition oits (x : string) : list (lval string) := LVar <$> its_fields x.

(** Some idioms. *)
Definition negb_ (e : exp string) : exp string := Op (λ x y, of_bool (x =? y)) e (Num 0).
Definition Um (c : syscall string) : sstmt := reject c (-1) (Returns PTS_UNRESOLVED).
Definition Fm (c : syscall string) : sstmt := reject c (-1) (Returns PTS_FAIL).

(** The numbers of the errors. *)
Definition err_num (e : errno) : Z :=
  match e with
  | EPERM => 1 | ENOENT => 2 | ESRCH => 3 | EINTR => 4 | E2BIG => 7 | EBADF => 9 | ECHILD => 10
  | EAGAIN => 11 | ENOMEM => 12 | EACCES => 13 | EFAULT => 14 | EBUSY => 16 | EEXIST => 17
  | EINVAL => 22 | EFBIG => 27 | ENOSPC => 28 | ERANGE => 34 | EDEADLK => 35 | ENOMSG => 42
  | EMSGSIZE => 90 | ETIMEDOUT => 110 | EIO => 5 | ENXIO => 6 | ENODEV => 19 | ESPIPE => 29
  | ENAMETOOLONG => 36 | EOVERFLOW => 75 | ENOTSUP => 95 | EINPROGRESS => 115 | ECANCELED => 125
  end.
