(* ===== verification/OsState.v ===== *)
(** * States of a system with processes

    Processes with their memory, signals, timers and threads, the message queues and
    semaphores of the system, and its clock. Equality of states is decided by
    [eqb], which is derived from that of lists and numbers. *)

From stdpp Require Import base tactics numbers list gmap strings.
From S2P Require Import Prelude CLang OsLang OsBytes.

Open Scope Z_scope.

(** ** Decidable equality as a boolean *)

Class Eqb (A : Type) : Type := { eqb : A → A → bool; eqb_sound : ∀ x y, eqb x y = true → x = y }.

#[global] Instance Z_eqb : Eqb Z := {| eqb := Z.eqb; eqb_sound x y := proj1 (Z.eqb_eq x y) |}.
#[global] Instance nat_eqb : Eqb nat := {| eqb := Nat.eqb; eqb_sound x y := proj1 (Nat.eqb_eq x y) |}.
#[global] Instance bool_eqb : Eqb bool := {| eqb := Bool.eqb; eqb_sound := Bool.eqb_prop |}.

#[global] Instance prod_eqb {A B} `{Eqb A, Eqb B} : Eqb (A * B).
Proof.
  refine {| eqb x y := eqb x.1 y.1 && eqb x.2 y.2 |}.
  abstract (intros [] [] [H1%eqb_sound H2%eqb_sound]%andb_prop; simpl in *; by subst).
Defined.

#[global] Instance option_eqb_ {A} `{Eqb A} : Eqb (option A).
Proof.
  refine {| eqb x y := match x, y with Some a, Some b => eqb a b | None, None => true | _, _ => false end |}.
  abstract (intros [] [] Ha; try done; by apply eqb_sound in Ha; subst).
Defined.

Fixpoint list_beq {A} `{Eqb A} (l l' : list A) : bool :=
  match l, l' with
  | [], [] => true
  | a :: l, b :: l' => eqb a b && list_beq l l'
  | _, _ => false
  end.

#[global] Instance list_eqb_ {A} `{Eqb A} : Eqb (list A).
Proof.
  refine {| eqb := list_beq |}.
  abstract (intros l; induction l as [|a l IH]; intros [|b l'] Hl; simpl in Hl; try done;
    apply andb_prop in Hl as [Ha%eqb_sound Hl]; subst; by rewrite (IH _ Hl)).
Defined.

(** Equality of what an injection gives. *)
Definition eqb_by {A B} `{Eqb B} (f : A → B) (Hf : ∀ x y, f x = f y → x = y) : Eqb A :=
  {| eqb x y := eqb (f x) (f y); eqb_sound x y He := Hf x y (eqb_sound _ _ He) |}.

Ltac by_parts := abstract (intros [] []; simpl; intros; simplify_eq; done).

(** ** Processes and threads *)

(** A signal that has been generated, with the number of its timer or -1. *)
Record siginfo : Set := Siginfo { si_signo : Z; si_code : Z; si_value : Z; si_timer : Z }.
#[global] Instance siginfo_eqb : Eqb siginfo :=
  eqb_by (λ x, (si_signo x, si_code x, si_value x, si_timer x)) ltac:(by_parts).

(** What a process does with a signal; the function of a handler. *)
Inductive handler : Set := Dfl | Ign | Hnd (f : nat).
Definition handler_num (h : handler) : Z :=
  match h with Dfl => SIG_DFL | Ign => SIG_IGN | Hnd f => 2 + Z.of_nat f end.
Definition num_handler (z : Z) : handler :=
  if z =? SIG_DFL then Dfl else if z =? SIG_IGN then Ign else Hnd (Z.to_nat (z - 2)).

#[global] Instance handler_eqb : Eqb handler.
Proof. refine (eqb_by handler_num _). abstract (intros [| |f] [| |g] E; unfold handler_num, SIG_DFL, SIG_IGN in E; try lia; f_equal; lia). Defined.

Record action : Set := Action { a_handler : handler; a_flags : Z; a_mask : Z }.
#[global] Instance action_eqb : Eqb action :=
  eqb_by (λ x, (a_handler x, a_flags x, a_mask x)) ltac:(by_parts).

Definition default_action : action := Action Dfl 0 0.

(** A time for which a thread waits: of the real-time clock, which can be set, or of
    the monotonic one. *)
Record deadline : Set := Deadline { realtime : bool; at_time : Z }.
#[global] Instance deadline_eqb : Eqb deadline :=
  eqb_by (λ x, (realtime x, at_time x)) ltac:(by_parts).

(** [Blocked d]: in a call that waits; [Finish]: a call was interrupted and returns. *)
Inductive tstatus : Set :=
| Ready
| Blocked (d : option deadline)
| Finish (rc err : Z) (outs : list Z)
| Ended (v : Z)
| Joined.

Definition tstatus_code (x : tstatus) : Z * option deadline * list Z :=
  match x with
  | Ready => (0, None, [])
  | Blocked d => (1, d, [])
  | Finish rc err outs => (2, None, rc :: err :: outs)
  | Ended v => (3, None, [v])
  | Joined => (4, None, [])
  end.
#[global] Instance tstatus_eqb : Eqb tstatus := eqb_by tstatus_code ltac:(by_parts).

(** What a function returns to: the place and status; for a handler also the mask, and
    the arguments of an interrupted handler. *)
Record frame : Set := Frame { fr_fn : nat; fr_pc : nat; fr_st : tstatus; fr_mask : option Z; fr_args : list Z }.
#[global] Instance frame_eqb : Eqb frame :=
  eqb_by (λ x, (fr_fn x, fr_pc x, fr_st x, fr_mask x, fr_args x)) ltac:(by_parts).

(** A thread. [t_old] is the mask to which [sigsuspend] returns. *)
Record task : Set := Task {
  t_fn : nat; t_pc : nat; t_st : tstatus; t_frames : list frame;
  t_mask : Z; t_old : option Z; t_pend : list siginfo }.
#[global] Instance task_eqb : Eqb task :=
  eqb_by (λ x, (t_pc x, t_fn x, t_st x, t_frames x, t_mask x, t_old x, t_pend x)) ltac:(by_parts).

(** [tm_next] is the time of the next expiration, [tm_over] counts those since the
    signal was generated, [tm_last] is what [timer_getoverrun] reports. *)
Record timer : Set := Timer {
  tm_rt : bool; tm_sig : option Z; tm_value : Z; tm_next : option deadline; tm_interval : Z;
  tm_over : Z; tm_last : Z }.
#[global] Instance timer_eqb : Eqb timer :=
  eqb_by (λ x, (tm_rt x, tm_sig x, tm_value x, tm_next x, tm_interval x, tm_over x, tm_last x)) ltac:(by_parts).

Inductive pstatus : Set := Running | Stopped | Zombie (status : Z) | Gone.
Definition pstatus_code (x : pstatus) : option (option Z) * bool :=
  match x with
  | Running => (None, true) | Stopped => (None, false)
  | Zombie st => (Some (Some st), true) | Gone => (Some None, true)
  end.
#[global] Instance pstatus_eqb : Eqb pstatus := eqb_by pstatus_code ltac:(by_parts).

(** A part of the address space: where it starts, its length and protection. It shows a
    file from an offset on, or has its own bytes. *)
Record mapping : Set := Mapping {
  m_base : Z; m_len : Z; m_prot : Z; m_file : option (nat * Z); m_data : bytes }.
#[global] Instance mapping_eqb : Eqb mapping :=
  eqb_by (λ x, (m_base x, m_len x, m_prot x, m_file x, m_data x)) ltac:(by_parts).

(** A request for asynchronous input or output: its control block and operation
    (LIO_READ, LIO_WRITE, or LIO_NOP for synchronisation), the file, the place in it (or -1
    for its end), the memory, what is to be notified and the list it belongs to; when it
    is done, its error and result. *)
Record request : Set := Request {
  rq_cb : Z; rq_op : Z; rq_file : nat; rq_fd : Z; rq_off : Z; rq_addr : Z; rq_len : Z;
  rq_sig : option (Z * Z); rq_list : option nat; rq_done : option (Z * Z) }.
#[global] Instance request_eqb : Eqb request :=
  eqb_by (λ x, (rq_cb x, rq_op x, rq_file x, rq_fd x, rq_off x, rq_addr x, rq_len x, rq_sig x, rq_list x, rq_done x))
    ltac:(by_parts).

(** The memory of a process, where it can grow, its requests and their lists (with the signal
    for each), the mask for the modes of files, whether its pages are locked, its
    scheduling policy and priority. *)
Record resources : Set := Resources {
  r_maps : list mapping; r_free : Z; r_reqs : list request; r_lists : list (option (Z * Z));
  r_umask : Z; r_locked : bool; r_policy : Z; r_prio : Z }.
#[global] Instance resources_eqb : Eqb resources :=
  eqb_by (λ x, (r_maps x, r_free x, r_reqs x, r_lists x, r_umask x, r_locked x, r_policy x, r_prio x)) ltac:(by_parts).

(** [p_acts] are the actions by number, [p_pend] the signals of the process,
    [p_fds] the open descriptors from 3 on (a queue with flags, or an open file),
    [p_sems] the unnamed semaphores, [p_stop] a stop that was not yet reported to the
    parent. *)
Record proc : Set := Proc {
  p_st : pstatus; p_parent : Z; p_group : Z; p_mem : memory; p_acts : list action;
  p_pend : list siginfo; p_tasks : list task; p_timers : list (option timer); p_alarm : option Z;
  p_fds : list (option (bool * nat * Z)); p_sems : list (option Z); p_stop : option Z; p_res : resources }.
#[global] Instance proc_eqb : Eqb proc :=
  eqb_by (λ x, (p_st x, p_parent x, p_group x, p_tasks x, p_mem x, p_acts x, p_pend x, p_timers x, p_alarm x,
                p_fds x, p_sems x, p_stop x, p_res x)) ltac:(by_parts).

(** A message: its priority, length and bytes. The oldest is first. The process that
    is to be notified is given with the signal, if any, and the value. *)
Record mqueue : Set := Mqueue {
  q_name : option Z; q_maxmsg : Z; q_msgsize : Z; q_msgs : list (Z * Z * Z);
  q_notify : option (nat * Z * Z * Z) }.
#[global] Instance mqueue_eqb : Eqb mqueue :=
  eqb_by (λ x, (q_name x, q_maxmsg x, q_msgsize x, q_msgs x, q_notify x)) ltac:(by_parts).

(** A named semaphore. *)
Record nsem : Set := Nsem { s_name : option Z; s_value : Z }.
#[global] Instance nsem_eqb : Eqb nsem := eqb_by (λ x, (s_name x, s_value x)) ltac:(by_parts).

(** A file; one without a name lives on while it is open. [true] is for those of
    [shm_open]. *)
Record file : Set := File {
  f_name : option (bool * Z); f_data : bytes; f_mode : Z; f_atime : Z; f_mtime : Z; f_ctime : Z }.
#[global] Instance file_eqb : Eqb file :=
  eqb_by (λ x, (f_name x, f_data x, f_mode x, f_atime x, f_mtime x, f_ctime x)) ltac:(by_parts).

(** What [open] makes: the file, flags and place; processes can share it. *)
Record odesc : Set := Odesc { od_file : nat; od_flags : Z; od_off : Z }.
#[global] Instance odesc_eqb : Eqb odesc := eqb_by (λ x, (od_file x, od_flags x, od_off x)) ltac:(by_parts).

(** [now] is the monotonic clock in nanoseconds, [offset] what the real-time clock is
    ahead of it; [verdict] the exit code of the program, or [None] for undefined
    behaviour. *)
Record state : Set := State {
  now : Z; offset : Z; procs : list proc; queues : list mqueue; nsems : list nsem;
  files : list file; opens : list odesc; verdict : option (option Z) }.
#[global] Instance state_eqb : Eqb state :=
  eqb_by (λ x, (now x, offset x, procs x, queues x, nsems x, files x, opens x, verdict x)) ltac:(by_parts).

(** ** Updates *)

Definition with_now x s := State x (offset s) (procs s) (queues s) (nsems s) (files s) (opens s) (verdict s).
Definition with_offset x s := State (now s) x (procs s) (queues s) (nsems s) (files s) (opens s) (verdict s).
Definition with_procs x s := State (now s) (offset s) x (queues s) (nsems s) (files s) (opens s) (verdict s).
Definition with_queues x s := State (now s) (offset s) (procs s) x (nsems s) (files s) (opens s) (verdict s).
Definition with_nsems x s := State (now s) (offset s) (procs s) (queues s) x (files s) (opens s) (verdict s).
Definition with_files x s := State (now s) (offset s) (procs s) (queues s) (nsems s) x (opens s) (verdict s).
Definition with_opens x s := State (now s) (offset s) (procs s) (queues s) (nsems s) (files s) x (verdict s).
(** The program has ended: nothing else matters. *)
Definition ends (v : option Z) (s : state) : state := State 0 0 [] [] [] [] [] (Some v).

Definition on_proc (p : nat) (f : proc → proc) (s : state) : state := with_procs (alter f p (procs s)) s.

Definition with_st x p := Proc x (p_parent p) (p_group p) (p_mem p) (p_acts p) (p_pend p) (p_tasks p) (p_timers p) (p_alarm p) (p_fds p) (p_sems p) (p_stop p) (p_res p).
Definition with_parent x p := Proc (p_st p) x (p_group p) (p_mem p) (p_acts p) (p_pend p) (p_tasks p) (p_timers p) (p_alarm p) (p_fds p) (p_sems p) (p_stop p) (p_res p).
Definition with_group x p := Proc (p_st p) (p_parent p) x (p_mem p) (p_acts p) (p_pend p) (p_tasks p) (p_timers p) (p_alarm p) (p_fds p) (p_sems p) (p_stop p) (p_res p).
Definition with_mem x p := Proc (p_st p) (p_parent p) (p_group p) x (p_acts p) (p_pend p) (p_tasks p) (p_timers p) (p_alarm p) (p_fds p) (p_sems p) (p_stop p) (p_res p).
Definition with_acts x p := Proc (p_st p) (p_parent p) (p_group p) (p_mem p) x (p_pend p) (p_tasks p) (p_timers p) (p_alarm p) (p_fds p) (p_sems p) (p_stop p) (p_res p).
Definition with_pend x p := Proc (p_st p) (p_parent p) (p_group p) (p_mem p) (p_acts p) x (p_tasks p) (p_timers p) (p_alarm p) (p_fds p) (p_sems p) (p_stop p) (p_res p).
Definition with_tasks x p := Proc (p_st p) (p_parent p) (p_group p) (p_mem p) (p_acts p) (p_pend p) x (p_timers p) (p_alarm p) (p_fds p) (p_sems p) (p_stop p) (p_res p).
Definition with_timers x p := Proc (p_st p) (p_parent p) (p_group p) (p_mem p) (p_acts p) (p_pend p) (p_tasks p) x (p_alarm p) (p_fds p) (p_sems p) (p_stop p) (p_res p).
Definition with_alarm x p := Proc (p_st p) (p_parent p) (p_group p) (p_mem p) (p_acts p) (p_pend p) (p_tasks p) (p_timers p) x (p_fds p) (p_sems p) (p_stop p) (p_res p).
Definition with_fds x p := Proc (p_st p) (p_parent p) (p_group p) (p_mem p) (p_acts p) (p_pend p) (p_tasks p) (p_timers p) (p_alarm p) x (p_sems p) (p_stop p) (p_res p).
Definition with_sems x p := Proc (p_st p) (p_parent p) (p_group p) (p_mem p) (p_acts p) (p_pend p) (p_tasks p) (p_timers p) (p_alarm p) (p_fds p) x (p_stop p) (p_res p).
Definition with_stop x p := Proc (p_st p) (p_parent p) (p_group p) (p_mem p) (p_acts p) (p_pend p) (p_tasks p) (p_timers p) (p_alarm p) (p_fds p) (p_sems p) x (p_res p).
Definition with_res x p := Proc (p_st p) (p_parent p) (p_group p) (p_mem p) (p_acts p) (p_pend p) (p_tasks p) (p_timers p) (p_alarm p) (p_fds p) (p_sems p) (p_stop p) x.

Definition with_maps x r := Resources x (r_free r) (r_reqs r) (r_lists r) (r_umask r) (r_locked r) (r_policy r) (r_prio r).
Definition with_free x r := Resources (r_maps r) x (r_reqs r) (r_lists r) (r_umask r) (r_locked r) (r_policy r) (r_prio r).
Definition with_reqs x r := Resources (r_maps r) (r_free r) x (r_lists r) (r_umask r) (r_locked r) (r_policy r) (r_prio r).
Definition with_lists x r := Resources (r_maps r) (r_free r) (r_reqs r) x (r_umask r) (r_locked r) (r_policy r) (r_prio r).
Definition with_umask x r := Resources (r_maps r) (r_free r) (r_reqs r) (r_lists r) x (r_locked r) (r_policy r) (r_prio r).
Definition with_locked x r := Resources (r_maps r) (r_free r) (r_reqs r) (r_lists r) (r_umask r) x (r_policy r) (r_prio r).
Definition with_policy x r := Resources (r_maps r) (r_free r) (r_reqs r) (r_lists r) (r_umask r) (r_locked r) x (r_prio r).
Definition with_prio x r := Resources (r_maps r) (r_free r) (r_reqs r) (r_lists r) (r_umask r) (r_locked r) (r_policy r) x.
Definition on_res (f : resources → resources) (p : proc) : proc := with_res (f (p_res p)) p.

Definition on_task (p t : nat) (f : task → task) : state → state := on_proc p (λ pr, with_tasks (alter f t (p_tasks pr)) pr).

Definition goes (f pc : nat) (st : tstatus) (th : task) : task :=
  Task f pc st (t_frames th) (t_mask th) (t_old th) (t_pend th).
Definition with_status (st : tstatus) (th : task) : task := goes (t_fn th) (t_pc th) st th.
Definition with_frames l (th : task) : task := Task (t_fn th) (t_pc th) (t_st th) l (t_mask th) (t_old th) (t_pend th).
Definition with_mask m (th : task) : task := Task (t_fn th) (t_pc th) (t_st th) (t_frames th) m (t_old th) (t_pend th).
Definition with_old o (th : task) : task := Task (t_fn th) (t_pc th) (t_st th) (t_frames th) (t_mask th) o (t_pend th).
Definition with_tpend l (th : task) : task := Task (t_fn th) (t_pc th) (t_st th) (t_frames th) (t_mask th) (t_old th) l.

(** The start: the process of the program, with the number [pid]; later ones have the
    numbers that follow. It is in a group of its own, and its parent is 1. *)
Definition new_task (f : nat) (mask : Z) : task := Task f 0 Ready [] mask None [].
(** Memory is given out from 16 MiB on. *)
Definition first_res : resources := Resources [] 16777216 [] [] 18 false SCHED_OTHER 0.
Definition first_proc (pid : Z) : proc := Proc Running 1 pid [] [] [] [new_task 0 0] [] None [] [] None first_res.

(** The clocks of the start: the monotonic one is at 100.3 s, the real time is in the
    year 2023. *)
Definition first_now : Z := 100300000000.
Definition first_offset : Z := 1700000000000000000.

Definition first_state (pid : Z) : state := State first_now first_offset [first_proc pid] [] [] [] [] None.
