(* ===== verification/OsConf.v ===== *)
(** * Systems and their faults

    What a system with processes is, and what all its calls use. *)

From stdpp Require Import base tactics numbers list gmap strings.
From S2P Require Import Prelude CLang OsLang OsState.

Open Scope Z_scope.

(** ** Systems *)

(** A fault of the system. *)
Inductive ofault : Set :=
| Sound
| Sleep_short          (* sleeping ends at once *)
| Sleep_deaf           (* a handler does not end a call that sleeps *)
| Sleep_amnesia        (* the remaining time is 0 *)
| Nsec_unchecked       (* invalid nanoseconds are accepted *)
| Timer_never          (* timers do not expire *)
| Timer_once           (* the interval of a timer is ignored *)
| Timer_relative       (* TIMER_ABSTIME is ignored *)
| Kill_nothing         (* [kill], [raise] and the like have no effect *)
| Mask_ignored         (* blocked signals are delivered *)
| Suspend_keeps        (* [sigsuspend] does not restore the mask *)
| Queue_merges         (* realtime signals are not queued *)
| Queue_reverse        (* the highest realtime signal is delivered first *)
| Value_lost           (* the value of a signal is 0 *)
| Mq_fifo              (* the priority of messages is ignored *)
| Mq_unbounded         (* a queue is never full *)
| Mq_timeless          (* calls with a timeout wait for ever *)
| Mq_notify_twice      (* the registration for notification stays *)
| Sem_free             (* [sem_wait] never waits *)
| Sem_stuck            (* [sem_post] has no effect *)
| Wait_nothing         (* [wait] does not wait *)
| Clock_stuck          (* the clock cannot be set *)
| Excl_ignored         (* O_EXCL is ignored *)
| Trunc_ignored        (* O_TRUNC is ignored *)
| Umask_ignored        (* the mask for the modes of files is ignored *)
| Unlink_nothing       (* names of files stay *)
| Shared_private       (* MAP_SHARED makes a copy *)
| Private_shared       (* MAP_PRIVATE does not *)
| Prot_ignored         (* the protection of memory is ignored *)
| Munmap_nothing       (* [munmap] has no effect *)
| Aio_place            (* requests are done at the beginning of the file *)
| Aio_nothing          (* requests transfer nothing *)
| Aio_lenient          (* bad control blocks are accepted *)
| Lio_returns          (* LIO_WAIT does not wait *)
| Aio_stuck            (* [aio_suspend] waits until a timeout *)
| Cancel_all           (* [aio_cancel] says that it canceled, but does not *)
| Sched_nothing        (* the scheduling parameters cannot be changed *)
| Sched_lenient        (* any parameters are accepted *).

Definition ofault_num (f : ofault) : nat :=
  match f with
  | Sound => 0 | Sleep_short => 1 | Sleep_deaf => 2 | Sleep_amnesia => 3 | Nsec_unchecked => 4
  | Timer_never => 5 | Timer_once => 6 | Timer_relative => 7 | Kill_nothing => 8 | Mask_ignored => 9
  | Suspend_keeps => 10 | Queue_merges => 11 | Queue_reverse => 12 | Value_lost => 13 | Mq_fifo => 14
  | Mq_unbounded => 15 | Mq_timeless => 16 | Mq_notify_twice => 17 | Sem_free => 18 | Wait_nothing => 19
  | Clock_stuck => 20 | Sem_stuck => 21
  | Excl_ignored => 22 | Trunc_ignored => 23 | Umask_ignored => 24 | Unlink_nothing => 25
  | Shared_private => 26 | Private_shared => 27 | Prot_ignored => 28 | Munmap_nothing => 29
  | Aio_place => 30 | Aio_nothing => 31 | Aio_lenient => 32 | Lio_returns => 33 | Aio_stuck => 34
  | Cancel_all => 35 | Sched_nothing => 36 | Sched_lenient => 37
  end.

(** [oprompt]: time passes only when no process can run, and timers that have expired
    generate their signals before any process runs on. A process that waits for a time
    runs after it, not at it. [ofirst_pid] is the number of the first process. What the
    standard leaves open: [oxio], whether [mmap] refuses pages behind the end of the object
    with ENXIO; [otakes], whether a thread that waits for a signal with [sigwait] or the like takes
    it also when it has not blocked it, so that no handler runs. *)
Record oconf : Set := OConf { oprompt : bool; ofaulty : ofault; ofirst_pid : Z; oxio : bool; otakes : bool }.
Definition os_pid (pid : Z) : oconf := OConf true Sound pid false false.
Definition os_ideal : oconf := os_pid 100.
Definition os_slow : oconf := OConf false Sound 100 false false.
Definition os_fault (f : ofault) : oconf := OConf true f 100 false false.
Definition os_enxio : oconf := OConf true Sound 100 true false.
Definition os_takes : oconf := OConf true Sound 100 false true.

(** The result of a call: a value and what is filled, an error, waiting, undefined
    behaviour, a signal for an access to memory, or a state in which the call is over
    already. *)
Inductive result : Set :=
| Ret (rc : Z) (outs : list Z) (s : state)
| Err (e : errno) (s : state)
| Wait_for (d : option deadline) (s : state)
| Undef
| Traps (sig : Z)
| Gives (s : state).

Definition second : Z := 1000000000.
Definition pid_of (cf : oconf) (p : nat) : Z := ofirst_pid cf + Z.of_nat p.
Definition valid_nsec (ns : Z) : bool := (0 <=? ns) && (ns <? second).
Definition valid_signal (sig : Z) : bool := (0 <=? sig) && (sig <=? SIGRTMAX).

Definition real_now (s : state) : Z := now s + offset s.
Definition mono (s : state) (d : deadline) : Z := if realtime d then at_time d - offset s else at_time d.
(** Has the time passed? *)
Definition due (s : state) (d : deadline) : bool := mono s d <? now s.

(** The items with their numbers. *)
Definition numbered {A} (l : list A) : list (nat * A) := combine (seq 0 (length l)) l.

Definition has_fault (cf : oconf) (f : ofault) : bool := Nat.eqb (ofault_num (ofaulty cf)) (ofault_num f).

(** The process [p]. *)
Definition caller (p : nat) (s : state) : proc := nth p (procs s) (first_proc 0).
