(* ===== verification/OsIo.v ===== *)
(** * What calls do with files, memory and asynchronous requests

    Mappings, open files, requests of aio_* and the scheduling parameters. Pages
    have 4096 bytes; the process is privileged, so that modes of files are kept but
    do not matter. *)

From stdpp Require Import base tactics numbers list gmap strings.
From S2P Require Import Prelude CLang OsLang OsBytes OsState OsConf.

Open Scope Z_scope.

Definition no_file : file := File None [] 0 0 0 0.
Definition file_at (s : state) (i : nat) : file := nth i (files s) no_file.
Definition on_file (i : nat) (f : file → file) (s : state) : state := with_files (alter f i (files s)) s.

(** Times of files are in seconds. *)
Definition clock (s : state) : Z := real_now s / second.
Definition touch_read (s : state) (f : file) : file := File (f_name f) (f_data f) (f_mode f) (clock s) (f_mtime f) (f_ctime f).
Definition set_data (s : state) (b : bytes) (f : file) : file := File (f_name f) b (f_mode f) (f_atime f) (clock s) (clock s).
Definition rename (n : option (bool * Z)) (f : file) : file := File n (f_data f) (f_mode f) (f_atime f) (f_mtime f) (f_ctime f).

(** Rounded up to pages. *)
Definition up (n : Z) : Z := (n + page_size - 1) / page_size * page_size.
Definition aligned (a : Z) : bool := a mod page_size =? 0.

Definition writable (flags : Z) : bool := negb (Z.land flags 3 =? O_RDONLY).
Definition readable (flags : Z) : bool := negb (Z.land flags 3 =? O_WRONLY).

Section Io.
Context (cf : oconf).

(** ** Memory *)

(** The mapping of an address. *)
Definition find_map (a : Z) (l : list mapping) : option (nat * mapping) :=
  find (λ x, (m_base x.2 <=? a) && (a <? m_base x.2 + m_len x.2)) (numbered l).

(** The bytes of a mapping that can be accessed: up to the page with the end of the file. *)
Definition backed (s : state) (m : mapping) : Z :=
  match m_file m with
  | Some (f, off) => up (blen (f_data (file_at s f)) - off)
  | None => blen (m_data m)
  end.

(** The signal for an access to [n] bytes at [a]. *)
Definition traps (s : state) (l : list mapping) (a n : Z) (w : bool) : option Z :=
  if n <=? 0 then None else
  match find_map a l with
  | None => Some SIGSEGV
  | Some (_, m) =>
      let allowed := if w then has (m_prot m) PROT_WRITE else has (m_prot m) PROT_READ || has (m_prot m) PROT_WRITE in
      if negb (allowed || has_fault cf Prot_ignored) || (m_len m <? a - m_base m + n) then Some SIGSEGV
      else if backed s m <? a - m_base m + n then Some SIGBUS
      else None
  end.

(** The [n] bytes at [a]; those behind the end of a file are 0. *)
Definition mem_read (s : state) (l : list mapping) (a n : Z) : bytes :=
  match find_map a l with
  | Some (_, m) =>
      fit n (match m_file m with
             | Some (f, off) => slice (off + (a - m_base m)) n (f_data (file_at s f))
             | None => slice (a - m_base m) n (m_data m)
             end)
  | None => []
  end.

(** The process [p] writes to [a]; what is behind the end of a file is lost. *)
Definition mem_write (p : nat) (a : Z) (b : bytes) (s : state) : state :=
  match find_map a (r_maps (p_res (caller p s))) with
  | Some (i, m) =>
      match m_file m with
      | Some (f, off) =>
          let at_ := off + (a - m_base m) in
          let data := f_data (file_at s f) in
          on_file f (λ x, touch_read s (set_data s (write_at at_ (btake (blen data - at_) b) data) x)) s
      | None =>
          on_proc p (on_res (λ r, with_maps (<[i := Mapping (m_base m) (m_len m) (m_prot m) None
                                                    (write_at (a - m_base m) b (m_data m))]> (r_maps r)) r)) s
      end
  | None => s
  end.

(** An access through a shared mapping marks the time of the file. *)
Definition touched (l : list mapping) (a : Z) (s : state) : state :=
  match find_map a l with
  | Some (_, Mapping _ _ _ (Some (f, _)) _) => on_file f (touch_read s) s
  | _ => s
  end.

Section Call.
(** The process that calls. *)
Context (p : nat) (s : state).

#[local] Notation res := (p_res (caller p s)).
#[local] Notation maps := (r_maps res).
Definition on_self (f : resources → resources) : state := on_proc p (on_res f) s.

(** [k] on the bytes at [a]. *)
Definition with_bytes (a n : Z) (k : bytes → list result) : list result :=
  match traps s maps a n false with
  | Some sig => [Traps sig]
  | None => k (mem_read s maps a n)
  end.

Definition writes (a : Z) (b : bytes) (rc : Z) : list result :=
  match traps s maps a (blen b) true with
  | Some sig => [Traps sig]
  | None => [Ret rc [] (mem_write p a b s)]
  end.

Definition add_map (m : mapping) (r : resources) : resources := with_maps (r_maps r ++ [m]) r.

(** A gap of a page follows what [malloc] and [mmap] give. *)
Definition allocate (n : Z) : list result :=
  let a := r_free res in
  [Ret a [] (on_self (λ r, with_free (a + up n + page_size)
     (add_map (Mapping a n (Z.lor PROT_READ PROT_WRITE) None (OsBytes.run n indeterminate)) r)))].

(** What is left of a mapping outside of [a, b). *)
Definition cut (a b : Z) (m : mapping) : list mapping :=
  let e := m_base m + m_len m in
  if (e <=? a) || (b <=? m_base m) then [m] else
  let part x y :=
    if y <=? x then [] else
    let d := x - m_base m in
    [Mapping x (y - x) (m_prot m) (prod_map id (Z.add d) <$> m_file m) (slice d (y - x) (m_data m))] in
  part (m_base m) a ++ part b e.

Definition unmap (a b : Z) (l : list mapping) : list mapping := concat (cut a b <$> l).

(** Is [a, b) part of a mapping, with the rest of its last page? *)
Definition all_mapped (a b : Z) : bool :=
  match find_map a maps with
  | Some (_, m) => b <=? m_base m + up (m_len m)
  | None => false
  end.

(** ** Files *)

Definition open_file_at (d : Z) : option (nat * odesc * Z) :=
  if d <? 3 then None else
  match default None (p_fds (caller p s) !! Z.to_nat (d - 3)) with
  | Some (true, i, fl) => (λ o, (i, o, fl)) <$> opens s !! i
  | _ => None
  end.

Definition with_file (d : Z) (k : nat → odesc → list result) : list result :=
  match open_file_at d with Some (i, o, _) => k i o | None => [Err EBADF s] end.

(** The lowest descriptor that is free. *)
Definition add_desc (x : bool * nat * Z) (s : state) : result :=
  let fds := p_fds (caller p s) in
  let n := match find (λ x, match x.2 with None => true | _ => false end) (numbered fds) with
           | Some (i, _) => i
           | None => length fds
           end in
  Ret (3 + Z.of_nat n) [] (on_proc p (λ pr, with_fds (put None n (λ _, Some x) (p_fds pr)) pr) s).

Definition named_file (shm : bool) (name : Z) : option (nat * file) :=
  find (λ x, bool_decide (f_name x.2 = Some (shm, name))) (numbered (files s)).

(** The descriptors of [shm_open] are closed by exec. *)
Definition opens_file (shm : bool) (f : nat) (flags : Z) (s : state) : result :=
  add_desc (true, length (opens s), if shm then FD_CLOEXEC else 0)
    (with_opens (opens s ++ [Odesc f flags 0]) s).

Definition make_file (shm : bool) (name mode : Z) : state :=
  let mode := if has_fault cf Umask_ignored then mode else Z.ldiff mode (r_umask res) in
  with_files (files s ++ [File (Some (shm, name)) [] mode (clock s) (clock s) (clock s)]) s.

Definition open_path (shm : bool) (name flags mode : Z) : list result :=
  match named_file shm name with
  | Some (i, _) =>
      if has flags O_CREAT && has flags O_EXCL && negb (has_fault cf Excl_ignored) then [Err EEXIST s]
      else [opens_file shm i flags
              (if has flags O_TRUNC && writable flags && negb (has_fault cf Trunc_ignored)
               then on_file i (set_data s []) s else s)]
  | None =>
      if negb (has flags O_CREAT) then [Err ENOENT s]
      else [opens_file shm (length (files s)) flags (make_file shm name mode)]
  end.

Definition unlink_path (shm : bool) (name : Z) : list result :=
  match named_file shm name with
  | Some (i, _) => [Ret 0 [] (if has_fault cf Unlink_nothing then s else on_file i (rename None) s)]
  | None => [Err ENOENT s]
  end.

(** A file with a name that no other file has. *)
Definition make_temporary : list result :=
  let name := text "/tmp/posixtest" + Z.of_nat (length (files s)) * 256 ^ 14 in
  match opens_file false (length (files s)) O_RDWR (make_file false name 384) with
  | Ret fd _ s => [Ret fd [name] s]
  | r => [r]
  end.

Definition move_to (i : nat) (off : Z) (s : state) : state :=
  with_opens (alter (λ o, Odesc (od_file o) (od_flags o) off) i (opens s)) s.

Definition place (o : odesc) : Z :=
  if has (od_flags o) O_APPEND then blen (f_data (file_at s (od_file o))) else od_off o.

Definition write_file (d a n : Z) : list result :=
  with_file d (λ i o,
    if negb (writable (od_flags o)) then [Err EBADF s]
    else with_bytes a n (λ b,
      [Ret n [] (move_to i (place o + n) (on_file (od_file o) (λ f, set_data s (write_at (place o) b (f_data f)) f) s))])).

Definition read_file (d a n : Z) : list result :=
  with_file d (λ i o,
    if negb (readable (od_flags o)) then [Err EBADF s]
    else
      let b := slice (od_off o) n (f_data (file_at s (od_file o))) in
      match traps s maps a (blen b) true with
      | Some _ => [Err EFAULT s]
      | None => [Ret (blen b) [] (mem_write p a b (move_to i (od_off o + blen b) (on_file (od_file o) (touch_read s) s)))]
      end).

Definition seek (d off whence : Z) : list result :=
  with_file d (λ i o,
    let base := if whence =? SEEK_SET then Some 0
                else if whence =? SEEK_CUR then Some (od_off o)
                else if whence =? SEEK_END then Some (blen (f_data (file_at s (od_file o))))
                else None in
    match base with
    | Some b => if b + off <? 0 then [Err EINVAL s] else [Ret (b + off) [] (move_to i (b + off) s)]
    | None => [Err EINVAL s]
    end).

Definition truncate_file (d len : Z) : list result :=
  with_file d (λ _ o,
    if negb (writable (od_flags o)) || (len <? 0) then [Err EINVAL s]
    else [Ret 0 [] (on_file (od_file o) (λ f, set_data s (fit len (f_data f)) f) s)]).

Definition file_shows (f : file) : list Z :=
  [f_mode f; 0; 0; blen (f_data f); f_atime f; f_mtime f; f_ctime f].

(** ** Mappings *)

(** Addresses have 47 bits. *)
Definition address_end : Z := 2 ^ 47.

Definition map_file (a len prot flags d off : Z) : list result :=
  let shared := has flags MAP_SHARED in
  let fixed := has flags MAP_FIXED in
  if (len <=? 0) || Bool.eqb shared (has flags MAP_PRIVATE) || negb (aligned off) || fixed && negb (aligned a)
  then [Err EINVAL s]
  else match open_file_at d with
  | None => [Err EBADF s]
  | Some (_, o, _) =>
      if negb (readable (od_flags o)) || shared && has prot PROT_WRITE && negb (writable (od_flags o)) then [Err EACCES s]
      else if address_end <? off + up len then [Err (if 2 ^ 63 <=? off + up len then EOVERFLOW else ENOMEM) s]
      else
        let base := if fixed then a else up (r_free res) in
        let data := f_data (file_at s (od_file o)) in
        if oxio cf && (up (blen data) <? off + len) then [Err ENXIO s] else
        let shows := if has_fault cf Shared_private then false else shared || has_fault cf Private_shared in
        let m := if shows
                 then Mapping base (up len) prot (Some (od_file o, off)) []
                 else Mapping base (up len) prot None (fit (Z.min (up len) (up (blen data - off))) (slice off (up len) data)) in
        [Ret base [] (on_self (λ r,
           with_free (if fixed then r_free r else base + up len + page_size)
             (add_map m (with_maps (unmap base (base + up len) (r_maps r)) r))))]
  end.

Definition unmap_range (a len : Z) : list result :=
  if (len <=? 0) || negb (aligned a) then [Err EINVAL s]
  else [Ret 0 [] (if has_fault cf Munmap_nothing then s
                  else on_self (λ r, with_maps (unmap a (a + up len) (r_maps r)) r))].

Definition sync_range (a len flags : Z) : list result :=
  if negb (aligned a) || has flags MS_ASYNC && has flags MS_SYNC then [Err EINVAL s]
  else if negb (all_mapped a (a + len)) then [Err ENOMEM s]
  else if r_locked res && has flags MS_INVALIDATE then [Err EBUSY s]
  else [Ret 0 [] s].

Definition lock_range (a len : Z) : list result :=
  if all_mapped a (a + len) then [Ret 0 [] s] else [Err ENOMEM s].

(** ** Asynchronous requests *)

Definition waiting (r : request) : bool := match rq_done r with None => true | Some _ => false end.

Definition request_of (cb : Z) : option request := find (λ r, rq_cb r =? cb) (r_reqs res).

(** The fields of a control block, in the order of [aiocb_fields]. *)
Record control : Set := Control {
  c_cb : Z; c_fd : Z; c_off : Z; c_buf : Z; c_len : Z; c_prio : Z; c_op : Z; c_notify : Z; c_signo : Z; c_value : Z }.

Fixpoint controls (l : list Z) : list control :=
  match l with
  | cb :: fd :: off :: buf :: len :: prio :: op :: notify :: signo :: value :: l =>
      Control cb fd off buf len prio op notify signo value :: controls l
  | _ => []
  end.

Definition aio_prio_max : Z := 20.

(** What is wrong with a request. *)
Definition bad_control (op : Z) (c : control) : option errno :=
  if has_fault cf Aio_lenient then None else
  match open_file_at (c_fd c) with
  | None => Some EBADF
  | Some (_, o, _) =>
      if op =? LIO_NOP then if writable (od_flags o) then None else Some EBADF
      else if negb (if op =? LIO_READ then readable (od_flags o) else writable (od_flags o)) then Some EBADF
      else if (c_off c <? 0) || (c_prio c <? 0) || (aio_prio_max <? c_prio c) || (c_len c <? 0) then Some EINVAL
      else None
  end.

(** An operation 3 fails with EBADF when it is done. *)
Definition request_for (op : Z) (c : control) (g : option nat) : request :=
  let sig := if (c_notify c =? SIGEV_SIGNAL) && negb (c_signo c =? 0) then Some (c_signo c, c_value c) else None in
  match open_file_at (c_fd c) with
  | Some (_, o, _) =>
      Request (c_cb c) op (od_file o) (c_fd c)
        (if has (od_flags o) O_APPEND && (op =? LIO_WRITE) then -1 else if has_fault cf Aio_place then 0 else c_off c)
        (c_buf c) (c_len c) sig g None
  | None => Request (c_cb c) 3 0 (c_fd c) 0 0 0 sig g None
  end.

Definition enqueue (rs : list request) (s : state) : state :=
  on_proc p (on_res (λ r, with_reqs (List.filter (λ q, negb (existsb (λ q', rq_cb q' =? rq_cb q) rs)) (r_reqs r) ++ rs) r)) s.

Definition submit (op : Z) (l : list Z) : list result :=
  match controls l with
  | [c] => match bad_control op c with
           | Some e => [Err e s]
           | None => [Ret 0 [] (enqueue [request_for op c None] s)]
           end
  | _ => [Undef]
  end.

Definition set_done (x : Z * Z) (q : request) : request :=
  Request (rq_cb q) (rq_op q) (rq_file q) (rq_fd q) (rq_off q) (rq_addr q) (rq_len q) (rq_sig q) (rq_list q) (Some x).

Definition set_request (cb : Z) (x : Z * Z) (s : state) : state :=
  on_proc p (on_res (λ r, with_reqs ((λ q, if rq_cb q =? cb then set_done x q else q) <$> r_reqs r) r)) s.

(** A request is carried out: its error and result. *)
Definition transfer (q : request) : (Z * Z) * state :=
  let bad e := ((err_num e, -1), s) in
  let data := f_data (file_at s (rq_file q)) in
  if rq_op q =? 3 then bad EBADF
  else if rq_op q =? LIO_READ then
    let b := slice (rq_off q) (rq_len q) data in
    match traps s maps (rq_addr q) (blen b) true with
    | Some _ => bad EFAULT
    | None => ((0, blen b), if has_fault cf Aio_nothing then s else mem_write p (rq_addr q) b s)
    end
  else if rq_op q =? LIO_WRITE then
    match traps s maps (rq_addr q) (rq_len q) false with
    | Some _ => bad EFAULT
    | None =>
        let b := mem_read s maps (rq_addr q) (rq_len q) in
        let off := if rq_off q <? 0 then blen data else rq_off q in
        ((0, rq_len q), if has_fault cf Aio_nothing then s
                        else on_file (rq_file q) (λ f, set_data s (write_at off b (f_data f)) f) s)
    end
  else ((0, 0), s).

Definition error_of (cb : Z) : list result :=
  match request_of cb with
  | Some q => [Ret (match rq_done q with None => err_num EINPROGRESS | Some (e, _) => e end) [] s]
  | None => [Err EINVAL s]
  end.

(** The result can be had once. *)
Definition return_of (cb : Z) : list result :=
  match request_of cb with
  | Some q => match rq_done q with
              | Some (_, r) => [Ret r [] (on_self (λ r, with_reqs (List.filter (λ q, negb (rq_cb q =? cb)) (r_reqs r)) r))]
              | None => [Undef]
              end
  | None => [Err EINVAL s]
  end.

(** ** Scheduling *)

Definition prio_range (policy : Z) : option (Z * Z) :=
  if policy =? SCHED_OTHER then Some (0, 0)
  else if (policy =? SCHED_FIFO) || (policy =? SCHED_RR) then Some (1, 99)
  else None.

Definition set_sched (q : nat) (policy prio : Z) : list result :=
  match prio_range policy with
  | Some (lo, hi) =>
      if ((lo <=? prio) && (prio <=? hi)) || has_fault cf Sched_lenient
      then [Ret 0 [] (if has_fault cf Sched_nothing then s
                      else on_proc q (on_res (λ r, with_prio prio (with_policy policy r))) s)]
      else [Err EINVAL s]
  | None => if has_fault cf Sched_lenient then [Ret 0 [] s] else [Err EINVAL s]
  end.

End Call.
End Io.
