(* ===== verification/OsSem.v ===== *)
(** * The steps of a system with processes *)

From stdpp Require Import base tactics numbers list gmap strings.
From S2P Require Import Prelude CLang Runs OsLang OsBytes OsState OsConf OsIo.

Open Scope Z_scope.

Definition in_set (m sig : Z) : bool := Z.testbit m sig.
(** SIGKILL and SIGSTOP cannot be blocked. *)
Definition maskable (m : Z) : Z := Z.ldiff m (bits [SIGKILL; SIGSTOP]).

Definition ignored_default (sig : Z) : bool := existsb (Z.eqb sig) [SIGCHLD; SIGURG; SIGCONT; 28].
Definition stops_default (sig : Z) : bool := existsb (Z.eqb sig) [SIGSTOP; SIGTSTP; SIGTTIN; SIGTTOU].
Definition is_realtime (sig : Z) : bool := SIGRTMIN <=? sig.

Definition action_of (pr : proc) (sig : Z) : action := nth (Z.to_nat sig) (p_acts pr) default_action.
Definition set_action (sig : Z) (a : action) (pr : proc) : proc :=
  with_acts (put default_action (Z.to_nat sig) (λ _, a) (p_acts pr)) pr.

Definition alive (th : task) : bool := match t_st th with Ended _ | Joined => false | _ => true end.
Definition running (pr : proc) : bool := match p_st pr with Running => true | _ => false end.
Definition exists_ (pr : proc) : bool := match p_st pr with Running | Stopped => true | _ => false end.

Definition remove_sigs (f : Z → bool) (l : list siginfo) : list siginfo :=
  List.filter (λ si, negb (f (si_signo si))) l.

(** The first of a list with [f], and the others. *)
Fixpoint take_sig (f : siginfo → bool) (l : list siginfo) : option (siginfo * list siginfo) :=
  match l with
  | [] => None
  | si :: l => if f si then Some (si, l) else prod_map id (cons si) <$> take_sig f l
  end.

(** ** Signals *)

Definition update_timer (p : nat) (i : Z) (f : timer → timer) : state → state :=
  on_proc p (λ pr, with_timers (alter (fmap f) (Z.to_nat i) (p_timers pr)) pr).

(** A signal of a timer has been accepted: the overruns until now are its own. *)
Definition accepted (p : nat) (si : siginfo) (s : state) : state :=
  if si_timer si <? 0 then s
  else update_timer p (si_timer si)
    (λ tm, Timer (tm_rt tm) (tm_sig tm) (tm_value tm) (tm_next tm) (tm_interval tm) 0 (tm_over tm)) s.

Section System.
Context (cf : oconf) (code : scode).

Definition find_proc (pid : Z) (s : state) : option (nat * proc) :=
  let p := Z.to_nat (pid - ofirst_pid cf) in
  if pid <? ofirst_pid cf then None else (λ pr, (p, pr)) <$> procs s !! p.

(** Is the signal to be discarded: it is ignored, and no thread blocks it? *)
Definition discards (pr : proc) (sig : Z) : bool :=
  match a_handler (action_of pr sig) with
  | Ign => true
  | Dfl => ignored_default sig
  | Hnd _ => false
  end && negb (existsb (λ th, alive th && in_set (t_mask th) sig) (p_tasks pr)).

(** A signal joins the pending ones. *)
Definition join_pending (si : siginfo) (l : list siginfo) : list siginfo :=
  let si := if has_fault cf Value_lost then Siginfo (si_signo si) (si_code si) 0 (si_timer si) else si in
  if existsb (λ x, si_signo x =? si_signo si) l &&
     negb (is_realtime (si_signo si) && negb (has_fault cf Queue_merges)) then l else l ++ [si].

(** SIGCONT lets a stopped process go on; it and the stop signals remove each other. *)
Definition clears (sig : Z) (pr : proc) : proc :=
  let f x := if sig =? SIGCONT then stops_default x else stops_default sig && (x =? SIGCONT) in
  let pr := with_pend (remove_sigs f (p_pend pr))
              (with_tasks ((λ th, with_tpend (remove_sigs f (t_pend th)) th) <$> p_tasks pr) pr) in
  if sig =? SIGCONT then
    match p_st pr with Stopped => with_stop None (with_st Running pr) | _ => pr end
  else pr.

(** The signal [si] is generated for the process [p], or for its thread [t]. *)
Definition generate (p : nat) (t : option nat) (si : siginfo) : state → state :=
  on_proc p (λ pr,
    if negb (exists_ pr) then pr else
    let sig := si_signo si in
    let pr := clears sig pr in
    if discards pr sig then pr
    else match t with
         | None => with_pend (join_pending si (p_pend pr)) pr
         | Some t => with_tasks (alter (λ th, with_tpend (join_pending si (t_pend th)) th) t (p_tasks pr)) pr
         end).

(** The parent is told that its child [p] ended or stopped. *)
Definition tell_parent (p : nat) (stopped : bool) (s : state) : state :=
  match procs s !! p with
  | None => s
  | Some pr =>
      match find_proc (p_parent pr) s with
      | None => s
      | Some (q, par) =>
          let a := action_of par SIGCHLD in
          if stopped && has (a_flags a) SA_NOCLDSTOP then s
          else generate q None (Siginfo SIGCHLD 0 0 (-1)) s
      end
  end.

(** The parent does not want to wait for its children. *)
Definition leaves_no_zombie (p : nat) (s : state) : bool :=
  match procs s !! p with
  | None => true
  | Some pr =>
      match find_proc (p_parent pr) s with
      | None => true
      | Some (_, par) =>
          let a := action_of par SIGCHLD in
          negb (exists_ par) || has (a_flags a) SA_NOCLDWAIT ||
          match a_handler a with Ign => true | _ => false end
      end
  end.

(** The process [p] ends with [status]. *)
Definition terminate (p : nat) (status : Z) (s : state) : state :=
  if Nat.eqb p 0 then
    ends (Some (if Z.land status 127 =? 0 then Z.shiftr status 8 else 128 + Z.land status 127)) s
  else
    let orphan pr :=
      if p_parent pr =? pid_of cf p then
        with_parent 1 (match p_st pr with Zombie _ => with_st Gone pr | _ => pr end)
      else pr in
    let over st pr := Proc st (p_parent pr) (p_group pr) [] [] [] [] [] None [] [] None first_res in
    let unregister q := match q_notify q with
                        | Some (p', _, _, _) => if Nat.eqb p p' then Mqueue (q_name q) (q_maxmsg q) (q_msgsize q) (q_msgs q) None else q
                        | None => q
                        end in
    let st := if leaves_no_zombie p s then Gone else Zombie status in
    tell_parent p false
      (with_queues (unregister <$> queues s) (with_procs (alter (over st) p (orphan <$> procs s)) s)).

Definition stop (p : nat) (sig : Z) (s : state) : state :=
  tell_parent p true (on_proc p (λ pr, with_stop (Some sig) (with_st Stopped pr)) s).

(** A signal is sent: SIGKILL and SIGSTOP take effect at once. *)
Definition send (p : nat) (t : option nat) (si : siginfo) (s : state) : state :=
  let sig := si_signo si in
  if (sig =? 0) || has_fault cf Kill_nothing then s
  else match procs s !! p with
       | Some pr =>
           if negb (exists_ pr) then s
           else if sig =? SIGKILL then terminate p SIGKILL s
           else if sig =? SIGSTOP then
             match p_st pr with Running => stop p SIGSTOP (on_proc p (clears SIGSTOP) s) | _ => s end
           else generate p t si s
       | None => s
       end.

(** The request [q] is done: its signal is sent, and that of its list after the last one. *)
Definition notify (p : nat) (x : option (Z * Z)) (s : state) : state :=
  match x with
  | Some (sig, v) => send p None (Siginfo sig SI_ASYNCIO v (-1)) s
  | None => s
  end.

Definition in_list (g : nat) (q : request) : bool := match rq_list q with Some g' => Nat.eqb g g' | None => false end.

Definition finish_request (p : nat) (q : request) (x : Z * Z) (s : state) : state :=
  let s := notify p (rq_sig q) (set_request p (rq_cb q) x s) in
  match rq_list q with
  | Some g =>
      let r := p_res (caller p s) in
      if existsb (λ q, in_list g q && waiting q) (r_reqs r) then s else notify p (mjoin (r_lists r !! g)) s
  | None => s
  end.

(** The pending signals with [f] of which one can be taken next: of the realtime
    signals the first one with the lowest number. *)
Definition choices (f : Z → bool) (l : list siginfo) : list siginfo :=
  let l := List.filter (λ si, f (si_signo si)) l in
  let rts := List.filter (λ si, is_realtime (si_signo si)) l in
  let best := foldl (λ b si, match b with
                | None => Some si
                | Some x => if if has_fault cf Queue_reverse then si_signo x <? si_signo si else si_signo si <? si_signo x
                            then Some si else b
                end) None rts in
  List.filter (λ si, negb (is_realtime (si_signo si))) l ++ option_list best.

(** It is taken from the signals of the thread or the process. *)
Definition take_pending (p t : nat) (sig : Z) (s : state) : state :=
  let f si := si_signo si =? sig in
  match procs s !! p with
  | None => s
  | Some pr =>
      match take_sig f (default [] (t_pend <$> p_tasks pr !! t)) with
      | Some (si, l) => accepted p si (on_task p t (with_tpend l) s)
      | None =>
          match take_sig f (p_pend pr) with
          | Some (si, l) => accepted p si (on_proc p (with_pend l) s)
          | None => s
          end
      end
  end.

Definition pending (pr : proc) (th : task) : list siginfo := t_pend th ++ p_pend pr.

Definition fun_code (f : nat) : list sinstr := nth f code [].
Definition code_of (th : task) : option sinstr := fun_code (t_fn th) !! t_pc th.

Definition op_of (th : task) : option (sysop * list (exp nat)) :=
  match code_of th with Some (IDo c _) => Some (sys_op c, sys_args c) | _ => None end.

(** The thread waits for the signal with [sigwait] or the like and will take it. *)
Definition awaits (pr : proc) (t : nat) (th : task) (sig : Z) : bool :=
  match t_st th, op_of th with
  | Blocked _, Some ((Sigwait | Sigwaitinfo | Sigtimedwait), set :: _) => otakes cf && in_set (value (p_mem pr) t set) sig
  | _, _ => false
  end.

Definition deliverable (pr : proc) (t : nat) (th : task) : list siginfo :=
  choices (λ sig, (has_fault cf Mask_ignored || negb (in_set (t_mask th) sig)) && negb (awaits pr t th sig))
    (pending pr th).

(** Calls that go on after a handler, whatever its flags, and those that go on if it
    has SA_RESTART. *)
Definition goes_on (op : sysop) : bool := match op with Sigwait | Join => true | _ => false end.
Definition restarts (op : sysop) : bool :=
  match op with
  | Wait | Waitpid | Mq_send | Mq_receive | Mq_timedsend | Mq_timedreceive | Sem_wait | Sem_timedwait
  | Aio_suspend | Lio_listio => true
  | _ => false
  end.
Definition sleeps (op : sysop) : bool :=
  match op with Sleep | Nanosleep | Clock_nanosleep => true | _ => false end.

(** What a call returns that a handler has interrupted. *)
Definition interrupted (s : state) (m : memory) (t : nat) (op : sysop) (args : list (exp nat))
    (d : option deadline) : tstatus :=
  let left := if has_fault cf Sleep_amnesia then 0
              else match d with Some d => Z.max 0 (mono s d - now s) | None => 0 end in
  let rem := [left / second; left `mod` second] in
  match op with
  | Sleep => Finish ((left + second - 1) / second) 0 []
  | Nanosleep => Finish (-1) (err_num EINTR) rem
  | Clock_nanosleep =>
      let flags := match args with _ :: f :: _ => value m t f | _ => 0 end in
      Finish (err_num EINTR) 0 (if has flags TIMER_ABSTIME then [] else rem)
  | _ => Finish (-1) (err_num EINTR) []
  end.

(** The variables of a handler of the thread [t]. *)
Definition handler_args (m : memory) (t : nat) : list Z := (λ i, cell m i t) <$> [1; 2; 3]%nat.
Definition set_args (t : nat) (l : list Z) (m : memory) : memory :=
  foldl (λ m x, assign t (LLoc x.1) x.2 m) m (combine [1; 2; 3]%nat l).

(** The thread calls the handler [f]. *)
Definition call_handler (p t : nat) (f : nat) (a : action) (si : siginfo) (s : state) : state :=
  match procs s !! p with
  | None => s
  | Some pr =>
      match p_tasks pr !! t with
      | None => s
      | Some th =>
          let sig := si_signo si in
          let st :=
            match t_st th, op_of th with
            | Blocked d, Some (op, args) =>
                if goes_on op || has (a_flags a) SA_RESTART && restarts op ||
                   has_fault cf Sleep_deaf && sleeps op
                then Blocked d else interrupted s (p_mem pr) t op args d
            | st, _ => st
            end in
          let mask := if has_fault cf Suspend_keeps then t_mask th else default (t_mask th) (t_old th) in
          let fr := Frame (t_fn th) (t_pc th) st (Some mask) (handler_args (p_mem pr) t) in
          let m := Z.lor (Z.lor (t_mask th) (maskable (a_mask a)))
                     (if has (a_flags a) SA_NODEFER then 0 else bit sig) in
          let th := with_old None (with_mask m (goes f 0 Ready (with_frames (fr :: t_frames th) th))) in
          let pr := with_mem (set_args t [sig; si_code si; si_value si] (p_mem pr))
                      (with_tasks (<[t := th]> (p_tasks pr)) pr) in
          let pr := if has (a_flags a) SA_RESETHAND then set_action sig (Action Dfl (a_flags a) (a_mask a)) pr else pr in
          with_procs (<[p := pr]> (procs s)) s
      end
  end.

(** A pending signal is delivered. *)
Definition deliver (p t : nat) (pr : proc) (si : siginfo) (s : state) : state :=
  let sig := si_signo si in
  let s := take_pending p t sig s in
  let a := action_of pr sig in
  match a_handler a with
  | Ign => s
  | Dfl =>
      if ignored_default sig then s
      else if stops_default sig then stop p sig s
      else terminate p sig s
  | Hnd f => call_handler p t f a si s
  end.

(** ** Functions *)

Definition go_to (p t pc : nat) : state → state :=
  on_task p t (λ th, goes (t_fn th) (skip 9 (fun_code (t_fn th)) pc) Ready th).
Definition next (p t : nat) (s : state) : state :=
  on_task p t (λ th, goes (t_fn th) (skip 9 (fun_code (t_fn th)) (S (t_pc th))) Ready th) s.

Definition exits (p : nat) (c : Z) : state → state := terminate p (Z.shiftl (Z.land c 255) 8).

Definition thread_exit (p t : nat) (v : Z) (s : state) : state :=
  let s := on_task p t (λ th, Task 0 0 (Ended v) [] 0 None []) s in
  match procs s !! p with
  | Some pr => if existsb alive (p_tasks pr) then s else exits p 0 s
  | None => s
  end.

Definition returns_to (p t : nat) (v : Z) (s : state) : state :=
  match procs s !! p with
  | None => s
  | Some pr =>
      match p_tasks pr !! t with
      | None => s
      | Some th =>
          match t_frames th with
          | fr :: l =>
              let th := goes (fr_fn fr) (fr_pc fr) (fr_st fr) (with_frames l th) in
              let th := match fr_mask fr with Some m => with_mask m th | None => th end in
              let m := match fr_mask fr with
                       | Some _ => set_args t (fr_args fr) (p_mem pr)
                       | None => assign t (LLoc var_result) v (p_mem pr)
                       end in
              with_procs (<[p := with_mem m (with_tasks (<[t := th]> (p_tasks pr)) pr)]> (procs s)) s
          | [] => if Nat.eqb t 0 then exits p v s else thread_exit p t v s
          end
      end
  end.

(** The thread calls the function [f] of the program. *)
Definition enter (p t f : nat) : state → state :=
  on_task p t (λ th,
    let pc := skip 9 (fun_code (t_fn th)) (S (t_pc th)) in
    goes f 0 Ready (with_frames (Frame (t_fn th) pc (t_st th) None [] :: t_frames th) th)).

(** A call is over: its results are stored and used. *)
Definition over (p t : nat) (outs : list (lval nat)) (u : use nat) (rc err : Z) (vals : list Z) (s : state) : state :=
  let s := on_proc p (λ pr, with_mem (
             (if err =? 0 then id else assign t (LLoc var_errno) err)
               (foldl (λ m x, assign t x.1 x.2 m) (p_mem pr) (combine outs vals))) pr) s in
  match u with
  | Ignore => next p t s
  | Store x => next p t (on_proc p (λ pr, with_mem (assign t x rc (p_mem pr)) pr) s)
  | Judge f => match f rc with
               | None => next p t s
               | Some (Exits c) => exits p c s
               | Some (Returns v) => returns_to p t v s
               end
  end.

(** ** The calls *)

Section Call.
(** The thread [t] of [p] calls; [w] is its deadline if it waits in the call already. *)
Context (p t : nat) (w : option (option deadline)) (s : state).

Definition me : proc := caller p s.
Definition self_ : task := nth t (p_tasks me) (new_task 0 0).

Definition change (f : proc → proc) : state := on_proc p f s.
Definition change_self (f : task → task) : state := on_task p t f s.

(** The call waits, until a time that is given at its begin. *)
Definition wait_until (d : option deadline) : list result :=
  [Wait_for (match w with Some d => d | None => d end) s].
Definition timed_out : bool := match w with Some (Some d) => due s d | _ => false end.

(** Waiting with a timeout: [bad] if the time is invalid. *)
Definition wait_timed (ns : Z) (d : deadline) (late : errno) : list result :=
  if timed_out then [Err late s]
  else match w with
       | Some _ => wait_until None
       | None => if negb (valid_nsec ns) && negb (has_fault cf Nsec_unchecked) then [Err EINVAL s]
                 else wait_until (if has_fault cf Mq_timeless then None else Some d)
       end.

Definition nanos (sec ns : Z) : Z := sec * second + ns.
Definition absolute (sec ns : Z) : deadline := Deadline true (nanos sec ns).
Definition relative (sec ns : Z) : deadline := Deadline false (now s + nanos sec ns).

(** *** Processes *)

Definition members (g : Z) : list nat :=
  omap (λ x, if exists_ x.2 && (p_group x.2 =? g) then Some x.1 else None) (numbered (procs s)).

Definition send_group (g : Z) (si : siginfo) : list result :=
  match members g with
  | [] => [Err ESRCH s]
  | l => [Ret 0 [] (foldl (λ s q, send q None si s) s l)]
  end.

(** [kill], and [sigqueue] with its [siginfo]. *)
Definition send_to (pid : Z) (si : siginfo) : list result :=
  if negb (valid_signal (si_signo si)) then [Err EINVAL s]
  else if 0 <? pid then
    match find_proc pid s with
    | Some (q, pr) => match p_st pr with Gone => [Err ESRCH s] | _ => [Ret 0 [] (send q None si s)] end
    | None => [Err ESRCH s]
    end
  else if pid =? 0 then send_group (p_group me) si
  else if pid =? -1 then [Undef]
  else send_group (- pid) si.

(** The children with the number [pid], in the sense of [waitpid]. *)
Definition children (pid : Z) : list (nat * proc) :=
  List.filter (λ x, (p_parent x.2 =? pid_of cf p) && (match p_st x.2 with Gone => false | _ => true end) &&
    (if 0 <? pid then pid_of cf x.1 =? pid
     else if pid =? -1 then true
     else p_group x.2 =? (if pid =? 0 then p_group me else - pid))) (numbered (procs s)).

(** The children that can be reported. *)
Definition reports (untraced : bool) (l : list (nat * proc)) : list result :=
  omap (λ x, match p_st x.2, p_stop x.2 with
             | Zombie st, _ => Some (Ret (pid_of cf x.1) [st] (on_proc x.1 (with_st Gone) s))
             | Stopped, Some sig =>
                 if untraced then Some (Ret (pid_of cf x.1) [Z.shiftl sig 8 + 127] (on_proc x.1 (with_stop None) s))
                 else None
             | _, _ => None
             end) l.

Definition wait_child (pid options : Z) : list result :=
  match children pid with
  | [] => [Err ECHILD s]
  | l => match reports (has options WUNTRACED) l with
         | [] => if has options WNOHANG || has_fault cf Wait_nothing then [Ret 0 [] s] else wait_until None
         | rs => rs
         end
  end.

(** *** Signals *)

Definition can_handle (sig : Z) : bool :=
  (0 <? sig) && (sig <=? SIGRTMAX) && negb (sig =? SIGKILL) && negb (sig =? SIGSTOP).

Definition show_action (a : action) : list Z := [handler_num (a_handler a); a_flags a; a_mask a].

Definition change_action (sig : Z) (a : action) : list result :=
  if negb (can_handle sig) then [Err EINVAL s]
  else
    let drop := match a_handler a with Ign => true | Dfl => ignored_default sig | Hnd _ => false end in
    let gone x := drop && (x =? sig) in
    [Ret 0 (show_action (action_of me sig))
       (change (λ pr, set_action sig a
          (with_pend (remove_sigs gone (p_pend pr))
             (with_tasks ((λ th, with_tpend (remove_sigs gone (t_pend th)) th) <$> p_tasks pr) pr))))].

(** The mask after [sigprocmask]. *)
Definition new_mask (how set : Z) : option Z :=
  if how =? SIG_BLOCK then Some (Z.lor (t_mask self_) (maskable set))
  else if how =? SIG_UNBLOCK then Some (Z.ldiff (t_mask self_) set)
  else if how =? SIG_SETMASK then Some (maskable set)
  else None.

Definition change_mask (how set : Z) (bad : result) : list result :=
  match new_mask how set with
  | Some m => [Ret 0 [t_mask self_] (change_self (with_mask m))]
  | None => [bad]
  end.

(** [sigsuspend] and [sigpause]. *)
Definition suspend (m : Z) : list result :=
  match w with
  | Some _ => wait_until None
  | None => [Wait_for None (change_self (λ th, with_old (Some (t_mask th)) (with_mask (maskable m) th)))]
  end.

(** One of the signals of [set] is taken. *)
Definition accept (set : Z) (r : siginfo → Z * list Z) (none : list result) : list result :=
  match choices (in_set set) (pending me self_) with
  | [] => none
  | l => (λ si, Ret (r si).1 (r si).2 (take_pending p t (si_signo si) s)) <$> l
  end.

Definition info (si : siginfo) : Z * list Z := (si_signo si, [si_signo si; si_code si; si_value si]).

(** *** Clocks and timers *)

Definition fault_sleep (d : deadline) : list result :=
  if timed_out || has_fault cf Sleep_short then [Ret 0 [] s] else wait_until (Some d).

Definition bad_time (sec ns : Z) : bool :=
  (negb (valid_nsec ns) || (sec <? 0)) && negb (has_fault cf Nsec_unchecked).

Definition is_new : bool := match w with None => true | Some _ => false end.

(** The time that is left until [d], in seconds and nanoseconds. *)
Definition left_until (d : option deadline) : list Z :=
  match d with
  | Some d => let l := Z.max 1 (mono s d - now s) in [l / second; l `mod` second]
  | None => [0; 0]
  end.

Definition known_clock (c : Z) : bool := (c =? CLOCK_REALTIME) || (c =? CLOCK_MONOTONIC).

Definition read_clock (c : Z) : list result :=
  if c =? CLOCK_REALTIME then [Ret 0 [real_now s / second; real_now s `mod` second] s]
  else if c =? CLOCK_MONOTONIC then [Ret 0 [now s / second; now s `mod` second] s]
  else [Err EINVAL s].

Definition timer_at (i : Z) : option timer :=
  if i <? 0 then None else default None (p_timers me !! Z.to_nat i).

Definition timer_shows (tm : timer) : list Z :=
  [tm_interval tm / second; tm_interval tm `mod` second] ++ left_until (tm_next tm).

Definition set_timer (i flags isec insec sec ns : Z) : list result :=
  match timer_at i with
  | None => [Err EINVAL s]
  | Some tm =>
      if bad_time isec insec || bad_time sec ns then [Err EINVAL s]
      else
        let abs := has flags TIMER_ABSTIME && negb (has_fault cf Timer_relative) in
        let next := if nanos sec ns =? 0 then None
                    else if abs then Some (Deadline (tm_rt tm) (nanos sec ns))
                    else Some (relative sec ns) in
        let iv := if has_fault cf Timer_once then 0 else nanos isec insec in
        [Ret 0 (timer_shows tm)
           (update_timer p i (λ _, Timer (tm_rt tm) (tm_sig tm) (tm_value tm) next iv 0 0) s)]
  end.

(** *** Message queues *)

(** The queue of a descriptor, and its flags. *)
Definition queue_of (pr : proc) (d : Z) : option (nat * Z) :=
  if d <? 3 then None else
  match default None (p_fds pr !! Z.to_nat (d - 3)) with Some (false, q, flags) => Some (q, flags) | _ => None end.
Definition fd_at (d : Z) : option (nat * Z) := queue_of me d.
Definition queue_at (q : nat) : mqueue := nth q (queues s) (Mqueue None 0 0 [] None).

Definition by_name (name : Z) : option nat :=
  fst <$> find (λ x, bool_decide (q_name x.2 = Some name)) (numbered (queues s)).

Definition open_queue (name flags maxmsg msgsize : Z) : list result :=
  match by_name name with
  | Some q => if has flags O_CREAT && has flags O_EXCL then [Err EEXIST s] else [add_desc p (false, q, flags) s]
  | None =>
      if negb (has flags O_CREAT) then [Err ENOENT s]
      else if (maxmsg <=? 0) || (msgsize <=? 0) then [Err EINVAL s]
      else [add_desc p (false, length (queues s), flags)
              (with_queues (queues s ++ [Mqueue (Some name) maxmsg msgsize [] None]) s)]
  end.

Definition with_msgs l q := Mqueue (q_name q) (q_maxmsg q) (q_msgsize q) l (q_notify q).
Definition with_notify x q := Mqueue (q_name q) (q_maxmsg q) (q_msgsize q) (q_msgs q) x.
Definition with_qname x q := Mqueue x (q_maxmsg q) (q_msgsize q) (q_msgs q) (q_notify q).
Definition on_queue (q : nat) (f : mqueue → mqueue) (s : state) : state := with_queues (alter f q (queues s)) s.

(** Does the thread [th] of [pr] wait for a message of [q]? *)
Definition receives (q : nat) (x : nat * proc) : bool :=
  existsb (λ th, match t_st th.2, op_of th.2 with
    | Blocked _, Some (Mq_receive, e :: _) | Blocked _, Some (Mq_timedreceive, e :: _) =>
        let d := value (p_mem x.2) th.1 e in
        match queue_of x.2 d with
        | Some (q', _) => Nat.eqb q q'
        | None => false
        end
    | _, _ => false
    end) (numbered (p_tasks x.2)).

Definition notifies (q : nat) (before : mqueue) (s' : state) : state :=
  match q_notify before, q_msgs before with
  | Some (q', sig, v, kind), [] =>
      if existsb (receives q) (numbered (procs s)) then s'
      else
        let s' := if has_fault cf Mq_notify_twice then s' else on_queue q (with_notify None) s' in
        if kind =? SIGEV_SIGNAL then send q' None (Siginfo sig SI_MESGQ v (-1)) s' else s'
  | _, _ => s'
  end.

Definition send_msg (d bytes len prio : Z) (full : list result) : list result :=
  match fd_at d with
  | None => [Err EBADF s]
  | Some (q, flags) =>
      let qu := queue_at q in
      if negb (writable flags) then [Err EBADF s]
      else if negb ((0 <=? prio) && (prio <? MQ_PRIO_MAX)) then [Err EINVAL s]
      else if q_msgsize qu <? len then [Err EMSGSIZE s]
      else if (Z.of_nat (length (q_msgs qu)) <? q_maxmsg qu) || has_fault cf Mq_unbounded then
        [Ret 0 [] (notifies q qu (on_queue q (with_msgs (q_msgs qu ++ [(prio, len, head_bytes len bytes)])) s))]
      else if has flags O_NONBLOCK then [Err EAGAIN s]
      else full
  end.

(** The oldest message of the highest priority, and the others. *)
Fixpoint best_msg (l : list (Z * Z * Z)) : option ((Z * Z * Z) * list (Z * Z * Z)) :=
  match l with
  | [] => None
  | m :: l =>
      match best_msg l with
      | Some (b, l') => if (m.1.1 <? b.1.1) && negb (has_fault cf Mq_fifo) then Some (b, m :: l') else Some (m, l)
      | None => Some (m, [])
      end
  end.

Definition receive_msg (d len buf : Z) (empty : list result) : list result :=
  match fd_at d with
  | None => [Err EBADF s]
  | Some (q, flags) =>
      let qu := queue_at q in
      if negb (readable flags) then [Err EBADF s]
      else if len <? q_msgsize qu then [Err EMSGSIZE s]
      else match best_msg (q_msgs qu) with
           | Some ((prio, n, bytes), l) => [Ret n [overwrite n bytes buf; prio] (on_queue q (with_msgs l) s)]
           | None => if has flags O_NONBLOCK then [Err EAGAIN s] else empty
           end
  end.

Definition queue_shows (q : nat) (flags : Z) : list Z :=
  let qu := queue_at q in
  [Z.land flags O_NONBLOCK; q_maxmsg qu; q_msgsize qu; Z.of_nat (length (q_msgs qu))].

(** The descriptor [d], with what [f] does with its queue and flags. *)
Definition with_fd (d : Z) (f : nat → Z → list result) : list result :=
  match fd_at d with Some (q, flags) => f q flags | None => [Err EBADF s] end.

Definition register (q : nat) (x : option (nat * Z * Z * Z)) : list result :=
  match q_notify (queue_at q), x with
  | Some _, Some _ => [Err EBUSY s]
  | Some (p', _, _, _), None => [Ret 0 [] (if Nat.eqb p p' then on_queue q (with_notify None) s else s)]
  | None, x => [Ret 0 [] (on_queue q (with_notify x) s)]
  end.

(** *** Semaphores *)

(** An unnamed semaphore is a number above 0, a named one is at least 1000. *)
Definition named (x : Z) : bool := 1000 <=? x.
Definition sem_value (x : Z) : option Z :=
  if named x then s_value <$> nsems s !! Z.to_nat (x - 1000)
  else if x <=? 0 then None else default None (p_sems me !! Z.to_nat (x - 1)).
Definition set_sem (x v : Z) : state :=
  if named x then with_nsems (alter (λ m, Nsem (s_name m) v) (Z.to_nat (x - 1000)) (nsems s)) s
  else change (λ pr, with_sems (<[Z.to_nat (x - 1) := Some v]> (p_sems pr)) pr).

(** [x] with its value; a semaphore that was never made is undefined behaviour. *)
Definition with_sem (x : Z) (f : Z → list result) : list result :=
  match sem_value x with Some v => f v | None => [Undef] end.

Definition lock_sem (x : Z) (empty : list result) : list result :=
  with_sem x (λ v, if 0 <? v then [Ret 0 [] (set_sem x (v - 1))]
                   else if has_fault cf Sem_free then [Ret 0 [] s] else empty).

Definition open_sem (name flags v : Z) : list result :=
  match find (λ x, bool_decide (s_name x.2 = Some name)) (numbered (nsems s)) with
  | Some (i, _) => if has flags O_CREAT && has flags O_EXCL then [Err EEXIST s] else [Ret (1000 + Z.of_nat i) [] s]
  | None => if negb (has flags O_CREAT) then [Err ENOENT s]
            else if (v <? 0) || (INT32_MAX <? v) then [Err EINVAL s]
            else [Ret (1000 + Z.of_nat (length (nsems s))) [] (with_nsems (nsems s ++ [Nsem (Some name) v]) s)]
  end.

(** *** Asynchronous requests *)

Definition my_requests : list request := r_reqs (p_res me).

(** One of the requests is done, or there is none like it. *)
Definition suspended (cbs : list Z) (wait : list result) : list result :=
  let done cb := negb (cb =? 0) &&
    match request_of p s cb with Some q => negb (waiting q) | None => true end in
  if existsb done cbs && negb (has_fault cf Aio_stuck) then [Ret 0 [] s] else wait.

(** The lists are numbered; a caller that waits does so for its last one. Requests with an
    operation that does not exist are not begun. *)
Definition list_io (mode notify_ sig v : Z) (l : list Z) : list result :=
  let r := p_res me in
  if negb ((mode =? LIO_WAIT) || (mode =? LIO_NOWAIT)) then [Err EINVAL s]
  else match w with
  | Some _ =>
      let mine := List.filter (in_list (length (r_lists r) - 1)) (r_reqs r) in
      if existsb waiting mine then wait_until None
      else if existsb (λ q, match rq_done q with Some (e, _) => negb (e =? 0) | None => false end) mine
      then [Err EIO s] else [Ret 0 [] s]
  | None =>
      let g := length (r_lists r) in
      let cs := List.filter (λ c, negb (c_cb c =? 0) && negb (c_op c =? LIO_NOP)) (controls l) in
      let valid c := (c_op c =? LIO_READ) || (c_op c =? LIO_WRITE) in
      let rq c := request_for cf p s (c_op c) c (Some g) in
      let rqs := rq <$> List.filter valid cs in
      let bad := List.filter (λ c, negb (valid c)) cs in
      let ev := if (mode =? LIO_NOWAIT) && (notify_ =? SIGEV_SIGNAL) && negb (sig =? 0) then Some (sig, v) else None in
      let s' := enqueue p (rqs ++ ((λ c, set_done (err_num EINVAL, -1) (rq c)) <$> bad)) (on_proc p (on_res (λ r, with_lists (r_lists r ++ [ev]) r)) s) in
      let s' := match rqs with [] => notify p ev s' | _ => s' end in
      if (mode =? LIO_WAIT) && negb (has_fault cf Lio_returns) then [Wait_for None s']
      else match bad with [] => [Ret 0 [] s'] | _ => [Err EIO s'] end
  end.

(** The first request of the process may have begun; the others can be cancelled. *)
Definition cancel (d cb : Z) : list result :=
  with_file p s d (λ _ _,
    let mine := List.filter (λ q, waiting q && (rq_fd q =? d) && ((cb =? 0) || (rq_cb q =? cb))) my_requests in
    let cancels l := foldl (λ s q, finish_request p q (err_num ECANCELED, -1) s) s l in
    match mine with
    | [] => [Ret AIO_ALLDONE [] s]
    | q :: l =>
        if has_fault cf Cancel_all then [Ret AIO_CANCELED [] s] else
        [Ret AIO_CANCELED [] (cancels mine)] ++
        (if bool_decide (rq_cb <$> find waiting my_requests = Some (rq_cb q)) then [Ret AIO_NOTCANCELED [] (cancels l)]
         else [])
    end).

(** *** Scheduling *)

(** A process that exists; 0 is the caller. *)
Definition with_pid (pid : Z) (k : nat → resources → list result) : list result :=
  if pid <? 0 then [Err EINVAL s]
  else if pid =? 0 then k p (p_res me)
  else match find_proc pid s with
       | Some (q, pr) => if exists_ pr then k q (p_res pr) else [Err ESRCH s]
       | None => [Err ESRCH s]
       end.

(** *** Threads *)

Definition task_at (i : Z) : option task := if i <? 0 then None else p_tasks me !! Z.to_nat i.

(** Calls of pthread_* return the number of an error. *)
Definition fails (e : errno) : list result := [Ret (err_num e) [] s].

(** *** All calls *)

(** [fns] are the functions that are given to the call. *)
Definition sys (op : sysop) (args : list Z) (fns : list nat) : list result :=
  let f := nth 0 fns 0%nat in
  match op, args with
  | Getpid, [] => [Ret (pid_of cf p) [] s]
  | Getppid, [] => [Ret (p_parent me) [] s]
  | Getuid, [] | Yield, [] => [Ret 0 [] s]
  | Wait, [] => wait_child (-1) 0
  | Waitpid, [pid; options] => wait_child pid options
  | Kill, [pid; sig] => send_to pid (Siginfo sig SI_USER 0 (-1))
  | Raise, [sig] =>
      if valid_signal sig then [Ret 0 [] (send p (Some t) (Siginfo sig SI_USER 0 (-1)) s)] else [Err EINVAL s]
  | Killpg, [g; sig] =>
      if negb (valid_signal sig) || (g <? 0) then [Err EINVAL s]
      else send_group (if g =? 0 then p_group me else g) (Siginfo sig SI_USER 0 (-1))
  | Getpgrp, [] => [Ret (p_group me) [] s]
  | Setpgrp, [] => [Ret 0 [] (change (with_group (pid_of cf p)))]
  | Sigqueue, [pid; sig; v] => send_to pid (Siginfo sig SI_QUEUE v (-1))
  | Sigaction, [sig; flags; m] => change_action sig (Action (Hnd f) flags m)
  | Sigaction_to, [sig; h; flags; m] => change_action sig (Action (num_handler h) flags m)
  | Sigaction_get, [sig] =>
      if (0 <? sig) && (sig <=? SIGRTMAX) then [Ret 0 (show_action (action_of me sig)) s] else [Err EINVAL s]
  | Sigprocmask, [how; set] => change_mask how set (Err EINVAL s)
  | Pthread_sigmask, [how; set] => change_mask how set (Ret (err_num EINVAL) [] s)
  | Sigmask_get, [] => [Ret 0 [t_mask self_] s]
  | Sigpending, [] => [Ret 0 [bits (si_signo <$> pending me self_)] s]
  | Sigsuspend, [m] => suspend m
  | Sigpause, [sig] =>
      if (0 <? sig) && (sig <=? SIGRTMAX) then suspend (Z.ldiff (t_mask self_) (bit sig)) else [Err EINVAL s]
  | Pause, [] => wait_until None
  | Sigwait, [set] => accept set (λ si, (0, [si_signo si])) (wait_until None)
  | Sigwaitinfo, [set] => accept set info (wait_until None)
  | Sigtimedwait, [set; sec; ns] => accept set info (wait_timed ns (relative sec ns) EAGAIN)
  | Sleep, [sec] => fault_sleep (relative sec 0)
  | Nanosleep, [sec; ns] =>
      if is_new && bad_time sec ns then [Err EINVAL s] else fault_sleep (relative sec ns)
  | Clock_nanosleep, [c; flags; sec; ns] =>
      if negb (known_clock c) || is_new && bad_time sec ns then fails EINVAL
      else fault_sleep (if has flags TIMER_ABSTIME then Deadline (c =? CLOCK_REALTIME) (nanos sec ns)
                        else relative sec ns)
  | Clock_gettime, [c] => read_clock c
  | Clock_settime, [c; sec; ns] =>
      if negb (c =? CLOCK_REALTIME) || bad_time sec ns then [Err EINVAL s]
      else [Ret 0 [] (if has_fault cf Clock_stuck then s else with_offset (nanos sec ns - now s) s)]
  | Clock_getres, [c] => if known_clock c then [Ret 0 [0; 1] s] else [Err EINVAL s]
  | Gettimeofday, [] => [Ret 0 [real_now s / second; real_now s `mod` second / 1000] s]
  | Time, [] => [Ret (real_now s / second) [] s]
  | Alarm, [sec] =>
      [Ret (match p_alarm me with Some d => Z.max 1 ((d - now s + second / 2) / second) | None => 0 end) []
         (change (with_alarm (if sec =? 0 then None else Some (now s + nanos sec 0))))]
  | Timer_create, [c; notify; sig; v] =>
      if negb (known_clock c) then [Err EINVAL s]
      else if negb (notify =? SIGEV_NONE) && negb ((0 <? sig) && (sig <=? SIGRTMAX)) then [Err EINVAL s]
      else [Ret 0 [Z.of_nat (length (p_timers me))]
              (change (λ pr, with_timers (p_timers pr ++
                 [Some (Timer (c =? CLOCK_REALTIME) (if notify =? SIGEV_NONE then None else Some sig) v None 0 0 0)]) pr))]
  | Timer_delete, [i] =>
      match timer_at i with
      | Some _ => [Ret 0 [] (change (λ pr, with_timers (<[Z.to_nat i := None]> (p_timers pr)) pr))]
      | None => [Err EINVAL s]
      end
  | Timer_settime, [i; flags; isec; insec; sec; ns] => set_timer i flags isec insec sec ns
  | Timer_gettime, [i] => match timer_at i with Some tm => [Ret 0 (timer_shows tm) s] | None => [Err EINVAL s] end
  | Timer_getoverrun, [i] => match timer_at i with Some tm => [Ret (tm_last tm) [] s] | None => [Err EINVAL s] end
  | Mq_open, [name; flags] => open_queue name flags 10 8192
  | Mq_create, [name; flags; maxmsg; msgsize] => open_queue name flags maxmsg msgsize
  | Mq_close, [d] =>
      with_fd d (λ q _,
        let mine := match q_notify (queue_at q) with Some (p', _, _, _) => Nat.eqb p p' | None => false end in
        [Ret 0 [] ((if mine then on_queue q (with_notify None) else id)
                     (change (λ pr, with_fds (<[Z.to_nat (d - 3) := None]> (p_fds pr)) pr)))])
  | Mq_unlink, [name] =>
      match by_name name with
      | Some q => [Ret 0 [] (on_queue q (with_qname None) s)]
      | None => [Err ENOENT s]
      end
  | Mq_send, [d; bytes; len; prio] => send_msg d bytes len prio (wait_until None)
  | Mq_timedsend, [d; bytes; len; prio; sec; ns] =>
      send_msg d bytes len prio (wait_timed ns (absolute sec ns) ETIMEDOUT)
  | Mq_receive, [d; len; buf] => receive_msg d len buf (wait_until None)
  | Mq_timedreceive, [d; len; buf; sec; ns] =>
      receive_msg d len buf (wait_timed ns (absolute sec ns) ETIMEDOUT)
  | Mq_getattr, [d] => with_fd d (λ q flags, [Ret 0 (queue_shows q flags) s])
  | Mq_setattr, [d; flags] =>
      with_fd d (λ q old,
        let new := Z.lor (Z.ldiff old O_NONBLOCK) (Z.land flags O_NONBLOCK) in
        [Ret 0 (queue_shows q old) (change (λ pr, with_fds (<[Z.to_nat (d - 3) := Some (false, q, new)]> (p_fds pr)) pr))])
  | Mq_notify, [d; notify; sig; v] => with_fd d (λ q _, register q (Some (p, sig, v, notify)))
  | Mq_unnotify, [d] => with_fd d (λ q _, register q None)
  | Sem_init, [v] =>
      if (v <? 0) || (INT32_MAX <? v) then [Err EINVAL s]
      else [Ret 0 [1 + Z.of_nat (length (p_sems me))] (change (λ pr, with_sems (p_sems pr ++ [Some v]) pr))]
  | Sem_destroy, [x] =>
      if named x then [Undef]
      else with_sem x (λ _, [Ret 0 [] (change (λ pr, with_sems (<[Z.to_nat (x - 1) := None]> (p_sems pr)) pr))])
  | Sem_open, [name; flags; v] => open_sem name flags v
  | Sem_close, [x] => with_sem x (λ _, [Ret 0 [] s])
  | Sem_unlink, [name] =>
      match find (λ x, bool_decide (s_name x.2 = Some name)) (numbered (nsems s)) with
      | Some (i, m) => [Ret 0 [] (with_nsems (<[i := Nsem None (s_value m)]> (nsems s)) s)]
      | None => [Err ENOENT s]
      end
  | Sem_wait, [x] => lock_sem x (wait_until None)
  | Sem_trywait, [x] => lock_sem x [Err EAGAIN s]
  | Sem_timedwait, [x; sec; ns] => lock_sem x (wait_timed ns (absolute sec ns) ETIMEDOUT)
  | Sem_post, [x] => with_sem x (λ v, [Ret 0 [] (set_sem x (if has_fault cf Sem_stuck then v else v + 1))])
  | Sem_getvalue, [x] => with_sem x (λ v, [Ret 0 [v] s])
  | Open, [shm; name; flags; mode] => open_path cf p s (negb (shm =? 0)) name flags mode
  | Unlink, [shm; name] => unlink_path cf s (negb (shm =? 0)) name
  | Mkstemp, [] => make_temporary cf p s
  | Close, [d] =>
      with_file p s d (λ _ _, [Ret 0 [] (change (λ pr, with_fds (<[Z.to_nat (d - 3) := None]> (p_fds pr)) pr))])
  | Read, [d; a; n] => read_file cf p s d a n
  | Write, [d; a; n] => write_file cf p s d a n
  | Lseek, [d; off; whence] => seek p s d off whence
  | Ftruncate, [d; len] => truncate_file p s d len
  | Fstat, [d] => with_file p s d (λ _ o, [Ret 0 (file_shows (file_at s (od_file o))) s])
  | Stat, [name] =>
      match named_file s false name with Some (_, f) => [Ret 0 (file_shows f) s] | None => [Err ENOENT s] end
  | Fsync, [d] => with_file p s d (λ _ _, [Ret 0 [] s])
  | Getfd, [d] => match open_file_at p s d with Some (_, _, fl) => [Ret fl [] s] | None => [Err EBADF s] end
  | Umask, [m] => [Ret (r_umask (p_res me)) [] (on_self p s (with_umask m))]
  | Malloc, [n] => allocate p s n
  | Free, [a] =>
      [Ret 0 [] (on_self p s (λ r, with_maps (List.filter (λ m, negb (m_base m =? a)) (r_maps r)) r))]
  | Peek, [a; n] =>
      with_bytes cf p s a n (λ b, if known b then [Ret (bvalue b) [] (touched (r_maps (p_res me)) a s)] else [Undef])
  | Poke, [a; n; v] => writes cf p s a (num_bytes (Z.to_nat n) v) 0
  | Memset, [a; v; n] => writes cf p s a (OsBytes.run n (v mod 256)) a
  | Memcmp, [a; b; n] =>
      with_bytes cf p s a n (λ x, with_bytes cf p s b n (λ y,
        if known x && known y then [Ret (of_bool (negb (eqb x y))) [] s] else [Undef]))
  | Strcpy, [a; str] => writes cf p s a (bapp (string_bytes str) (OsBytes.run 1 0)) a
  | Strcmp, [a; str] =>
      let x := bapp (string_bytes str) (OsBytes.run 1 0) in
      with_bytes cf p s a (blen x) (λ y, if known y then [Ret (of_bool (negb (eqb x y))) [] s] else [Undef])
  | Mmap, [a; len; prot; flags; d; off] => map_file cf p s a len prot flags d off
  | Munmap, [a; len] => unmap_range cf p s a len
  | Msync, [a; len; flags] => sync_range p s a len flags
  | Mlock, [a; len] | Munlock, [a; len] => lock_range p s a len
  | Mlockall, [flags] =>
      if (flags <=? 0) || (3 <? flags) then [Err EINVAL s]
      else [Ret 0 [] (on_self p s (with_locked (has flags MCL_CURRENT || r_locked (p_res me))))]
  | Munlockall, [] => [Ret 0 [] (on_self p s (with_locked false))]
  | Zero, [n] => [Ret 0 (replicate (Z.to_nat n) 0) s]
  | Aio_read, l => submit cf p s LIO_READ l
  | Aio_write, l => submit cf p s LIO_WRITE l
  | Aio_fsync, op :: l =>
      if (op =? O_SYNC) || (op =? O_DSYNC) || has_fault cf Aio_lenient then submit cf p s LIO_NOP l else [Err EINVAL s]
  | Aio_error, [cb] => error_of p s cb
  | Aio_return, [cb] => return_of p s cb
  | Aio_cancel, [d; cb] => cancel d cb
  | Aio_suspend, sec :: ns :: cbs =>
      suspended cbs (if sec =? -1 then wait_until None else wait_timed ns (relative sec ns) EAGAIN)
  | Lio_listio, mode :: notify_ :: sig :: v :: l => list_io mode notify_ sig v l
  | Sched_get, [pid] => with_pid pid (λ _ r, [Ret 0 [r_prio r] s])
  | Sched_policy, [pid] => with_pid pid (λ _ r, [Ret (r_policy r) [] s])
  | Sched_set, [pid; policy; prio] =>
      with_pid pid (λ q r, set_sched cf s q (if policy =? -1 then r_policy r else policy) prio)
  | Sched_max, [policy] => match prio_range policy with Some (_, hi) => [Ret hi [] s] | None => [Err EINVAL s] end
  | Sched_min, [policy] => match prio_range policy with Some (lo, _) => [Ret lo [] s] | None => [Err EINVAL s] end
  | Sched_interval, [pid] => with_pid pid (λ _ _, [Ret 0 [0; 100000000] s])
  | Create, l =>
      let t' := length (p_tasks me) in
      [Ret 0 [Z.of_nat t']
         (change (λ pr, with_mem (match l with a :: _ => assign t' (LLoc var_arg) a (p_mem pr) | [] => p_mem pr end)
            (with_tasks (p_tasks pr ++ [new_task f (t_mask self_)]) pr)))]
  | Join, [i] =>
      match task_at i with
      | None => fails ESRCH
      | Some th => match t_st th with
                   | Ended v => [Ret 0 [v] (on_task p (Z.to_nat i) (with_status Joined) s)]
                   | Joined => [Undef]
                   | _ => wait_until None
                   end
      end
  | Self, [] => [Ret (Z.of_nat t) [] s]
  | Pthread_kill, [i; sig] =>
      match task_at i with
      | None => fails ESRCH
      | Some th =>
          match t_st th with
          | Joined => [Undef]
          | Ended _ => fails ESRCH
          | _ => if valid_signal sig then [Ret 0 [] (send p (Some (Z.to_nat i)) (Siginfo sig SI_USER 0 (-1)) s)]
                 else fails EINVAL
          end
      end
  | Call_fn, [] => [Gives (enter p t f s)]
  | Undefined, [] => [Undef]
  | _, _ => [Undef]
  end.

End Call.

(** [fork]: the child is a copy of the process with the calling thread only, without
    pending signals, alarm and timers. *)
Definition forks (p t : nat) (u : use nat) (s : state) : list state :=
  match procs s !! p with
  | None => []
  | Some pr =>
      let alone := imap (λ i th, if Nat.eqb i t then with_tpend [] th else Task 0 0 Joined [] 0 None []) (p_tasks pr) in
      let child := Proc Running (pid_of cf p) (p_group pr) (p_mem pr) (p_acts pr) [] alone [] None (p_fds pr) (p_sems pr) None
                     (with_reqs [] (with_lists [] (with_locked false (p_res pr)))) in
      let c := length (procs s) in
      [over c t [] u 0 0 [] (over p t [] u (pid_of cf c) 0 [] (with_procs (procs s ++ [child]) s))]
  end.

(** ** Steps *)

(** Has the thread survived its call? *)
Definition lives (p t : nat) (s : state) : bool :=
  match procs s !! p with
  | Some pr => match p_tasks pr !! t with Some th => alive th | None => false end
  | None => false
  end.

(** A signal for what the thread does: if it is not handled, the process ends. *)
Definition trap (p t : nat) (sig : Z) (s : state) : state :=
  match a_handler (action_of (caller p s) sig) with
  | Hnd _ => if in_set (t_mask (self_ p t s)) sig then terminate p sig s
             else generate p (Some t) (Siginfo sig 0 0 (-1)) s
  | _ => terminate p sig s
  end.

(** The instruction [i] of the thread. *)
Definition instr_steps (p t : nat) (i : sinstr) (s : state) : list state :=
  let pr := me p s in
  let th := self_ p t s in
  let val := value (p_mem pr) t in
  match i with
  | IDo c u =>
      let finish rc err vals := over p t (sys_outs c) u rc err vals in
      (* signals that the call has made deliverable are delivered before it returns *)
      let done rc err vals s :=
        if negb (lives p t s) then s else
        match deliverable (me p s) t (self_ p t s) with
        | _ :: _ => on_task p t (with_status (Finish rc err vals)) s
        | [] => finish rc err vals s
        end in
      let w := match t_st th with Blocked d => Some d | _ => None end in
      match t_st th, sys_op c with
      | Finish rc err vals, _ => [finish rc err vals s]
      | _, Fork => forks p t u s
      | _, op =>
          concat ((λ r, match r with
            | Ret rc vals s => [done rc 0 vals s]
            | Err e s => [done (-1) (err_num e) [] s]
            | Wait_for d s => match w with Some _ => [] | None => [on_task p t (with_status (Blocked d)) s] end
            | Undef => [ends None s]
            | Traps sig => [trap p t sig s]
            | Gives s => [s]
            end) <$> sys p t w s op (val <$> sys_args c) (sys_fns c))
      end
  | IAssign x e => [next p t (on_proc p (with_mem (assign t x (val e) (p_mem pr))) s)]
  | IJz e pc => [if val e =? 0 then go_to p t pc s else next p t s]
  | IJmp pc => [go_to p t pc s]
  | IExit e => [exits p (val e) s]
  | IReturn e => [returns_to p t (val e) s]
  | IThread_exit e => [thread_exit p t (val e) s]
  end.

(** A thread takes a signal if there is one for it, or goes on. *)
Definition task_steps (p : nat) (s : state) (t : nat) : list state :=
  let pr := me p s in
  let th := self_ p t s in
  if negb (alive th) then [] else
  match deliverable pr t th with
  | [] => match code_of th with Some i => instr_steps p t i s | None => [] end
  | l => (λ si, deliver p t pr si s) <$> l
  end.

(** A timer expires: it generates its signal, or counts an overrun if that is pending. *)
Definition expires (p i : nat) (tm : timer) (s : state) : list state :=
  match tm_next tm with
  | Some d =>
      if negb (due s d) || has_fault cf Timer_never then [] else
      let next := if tm_interval tm =? 0 then None else Some (Deadline (realtime d) (at_time d + tm_interval tm)) in
      let has_sig := existsb (λ si, si_timer si =? Z.of_nat i) (p_pend (me p s)) in
      let over := if has_sig then tm_over tm + 1 else 0 in
      let s := update_timer p (Z.of_nat i) (λ _, Timer (tm_rt tm) (tm_sig tm) (tm_value tm) next (tm_interval tm) over (tm_last tm)) s in
      [match tm_sig tm with
       | Some sig => if has_sig then s else send p None (Siginfo sig SI_TIMER (tm_value tm) (Z.of_nat i)) s
       | None => s
       end]
  | None => []
  end.

Definition rings (p : nat) (s : state) : list state :=
  match p_alarm (me p s) with
  | Some d => if d <? now s then [send p None (Siginfo SIGALRM SI_USER 0 (-1)) (on_proc p (with_alarm None) s)] else []
  | None => []
  end.

(** The alarm and the timers of a process whose time has passed, and its threads. *)
Definition clock_steps (s : state) (p : nat) : list state :=
  let pr := me p s in
  if negb (exists_ pr) then [] else
  rings p s ++
  concat ((λ x, match x.2 with Some tm => expires p x.1 tm s | None => [] end) <$> numbered (p_timers pr)).

(** The first request of the process is carried out. *)
Definition aio_steps (p : nat) (s : state) : list state :=
  match find waiting (my_requests p s) with
  | Some q => let '(x, s') := transfer cf p s q in [finish_request p q x s']
  | None => []
  end.

Definition proc_steps (s : state) (p : nat) : list state :=
  let pr := me p s in
  if running pr then concat (task_steps p s <$> seq 0 (length (p_tasks pr))) ++ aio_steps p s else [].

(** The times for which a process waits. *)
Definition deadlines (s : state) (pr : proc) : list Z :=
  if negb (exists_ pr) then [] else
  omap (λ th, match t_st th with Blocked (Some d) => Some (mono s d) | _ => None end) (p_tasks pr) ++
  option_list (p_alarm pr) ++
  (if has_fault cf Timer_never then []
   else omap (λ o, match o with Some tm => mono s <$> tm_next tm | None => None end) (p_timers pr)).

Definition time_steps (s : state) : list state :=
  match List.filter (λ d, now s <=? d) (concat (deadlines s <$> procs s)) with
  | [] => []
  | d :: ds => [with_now (1 + foldr Z.min d ds) s]
  end.

(** All that can happen next. *)
Definition steps (s : state) : list state :=
  match verdict s with
  | Some _ => []
  | None =>
      let all f := concat (f s <$> seq 0 (length (procs s))) in
      let signals := all clock_steps in
      match signals, oprompt cf with
      | _ :: _, true => signals
      | _, prompt =>
          let run := all proc_steps in
          signals ++ run ++ match run, prompt with
                            | _ :: _, true => []
                            | _, _ => time_steps s
                            end
      end
  end.

End System.

(** ** What a program can do *)

Definition mix (k h z : Z) : Z := Z.shiftl h k + z.
Definition mem_hash (h : Z) (m : memory) : Z := foldl (λ h l, mix 2 h (foldl Z.add 0 l)) h m.
Definition task_hash (h : Z) (th : task) : Z :=
  mix 3 (mix 4 (mix 8 h (Z.of_nat (t_pc th))) (Z.of_nat (t_fn th))) (tstatus_code (t_st th)).1.1.
Definition proc_hash (h : Z) (pr : proc) : Z :=
  foldl task_hash (mix 4 (mix 4 (mem_hash h (p_mem pr)) (Z.of_nat (length (p_pend pr))))
                     (Z.of_nat (length (List.filter waiting (r_reqs (p_res pr)))))) (p_tasks pr).
Definition state_hash (s : state) : positive :=
  Z.to_pos (1 + Z.abs (foldl proc_hash (foldl (λ h q, mix 3 h (Z.of_nat (length (q_msgs q)))) (now s) (queues s)) (procs s))).

#[global] Instance os_system : System oconf sprog state := {|
  start cf _ := first_state (ofirst_pid cf);
  succs cf p := steps cf (compile_sprog p);
  ended := verdict;
  same := eqb;
  same_sound := eqb_sound;
  hash := state_hash |}.
