(* ===== verification/OsTimeTests.v ===== *)
(** * The tests of clocks and timers

    conformance/interfaces/{nanosleep,clock_*,time,timer_*}. The option of the monotonic clock is supported. *)

From stdpp Require Import base tactics numbers list gmap strings.
From S2P Require Import Prelude CLang OsLang OsSem.

Open Scope Z_scope.

(** clock_settime/helpers.h: the results are never used. *)
Definition getBeforeTime (tpget : string) : syscall string := clock_gettime CLOCK_REALTIME (ts tpget).
Definition setBackTime (tpset : string) : syscall string :=
  clock_settime CLOCK_REALTIME (Var (tpset +:+ ".tv_sec")) (Var (tpset +:+ ".tv_nsec")).

(** ** nanosleep *)

Definition nanosleep_1_1 : sprog := SProg
  [("main",
    ["sleepnsec" ::= 3; "slepts" ::= 0; "sleptns" ::= 0; Um (clock_gettime CLOCK_REALTIME (ts "tsbefore"));
     "tssleepfor.tv_sec" ::= 0; "tssleepfor.tv_nsec" ::= "sleepnsec";
     U (nanosleep "tssleepfor.tv_sec" "tssleepfor.tv_nsec" (ts "tsstorage"));
     Um (clock_gettime CLOCK_REALTIME (ts "tsafter")); "slepts" ::= "tsafter.tv_sec" - "tsbefore.tv_sec";
     "sleptns" ::= "tsafter.tv_nsec" - "tsbefore.tv_nsec";
     If ("sleptns" < 0)%pt ["sleptns" ::= "sleptns" + 1000000000; "slepts" ::= "slepts" - 1] [];
     If ((0 < "slepts") || ("sleepnsec" < "sleptns"))%pt [Return PTS_PASS] [Return PTS_FAIL]])].

Definition nanosleep_1_2 : sprog := SProg
  [("main",
    ["sleepsec" ::= 30; Um (clock_gettime CLOCK_REALTIME (ts "tsbefore")); set_ "pid" fork;
     If ("pid" == 0)%pt
       ["tssleepfor.tv_sec" ::= "sleepsec"; "tssleepfor.tv_nsec" ::= 0;
        ignore (nanosleep "tssleepfor.tv_sec" "tssleepfor.tv_nsec" (ts "tsstorage"))]
       [ignore (sleep 1); U (kill "pid" SIGABRT); Um (wait [LVar "i"]);
        Um (clock_gettime CLOCK_REALTIME (ts "tsafter"));
        If ("tsafter.tv_sec" - "tsbefore.tv_sec" < "sleepsec")%pt [Return PTS_PASS] [Return PTS_FAIL]];
     Return PTS_UNRESOLVED])].

Definition nanosleep_1_3 : sprog := SProg
  [("main",
    ["sleepsec" ::= 30; Um (clock_gettime CLOCK_REALTIME (ts "tsbefore")); set_ "pid" fork;
     If ("pid" == 0)%pt
       [Um (sigaction SIGABRT "handler" 0 0); "tssleepfor.tv_sec" ::= "sleepsec"; "tssleepfor.tv_nsec" ::= 0;
        ignore (nanosleep "tssleepfor.tv_sec" "tssleepfor.tv_nsec" (ts "tsstorage"))]
       [ignore (sleep 1); U (kill "pid" SIGABRT); Um (wait [LVar "i"]);
        Um (clock_gettime CLOCK_REALTIME (ts "tsafter"));
        If ("tsafter.tv_sec" - "tsbefore.tv_sec" < "sleepsec")%pt [Return PTS_PASS] [Return PTS_FAIL]];
     Return PTS_UNRESOLVED]);
   ("handler", [])].

Definition nanosleep_2_1_sleepnsec : list Z :=
  [1; 2; 10; 100; 1000; 10000; 1000000; 10000000; 100000000; 200000000; 500000000; 750000000; 999999900].

Definition nanosleep_2_1 : sprog := SProg
  [("main",
    ["failure" ::= 0; Um (clock_gettime CLOCK_REALTIME (ts "tsbefore")); "tssleepfor.tv_sec" ::= 0; "i" ::= 0;
     While ("i" < 13)%pt
       ["tssleepfor.tv_nsec" ::= at_ nanosleep_2_1_sleepnsec "i";
        U (nanosleep "tssleepfor.tv_sec" "tssleepfor.tv_nsec" (ts "tsstorage"));
        Um (clock_gettime CLOCK_REALTIME (ts "tsafter")); "slepts" ::= "tsafter.tv_sec" - "tsbefore.tv_sec";
        "sleptns" ::= "tsafter.tv_nsec" - "tsbefore.tv_nsec";
        If ("sleptns" < 0)%pt ["sleptns" ::= "sleptns" + 1000000000; "slepts" ::= "slepts" - 1] [];
        If (negb_ ((1 <= "slepts") || (at_ nanosleep_2_1_sleepnsec "i" < "sleptns"))%pt) ["failure" ::= 1] [];
        "i" ::= "i" + 1];
     If "failure" [Return PTS_FAIL] [Return PTS_PASS]])].

Definition nanosleep_3_1 : sprog := SProg
  [("main",
    ["sleepsec" ::= 30; set_ "pid" fork;
     If ("pid" == 0)%pt
       [reject (sigaction SIGABRT "handler" 0 0) (-1) (Returns 0); "tssleepfor.tv_sec" ::= "sleepsec";
        "tssleepfor.tv_nsec" ::= 0;
        ignore (nanosleep "tssleepfor.tv_sec" "tssleepfor.tv_nsec" (ts "tsstorage")); Return 0]
       [ignore (sleep 1); U (kill "pid" SIGABRT); Um (wait [LVar "i"]);
        If (WIFEXITED "i" && WEXITSTATUS "i")%pt [Return PTS_PASS] [Return PTS_FAIL]]]);
   ("handler", [Exit 1])].

Definition nanosleep_3_2 : sprog := SProg
  [("main",
    [U (clock_gettime CLOCK_REALTIME (ts "tsbefore")); set_ "pid" fork;
     If ("pid" == 0)%pt
       ["tssleep.tv_sec" ::= 5; "tssleep.tv_nsec" ::= 0;
        reject (nanosleep "tssleep.tv_sec" "tssleep.tv_nsec" []) 0 (Returns 0); Return 1]
       [ignore (sleep 1); U (kill "pid" SIGSTOP); U (kill "pid" SIGCONT); Um (wait [LVar "i"]);
        ret_if (negb_ (WIFEXITED "i")) PTS_FAIL; Um (clock_gettime CLOCK_REALTIME (ts "tsafter"));
        "slepts" ::= "tsafter.tv_sec" - "tsbefore.tv_sec";
        If (5 <= "slepts")%pt [Return PTS_PASS] [Return PTS_FAIL]]])].

Definition nanosleep_5_1 : sprog := SProg
  [("main",
    ["sleepnsec" ::= -1; "tssleepfor.tv_sec" ::= 0; "tssleepfor.tv_nsec" ::= "sleepnsec";
     reject (nanosleep "tssleepfor.tv_sec" "tssleepfor.tv_nsec" (ts "tsstorage")) (-1) (Returns PTS_PASS);
     Return PTS_FAIL])].

Definition nanosleep_5_2 : sprog := SProg
  [("main",
    ["sleepsec" ::= 30; set_ "pid" fork;
     If ("pid" == 0)%pt
       [reject (sigaction SIGABRT "handler" 0 0) (-1) (Returns 0); "tssleepfor.tv_sec" ::= "sleepsec";
        "tssleepfor.tv_nsec" ::= 0;
        reject (nanosleep "tssleepfor.tv_sec" "tssleepfor.tv_nsec" (ts "tsstorage")) (-1) (Returns 1);
        Return 0]
       [ignore (sleep 1); U (kill "pid" SIGABRT); Um (wait [LVar "i"]);
        If (WIFEXITED "i" && WEXITSTATUS "i")%pt [Return PTS_PASS] [Return PTS_FAIL]]]);
   ("handler", [])].

Definition nanosleep_6_1_sleepnsec : list Z :=
  [-1; -5; -1000000000; 1000000000; 1000000001; 2000000000; 2000000000].

Definition nanosleep_6_1 : sprog := SProg
  [("main",
    ["failure" ::= 0; "tssleepfor.tv_sec" ::= 0; "i" ::= 0;
     While ("i" < 7)%pt
       ["tssleepfor.tv_nsec" ::= at_ nanosleep_6_1_sleepnsec "i";
        expect (nanosleep "tssleepfor.tv_sec" "tssleepfor.tv_nsec" (ts "tsstorage")) (-1) (Returns PTS_UNRESOLVED);
        If ((err_num EINVAL) != errno_)%pt ["failure" ::= 1] []; "i" ::= "i" + 1];
     If "failure" [Return PTS_FAIL] [Return PTS_PASS]])].

Definition nanosleep_7_1 : sprog := SProg
  [("main",
    ["sleepsec" ::= 30; set_ "pid" fork;
     If ("pid" == 0)%pt
       [reject (sigaction SIGABRT "handler" 0 0) (-1) (Returns 0); "tssleepfor.tv_sec" ::= "sleepsec";
        "tssleepfor.tv_nsec" ::= 0;
        expect (nanosleep "tssleepfor.tv_sec" "tssleepfor.tv_nsec" (ts "tsstorage")) (-1) (Returns 0);
        If ((err_num EINTR) == errno_)%pt [Return 1] [Return 0]]
       [ignore (sleep 1); U (kill "pid" SIGABRT); Um (wait [LVar "i"]);
        If (WIFEXITED "i" && WEXITSTATUS "i")%pt [Return PTS_PASS] [Return PTS_FAIL]]]);
   ("handler", [])].

Definition nanosleep_7_2 : sprog := SProg
  [("main",
    ["sleepsec" ::= 30; Um (clock_gettime CLOCK_REALTIME (ts "tsbefore")); set_ "pid" fork;
     If ("pid" == 0)%pt
       [reject (sigaction SIGABRT "handler" 0 0) (-1) (Returns 0); "tssleepfor.tv_sec" ::= "sleepsec";
        "tssleepfor.tv_nsec" ::= 0;
        expect (nanosleep "tssleepfor.tv_sec" "tssleepfor.tv_nsec" (ts "tsstorage")) (-1) (Returns 0);
        reject (clock_gettime CLOCK_REALTIME (ts "tsafter")) (-1) (Returns 0);
        "sleptplusremaining" ::= "tsafter.tv_sec" - "tsbefore.tv_sec" + "tsstorage.tv_sec";
        If (abs_ ("sleptplusremaining" - "sleepsec")%pt <= 1)%pt [Return 1] [Return 0]]
       [ignore (sleep 1); U (kill "pid" SIGABRT); Um (wait [LVar "i"]);
        If (WIFEXITED "i" && WEXITSTATUS "i")%pt [Return PTS_PASS] [Return PTS_FAIL]]]);
   ("handler", [])].

Definition nanosleep_10000_1_sleepvalid : list Z :=
  [0; 30000000; 1; 0; 1; 30000000; 2; 0; 10; 5000; 13; 5].

Definition nanosleep_10000_1_sleepinvalid : list Z :=
  [-1; -1; 0; -1; 1; 1000000000; 2; 1000000000; -2147483647; -2147483647; 1; 2147483647; -1073743192; 0; 0;
    1075002478].

Definition nanosleep_10000_1 : sprog := SProg
  [("main",
    ["failure" ::= 0; "slepts" ::= 0; "sleptns" ::= 0; "i" ::= 0;
     While ("i" < 6)%pt
       ["tssleepfor.tv_sec" ::= at_ nanosleep_10000_1_sleepvalid ("i" * 2)%pt;
        "tssleepfor.tv_nsec" ::= at_ nanosleep_10000_1_sleepvalid ("i" * 2 + 1)%pt;
        Um (clock_gettime CLOCK_REALTIME (ts "tsbefore"));
        set_ (LLoc "rc") (nanosleep "tssleepfor.tv_sec" "tssleepfor.tv_nsec" (ts "tsstorage"));
        If (Loc "rc" == 0)%pt
          [Um (clock_gettime CLOCK_REALTIME (ts "tsafter"));
           "slepts" ::= "tsafter.tv_sec" - "tsbefore.tv_sec";
           "sleptns" ::= "tsafter.tv_nsec" - "tsbefore.tv_nsec";
           If ("sleptns" < 0)%pt ["sleptns" ::= "sleptns" + 1000000000; "slepts" ::= "slepts" - 1] []]
          ["failure" ::= 1];
        "i" ::= "i" + 1];
     "i" ::= 0;
     While ("i" < 8)%pt
       ["tssleepfor.tv_sec" ::= at_ nanosleep_10000_1_sleepinvalid ("i" * 2)%pt;
        "tssleepfor.tv_nsec" ::= at_ nanosleep_10000_1_sleepinvalid ("i" * 2 + 1)%pt;
        set_ (LLoc "rc") (nanosleep "tssleepfor.tv_sec" "tssleepfor.tv_nsec" (ts "tsstorage"));
        If (Loc "rc" == -1)%pt [If ((err_num EINVAL) != errno_)%pt ["failure" ::= 1] []] ["failure" ::= 1];
        "i" ::= "i" + 1];
     If "failure" [Return PTS_FAIL] [Return PTS_PASS]])].

(** ** clock_nanosleep *)

Definition clock_nanosleep_1_1 : sprog := SProg
  [("main",
    ["slepts" ::= 0; "sleptns" ::= 0; U (clock_gettime CLOCK_REALTIME (ts "tsbefore"));
     "tssleep.tv_sec" ::= 0; "tssleep.tv_nsec" ::= 3000000;
     U (clock_nanosleep CLOCK_REALTIME 0 "tssleep.tv_sec" "tssleep.tv_nsec" []);
     Um (clock_gettime CLOCK_REALTIME (ts "tsafter")); "slepts" ::= "tsafter.tv_sec" - "tsbefore.tv_sec";
     "sleptns" ::= "tsafter.tv_nsec" - "tsbefore.tv_nsec";
     If ("sleptns" < 0)%pt ["sleptns" ::= "sleptns" + 1000000000; "slepts" ::= "slepts" - 1] [];
     If ((0 < "slepts") || (3000000 < "sleptns"))%pt [Return PTS_PASS] [Return PTS_FAIL]])].

Definition clock_nanosleep_1_3 : sprog := SProg
  [("main",
    [U (clock_gettime CLOCK_REALTIME (ts "tsbefore")); set_ "pid" fork;
     If ("pid" == 0)%pt
       [U (sigaction SIGABRT "handler" 0 0); "tssleep.tv_sec" ::= 30; "tssleep.tv_nsec" ::= 0;
        ignore (clock_nanosleep CLOCK_REALTIME 0 "tssleep.tv_sec" "tssleep.tv_nsec" [])]
       [ignore (sleep 1); U (kill "pid" SIGABRT); Um (wait [LVar "i"]);
        U (clock_gettime CLOCK_REALTIME (ts "tsafter"));
        If ("tsafter.tv_sec" - "tsbefore.tv_sec" < 30)%pt [Return PTS_PASS] [Return PTS_FAIL]];
     Return PTS_UNRESOLVED]);
   ("handler", [])].

Definition clock_nanosleep_1_4 : sprog := SProg
  [("main",
    [U (clock_gettime CLOCK_REALTIME (ts "tsbefore")); set_ "pid" fork;
     If ("pid" == 0)%pt
       ["tssleep.tv_sec" ::= 30; "tssleep.tv_nsec" ::= 0;
        ignore (clock_nanosleep CLOCK_REALTIME 0 "tssleep.tv_sec" "tssleep.tv_nsec" [])]
       [ignore (sleep 1); U (kill "pid" SIGABRT); Um (wait [LVar "i"]);
        U (clock_gettime CLOCK_REALTIME (ts "tsafter"));
        If ("tsafter.tv_sec" - "tsbefore.tv_sec" < 30)%pt [Return PTS_PASS] [Return PTS_FAIL]];
     Return PTS_UNRESOLVED])].

Definition clock_nanosleep_1_5 : sprog := SProg
  [("main",
    [U (clock_gettime CLOCK_REALTIME (ts "tsbefore")); set_ "pid" fork;
     If ("pid" == 0)%pt
       ["tssleep.tv_sec" ::= 5; "tssleep.tv_nsec" ::= 0;
        reject (clock_nanosleep CLOCK_REALTIME 0 "tssleep.tv_sec" "tssleep.tv_nsec" []) 0 (Returns 1);
        Return 0]
       [ignore (sleep 1); U (kill "pid" SIGSTOP); U (kill "pid" SIGCONT); Um (wait [LVar "i"]);
        ret_if (negb_ (WIFEXITED "i") || negb_ (WEXITSTATUS "i"))%pt PTS_FAIL;
        Um (clock_gettime CLOCK_REALTIME (ts "tsafter")); "slepts" ::= "tsafter.tv_sec" - "tsbefore.tv_sec";
        If (5 <= "slepts")%pt [Return PTS_PASS] [Return PTS_FAIL]]])].

Definition clock_nanosleep_2_1 : sprog := SProg
  [("main",
    ["flags" ::= 0; U (clock_gettime CLOCK_REALTIME (ts "tsbefore"));
     "sleepuntilsec" ::= "tsbefore.tv_sec" + 3; "tssleep.tv_sec" ::= "sleepuntilsec";
     "tssleep.tv_nsec" ::= "tsbefore.tv_nsec"; "flags" ::= eor "flags" TIMER_ABSTIME;
     U (clock_nanosleep CLOCK_REALTIME "flags" "tssleep.tv_sec" "tssleep.tv_nsec" []);
     Um (clock_gettime CLOCK_REALTIME (ts "tsafter"));
     If ("sleepuntilsec" <= "tsafter.tv_sec")%pt
       [If ("tsafter.tv_sec" <= "sleepuntilsec" + 1)%pt [Return PTS_PASS] [Return PTS_FAIL]]
       [Return PTS_FAIL]])].

Definition clock_nanosleep_2_2 : sprog := SProg
  [("main",
    [U (clock_gettime CLOCK_REALTIME (ts "tsbefore")); "sleepuntilsec" ::= "tsbefore.tv_sec" + 30;
     set_ "pid" fork;
     If ("pid" == 0)%pt
       ["flags" ::= 0; U (sigaction SIGABRT "handler" 0 0); "tssleep.tv_sec" ::= "sleepuntilsec";
        "tssleep.tv_nsec" ::= "tsbefore.tv_nsec"; "flags" ::= eor "flags" TIMER_ABSTIME;
        ignore (clock_nanosleep CLOCK_REALTIME "flags" "tssleep.tv_sec" "tssleep.tv_nsec" [])]
       [ignore (sleep 1); U (kill "pid" SIGABRT); Um (wait [LVar "i"]);
        U (clock_gettime CLOCK_REALTIME (ts "tsafter"));
        If ("tsafter.tv_sec" < "sleepuntilsec")%pt [Return PTS_PASS] [Return PTS_FAIL]];
     Return PTS_UNRESOLVED]);
   ("handler", [])].

Definition clock_nanosleep_2_3 : sprog := SProg
  [("main",
    [U (clock_gettime CLOCK_REALTIME (ts "tsbefore")); "sleepuntilsec" ::= "tsbefore.tv_sec" + 30;
     set_ "pid" fork;
     If ("pid" == 0)%pt
       ["flags" ::= 0; "tssleep.tv_sec" ::= "sleepuntilsec"; "tssleep.tv_nsec" ::= "tsbefore.tv_nsec";
        "flags" ::= eor "flags" TIMER_ABSTIME;
        ignore (clock_nanosleep CLOCK_REALTIME "flags" "tssleep.tv_sec" "tssleep.tv_nsec" [])]
       [ignore (sleep 1); U (kill "pid" SIGABRT); Um (wait [LVar "i"]);
        U (clock_gettime CLOCK_REALTIME (ts "tsafter"));
        If ("tsafter.tv_sec" < "sleepuntilsec")%pt [Return PTS_PASS] [Return PTS_FAIL]];
     Return PTS_UNRESOLVED])].

Definition clock_nanosleep_3_1 : sprog := SProg
  [("main",
    ["flags" ::= 0; U (clock_gettime CLOCK_REALTIME (ts "tsbefore"));
     "sleepuntilsec" ::= "tsbefore.tv_sec" - 3; "tssleep.tv_sec" ::= "sleepuntilsec";
     "tssleep.tv_nsec" ::= "tsbefore.tv_nsec"; "flags" ::= eor "flags" TIMER_ABSTIME;
     U (clock_nanosleep CLOCK_REALTIME "flags" "tssleep.tv_sec" "tssleep.tv_nsec" []);
     Um (clock_gettime CLOCK_REALTIME (ts "tsafter"));
     If ("tsbefore.tv_sec" <= "tsafter.tv_sec")%pt
       [If ("tsafter.tv_sec" <= "tsbefore.tv_sec" + 1)%pt [Return PTS_PASS] [Return PTS_FAIL]]
       [Return PTS_FAIL]])].

Definition clock_nanosleep_9_1 : sprog := SProg
  [("main",
    [U (clock_gettime CLOCK_REALTIME (ts "tsbefore")); set_ "pid" fork;
     If ("pid" == 0)%pt
       [check (sigaction SIGABRT "handler" 0 0) (Returns 0); "tssleep.tv_sec" ::= 30; "tssleep.tv_nsec" ::= 0;
        expect (clock_nanosleep CLOCK_REALTIME 0 "tssleep.tv_sec" "tssleep.tv_nsec" (ts "tsremain")) (err_num EINTR) (Returns 0);
        check (clock_gettime CLOCK_REALTIME (ts "tsafter")) (Returns 0);
        "sleptplusremaining" ::= "tsafter.tv_sec" - "tsbefore.tv_sec" + "tsremain.tv_sec";
        If (abs_ ("sleptplusremaining" - 30)%pt <= 1)%pt [Return 1] [Return 0]]
       [ignore (sleep 1); U (kill "pid" SIGABRT); Um (wait [LVar "i"]);
        If (WIFEXITED "i" && WEXITSTATUS "i")%pt [Return PTS_PASS] [Return PTS_FAIL]]]);
   ("handler", [])].

Definition clock_nanosleep_10_1 : sprog := SProg
  [("main",
    [set_ "pid" fork;
     If ("pid" == 0)%pt
       [check (sigaction SIGABRT "handler" 0 0) (Returns 0); "tssleep.tv_sec" ::= 30; "tssleep.tv_nsec" ::= 0;
        reject (clock_nanosleep CLOCK_REALTIME 0 "tssleep.tv_sec" "tssleep.tv_nsec" []) (err_num EINTR) (Returns 1);
        Return 0]
       [ignore (sleep 1); U (kill "pid" SIGABRT); Um (wait [LVar "i"]);
        If (WIFEXITED "i" && WEXITSTATUS "i")%pt [Return PTS_PASS] [Return PTS_FAIL]]]);
   ("handler", [])].

Definition clock_nanosleep_11_1_invalid_tests : list Z :=
  [INT32_MIN; INT32_MAX; 2147483647; -2147483647; -1073743192; 1073743192; -1; 1000000000; 1000000001].

Definition clock_nanosleep_11_1 : sprog := SProg
  [("main",
    ["failure" ::= 0; "tssleep.tv_sec" ::= 0; "i" ::= 0;
     While ("i" < 9)%pt
       ["tssleep.tv_nsec" ::= at_ clock_nanosleep_11_1_invalid_tests "i";
        set_ (LLoc "rc") (clock_nanosleep CLOCK_REALTIME 0 "tssleep.tv_sec" "tssleep.tv_nsec" []);
        If (Loc "rc" != (err_num EINVAL))%pt ["failure" ::= 1] []; "i" ::= "i" + 1];
     If "failure" [Return PTS_FAIL] [Return PTS_PASS]])].

Definition clock_nanosleep_13_1 : sprog := SProg
  [("main",
    ["tssleep.tv_sec" ::= 4; "tssleep.tv_nsec" ::= 0;
     reject (clock_nanosleep 99999 0 "tssleep.tv_sec" "tssleep.tv_nsec" []) (err_num EINVAL) (Returns PTS_PASS);
     Return PTS_FAIL])].

(** ** clock_gettime, clock_getres, time *)

Definition clock_gettime_1_1 : sprog := SProg
  [("main",
    ["tp.tv_sec" ::= 0; "tp.tv_nsec" ::= 0; F (clock_gettime CLOCK_REALTIME (ts "tp"));
     If (0 != "tp.tv_sec")%pt [Return PTS_PASS] [Return PTS_FAIL]])].

Definition clock_gettime_1_2 : sprog := SProg
  [("main",
    [U (clock_gettime CLOCK_REALTIME (ts "tpundertest"));
     U (gettimeofday [LVar "tvstandard.tv_sec"; LVar "tvstandard.tv_usec"]);
     "delta" ::= "tvstandard.tv_sec" - "tpundertest.tv_sec";
     If (abs_ "delta" <= 1)%pt [Return PTS_PASS] [Return PTS_FAIL]])].

Definition clock_gettime_2_1 : sprog := SProg
  [("main",
    [U (clock_gettime CLOCK_REALTIME (ts "tpundertest"));
     U (gettimeofday [LVar "tvstandard.tv_sec"; LVar "tvstandard.tv_usec"]);
     "delta" ::= "tvstandard.tv_sec" - "tpundertest.tv_sec";
     If (abs_ "delta" <= 1)%pt [Return PTS_PASS] [Return PTS_FAIL]])].

Definition clock_gettime_3_1 : sprog := SProg
  [("main",
    [U (clock_gettime CLOCK_MONOTONIC (ts "ts1")); U (clock_gettime CLOCK_MONOTONIC (ts "ts2"));
     ignore (sleep 1); U (clock_gettime CLOCK_MONOTONIC (ts "ts3")); ignore (sleep 3);
     U (clock_gettime CLOCK_MONOTONIC (ts "ts4"));
     If ((("ts1.tv_sec" <= "ts2.tv_sec") && ("ts2.tv_sec" <= "ts3.tv_sec")) && ("ts3.tv_sec" <= "ts4.tv_sec"))%pt
       [Return PTS_PASS]
       [Return PTS_FAIL]])].

Definition clock_gettime_7_1 : sprog := SProg
  [("main",
    [reject (clock_gettime 9999 (ts "tp")) (-1) (Returns PTS_PASS); Return PTS_FAIL])].

Definition clock_gettime_8_1 : sprog := SProg
  [("main",
    [expect (clock_gettime 9999 (ts "tp")) (-1) (Returns PTS_UNRESOLVED);
     If ((err_num EINVAL) == errno_)%pt [Return PTS_PASS] [Return PTS_FAIL]])].

Definition clock_gettime_8_2_invalid_tests : list Z :=
  [INT32_MIN; INT32_MAX; 2147483647; -2147483647; -1073743192; 1073743192; -1; 17].

Definition clock_gettime_8_2 : sprog := SProg
  [("main",
    ["failure" ::= 0; "i" ::= 0;
     While ("i" < 8)%pt
       [set_ (LLoc "rc") (clock_gettime (at_ clock_gettime_8_2_invalid_tests "i") (ts "tp"));
        If (Loc "rc" == 0)%pt ["failure" ::= 1] [If ((err_num EINVAL) != errno_)%pt ["failure" ::= 1] []];
        "i" ::= "i" + 1];
     If "failure" [Return PTS_FAIL] [Return PTS_PASS]])].

Definition clock_getres_1_1 : sprog := SProg
  [("main",
    ["res.tv_sec" ::= 100000; "res.tv_nsec" ::= 100000;
     set_ (LLoc "rc") (clock_getres CLOCK_REALTIME (ts "res"));
     If (Loc "rc" == 0)%pt [ret_if ("res.tv_sec" != 100000)%pt PTS_PASS] []; Return PTS_FAIL])].

Definition clock_getres_3_1 : sprog := SProg
  [("main",
    ["res.tv_sec" ::= 100000; "res.tv_nsec" ::= 100000;
     set_ (LLoc "rc") (clock_getres CLOCK_MONOTONIC (ts "res"));
     If (Loc "rc" == 0)%pt [ret_if ("res.tv_sec" != 100000)%pt PTS_PASS] []; Return PTS_FAIL])].

Definition clock_getres_5_1 : sprog := SProg
  [("main",
    [reject (clock_getres 99999 (ts "res")) (-1) (Returns PTS_PASS); Return PTS_FAIL])].

Definition clock_getres_6_1 : sprog := SProg
  [("main",
    [expect (clock_getres 99999 (ts "res")) (-1) (Returns PTS_UNRESOLVED);
     If ((err_num EINVAL) == errno_)%pt [Return PTS_PASS] [Return PTS_FAIL]])].

Definition clock_getres_6_2_invalid_tests : list Z :=
  [INT32_MIN; INT32_MAX; 2147483647; -2147483647; -1073743192; 1073743192; -1; 17].

Definition clock_getres_6_2 : sprog := SProg
  [("main",
    ["failure" ::= 0; "i" ::= 0;
     While ("i" < 8)%pt
       [set_ (LLoc "rc") (clock_getres (at_ clock_getres_6_2_invalid_tests "i") (ts "res"));
        If (Loc "rc" == -1)%pt [If ((err_num EINVAL) != errno_)%pt ["failure" ::= 1] []] ["failure" ::= 1];
        "i" ::= "i" + 1];
     If "failure" [Return PTS_FAIL] [Return PTS_PASS]])].

Definition time_1_1 : sprog := SProg
  [("main",
    [set_ "current_time" time; If ("current_time" != -1)%pt [Return PTS_PASS] [Return PTS_FAIL]])].

(** ** clock_settime *)

Definition clock_settime_1_1 : sprog := SProg
  [("main",
    [check getuid (Returns PTS_UNTESTED); set_ (LLoc "rc") (clock_getres CLOCK_REALTIME (ts "tpres"));
     If (Loc "rc" != 0)%pt ["tpres.tv_sec" ::= 0; "tpres.tv_nsec" ::= 10000000] [];
     ignore (getBeforeTime "tpreset"); "tpset.tv_sec" ::= 1037128358; "tpset.tv_nsec" ::= 0;
     set_ (LLoc "rc") (clock_settime CLOCK_REALTIME "tpset.tv_sec" "tpset.tv_nsec");
     If (Loc "rc" == 0)%pt
       [set_ (LLoc "rc") (clock_gettime CLOCK_REALTIME (ts "tpget"));
        If (Loc "rc" == -1)%pt [ignore (setBackTime "tpreset"); Return PTS_UNRESOLVED] [];
        "delta" ::= "tpget.tv_sec" - "tpset.tv_sec"; "nsdelta" ::= 1000000000 - "tpget.tv_nsec";
        If (("delta" <= 1) && (0 <= "delta"))%pt
          [ignore (setBackTime "tpreset"); Return PTS_PASS]
          [If (("nsdelta" <= "tpres.tv_nsec") && ("delta" == -1))%pt
             [ignore (setBackTime "tpreset"); Return PTS_PASS]
             [ignore (setBackTime "tpreset"); Return PTS_FAIL]]]
       [ignore (setBackTime "tpreset"); Return PTS_UNRESOLVED]])].

Definition clock_settime_4_1 : sprog := SProg
  [("main",
    ["flags" ::= 0; check getuid (Returns PTS_UNTESTED); "set" ::= 0; "set" ::= add_sig "set" SIGALRM;
     Um (sigprocmask SIG_BLOCK "set" []); U (clock_gettime CLOCK_REALTIME (ts "tpT0"));
     U (timer_create CLOCK_REALTIME SIGEV_SIGNAL SIGALRM 0 (LVar "tid"));
     "flags" ::= eor "flags" TIMER_ABSTIME; "its.it_interval.tv_sec" ::= 0; "its.it_interval.tv_nsec" ::= 0;
     "its.it_value.tv_sec" ::= "tpT0.tv_sec" + 9; "its.it_value.tv_nsec" ::= "tpT0.tv_nsec";
     U (timer_settime "tid" "flags" (its "its") []); ignore (sleep 3); ignore (getBeforeTime "tpreset");
     U (clock_settime CLOCK_REALTIME "tpT0.tv_sec" "tpT0.tv_nsec"); Um (sigwait "set" (LVar "sig"));
     U (clock_gettime CLOCK_REALTIME (ts "tpT2")); "delta" ::= "tpT2.tv_sec" - "its.it_value.tv_sec";
     "tpreset.tv_sec" ::= "tpreset.tv_sec" + ("tpT2.tv_sec" - "tpT0.tv_sec"); ignore (setBackTime "tpreset");
     If (("delta" <= 1) && (0 <= "delta"))%pt [Return PTS_PASS] [Return PTS_FAIL]])].

Definition clock_settime_4_2 : sprog := SProg
  [("main",
    ["flags" ::= 0; U (sigaction SIGALRM "handler" 0 0); U (clock_gettime CLOCK_REALTIME (ts "tpT0"));
     U (timer_create CLOCK_REALTIME SIGEV_SIGNAL SIGALRM 0 (LVar "tid"));
     "flags" ::= eor "flags" TIMER_ABSTIME; "its.it_interval.tv_sec" ::= 0; "its.it_interval.tv_nsec" ::= 0;
     "its.it_value.tv_sec" ::= "tpT0.tv_sec" + 9; "its.it_value.tv_nsec" ::= "tpT0.tv_nsec";
     U (timer_settime "tid" "flags" (its "its") []); "tpclock.tv_sec" ::= "its.it_value.tv_sec" + 4;
     "tpclock.tv_nsec" ::= "its.it_value.tv_nsec"; ignore (getBeforeTime "tpreset");
     U (clock_settime CLOCK_REALTIME "tpclock.tv_sec" "tpclock.tv_nsec"); ignore (sleep 1);
     "tpreset.tv_sec" ::= "tpreset.tv_sec" + 1; ignore (setBackTime "tpreset"); Return PTS_FAIL]);
   ("handler", [ignore (setBackTime "tpreset"); Exit PTS_PASS])].

Definition clock_settime_5_1 : sprog := SProg
  [("main",
    [check getuid (Returns PTS_UNTESTED); "set" ::= 0; "set" ::= add_sig "set" SIGALRM;
     U (sigaction SIGALRM "handler" 0 0); U (timer_create CLOCK_REALTIME SIGEV_SIGNAL SIGALRM 0 (LVar "tid"));
     "its.it_interval.tv_sec" ::= 0; "its.it_interval.tv_nsec" ::= 0; "its.it_value.tv_sec" ::= 5;
     "its.it_value.tv_nsec" ::= 0; U (timer_settime "tid" 0 (its "its") []);
     U (clock_gettime CLOCK_REALTIME (ts "tsclock")); "tsclock.tv_sec" ::= "tsclock.tv_sec" - 4;
     ignore (getBeforeTime "tsreset"); U (clock_settime CLOCK_REALTIME "tsclock.tv_sec" "tsclock.tv_nsec");
     "ts.tv_sec" ::= 8; "ts.tv_nsec" ::= 0;
     expect (nanosleep "ts.tv_sec" "ts.tv_nsec" (ts "tsleft")) (-1) (Returns PTS_FAIL);
     If (abs_ ("tsleft.tv_sec" - 3)%pt <= 1)%pt
       ["tsreset.tv_sec" ::= "tsreset.tv_sec" + 5; ignore (setBackTime "tsreset"); Return PTS_PASS]
       [Return PTS_FAIL]]);
   ("handler", [])].

Definition clock_settime_5_2 : sprog := SProg
  [("main",
    [check getuid (Returns PTS_UNTESTED); "set" ::= 0; "set" ::= add_sig "set" SIGALRM;
     U (sigaction SIGALRM "handler" 0 0); U (timer_create CLOCK_REALTIME SIGEV_SIGNAL SIGALRM 0 (LVar "tid"));
     "its.it_interval.tv_sec" ::= 0; "its.it_interval.tv_nsec" ::= 0; "its.it_value.tv_sec" ::= 5;
     "its.it_value.tv_nsec" ::= 0; U (timer_settime "tid" 0 (its "its") []);
     U (clock_gettime CLOCK_REALTIME (ts "tsclock")); "tsclock.tv_sec" ::= "tsclock.tv_sec" + 4;
     ignore (getBeforeTime "tsreset"); U (clock_settime CLOCK_REALTIME "tsclock.tv_sec" "tsclock.tv_nsec");
     "ts.tv_sec" ::= 8; "ts.tv_nsec" ::= 0;
     expect (nanosleep "ts.tv_sec" "ts.tv_nsec" (ts "tsleft")) (-1) (Returns PTS_FAIL);
     If (abs_ ("tsleft.tv_sec" - 3)%pt <= 1)%pt
       ["tsreset.tv_sec" ::= "tsreset.tv_sec" + 5; ignore (setBackTime "tsreset"); Return PTS_PASS]
       [Return PTS_FAIL]]);
   ("handler", [])].

Definition clock_settime_6_1 : sprog := SProg
  [("main",
    ["tpset.tv_sec" ::= 1037128358; "tpset.tv_nsec" ::= 0;
     reject (clock_settime CLOCK_MONOTONIC "tpset.tv_sec" "tpset.tv_nsec") (-1) (Returns PTS_PASS);
     Return PTS_FAIL])].

Definition clock_settime_7_1 : sprog := SProg
  [("main",
    [check getuid (Returns PTS_UNTESTED); U (clock_gettime CLOCK_REALTIME (ts "tsT0")); set_ "pid" fork;
     If ("pid" == 0)%pt
       ["flags" ::= 0; "tsT1.tv_sec" ::= "tsT0.tv_sec" + 5; "tsT1.tv_nsec" ::= "tsT0.tv_nsec";
        "flags" ::= eor "flags" TIMER_ABSTIME;
        check (clock_nanosleep CLOCK_REALTIME "flags" "tsT1.tv_sec" "tsT1.tv_nsec" []) (Returns 0);
        check (clock_gettime CLOCK_REALTIME (ts "tsT2")) (Returns 0);
        If ("tsT1.tv_sec" <= "tsT2.tv_sec")%pt
          [If ("tsT2.tv_sec" - "tsT1.tv_sec" <= 1)%pt [Return 1] [Return 0]]
          [Return 0]]
       [ignore (sleep 2); U (clock_settime CLOCK_REALTIME "tsT0.tv_sec" "tsT0.tv_nsec"); Um (wait [LVar "i"]);
        ignore (getBeforeTime "tsreset"); "tsreset.tv_sec" ::= "tsreset.tv_sec" + 2;
        ignore (setBackTime "tsreset");
        If (WIFEXITED "i" && WEXITSTATUS "i")%pt [Return PTS_PASS] [Return PTS_FAIL]]])].

Definition clock_settime_7_2 : sprog := SProg
  [("main",
    [check getuid (Returns PTS_UNTESTED); U (clock_gettime CLOCK_REALTIME (ts "tsT0"));
     "tsT1.tv_sec" ::= "tsT0.tv_sec" + 5; "tsT1.tv_nsec" ::= "tsT0.tv_nsec";
     "tsT2.tv_sec" ::= "tsT1.tv_sec" + 2; "tsT2.tv_nsec" ::= "tsT1.tv_nsec"; set_ "pid" fork;
     If ("pid" == 0)%pt
       ["flags" ::= 0; "flags" ::= eor "flags" TIMER_ABSTIME;
        check (clock_nanosleep CLOCK_REALTIME "flags" "tsT1.tv_sec" "tsT1.tv_nsec" []) (Returns 0);
        check (clock_gettime CLOCK_REALTIME (ts "tsT3")) (Returns 0);
        If ("tsT2.tv_sec" <= "tsT3.tv_sec")%pt
          [If ("tsT3.tv_sec" - "tsT2.tv_sec" <= 1)%pt [Return 1] [Return 0]]
          [Return 0]]
       [ignore (sleep 1); ignore (getBeforeTime "tsreset");
        U (clock_settime CLOCK_REALTIME "tsT2.tv_sec" "tsT2.tv_nsec"); Um (wait [LVar "i"]);
        ignore (setBackTime "tsreset");
        If (WIFEXITED "i" && WEXITSTATUS "i")%pt [Return PTS_PASS] [Return PTS_FAIL]]])].

Definition clock_settime_8_1 : sprog := SProg
  [("main",
    [check getuid (Returns PTS_UNTESTED); U (clock_gettime CLOCK_REALTIME (ts "tsT0")); set_ "pid" fork;
     If ("pid" == 0)%pt
       ["tssleep.tv_sec" ::= 5; "tssleep.tv_nsec" ::= 0;
        check (clock_nanosleep CLOCK_REALTIME 0 "tssleep.tv_sec" "tssleep.tv_nsec" []) (Returns 0);
        check (clock_gettime CLOCK_REALTIME (ts "tsend")) (Returns 0); "expectedsec" ::= "tsT0.tv_sec" + 3;
        If ("expectedsec" <= "tsend.tv_sec")%pt
          [If ("tsend.tv_sec" - "expectedsec" <= 1)%pt [Return 1] [Return 0]]
          [Return 0]]
       [ignore (sleep 2); U (clock_settime CLOCK_REALTIME "tsT0.tv_sec" "tsT0.tv_nsec"); Um (wait [LVar "i"]);
        ignore (getBeforeTime "tsreset"); "tsreset.tv_sec" ::= "tsreset.tv_sec" + 2;
        ignore (setBackTime "tsreset");
        If (WIFEXITED "i" && WEXITSTATUS "i")%pt [Return PTS_PASS] [Return PTS_FAIL]]])].

Definition clock_settime_17_1 : sprog := SProg
  [("main",
    ["tpset.tv_sec" ::= 1037128358; "tpset.tv_nsec" ::= 0;
     expect (clock_settime 9999 "tpset.tv_sec" "tpset.tv_nsec") (-1) (Returns PTS_UNRESOLVED);
     If ((err_num EINVAL) == errno_)%pt [Return PTS_PASS] [Return PTS_FAIL]])].

Definition clock_settime_17_2_invalid_tests : list Z :=
  [INT32_MIN; INT32_MAX; 2147483647; -2147483647; -1073743192; 1073743192; -1; 17].

Definition clock_settime_17_2 : sprog := SProg
  [("main",
    ["failure" ::= 0; "tpset.tv_sec" ::= 1037128358; "tpset.tv_nsec" ::= 0; "i" ::= 0;
     While ("i" < 8)%pt
       [set_ (LLoc "rc") (clock_settime (at_ clock_settime_17_2_invalid_tests "i") "tpset.tv_sec" "tpset.tv_nsec");
        If (Loc "rc" == -1)%pt [If ((err_num EINVAL) != errno_)%pt ["failure" ::= 1] []] ["failure" ::= 1];
        "i" ::= "i" + 1];
     If "failure" [Return PTS_FAIL] [Return PTS_PASS]])].

Definition clock_settime_19_1_invalid_tests : list Z :=
  [INT32_MIN; INT32_MAX; 2147483647; -2147483647; -1073743192; 1073743192; -1; 1000000000; 1000000001].

Definition clock_settime_19_1 : sprog := SProg
  [("main",
    ["failure" ::= 0; check getuid (Returns PTS_UNTESTED); U (clock_gettime CLOCK_REALTIME (ts "tscurrent"));
     ignore (getBeforeTime "tsreset"); "i" ::= 0;
     While ("i" < 9)%pt
       ["tsset.tv_sec" ::= "tscurrent.tv_sec"; "tsset.tv_nsec" ::= at_ clock_settime_19_1_invalid_tests "i";
        set_ (LLoc "rc") (clock_settime CLOCK_REALTIME "tsset.tv_sec" "tsset.tv_nsec");
        If (Loc "rc" == -1)%pt [If ((err_num EINVAL) != errno_)%pt ["failure" ::= 1] []] ["failure" ::= 1];
        "i" ::= "i" + 1];
     ignore (setBackTime "tsreset"); If "failure" [Return PTS_FAIL] [Return PTS_PASS]])].

Definition clock_settime_20_1 : sprog := SProg
  [("main",
    ["tpset.tv_sec" ::= 1037128358; "tpset.tv_nsec" ::= 0;
     expect (clock_settime CLOCK_MONOTONIC "tpset.tv_sec" "tpset.tv_nsec") (-1) (Returns PTS_UNRESOLVED);
     If ((err_num EINVAL) == errno_)%pt [Return PTS_PASS] [Return PTS_FAIL]])].

(** ** timer_create *)

Definition timer_create_1_1 : sprog := SProg
  [("main",
    ["its.it_interval.tv_sec" ::= 0; "its.it_interval.tv_nsec" ::= 0; "its.it_value.tv_sec" ::= 2;
     "its.it_value.tv_nsec" ::= 0; "ts.tv_sec" ::= 5; "ts.tv_nsec" ::= 0;
     Um (sigaction SIGALRM "handler" 0 0);
     F (timer_create CLOCK_REALTIME SIGEV_SIGNAL SIGALRM 0 (LVar "tid"));
     U (timer_settime "tid" 0 (its "its") []);
     expect (nanosleep "ts.tv_sec" "ts.tv_nsec" (ts "tsleft")) (-1) (Returns PTS_FAIL);
     If (abs_ ("tsleft.tv_sec" - 3)%pt <= 1)%pt [Return PTS_PASS] [Return PTS_FAIL]]);
   ("handler", [])].

Definition timer_create_3_1 : sprog := SProg
  [("main",
    [Um (sigaction SIGALRM "handler" 0 0);
     F (timer_create CLOCK_REALTIME SIGEV_SIGNAL SIGALRM 0 (LVar "tid")); "ts.tv_sec" ::= 3;
     "ts.tv_nsec" ::= 0; Fm (nanosleep "ts.tv_sec" "ts.tv_nsec" []); Return PTS_PASS]);
   ("handler", [])].

Definition timer_create_7_1 : sprog := SProg
  [("main",
    ["its.it_interval.tv_sec" ::= 0; "its.it_interval.tv_nsec" ::= 0; "its.it_value.tv_sec" ::= 2;
     "its.it_value.tv_nsec" ::= 0; "ts.tv_sec" ::= 5; "ts.tv_nsec" ::= 0;
     Um (sigaction SIGALRM "handler" 0 0);
     U (timer_create CLOCK_MONOTONIC SIGEV_SIGNAL SIGALRM 0 (LVar "tid"));
     U (timer_settime "tid" 0 (its "its") []);
     expect (nanosleep "ts.tv_sec" "ts.tv_nsec" (ts "tsleft")) (-1) (Returns PTS_FAIL);
     If (abs_ ("tsleft.tv_sec" - 3)%pt <= 1)%pt [Return PTS_PASS] [Return PTS_FAIL]]);
   ("handler", [])].

Definition timer_create_8_1 : sprog := SProg
  [("main",
    ["its.it_interval.tv_sec" ::= 0; "its.it_interval.tv_nsec" ::= 0; "its.it_value.tv_sec" ::= 2;
     "its.it_value.tv_nsec" ::= 0; Um (sigaction SIGALRM "parenthandler" 0 0);
     U (timer_create CLOCK_REALTIME SIGEV_SIGNAL SIGALRM 0 (LVar "tid"));
     U (timer_settime "tid" 0 (its "its") []); set_ "pid" fork;
     If ("pid" == 0)%pt
       [reject (sigaction SIGALRM "handler" 0 0) (-1) (Returns 0); "ts.tv_sec" ::= 6; "ts.tv_nsec" ::= 0;
        reject (nanosleep "ts.tv_sec" "ts.tv_nsec" (ts "tsleft")) (-1) (Returns 0); Return 1]
       ["tsp.tv_sec" ::= 2; "tsp.tv_nsec" ::= 0;
        set_ (LLoc "rc") (nanosleep "tsp.tv_sec" "tsp.tv_nsec" (ts "rem"));
        If (Loc "rc" == -1)%pt
          ["tsp.tv_sec" ::= "rem.tv_sec"; "tsp.tv_nsec" ::= "rem.tv_nsec";
           Um (nanosleep "tsp.tv_sec" "tsp.tv_nsec" (ts "rem"))]
          [];
        Um (wait [LVar "i"]); If (WIFEXITED "i" && WEXITSTATUS "i")%pt [Return PTS_PASS] [Return PTS_FAIL]]]);
   ("parenthandler", []);
   ("handler", [])].

Definition timer_create_16_1 : sprog := SProg
  [("main",
    [expect (timer_create 99999 SIGEV_SIGNAL SIGALRM 0 (LVar "tid")) (-1) (Returns PTS_UNRESOLVED);
     If ((err_num EINVAL) == errno_)%pt [Return PTS_PASS] [Return PTS_FAIL]])].

(** ** timer_settime *)

Definition timer_settime_1_1 : sprog := SProg
  [("main",
    ["its.it_interval.tv_sec" ::= 0; "its.it_interval.tv_nsec" ::= 0; "its.it_value.tv_sec" ::= 2;
     "its.it_value.tv_nsec" ::= 0; "ts.tv_sec" ::= 5; "ts.tv_nsec" ::= 0;
     Um (sigaction SIGALRM "handler" 0 0);
     U (timer_create CLOCK_REALTIME SIGEV_SIGNAL SIGALRM 0 (LVar "tid"));
     U (timer_settime "tid" 0 (its "its") []);
     expect (nanosleep "ts.tv_sec" "ts.tv_nsec" (ts "tsleft")) (-1) (Returns PTS_FAIL);
     If (abs_ ("tsleft.tv_sec" - 3)%pt <= 1)%pt [Return PTS_PASS] [Return PTS_FAIL]]);
   ("handler", [])].

Definition timer_settime_1_2_timervals : list Z :=
  [0; 30000000; 1; 0; 1; 30000000; 2; 0; 10; 5000; 13; 5].

Definition timer_settime_1_2 : sprog := SProg
  [("main",
    ["failure" ::= 0; "its.it_interval.tv_sec" ::= 0; "its.it_interval.tv_nsec" ::= 0;
     Um (sigaction SIGALRM "handler" 0 0); "i" ::= 0;
     While ("i" < 6)%pt
       ["its.it_value.tv_sec" ::= at_ timer_settime_1_2_timervals ("i" * 2)%pt;
        "its.it_value.tv_nsec" ::= at_ timer_settime_1_2_timervals ("i" * 2 + 1)%pt;
        "ts.tv_sec" ::= at_ timer_settime_1_2_timervals ("i" * 2)%pt + 3;
        "ts.tv_nsec" ::= at_ timer_settime_1_2_timervals ("i" * 2 + 1)%pt;
        U (timer_create CLOCK_REALTIME SIGEV_SIGNAL SIGALRM 0 (LVar "tid"));
        set_ (LLoc "rc") (timer_settime "tid" 0 (its "its") []); If (Loc "rc" != 0)%pt ["failure" ::= 1] [];
        set_ (LLoc "rc") (nanosleep "ts.tv_sec" "ts.tv_nsec" (ts "tsleft"));
        If (Loc "rc" != -1)%pt ["failure" ::= 1] [];
        If (1 < abs_ ("tsleft.tv_sec" - 3)%pt)%pt ["failure" ::= 1] []; Um (timer_delete "tid");
        "i" ::= "i" + 1];
     If "failure" [Return PTS_FAIL] [Return PTS_PASS]]);
   ("handler", [])].

Definition timer_settime_2_1 : sprog := SProg
  [("main",
    ["failure" ::= 0; "set" ::= 0; "set" ::= add_sig "set" SIGALRM; Um (sigprocmask SIG_BLOCK "set" []);
     "its.it_interval.tv_sec" ::= 5; "its.it_interval.tv_nsec" ::= 0; "its.it_value.tv_sec" ::= 2;
     "its.it_value.tv_nsec" ::= 0; U (timer_create CLOCK_REALTIME SIGEV_SIGNAL SIGALRM 0 (LVar "tid"));
     "i" ::= 0;
     While ("i" < 5)%pt
       [U (clock_gettime CLOCK_REALTIME (ts "tsbefore")); U (timer_settime "tid" 0 (its "its") []);
        Um (sigwait "set" (LVar "sig")); U (clock_gettime CLOCK_REALTIME (ts "tsafter"));
        "timeelapsed" ::= "tsafter.tv_sec" - "tsbefore.tv_sec"; ret_if ("timeelapsed" < 0)%pt PTS_UNRESOLVED;
        "delta" ::= "timeelapsed" - "its.it_value.tv_sec";
        If ((1 < "delta") || ("delta" < 0))%pt ["failure" ::= 1] [];
        "its.it_interval.tv_sec" ::= "its.it_interval.tv_sec" + 2;
        "its.it_value.tv_sec" ::= "its.it_value.tv_sec" + 2; "i" ::= "i" + 1];
     U (timer_delete "tid"); If "failure" [Return PTS_FAIL] [Return PTS_PASS]])].

Definition timer_settime_3_1 : sprog := SProg
  [("main",
    ["its.it_interval.tv_sec" ::= 0; "its.it_interval.tv_nsec" ::= 0; "its.it_value.tv_sec" ::= 0;
     "its.it_value.tv_nsec" ::= 0; "ts.tv_sec" ::= 3; "ts.tv_nsec" ::= 0;
     Um (sigaction SIGALRM "handler" 0 0);
     U (timer_create CLOCK_REALTIME SIGEV_SIGNAL SIGALRM 0 (LVar "tid"));
     U (timer_settime "tid" 0 (its "its") []); Fm (nanosleep "ts.tv_sec" "ts.tv_nsec" (ts "tsleft"));
     Return PTS_PASS]);
   ("handler", [Exit PTS_FAIL])].

Definition timer_settime_3_2 : sprog := SProg
  [("main",
    [Um (sigaction SIGALRM "handler" 0 0);
     U (timer_create CLOCK_REALTIME SIGEV_SIGNAL SIGALRM 0 (LVar "tid")); "its.it_interval.tv_sec" ::= 0;
     "its.it_interval.tv_nsec" ::= 0; "its.it_value.tv_sec" ::= 3; "its.it_value.tv_nsec" ::= 0;
     U (timer_settime "tid" 0 (its "its") []); "its.it_value.tv_sec" ::= 0; "its.it_value.tv_nsec" ::= 0;
     U (timer_settime "tid" 0 (its "its") []); "ts.tv_sec" ::= 3; "ts.tv_nsec" ::= 0;
     Fm (nanosleep "ts.tv_sec" "ts.tv_nsec" []); Return PTS_PASS]);
   ("handler", [Exit PTS_FAIL])].

Definition timer_settime_3_3 : sprog := SProg
  [("main",
    ["set" ::= 0; "set" ::= add_sig "set" SIGALRM; U (sigprocmask SIG_SETMASK "set" []);
     U (timer_create CLOCK_REALTIME SIGEV_SIGNAL SIGALRM 0 (LVar "tid")); "its.it_interval.tv_sec" ::= 0;
     "its.it_interval.tv_nsec" ::= 0; "its.it_value.tv_sec" ::= 0; "its.it_value.tv_nsec" ::= 10000000;
     U (timer_settime "tid" 0 (its "its") []); ignore (sleep 1); Um (sigaction SIGALRM "handler" 0 0);
     "its.it_interval.tv_sec" ::= 0; "its.it_interval.tv_nsec" ::= 0; "its.it_value.tv_sec" ::= 0;
     "its.it_value.tv_nsec" ::= 0; U (timer_settime "tid" 0 (its "its") []);
     U (sigprocmask SIG_UNBLOCK "set" []); "ts.tv_sec" ::= 1; "ts.tv_nsec" ::= 0;
     Fm (nanosleep "ts.tv_sec" "ts.tv_nsec" []); Return PTS_PASS]);
   ("handler", [])].

Definition timer_settime_5_1 : sprog := SProg
  [("main",
    ["flags" ::= 0; Um (sigaction SIGALRM "handler" 0 0);
     U (timer_create CLOCK_REALTIME SIGEV_SIGNAL SIGALRM 0 (LVar "tid"));
     U (clock_gettime CLOCK_REALTIME (ts "beforets")); "its.it_interval.tv_sec" ::= 0;
     "its.it_interval.tv_nsec" ::= 0; "its.it_value.tv_sec" ::= "beforets.tv_sec" + 2;
     "its.it_value.tv_nsec" ::= "beforets.tv_nsec"; "ts.tv_sec" ::= 5; "ts.tv_nsec" ::= 0;
     "flags" ::= eor "flags" TIMER_ABSTIME; U (timer_settime "tid" "flags" (its "its") []);
     expect (nanosleep "ts.tv_sec" "ts.tv_nsec" (ts "tsleft")) (-1) (Returns PTS_FAIL);
     If (abs_ ("tsleft.tv_sec" - 3)%pt <= 1)%pt [Return PTS_PASS] [Return PTS_FAIL]]);
   ("handler", [])].

Definition timer_settime_5_2 : sprog := SProg
  [("main",
    ["flags" ::= 0; "its.it_interval.tv_sec" ::= 0; "its.it_interval.tv_nsec" ::= 0;
     "its.it_value.tv_sec" ::= 1037128358; "its.it_value.tv_nsec" ::= 0; Um (sigaction SIGALRM "handler" 0 0);
     U (timer_create CLOCK_REALTIME SIGEV_SIGNAL SIGALRM 0 (LVar "tid"));
     "flags" ::= eor "flags" TIMER_ABSTIME; F (timer_settime "tid" "flags" (its "its") []); ignore (sleep 10);
     Return PTS_FAIL]);
   ("handler", [Exit PTS_PASS])].

Definition timer_settime_5_3 : sprog := SProg
  [("main",
    ["fails" ::= 0; "passes" ::= 0; "flags" ::= 0; Um (sigaction SIGALRM "handler" 0 0);
     U (timer_create CLOCK_REALTIME SIGEV_SIGNAL SIGALRM 0 (LVar "tid"));
     U (clock_gettime CLOCK_REALTIME (ts "ts")); "its.it_interval.tv_sec" ::= 0;
     "its.it_interval.tv_nsec" ::= 0; "its.it_value.tv_sec" ::= "ts.tv_sec"; "its.it_value.tv_nsec" ::= 0;
     "flags" ::= eor "flags" TIMER_ABSTIME; "i" ::= 0;
     While ("i" < 30)%pt
       [set_ (LLoc "rc") (timer_settime "tid" "flags" (its "its") []);
        If (Loc "rc" == 0)%pt [ignore (sleep 10)] []; "its.it_value.tv_sec" ::= "its.it_value.tv_sec" - 1000;
        "i" ::= "i" + 1];
     "fails" ::= 30 - "passes"; If (0 < "fails")%pt [Return PTS_FAIL] [Return PTS_PASS]]);
   ("handler", ["passes" ::= "passes" + 1])].

Definition timer_settime_6_1 : sprog := SProg
  [("main",
    ["set" ::= 0; "set" ::= add_sig "set" SIGALRM; Um (sigprocmask SIG_BLOCK "set" []);
     "its.it_interval.tv_sec" ::= 5; "its.it_interval.tv_nsec" ::= 0; "its.it_value.tv_sec" ::= 2;
     "its.it_value.tv_nsec" ::= 0; U (timer_create CLOCK_REALTIME SIGEV_SIGNAL SIGALRM 0 (LVar "tid"));
     U (clock_gettime CLOCK_REALTIME (ts "tsbefore")); U (timer_settime "tid" 0 (its "its") []);
     Um (sigwait "set" (LVar "sig")); U (clock_gettime CLOCK_REALTIME (ts "tsafter"));
     "timeelapsed" ::= "tsafter.tv_sec" - "tsbefore.tv_sec"; ret_if ("timeelapsed" < 0)%pt PTS_UNRESOLVED;
     "delta" ::= "timeelapsed" - 2; ret_if ((1 < "delta") || ("delta" < 0))%pt PTS_UNRESOLVED; "i" ::= 0;
     While ("i" < 2)%pt
       ["tsbefore.tv_sec" ::= "tsafter.tv_sec"; "tsbefore.tv_nsec" ::= "tsafter.tv_nsec";
        Um (sigwait "set" (LVar "sig")); U (clock_gettime CLOCK_REALTIME (ts "tsafter"));
        "timeelapsed" ::= "tsafter.tv_sec" - "tsbefore.tv_sec"; ret_if ("timeelapsed" < 0)%pt PTS_UNRESOLVED;
        "delta" ::= "timeelapsed" - 5; ret_if ((1 < "delta") || ("delta" < 0))%pt PTS_FAIL; "i" ::= "i" + 1];
     U (timer_delete "tid"); Return PTS_PASS])].

Definition timer_settime_8_1 : sprog := SProg
  [("main",
    ["its.it_interval.tv_sec" ::= 0; "its.it_interval.tv_nsec" ::= 0; "its.it_value.tv_sec" ::= 1;
     "its.it_value.tv_nsec" ::= 0; U (timer_create CLOCK_REALTIME SIGEV_SIGNAL SIGCONT 0 (LVar "tid"));
     U (timer_settime "tid" 0 (its "its") (oits "oits"));
     If ((((0 == "oits.it_value.tv_sec") && (0 == "oits.it_value.tv_nsec")) && (0 == "oits.it_interval.tv_sec")) && (0 == "oits.it_interval.tv_nsec"))%pt
       [Return PTS_PASS]
       [Return PTS_FAIL]])].

Definition timer_settime_8_2 : sprog := SProg
  [("main",
    ["its.it_interval.tv_sec" ::= 0; "its.it_interval.tv_nsec" ::= 0; "its.it_value.tv_sec" ::= 1;
     "its.it_value.tv_nsec" ::= 0; U (timer_create CLOCK_REALTIME SIGEV_SIGNAL SIGCONT 0 (LVar "tid"));
     U (timer_settime "tid" 0 (its "its") (oits "oits")); ignore (sleep 2); "oits.it_value.tv_sec" ::= 1000;
     "oits.it_value.tv_nsec" ::= 1000; "oits.it_interval.tv_sec" ::= 1000;
     "oits.it_interval.tv_nsec" ::= 1000; U (timer_settime "tid" 0 (its "its") (oits "oits"));
     If ((((0 == "oits.it_value.tv_sec") && (0 == "oits.it_value.tv_nsec")) && (0 == "oits.it_interval.tv_sec")) && (0 == "oits.it_interval.tv_nsec"))%pt
       [Return PTS_PASS]
       [Return PTS_FAIL]])].

Definition timer_settime_8_3 : sprog := SProg
  [("main",
    ["its.it_interval.tv_sec" ::= 0; "its.it_interval.tv_nsec" ::= 0; "its.it_value.tv_sec" ::= 7;
     "its.it_value.tv_nsec" ::= 0; U (timer_create CLOCK_REALTIME SIGEV_SIGNAL SIGCONT 0 (LVar "tid"));
     U (timer_settime "tid" 0 (its "its") (oits "oits")); ignore (sleep 2);
     U (timer_settime "tid" 0 (its "its") (oits "oits"));
     If (abs_ ("oits.it_value.tv_sec" - 5)%pt <= 1)%pt [Return PTS_PASS] [Return PTS_FAIL]])].

Definition timer_settime_8_4 : sprog := SProg
  [("main",
    ["its.it_interval.tv_sec" ::= 8; "its.it_value.tv_sec" ::= 1; "its.it_interval.tv_nsec" ::= 0;
     "its.it_value.tv_nsec" ::= 0; U (timer_create CLOCK_REALTIME SIGEV_SIGNAL SIGCONT 0 (LVar "tid"));
     U (timer_settime "tid" 0 (its "its") (oits "oits")); U (timer_settime "tid" 0 (its "its") (oits "oits"));
     If (8 == "oits.it_interval.tv_sec")%pt [Return PTS_PASS] [Return PTS_FAIL]])].

Definition timer_settime_9_1_timeroffsets : list Z :=
  [0; 30000000; 1; 0; 1; 30000000; 2; 0; 1; 5000; 1; 5].

Definition timer_settime_9_1 : sprog := SProg
  [("main",
    ["failure" ::= 0; "set" ::= 0; "set" ::= add_sig "set" SIGALRM; Um (sigprocmask SIG_BLOCK "set" []);
     U (timer_create CLOCK_REALTIME SIGEV_SIGNAL SIGALRM 0 (LVar "tid")); "i" ::= 0;
     While ("i" < 6)%pt
       ["its.it_interval.tv_sec" ::= 0; "its.it_interval.tv_nsec" ::= 0;
        "its.it_value.tv_sec" ::= at_ timer_settime_9_1_timeroffsets ("i" * 2)%pt;
        "its.it_value.tv_nsec" ::= at_ timer_settime_9_1_timeroffsets ("i" * 2 + 1)%pt;
        U (clock_gettime CLOCK_REALTIME (ts "tsbefore")); U (timer_settime "tid" 0 (its "its") []);
        Um (sigwait "set" (LVar "sig")); U (clock_gettime CLOCK_REALTIME (ts "tsafter"));
        "totalnsecs" ::= ("tsafter.tv_sec" - "tsbefore.tv_sec") * 1000000000 + ("tsafter.tv_nsec" - "tsbefore.tv_nsec");
        "testnsecs" ::= "its.it_value.tv_sec" * 1000000000 + "its.it_value.tv_nsec";
        If ("totalnsecs" < "testnsecs")%pt ["failure" ::= 1] []; "i" ::= "i" + 1];
     U (timer_delete "tid"); If "failure" [Return PTS_FAIL] [Return PTS_PASS]])].

Definition timer_settime_9_2_timeroffsets : list Z :=
  [0; 90000000; 1; 0; 1; 30000000; 2; 0; 3; 5000; 4; 5].

Definition timer_settime_9_2 : sprog := SProg
  [("main",
    ["failure" ::= 0; "flags" ::= 0; "set" ::= 0; "set" ::= add_sig "set" SIGALRM;
     Um (sigprocmask SIG_BLOCK "set" []); U (timer_create CLOCK_REALTIME SIGEV_SIGNAL SIGALRM 0 (LVar "tid"));
     "flags" ::= eor "flags" TIMER_ABSTIME; "its.it_interval.tv_sec" ::= 0; "its.it_interval.tv_nsec" ::= 0;
     "i" ::= 0;
     While ("i" < 6)%pt
       [U (clock_gettime CLOCK_REALTIME (ts "tsbefore"));
        If ("tsbefore.tv_nsec" + at_ timer_settime_9_2_timeroffsets ("i" * 2 + 1)%pt < 1000000000)%pt
          ["its.it_value.tv_sec" ::= "tsbefore.tv_sec" + at_ timer_settime_9_2_timeroffsets ("i" * 2)%pt;
           "its.it_value.tv_nsec" ::= "tsbefore.tv_nsec" + at_ timer_settime_9_2_timeroffsets ("i" * 2 + 1)%pt]
          ["its.it_value.tv_sec" ::= "tsbefore.tv_sec" + at_ timer_settime_9_2_timeroffsets ("i" * 2)%pt + 1;
           "its.it_value.tv_nsec" ::= "tsbefore.tv_nsec" + at_ timer_settime_9_2_timeroffsets ("i" * 2 + 1)%pt - 1000000000];
        U (timer_settime "tid" "flags" (its "its") []); Um (sigwait "set" (LVar "sig"));
        U (clock_gettime CLOCK_REALTIME (ts "tsafter"));
        If ("tsafter.tv_sec" < "its.it_value.tv_sec")%pt
          ["failure" ::= 1]
          [If ("tsafter.tv_sec" == "its.it_value.tv_sec")%pt
             [If ("tsafter.tv_nsec" < "its.it_value.tv_nsec")%pt ["failure" ::= 1] []]
             []];
        "i" ::= "i" + 1];
     U (timer_delete "tid"); If "failure" [Return PTS_FAIL] [Return PTS_PASS]])].

Definition timer_settime_13_1_testlist : list Z :=
  [1; -1; 0; 0; 1; -2147483647; 0; 0; 1; -1073743192; 0; 0; 1; 1000000000; 0; 0; 1; 1000000001; 0; 0; 1;
    2147483647; 0; 0; 1; 1075002478; 0; 0; 1; -1; 0; -1; 1; 0; 0; -2147483647; 1; 0; 0; -1073743192; 1; 0; 0;
    1000000000; 1; 0; 0; 1000000001; 1; 0; 0; 2147483647; 1; 0; 0; 1075002478; -1; 0; 0; 0; -2147483647; 0; 0;
    0; -1073743192; 0; 0; 0; 1; 0; -1; 0; 1; 0; -2147483647; 0; 1; 0; -1073743192; 0].

Definition timer_settime_13_1 : sprog := SProg
  [("main",
    ["failure" ::= 0; U (timer_create CLOCK_REALTIME SIGEV_SIGNAL SIGALRM 0 (LVar "tid")); "i" ::= 0;
     While ("i" < 20)%pt
       ["its.it_value.tv_sec" ::= at_ timer_settime_13_1_testlist ("i" * 4)%pt;
        "its.it_value.tv_nsec" ::= at_ timer_settime_13_1_testlist ("i" * 4 + 1)%pt;
        "its.it_interval.tv_sec" ::= at_ timer_settime_13_1_testlist ("i" * 4 + 2)%pt;
        "its.it_interval.tv_nsec" ::= at_ timer_settime_13_1_testlist ("i" * 4 + 3)%pt;
        set_ (LLoc "rc") (timer_settime "tid" 0 (its "its") []);
        If (Loc "rc" == -1)%pt [If ((err_num EINVAL) != errno_)%pt ["failure" ::= 1] []] ["failure" ::= 1];
        "i" ::= "i" + 1];
     If "failure" [Return PTS_FAIL] [Return PTS_PASS]])].

(** ** timer_gettime, timer_getoverrun, timer_delete *)

Definition timer_gettime_1_1 : sprog := SProg
  [("main",
    ["itsset.it_interval.tv_sec" ::= 0; "itsset.it_interval.tv_nsec" ::= 0; "itsset.it_value.tv_sec" ::= 5;
     "itsset.it_value.tv_nsec" ::= 0; U (timer_create CLOCK_REALTIME SIGEV_SIGNAL SIGCONT 0 (LVar "tid"));
     U (timer_settime "tid" 0 (its "itsset") []); U (timer_gettime "tid" (oits "itsget"));
     "delta" ::= "itsset.it_value.tv_sec" - "itsget.it_value.tv_sec"; ret_if ("delta" < 0)%pt PTS_FAIL;
     If ("delta" <= 1)%pt [Return PTS_PASS] [Return PTS_FAIL]])].

Definition timer_gettime_1_2 : sprog := SProg
  [("main",
    ["itsset.it_interval.tv_sec" ::= 0; "itsset.it_interval.tv_nsec" ::= 0; "itsset.it_value.tv_sec" ::= 8;
     "itsset.it_value.tv_nsec" ::= 0; U (timer_create CLOCK_REALTIME SIGEV_SIGNAL SIGCONT 0 (LVar "tid"));
     U (timer_settime "tid" 0 (its "itsset") []); U (sleep 2); U (timer_gettime "tid" (oits "itsget"));
     "delta" ::= "itsset.it_value.tv_sec" - 2 - "itsget.it_value.tv_sec"; ret_if ("delta" < 0)%pt PTS_FAIL;
     If ("delta" <= 1)%pt [Return PTS_PASS] [Return PTS_FAIL]])].

Definition timer_gettime_1_3 : sprog := SProg
  [("main",
    ["itsset.it_interval.tv_sec" ::= 0; "itsset.it_interval.tv_nsec" ::= 0; "itsset.it_value.tv_sec" ::= 0;
     "itsset.it_value.tv_nsec" ::= 80000000;
     U (timer_create CLOCK_REALTIME SIGEV_SIGNAL SIGCONT 0 (LVar "tid"));
     U (timer_settime "tid" 0 (its "itsset") []); "ts.tv_sec" ::= 0; "ts.tv_nsec" ::= 40000000;
     U (nanosleep "ts.tv_sec" "ts.tv_nsec" []); U (timer_gettime "tid" (oits "itsget"));
     ret_if (0 < "itsget.it_value.tv_sec")%pt PTS_FAIL;
     "deltans" ::= "itsset.it_value.tv_nsec" - "ts.tv_nsec" - "itsget.it_value.tv_nsec";
     ret_if ("deltans" < 0)%pt PTS_FAIL; If ("deltans" <= 3000000)%pt [Return PTS_PASS] [Return PTS_FAIL]])].

Definition timer_gettime_1_4 : sprog := SProg
  [("main",
    ["itsset.it_interval.tv_sec" ::= 8; "itsset.it_interval.tv_nsec" ::= 2000000;
     "itsset.it_value.tv_sec" ::= 2; "itsset.it_value.tv_nsec" ::= 0;
     U (timer_create CLOCK_REALTIME SIGEV_SIGNAL SIGCONT 0 (LVar "tid"));
     U (timer_settime "tid" 0 (its "itsset") []); U (sleep 3); U (timer_gettime "tid" (oits "itsget"));
     ret_if (("itsget.it_interval.tv_sec" != "itsset.it_interval.tv_sec") || (Op Z.quot "itsget.it_interval.tv_nsec" 1000000 != Op Z.quot "itsset.it_interval.tv_nsec" 1000000))%pt PTS_UNRESOLVED;
     "expectedleft" ::= "itsset.it_interval.tv_sec" - (3 - "itsset.it_value.tv_sec");
     "delta" ::= "expectedleft" - "itsget.it_value.tv_sec"; ret_if ("delta" < 0)%pt PTS_FAIL;
     If ("delta" <= 1)%pt [Return PTS_PASS] [Return PTS_FAIL]])].

Definition timer_gettime_2_1 : sprog := SProg
  [("main",
    [U (timer_create CLOCK_REALTIME SIGEV_SIGNAL SIGCONT 0 (LVar "tid"));
     U (timer_gettime "tid" (oits "its"));
     If ((0 == "its.it_value.tv_sec") && (0 == "its.it_value.tv_nsec"))%pt [Return PTS_PASS] [Return PTS_FAIL]])].

Definition timer_gettime_2_2 : sprog := SProg
  [("main",
    ["itsset.it_interval.tv_sec" ::= 0; "itsset.it_interval.tv_nsec" ::= 0; "itsset.it_value.tv_sec" ::= 1;
     "itsset.it_value.tv_nsec" ::= 0; U (timer_create CLOCK_REALTIME SIGEV_SIGNAL SIGCONT 0 (LVar "tid"));
     U (timer_settime "tid" 0 (its "itsset") []); ignore (sleep 2); U (timer_gettime "tid" (oits "itsget"));
     If ((0 == "itsget.it_value.tv_sec") && (0 == "itsget.it_value.tv_nsec"))%pt
       [Return PTS_PASS]
       [Return PTS_FAIL]])].

Definition timer_gettime_3_1 : sprog := SProg
  [("main",
    ["flags" ::= 0; U (timer_create CLOCK_REALTIME SIGEV_SIGNAL SIGCONT 0 (LVar "tid"));
     U (clock_gettime CLOCK_REALTIME (ts "ts")); "itsset.it_interval.tv_sec" ::= 0;
     "itsset.it_interval.tv_nsec" ::= 0; "itsset.it_value.tv_sec" ::= "ts.tv_sec" + 2;
     "itsset.it_value.tv_nsec" ::= "ts.tv_nsec"; "flags" ::= eor "flags" TIMER_ABSTIME;
     U (timer_settime "tid" "flags" (its "itsset") []); U (timer_gettime "tid" (oits "itsget"));
     "delta" ::= 2 - "itsget.it_value.tv_sec"; ret_if ("delta" < 0)%pt PTS_FAIL;
     If ("delta" <= 1)%pt [Return PTS_PASS] [Return PTS_FAIL]])].

Definition timer_getoverrun_1_1 : sprog := SProg
  [("main",
    ["madeit" ::= 0; U (sigaction SIGALRM "handler" 0 0);
     U (timer_create CLOCK_REALTIME SIGEV_SIGNAL SIGALRM 0 (LVar "tid")); "its.it_interval.tv_sec" ::= 3;
     "its.it_interval.tv_nsec" ::= 0; "its.it_value.tv_sec" ::= 2; "its.it_value.tv_nsec" ::= 0;
     U (timer_settime "tid" 0 (its "its") []); "set" ::= 0; "set" ::= add_sig "set" SIGALRM;
     U (sigprocmask SIG_SETMASK "set" []); U (sleep 8); U (sigprocmask SIG_UNBLOCK "set" []);
     set_ "overruns" (timer_getoverrun "tid"); If (1 == "madeit")%pt [Return PTS_PASS] [Return PTS_FAIL]]);
   ("handler", ["madeit" ::= "madeit" + 1; exit_if (1 < "madeit")%pt PTS_FAIL])].

Definition timer_getoverrun_2_1 : sprog := SProg
  [("main",
    ["set" ::= 0; "set" ::= add_sig "set" SIGCONT; U (sigprocmask SIG_SETMASK "set" []);
     U (timer_create CLOCK_REALTIME SIGEV_SIGNAL SIGCONT 0 (LVar "tid")); "its.it_interval.tv_sec" ::= 4;
     "its.it_interval.tv_nsec" ::= 0; "its.it_value.tv_sec" ::= 3; "its.it_value.tv_nsec" ::= 0;
     U (timer_settime "tid" 0 (its "its") []); ignore (sleep 12); U (sigprocmask SIG_UNBLOCK "set" []);
     set_ "overruns" (timer_getoverrun "tid"); If (2 == "overruns")%pt [Return PTS_PASS] [Return PTS_FAIL]])].

Definition timer_getoverrun_2_2 : sprog := SProg
  [("main",
    ["set" ::= 0; "set" ::= add_sig "set" SIGCONT; U (sigprocmask SIG_SETMASK "set" []);
     U (timer_create CLOCK_REALTIME SIGEV_SIGNAL SIGCONT 0 (LVar "tid")); "its.it_interval.tv_sec" ::= 0;
     "its.it_interval.tv_nsec" ::= 5000000; "its.it_value.tv_sec" ::= 0; "its.it_value.tv_nsec" ::= 2000000;
     U (timer_settime "tid" 0 (its "its") []); "ts.tv_nsec" ::= 377000000; "ts.tv_sec" ::= 0;
     U (nanosleep "ts.tv_sec" "ts.tv_nsec" []); U (sigprocmask SIG_UNBLOCK "set" []);
     set_ "overruns" (timer_getoverrun "tid"); If (70 < "overruns")%pt [Return PTS_PASS] [Return PTS_FAIL]])].

Definition timer_delete_1_1 : sprog := SProg
  [("main",
    ["its.it_interval.tv_sec" ::= 0; "its.it_interval.tv_nsec" ::= 0; "its.it_value.tv_sec" ::= 3;
     "its.it_value.tv_nsec" ::= 0; Um (sigaction SIGALRM "handler" 0 0);
     U (timer_create CLOCK_REALTIME SIGEV_SIGNAL SIGALRM 0 (LVar "tid"));
     U (timer_settime "tid" 0 (its "its") []); U (timer_delete "tid"); F (sleep 3); Return PTS_PASS]);
   ("handler", [Exit PTS_FAIL])].

Definition timer_delete_1_2 : sprog := SProg
  [("main",
    [U (timer_create CLOCK_REALTIME SIGEV_SIGNAL SIGALRM 0 (LVar "tid")); U (timer_delete "tid");
     "its.it_interval.tv_sec" ::= 0; "its.it_interval.tv_nsec" ::= 0; "its.it_value.tv_sec" ::= 3;
     "its.it_value.tv_nsec" ::= 0; expect (timer_settime "tid" 0 (its "its") []) (-1) (Returns PTS_FAIL);
     If (errno_ == (err_num EINVAL))%pt [Return PTS_PASS] [Return PTS_FAIL]])].

(** ** All *)

(** The tests that pass on an ideal system. *)
Definition time_tests : list sprog :=
  [nanosleep_1_1; nanosleep_1_2; nanosleep_1_3; nanosleep_2_1; nanosleep_3_1; nanosleep_3_2; nanosleep_5_1;
   nanosleep_5_2; nanosleep_6_1; nanosleep_7_1; nanosleep_7_2; nanosleep_10000_1; clock_nanosleep_1_1;
   clock_nanosleep_1_3; clock_nanosleep_1_4; clock_nanosleep_1_5; clock_nanosleep_2_1; clock_nanosleep_2_2;
   clock_nanosleep_2_3; clock_nanosleep_3_1; clock_nanosleep_9_1; clock_nanosleep_10_1; clock_nanosleep_11_1;
   clock_nanosleep_13_1; clock_gettime_1_1; clock_gettime_1_2; clock_gettime_2_1; clock_gettime_3_1;
   clock_gettime_7_1; clock_gettime_8_1; clock_gettime_8_2; clock_getres_1_1; clock_getres_3_1;
   clock_getres_5_1; clock_getres_6_1; clock_getres_6_2; time_1_1; clock_settime_1_1; clock_settime_4_1;
   clock_settime_4_2; clock_settime_5_1; clock_settime_5_2; clock_settime_6_1; clock_settime_7_1;
   clock_settime_7_2; clock_settime_8_1; clock_settime_17_1; clock_settime_17_2; clock_settime_19_1;
   clock_settime_20_1; timer_create_1_1; timer_create_3_1; timer_create_7_1; timer_create_8_1;
   timer_create_16_1; timer_settime_1_1; timer_settime_1_2; timer_settime_2_1; timer_settime_3_1;
   timer_settime_3_2; timer_settime_3_3; timer_settime_5_1; timer_settime_5_2; timer_settime_5_3;
   timer_settime_6_1; timer_settime_8_1; timer_settime_8_2; timer_settime_8_3; timer_settime_8_4;
   timer_settime_9_1; timer_settime_9_2; timer_settime_13_1; timer_gettime_1_1; timer_gettime_1_2;
   timer_gettime_1_3; timer_gettime_1_4; timer_gettime_2_1; timer_gettime_2_2; timer_gettime_3_1;
   timer_getoverrun_1_1; timer_getoverrun_2_1; timer_getoverrun_2_2; timer_delete_1_1; timer_delete_1_2].
