(* ===== verification/OsSignalTests.v ===== *)
(** * The tests of sending and accepting signals

    conformance/interfaces/{kill,killpg,sigqueue,sigwait,sigwaitinfo,sigtimedwait,sigsuspend,sigpause,pthread_kill,
    pthread_sigmask}. *)

From stdpp Require Import base tactics numbers list gmap strings.
From S2P Require Import Prelude CLang OsLang OsSem.

Open Scope Z_scope.

(** ** kill *)

Definition kill_1_2 : sprog := SProg
  [("main",
    ["set" ::= 0; "set" ::= add_sig "set" SIGUSR1; set_ "pid" fork;
     If ("pid" == 0)%pt
       [ignore (sigaction SIGUSR1 "myhandler" 0 0); check (sigwait "set" (LVar "sig")) (Returns 0);
        ret_if ("sig" != SIGUSR1)%pt 0; Return 1]
       [ignore (sleep 1); U (kill "pid" SIGUSR1); Um (wait [LVar "i"]);
        If (WEXITSTATUS "i") [Return PTS_PASS] [Return PTS_FAIL]]]);
   ("myhandler", [Exit 1])].

(** ** killpg *)

Definition killpg_1_1 : sprog := SProg
  [("main",
    [Um (sigaction SIGCHLD "handler" 0 0); set_ "pgrp" getpgrp; ret_if ("pgrp" == -1)%pt PTS_UNRESOLVED;
     U (killpg "pgrp" SIGCHLD); Return PTS_FAIL]);
   ("handler", [Exit 0])].

Definition killpg_2_1 : sprog := SProg
  [("main",
    [set_ (LLoc "rc") getpgrp; F (killpg (Loc "rc") 0); Return PTS_PASS])].

Definition killpg_4_1 : sprog := SProg
  [("main",
    [set_ "pgrp" getpgrp; ret_if ("pgrp" == -1)%pt PTS_UNRESOLVED; U (killpg "pgrp" 0); Return PTS_PASS])].

Definition killpg_5_1 : sprog := SProg
  [("main",
    [set_ "pgrp" getpgrp; ret_if ("pgrp" == -1)%pt PTS_UNRESOLVED;
     expect (killpg "pgrp" (-1)) (-1) (Returns PTS_FAIL); Return PTS_PASS])].

Definition killpg_6_1 : sprog := SProg
  [("main",
    [set_ "pgrp" getpgrp; ret_if ("pgrp" == -1)%pt PTS_UNRESOLVED;
     expect (killpg "pgrp" (-1)) (-1) (Returns PTS_UNRESOLVED);
     ret_if (errno_ != (err_num EINVAL))%pt PTS_FAIL; Return PTS_PASS])].

Definition killpg_8_1 : sprog := SProg
  [("main",
    [expect (killpg 999999 0) (-1) (Returns PTS_UNRESOLVED); ret_if (errno_ != (err_num ESRCH))%pt PTS_FAIL;
     Return PTS_PASS])].

(** ** sigqueue *)

Definition sigqueue_1_1 : sprog := SProg
  [("main",
    [set_ "pid" fork;
     If ("pid" == 0)%pt
       [ignore (sigaction SIGRTMIN "myhandler" SA_SIGINFO 0); While 1 [ignore (sleep 1)]; Return 0]
       [];
     "value" ::= 100; ignore (sleep 1); U (sigqueue "pid" SIGRTMIN "value"); Um (wait [LVar "i"]);
     If (WEXITSTATUS "i") [Return PTS_PASS] [Return PTS_FAIL]]);
   ("myhandler", [exit_if ((Loc "signo" == SIGRTMIN) && (Loc "si_value" == 100))%pt 1])].

Definition sigqueue_2_1 : sprog := SProg
  [("main",
    ["value" ::= 0; set_ (LLoc "rc") getpid; F (sigqueue (Loc "rc") 0 "value"); Return PTS_PASS])].

Definition sigqueue_2_2 : sprog := SProg
  [("main",
    ["failure" ::= 0; "value" ::= 0; set_ (LLoc "rc") (sigqueue 999999 0 "value");
     If (-1 == Loc "rc")%pt [If ((err_num ESRCH) != errno_)%pt ["failure" ::= 1] []] ["failure" ::= 1];
     If "failure" [Return PTS_FAIL] [Return PTS_PASS]])].

Definition sigqueue_4_1 : sprog := SProg
  [("main",
    ["counter" ::= 0; ignore (sigaction SIGRTMIN "myhandler" SA_SIGINFO 0); set_ "pid" getpid;
     ignore (sighold SIGRTMIN); "i" ::= 0;
     While ("i" < 5)%pt ["value" ::= "i"; U (sigqueue "pid" SIGRTMIN "value"); "i" ::= "i" + 1];
     ret_if (0 != "counter")%pt PTS_UNRESOLVED; ignore (sigrelse SIGRTMIN);
     ret_if (5 != "counter")%pt PTS_FAIL; Return PTS_PASS]);
   ("myhandler", ["counter" ::= "counter" + 1])].

Definition sigqueue_5_1 : sprog := SProg
  [("main",
    ["counter" ::= 0; ignore (sigaction SIGRTMIN "myhandler" 0 0); "value" ::= 0; set_ "pid" getpid;
     ignore (sighold SIGRTMIN); "i" ::= 0;
     While ("i" < 5)%pt [U (sigqueue "pid" SIGRTMIN "value"); "i" ::= "i" + 1];
     ret_if (0 != "counter")%pt PTS_UNRESOLVED; ignore (sigrelse SIGRTMIN);
     ret_if ("counter" < 1)%pt PTS_FAIL; Return PTS_PASS]);
   ("myhandler", ["counter" ::= "counter" + 1])].

Definition sigqueue_6_1 : sprog := SProg
  [("main",
    ["return_val" ::= 1; "handler_called" ::= 0; ignore (sigaction SIGRTMIN "myhandler" SA_SIGINFO 0);
     "value" ::= 0; set_ "pid" getpid; set_ "return_val" (sigqueue "pid" SIGRTMIN "value");
     ret_if ("return_val" != 0)%pt PTS_UNRESOLVED; ret_if ("handler_called" != 1)%pt PTS_FAIL;
     Return PTS_PASS]);
   ("myhandler", ["handler_called" ::= 1; exit_if ("return_val" != 1)%pt 1])].

Definition sigqueue_7_1 : sprog := SProg
  [("main",
    ["last_signal" ::= 0; "test_failed" ::= 0; "mask" ::= 0; "act.sa_mask" ::= 0; "rtsig" ::= SIGRTMAX;
     While (SIGRTMIN <= "rtsig")%pt
       ["act.sa_mask" ::= add_sig "act.sa_mask" "rtsig"; ignore (sighold "rtsig");
        "mask" ::= add_sig "mask" "rtsig"; "rtsig" ::= "rtsig" - 1];
     set_ "pid" getpid; "value" ::= 5; "rtsig" ::= SIGRTMAX;
     While (SIGRTMIN <= "rtsig")%pt
       [ignore (sigaction "rtsig" "myhandler" SA_SIGINFO "act.sa_mask"); U (sigqueue "pid" "rtsig" "value");
        "rtsig" ::= "rtsig" - 1];
     ignore (sigprocmask SIG_UNBLOCK "mask" []); ret_if ("test_failed" == 1)%pt PTS_FAIL; Return PTS_PASS]);
   ("myhandler", [If (Loc "signo" <= "last_signal")%pt ["test_failed" ::= 1] []])].

Definition sigqueue_8_1 : sprog := SProg
  [("main",
    ["counter" ::= 0; ignore (sigaction SIGRTMIN "myhandler" SA_SIGINFO 0); "value" ::= 0; set_ "pid" getpid;
     ignore (sighold SIGRTMIN); "i" ::= 0;
     While ("i" < 5)%pt [F (sigqueue "pid" SIGRTMIN "value"); "i" ::= "i" + 1];
     ret_if (0 != "counter")%pt PTS_UNRESOLVED; ignore (sigrelse SIGRTMIN);
     ret_if (5 != "counter")%pt PTS_UNRESOLVED; Return PTS_PASS]);
   ("myhandler", ["counter" ::= "counter" + 1])].

Definition sigqueue_10_1 : sprog := SProg
  [("main",
    ["failure" ::= 0; "value" ::= 0; set_ (LLoc "rc") getpid;
     set_ (LLoc "rc2") (sigqueue (Loc "rc") (-1) "value");
     If (-1 == Loc "rc2")%pt [If ((err_num EINVAL) != errno_)%pt ["failure" ::= 1] []] ["failure" ::= 1];
     ret_if "failure" PTS_FAIL; Return PTS_PASS])].

Definition sigqueue_11_1 : sprog := SProg
  [("main",
    ["failure" ::= 0; "value" ::= 0; set_ (LLoc "rc") (sigqueue 999999 0 "value");
     If (-1 == Loc "rc")%pt [If ((err_num ESRCH) != errno_)%pt ["failure" ::= 1] []] ["failure" ::= 1];
     ret_if "failure" PTS_FAIL; Return PTS_PASS])].

(** ** sigwait *)

Definition sigwait_1_1 : sprog := SProg
  [("main",
    ["newmask" ::= 0; "pendingset" ::= 0; "newmask" ::= add_sig "newmask" SIGALRM;
     Um (sigprocmask SIG_SETMASK "newmask" []); U (raise SIGALRM); Um (sigpending (LVar "pendingset"));
     ret_if (is_member "pendingset" SIGALRM != 1)%pt PTS_FAIL; F (sigwait "newmask" (LVar "sig"));
     ret_if ("sig" != SIGALRM)%pt PTS_FAIL; Um (sigpending (LVar "pendingset"));
     ret_if (is_member "pendingset" SIGALRM != 0)%pt PTS_FAIL; Return PTS_PASS])].

Definition sigwait_2_1 : sprog := SProg
  [("main",
    ["newmask" ::= 0; "pendingset" ::= 0; "newmask" ::= add_sig "newmask" SIGRTMIN;
     Um (sigpending (LVar "pendingset")); ret_if (is_member "pendingset" SIGRTMIN == 1)%pt PTS_UNRESOLVED;
     Um (sigprocmask SIG_SETMASK "newmask" []); U (raise SIGRTMIN); U (raise SIGRTMIN);
     Um (sigpending (LVar "pendingset")); ret_if (is_member "pendingset" SIGRTMIN == 0)%pt (-1);
     F (sigwait "newmask" (LVar "sig")); Um (sigpending (LVar "pendingset"));
     ret_if (is_member "pendingset" SIGRTMIN == 0)%pt PTS_FAIL; F (sigwait "newmask" (LVar "sig"));
     Um (sigpending (LVar "pendingset")); ret_if (is_member "pendingset" SIGRTMIN != 0)%pt PTS_FAIL;
     Return PTS_PASS])].

Definition sigwait_3_1 : sprog := SProg
  [("main",
    ["newmask" ::= 0; "pendingset" ::= 0; "newmask" ::= add_sig "newmask" SIGALRM;
     Um (sigprocmask SIG_SETMASK "newmask" []); U (raise SIGALRM); U (raise SIGALRM); U (raise SIGALRM);
     U (raise SIGALRM); Um (sigpending (LVar "pendingset"));
     ret_if (is_member "pendingset" SIGALRM == 0)%pt PTS_UNRESOLVED; U (sigwait "newmask" (LVar "sig"));
     Um (sigpending (LVar "pendingset")); ret_if (is_member "pendingset" SIGALRM == 1)%pt PTS_FAIL;
     Return PTS_PASS])].

Definition sigwait_4_1 : sprog := SProg
  [("main",
    ["newmask" ::= 0; "pendingset" ::= 0; "newmask" ::= add_sig "newmask" SIGALRM;
     Um (sigprocmask SIG_SETMASK "newmask" []);
     U (gettimeofday [LVar "tv_ref.tv_sec"; LVar "tv_ref.tv_usec"]); ignore (alarm 3);
     U (sigwait "newmask" (LVar "sig")); U (gettimeofday [LVar "tv_cur.tv_sec"; LVar "tv_cur.tv_usec"]);
     ret_if ("tv_cur.tv_sec" - "tv_ref.tv_sec" < 2)%pt PTS_FAIL; Return PTS_PASS])].

Definition sigwait_7_1 : sprog := SProg
  [("main",
    ["rts" ::= 200112; exit_if ("rts" < 0)%pt PTS_UNTESTED; "set" ::= 0; "ret" ::= 0;
     exit_if ("ret" != 0)%pt PTS_UNRESOLVED; "i" ::= SIGRTMIN;
     While ("i" <= SIGRTMAX)%pt
       ["set" ::= add_sig "set" "i"; "ret" ::= 0; exit_if ("ret" != 0)%pt PTS_UNRESOLVED; "i" ::= "i" + 1];
     set_ "ret" (pthread_sigmask SIG_BLOCK "set" []); exit_if ("ret" != 0)%pt PTS_UNRESOLVED;
     "i" ::= SIGRTMIN + 1;
     While ("i" <= SIGRTMAX)%pt
       [set_ "ret" (raise "i"); exit_if ("ret" != 0)%pt PTS_UNRESOLVED; "i" ::= "i" + 3];
     "i" ::= SIGRTMIN;
     While ("i" <= SIGRTMAX)%pt
       [set_ "ret" (raise "i"); exit_if ("ret" != 0)%pt PTS_UNRESOLVED; "i" ::= "i" + 3];
     "i" ::= SIGRTMIN + 2;
     While ("i" <= SIGRTMAX)%pt
       [set_ "ret" (raise "i"); exit_if ("ret" != 0)%pt PTS_UNRESOLVED; "i" ::= "i" + 3];
     "i" ::= SIGRTMIN;
     While ("i" <= SIGRTMAX)%pt
       [set_ "ret" (sigwait "set" (LVar "sig")); exit_if ("ret" != 0)%pt PTS_UNRESOLVED;
        exit_if ("sig" != "i")%pt PTS_FAIL; "i" ::= "i" + 1];
     Exit PTS_PASS])].

Definition sigwait_8_1 : sprog := SProg
  [("main",
    ["newmask" ::= 0; "pendingset" ::= 0; "newmask" ::= add_sig "newmask" SIGALRM;
     Um (sigprocmask SIG_SETMASK "newmask" []); U (raise SIGALRM); F (sigwait "newmask" (LVar "sig"));
     If ("sig" == SIGALRM)%pt [Return PTS_PASS] [Return PTS_FAIL]])].

(** ** sigwaitinfo *)

Definition sigwaitinfo_1_1 : sprog := SProg
  [("main",
    ["pendingset" ::= 0; "selectset" ::= 0; "selectset" ::= add_sig "selectset" SIGUSR1;
     ignore (sigaction SIGUSR1 "myhandler" 0 0); ignore (sighold SIGUSR1); ignore (raise SIGUSR1);
     ignore (sigpending (LVar "pendingset")); ret_if (is_member "pendingset" SIGUSR1 != 1)%pt PTS_UNRESOLVED;
     Um (sigwaitinfo "selectset" []); "pendingset" ::= 0; ignore (sigpending (LVar "pendingset"));
     ret_if (is_member "pendingset" SIGUSR1 != 0)%pt PTS_FAIL; Return PTS_PASS]);
   ("myhandler", [])].

Definition sigwaitinfo_2_1 : sprog := SProg
  [("main",
    ["selectset" ::= 0; "act.sa_mask" ::= 0; "rtsig" ::= SIGRTMAX;
     While (SIGRTMIN <= "rtsig")%pt
       ["act.sa_mask" ::= add_sig "act.sa_mask" "rtsig"; ignore (sighold "rtsig");
        "selectset" ::= add_sig "selectset" "rtsig"; "rtsig" ::= "rtsig" - 1];
     set_ "pid" getpid; "value" ::= 5; "rtsig" ::= SIGRTMAX;
     While (SIGRTMIN <= "rtsig")%pt
       [ignore (sigaction "rtsig" "myhandler" SA_SIGINFO "act.sa_mask"); U (sigqueue "pid" "rtsig" "value");
        "rtsig" ::= "rtsig" - 1];
     expect (sigwaitinfo "selectset" []) SIGRTMIN (Returns PTS_FAIL); Return PTS_PASS]);
   ("myhandler", [])].

Definition sigwaitinfo_3_1 : sprog := SProg
  [("main",
    [set_ "pid" fork;
     If ("pid" == 0)%pt
       [Um (sigaction SIGUSR1 "handler" 0 0); "selectset" ::= 0; "selectset" ::= add_sig "selectset" SIGUSR1;
        Um (sigwaitinfo "selectset" []); ignore (sleep 1); Return PTS_PASS]
       [ignore (sleep 1); ignore (kill "pid" SIGUSR1); Um (wait [LVar "s"]);
        ret_if (negb_ (WIFEXITED "s")) PTS_FAIL; "exit_status" ::= WEXITSTATUS "s";
        ret_if ("exit_status" != PTS_PASS)%pt PTS_FAIL; Return PTS_PASS]]);
   ("handler", [])].

Definition sigwaitinfo_5_1 : sprog := SProg
  [("main",
    ["selectset" ::= 0; "selectset" ::= add_sig "selectset" SIGUSR1;
     ignore (sigaction SIGUSR1 "myhandler" SA_SIGINFO 0); ignore (sighold SIGUSR1); ignore (raise SIGUSR1);
     Um (sigwaitinfo "selectset" [LVar "info.si_signo"; LVar "info.si_code"; LVar "info.si_value"]);
     ret_if ("info.si_signo" != SIGUSR1)%pt PTS_FAIL; Return PTS_PASS]);
   ("myhandler", [])].

Definition sigwaitinfo_6_1 : sprog := SProg
  [("main",
    ["selectset" ::= 0; "selectset" ::= add_sig "selectset" SIGUSR1;
     ignore (sigaction SIGUSR1 "myhandler" SA_SIGINFO 0); ignore (sighold SIGUSR1); ignore (raise SIGUSR1);
     Um (sigwaitinfo "selectset" [LVar "info.si_signo"; LVar "info.si_code"; LVar "info.si_value"]);
     ret_if ("info.si_code" != SI_USER)%pt PTS_FAIL; Return PTS_PASS]);
   ("myhandler", [])].

Definition sigwaitinfo_7_1 : sprog := SProg
  [("main",
    ["counter" ::= 0; ignore (sigaction SIGRTMIN "myhandler" SA_SIGINFO 0); set_ "pid" getpid;
     ignore (sighold SIGRTMIN); "i" ::= 5;
     While (0 < "i")%pt ["value" ::= "i"; F (sigqueue "pid" SIGRTMIN "value"); "i" ::= "i" - 1];
     "selectset" ::= 0; "selectset" ::= add_sig "selectset" SIGRTMIN; "i" ::= 5;
     While (0 < "i")%pt
       [expect (sigwaitinfo "selectset" [LVar "info.si_signo"; LVar "info.si_code"; LVar "info.si_value"]) SIGRTMIN (Returns PTS_UNRESOLVED);
        ret_if ("info.si_value" != "i")%pt PTS_FAIL; "i" ::= "i" - 1];
     Return PTS_PASS]);
   ("myhandler", ["counter" ::= "counter" + 1])].

Definition sigwaitinfo_8_1 : sprog := SProg
  [("main",
    [ignore (sigaction SIGRTMIN "myhandler" SA_SIGINFO 0); set_ "pid" getpid; ignore (sighold SIGRTMIN);
     "i" ::= 5; While (0 < "i")%pt ["value" ::= "i"; F (sigqueue "pid" SIGRTMIN "value"); "i" ::= "i" - 1];
     "selectset" ::= 0; "selectset" ::= add_sig "selectset" SIGRTMIN; "i" ::= 5;
     While (0 < "i")%pt
       [expect (sigwaitinfo "selectset" [LVar "info.si_signo"; LVar "info.si_code"; LVar "info.si_value"]) SIGRTMIN (Returns PTS_UNRESOLVED);
        "i" ::= "i" - 1];
     "pendingset" ::= 0; ignore (sigpending (LVar "pendingset"));
     ret_if (is_member "pendingset" SIGRTMIN != 0)%pt PTS_FAIL; Return PTS_PASS]);
   ("myhandler", [])].

Definition sigwaitinfo_9_1 : sprog := SProg
  [("main",
    ["pendingset" ::= 0; "selectset" ::= 0; "selectset" ::= add_sig "selectset" SIGUSR1;
     ignore (sigaction SIGUSR1 "myhandler" 0 0); ignore (sighold SIGUSR1); ignore (raise SIGUSR1);
     ignore (sigpending (LVar "pendingset")); ret_if (is_member "pendingset" SIGUSR1 != 1)%pt PTS_UNRESOLVED;
     expect (sigwaitinfo "selectset" []) SIGUSR1 (Returns PTS_FAIL); Return PTS_PASS]);
   ("myhandler", [])].

(** ** sigtimedwait *)

Definition sigtimedwait_4_1 : sprog := SProg
  [("main",
    ["ts.tv_sec" ::= 0; "ts.tv_nsec" ::= 0; "pendingset" ::= 0; "selectset" ::= 0;
     "selectset" ::= add_sig "selectset" SIGUSR1; ignore (sigaction SIGUSR1 "myhandler" 0 0);
     ignore (sighold SIGUSR1); ignore (raise SIGUSR1); ignore (sigpending (LVar "pendingset"));
     ret_if (is_member "pendingset" SIGUSR1 != 1)%pt PTS_UNRESOLVED;
     expect (sigtimedwait "selectset" [] "ts.tv_sec" "ts.tv_nsec") SIGUSR1 (Returns PTS_FAIL);
     Return PTS_PASS]);
   ("myhandler", [])].

Definition sigtimedwait_5_1 : sprog := SProg
  [("main",
    [ignore (sigaction SIGUSR1 "myhandler" 0 0); "selectset" ::= 0;
     "selectset" ::= add_sig "selectset" SIGUSR2; "ts.tv_sec" ::= 0; "ts.tv_nsec" ::= 0;
     expect (sigtimedwait "selectset" [] "ts.tv_sec" "ts.tv_nsec") (-1) (Returns PTS_FAIL); Return PTS_PASS]);
   ("myhandler", [Exit PTS_FAIL])].

Definition sigtimedwait_6_1 : sprog := SProg
  [("main",
    [ignore (sigaction SIGUSR1 "myhandler" 0 0); "selectset" ::= 0;
     "selectset" ::= add_sig "selectset" SIGUSR2; "ts.tv_sec" ::= 1; "ts.tv_nsec" ::= 0;
     expect (sigtimedwait "selectset" [] "ts.tv_sec" "ts.tv_nsec") (-1) (Returns PTS_UNRESOLVED);
     ret_if (errno_ != (err_num EAGAIN))%pt PTS_FAIL; Return PTS_PASS]);
   ("myhandler", [Exit PTS_FAIL])].

(** ** sigsuspend *)

Definition sigsuspend_1_1 : sprog := SProg
  [("main",
    ["SIGUSR1_called" ::= 0; "SIGUSR2_called" ::= 0; set_ "pid" fork;
     If ("pid" == 0)%pt
       ["tempmask" ::= 0; "tempmask" ::= add_sig "tempmask" SIGUSR2; Um (sigaction SIGUSR1 "handler" 0 0);
        Um (sigaction SIGUSR2 "handler" 0 0); "originalmask" ::= 0;
        "originalmask" ::= add_sig "originalmask" SIGUSR1; ignore (sigprocmask SIG_SETMASK "originalmask" []);
        ignore (sigsuspend "tempmask"); ignore (sleep 1); Return 2]
       [ignore (sleep 3); ignore (kill "pid" SIGUSR2); ret_if ("SIGUSR2_called" == 1)%pt PTS_FAIL;
        ignore (kill "pid" SIGUSR1); Um (wait [LVar "s"]); ret_if (negb_ (WIFEXITED "s")) PTS_FAIL;
        "exit_status" ::= WEXITSTATUS "s"; ret_if ("exit_status" == 1)%pt PTS_UNRESOLVED;
        ret_if ("exit_status" == 2)%pt PTS_FAIL; Return PTS_PASS]]);
   ("handler",
    [If (Loc "signo" == SIGUSR1)%pt
       ["SIGUSR1_called" ::= 1; exit_if ("SIGUSR2_called" == 1)%pt 1]
       [If (Loc "signo" == SIGUSR2)%pt
          ["SIGUSR2_called" ::= 1; If ("SIGUSR1_called" == 1)%pt [Exit 0] [Exit 1]]
          []]])].

Definition sigsuspend_3_1 : sprog := SProg
  [("main",
    [set_ "pid" fork;
     If ("pid" == 0)%pt ["tempmask" ::= 0; expect (sigsuspend "tempmask") (-1) (Returns 1); Return 2] [];
     ignore (sleep 1); ignore (kill "pid" SIGABRT); Um (wait [LVar "s"]); "exit_status" ::= WEXITSTATUS "s";
     ret_if ("exit_status" == 1)%pt PTS_UNRESOLVED; ret_if ("exit_status" == 2)%pt PTS_FAIL; Return PTS_PASS])].

Definition sigsuspend_4_1_siglist : list Z :=
  [SIGABRT; SIGALRM; SIGBUS; SIGCHLD; SIGCONT; SIGFPE; SIGHUP; SIGILL; SIGINT; SIGPIPE; SIGQUIT; SIGSEGV;
    SIGTERM; SIGTSTP; SIGTTIN; SIGTTOU; SIGUSR1; SIGUSR2; SIGPOLL; SIGPROF; SIGSYS; SIGTRAP; SIGURG; SIGVTALRM;
    SIGXCPU; SIGXFSZ].

Definition sigsuspend_4_1 : sprog := SProg
  [("main",
    [set_ "pid" fork;
     If ("pid" == 0)%pt
       ["tempmask" ::= 0; "tempmask" ::= add_sig "tempmask" SIGUSR2; Um (sigaction SIGUSR1 "handler" 0 0);
        "originalmask" ::= 0; "originalmask" ::= add_sig "originalmask" SIGUSR1;
        ignore (sigprocmask SIG_SETMASK "originalmask" []); ignore (sigsuspend "tempmask");
        ignore (sigmask_get (LVar "currentmask")); "is_changed.set" ::= "currentmask";
        "is_changed.sig" ::= SIGUSR1; ignore (call_fn "is_changed"); ret_if (Loc "result" != 0)%pt 1;
        Return 0]
       [ignore (sleep 1); ignore (kill "pid" SIGUSR1); Um (wait [LVar "s"]);
        ret_if (negb_ (WIFEXITED "s")) PTS_FAIL; "exit_status" ::= WEXITSTATUS "s";
        ret_if ("exit_status" == 1)%pt PTS_FAIL; Return PTS_PASS]]);
   ("handler", []);
   ("is_changed",
    [ret_if (is_member "is_changed.set" "is_changed.sig" != 1)%pt 1; "i" ::= 0;
     While ("i" < 26)%pt
       [If (at_ sigsuspend_4_1_siglist "i" != "is_changed.sig")%pt
          [ret_if (is_member "is_changed.set" (at_ sigsuspend_4_1_siglist "i") != 0)%pt 1]
          [];
        "i" ::= "i" + 1];
     Return 0])].

Definition sigsuspend_6_1 : sprog := SProg
  [("main",
    [set_ "pid" fork;
     If ("pid" == 0)%pt
       ["tempmask" ::= 0; reject (sigaction SIGUSR1 "handler" 0 0) (-1) (Returns 3);
        expect (sigsuspend "tempmask") (-1) (Returns 1); ignore (sleep 1); Return 2]
       [ignore (sleep 1); ignore (kill "pid" SIGUSR1); Um (wait [LVar "s"]);
        "exit_status" ::= WEXITSTATUS "s"; ret_if ("exit_status" == 1)%pt PTS_FAIL;
        ret_if ("exit_status" == 2)%pt PTS_PASS; ret_if ("exit_status" == 3)%pt PTS_UNRESOLVED;
        Return PTS_UNRESOLVED]]);
   ("handler", [])].

(** ** sigpause *)

Definition sigpause_1_1 : sprog := SProg
  [("main",
    ["handler_called" ::= 0; U (pthread_create (LVar "new_th") "a_thread_func" []); ignore (sleep 1);
     U (pthread_kill "new_th" SIGABRT); ignore (sleep 1); ret_if ("handler_called" != 1)%pt PTS_FAIL;
     Return PTS_PASS]);
   ("handler", ["handler_called" ::= 1; Return 0]);
   ("a_thread_func",
    [ignore (sigaction SIGABRT "handler" 0 0); ignore (sighold SIGABRT); ignore (sigpause SIGABRT); Return 0])].

Definition sigpause_1_2 : sprog := SProg
  [("main",
    ["returned" ::= 0; U (pthread_create (LVar "new_th") "a_thread_func" []); "i" ::= 0;
     While ("i" < 10)%pt [ignore (sleep 1); ret_if ("returned" == 1)%pt PTS_FAIL; "i" ::= "i" + 1];
     U (pthread_kill "new_th" SIGABRT); ignore (sleep 1); ret_if ("returned" != 1)%pt PTS_FAIL;
     Return PTS_PASS]);
   ("handler", [Return 0]);
   ("a_thread_func",
    [ignore (sigaction SIGABRT "handler" 0 0); ignore (sigpause SIGABRT); "returned" ::= 1; Return 0])].

Definition sigpause_2_1 : sprog := SProg
  [("main",
    ["handler_called" ::= 0; "return_value" ::= 2; "sem" ::= 0;
     U (pthread_create (LVar "new_th") "a_thread_func" []); ignore (sleep 1);
     U (pthread_kill "new_th" SIGABRT); "sem" ::= 1; While ("sem" == 1)%pt [ignore (sleep 1)];
     ret_if ("handler_called" != 1)%pt PTS_UNRESOLVED;
     If ("return_value" != 0)%pt
       [ret_if ("return_value" == 1)%pt PTS_FAIL; ret_if ("return_value" == 2)%pt PTS_UNRESOLVED;
        Return PTS_UNRESOLVED]
       [];
     Return PTS_PASS]);
   ("handler", ["handler_called" ::= 1; Return 0]);
   ("a_thread_func",
    [ignore (sigaction SIGABRT "handler" 0 0); ignore (sighold SIGABRT); set_ (LLoc "rc") (sigpause SIGABRT);
     If ((Loc "rc" != -1) || (errno_ != (err_num EINTR)))%pt ["return_value" ::= 2; Return 0] [];
     ignore (sleep 1); ignore (raise SIGABRT); ignore (sigpending (LLoc "pendingset"));
     If (is_member (Loc "pendingset") SIGABRT == 1)%pt ["return_value" ::= 0] []; "sem" ::= 0; Return 0])].

Definition sigpause_4_1 : sprog := SProg
  [("main",
    ["return_value" ::= 0; set_ "return_value" (sigpause (-1));
     If ("return_value" == -1)%pt
       [If (errno_ == (err_num EINVAL))%pt ["result" ::= 0] ["result" ::= 1]]
       ["result" ::= 1];
     ret_if ("result" == 2)%pt PTS_UNRESOLVED; ret_if ("result" == 1)%pt PTS_FAIL; Return PTS_PASS])].

(** ** pthread_kill *)

Definition pthread_kill_1_1 : sprog := SProg
  [("main",
    ["handler_called" ::= 0; "sem1" ::= 0; U (pthread_create (LVar "new_th") "a_thread_func" []);
     While ("sem1" == 0)%pt [ignore (sleep 1)]; F (pthread_kill "new_th" SIGABRT); "sem1" ::= 0;
     While ("handler_called" == 0)%pt [ignore (sleep 1)]; ret_if ("handler_called" == -1)%pt PTS_FAIL;
     ret_if ("handler_called" == 0)%pt PTS_FAIL; Return PTS_PASS]);
   ("handler", ["handler_called" ::= 1; Return 0]);
   ("a_thread_func",
    [ignore (sigaction SIGABRT "handler" 0 0); "sem1" ::= 1; While ("sem1" == 1)%pt [ignore (sleep 1)];
     ignore (sleep 5); "handler_called" ::= -1; Thread_exit 0])].

Definition pthread_kill_2_1 : sprog := SProg
  [("main",
    [set_ "main_thread" pthread_self; F (pthread_kill "main_thread" 0); Return PTS_PASS])].

Definition pthread_kill_3_1 : sprog := SProg
  [("main",
    [set_ "main_thread" pthread_self; U (pthread_kill "main_thread" 0); Return PTS_PASS])].

Definition pthread_kill_7_1 : sprog := SProg
  [("main",
    [set_ "main_thread" pthread_self;
     expect (pthread_kill "main_thread" (-1)) (err_num EINVAL) (Returns PTS_FAIL); Return PTS_PASS])].

(** ** pthread_sigmask *)

Definition pthread_sigmask_4_1 : sprog := SProg
  [("main",
    ["handler_called" ::= 0; U (pthread_create (LVar "new_thread") "a_thread_func" []);
     U (pthread_join "new_thread" [LVar "thread_return_value"]);
     If ("thread_return_value" != 0)%pt
       [ret_if ("thread_return_value" == 1)%pt PTS_UNRESOLVED;
        If ("thread_return_value" == -1)%pt [Return PTS_FAIL] [Return PTS_UNRESOLVED]]
       [];
     Return PTS_PASS]);
   ("handler", ["handler_called" ::= 1]);
   ("a_thread_func",
    [LLoc "blocked_set1" ::= 0; LLoc "blocked_set2" ::= 0;
     LLoc "blocked_set1" ::= add_sig (Loc "blocked_set1") SIGABRT;
     LLoc "blocked_set2" ::= add_sig (Loc "blocked_set2") SIGALRM;
     set_ (LLoc "rc") (sigaction SIGABRT "handler" 0 0); If (Loc "rc" == -1)%pt [Thread_exit 1] [];
     set_ (LLoc "rc") (sigaction SIGALRM "handler" 0 0); If (Loc "rc" == -1)%pt [Thread_exit 1] [];
     set_ (LLoc "rc") (pthread_sigmask SIG_SETMASK (Loc "blocked_set1") []);
     If (Loc "rc" == -1)%pt [Thread_exit 1] [];
     set_ (LLoc "rc") (pthread_sigmask SIG_BLOCK (Loc "blocked_set2") []);
     If (Loc "rc" == -1)%pt [Thread_exit 1] []; set_ (LLoc "rc") (raise SIGABRT);
     set_ (LLoc "rc2") (raise SIGALRM); If (eor (Loc "rc" == -1)%pt (Loc "rc2" == -1)%pt) [Thread_exit 1] [];
     If "handler_called" [Thread_exit (-1)] []; set_ (LLoc "rc") (sigpending (LLoc "pending_set"));
     If (Loc "rc" == -1)%pt [Thread_exit 1] [];
     If (eor (is_member (Loc "pending_set") SIGABRT != 1)%pt (is_member (Loc "pending_set") SIGALRM != 1)%pt)
       [Thread_exit (-1)]
       [];
     Thread_exit 0])].

Definition pthread_sigmask_5_1 : sprog := SProg
  [("main",
    ["handler_called" ::= 0; U (pthread_create (LVar "new_thread") "a_thread_func" []);
     U (pthread_join "new_thread" [LVar "thread_return_value"]);
     If ("thread_return_value" != 0)%pt
       [ret_if ("thread_return_value" == 1)%pt PTS_UNRESOLVED;
        If ("thread_return_value" == -1)%pt [Return PTS_FAIL] [Return PTS_UNRESOLVED]]
       [];
     Return PTS_PASS]);
   ("handler", ["handler_called" ::= 1]);
   ("a_thread_func",
    [LLoc "blocked_set" ::= 0; LLoc "blocked_set" ::= add_sig (Loc "blocked_set") SIGABRT;
     set_ (LLoc "rc") (sigaction SIGABRT "handler" 0 0); If (Loc "rc" == -1)%pt [Thread_exit 1] [];
     set_ (LLoc "rc") (pthread_sigmask SIG_SETMASK (Loc "blocked_set") []);
     If (Loc "rc" == -1)%pt [Thread_exit 1] []; set_ (LLoc "rc") (raise SIGABRT);
     If (Loc "rc" == -1)%pt [Thread_exit 1] []; If "handler_called" [Thread_exit (-1)] [];
     set_ (LLoc "rc") (sigpending (LLoc "pending_set")); If (Loc "rc" == -1)%pt [Thread_exit 1] [];
     If (is_member (Loc "pending_set") SIGABRT == -1)%pt [Thread_exit (-1)] [];
     If (is_member (Loc "pending_set") SIGABRT != 1)%pt [Thread_exit 1] []; LLoc "blocked_set" ::= 0;
     LLoc "blocked_set" ::= add_sig (Loc "blocked_set") SIGUSR1;
     set_ (LLoc "rc") (pthread_sigmask SIG_SETMASK (Loc "blocked_set") []);
     If (Loc "rc" == -1)%pt [Thread_exit 1] []; ignore sched_yield;
     If (negb_ "handler_called") [Thread_exit (-1)] []; Thread_exit 0])].

Definition pthread_sigmask_6_1 : sprog := SProg
  [("main",
    ["handler_called" ::= 0; U (pthread_create (LVar "new_thread") "a_thread_func" []);
     U (pthread_join "new_thread" [LVar "thread_return_value"]);
     If ("thread_return_value" != 0)%pt
       [ret_if ("thread_return_value" == 1)%pt PTS_UNRESOLVED;
        If ("thread_return_value" == -1)%pt [Return PTS_FAIL] [Return PTS_UNRESOLVED]]
       [];
     Return PTS_PASS]);
   ("handler", ["handler_called" ::= 1]);
   ("a_thread_func",
    [LLoc "set1" ::= 0; LLoc "set1" ::= add_sig (Loc "set1") SIGABRT;
     LLoc "set1" ::= add_sig (Loc "set1") SIGALRM; LLoc "set2" ::= 0;
     LLoc "set2" ::= add_sig (Loc "set2") SIGALRM; set_ (LLoc "rc") (sigaction SIGABRT "handler" 0 0);
     If (Loc "rc" == -1)%pt [Thread_exit 1] []; set_ (LLoc "rc") (sigaction SIGALRM "handler" 0 0);
     If (Loc "rc" == -1)%pt [Thread_exit 1] [];
     set_ (LLoc "rc") (pthread_sigmask SIG_SETMASK (Loc "set1") []);
     If (Loc "rc" == -1)%pt [Thread_exit 1] [];
     set_ (LLoc "rc") (pthread_sigmask SIG_UNBLOCK (Loc "set2") []);
     If (Loc "rc" == -1)%pt [Thread_exit 1] []; set_ (LLoc "rc") (raise SIGALRM);
     If (Loc "rc" == -1)%pt [Thread_exit 1] []; If (negb_ "handler_called") [Thread_exit (-1)] [];
     "handler_called" ::= 0; set_ (LLoc "rc") (raise SIGABRT); If (Loc "rc" == -1)%pt [Thread_exit 1] [];
     If "handler_called" [Thread_exit (-1)] []; set_ (LLoc "rc") (sigpending (LLoc "pending_set"));
     If (Loc "rc" == -1)%pt [Thread_exit 1] [];
     If (is_member (Loc "pending_set") SIGABRT != 1)%pt [Thread_exit (-1)] [];
     If (is_member (Loc "pending_set") SIGALRM != 0)%pt [Thread_exit (-1)] []; Thread_exit 0])].

Definition pthread_sigmask_9_1 : sprog := SProg
  [("main",
    ["handler_called" ::= 0; "pthread_sigmask_return_val" ::= 1;
     U (pthread_create (LVar "new_thread") "a_thread_func" []);
     U (pthread_join "new_thread" [LVar "thread_return_value"]);
     If ("thread_return_value" != 0)%pt
       [ret_if ("thread_return_value" == 1)%pt PTS_UNRESOLVED;
        If ("thread_return_value" == -1)%pt [Return PTS_FAIL] [Return PTS_UNRESOLVED]]
       [];
     Return PTS_PASS]);
   ("handler", ["handler_called" ::= 1; exit_if ("pthread_sigmask_return_val" != 1)%pt PTS_FAIL]);
   ("a_thread_func",
    [LLoc "blocked_set1" ::= 0; LLoc "blocked_set1" ::= add_sig (Loc "blocked_set1") SIGABRT;
     set_ (LLoc "rc") (sigaction SIGABRT "handler" 0 0); If (Loc "rc" == -1)%pt [Thread_exit 1] [];
     set_ (LLoc "rc") (pthread_sigmask SIG_SETMASK (Loc "blocked_set1") []);
     If (Loc "rc" == -1)%pt [Thread_exit 1] []; set_ (LLoc "rc") (raise SIGABRT);
     If (Loc "rc" == -1)%pt [Thread_exit 1] [];
     set_ "pthread_sigmask_return_val" (pthread_sigmask SIG_UNBLOCK (Loc "blocked_set1") []);
     If ("pthread_sigmask_return_val" != 0)%pt [Thread_exit 1] [];
     If ("handler_called" != 1)%pt [Thread_exit 1] []; Thread_exit 0])].

Definition pthread_sigmask_10_1 : sprog := SProg
  [("main",
    [U (pthread_create (LVar "new_thread") "a_thread_func" []);
     U (pthread_join "new_thread" [LVar "thread_return_value"]);
     If ("thread_return_value" != 0)%pt
       [ret_if ("thread_return_value" == 1)%pt PTS_UNRESOLVED;
        If ("thread_return_value" == -1)%pt [Return PTS_FAIL] [Return PTS_UNRESOLVED]]
       [];
     Return PTS_PASS]);
   ("a_thread_func",
    [LLoc "pthread_sigmask_return_val" ::= 1; LLoc "set1" ::= 0; LLoc "set2" ::= 0;
     LLoc "set1" ::= add_sig (Loc "set1") SIGKILL; LLoc "set1" ::= add_sig (Loc "set1") SIGSTOP;
     set_ (LLoc "pthread_sigmask_return_val") (pthread_sigmask SIG_SETMASK (Loc "set1") []);
     ignore (sigmask_get (LLoc "set2")); If (is_member (Loc "set2") SIGKILL) [Thread_exit (-1)] [];
     If (is_member (Loc "set2") SIGSTOP) [Thread_exit (-1)] [];
     If (Loc "pthread_sigmask_return_val" != 0)%pt [Thread_exit (-1)] []; Thread_exit 0])].

Definition pthread_sigmask_14_1 : sprog := SProg
  [("main",
    [U (pthread_create (LVar "new_thread") "a_thread_func" []);
     U (pthread_join "new_thread" [LVar "thread_return_value"]);
     If ("thread_return_value" != 0)%pt
       [ret_if ("thread_return_value" == 1)%pt PTS_UNRESOLVED;
        If ("thread_return_value" == -1)%pt [Return PTS_FAIL] [Return PTS_UNRESOLVED]]
       [];
     Return PTS_PASS]);
   ("a_thread_func",
    [LLoc "actl" ::= 0; LLoc "actl" ::= add_sig (Loc "actl") SIGABRT;
     set_ (LLoc "rc") (pthread_sigmask SIG_SETMASK (Loc "actl") []);
     If (Loc "rc" != 0)%pt [Thread_exit (-1)] []; Thread_exit 0])].

Definition pthread_sigmask_15_1 : sprog := SProg
  [("main",
    ["set" ::= add_sig "set" SIGABRT; F (pthread_sigmask SIG_SETMASK "set" []); Return PTS_PASS])].

(** ** All *)

(** The tests that pass on an ideal system. *)
Definition signal_tests : list sprog :=
  [kill_1_2; killpg_1_1; killpg_2_1; killpg_4_1; killpg_5_1; killpg_6_1; killpg_8_1; sigqueue_1_1; sigqueue_2_1;
   sigqueue_2_2; sigqueue_4_1; sigqueue_5_1; sigqueue_6_1; sigqueue_7_1; sigqueue_8_1; sigqueue_10_1;
   sigqueue_11_1; sigwait_1_1; sigwait_2_1; sigwait_3_1; sigwait_4_1; sigwait_7_1; sigwait_8_1; sigwaitinfo_1_1;
   sigwaitinfo_2_1; sigwaitinfo_5_1; sigwaitinfo_6_1; sigwaitinfo_7_1; sigwaitinfo_8_1; sigwaitinfo_9_1;
   sigtimedwait_4_1; sigtimedwait_5_1; sigtimedwait_6_1; sigsuspend_1_1; sigsuspend_3_1; sigsuspend_4_1;
   sigsuspend_6_1; sigpause_1_1; sigpause_1_2; sigpause_2_1; sigpause_4_1; pthread_kill_1_1; pthread_kill_2_1;
   pthread_kill_3_1; pthread_kill_7_1; pthread_sigmask_4_1; pthread_sigmask_5_1; pthread_sigmask_6_1;
   pthread_sigmask_9_1; pthread_sigmask_10_1; pthread_sigmask_14_1; pthread_sigmask_15_1].
