(* ===== verification/OsMqTests.v ===== *)
(** * The tests of message queues with several processes, signals and timeouts

    conformance/interfaces/mq_*; MqTests has those that need no more than the calls of one process. *)

From stdpp Require Import base tactics numbers list gmap strings.
From S2P Require Import Prelude CLang OsLang OsSem.

Open Scope Z_scope.

(** ** mq_open *)

Definition mq_open_2_1 : sprog := SProg
  [("main",
    ["msgptr" ::= (text "0123456789"); set_ (LLoc "rc") getpid;
     "qname" ::= with_num "/mq_open_2-1_" (Loc "rc"); set_ "pid" fork;
     If ("pid" == 0)%pt
       [ignore (sigaction SIGUSR1 "handler" 0 0); "mask" ::= 0; "mask" ::= add_sig "mask" SIGUSR1;
        ignore (sigprocmask SIG_BLOCK "mask" []); ignore (sigwait "mask" (LVar "sig"));
        "attr.mq_msgsize" ::= 40; "attr.mq_maxmsg" ::= 40;
        set_ "childqueue" (mq_create "qname" O_RDWR "attr.mq_maxmsg" "attr.mq_msgsize");
        ret_if ("childqueue" == -1)%pt 0; set_ "ret" (mq_receive "childqueue" "msgrcd" 40 [LVar "pri"]);
        ret_if ("ret" == -1)%pt 0; ret_if (("msgptr" != "msgrcd") != 0)%pt 0; Return 1]
       ["attr.mq_msgsize" ::= 40; "attr.mq_maxmsg" ::= 40;
        set_ "queue" (mq_create "qname" (eor O_CREAT O_RDWR) "attr.mq_maxmsg" "attr.mq_msgsize");
        If ("queue" == -1)%pt [ignore (kill "pid" SIGABRT); Return PTS_UNRESOLVED] [];
        set_ (LLoc "rc") (mq_send "queue" "msgptr" (strlen_ "msgptr" + 1)%pt 1);
        If (Loc "rc" != 0)%pt
          [ignore (mq_close "queue"); ignore (mq_unlink "qname"); ignore (kill "pid" SIGABRT);
           Return PTS_UNRESOLVED]
          [];
        ignore (sleep 1); ignore (kill "pid" SIGUSR1); set_ (LLoc "rc") (wait [LVar "i"]);
        If (Loc "rc" == -1)%pt
          [ignore (mq_close "queue"); ignore (mq_unlink "qname"); Return PTS_UNRESOLVED]
          [];
        ignore (mq_close "queue"); ignore (mq_unlink "qname");
        ret_if (negb_ (WIFEXITED "i") || negb_ (WEXITSTATUS "i"))%pt PTS_FAIL; Return PTS_PASS]]);
   ("handler", [Return 0])].

Definition mq_open_4_1 : sprog := SProg
  [("main",
    [Return PTS_UNTESTED])].

Definition mq_open_7_1 : sprog := SProg
  [("main",
    ["msgptr" ::= (text "0123456789"); set_ (LLoc "rc") getpid;
     "qname" ::= with_num "/mq_open_7-1_" (Loc "rc"); "attr.mq_msgsize" ::= 40; "attr.mq_maxmsg" ::= 40;
     set_ "rdwrqueue" (mq_create "qname" (eor O_CREAT O_RDWR) "attr.mq_maxmsg" "attr.mq_msgsize");
     ret_if ("rdwrqueue" == -1)%pt PTS_UNRESOLVED;
     set_ (LLoc "rc") (mq_send "rdwrqueue" "msgptr" (strlen_ "msgptr") 1);
     If (Loc "rc" != 0)%pt
       [ignore (mq_close "rdwrqueue"); ignore (mq_unlink "qname"); Return PTS_UNRESOLVED]
       [];
     set_ "roqueue" (mq_create "qname" O_RDONLY "attr.mq_maxmsg" "attr.mq_msgsize");
     If ("roqueue" == -1)%pt
       [ignore (mq_close "rdwrqueue"); ignore (mq_unlink "qname"); Return PTS_UNRESOLVED]
       [];
     set_ (LLoc "rc") (mq_receive "roqueue" "msgrcd" 40 [LVar "pri"]);
     If (Loc "rc" == -1)%pt
       [ignore (mq_close "roqueue"); ignore (mq_close "rdwrqueue"); ignore (mq_unlink "qname");
        Return PTS_FAIL]
       [];
     set_ (LLoc "rc") (mq_send "roqueue" "msgptr" (strlen_ "msgptr") 1);
     If (Loc "rc" == 0)%pt
       [ignore (mq_close "roqueue"); ignore (mq_close "rdwrqueue"); ignore (mq_unlink "qname");
        Return PTS_FAIL]
       [];
     ignore (mq_close "rdwrqueue"); ignore (mq_close "roqueue"); ignore (mq_unlink "qname"); Return PTS_PASS])].

Definition mq_open_7_2 : sprog := SProg
  [("main",
    ["msgptr" ::= (text "0123456789"); set_ (LLoc "rc") getpid;
     "qname" ::= with_num "/mq_open_7-2_" (Loc "rc"); set_ "pid" fork;
     If ("pid" == 0)%pt
       [ignore (sigaction SIGUSR1 "handler" 0 0); "mask" ::= 0; "mask" ::= add_sig "mask" SIGUSR1;
        ignore (sigprocmask SIG_BLOCK "mask" []); ignore (sigwait "mask" (LVar "sig"));
        "attr.mq_msgsize" ::= 40; "attr.mq_maxmsg" ::= 40;
        set_ "roqueue" (mq_create "qname" O_RDONLY "attr.mq_maxmsg" "attr.mq_msgsize");
        ret_if ("roqueue" == -1)%pt 0; set_ (LLoc "rc") (mq_receive "roqueue" "msgrcd" 40 [LVar "pri"]);
        If (Loc "rc" == -1)%pt [ignore (mq_close "roqueue"); Return 0] [];
        set_ (LLoc "rc") (mq_send "roqueue" "msgptr" (strlen_ "msgptr" + 1)%pt 1);
        If (Loc "rc" == 0)%pt [ignore (mq_close "roqueue"); Return 0] []; ignore (mq_close "roqueue");
        Return 1]
       ["attr.mq_msgsize" ::= 40; "attr.mq_maxmsg" ::= 40;
        set_ "rdwrqueue" (mq_create "qname" (eor O_CREAT O_RDWR) "attr.mq_maxmsg" "attr.mq_msgsize");
        If ("rdwrqueue" == -1)%pt [ignore (kill "pid" SIGABRT); Return PTS_UNRESOLVED] [];
        set_ (LLoc "rc") (mq_send "rdwrqueue" "msgptr" (strlen_ "msgptr" + 1)%pt 1);
        If (Loc "rc" != 0)%pt
          [ignore (mq_close "rdwrqueue"); ignore (mq_unlink "qname"); ignore (kill "pid" SIGABRT);
           Return PTS_UNRESOLVED]
          [];
        ignore (sleep 1); ignore (kill "pid" SIGUSR1); set_ (LLoc "rc") (wait [LVar "i"]);
        If (Loc "rc" == -1)%pt
          [ignore (mq_close "rdwrqueue"); ignore (mq_unlink "qname"); Return PTS_UNRESOLVED]
          [];
        ignore (mq_close "rdwrqueue"); ignore (mq_unlink "qname");
        ret_if (negb_ (WIFEXITED "i") || negb_ (WEXITSTATUS "i"))%pt PTS_FAIL; Return PTS_PASS]]);
   ("handler", [Return 0])].

Definition mq_open_8_1 : sprog := SProg
  [("main",
    ["msgptr" ::= (text "0123456789"); set_ (LLoc "rc") getpid;
     "qname" ::= with_num "/mq_open_8-1_" (Loc "rc"); "attr.mq_msgsize" ::= 40; "attr.mq_maxmsg" ::= 40;
     set_ "woqueue" (mq_create "qname" (eor O_CREAT O_WRONLY) "attr.mq_maxmsg" "attr.mq_msgsize");
     ret_if ("woqueue" == -1)%pt PTS_UNRESOLVED;
     set_ (LLoc "rc") (mq_send "woqueue" "msgptr" (strlen_ "msgptr") 1);
     If (Loc "rc" != 0)%pt [ignore (mq_close "woqueue"); ignore (mq_unlink "qname"); Return PTS_UNRESOLVED] [];
     set_ (LLoc "rc") (mq_receive "woqueue" "msgrcd" 40 [LVar "pri"]);
     If (Loc "rc" != -1)%pt [ignore (mq_close "woqueue"); ignore (mq_unlink "qname"); Return PTS_FAIL] [];
     set_ "woqueue2" (mq_create "qname" O_WRONLY "attr.mq_maxmsg" "attr.mq_msgsize");
     If ("woqueue2" == -1)%pt
       [ignore (mq_close "woqueue"); ignore (mq_unlink "qname"); Return PTS_UNRESOLVED]
       [];
     set_ (LLoc "rc") (mq_send "woqueue2" "msgptr" (strlen_ "msgptr") 1);
     If (Loc "rc" != 0)%pt
       [ignore (mq_close "woqueue"); ignore (mq_close "woqueue2"); ignore (mq_unlink "qname");
        Return PTS_UNRESOLVED]
       [];
     set_ (LLoc "rc") (mq_receive "woqueue2" "msgrcd" 40 [LVar "pri"]);
     If (Loc "rc" != -1)%pt
       [ignore (mq_close "woqueue"); ignore (mq_close "woqueue2"); ignore (mq_unlink "qname");
        Return PTS_FAIL]
       [];
     ignore (mq_close "woqueue"); ignore (mq_close "woqueue2"); ignore (mq_unlink "qname"); Return PTS_PASS])].

Definition mq_open_8_2 : sprog := SProg
  [("main",
    ["msgptr" ::= (text "0123456789"); set_ (LLoc "rc") getpid;
     "qname" ::= with_num "/mq_open_8-2_" (Loc "rc"); set_ "pid" fork;
     If ("pid" == 0)%pt
       [ignore (sigaction SIGUSR1 "handler" 0 0); "mask" ::= 0; "mask" ::= add_sig "mask" SIGUSR1;
        ignore (sigprocmask SIG_BLOCK "mask" []); ignore (sigwait "mask" (LVar "sig"));
        "attr.mq_msgsize" ::= 40; "attr.mq_maxmsg" ::= 40;
        set_ "woqueue" (mq_create "qname" O_WRONLY "attr.mq_maxmsg" "attr.mq_msgsize");
        ret_if ("woqueue" == -1)%pt 0; set_ (LLoc "rc") (mq_receive "woqueue" "msgrcd" 40 [LVar "pri"]);
        If (Loc "rc" != -1)%pt [ignore (mq_close "woqueue"); Return 0] [];
        set_ (LLoc "rc") (mq_send "woqueue" "msgptr" (strlen_ "msgptr") 1);
        If (Loc "rc" == -1)%pt [ignore (mq_close "woqueue"); Return 0] []; ignore (mq_close "woqueue");
        Return 1]
       ["attr.mq_msgsize" ::= 40; "attr.mq_maxmsg" ::= 40;
        set_ "woqueue" (mq_create "qname" (eor O_CREAT O_WRONLY) "attr.mq_maxmsg" "attr.mq_msgsize");
        If ("woqueue" == -1)%pt [ignore (kill "pid" SIGABRT); Return PTS_UNRESOLVED] [];
        set_ (LLoc "rc") (mq_send "woqueue" "msgptr" (strlen_ "msgptr") 1);
        If (Loc "rc" != 0)%pt
          [ignore (kill "pid" SIGABRT); ignore (mq_close "woqueue"); ignore (mq_unlink "qname");
           Return PTS_FAIL]
          [];
        set_ (LLoc "rc") (mq_receive "woqueue" "msgrcd" 40 [LVar "pri"]);
        If (Loc "rc" != -1)%pt
          [ignore (kill "pid" SIGABRT); ignore (mq_close "woqueue"); ignore (mq_unlink "qname");
           Return PTS_FAIL]
          [];
        ignore (sleep 1); ignore (kill "pid" SIGUSR1); set_ (LLoc "rc") (wait [LVar "i"]);
        If (Loc "rc" == -1)%pt
          [ignore (mq_close "woqueue"); ignore (mq_unlink "qname"); Return PTS_UNRESOLVED]
          [];
        ignore (mq_close "woqueue"); ignore (mq_unlink "qname");
        ret_if (negb_ (WIFEXITED "i") || negb_ (WEXITSTATUS "i"))%pt PTS_FAIL; Return PTS_PASS]]);
   ("handler", [Return 0])].

Definition mq_open_9_1 : sprog := SProg
  [("main",
    ["msgptr" ::= (text "0123456789"); set_ (LLoc "rc") getpid;
     "qname" ::= with_num "/mq_open_9-1_" (Loc "rc"); "attr.mq_msgsize" ::= 40; "attr.mq_maxmsg" ::= 40;
     set_ "rdwrqueue" (mq_create "qname" (eor O_CREAT O_RDWR) "attr.mq_maxmsg" "attr.mq_msgsize");
     ret_if ("rdwrqueue" == -1)%pt PTS_UNRESOLVED;
     set_ (LLoc "rc") (mq_send "rdwrqueue" "msgptr" (strlen_ "msgptr") 1);
     If (Loc "rc" == -1)%pt [ignore (mq_close "rdwrqueue"); ignore (mq_unlink "qname"); Return PTS_FAIL] [];
     set_ (LLoc "rc") (mq_receive "rdwrqueue" "msgrcd" 40 [LVar "pri"]);
     If (Loc "rc" == -1)%pt [ignore (mq_close "rdwrqueue"); ignore (mq_unlink "qname"); Return PTS_FAIL] [];
     set_ "rdwrqueue2" (mq_create "qname" O_RDWR "attr.mq_maxmsg" "attr.mq_msgsize");
     If ("rdwrqueue2" == -1)%pt
       [ignore (mq_close "rdwrqueue"); ignore (mq_unlink "qname"); Return PTS_UNRESOLVED]
       [];
     set_ (LLoc "rc") (mq_send "rdwrqueue2" "msgptr" (strlen_ "msgptr") 1);
     If (Loc "rc" == -1)%pt
       [ignore (mq_close "rdwrqueue"); ignore (mq_close "rdwrqueue2"); ignore (mq_unlink "qname");
        Return PTS_FAIL]
       [];
     set_ (LLoc "rc") (mq_receive "rdwrqueue2" "msgrcd2" 40 [LVar "pri"]);
     If (Loc "rc" == -1)%pt
       [ignore (mq_close "rdwrqueue"); ignore (mq_close "rdwrqueue2"); ignore (mq_unlink "qname");
        Return PTS_FAIL]
       [];
     ignore (mq_close "rdwrqueue"); ignore (mq_close "rdwrqueue2"); ignore (mq_unlink "qname");
     Return PTS_PASS])].

Definition mq_open_9_2 : sprog := SProg
  [("main",
    ["msgptr" ::= (text "0123456789"); set_ (LLoc "rc") getpid;
     "qname" ::= with_num "/mq_open_9-2_" (Loc "rc"); set_ "pid" fork;
     If ("pid" == 0)%pt
       [ignore (sigaction SIGUSR1 "handler" 0 0); "mask" ::= 0; "mask" ::= add_sig "mask" SIGUSR1;
        ignore (sigprocmask SIG_BLOCK "mask" []); ignore (sigwait "mask" (LVar "sig"));
        "attr.mq_msgsize" ::= 40; "attr.mq_maxmsg" ::= 40;
        set_ "rdwrqueuechild" (mq_create "qname" O_RDWR "attr.mq_maxmsg" "attr.mq_msgsize");
        ret_if ("rdwrqueuechild" == -1)%pt 0;
        set_ (LLoc "rc") (mq_send "rdwrqueuechild" "msgptr" (strlen_ "msgptr" + 1)%pt 1);
        If (Loc "rc" == -1)%pt [ignore (mq_close "rdwrqueuechild"); Return 0] [];
        set_ (LLoc "rc") (mq_receive "rdwrqueuechild" "msgrcd" 40 [LVar "pri"]);
        If (Loc "rc" == -1)%pt [ignore (mq_close "rdwrqueuechild"); Return 0] [];
        ignore (mq_close "rdwrqueuechild"); Return 1]
       ["attr.mq_msgsize" ::= 40; "attr.mq_maxmsg" ::= 40;
        set_ "rdwrqueue" (mq_create "qname" (eor O_CREAT O_RDWR) "attr.mq_maxmsg" "attr.mq_msgsize");
        If ("rdwrqueue" == -1)%pt [ignore (kill "pid" SIGABRT); Return PTS_UNRESOLVED] [];
        set_ (LLoc "rc") (mq_send "rdwrqueue" "msgptr" (strlen_ "msgptr") 1);
        If (Loc "rc" == -1)%pt
          [ignore (mq_close "rdwrqueue"); ignore (mq_unlink "qname"); ignore (kill "pid" SIGABRT);
           Return PTS_FAIL]
          [];
        set_ (LLoc "rc") (mq_receive "rdwrqueue" "msgrcd" 40 [LVar "pri"]);
        If (Loc "rc" == -1)%pt
          [ignore (mq_close "rdwrqueue"); ignore (mq_unlink "qname"); ignore (kill "pid" SIGABRT);
           Return PTS_FAIL]
          [];
        ignore (sleep 1); ignore (kill "pid" SIGUSR1); set_ (LLoc "rc") (wait [LVar "i"]);
        If (Loc "rc" == -1)%pt
          [ignore (mq_close "rdwrqueue"); ignore (mq_unlink "qname"); Return PTS_UNRESOLVED]
          [];
        ignore (mq_close "rdwrqueue"); ignore (mq_unlink "qname");
        ret_if (negb_ (WIFEXITED "i") || negb_ (WEXITSTATUS "i"))%pt PTS_FAIL; Return PTS_PASS]]);
   ("handler", [Return 0])].

Definition mq_open_10_1 : sprog := SProg
  [("main",
    [Return PTS_UNTESTED])].

Definition mq_open_14_1 : sprog := SProg
  [("main",
    [Return PTS_UNTESTED])].

Definition mq_open_16_1 : sprog := SProg
  [("main",
    ["succeeded" ::= 0; "childqueue" ::= -1; "queue" ::= -1; set_ (LLoc "rc") getpid;
     "qname" ::= with_num "/mq_open_16-1_" (Loc "rc"); set_ "pid" fork;
     If ("pid" == 0)%pt
       ["mask" ::= 0; "mask" ::= add_sig "mask" SIGUSR1; ignore (sigprocmask SIG_BLOCK "mask" []);
        ignore (sigwait "mask" (LVar "sig"));
        set_ "childqueue" (mq_open "qname" (eor (eor O_CREAT O_EXCL) O_RDWR));
        If ("childqueue" != -1)%pt ["succeeded" ::= "succeeded" + 1] []]
       [ignore (sleep 1); ignore (kill "pid" SIGUSR1);
        set_ "queue" (mq_open "qname" (eor (eor O_CREAT O_EXCL) O_RDWR));
        If ("queue" != -1)%pt ["succeeded" ::= "succeeded" + 1] []; set_ (LLoc "rc") (wait [LVar "i"]);
        If (Loc "rc" == -1)%pt
          [ignore (mq_close "queue"); ignore (mq_close "childqueue"); ignore (mq_unlink "qname");
           Return PTS_UNRESOLVED]
          [];
        ignore (mq_close "queue"); ignore (mq_close "childqueue"); ignore (mq_unlink "qname");
        ret_if ("succeeded" == 0)%pt PTS_FAIL; ret_if (1 < "succeeded")%pt PTS_FAIL; Return PTS_PASS];
     Return PTS_UNRESOLVED])].

Definition mq_open_17_1 : sprog := SProg
  [("main",
    [Return PTS_UNTESTED])].

Definition mq_open_19_1 : sprog := SProg
  [("main",
    ["msgptr" ::= (text "0123456789"); "failure" ::= 0; set_ (LLoc "rc") getpid;
     "qname" ::= with_num "/mq_open_19-1_" (Loc "rc"); "attr.mq_msgsize" ::= 40; "attr.mq_maxmsg" ::= 40;
     set_ "queue" (mq_create "qname" (eor (eor O_CREAT O_RDWR) O_NONBLOCK) "attr.mq_maxmsg" "attr.mq_msgsize");
     ret_if ("queue" == -1)%pt PTS_UNRESOLVED; set_ (LLoc "rc") (mq_receive "queue" "msgrcd" 40 [LVar "pri"]);
     If (Loc "rc" != -1)%pt ["failure" ::= 1] [];
     set_ (LLoc "rc") (mq_send "queue" "msgptr" (strlen_ "msgptr") 1);
     If (Loc "rc" == -1)%pt [ignore (mq_close "queue"); ignore (mq_unlink "qname"); Return PTS_UNRESOLVED] [];
     set_ "queue" (mq_open "qname" (eor O_RDWR O_NONBLOCK));
     If ("queue" == -1)%pt [ignore (mq_close "queue"); ignore (mq_unlink "qname"); Return PTS_UNRESOLVED] [];
     set_ (LLoc "rc") (mq_receive "queue" "msgrcd" 40 [LVar "pri"]);
     If (Loc "rc" == -1)%pt ["failure" ::= 1] []; ignore (mq_close "queue"); ignore (mq_unlink "qname");
     ret_if ("failure" == 1)%pt PTS_FAIL; Return PTS_PASS])].

Definition mq_open_20_1 : sprog := SProg
  [("main",
    ["failure" ::= 0; set_ (LLoc "rc") getpid; "qname" ::= with_num "/mq_open_20-1_" (Loc "rc");
     set_ "queue" (mq_open "qname" (eor O_CREAT O_RDWR)); ret_if ("queue" == -1)%pt PTS_FAIL;
     ignore (sigaction SIGUSR1 "handler" 0 0); set_ (LLoc "rc") (mq_notify "queue" SIGEV_SIGNAL SIGUSR1 0);
     If (Loc "rc" != 0)%pt ["failure" ::= 1] []; ignore (mq_close "queue"); ignore (mq_unlink "qname");
     ret_if ("failure" == 1)%pt PTS_FAIL; Return PTS_PASS]);
   ("handler", [])].

Definition mq_open_21_1 : sprog := SProg
  [("main",
    [set_ (LLoc "rc") getpid; "qname" ::= with_num "/mq_open_21-1_" (Loc "rc");
     set_ "queue" (mq_open "qname" O_RDWR);
     If ("queue" != -1)%pt [ignore (mq_close "queue"); ignore (mq_unlink "qname"); Return PTS_FAIL] [];
     Return PTS_PASS])].

Definition mq_open_22_1 : sprog := SProg
  [("main",
    [Return PTS_UNTESTED])].

Definition mq_open_24_1 : sprog := SProg
  [("main",
    [Return PTS_UNTESTED])].

Definition mq_open_25_1 : sprog := SProg
  [("main",
    [Return PTS_UNTESTED])].

Definition mq_open_25_2_invalid_values : list Z :=
  [0; -1; INT32_MIN].

Definition mq_open_25_2 : sprog := SProg
  [("main",
    ["failed" ::= 0; set_ (LLoc "rc") getpid; "qname" ::= with_num "/mq_open_25-1_" (Loc "rc");
     "attr.mq_msgsize" ::= 10; "i" ::= 0;
     While ("i" < 3)%pt
       ["attr.mq_maxmsg" ::= at_ mq_open_25_2_invalid_values "i";
        set_ "queue" (mq_create "qname" (eor O_CREAT O_RDWR) "attr.mq_maxmsg" "attr.mq_msgsize");
        If ("queue" != -1)%pt
          [ignore (mq_close "queue"); ignore (mq_unlink "qname"); "failed" ::= "failed" + 1]
          [];
        If (errno_ != (err_num EINVAL))%pt ["failed" ::= "failed" + 1] []; "i" ::= "i" + 1];
     "attr.mq_maxmsg" ::= 10; "i" ::= 0;
     While ("i" < 3)%pt
       ["attr.mq_msgsize" ::= at_ mq_open_25_2_invalid_values "i";
        set_ "queue" (mq_create "qname" (eor O_CREAT O_RDWR) "attr.mq_maxmsg" "attr.mq_msgsize");
        If ("queue" != -1)%pt
          [ignore (mq_close "queue"); ignore (mq_unlink "qname"); "failed" ::= "failed" + 1]
          [];
        If (errno_ != (err_num EINVAL))%pt ["failed" ::= "failed" + 1] []; "i" ::= "i" + 1];
     ret_if (0 < "failed")%pt PTS_FAIL; Return PTS_PASS])].

Definition mq_open_28_1 : sprog := SProg
  [("main",
    [Return PTS_UNTESTED])].

Definition mq_open_30_1 : sprog := SProg
  [("main",
    [Return PTS_UNTESTED])].

(** ** mq_close *)

Definition mq_close_3_1 : sprog := SProg
  [("main",
    [set_ (LLoc "rc") getpid; "qname" ::= with_num "/mq_close_3-1_" (Loc "rc");
     set_ "queue" (mq_open "qname" (eor O_CREAT O_RDWR)); ret_if ("queue" == -1)%pt PTS_UNRESOLVED;
     set_ (LLoc "rc") (mq_close "queue");
     If (Loc "rc" == -1)%pt [ignore (mq_unlink "qname"); Return PTS_UNRESOLVED] []; U (mq_unlink "qname");
     expect (mq_close "queue") (-1) (Returns PTS_FAIL); ret_if (errno_ != (err_num EBADF))%pt PTS_FAIL;
     Return PTS_PASS])].

Definition mq_close_3_2 : sprog := SProg
  [("main",
    [expect (mq_close (-1)) (-1) (Returns PTS_FAIL); ret_if (errno_ != (err_num EBADF))%pt PTS_FAIL;
     Return PTS_PASS])].

Definition mq_close_3_3 : sprog := SProg
  [("main",
    [expect (mq_close 274) (-1) (Returns PTS_FAIL); ret_if (errno_ != (err_num EBADF))%pt PTS_FAIL;
     Return PTS_PASS])].

Definition mq_close_4_1 : sprog := SProg
  [("main",
    [set_ (LLoc "rc") getpid; "qname" ::= with_num "/mq_close_4-1_" (Loc "rc");
     set_ "queue" (mq_open "qname" (eor O_CREAT O_RDWR)); ret_if ("queue" == -1)%pt PTS_UNRESOLVED;
     Um (mq_close "queue"); expect (mq_notify "queue" SIGEV_SIGNAL SIGUSR1 0) (-1) (Returns PTS_FAIL);
     ret_if (errno_ != (err_num EBADF))%pt PTS_FAIL; U (mq_unlink "qname"); Return PTS_PASS])].

Definition mq_close_5_1 : sprog := SProg
  [("main",
    [Return PTS_UNTESTED])].

(** ** mq_unlink *)

Definition mq_unlink_2_3 : sprog := SProg
  [("main",
    [Return PTS_UNTESTED])].

Definition mq_unlink_7_1 : sprog := SProg
  [("main",
    ["mqname" ::= (text "/something-which-does-not-exit"); ignore (mq_unlink "mqname");
     If ((err_num ENOENT) == errno_)%pt [Return PTS_PASS] [Return PTS_FAIL]])].

(** ** mq_setattr *)

Definition mq_setattr_5_1 : sprog := SProg
  [("main",
    ["unresolved" ::= 0; "failure" ::= 0; set_ (LLoc "rc") getpid;
     "mqname" ::= with_num "/mq_setattr_5-1_" (Loc "rc");
     set_ "mqdes" (mq_open "mqname" (eor O_CREAT O_RDWR)); ret_if ("mqdes" == -1)%pt PTS_UNRESOLVED;
     U (mq_unlink "mqname"); "mqdes" ::= "mqdes" + 1; "mqstat.mq_flags" ::= 0; "mqstat.mq_maxmsg" ::= 0;
     "mqstat.mq_msgsize" ::= 0; "mqstat.mq_curmsgs" ::= 0; "nmqstat.mq_flags" ::= 0;
     "nmqstat.mq_maxmsg" ::= 0; "nmqstat.mq_msgsize" ::= 0; "nmqstat.mq_curmsgs" ::= 0;
     "nmqstat.mq_flags" ::= 1; set_ (LLoc "rc") (mq_setattr "mqdes" "mqstat.mq_flags" []);
     If (Loc "rc" == -1)%pt [If ((err_num EBADF) != errno_)%pt ["failure" ::= 1] []] ["failure" ::= 1];
     ignore (mq_close "mqdes"); ignore (mq_unlink "mqname"); ret_if ("failure" == 1)%pt PTS_FAIL;
     ret_if ("unresolved" == 1)%pt PTS_UNRESOLVED; Return PTS_PASS])].

(** ** mq_notify *)

Definition mq_notify_1_1 : sprog := SProg
  [("main",
    ["enter_handler" ::= 0; "s_msg_ptr" ::= (line "test message "); "prio" ::= 1; set_ (LLoc "rc") getpid;
     "mqname" ::= with_num "/mq_notify_1-1_" (Loc "rc"); set_ "mqdes" (mq_open "mqname" (eor O_CREAT O_RDWR));
     ret_if ("mqdes" == -1)%pt PTS_UNRESOLVED; ignore (sigaction SIGUSR1 "msg_handler" 0 0);
     set_ (LLoc "rc") (mq_notify "mqdes" SIGEV_SIGNAL SIGUSR1 0);
     If (Loc "rc" != 0)%pt
       ["mqclean.queue" ::= "mqdes"; "mqclean.qname" ::= "mqname"; ignore (call_fn "mqclean");
        Return PTS_FAIL]
       [];
     set_ (LLoc "rc") (mq_send "mqdes" "s_msg_ptr" 50 "prio");
     If (Loc "rc" == -1)%pt
       ["mqclean.queue" ::= "mqdes"; "mqclean.qname" ::= "mqname"; ignore (call_fn "mqclean");
        Return PTS_UNRESOLVED]
       [];
     ignore (sleep 1);
     If (negb_ "enter_handler")
       ["mqclean.queue" ::= "mqdes"; "mqclean.qname" ::= "mqname"; ignore (call_fn "mqclean");
        Return PTS_FAIL]
       ["mqclean.queue" ::= "mqdes"; "mqclean.qname" ::= "mqname"; ignore (call_fn "mqclean");
        Return PTS_PASS]]);
   ("msg_handler", ["enter_handler" ::= 1]);
   ("mqclean", [ignore (mq_close "mqclean.queue"); ignore (mq_unlink "mqclean.qname")])].

Definition mq_notify_2_1 : sprog := SProg
  [("main",
    [set_ (LLoc "rc") getpid; "mqname" ::= with_num "/mq_notify_2-1_" (Loc "rc");
     set_ "mqdes" (mq_open "mqname" (eor O_CREAT O_RDWR)); ret_if ("mqdes" == -1)%pt PTS_UNRESOLVED;
     set_ (LLoc "rc") (mq_notify "mqdes" SIGEV_SIGNAL SIGUSR1 0);
     If (Loc "rc" != 0)%pt
       ["mqclean.queue" ::= "mqdes"; "mqclean.qname" ::= "mqname"; ignore (call_fn "mqclean");
        Return PTS_FAIL]
       [];
     set_ "pid" fork;
     If ("pid" == -1)%pt
       ["mqclean.queue" ::= "mqdes"; "mqclean.qname" ::= "mqname"; ignore (call_fn "mqclean");
        Return PTS_UNRESOLVED]
       [];
     If ("pid" == 0)%pt
       [expect (mq_notify "mqdes" SIGEV_SIGNAL SIGUSR1 0) (-1) (Returns PTS_FAIL); Return PTS_PASS]
       [];
     ignore (wait [LVar "status"]); "mqclean.queue" ::= "mqdes"; "mqclean.qname" ::= "mqname";
     ignore (call_fn "mqclean"); Return "status"]);
   ("mqclean", [ignore (mq_close "mqclean.queue"); ignore (mq_unlink "mqclean.qname")])].

Definition mq_notify_3_1 : sprog := SProg
  [("main",
    ["enter_handler" ::= 0; "s_msg_ptr" ::= (line "test message "); "prio" ::= 1; set_ (LLoc "rc") getpid;
     "mqname" ::= with_num "/mq_notify_3-1_" (Loc "rc"); set_ "mqdes" (mq_open "mqname" (eor O_CREAT O_RDWR));
     ret_if ("mqdes" == -1)%pt PTS_UNRESOLVED; ignore (sigaction SIGUSR1 "msg_handler" 0 0);
     set_ (LLoc "rc") (mq_notify "mqdes" SIGEV_SIGNAL SIGUSR1 0);
     If (Loc "rc" != 0)%pt
       ["mqclean.queue" ::= "mqdes"; "mqclean.qname" ::= "mqname"; ignore (call_fn "mqclean");
        Return PTS_UNRESOLVED]
       [];
     set_ (LLoc "rc") (mq_unnotify "mqdes");
     If (Loc "rc" != 0)%pt
       ["mqclean.queue" ::= "mqdes"; "mqclean.qname" ::= "mqname"; ignore (call_fn "mqclean");
        Return PTS_FAIL]
       [];
     set_ (LLoc "rc") (mq_send "mqdes" "s_msg_ptr" 50 "prio");
     If (Loc "rc" == -1)%pt
       ["mqclean.queue" ::= "mqdes"; "mqclean.qname" ::= "mqname"; ignore (call_fn "mqclean");
        Return PTS_UNRESOLVED]
       [];
     ignore (sleep 1); U (mq_unlink "mqname");
     If (negb_ "enter_handler")
       ["mqclean.queue" ::= "mqdes"; "mqclean.qname" ::= "mqname"; ignore (call_fn "mqclean");
        Return PTS_PASS]
       ["mqclean.queue" ::= "mqdes"; "mqclean.qname" ::= "mqname"; ignore (call_fn "mqclean");
        Return PTS_FAIL]]);
   ("msg_handler", ["enter_handler" ::= 1]);
   ("mqclean", [ignore (mq_close "mqclean.queue"); ignore (mq_unlink "mqclean.qname")])].

Definition mq_notify_4_1 : sprog := SProg
  [("main",
    ["enter_handler" ::= 0; "s_msg_ptr" ::= (line "test message "); "prio" ::= 1; set_ (LLoc "rc") getpid;
     "mqname" ::= with_num "/mq_notify_4-1_" (Loc "rc"); set_ "mqdes" (mq_open "mqname" (eor O_CREAT O_RDWR));
     ret_if ("mqdes" == -1)%pt PTS_UNRESOLVED; ignore (sigaction SIGUSR1 "msg_handler" 0 0);
     set_ (LLoc "rc") (mq_notify "mqdes" SIGEV_SIGNAL SIGUSR1 0);
     If (Loc "rc" != 0)%pt
       ["mqclean.queue" ::= "mqdes"; "mqclean.qname" ::= "mqname"; ignore (call_fn "mqclean");
        Return PTS_UNRESOLVED]
       [];
     set_ (LLoc "rc") (mq_send "mqdes" "s_msg_ptr" 50 "prio");
     If (Loc "rc" == -1)%pt
       ["mqclean.queue" ::= "mqdes"; "mqclean.qname" ::= "mqname"; ignore (call_fn "mqclean");
        Return PTS_UNRESOLVED]
       [];
     If (negb_ "enter_handler")
       ["mqclean.queue" ::= "mqdes"; "mqclean.qname" ::= "mqname"; ignore (call_fn "mqclean");
        Return PTS_UNRESOLVED]
       [];
     set_ (LLoc "rc") (mq_notify "mqdes" SIGEV_SIGNAL SIGUSR1 0);
     If (Loc "rc" != 0)%pt
       ["mqclean.queue" ::= "mqdes"; "mqclean.qname" ::= "mqname"; ignore (call_fn "mqclean");
        Return PTS_FAIL]
       ["mqclean.queue" ::= "mqdes"; "mqclean.qname" ::= "mqname"; ignore (call_fn "mqclean");
        Return PTS_PASS]]);
   ("msg_handler", ["enter_handler" ::= 1]);
   ("mqclean", [ignore (mq_close "mqclean.queue"); ignore (mq_unlink "mqclean.qname")])].

Definition mq_notify_5_1 : sprog := SProg
  [("main",
    ["enter_handler" ::= 0; "s_msg_ptr" ::= (line "test message "); "prio" ::= 1; set_ (LLoc "rc") getpid;
     "mqname" ::= with_num "/mq_notify_5-1_" (Loc "rc"); "attr.mq_msgsize" ::= 40; "attr.mq_maxmsg" ::= 40;
     set_ "mqdes" (mq_create "mqname" (eor O_CREAT O_RDWR) "attr.mq_maxmsg" "attr.mq_msgsize");
     If ("mqdes" == -1)%pt
       ["mqclean.queue" ::= "mqdes"; "mqclean.qname" ::= "mqname"; ignore (call_fn "mqclean");
        Return PTS_UNRESOLVED]
       [];
     set_ "pid" fork;
     If ("pid" == -1)%pt
       ["mqclean.queue" ::= "mqdes"; "mqclean.qname" ::= "mqname"; ignore (call_fn "mqclean");
        Return PTS_UNRESOLVED]
       [];
     If ("pid" == 0)%pt [ignore (mq_receive "mqdes" "r_msg_ptr" 40 []); Return 0] []; ignore (sleep 2);
     ignore (sigaction SIGUSR1 "msg_handler" 0 0); U (mq_notify "mqdes" SIGEV_SIGNAL SIGUSR1 0);
     Um (mq_send "mqdes" "s_msg_ptr" 40 "prio"); ignore (sleep 1); U (mq_unlink "mqname");
     ret_if "enter_handler" PTS_FAIL; "mqclean.queue" ::= "mqdes"; "mqclean.qname" ::= "mqname";
     ignore (call_fn "mqclean"); Return PTS_PASS]);
   ("msg_handler", ["enter_handler" ::= 1]);
   ("mqclean", [ignore (mq_close "mqclean.queue"); ignore (mq_unlink "mqclean.qname")])].

Definition mq_notify_8_1 : sprog := SProg
  [("main",
    [set_ (LLoc "rc") getpid; "mqname" ::= with_num "/mq_notify_8-1_" (Loc "rc");
     set_ "mqdes" (mq_open "mqname" (eor O_CREAT O_RDWR)); ret_if ("mqdes" == -1)%pt PTS_UNRESOLVED;
     "mqdes" ::= "mqdes" + 1; U (mq_unlink "mqname");
     set_ (LLoc "rc") (mq_notify "mqdes" SIGEV_SIGNAL SIGUSR1 0);
     If (Loc "rc" == -1)%pt
       [If ((err_num EBADF) == errno_)%pt
          ["mqclean.queue" ::= "mqdes"; "mqclean.qname" ::= "mqname"; ignore (call_fn "mqclean");
           Return PTS_PASS]
          ["mqclean.queue" ::= "mqdes"; "mqclean.qname" ::= "mqname"; ignore (call_fn "mqclean");
           Return PTS_FAIL]]
       [];
     "mqclean.queue" ::= "mqdes"; "mqclean.qname" ::= "mqname"; ignore (call_fn "mqclean"); Return PTS_FAIL]);
   ("mqclean", [ignore (mq_close "mqclean.queue"); ignore (mq_unlink "mqclean.qname")])].

Definition mq_notify_9_1 : sprog := SProg
  [("main",
    [set_ (LLoc "rc") getpid; "mqname" ::= with_num "/mq_notify_9-1_" (Loc "rc");
     set_ "mqdes" (mq_open "mqname" (eor O_CREAT O_RDWR)); ret_if ("mqdes" == -1)%pt PTS_UNRESOLVED;
     set_ (LLoc "rc") (mq_notify "mqdes" SIGEV_SIGNAL SIGUSR1 0);
     If (Loc "rc" != 0)%pt
       ["mqclean.queue" ::= "mqdes"; "mqclean.qname" ::= "mqname"; ignore (call_fn "mqclean");
        Return PTS_FAIL]
       [];
     set_ "pid" fork;
     If ("pid" == -1)%pt
       ["mqclean.queue" ::= "mqdes"; "mqclean.qname" ::= "mqname"; ignore (call_fn "mqclean");
        Return PTS_UNRESOLVED]
       [];
     If ("pid" == 0)%pt
       [expect (mq_notify "mqdes" SIGEV_SIGNAL SIGUSR1 0) (-1) (Returns PTS_FAIL);
        If ((err_num EBUSY) == errno_)%pt [Return PTS_PASS] [Return PTS_FAIL]]
       [];
     ignore (wait [LVar "status"]); "mqclean.queue" ::= "mqdes"; "mqclean.qname" ::= "mqname";
     ignore (call_fn "mqclean"); Return "status"]);
   ("mqclean", [ignore (mq_close "mqclean.queue"); ignore (mq_unlink "mqclean.qname")])].

(** ** mq_send *)

Definition mq_send_4_3 : sprog := SProg
  [("main",
    ["msgptr" ::= (text "0123456789"); "unresolved" ::= 0; "failure" ::= 0; set_ (LLoc "rc") getpid;
     "qname" ::= with_num "/mq_send_4-3_" (Loc "rc"); "attr.mq_msgsize" ::= 40; "attr.mq_maxmsg" ::= 10;
     set_ "queue" (mq_create "qname" (eor O_CREAT O_RDWR) "attr.mq_maxmsg" "attr.mq_msgsize");
     ret_if ("queue" == -1)%pt PTS_UNRESOLVED;
     set_ (LLoc "rc") (mq_send "queue" "msgptr" (strlen_ "msgptr") (MQ_PRIO_MAX - 1)%pt);
     If (Loc "rc" != 0)%pt ["failure" ::= 1] [];
     set_ (LLoc "rc") (mq_receive "queue" "msgrcd" 40 [LVar "pri"]);
     If (Loc "rc" == -1)%pt ["failure" ::= 1] [];
     If (strncmp_ "msgptr" "msgrcd" (strlen_ "msgptr") != 0)%pt ["failure" ::= 1] [];
     set_ (LLoc "rc") (mq_close "queue"); If (Loc "rc" != 0)%pt ["unresolved" ::= 1] [];
     set_ (LLoc "rc") (mq_unlink "qname"); If (Loc "rc" != 0)%pt ["unresolved" ::= 1] [];
     ret_if ("failure" == 1)%pt PTS_FAIL; ret_if ("unresolved" == 1)%pt PTS_UNRESOLVED; Return PTS_PASS])].

Definition mq_send_5_1 : sprog := SProg
  [("main",
    ["msgptr" ::= (text "0123456789"); "unresolved" ::= 0; set_ (LLoc "rc") getpid;
     "gqname" ::= with_num "/mq_send_5-1_" (Loc "rc"); "attr.mq_msgsize" ::= 40; "attr.mq_maxmsg" ::= 5;
     set_ "gqueue" (mq_create "gqname" (eor O_CREAT O_RDWR) "attr.mq_maxmsg" "attr.mq_msgsize");
     ret_if ("gqueue" == -1)%pt PTS_UNRESOLVED; set_ "pid" fork;
     If ("pid" == 0)%pt
       [ignore (sleep 1); "i" ::= 0;
        While ("i" < 6)%pt
          [ignore (mq_send "gqueue" "msgptr" (strlen_ "msgptr") 1); set_ (LLoc "rc") getppid;
           ignore (kill (Loc "rc") SIGABRT); "i" ::= "i" + 1]]
       [ignore (sigaction SIGABRT "stopsleep_handler" 0 0); "j" ::= 0;
        While ("j" < 6)%pt [set_ (LLoc "rc") (sleep 3); If (Loc "rc" == 0)%pt [Break] []; "j" ::= "j" + 1];
        If ("j" == 6)%pt [ignore (kill "pid" SIGKILL); Return PTS_FAIL] [];
        set_ (LLoc "rc") (mq_receive "gqueue" "msgrcd" 40 [LVar "pri"]);
        If (Loc "rc" == -1)%pt ["unresolved" ::= 1] []; set_ (LLoc "rc") (sleep 3);
        If (Loc "rc" == 0)%pt
          [ignore (kill "pid" SIGKILL); ignore (mq_close "gqueue"); ignore (mq_unlink "gqname");
           Return PTS_FAIL]
          [];
        ignore (mq_close "gqueue"); ignore (mq_unlink "gqname"); Return PTS_PASS];
     Return PTS_UNRESOLVED]);
   ("stopsleep_handler", [Return 0])].

Definition mq_send_5_2 : sprog := SProg
  [("main",
    ["msgptr" ::= (text "0123456789"); set_ (LLoc "rc") getpid;
     "gqname" ::= with_num "/mq_send_5-2_" (Loc "rc"); "attr.mq_msgsize" ::= 40; "attr.mq_maxmsg" ::= 5;
     set_ "gqueue" (mq_create "gqname" (eor O_CREAT O_RDWR) "attr.mq_maxmsg" "attr.mq_msgsize");
     ret_if ("gqueue" == -1)%pt PTS_UNRESOLVED; ignore (sigaction SIGABRT "justreturn_handler" 0 0);
     set_ "pid" fork;
     If ("pid" == 0)%pt
       [ignore (sleep 1); "i" ::= 0;
        While ("i" < 6)%pt
          [set_ (LLoc "rc") (mq_send "gqueue" "msgptr" (strlen_ "msgptr") 1);
           If (Loc "rc" == -1)%pt [If (errno_ == (err_num EINTR))%pt [Return 1] [Return 0]] [];
           set_ (LLoc "rc") getppid; ignore (kill (Loc "rc") SIGABRT); "i" ::= "i" + 1];
        Return 0]
       ["blocking" ::= 0; "j" ::= 0;
        While ("j" < 6)%pt
          [set_ (LLoc "rc") (sleep 3);
           If (Loc "rc" == 0)%pt ["blocking" ::= 1; ignore (kill "pid" SIGABRT); Break] []; "j" ::= "j" + 1];
        If ("blocking" != 1)%pt
          [ignore (kill "pid" SIGKILL); ignore (mq_close "gqueue"); ignore (mq_unlink "gqname");
           Return PTS_UNRESOLVED]
          [];
        set_ (LLoc "rc") (wait [LVar "k"]);
        If (Loc "rc" == -1)%pt
          [ignore (kill "pid" SIGKILL); ignore (mq_close "gqueue"); ignore (mq_unlink "gqname");
           Return PTS_UNRESOLVED]
          [];
        ignore (mq_close "gqueue"); U (mq_unlink "gqname");
        ret_if (negb_ (WIFEXITED "k") || negb_ (WEXITSTATUS "k"))%pt PTS_FAIL; Return PTS_PASS]]);
   ("justreturn_handler", [Return 0])].

Definition mq_send_6_1 : sprog := SProg
  [("main",
    [Return PTS_UNTESTED])].

Definition mq_send_9_1 : sprog := SProg
  [("main",
    ["msgptr" ::= (text "0123456789"); "unresolved" ::= 0; "failure" ::= 0; set_ (LLoc "rc") getpid;
     "qname" ::= with_num "/mq_send_9-1_" (Loc "rc"); "attr.mq_msgsize" ::= 40; "attr.mq_maxmsg" ::= 10;
     set_ "queue" (mq_create "qname" (eor (eor O_CREAT O_RDWR) O_NONBLOCK) "attr.mq_maxmsg" "attr.mq_msgsize");
     ret_if ("queue" == -1)%pt PTS_UNRESOLVED;
     set_ (LLoc "rc") (mq_send ("queue" + 1)%pt "msgptr" (strlen_ "msgptr") 1);
     If (Loc "rc" != -1)%pt ["failure" ::= 1] []; If (errno_ != (err_num EBADF))%pt ["failure" ::= 1] [];
     set_ (LLoc "rc") (mq_receive "queue" "msgrcd" 40 [LVar "pri"]);
     If (Loc "rc" != -1)%pt [If (("msgptr" != "msgrcd") == 0)%pt ["failure" ::= 1] ["unresolved" ::= 1]] [];
     set_ (LLoc "rc") (mq_close "queue"); If (Loc "rc" != 0)%pt ["unresolved" ::= 1] [];
     set_ (LLoc "rc") (mq_unlink "qname"); If (Loc "rc" != 0)%pt ["unresolved" ::= 1] [];
     ret_if ("failure" == 1)%pt PTS_FAIL; ret_if ("unresolved" == 1)%pt PTS_UNRESOLVED; Return PTS_PASS])].

Definition mq_send_11_1 : sprog := SProg
  [("main",
    ["msgptr" ::= (text "0123456789"); "unresolved" ::= 0; "failure" ::= 0; set_ (LLoc "rc") getpid;
     "qname" ::= with_num "/mq_send_11-1_" (Loc "rc"); set_ "queue" (mq_open "qname" (eor O_CREAT O_RDWR));
     ret_if ("queue" == -1)%pt PTS_UNRESOLVED;
     set_ (LLoc "rc") (mq_send ("queue" + 1)%pt "msgptr" (strlen_ "msgptr") 1);
     If (Loc "rc" != -1)%pt ["failure" ::= 1] []; If (errno_ != (err_num EBADF))%pt ["failure" ::= 1] [];
     set_ (LLoc "rc") (mq_close "queue"); If (Loc "rc" != 0)%pt ["unresolved" ::= 1] [];
     set_ (LLoc "rc") (mq_unlink "qname"); If (Loc "rc" != 0)%pt ["unresolved" ::= 1] [];
     ret_if ("failure" == 1)%pt PTS_FAIL; ret_if ("unresolved" == 1)%pt PTS_UNRESOLVED; Return PTS_PASS])].

Definition mq_send_11_2 : sprog := SProg
  [("main",
    ["msgptr" ::= (text "0123456789"); "unresolved" ::= 0; "failure" ::= 0; set_ (LLoc "rc") getpid;
     "qname" ::= with_num "/mq_send_11-2_" (Loc "rc"); set_ "queue" (mq_open "qname" (eor O_CREAT O_RDONLY));
     ret_if ("queue" == -1)%pt PTS_UNRESOLVED;
     set_ (LLoc "rc") (mq_send "queue" "msgptr" (strlen_ "msgptr") 1);
     If (Loc "rc" != -1)%pt ["failure" ::= 1] []; If (errno_ != (err_num EBADF))%pt ["failure" ::= 1] [];
     set_ (LLoc "rc") (mq_close "queue"); If (Loc "rc" != 0)%pt ["unresolved" ::= 1] [];
     set_ (LLoc "rc") (mq_unlink "qname"); If (Loc "rc" != 0)%pt ["unresolved" ::= 1] [];
     ret_if ("failure" == 1)%pt PTS_FAIL; ret_if ("unresolved" == 1)%pt PTS_UNRESOLVED; Return PTS_PASS])].

Definition mq_send_12_1 : sprog := SProg
  [("main",
    ["msgptr" ::= (text "0123456789"); set_ (LLoc "rc") getpid;
     "gqname" ::= with_num "/mq_send_12-1_" (Loc "rc"); "attr.mq_maxmsg" ::= 5; "attr.mq_msgsize" ::= 40;
     set_ "gqueue" (mq_create "gqname" (eor O_CREAT O_RDWR) "attr.mq_maxmsg" "attr.mq_msgsize");
     ret_if ("gqueue" == -1)%pt PTS_UNRESOLVED; ignore (sigaction SIGABRT "justreturn_handler" 0 0);
     set_ "pid" fork;
     If ("pid" == 0)%pt
       [ignore (sleep 1); "i" ::= 0;
        While ("i" < 6)%pt
          [set_ (LLoc "rc") (mq_send "gqueue" "msgptr" (strlen_ "msgptr") 1);
           If (Loc "rc" == -1)%pt [If (errno_ == (err_num EINTR))%pt [Return 1] [Return 0]] [];
           set_ (LLoc "rc") getppid; ignore (kill (Loc "rc") SIGABRT); "i" ::= "i" + 1];
        Return 0]
       ["j" ::= 0;
        While ("j" < 6)%pt
          [set_ (LLoc "rc") (sleep 3); If (Loc "rc" == 0)%pt [ignore (kill "pid" SIGABRT); Break] [];
           "j" ::= "j" + 1];
        ignore (mq_close "gqueue"); U (mq_unlink "gqname"); set_ (LLoc "rc") (wait [LVar "k"]);
        If (Loc "rc" == -1)%pt [ignore (kill "pid" SIGKILL); Return PTS_UNRESOLVED] [];
        ret_if (negb_ (WIFEXITED "k") || negb_ (WEXITSTATUS "k"))%pt PTS_FAIL; Return PTS_PASS]]);
   ("justreturn_handler", [Return 0])].

Definition mq_send_13_1_invalidpri : list Z :=
  [MQ_PRIO_MAX; MQ_PRIO_MAX + 1; MQ_PRIO_MAX + 5].

Definition mq_send_13_1 : sprog := SProg
  [("main",
    ["msgptr" ::= (text "0123456789"); "unresolved" ::= 0; "failure" ::= 0; set_ (LLoc "rc") getpid;
     "qname" ::= with_num "/mq_send_13-1_" (Loc "rc"); set_ "queue" (mq_open "qname" (eor O_CREAT O_RDWR));
     ret_if ("queue" == -1)%pt PTS_UNRESOLVED; "i" ::= 0;
     While ("i" < 3)%pt
       [set_ (LLoc "rc") (mq_send "queue" "msgptr" (strlen_ "msgptr") (at_ mq_send_13_1_invalidpri "i"));
        If (Loc "rc" == 0)%pt ["failure" ::= 1] []; If (errno_ != (err_num EINVAL))%pt ["failure" ::= 1] [];
        "i" ::= "i" + 1];
     set_ (LLoc "rc") (mq_close "queue"); If (Loc "rc" != 0)%pt ["unresolved" ::= 1] [];
     set_ (LLoc "rc") (mq_unlink "qname"); If (Loc "rc" != 0)%pt ["unresolved" ::= 1] [];
     ret_if ("failure" == 1)%pt PTS_FAIL; ret_if ("unresolved" == 1)%pt PTS_UNRESOLVED; Return PTS_PASS])].

Definition mq_send_14_1_messagesize : list Z :=
  [19; 2; 1].

Definition mq_send_14_1 : sprog := SProg
  [("main",
    ["msgptr" ::= (text "01234567890123456789"); "unresolved" ::= 0; "failure" ::= 0; set_ (LLoc "rc") getpid;
     "qname" ::= with_num "/mq_send_14-1_" (Loc "rc"); "i" ::= 0;
     While ("i" < 3)%pt
       ["attr.mq_msgsize" ::= at_ mq_send_14_1_messagesize "i";
        "attr.mq_maxmsg" ::= at_ mq_send_14_1_messagesize "i";
        set_ "queue" (mq_create "qname" (eor O_CREAT O_RDWR) "attr.mq_maxmsg" "attr.mq_msgsize");
        ret_if ("queue" == -1)%pt PTS_UNRESOLVED;
        set_ (LLoc "rc") (mq_send "queue" "msgptr" (strlen_ "msgptr") 1);
        If (Loc "rc" != -1)%pt ["failure" ::= 1] [];
        If (errno_ != (err_num EMSGSIZE))%pt ["failure" ::= 1] []; set_ (LLoc "rc") (mq_close "queue");
        If (Loc "rc" != 0)%pt ["unresolved" ::= 1] []; set_ (LLoc "rc") (mq_unlink "qname");
        If (Loc "rc" != 0)%pt ["unresolved" ::= 1] []; "i" ::= "i" + 1];
     ret_if ("failure" == 1)%pt PTS_FAIL; ret_if ("unresolved" == 1)%pt PTS_UNRESOLVED; Return PTS_PASS])].

(** ** mq_receive *)

Definition mq_receive_5_1 : sprog := SProg
  [("main",
    ["msgptr" ::= (text "test message "); "prio" ::= 1; "unresolved" ::= 0; "failure" ::= 0;
     set_ (LLoc "rc") getpid; "mqname" ::= with_num "/mq_receive_5-1_" (Loc "rc"); "attr.mq_msgsize" ::= 40;
     "attr.mq_maxmsg" ::= 40;
     set_ "mqdes" (mq_create "mqname" (eor O_CREAT O_RDWR) "attr.mq_maxmsg" "attr.mq_msgsize");
     If ("mqdes" == -1)%pt ["unresolved" ::= 1] []; set_ "pid" fork;
     If ("pid" != 0)%pt
       [set_ (LLoc "rc") (mq_receive "mqdes" "msgrv" 40 []);
        If (0 < Loc "rc")%pt
          [ignore (wait [LVar "status"]); If "status" ["unresolved" ::= 1] []]
          [ignore (wait []); "failure" ::= 1];
        set_ (LLoc "rc") (mq_close "mqdes"); If (Loc "rc" != 0)%pt ["unresolved" ::= 1] [];
        set_ (LLoc "rc") (mq_unlink "mqname"); If (Loc "rc" != 0)%pt ["unresolved" ::= 1] [];
        ret_if ("failure" == 1)%pt PTS_FAIL; ret_if ("unresolved" == 1)%pt PTS_UNRESOLVED; Return PTS_PASS]
       [ignore (sleep 2); Um (mq_send "mqdes" "msgptr" (strlen_ "msgptr") "prio"); Return 0]])].

Definition mq_receive_8_1 : sprog := SProg
  [("main",
    ["msgptr1" ::= (text "test message1"); "msgptr2" ::= (text "test message2 with differnet length");
     "prio1" ::= 1; "prio2" ::= 2; "unresolved" ::= 0; "failure" ::= 0; set_ (LLoc "rc") getpid;
     "mqname" ::= with_num "/mq_receive_8-1_" (Loc "rc"); "attr.mq_msgsize" ::= 40; "attr.mq_maxmsg" ::= 40;
     set_ "mqdes" (mq_create "mqname" (eor O_CREAT O_RDWR) "attr.mq_maxmsg" "attr.mq_msgsize");
     If ("mqdes" == -1)%pt ["unresolved" ::= 1] [];
     set_ (LLoc "rc") (mq_send "mqdes" "msgptr1" (strlen_ "msgptr1") "prio1");
     If (Loc "rc" != 0)%pt ["unresolved" ::= 1] [];
     set_ (LLoc "rc") (mq_send "mqdes" "msgptr2" (strlen_ "msgptr2") "prio2");
     If (Loc "rc" != 0)%pt ["unresolved" ::= 1] []; set_ (LLoc "rc") (mq_receive "mqdes" "msgrv1" 40 []);
     If (Loc "rc" != strlen_ "msgptr2")%pt ["failure" ::= 1] [];
     set_ (LLoc "rc") (mq_receive "mqdes" "msgrv2" 40 []);
     If (Loc "rc" != strlen_ "msgptr1")%pt ["failure" ::= 1] [];
     If ("msgrv1" == "msgrv2")%pt ["failure" ::= 1] []; set_ (LLoc "rc") (mq_close "mqdes");
     If (Loc "rc" != 0)%pt ["unresolved" ::= 1] []; set_ (LLoc "rc") (mq_unlink "mqname");
     If (Loc "rc" != 0)%pt ["unresolved" ::= 1] []; ret_if ("failure" == 1)%pt PTS_FAIL;
     ret_if ("unresolved" == 1)%pt PTS_UNRESOLVED; Return PTS_PASS])].

Definition mq_receive_11_1 : sprog := SProg
  [("main",
    ["unresolved" ::= 0; "failure" ::= 0; set_ (LLoc "rc") getpid;
     "mqname" ::= with_num "/mq_receive_11-1_" (Loc "rc"); "attr.mq_msgsize" ::= 40; "attr.mq_maxmsg" ::= 40;
     set_ "mqdes" (mq_create "mqname" (eor O_CREAT O_RDWR) "attr.mq_maxmsg" "attr.mq_msgsize");
     If ("mqdes" == -1)%pt ["unresolved" ::= 1] []; "mqdes" ::= "mqdes" + 1;
     set_ (LLoc "rc") (mq_receive "mqdes" "msgrv" 40 []);
     If (Loc "rc" == -1)%pt [If ((err_num EBADF) != errno_)%pt ["failure" ::= 1] []] ["failure" ::= 1];
     set_ (LLoc "rc") (mq_close ("mqdes" - 1)%pt); If (Loc "rc" != 0)%pt ["unresolved" ::= 1] [];
     set_ (LLoc "rc") (mq_unlink "mqname"); If (Loc "rc" != 0)%pt ["unresolved" ::= 1] [];
     ret_if ("failure" == 1)%pt PTS_FAIL; ret_if ("unresolved" == 1)%pt PTS_UNRESOLVED; Return PTS_PASS])].

Definition mq_receive_11_2 : sprog := SProg
  [("main",
    ["unresolved" ::= 0; "failure" ::= 0; set_ (LLoc "rc") getpid;
     "mqname" ::= with_num "/mq_receive_11-2_" (Loc "rc"); "attr.mq_msgsize" ::= 40; "attr.mq_maxmsg" ::= 40;
     set_ "mqdes" (mq_create "mqname" (eor O_CREAT O_WRONLY) "attr.mq_maxmsg" "attr.mq_msgsize");
     If ("mqdes" == -1)%pt ["unresolved" ::= 1] []; set_ (LLoc "rc") (mq_receive "mqdes" "msgrv" 40 []);
     If (Loc "rc" == -1)%pt [If ((err_num EBADF) != errno_)%pt ["failure" ::= 1] []] ["failure" ::= 1];
     set_ (LLoc "rc") (mq_close "mqdes"); If (Loc "rc" != 0)%pt ["unresolved" ::= 1] [];
     set_ (LLoc "rc") (mq_unlink "mqname"); If (Loc "rc" != 0)%pt ["unresolved" ::= 1] [];
     ret_if ("failure" == 1)%pt PTS_FAIL; ret_if ("unresolved" == 1)%pt PTS_UNRESOLVED; Return PTS_PASS])].

Definition mq_receive_13_1 : sprog := SProg
  [("main",
    ["unresolved" ::= 0; "failure" ::= 0; set_ (LLoc "rc") getpid;
     "mqname" ::= with_num "/mq_receive_13-1_" (Loc "rc"); "attr.mq_msgsize" ::= 40; "attr.mq_maxmsg" ::= 40;
     set_ "mqdes" (mq_create "mqname" (eor O_CREAT O_RDWR) "attr.mq_maxmsg" "attr.mq_msgsize");
     If ("mqdes" == -1)%pt ["unresolved" ::= 1] []; set_ "pid" fork;
     If ("pid" != 0)%pt
       [ignore (sigaction SIGABRT "stopreceive" 0 0); set_ (LLoc "rc") (mq_receive "mqdes" "msgrv" 40 []);
        If (Loc "rc" == -1)%pt
          [ignore (wait []); If ((err_num EINTR) != errno_)%pt ["failure" ::= 1] []]
          [ignore (wait []); "failure" ::= 1];
        set_ (LLoc "rc") (mq_close "mqdes"); If (Loc "rc" != 0)%pt ["unresolved" ::= 1] [];
        set_ (LLoc "rc") (mq_unlink "mqname"); If (Loc "rc" != 0)%pt ["unresolved" ::= 1] [];
        ret_if ("failure" == 1)%pt PTS_FAIL; ret_if ("unresolved" == 1)%pt PTS_UNRESOLVED; Return PTS_PASS]
       [ignore (sleep 2); set_ (LLoc "rc") getppid; ignore (kill (Loc "rc") SIGABRT)];
     Return PTS_UNRESOLVED]);
   ("stopreceive", [Return 0])].

(** ** mq_timedsend *)

Definition mq_timedsend_1_1 : sprog := SProg
  [("main",
    ["msgptr" ::= (text "0123456789"); "unresolved" ::= 0; "failure" ::= 0; set_ (LLoc "rc") getpid;
     "qname" ::= with_num "/mq_timedsend_1-1_" (Loc "rc"); "attr.mq_msgsize" ::= 40; "attr.mq_maxmsg" ::= 10;
     set_ "queue" (mq_create "qname" (eor O_CREAT O_RDWR) "attr.mq_maxmsg" "attr.mq_msgsize");
     ret_if ("queue" == -1)%pt PTS_UNRESOLVED; set_ (LLoc "rc") time; "ts.tv_sec" ::= Loc "rc" + 1;
     "ts.tv_nsec" ::= 0;
     set_ (LLoc "rc") (mq_timedsend "queue" "msgptr" (strlen_ "msgptr") 1 "ts.tv_sec" "ts.tv_nsec");
     If (Loc "rc" != 0)%pt ["failure" ::= 1] [];
     set_ (LLoc "rc") (mq_receive "queue" "msgrcd" 40 [LVar "pri"]);
     If (Loc "rc" == -1)%pt ["failure" ::= 1] [];
     If (strncmp_ "msgptr" "msgrcd" (strlen_ "msgptr") != 0)%pt ["failure" ::= 1] [];
     set_ (LLoc "rc") (mq_close "queue"); If (Loc "rc" != 0)%pt ["unresolved" ::= 1] [];
     set_ (LLoc "rc") (mq_unlink "qname"); If (Loc "rc" != 0)%pt ["unresolved" ::= 1] [];
     ret_if ("failure" == 1)%pt PTS_FAIL; ret_if ("unresolved" == 1)%pt PTS_UNRESOLVED; Return PTS_PASS])].

Definition mq_timedsend_2_1 : sprog := SProg
  [("main",
    ["msgptr" ::= (text "01234567890123456789"); "unresolved" ::= 0; "failure" ::= 0; set_ (LLoc "rc") getpid;
     "qname" ::= with_num "/mq_timedsend_2-1_" (Loc "rc"); "attr.mq_msgsize" ::= 10; "attr.mq_maxmsg" ::= 10;
     set_ "queue" (mq_create "qname" (eor O_CREAT O_RDWR) "attr.mq_maxmsg" "attr.mq_msgsize");
     ret_if ("queue" == -1)%pt PTS_UNRESOLVED; set_ (LLoc "rc") time; "ts.tv_sec" ::= Loc "rc" + 1;
     "ts.tv_nsec" ::= 0;
     set_ (LLoc "rc") (mq_timedsend "queue" "msgptr" (strlen_ "msgptr") 1 "ts.tv_sec" "ts.tv_nsec");
     If (Loc "rc" == 0)%pt ["failure" ::= 1] []; set_ (LLoc "rc") (mq_close "queue");
     If (Loc "rc" != 0)%pt ["unresolved" ::= 1] []; set_ (LLoc "rc") (mq_unlink "qname");
     If (Loc "rc" != 0)%pt ["unresolved" ::= 1] []; ret_if ("failure" == 1)%pt PTS_FAIL;
     ret_if ("unresolved" == 1)%pt PTS_UNRESOLVED; Return PTS_PASS])].

Definition mq_timedsend_3_1 : sprog := SProg
  [("main",
    ["msgptr1" ::= (text "1234567890"); "msgptr2" ::= (text "234567890"); "msgptr3" ::= (text "34567890");
     "msgptr4" ::= (text "4567890"); "msgptr5" ::= (text "567890"); "unresolved" ::= 0; "failure" ::= 0;
     set_ (LLoc "rc") getpid; "qname" ::= with_num "/mq_timedsend_3-1_" (Loc "rc"); "attr.mq_msgsize" ::= 40;
     "attr.mq_maxmsg" ::= 10;
     set_ "queue" (mq_create "qname" (eor O_CREAT O_RDWR) "attr.mq_maxmsg" "attr.mq_msgsize");
     ret_if ("queue" == -1)%pt PTS_UNRESOLVED; set_ (LLoc "rc") time; "ts.tv_sec" ::= Loc "rc" + 1;
     "ts.tv_nsec" ::= 0;
     set_ (LLoc "rc") (mq_timedsend "queue" "msgptr3" (strlen_ "msgptr3") 6 "ts.tv_sec" "ts.tv_nsec");
     If (Loc "rc" != 0)%pt ["failure" ::= 1] []; "ts.tv_sec" ::= "ts.tv_sec" + 1;
     set_ (LLoc "rc") (mq_timedsend "queue" "msgptr1" (strlen_ "msgptr1") 10 "ts.tv_sec" "ts.tv_nsec");
     If (Loc "rc" != 0)%pt ["failure" ::= 1] []; "ts.tv_sec" ::= "ts.tv_sec" + 1;
     set_ (LLoc "rc") (mq_timedsend "queue" "msgptr4" (strlen_ "msgptr4") 2 "ts.tv_sec" "ts.tv_nsec");
     If (Loc "rc" != 0)%pt ["failure" ::= 1] []; "ts.tv_sec" ::= "ts.tv_sec" + 1;
     set_ (LLoc "rc") (mq_timedsend "queue" "msgptr2" (strlen_ "msgptr2") 8 "ts.tv_sec" "ts.tv_nsec");
     If (Loc "rc" != 0)%pt ["failure" ::= 1] []; "ts.tv_sec" ::= "ts.tv_sec" + 1;
     set_ (LLoc "rc") (mq_timedsend "queue" "msgptr5" (strlen_ "msgptr5") 1 "ts.tv_sec" "ts.tv_nsec");
     If (Loc "rc" != 0)%pt ["failure" ::= 1] [];
     set_ (LLoc "rc") (mq_receive "queue" "msgrcd" 40 [LVar "pri"]);
     If (Loc "rc" == -1)%pt ["failure" ::= 1] [];
     If (strncmp_ "msgptr1" "msgrcd" (strlen_ "msgptr1") != 0)%pt ["failure" ::= 1] [];
     set_ (LLoc "rc") (mq_receive "queue" "msgrcd" 40 [LVar "pri"]);
     If (Loc "rc" == -1)%pt ["failure" ::= 1] [];
     If (strncmp_ "msgptr2" "msgrcd" (strlen_ "msgptr2") != 0)%pt ["failure" ::= 1] [];
     set_ (LLoc "rc") (mq_receive "queue" "msgrcd" 40 [LVar "pri"]);
     If (Loc "rc" == -1)%pt ["failure" ::= 1] [];
     If (strncmp_ "msgptr3" "msgrcd" (strlen_ "msgptr3") != 0)%pt ["failure" ::= 1] [];
     set_ (LLoc "rc") (mq_receive "queue" "msgrcd" 40 [LVar "pri"]);
     If (Loc "rc" == -1)%pt ["failure" ::= 1] [];
     If (strncmp_ "msgptr4" "msgrcd" (strlen_ "msgptr4") != 0)%pt ["failure" ::= 1] [];
     set_ (LLoc "rc") (mq_receive "queue" "msgrcd" 40 [LVar "pri"]);
     If (Loc "rc" == -1)%pt ["failure" ::= 1] [];
     If (strncmp_ "msgptr5" "msgrcd" (strlen_ "msgptr5") != 0)%pt ["failure" ::= 1] [];
     set_ (LLoc "rc") (mq_close "queue"); If (Loc "rc" != 0)%pt ["unresolved" ::= 1] [];
     set_ (LLoc "rc") (mq_unlink "qname"); If (Loc "rc" != 0)%pt ["unresolved" ::= 1] [];
     ret_if ("failure" == 1)%pt PTS_FAIL; ret_if ("unresolved" == 1)%pt PTS_UNRESOLVED; Return PTS_PASS])].

Definition mq_timedsend_3_2 : sprog := SProg
  [("main",
    ["msgptr1" ::= (text "1234567890"); "msgptr2" ::= (text "234567890"); "msgptr3" ::= (text "34567890");
     "msgptr4" ::= (text "4567890"); "msgptr5" ::= (text "567890"); "unresolved" ::= 0; "failure" ::= 0;
     set_ (LLoc "rc") getpid; "qname" ::= with_num "/mq_timedsend_3-2_" (Loc "rc"); "attr.mq_msgsize" ::= 40;
     "attr.mq_maxmsg" ::= 40;
     set_ "queue" (mq_create "qname" (eor O_CREAT O_RDWR) "attr.mq_maxmsg" "attr.mq_msgsize");
     ret_if ("queue" == -1)%pt PTS_UNRESOLVED; set_ (LLoc "rc") time; "ts.tv_sec" ::= Loc "rc" + 1;
     "ts.tv_nsec" ::= 0;
     set_ (LLoc "rc") (mq_timedsend "queue" "msgptr3" (strlen_ "msgptr3") 2 "ts.tv_sec" "ts.tv_nsec");
     If (Loc "rc" != 0)%pt ["failure" ::= 1] []; "ts.tv_sec" ::= "ts.tv_sec" + 1;
     set_ (LLoc "rc") (mq_timedsend "queue" "msgptr1" (strlen_ "msgptr1") 10 "ts.tv_sec" "ts.tv_nsec");
     If (Loc "rc" != 0)%pt ["failure" ::= 1] []; "ts.tv_sec" ::= "ts.tv_sec" + 1;
     set_ (LLoc "rc") (mq_timedsend "queue" "msgptr4" (strlen_ "msgptr4") 2 "ts.tv_sec" "ts.tv_nsec");
     If (Loc "rc" != 0)%pt ["failure" ::= 1] []; "ts.tv_sec" ::= "ts.tv_sec" + 1;
     set_ (LLoc "rc") (mq_timedsend "queue" "msgptr2" (strlen_ "msgptr2") 8 "ts.tv_sec" "ts.tv_nsec");
     If (Loc "rc" != 0)%pt ["failure" ::= 1] []; "ts.tv_sec" ::= "ts.tv_sec" + 1;
     set_ (LLoc "rc") (mq_timedsend "queue" "msgptr5" (strlen_ "msgptr5") 1 "ts.tv_sec" "ts.tv_nsec");
     If (Loc "rc" != 0)%pt ["failure" ::= 1] [];
     set_ (LLoc "rc") (mq_receive "queue" "msgrcd" 40 [LVar "pri"]);
     If (Loc "rc" == -1)%pt ["unresolved" ::= 1] [];
     If (strncmp_ "msgptr1" "msgrcd" (strlen_ "msgptr1") != 0)%pt ["failure" ::= 1] [];
     set_ (LLoc "rc") (mq_receive "queue" "msgrcd" 40 [LVar "pri"]);
     If (Loc "rc" == -1)%pt ["unresolved" ::= 1] [];
     If (strncmp_ "msgptr2" "msgrcd" (strlen_ "msgptr2") != 0)%pt ["failure" ::= 1] [];
     set_ (LLoc "rc") (mq_receive "queue" "msgrcd" 40 [LVar "pri"]);
     If (Loc "rc" == -1)%pt ["unresolved" ::= 1] [];
     If (strncmp_ "msgptr3" "msgrcd" (strlen_ "msgptr3") != 0)%pt ["failure" ::= 1] [];
     set_ (LLoc "rc") (mq_receive "queue" "msgrcd" 40 [LVar "pri"]);
     If (Loc "rc" == -1)%pt ["unresolved" ::= 1] [];
     If (strncmp_ "msgptr4" "msgrcd" (strlen_ "msgptr4") != 0)%pt ["failure" ::= 1] [];
     set_ (LLoc "rc") (mq_receive "queue" "msgrcd" 40 [LVar "pri"]);
     If (Loc "rc" == -1)%pt ["unresolved" ::= 1] [];
     If (strncmp_ "msgptr5" "msgrcd" (strlen_ "msgptr5") != 0)%pt ["failure" ::= 1] [];
     set_ (LLoc "rc") (mq_close "queue"); If (Loc "rc" != 0)%pt ["unresolved" ::= 1] [];
     set_ (LLoc "rc") (mq_unlink "qname"); If (Loc "rc" != 0)%pt ["unresolved" ::= 1] [];
     ret_if ("failure" == 1)%pt PTS_FAIL; ret_if ("unresolved" == 1)%pt PTS_UNRESOLVED; Return PTS_PASS])].

Definition mq_timedsend_4_1 : sprog := SProg
  [("main",
    ["msgptr" ::= (text "0123456789"); "unresolved" ::= 0; "failure" ::= 0; set_ (LLoc "rc") getpid;
     "qname" ::= with_num "/mq_timedsend_4-1_" (Loc "rc");
     set_ "queue" (mq_open "qname" (eor O_CREAT O_RDWR)); ret_if ("queue" == -1)%pt PTS_UNRESOLVED;
     set_ (LLoc "rc") time; "ts.tv_sec" ::= Loc "rc" + 1; "ts.tv_nsec" ::= 0;
     set_ (LLoc "rc") (mq_timedsend "queue" "msgptr" (strlen_ "msgptr") (MQ_PRIO_MAX + 1)%pt "ts.tv_sec" "ts.tv_nsec");
     If (Loc "rc" == 0)%pt ["failure" ::= 1] []; set_ (LLoc "rc") (mq_close "queue");
     If (Loc "rc" != 0)%pt ["unresolved" ::= 1] []; set_ (LLoc "rc") (mq_unlink "qname");
     If (Loc "rc" != 0)%pt ["unresolved" ::= 1] []; ret_if ("failure" == 1)%pt PTS_FAIL;
     ret_if ("unresolved" == 1)%pt PTS_UNRESOLVED; Return PTS_PASS])].

Definition mq_timedsend_4_2 : sprog := SProg
  [("main",
    ["msgptr" ::= (text "0123456789"); "unresolved" ::= 0; "failure" ::= 0; set_ (LLoc "rc") getpid;
     "qname" ::= with_num "/mq_timedsend_4-2_" (Loc "rc");
     set_ "queue" (mq_open "qname" (eor O_CREAT O_RDWR)); ret_if ("queue" == -1)%pt PTS_UNRESOLVED;
     set_ (LLoc "rc") time; "ts.tv_sec" ::= Loc "rc" + 1; "ts.tv_nsec" ::= 0;
     set_ (LLoc "rc") (mq_timedsend "queue" "msgptr" (strlen_ "msgptr") MQ_PRIO_MAX "ts.tv_sec" "ts.tv_nsec");
     If (Loc "rc" == 0)%pt ["failure" ::= 1] []; set_ (LLoc "rc") (mq_close "queue");
     If (Loc "rc" != 0)%pt ["unresolved" ::= 1] []; set_ (LLoc "rc") (mq_unlink "qname");
     If (Loc "rc" != 0)%pt ["unresolved" ::= 1] []; ret_if ("failure" == 1)%pt PTS_FAIL;
     ret_if ("unresolved" == 1)%pt PTS_UNRESOLVED; Return PTS_PASS])].

Definition mq_timedsend_4_3 : sprog := SProg
  [("main",
    ["msgptr" ::= (text "0123456789"); "unresolved" ::= 0; "failure" ::= 0; set_ (LLoc "rc") getpid;
     "qname" ::= with_num "/mq_timedsend_4-3_" (Loc "rc"); "attr.mq_msgsize" ::= 40; "attr.mq_maxmsg" ::= 5;
     set_ "queue" (mq_create "qname" (eor O_CREAT O_RDWR) "attr.mq_maxmsg" "attr.mq_msgsize");
     ret_if ("queue" == -1)%pt PTS_UNRESOLVED; set_ (LLoc "rc") time; "ts.tv_sec" ::= Loc "rc" + 1;
     "ts.tv_nsec" ::= 0;
     set_ (LLoc "rc") (mq_timedsend "queue" "msgptr" (strlen_ "msgptr") (MQ_PRIO_MAX - 1)%pt "ts.tv_sec" "ts.tv_nsec");
     If (Loc "rc" != 0)%pt ["failure" ::= 1] [];
     set_ (LLoc "rc") (mq_receive "queue" "msgrcd" 40 [LVar "pri"]);
     If (Loc "rc" == -1)%pt ["failure" ::= 1] [];
     If (strncmp_ "msgptr" "msgrcd" (strlen_ "msgptr") != 0)%pt ["failure" ::= 1] [];
     set_ (LLoc "rc") (mq_close "queue"); If (Loc "rc" != 0)%pt ["unresolved" ::= 1] [];
     set_ (LLoc "rc") (mq_unlink "qname"); If (Loc "rc" != 0)%pt ["unresolved" ::= 1] [];
     ret_if ("failure" == 1)%pt PTS_FAIL; ret_if ("unresolved" == 1)%pt PTS_UNRESOLVED; Return PTS_PASS])].

Definition mq_timedsend_5_1 : sprog := SProg
  [("main",
    ["msgptr" ::= (text "0123456789"); "unresolved" ::= 0; set_ (LLoc "rc") getpid;
     "gqname" ::= with_num "/mq_timedsend_5-1_" (Loc "rc"); "attr.mq_msgsize" ::= 40; "attr.mq_maxmsg" ::= 5;
     set_ "gqueue" (mq_create "gqname" (eor O_CREAT O_RDWR) "attr.mq_maxmsg" "attr.mq_msgsize");
     ret_if ("gqueue" == -1)%pt PTS_UNRESOLVED; set_ "pid" fork;
     If ("pid" == 0)%pt
       ["ts.tv_sec" ::= INT32_MAX; "ts.tv_nsec" ::= 0; ignore (sleep 1); "i" ::= 0;
        While ("i" < 6)%pt
          [ignore (mq_timedsend "gqueue" "msgptr" (strlen_ "msgptr") 1 "ts.tv_sec" "ts.tv_nsec");
           set_ (LLoc "rc") getppid; ignore (kill (Loc "rc") SIGABRT); "i" ::= "i" + 1];
        Return PTS_UNRESOLVED]
       [ignore (sigaction SIGABRT "stopsleep_handler" 0 0); "j" ::= 0;
        While ("j" < 6)%pt [set_ (LLoc "rc") (sleep 3); If (Loc "rc" == 0)%pt [Break] []; "j" ::= "j" + 1];
        If ("j" == 6)%pt [ignore (kill "pid" SIGKILL); Return PTS_FAIL] [];
        set_ (LLoc "rc") (mq_receive "gqueue" "msgrcd" 40 [LVar "pri"]);
        If (Loc "rc" == -1)%pt ["unresolved" ::= 1] []; set_ (LLoc "rc") (sleep 3);
        If (Loc "rc" == 0)%pt
          [ignore (kill "pid" SIGKILL); ignore (mq_close "gqueue"); ignore (mq_unlink "gqname");
           Return PTS_FAIL]
          [];
        ignore (mq_close "gqueue"); ignore (mq_unlink "gqname"); Return PTS_PASS]]);
   ("stopsleep_handler", [Return 0])].

Definition mq_timedsend_5_2 : sprog := SProg
  [("main",
    ["msgptr" ::= (text "0123456789"); set_ (LLoc "rc") getpid;
     "gqname" ::= with_num "/mq_timedsend_5-2_" (Loc "rc"); "attr.mq_msgsize" ::= 40; "attr.mq_maxmsg" ::= 5;
     set_ "gqueue" (mq_create "gqname" (eor O_CREAT O_RDWR) "attr.mq_maxmsg" "attr.mq_msgsize");
     ret_if ("gqueue" == -1)%pt PTS_UNRESOLVED; ignore (sigaction SIGABRT "justreturn_handler" 0 0);
     set_ "pid" fork;
     If ("pid" == 0)%pt
       ["ts.tv_sec" ::= INT32_MAX; "ts.tv_nsec" ::= 0; ignore (sleep 1); "i" ::= 0;
        While ("i" < 6)%pt
          [set_ (LLoc "rc") (mq_timedsend "gqueue" "msgptr" (strlen_ "msgptr") 1 "ts.tv_sec" "ts.tv_nsec");
           If (Loc "rc" == -1)%pt [If (errno_ == (err_num EINTR))%pt [Return 1] [Return 0]] [];
           set_ (LLoc "rc") getppid; ignore (kill (Loc "rc") SIGABRT); "i" ::= "i" + 1];
        Return 0]
       ["blocking" ::= 0; "j" ::= 0;
        While ("j" < 6)%pt
          [set_ (LLoc "rc") (sleep 3);
           If (Loc "rc" == 0)%pt ["blocking" ::= 1; ignore (kill "pid" SIGABRT); Break] []; "j" ::= "j" + 1];
        If ("blocking" != 1)%pt
          [ignore (kill "pid" SIGKILL); ignore (mq_close "gqueue"); ignore (mq_unlink "gqname");
           Return PTS_UNRESOLVED]
          [];
        ignore (mq_close "gqueue"); set_ (LLoc "rc") (mq_unlink "gqname");
        If (Loc "rc" != 0)%pt [ignore (kill "pid" SIGKILL); Return PTS_UNRESOLVED] [];
        set_ (LLoc "rc") (wait [LVar "k"]);
        If (Loc "rc" == -1)%pt [ignore (kill "pid" SIGKILL); Return PTS_UNRESOLVED] [];
        ret_if (negb_ (WIFEXITED "k") || negb_ (WEXITSTATUS "k"))%pt PTS_FAIL; Return PTS_PASS]]);
   ("justreturn_handler", [Return 0])].

Definition mq_timedsend_5_3 : sprog := SProg
  [("main",
    ["msgptr" ::= (text "0123456789"); set_ (LLoc "rc") getpid;
     "gqname" ::= with_num "/mq_timedsend_5-3_" (Loc "rc"); "attr.mq_maxmsg" ::= 5; "attr.mq_msgsize" ::= 40;
     set_ "gqueue" (mq_create "gqname" (eor O_CREAT O_RDWR) "attr.mq_maxmsg" "attr.mq_msgsize");
     ret_if ("gqueue" == -1)%pt PTS_UNRESOLVED; set_ "pid" fork;
     If ("pid" == 0)%pt
       ["mask" ::= 0; "mask" ::= add_sig "mask" SIGUSR1; ignore (sigprocmask SIG_BLOCK "mask" []);
        ignore (sigwait "mask" (LVar "sig")); set_ (LLoc "rc") time; "ts.tv_sec" ::= Loc "rc" + 7;
        "ts.tv_nsec" ::= 0; "i" ::= 0;
        While ("i" < 6)%pt
          [set_ (LLoc "rc") (mq_timedsend "gqueue" "msgptr" (strlen_ "msgptr") 1 "ts.tv_sec" "ts.tv_nsec");
           If (Loc "rc" != 0)%pt [set_ (LLoc "rc") getppid; ignore (kill (Loc "rc") SIGABRT); Return 1] [];
           set_ (LLoc "rc") getppid; ignore (kill (Loc "rc") SIGABRT); "i" ::= "i" + 1];
        Return 0]
       [ignore (sigaction SIGABRT "stopsleep_handler" 0 0); ignore (sleep 1); ignore (kill "pid" SIGUSR1);
        "j" ::= 0;
        While ("j" < 6)%pt [set_ (LLoc "rc") (sleep 3); If (Loc "rc" == 0)%pt [Break] []; "j" ::= "j" + 1];
        If ("j" == 6)%pt
          [ignore (kill "pid" SIGKILL); ignore (mq_close "gqueue"); ignore (mq_unlink "gqname");
           Return PTS_FAIL]
          [];
        set_ (LLoc "rc") (sleep 7);
        If (Loc "rc" == 0)%pt
          [ignore (kill "pid" SIGKILL); ignore (mq_close "gqueue"); ignore (mq_unlink "gqname");
           Return PTS_FAIL]
          [];
        ignore (mq_close "gqueue"); ignore (mq_unlink "gqname"); Return PTS_PASS]]);
   ("stopsleep_handler", [Return 0])].

Definition mq_timedsend_6_1 : sprog := SProg
  [("main",
    [Return PTS_UNTESTED])].

Definition mq_timedsend_8_1 : sprog := SProg
  [("main",
    ["msgptr" ::= (text "0123456789"); "unresolved" ::= 0; set_ (LLoc "rc") getpid;
     "qname" ::= with_num "/mq_timedsend_8-1_" (Loc "rc"); "attr.mq_msgsize" ::= 40; "attr.mq_maxmsg" ::= 5;
     set_ "queue" (mq_create "qname" (eor O_CREAT O_RDWR) "attr.mq_maxmsg" "attr.mq_msgsize");
     ret_if ("queue" == -1)%pt PTS_UNRESOLVED; set_ (LLoc "rc") time; "ts.tv_sec" ::= Loc "rc" + 1;
     "ts.tv_nsec" ::= 0;
     set_ "ret" (mq_timedsend "queue" "msgptr" (strlen_ "msgptr") 1 "ts.tv_sec" "ts.tv_nsec");
     set_ (LLoc "rc") (mq_receive "queue" "msgrcd" 40 [LVar "pri"]);
     If (Loc "rc" == -1)%pt ["unresolved" ::= 1] [];
     If (strncmp_ "msgptr" "msgrcd" (strlen_ "msgptr") != 0)%pt ["unresolved" ::= 1] [];
     set_ (LLoc "rc") (mq_close "queue"); If (Loc "rc" != 0)%pt ["unresolved" ::= 1] [];
     set_ (LLoc "rc") (mq_unlink "qname"); If (Loc "rc" != 0)%pt ["unresolved" ::= 1] [];
     ret_if ("unresolved" == 1)%pt PTS_UNRESOLVED; ret_if ("ret" != 0)%pt PTS_FAIL; Return PTS_PASS])].

Definition mq_timedsend_9_1 : sprog := SProg
  [("main",
    ["msgptr" ::= (text "0123456789"); "unresolved" ::= 0; "failure" ::= 0; set_ (LLoc "rc") getpid;
     "qname" ::= with_num "/mq_timedsend_9-1_" (Loc "rc"); "attr.mq_msgsize" ::= 40; "attr.mq_maxmsg" ::= 40;
     set_ "queue" (mq_create "qname" (eor (eor O_CREAT O_RDWR) O_NONBLOCK) "attr.mq_maxmsg" "attr.mq_msgsize");
     ret_if ("queue" == -1)%pt PTS_UNRESOLVED; set_ (LLoc "rc") time; "ts.tv_sec" ::= Loc "rc" + 1;
     "ts.tv_nsec" ::= 0;
     set_ (LLoc "rc") (mq_timedsend ("queue" + 1)%pt "msgptr" (strlen_ "msgptr") 1 "ts.tv_sec" "ts.tv_nsec");
     If (Loc "rc" != -1)%pt ["failure" ::= 1] []; If (errno_ != (err_num EBADF))%pt ["failure" ::= 1] [];
     set_ (LLoc "rc") (mq_receive "queue" "msgrcd" 40 [LVar "pri"]);
     If (Loc "rc" != -1)%pt [If (("msgptr" != "msgrcd") == 0)%pt ["failure" ::= 1] ["unresolved" ::= 1]] [];
     set_ (LLoc "rc") (mq_close "queue"); If (Loc "rc" != 0)%pt ["unresolved" ::= 1] [];
     set_ (LLoc "rc") (mq_unlink "qname"); If (Loc "rc" != 0)%pt ["unresolved" ::= 1] [];
     ret_if ("failure" == 1)%pt PTS_FAIL; ret_if ("unresolved" == 1)%pt PTS_UNRESOLVED; Return PTS_PASS])].

Definition mq_timedsend_10_1 : sprog := SProg
  [("main",
    ["unresolved" ::= 0; "failure" ::= 0; "maxreached" ::= 0; set_ (LLoc "rc") getpid;
     "qname" ::= with_num "/mq_timedsend_10-1_" (Loc "rc"); "attr.mq_msgsize" ::= 100; "attr.mq_maxmsg" ::= 5;
     set_ "queue" (mq_create "qname" (eor (eor O_CREAT O_RDWR) O_NONBLOCK) "attr.mq_maxmsg" "attr.mq_msgsize");
     ret_if ("queue" == -1)%pt PTS_UNRESOLVED; set_ (LLoc "rc") time; "ts.tv_sec" ::= Loc "rc" + 1;
     "ts.tv_nsec" ::= 0; "i" ::= 0;
     While ("i" < 6)%pt
       ["msgptr" ::= with_num "message " "i";
        set_ (LLoc "rc") (mq_timedsend "queue" "msgptr" (strlen_ "msgptr") 1 "ts.tv_sec" "ts.tv_nsec");
        If (Loc "rc" == -1)%pt
          ["maxreached" ::= 1; If (errno_ != (err_num EAGAIN))%pt ["failure" ::= 1] []; Break]
          [];
        "i" ::= "i" + 1];
     set_ (LLoc "rc") (mq_close "queue"); If (Loc "rc" != 0)%pt ["unresolved" ::= 1] [];
     set_ (LLoc "rc") (mq_unlink "qname"); If (Loc "rc" != 0)%pt ["unresolved" ::= 1] [];
     ret_if ("maxreached" == 0)%pt PTS_UNRESOLVED; ret_if ("failure" == 1)%pt PTS_FAIL;
     ret_if ("unresolved" == 1)%pt PTS_UNRESOLVED; Return PTS_PASS])].

Definition mq_timedsend_11_1 : sprog := SProg
  [("main",
    ["msgptr" ::= (text "0123456789"); "unresolved" ::= 0; "failure" ::= 0; set_ (LLoc "rc") getpid;
     "qname" ::= with_num "/mq_timedsend_11-1_" (Loc "rc");
     set_ "queue" (mq_open "qname" (eor O_CREAT O_RDWR)); ret_if ("queue" == -1)%pt PTS_UNRESOLVED;
     set_ (LLoc "rc") time; "ts.tv_sec" ::= Loc "rc" + 1; "ts.tv_nsec" ::= 0;
     set_ (LLoc "rc") (mq_timedsend ("queue" + 1)%pt "msgptr" (strlen_ "msgptr") 1 "ts.tv_sec" "ts.tv_nsec");
     If (Loc "rc" != -1)%pt ["failure" ::= 1] []; If (errno_ != (err_num EBADF))%pt ["failure" ::= 1] [];
     set_ (LLoc "rc") (mq_close "queue"); If (Loc "rc" != 0)%pt ["unresolved" ::= 1] [];
     set_ (LLoc "rc") (mq_unlink "qname"); If (Loc "rc" != 0)%pt ["unresolved" ::= 1] [];
     ret_if ("failure" == 1)%pt PTS_FAIL; ret_if ("unresolved" == 1)%pt PTS_UNRESOLVED; Return PTS_PASS])].

Definition mq_timedsend_11_2 : sprog := SProg
  [("main",
    ["msgptr" ::= (text "0123456789"); "unresolved" ::= 0; "failure" ::= 0; set_ (LLoc "rc") getpid;
     "qname" ::= with_num "/mq_timedsend_11-2_" (Loc "rc");
     set_ "queue" (mq_open "qname" (eor O_CREAT O_RDONLY)); ret_if ("queue" == -1)%pt PTS_UNRESOLVED;
     set_ (LLoc "rc") time; "ts.tv_sec" ::= Loc "rc" + 1; "ts.tv_nsec" ::= 0;
     set_ (LLoc "rc") (mq_timedsend "queue" "msgptr" (strlen_ "msgptr") 1 "ts.tv_sec" "ts.tv_nsec");
     If (Loc "rc" != -1)%pt ["failure" ::= 1] []; If (errno_ != (err_num EBADF))%pt ["failure" ::= 1] [];
     set_ (LLoc "rc") (mq_close "queue"); If (Loc "rc" != 0)%pt ["unresolved" ::= 1] [];
     set_ (LLoc "rc") (mq_unlink "qname"); If (Loc "rc" != 0)%pt ["unresolved" ::= 1] [];
     ret_if ("failure" == 1)%pt PTS_FAIL; ret_if ("unresolved" == 1)%pt PTS_UNRESOLVED; Return PTS_PASS])].

Definition mq_timedsend_12_1 : sprog := SProg
  [("main",
    ["i" ::= 0; "in_handler" ::= 0; "errno_eintr" ::= 0; "sem" ::= 0;
     U (pthread_create (LVar "new_th") "a_thread_func" []); While ("sem" == 0)%pt [ignore (sleep 1)];
     While (("i" != 10) && ("sem" == 1))%pt [U (pthread_kill "new_th" SIGUSR1); "i" ::= "i" + 1];
     U (pthread_join "new_th" []);
     If ("errno_eintr" != 1)%pt
       [ret_if ("sem" == 0)%pt PTS_FAIL; ret_if ("in_handler" != 0)%pt PTS_UNRESOLVED]
       [];
     Return PTS_PASS]);
   ("justreturn_handler", ["in_handler" ::= 1; Return 0]);
   ("a_thread_func",
    [LLoc "msgptr" ::= (text "0123456789"); ignore (sigaction SIGUSR1 "justreturn_handler" 0 0);
     set_ (LLoc "rc") getpid; LLoc "gqname" ::= with_num "/mq_timedsend_12-1_" (Loc "rc");
     LLoc "attr.mq_maxmsg" ::= 10; LLoc "attr.mq_msgsize" ::= 40;
     set_ (LLoc "gqueue") (mq_create (Loc "gqname") (eor O_CREAT O_RDWR) (Loc "attr.mq_maxmsg") (Loc "attr.mq_msgsize"));
     If (Loc "gqueue" == -1)%pt [Thread_exit PTS_UNRESOLVED] []; set_ (LLoc "rc") time;
     LLoc "ts.tv_sec" ::= Loc "rc" + 10; LLoc "ts.tv_nsec" ::= 0; "sem" ::= 1; LLoc "a_thread_func.i" ::= 0;
     While (Loc "a_thread_func.i" < 11)%pt
       [set_ (LLoc "rc") (mq_timedsend (Loc "gqueue") (Loc "msgptr") (strlen_ (Loc "msgptr")) 1 (Loc "ts.tv_sec") (Loc "ts.tv_nsec"));
        If (Loc "rc" == -1)%pt
          [If (errno_ == (err_num EINTR))%pt
             [set_ (LLoc "rc") (mq_unlink (Loc "gqname"));
              If (Loc "rc" != 0)%pt [Thread_exit PTS_UNRESOLVED] []; "errno_eintr" ::= 1;
              Thread_exit PTS_PASS]
             [Thread_exit PTS_FAIL]]
          [];
        LLoc "a_thread_func.i" ::= Loc "a_thread_func.i" + 1];
     "sem" ::= 0; Thread_exit PTS_FAIL])].

Definition mq_timedsend_13_1_invalidpri : list Z :=
  [MQ_PRIO_MAX; MQ_PRIO_MAX + 1; MQ_PRIO_MAX + 5].

Definition mq_timedsend_13_1 : sprog := SProg
  [("main",
    ["msgptr" ::= (text "0123456789"); "unresolved" ::= 0; "failure" ::= 0; set_ (LLoc "rc") getpid;
     "qname" ::= with_num "/mq_timedsend_13-1_" (Loc "rc");
     set_ "queue" (mq_open "qname" (eor O_CREAT O_RDWR)); ret_if ("queue" == -1)%pt PTS_UNRESOLVED;
     set_ (LLoc "rc") time; "ts.tv_sec" ::= Loc "rc" + 1; "ts.tv_nsec" ::= 0; "i" ::= 0;
     While ("i" < 3)%pt
       [set_ (LLoc "rc") (mq_timedsend "queue" "msgptr" (strlen_ "msgptr") (at_ mq_timedsend_13_1_invalidpri "i") "ts.tv_sec" "ts.tv_nsec");
        If (Loc "rc" == 0)%pt ["failure" ::= 1] []; If (errno_ != (err_num EINVAL))%pt ["failure" ::= 1] [];
        "i" ::= "i" + 1];
     set_ (LLoc "rc") (mq_close "queue"); If (Loc "rc" != 0)%pt ["unresolved" ::= 1] [];
     set_ (LLoc "rc") (mq_unlink "qname"); If (Loc "rc" != 0)%pt ["unresolved" ::= 1] [];
     ret_if ("failure" == 1)%pt PTS_FAIL; ret_if ("unresolved" == 1)%pt PTS_UNRESOLVED; Return PTS_PASS])].

Definition mq_timedsend_14_1_messagesize : list Z :=
  [19; 2; 1].

Definition mq_timedsend_14_1 : sprog := SProg
  [("main",
    ["msgptr" ::= (text "01234567890123456789"); "unresolved" ::= 0; "failure" ::= 0; set_ (LLoc "rc") getpid;
     "qname" ::= with_num "/mq_timedsend_14-1_" (Loc "rc"); set_ "ts.tv_sec" time; "ts.tv_nsec" ::= 0;
     "i" ::= 0;
     While ("i" < 3)%pt
       ["attr.mq_msgsize" ::= at_ mq_timedsend_14_1_messagesize "i";
        "attr.mq_maxmsg" ::= at_ mq_timedsend_14_1_messagesize "i";
        set_ "queue" (mq_create "qname" (eor O_CREAT O_RDWR) "attr.mq_maxmsg" "attr.mq_msgsize");
        ret_if ("queue" == -1)%pt PTS_UNRESOLVED; "ts.tv_sec" ::= "ts.tv_sec" + 1;
        set_ (LLoc "rc") (mq_timedsend "queue" "msgptr" (strlen_ "msgptr") 1 "ts.tv_sec" "ts.tv_nsec");
        If (Loc "rc" != -1)%pt ["failure" ::= 1] [];
        If (errno_ != (err_num EMSGSIZE))%pt ["failure" ::= 1] []; set_ (LLoc "rc") (mq_close "queue");
        If (Loc "rc" != 0)%pt ["unresolved" ::= 1] []; set_ (LLoc "rc") (mq_unlink "qname");
        If (Loc "rc" != 0)%pt ["unresolved" ::= 1] []; "i" ::= "i" + 1];
     ret_if ("failure" == 1)%pt PTS_FAIL; ret_if ("unresolved" == 1)%pt PTS_UNRESOLVED; Return PTS_PASS])].

Definition mq_timedsend_15_1 : sprog := SProg
  [("main",
    ["msgptr" ::= (text "0123456789"); "maxreached" ::= 0; set_ (LLoc "rc") getpid;
     "gqname" ::= with_num "/mq_timedsend_15-1_" (Loc "rc"); "attr.mq_msgsize" ::= 40; "attr.mq_maxmsg" ::= 5;
     set_ "gqueue" (mq_create "gqname" (eor O_CREAT O_RDWR) "attr.mq_maxmsg" "attr.mq_msgsize");
     ret_if ("gqueue" == -1)%pt PTS_UNRESOLVED; set_ "currsec" time; "ts.tv_sec" ::= "currsec" - 5;
     "ts.tv_nsec" ::= 0; ignore (sigaction SIGALRM "testfailed_handler" 0 0); ignore (alarm 5); "i" ::= 0;
     While ("i" < 6)%pt
       [set_ (LLoc "rc") (mq_timedsend "gqueue" "msgptr" (strlen_ "msgptr") 1 "ts.tv_sec" "ts.tv_nsec");
        If (Loc "rc" == -1)%pt
          ["maxreached" ::= 1;
           If (errno_ != (err_num ETIMEDOUT))%pt
             [ignore (mq_close "gqueue"); ignore (mq_unlink "gqname"); Return PTS_FAIL]
             [];
           Break]
          [];
        "i" ::= "i" + 1];
     ignore (mq_close "gqueue"); ignore (mq_unlink "gqname"); ret_if ("maxreached" == 0)%pt PTS_UNRESOLVED;
     set_ (LLoc "rc") time; ret_if ("currsec" + 1 < Loc "rc")%pt PTS_FAIL; Return PTS_PASS]);
   ("testfailed_handler", [ignore (mq_close "gqueue"); ignore (mq_unlink "gqname"); Exit PTS_FAIL])].

Definition mq_timedsend_16_1 : sprog := SProg
  [("main",
    ["msgptr" ::= (text "0123456789"); set_ (LLoc "rc") getpid;
     "gqname" ::= with_num "/mq_timedsend_16-1_" (Loc "rc"); "attr.mq_maxmsg" ::= 5; "attr.mq_msgsize" ::= 40;
     set_ "gqueue" (mq_create "gqname" (eor O_CREAT O_RDWR) "attr.mq_maxmsg" "attr.mq_msgsize");
     ignore (mq_unlink "gqname"); ret_if ("gqueue" == -1)%pt PTS_UNRESOLVED; set_ "pid" fork;
     If ("pid" == 0)%pt
       ["mask" ::= 0; "mask" ::= add_sig "mask" SIGUSR1; ignore (sigprocmask SIG_BLOCK "mask" []);
        ignore (sigwait "mask" (LVar "sig")); ignore (clock_gettime CLOCK_REALTIME (ts "ts"));
        "ts.tv_sec" ::= "ts.tv_sec" + 7; "ts.tv_nsec" ::= 0; "i" ::= 0;
        While ("i" < 6)%pt
          [set_ (LLoc "rc") (mq_timedsend "gqueue" "msgptr" (strlen_ "msgptr") 1 "ts.tv_sec" "ts.tv_nsec");
           If (Loc "rc" != 0)%pt [set_ (LLoc "rc") getppid; ignore (kill (Loc "rc") SIGABRT); Return 1] [];
           set_ (LLoc "rc") getppid; ignore (kill (Loc "rc") SIGABRT); "i" ::= "i" + 1];
        Return 0]
       [ignore (sigaction SIGABRT "stopsleep_handler" 0 0); "ts.tv_sec" ::= 1; "ts.tv_nsec" ::= 0;
        ignore (nanosleep "ts.tv_sec" "ts.tv_nsec" []); ignore (kill "pid" SIGUSR1); "j" ::= 0;
        While ("j" < 6)%pt
          ["ts.tv_sec" ::= 3; "ts.tv_nsec" ::= 0; set_ (LLoc "rc") (nanosleep "ts.tv_sec" "ts.tv_nsec" []);
           If (Loc "rc" == 0)%pt [Break] []; "j" ::= "j" + 1];
        If ("j" == 6)%pt
          [ignore (kill "pid" SIGKILL); ignore (mq_close "gqueue"); ignore (mq_unlink "gqname");
           Return PTS_FAIL]
          [];
        "ts.tv_sec" ::= 7; "ts.tv_nsec" ::= 0; set_ (LLoc "rc") (nanosleep "ts.tv_sec" "ts.tv_nsec" []);
        If (Loc "rc" == 0)%pt
          [ignore (kill "pid" SIGKILL); ignore (mq_close "gqueue"); ignore (mq_unlink "gqname");
           Return PTS_FAIL]
          [];
        ignore (mq_close "gqueue"); ignore (mq_unlink "gqname"); Return PTS_PASS]]);
   ("stopsleep_handler", [Return 0])].

Definition mq_timedsend_17_1 : sprog := SProg
  [("main",
    [Return PTS_UNTESTED])].

Definition mq_timedsend_18_1 : sprog := SProg
  [("main",
    ["msgptr" ::= (text "0123456789"); set_ (LLoc "rc") getpid;
     "qname" ::= with_num "/mq_timedsend_18-1_" (Loc "rc");
     set_ "queue" (mq_open "qname" (eor O_CREAT O_RDWR)); ret_if ("queue" == -1)%pt PTS_UNRESOLVED;
     set_ (LLoc "rc") time; "ts.tv_sec" ::= Loc "rc" - 1; "ts.tv_nsec" ::= 0;
     set_ (LLoc "rc") (mq_timedsend "queue" "msgptr" (strlen_ "msgptr") 1 "ts.tv_sec" "ts.tv_nsec");
     If (Loc "rc" != 0)%pt [ignore (mq_close "queue"); ignore (mq_unlink "qname"); Return PTS_FAIL] [];
     ignore (mq_close "queue"); ignore (mq_unlink "qname"); Return PTS_PASS])].

Definition mq_timedsend_19_1_invalid_tests : list Z :=
  [-1; INT32_MIN; 1000000000; 1000000001; INT32_MAX].

Definition mq_timedsend_19_1 : sprog := SProg
  [("main",
    ["msgptr" ::= (text "0123456789"); "failure" ::= 0; "maxreached" ::= 0; set_ (LLoc "rc") getpid;
     "qname" ::= with_num "/mq_timedsend_19-1_" (Loc "rc"); "attr.mq_maxmsg" ::= 5; "attr.mq_msgsize" ::= 40;
     set_ "queue" (mq_create "qname" (eor (eor O_CREAT O_RDWR) O_NONBLOCK) "attr.mq_maxmsg" "attr.mq_msgsize");
     ret_if ("queue" == -1)%pt PTS_UNRESOLVED; set_ "ts.tv_sec" time; "ts.tv_nsec" ::= 0; "i" ::= 0;
     While ("i" < 6)%pt
       ["ts.tv_sec" ::= "ts.tv_sec" + 1;
        set_ (LLoc "rc") (mq_timedsend "queue" "msgptr" (strlen_ "msgptr") 1 "ts.tv_sec" "ts.tv_nsec");
        If (Loc "rc" == -1)%pt ["maxreached" ::= 1; Break] []; "i" ::= "i" + 1];
     If ("maxreached" == 0)%pt
       [ignore (mq_close "queue"); ignore (mq_unlink "qname"); Return PTS_UNRESOLVED]
       [];
     ignore (mq_close "queue"); set_ "queue" (mq_open "qname" O_RDWR);
     ret_if ("queue" == -1)%pt PTS_UNRESOLVED; "i" ::= 0;
     While ("i" < 5)%pt
       ["ts.tv_nsec" ::= at_ mq_timedsend_19_1_invalid_tests "i";
        set_ (LLoc "rc") (mq_timedsend "queue" "msgptr" (strlen_ "msgptr") 1 "ts.tv_sec" "ts.tv_nsec");
        If (Loc "rc" != -1)%pt ["failure" ::= 1] [If (errno_ != (err_num EINVAL))%pt ["failure" ::= 1] []];
        "i" ::= "i" + 1];
     ignore (mq_close "queue"); ignore (mq_unlink "qname"); ret_if ("failure" == 1)%pt PTS_FAIL;
     Return PTS_PASS])].

Definition mq_timedsend_20_1 : sprog := SProg
  [("main",
    ["msgptr" ::= (text "0123456789"); "failure" ::= 0; "maxreached" ::= 0; set_ (LLoc "rc") getpid;
     "gqname" ::= with_num "/mq_timedsend_20-1_" (Loc "rc"); "attr.mq_msgsize" ::= 40; "attr.mq_maxmsg" ::= 5;
     set_ "gqueue" (mq_create "gqname" (eor O_CREAT O_RDWR) "attr.mq_maxmsg" "attr.mq_msgsize");
     ret_if ("gqueue" == -1)%pt PTS_UNRESOLVED; set_ "currsec" time; "ts.tv_sec" ::= "currsec" + 5;
     "ts.tv_nsec" ::= 0; ignore (sigaction SIGALRM "testfailed_handler" 0 0); ignore (alarm 6); "i" ::= 0;
     While ("i" < 6)%pt
       [set_ (LLoc "rc") (mq_timedsend "gqueue" "msgptr" (strlen_ "msgptr") 1 "ts.tv_sec" "ts.tv_nsec");
        If (Loc "rc" == -1)%pt
          ["maxreached" ::= 1;
           If (errno_ != (err_num ETIMEDOUT))%pt
             [ignore (mq_close "gqueue"); ignore (mq_unlink "gqname"); Return PTS_FAIL]
             [];
           Break]
          [];
        "i" ::= "i" + 1];
     ignore (mq_close "gqueue"); ignore (mq_unlink "gqname"); ret_if ("maxreached" == 0)%pt PTS_UNRESOLVED;
     set_ (LLoc "rc") time; ret_if ("ts.tv_sec" + 1 < Loc "rc")%pt PTS_FAIL;
     ret_if ("failure" == 1)%pt PTS_FAIL; Return PTS_PASS]);
   ("testfailed_handler", [ignore (mq_close "gqueue"); ignore (mq_unlink "gqname"); Exit PTS_FAIL])].

(** ** mq_timedreceive *)

Definition mq_timedreceive_1_1 : sprog := SProg
  [("main",
    ["msgptr1" ::= (text "test message 1"); "msgptr2" ::= (text "test message 2"); "sdprio1" ::= 1;
     "sdprio2" ::= 2; "unresolved" ::= 0; "failure" ::= 0; set_ (LLoc "rc") getpid;
     "mqname" ::= with_num "/mq_timedreceive_1-1_" (Loc "rc"); "attr.mq_msgsize" ::= 40;
     "attr.mq_maxmsg" ::= 40;
     set_ "mqdes" (mq_create "mqname" (eor O_CREAT O_RDWR) "attr.mq_maxmsg" "attr.mq_msgsize");
     If ("mqdes" == -1)%pt ["unresolved" ::= 1] [];
     set_ (LLoc "rc") (mq_send "mqdes" "msgptr1" (strlen_ "msgptr1") "sdprio1");
     If (Loc "rc" != 0)%pt ["unresolved" ::= 1] [];
     set_ (LLoc "rc") (mq_send "mqdes" "msgptr2" (strlen_ "msgptr2") "sdprio2");
     If (Loc "rc" != 0)%pt ["unresolved" ::= 1] []; set_ (LLoc "rc") time; "ts.tv_sec" ::= Loc "rc" + 1;
     "ts.tv_nsec" ::= 0;
     set_ (LLoc "rc") (mq_timedreceive "mqdes" "msgrv1" 40 [LVar "rvprio"] "ts.tv_sec" "ts.tv_nsec");
     If (Loc "rc" == -1)%pt ["failure" ::= 1] [];
     If (strncmp_ "msgptr2" "msgrv1" (strlen_ "msgptr2") != 0)%pt ["failure" ::= 1] [];
     If ("rvprio" != "sdprio2")%pt ["failure" ::= 1] []; set_ (LLoc "rc") time; "ts.tv_sec" ::= Loc "rc" + 1;
     "ts.tv_nsec" ::= 0;
     set_ (LLoc "rc") (mq_timedreceive "mqdes" "msgrv2" 40 [LVar "rvprio"] "ts.tv_sec" "ts.tv_nsec");
     If (Loc "rc" == -1)%pt ["failure" ::= 1] [];
     If (strncmp_ "msgptr1" "msgrv2" (strlen_ "msgptr1") != 0)%pt ["failure" ::= 1] [];
     If ("rvprio" != "sdprio1")%pt ["failure" ::= 1] []; set_ (LLoc "rc") (mq_close "mqdes");
     If (Loc "rc" != 0)%pt ["unresolved" ::= 1] []; set_ (LLoc "rc") (mq_unlink "mqname");
     If (Loc "rc" != 0)%pt ["unresolved" ::= 1] []; ret_if ("failure" == 1)%pt PTS_FAIL;
     ret_if ("unresolved" == 1)%pt PTS_UNRESOLVED; Return PTS_PASS])].

Definition mq_timedreceive_2_1 : sprog := SProg
  [("main",
    ["msgptr" ::= (text "test message"); "prio" ::= 1; "unresolved" ::= 0; "failure" ::= 0;
     set_ (LLoc "rc") getpid; "mqname" ::= with_num "/mq_timedreceive_2-1_" (Loc "rc");
     "mqstat.mq_flags" ::= 0; "mqstat.mq_maxmsg" ::= 0; "mqstat.mq_msgsize" ::= 0; "mqstat.mq_curmsgs" ::= 0;
     "mqstat.mq_msgsize" ::= 21; "mqstat.mq_maxmsg" ::= 21;
     set_ "mqdes" (mq_create "mqname" (eor O_CREAT O_RDWR) "mqstat.mq_maxmsg" "mqstat.mq_msgsize");
     If ("mqdes" == -1)%pt ["unresolved" ::= 1] [];
     set_ (LLoc "rc") (mq_send "mqdes" "msgptr" (strlen_ "msgptr") "prio");
     If (Loc "rc" != 0)%pt ["unresolved" ::= 1] []; set_ (LLoc "rc") time; "ts.tv_sec" ::= Loc "rc" + 1;
     "ts.tv_nsec" ::= 0; set_ (LLoc "rc") (mq_timedreceive "mqdes" "msgrv" 20 [] "ts.tv_sec" "ts.tv_nsec");
     If (0 < Loc "rc")%pt ["failure" ::= 1] []; set_ (LLoc "rc") (mq_close "mqdes");
     If (Loc "rc" != 0)%pt ["unresolved" ::= 1] []; set_ (LLoc "rc") (mq_unlink "mqname");
     If (Loc "rc" != 0)%pt ["unresolved" ::= 1] []; ret_if ("failure" == 1)%pt PTS_FAIL;
     ret_if ("unresolved" == 1)%pt PTS_UNRESOLVED; Return PTS_PASS])].

Definition mq_timedreceive_5_1 : sprog := SProg
  [("main",
    ["msgptr" ::= (text "test message "); "prio" ::= 1; "unresolved" ::= 0; "failure" ::= 0;
     set_ (LLoc "rc") getpid; "mqname" ::= with_num "/mq_timedreceive_5-1_" (Loc "rc");
     "attr.mq_msgsize" ::= 40; "attr.mq_maxmsg" ::= 40;
     set_ "mqdes" (mq_create "mqname" (eor O_CREAT O_RDWR) "attr.mq_maxmsg" "attr.mq_msgsize");
     If ("mqdes" == -1)%pt ["unresolved" ::= 1] []; set_ "pid" fork;
     If ("pid" != 0)%pt
       ["ts.tv_sec" ::= INT32_MAX; "ts.tv_nsec" ::= 0;
        set_ (LLoc "rc") (mq_timedreceive "mqdes" "msgrv" 40 [] "ts.tv_sec" "ts.tv_nsec");
        If (0 < Loc "rc")%pt
          [ignore (wait [LVar "status"]); If (WEXITSTATUS "status") ["unresolved" ::= 1] []]
          [ignore (wait []); "failure" ::= 1];
        set_ (LLoc "rc") (mq_close "mqdes"); If (Loc "rc" != 0)%pt ["unresolved" ::= 1] [];
        set_ (LLoc "rc") (mq_unlink "mqname"); If (Loc "rc" != 0)%pt ["unresolved" ::= 1] [];
        ret_if ("failure" == 1)%pt PTS_FAIL; ret_if ("unresolved" == 1)%pt PTS_UNRESOLVED; Return PTS_PASS]
       [ignore (sleep 2); Um (mq_send "mqdes" "msgptr" (strlen_ "msgptr") "prio"); Return 0]])].

Definition mq_timedreceive_5_2 : sprog := SProg
  [("main",
    ["blocking" ::= 0; "unresolved" ::= 0; "failure" ::= 0; set_ (LLoc "rc") getpid;
     "mqname" ::= with_num "/mq_timedreceive_5-2_" (Loc "rc"); "attr.mq_msgsize" ::= 40;
     "attr.mq_maxmsg" ::= 40;
     set_ "mqdes" (mq_create "mqname" (eor O_CREAT O_RDWR) "attr.mq_maxmsg" "attr.mq_msgsize");
     If ("mqdes" == -1)%pt ["unresolved" ::= 1] []; set_ "pid" fork;
     If ("pid" != 0)%pt
       [ignore (sigaction SIGABRT "exit_handler" 0 0); set_ (LLoc "rc") time; "ts.tv_sec" ::= Loc "rc" + 3;
        "ts.tv_nsec" ::= 0; set_ "oldtime" time;
        ignore (mq_timedreceive "mqdes" "msgrv" 40 [] "ts.tv_sec" "ts.tv_nsec"); set_ "newtime" time;
        If ("newtime" - "oldtime" < 3)%pt ["failure" ::= 1] []; ignore (kill "pid" SIGABRT);
        set_ (LLoc "rc") (mq_close "mqdes"); If (Loc "rc" != 0)%pt ["unresolved" ::= 1] [];
        set_ (LLoc "rc") (mq_unlink "mqname"); If (Loc "rc" != 0)%pt ["unresolved" ::= 1] [];
        ret_if (("failure" == 1) || ("blocking" == 1))%pt PTS_FAIL;
        ret_if ("unresolved" == 1)%pt PTS_UNRESOLVED; Return PTS_PASS]
       [ignore (sleep 6); set_ (LLoc "rc") getppid; ignore (kill (Loc "rc") SIGABRT); Return 0]]);
   ("exit_handler", ["blocking" ::= 1; Return 0])].

Definition mq_timedreceive_5_3 : sprog := SProg
  [("main",
    ["unresolved" ::= 0; "failure" ::= 0; set_ (LLoc "rc") getpid;
     "mqname" ::= with_num "/mq_timedreceive_5-3_" (Loc "rc"); "attr.mq_msgsize" ::= 40;
     "attr.mq_maxmsg" ::= 40;
     set_ "mqdes" (mq_create "mqname" (eor O_CREAT O_RDWR) "attr.mq_maxmsg" "attr.mq_msgsize");
     If ("mqdes" == -1)%pt ["unresolved" ::= 1] []; set_ "pid" fork;
     If ("pid" != 0)%pt
       [ignore (sigaction SIGABRT "stopreceive" 0 0); "ts.tv_sec" ::= INT32_MAX; "ts.tv_nsec" ::= 0;
        set_ (LLoc "rc") (mq_timedreceive "mqdes" "msgrv" 40 [] "ts.tv_sec" "ts.tv_nsec");
        If (Loc "rc" == -1)%pt
          [ignore (wait []); If ((err_num EINTR) != errno_)%pt ["failure" ::= 1] []]
          [ignore (wait []); "failure" ::= 1];
        set_ (LLoc "rc") (mq_close "mqdes"); If (Loc "rc" != 0)%pt ["unresolved" ::= 1] [];
        set_ (LLoc "rc") (mq_unlink "mqname"); If (Loc "rc" != 0)%pt ["unresolved" ::= 1] [];
        ret_if ("failure" == 1)%pt PTS_FAIL; ret_if ("unresolved" == 1)%pt PTS_UNRESOLVED; Return PTS_PASS]
       [ignore (sleep 1); set_ (LLoc "rc") getppid; ignore (kill (Loc "rc") SIGABRT)]]);
   ("stopreceive", [Return 0])].

Definition mq_timedreceive_7_1 : sprog := SProg
  [("main",
    ["unresolved" ::= 0; "failure" ::= 0; set_ (LLoc "rc") getpid;
     "mqname" ::= with_num "/mq_timedreceive_7-1_" (Loc "rc"); "attr.mq_msgsize" ::= 40;
     "attr.mq_maxmsg" ::= 40;
     set_ "mqdes" (mq_create "mqname" (eor (eor O_CREAT O_NONBLOCK) O_RDWR) "attr.mq_maxmsg" "attr.mq_msgsize");
     If ("mqdes" == -1)%pt ["unresolved" ::= 1] []; set_ (LLoc "rc") time; "ts.tv_sec" ::= Loc "rc" + 1;
     "ts.tv_nsec" ::= 0; set_ (LLoc "rc") (mq_timedreceive "mqdes" "msgrv" 40 [] "ts.tv_sec" "ts.tv_nsec");
     If (Loc "rc" != -1)%pt ["failure" ::= 1] []; set_ (LLoc "rc") (mq_close "mqdes");
     If (Loc "rc" != 0)%pt ["unresolved" ::= 1] []; set_ (LLoc "rc") (mq_unlink "mqname");
     If (Loc "rc" != 0)%pt ["unresolved" ::= 1] []; ret_if ("failure" == 1)%pt PTS_FAIL;
     ret_if ("unresolved" == 1)%pt PTS_UNRESOLVED; Return PTS_PASS])].

Definition mq_timedreceive_8_1 : sprog := SProg
  [("main",
    ["blocking" ::= 0; "unresolved" ::= 0; "failure" ::= 0; set_ (LLoc "rc") getpid;
     "mqname" ::= with_num "/mq_timedreceive_8-1_" (Loc "rc"); "attr.mq_msgsize" ::= 40;
     "attr.mq_maxmsg" ::= 40;
     set_ "mqdes" (mq_create "mqname" (eor O_CREAT O_RDWR) "attr.mq_maxmsg" "attr.mq_msgsize");
     If ("mqdes" == -1)%pt ["unresolved" ::= 1] []; set_ "pid" fork;
     If ("pid" != 0)%pt
       [ignore (sigaction SIGABRT "exit_handler" 0 0); ignore (clock_gettime CLOCK_REALTIME (ts "ts"));
        "oldtime" ::= "ts.tv_sec"; "ts.tv_sec" ::= "ts.tv_sec" + 3; "ts.tv_nsec" ::= 0;
        ignore (mq_timedreceive "mqdes" "msgrv" 40 [] "ts.tv_sec" "ts.tv_nsec");
        ignore (clock_gettime CLOCK_REALTIME (ts "ts")); "newtime" ::= "ts.tv_sec";
        If ("newtime" - "oldtime" < 3)%pt ["failure" ::= 1] []; ignore (kill "pid" SIGABRT); ignore (wait []);
        set_ (LLoc "rc") (mq_close "mqdes"); If (Loc "rc" != 0)%pt ["unresolved" ::= 1] [];
        set_ (LLoc "rc") (mq_unlink "mqname"); If (Loc "rc" != 0)%pt ["unresolved" ::= 1] [];
        ret_if (("failure" == 1) || ("blocking" == 1))%pt PTS_FAIL;
        ret_if ("unresolved" == 1)%pt PTS_UNRESOLVED; Return PTS_PASS]
       [ignore (sleep 6); set_ (LLoc "rc") getppid; ignore (kill (Loc "rc") SIGABRT); Return 0]]);
   ("exit_handler", ["blocking" ::= 1; Return 0])].

Definition mq_timedreceive_10_1 : sprog := SProg
  [("main",
    ["msgptr" ::= (text "test message"); "sdprio" ::= 1; "unresolved" ::= 0; "failure" ::= 0;
     set_ (LLoc "rc") getpid; "mqname" ::= with_num "/mq_timedreceive_10-1_" (Loc "rc");
     "attr.mq_msgsize" ::= 40; "attr.mq_maxmsg" ::= 40;
     set_ "mqdes" (mq_create "mqname" (eor O_CREAT O_RDWR) "attr.mq_maxmsg" "attr.mq_msgsize");
     If ("mqdes" == -1)%pt ["unresolved" ::= 1] [];
     set_ (LLoc "rc") (mq_send "mqdes" "msgptr" (strlen_ "msgptr") "sdprio");
     If (Loc "rc" != 0)%pt ["unresolved" ::= 1] []; set_ (LLoc "rc") time; "ts.tv_sec" ::= Loc "rc" - 1;
     "ts.tv_nsec" ::= 0;
     set_ (LLoc "rc") (mq_timedreceive "mqdes" "msgrv" 40 [LVar "rvprio"] "ts.tv_sec" "ts.tv_nsec");
     If (Loc "rc" == -1)%pt ["failure" ::= 1] []; set_ (LLoc "rc") (mq_close "mqdes");
     If (Loc "rc" != 0)%pt ["unresolved" ::= 1] []; set_ (LLoc "rc") (mq_unlink "mqname");
     If (Loc "rc" != 0)%pt ["unresolved" ::= 1] []; ret_if ("failure" == 1)%pt PTS_FAIL;
     ret_if ("unresolved" == 1)%pt PTS_UNRESOLVED; Return PTS_PASS])].

Definition mq_timedreceive_10_2 : sprog := SProg
  [("main",
    ["msgptr" ::= (text "test message"); "sdprio" ::= 1; "unresolved" ::= 0; "failure" ::= 0;
     set_ (LLoc "rc") getpid; "mqname" ::= with_num "/mq_timedreceive_10-1_" (Loc "rc");
     "attr.mq_msgsize" ::= 40; "attr.mq_maxmsg" ::= 40;
     set_ "mqdes" (mq_create "mqname" (eor O_CREAT O_RDWR) "attr.mq_maxmsg" "attr.mq_msgsize");
     If ("mqdes" == -1)%pt ["unresolved" ::= 1] [];
     set_ (LLoc "rc") (mq_send "mqdes" "msgptr" (strlen_ "msgptr") "sdprio");
     If (Loc "rc" != 0)%pt ["unresolved" ::= 1] []; ignore (sleep 1); set_ (LLoc "rc") time;
     "ts.tv_sec" ::= Loc "rc" - 1; "ts.tv_nsec" ::= -1;
     set_ (LLoc "rc") (mq_timedreceive "mqdes" "msgrv" 40 [LVar "rvprio"] "ts.tv_sec" "ts.tv_nsec");
     If (Loc "rc" == -1)%pt ["failure" ::= 1] []; set_ (LLoc "rc") (mq_close "mqdes");
     If (Loc "rc" != 0)%pt ["unresolved" ::= 1] []; set_ (LLoc "rc") (mq_unlink "mqname");
     If (Loc "rc" != 0)%pt ["unresolved" ::= 1] []; ret_if ("failure" == 1)%pt PTS_FAIL;
     ret_if ("unresolved" == 1)%pt PTS_UNRESOLVED; Return PTS_PASS])].

Definition mq_timedreceive_11_1 : sprog := SProg
  [("main",
    ["msgptr1" ::= (text "test message1"); "msgptr2" ::= (text "test message2 with differnet length");
     "prio1" ::= 1; "prio2" ::= 2; "unresolved" ::= 0; "failure" ::= 0; set_ (LLoc "rc") getpid;
     "mqname" ::= with_num "/mq_timedreceive_11-1_" (Loc "rc"); "attr.mq_msgsize" ::= 40;
     "attr.mq_maxmsg" ::= 40;
     set_ "mqdes" (mq_create "mqname" (eor O_CREAT O_RDWR) "attr.mq_maxmsg" "attr.mq_msgsize");
     If ("mqdes" == -1)%pt ["unresolved" ::= 1] [];
     set_ (LLoc "rc") (mq_send "mqdes" "msgptr1" (strlen_ "msgptr1") "prio1");
     If (Loc "rc" != 0)%pt ["unresolved" ::= 1] [];
     set_ (LLoc "rc") (mq_send "mqdes" "msgptr2" (strlen_ "msgptr2") "prio2");
     If (Loc "rc" != 0)%pt ["unresolved" ::= 1] []; set_ (LLoc "rc") time; "ts.tv_sec" ::= Loc "rc" + 1;
     "ts.tv_nsec" ::= 0; set_ (LLoc "rc") (mq_timedreceive "mqdes" "msgrv1" 40 [] "ts.tv_sec" "ts.tv_nsec");
     If (Loc "rc" != strlen_ "msgptr2")%pt ["failure" ::= 1] [];
     set_ (LLoc "rc") (mq_timedreceive "mqdes" "msgrv2" 40 [] "ts.tv_sec" "ts.tv_nsec");
     If (Loc "rc" != strlen_ "msgptr1")%pt ["failure" ::= 1] [];
     If ("msgrv1" == "msgrv2")%pt ["failure" ::= 1] []; set_ (LLoc "rc") (mq_close "mqdes");
     If (Loc "rc" != 0)%pt ["unresolved" ::= 1] []; set_ (LLoc "rc") (mq_unlink "mqname");
     If (Loc "rc" != 0)%pt ["unresolved" ::= 1] []; ret_if ("failure" == 1)%pt PTS_FAIL;
     ret_if ("unresolved" == 1)%pt PTS_UNRESOLVED; Return PTS_PASS])].

Definition mq_timedreceive_13_1 : sprog := SProg
  [("main",
    ["unresolved" ::= 0; "failure" ::= 0; set_ (LLoc "rc") getpid;
     "mqname" ::= with_num "/mq_timedreceive_13-1_" (Loc "rc"); "attr.mq_msgsize" ::= 40;
     "attr.mq_maxmsg" ::= 40;
     set_ "mqdes" (mq_create "mqname" (eor (eor O_CREAT O_NONBLOCK) O_RDWR) "attr.mq_maxmsg" "attr.mq_msgsize");
     If ("mqdes" == -1)%pt ["unresolved" ::= 1] []; set_ (LLoc "rc") time; "ts.tv_sec" ::= Loc "rc" + 1;
     "ts.tv_nsec" ::= 0; set_ (LLoc "rc") (mq_timedreceive "mqdes" "msgrv" 40 [] "ts.tv_sec" "ts.tv_nsec");
     If (Loc "rc" == -1)%pt [If ((err_num EAGAIN) != errno_)%pt ["failure" ::= 1] []] ["failure" ::= 1];
     set_ (LLoc "rc") (mq_close "mqdes"); If (Loc "rc" != 0)%pt ["unresolved" ::= 1] [];
     set_ (LLoc "rc") (mq_unlink "mqname"); If (Loc "rc" != 0)%pt ["unresolved" ::= 1] [];
     ret_if ("failure" == 1)%pt PTS_FAIL; ret_if ("unresolved" == 1)%pt PTS_UNRESOLVED; Return PTS_PASS])].

Definition mq_timedreceive_14_1 : sprog := SProg
  [("main",
    ["unresolved" ::= 0; "failure" ::= 0; set_ (LLoc "rc") getpid;
     "mqname" ::= with_num "/mq_timedreceive_14-1_" (Loc "rc"); "attr.mq_msgsize" ::= 40;
     "attr.mq_maxmsg" ::= 40;
     set_ "mqdes" (mq_create "mqname" (eor O_CREAT O_RDWR) "attr.mq_maxmsg" "attr.mq_msgsize");
     If ("mqdes" == -1)%pt ["unresolved" ::= 1] []; "mqdes" ::= "mqdes" + 1; set_ (LLoc "rc") time;
     "ts.tv_sec" ::= Loc "rc" + 1; "ts.tv_nsec" ::= 0;
     set_ (LLoc "rc") (mq_timedreceive "mqdes" "msgrv" 40 [] "ts.tv_sec" "ts.tv_nsec");
     If (Loc "rc" == -1)%pt [If ((err_num EBADF) != errno_)%pt ["failure" ::= 1] []] ["failure" ::= 1];
     set_ (LLoc "rc") (mq_close ("mqdes" - 1)%pt); If (Loc "rc" != 0)%pt ["unresolved" ::= 1] [];
     set_ (LLoc "rc") (mq_unlink "mqname"); If (Loc "rc" != 0)%pt ["unresolved" ::= 1] [];
     ret_if ("failure" == 1)%pt PTS_FAIL; ret_if ("unresolved" == 1)%pt PTS_UNRESOLVED; Return PTS_PASS])].

Definition mq_timedreceive_15_1 : sprog := SProg
  [("main",
    ["msgptr" ::= (text "test message"); "prio" ::= 1; "unresolved" ::= 0; "failure" ::= 0;
     set_ (LLoc "rc") getpid; "mqname" ::= with_num "/mq_timedreceive_15-1_" (Loc "rc");
     "mqstat.mq_flags" ::= 0; "mqstat.mq_maxmsg" ::= 0; "mqstat.mq_msgsize" ::= 0; "mqstat.mq_curmsgs" ::= 0;
     "mqstat.mq_msgsize" ::= 21; "mqstat.mq_maxmsg" ::= 21;
     set_ "mqdes" (mq_create "mqname" (eor O_CREAT O_RDWR) "mqstat.mq_maxmsg" "mqstat.mq_msgsize");
     If ("mqdes" == -1)%pt ["unresolved" ::= 1] [];
     set_ (LLoc "rc") (mq_send "mqdes" "msgptr" (strlen_ "msgptr") "prio");
     If (Loc "rc" != 0)%pt ["unresolved" ::= 1] []; set_ (LLoc "rc") time; "ts.tv_sec" ::= Loc "rc" + 1;
     "ts.tv_nsec" ::= 0; set_ (LLoc "rc") (mq_timedreceive "mqdes" "msgrv" 20 [] "ts.tv_sec" "ts.tv_nsec");
     If (0 < Loc "rc")%pt ["failure" ::= 1] [If ((err_num EMSGSIZE) != errno_)%pt ["failure" ::= 1] []];
     set_ (LLoc "rc") (mq_close "mqdes"); If (Loc "rc" != 0)%pt ["unresolved" ::= 1] [];
     set_ (LLoc "rc") (mq_unlink "mqname"); If (Loc "rc" != 0)%pt ["unresolved" ::= 1] [];
     ret_if ("failure" == 1)%pt PTS_FAIL; ret_if ("unresolved" == 1)%pt PTS_UNRESOLVED; Return PTS_PASS])].

Definition mq_timedreceive_17_1 : sprog := SProg
  [("main",
    ["unresolved" ::= 0; "failure" ::= 0; set_ (LLoc "rc") getpid;
     "mqname" ::= with_num "/mq_timedreceive_17-1_" (Loc "rc"); "attr.mq_msgsize" ::= 40;
     "attr.mq_maxmsg" ::= 40;
     set_ "mqdes" (mq_create "mqname" (eor O_CREAT O_RDWR) "attr.mq_maxmsg" "attr.mq_msgsize");
     If ("mqdes" == -1)%pt ["unresolved" ::= 1] []; set_ (LLoc "rc") time; "ts.tv_sec" ::= Loc "rc" + 1;
     "ts.tv_nsec" ::= -1; set_ (LLoc "rc") (mq_timedreceive "mqdes" "msgrv" 40 [] "ts.tv_sec" "ts.tv_nsec");
     If (Loc "rc" == -1)%pt [If ((err_num EINVAL) != errno_)%pt ["failure" ::= 1] []] ["failure" ::= 1];
     set_ (LLoc "rc") (mq_close "mqdes"); If (Loc "rc" != 0)%pt ["unresolved" ::= 1] [];
     set_ (LLoc "rc") (mq_unlink "mqname"); If (Loc "rc" != 0)%pt ["unresolved" ::= 1] [];
     ret_if ("failure" == 1)%pt PTS_FAIL; ret_if ("unresolved" == 1)%pt PTS_UNRESOLVED; Return PTS_PASS])].

Definition mq_timedreceive_17_2 : sprog := SProg
  [("main",
    ["unresolved" ::= 0; "failure" ::= 0; set_ (LLoc "rc") getpid;
     "mqname" ::= with_num "/mq_timedreceive_17-2_" (Loc "rc"); "attr.mq_msgsize" ::= 40;
     "attr.mq_maxmsg" ::= 40;
     set_ "mqdes" (mq_create "mqname" (eor O_CREAT O_RDWR) "attr.mq_maxmsg" "attr.mq_msgsize");
     If ("mqdes" == -1)%pt ["unresolved" ::= 1] []; set_ (LLoc "rc") time; "ts.tv_sec" ::= Loc "rc" + 1;
     "ts.tv_nsec" ::= 1000000000;
     set_ (LLoc "rc") (mq_timedreceive "mqdes" "msgrv" 40 [] "ts.tv_sec" "ts.tv_nsec");
     If (Loc "rc" == -1)%pt [If ((err_num EINVAL) != errno_)%pt ["failure" ::= 1] []] ["failure" ::= 1];
     set_ (LLoc "rc") (mq_close "mqdes"); If (Loc "rc" != 0)%pt ["unresolved" ::= 1] [];
     set_ (LLoc "rc") (mq_unlink "mqname"); If (Loc "rc" != 0)%pt ["unresolved" ::= 1] [];
     ret_if ("failure" == 1)%pt PTS_FAIL; ret_if ("unresolved" == 1)%pt PTS_UNRESOLVED; Return PTS_PASS])].

Definition mq_timedreceive_17_3 : sprog := SProg
  [("main",
    ["unresolved" ::= 0; "failure" ::= 0; set_ (LLoc "rc") getpid;
     "mqname" ::= with_num "/mq_timedreceive_17-3_" (Loc "rc"); "attr.mq_msgsize" ::= 40;
     "attr.mq_maxmsg" ::= 40;
     set_ "mqdes" (mq_create "mqname" (eor O_CREAT O_RDWR) "attr.mq_maxmsg" "attr.mq_msgsize");
     If ("mqdes" == -1)%pt ["unresolved" ::= 1] []; set_ (LLoc "rc") time; "ts.tv_sec" ::= Loc "rc" + 1;
     "ts.tv_nsec" ::= 1000000001;
     set_ (LLoc "rc") (mq_timedreceive "mqdes" "msgrv" 40 [] "ts.tv_sec" "ts.tv_nsec");
     If (Loc "rc" == -1)%pt [If ((err_num EINVAL) != errno_)%pt ["failure" ::= 1] []] ["failure" ::= 1];
     set_ (LLoc "rc") (mq_close "mqdes"); If (Loc "rc" != 0)%pt ["unresolved" ::= 1] [];
     set_ (LLoc "rc") (mq_unlink "mqname"); If (Loc "rc" != 0)%pt ["unresolved" ::= 1] [];
     ret_if ("failure" == 1)%pt PTS_FAIL; ret_if ("unresolved" == 1)%pt PTS_UNRESOLVED; Return PTS_PASS])].

Definition mq_timedreceive_18_1 : sprog := SProg
  [("main",
    ["blocking" ::= 0; "unresolved" ::= 0; "failure" ::= 0; set_ (LLoc "rc") getpid;
     "mqname" ::= with_num "/mq_timedreceive_18-1_" (Loc "rc"); "attr.mq_msgsize" ::= 40;
     "attr.mq_maxmsg" ::= 40;
     set_ "mqdes" (mq_create "mqname" (eor O_CREAT O_RDWR) "attr.mq_maxmsg" "attr.mq_msgsize");
     If ("mqdes" == -1)%pt ["unresolved" ::= 1] []; set_ "pid" fork;
     If ("pid" != 0)%pt
       [ignore (sigaction SIGABRT "exit_handler" 0 0); set_ (LLoc "rc") time; "ts.tv_sec" ::= Loc "rc" + 3;
        "ts.tv_nsec" ::= 0; set_ (LLoc "rc") (mq_timedreceive "mqdes" "msgrv" 40 [] "ts.tv_sec" "ts.tv_nsec");
        If (Loc "rc" == -1)%pt [If ((err_num ETIMEDOUT) != errno_)%pt ["failure" ::= 1] []] ["failure" ::= 1];
        ignore (kill "pid" SIGABRT); set_ (LLoc "rc") (mq_close "mqdes");
        If (Loc "rc" != 0)%pt ["unresolved" ::= 1] []; set_ (LLoc "rc") (mq_unlink "mqname");
        If (Loc "rc" != 0)%pt ["unresolved" ::= 1] [];
        ret_if (("failure" == 1) || ("blocking" == 1))%pt PTS_FAIL;
        ret_if ("unresolved" == 1)%pt PTS_UNRESOLVED; Return PTS_PASS]
       [ignore (sleep 6); set_ (LLoc "rc") getppid; ignore (kill (Loc "rc") SIGABRT); Return 0]]);
   ("exit_handler", ["blocking" ::= 1; Return 0])].

Definition mq_timedreceive_18_2 : sprog := SProg
  [("main",
    ["blocking" ::= 0; "unresolved" ::= 0; "failure" ::= 0; set_ (LLoc "rc") getpid;
     "mqname" ::= with_num "/mq_timedreceive_18-2_" (Loc "rc"); "attr.mq_msgsize" ::= 40;
     "attr.mq_maxmsg" ::= 40;
     set_ "mqdes" (mq_create "mqname" (eor O_CREAT O_RDWR) "attr.mq_maxmsg" "attr.mq_msgsize");
     If ("mqdes" == -1)%pt ["unresolved" ::= 1] []; set_ "pid" fork;
     If ("pid" != 0)%pt
       [ignore (sigaction SIGABRT "exit_handler" 0 0); set_ (LLoc "rc") time; "ts.tv_sec" ::= Loc "rc" - 3;
        "ts.tv_nsec" ::= 0; set_ (LLoc "rc") (mq_timedreceive "mqdes" "msgrv" 40 [] "ts.tv_sec" "ts.tv_nsec");
        If (Loc "rc" != -1)%pt ["failure" ::= 1] [If (errno_ != (err_num ETIMEDOUT))%pt ["failure" ::= 1] []];
        ignore (kill "pid" SIGABRT); set_ (LLoc "rc") (mq_close "mqdes");
        If (Loc "rc" != 0)%pt ["unresolved" ::= 1] []; set_ (LLoc "rc") (mq_unlink "mqname");
        If (Loc "rc" != 0)%pt ["unresolved" ::= 1] [];
        ret_if (("failure" == 1) || ("blocking" == 1))%pt PTS_FAIL;
        ret_if ("unresolved" == 1)%pt PTS_UNRESOLVED; Return PTS_PASS]
       [ignore (sleep 6); set_ (LLoc "rc") getppid; ignore (kill (Loc "rc") SIGABRT); Return 0]]);
   ("exit_handler", ["blocking" ::= 1; Return 0])].

(** ** All *)

(** The tests that pass on an ideal system. *)
Definition mq_tests : list sprog :=
  [mq_open_2_1; mq_open_7_1; mq_open_7_2; mq_open_8_1; mq_open_8_2; mq_open_9_1; mq_open_9_2; mq_open_19_1;
   mq_open_20_1; mq_open_21_1; mq_open_25_2; mq_close_3_1; mq_close_3_2; mq_close_3_3; mq_close_4_1;
   mq_unlink_7_1; mq_setattr_5_1; mq_notify_1_1; mq_notify_2_1; mq_notify_3_1; mq_notify_4_1; mq_notify_5_1;
   mq_notify_8_1; mq_notify_9_1; mq_send_4_3; mq_send_5_2; mq_send_9_1; mq_send_11_1; mq_send_11_2;
   mq_send_12_1; mq_send_13_1; mq_send_14_1; mq_receive_5_1; mq_receive_8_1; mq_receive_11_1; mq_receive_11_2;
   mq_receive_13_1; mq_timedsend_1_1; mq_timedsend_2_1; mq_timedsend_3_1; mq_timedsend_3_2; mq_timedsend_4_1;
   mq_timedsend_4_2; mq_timedsend_4_3; mq_timedsend_5_2; mq_timedsend_5_3; mq_timedsend_8_1; mq_timedsend_9_1;
   mq_timedsend_10_1; mq_timedsend_11_1; mq_timedsend_11_2; mq_timedsend_13_1; mq_timedsend_14_1;
   mq_timedsend_15_1; mq_timedsend_16_1; mq_timedsend_18_1; mq_timedsend_19_1; mq_timedsend_20_1;
   mq_timedreceive_1_1; mq_timedreceive_2_1; mq_timedreceive_5_1; mq_timedreceive_5_2; mq_timedreceive_5_3;
   mq_timedreceive_7_1; mq_timedreceive_8_1; mq_timedreceive_10_1; mq_timedreceive_10_2; mq_timedreceive_11_1;
   mq_timedreceive_13_1; mq_timedreceive_14_1; mq_timedreceive_15_1; mq_timedreceive_17_1; mq_timedreceive_17_2;
   mq_timedreceive_17_3; mq_timedreceive_18_1; mq_timedreceive_18_2].

(** The tests that say that they test nothing. *)
Definition mq_untested : list sprog :=
  [mq_open_4_1; mq_open_10_1; mq_open_14_1; mq_open_17_1; mq_open_22_1; mq_open_24_1; mq_open_25_1;
   mq_open_28_1; mq_open_30_1; mq_close_5_1; mq_unlink_2_3; mq_send_6_1; mq_timedsend_6_1; mq_timedsend_17_1].
