(* ===== verification/OsSemTests.v ===== *)
(** * The tests of semaphores with several processes, signals and timeouts

    conformance/interfaces/sem_*; SemTests has those that need no more than the calls of one process. *)

From stdpp Require Import base tactics numbers list gmap strings.
From S2P Require Import Prelude CLang OsLang OsSem.

Open Scope Z_scope.

(** ** sem_init *)

Definition sem_init_3_1 : sprog := SProg
  [("main",
    ["cnt" ::= 3; "n" ::= 0; set_ (LLoc "rc") (sem_init (LVar "csem") 0);
     ret_if (Loc "rc" < 0)%pt PTS_UNRESOLVED; set_ (LLoc "rc") (sem_init (LVar "psem") 1);
     ret_if (Loc "rc" < 0)%pt PTS_UNRESOLVED; U (pthread_create (LVar "prod") "producer" [Var "cnt"]);
     U (pthread_create (LVar "cons") "consumer" [Var "cnt"]); set_ (LLoc "rc") (pthread_join "prod" []);
     LLoc "rc3" ::= 0;
     If (Loc "rc" == 0)%pt [set_ (LLoc "rc2") (pthread_join "cons" []); LLoc "rc3" ::= Loc "rc2" == 0] [];
     If (Loc "rc3") [Thread_exit 0] [Return PTS_FAIL]]);
   ("producer",
    [LLoc "producer.cnt" ::= Loc "arg"; LLoc "i" ::= 0;
     While (Loc "i" < Loc "producer.cnt")%pt
       [ignore (sem_wait "psem"); "n" ::= "n" + 1; ignore (sem_post "csem"); LLoc "i" ::= Loc "i" + 1];
     Return 0]);
   ("consumer",
    [LLoc "consumer.cnt" ::= Loc "arg"; LLoc "consumer.i" ::= 0;
     While (Loc "consumer.i" < Loc "consumer.cnt")%pt
       [ignore (sem_wait "csem"); ignore (sem_post "psem"); LLoc "consumer.i" ::= Loc "consumer.i" + 1];
     Return 0])].

(** ** sem_destroy *)

Definition sem_destroy_3_1 : sprog := SProg
  [("main",
    ["cnt" ::= 3; "n" ::= 0; set_ (LLoc "rc") (sem_init (LVar "csem") 0);
     ret_if (Loc "rc" < 0)%pt PTS_UNRESOLVED; set_ (LLoc "rc") (sem_init (LVar "psem") 1);
     ret_if (Loc "rc" < 0)%pt PTS_UNRESOLVED; U (pthread_create (LVar "prod") "producer" [Var "cnt"]);
     U (pthread_create (LVar "cons") "consumer" [Var "cnt"]); set_ (LLoc "rc") (pthread_join "prod" []);
     LLoc "rc3" ::= 0;
     If (Loc "rc" == 0)%pt [set_ (LLoc "rc2") (pthread_join "cons" []); LLoc "rc3" ::= Loc "rc2" == 0] [];
     If (Loc "rc3") [Thread_exit 0] [Return PTS_FAIL]]);
   ("producer",
    [LLoc "producer.cnt" ::= Loc "arg"; LLoc "i" ::= 0;
     While (Loc "i" < Loc "producer.cnt")%pt
       [ignore (sem_wait "psem"); "n" ::= "n" + 1; ignore (sem_post "csem"); LLoc "i" ::= Loc "i" + 1];
     Return 0]);
   ("consumer",
    [LLoc "consumer.cnt" ::= Loc "arg"; LLoc "consumer.i" ::= 0;
     While (Loc "consumer.i" < Loc "consumer.cnt")%pt
       [ignore (sem_wait "csem"); ignore (sem_post "psem"); LLoc "consumer.i" ::= Loc "consumer.i" + 1];
     Return 0])].

(** ** sem_open *)

Definition sem_open_2_2 : sprog := SProg
  [("main",
    sprintf_pid "semname" 50 "/sem_open_2-2_" ++
    [set_ "mysemp" (sem_open "semname" (eor O_CREAT O_EXCL) 1);
     ret_if (("mysemp" == SEM_FAILED) || ("mysemp" == 0))%pt PTS_UNRESOLVED;
     If (errno_ != (err_num EEXIST))%pt
       [ignore (sem_unlink "semname"); ignore (sem_close "mysemp"); Return PTS_PASS]
       [Return PTS_FAIL]])].

Definition sem_open_15_1 : sprog := SProg
  [("main",
    ["name" ::= (text "/sem_open_15_1"); "i" ::= 0;
     While ("i" < 4)%pt
       [set_ (LElem "sems" "i") (sem_open "name" O_CREAT 1);
        exit_if (Elem "sems" "i" == SEM_FAILED)%pt PTS_UNRESOLVED; "i" ::= "i" + 1];
     "i" ::= 0;
     While ("i" < 3)%pt
       [exit_if (Elem "sems" "i" != Elem "sems" ("i" + 1)%pt)%pt PTS_FAIL;
        set_ "ret" (sem_close (Elem "sems" "i")); exit_if ("ret" != 0)%pt PTS_UNRESOLVED; "i" ::= "i" + 1];
     "i" ::= 0;
     While ("i" < 3)%pt
       [set_ (LElem "sems" "i") (sem_open "name" O_CREAT 1);
        exit_if (Elem "sems" "i" == SEM_FAILED)%pt PTS_UNRESOLVED; "i" ::= "i" + 1];
     "i" ::= 0;
     While ("i" < 3)%pt [exit_if (Elem "sems" "i" != Elem "sems" ("i" + 1)%pt)%pt PTS_FAIL; "i" ::= "i" + 1];
     "i" ::= 0;
     While ("i" < 4)%pt
       [set_ "ret" (sem_close (Elem "sems" "i")); exit_if ("ret" != 0)%pt PTS_UNRESOLVED; "i" ::= "i" + 1];
     ignore (sem_unlink "name"); Exit PTS_PASS])].

(** ** sem_close *)

Definition sem_close_3_2 : sprog := SProg
  [("main",
    [set_ "sem" (sem_open (text "/sem_close_3_2") (eor O_CREAT O_EXCL) 2);
     If (("sem" == SEM_FAILED) && (errno_ == (err_num EEXIST)))%pt
       [ignore (sem_unlink (text "/sem_close_3_2"));
        set_ "sem" (sem_open (text "/sem_close_3_2") (eor O_CREAT O_EXCL) 2)]
       [];
     exit_if ("sem" == SEM_FAILED)%pt PTS_UNRESOLVED;
     While 1
       [set_ "ret" (sem_wait "sem"); If (negb_ (("ret" != 0) && (errno_ == (err_num EINTR)))%pt) [Break] []];
     exit_if ("ret" != 0)%pt PTS_UNRESOLVED; set_ "ret" (sem_close "sem");
     exit_if ("ret" != 0)%pt PTS_UNRESOLVED; set_ "sem" (sem_open (text "/sem_close_3_2") O_CREAT 3);
     exit_if ("sem" == SEM_FAILED)%pt PTS_UNRESOLVED; set_ "ret" (sem_getvalue "sem" (LVar "value"));
     exit_if ("ret" != 0)%pt PTS_UNRESOLVED; exit_if ("value" != 1)%pt PTS_FAIL; set_ "ret" (sem_close "sem");
     exit_if ("ret" != 0)%pt PTS_UNRESOLVED; set_ "ret" (sem_unlink (text "/sem_close_3_2"));
     exit_if ("ret" != 0)%pt PTS_UNRESOLVED; Exit PTS_PASS])].

(** ** sem_unlink *)

(** unlink/4-1: [semname] is an array that was never initialised; to read it as a name is
    undefined. *)
Definition sem_unlink_4_1 : sprog := SProg
  [("main",
    [ignore undefined; If (errno_ == (err_num ENOENT))%pt [Return PTS_PASS] [Return PTS_FAIL]])].

Definition sem_unlink_4_2 : sprog := SProg
  [("main",
    [ignore (sem_unlink (text "/sem_unlink_4_2")); set_ "ret" (sem_unlink (text "/sem_unlink_4_2"));
     exit_if ("ret" != -1)%pt PTS_FAIL; exit_if (errno_ != (err_num ENOENT))%pt PTS_FAIL; Exit PTS_PASS])].

Definition sem_unlink_6_1 : sprog := SProg
  [("main",
    [set_ "sem1" (sem_open (text "/sem_unlink_6_1") (eor O_CREAT O_EXCL) 1);
     If (("sem1" == SEM_FAILED) && (errno_ == (err_num EEXIST)))%pt
       [ignore (sem_unlink (text "/sem_unlink_6_1"));
        set_ "sem1" (sem_open (text "/sem_unlink_6_1") (eor O_CREAT O_EXCL) 1)]
       [];
     exit_if ("sem1" == SEM_FAILED)%pt PTS_UNRESOLVED; set_ "ret" (sem_unlink (text "/sem_unlink_6_1"));
     exit_if ("ret" != 0)%pt PTS_UNRESOLVED; set_ "sem2" (sem_open (text "/sem_unlink_6_1") 0 0);
     exit_if ("sem2" != SEM_FAILED)%pt PTS_FAIL; exit_if (errno_ != (err_num ENOENT))%pt PTS_FAIL;
     set_ "sem2" (sem_open (text "/sem_unlink_6_1") (eor O_CREAT O_EXCL) 3);
     exit_if ("sem2" == SEM_FAILED)%pt PTS_FAIL; set_ "ret" (sem_getvalue "sem1" (LVar "value"));
     exit_if ("ret" != 0)%pt PTS_UNRESOLVED; exit_if ("value" != 1)%pt PTS_FAIL;
     set_ "ret" (sem_getvalue "sem2" (LVar "value")); exit_if ("ret" != 0)%pt PTS_UNRESOLVED;
     exit_if ("value" != 3)%pt PTS_FAIL; set_ "ret" (sem_unlink (text "/sem_unlink_6_1"));
     exit_if ("ret" != 0)%pt PTS_UNRESOLVED; set_ "ret" (sem_close "sem1");
     exit_if ("ret" != 0)%pt PTS_UNRESOLVED; set_ "ret" (sem_close "sem2");
     exit_if ("ret" != 0)%pt PTS_UNRESOLVED; Exit PTS_PASS])].

Definition sem_unlink_7_1 : sprog := SProg
  [("main",
    [set_ "sem" (sem_open (text "/sem_unlink_7_1") (eor O_CREAT O_EXCL) 1);
     If (("sem" == SEM_FAILED) && (errno_ == (err_num EEXIST)))%pt
       [ignore (sem_unlink (text "/sem_unlink_7_1"));
        set_ "sem" (sem_open (text "/sem_unlink_7_1") (eor O_CREAT O_EXCL) 1)]
       [];
     exit_if ("sem" == SEM_FAILED)%pt PTS_UNRESOLVED;
     set_ "ret" (pthread_create (LVar "thread") "threaded" [Var "sem"]);
     exit_if ("ret" != 0)%pt PTS_UNRESOLVED; ignore (sleep 1);
     set_ "ret" (sem_unlink (text "/sem_unlink_7_1")); exit_if ("ret" != 0)%pt PTS_UNRESOLVED;
     set_ "ret" (sem_post "sem"); exit_if ("ret" != 0)%pt PTS_UNRESOLVED;
     set_ "ret" (pthread_join "thread" []); exit_if ("ret" != 0)%pt PTS_UNRESOLVED;
     set_ "ret" (sem_close "sem"); exit_if ("ret" != 0)%pt PTS_UNRESOLVED; Exit PTS_PASS]);
   ("threaded",
    [LLoc "threaded.ret" ::= 0;
     While 1
       [set_ (LLoc "threaded.ret") (sem_wait (Loc "arg"));
        If (negb_ ((Loc "threaded.ret" != 0) && (errno_ == (err_num EINTR)))%pt) [Break] []];
     exit_if (Loc "threaded.ret" != 0)%pt PTS_UNRESOLVED; Return 0])].

Definition sem_unlink_9_1 : sprog := SProg
  [("main",
    ["thread_state" ::= 0; set_ "sem" (sem_open (text "/sem_unlink_9_1") (eor O_CREAT O_EXCL) 0);
     If (("sem" == SEM_FAILED) && (errno_ == (err_num EEXIST)))%pt
       [ignore (sem_unlink (text "/sem_unlink_9_1"));
        set_ "sem" (sem_open (text "/sem_unlink_9_1") (eor O_CREAT O_EXCL) 0)]
       [];
     exit_if ("sem" == SEM_FAILED)%pt PTS_UNRESOLVED;
     set_ "ret" (pthread_create (LVar "child") "threaded" [Var "sem"]);
     exit_if ("ret" != 0)%pt PTS_UNRESOLVED; While ("thread_state" != 1)%pt [ignore sched_yield];
     set_ "ret" (sem_unlink (text "/sem_unlink_9_1")); exit_if ("ret" != 0)%pt PTS_UNRESOLVED;
     ignore (sleep 1); exit_if ("thread_state" != 1)%pt PTS_FAIL; set_ "ret" (sem_post "sem");
     exit_if ("ret" != 0)%pt PTS_UNRESOLVED; set_ "ret" (pthread_join "child" []);
     exit_if ("ret" != 0)%pt PTS_UNRESOLVED; set_ "ret" (sem_close "sem");
     exit_if ("ret" != 0)%pt PTS_UNRESOLVED; Exit PTS_PASS]);
   ("threaded",
    ["thread_state" ::= 1;
     While 1
       [set_ (LLoc "threaded.ret") (sem_wait (Loc "arg"));
        If (negb_ ((Loc "threaded.ret" != 0) && (errno_ == (err_num EINTR)))%pt) [Break] []];
     exit_if (Loc "threaded.ret" != 0)%pt PTS_UNRESOLVED; "thread_state" ::= 2; Return 0])].

(** ** sem_wait *)

Definition sem_wait_7_1 : sprog := SProg
  [("main",
    sprintf_pid "semname" 20 "/sem_wait_7-1_" ++
    [set_ "mysemp" (sem_open "semname" O_CREAT 1);
     ret_if (("mysemp" == SEM_FAILED) || ("mysemp" == 0))%pt PTS_UNRESOLVED; Um (sem_wait "mysemp");
     set_ "pid" fork;
     If ("pid" == 0)%pt
       [reject (sigaction SIGABRT "handler" 0 0) (-1) (Returns 0); ignore (sem_wait "mysemp");
        ret_if (errno_ == (err_num EINTR))%pt 1; Return 0]
       [ignore (sleep 1); set_ "status" (kill "pid" SIGABRT); Um (wait [LVar "i"]);
        ret_if (negb_ (WEXITSTATUS "i")) PTS_FAIL; ignore (sem_unlink "semname"); Return PTS_PASS]]);
   ("handler", [])].

Definition sem_wait_13_1 : sprog := SProg
  [("main",
    [set_ "ret" (sem_init (LVar "sem") 0); exit_if ("ret" != 0)%pt PTS_UNRESOLVED; "ret" ::= 0;
     exit_if ("ret" != 0)%pt PTS_UNRESOLVED; ignore (sigaction SIGALRM "handler" 0 0);
     exit_if ("ret" != 0)%pt PTS_UNRESOLVED; set_ "ret" (clock_gettime CLOCK_REALTIME (ts "ts_ref"));
     exit_if ("ret" != 0)%pt PTS_UNRESOLVED; ignore (alarm 1); set_ "ret" (sem_wait "sem");
     exit_if (("ret" != 0) && (errno_ != (err_num EINTR)))%pt PTS_UNRESOLVED;
     set_ "ret" (clock_gettime CLOCK_REALTIME (ts "ts_fin")); exit_if ("ret" != 0)%pt PTS_UNRESOLVED;
     exit_if (("ts_fin.tv_sec" - "ts_ref.tv_sec") * 1000000000 + ("ts_fin.tv_nsec" - "ts_ref.tv_nsec") < 1000000000)%pt PTS_FAIL;
     set_ "ret" (sem_destroy "sem"); exit_if ("ret" != 0)%pt PTS_UNRESOLVED; Exit PTS_PASS]);
   ("handler", [set_ "handler.ret" (sem_post "sem"); exit_if ("handler.ret" != 0)%pt PTS_UNRESOLVED])].

(** ** sem_timedwait *)

Definition sem_timedwait_1_1 : sprog := SProg
  [("main",
    [Um (sem_init (LVar "mysemp") 1); set_ "ts.tv_sec" time; "ts.tv_nsec" ::= 0;
     set_ "sts" (sem_timedwait "mysemp" "ts.tv_sec" "ts.tv_nsec"); ret_if ("sts" == -1)%pt PTS_UNRESOLVED;
     Um (sem_getvalue "mysemp" (LVar "val"));
     If (("val" == 0) && ("sts" == 0))%pt [ignore (sem_destroy "mysemp"); Return PTS_PASS] [Return PTS_FAIL]])].

Definition sem_timedwait_2_1 : sprog := SProg
  [("main",
    [Um (sem_init (LVar "mysemp") 0); set_ "pid" fork;
     If ("pid" == 0)%pt
       [set_ (LLoc "rc") time; "ts.tv_sec" ::= Loc "rc" + 2; "ts.tv_nsec" ::= 0;
        Fm (sem_timedwait "mysemp" "ts.tv_sec" "ts.tv_nsec"); ignore (sem_destroy "mysemp"); Return PTS_PASS]
       [If (0 < "pid")%pt
          [ignore (sleep 1); Fm (sem_post "mysemp"); Um (wait [LVar "i"]);
           ret_if (negb_ (WEXITSTATUS "i")) PTS_FAIL; ignore (sem_destroy "mysemp"); Return PTS_PASS]
          []];
     Return PTS_UNRESOLVED])].

Definition sem_timedwait_2_2 : sprog := SProg
  [("main",
    [Um (sem_init (LVar "mysemp") 0); set_ (LLoc "rc") time; "ts.tv_sec" ::= Loc "rc" + 1; "ts.tv_nsec" ::= 0;
     set_ "sts" (sem_timedwait "mysemp" "ts.tv_sec" "ts.tv_nsec"); Um (sem_post "mysemp");
     Um (sem_getvalue "mysemp" (LVar "val"));
     If (("val" == 1) && ("sts" == -1))%pt [ignore (sem_destroy "mysemp"); Return PTS_PASS] [Return PTS_FAIL]])].

Definition sem_timedwait_3_1 : sprog := SProg
  [("main",
    ["i" ::= 0; Um (sem_init (LVar "mysemp") 0); set_ "ts.tv_sec" time; "ts.tv_nsec" ::= 0;
     While 1
       [set_ (LLoc "rc") (sem_timedwait "mysemp" "ts.tv_sec" "ts.tv_nsec"); If (Loc "rc" != -1)%pt [Break] [];
        "ts.tv_sec" ::= "ts.tv_sec" + 1; "i" ::= "i" + 1; If ("i" == 5)%pt [ignore (sem_post "mysemp")] []];
     Um (sem_getvalue "mysemp" (LVar "val"));
     If ("val" == 0)%pt [ignore (sem_destroy "mysemp"); Return PTS_PASS] [Return PTS_FAIL]])].

Definition sem_timedwait_4_1 : sprog := SProg
  [("main",
    ["unresolved" ::= 0; set_ (LLoc "rc") (sem_init (LVar "mysemp") 1);
     If (Loc "rc" == -1)%pt ["unresolved" ::= 1] []; set_ (LLoc "rc") time; "ts.tv_sec" ::= Loc "rc" + 1;
     "ts.tv_nsec" ::= 0; set_ "sts" (sem_timedwait "mysemp" "ts.tv_sec" "ts.tv_nsec");
     If ("sts" == -1)%pt ["unresolved" ::= 1] []; set_ (LLoc "rc") (sem_post "mysemp");
     If (Loc "rc" == -1)%pt ["unresolved" ::= 1] [];
     If (("sts" == 0) && ("unresolved" == 0))%pt
       [ignore (sem_destroy "mysemp"); Return PTS_PASS]
       [Return PTS_FAIL]])].

Definition sem_timedwait_6_1 : sprog := SProg
  [("main",
    [Um (sem_init (LVar "mysemp") 0); set_ "ts.tv_sec" time; "ts.tv_nsec" ::= -3;
     set_ "sts" (sem_timedwait "mysemp" "ts.tv_sec" "ts.tv_nsec");
     If ((errno_ == (err_num EINVAL)) && ("sts" == -1))%pt
       [ignore (sem_destroy "mysemp"); Return PTS_PASS]
       [Return PTS_FAIL]])].

Definition sem_timedwait_6_2 : sprog := SProg
  [("main",
    [Um (sem_init (LVar "mysemp") 0); set_ "ts.tv_sec" time; "ts.tv_nsec" ::= 1000000000;
     set_ "sts" (sem_timedwait "mysemp" "ts.tv_sec" "ts.tv_nsec");
     If ((errno_ == (err_num EINVAL)) && ("sts" == -1))%pt
       [ignore (sem_destroy "mysemp"); Return PTS_PASS]
       [Return PTS_FAIL]])].

Definition sem_timedwait_7_1 : sprog := SProg
  [("main",
    [Um (sem_init (LVar "mysemp") 0); set_ "ts.tv_sec" time; "ts.tv_nsec" ::= 0;
     While 1
       [set_ (LLoc "rc") (sem_timedwait "mysemp" "ts.tv_sec" "ts.tv_nsec"); If (Loc "rc" != -1)%pt [Break] [];
        If (errno_ == (err_num ETIMEDOUT))%pt
          [ignore (sem_destroy "mysemp"); Return PTS_PASS]
          [Return PTS_FAIL]];
     Return PTS_UNRESOLVED])].

Definition sem_timedwait_9_1 : sprog := SProg
  [("main",
    [Um (sem_init (LVar "mysemp") 1); Um (sem_wait "mysemp"); set_ "pid" fork;
     If ("pid" == 0)%pt
       [reject (sigaction SIGABRT "handler" 0 0) (-1) (Returns 0); set_ (LLoc "rc") time;
        "ts.tv_sec" ::= Loc "rc" + 3; "ts.tv_nsec" ::= 0;
        ignore (sem_timedwait "mysemp" "ts.tv_sec" "ts.tv_nsec"); ret_if (errno_ == (err_num EINTR))%pt 1;
        Return 0]
       [ignore (sleep 1); set_ "status" (kill "pid" SIGABRT); Um (wait [LVar "i"]);
        ret_if (negb_ (WEXITSTATUS "i")) PTS_FAIL; Return PTS_PASS]]);
   ("handler", [])].

Definition sem_timedwait_10_1 : sprog := SProg
  [("main",
    [Um (sem_init (LVar "mysemp") 0); set_ "ts.tv_sec" time; "ts.tv_sec" ::= "ts.tv_sec" + 1;
     "ts.tv_nsec" ::= 0; set_ "rc" (sem_timedwait "mysemp" "ts.tv_sec" "ts.tv_nsec");
     ret_if (("rc" != -1) || (("rc" == -1) && (errno_ != (err_num ETIMEDOUT))))%pt PTS_UNRESOLVED;
     set_ "ts_2.tv_sec" time;
     If ("ts_2.tv_sec" == "ts.tv_sec")%pt [ignore (sem_destroy "mysemp"); Return PTS_PASS] [Return PTS_FAIL]])].

Definition sem_timedwait_11_1 : sprog := SProg
  [("main",
    ["i" ::= 0;
     While ("i" < 2)%pt
       [Um (sem_init (LElem "mysemp" "i") 1);
        If ("i" == 0)%pt
          [set_ (LLoc "rc") time; LElem "ts.tv_sec" "i" ::= Loc "rc" + 2; LElem "ts.tv_nsec" "i" ::= 0]
          [If ("i" == 1)%pt
             [set_ (LLoc "rc") time; LElem "ts.tv_sec" "i" ::= Loc "rc" + -2; LElem "ts.tv_nsec" "i" ::= 0]
             []];
        set_ (LElem "sts" "i") (sem_timedwait (Elem "mysemp" "i") (Elem "ts.tv_sec" "i") (Elem "ts.tv_nsec" "i"));
        ret_if (Elem "sts" "i" == -1)%pt PTS_UNRESOLVED;
        Um (sem_getvalue (Elem "mysemp" "i") (LElem "val" "i"));
        If ((Elem "val" "i" == 0) && (Elem "sts" "i" == 0))%pt
          [ignore (sem_destroy (Elem "mysemp" "i")); Return PTS_PASS]
          [ignore (sem_destroy (Elem "mysemp" "i")); Return PTS_FAIL];
        "i" ::= "i" + 1]])].

(** ** sem_post *)

Definition sem_post_5_1 : sprog := SProg
  [("main",
    sprintf_pid "semname" 20 "/sem_post_5-1_" ++
    [set_ "gsemp" (sem_open "semname" O_CREAT 0);
     ret_if (("gsemp" == SEM_FAILED) || ("gsemp" == 0))%pt PTS_UNRESOLVED;
     ignore (sigaction SIGALRM "sighdl" SA_RESTART 0); ignore (sleep 1); ignore (alarm 1);
     reject (sem_post "gsemp") (-1) (Exits PTS_UNRESOLVED); Um (sem_getvalue "gsemp" (LVar "val"));
     ret_if ("val" != 1)%pt PTS_FAIL; ignore (sem_close "gsemp"); ignore (sem_unlink "semname");
     Return PTS_PASS]);
   ("sighdl", [Return 0])].

Definition sem_post_6_1 : sprog := SProg
  [("main",
    sprintf_pid "semname" 20 "/sem_post_6-1_" ++
    [set_ "gsemp" (sem_open "semname" O_CREAT 0); Um (sigaction SIGALRM "handler" 0 0);
     ret_if (("gsemp" == SEM_FAILED) || ("gsemp" == 0))%pt PTS_UNRESOLVED; ignore (alarm 1); ignore (sleep 2);
     Um (sem_getvalue "gsemp" (LVar "val")); ret_if ("val" != 1)%pt PTS_FAIL; ignore (sem_close "gsemp");
     ignore (sem_unlink "semname"); Return PTS_PASS]);
   ("handler", [reject (sem_post "gsemp") (-1) (Exits PTS_UNRESOLVED)])].

(** ** fork *)

Definition fork_1_1 : sprog := SProg
  [("main",
    [set_ "ret" (clock_gettime CLOCK_REALTIME (ts "tsini")); exit_if ("ret" != 0)%pt PTS_UNRESOLVED;
     "tsfin.tv_sec" ::= "tsini.tv_sec" + 3; "tsfin.tv_nsec" ::= "tsini.tv_nsec"; set_ "child" fork;
     exit_if ("child" == -1)%pt PTS_UNRESOLVED; set_ "sem" (sem_open (text "/semfork1_1") O_CREAT 0);
     exit_if ("sem" == SEM_FAILED)%pt PTS_UNRESOLVED; ignore (sleep 1);
     If ("child" == 0)%pt
       [While 1
          [set_ "ret" (sem_post "sem");
           If (negb_ (("ret" == -1) && (errno_ == (err_num EINTR)))%pt) [Break] []];
        exit_if ("ret" != 0)%pt PTS_UNRESOLVED; set_ "ret" (sem_close "sem");
        exit_if ("ret" != 0)%pt PTS_UNRESOLVED; Exit 0]
       [];
     While 1
       [set_ "ret" (sem_timedwait "sem" "tsfin.tv_sec" "tsfin.tv_nsec");
        If (negb_ (("ret" != 0) && (errno_ == (err_num EINTR)))%pt) [Break] []];
     If ("ret" != 0)%pt [exit_if (errno_ == (err_num ETIMEDOUT))%pt PTS_FAIL; Exit PTS_UNRESOLVED] [];
     set_ "ret" (sem_unlink (text "/semfork1_1")); exit_if ("ret" != 0)%pt PTS_UNRESOLVED;
     set_ "ret" (sem_close "sem"); exit_if ("ret" != 0)%pt PTS_UNRESOLVED;
     set_ "ctl" (waitpid "child" [LVar "status"] 0); exit_if ("ctl" != "child")%pt PTS_UNRESOLVED;
     exit_if (negb_ (WIFEXITED "status") || (WEXITSTATUS "status" != 0))%pt PTS_UNRESOLVED;
     set_ "ret" (clock_gettime CLOCK_REALTIME (ts "tsfin")); exit_if ("ret" != 0)%pt PTS_UNRESOLVED;
     If ("tsfin.tv_nsec" < "tsini.tv_nsec")%pt ["tsfin.tv_sec" ::= "tsfin.tv_sec" - 1] [];
     "status" ::= "tsfin.tv_sec" - "tsini.tv_sec"; exit_if (2 <= "status")%pt PTS_FAIL; Exit PTS_PASS])].

Definition fork_3_1 : sprog := SProg
  [("main",
    [set_ "child" fork; exit_if ("child" == -1)%pt PTS_UNRESOLVED; exit_if ("child" == 0)%pt PTS_PASS;
     set_ "ctl" (waitpid "child" [LVar "status"] 0); exit_if ("ctl" != "child")%pt PTS_UNRESOLVED;
     exit_if (negb_ (WIFEXITED "status") || (WEXITSTATUS "status" != PTS_PASS))%pt PTS_UNRESOLVED;
     set_ "ret" (kill "child" 0); exit_if (("ret" == 0) || (errno_ != (err_num ESRCH)))%pt PTS_FAIL;
     set_ "ret" (kill (0 - "child")%pt 0); exit_if (("ret" == 0) || (errno_ != (err_num ESRCH)))%pt PTS_FAIL;
     Exit PTS_PASS])].

Definition fork_4_1 : sprog := SProg
  [("main",
    [set_ "ctl" getpid; set_ "child" fork; exit_if ("child" == -1)%pt PTS_UNRESOLVED;
     If ("child" == 0)%pt
       [set_ (LLoc "rc") getppid; exit_if ("ctl" != Loc "rc")%pt PTS_FAIL; Exit PTS_PASS]
       [];
     set_ "ctl" (waitpid "child" [LVar "status"] 0); exit_if ("ctl" != "child")%pt PTS_UNRESOLVED;
     exit_if (negb_ (WIFEXITED "status") || (WEXITSTATUS "status" != PTS_PASS))%pt PTS_UNRESOLVED;
     Exit PTS_PASS])].

Definition fork_9_1 : sprog := SProg
  [("main",
    [ignore (alarm 10); set_ "ret" (alarm 10); exit_if ("ret" == 0)%pt PTS_FAIL; set_ "child" fork;
     exit_if ("child" == -1)%pt PTS_UNRESOLVED;
     If ("child" == 0)%pt [set_ "ret" (alarm 10); exit_if ("ret" != 0)%pt PTS_FAIL; Exit PTS_PASS] [];
     set_ "ctl" (waitpid "child" [LVar "status"] 0); exit_if ("ctl" != "child")%pt PTS_UNRESOLVED;
     exit_if (negb_ (WIFEXITED "status") || (WEXITSTATUS "status" != PTS_PASS))%pt PTS_FAIL; ignore (alarm 0);
     Exit PTS_PASS])].

Definition fork_12_1 : sprog := SProg
  [("main",
    ["mask" ::= 0; "ret" ::= 0; exit_if ("ret" != 0)%pt PTS_UNRESOLVED; "mask" ::= add_sig "mask" SIGUSR1;
     "ret" ::= 0; exit_if ("ret" != 0)%pt PTS_UNRESOLVED; "mask" ::= add_sig "mask" SIGUSR2; "ret" ::= 0;
     exit_if ("ret" != 0)%pt PTS_UNRESOLVED; set_ "ret" (sigprocmask SIG_BLOCK "mask" []);
     exit_if ("ret" != 0)%pt PTS_UNRESOLVED; set_ (LLoc "rc") getpid; set_ "ret" (kill (Loc "rc") SIGUSR1);
     exit_if ("ret" != 0)%pt PTS_UNRESOLVED; set_ (LLoc "rc") getpid; set_ "ret" (kill (Loc "rc") SIGUSR2);
     exit_if ("ret" != 0)%pt PTS_UNRESOLVED;
     While 1
       [set_ "ret" (sigpending (LVar "pending")); exit_if ("ret" != 0)%pt PTS_UNRESOLVED;
        "ret" ::= is_member "pending" SIGUSR1; exit_if ("ret" < 0)%pt PTS_UNRESOLVED;
        If ("ret" == 1)%pt ["ret" ::= is_member "pending" SIGUSR2; exit_if ("ret" < 0)%pt PTS_UNRESOLVED] [];
        If ("ret" == 1)%pt [Break] []];
     set_ "child" fork; exit_if ("child" == -1)%pt PTS_UNRESOLVED;
     If ("child" == 0)%pt
       [set_ "ret" (sigmask_get (LVar "mask")); exit_if ("ret" != 0)%pt PTS_UNRESOLVED;
        "ret" ::= is_member "mask" SIGUSR1; exit_if ("ret" < 0)%pt PTS_UNRESOLVED;
        exit_if ("ret" == 0)%pt PTS_FAIL; "ret" ::= is_member "mask" SIGUSR2;
        exit_if ("ret" < 0)%pt PTS_UNRESOLVED; exit_if ("ret" == 0)%pt PTS_FAIL;
        set_ "ret" (sigpending (LVar "pending")); exit_if ("ret" != 0)%pt PTS_UNRESOLVED;
        "ret" ::= is_member "pending" SIGUSR1; exit_if ("ret" < 0)%pt PTS_UNRESOLVED;
        exit_if ("ret" != 0)%pt PTS_FAIL; "ret" ::= is_member "pending" SIGUSR2;
        exit_if ("ret" < 0)%pt PTS_UNRESOLVED; exit_if ("ret" != 0)%pt PTS_FAIL; Exit PTS_PASS]
       [];
     set_ "ctl" (waitpid "child" [LVar "status"] 0); exit_if ("ctl" != "child")%pt PTS_UNRESOLVED;
     exit_if (negb_ (WIFEXITED "status") || (WEXITSTATUS "status" != PTS_PASS))%pt PTS_FAIL; Exit PTS_PASS])].

Definition fork_14_1 : sprog := SProg
  [("main",
    [set_ "sem_linked" (sem_open (text "/fork_14_1a") O_CREAT 0);
     exit_if ("sem_linked" == SEM_FAILED)%pt PTS_UNRESOLVED;
     set_ "sem_unlinked" (sem_open (text "/fork_14_1b") O_CREAT 0);
     exit_if ("sem_unlinked" == SEM_FAILED)%pt PTS_UNRESOLVED; set_ "ret" (sem_unlink (text "/fork_14_1b"));
     exit_if ("ret" != 0)%pt PTS_UNRESOLVED; set_ "child" fork; exit_if ("child" == -1)%pt PTS_UNRESOLVED;
     If ("child" == 0)%pt
       [While 1
          [set_ "ret" (sem_post "sem_linked");
           If (negb_ (("ret" != 0) && (errno_ == (err_num EINTR)))%pt) [Break] []];
        exit_if ("ret" != 0)%pt PTS_UNRESOLVED;
        While 1
          [set_ "ret" (sem_post "sem_unlinked");
           If (negb_ (("ret" != 0) && (errno_ == (err_num EINTR)))%pt) [Break] []];
        exit_if ("ret" != 0)%pt PTS_UNRESOLVED; Exit PTS_PASS]
       [];
     set_ "ctl" (waitpid "child" [LVar "status"] 0); exit_if ("ctl" != "child")%pt PTS_UNRESOLVED;
     exit_if (negb_ (WIFEXITED "status") || (WEXITSTATUS "status" != PTS_PASS))%pt PTS_FAIL;
     While 1
       [set_ "ret" (sem_trywait "sem_linked");
        If (negb_ (("ret" != 0) && (errno_ == (err_num EINTR)))%pt) [Break] []];
     If ("ret" != 0)%pt [If (errno_ == (err_num EAGAIN))%pt [Exit PTS_FAIL] [Exit PTS_UNRESOLVED]] [];
     While 1
       [set_ "ret" (sem_trywait "sem_unlinked");
        If (negb_ (("ret" != 0) && (errno_ == (err_num EINTR)))%pt) [Break] []];
     If ("ret" != 0)%pt [If (errno_ == (err_num EAGAIN))%pt [Exit PTS_FAIL] [Exit PTS_UNRESOLVED]] [];
     set_ "ret" (sem_unlink (text "/fork_14_1a")); exit_if ("ret" != 0)%pt PTS_UNRESOLVED;
     set_ "ret" (sem_close "sem_linked"); exit_if ("ret" != 0)%pt PTS_UNRESOLVED;
     set_ "ret" (sem_close "sem_unlinked"); exit_if ("ret" != 0)%pt PTS_UNRESOLVED; Exit PTS_PASS])].

Definition fork_19_1 : sprog := SProg
  [("main",
    ["mqa.mq_maxmsg" ::= 2; "mqa.mq_msgsize" ::= 20;
     set_ "mq" (mq_create (text "/fork_19_1_mq") (eor (eor O_RDWR O_CREAT) O_NONBLOCK) "mqa.mq_maxmsg" "mqa.mq_msgsize");
     exit_if ("mq" == -1)%pt PTS_UNRESOLVED; set_ "ret" (mq_send "mq" (text "I'm your father...") 19 0);
     exit_if ("ret" != 0)%pt PTS_UNRESOLVED;
     set_ "ret" (mq_getattr "mq" [LVar "mqa.mq_flags"; LVar "mqa.mq_maxmsg"; LVar "mqa.mq_msgsize"; LVar "mqa.mq_curmsgs"]);
     exit_if ("ret" != 0)%pt PTS_UNRESOLVED; exit_if ("mqa.mq_curmsgs" != 1)%pt PTS_UNRESOLVED;
     set_ "child" fork; exit_if ("child" == -1)%pt PTS_UNRESOLVED;
     If ("child" == 0)%pt
       [set_ "ret" (mq_getattr "mq" [LVar "mqa.mq_flags"; LVar "mqa.mq_maxmsg"; LVar "mqa.mq_msgsize"; LVar "mqa.mq_curmsgs"]);
        exit_if ("ret" != 0)%pt PTS_FAIL; exit_if ("mqa.mq_curmsgs" != 1)%pt PTS_FAIL;
        set_ "ret" (mq_receive "mq" "rcv" 20 []); exit_if ("ret" != 19)%pt PTS_UNRESOLVED; Exit PTS_PASS]
       [];
     set_ "ctl" (waitpid "child" [LVar "status"] 0); exit_if ("ctl" != "child")%pt PTS_UNRESOLVED;
     exit_if (negb_ (WIFEXITED "status") || (WEXITSTATUS "status" != PTS_PASS))%pt PTS_FAIL;
     set_ "ret" (mq_getattr "mq" [LVar "mqa.mq_flags"; LVar "mqa.mq_maxmsg"; LVar "mqa.mq_msgsize"; LVar "mqa.mq_curmsgs"]);
     exit_if ("ret" != 0)%pt PTS_UNRESOLVED; exit_if ("mqa.mq_curmsgs" != 0)%pt PTS_FAIL; Exit PTS_PASS])].

(** ** sched_yield *)

Definition sched_yield_2_1 : sprog := SProg
  [("main",
    [reject sched_yield 0 (Returns PTS_PASS); Return PTS_FAIL])].

(** ** All *)

(** The tests that pass on an ideal system. *)
Definition sem_tests : list sprog :=
  [sem_init_3_1; sem_destroy_3_1; sem_open_2_2; sem_open_15_1; sem_close_3_2; sem_unlink_4_2;
   sem_unlink_6_1; sem_unlink_7_1; sem_unlink_9_1; sem_wait_7_1; sem_wait_13_1; sem_timedwait_1_1;
   sem_timedwait_2_1; sem_timedwait_2_2; sem_timedwait_3_1; sem_timedwait_4_1; sem_timedwait_6_1;
   sem_timedwait_6_2; sem_timedwait_7_1; sem_timedwait_9_1; sem_timedwait_10_1; sem_timedwait_11_1;
   sem_post_5_1; sem_post_6_1; fork_1_1; fork_3_1; fork_4_1; fork_9_1; fork_12_1; fork_14_1; fork_19_1;
   sched_yield_2_1].
