(* ===== verification/OsAioTests.v ===== *)
(** * The tests of asynchronous input and output

    conformance/interfaces/{aio_*,lio_listio}. The option is supported, that of prioritised requests is not. *)

From stdpp Require Import base tactics numbers list gmap strings.
From S2P Require Import Prelude CLang OsLang OsSem.

Open Scope Z_scope.

(** ** aio_read *)

Definition aio_read_1_1 : sprog := SProg
  [("main",
    [set_ "buf" (array 1024); set_ "check" (array 256); set_ (LLoc "rc") getpid;
     "tmpfname" ::= with_num "/tmp/pts_aio_read_1_1_" (Loc "rc"); ignore (unlink "tmpfname");
     set_ "fd" (open "tmpfname" (eor (eor O_CREAT O_RDWR) O_EXCL) (eor S_IRUSR S_IWUSR));
     exit_if ("fd" == -1)%pt PTS_UNRESOLVED; ignore (unlink "tmpfname"); "i" ::= 0;
     While ("i" < 4)%pt [ignore (memset ("buf" + "i" * 256)%pt ("i" + 1)%pt 256); "i" ::= "i" + 1];
     set_ (LLoc "rc") (write "fd" "buf" 1024);
     If (Loc "rc" != 1024)%pt [ignore (close "fd"); Exit PTS_UNRESOLVED] []; ignore (clear_aiocb 1);
     LElem "aio_fildes" 1 ::= "fd"; LElem "aio_buf" 1 ::= "check"; LElem "aio_nbytes" 1 ::= 256;
     LElem "aio_offset" 1 ::= 512; reject (aio_read 1) (-1) (Exits PTS_FAIL);
     While 1 [set_ "err" (aio_error 1); If ("err" != (err_num EINPROGRESS))%pt [Break] []];
     set_ "err" (aio_error 1); set_ "ret" (aio_return 1);
     If ("err" != 0)%pt [ignore (close "fd"); Exit PTS_FAIL] [];
     If ("ret" != 256)%pt [ignore (close "fd"); Exit PTS_FAIL] [];
     set_ (LLoc "rc") (memcmp ("buf" + 512)%pt "check" 256);
     If (Loc "rc" != 0)%pt [ignore (close "fd"); Exit PTS_FAIL] []; ignore (close "fd"); Return PTS_PASS])].

Definition aio_read_2_1 : sprog := SProg
  [("main",
    [Exit PTS_UNSUPPORTED])].

Definition aio_read_3_1 : sprog := SProg
  [("main",
    [set_ "buf" (array 111); set_ (LLoc "rc") getpid;
     "tmpfname" ::= with_num "/tmp/pts_aio_read_3_1_" (Loc "rc"); ignore (unlink "tmpfname");
     set_ "fd" (open "tmpfname" (eor (eor O_CREAT O_RDWR) O_EXCL) (eor S_IRUSR S_IWUSR));
     exit_if ("fd" == -1)%pt PTS_UNRESOLVED; ignore (unlink "tmpfname");
     expect (write "fd" "buf" 111) 111 (Exits PTS_UNRESOLVED); ignore (clear_aiocb 1);
     LElem "aio_fildes" 1 ::= "fd"; LElem "aio_buf" 1 ::= "buf"; LElem "aio_nbytes" 1 ::= 111;
     reject (aio_read 1) (-1) (Exits PTS_FAIL);
     While 1 [set_ (LLoc "rc") (aio_error 1); If (Loc "rc" != (err_num EINPROGRESS))%pt [Break] []];
     While 1 [set_ (LLoc "rc") (aio_error 1); If (Loc "rc" != (err_num EINPROGRESS))%pt [Break] []];
     XF (aio_error 1); expect (aio_return 1) 111 (Exits PTS_FAIL); ignore (close "fd"); Return PTS_PASS])].

Definition aio_read_3_2 : sprog := SProg
  [("main",
    [set_ "buf" (array 1024); set_ (LLoc "rc") getpid;
     "tmpfname" ::= with_num "/tmp/pts_aio_read_3_2_" (Loc "rc"); ignore (unlink "tmpfname");
     set_ "fd" (open "tmpfname" (eor (eor O_CREAT O_RDWR) O_EXCL) (eor S_IRUSR S_IWUSR));
     exit_if ("fd" == -1)%pt PTS_UNRESOLVED; ignore (unlink "tmpfname");
     expect (write "fd" "buf" 512) 512 (Exits PTS_UNRESOLVED); ignore (clear_aiocb 1);
     LElem "aio_fildes" 1 ::= "fd"; LElem "aio_buf" 1 ::= "buf"; LElem "aio_nbytes" 1 ::= 1024;
     reject (aio_read 1) (-1) (Exits PTS_FAIL);
     While 1 [set_ (LLoc "rc") (aio_error 1); If (Loc "rc" != (err_num EINPROGRESS))%pt [Break] []];
     While 1 [set_ (LLoc "rc") (aio_error 1); If (Loc "rc" != (err_num EINPROGRESS))%pt [Break] []];
     XF (aio_error 1); expect (aio_return 1) 512 (Exits PTS_FAIL); ignore (close "fd"); Return PTS_PASS])].

Definition aio_read_4_1 : sprog := SProg
  [("main",
    [set_ "buf" (array 1024); set_ "check" (array 512); set_ (LLoc "rc") getpid;
     "tmpfname" ::= with_num "/tmp/pts_aio_read_4_1_" (Loc "rc"); ignore (unlink "tmpfname");
     set_ "fd" (open "tmpfname" (eor (eor O_CREAT O_RDWR) O_EXCL) (eor S_IRUSR S_IWUSR));
     exit_if ("fd" == -1)%pt PTS_UNRESOLVED; ignore (unlink "tmpfname"); ignore (memset "buf" 1 512);
     ignore (memset ("buf" + 512)%pt 2 512); expect (write "fd" "buf" 1024) 1024 (Exits PTS_UNRESOLVED);
     ignore (memset "check" 170 512); ignore (clear_aiocb 1); LElem "aio_fildes" 1 ::= "fd";
     LElem "aio_buf" 1 ::= "check"; LElem "aio_nbytes" 1 ::= 512; LElem "aio_offset" 1 ::= 512;
     reject (aio_read 1) (-1) (Exits PTS_FAIL);
     While 1 [set_ "err" (aio_error 1); If ("err" != (err_num EINPROGRESS))%pt [Break] []];
     set_ "err" (aio_error 1); set_ "ret" (aio_return 1);
     If ("err" != 0)%pt [ignore (close "fd"); Exit PTS_FAIL] [];
     If ("ret" != 512)%pt [ignore (close "fd"); Exit PTS_FAIL] []; "i" ::= 0;
     While ("i" < 512)%pt
       [set_ (LLoc "rc") (load 1 ("check" + "i")%pt);
        If (Loc "rc" != 2)%pt [ignore (close "fd"); Exit PTS_FAIL] []; "i" ::= "i" + 1];
     ignore (close "fd"); Return PTS_PASS])].

Definition aio_read_5_1 : sprog := SProg
  [("main",
    [set_ "buf" (array 111); set_ "check" (array 111); set_ (LLoc "rc") getpid;
     "tmpfname" ::= with_num "/tmp/pts_aio_read_5_1_" (Loc "rc"); ignore (unlink "tmpfname");
     set_ "fd" (open "tmpfname" (eor (eor O_CREAT O_RDWR) O_EXCL) (eor S_IRUSR S_IWUSR));
     exit_if ("fd" == -1)%pt PTS_UNRESOLVED; ignore (unlink "tmpfname"); "i" ::= 0;
     While ("i" < 111)%pt [ignore (store 1 ("buf" + "i")%pt "i"); "i" ::= "i" + 1];
     expect (write "fd" "buf" 111) 111 (Exits PTS_UNRESOLVED); ignore (memset "check" 170 111);
     ignore (clear_aiocb 1); LElem "aio_fildes" 1 ::= "fd"; LElem "aio_buf" 1 ::= "check";
     LElem "aio_nbytes" 1 ::= 111; LElem "aio_lio_opcode" 1 ::= LIO_WRITE;
     reject (aio_read 1) (-1) (Exits PTS_FAIL);
     While 1 [set_ "err" (aio_error 1); If ("err" != (err_num EINPROGRESS))%pt [Break] []];
     set_ "err" (aio_error 1); set_ "ret" (aio_return 1);
     If ("err" != 0)%pt [ignore (close "fd"); Exit PTS_FAIL] [];
     If ("ret" != 111)%pt [ignore (close "fd"); Exit PTS_FAIL] []; "i" ::= 0;
     While ("i" < 111)%pt
       [set_ (LLoc "rc") (load 1 ("buf" + "i")%pt); set_ (LLoc "rc2") (load 1 ("check" + "i")%pt);
        exit_if (Loc "rc" != Loc "rc2")%pt PTS_FAIL; "i" ::= "i" + 1];
     ignore (close "fd"); Return PTS_PASS])].

Definition aio_read_6_1 : sprog := SProg
  [("main",
    [Return PTS_UNTESTED])].

Definition aio_read_7_1 : sprog := SProg
  [("main",
    [set_ "check" (array 111); set_ (LLoc "rc") getpid;
     "tmpfname" ::= with_num "/tmp/pts_aio_read_7_1_" (Loc "rc"); ignore (unlink "tmpfname");
     set_ "fd" (open "tmpfname" (eor (eor O_CREAT O_RDWR) O_EXCL) (eor S_IRUSR S_IWUSR));
     exit_if ("fd" == -1)%pt PTS_UNRESOLVED; ignore (unlink "tmpfname"); ignore (memset "check" 170 111);
     ignore (clear_aiocb 1); LElem "aio_fildes" 1 ::= "fd"; LElem "aio_buf" 1 ::= "check";
     LElem "aio_nbytes" 1 ::= 111; reject (aio_read 1) (-1) (Exits PTS_FAIL); ignore (close "fd");
     Return PTS_PASS])].

Definition aio_read_8_1 : sprog := SProg
  [("main",
    [LElem "aio_fildes" 1 ::= 0; LElem "aio_buf" 1 ::= 0; LElem "aio_nbytes" 1 ::= 0;
     LElem "aio_offset" 1 ::= 0; expect (aio_read 1) (-1) (Exits PTS_FAIL); Return PTS_PASS])].

Definition aio_read_10_1 : sprog := SProg
  [("main",
    [set_ "buf" (array 111); ignore (memset "buf" 170 111); ignore (clear_aiocb 1);
     LElem "aio_fildes" 1 ::= -1; LElem "aio_buf" 1 ::= "buf"; LElem "aio_nbytes" 1 ::= 111;
     expect (aio_read 1) (-1) (Exits PTS_FAIL); exit_if (errno_ != (err_num EBADF))%pt PTS_FAIL;
     Return PTS_PASS])].

Definition aio_read_11_1 : sprog := SProg
  [("main",
    [set_ "buf" (array 111); set_ (LLoc "rc") getpid;
     "tmpfname" ::= with_num "/tmp/pts_aio_read_11_1_" (Loc "rc"); ignore (unlink "tmpfname");
     set_ "fd" (open "tmpfname" (eor (eor O_CREAT O_RDWR) O_EXCL) (eor S_IRUSR S_IWUSR));
     exit_if ("fd" == -1)%pt PTS_UNRESOLVED; ignore (unlink "tmpfname");
     expect (write "fd" "buf" 111) 111 (Exits PTS_UNRESOLVED); ignore (clear_aiocb 1);
     LElem "aio_fildes" 1 ::= "fd"; LElem "aio_buf" 1 ::= "buf"; LElem "aio_offset" 1 ::= -1;
     LElem "aio_nbytes" 1 ::= 111; set_ (LLoc "rc") (aio_read 1);
     If (Loc "rc" != -1)%pt
       [While 1 [set_ (LLoc "rc") (aio_error 1); If (Loc "rc" != (err_num EINPROGRESS))%pt [Break] []];
        set_ "err" (aio_error 1); set_ "ret" (aio_return 1);
        If ("ret" != -1)%pt
          [ignore (close "fd"); Exit PTS_FAIL]
          [If ("err" != (err_num EINVAL))%pt [ignore (close "fd"); Exit PTS_FAIL] []]]
       [If (errno_ != (err_num EINVAL))%pt [ignore (close "fd"); Exit PTS_FAIL] []];
     ignore (close "fd"); Return PTS_PASS])].

Definition aio_read_11_2 : sprog := SProg
  [("main",
    [set_ "buf" (array 111); set_ (LLoc "rc") getpid;
     "tmpfname" ::= with_num "/tmp/pts_aio_read_11_2" (Loc "rc"); ignore (unlink "tmpfname");
     set_ "fd" (open "tmpfname" (eor (eor O_CREAT O_RDWR) O_EXCL) (eor S_IRUSR S_IWUSR));
     exit_if ("fd" == -1)%pt PTS_UNRESOLVED; ignore (unlink "tmpfname"); ignore (clear_aiocb 1);
     LElem "aio_fildes" 1 ::= "fd"; LElem "aio_buf" 1 ::= "buf"; LElem "aio_reqprio" 1 ::= -1;
     LElem "aio_nbytes" 1 ::= 111; expect (aio_read 1) (-1) (Exits PTS_FAIL);
     exit_if (errno_ != (err_num EINVAL))%pt PTS_FAIL; ignore (close "fd"); Return PTS_PASS])].

Definition aio_read_12_1 : sprog := SProg
  [("main",
    [Return PTS_UNTESTED])].

Definition aio_read_13_1 : sprog := SProg
  [("main",
    [Return PTS_UNTESTED])].

Definition aio_read_14_1 : sprog := SProg
  [("main",
    [Return PTS_UNTESTED])].

(** ** aio_write *)

Definition aio_write_1_1 : sprog := SProg
  [("main",
    [set_ "buf" (array 512); set_ "check" (array 513); set_ (LLoc "rc") getpid;
     "tmpfname" ::= with_num "/tmp/pts_aio_write_1_1_" (Loc "rc"); ignore (unlink "tmpfname");
     set_ "fd" (open "tmpfname" (eor (eor O_CREAT O_RDWR) O_EXCL) (eor S_IRUSR S_IWUSR));
     exit_if ("fd" == -1)%pt PTS_UNRESOLVED; ignore (unlink "tmpfname"); ignore (memset "buf" 170 512);
     ignore (clear_aiocb 1); LElem "aio_fildes" 1 ::= "fd"; LElem "aio_buf" 1 ::= "buf";
     LElem "aio_nbytes" 1 ::= 512; set_ (LLoc "rc") (aio_write 1);
     If (Loc "rc" == -1)%pt [ignore (close "fd"); Exit PTS_FAIL] [];
     While 1 [set_ (LLoc "rc") (aio_error 1); If (Loc "rc" != (err_num EINPROGRESS))%pt [Break] []];
     set_ "err" (aio_error 1); set_ "ret" (aio_return 1);
     If ("err" != 0)%pt [ignore (close "fd"); Exit PTS_FAIL] [];
     If ("ret" != 512)%pt [ignore (close "fd"); Exit PTS_FAIL] []; set_ (LLoc "rc") (lseek "fd" 0 SEEK_SET);
     If (Loc "rc" == -1)%pt [ignore (close "fd"); Exit PTS_FAIL] []; ignore (store 1 ("check" + 512)%pt 1);
     set_ (LLoc "rc") (read "fd" "check" 513);
     If (Loc "rc" != 512)%pt [ignore (close "fd"); Exit PTS_FAIL] [];
     set_ (LLoc "rc") (load 1 ("check" + 512)%pt);
     If (Loc "rc" != 1)%pt [ignore (close "fd"); Exit PTS_FAIL] [];
     set_ (LLoc "rc") (memcmp "buf" "check" 512); If (Loc "rc") [ignore (close "fd"); Exit PTS_FAIL] [];
     ignore (close "fd"); Return PTS_PASS])].

Definition aio_write_1_2 : sprog := SProg
  [("main",
    [set_ "buf" (array 1024); set_ "check" (array 2048); set_ (LLoc "rc") getpid;
     "tmpfname" ::= with_num "/tmp/pts_aio_write_1_2_" (Loc "rc"); ignore (unlink "tmpfname");
     set_ "fd" (open "tmpfname" (eor (eor O_CREAT O_RDWR) O_EXCL) (eor S_IRUSR S_IWUSR));
     exit_if ("fd" == -1)%pt PTS_UNRESOLVED; ignore (unlink "tmpfname"); ignore (memset "buf" 0 1024);
     expect (write "fd" "buf" 1024) 1024 (Exits PTS_UNRESOLVED);
     expect (write "fd" "buf" 1024) 1024 (Exits PTS_UNRESOLVED); ignore (memset "buf" 170 1024);
     ignore (clear_aiocb 1); LElem "aio_fildes" 1 ::= "fd"; LElem "aio_buf" 1 ::= "buf";
     LElem "aio_nbytes" 1 ::= 1024; LElem "aio_offset" 1 ::= 512; reject (aio_write 1) (-1) (Exits PTS_FAIL);
     While 1 [set_ (LLoc "rc") (aio_error 1); If (Loc "rc" != (err_num EINPROGRESS))%pt [Break] []];
     set_ "err" (aio_error 1); set_ "ret" (aio_return 1);
     If ("err" != 0)%pt [ignore (close "fd"); Exit PTS_FAIL] [];
     If ("ret" != 1024)%pt [ignore (close "fd"); Exit PTS_FAIL] []; set_ (LLoc "rc") (lseek "fd" 0 SEEK_SET);
     If (Loc "rc" == -1)%pt [ignore (close "fd"); Exit PTS_FAIL] []; ignore (memset "check" 1 2048);
     set_ (LLoc "rc") (read "fd" "check" 2048);
     If (Loc "rc" != 2048)%pt [ignore (close "fd"); Exit PTS_FAIL] [];
     set_ (LLoc "rc") (load 1 ("check" + 511)%pt);
     If (Loc "rc" != 0)%pt [ignore (close "fd"); Exit PTS_FAIL] [];
     set_ (LLoc "rc") (load 1 ("check" + 1536)%pt);
     If (Loc "rc" != 0)%pt [ignore (close "fd"); Exit PTS_FAIL] [];
     set_ (LLoc "rc") (memcmp "buf" ("check" + 512)%pt 1024);
     If (Loc "rc") [ignore (close "fd"); Exit PTS_FAIL] []; ignore (close "fd"); Return PTS_PASS])].

Definition aio_write_3_1 : sprog := SProg
  [("main",
    [set_ "buf" (array 512); set_ "check" (array 512); set_ (LLoc "rc") getpid;
     "tmpfname" ::= with_num "/tmp/pts_aio_write_3_1_" (Loc "rc"); ignore (unlink "tmpfname");
     set_ "fd" (open "tmpfname" (eor (eor O_CREAT O_RDWR) O_EXCL) (eor S_IRUSR S_IWUSR));
     exit_if ("fd" == -1)%pt PTS_UNRESOLVED; ignore (unlink "tmpfname"); ignore (memset "buf" 170 512);
     ignore (clear_aiocb 1); LElem "aio_fildes" 1 ::= "fd"; LElem "aio_buf" 1 ::= "buf";
     LElem "aio_nbytes" 1 ::= 512; LElem "aio_lio_opcode" 1 ::= LIO_READ;
     reject (aio_write 1) (-1) (Exits PTS_FAIL);
     While 1 [set_ (LLoc "rc") (aio_error 1); If (Loc "rc" != (err_num EINPROGRESS))%pt [Break] []];
     set_ "err" (aio_error 1); set_ "ret" (aio_return 1);
     If ("err" != 0)%pt [ignore (close "fd"); Exit PTS_FAIL] [];
     If ("ret" != 512)%pt [ignore (close "fd"); Exit PTS_FAIL] [];
     reject (lseek "fd" 0 SEEK_SET) (-1) (Exits PTS_FAIL);
     expect (read "fd" "check" 512) 512 (Exits PTS_FAIL); set_ (LLoc "rc") (memcmp "buf" "check" 512);
     exit_if (Loc "rc") PTS_FAIL; ignore (close "fd"); Return PTS_PASS])].

Definition aio_write_4_1 : sprog := SProg
  [("main",
    [Return PTS_UNTESTED])].

Definition aio_write_5_1 : sprog := SProg
  [("main",
    [set_ "buf" (array 512); set_ (LLoc "rc") getpid;
     "tmpfname" ::= with_num "/tmp/pts_aio_write_5_1_" (Loc "rc"); ignore (unlink "tmpfname");
     set_ "fd" (open "tmpfname" (eor (eor O_CREAT O_RDWR) O_EXCL) (eor S_IRUSR S_IWUSR));
     exit_if ("fd" == -1)%pt PTS_UNRESOLVED; ignore (unlink "tmpfname"); ignore (clear_aiocb 1);
     LElem "aio_fildes" 1 ::= "fd"; LElem "aio_buf" 1 ::= "buf"; LElem "aio_nbytes" 1 ::= 512;
     reject (aio_write 1) (-1) (Exits PTS_FAIL);
     While 1 [set_ (LLoc "rc") (aio_error 1); If (Loc "rc" != (err_num EINPROGRESS))%pt [Break] []];
     set_ "err" (aio_error 1); set_ "ret" (aio_return 1);
     If ("err" != 0)%pt [ignore (close "fd"); Exit PTS_FAIL] [];
     If ("ret" != 512)%pt [ignore (close "fd"); Exit PTS_FAIL] []; ignore (close "fd"); Return PTS_PASS])].

Definition aio_write_8_1 : sprog := SProg
  [("main",
    [set_ "buf" (array 512); ignore (memset "buf" 170 512); ignore (clear_aiocb 1);
     LElem "aio_fildes" 1 ::= -1; LElem "aio_buf" 1 ::= "buf"; LElem "aio_nbytes" 1 ::= 512;
     expect (aio_write 1) (-1) (Exits PTS_FAIL); exit_if (errno_ != (err_num EBADF))%pt PTS_FAIL;
     Return PTS_PASS])].

Definition aio_write_8_2 : sprog := SProg
  [("main",
    [set_ "buf" (array 512); set_ (LLoc "rc") getpid;
     "tmpfname" ::= with_num "/tmp/pts_aio_write_8_2_" (Loc "rc"); ignore (unlink "tmpfname");
     set_ "fd" (open "tmpfname" (eor (eor O_CREAT O_RDONLY) O_EXCL) (eor S_IRUSR S_IWUSR));
     exit_if ("fd" == -1)%pt PTS_UNRESOLVED; ignore (unlink "tmpfname"); ignore (memset "buf" 170 512);
     ignore (clear_aiocb 1); LElem "aio_fildes" 1 ::= "fd"; LElem "aio_buf" 1 ::= "buf";
     LElem "aio_nbytes" 1 ::= 512; expect (aio_write 1) (-1) (Exits PTS_FAIL);
     exit_if (errno_ != (err_num EBADF))%pt PTS_FAIL; ignore (close "fd"); Return PTS_PASS])].

Definition aio_write_9_1 : sprog := SProg
  [("main",
    [set_ "buf" (array 111); set_ (LLoc "rc") getpid;
     "tmpfname" ::= with_num "/tmp/pts_aio_write_9_1_" (Loc "rc"); ignore (unlink "tmpfname");
     set_ "fd" (open "tmpfname" (eor (eor O_CREAT O_RDWR) O_EXCL) (eor S_IRUSR S_IWUSR));
     exit_if ("fd" == -1)%pt PTS_UNRESOLVED; ignore (unlink "tmpfname"); ignore (clear_aiocb 1);
     LElem "aio_fildes" 1 ::= "fd"; LElem "aio_buf" 1 ::= "buf"; LElem "aio_offset" 1 ::= -1;
     LElem "aio_nbytes" 1 ::= 111; set_ (LLoc "rc") (aio_write 1);
     If (Loc "rc" != -1)%pt
       [While 1 [set_ (LLoc "rc") (aio_error 1); If (Loc "rc" != (err_num EINPROGRESS))%pt [Break] []];
        set_ "err" (aio_error 1); set_ "ret" (aio_return 1);
        If ("ret" != -1)%pt
          [ignore (close "fd"); Exit PTS_FAIL]
          [If ("err" != (err_num EINVAL))%pt [ignore (close "fd"); Exit PTS_FAIL] []]]
       [If (errno_ != (err_num EINVAL))%pt [ignore (close "fd"); Exit PTS_FAIL] []];
     ignore (close "fd"); Return PTS_PASS])].

Definition aio_write_9_2 : sprog := SProg
  [("main",
    [set_ "buf" (array 512); set_ (LLoc "rc") getpid;
     "tmpfname" ::= with_num "/tmp/pts_aio_write_9_2_" (Loc "rc"); ignore (unlink "tmpfname");
     set_ "fd" (open "tmpfname" (eor (eor O_CREAT O_RDWR) O_EXCL) (eor S_IRUSR S_IWUSR));
     exit_if ("fd" == -1)%pt PTS_UNRESOLVED; ignore (unlink "tmpfname"); ignore (clear_aiocb 1);
     LElem "aio_fildes" 1 ::= "fd"; LElem "aio_buf" 1 ::= "buf"; LElem "aio_reqprio" 1 ::= -1;
     LElem "aio_nbytes" 1 ::= 512; set_ (LLoc "rc") (aio_write 1);
     If (Loc "rc" != -1)%pt
       [While 1 [set_ (LLoc "rc") (aio_error 1); If (Loc "rc" != (err_num EINPROGRESS))%pt [Break] []];
        set_ "err" (aio_error 1); set_ "ret" (aio_return 1);
        If ("ret" != -1)%pt
          [ignore (close "fd"); Exit PTS_FAIL]
          [If ("err" != (err_num EINVAL))%pt [ignore (close "fd"); Exit PTS_FAIL] []]]
       [If (errno_ != (err_num EINVAL))%pt [ignore (close "fd"); Exit PTS_FAIL] []];
     ignore (close "fd"); Return PTS_PASS])].

Definition aio_write_10_1 : sprog := SProg
  [("main",
    [Return PTS_UNTESTED])].

Definition aio_write_11_1 : sprog := SProg
  [("main",
    [Return PTS_UNTESTED])].

Definition aio_write_12_1 : sprog := SProg
  [("main",
    [Return PTS_UNTESTED])].

Definition aio_write_13_1 : sprog := SProg
  [("main",
    [Return PTS_UNTESTED])].

(** ** aio_error *)

Definition aio_error_1_1 : sprog := SProg
  [("main",
    [set_ "buf" (array 111); set_ (LLoc "rc") getpid;
     "tmpfname" ::= with_num "/tmp/pts_aio_error_1_1_" (Loc "rc"); ignore (unlink "tmpfname");
     set_ "fd" (open "tmpfname" (eor (eor O_CREAT O_RDWR) O_EXCL) (eor S_IRUSR S_IWUSR));
     ret_if ("fd" == -1)%pt PTS_UNRESOLVED; ignore (unlink "tmpfname"); ignore (memset "buf" 170 111);
     ignore (clear_aiocb 1); LElem "aio_fildes" 1 ::= "fd"; LElem "aio_buf" 1 ::= "buf";
     LElem "aio_nbytes" 1 ::= 111; Fm (aio_write 1);
     While 1 [set_ (LLoc "rc") (aio_error 1); If (Loc "rc" != (err_num EINPROGRESS))%pt [Break] []];
     F (aio_error 1); ignore (close "fd"); Return PTS_PASS])].

Definition aio_error_3_1 : sprog := SProg
  [("main",
    [ignore (clear_aiocb 1); set_ "ret" (aio_error 1); ret_if ("ret" != -1)%pt PTS_FAIL;
     ret_if (errno_ != (err_num EINVAL))%pt PTS_FAIL; Return PTS_PASS])].

(** ** aio_return *)

Definition aio_return_1_1 : sprog := SProg
  [("main",
    [set_ "buf" (array 111); set_ (LLoc "rc") getpid;
     "tmpfname" ::= with_num "/tmp/pts_aio_return_1_1_" (Loc "rc"); ignore (unlink "tmpfname");
     set_ "fd" (open "tmpfname" (eor (eor O_CREAT O_RDWR) O_EXCL) (eor S_IRUSR S_IWUSR));
     exit_if ("fd" == -1)%pt PTS_UNRESOLVED; ignore (unlink "tmpfname"); ignore (memset "buf" 170 111);
     ignore (clear_aiocb 1); LElem "aio_fildes" 1 ::= "fd"; LElem "aio_buf" 1 ::= "buf";
     LElem "aio_nbytes" 1 ::= 111; reject (aio_write 1) (-1) (Exits PTS_FAIL); ignore (close "fd");
     While 1
       [set_ "retval" (aio_error 1); exit_if ("retval" == -1)%pt PTS_FAIL;
        If ("retval" != (err_num EINPROGRESS))%pt [Break] []];
     set_ "retval" (aio_return 1); exit_if ("retval" != 111)%pt PTS_FAIL; Return PTS_PASS])].

Definition aio_return_2_1 : sprog := SProg
  [("main",
    [set_ "buf" (array 111); set_ (LLoc "rc") getpid;
     "tmpfname" ::= with_num "/tmp/pts_aio_return_2_1_" (Loc "rc"); ignore (unlink "tmpfname");
     set_ "fd" (open "tmpfname" (eor (eor O_CREAT O_RDWR) O_EXCL) (eor S_IRUSR S_IWUSR));
     exit_if ("fd" == -1)%pt PTS_UNRESOLVED; ignore (unlink "tmpfname"); ignore (memset "buf" 170 111);
     ignore (clear_aiocb 1); LElem "aio_fildes" 1 ::= "fd"; LElem "aio_buf" 1 ::= "buf";
     LElem "aio_nbytes" 1 ::= 111; reject (aio_write 1) (-1) (Exits PTS_FAIL); ignore (close "fd");
     While 1
       [set_ "retval" (aio_error 1); exit_if ("retval" == -1)%pt PTS_FAIL;
        If ("retval" != (err_num EINPROGRESS))%pt [Break] []];
     set_ "retval" (aio_return 1); exit_if ("retval" != 111)%pt PTS_FAIL; set_ "retval" (aio_return 1);
     exit_if ("retval" != -1)%pt PTS_FAIL; Return PTS_PASS])].

Definition aio_return_3_1 : sprog := SProg
  [("main",
    [set_ "buf" (array 4096); set_ (LLoc "rc") getpid;
     "tmpfname" ::= with_num "/tmp/pts_aio_return_3_1_" (Loc "rc"); ignore (unlink "tmpfname");
     set_ "fd" (open "tmpfname" (eor (eor O_CREAT O_RDWR) O_EXCL) (eor S_IRUSR S_IWUSR));
     exit_if ("fd" == -1)%pt PTS_UNRESOLVED; ignore (unlink "tmpfname"); ignore (memset "buf" 170 4096);
     ignore (clear_aiocb 1); LElem "aio_fildes" 1 ::= "fd"; LElem "aio_buf" 1 ::= "buf";
     LElem "aio_nbytes" 1 ::= 4096; reject (aio_write 1) (-1) (Exits PTS_FAIL);
     While 1
       [set_ "retval" (aio_error 1); exit_if ("retval" == -1)%pt PTS_FAIL;
        If ("retval" != (err_num EINPROGRESS))%pt [Break] []];
     set_ "retval" (aio_return 1); exit_if ("retval" != 4096)%pt PTS_FAIL; ignore (clear_aiocb 1);
     LElem "aio_fildes" 1 ::= "fd"; LElem "aio_buf" 1 ::= "buf"; LElem "aio_nbytes" 1 ::= 2048;
     reject (aio_write 1) (-1) (Exits PTS_FAIL);
     While 1
       [set_ "retval" (aio_error 1); exit_if ("retval" == -1)%pt PTS_FAIL;
        If ("retval" != (err_num EINPROGRESS))%pt [Break] []];
     ignore (close "fd"); set_ "retval" (aio_return 1); exit_if ("retval" != 2048)%pt PTS_FAIL;
     Return PTS_PASS])].

Definition aio_return_3_2 : sprog := SProg
  [("main",
    [set_ "buf" (array 4096); set_ (LLoc "rc") getpid;
     "tmpfname" ::= with_num "/tmp/pts_aio_return_3_2_" (Loc "rc"); ignore (unlink "tmpfname");
     set_ "fd" (open "tmpfname" (eor (eor O_CREAT O_RDWR) O_EXCL) (eor S_IRUSR S_IWUSR));
     exit_if ("fd" == -1)%pt PTS_UNRESOLVED; ignore (unlink "tmpfname"); ignore (memset "buf" 170 4096);
     ignore (clear_aiocb 1); LElem "aio_fildes" 1 ::= "fd"; LElem "aio_buf" 1 ::= "buf";
     LElem "aio_nbytes" 1 ::= 4096; reject (aio_write 1) (-1) (Exits PTS_FAIL);
     While 1
       [set_ "retval" (aio_error 1); exit_if ("retval" == -1)%pt PTS_FAIL;
        If ("retval" != (err_num EINPROGRESS))%pt [Break] []];
     set_ "retval" (aio_return 1); exit_if ("retval" != 4096)%pt PTS_FAIL; set_ "retval" (aio_return 1);
     exit_if (("retval" != -1) && (errno_ != (err_num EINVAL)))%pt PTS_FAIL; ignore (close "fd");
     Return PTS_PASS])].

Definition aio_return_4_1 : sprog := SProg
  [("main",
    [set_ "buf" (array 111); set_ (LLoc "rc") getpid;
     "tmpfname" ::= with_num "/tmp/pts_aio_return_2_1_" (Loc "rc"); ignore (unlink "tmpfname");
     set_ "fd" (open "tmpfname" (eor (eor O_CREAT O_RDWR) O_EXCL) (eor S_IRUSR S_IWUSR));
     exit_if ("fd" == -1)%pt PTS_UNRESOLVED; ignore (unlink "tmpfname"); ignore (memset "buf" 170 111);
     ignore (clear_aiocb 1); LElem "aio_fildes" 1 ::= "fd"; LElem "aio_buf" 1 ::= "buf";
     LElem "aio_nbytes" 1 ::= 111; reject (aio_write 1) (-1) (Exits PTS_FAIL); ignore (close "fd");
     While 1
       [set_ "retval" (aio_error 1); exit_if ("retval" == -1)%pt PTS_FAIL;
        If ("retval" != (err_num EINPROGRESS))%pt [Break] []];
     LElem "aio_fildes" 2 ::= "fd"; LElem "aio_buf" 2 ::= "buf"; LElem "aio_nbytes" 2 ::= 111;
     set_ "retval" (aio_return 2); exit_if ("retval" != -1)%pt PTS_FAIL; set_ "retval" (aio_return 1);
     exit_if ("retval" != 111)%pt PTS_FAIL; ignore (close "fd"); Return PTS_PASS])].

(** ** aio_fsync *)

Definition aio_fsync_1_1 : sprog := SProg
  [("main",
    [Return PTS_UNTESTED])].

Definition aio_fsync_2_1 : sprog := SProg
  [("main",
    [set_ "buf" (array 1024); set_ (LLoc "rc") getpid;
     "tmpfname" ::= with_num "/tmp/pts_aio_fsync_2_1_" (Loc "rc"); ignore (unlink "tmpfname");
     set_ "fd" (open "tmpfname" (eor (eor O_CREAT O_RDWR) O_EXCL) (eor S_IRUSR S_IWUSR));
     exit_if ("fd" == -1)%pt PTS_UNRESOLVED; ignore (unlink "tmpfname"); ignore (clear_aiocb 1);
     LElem "aio_fildes" 1 ::= "fd"; LElem "aio_buf" 1 ::= "buf"; LElem "aio_nbytes" 1 ::= 1024;
     reject (aio_write 1) (-1) (Exits PTS_FAIL); ignore (clear_aiocb 2); LElem "aio_fildes" 2 ::= "fd";
     XF (aio_fsync O_DSYNC 2); ignore (close "fd"); Return PTS_UNTESTED])].

Definition aio_fsync_3_1 : sprog := SProg
  [("main",
    [set_ "buf" (array 1024); set_ (LLoc "rc") getpid;
     "tmpfname" ::= with_num "/tmp/pts_aio_fsync_3_1_" (Loc "rc"); ignore (unlink "tmpfname");
     set_ "fd" (open "tmpfname" (eor (eor O_CREAT O_RDWR) O_EXCL) (eor S_IRUSR S_IWUSR));
     exit_if ("fd" == -1)%pt PTS_UNRESOLVED; ignore (unlink "tmpfname"); ignore (clear_aiocb 1);
     LElem "aio_fildes" 1 ::= "fd"; LElem "aio_buf" 1 ::= "buf"; LElem "aio_nbytes" 1 ::= 1024;
     reject (aio_write 1) (-1) (Exits PTS_FAIL); ignore (clear_aiocb 2); LElem "aio_fildes" 2 ::= "fd";
     XF (aio_fsync O_SYNC 2); ignore (close "fd"); Return PTS_UNTESTED])].

Definition aio_fsync_4_1 : sprog := SProg
  [("main",
    [set_ "buf" (array 111); set_ (LLoc "rc") getpid;
     "tmpfname" ::= with_num "/tmp/pts_aio_fsync_4_1_" (Loc "rc"); ignore (unlink "tmpfname");
     set_ "fd" (open "tmpfname" (eor (eor O_CREAT O_RDWR) O_EXCL) (eor S_IRUSR S_IWUSR));
     exit_if ("fd" == -1)%pt PTS_UNRESOLVED; ignore (unlink "tmpfname"); ignore (clear_aiocb 1);
     LElem "aio_fildes" 1 ::= "fd"; LElem "aio_buf" 1 ::= "buf"; LElem "aio_nbytes" 1 ::= 111;
     reject (aio_write 1) (-1) (Exits PTS_FAIL); ignore (clear_aiocb 2); LElem "aio_fildes" 2 ::= "fd";
     XF (aio_fsync O_SYNC 2); set_ (LLoc "rc") (aio_error 2); exit_if (Loc "rc" < 0)%pt PTS_FAIL;
     ignore (close "fd"); Return PTS_PASS])].

Definition aio_fsync_4_2 : sprog := SProg
  [("main",
    [set_ "buf" (array 111); set_ (LLoc "rc") getpid;
     "tmpfname" ::= with_num "/tmp/pts_aio_fsync_4_2_" (Loc "rc"); ignore (unlink "tmpfname");
     set_ "fd" (open "tmpfname" (eor (eor O_CREAT O_RDWR) O_EXCL) (eor S_IRUSR S_IWUSR));
     exit_if ("fd" == -1)%pt PTS_UNRESOLVED; ignore (unlink "tmpfname"); ignore (clear_aiocb 1);
     LElem "aio_fildes" 1 ::= "fd"; LElem "aio_buf" 1 ::= "buf"; LElem "aio_nbytes" 1 ::= 111;
     reject (aio_write 1) (-1) (Exits PTS_FAIL); ignore (clear_aiocb 2); LElem "aio_fildes" 2 ::= "fd";
     XF (aio_fsync O_SYNC 2); LLoc "errno" ::= 0; ignore (aio_return 2); exit_if (errno_ != 0)%pt PTS_FAIL;
     ignore (close "fd"); Return PTS_PASS])].

Definition aio_fsync_5_1 : sprog := SProg
  [("main",
    [set_ "buf" (array 1024); set_ (LLoc "rc") getpid;
     "tmpfname" ::= with_num "/tmp/pts_aio_fsync_5_1_" (Loc "rc"); ignore (unlink "tmpfname");
     set_ "fd" (open "tmpfname" (eor (eor O_CREAT O_RDWR) O_EXCL) (eor S_IRUSR S_IWUSR));
     exit_if ("fd" == -1)%pt PTS_UNRESOLVED; ignore (unlink "tmpfname"); ignore (clear_aiocb 1);
     LElem "aio_fildes" 1 ::= "fd"; LElem "aio_buf" 1 ::= "buf"; LElem "aio_nbytes" 1 ::= 1024;
     reject (aio_write 1) (-1) (Exits PTS_FAIL); ignore (clear_aiocb 2); LElem "aio_fildes" 2 ::= "fd";
     XF (aio_fsync O_SYNC 2); "ret" ::= PTS_UNTESTED; set_ (LLoc "rc") (aio_error 2);
     If (Loc "rc" == (err_num EINPROGRESS))%pt ["ret" ::= PTS_PASS] [];
     While 1 [set_ (LLoc "rc") (aio_error 2); If (Loc "rc" != (err_num EINPROGRESS))%pt [Break] []];
     ignore (close "fd"); Return "ret"])].

Definition aio_fsync_6_1 : sprog := SProg
  [("main",
    [Return PTS_UNTESTED])].

Definition aio_fsync_7_1 : sprog := SProg
  [("main",
    [Return PTS_UNTESTED])].

Definition aio_fsync_8_1 : sprog := SProg
  [("main",
    [set_ "buf" (array 111); set_ (LLoc "rc") getpid;
     "tmpfname" ::= with_num "/tmp/pts_aio_fsync_8_1_" (Loc "rc"); ignore (unlink "tmpfname");
     set_ "fd" (open "tmpfname" (eor (eor O_CREAT O_RDWR) O_EXCL) (eor S_IRUSR S_IWUSR));
     exit_if ("fd" == -1)%pt PTS_UNRESOLVED; ignore (unlink "tmpfname"); ignore (clear_aiocb 1);
     LElem "aio_fildes" 1 ::= "fd"; LElem "aio_buf" 1 ::= "buf"; LElem "aio_nbytes" 1 ::= 111;
     reject (aio_write 1) (-1) (Exits PTS_FAIL); ignore (clear_aiocb 2); LElem "aio_fildes" 2 ::= "fd";
     LElem "aio_nbytes" 2 ::= -1; XF (aio_fsync O_SYNC 2); ignore (close "fd"); Return PTS_PASS])].

Definition aio_fsync_8_2 : sprog := SProg
  [("main",
    [set_ "buf" (array 111); set_ (LLoc "rc") getpid;
     "tmpfname" ::= with_num "/tmp/pts_aio_fsync_8_2_" (Loc "rc"); ignore (unlink "tmpfname");
     set_ "fd" (open "tmpfname" (eor (eor O_CREAT O_RDWR) O_EXCL) (eor S_IRUSR S_IWUSR));
     exit_if ("fd" == -1)%pt PTS_UNRESOLVED; ignore (unlink "tmpfname"); ignore (clear_aiocb 1);
     LElem "aio_fildes" 1 ::= "fd"; LElem "aio_buf" 1 ::= "buf"; LElem "aio_nbytes" 1 ::= 111;
     reject (aio_write 1) (-1) (Exits PTS_FAIL); ignore (clear_aiocb 2); LElem "aio_fildes" 2 ::= "fd";
     LElem "aio_buf" 2 ::= 0; XF (aio_fsync O_SYNC 2); ignore (close "fd"); Return PTS_PASS])].

Definition aio_fsync_8_3 : sprog := SProg
  [("main",
    [set_ "buf" (array 111); set_ (LLoc "rc") getpid;
     "tmpfname" ::= with_num "/tmp/pts_aio_fsync_8_3_" (Loc "rc"); ignore (unlink "tmpfname");
     set_ "fd" (open "tmpfname" (eor (eor O_CREAT O_RDWR) O_EXCL) (eor S_IRUSR S_IWUSR));
     exit_if ("fd" == -1)%pt PTS_UNRESOLVED; ignore (unlink "tmpfname"); ignore (clear_aiocb 1);
     LElem "aio_fildes" 1 ::= "fd"; LElem "aio_buf" 1 ::= "buf"; LElem "aio_nbytes" 1 ::= 111;
     reject (aio_write 1) (-1) (Exits PTS_FAIL); ignore (clear_aiocb 2); LElem "aio_fildes" 2 ::= "fd";
     LElem "aio_reqprio" 2 ::= -1; XF (aio_fsync O_SYNC 2); ignore (close "fd"); Return PTS_PASS])].

Definition aio_fsync_8_4 : sprog := SProg
  [("main",
    [set_ "buf" (array 111); set_ (LLoc "rc") getpid;
     "tmpfname" ::= with_num "/tmp/pts_aio_fsync_8_4_" (Loc "rc"); ignore (unlink "tmpfname");
     set_ "fd" (open "tmpfname" (eor (eor O_CREAT O_RDWR) O_EXCL) (eor S_IRUSR S_IWUSR));
     exit_if ("fd" == -1)%pt PTS_UNRESOLVED; ignore (unlink "tmpfname"); ignore (clear_aiocb 1);
     LElem "aio_fildes" 1 ::= "fd"; LElem "aio_buf" 1 ::= "buf"; LElem "aio_nbytes" 1 ::= 111;
     reject (aio_write 1) (-1) (Exits PTS_FAIL); ignore (clear_aiocb 2); LElem "aio_fildes" 2 ::= "fd";
     LElem "aio_offset" 2 ::= -1; XF (aio_fsync O_SYNC 2); ignore (close "fd"); Return PTS_PASS])].

Definition aio_fsync_9_1 : sprog := SProg
  [("main",
    [set_ "buf" (array 111); set_ (LLoc "rc") getpid;
     "tmpfname" ::= with_num "/tmp/pts_aio_fsync_9_1_" (Loc "rc"); ignore (unlink "tmpfname");
     set_ "fd" (open "tmpfname" (eor (eor O_CREAT O_RDWR) O_EXCL) (eor S_IRUSR S_IWUSR));
     exit_if ("fd" == -1)%pt PTS_UNRESOLVED; ignore (unlink "tmpfname"); ignore (clear_aiocb 1);
     LElem "aio_fildes" 1 ::= "fd"; LElem "aio_buf" 1 ::= "buf"; LElem "aio_nbytes" 1 ::= 111;
     reject (aio_write 1) (-1) (Exits PTS_FAIL); ignore (clear_aiocb 2); LElem "aio_fildes" 2 ::= "fd";
     XF (aio_fsync O_SYNC 2); ignore (close "fd"); Return PTS_PASS])].

Definition aio_fsync_10_1 : sprog := SProg
  [("main",
    [Return PTS_UNTESTED])].

Definition aio_fsync_11_1 : sprog := SProg
  [("main",
    [Return PTS_UNTESTED])].

Definition aio_fsync_12_1 : sprog := SProg
  [("main",
    [ignore (clear_aiocb 1); LElem "aio_fildes" 1 ::= -1; expect (aio_fsync O_SYNC 1) (-1) (Exits PTS_FAIL);
     exit_if (errno_ != (err_num EBADF))%pt PTS_FAIL; Return PTS_PASS])].

Definition aio_fsync_13_1 : sprog := SProg
  [("main",
    [Return PTS_UNTESTED])].

Definition aio_fsync_14_1 : sprog := SProg
  [("main",
    [set_ "buf" (array 111); set_ (LLoc "rc") getpid;
     "tmpfname" ::= with_num "/tmp/pts_aio_fsync_14_1_" (Loc "rc"); ignore (unlink "tmpfname");
     set_ "fd" (open "tmpfname" (eor (eor O_CREAT O_RDWR) O_EXCL) (eor S_IRUSR S_IWUSR));
     exit_if ("fd" == -1)%pt PTS_UNRESOLVED; ignore (unlink "tmpfname"); ignore (clear_aiocb 1);
     LElem "aio_fildes" 1 ::= "fd"; LElem "aio_buf" 1 ::= "buf"; LElem "aio_nbytes" 1 ::= 111;
     reject (aio_write 1) (-1) (Exits PTS_FAIL); ignore (clear_aiocb 2); LElem "aio_fildes" 2 ::= "fd";
     expect (aio_fsync (-1) 2) (-1) (Exits PTS_FAIL); exit_if (errno_ != (err_num EINVAL))%pt PTS_FAIL;
     ignore (close "fd"); Return PTS_PASS])].

(** ** aio_cancel *)

Definition aio_cancel_1_1 : sprog := SProg
  [("main",
    [set_ "buf" (array 1024); set_ (LLoc "rc") getpid;
     "tmpfname" ::= with_num "/tmp/pts_aio_cancel_1_1_" (Loc "rc"); ignore (unlink "tmpfname");
     set_ "fd" (open "tmpfname" (eor (eor O_CREAT O_RDWR) O_EXCL) (eor S_IRUSR S_IWUSR));
     ret_if ("fd" == -1)%pt PTS_UNRESOLVED; ignore (unlink "tmpfname"); ignore (memset "buf" 170 1024);
     ignore (clear_aiocb 1); LElem "aio_fildes" 1 ::= "fd"; LElem "aio_buf" 1 ::= "buf";
     LElem "aio_nbytes" 1 ::= 1024; Fm (aio_write 1); Fm (aio_cancel "fd" 1); ignore (close "fd");
     Return PTS_PASS])].

Definition aio_cancel_2_1 : sprog := SProg
  [("main",
    [set_ "buf" (array 1024); set_ (LLoc "rc") getpid;
     "tmpfname" ::= with_num "/tmp/pts_aio_cancel_2_1_" (Loc "rc"); ignore (unlink "tmpfname");
     set_ "fd" (open "tmpfname" (eor (eor O_CREAT O_RDWR) O_EXCL) (eor S_IRUSR S_IWUSR));
     ret_if ("fd" == -1)%pt PTS_UNRESOLVED; ignore (unlink "tmpfname"); ignore (memset "buf" 170 1024);
     ignore (clear_aiocb 1); LElem "aio_fildes" 1 ::= "fd"; LElem "aio_buf" 1 ::= "buf";
     LElem "aio_nbytes" 1 ::= 1024; Fm (aio_write 1); Fm (aio_cancel "fd" 0); ignore (close "fd");
     Return PTS_PASS])].

Definition aio_cancel_2_2 : sprog := SProg
  [("main",
    [set_ (LLoc "rc") getpid; "tmpfname" ::= with_num "/tmp/pts_aio_cancel_2_2_" (Loc "rc");
     ignore (unlink "tmpfname");
     set_ "fd" (open "tmpfname" (eor (eor O_CREAT O_RDWR) O_EXCL) (eor S_IRUSR S_IWUSR));
     ret_if ("fd" == -1)%pt PTS_UNRESOLVED; ignore (unlink "tmpfname"); Fm (aio_cancel "fd" 0);
     ignore (close "fd"); Return PTS_PASS])].

Definition aio_cancel_8_1 : sprog := SProg
  [("main",
    [set_ "buf" (array 1024); set_ (LLoc "rc") getpid;
     "tmpfname" ::= with_num "/tmp/pts_aio_cancel_1_1_" (Loc "rc"); ignore (unlink "tmpfname");
     set_ "fd" (open "tmpfname" (eor (eor O_CREAT O_RDWR) O_EXCL) (eor S_IRUSR S_IWUSR));
     ret_if ("fd" == -1)%pt PTS_UNRESOLVED; ignore (unlink "tmpfname"); ignore (memset "buf" 170 1024);
     ignore (clear_aiocb 1); LElem "aio_fildes" 1 ::= "fd"; LElem "aio_buf" 1 ::= "buf";
     LElem "aio_nbytes" 1 ::= 1024; Fm (aio_write 1);
     While 1 [set_ (LLoc "rc") (aio_error 1); If (Loc "rc" != (err_num EINPROGRESS))%pt [Break] []];
     expect (aio_cancel "fd" 1) AIO_ALLDONE (Returns PTS_FAIL); ignore (close "fd"); Return PTS_PASS])].

Definition aio_cancel_9_1 : sprog := SProg
  [("main",
    [expect (aio_cancel (-1) 0) (-1) (Returns PTS_FAIL); ret_if (errno_ == 0)%pt PTS_FAIL; Return PTS_PASS])].

Definition aio_cancel_10_1 : sprog := SProg
  [("main",
    [expect (aio_cancel (-1) 0) (-1) (Returns PTS_FAIL); ret_if (errno_ != (err_num EBADF))%pt PTS_FAIL;
     Return PTS_PASS])].

(** ** aio_suspend *)

Definition aio_suspend_1_1 : sprog := SProg
  [("main",
    ["received_selected" ::= 0; "received_all" ::= 0; "errors" ::= 0; set_ (LLoc "rc") getpid;
     "tmpfname" ::= with_num "/tmp/pts_aio_suspend_1_1_" (Loc "rc"); ignore (unlink "tmpfname");
     set_ "fd" (open "tmpfname" (eor (eor O_CREAT O_RDWR) O_EXCL) (eor S_IRUSR S_IWUSR));
     exit_if ("fd" == -1)%pt PTS_UNRESOLVED; ignore (unlink "tmpfname"); set_ "bufs" (malloc 10485760);
     If ("bufs" == 0)%pt [ignore (close "fd"); Exit PTS_UNRESOLVED] [];
     set_ (LLoc "rc") (write "fd" "bufs" 10485760);
     If (Loc "rc" != 10485760)%pt [ignore (free "bufs"); ignore (close "fd"); Exit PTS_UNRESOLVED] [];
     "i" ::= 0;
     While ("i" < 10)%pt
       ["blocks" ::= "blocks" + 1; LElem "aiocbs" "i" ::= "blocks"; ignore (clear_aiocb (Elem "aiocbs" "i"));
        LElem "aio_fildes" (Elem "aiocbs" "i") ::= "fd";
        LElem "aio_offset" (Elem "aiocbs" "i") ::= "i" * 1048576;
        LElem "aio_buf" (Elem "aiocbs" "i") ::= "bufs" + "i" * 1048576;
        LElem "aio_nbytes" (Elem "aiocbs" "i") ::= 1048576;
        LElem "aio_lio_opcode" (Elem "aiocbs" "i") ::= LIO_READ;
        LElem "sigev_notify" (Elem "aiocbs" "i") ::= SIGEV_SIGNAL;
        LElem "sigev_signo" (Elem "aiocbs" "i") ::= SIGRTMIN + 1;
        LElem "sigev_value" (Elem "aiocbs" "i") ::= "i"; "i" ::= "i" + 1];
     ignore (sigaction (SIGRTMIN + 1)%pt "sigrt1_handler" (eor SA_SIGINFO SA_RESTART) 0);
     ignore (sigaction (SIGRTMIN + 2)%pt "sigrt2_handler" (eor SA_SIGINFO SA_RESTART) 0);
     LElem "plist" 0 ::= 0; LElem "plist" 1 ::= Elem "aiocbs" 6;
     set_ "ret" (lio_listio LIO_NOWAIT "aiocbs" 10 (event SIGEV_SIGNAL (SIGRTMIN + 2)%pt 0));
     If "ret"
       ["i" ::= 0; While ("i" < 10)%pt ["i" ::= "i" + 1]; ignore (free "bufs"); ignore (close "fd");
        Exit PTS_UNRESOLVED]
       [];
     If "received_selected"
       ["i" ::= 0; While ("i" < 10)%pt ["i" ::= "i" + 1]; ignore (free "bufs"); ignore (close "fd");
        Exit PTS_FAIL]
       [];
     set_ "ret" (aio_suspend "plist" 2 []);
     If (negb_ "received_selected")
       ["i" ::= 0; While ("i" < 10)%pt ["i" ::= "i" + 1]; ignore (free "bufs"); ignore (close "fd");
        Exit PTS_FAIL]
       [];
     If "ret"
       ["i" ::= 0; While ("i" < 10)%pt ["i" ::= "i" + 1]; ignore (free "bufs"); ignore (close "fd");
        Exit PTS_FAIL]
       [];
     While (negb_ "received_all") [ignore (sleep 1)]; "i" ::= 0;
     While ("i" < 10)%pt
       [set_ "err" (aio_error (Elem "aiocbs" "i")); set_ "ret" (aio_return (Elem "aiocbs" "i"));
        If (("err" != 0) && ("ret" != 1048576))%pt ["errors" ::= "errors" + 1] []; "i" ::= "i" + 1];
     ignore (free "bufs"); ignore (close "fd"); exit_if ("errors" != 0)%pt PTS_FAIL; Return PTS_PASS]);
   ("sigrt1_handler", [If (Loc "si_value" == 6)%pt ["received_selected" ::= 1] []]);
   ("sigrt2_handler", ["received_all" ::= 1])].

Definition aio_suspend_2_1 : sprog := SProg
  [("main",
    [Return PTS_UNTESTED])].

Definition aio_suspend_3_1 : sprog := SProg
  [("main",
    [set_ "buf" (array 1024); set_ (LLoc "rc") getpid;
     "tmpfname" ::= with_num "/tmp/pts_aio_suspend_2_1_" (Loc "rc"); ignore (unlink "tmpfname");
     set_ "fd" (open "tmpfname" (eor (eor O_CREAT O_RDWR) O_EXCL) (eor S_IRUSR S_IWUSR));
     exit_if ("fd" == -1)%pt PTS_UNRESOLVED; ignore (unlink "tmpfname"); "i" ::= 0;
     While ("i" < 3)%pt
       [ignore (clear_aiocb ("i" + 1)%pt); LElem "aio_fildes" ("i" + 1)%pt ::= "fd";
        LElem "aio_buf" ("i" + 1)%pt ::= "buf"; LElem "aio_offset" ("i" + 1)%pt ::= "i" * 1024;
        LElem "aio_nbytes" ("i" + 1)%pt ::= 1024; reject (aio_write ("i" + 1)%pt) (-1) (Exits PTS_FAIL);
        "i" ::= "i" + 1];
     LElem "list" 0 ::= 0; LElem "list" 2 ::= 1; LElem "list" 3 ::= 0; LElem "list" 4 ::= 0;
     LElem "list" 5 ::= 2; LElem "list" 6 ::= 3; LElem "list" 7 ::= 0; XF (aio_suspend "list" 8 []);
     ignore (close "fd"); Return PTS_PASS])].

Definition aio_suspend_4_1 : sprog := SProg
  [("main",
    ["received_selected" ::= 0; "received_all" ::= 0; "ts.tv_sec" ::= 0; "ts.tv_nsec" ::= 10000000;
     "errors" ::= 0; set_ (LLoc "rc") getpid; "tmpfname" ::= with_num "/tmp/pts_aio_suspend_4_1_" (Loc "rc");
     ignore (unlink "tmpfname");
     set_ "fd" (open "tmpfname" (eor (eor O_CREAT O_RDWR) O_EXCL) (eor S_IRUSR S_IWUSR));
     exit_if ("fd" == -1)%pt PTS_UNRESOLVED; ignore (unlink "tmpfname"); set_ "bufs" (malloc 10485760);
     If ("bufs" == 0)%pt [ignore (close "fd"); Exit PTS_UNRESOLVED] [];
     set_ (LLoc "rc") (write "fd" "bufs" 10485760);
     If (Loc "rc" != 10485760)%pt [ignore (free "bufs"); ignore (close "fd"); Exit PTS_UNRESOLVED] [];
     "i" ::= 0;
     While ("i" < 10)%pt
       ["blocks" ::= "blocks" + 1; LElem "aiocbs" "i" ::= "blocks"; ignore (clear_aiocb (Elem "aiocbs" "i"));
        LElem "aio_fildes" (Elem "aiocbs" "i") ::= "fd";
        LElem "aio_offset" (Elem "aiocbs" "i") ::= "i" * 1048576;
        LElem "aio_buf" (Elem "aiocbs" "i") ::= "bufs" + "i" * 1048576;
        LElem "aio_nbytes" (Elem "aiocbs" "i") ::= 1048576;
        LElem "aio_lio_opcode" (Elem "aiocbs" "i") ::= LIO_READ;
        LElem "sigev_notify" (Elem "aiocbs" "i") ::= SIGEV_SIGNAL;
        LElem "sigev_signo" (Elem "aiocbs" "i") ::= SIGRTMIN + 1;
        LElem "sigev_value" (Elem "aiocbs" "i") ::= "i"; "i" ::= "i" + 1];
     ignore (sigaction (SIGRTMIN + 1)%pt "sigrt1_handler" (eor SA_SIGINFO SA_RESTART) 0);
     ignore (sigaction (SIGRTMIN + 2)%pt "sigrt2_handler" (eor SA_SIGINFO SA_RESTART) 0);
     LElem "plist" 0 ::= 0; LElem "plist" 1 ::= Elem "aiocbs" 6;
     set_ "ret" (lio_listio LIO_NOWAIT "aiocbs" 10 (event SIGEV_SIGNAL (SIGRTMIN + 2)%pt 0));
     If "ret"
       ["i" ::= 0; While ("i" < 10)%pt ["i" ::= "i" + 1]; ignore (free "bufs"); ignore (close "fd");
        Exit PTS_UNRESOLVED]
       [];
     If "received_selected"
       ["i" ::= 0; While ("i" < 10)%pt ["i" ::= "i" + 1]; ignore (free "bufs"); ignore (close "fd");
        Exit PTS_FAIL]
       [];
     set_ "ret" (aio_suspend "plist" 2 (timeout "ts.tv_sec" "ts.tv_nsec"));
     If "received_selected"
       ["i" ::= 0; While ("i" < 10)%pt ["i" ::= "i" + 1]; ignore (free "bufs"); ignore (close "fd");
        Exit PTS_FAIL]
       [];
     If ("ret" != -1)%pt
       ["i" ::= 0; While ("i" < 10)%pt ["i" ::= "i" + 1]; ignore (free "bufs"); ignore (close "fd");
        Exit PTS_FAIL]
       [];
     If (errno_ != (err_num EAGAIN))%pt
       ["i" ::= 0; While ("i" < 10)%pt ["i" ::= "i" + 1]; ignore (free "bufs"); ignore (close "fd");
        Exit PTS_FAIL]
       [];
     While (negb_ "received_all") [ignore (sleep 1)]; "i" ::= 0;
     While ("i" < 10)%pt
       [set_ "err" (aio_error (Elem "aiocbs" "i")); set_ "ret" (aio_return (Elem "aiocbs" "i"));
        If (("err" != 0) && ("ret" != 1048576))%pt ["errors" ::= "errors" + 1] []; "i" ::= "i" + 1];
     ignore (free "bufs"); ignore (close "fd"); exit_if ("errors" != 0)%pt PTS_FAIL; Return PTS_PASS]);
   ("sigrt1_handler", [If (Loc "si_value" == 6)%pt ["received_selected" ::= 1] []]);
   ("sigrt2_handler", ["received_all" ::= 1])].

Definition aio_suspend_6_1 : sprog := SProg
  [("main",
    ["received_selected" ::= 0; "received_all" ::= 0; "errors" ::= 0; set_ (LLoc "rc") getpid;
     "tmpfname" ::= with_num "/tmp/pts_aio_suspend_6_1_" (Loc "rc"); ignore (unlink "tmpfname");
     set_ "fd" (open "tmpfname" (eor (eor O_CREAT O_RDWR) O_EXCL) (eor S_IRUSR S_IWUSR));
     exit_if ("fd" == -1)%pt PTS_UNRESOLVED; ignore (unlink "tmpfname"); set_ "bufs" (malloc 10485760);
     If ("bufs" == 0)%pt [ignore (close "fd"); Exit PTS_UNRESOLVED] [];
     set_ (LLoc "rc") (write "fd" "bufs" 10485760);
     If (Loc "rc" != 10485760)%pt [ignore (free "bufs"); ignore (close "fd"); Exit PTS_UNRESOLVED] [];
     "i" ::= 0;
     While ("i" < 10)%pt
       ["blocks" ::= "blocks" + 1; LElem "aiocbs" "i" ::= "blocks"; ignore (clear_aiocb (Elem "aiocbs" "i"));
        LElem "aio_fildes" (Elem "aiocbs" "i") ::= "fd";
        LElem "aio_offset" (Elem "aiocbs" "i") ::= "i" * 1048576;
        LElem "aio_buf" (Elem "aiocbs" "i") ::= "bufs" + "i" * 1048576;
        LElem "aio_nbytes" (Elem "aiocbs" "i") ::= 1048576;
        LElem "aio_lio_opcode" (Elem "aiocbs" "i") ::= LIO_READ;
        LElem "sigev_notify" (Elem "aiocbs" "i") ::= SIGEV_SIGNAL;
        LElem "sigev_signo" (Elem "aiocbs" "i") ::= SIGRTMIN + 1;
        LElem "sigev_value" (Elem "aiocbs" "i") ::= "i"; "i" ::= "i" + 1];
     ignore (sigaction (SIGRTMIN + 1)%pt "sigrt1_handler" (eor SA_SIGINFO SA_RESTART) 0);
     ignore (sigaction (SIGRTMIN + 2)%pt "sigrt2_handler" (eor SA_SIGINFO SA_RESTART) 0);
     LElem "plist" 0 ::= 0; LElem "plist" 1 ::= Elem "aiocbs" 6;
     set_ "ret" (lio_listio LIO_NOWAIT "aiocbs" 10 (event SIGEV_SIGNAL (SIGRTMIN + 2)%pt 0));
     If "ret"
       ["i" ::= 0; While ("i" < 10)%pt ["i" ::= "i" + 1]; ignore (free "bufs"); ignore (close "fd");
        Exit PTS_UNRESOLVED]
       [];
     set_ "ret" (aio_suspend "plist" 2 []);
     If (negb_ "received_selected")
       ["i" ::= 0; While ("i" < 10)%pt ["i" ::= "i" + 1]; ignore (free "bufs"); ignore (close "fd");
        Exit PTS_FAIL]
       [];
     If "ret"
       ["i" ::= 0; While ("i" < 10)%pt ["i" ::= "i" + 1]; ignore (free "bufs"); ignore (close "fd");
        Exit PTS_FAIL]
       [];
     While (negb_ "received_all") [ignore (sleep 1)]; "i" ::= 0;
     While ("i" < 10)%pt
       [set_ "err" (aio_error (Elem "aiocbs" "i")); set_ "ret" (aio_return (Elem "aiocbs" "i"));
        If (("err" != 0) && ("ret" != 1048576))%pt ["errors" ::= "errors" + 1] []; "i" ::= "i" + 1];
     ignore (free "bufs"); ignore (close "fd"); exit_if ("errors" != 0)%pt PTS_FAIL; Return PTS_PASS]);
   ("sigrt1_handler", [If (Loc "si_value" == 6)%pt ["received_selected" ::= 1] []]);
   ("sigrt2_handler", ["received_all" ::= 1])].

Definition aio_suspend_7_1 : sprog := SProg
  [("main",
    ["received_selected" ::= 0; "received_all" ::= 0; "ts.tv_sec" ::= 0; "ts.tv_nsec" ::= 10000000;
     "errors" ::= 0; set_ (LLoc "rc") getpid; "tmpfname" ::= with_num "/tmp/pts_aio_suspend_7_1_" (Loc "rc");
     ignore (unlink "tmpfname");
     set_ "fd" (open "tmpfname" (eor (eor O_CREAT O_RDWR) O_EXCL) (eor S_IRUSR S_IWUSR));
     exit_if ("fd" == -1)%pt PTS_UNRESOLVED; ignore (unlink "tmpfname"); set_ "bufs" (malloc 10485760);
     If ("bufs" == 0)%pt [ignore (close "fd"); Exit PTS_UNRESOLVED] [];
     set_ (LLoc "rc") (write "fd" "bufs" 10485760);
     If (Loc "rc" != 10485760)%pt [ignore (free "bufs"); ignore (close "fd"); Exit PTS_UNRESOLVED] [];
     "i" ::= 0;
     While ("i" < 10)%pt
       ["blocks" ::= "blocks" + 1; LElem "aiocbs" "i" ::= "blocks"; ignore (clear_aiocb (Elem "aiocbs" "i"));
        LElem "aio_fildes" (Elem "aiocbs" "i") ::= "fd";
        LElem "aio_offset" (Elem "aiocbs" "i") ::= "i" * 1048576;
        LElem "aio_buf" (Elem "aiocbs" "i") ::= "bufs" + "i" * 1048576;
        LElem "aio_nbytes" (Elem "aiocbs" "i") ::= 1048576;
        LElem "aio_lio_opcode" (Elem "aiocbs" "i") ::= LIO_READ;
        LElem "sigev_notify" (Elem "aiocbs" "i") ::= SIGEV_SIGNAL;
        LElem "sigev_signo" (Elem "aiocbs" "i") ::= SIGRTMIN + 1;
        LElem "sigev_value" (Elem "aiocbs" "i") ::= "i"; "i" ::= "i" + 1];
     ignore (sigaction (SIGRTMIN + 1)%pt "sigrt1_handler" (eor SA_SIGINFO SA_RESTART) 0);
     ignore (sigaction (SIGRTMIN + 2)%pt "sigrt2_handler" (eor SA_SIGINFO SA_RESTART) 0);
     LElem "plist" 0 ::= 0; LElem "plist" 1 ::= Elem "aiocbs" 6;
     set_ "ret" (lio_listio LIO_NOWAIT "aiocbs" 10 (event SIGEV_SIGNAL (SIGRTMIN + 2)%pt 0));
     If "ret"
       ["i" ::= 0; While ("i" < 10)%pt ["i" ::= "i" + 1]; ignore (free "bufs"); ignore (close "fd");
        Exit PTS_UNRESOLVED]
       [];
     If "received_selected"
       ["i" ::= 0; While ("i" < 10)%pt ["i" ::= "i" + 1]; ignore (free "bufs"); ignore (close "fd");
        Exit PTS_FAIL]
       [];
     set_ "ret" (aio_suspend "plist" 2 (timeout "ts.tv_sec" "ts.tv_nsec"));
     If "received_selected"
       ["i" ::= 0; While ("i" < 10)%pt ["i" ::= "i" + 1]; ignore (free "bufs"); ignore (close "fd");
        Exit PTS_FAIL]
       [];
     If ("ret" != -1)%pt
       ["i" ::= 0; While ("i" < 10)%pt ["i" ::= "i" + 1]; ignore (free "bufs"); ignore (close "fd");
        Exit PTS_FAIL]
       [];
     If (errno_ != (err_num EAGAIN))%pt
       ["i" ::= 0; While ("i" < 10)%pt ["i" ::= "i" + 1]; ignore (free "bufs"); ignore (close "fd");
        Exit PTS_FAIL]
       [];
     While (negb_ "received_all") [ignore (sleep 1)]; "i" ::= 0;
     While ("i" < 10)%pt
       [set_ "err" (aio_error (Elem "aiocbs" "i")); set_ "ret" (aio_return (Elem "aiocbs" "i"));
        If (("err" != 0) && ("ret" != 1048576))%pt ["errors" ::= "errors" + 1] []; "i" ::= "i" + 1];
     ignore (free "bufs"); ignore (close "fd"); exit_if ("errors" != 0)%pt PTS_FAIL; Return PTS_PASS]);
   ("sigrt1_handler", [If (Loc "si_value" == 6)%pt ["received_selected" ::= 1] []]);
   ("sigrt2_handler", ["received_all" ::= 1])].

Definition aio_suspend_8_1 : sprog := SProg
  [("main",
    ["received_selected" ::= 0; "received_all" ::= 0; "errors" ::= 0; set_ (LLoc "rc") getpid;
     "tmpfname" ::= with_num "/tmp/pts_aio_suspend_8_1_" (Loc "rc"); ignore (unlink "tmpfname");
     set_ "fd" (open "tmpfname" (eor (eor O_CREAT O_RDWR) O_EXCL) (eor S_IRUSR S_IWUSR));
     exit_if ("fd" == -1)%pt PTS_UNRESOLVED; ignore (unlink "tmpfname"); set_ "bufs" (malloc 10485760);
     If ("bufs" == 0)%pt [ignore (close "fd"); Exit PTS_UNRESOLVED] [];
     set_ (LLoc "rc") (write "fd" "bufs" 10485760);
     If (Loc "rc" != 10485760)%pt [ignore (free "bufs"); ignore (close "fd"); Exit PTS_UNRESOLVED] [];
     "i" ::= 0;
     While ("i" < 10)%pt
       ["blocks" ::= "blocks" + 1; LElem "aiocbs" "i" ::= "blocks"; ignore (clear_aiocb (Elem "aiocbs" "i"));
        LElem "aio_fildes" (Elem "aiocbs" "i") ::= "fd";
        LElem "aio_offset" (Elem "aiocbs" "i") ::= "i" * 1048576;
        LElem "aio_buf" (Elem "aiocbs" "i") ::= "bufs" + "i" * 1048576;
        LElem "aio_nbytes" (Elem "aiocbs" "i") ::= 1048576;
        LElem "aio_lio_opcode" (Elem "aiocbs" "i") ::= LIO_READ;
        LElem "sigev_notify" (Elem "aiocbs" "i") ::= SIGEV_SIGNAL;
        LElem "sigev_signo" (Elem "aiocbs" "i") ::= SIGRTMIN + 1;
        LElem "sigev_value" (Elem "aiocbs" "i") ::= "i"; "i" ::= "i" + 1];
     ignore (sigaction (SIGRTMIN + 1)%pt "sigrt1_handler" (eor SA_SIGINFO SA_RESTART) 0);
     ignore (sigaction (SIGRTMIN + 2)%pt "sigrt2_handler" (eor SA_SIGINFO SA_RESTART) 0);
     LElem "plist" 0 ::= 0; LElem "plist" 1 ::= Elem "aiocbs" 6;
     set_ "ret" (lio_listio LIO_NOWAIT "aiocbs" 10 (event SIGEV_SIGNAL (SIGRTMIN + 2)%pt 0));
     If "ret"
       ["i" ::= 0; While ("i" < 10)%pt ["i" ::= "i" + 1]; ignore (free "bufs"); ignore (close "fd");
        Exit PTS_UNRESOLVED]
       [];
     If "received_selected"
       ["i" ::= 0; While ("i" < 10)%pt ["i" ::= "i" + 1]; ignore (free "bufs"); ignore (close "fd");
        Exit PTS_FAIL]
       [];
     set_ "ret" (aio_suspend "plist" 2 []);
     If "ret"
       ["i" ::= 0; While ("i" < 10)%pt ["i" ::= "i" + 1]; ignore (free "bufs"); ignore (close "fd");
        Exit PTS_FAIL]
       [];
     set_ "err" (aio_error (Elem "aiocbs" 6)); set_ "ret" (aio_return (Elem "aiocbs" 6));
     If (("err" != 0) && ("ret" != 1048576))%pt
       ["i" ::= 0; While ("i" < 10)%pt ["i" ::= "i" + 1]; ignore (free "bufs"); ignore (close "fd");
        Exit PTS_FAIL]
       [];
     While (negb_ "received_all") [ignore (sleep 1)]; "i" ::= 0;
     While ("i" < 10)%pt
       [If ("i" == 6)%pt
          []
          [set_ "err" (aio_error (Elem "aiocbs" "i")); set_ "ret" (aio_return (Elem "aiocbs" "i"));
           If (("err" != 0) && ("ret" != 1048576))%pt ["errors" ::= "errors" + 1] []];
        "i" ::= "i" + 1];
     ignore (free "bufs"); ignore (close "fd"); exit_if ("errors" != 0)%pt PTS_FAIL; Return PTS_PASS]);
   ("sigrt1_handler", [If (Loc "si_value" == 6)%pt ["received_selected" ::= 1] []]);
   ("sigrt2_handler", ["received_all" ::= 1])].

Definition aio_suspend_9_1 : sprog := SProg
  [("main",
    ["received_selected" ::= 0; "received_all" ::= 0; "ts.tv_sec" ::= 0; "ts.tv_nsec" ::= 10000000;
     "errors" ::= 0; set_ (LLoc "rc") getpid; "tmpfname" ::= with_num "/tmp/pts_aio_suspend_9_1_" (Loc "rc");
     ignore (unlink "tmpfname");
     set_ "fd" (open "tmpfname" (eor (eor O_CREAT O_RDWR) O_EXCL) (eor S_IRUSR S_IWUSR));
     exit_if ("fd" == -1)%pt PTS_UNRESOLVED; ignore (unlink "tmpfname"); set_ "bufs" (malloc 10485760);
     If ("bufs" == 0)%pt [ignore (close "fd"); Exit PTS_UNRESOLVED] [];
     set_ (LLoc "rc") (write "fd" "bufs" 10485760);
     If (Loc "rc" != 10485760)%pt [ignore (free "bufs"); ignore (close "fd"); Exit PTS_UNRESOLVED] [];
     "i" ::= 0;
     While ("i" < 10)%pt
       ["blocks" ::= "blocks" + 1; LElem "aiocbs" "i" ::= "blocks"; ignore (clear_aiocb (Elem "aiocbs" "i"));
        LElem "aio_fildes" (Elem "aiocbs" "i") ::= "fd";
        LElem "aio_offset" (Elem "aiocbs" "i") ::= "i" * 1048576;
        LElem "aio_buf" (Elem "aiocbs" "i") ::= "bufs" + "i" * 1048576;
        LElem "aio_nbytes" (Elem "aiocbs" "i") ::= 1048576;
        LElem "aio_lio_opcode" (Elem "aiocbs" "i") ::= LIO_READ;
        LElem "sigev_notify" (Elem "aiocbs" "i") ::= SIGEV_SIGNAL;
        LElem "sigev_signo" (Elem "aiocbs" "i") ::= SIGRTMIN + 1;
        LElem "sigev_value" (Elem "aiocbs" "i") ::= "i"; "i" ::= "i" + 1];
     ignore (sigaction (SIGRTMIN + 1)%pt "sigrt1_handler" (eor SA_SIGINFO SA_RESTART) 0);
     ignore (sigaction (SIGRTMIN + 2)%pt "sigrt2_handler" (eor SA_SIGINFO SA_RESTART) 0);
     LElem "plist" 0 ::= 0; LElem "plist" 1 ::= Elem "aiocbs" 6;
     set_ "ret" (lio_listio LIO_NOWAIT "aiocbs" 10 (event SIGEV_SIGNAL (SIGRTMIN + 2)%pt 0));
     If "ret"
       ["i" ::= 0; While ("i" < 10)%pt ["i" ::= "i" + 1]; ignore (free "bufs"); ignore (close "fd");
        Exit PTS_UNRESOLVED]
       [];
     If "received_selected"
       ["i" ::= 0; While ("i" < 10)%pt ["i" ::= "i" + 1]; ignore (free "bufs"); ignore (close "fd");
        Exit PTS_FAIL]
       [];
     set_ "ret" (aio_suspend "plist" 2 (timeout "ts.tv_sec" "ts.tv_nsec"));
     If "received_selected"
       ["i" ::= 0; While ("i" < 10)%pt ["i" ::= "i" + 1]; ignore (free "bufs"); ignore (close "fd");
        Exit PTS_FAIL]
       [];
     If ("ret" != -1)%pt
       ["i" ::= 0; While ("i" < 10)%pt ["i" ::= "i" + 1]; ignore (free "bufs"); ignore (close "fd");
        Exit PTS_FAIL]
       [];
     If (errno_ != (err_num EAGAIN))%pt
       ["i" ::= 0; While ("i" < 10)%pt ["i" ::= "i" + 1]; ignore (free "bufs"); ignore (close "fd");
        Exit PTS_FAIL]
       [];
     While (negb_ "received_all") [ignore (sleep 1)]; "i" ::= 0;
     While ("i" < 10)%pt
       [set_ "err" (aio_error (Elem "aiocbs" "i")); set_ "ret" (aio_return (Elem "aiocbs" "i"));
        If (("err" != 0) && ("ret" != 1048576))%pt ["errors" ::= "errors" + 1] []; "i" ::= "i" + 1];
     ignore (free "bufs"); ignore (close "fd"); exit_if ("errors" != 0)%pt PTS_FAIL; Return PTS_PASS]);
   ("sigrt1_handler", [If (Loc "si_value" == 6)%pt ["received_selected" ::= 1] []]);
   ("sigrt2_handler", ["received_all" ::= 1])].

(** ** lio_listio *)

Definition lio_listio_1_1 : sprog := SProg
  [("main",
    ["received_selected" ::= 0; "received_all" ::= 0; "errors" ::= 0; set_ (LLoc "rc") getpid;
     "tmpfname" ::= with_num "/tmp/pts_lio_listio_1_1_" (Loc "rc"); ignore (unlink "tmpfname");
     set_ "fd" (open "tmpfname" (eor (eor O_CREAT O_RDWR) O_EXCL) (eor S_IRUSR S_IWUSR));
     exit_if ("fd" == -1)%pt PTS_UNRESOLVED; ignore (unlink "tmpfname"); set_ "bufs" (malloc 10485760);
     If ("bufs" == 0)%pt [ignore (close "fd"); Exit PTS_UNRESOLVED] []; "i" ::= 0;
     While ("i" < 10)%pt
       ["blocks" ::= "blocks" + 1; LElem "aiocbs" "i" ::= "blocks"; ignore (clear_aiocb (Elem "aiocbs" "i"));
        LElem "aio_fildes" (Elem "aiocbs" "i") ::= "fd"; LElem "aio_offset" (Elem "aiocbs" "i") ::= 0;
        LElem "aio_buf" (Elem "aiocbs" "i") ::= "bufs" + "i" * 1048576;
        LElem "aio_nbytes" (Elem "aiocbs" "i") ::= 1048576;
        LElem "aio_lio_opcode" (Elem "aiocbs" "i") ::= LIO_WRITE;
        LElem "sigev_notify" (Elem "aiocbs" "i") ::= SIGEV_SIGNAL;
        LElem "sigev_signo" (Elem "aiocbs" "i") ::= SIGRTMIN + 1;
        LElem "sigev_value" (Elem "aiocbs" "i") ::= "i"; "i" ::= "i" + 1];
     ignore (sigaction (SIGRTMIN + 1)%pt "sigrt1_handler" (eor SA_SIGINFO SA_RESTART) 0);
     ignore (sigaction (SIGRTMIN + 2)%pt "sigrt2_handler" (eor SA_SIGINFO SA_RESTART) 0);
     set_ "ret" (lio_listio LIO_WAIT "aiocbs" 10 (event SIGEV_SIGNAL (SIGRTMIN + 2)%pt 0));
     If "ret"
       ["i" ::= 0; While ("i" < 10)%pt ["i" ::= "i" + 1]; ignore (free "bufs"); ignore (close "fd");
        Exit PTS_FAIL]
       [];
     If ("received_selected" != 9)%pt
       ["i" ::= 0; While ("i" < 10)%pt ["i" ::= "i" + 1]; ignore (free "bufs"); ignore (close "fd");
        Exit PTS_FAIL]
       [];
     If ("received_all" != 0)%pt
       ["i" ::= 0; While ("i" < 10)%pt ["i" ::= "i" + 1]; ignore (free "bufs"); ignore (close "fd");
        Exit PTS_FAIL]
       [];
     "i" ::= 0;
     While ("i" < 10)%pt
       [set_ "err" (aio_error (Elem "aiocbs" "i")); set_ "ret" (aio_return (Elem "aiocbs" "i"));
        If (("err" != 0) && ("ret" != 1048576))%pt ["errors" ::= "errors" + 1] []; "i" ::= "i" + 1];
     ignore (free "bufs"); ignore (close "fd"); exit_if ("errors" != 0)%pt PTS_FAIL; Return PTS_PASS]);
   ("sigrt1_handler", ["received_selected" ::= Loc "si_value"]);
   ("sigrt2_handler", ["received_all" ::= 1])].

Definition lio_listio_2_1 : sprog := SProg
  [("main",
    ["received_selected" ::= 0; "received_all" ::= 0; "errors" ::= 0; set_ (LLoc "rc") getpid;
     "tmpfname" ::= with_num "/tmp/pts_lio_listio_2_1_" (Loc "rc"); ignore (unlink "tmpfname");
     set_ "fd" (open "tmpfname" (eor (eor O_CREAT O_RDWR) O_EXCL) (eor S_IRUSR S_IWUSR));
     exit_if ("fd" == -1)%pt PTS_UNRESOLVED; ignore (unlink "tmpfname"); set_ "bufs" (malloc 10240);
     If ("bufs" == 0)%pt [ignore (close "fd"); Exit PTS_UNRESOLVED] []; "i" ::= 0;
     While ("i" < 10)%pt
       ["blocks" ::= "blocks" + 1; LElem "aiocbs" "i" ::= "blocks"; ignore (clear_aiocb (Elem "aiocbs" "i"));
        LElem "aio_fildes" (Elem "aiocbs" "i") ::= "fd"; LElem "aio_offset" (Elem "aiocbs" "i") ::= 0;
        LElem "aio_buf" (Elem "aiocbs" "i") ::= "bufs" + "i" * 1024;
        LElem "aio_nbytes" (Elem "aiocbs" "i") ::= 1024;
        LElem "aio_lio_opcode" (Elem "aiocbs" "i") ::= LIO_WRITE;
        LElem "sigev_notify" (Elem "aiocbs" "i") ::= SIGEV_SIGNAL;
        LElem "sigev_signo" (Elem "aiocbs" "i") ::= SIGRTMIN + 1;
        LElem "sigev_value" (Elem "aiocbs" "i") ::= "i"; "i" ::= "i" + 1];
     ignore (sigaction (SIGRTMIN + 1)%pt "sigrt1_handler" (eor SA_SIGINFO SA_RESTART) 0);
     ignore (sigaction (SIGRTMIN + 2)%pt "sigrt2_handler" (eor SA_SIGINFO SA_RESTART) 0);
     set_ "ret" (lio_listio LIO_NOWAIT "aiocbs" 10 (event SIGEV_SIGNAL (SIGRTMIN + 2)%pt 0));
     If "ret"
       ["i" ::= 0; While ("i" < 10)%pt ["i" ::= "i" + 1]; ignore (free "bufs"); ignore (close "fd");
        Exit PTS_FAIL]
       [];
     If ("received_selected" == 9)%pt
       ["i" ::= 0; While ("i" < 10)%pt ["i" ::= "i" + 1]; ignore (free "bufs"); ignore (close "fd");
        Exit PTS_FAIL]
       [];
     If ("received_all" != 0)%pt
       ["i" ::= 0; While ("i" < 10)%pt ["i" ::= "i" + 1]; ignore (free "bufs"); ignore (close "fd");
        Exit PTS_FAIL]
       [];
     While ("received_all" == 0)%pt [ignore (sleep 1)]; "i" ::= 0;
     While ("i" < 10)%pt
       [set_ "err" (aio_error (Elem "aiocbs" "i")); set_ "ret" (aio_return (Elem "aiocbs" "i"));
        If (("err" != 0) && ("ret" != 1024))%pt ["errors" ::= "errors" + 1] []; "i" ::= "i" + 1];
     ignore (free "bufs"); ignore (close "fd"); exit_if ("errors" != 0)%pt PTS_FAIL; Return PTS_PASS]);
   ("sigrt1_handler", ["received_selected" ::= Loc "si_value"]);
   ("sigrt2_handler", ["received_all" ::= 1])].

Definition lio_listio_3_1 : sprog := SProg
  [("main",
    ["received_selected" ::= 0; "received_all" ::= 0; "errors" ::= 0; set_ (LLoc "rc") getpid;
     "tmpfname" ::= with_num "/tmp/pts_lio_listio_3_1_" (Loc "rc"); ignore (unlink "tmpfname");
     set_ "fd" (open "tmpfname" (eor (eor O_CREAT O_RDWR) O_EXCL) (eor S_IRUSR S_IWUSR));
     exit_if ("fd" == -1)%pt PTS_UNRESOLVED; ignore (unlink "tmpfname"); set_ "bufs" (malloc 10240);
     If ("bufs" == 0)%pt [ignore (close "fd"); Exit PTS_UNRESOLVED] []; "i" ::= 0;
     While ("i" < 10)%pt
       ["blocks" ::= "blocks" + 1; LElem "aiocbs" "i" ::= "blocks"; ignore (clear_aiocb (Elem "aiocbs" "i"));
        LElem "aio_fildes" (Elem "aiocbs" "i") ::= "fd"; LElem "aio_offset" (Elem "aiocbs" "i") ::= 0;
        LElem "aio_buf" (Elem "aiocbs" "i") ::= "bufs" + "i" * 1024;
        LElem "aio_nbytes" (Elem "aiocbs" "i") ::= 1024;
        LElem "aio_lio_opcode" (Elem "aiocbs" "i") ::= LIO_WRITE;
        LElem "sigev_notify" (Elem "aiocbs" "i") ::= SIGEV_SIGNAL;
        LElem "sigev_signo" (Elem "aiocbs" "i") ::= SIGRTMIN + 1;
        LElem "sigev_value" (Elem "aiocbs" "i") ::= "i"; "i" ::= "i" + 1];
     ignore (sigaction (SIGRTMIN + 1)%pt "sigrt1_handler" (eor SA_SIGINFO SA_RESTART) 0);
     ignore (sigaction (SIGRTMIN + 2)%pt "sigrt2_handler" (eor SA_SIGINFO SA_RESTART) 0);
     set_ "ret" (lio_listio LIO_NOWAIT "aiocbs" 10 (event SIGEV_SIGNAL (SIGRTMIN + 2)%pt 0));
     If "ret"
       ["i" ::= 0; While ("i" < 10)%pt ["i" ::= "i" + 1]; ignore (free "bufs"); ignore (close "fd");
        Exit PTS_FAIL]
       [];
     While ("received_all" == 0)%pt [ignore (sleep 1)]; "i" ::= 0;
     While ("i" < 10)%pt
       [set_ "err" (aio_error (Elem "aiocbs" "i")); set_ "ret" (aio_return (Elem "aiocbs" "i"));
        If (("err" != 0) && ("ret" != 1024))%pt ["errors" ::= "errors" + 1] []; "i" ::= "i" + 1];
     ignore (free "bufs"); ignore (close "fd"); exit_if ("errors" != 0)%pt PTS_FAIL; Return PTS_PASS]);
   ("sigrt1_handler", ["received_selected" ::= Loc "si_value"]);
   ("sigrt2_handler", ["received_all" ::= 1])].

Definition lio_listio_4_1 : sprog := SProg
  [("main",
    ["num_received" ::= 0; "received_all" ::= 0; "errors" ::= 0; set_ (LLoc "rc") getpid;
     "tmpfname" ::= with_num "/tmp/pts_lio_listio_4_1_" (Loc "rc"); ignore (unlink "tmpfname");
     set_ "fd" (open "tmpfname" (eor (eor O_CREAT O_RDWR) O_EXCL) (eor S_IRUSR S_IWUSR));
     exit_if ("fd" == -1)%pt PTS_UNRESOLVED; ignore (unlink "tmpfname"); set_ "bufs" (malloc 10240);
     If ("bufs" == 0)%pt [ignore (close "fd"); Exit PTS_UNRESOLVED] []; "i" ::= 0;
     While ("i" < 10)%pt [LElem "aiocbs" "i" ::= 0; "i" ::= "i" + 1]; "i" ::= 1;
     While ("i" < 9)%pt
       [If ("i" == 3)%pt
          []
          ["blocks" ::= "blocks" + 1; LElem "aiocbs" "i" ::= "blocks";
           ignore (clear_aiocb (Elem "aiocbs" "i")); LElem "aio_fildes" (Elem "aiocbs" "i") ::= "fd";
           LElem "aio_offset" (Elem "aiocbs" "i") ::= 0;
           LElem "aio_buf" (Elem "aiocbs" "i") ::= "bufs" + "i" * 1024;
           LElem "aio_nbytes" (Elem "aiocbs" "i") ::= 1024;
           LElem "aio_lio_opcode" (Elem "aiocbs" "i") ::= LIO_WRITE;
           LElem "sigev_notify" (Elem "aiocbs" "i") ::= SIGEV_SIGNAL;
           LElem "sigev_signo" (Elem "aiocbs" "i") ::= SIGRTMIN + 1;
           LElem "sigev_value" (Elem "aiocbs" "i") ::= "i"];
        "i" ::= "i" + 1];
     ignore (sigaction (SIGRTMIN + 1)%pt "sigrt1_handler" (eor SA_SIGINFO SA_RESTART) 0);
     ignore (sigaction (SIGRTMIN + 2)%pt "sigrt2_handler" (eor SA_SIGINFO SA_RESTART) 0);
     set_ "ret" (lio_listio LIO_NOWAIT "aiocbs" 10 (event SIGEV_SIGNAL (SIGRTMIN + 2)%pt 0));
     If "ret"
       ["i" ::= 1; While ("i" < 9)%pt [If ("i" == 3)%pt [] []; "i" ::= "i" + 1]; ignore (free "bufs");
        ignore (close "fd"); Exit PTS_FAIL]
       [];
     While ("received_all" == 0)%pt [ignore (sleep 1)];
     If ("num_received" != 7)%pt
       ["i" ::= 1; While ("i" < 9)%pt [If ("i" == 3)%pt [] []; "i" ::= "i" + 1]; ignore (free "bufs");
        ignore (close "fd"); Exit PTS_FAIL]
       [];
     "i" ::= 1;
     While ("i" < 9)%pt
       [If ("i" == 3)%pt
          []
          [set_ "err" (aio_error (Elem "aiocbs" "i")); set_ "ret" (aio_return (Elem "aiocbs" "i"));
           If (("err" != 0) && ("ret" != 1024))%pt ["errors" ::= "errors" + 1] []];
        "i" ::= "i" + 1];
     ignore (free "bufs"); ignore (close "fd"); exit_if ("errors" != 0)%pt PTS_FAIL; Return PTS_PASS]);
   ("sigrt1_handler", ["num_received" ::= "num_received" + 1]);
   ("sigrt2_handler", ["received_all" ::= 1])].

Definition lio_listio_5_1 : sprog := SProg
  [("main",
    [set_ "buf" (array 1024); "errors" ::= 0; set_ (LLoc "rc") getpid;
     "tmpfname" ::= with_num "/tmp/pts_lio_listio_4_1_" (Loc "rc"); ignore (unlink "tmpfname");
     set_ "fd" (open "tmpfname" (eor (eor O_CREAT O_RDWR) O_EXCL) (eor S_IRUSR S_IWUSR));
     exit_if ("fd" == -1)%pt PTS_UNRESOLVED; ignore (unlink "tmpfname"); "i" ::= 0;
     While ("i" < 3)%pt
       ["blocks" ::= "blocks" + 1; LElem "aiocbs" "i" ::= "blocks"; ignore (clear_aiocb (Elem "aiocbs" "i"));
        LElem "aio_fildes" (Elem "aiocbs" "i") ::= "fd"; LElem "aio_offset" (Elem "aiocbs" "i") ::= 0;
        LElem "aio_buf" (Elem "aiocbs" "i") ::= "buf"; LElem "aio_nbytes" (Elem "aiocbs" "i") ::= 1024;
        If ("i" == 0)%pt
          [LElem "aio_lio_opcode" (Elem "aiocbs" "i") ::= LIO_WRITE]
          [If ("i" == 1)%pt
             [LElem "aio_lio_opcode" (Elem "aiocbs" "i") ::= LIO_READ]
             [LElem "aio_lio_opcode" (Elem "aiocbs" "i") ::= LIO_NOP]];
        "i" ::= "i" + 1];
     set_ "ret" (lio_listio LIO_WAIT "aiocbs" 3 []);
     If "ret" ["i" ::= 0; While ("i" < 3)%pt ["i" ::= "i" + 1]; ignore (close "fd"); Exit PTS_FAIL] [];
     "i" ::= 0;
     While ("i" < 2)%pt
       [set_ "err" (aio_error (Elem "aiocbs" "i")); set_ "ret" (aio_return (Elem "aiocbs" "i"));
        If (("err" != 0) && ("ret" != 1024))%pt ["errors" ::= "errors" + 1] []; "i" ::= "i" + 1];
     If "errors" ["i" ::= 0; While ("i" < 3)%pt ["i" ::= "i" + 1]; ignore (close "fd"); Exit PTS_FAIL] [];
     LElem "aio_lio_opcode" (Elem "aiocbs" 0) ::= -1; set_ (LLoc "rc") (lio_listio LIO_WAIT "aiocbs" 1 []);
     If (Loc "rc" != -1)%pt
       ["i" ::= 0; While ("i" < 3)%pt ["i" ::= "i" + 1]; ignore (close "fd"); Exit PTS_FAIL]
       [];
     If (errno_ != (err_num EIO))%pt
       ["i" ::= 0; While ("i" < 3)%pt ["i" ::= "i" + 1]; ignore (close "fd"); Exit PTS_FAIL]
       [];
     "i" ::= 0; While ("i" < 3)%pt ["i" ::= "i" + 1]; ignore (close "fd"); Return PTS_PASS])].

Definition lio_listio_6_1 : sprog := SProg
  [("main",
    [Return PTS_PASS])].

Definition lio_listio_7_1 : sprog := SProg
  [("main",
    ["num_received" ::= 0; "received_all" ::= 0; "errors" ::= 0; set_ (LLoc "rc") getpid;
     "tmpfname" ::= with_num "/tmp/pts_lio_listio_4_1_" (Loc "rc"); ignore (unlink "tmpfname");
     set_ "fd" (open "tmpfname" (eor (eor O_CREAT O_RDWR) O_EXCL) (eor S_IRUSR S_IWUSR));
     exit_if ("fd" == -1)%pt PTS_UNRESOLVED; ignore (unlink "tmpfname"); set_ "bufs" (malloc 10240);
     If ("bufs" == 0)%pt [ignore (close "fd"); Exit PTS_UNRESOLVED] []; "i" ::= 0;
     While ("i" < 10)%pt
       ["blocks" ::= "blocks" + 1; LElem "aiocbs" "i" ::= "blocks"; ignore (clear_aiocb (Elem "aiocbs" "i"));
        LElem "aio_fildes" (Elem "aiocbs" "i") ::= "fd"; LElem "aio_offset" (Elem "aiocbs" "i") ::= 0;
        LElem "aio_buf" (Elem "aiocbs" "i") ::= "bufs" + "i" * 1024;
        LElem "aio_nbytes" (Elem "aiocbs" "i") ::= 1024;
        If (("i" == 1) || ("i" == 7))%pt
          [LElem "aio_lio_opcode" (Elem "aiocbs" "i") ::= LIO_NOP]
          [LElem "aio_lio_opcode" (Elem "aiocbs" "i") ::= LIO_WRITE];
        LElem "sigev_notify" (Elem "aiocbs" "i") ::= SIGEV_SIGNAL;
        LElem "sigev_signo" (Elem "aiocbs" "i") ::= SIGRTMIN + 1;
        LElem "sigev_value" (Elem "aiocbs" "i") ::= "i"; "i" ::= "i" + 1];
     ignore (sigaction (SIGRTMIN + 1)%pt "sigrt1_handler" (eor SA_SIGINFO SA_RESTART) 0);
     ignore (sigaction (SIGRTMIN + 2)%pt "sigrt2_handler" (eor SA_SIGINFO SA_RESTART) 0);
     set_ "ret" (lio_listio LIO_NOWAIT "aiocbs" 10 (event SIGEV_SIGNAL (SIGRTMIN + 2)%pt 0));
     If "ret"
       ["i" ::= 1; While ("i" < 9)%pt ["i" ::= "i" + 1]; ignore (free "bufs"); ignore (close "fd");
        Exit PTS_FAIL]
       [];
     While ("received_all" == 0)%pt [ignore (sleep 1)];
     If ("num_received" != 8)%pt
       ["i" ::= 1; While ("i" < 9)%pt ["i" ::= "i" + 1]; ignore (free "bufs"); ignore (close "fd");
        Exit PTS_FAIL]
       [];
     "i" ::= 0;
     While ("i" < 10)%pt
       [If (("i" == 1) || ("i" == 7))%pt
          []
          [set_ "err" (aio_error (Elem "aiocbs" "i")); set_ "ret" (aio_return (Elem "aiocbs" "i"));
           If (("err" != 0) && ("ret" != 1024))%pt ["errors" ::= "errors" + 1] []];
        "i" ::= "i" + 1];
     ignore (free "bufs"); ignore (close "fd"); exit_if ("errors" != 0)%pt PTS_FAIL; Return PTS_PASS]);
   ("sigrt1_handler", ["num_received" ::= "num_received" + 1]);
   ("sigrt2_handler", ["received_all" ::= 1])].

Definition lio_listio_8_1 : sprog := SProg
  [("main",
    [set_ "buf" (array 512); set_ "check" (array 512); set_ (LLoc "rc") getpid;
     "tmpfname" ::= with_num "/tmp/pts_lio_listio_8_1_" (Loc "rc"); ignore (unlink "tmpfname");
     set_ "fd" (open "tmpfname" (eor (eor O_CREAT O_RDWR) O_EXCL) (eor S_IRUSR S_IWUSR));
     exit_if ("fd" == -1)%pt PTS_UNRESOLVED; ignore (unlink "tmpfname"); "i" ::= 0;
     While ("i" < 512)%pt [ignore (store 1 ("buf" + "i")%pt "i"); "i" ::= "i" + 1];
     expect (write "fd" "buf" 512) 512 (Exits PTS_UNRESOLVED); ignore (memset "check" 170 512);
     ignore (clear_aiocb 1); LElem "aio_fildes" 1 ::= "fd"; LElem "aio_buf" 1 ::= "check";
     LElem "aio_nbytes" 1 ::= 512; LElem "aio_lio_opcode" 1 ::= LIO_READ; LElem "list" 0 ::= 1;
     set_ (LLoc "rc") (lio_listio LIO_WAIT "list" 1 []);
     If (Loc "rc" == -1)%pt [ignore (close "fd"); Exit PTS_FAIL] []; set_ "err" (aio_error 1);
     set_ "ret" (aio_return 1); If ("err" != 0)%pt [ignore (close "fd"); Exit PTS_FAIL] [];
     If ("ret" != 512)%pt [ignore (close "fd"); Exit PTS_FAIL] []; "i" ::= 0;
     While ("i" < 512)%pt
       [set_ (LLoc "rc") (load 1 ("buf" + "i")%pt); set_ (LLoc "rc2") (load 1 ("check" + "i")%pt);
        exit_if (Loc "rc" != Loc "rc2")%pt PTS_FAIL; "i" ::= "i" + 1];
     ignore (close "fd"); Return PTS_PASS])].

Definition lio_listio_9_1 : sprog := SProg
  [("main",
    [set_ "buf" (array 512); set_ "check" (array 512); set_ (LLoc "rc") getpid;
     "tmpfname" ::= with_num "/tmp/pts_lio_listio_9_1_" (Loc "rc"); ignore (unlink "tmpfname");
     set_ "fd" (open "tmpfname" (eor (eor O_CREAT O_RDWR) O_EXCL) (eor S_IRUSR S_IWUSR));
     exit_if ("fd" == -1)%pt PTS_UNRESOLVED; ignore (unlink "tmpfname"); "i" ::= 0;
     While ("i" < 512)%pt [ignore (store 1 ("buf" + "i")%pt "i"); "i" ::= "i" + 1]; ignore (clear_aiocb 1);
     LElem "aio_fildes" 1 ::= "fd"; LElem "aio_buf" 1 ::= "buf"; LElem "aio_nbytes" 1 ::= 512;
     LElem "aio_lio_opcode" 1 ::= LIO_WRITE; LElem "list" 0 ::= 1;
     reject (lio_listio LIO_WAIT "list" 1 []) (-1) (Exits PTS_FAIL); set_ "err" (aio_error 1);
     set_ "ret" (aio_return 1); If ("err" != 0)%pt [ignore (close "fd"); Exit PTS_FAIL] [];
     If ("ret" != 512)%pt [ignore (close "fd"); Exit PTS_FAIL] []; ignore (memset "check" 170 512);
     set_ (LLoc "rc") (read "fd" "check" 512);
     If (Loc "rc" != 512)%pt [ignore (close "fd"); Exit PTS_UNRESOLVED] []; "i" ::= 0;
     While ("i" < 512)%pt
       [set_ (LLoc "rc") (load 1 ("buf" + "i")%pt); set_ (LLoc "rc2") (load 1 ("check" + "i")%pt);
        exit_if (Loc "rc" != Loc "rc2")%pt PTS_FAIL; "i" ::= "i" + 1];
     ignore (close "fd"); Return PTS_PASS])].

Definition lio_listio_10_1 : sprog := SProg
  [("main",
    ["received_selected" ::= 0; "received_all" ::= 0; "errors" ::= 0; set_ (LLoc "rc") getpid;
     "tmpfname" ::= with_num "/tmp/pts_lio_listio_10_1_" (Loc "rc"); ignore (unlink "tmpfname");
     set_ "fd" (open "tmpfname" (eor (eor O_CREAT O_RDWR) O_EXCL) (eor S_IRUSR S_IWUSR));
     exit_if ("fd" == -1)%pt PTS_UNRESOLVED; ignore (unlink "tmpfname"); set_ "bufs" (malloc 10240);
     If ("bufs" == 0)%pt [ignore (close "fd"); Exit PTS_UNRESOLVED] []; "i" ::= 0;
     While ("i" < 10)%pt
       ["blocks" ::= "blocks" + 1; LElem "aiocbs" "i" ::= "blocks"; ignore (clear_aiocb (Elem "aiocbs" "i"));
        LElem "aio_fildes" (Elem "aiocbs" "i") ::= "fd"; LElem "aio_offset" (Elem "aiocbs" "i") ::= 0;
        LElem "aio_buf" (Elem "aiocbs" "i") ::= "bufs" + "i" * 1024;
        LElem "aio_nbytes" (Elem "aiocbs" "i") ::= 1024;
        LElem "aio_lio_opcode" (Elem "aiocbs" "i") ::= LIO_WRITE;
        LElem "sigev_notify" (Elem "aiocbs" "i") ::= SIGEV_SIGNAL;
        LElem "sigev_signo" (Elem "aiocbs" "i") ::= SIGRTMIN + 1;
        LElem "sigev_value" (Elem "aiocbs" "i") ::= "i"; "i" ::= "i" + 1];
     ignore (sigaction (SIGRTMIN + 1)%pt "sigrt1_handler" (eor SA_SIGINFO SA_RESTART) 0);
     ignore (sigaction (SIGRTMIN + 2)%pt "sigrt2_handler" (eor SA_SIGINFO SA_RESTART) 0);
     set_ "ret" (lio_listio LIO_NOWAIT "aiocbs" 10 (event SIGEV_SIGNAL (SIGRTMIN + 2)%pt 0));
     If "ret"
       ["i" ::= 0; While ("i" < 10)%pt ["i" ::= "i" + 1]; ignore (free "bufs"); ignore (close "fd");
        Exit PTS_FAIL]
       [];
     While ("received_all" == 0)%pt [ignore (sleep 1)]; "i" ::= 0;
     While ("i" < 10)%pt
       [set_ "err" (aio_error (Elem "aiocbs" "i")); set_ "ret" (aio_return (Elem "aiocbs" "i"));
        If (("err" != 0) && ("ret" != 1024))%pt ["errors" ::= "errors" + 1] []; "i" ::= "i" + 1];
     ignore (free "bufs"); ignore (close "fd"); exit_if ("errors" != 0)%pt PTS_FAIL; Return PTS_PASS]);
   ("sigrt1_handler", ["received_selected" ::= Loc "si_value"]);
   ("sigrt2_handler", ["received_all" ::= 1])].

Definition lio_listio_11_1 : sprog := SProg
  [("main",
    ["received_selected" ::= 0; "received_all" ::= 0; "errors" ::= 0; set_ (LLoc "rc") getpid;
     "tmpfname" ::= with_num "/tmp/pts_lio_listio_11_1_" (Loc "rc"); ignore (unlink "tmpfname");
     set_ "fd" (open "tmpfname" (eor (eor O_CREAT O_RDWR) O_EXCL) (eor S_IRUSR S_IWUSR));
     exit_if ("fd" == -1)%pt PTS_UNRESOLVED; ignore (unlink "tmpfname"); set_ "bufs" (malloc 10240);
     If ("bufs" == 0)%pt [ignore (close "fd"); Exit PTS_UNRESOLVED] []; "i" ::= 0;
     While ("i" < 10)%pt
       ["blocks" ::= "blocks" + 1; LElem "aiocbs" "i" ::= "blocks"; ignore (clear_aiocb (Elem "aiocbs" "i"));
        LElem "aio_fildes" (Elem "aiocbs" "i") ::= "fd"; LElem "aio_offset" (Elem "aiocbs" "i") ::= 0;
        LElem "aio_buf" (Elem "aiocbs" "i") ::= "bufs" + "i" * 1024;
        LElem "aio_nbytes" (Elem "aiocbs" "i") ::= 1024;
        If ("i" == 2)%pt
          [LElem "aio_lio_opcode" (Elem "aiocbs" "i") ::= -1]
          [LElem "aio_lio_opcode" (Elem "aiocbs" "i") ::= LIO_WRITE];
        LElem "sigev_notify" (Elem "aiocbs" "i") ::= SIGEV_SIGNAL;
        LElem "sigev_signo" (Elem "aiocbs" "i") ::= SIGRTMIN + 1;
        LElem "sigev_value" (Elem "aiocbs" "i") ::= "i"; "i" ::= "i" + 1];
     ignore (sigaction (SIGRTMIN + 1)%pt "sigrt1_handler" (eor SA_SIGINFO SA_RESTART) 0);
     ignore (sigaction (SIGRTMIN + 2)%pt "sigrt2_handler" (eor SA_SIGINFO SA_RESTART) 0);
     set_ "ret" (lio_listio LIO_NOWAIT "aiocbs" 10 (event SIGEV_SIGNAL (SIGRTMIN + 2)%pt 0));
     If ("ret" == 0)%pt
       ["i" ::= 0; While ("i" < 10)%pt ["i" ::= "i" + 1]; ignore (free "bufs"); ignore (close "fd");
        Exit PTS_FAIL]
       [];
     If (errno_ != (err_num EIO))%pt
       ["i" ::= 0; While ("i" < 10)%pt ["i" ::= "i" + 1]; ignore (close "fd"); Exit PTS_FAIL]
       [];
     While ("received_all" == 0)%pt [ignore (sleep 1)]; "i" ::= 0;
     While ("i" < 10)%pt
       [If ("i" == 2)%pt
          []
          [set_ "err" (aio_error (Elem "aiocbs" "i")); set_ "ret" (aio_return (Elem "aiocbs" "i"));
           If (("err" != 0) && ("ret" != 1024))%pt ["errors" ::= "errors" + 1] []];
        "i" ::= "i" + 1];
     ignore (free "bufs"); ignore (close "fd"); exit_if ("errors" != 0)%pt PTS_FAIL; Return PTS_PASS]);
   ("sigrt1_handler", ["received_selected" ::= Loc "si_value"]);
   ("sigrt2_handler", ["received_all" ::= 1])].

Definition lio_listio_12_1 : sprog := SProg
  [("main",
    ["errors" ::= 0; set_ (LLoc "rc") getpid; "tmpfname" ::= with_num "/tmp/pts_lio_listio_12_1_" (Loc "rc");
     ignore (unlink "tmpfname");
     set_ "fd" (open "tmpfname" (eor (eor O_CREAT O_RDWR) O_EXCL) (eor S_IRUSR S_IWUSR));
     exit_if ("fd" == -1)%pt PTS_UNRESOLVED; ignore (unlink "tmpfname"); set_ "bufs" (malloc 10240);
     If ("bufs" == 0)%pt [ignore (close "fd"); Exit PTS_UNRESOLVED] []; "i" ::= 0;
     While ("i" < 10)%pt
       ["blocks" ::= "blocks" + 1; LElem "aiocbs" "i" ::= "blocks"; ignore (clear_aiocb (Elem "aiocbs" "i"));
        LElem "aio_fildes" (Elem "aiocbs" "i") ::= "fd"; LElem "aio_offset" (Elem "aiocbs" "i") ::= 0;
        LElem "aio_buf" (Elem "aiocbs" "i") ::= "bufs" + "i" * 1024;
        LElem "aio_nbytes" (Elem "aiocbs" "i") ::= 1024;
        LElem "aio_lio_opcode" (Elem "aiocbs" "i") ::= LIO_WRITE; "i" ::= "i" + 1];
     set_ "ret" (lio_listio LIO_WAIT "aiocbs" 10 []);
     If "ret"
       ["i" ::= 0; While ("i" < 10)%pt ["i" ::= "i" + 1]; ignore (free "bufs"); ignore (close "fd");
        Exit PTS_FAIL]
       [];
     "i" ::= 0;
     While ("i" < 10)%pt
       [set_ "err" (aio_error (Elem "aiocbs" "i")); set_ "ret" (aio_return (Elem "aiocbs" "i"));
        If (("err" != 0) && ("ret" != 1024))%pt ["errors" ::= "errors" + 1] []; "i" ::= "i" + 1];
     ignore (free "bufs"); ignore (close "fd"); exit_if ("errors" != 0)%pt PTS_FAIL; Return PTS_PASS])].

Definition lio_listio_13_1 : sprog := SProg
  [("main",
    ["errors" ::= 0; set_ (LLoc "rc") getpid; "tmpfname" ::= with_num "/tmp/pts_lio_listio_13_1_" (Loc "rc");
     ignore (unlink "tmpfname");
     set_ "fd" (open "tmpfname" (eor (eor O_CREAT O_RDWR) O_EXCL) (eor S_IRUSR S_IWUSR));
     exit_if ("fd" == -1)%pt PTS_UNRESOLVED; ignore (unlink "tmpfname"); set_ "bufs" (malloc 10240);
     If ("bufs" == 0)%pt [ignore (close "fd"); Exit PTS_UNRESOLVED] []; "i" ::= 0;
     While ("i" < 10)%pt
       ["blocks" ::= "blocks" + 1; LElem "aiocbs" "i" ::= "blocks"; ignore (clear_aiocb (Elem "aiocbs" "i"));
        LElem "aio_fildes" (Elem "aiocbs" "i") ::= "fd"; LElem "aio_offset" (Elem "aiocbs" "i") ::= 0;
        LElem "aio_buf" (Elem "aiocbs" "i") ::= "bufs" + "i" * 1024;
        LElem "aio_nbytes" (Elem "aiocbs" "i") ::= 1024;
        If ("i" == 2)%pt
          [LElem "aio_lio_opcode" (Elem "aiocbs" "i") ::= -1]
          [LElem "aio_lio_opcode" (Elem "aiocbs" "i") ::= LIO_WRITE];
        "i" ::= "i" + 1];
     set_ "ret" (lio_listio LIO_WAIT "aiocbs" 10 []);
     If ("ret" == 0)%pt
       ["i" ::= 0; While ("i" < 10)%pt ["i" ::= "i" + 1]; ignore (free "bufs"); ignore (close "fd");
        Exit PTS_FAIL]
       [];
     If (errno_ != (err_num EIO))%pt
       ["i" ::= 0; While ("i" < 10)%pt ["i" ::= "i" + 1]; ignore (close "fd"); Exit PTS_FAIL]
       [];
     "i" ::= 0;
     While ("i" < 10)%pt
       [If ("i" == 2)%pt
          []
          [set_ "err" (aio_error (Elem "aiocbs" "i")); set_ "ret" (aio_return (Elem "aiocbs" "i"));
           If (("err" != 0) && ("ret" != 1024))%pt ["errors" ::= "errors" + 1] []];
        "i" ::= "i" + 1];
     ignore (free "bufs"); ignore (close "fd"); exit_if ("errors" != 0)%pt PTS_FAIL; Return PTS_PASS])].

Definition lio_listio_14_1 : sprog := SProg
  [("main",
    ["num_received" ::= 0; "received_all" ::= 0; "errors" ::= 0; set_ (LLoc "rc") getpid;
     "tmpfname" ::= with_num "/tmp/pts_lio_listio_14_1_" (Loc "rc"); ignore (unlink "tmpfname");
     set_ "fd" (open "tmpfname" (eor (eor O_CREAT O_RDWR) O_EXCL) (eor S_IRUSR S_IWUSR));
     exit_if ("fd" == -1)%pt PTS_UNRESOLVED; ignore (unlink "tmpfname"); set_ "bufs" (malloc 10240);
     If ("bufs" == 0)%pt [ignore (close "fd"); Exit PTS_UNRESOLVED] []; "i" ::= 0;
     While ("i" < 10)%pt
       ["blocks" ::= "blocks" + 1; LElem "aiocbs" "i" ::= "blocks"; ignore (clear_aiocb (Elem "aiocbs" "i"));
        If ("i" == 2)%pt
          [LElem "aio_fildes" (Elem "aiocbs" "i") ::= -1]
          [LElem "aio_fildes" (Elem "aiocbs" "i") ::= "fd"];
        LElem "aio_offset" (Elem "aiocbs" "i") ::= 0;
        LElem "aio_buf" (Elem "aiocbs" "i") ::= "bufs" + "i" * 1024;
        LElem "aio_nbytes" (Elem "aiocbs" "i") ::= 1024;
        LElem "aio_lio_opcode" (Elem "aiocbs" "i") ::= LIO_WRITE;
        LElem "sigev_notify" (Elem "aiocbs" "i") ::= SIGEV_SIGNAL;
        LElem "sigev_signo" (Elem "aiocbs" "i") ::= SIGRTMIN + 1;
        LElem "sigev_value" (Elem "aiocbs" "i") ::= "i"; "i" ::= "i" + 1];
     ignore (sigaction (SIGRTMIN + 1)%pt "sigrt1_handler" (eor SA_SIGINFO SA_RESTART) 0);
     ignore (sigaction (SIGRTMIN + 2)%pt "sigrt2_handler" (eor SA_SIGINFO SA_RESTART) 0);
     set_ "ret" (lio_listio LIO_NOWAIT "aiocbs" 10 (event SIGEV_SIGNAL (SIGRTMIN + 2)%pt 0));
     If ("ret" != 0)%pt
       ["i" ::= 0; While ("i" < 10)%pt ["i" ::= "i" + 1]; ignore (free "bufs"); ignore (close "fd");
        Exit PTS_FAIL]
       [];
     While ("received_all" == 0)%pt [ignore (sleep 1)];
     If ("num_received" != 9)%pt
       ["i" ::= 0; While ("i" < 10)%pt ["i" ::= "i" + 1]; ignore (free "bufs"); ignore (close "fd");
        Exit PTS_FAIL]
       [];
     "i" ::= 0;
     While ("i" < 10)%pt
       [If ("i" == 2)%pt
          []
          [set_ "err" (aio_error (Elem "aiocbs" "i")); set_ "ret" (aio_return (Elem "aiocbs" "i"));
           If (("err" != 0) && ("ret" != 1024))%pt ["errors" ::= "errors" + 1] []];
        "i" ::= "i" + 1];
     ignore (free "bufs"); ignore (close "fd"); exit_if ("errors" != 0)%pt PTS_FAIL; Return PTS_PASS]);
   ("sigrt1_handler", ["num_received" ::= "num_received" + 1]);
   ("sigrt2_handler", ["received_all" ::= 1])].

Definition lio_listio_15_1 : sprog := SProg
  [("main",
    ["num_received" ::= 0; "received_all" ::= 0; "errors" ::= 0; set_ (LLoc "rc") getpid;
     "tmpfname" ::= with_num "/tmp/pts_lio_listio_15_1_" (Loc "rc"); ignore (unlink "tmpfname");
     set_ "fd" (open "tmpfname" (eor (eor O_CREAT O_RDWR) O_EXCL) (eor S_IRUSR S_IWUSR));
     exit_if ("fd" == -1)%pt PTS_UNRESOLVED; ignore (unlink "tmpfname"); set_ "bufs" (malloc 10240);
     If ("bufs" == 0)%pt [ignore (close "fd"); Exit PTS_UNRESOLVED] []; "i" ::= 0;
     While ("i" < 10)%pt
       ["blocks" ::= "blocks" + 1; LElem "aiocbs" "i" ::= "blocks"; ignore (clear_aiocb (Elem "aiocbs" "i"));
        LElem "aio_fildes" (Elem "aiocbs" "i") ::= "fd"; LElem "aio_offset" (Elem "aiocbs" "i") ::= 0;
        LElem "aio_buf" (Elem "aiocbs" "i") ::= "bufs" + "i" * 1024;
        LElem "aio_nbytes" (Elem "aiocbs" "i") ::= 1024;
        If (3 < "i")%pt
          [LElem "aio_lio_opcode" (Elem "aiocbs" "i") ::= LIO_READ]
          [LElem "aio_lio_opcode" (Elem "aiocbs" "i") ::= LIO_WRITE];
        LElem "sigev_notify" (Elem "aiocbs" "i") ::= SIGEV_SIGNAL;
        LElem "sigev_signo" (Elem "aiocbs" "i") ::= SIGRTMIN + 1;
        LElem "sigev_value" (Elem "aiocbs" "i") ::= "i"; "i" ::= "i" + 1];
     ignore (sigaction (SIGRTMIN + 1)%pt "sigrt1_handler" (eor SA_SIGINFO SA_RESTART) 0);
     ignore (sigaction (SIGRTMIN + 2)%pt "sigrt2_handler" (eor SA_SIGINFO SA_RESTART) 0);
     set_ "ret" (lio_listio LIO_NOWAIT "aiocbs" 10 (event SIGEV_SIGNAL (SIGRTMIN + 2)%pt 0));
     If ("ret" != 0)%pt
       ["i" ::= 0; While ("i" < 10)%pt ["i" ::= "i" + 1]; ignore (free "bufs"); ignore (close "fd");
        Exit PTS_FAIL]
       [];
     While ("received_all" == 0)%pt [ignore (sleep 1)];
     If ("num_received" != 10)%pt
       ["i" ::= 0; While ("i" < 10)%pt ["i" ::= "i" + 1]; ignore (free "bufs"); ignore (close "fd");
        Exit PTS_FAIL]
       [];
     "i" ::= 0;
     While ("i" < 10)%pt
       [set_ "err" (aio_error (Elem "aiocbs" "i")); set_ "ret" (aio_return (Elem "aiocbs" "i"));
        If (("err" != 0) && ("ret" != 1024))%pt ["errors" ::= "errors" + 1] []; "i" ::= "i" + 1];
     ignore (free "bufs"); ignore (close "fd"); exit_if ("errors" != 0)%pt PTS_FAIL; Return PTS_PASS]);
   ("sigrt1_handler", ["num_received" ::= "num_received" + 1]);
   ("sigrt2_handler", ["received_all" ::= 1])].

Definition lio_listio_16_1 : sprog := SProg
  [("main",
    [Return PTS_UNTESTED])].

Definition lio_listio_17_1 : sprog := SProg
  [("main",
    [Return PTS_UNTESTED])].

Definition lio_listio_18_1 : sprog := SProg
  [("main",
    [set_ (LLoc "rc") getpid; "tmpfname" ::= with_num "/tmp/pts_lio_listio_18_1_" (Loc "rc");
     ignore (unlink "tmpfname");
     set_ "fd" (open "tmpfname" (eor (eor O_CREAT O_RDWR) O_EXCL) (eor S_IRUSR S_IWUSR));
     exit_if ("fd" == -1)%pt PTS_UNRESOLVED; ignore (unlink "tmpfname"); set_ "bufs" (malloc 1024);
     If ("bufs" == 0)%pt [ignore (close "fd"); Exit PTS_UNRESOLVED] []; "blocks" ::= "blocks" + 1;
     LElem "aiocbs" 0 ::= "blocks"; ignore (clear_aiocb (Elem "aiocbs" 0));
     LElem "aio_fildes" (Elem "aiocbs" 0) ::= "fd"; LElem "aio_offset" (Elem "aiocbs" 0) ::= 0;
     LElem "aio_buf" (Elem "aiocbs" 0) ::= "bufs"; LElem "aio_nbytes" (Elem "aiocbs" 0) ::= 1024;
     LElem "aio_lio_opcode" (Elem "aiocbs" 0) ::= LIO_WRITE; set_ "ret" (lio_listio (-1) "aiocbs" 1 []);
     If ("ret" != -1)%pt [ignore (free "bufs"); ignore (close "fd"); Exit PTS_FAIL] [];
     If (errno_ != (err_num EINVAL))%pt [ignore (free "bufs"); ignore (close "fd"); Exit PTS_FAIL] [];
     ignore (free "bufs"); ignore (close "fd"); Return PTS_PASS])].

Definition lio_listio_19_1 : sprog := SProg
  [("main",
    [Return PTS_UNTESTED])].

Definition lio_listio_20_1 : sprog := SProg
  [("main",
    [Return PTS_UNTESTED])].

Definition lio_listio_21_1 : sprog := SProg
  [("main",
    [Return PTS_UNTESTED])].

Definition lio_listio_22_1 : sprog := SProg
  [("main",
    [Return PTS_UNTESTED])].

Definition lio_listio_23_1 : sprog := SProg
  [("main",
    [Return PTS_UNTESTED])].

Definition lio_listio_24_1 : sprog := SProg
  [("main",
    [Return PTS_UNTESTED])].

Definition lio_listio_25_1 : sprog := SProg
  [("main",
    [Return PTS_UNTESTED])].

(** ** All *)

(** The tests that pass on an ideal system. *)
Definition aio_tests : list sprog :=
  [aio_read_1_1; aio_read_3_1; aio_read_3_2; aio_read_4_1; aio_read_5_1; aio_read_7_1; aio_read_8_1;
   aio_read_10_1; aio_read_11_1; aio_read_11_2; aio_write_1_1; aio_write_1_2; aio_write_3_1; aio_write_5_1;
   aio_write_8_1; aio_write_8_2; aio_write_9_1; aio_write_9_2; aio_error_1_1; aio_error_3_1; aio_return_1_1;
   aio_return_2_1; aio_return_3_1; aio_return_3_2; aio_return_4_1; aio_fsync_4_1; aio_fsync_8_1; aio_fsync_8_2;
   aio_fsync_8_3; aio_fsync_8_4; aio_fsync_9_1; aio_fsync_12_1; aio_fsync_14_1; aio_cancel_1_1; aio_cancel_2_1;
   aio_cancel_2_2; aio_cancel_8_1; aio_cancel_9_1; aio_cancel_10_1; aio_suspend_3_1; aio_suspend_6_1;
   lio_listio_1_1; lio_listio_3_1; lio_listio_4_1; lio_listio_5_1; lio_listio_6_1; lio_listio_7_1;
   lio_listio_10_1; lio_listio_11_1; lio_listio_12_1; lio_listio_13_1; lio_listio_15_1; lio_listio_18_1].

(** The tests that end with PTS_UNTESTED or PTS_UNSUPPORTED. *)
Definition aio_untested : list sprog :=
  [aio_read_2_1; aio_read_6_1; aio_read_12_1; aio_read_13_1; aio_read_14_1; aio_write_4_1; aio_write_10_1;
   aio_write_11_1; aio_write_12_1; aio_write_13_1; aio_fsync_1_1; aio_fsync_2_1; aio_fsync_3_1; aio_fsync_6_1;
   aio_fsync_7_1; aio_fsync_10_1; aio_fsync_11_1; aio_fsync_13_1; aio_suspend_2_1; lio_listio_16_1;
   lio_listio_17_1; lio_listio_19_1; lio_listio_20_1; lio_listio_21_1; lio_listio_22_1; lio_listio_23_1;
   lio_listio_24_1; lio_listio_25_1].
