(* ===== verification/OsMemoryTests.v ===== *)
(** * The tests of mapped and shared memory

    conformance/interfaces/{mmap,munmap,mlock,munlock,mlockall,munlockall,shm_open,shm_unlink}. *)

From stdpp Require Import base tactics numbers list gmap strings.
From S2P Require Import Prelude CLang OsLang OsSem.

Open Scope Z_scope.

(** ** mmap *)

Definition mmap_1_1 : sprog := SProg
  [("main",
    ["total_size" ::= 1024; "pa" ::= 0; "addr" ::= 0; "len" ::= "total_size";
     "prot" ::= eor PROT_READ PROT_WRITE; "flag" ::= MAP_SHARED; "off" ::= 0;
     set_ "data" (malloc "total_size"); set_ (LLoc "rc") getpid;
     "tmpfname" ::= with_num "/tmp/pts_mmap_1_1_" (Loc "rc"); ignore (unlink "tmpfname");
     set_ "fd" (open "tmpfname" (eor (eor O_CREAT O_RDWR) O_EXCL) (eor S_IRUSR S_IWUSR));
     exit_if ("fd" == -1)%pt PTS_UNRESOLVED; ignore (unlink "tmpfname");
     ignore (memset "data" 97 "total_size"); set_ (LLoc "rc") (write "fd" "data" "total_size");
     exit_if (Loc "rc" != "total_size")%pt PTS_UNRESOLVED; ignore (free "data");
     set_ "pa" (mmap "addr" "len" "prot" "flag" "fd" "off"); exit_if ("pa" == MAP_FAILED)%pt PTS_FAIL;
     "ch" ::= "pa"; set_ (LLoc "rc") (load 1 "ch"); exit_if (Loc "rc" != 97)%pt PTS_FAIL; ignore (close "fd");
     ignore (munmap "pa" "len"); Return PTS_PASS])].

Definition mmap_1_2 : sprog := SProg
  [("main",
    ["pa" ::= 0; "addr" ::= 0; "size" ::= 4194304; "prot" ::= eor PROT_READ PROT_WRITE; "flag" ::= MAP_SHARED;
     "off" ::= 0; set_ (LLoc "rc") getpid; "tmpfname" ::= with_num "pts_mmap_1_2_" (Loc "rc");
     ignore (shm_unlink "tmpfname");
     set_ "shm_fd" (shm_open "tmpfname" (eor (eor O_RDWR O_CREAT) O_EXCL) (eor S_IRUSR S_IWUSR));
     ret_if ("shm_fd" == -1)%pt PTS_UNRESOLVED; ignore (shm_unlink "tmpfname");
     Um (ftruncate "shm_fd" "size"); "fd" ::= "shm_fd";
     set_ "pa" (mmap "addr" "size" "prot" "flag" "fd" "off"); exit_if ("pa" == MAP_FAILED)%pt PTS_FAIL;
     ignore (close "fd"); ignore (munmap "pa" "size"); Return PTS_PASS])].

Definition mmap_3_1 : sprog := SProg
  [("main",
    ["pa" ::= 0; "addr" ::= 0; "prot" ::= eor PROT_READ PROT_WRITE; "flag" ::= MAP_SHARED; "off" ::= 0;
     "pa2" ::= 0; "addr2" ::= 0; "prot2" ::= eor PROT_READ PROT_WRITE; "off2" ::= 0; "page_size" ::= 4096;
     "size" ::= "page_size" + 2; "size2" ::= "page_size" + 1; "total_size" ::= 2 * "page_size";
     set_ (LLoc "rc") getpid; "tmpfname" ::= with_num "/tmp/pts_mmap_3_1_" (Loc "rc");
     set_ (LLoc "rc") getpid; "tmpfname2" ::= with_num "/tmp/pts_mmap_3_1_2_" (Loc "rc");
     set_ "data" (malloc "total_size"); ignore (unlink "tmpfname"); ignore (unlink "tmpfname2");
     set_ "fd" (open "tmpfname" (eor (eor O_CREAT O_RDWR) O_EXCL) (eor S_IRUSR S_IWUSR));
     set_ "fd2" (open "tmpfname2" (eor (eor O_CREAT O_RDWR) O_EXCL) (eor S_IRUSR S_IWUSR));
     exit_if (("fd" == -1) || ("fd2" == -1))%pt PTS_UNRESOLVED; ignore (unlink "tmpfname");
     ignore (unlink "tmpfname2"); ignore (memset "data" 97 "total_size");
     set_ (LLoc "rc") (write "fd" "data" "total_size"); exit_if (Loc "rc" != "total_size")%pt PTS_UNRESOLVED;
     ignore (memset "data" 98 "total_size"); set_ (LLoc "rc") (write "fd2" "data" "total_size");
     exit_if (Loc "rc" != "total_size")%pt PTS_UNRESOLVED; ignore (free "data");
     set_ "pa" (mmap "addr" "size" "prot" "flag" "fd" "off"); exit_if ("pa" == MAP_FAILED)%pt PTS_FAIL;
     "ch" ::= "pa" + "size"; set_ (LLoc "rc") (load 1 "ch"); exit_if (Loc "rc" != 97)%pt PTS_FAIL;
     "addr2" ::= "pa"; "flag2" ::= eor MAP_SHARED MAP_FIXED;
     set_ "pa2" (mmap "addr2" "size2" "prot2" "flag2" "fd2" "off2");
     exit_if ("pa2" == MAP_FAILED)%pt PTS_FAIL; exit_if ("pa2" != "pa")%pt PTS_FAIL; "ch" ::= "pa2" + "size";
     set_ (LLoc "rc") (load 1 "ch"); exit_if (Loc "rc" != 98)%pt PTS_FAIL; ignore (close "fd");
     ignore (close "fd2"); ignore (munmap "pa" "size"); ignore (munmap "pa2" "size2"); Return PTS_PASS])].

Definition mmap_5_1 : sprog := SProg
  [("main",
    ["total_size" ::= 1024; "pa" ::= 0; "addr" ::= 0; "size" ::= "total_size"; "flag" ::= MAP_SHARED;
     "off" ::= 0; set_ (LLoc "rc") getpid; "tmpfname" ::= with_num "/tmp/pts_mmap_5_1_" (Loc "rc");
     ignore (unlink "tmpfname");
     set_ "fd" (open "tmpfname" (eor (eor O_CREAT O_RDWR) O_EXCL) (eor S_IRUSR S_IWUSR));
     exit_if ("fd" == -1)%pt PTS_UNRESOLVED; ignore (unlink "tmpfname");
     reject (ftruncate "fd" "total_size") (-1) (Exits PTS_UNRESOLVED); "prot" ::= PROT_NONE;
     set_ "pa" (mmap "addr" "size" "prot" "flag" "fd" "off"); exit_if ("pa" == MAP_FAILED)%pt PTS_FAIL;
     ignore (munmap "pa" "size"); "prot" ::= eor (eor PROT_READ PROT_WRITE) PROT_EXEC;
     set_ "pa" (mmap "addr" "size" "prot" "flag" "fd" "off"); exit_if ("pa" == MAP_FAILED)%pt PTS_FAIL;
     ignore (munmap "pa" "size"); ignore (close "fd"); Return PTS_PASS])].

Definition mmap_6_1 : sprog := SProg
  [("main",
    ["total_size" ::= 1024; "pa" ::= 0; "addr" ::= 0; "size" ::= "total_size"; "flag" ::= MAP_SHARED;
     "off" ::= 0; set_ (LLoc "rc") getpid; "tmpfname" ::= with_num "/tmp/pts_mmap_6_1_" (Loc "rc");
     ignore (unlink "tmpfname");
     set_ "fd" (open "tmpfname" (eor (eor O_CREAT O_RDWR) O_EXCL) (eor S_IRUSR S_IWUSR));
     exit_if ("fd" == -1)%pt PTS_UNRESOLVED; ignore (unlink "tmpfname"); set_ "child" fork;
     If ("child" == 0)%pt
       [reject (ftruncate "fd" "total_size") (-1) (Exits PTS_UNRESOLVED); "prot" ::= PROT_READ;
        set_ "pa" (mmap "addr" "size" "prot" "flag" "fd" "off"); exit_if ("pa" == MAP_FAILED)%pt PTS_FAIL;
        "ch" ::= "pa"; ignore (store 1 "ch" 98); Exit 0]
       [If (0 < "child")%pt
          [ignore (waitpid "child" [LVar "status"] WUNTRACED); ignore (close "fd");
           If (WIFSTOPPED "status")
             ["sig_num" ::= WSTOPSIG "status"; ret_if ("sig_num" == SIGSEGV)%pt PTS_PASS]
             [];
           If (WIFSIGNALED "status")
             ["sig_num" ::= WTERMSIG "status"; ret_if ("sig_num" == SIGSEGV)%pt PTS_PASS]
             [];
           If (WIFEXITED "status") [ret_if (WEXITSTATUS "status" == 0)%pt PTS_FAIL] []; Return PTS_UNRESOLVED]
          []]])].

Definition mmap_6_2 : sprog := SProg
  [("main",
    ["total_size" ::= 1024; "pa" ::= 0; "addr" ::= 0; "size" ::= "total_size"; "flag" ::= MAP_SHARED;
     "off" ::= 0; set_ (LLoc "rc") getpid; "tmpfname" ::= with_num "/tmp/pts_mmap_6_2_" (Loc "rc");
     ignore (unlink "tmpfname");
     set_ "fd" (open "tmpfname" (eor (eor O_CREAT O_RDWR) O_EXCL) (eor S_IRUSR S_IWUSR));
     exit_if ("fd" == -1)%pt PTS_UNRESOLVED; ignore (unlink "tmpfname"); set_ "child" fork;
     If ("child" == 0)%pt
       [set_ "data" (malloc "total_size"); ignore (memset "data" 97 "total_size");
        set_ (LLoc "rc") (write "fd" "data" "total_size");
        exit_if (Loc "rc" != "total_size")%pt PTS_UNRESOLVED; ignore (free "data"); "prot" ::= PROT_NONE;
        set_ "pa" (mmap "addr" "size" "prot" "flag" "fd" "off"); exit_if ("pa" == MAP_FAILED)%pt PTS_FAIL;
        "ch" ::= "pa"; set_ (LLoc "rc") (load 1 "ch"); exit_if (Loc "rc" != 97)%pt PTS_FAIL; Exit 0]
       [If (0 < "child")%pt
          [ignore (waitpid "child" [LVar "status"] 0); ignore (close "fd");
           If (WIFSTOPPED "status")
             ["sig_num" ::= WSTOPSIG "status"; ret_if ("sig_num" == SIGSEGV)%pt PTS_PASS]
             [];
           If (WIFSIGNALED "status")
             ["sig_num" ::= WTERMSIG "status"; ret_if ("sig_num" == SIGSEGV)%pt PTS_PASS]
             [];
           If (WIFEXITED "status") [ret_if (WEXITSTATUS "status" == 0)%pt PTS_FAIL] []; Return PTS_UNRESOLVED]
          []]])].

Definition mmap_6_3 : sprog := SProg
  [("main",
    ["total_size" ::= 1024; "pa" ::= 0; "addr" ::= 0; "size" ::= "total_size"; "flag" ::= MAP_SHARED;
     "off" ::= 0; set_ (LLoc "rc") getpid; "tmpfname" ::= with_num "/tmp/pts_mmap_6_3_" (Loc "rc");
     ignore (unlink "tmpfname");
     set_ "fd" (open "tmpfname" (eor (eor O_CREAT O_RDWR) O_EXCL) (eor S_IRUSR S_IWUSR));
     exit_if ("fd" == -1)%pt PTS_UNRESOLVED; ignore (unlink "tmpfname"); set_ "child" fork;
     If ("child" == 0)%pt
       [reject (ftruncate "fd" "total_size") (-1) (Exits PTS_UNRESOLVED); "prot" ::= PROT_NONE;
        set_ "pa" (mmap "addr" "size" "prot" "flag" "fd" "off"); exit_if ("pa" == MAP_FAILED)%pt PTS_FAIL;
        "ch" ::= "pa"; ignore (store 1 "ch" 98); Exit 0]
       [If (0 < "child")%pt
          [ignore (waitpid "child" [LVar "status"] 0); ignore (close "fd");
           If (WIFSTOPPED "status")
             ["sig_num" ::= WSTOPSIG "status"; ret_if ("sig_num" == SIGSEGV)%pt PTS_PASS]
             [];
           If (WIFSIGNALED "status")
             ["sig_num" ::= WTERMSIG "status"; ret_if ("sig_num" == SIGSEGV)%pt PTS_PASS]
             [];
           If (WIFEXITED "status") [ret_if (WEXITSTATUS "status" == 0)%pt PTS_FAIL] []; Return PTS_UNRESOLVED]
          []]])].

Definition mmap_6_4 : sprog := SProg
  [("main",
    ["total_size" ::= 1024; "pa" ::= 0; "addr" ::= 0; "size" ::= "total_size"; "off" ::= 0;
     set_ (LLoc "rc") getpid; "tmpfname" ::= with_num "/tmp/pts_mmap_6_4_" (Loc "rc");
     ignore (unlink "tmpfname");
     set_ "fd" (open "tmpfname" (eor (eor O_CREAT O_RDWR) O_EXCL) (eor S_IRUSR S_IWUSR));
     exit_if ("fd" == -1)%pt PTS_UNRESOLVED; reject (ftruncate "fd" "total_size") (-1) (Exits PTS_UNRESOLVED);
     ignore (close "fd"); set_ "fd" (open "tmpfname" O_RDONLY (eor S_IRUSR S_IWUSR));
     exit_if ("fd" == -1)%pt PTS_UNRESOLVED; ignore (unlink "tmpfname"); "prot" ::= PROT_WRITE;
     "flag" ::= MAP_SHARED; set_ "pa" (mmap "addr" "size" "prot" "flag" "fd" "off");
     exit_if (("pa" == MAP_FAILED) && (errno_ == (err_num EACCES)))%pt PTS_PASS; Return PTS_FAIL])].

Definition mmap_6_5 : sprog := SProg
  [("main",
    ["total_size" ::= 1024; "pa" ::= 0; "addr" ::= 0; "size" ::= "total_size"; "off" ::= 0;
     set_ (LLoc "rc") getpid; "tmpfname" ::= with_num "/tmp/pts_mmap_6_5_" (Loc "rc");
     ignore (unlink "tmpfname");
     set_ "fd" (open "tmpfname" (eor (eor O_CREAT O_RDWR) O_EXCL) (eor S_IRUSR S_IWUSR));
     exit_if ("fd" == -1)%pt PTS_UNRESOLVED; reject (ftruncate "fd" "total_size") (-1) (Exits PTS_UNRESOLVED);
     ignore (close "fd"); set_ "fd" (open "tmpfname" O_RDONLY (eor S_IRUSR S_IWUSR));
     exit_if ("fd" == -1)%pt PTS_UNRESOLVED; ignore (unlink "tmpfname"); "prot" ::= PROT_WRITE;
     "flag" ::= MAP_PRIVATE; set_ "pa" (mmap "addr" "size" "prot" "flag" "fd" "off");
     exit_if ("pa" == MAP_FAILED)%pt PTS_FAIL; Return PTS_PASS])].

Definition mmap_6_6 : sprog := SProg
  [("main",
    ["total_size" ::= 1024; "pa" ::= 0; "addr" ::= 0; "size" ::= "total_size"; "off" ::= 0;
     set_ (LLoc "rc") getpid; "tmpfname" ::= with_num "/tmp/pts_mmap_6_6_" (Loc "rc");
     ignore (unlink "tmpfname");
     set_ "fd" (open "tmpfname" (eor (eor O_CREAT O_RDWR) O_EXCL) (eor S_IRUSR S_IWUSR));
     exit_if ("fd" == -1)%pt PTS_UNRESOLVED; reject (ftruncate "fd" "total_size") (-1) (Exits PTS_UNRESOLVED);
     ignore (close "fd"); set_ "fd" (open "tmpfname" O_WRONLY (eor S_IRUSR S_IWUSR));
     exit_if ("fd" == -1)%pt PTS_UNRESOLVED; ignore (unlink "tmpfname"); "prot" ::= PROT_READ;
     "flag" ::= MAP_PRIVATE; set_ "pa" (mmap "addr" "size" "prot" "flag" "fd" "off");
     exit_if (("pa" == MAP_FAILED) && (errno_ == (err_num EACCES)))%pt PTS_PASS; Return PTS_FAIL])].

Definition mmap_7_1 : sprog := SProg
  [("main",
    ["total_size" ::= 1024; "pa" ::= 0; "addr" ::= 0; "size" ::= "total_size"; "off" ::= 0;
     set_ (LLoc "rc") getpid; "tmpfname" ::= with_num "/tmp/pts_mmap_7_1_" (Loc "rc");
     ignore (unlink "tmpfname");
     set_ "fd" (open "tmpfname" (eor (eor O_CREAT O_RDWR) O_EXCL) (eor S_IRUSR S_IWUSR));
     exit_if ("fd" == -1)%pt PTS_UNRESOLVED; ignore (unlink "tmpfname"); set_ "data" (malloc "total_size");
     ignore (memset "data" 97 "total_size"); set_ (LLoc "rc") (write "fd" "data" "total_size");
     exit_if (Loc "rc" != "total_size")%pt PTS_UNRESOLVED; ignore (free "data");
     "prot" ::= eor PROT_READ PROT_WRITE; "flag" ::= MAP_SHARED;
     set_ "pa" (mmap "addr" "size" "prot" "flag" "fd" "off"); exit_if ("pa" == MAP_FAILED)%pt PTS_FAIL;
     "ch" ::= "pa"; ignore (store 1 "ch" 98); set_ "rc" (msync "pa" "size" MS_SYNC);
     exit_if ("rc" != 0)%pt PTS_UNRESOLVED; ignore (munmap "pa" "size");
     set_ "pa" (mmap "addr" "size" "prot" "flag" "fd" "off"); exit_if ("pa" == MAP_FAILED)%pt PTS_FAIL;
     "ch" ::= "pa"; set_ (LLoc "rc") (load 1 "ch"); exit_if (Loc "rc" == 98)%pt PTS_PASS; ignore (close "fd");
     ignore (munmap "pa" "size"); Return PTS_FAIL])].

Definition mmap_7_2 : sprog := SProg
  [("main",
    ["total_size" ::= 1024; "pa" ::= 0; "addr" ::= 0; "size" ::= "total_size"; "off" ::= 0;
     set_ (LLoc "rc") getpid; "tmpfname" ::= with_num "/tmp/pts_mmap_7_2_" (Loc "rc");
     ignore (unlink "tmpfname");
     set_ "fd" (open "tmpfname" (eor (eor O_CREAT O_RDWR) O_EXCL) (eor S_IRUSR S_IWUSR));
     exit_if ("fd" == -1)%pt PTS_UNRESOLVED; ignore (unlink "tmpfname"); set_ "data" (malloc "total_size");
     ignore (memset "data" 97 "total_size"); set_ (LLoc "rc") (write "fd" "data" "total_size");
     exit_if (Loc "rc" != "total_size")%pt PTS_UNRESOLVED; ignore (free "data");
     "prot" ::= eor PROT_READ PROT_WRITE; "flag" ::= MAP_PRIVATE;
     set_ "pa" (mmap "addr" "size" "prot" "flag" "fd" "off"); exit_if ("pa" == MAP_FAILED)%pt PTS_FAIL;
     "ch" ::= "pa"; ignore (store 1 "ch" 98); set_ "rc" (msync "pa" "size" MS_SYNC);
     exit_if ("rc" != 0)%pt PTS_UNRESOLVED; ignore (munmap "pa" "size");
     set_ "pa" (mmap "addr" "size" "prot" "flag" "fd" "off"); exit_if ("pa" == MAP_FAILED)%pt PTS_FAIL;
     "ch" ::= "pa"; set_ (LLoc "rc") (load 1 "ch"); exit_if (Loc "rc" == 98)%pt PTS_FAIL; ignore (close "fd");
     Return PTS_PASS])].

Definition mmap_7_3 : sprog := SProg
  [("main",
    ["pa" ::= 0; "addr" ::= 0; "size" ::= 1024; "prot" ::= eor PROT_READ PROT_WRITE; "off" ::= 0;
     set_ (LLoc "rc") getpid; "tmpfname" ::= with_num "pts_mmap_7_3_" (Loc "rc");
     ignore (shm_unlink "tmpfname");
     set_ "shm_fd" (shm_open "tmpfname" (eor (eor O_RDWR O_CREAT) O_EXCL) (eor S_IRUSR S_IWUSR));
     exit_if ("shm_fd" == -1)%pt PTS_UNRESOLVED;
     reject (ftruncate "shm_fd" "size") (-1) (Exits PTS_UNRESOLVED); "fd" ::= "shm_fd";
     "flag" ::= MAP_PRIVATE; set_ "pa" (mmap "addr" "size" "prot" "flag" "fd" "off");
     exit_if ("pa" == MAP_FAILED)%pt PTS_FAIL; ignore (shm_unlink "tmpfname"); "ch" ::= "pa";
     ignore (store 1 "ch" 97); set_ "child" fork;
     If ("child" == 0)%pt
       ["flag" ::= MAP_PRIVATE; set_ "pa" (mmap "addr" "size" "prot" "flag" "fd" "off");
        exit_if ("pa" == MAP_FAILED)%pt PTS_FAIL; "ch1" ::= "pa"; set_ (LLoc "rc") (load 1 "ch1");
        exit_if (Loc "rc" == 97)%pt PTS_FAIL; Exit PTS_PASS]
       [If (0 < "child")%pt
          [ignore (waitpid "child" [LVar "exit_stat"] WUNTRACED); ignore (close "fd");
           ignore (munmap "pa" "size");
           If (WIFEXITED "exit_stat") [Exit (WEXITSTATUS "exit_stat")] [Exit PTS_UNRESOLVED]]
          [Exit PTS_UNRESOLVED]]])].

Definition mmap_7_4 : sprog := SProg
  [("main",
    ["pa" ::= 0; "addr" ::= 0; "size" ::= 1024; "prot" ::= eor PROT_READ PROT_WRITE; "off" ::= 0;
     set_ (LLoc "rc") getpid; "tmpfname" ::= with_num "pts_mmap_7_4_" (Loc "rc");
     ignore (shm_unlink "tmpfname");
     set_ "shm_fd" (shm_open "tmpfname" (eor (eor O_RDWR O_CREAT) O_EXCL) (eor S_IRUSR S_IWUSR));
     exit_if ("shm_fd" == -1)%pt PTS_UNRESOLVED;
     reject (ftruncate "shm_fd" "size") (-1) (Exits PTS_UNRESOLVED); "fd" ::= "shm_fd"; "flag" ::= MAP_SHARED;
     set_ "pa" (mmap "addr" "size" "prot" "flag" "fd" "off"); exit_if ("pa" == MAP_FAILED)%pt PTS_FAIL;
     ignore (shm_unlink "tmpfname"); "ch" ::= "pa"; ignore (store 1 "ch" 97); set_ "child" fork;
     If ("child" == 0)%pt
       ["flag" ::= MAP_PRIVATE; set_ "pa" (mmap "addr" "size" "prot" "flag" "fd" "off");
        exit_if ("pa" == MAP_FAILED)%pt PTS_FAIL; "ch1" ::= "pa"; set_ (LLoc "rc") (load 1 "ch1");
        exit_if (Loc "rc" == 97)%pt PTS_PASS; Exit PTS_PASS]
       [If (0 < "child")%pt
          [ignore (waitpid "child" [LVar "exit_stat"] WUNTRACED); ignore (munmap "pa" "size");
           If (WIFEXITED "exit_stat") [Exit (WEXITSTATUS "exit_stat")] [Exit PTS_UNRESOLVED]]
          [Exit PTS_UNRESOLVED]]])].

Definition mmap_9_1 : sprog := SProg
  [("main",
    ["pa" ::= 0; "addr" ::= 0; "off" ::= 0; "page_size" ::= 4096; "total_size" ::= "page_size";
     "size" ::= "total_size"; set_ (LLoc "rc") getpid;
     "tmpfname" ::= with_num "/tmp/pts_mmap_9_1_" (Loc "rc"); ignore (unlink "tmpfname");
     set_ "fd" (open "tmpfname" (eor (eor O_CREAT O_RDWR) O_EXCL) (eor S_IRUSR S_IWUSR));
     exit_if ("fd" == -1)%pt PTS_UNRESOLVED; ignore (unlink "tmpfname");
     reject (ftruncate "fd" "total_size") (-1) (Exits PTS_UNRESOLVED); "flag" ::= MAP_SHARED;
     "prot" ::= eor PROT_READ PROT_WRITE; set_ "pa" (mmap "addr" "size" "prot" "flag" "fd" "off");
     If (Op Z.rem "pa" "page_size") ["illegal_addr" ::= "pa"] ["illegal_addr" ::= "pa" + 1];
     ignore (munmap "pa" "size"); "prot" ::= eor PROT_READ PROT_WRITE; "flag" ::= MAP_FIXED;
     "addr" ::= "illegal_addr"; set_ "pa" (mmap "addr" "size" "prot" "flag" "fd" "off");
     exit_if (("pa" == MAP_FAILED) && (errno_ == (err_num EINVAL)))%pt PTS_PASS; ignore (close "fd");
     ignore (munmap "pa" "size"); Return PTS_FAIL])].

Definition mmap_11_1 : sprog := SProg
  [("main",
    ["pa" ::= 0; "addr" ::= 0; "off" ::= 0; "page_size" ::= 4096; "total_size" ::= 3 * "page_size";
     "size" ::= "page_size"; set_ (LLoc "rc") getpid;
     "tmpfname" ::= with_num "/tmp/pts_mmap_11_1_" (Loc "rc"); ignore (unlink "tmpfname");
     set_ "fd" (open "tmpfname" (eor (eor O_CREAT O_RDWR) O_EXCL) (eor S_IRUSR S_IWUSR));
     exit_if ("fd" == -1)%pt PTS_UNRESOLVED; ignore (unlink "tmpfname");
     reject (ftruncate "fd" "total_size") (-1) (Exits PTS_UNRESOLVED); "prot" ::= eor PROT_READ PROT_WRITE;
     "flag" ::= MAP_SHARED; "off" ::= "page_size" + 1;
     set_ "pa" (mmap "addr" "size" "prot" "flag" "fd" "off");
     exit_if (("pa" == MAP_FAILED) && (errno_ == (err_num EINVAL)))%pt PTS_PASS; ignore (close "fd");
     ignore (munmap "pa" "size"); Return PTS_FAIL])].

Definition mmap_11_2 : sprog := SProg
  [("main",
    ["pa" ::= 0; "addr" ::= 0; "off" ::= 0; "ch" ::= 0; "page_size" ::= 4096;
     "total_size" ::= Op Z.quot "page_size" 2; "len" ::= "page_size" * 2;
     ignore (sigaction SIGBUS "sigbus_handler" 0 full_set); set_ (LLoc "rc") getpid;
     "tmpfname" ::= with_num "/tmp/pts_mmap_11_2_" (Loc "rc"); ignore (unlink "tmpfname");
     set_ "fd" (open "tmpfname" (eor (eor O_CREAT O_RDWR) O_EXCL) (eor S_IRUSR S_IWUSR));
     exit_if ("fd" == -1)%pt PTS_UNRESOLVED; ignore (unlink "tmpfname");
     reject (ftruncate "fd" "total_size") (-1) (Exits PTS_UNRESOLVED); "prot" ::= eor PROT_READ PROT_WRITE;
     "flag" ::= MAP_SHARED; "off" ::= 0; set_ "pa" (mmap "addr" "len" "prot" "flag" "fd" "off");
     exit_if ("pa" == MAP_FAILED)%pt PTS_FAIL; "ch" ::= "pa" + "page_size" + 1; ignore (store 1 "ch" 0);
     ignore (sleep 1); Exit PTS_FAIL]);
   ("sigbus_handler", [Exit PTS_PASS])].

Definition mmap_11_3 : sprog := SProg
  [("main",
    ["pa" ::= 0; "addr" ::= 0; "off" ::= 0; "ch" ::= 0; "page_size" ::= 4096;
     "total_size" ::= Op Z.quot "page_size" 2; "len" ::= "page_size" * 2;
     ignore (sigaction SIGBUS "sigbus_handler" 0 full_set); set_ (LLoc "rc") getpid;
     "tmpfname" ::= with_num "pts_mmap_11_3_" (Loc "rc"); ignore (shm_unlink "tmpfname");
     set_ "fd" (shm_open "tmpfname" (eor (eor O_RDWR O_CREAT) O_EXCL) (eor S_IRUSR S_IWUSR));
     ret_if ("fd" == -1)%pt PTS_UNRESOLVED; ignore (shm_unlink "tmpfname"); Um (ftruncate "fd" "total_size");
     "prot" ::= eor PROT_READ PROT_WRITE; "flag" ::= MAP_SHARED; "off" ::= 0;
     set_ "pa" (mmap "addr" "len" "prot" "flag" "fd" "off"); exit_if ("pa" == MAP_FAILED)%pt PTS_FAIL;
     "ch" ::= "pa" + "page_size" + 1; ignore (store 1 "ch" 0); ignore (sleep 1); Exit PTS_FAIL]);
   ("sigbus_handler", [Exit PTS_PASS])].

Definition mmap_11_4 : sprog := SProg
  [("main",
    ["pa" ::= 0; "pa_2" ::= 0; "addr" ::= 0; "off" ::= 0; "ch" ::= 0; "ch_2" ::= 0; "page_size" ::= 4096;
     "total_size" ::= Op Z.quot "page_size" 2; "len" ::= Op Z.quot "page_size" 2; set_ (LLoc "rc") getpid;
     "tmpfname" ::= with_num "/tmp/pts_mmap_11_5_" (Loc "rc"); set_ "child" fork;
     If ("child" == 0)%pt
       [ignore (unlink "tmpfname");
        set_ "fd" (open "tmpfname" (eor (eor O_CREAT O_RDWR) O_EXCL) (eor S_IRUSR S_IWUSR));
        exit_if ("fd" == -1)%pt PTS_UNRESOLVED; Um (ftruncate "fd" "total_size");
        "prot" ::= eor PROT_READ PROT_WRITE; "flag" ::= MAP_SHARED; "off" ::= 0;
        set_ "pa" (mmap "addr" "len" "prot" "flag" "fd" "off"); ret_if ("pa" == MAP_FAILED)%pt PTS_FAIL;
        "ch" ::= "pa" + "len" + 1; set_ (LLoc "rc") (load 1 "ch"); ret_if (Loc "rc" != 0)%pt PTS_FAIL;
        ignore (store 1 "ch" 98); ignore (munmap "pa" "len"); ignore (close "fd"); Return PTS_PASS]
       [];
     ignore (wait [LVar "exit_val"]);
     If (negb_ (WIFEXITED "exit_val" && (WEXITSTATUS "exit_val" == PTS_PASS))%pt)
       [ignore (unlink "tmpfname"); Return PTS_FAIL]
       [];
     set_ "fd_2" (open "tmpfname" O_RDWR 0); ignore (unlink "tmpfname"); "prot" ::= eor PROT_READ PROT_WRITE;
     "flag" ::= MAP_SHARED; "off" ::= 0; set_ "pa" (mmap "addr" "len" "prot" "flag" "fd_2" "off");
     set_ "pa_2" (mmap "addr" "len" "prot" "flag" "fd_2" "off"); exit_if ("pa_2" == MAP_FAILED)%pt PTS_FAIL;
     "ch_2" ::= "pa_2" + "len" + 1; set_ (LLoc "rc") (load 1 "ch_2"); exit_if (Loc "rc" == 98)%pt PTS_FAIL;
     ignore (close "fd_2"); ignore (munmap "pa_2" "len"); Return PTS_PASS])].

Definition mmap_11_5 : sprog := SProg
  [("main",
    ["pa" ::= 0; "pa_2" ::= 0; "addr" ::= 0; "off" ::= 0; "ch" ::= 0; "ch_2" ::= 0; "page_size" ::= 4096;
     "total_size" ::= Op Z.quot "page_size" 2; "len" ::= Op Z.quot "page_size" 2; set_ (LLoc "rc") getpid;
     "tmpfname" ::= with_num "pts_mmap_11_5_" (Loc "rc"); set_ "child" fork;
     If ("child" == 0)%pt
       [ignore (shm_unlink "tmpfname");
        set_ "fd" (shm_open "tmpfname" (eor (eor O_RDWR O_CREAT) O_EXCL) (eor S_IRUSR S_IWUSR));
        ret_if ("fd" == -1)%pt PTS_UNRESOLVED; Um (ftruncate "fd" "total_size");
        "prot" ::= eor PROT_READ PROT_WRITE; "flag" ::= MAP_SHARED; "off" ::= 0;
        set_ "pa" (mmap "addr" "len" "prot" "flag" "fd" "off"); ret_if ("pa" == MAP_FAILED)%pt PTS_FAIL;
        "ch" ::= "pa" + "len" + 1; set_ (LLoc "rc") (load 1 "ch"); ret_if (Loc "rc" != 0)%pt PTS_FAIL;
        ignore (store 1 "ch" 98); ignore (munmap "pa" "len"); ignore (close "fd"); Return PTS_PASS]
       [];
     ignore (wait [LVar "exit_val"]);
     If (negb_ (WIFEXITED "exit_val" && (WEXITSTATUS "exit_val" == PTS_PASS))%pt)
       [ignore (shm_unlink "tmpfname"); Return PTS_FAIL]
       [];
     set_ "fd_2" (shm_open "tmpfname" O_RDWR 0); ignore (shm_unlink "tmpfname");
     "prot" ::= eor PROT_READ PROT_WRITE; "flag" ::= MAP_SHARED; "off" ::= 0;
     set_ "pa_2" (mmap "addr" "len" "prot" "flag" "fd_2" "off"); exit_if ("pa_2" == MAP_FAILED)%pt PTS_FAIL;
     "ch_2" ::= "pa_2" + "len" + 1; set_ (LLoc "rc") (load 1 "ch_2"); exit_if (Loc "rc" == 98)%pt PTS_FAIL;
     ignore (close "fd_2"); ignore (munmap "pa_2" "len"); Return PTS_PASS])].

Definition mmap_12_1 : sprog := SProg
  [("main",
    ["pa" ::= 0; "addr" ::= 0; "off" ::= 0; "total_size" ::= 1024; "size" ::= "total_size";
     set_ (LLoc "rc") getpid; "tmpfname" ::= with_num "/tmp/pts_mmap_12_1_" (Loc "rc");
     ignore (unlink "tmpfname");
     set_ "fd" (open "tmpfname" (eor (eor O_CREAT O_RDWR) O_EXCL) (eor S_IRUSR S_IWUSR));
     exit_if ("fd" == -1)%pt PTS_UNRESOLVED; ignore (unlink "tmpfname");
     reject (ftruncate "fd" "total_size") (-1) (Exits PTS_UNRESOLVED); "flag" ::= MAP_SHARED;
     "prot" ::= eor PROT_READ PROT_WRITE; set_ "pa" (mmap "addr" "size" "prot" "flag" "fd" "off");
     exit_if ("pa" == MAP_FAILED)%pt PTS_FAIL; ignore (close "fd");
     set_ "fd2" (open "tmpfname" O_RDWR (eor S_IRUSR S_IWUSR));
     exit_if (("fd" == -1) && (errno_ == (err_num ENOENT)))%pt PTS_FAIL; ignore (munmap "pa" "size");
     set_ "fd2" (open "tmpfname" O_RDWR (eor S_IRUSR S_IWUSR));
     exit_if (("fd2" == -1) && (errno_ == (err_num ENOENT)))%pt PTS_PASS; ret_if ("fd2" != -1)%pt PTS_FAIL;
     Return PTS_UNRESOLVED])].

Definition mmap_13_1 : sprog := SProg
  [("main",
    ["pa" ::= 0; "addr" ::= 0; "off" ::= 0; "total_size" ::= 1024; "size" ::= "total_size";
     set_ (LLoc "rc") getpid; "tmpfname" ::= with_num "/tmp/pts_mmap_13_1_" (Loc "rc");
     ignore (unlink "tmpfname");
     set_ "fd" (open "tmpfname" (eor (eor O_CREAT O_RDWR) O_EXCL) (eor S_IRUSR S_IWUSR));
     exit_if ("fd" == -1)%pt PTS_UNRESOLVED; set_ "data" (malloc "total_size");
     ignore (memset "data" 97 "total_size"); set_ (LLoc "rc") (write "fd" "data" "total_size");
     If (Loc "rc" != "total_size")%pt [ignore (unlink "tmpfname"); Exit PTS_UNRESOLVED] [];
     ignore (free "data");
     set_ (LLoc "rc") (stat "tmpfname" [LVar "stat_buff.st_mode"; LVar "stat_buff.st_uid"; LVar "stat_buff.st_gid"; LVar "stat_buff.st_size"; LVar "stat_buff.st_atime"; LVar "stat_buff.st_mtime"; LVar "stat_buff.st_ctime"]);
     If (Loc "rc" == -1)%pt [ignore (unlink "tmpfname"); Exit PTS_UNRESOLVED] [];
     "atime1" ::= "stat_buff.st_atime"; ignore (sleep 1); "flag" ::= MAP_SHARED;
     "prot" ::= eor PROT_READ PROT_WRITE; set_ "pa" (mmap "addr" "size" "prot" "flag" "fd" "off");
     If ("pa" == MAP_FAILED)%pt [ignore (unlink "tmpfname"); Exit PTS_FAIL] [];
     set_ (LLoc "rc") (stat "tmpfname" [LVar "stat_buff2.st_mode"; LVar "stat_buff2.st_uid"; LVar "stat_buff2.st_gid"; LVar "stat_buff2.st_size"; LVar "stat_buff2.st_atime"; LVar "stat_buff2.st_mtime"; LVar "stat_buff2.st_ctime"]);
     If (Loc "rc" == -1)%pt [ignore (unlink "tmpfname"); Exit PTS_UNRESOLVED] [];
     "atime2" ::= "stat_buff2.st_atime"; ignore (sleep 1); "ch" ::= "pa"; ignore (store 1 "ch" 98);
     ignore (munmap "pa" "size"); ignore (fsync "fd"); ignore (close "fd");
     set_ (LLoc "rc") (stat "tmpfname" [LVar "stat_buff.st_mode"; LVar "stat_buff.st_uid"; LVar "stat_buff.st_gid"; LVar "stat_buff.st_size"; LVar "stat_buff.st_atime"; LVar "stat_buff.st_mtime"; LVar "stat_buff.st_ctime"]);
     If (Loc "rc" == -1)%pt [ignore (unlink "tmpfname"); Exit PTS_UNRESOLVED] [];
     "atime3" ::= "stat_buff.st_atime";
     If (("atime1" != "atime3") || ("atime1" != "atime2"))%pt [ignore (unlink "tmpfname"); Exit PTS_PASS] [];
     ignore (unlink "tmpfname"); Return PTS_FAIL])].

Definition mmap_14_1 : sprog := SProg
  [("main",
    ["pa" ::= 0; "addr" ::= 0; "off" ::= 0; "total_size" ::= 1024; "size" ::= "total_size";
     set_ (LLoc "rc") getpid; "tmpfname" ::= with_num "/tmp/pts_mmap_14_1_" (Loc "rc");
     ignore (unlink "tmpfname");
     set_ "fd" (open "tmpfname" (eor (eor O_CREAT O_RDWR) O_EXCL) (eor S_IRUSR S_IWUSR));
     exit_if ("fd" == -1)%pt PTS_UNRESOLVED; set_ "data" (malloc "total_size");
     ignore (memset "data" 97 "total_size"); set_ (LLoc "rc") (write "fd" "data" "total_size");
     If (Loc "rc" != "total_size")%pt [ignore (unlink "tmpfname"); Exit PTS_UNRESOLVED] [];
     ignore (free "data"); ignore (sleep 1); "flag" ::= MAP_SHARED; "prot" ::= eor PROT_READ PROT_WRITE;
     set_ "pa" (mmap "addr" "size" "prot" "flag" "fd" "off");
     If ("pa" == MAP_FAILED)%pt [ignore (unlink "tmpfname"); Exit PTS_FAIL] []; ignore (sleep 1);
     set_ (LLoc "rc") (stat "tmpfname" [LVar "stat_buff.st_mode"; LVar "stat_buff.st_uid"; LVar "stat_buff.st_gid"; LVar "stat_buff.st_size"; LVar "stat_buff.st_atime"; LVar "stat_buff.st_mtime"; LVar "stat_buff.st_ctime"]);
     If (Loc "rc" == -1)%pt [ignore (unlink "tmpfname"); Exit PTS_UNRESOLVED] [];
     "ctime1" ::= "stat_buff.st_ctime"; "mtime1" ::= "stat_buff.st_mtime"; "ch" ::= "pa";
     ignore (store 1 "ch" 98); ignore (sleep 1); ignore (msync "pa" "size" MS_SYNC); ignore (fsync "fd");
     set_ (LLoc "rc") (stat "tmpfname" [LVar "stat_buff.st_mode"; LVar "stat_buff.st_uid"; LVar "stat_buff.st_gid"; LVar "stat_buff.st_size"; LVar "stat_buff.st_atime"; LVar "stat_buff.st_mtime"; LVar "stat_buff.st_ctime"]);
     If (Loc "rc" == -1)%pt [ignore (unlink "tmpfname"); Exit PTS_UNRESOLVED] [];
     "ctime2" ::= "stat_buff.st_ctime"; "mtime2" ::= "stat_buff.st_mtime";
     If (("ctime2" == "ctime1") || ("mtime2" == "mtime1"))%pt [ignore (unlink "tmpfname"); Exit PTS_FAIL] [];
     ignore (munmap "pa" "size"); ignore (close "fd"); Return PTS_PASS])].

Definition mmap_19_1 : sprog := SProg
  [("main",
    ["pa" ::= 0; "addr" ::= 0; "off" ::= 0; "size" ::= 1024; "fd" ::= -1; "flag" ::= MAP_SHARED;
     "prot" ::= eor PROT_READ PROT_WRITE; set_ "pa" (mmap "addr" "size" "prot" "flag" "fd" "off");
     exit_if (("pa" == MAP_FAILED) && (errno_ == (err_num EBADF)))%pt PTS_PASS; Return PTS_FAIL])].

Definition mmap_21_1 : sprog := SProg
  [("main",
    ["pa" ::= 0; "addr" ::= 0; "off" ::= 0; "total_size" ::= 1024; "size" ::= "total_size";
     set_ (LLoc "rc") getpid; "tmpfname" ::= with_num "/tmp/pts_mmap_21_1_" (Loc "rc");
     ignore (unlink "tmpfname");
     set_ "fd" (open "tmpfname" (eor (eor O_CREAT O_RDWR) O_EXCL) (eor S_IRUSR S_IWUSR));
     exit_if ("fd" == -1)%pt PTS_UNRESOLVED; ignore (unlink "tmpfname");
     reject (ftruncate "fd" "total_size") (-1) (Exits PTS_UNRESOLVED); "flag" ::= MAP_SHARED;
     While ((("flag" == MAP_SHARED) || ("flag" == MAP_PRIVATE)) || ("flag" == MAP_FIXED))%pt
       ["flag" ::= "flag" + 1];
     "prot" ::= eor PROT_READ PROT_WRITE; set_ "pa" (mmap "addr" "size" "prot" "flag" "fd" "off");
     exit_if (("pa" == MAP_FAILED) && (errno_ == (err_num EINVAL)))%pt PTS_PASS; ignore (close "fd");
     ignore (munmap "pa" "size"); Return PTS_FAIL])].

Definition mmap_27_1 : sprog := SProg
  [("main",
    ["total_size" ::= 1024; "pa" ::= 0; "addr" ::= 0; "len" ::= "total_size"; "off" ::= 0; Exit PTS_UNTESTED])].

Definition mmap_28_1 : sprog := SProg
  [("main",
    ["pa" ::= 0; "addr" ::= 0; "len" ::= 0; "prot" ::= eor PROT_READ PROT_WRITE; "off" ::= 0;
     "page_size" ::= 4096; "shm_size" ::= 2 * "page_size";
     Um (sigaction SIGBUS "sigbus_handler" SA_RESTART 0); set_ (LLoc "rc") getpid;
     "tmpfname" ::= with_num "pts_mmap_28_1_" (Loc "rc"); ignore (shm_unlink "tmpfname");
     set_ "shm_fd" (shm_open "tmpfname" (eor (eor O_RDWR O_CREAT) O_EXCL) (eor S_IRUSR S_IWUSR));
     ret_if ("shm_fd" == -1)%pt PTS_UNRESOLVED; ignore (shm_unlink "tmpfname");
     Um (ftruncate "shm_fd" "shm_size"); "fd" ::= "shm_fd"; "len" ::= 2 * "shm_size"; "flag" ::= MAP_SHARED;
     "off" ::= "page_size"; set_ "pa" (mmap "addr" "len" "prot" "flag" "fd" "off");
     If ("pa" != MAP_FAILED)%pt
       [ignore (close "fd"); ignore (munmap "pa" "len"); Exit PTS_FAIL]
       [exit_if (errno_ != (err_num ENXIO))%pt PTS_FAIL];
     Return PTS_PASS]);
   ("sigbus_handler", [Exit PTS_UNRESOLVED])].

Definition mmap_31_1 : sprog := SProg
  [("main",
    ["pa" ::= 0; "addr" ::= 0; "off" ::= 0; "page_size" ::= 4096; set_ (LLoc "rc") getpid;
     "tmpfname" ::= with_num "/tmp/pts_mmap_31_1_" (Loc "rc"); ignore (unlink "tmpfname");
     set_ "fd" (open "tmpfname" (eor (eor O_CREAT O_RDWR) O_EXCL) (eor S_IRUSR S_IWUSR));
     exit_if ("fd" == -1)%pt PTS_UNRESOLVED; ignore (unlink "tmpfname"); "flag" ::= MAP_SHARED;
     "prot" ::= eor PROT_READ PROT_WRITE; "len" ::= 18446744073709551615;
     If (Op Z.rem "len" "page_size") ["len" ::= eand "len" (not_ ("page_size" - 1)%pt)] [];
     "off" ::= 18446744073709551615;
     If (Op Z.rem "off" "page_size") ["off" ::= eand "off" (not_ ("page_size" - 1)%pt)] [];
     set_ "pa" (mmap "addr" "len" "prot" "flag" "fd" "off");
     exit_if (("pa" == MAP_FAILED) && (errno_ == (err_num EOVERFLOW)))%pt PTS_PASS; ignore (close "fd");
     ignore (munmap "pa" "len"); Return PTS_FAIL])].

(** ** munmap *)

Definition munmap_1_1 : sprog := SProg
  [("main",
    ["pa" ::= 0; "addr" ::= 0; "off" ::= 0; ignore (sigaction SIGSEGV "sigsegv_handler" 0 full_set);
     "page_size" ::= 4096; "file_size" ::= 2 * "page_size"; "len" ::= "page_size" + 1;
     set_ (LLoc "rc") getpid; "tmpfname" ::= with_num "/tmp/pts_munmap_1_1_" (Loc "rc");
     ignore (unlink "tmpfname");
     set_ "fd" (open "tmpfname" (eor (eor O_CREAT O_RDWR) O_EXCL) (eor S_IRUSR S_IWUSR));
     exit_if ("fd" == -1)%pt PTS_UNRESOLVED; ignore (unlink "tmpfname");
     reject (ftruncate "fd" "file_size") (-1) (Exits PTS_UNRESOLVED); "flag" ::= MAP_SHARED;
     "prot" ::= eor PROT_READ PROT_WRITE; set_ "pa" (mmap "addr" "len" "prot" "flag" "fd" "off");
     exit_if ("pa" == MAP_FAILED)%pt PTS_UNRESOLVED; "ch1" ::= "pa" + "len" + 1; ignore (store 1 "ch1" 98);
     ignore (close "fd"); reject (munmap "pa" "len") (-1) (Exits PTS_FAIL); ignore (store 1 "ch1" 97);
     Return PTS_FAIL]);
   ("sigsegv_handler", [Exit PTS_PASS])].

Definition munmap_1_2 : sprog := SProg
  [("main",
    ["pa" ::= 0; "addr" ::= 0; "off" ::= 0; ignore (sigaction SIGSEGV "sigsegv_handler" 0 full_set);
     "page_size" ::= 4096; "file_size" ::= 2 * "page_size"; "len" ::= "page_size" + 1;
     set_ (LLoc "rc") getpid; "tmpfname" ::= with_num "/tmp/pts_munmap_1_1_" (Loc "rc");
     ignore (unlink "tmpfname");
     set_ "fd" (open "tmpfname" (eor (eor O_CREAT O_RDWR) O_EXCL) (eor S_IRUSR S_IWUSR));
     exit_if ("fd" == -1)%pt PTS_UNRESOLVED; ignore (unlink "tmpfname");
     reject (ftruncate "fd" "file_size") (-1) (Exits PTS_UNRESOLVED); "flag" ::= MAP_SHARED;
     "prot" ::= eor PROT_READ PROT_WRITE; set_ "pa" (mmap "addr" "len" "prot" "flag" "fd" "off");
     exit_if ("pa" == MAP_FAILED)%pt PTS_UNRESOLVED; "ch" ::= "pa"; ignore (store 1 "ch" 98);
     ignore (close "fd"); ignore (munmap "pa" "len"); ignore (store 1 "ch" 97); Return PTS_FAIL]);
   ("sigsegv_handler", [Exit PTS_PASS])].

Definition munmap_2_1 : sprog := SProg
  [("main",
    ["buffer" ::= 0; "new_addr" ::= 0; "page_size" ::= 4096; set_ "buffer" (malloc ("page_size" * 2)%pt);
     exit_if ("buffer" == 0)%pt PTS_UNRESOLVED;
     "new_addr" ::= "buffer" + ("page_size" - (Op Z.rem "buffer" "page_size"));
     set_ "rc" (munmap "new_addr" "page_size"); If ("rc" == -1)%pt [ignore (free "buffer"); Exit PTS_FAIL] [];
     ignore (free "buffer"); Return PTS_PASS])].

Definition munmap_3_1 : sprog := SProg
  [("main",
    ["pa" ::= 0; "addr" ::= 0; "off" ::= 0; "page_size" ::= 4096; "file_size" ::= 2 * "page_size";
     "len" ::= "page_size" + 1; set_ (LLoc "rc") getpid;
     "tmpfname" ::= with_num "/tmp/pts_munmap_1_1_" (Loc "rc"); ignore (unlink "tmpfname");
     set_ "fd" (open "tmpfname" (eor (eor O_CREAT O_RDWR) O_EXCL) (eor S_IRUSR S_IWUSR));
     exit_if ("fd" == -1)%pt PTS_UNRESOLVED; ignore (unlink "tmpfname");
     reject (ftruncate "fd" "file_size") (-1) (Exits PTS_UNRESOLVED); "flag" ::= MAP_SHARED;
     "prot" ::= eor PROT_READ PROT_WRITE; set_ "pa" (mmap "addr" "len" "prot" "flag" "fd" "off");
     exit_if ("pa" == MAP_FAILED)%pt PTS_UNRESOLVED; "pa2" ::= "pa";
     While (Op Z.rem "pa2" "page_size" == 0)%pt ["pa2" ::= "pa2" + 1]; ignore (close "fd");
     set_ (LLoc "rc") (munmap "pa2" "len");
     If ((Loc "rc" == -1) && (errno_ == (err_num EINVAL)))%pt [Exit PTS_PASS] [Exit PTS_FAIL]])].

Definition munmap_4_1 : sprog := SProg
  [("main",
    ["total_size" ::= 1024; "pa" ::= 0; "addr" ::= 0; "size" ::= "total_size"; "off" ::= 0;
     set_ (LLoc "rc") getpid; "tmpfname" ::= with_num "/tmp/pts_munmap_4_1_" (Loc "rc");
     ignore (unlink "tmpfname");
     set_ "fd" (open "tmpfname" (eor (eor O_CREAT O_RDWR) O_EXCL) (eor S_IRUSR S_IWUSR));
     exit_if ("fd" == -1)%pt PTS_UNRESOLVED; ignore (unlink "tmpfname"); set_ "data" (malloc "total_size");
     ignore (memset "data" 97 "total_size"); set_ (LLoc "rc") (write "fd" "data" "total_size");
     exit_if (Loc "rc" != "total_size")%pt PTS_UNRESOLVED; ignore (free "data");
     "prot" ::= eor PROT_READ PROT_WRITE; "flag" ::= MAP_PRIVATE;
     set_ "pa" (mmap "addr" "size" "prot" "flag" "fd" "off"); exit_if ("pa" == MAP_FAILED)%pt PTS_FAIL;
     "ch" ::= "pa"; ignore (store 1 "ch" 98); set_ "rc" (msync "pa" "size" MS_SYNC);
     exit_if ("rc" != 0)%pt PTS_UNRESOLVED; ignore (munmap "pa" "size");
     set_ "pa" (mmap "addr" "size" "prot" "flag" "fd" "off"); exit_if ("pa" == MAP_FAILED)%pt PTS_FAIL;
     "ch" ::= "pa"; set_ (LLoc "rc") (load 1 "ch"); exit_if (Loc "rc" == 98)%pt PTS_FAIL; ignore (close "fd");
     Return PTS_PASS])].

Definition munmap_8_1 : sprog := SProg
  [("main",
    ["pa" ::= -1; set_ "rc" (munmap "pa" 1);
     exit_if (("rc" == -1) && (errno_ == (err_num EINVAL)))%pt PTS_PASS; Return PTS_FAIL])].

Definition munmap_9_1 : sprog := SProg
  [("main",
    ["pa" ::= 0; "addr" ::= 0; "off" ::= 0; "page_size" ::= 4096; "file_size" ::= 2 * "page_size";
     "len" ::= "page_size" + 1; set_ (LLoc "rc") getpid;
     "tmpfname" ::= with_num "/tmp/pts_munmap_1_1_" (Loc "rc"); ignore (unlink "tmpfname");
     set_ "fd" (open "tmpfname" (eor (eor O_CREAT O_RDWR) O_EXCL) (eor S_IRUSR S_IWUSR));
     exit_if ("fd" == -1)%pt PTS_UNRESOLVED; ignore (unlink "tmpfname");
     reject (ftruncate "fd" "file_size") (-1) (Exits PTS_UNRESOLVED); "flag" ::= MAP_SHARED;
     "prot" ::= eor PROT_READ PROT_WRITE; set_ "pa" (mmap "addr" "len" "prot" "flag" "fd" "off");
     exit_if ("pa" == MAP_FAILED)%pt PTS_UNRESOLVED; ignore (close "fd"); set_ (LLoc "rc") (munmap "pa" 0);
     exit_if ((Loc "rc" == -1) && (errno_ == (err_num EINVAL)))%pt PTS_PASS; Return PTS_FAIL])].

(** ** mlock *)

Definition mlock_5_1 : sprog := SProg
  [("main",
    [set_ "ptr" (malloc 8); ret_if ("ptr" == 0)%pt PTS_UNRESOLVED; set_ "result" (mlock "ptr" 8);
     ret_if (("result" == 0) && (errno_ == 0))%pt PTS_PASS; ret_if (errno_ == 0)%pt PTS_FAIL;
     ret_if (errno_ == (err_num EPERM))%pt PTS_UNRESOLVED; Return PTS_UNRESOLVED])].

Definition mlock_8_1 : sprog := SProg
  [("main",
    ["page_size" ::= 4096; ret_if errno_ PTS_UNRESOLVED;
     "page_ptr" ::= 9223372036854775807 - (Op Z.rem 9223372036854775807 "page_size");
     set_ "result" (mlock "page_ptr" 8);
     ret_if (("result" == -1) && (errno_ == (err_num ENOMEM)))%pt PTS_PASS;
     If (errno_ == (err_num EPERM))%pt [Return PTS_UNRESOLVED] [Return PTS_UNRESOLVED]])].

Definition mlock_10_1 : sprog := SProg
  [("main",
    ["page_size" ::= 4096; ret_if errno_ PTS_UNRESOLVED; set_ "ptr" (malloc "page_size");
     ret_if ("ptr" == 0)%pt PTS_UNRESOLVED;
     If (Op Z.rem "ptr" "page_size") [LLoc "rc" ::= "ptr"] [LLoc "rc" ::= "ptr" + 1];
     "notpage_ptr" ::= Loc "rc"; set_ "result" (mlock "notpage_ptr" ("page_size" - 1)%pt);
     ret_if ("result" == 0)%pt PTS_PASS;
     ret_if (("result" == -1) && (errno_ == (err_num EINVAL)))%pt PTS_PASS;
     ret_if (errno_ == (err_num EPERM))%pt PTS_UNRESOLVED; ret_if ("result" != -1)%pt PTS_FAIL;
     Return PTS_UNRESOLVED])].

(** ** munlock *)

Definition munlock_7_1 : sprog := SProg
  [("main",
    [set_ "ptr" (malloc 8); ret_if ("ptr" == 0)%pt PTS_UNRESOLVED; U (mlock "ptr" 8);
     set_ "result" (munlock "ptr" 8); ret_if (("result" == 0) && (errno_ == 0))%pt PTS_PASS;
     ret_if (errno_ == 0)%pt PTS_FAIL; Return PTS_UNRESOLVED])].

Definition munlock_10_1 : sprog := SProg
  [("main",
    ["page_size" ::= 4096; ret_if errno_ PTS_UNRESOLVED;
     "page_ptr" ::= 9223372036854775807 - (Op Z.rem 9223372036854775807 "page_size");
     set_ "result" (munlock "page_ptr" 8);
     If (("result" == -1) && (errno_ == (err_num ENOMEM)))%pt [Return PTS_PASS] [Return PTS_UNRESOLVED]])].

Definition munlock_11_1 : sprog := SProg
  [("main",
    ["page_size" ::= 4096; ret_if errno_ PTS_UNRESOLVED; set_ "ptr" (malloc "page_size");
     ret_if ("ptr" == 0)%pt PTS_UNRESOLVED;
     If (Op Z.rem "ptr" "page_size") [LLoc "rc" ::= "ptr"] [LLoc "rc" ::= "ptr" + 1];
     "notpage_ptr" ::= Loc "rc"; set_ "result" (munlock "notpage_ptr" ("page_size" - 1)%pt);
     ret_if ("result" == 0)%pt PTS_PASS;
     ret_if (("result" == -1) && (errno_ == (err_num EINVAL)))%pt PTS_PASS;
     ret_if ("result" != -1)%pt PTS_FAIL; Return PTS_UNRESOLVED])].

(** ** mlockall *)

Definition mlockall_3_6 : sprog := SProg
  [("main",
    ["page_size" ::= 4096; ret_if errno_ PTS_UNRESOLVED;
     set_ "fd" (shm_open (text "/posixtest_3-6") (eor O_RDWR O_CREAT) (eor S_IRUSR S_IWUSR));
     ret_if ("fd" == -1)%pt PTS_UNRESOLVED; set_ (LLoc "rc") (ftruncate "fd" 8);
     If (Loc "rc" != 0)%pt [ignore (shm_unlink (text "/posixtest_3-6")); Return PTS_UNRESOLVED] [];
     set_ "foo" (mmap 0 8 PROT_WRITE MAP_SHARED "fd" 0);
     If ("foo" == MAP_FAILED)%pt [ignore (shm_unlink (text "/posixtest_3-6")); Return PTS_UNRESOLVED] [];
     Um (mlockall MCL_CURRENT); "page_ptr" ::= "foo" - (Op Z.rem "foo" "page_size");
     set_ "result" (msync "page_ptr" "page_size" (eor MS_SYNC MS_INVALIDATE));
     ret_if (("result" == -1) && (errno_ == (err_num EBUSY)))%pt PTS_PASS; ret_if ("result" == 0)%pt PTS_FAIL;
     Return PTS_UNRESOLVED])].

Definition mlockall_3_7 : sprog := SProg
  [("main",
    ["page_size" ::= 4096; ret_if errno_ PTS_UNRESOLVED;
     set_ "fd" (open (text "conformance/interfaces/mlockall/3-7.c") O_RDONLY 0);
     ret_if ("fd" == -1)%pt PTS_UNRESOLVED; set_ "foo" (mmap 0 "page_size" PROT_READ MAP_SHARED "fd" 0);
     ret_if ("foo" == MAP_FAILED)%pt PTS_UNRESOLVED; Um (mlockall MCL_CURRENT);
     "page_ptr" ::= "foo" - (Op Z.rem "foo" "page_size");
     set_ "result" (msync "page_ptr" "page_size" (eor MS_SYNC MS_INVALIDATE));
     ret_if (("result" == -1) && (errno_ == (err_num EBUSY)))%pt PTS_PASS; ret_if ("result" == 0)%pt PTS_FAIL;
     Return PTS_UNRESOLVED])].

Definition mlockall_8_1 : sprog := SProg
  [("main",
    [set_ "result" (mlockall MCL_CURRENT); ret_if (("result" == 0) && (errno_ == 0))%pt PTS_PASS;
     ret_if (errno_ == 0)%pt PTS_FAIL; ret_if (errno_ == (err_num EPERM))%pt PTS_UNRESOLVED;
     Return PTS_UNRESOLVED])].

Definition mlockall_13_1 : sprog := SProg
  [("main",
    [set_ "result" (mlockall 0); ret_if (("result" == -1) && (errno_ == (err_num EINVAL)))%pt PTS_PASS;
     If ("result" != -1)%pt [Return PTS_FAIL] [Return PTS_FAIL]])].

Definition mlockall_13_2 : sprog := SProg
  [("main",
    [set_ "result" (mlockall (not_ (eor MCL_CURRENT MCL_FUTURE)));
     ret_if (("result" == -1) && (errno_ == (err_num EINVAL)))%pt PTS_PASS;
     If ("result" != -1)%pt [Return PTS_FAIL] [Return PTS_FAIL]])].

(** ** munlockall *)

Definition munlockall_5_1 : sprog := SProg
  [("main",
    [set_ "result" munlockall; ret_if ("result" == 0)%pt PTS_PASS;
     If (errno_ == (err_num EPERM))%pt [Return PTS_UNRESOLVED] [Return PTS_FAIL]])].

(** ** shm_open *)

Definition shm_open_1_1 : sprog := SProg
  [("main",
    ["str" ::= (text "qwerty");
     set_ "fd" (shm_open (text "posixtest_1-1") (eor O_RDWR O_CREAT) (eor S_IRUSR S_IWUSR));
     ret_if ("fd" == -1)%pt PTS_UNRESOLVED; set_ (LLoc "rc") (ftruncate "fd" 8);
     If (Loc "rc" != 0)%pt [ignore (shm_unlink (text "posixtest_1-1")); Return PTS_UNRESOLVED] [];
     set_ "buf" (mmap 0 8 PROT_WRITE MAP_SHARED "fd" 0);
     If ("buf" == MAP_FAILED)%pt [ignore (shm_unlink (text "posixtest_1-1")); Return PTS_UNRESOLVED] [];
     ignore (strcpy "buf" "str"); set_ "fd" (shm_open (text "posixtest_1-1") O_RDONLY (eor S_IRUSR S_IWUSR));
     If ("fd" == -1)%pt [ignore (shm_unlink (text "posixtest_1-1")); Return PTS_UNRESOLVED] [];
     set_ "buf" (mmap 0 8 PROT_READ MAP_SHARED "fd" 0);
     If ("buf" == MAP_FAILED)%pt [ignore (shm_unlink (text "posixtest_1-1")); Return PTS_UNRESOLVED] [];
     ignore (shm_unlink (text "posixtest_1-1")); reject (strcmp "buf" "str") 0 (Returns PTS_PASS);
     Return PTS_FAIL])].

Definition shm_open_2_1 : sprog := SProg
  [("main",
    [Return PTS_UNTESTED])].

Definition shm_open_3_1 : sprog := SProg
  [("main",
    [Return PTS_UNTESTED])].

Definition shm_open_5_1 : sprog := SProg
  [("main",
    ["str" ::= (text "qwerty"); set_ "child_pid" fork; ret_if ("child_pid" == -1)%pt PTS_UNRESOLVED;
     If ("child_pid" == 0)%pt [ignore (call_fn "child_process"); Return (Loc "result")] []; ignore (wait []);
     set_ "fd" (shm_open (text "/posixtest_5-1") O_RDONLY (eor S_IRUSR S_IWUSR));
     ret_if ("fd" == -1)%pt PTS_UNRESOLVED; set_ "buf" (mmap 0 8 PROT_READ MAP_SHARED "fd" 0);
     ret_if ("buf" == MAP_FAILED)%pt PTS_UNRESOLVED; ignore (shm_unlink (text "/posixtest_5-1"));
     reject (strcmp "buf" "str") 0 (Returns PTS_PASS); Return PTS_FAIL]);
   ("child_process",
    [set_ "child_process.fd" (shm_open (text "/posixtest_5-1") (eor O_RDWR O_CREAT) (eor S_IRUSR S_IWUSR));
     If ("child_process.fd" == -1)%pt
       [set_ (LLoc "rc") getppid; ignore (kill (Loc "rc") SIGUSR1); Return PTS_UNRESOLVED]
       [];
     set_ (LLoc "rc") (ftruncate "child_process.fd" 8);
     If (Loc "rc" != 0)%pt
       [set_ (LLoc "rc") getppid; ignore (kill (Loc "rc") SIGUSR1); Return PTS_UNRESOLVED]
       [];
     set_ "child_process.buf" (mmap 0 8 PROT_WRITE MAP_SHARED "child_process.fd" 0);
     If ("child_process.buf" == MAP_FAILED)%pt
       [set_ (LLoc "rc") getppid; ignore (kill (Loc "rc") SIGUSR1); Return PTS_UNRESOLVED]
       [];
     ignore (strcpy "child_process.buf" "str"); Return PTS_PASS])].

Definition shm_open_6_1 : sprog := SProg
  [("main",
    [Return PTS_UNTESTED])].

Definition shm_open_7_1 : sprog := SProg
  [("main",
    [Return PTS_UNTESTED])].

Definition shm_open_8_1 : sprog := SProg
  [("main",
    ["path" ::= (text "/tmp/posixtestXXXXXX"); set_ "fd1" (mkstemp (LVar "path"));
     ret_if ("fd1" == -1)%pt PTS_UNRESOLVED;
     set_ "fd2" (shm_open (text "posixtest_8-1") (eor O_RDWR O_CREAT) (eor S_IRUSR S_IWUSR));
     If ("fd2" == -1)%pt [ignore (unlink "path"); Return PTS_UNRESOLVED] []; ignore (unlink "path");
     ignore (shm_unlink (text "posixtest_8-1")); ret_if ("fd2" == "fd1" + 1)%pt PTS_PASS; Return PTS_FAIL])].

Definition shm_open_9_1 : sprog := SProg
  [("main",
    [Return PTS_UNTESTED])].

Definition shm_open_10_1 : sprog := SProg
  [("main",
    [Return PTS_UNTESTED])].

Definition shm_open_11_1 : sprog := SProg
  [("main",
    [set_ "fd" (shm_open (text "posixtest_11-1") (eor O_RDONLY O_CREAT) (eor S_IRUSR S_IWUSR));
     ret_if ("fd" == -1)%pt PTS_UNRESOLVED; set_ "flags" (fcntl_getfd "fd");
     If ("flags" == -1)%pt [ignore (shm_unlink (text "posixtest_11-1")); Return PTS_UNRESOLVED] [];
     ignore (shm_unlink (text "posixtest_11-1")); ret_if (eand "flags" FD_CLOEXEC) PTS_PASS; Return PTS_FAIL])].

Definition shm_open_12_1 : sprog := SProg
  [("main",
    [Return PTS_UNTESTED])].

Definition shm_open_13_1 : sprog := SProg
  [("main",
    [set_ "fd" (shm_open (text "posixtest_13-1") (eor O_RDONLY O_CREAT) (eor S_IRUSR S_IWUSR));
     ret_if ("fd" == -1)%pt PTS_UNRESOLVED; set_ "result" (ftruncate "fd" 8);
     If (("result" == -1) && (errno_ == (err_num EINVAL)))%pt
       [ignore (shm_unlink (text "posixtest_13-1")); Return PTS_PASS]
       [If ("result" == 0)%pt [ignore (shm_unlink (text "posixtest_13-1")); Return PTS_FAIL] []];
     ignore (shm_unlink (text "posixtest_13-1")); Return PTS_FAIL])].

Definition shm_open_14_2 : sprog := SProg
  [("main",
    ["str" ::= (text "qwerty");
     set_ "fd" (shm_open (text "posixtest_14-2") (eor O_RDWR O_CREAT) (eor S_IRUSR S_IWUSR));
     ret_if ("fd" == -1)%pt PTS_UNRESOLVED; U (ftruncate "fd" 8);
     set_ "buf" (mmap 0 8 PROT_WRITE MAP_SHARED "fd" 0); ret_if ("buf" == MAP_FAILED)%pt PTS_UNRESOLVED;
     ignore (strcpy "buf" "str"); set_ "fd" (shm_open (text "posixtest_14-2") O_RDWR (eor S_IRUSR S_IWUSR));
     ret_if ("fd" == -1)%pt PTS_UNRESOLVED; set_ "buf" (mmap 0 8 PROT_READ MAP_SHARED "fd" 0);
     ret_if ("buf" == MAP_FAILED)%pt PTS_UNRESOLVED; ignore (shm_unlink (text "posixtest_14-2"));
     reject (strcmp "buf" "str") 0 (Returns PTS_PASS); Return PTS_FAIL])].

Definition shm_open_15_1 : sprog := SProg
  [("main",
    [set_ "result" (shm_unlink (text "posixtest_15-1"));
     ret_if (("result" != 0) && (errno_ != (err_num ENOENT)))%pt PTS_UNRESOLVED;
     set_ "fd" (shm_open (text "posixtest_15-1") (eor O_RDONLY O_CREAT) (eor S_IRUSR S_IWUSR));
     ret_if ("fd" == -1)%pt PTS_UNRESOLVED;
     set_ "result" (fstat "fd" [LVar "stat_buf.st_mode"; LVar "stat_buf.st_uid"; LVar "stat_buf.st_gid"; LVar "stat_buf.st_size"; LVar "stat_buf.st_atime"; LVar "stat_buf.st_mtime"; LVar "stat_buf.st_ctime"]);
     If ("result" == 0)%pt
       [ignore (shm_unlink (text "posixtest_15-1")); Return PTS_PASS]
       [If (("result" == -1) && (errno_ == (err_num EBADF)))%pt
          [ignore (shm_unlink (text "posixtest_15-1")); Return PTS_FAIL]
          []];
     ignore (shm_unlink (text "posixtest_15-1")); Return PTS_FAIL])].

Definition shm_open_16_1 : sprog := SProg
  [("main",
    [set_ "result" (shm_unlink (text "posixtest_16-1"));
     ret_if (("result" != 0) && (errno_ != (err_num ENOENT)))%pt PTS_UNRESOLVED;
     set_ "fd" (shm_open (text "posixtest_16-1") (eor O_RDONLY O_CREAT) (eor S_IRUSR S_IWUSR));
     ret_if ("fd" == -1)%pt PTS_UNRESOLVED;
     set_ "result" (fstat "fd" [LVar "stat_buf.st_mode"; LVar "stat_buf.st_uid"; LVar "stat_buf.st_gid"; LVar "stat_buf.st_size"; LVar "stat_buf.st_atime"; LVar "stat_buf.st_mtime"; LVar "stat_buf.st_ctime"]);
     If ("result" != 0)%pt [ignore (shm_unlink (text "posixtest_16-1")); Return PTS_UNRESOLVED] [];
     ignore (shm_unlink (text "posixtest_16-1")); set_ (LLoc "rc") getuid;
     ret_if ("stat_buf.st_uid" == Loc "rc")%pt PTS_PASS; Return PTS_FAIL])].

Definition shm_open_18_1 : sprog := SProg
  [("main",
    [ignore (umask (eor S_IRGRP S_IWOTH)); set_ "result" (shm_unlink (text "posixtest_18-1"));
     ret_if (("result" != 0) && (errno_ != (err_num ENOENT)))%pt PTS_UNRESOLVED;
     set_ "fd" (shm_open (text "posixtest_18-1") (eor O_RDONLY O_CREAT) (eor (eor (eor S_IWUSR S_IRGRP) S_IWGRP) S_IROTH));
     ret_if ("fd" == -1)%pt PTS_UNRESOLVED;
     set_ "result" (fstat "fd" [LVar "stat_buf.st_mode"; LVar "stat_buf.st_uid"; LVar "stat_buf.st_gid"; LVar "stat_buf.st_size"; LVar "stat_buf.st_atime"; LVar "stat_buf.st_mtime"; LVar "stat_buf.st_ctime"]);
     If ("result" != 0)%pt [ignore (shm_unlink (text "posixtest_18-1")); Return PTS_UNRESOLVED] [];
     ignore (shm_unlink (text "posixtest_18-1"));
     ret_if (negb_ (eand (eor (eor (eor (eor (eor S_IRUSR S_IWUSR) S_IRGRP) S_IWGRP) S_IROTH) S_IWOTH) (Op Z.lxor "stat_buf.st_mode" (eand (eor (eor (eor S_IWUSR S_IRGRP) S_IWGRP) S_IROTH) (not_ (eor S_IRGRP S_IWOTH)))))) PTS_PASS;
     Return PTS_FAIL])].

Definition shm_open_19_1 : sprog := SProg
  [("main",
    [Return PTS_UNTESTED])].

Definition shm_open_20_1 : sprog := SProg
  [("main",
    [set_ "result" (shm_unlink (text "posixtest_20-1"));
     ret_if (("result" != 0) && (errno_ != (err_num ENOENT)))%pt PTS_UNRESOLVED;
     set_ "fd" (shm_open (text "posixtest_20-1") (eor O_RDONLY O_CREAT) S_IRUSR);
     ret_if ("fd" == -1)%pt PTS_UNRESOLVED; set_ "result" (ftruncate "fd" 8);
     If (("result" == -1) && (errno_ == (err_num EINVAL)))%pt
       [ignore (shm_unlink (text "posixtest_20-1")); Return PTS_PASS]
       [If ("result" == 0)%pt [ignore (shm_unlink (text "posixtest_20-1")); Return PTS_FAIL] []];
     ignore (shm_unlink (text "posixtest_20-1")); Return PTS_FAIL])].

Definition shm_open_20_2 : sprog := SProg
  [("main",
    [set_ "result" (shm_unlink (text "posixtest_20-2"));
     ret_if (("result" != 0) && (errno_ != (err_num ENOENT)))%pt PTS_UNRESOLVED;
     set_ "fd" (shm_open (text "posixtest_20-2") (eor O_RDWR O_CREAT) 0);
     ret_if ("fd" == -1)%pt PTS_UNRESOLVED; set_ "result" (ftruncate "fd" 8);
     If ("result" == 0)%pt
       [ignore (shm_unlink (text "posixtest_20-2")); Return PTS_PASS]
       [If (("result" == -1) && (errno_ == (err_num EINVAL)))%pt
          [ignore (shm_unlink (text "posixtest_20-2")); Return PTS_FAIL]
          []];
     ignore (shm_unlink (text "posixtest_20-2")); Return PTS_FAIL])].

Definition shm_open_20_3 : sprog := SProg
  [("main",
    [set_ "result" (shm_unlink (text "posixtest_20-3"));
     ret_if (("result" != 0) && (errno_ != (err_num ENOENT)))%pt PTS_UNRESOLVED;
     set_ "fd" (shm_open (text "posixtest_20-3") (eor O_RDWR O_CREAT) 0);
     ret_if ("fd" == -1)%pt PTS_UNRESOLVED; set_ (LLoc "rc") (ftruncate "fd" 8);
     If (Loc "rc" != 0)%pt [ignore (shm_unlink (text "posixtest_20-3")); Return PTS_UNRESOLVED] [];
     set_ "ptr" (mmap 0 8 PROT_NONE MAP_SHARED "fd" 0);
     If ("ptr" != MAP_FAILED)%pt
       [ignore (shm_unlink (text "posixtest_20-3")); Return PTS_PASS]
       [If (errno_ == (err_num EACCES))%pt [ignore (shm_unlink (text "posixtest_20-3")); Return PTS_FAIL] []];
     ignore (shm_unlink (text "posixtest_20-3")); Return PTS_FAIL])].

Definition shm_open_21_1 : sprog := SProg
  [("main",
    [set_ "result" (shm_unlink (text "posixtest_21-1"));
     ret_if (("result" != 0) && (errno_ != (err_num ENOENT)))%pt PTS_UNRESOLVED;
     set_ "fd" (shm_open (text "posixtest_21-1") (eor O_RDONLY O_CREAT) (eor S_IRUSR S_IWUSR));
     ret_if ("fd" == -1)%pt PTS_UNRESOLVED;
     set_ "result" (fstat "fd" [LVar "stat_buf.st_mode"; LVar "stat_buf.st_uid"; LVar "stat_buf.st_gid"; LVar "stat_buf.st_size"; LVar "stat_buf.st_atime"; LVar "stat_buf.st_mtime"; LVar "stat_buf.st_ctime"]);
     If ("result" != 0)%pt [ignore (shm_unlink (text "posixtest_21-1")); Return PTS_UNRESOLVED] [];
     ignore (shm_unlink (text "posixtest_21-1")); ret_if ("stat_buf.st_size" == 0)%pt PTS_PASS;
     Return PTS_FAIL])].

Definition shm_open_22_1 : sprog := SProg
  [("main",
    [set_ "fd" (shm_open (text "posixtest_22-1") (eor O_RDONLY O_CREAT) (eor S_IRUSR S_IWUSR));
     ret_if ("fd" == -1)%pt PTS_UNRESOLVED;
     set_ "fd" (shm_open (text "posixtest_22-1") (eor (eor O_RDONLY O_CREAT) O_EXCL) (eor S_IRUSR S_IWUSR));
     If (("fd" == -1) && (errno_ == (err_num EEXIST)))%pt
       [ignore (shm_unlink (text "posixtest_22-1")); Return PTS_PASS]
       [If ("fd" != -1)%pt [ignore (shm_unlink (text "posixtest_22-1")); Return PTS_FAIL] []];
     ignore (shm_unlink (text "posixtest_22-1")); Return PTS_FAIL])].

Definition shm_open_24_1 : sprog := SProg
  [("main",
    [Return PTS_UNTESTED])].

Definition shm_open_25_1 : sprog := SProg
  [("main",
    [set_ "fd" (shm_open (text "posixtest_25-1") (eor O_RDWR O_CREAT) (eor S_IRUSR S_IWUSR));
     ret_if ("fd" == -1)%pt PTS_UNRESOLVED; Um (ftruncate "fd" 16);
     set_ "fd" (shm_open (text "posixtest_25-1") (eor O_RDWR O_TRUNC) (eor S_IRUSR S_IWUSR));
     If ("fd" == -1)%pt [ignore (shm_unlink (text "posixtest_25-1")); Return PTS_UNRESOLVED] [];
     set_ (LLoc "rc") (fstat "fd" [LVar "stat_buf.st_mode"; LVar "stat_buf.st_uid"; LVar "stat_buf.st_gid"; LVar "stat_buf.st_size"; LVar "stat_buf.st_atime"; LVar "stat_buf.st_mtime"; LVar "stat_buf.st_ctime"]);
     If (Loc "rc" != 0)%pt [ignore (shm_unlink (text "posixtest_25-1")); Return PTS_UNRESOLVED] [];
     ignore (shm_unlink (text "posixtest_25-1")); ret_if ("stat_buf.st_size" == 0)%pt PTS_PASS;
     Return PTS_FAIL])].

Definition shm_open_26_1 : sprog := SProg
  [("main",
    [set_ "fd" (shm_open (text "posixtest_26-1") (eor O_RDWR O_CREAT) (eor S_IRUSR S_IWUSR));
     ret_if ("fd" == -1)%pt PTS_UNRESOLVED;
     set_ (LLoc "rc") (fstat "fd" [LVar "stat_buf.st_mode"; LVar "stat_buf.st_uid"; LVar "stat_buf.st_gid"; LVar "stat_buf.st_size"; LVar "stat_buf.st_atime"; LVar "stat_buf.st_mtime"; LVar "stat_buf.st_ctime"]);
     If (Loc "rc" != 0)%pt [ignore (shm_unlink (text "posixtest_26-1")); Return PTS_UNRESOLVED] [];
     "old_mode" ::= "stat_buf.st_mode";
     set_ "fd" (shm_open (text "posixtest_26-1") (eor O_RDWR O_TRUNC) S_IRGRP);
     If ("fd" == -1)%pt [ignore (shm_unlink (text "posixtest_26-1")); Return PTS_UNRESOLVED] [];
     set_ (LLoc "rc") (fstat "fd" [LVar "stat_buf.st_mode"; LVar "stat_buf.st_uid"; LVar "stat_buf.st_gid"; LVar "stat_buf.st_size"; LVar "stat_buf.st_atime"; LVar "stat_buf.st_mtime"; LVar "stat_buf.st_ctime"]);
     If (Loc "rc" != 0)%pt [ignore (shm_unlink (text "posixtest_26-1")); Return PTS_UNRESOLVED] [];
     ignore (shm_unlink (text "posixtest_26-1")); ret_if ("stat_buf.st_mode" == "old_mode")%pt PTS_PASS;
     Return PTS_FAIL])].

Definition shm_open_27_1 : sprog := SProg
  [("main",
    [Return PTS_UNTESTED])].

Definition shm_open_28_1 : sprog := SProg
  [("main",
    ["str" ::= (text "qwerty");
     set_ "fd" (shm_open (text "posixtest_28-1") (eor O_RDWR O_CREAT) (eor S_IRUSR S_IWUSR));
     ret_if ("fd" == -1)%pt PTS_UNRESOLVED; set_ (LLoc "rc") (ftruncate "fd" 8);
     If (Loc "rc" != 0)%pt [ignore (shm_unlink (text "posixtest_28-1")); Return PTS_UNRESOLVED] [];
     set_ "buf" (mmap 0 8 PROT_WRITE MAP_SHARED "fd" 0);
     If ("buf" == MAP_FAILED)%pt [ignore (shm_unlink (text "posixtest_28-1")); Return PTS_UNRESOLVED] [];
     ignore (strcpy "buf" "str"); set_ (LLoc "rc") (munmap "buf" 8);
     If (Loc "rc" != 0)%pt [ignore (shm_unlink (text "posixtest_28-1")); Return PTS_UNRESOLVED] [];
     set_ (LLoc "rc") (close "fd");
     If (Loc "rc" != 0)%pt [ignore (shm_unlink (text "posixtest_28-1")); Return PTS_UNRESOLVED] [];
     set_ "fd" (shm_open (text "posixtest_28-1") O_RDONLY (eor S_IRUSR S_IWUSR));
     ret_if (("fd" == -1) && (errno_ == (err_num ENOENT)))%pt PTS_FAIL;
     If ("fd" == -1)%pt [ignore (shm_unlink (text "posixtest_28-1")); Return PTS_UNRESOLVED] [];
     set_ "buf" (mmap 0 8 PROT_READ MAP_SHARED "fd" 0);
     If ("buf" == MAP_FAILED)%pt [ignore (shm_unlink (text "posixtest_28-1")); Return PTS_UNRESOLVED] [];
     set_ (LLoc "rc") (strcmp "buf" "str");
     If (Loc "rc" == 0)%pt [ignore (shm_unlink (text "posixtest_28-1")); Return PTS_PASS] [];
     ignore (shm_unlink (text "posixtest_28-1")); Return PTS_FAIL])].

Definition shm_open_28_2 : sprog := SProg
  [("main",
    ["str" ::= (text "qwerty");
     set_ "fd" (shm_open (text "posixtest_28-2") (eor O_RDWR O_CREAT) (eor S_IRUSR S_IWUSR));
     ret_if ("fd" == -1)%pt PTS_UNRESOLVED; set_ (LLoc "rc") (ftruncate "fd" 8);
     If (Loc "rc" != 0)%pt [ignore (shm_unlink (text "posixtest_28-2")); Return PTS_UNRESOLVED] [];
     set_ "buf" (mmap 0 8 (eor PROT_WRITE PROT_READ) MAP_SHARED "fd" 0);
     If ("buf" == MAP_FAILED)%pt [ignore (shm_unlink (text "posixtest_28-2")); Return PTS_UNRESOLVED] [];
     ignore (strcpy "buf" "str"); set_ (LLoc "rc") (close "fd");
     If (Loc "rc" != 0)%pt [ignore (shm_unlink (text "posixtest_28-2")); Return PTS_UNRESOLVED] [];
     U (shm_unlink (text "posixtest_28-2")); reject (strcmp "buf" "str") 0 (Returns PTS_PASS);
     Return PTS_FAIL])].

Definition shm_open_28_3 : sprog := SProg
  [("main",
    ["str" ::= (text "qwerty");
     set_ "fd" (shm_open (text "posixtest_28-3") (eor O_RDWR O_CREAT) (eor S_IRUSR S_IWUSR));
     ret_if ("fd" == -1)%pt PTS_UNRESOLVED; set_ (LLoc "rc") (ftruncate "fd" 8);
     If (Loc "rc" != 0)%pt [ignore (shm_unlink (text "posixtest_28-3")); Return PTS_UNRESOLVED] [];
     set_ "buf" (mmap 0 8 PROT_WRITE MAP_SHARED "fd" 0);
     If ("buf" == MAP_FAILED)%pt [ignore (shm_unlink (text "posixtest_28-3")); Return PTS_UNRESOLVED] [];
     ignore (strcpy "buf" "str"); set_ (LLoc "rc") (munmap "buf" 8);
     If (Loc "rc" != 0)%pt [ignore (shm_unlink (text "posixtest_28-3")); Return PTS_UNRESOLVED] [];
     U (shm_unlink (text "posixtest_28-3")); set_ "buf" (mmap 0 8 PROT_READ MAP_SHARED "fd" 0);
     ret_if (("buf" == MAP_FAILED) && (errno_ == (err_num EBADF)))%pt PTS_FAIL;
     ret_if ("buf" == MAP_FAILED)%pt PTS_UNRESOLVED; reject (strcmp "buf" "str") 0 (Returns PTS_PASS);
     Return PTS_FAIL])].

Definition shm_open_29_1 : sprog := SProg
  [("main",
    [Return PTS_UNTESTED])].

Definition shm_open_36_1 : sprog := SProg
  [("main",
    [Return PTS_UNTESTED])].

Definition shm_open_41_1 : sprog := SProg
  [("main",
    [set_ "result" (shm_unlink (text "posixtest_41-1"));
     ret_if (("result" != 0) && (errno_ != (err_num ENOENT)))%pt PTS_UNRESOLVED;
     set_ "fd" (shm_open (text "posixtest_41-1") O_RDONLY S_IRUSR);
     ret_if (("fd" == -1) && (errno_ == (err_num ENOENT)))%pt PTS_PASS; ret_if ("fd" != -1)%pt PTS_FAIL;
     Return PTS_FAIL])].

Definition shm_open_42_1 : sprog := SProg
  [("main",
    [Return PTS_UNTESTED])].

(** ** shm_unlink *)

Definition shm_unlink_1_1 : sprog := SProg
  [("main",
    [set_ "fd" (shm_open (text "posixtest_1-1") (eor O_RDWR O_CREAT) (eor S_IRUSR S_IWUSR));
     ret_if ("fd" == -1)%pt PTS_UNRESOLVED; set_ (LLoc "rc") (close "fd");
     If (Loc "rc" != 0)%pt [ignore (shm_unlink (text "posixtest_1-1")); Return PTS_UNRESOLVED] [];
     U (shm_unlink (text "posixtest_1-1")); set_ "fd" (shm_open (text "posixtest_1-1") O_RDONLY 0);
     ret_if (("fd" == -1) && (errno_ == (err_num ENOENT)))%pt PTS_PASS; ret_if ("fd" == -1)%pt PTS_UNRESOLVED;
     ignore (shm_unlink (text "posixtest_1-1")); Return PTS_FAIL])].

Definition shm_unlink_2_1 : sprog := SProg
  [("main",
    [set_ "fd" (shm_open (text "posixtest_2-1") (eor O_RDWR O_CREAT) (eor S_IRUSR S_IWUSR));
     ret_if ("fd" == -1)%pt PTS_UNRESOLVED; U (shm_unlink (text "posixtest_2-1"));
     set_ "fd" (shm_open (text "posixtest_2-1") O_RDONLY 0);
     ret_if (("fd" == -1) && (errno_ == (err_num ENOENT)))%pt PTS_PASS; ret_if ("fd" == -1)%pt PTS_UNRESOLVED;
     ignore (shm_unlink (text "posixtest_2-1")); Return PTS_FAIL])].

Definition shm_unlink_3_1 : sprog := SProg
  [("main",
    [set_ "fd" (shm_open (text "posixtest_3-1") (eor O_RDWR O_CREAT) (eor S_IRUSR S_IWUSR));
     ret_if ("fd" == -1)%pt PTS_UNRESOLVED; set_ (LLoc "rc") (ftruncate "fd" 8);
     If (Loc "rc" != 0)%pt [ignore (shm_unlink (text "posixtest_3-1")); Return PTS_UNRESOLVED] [];
     U (shm_unlink (text "posixtest_3-1")); set_ "buf" (mmap 0 8 PROT_READ MAP_SHARED "fd" 0);
     ret_if (("buf" == MAP_FAILED) && (errno_ == (err_num EBADF)))%pt PTS_FAIL;
     ret_if ("buf" == MAP_FAILED)%pt PTS_UNRESOLVED; Return PTS_PASS])].

Definition shm_unlink_5_1 : sprog := SProg
  [("main",
    [set_ "fd" (shm_open (text "posixtest_5-1") (eor O_RDWR O_CREAT) (eor S_IRUSR S_IWUSR));
     ret_if ("fd" == -1)%pt PTS_UNRESOLVED; U (shm_unlink (text "posixtest_5-1"));
     set_ "fd" (shm_open (text "posixtest_5-1") (eor (eor O_RDWR O_CREAT) O_EXCL) (eor S_IRUSR S_IWUSR));
     ret_if (("fd" == -1) && (errno_ == (err_num EEXIST)))%pt PTS_FAIL; ret_if ("fd" == -1)%pt PTS_UNRESOLVED;
     ignore (shm_unlink (text "posixtest_5-1")); Return PTS_PASS])].

Definition shm_unlink_6_1 : sprog := SProg
  [("main",
    [set_ "fd" (shm_open (text "posixtest_6-1") (eor O_RDWR O_CREAT) (eor S_IRUSR S_IWUSR));
     ret_if ("fd" == -1)%pt PTS_UNRESOLVED; reject (shm_unlink (text "posixtest_6-1")) 0 (Returns PTS_PASS);
     Return PTS_FAIL])].

Definition shm_unlink_11_1 : sprog := SProg
  [("main",
    [ignore (shm_unlink (text "posixtest_11-1")); set_ "result" (shm_unlink (text "posixtest_11-1"));
     ret_if (("result" == -1) && (errno_ == (err_num ENOENT)))%pt PTS_PASS;
     ret_if ("result" == -1)%pt PTS_UNRESOLVED; Return PTS_FAIL])].

(** ** All *)

(** The tests that pass on an ideal system. *)
Definition memory_tests : list sprog :=
  [mmap_1_1; mmap_1_2; mmap_3_1; mmap_5_1; mmap_6_1; mmap_6_2; mmap_6_3; mmap_6_4; mmap_6_5; mmap_6_6; mmap_7_1;
   mmap_7_2; mmap_7_3; mmap_7_4; mmap_9_1; mmap_11_1; mmap_11_2; mmap_11_3; mmap_11_4; mmap_11_5; mmap_12_1;
   mmap_13_1; mmap_14_1; mmap_19_1; mmap_21_1; mmap_31_1; munmap_1_1; munmap_1_2; munmap_2_1; munmap_3_1;
   munmap_4_1; munmap_8_1; munmap_9_1; mlock_5_1; mlock_8_1; mlock_10_1; munlock_7_1; munlock_10_1;
   munlock_11_1; mlockall_3_6; mlockall_8_1; mlockall_13_1; mlockall_13_2; munlockall_5_1; shm_open_1_1;
   shm_open_5_1; shm_open_8_1; shm_open_11_1; shm_open_13_1; shm_open_14_2; shm_open_15_1; shm_open_16_1;
   shm_open_18_1; shm_open_20_1; shm_open_20_2; shm_open_20_3; shm_open_21_1; shm_open_22_1; shm_open_25_1;
   shm_open_26_1; shm_open_28_1; shm_open_28_2; shm_open_28_3; shm_open_41_1; shm_unlink_1_1; shm_unlink_2_1;
   shm_unlink_3_1; shm_unlink_5_1; shm_unlink_6_1; shm_unlink_11_1].

(** The tests that end with PTS_UNTESTED or PTS_UNSUPPORTED. *)
Definition memory_untested : list sprog :=
  [mmap_27_1; shm_open_2_1; shm_open_3_1; shm_open_6_1; shm_open_7_1; shm_open_9_1; shm_open_10_1;
   shm_open_12_1; shm_open_19_1; shm_open_24_1; shm_open_27_1; shm_open_29_1; shm_open_36_1; shm_open_42_1].
