(* ===== verification/OsSchedTests.v ===== *)
(** * The tests of scheduling parameters

    conformance/interfaces/sched_*. The option of the sporadic server is not supported. *)

From stdpp Require Import base tactics numbers list gmap strings.
From S2P Require Import Prelude CLang OsLang OsSem.

Open Scope Z_scope.

(** ** sched_get_priority_max *)

Definition sched_get_priority_max_1_1 : sprog := SProg
  [("main",
    ["result" ::= -1; set_ "result" (sched_get_priority_max SCHED_RR);
     If (("result" != -1) && (errno_ == 0))%pt [Return PTS_PASS] [Return PTS_FAIL]])].

Definition sched_get_priority_max_1_2 : sprog := SProg
  [("main",
    ["result" ::= -1; set_ "result" (sched_get_priority_max SCHED_FIFO);
     If (("result" != -1) && (errno_ == 0))%pt [Return PTS_PASS] [Return PTS_FAIL]])].

Definition sched_get_priority_max_1_3 : sprog := SProg
  [("main",
    [Return PTS_UNSUPPORTED])].

Definition sched_get_priority_max_1_4 : sprog := SProg
  [("main",
    ["result" ::= -1; set_ "result" (sched_get_priority_max SCHED_OTHER);
     If (("result" != -1) && (errno_ == 0))%pt [Return PTS_PASS] [Return PTS_FAIL]])].

Definition sched_get_priority_max_2_1 : sprog := SProg
  [("main",
    ["result" ::= -1; set_ "result" (sched_get_priority_max (-1));
     ret_if (("result" == -1) && (errno_ == (err_num EINVAL)))%pt PTS_PASS;
     ret_if ("result" != -1)%pt PTS_FAIL;
     If (errno_ != (err_num EINVAL))%pt [Return PTS_FAIL] [Return PTS_UNRESOLVED]])].

(** ** sched_get_priority_min *)

Definition sched_get_priority_min_1_1 : sprog := SProg
  [("main",
    ["result" ::= -1; set_ "result" (sched_get_priority_min SCHED_RR);
     If (("result" != -1) && (errno_ == 0))%pt [Return PTS_PASS] [Return PTS_FAIL]])].

Definition sched_get_priority_min_1_2 : sprog := SProg
  [("main",
    ["result" ::= -1; set_ "result" (sched_get_priority_min SCHED_FIFO);
     If (("result" != -1) && (errno_ == 0))%pt [Return PTS_PASS] [Return PTS_FAIL]])].

Definition sched_get_priority_min_1_3 : sprog := SProg
  [("main",
    [Return PTS_UNSUPPORTED])].

Definition sched_get_priority_min_1_4 : sprog := SProg
  [("main",
    ["result" ::= -1; set_ "result" (sched_get_priority_min SCHED_OTHER);
     If (("result" != -1) && (errno_ == 0))%pt [Return PTS_PASS] [Return PTS_FAIL]])].

Definition sched_get_priority_min_2_1 : sprog := SProg
  [("main",
    ["result" ::= -1; set_ "result" (sched_get_priority_min (-1));
     ret_if (("result" == -1) && (errno_ == (err_num EINVAL)))%pt PTS_PASS;
     ret_if ("result" != -1)%pt PTS_FAIL;
     If (errno_ != (err_num EINVAL))%pt [Return PTS_FAIL] [Return PTS_UNRESOLVED]])].

(** ** sched_getparam *)

Definition sched_getparam_1_1 : sprog := SProg
  [("main",
    ["result" ::= -1; "param.sched_priority" ::= -1; set_ (LLoc "rc") getpid;
     set_ "result" (sched_getparam (Loc "rc") [LVar "param.sched_priority"]);
     ret_if ((("result" == 0) && ("param.sched_priority" != -1)) && (errno_ == 0))%pt PTS_PASS;
     ret_if ("result" != 0)%pt PTS_FAIL; ret_if (errno_ != 0)%pt PTS_FAIL;
     ret_if ("param.sched_priority" == -1)%pt PTS_FAIL; Return PTS_UNRESOLVED])].

Definition sched_getparam_2_1 : sprog := SProg
  [("main",
    ["param0.sched_priority" ::= -1; "param1.sched_priority" ::= -1;
     set_ "result0" (sched_getparam 0 [LVar "param0.sched_priority"]); set_ (LLoc "rc") getpid;
     set_ "result1" (sched_getparam (Loc "rc") [LVar "param1.sched_priority"]);
     If ((("result0" == "result1") && ("param0.sched_priority" == "param1.sched_priority")) && (errno_ == 0))%pt
       [Return PTS_PASS]
       [Return PTS_FAIL]])].

Definition sched_getparam_3_1 : sprog := SProg
  [("main",
    ["result" ::= -1; "param.sched_priority" ::= -1;
     set_ "result" (sched_getparam 0 [LVar "param.sched_priority"]);
     ret_if ((("result" == 0) && ("param.sched_priority" != -1)) && (errno_ == 0))%pt PTS_PASS;
     ret_if (errno_ != 0)%pt PTS_FAIL; If ("result" != 0)%pt [Return PTS_FAIL] [Return PTS_UNRESOLVED]])].

Definition sched_getparam_4_1 : sprog := SProg
  [("main",
    ["result" ::= -1; set_ "child_pid" fork; ret_if ("child_pid" == -1)%pt PTS_UNRESOLVED;
     exit_if ("child_pid" == 0)%pt 0; Um (wait [LVar "stat_loc"]);
     set_ "result" (sched_getparam "child_pid" [LVar "param.sched_priority"]);
     ret_if (("result" == -1) && (errno_ == (err_num ESRCH)))%pt PTS_PASS;
     ret_if ("result" != -1)%pt PTS_FAIL;
     If (errno_ != (err_num ESRCH))%pt [Return PTS_FAIL] [Return PTS_UNRESOLVED]])].

(** ** sched_getscheduler *)

Definition sched_getscheduler_1_1 : sprog := SProg
  [("main",
    ["result0" ::= -1; "result1" ::= -1; set_ "result0" (sched_getscheduler 0); set_ (LLoc "rc") getpid;
     set_ "result1" (sched_getscheduler (Loc "rc"));
     ret_if (("result0" == "result1") && (errno_ == 0))%pt PTS_PASS;
     If ("result0" != "result1")%pt [Return PTS_FAIL] [Return PTS_FAIL]])].

Definition sched_getscheduler_2_1 : sprog := SProg
  [("main",
    [Return PTS_UNTESTED])].

Definition sched_getscheduler_4_1 : sprog := SProg
  [("main",
    ["result" ::= -1; set_ "result" (sched_getscheduler 0);
     ret_if (("result" != -1) && (errno_ == 0))%pt PTS_PASS;
     If (errno_ != 0)%pt [Return PTS_FAIL] [Return PTS_UNRESOLVED]])].

Definition sched_getscheduler_5_1 : sprog := SProg
  [("main",
    ["result" ::= -1; set_ "child_pid" fork; ret_if ("child_pid" == -1)%pt PTS_UNRESOLVED;
     exit_if ("child_pid" == 0)%pt 0; Um (wait [LVar "stat_loc"]);
     set_ "result" (sched_getscheduler "child_pid"); ret_if ("result" == -1)%pt PTS_PASS;
     ret_if (errno_ != (err_num ESRCH))%pt PTS_FAIL;
     If ("result" != -1)%pt [Return PTS_FAIL] [Return PTS_UNRESOLVED]])].

(** ** sched_rr_get_interval *)

Definition sched_rr_get_interval_1_1 : sprog := SProg
  [("main",
    ["result0" ::= -1; "result1" ::= -1; "interval0.tv_sec" ::= -1; "interval0.tv_nsec" ::= -1;
     "interval1.tv_sec" ::= -1; "interval1.tv_nsec" ::= -1;
     set_ "result0" (sched_rr_get_interval 0 (ts "interval0")); set_ (LLoc "rc") getpid;
     set_ "result1" (sched_rr_get_interval (Loc "rc") (ts "interval1"));
     ret_if (((("result0" == "result1") && ("interval0.tv_sec" == "interval1.tv_sec")) && ("interval0.tv_nsec" == "interval1.tv_nsec")) && (errno_ == 0))%pt PTS_PASS;
     If (errno_ != 0)%pt [Return PTS_FAIL] [Return PTS_FAIL]])].

Definition sched_rr_get_interval_2_1 : sprog := SProg
  [("main",
    ["result" ::= -2; "interval.tv_sec" ::= -1; "interval.tv_nsec" ::= -1;
     set_ "result" (sched_rr_get_interval 0 (ts "interval"));
     ret_if (((("result" == 0) && (0 <= "interval.tv_sec")) && (0 <= "interval.tv_nsec")) && (errno_ == 0))%pt PTS_PASS;
     ret_if ("interval.tv_sec" == -1)%pt PTS_FAIL; ret_if ("interval.tv_nsec" == -1)%pt PTS_FAIL;
     ret_if ("result" != 0)%pt PTS_FAIL; If (errno_ != 0)%pt [Return PTS_FAIL] [Return PTS_UNRESOLVED]])].

Definition sched_rr_get_interval_3_1 : sprog := SProg
  [("main",
    ["result" ::= -2; set_ "child_pid" fork; ret_if ("child_pid" == -1)%pt PTS_UNRESOLVED;
     exit_if ("child_pid" == 0)%pt 0; Um (wait [LVar "stat_loc"]);
     set_ "result" (sched_rr_get_interval "child_pid" (ts "interval"));
     ret_if (("result" == -1) && (errno_ == (err_num ESRCH)))%pt PTS_PASS;
     ret_if (errno_ != (err_num ESRCH))%pt PTS_FAIL;
     If ("result" == 0)%pt [Return PTS_FAIL] [Return PTS_UNRESOLVED]])].

(** ** sched_setparam *)

Definition sched_setparam_1_1 : sprog := SProg
  [("main",
    [set_ "child_pid" fork; ret_if ("child_pid" == -1)%pt PTS_UNRESOLVED;
     If ("child_pid" == 0)%pt [ignore (call_fn "child_proc")] [];
     set_ (LLoc "rc") (sched_getparam "child_pid" [LVar "param.sched_priority"]);
     If (Loc "rc" != 0)%pt [ignore (kill "child_pid" SIGUSR1); Return PTS_UNRESOLVED] [];
     "old_priority" ::= "param.sched_priority"; set_ "policy" (sched_getscheduler 0);
     ret_if ("policy" == -1)%pt PTS_UNRESOLVED; set_ "min_priority" (sched_get_priority_min "policy");
     If ("param.sched_priority" == "min_priority")%pt
       [set_ "param.sched_priority" (sched_get_priority_max "policy"); LLoc "rc" ::= "param.sched_priority"]
       ["param.sched_priority" ::= "min_priority"; LLoc "rc" ::= "param.sched_priority"];
     "new_priority" ::= Loc "rc"; set_ "result" (sched_setparam "child_pid" "param.sched_priority");
     "tmp_errno" ::= errno_; set_ (LLoc "rc") (sched_getparam "child_pid" [LVar "param.sched_priority"]);
     If (Loc "rc" != 0)%pt [ignore (kill "child_pid" SIGUSR1); Return PTS_UNRESOLVED] [];
     If (("result" == 0) && ("param.sched_priority" == "new_priority"))%pt
       [ignore (kill "child_pid" SIGUSR1); Return PTS_PASS]
       [If (("result" == 0) && ("param.sched_priority" == "old_priority"))%pt
          [ignore (kill "child_pid" SIGUSR1); Return PTS_FAIL]
          [If (("result" == -1) && ("tmp_errno" == (err_num EPERM)))%pt
             [ignore (kill "child_pid" SIGUSR1); Return PTS_UNRESOLVED]
             [If (("result" == -1) && ("tmp_errno" == (err_num EINVAL)))%pt
                ["new_priority" ::= "new_priority" - 2; "param.sched_priority" ::= "new_priority";
                 set_ "result" (sched_setparam "child_pid" "param.sched_priority");
                 If (("result" == 0) && ("param.sched_priority" == "new_priority"))%pt
                   [ignore (kill "child_pid" SIGUSR1); Return PTS_PASS]
                   []]
                []]]];
     ignore (kill "child_pid" SIGUSR1); Return PTS_FAIL]);
   ("child_proc",
    ["sigset" ::= 0; "sigset" ::= add_sig "sigset" SIGUSR1; check (sigwait "sigset" (LVar "sig")) (Exits 1);
     Exit 0])].

Definition sched_setparam_3_1 : sprog := SProg
  [("main",
    [Return PTS_UNTESTED])].

Definition sched_setparam_5_1 : sprog := SProg
  [("main",
    [set_ (LLoc "rc") getpid; U (sched_getparam (Loc "rc") [LVar "param.sched_priority"]);
     set_ (LLoc "rc") getpid; set_ "policy" (sched_getscheduler (Loc "rc"));
     ret_if ("policy" == -1)%pt PTS_UNRESOLVED; set_ "max_prio" (sched_get_priority_max "policy");
     "old_priority" ::= "param.sched_priority";
     If ("old_priority" == "max_prio")%pt
       [set_ (LLoc "rc") (sched_get_priority_min "policy"); LLoc "rc2" ::= Loc "rc"]
       [LLoc "rc2" ::= "max_prio"];
     "new_priority" ::= Loc "rc2"; "param.sched_priority" ::= "new_priority";
     set_ "result" (sched_setparam 0 "param.sched_priority"); set_ (LLoc "rc") getpid;
     U (sched_getparam (Loc "rc") [LVar "param.sched_priority"]);
     ret_if (("result" == 0) && ("param.sched_priority" == "new_priority"))%pt PTS_PASS;
     ret_if (("result" == 0) && ("param.sched_priority" == "old_priority"))%pt PTS_FAIL;
     ret_if (("result" == -1) && (errno_ == (err_num EPERM)))%pt PTS_UNRESOLVED; Return PTS_FAIL])].

Definition sched_setparam_6_1 : sprog := SProg
  [("main",
    [Return PTS_UNTESTED])].

Definition sched_setparam_7_1 : sprog := SProg
  [("main",
    [Return PTS_UNTESTED])].

Definition sched_setparam_8_1 : sprog := SProg
  [("main",
    [Return PTS_UNTESTED])].

Definition sched_setparam_12_1 : sprog := SProg
  [("main",
    [Return PTS_UNSUPPORTED])].

Definition sched_setparam_13_1 : sprog := SProg
  [("main",
    [Return PTS_UNSUPPORTED])].

Definition sched_setparam_14_1 : sprog := SProg
  [("main",
    [Return PTS_UNSUPPORTED])].

Definition sched_setparam_15_1 : sprog := SProg
  [("main",
    [Return PTS_UNSUPPORTED])].

Definition sched_setparam_16_1 : sprog := SProg
  [("main",
    [Return PTS_UNSUPPORTED])].

Definition sched_setparam_17_1 : sprog := SProg
  [("main",
    [Return PTS_UNTESTED])].

Definition sched_setparam_18_1 : sprog := SProg
  [("main",
    [Return PTS_UNTESTED])].

Definition sched_setparam_19_1 : sprog := SProg
  [("main",
    [Return PTS_UNTESTED])].

Definition sched_setparam_22_1 : sprog := SProg
  [("main",
    [Um (sched_getparam 0 [LVar "param.sched_priority"]);
     set_ "result" (sched_setparam 0 "param.sched_priority"); ret_if ("result" == 0)%pt PTS_PASS;
     If (errno_ == (err_num EPERM))%pt [Return PTS_UNRESOLVED] [Return PTS_FAIL]])].

Definition sched_setparam_23_1 : sprog := SProg
  [("main",
    [U (sched_getparam 0 [LVar "param.sched_priority"]); "old_priority" ::= "param.sched_priority";
     set_ "policy" (sched_getscheduler 0); ret_if ("policy" == -1)%pt PTS_UNRESOLVED;
     set_ "invalid_priority" (sched_get_priority_max "policy");
     ret_if ("invalid_priority" == -1)%pt PTS_UNRESOLVED; "invalid_priority" ::= "invalid_priority" + 1;
     "param.sched_priority" ::= "invalid_priority"; ignore (sched_setparam 0 "param.sched_priority");
     U (sched_getparam 0 [LVar "param.sched_priority"]);
     If ("param.sched_priority" == "old_priority")%pt [Return PTS_PASS] [Return PTS_FAIL]])].

Definition sched_setparam_23_2 : sprog := SProg
  [("main",
    [Return PTS_UNSUPPORTED])].

Definition sched_setparam_23_3 : sprog := SProg
  [("main",
    [Return PTS_UNSUPPORTED])].

Definition sched_setparam_23_4 : sprog := SProg
  [("main",
    [Return PTS_UNSUPPORTED])].

Definition sched_setparam_23_5 : sprog := SProg
  [("main",
    [Return PTS_UNSUPPORTED])].

Definition sched_setparam_23_7 : sprog := SProg
  [("main",
    [Um (sched_getparam 0 [LVar "param.sched_priority"]); "old_priority" ::= "param.sched_priority";
     set_ "child_pid" fork; ret_if ("child_pid" == -1)%pt PTS_UNRESOLVED; exit_if ("child_pid" == 0)%pt 0;
     Um (wait [LVar "stat_loc"]); "param.sched_priority" ::= "param.sched_priority" + 1;
     ignore (sched_setparam "child_pid" "param.sched_priority");
     U (sched_getparam 0 [LVar "param.sched_priority"]);
     If ("param.sched_priority" == "old_priority")%pt [Return PTS_PASS] [Return PTS_FAIL]])].

Definition sched_setparam_25_1 : sprog := SProg
  [("main",
    [set_ "policy" (sched_getscheduler 0); ret_if ("policy" == -1)%pt PTS_UNRESOLVED;
     set_ "invalid_priority" (sched_get_priority_max "policy");
     ret_if ("invalid_priority" == -1)%pt PTS_UNRESOLVED; "invalid_priority" ::= "invalid_priority" + 1;
     "param.sched_priority" ::= "invalid_priority"; set_ "result" (sched_setparam 0 "param.sched_priority");
     ret_if (("result" == -1) && (errno_ == (err_num EINVAL)))%pt PTS_PASS;
     ret_if ("result" != -1)%pt PTS_FAIL;
     If (errno_ == (err_num EPERM))%pt [Return PTS_UNRESOLVED] [Return PTS_FAIL]])].

Definition sched_setparam_25_2 : sprog := SProg
  [("main",
    [Return PTS_UNSUPPORTED])].

Definition sched_setparam_26_1 : sprog := SProg
  [("main",
    [reject getuid 0 (Returns PTS_UNTESTED); Um (sched_getparam 0 [LVar "param.sched_priority"]);
     set_ "result" (sched_setparam 1 "param.sched_priority");
     ret_if (("result" == -1) && (errno_ == (err_num EPERM)))%pt PTS_PASS;
     If (errno_ != (err_num EPERM))%pt [Return PTS_FAIL] [Return PTS_FAIL]])].

Definition sched_setparam_27_1 : sprog := SProg
  [("main",
    [Um (sched_getparam 0 [LVar "param.sched_priority"]); set_ "child_pid" fork;
     ret_if ("child_pid" == -1)%pt PTS_UNRESOLVED; exit_if ("child_pid" == 0)%pt 0;
     Um (wait [LVar "stat_loc"]); set_ "result" (sched_setparam "child_pid" "param.sched_priority");
     ret_if (("result" == -1) && (errno_ == (err_num ESRCH)))%pt PTS_PASS;
     ret_if ("result" != -1)%pt PTS_FAIL;
     If (errno_ == (err_num EPERM))%pt [Return PTS_UNRESOLVED] [Return PTS_FAIL]])].

(** ** sched_setscheduler *)

Definition sched_setscheduler_1_1 : sprog := SProg
  [("main",
    ["result" ::= PTS_PASS; "tst" ::= "sym";
     While "tst.name"
       ["policy" ::= "tst.value"; set_ (LLoc "rc") (sched_get_priority_min "policy");
        set_ (LLoc "rc2") (sched_get_priority_max "policy");
        "priority" ::= Op Z.quot (Loc "rc" + Loc "rc2")%pt 2; "param.sched_priority" ::= "priority";
        set_ (LLoc "rc") getpid; set_ "tmp" (sched_setscheduler (Loc "rc") "policy" "param.sched_priority");
        If (("tmp" == -1) || (errno_ != 0))%pt
          [If ("result" != PTS_FAIL)%pt ["result" ::= PTS_UNRESOLVED] []; "tst" ::= "tst" + 1]
          [set_ (LLoc "rc") getpid; U (sched_getparam (Loc "rc") [LVar "param.sched_priority"]);
           set_ (LLoc "rc") getpid; set_ (LLoc "rc2") (sched_getscheduler (Loc "rc"));
           If ("policy" != Loc "rc2")%pt ["result" ::= PTS_FAIL] [];
           If ("priority" != "param.sched_priority")%pt ["result" ::= PTS_FAIL] []; "tst" ::= "tst" + 1]];
     Return "result"])].

Definition sched_setscheduler_2_1 : sprog := SProg
  [("main",
    [Return PTS_UNTESTED])].

Definition sched_setscheduler_4_1 : sprog := SProg
  [("main",
    [set_ (LLoc "rc") getpid; U (sched_getparam (Loc "rc") [LVar "param.sched_priority"]);
     set_ (LLoc "rc") getpid; set_ "old_policy" (sched_getscheduler (Loc "rc"));
     ret_if ("old_policy" == -1)%pt PTS_UNRESOLVED;
     If ("old_policy" == SCHED_FIFO)%pt [LLoc "rc" ::= SCHED_RR] [LLoc "rc" ::= SCHED_FIFO];
     "new_policy" ::= Loc "rc"; set_ "max_prio" (sched_get_priority_max "new_policy");
     "old_priority" ::= "param.sched_priority";
     If ("old_priority" == "max_prio")%pt
       [set_ "param.sched_priority" (sched_get_priority_min "new_policy");
        LLoc "rc" ::= "param.sched_priority"]
       ["param.sched_priority" ::= "max_prio"; LLoc "rc" ::= "param.sched_priority"];
     "new_priority" ::= Loc "rc"; set_ "result" (sched_setscheduler 0 "new_policy" "param.sched_priority");
     set_ (LLoc "rc") getpid; U (sched_getparam (Loc "rc") [LVar "param.sched_priority"]);
     set_ (LLoc "rc") getpid; set_ "test_policy" (sched_getscheduler (Loc "rc"));
     ret_if ("test_policy" == -1)%pt PTS_UNRESOLVED;
     ret_if ((("result" != -1) && ("param.sched_priority" == "new_priority")) && ("test_policy" == "new_policy"))%pt PTS_PASS;
     ret_if (("result" != -1) && (("param.sched_priority" == "old_priority") || ("test_policy" == "old_policy")))%pt PTS_FAIL;
     ret_if (("result" == -1) && (errno_ == (err_num EPERM)))%pt PTS_UNRESOLVED; Return PTS_FAIL])].

Definition sched_setscheduler_5_1 : sprog := SProg
  [("main",
    [Return PTS_UNTESTED])].

Definition sched_setscheduler_6_1 : sprog := SProg
  [("main",
    [Return PTS_UNTESTED])].

Definition sched_setscheduler_7_1 : sprog := SProg
  [("main",
    [Return PTS_UNTESTED])].

Definition sched_setscheduler_9_1 : sprog := SProg
  [("main",
    [Return PTS_UNSUPPORTED])].

Definition sched_setscheduler_10_1 : sprog := SProg
  [("main",
    [Return PTS_UNSUPPORTED])].

Definition sched_setscheduler_11_1 : sprog := SProg
  [("main",
    [Return PTS_UNSUPPORTED])].

Definition sched_setscheduler_12_1 : sprog := SProg
  [("main",
    [Return PTS_UNTESTED])].

Definition sched_setscheduler_13_1 : sprog := SProg
  [("main",
    [Return PTS_UNTESTED])].

Definition sched_setscheduler_14_1 : sprog := SProg
  [("main",
    [Return PTS_UNTESTED])].

Definition sched_setscheduler_16_1 : sprog := SProg
  [("main",
    [set_ (LLoc "rc") getpid; set_ "old_policy" (sched_getscheduler (Loc "rc"));
     ret_if ("old_policy" == -1)%pt PTS_UNRESOLVED;
     If ("old_policy" == SCHED_FIFO)%pt [LLoc "rc" ::= SCHED_RR] [LLoc "rc" ::= SCHED_FIFO];
     "new_policy" ::= Loc "rc"; set_ "param.sched_priority" (sched_get_priority_max "new_policy");
     set_ "result" (sched_setscheduler 0 "new_policy" "param.sched_priority");
     ret_if ("result" == "old_policy")%pt PTS_PASS;
     ret_if (("result" == -1) && (errno_ == (err_num EPERM)))%pt PTS_UNRESOLVED; Return PTS_FAIL])].

Definition sched_setscheduler_17_1 : sprog := SProg
  [("main",
    ["result" ::= PTS_PASS; "tst" ::= "sym";
     While "tst.name"
       ["policy" ::= "tst.value"; set_ (LLoc "rc") getpid;
        U (sched_getparam (Loc "rc") [LVar "param.sched_priority"]);
        "old_priority" ::= "param.sched_priority"; set_ (LLoc "rc") getpid;
        set_ "old_policy" (sched_getscheduler (Loc "rc")); ret_if ("old_policy" == -1)%pt PTS_UNRESOLVED;
        set_ "invalid_priority" (sched_get_priority_max "policy");
        ret_if ("invalid_priority" == -1)%pt PTS_UNRESOLVED; "invalid_priority" ::= "invalid_priority" + 1;
        "param.sched_priority" ::= "invalid_priority";
        ignore (sched_setscheduler 0 "policy" "param.sched_priority"); set_ (LLoc "rc") getpid;
        U (sched_getparam (Loc "rc") [LVar "param.sched_priority"]); set_ (LLoc "rc") getpid;
        set_ "new_policy" (sched_getscheduler (Loc "rc")); ret_if ("new_policy" == -1)%pt PTS_UNRESOLVED;
        If (negb_ (("old_policy" == "new_policy") && ("old_priority" == "param.sched_priority"))%pt)
          ["result" ::= PTS_FAIL]
          [];
        "tst" ::= "tst" + 1];
     Return "result"])].

Definition sched_setscheduler_17_2 : sprog := SProg
  [("main",
    [Return PTS_UNSUPPORTED])].

Definition sched_setscheduler_17_3 : sprog := SProg
  [("main",
    [Return PTS_UNSUPPORTED])].

Definition sched_setscheduler_17_4 : sprog := SProg
  [("main",
    [Return PTS_UNSUPPORTED])].

Definition sched_setscheduler_17_5 : sprog := SProg
  [("main",
    ["invalid_policy" ::= 0;
     While ((("invalid_policy" == SCHED_OTHER) || ("invalid_policy" == SCHED_FIFO)) || ("invalid_policy" == SCHED_RR))%pt
       ["invalid_policy" ::= "invalid_policy" + 1];
     set_ (LLoc "rc") getpid; Um (sched_getparam (Loc "rc") [LVar "param.sched_priority"]);
     "old_priority" ::= "param.sched_priority"; set_ (LLoc "rc") getpid;
     set_ "old_policy" (sched_getscheduler (Loc "rc")); ret_if ("old_policy" == -1)%pt PTS_UNRESOLVED;
     ignore (sched_setscheduler 0 "invalid_policy" "param.sched_priority");
     ret_if (errno_ == 0)%pt PTS_UNRESOLVED; set_ (LLoc "rc") getpid;
     U (sched_getparam (Loc "rc") [LVar "param.sched_priority"]); set_ (LLoc "rc") getpid;
     set_ "new_policy" (sched_getscheduler (Loc "rc")); ret_if ("new_policy" == -1)%pt PTS_UNRESOLVED;
     ret_if (("old_policy" == "new_policy") && ("old_priority" == "param.sched_priority"))%pt PTS_PASS;
     Return PTS_FAIL])].

Definition sched_setscheduler_17_6 : sprog := SProg
  [("main",
    [reject getuid 0 (Returns PTS_UNTESTED); set_ (LLoc "rc") getpid;
     Um (sched_getparam (Loc "rc") [LVar "param.sched_priority"]); "old_priority" ::= "param.sched_priority";
     set_ (LLoc "rc") getpid; set_ "old_policy" (sched_getscheduler (Loc "rc"));
     ret_if ("old_policy" == -1)%pt PTS_UNRESOLVED;
     If ("old_policy" == SCHED_FIFO)%pt [LLoc "rc" ::= SCHED_RR] [LLoc "rc" ::= SCHED_FIFO];
     "policy" ::= Loc "rc"; set_ "max_priority" (sched_get_priority_max "policy");
     If ("old_priority" == "max_priority")%pt
       [set_ (LLoc "rc") (sched_get_priority_min "policy"); LLoc "rc2" ::= Loc "rc"]
       [LLoc "rc2" ::= "max_priority"];
     "param.sched_priority" ::= Loc "rc2"; ignore (sched_setscheduler 1 "policy" "param.sched_priority");
     set_ (LLoc "rc") getpid; U (sched_getparam (Loc "rc") [LVar "param.sched_priority"]);
     set_ (LLoc "rc") getpid; set_ "new_policy" (sched_getscheduler (Loc "rc"));
     ret_if ("new_policy" == -1)%pt PTS_UNRESOLVED;
     ret_if (("old_policy" == "new_policy") && ("old_priority" == "param.sched_priority"))%pt PTS_PASS;
     Return PTS_FAIL])].

Definition sched_setscheduler_17_7 : sprog := SProg
  [("main",
    [set_ (LLoc "rc") getpid; Um (sched_getparam (Loc "rc") [LVar "param.sched_priority"]);
     "old_priority" ::= "param.sched_priority"; set_ (LLoc "rc") getpid;
     set_ "old_policy" (sched_getscheduler (Loc "rc")); ret_if ("old_policy" == -1)%pt PTS_UNRESOLVED;
     If ("old_policy" == SCHED_FIFO)%pt [LLoc "rc" ::= SCHED_RR] [LLoc "rc" ::= SCHED_FIFO];
     "policy" ::= Loc "rc"; set_ "max_priority" (sched_get_priority_max "policy");
     If ("old_priority" == "max_priority")%pt
       [set_ (LLoc "rc") (sched_get_priority_min "policy"); LLoc "rc2" ::= Loc "rc"]
       [LLoc "rc2" ::= "max_priority"];
     "param.sched_priority" ::= Loc "rc2"; set_ "child_pid" fork;
     ret_if ("child_pid" == -1)%pt PTS_UNRESOLVED; exit_if ("child_pid" == 0)%pt 0;
     Um (wait [LVar "stat_loc"]); ignore (sched_setscheduler "child_pid" "policy" "param.sched_priority");
     set_ (LLoc "rc") getpid; U (sched_getparam (Loc "rc") [LVar "param.sched_priority"]);
     set_ (LLoc "rc") getpid; set_ "new_policy" (sched_getscheduler (Loc "rc"));
     ret_if ("new_policy" == -1)%pt PTS_UNRESOLVED;
     ret_if (("old_policy" == "new_policy") && ("old_priority" == "param.sched_priority"))%pt PTS_PASS;
     Return PTS_FAIL])].

Definition sched_setscheduler_19_1 : sprog := SProg
  [("main",
    ["result" ::= PTS_PASS; "tst" ::= "sym";
     While "tst.name"
       ["policy" ::= "tst.value"; set_ "invalid_priority" (sched_get_priority_max "policy");
        ret_if ("invalid_priority" == -1)%pt PTS_UNRESOLVED; "invalid_priority" ::= "invalid_priority" + 1;
        "param.sched_priority" ::= "invalid_priority";
        set_ "tmp" (sched_setscheduler 0 "policy" "param.sched_priority");
        If (negb_ (("tmp" == -1) && (errno_ == (err_num EINVAL)))%pt)
          [If ("tmp" != -1)%pt
             ["result" ::= PTS_FAIL]
             [If (errno_ == (err_num EPERM))%pt
                [If ("result" != PTS_FAIL)%pt ["result" ::= PTS_UNRESOLVED] []]
                ["result" ::= PTS_FAIL]]]
          [];
        "tst" ::= "tst" + 1];
     Return "result"])].

Definition sched_setscheduler_19_2 : sprog := SProg
  [("main",
    [Return PTS_UNSUPPORTED])].

Definition sched_setscheduler_19_3 : sprog := SProg
  [("main",
    [Return PTS_UNSUPPORTED])].

Definition sched_setscheduler_19_4 : sprog := SProg
  [("main",
    [Return PTS_UNSUPPORTED])].

Definition sched_setscheduler_19_5 : sprog := SProg
  [("main",
    ["param.sched_priority" ::= 0; set_ "result" (sched_setscheduler 0 (-1) "param.sched_priority");
     ret_if (("result" == -1) && (errno_ == (err_num EINVAL)))%pt PTS_PASS;
     ret_if (errno_ == (err_num EPERM))%pt PTS_UNRESOLVED; If (errno_ != 0)%pt [Return PTS_FAIL] [];
     set_ "result" (sched_setscheduler 0 (-27367) "param.sched_priority");
     ret_if (("result" == -1) && (errno_ == (err_num EINVAL)))%pt PTS_PASS;
     If (errno_ == 0)%pt [Return PTS_UNRESOLVED] [Return PTS_FAIL]])].

Definition sched_setscheduler_21_1 : sprog := SProg
  [("main",
    [set_ "param.sched_priority" (sched_get_priority_max SCHED_FIFO); set_ "child_pid" fork;
     ret_if ("child_pid" == -1)%pt PTS_UNRESOLVED; exit_if ("child_pid" == 0)%pt 0;
     Um (wait [LVar "stat_loc"]);
     set_ "result" (sched_setscheduler "child_pid" SCHED_FIFO "param.sched_priority");
     ret_if (("result" == -1) && (errno_ == (err_num ESRCH)))%pt PTS_PASS;
     ret_if ("result" != -1)%pt PTS_FAIL;
     If (errno_ == (err_num EPERM))%pt [Return PTS_UNRESOLVED] [Return PTS_FAIL]])].

(** ** All *)

(** The tests that pass on an ideal system. *)
Definition sched_tests : list sprog :=
  [sched_get_priority_max_1_1; sched_get_priority_max_1_2; sched_get_priority_max_1_4;
   sched_get_priority_max_2_1; sched_get_priority_min_1_1; sched_get_priority_min_1_2;
   sched_get_priority_min_1_4; sched_get_priority_min_2_1; sched_getparam_1_1; sched_getparam_2_1;
   sched_getparam_3_1; sched_getparam_4_1; sched_getscheduler_1_1; sched_getscheduler_4_1;
   sched_getscheduler_5_1; sched_rr_get_interval_1_1; sched_rr_get_interval_2_1; sched_rr_get_interval_3_1;
   sched_setparam_1_1; sched_setparam_5_1; sched_setparam_22_1; sched_setparam_23_1; sched_setparam_23_7;
   sched_setparam_25_1; sched_setparam_27_1; sched_setscheduler_1_1; sched_setscheduler_4_1;
   sched_setscheduler_16_1; sched_setscheduler_17_1; sched_setscheduler_17_5; sched_setscheduler_17_7;
   sched_setscheduler_19_1; sched_setscheduler_19_5; sched_setscheduler_21_1].

(** The tests that end with PTS_UNTESTED or PTS_UNSUPPORTED. *)
Definition sched_untested : list sprog :=
  [sched_get_priority_max_1_3; sched_get_priority_min_1_3; sched_getscheduler_2_1; sched_setparam_3_1;
   sched_setparam_6_1; sched_setparam_7_1; sched_setparam_8_1; sched_setparam_12_1; sched_setparam_13_1;
   sched_setparam_14_1; sched_setparam_15_1; sched_setparam_16_1; sched_setparam_17_1; sched_setparam_18_1;
   sched_setparam_19_1; sched_setparam_23_2; sched_setparam_23_3; sched_setparam_23_4; sched_setparam_23_5;
   sched_setparam_25_2; sched_setparam_26_1; sched_setscheduler_2_1; sched_setscheduler_5_1;
   sched_setscheduler_6_1; sched_setscheduler_7_1; sched_setscheduler_9_1; sched_setscheduler_10_1;
   sched_setscheduler_11_1; sched_setscheduler_12_1; sched_setscheduler_13_1; sched_setscheduler_14_1;
   sched_setscheduler_17_2; sched_setscheduler_17_3; sched_setscheduler_17_4; sched_setscheduler_17_6;
   sched_setscheduler_19_2; sched_setscheduler_19_3; sched_setscheduler_19_4].
