(* ===== verification/OsFunctionalTests.v ===== *)
(** * Functional tests of clocks, timers and message queues with processes

    functional/timers/{clocks,timers} and functional/mqueues/send_rev_1.c. *)

From stdpp Require Import base tactics numbers list gmap strings.
From S2P Require Import Prelude CLang OsLang OsSem.

Open Scope Z_scope.

(** ** Clocks *)

Definition invaliddates_testtimes : list Z :=
  [0; 0; INT32_MAX; 999999999; 946713600; 999999999; 951811200; 999999999; 1078041600; 999999999; 1049623200;
    999999999].

Definition invaliddates : sprog := SProg
  [("main",
    ["failure" ::= 0; U (clock_gettime CLOCK_REALTIME (ts "tsreset")); "i" ::= 0;
     While ("i" < 6)%pt
       ["tpset.tv_sec" ::= at_ invaliddates_testtimes ("i" * 2)%pt;
        "tpset.tv_nsec" ::= at_ invaliddates_testtimes ("i" * 2 + 1)%pt;
        U (clock_settime CLOCK_REALTIME "tpset.tv_sec" "tpset.tv_nsec");
        Um (clock_gettime CLOCK_REALTIME (ts "tpget")); "secdelta" ::= "tpget.tv_sec" - "tpset.tv_sec";
        "nsecdelta" ::= "tpget.tv_nsec" - "tpset.tv_nsec";
        If ("nsecdelta" < 0)%pt ["nsecdelta" ::= "nsecdelta" + 1000000000; "secdelta" ::= "secdelta" - 1] [];
        If ((0 < "secdelta") || ("secdelta" < 0))%pt ["failure" ::= 1] [];
        If ((5000 < "nsecdelta") || ("nsecdelta" < 0))%pt ["failure" ::= 1] [];
        U (clock_settime CLOCK_REALTIME "tsreset.tv_sec" "tsreset.tv_nsec"); "i" ::= "i" + 1];
     U (clock_settime CLOCK_REALTIME "tsreset.tv_sec" "tsreset.tv_nsec"); ret_if "failure" PTS_FAIL;
     Return PTS_PASS])].

Definition twopsetclock : sprog := SProg
  [("main",
    [U (clock_gettime CLOCK_REALTIME (ts "tsreset")); set_ "pid" fork;
     If ("pid" == 0)%pt
       ["tschild.tv_sec" ::= 1037128363; "tschild.tv_nsec" ::= 0;
        ignore (clock_settime CLOCK_REALTIME "tschild.tv_sec" "tschild.tv_nsec");
        ignore (clock_gettime CLOCK_REALTIME (ts "tpget"))]
       ["pass" ::= 0; "tsparent.tv_sec" ::= 1037128353; "tsparent.tv_nsec" ::= 0;
        ignore (clock_settime CLOCK_REALTIME "tsparent.tv_sec" "tsparent.tv_nsec"); ignore (sleep 3);
        ignore (clock_gettime CLOCK_REALTIME (ts "tpget")); "delta" ::= "tpget.tv_sec" - 3 - 1037128358;
        If (("delta" <= -4) || ("delta" <= 6))%pt ["pass" ::= 1] [];
        ignore (clock_settime CLOCK_REALTIME "tsreset.tv_sec" "tsreset.tv_nsec");
        If "pass" [Return PTS_PASS] [Return PTS_FAIL]];
     Return PTS_UNRESOLVED])].

(** ** Timers *)

Definition twoevtimers : sprog := SProg
  [("main",
    ["caughtabort" ::= 0; "caughtalarm" ::= 0; "flags" ::= 0;
     set_ (LLoc "rc") (sigaction SIGABRT "handler_abrt" 0 0); LLoc "rc3" ::= 1;
     If (Loc "rc" == 0)%pt
       [set_ (LLoc "rc2") (sigaction SIGALRM "handler_alrm" 0 0); LLoc "rc3" ::= Loc "rc2" != 0]
       [];
     ret_if (Loc "rc3") PTS_UNRESOLVED;
     set_ (LLoc "rc") (timer_create CLOCK_REALTIME SIGEV_SIGNAL SIGABRT 0 (LVar "tid1")); LLoc "rc3" ::= 1;
     If (Loc "rc" == 0)%pt
       [set_ (LLoc "rc2") (timer_create CLOCK_REALTIME SIGEV_SIGNAL SIGALRM 0 (LVar "tid2"));
        LLoc "rc3" ::= Loc "rc2" != 0]
       [];
     ret_if (Loc "rc3") PTS_UNRESOLVED; U (clock_gettime CLOCK_REALTIME (ts "ts"));
     "its.it_value.tv_sec" ::= "ts.tv_sec" + 3; "its.it_value.tv_nsec" ::= "ts.tv_nsec";
     "its.it_interval.tv_sec" ::= 0; "its.it_interval.tv_nsec" ::= 0; "flags" ::= eor "flags" TIMER_ABSTIME;
     U (timer_settime "tid1" "flags" (its "its") []); U (timer_settime "tid2" "flags" (its "its") []);
     ignore (sleep 4);
     If (("caughtalarm" == 1) && ("caughtabort" == 1))%pt [Return PTS_PASS] [Return PTS_FAIL]]);
   ("handler_abrt", ["caughtabort" ::= "caughtabort" + 1]);
   ("handler_alrm", ["caughtalarm" ::= "caughtalarm" + 1])].

Definition twoptimers : sprog := SProg
  [("main",
    [U (clock_gettime CLOCK_REALTIME (ts "ts")); set_ "pid" fork;
     If ("pid" == 0)%pt
       ["flags" ::= 0; "set" ::= 0; "set" ::= add_sig "set" SIGABRT;
        U (timer_create CLOCK_REALTIME SIGEV_SIGNAL SIGABRT 0 (LVar "tid"));
        "its.it_value.tv_sec" ::= "ts.tv_sec" + 3; "its.it_value.tv_nsec" ::= "ts.tv_nsec";
        "its.it_interval.tv_sec" ::= 0; "its.it_interval.tv_nsec" ::= 0;
        "flags" ::= eor "flags" TIMER_ABSTIME; U (timer_settime "tid" "flags" (its "its") []);
        Um (sigwait "set" (LVar "sig")); ignore (sleep 5); Return 1]
       ["flags" ::= 0; "set" ::= 0; "set" ::= add_sig "set" SIGALRM;
        U (timer_create CLOCK_REALTIME SIGEV_SIGNAL SIGALRM 0 (LVar "tid"));
        "its.it_value.tv_sec" ::= "ts.tv_sec" + 3; "its.it_value.tv_nsec" ::= "ts.tv_nsec";
        "its.it_interval.tv_sec" ::= 0; "its.it_interval.tv_nsec" ::= 0;
        "flags" ::= eor "flags" TIMER_ABSTIME; U (timer_settime "tid" "flags" (its "its") []);
        Um (sigwait "set" (LVar "sig")); Um (wait [LVar "i"]);
        If (WEXITSTATUS "i") [Return PTS_PASS] [Return PTS_FAIL]]])].

(** ** Message queues *)

(** The messages that are sent; what follows the strings in memory is taken to be zeros. *)
Definition send_rev_1_s_msg_ptr : list Z := text <$> ["msg test 1"; "msg test 2"; "msg test 3"].

(** The buffers that are filled are only printed: one variable stands for them. *)
Definition send_rev_1 : sprog := SProg
  [("main",
    [set_ "mq" (mq_create (text "/testmsg") (eor O_CREAT O_RDWR) 3 128); ret_if ("mq" == -1)%pt PTS_UNRESOLVED;
     set_ "pid" fork;
     If ("pid" != 0)%pt
       [ignore (mq_getattr "mq" [LVar "attr.mq_flags"; LVar "attr.mq_maxmsg"; LVar "attr.mq_msgsize"; LVar "attr.mq_curmsgs"]);
        "i" ::= 0;
        While ("i" < 3)%pt
          [set_ (LLoc "rc") (mq_send "mq" (at_ send_rev_1_s_msg_ptr "i") "attr.mq_msgsize" 1);
           If (Loc "rc" == -1)%pt
             [ignore (mq_close "mq"); ignore (mq_unlink (text "/testmsg")); Return PTS_UNRESOLVED]
             [];
           "i" ::= "i" + 1];
        ignore (wait [])]
       [ignore (mq_getattr "mq" [LVar "attr.mq_flags"; LVar "attr.mq_maxmsg"; LVar "attr.mq_msgsize"; LVar "attr.mq_curmsgs"]);
        "i" ::= 0;
        While ("i" < 3)%pt
          [set_ (LLoc "rc") (mq_receive "mq" "r_msg_ptr" "attr.mq_msgsize" []);
           If (Loc "rc" == -1)%pt
             [ignore (mq_close "mq"); ignore (mq_unlink (text "/testmsg")); Return PTS_UNRESOLVED]
             [];
           "i" ::= "i" + 1]];
     ignore (mq_close "mq"); ignore (mq_unlink (text "/testmsg")); Return PTS_PASS])].

(** ** All *)

(** The tests that pass on an ideal system. *)
Definition functional_tests : list sprog := [invaliddates; twopsetclock; twoevtimers; send_rev_1].
