(* ===== verification/OsPasses.v ===== *)
(** * The tests of processes, signals, time, queues, semaphores, files and memory on an ideal system

    All schedules of each test, on a prompt system that behaves as the standard says. *)

From stdpp Require Import base tactics numbers list gmap strings.
From S2P Require Import Prelude CLang Explore Runs OsLang OsState OsConf OsSem OsTimeTests OsSignalTests OsMqTests OsSemTests OsAioTests OsMemoryTests OsSchedTests OsFunctionalTests.

Lemma time_tests_pass : Forall (λ p, always_ends os_ideal p PASS) time_tests.
Proof. by_search. Qed.

Lemma signal_tests_pass : Forall (λ p, always_ends os_ideal p PASS) signal_tests.
Proof. by_search. Qed.

Lemma mq_tests_pass : Forall (λ p, always_ends os_ideal p PASS) mq_tests.
Proof. by_search. Qed.

Lemma sem_tests_pass : Forall (λ p, always_ends os_ideal p PASS) sem_tests.
Proof. by_search. Qed.

Lemma aio_tests_pass : Forall (λ p, always_ends os_ideal p PASS) aio_tests.
Proof. by_search. Qed.

Lemma memory_tests_pass : Forall (λ p, always_ends os_ideal p PASS) memory_tests.
Proof. by_search. Qed.

Lemma functional_tests_pass : Forall (λ p, always_ends os_ideal p PASS) functional_tests.
Proof. by_search. Qed.

Lemma sched_tests_pass : Forall (λ p, always_ends os_ideal p PASS) sched_tests.
Proof. by_search. Qed.
