(* ===== verification/OsSuite.v ===== *)
(** * What the tests of processes, signals, time, queues, semaphores, files and memory show

    All 405 tests pass on an ideal system, and they find its faults; on a system that
    may delay processes some of them fail. A few judge wrongly on every system. *)

From stdpp Require Import base tactics numbers list gmap strings.
From S2P Require Import Prelude CLang Explore Runs OsLang OsState OsConf OsSem OsTimeTests OsSignalTests OsMqTests OsSemTests OsAioTests OsMemoryTests OsSchedTests OsFunctionalTests OsPasses.

Open Scope Z_scope.

Definition os_suite : list sprog := time_tests ++ signal_tests ++ mq_tests ++ sem_tests ++ aio_tests ++
  memory_tests ++ sched_tests ++ functional_tests.

(** The test that finds a fault. *)
Definition finder (f : ofault) : sprog :=
  match f with
  | Sound => nanosleep_1_1
  | Sleep_short => nanosleep_2_1
  | Sleep_deaf => nanosleep_1_3
  | Sleep_amnesia => nanosleep_7_2
  | Nsec_unchecked => nanosleep_5_1
  | Timer_never => timer_settime_1_1
  | Timer_once => timer_settime_8_4
  | Timer_relative => timer_settime_5_1
  | Kill_nothing => killpg_1_1
  | Mask_ignored => pthread_sigmask_4_1
  | Suspend_keeps => sigsuspend_4_1
  | Queue_merges => sigqueue_4_1
  | Queue_reverse => sigwaitinfo_2_1
  | Value_lost => sigwaitinfo_7_1
  | Mq_fifo => mq_receive_8_1
  | Mq_unbounded => mq_send_12_1
  | Mq_timeless => mq_timedreceive_18_1
  | Mq_notify_twice => mq_notify_4_1
  | Sem_free => sem_wait_7_1
  | Wait_nothing => nanosleep_3_2
  | Clock_stuck => clock_settime_1_1
  | Sem_stuck => sem_post_5_1
  | Excl_ignored => shm_open_22_1
  | Trunc_ignored => shm_open_25_1
  | Umask_ignored => shm_open_18_1
  | Unlink_nothing => shm_unlink_1_1
  | Shared_private => mmap_7_1
  | Private_shared => mmap_7_2
  | Prot_ignored => mmap_6_1
  | Munmap_nothing => munmap_1_1
  | Aio_place => aio_read_1_1
  | Aio_nothing => aio_write_1_1
  | Aio_lenient => aio_read_10_1
  | Lio_returns => lio_listio_1_1
  | Aio_stuck => aio_suspend_3_1
  | Cancel_all => aio_cancel_2_1
  | Sched_nothing => sched_setscheduler_4_1
  | Sched_lenient => sched_setparam_23_1
  end.

(** Tests that count on delays. *)
Definition os_late_tests : list sprog :=
  [nanosleep_1_2; nanosleep_1_3; nanosleep_3_1; nanosleep_5_2; nanosleep_7_1; nanosleep_7_2;
   clock_nanosleep_1_3; clock_nanosleep_1_4; clock_nanosleep_2_2; clock_nanosleep_2_3;
   clock_nanosleep_9_1; clock_nanosleep_10_1; clock_settime_4_1; clock_settime_4_2;
   clock_settime_5_1; clock_settime_5_2; clock_settime_7_1; clock_settime_7_2; clock_settime_8_1;
   timer_create_1_1; timer_create_7_1; timer_settime_1_1; timer_settime_1_2; timer_settime_3_2;
   timer_settime_5_1; timer_settime_5_2; timer_settime_5_3; timer_settime_8_2; timer_settime_8_3;
   timer_gettime_1_1; timer_gettime_1_2; timer_gettime_1_3; timer_gettime_2_2; timer_gettime_3_1;
   timer_getoverrun_1_1; timer_delete_1_1; kill_1_2; sigsuspend_1_1; sigsuspend_4_1; sigpause_1_1;
   sigpause_1_2; pthread_kill_1_1; mq_open_2_1; mq_open_7_2; mq_open_8_2; mq_open_9_2;
   mq_notify_5_1; mq_timedsend_5_2; mq_timedsend_5_3; mq_timedsend_15_1; mq_timedsend_16_1;
   mq_timedsend_20_1; mq_timedreceive_5_1; mq_timedreceive_5_2; mq_timedreceive_5_3;
   mq_timedreceive_8_1; mq_timedreceive_18_1; mq_timedreceive_18_2; sem_wait_7_1; sem_timedwait_9_1;
   sem_post_6_1; fork_1_1; fork_9_1].

(** Tests that do not. *)
Definition os_timeless_tests : list sprog :=
  [nanosleep_1_1; nanosleep_2_1; nanosleep_3_2; nanosleep_5_1; nanosleep_6_1; nanosleep_10000_1;
   clock_nanosleep_1_1; clock_nanosleep_1_5; clock_nanosleep_2_1; clock_nanosleep_3_1;
   clock_nanosleep_11_1; clock_nanosleep_13_1; clock_gettime_1_1; clock_gettime_1_2;
   clock_gettime_2_1; clock_gettime_3_1; clock_gettime_7_1; clock_gettime_8_1; clock_gettime_8_2;
   clock_getres_1_1; clock_getres_3_1; clock_getres_5_1; clock_getres_6_1; clock_getres_6_2;
   time_1_1; clock_settime_1_1; clock_settime_6_1; clock_settime_17_1; clock_settime_17_2;
   clock_settime_19_1; clock_settime_20_1; timer_create_3_1; timer_create_16_1; timer_settime_3_1;
   timer_settime_3_3; timer_settime_8_1; timer_settime_9_1; timer_settime_9_2; timer_settime_13_1;
   timer_gettime_2_1; timer_delete_1_2; killpg_1_1; killpg_2_1; killpg_4_1; killpg_5_1; killpg_6_1;
   killpg_8_1; sigqueue_2_1; sigqueue_2_2; sigqueue_4_1; sigqueue_5_1; sigqueue_6_1; sigqueue_7_1;
   sigqueue_8_1; sigqueue_10_1; sigqueue_11_1; sigwait_1_1; sigwait_2_1; sigwait_3_1; sigwait_4_1;
   sigwait_7_1; sigwait_8_1; sigwaitinfo_1_1; sigwaitinfo_2_1; sigwaitinfo_5_1; sigwaitinfo_6_1;
   sigwaitinfo_7_1; sigwaitinfo_8_1; sigwaitinfo_9_1; sigtimedwait_4_1; sigtimedwait_5_1;
   sigtimedwait_6_1; sigsuspend_3_1; sigpause_4_1; pthread_kill_2_1; pthread_kill_3_1;
   pthread_kill_7_1; pthread_sigmask_4_1; pthread_sigmask_5_1; pthread_sigmask_6_1;
   pthread_sigmask_9_1; pthread_sigmask_10_1; pthread_sigmask_14_1; pthread_sigmask_15_1;
   mq_open_7_1; mq_open_8_1; mq_open_9_1; mq_open_19_1; mq_open_20_1; mq_open_21_1; mq_open_25_2;
   mq_close_3_1; mq_close_3_2; mq_close_3_3; mq_close_4_1; mq_unlink_7_1; mq_setattr_5_1;
   mq_notify_1_1; mq_notify_2_1; mq_notify_3_1; mq_notify_4_1; mq_notify_8_1; mq_notify_9_1;
   mq_send_4_3; mq_send_9_1; mq_send_11_1; mq_send_11_2; mq_send_13_1; mq_send_14_1; mq_receive_5_1;
   mq_receive_8_1; mq_receive_11_1; mq_receive_11_2; mq_timedsend_1_1; mq_timedsend_2_1;
   mq_timedsend_3_1; mq_timedsend_3_2; mq_timedsend_4_1; mq_timedsend_4_2; mq_timedsend_4_3;
   mq_timedsend_8_1; mq_timedsend_9_1; mq_timedsend_10_1; mq_timedsend_11_1; mq_timedsend_11_2;
   mq_timedsend_13_1; mq_timedsend_14_1; mq_timedsend_18_1; mq_timedsend_19_1; mq_timedreceive_1_1;
   mq_timedreceive_2_1; mq_timedreceive_7_1; mq_timedreceive_10_1; mq_timedreceive_10_2;
   mq_timedreceive_11_1; mq_timedreceive_13_1; mq_timedreceive_14_1; mq_timedreceive_15_1;
   mq_timedreceive_17_1; mq_timedreceive_17_2; mq_timedreceive_17_3; sem_init_3_1; sem_destroy_3_1;
   sem_open_2_2; sem_open_15_1; sem_close_3_2; sem_unlink_4_2; sem_unlink_6_1;
   sem_unlink_7_1; sem_unlink_9_1; sem_wait_13_1; sem_timedwait_1_1; sem_timedwait_2_1;
   sem_timedwait_2_2; sem_timedwait_3_1; sem_timedwait_4_1; sem_timedwait_6_1; sem_timedwait_6_2;
   sem_timedwait_7_1; sem_timedwait_10_1; sem_timedwait_11_1; sem_post_5_1; fork_3_1; fork_4_1;
   fork_12_1; fork_14_1; fork_19_1; sched_yield_2_1].


(** Faults for which no test fails under all schedules. *)
Definition undetected : list ofault := [Sound; Lio_returns; Aio_stuck; Cancel_all].

(** C6. For each of 34 faults of a system (sleeps that end early, do not end on a signal or
    forget the time left, timers that never expire, expire once or take absolute times as
    relative, signals that are lost, merged, reordered or not blocked, queues without
    priorities, limits or timeouts, semaphores that do not count, waits that do not
    wait, flags of open that have no effect, names that stay, mappings that are not shared,
    not private, not protected or not removed, asynchronous requests that transfer nothing
    or to the wrong place, bad control blocks that are accepted, scheduling parameters that are not checked or not set) there is a test that ends
    with PTS_FAIL under every schedule. *)
Theorem os_suite_detects : ∀ f, f ∉ undetected → always_ends (os_fault f) (finder f) FAIL.
Proof.
  intros f Hf. destruct f; try (exfalso; apply Hf; unfold undetected; set_solver);
    unfold finder; by_search.
Qed.

Lemma os_suite_detects_witness :
  Sem_stuck ∉ undetected ∧ always_ends (os_fault Sem_stuck) sem_post_5_1 FAIL.
Proof.
  assert (H : Sem_stuck ∉ undetected) by (unfold undetected; set_solver).
  split; [exact H|]. exact (os_suite_detects Sem_stuck H).
Defined.


(** C32. Tests that judge wrongly. Four of message queues are races on a conforming, prompt
    system: mq_open/16-1, mq_send/5-1 and mq_timedsend/5-1 fail under some schedules and
    pass under others, and mq_timedsend/12-1 is left unresolved under some. So do
    aio_suspend/1-1 and lio_listio/2-1, which expect that requests are not done yet;
    aio_fsync/4-2 asks for the result of a request that need not be done, which is undefined,
    and sem_unlink/4-1 always runs into undefined behaviour, as its name is not initialised.
    lio_listio/14-1 always fails, as it expects that a request that fails sends no signal.
    sigwaitinfo/3-1 waits for a signal that it has not blocked: it fails where the handler
    then runs, and passes where sigwaitinfo takes the signal. mmap/28-1 expects ENXIO for a mapping
    behind the end of an object: it fails where such a mapping is made, and where mmap fails
    with ENXIO it passes but mmap/11-2 and 11-3, which need the mapping, fail.
    sigqueue/7-1 passes on a system that delivers queued signals in the reverse order,
    sem_timedwait/2-1 on one where sem_post does nothing, and the tests of aio_cancel on one
    that cancels nothing; lio_listio/1-1 can pass on one where LIO_WAIT does not wait. Where
    aio_suspend does not return, aio_suspend/3-1 hangs. functional/timers/timers/twoptimers.c
    is always killed by its own timer, because it does not block the signals that it waits for. *)
Theorem os_verdicts :
  Forall (λ p, can_end os_ideal p FAIL ∧ can_end os_ideal p PASS)
    [mq_open_16_1; mq_send_5_1; mq_timedsend_5_1; aio_suspend_1_1; lio_listio_2_1] ∧
  (can_end os_ideal mq_timedsend_12_1 UNRESOLVED ∧ can_end os_ideal mq_timedsend_12_1 PASS) ∧
  (can_end os_ideal aio_fsync_4_2 UNDEFINED ∧ can_end os_ideal aio_fsync_4_2 PASS) ∧
  Forall (λ p, always_ends os_ideal p FAIL) [sigwaitinfo_3_1; lio_listio_14_1; mmap_28_1] ∧
  always_ends os_takes sigwaitinfo_3_1 PASS ∧ always_ends os_enxio mmap_28_1 PASS ∧
  Forall (λ p, always_ends os_enxio p FAIL) [mmap_11_2; mmap_11_3] ∧
  always_ends os_ideal sem_unlink_4_1 UNDEFINED ∧
  always_ends (os_fault Queue_reverse) sigqueue_7_1 PASS ∧
  always_ends (os_fault Sem_stuck) sem_timedwait_2_1 PASS ∧
  Forall (λ p, always_ends (os_fault Cancel_all) p PASS)
    [aio_cancel_1_1; aio_cancel_2_1; aio_cancel_2_2; aio_cancel_8_1; aio_cancel_9_1; aio_cancel_10_1] ∧
  (can_end (os_fault Lio_returns) lio_listio_1_1 PASS ∧ can_end (os_fault Lio_returns) lio_listio_1_1 FAIL) ∧
  hangs (os_fault Aio_stuck) aio_suspend_3_1 ∧
  always_ends os_ideal twoptimers (Some (128 + SIGALRM)).
Proof. split_and!; [repeat constructor|..]; by_search. Qed.
